(* ===== verification/_CoqProject ===== *)
-Q . S2P
Prelude.v
CMem.v
CString.v
UserRing.v
MqttRing.v
MqttProto.v
MqttMsg.v
MqttUtils.v
MqttClient.v
Board.v
I2c.v
HwTimer.v
Keys.v
UartReg.v
UserUart.v
Modbus.v
UartDriver.v
UartBuffer.v
UartTask.v
SmartConfig.v
TcpClient.v
UdpServer.v
UserNet.v
App.v
MqttConfig.v
Wifi.v
MqttApp.v
IotLight.v
IotPlug.v
IotTimer.v
IotControl.v
IotHttp.v
IotJson.v
IotWeb.v
IotCloud.v
IotFind.v
IotMain.v
IotCloudLaws.v
SdioSlave.v
SdioLaws.v
Dhcps.v
DhcpsHeap.v
DhcpsTable.v
DhcpsRange.v
DhcpsLaws.v
