(* ===== verification/Prelude.v ===== *)
(** * A verification of the InledcoElectronic ESP8266 firmware

    The repository is the ESP8266 NON-OS SDK 2.1.0 with one application,
    src/app: a serial-to-cloud bridge that carries Modbus RTU frames between
    UART0 and the Xlink cloud (TCP) or a phone (UDP).  The SDK itself comes as
    binary libraries.  This development models the C code that is there in
    source: the application and its drivers; of the examples the MQTT client
    (src/examples/esp_mqtt_proj), the whole IoT demo for the lamp
    (src/examples/IoT_Demo), the SDIO slave of the AT firmware
    (src/examples/at_sdio) and the DHCP server of the access point
    (src/examples/lwip_open_src_template_proj).

    ** How the code is modelled

    A w-bit integer is a [Z] and every conversion truncates explicitly ([u8],
    [u16], [u32], [i32], [int_ok] below).  Code that may be undefined in C (an
    access outside a block, a [memcpy] between overlapping regions, a null
    pointer, a division by zero) is a partial function: [None] is undefined
    behaviour, so that [f s = Some _] always says "and nothing undefined happens
    on the way".  Stateful code is a computation [SM S A] over its state; [wp]
    (Board.v) is its total-correctness triple, [lp] the partial one.

    What an SDK call or a peripheral register answers is not in the repository.
    It is an environment [Env], an arbitrary function of everything the firmware
    did before; what the firmware does (register writes, SDK calls with their
    arguments) is recorded in a log in the state.  A theorem therefore holds for
    every behaviour of the hardware and of the SDK, except where it names an
    assumption on them: [TxDrains] (the UART transmitter does not stay full for
    more than a given number of polls), [reads_back] (a register reads as
    written), [Alloc] (a fresh block is fresh), [ByteQueue] and so on.  Callbacks
    the SDK makes are steps of their own, in any order.

    ** The parts

    - Prelude.v: integers, lists, record update, the monad.  CMem.v: blocks,
      pointers, [memcpy], [memset].  CString.v: C strings, [strstr], [atoi].  Board.v: the log, the environment, the
      register macros of include/eagle_soc.h, gpio.h and ets_sys.h, timers, the
      composition of components ([Part]: a component's variables inside a bigger
      state; [Apart]: two that do not touch).
    - The application, src/app/user: UserRing.v (user_ringbuffer.c), UserUart.v
      (user_uart.c), Modbus.v (modbus.c), SmartConfig.v (user_smartconfig.c),
      TcpClient.v (user_tcp_client.c), UdpServer.v (user_udp_server.c), UserNet.v
      (user_net.c, user_key.c, user_main.c).  App.v joins them: one state for
      all static variables, the calls through installed function pointers
      resolved, and theorems about the whole.
    - The drivers, src/app/driver: Keys.v (key.c), I2c.v (i2c_master.c, and its
      client in IoT_Demo/user/user_sensor.c), HwTimer.v (hw_timer.c), and
      UartReg.v, UartDriver.v, UartBuffer.v, UartTask.v (uart.c with
      uart_register.h and uart.h).
    - The MQTT client, src/examples/esp_mqtt_proj/mqtt: MqttRing.v (ringbuf.c),
      MqttProto.v (proto.c, queue.c), MqttMsg.v (mqtt_msg.c), MqttUtils.v
      (utils.c), MqttClient.v (mqtt.c).
    - The MQTT example around it: MqttConfig.v (modules/config.c), Wifi.v
      (modules/wifi.c), and MqttApp.v (user/user_main.c), which joins them: the
      start from the stored configuration, the callbacks, one state for all.
    - The IoT demo, src/examples/IoT_Demo/user: IotLight.v (user_light.c,
      user_light_adj.c), IotPlug.v (user_plug.c), IotTimer.v
      (user_esp_platform_timer.c), IotControl.v (the requests about the light in
      user_esp_platform.c), and the web server user_webserver.c: IotHttp.v
      (requests, answers, firmware images), IotJson.v (its JSON trees, with
      user_json.c), IotWeb.v (which request does what).  IotCloud.v is the cloud
      client (the rest of user_esp_platform.c), IotFind.v the search for devices
      (user_devicefind.c); IotMain.v joins everything into one state with one
      list of events (user_main.c), and IotCloudLaws.v says what the cloud
      client does.
    - The SDIO slave, src/examples/at_sdio: SdioSlave.v (driver/sdio_slv.c, the
      start and the AT calls of user/user_main.c) and SdioLaws.v (the host and
      the chip's descriptor engine as assumptions, and the theorems).
    - The DHCP server, src/examples/lwip_open_src_template_proj/lwip/app/dhcpserver.c:
      Dhcps.v (every function, on list nodes and entries that are allocated and
      freed), DhcpsHeap.v (the linked list in the two stores), DhcpsTable.v (the
      table of leases as a plain sorted list, and that the code implements it),
      DhcpsRange.v (addresses in network order and the ranges), DhcpsLaws.v
      (sessions, messages, time, failures).

    A definition has the name of the C function it translates; a record has the
    fields of the C struct (or the static variables of the file).  Loops are
    structural recursions or take fuel.

    ** What the theorems show

    - The bridge.  [App.app_init_ready]: start-up connects all callbacks and
      ends in a state the other theorems start from.
      [App.frame_reaches_network], [App.network_reaches_serial]: a frame with a
      right CRC goes through, whole and once, in either direction (with what the
      ring does to it when there is no room); a damaged one
      goes nowhere.  [TcpClient.tcp_client_alive]: in no order of callbacks, with
      the rest of the firmware in between, does
      the client get stuck outside smartconfig; [App.smartconfig_stalls_client]:
      after a smartconfig session it can.  [UdpServer.udp_reply_returns]: a
      reply goes to the sender.
    - Queues.  [UserRing.user_rb_refines_fifo], [UartBuffer.tx_buffer_refines_queue],
      [UartBuffer.rx_buffer_lossless], [MqttProto.QUEUE_refines_message_fifo]:
      the four ring buffers against a queue (that of the UART from its creation by
      the first write on, if that fits), with the cases where each of them
      loses data stated as theorems too ([UserRing.user_rb_put_spec],
      [TcpClient.user_tcp_send_loop_spec]).
    - Framing and encoding.  The Modbus CRC against the bitwise CRC-16 and the
      errors it detects; [MqttProto.PROTO_Add_Parse_roundtrip]; the MQTT packets
      against the inspectors and against the layout of the standard.
    - Drivers.  [Keys.keys_never_deaf]: an invariant of the key driver under all
      interleavings of interrupts and timers; [I2c.user_mvh3004_burst_read_spec]:
      the levels on the two lines decode to the intended bus transaction;
      [HwTimer.hw_timer_arm_spec]: no bit is lost in the tick computation.
    - The MQTT client.  [MqttClient.mqtt_client_progress] (every handler is
      defined on the inputs [input_ok] describes and keeps the invariant),
      [MqttClient.lookup_after_delete] (an input it excludes, and why),
      [MqttClient.mqtt_transitions] (the state
      machine), and what connecting, publishing, sending, receiving, keep-alive
      and reconnecting do; [MqttClient.mqtt_recv_endless] is the exception.
    - The MQTT example.  [MqttConfig.config_survives_power_failure]: a power
      failure at any point of a save leaves the old or the new configuration;
      [Wifi.wifi_polls_report]: every change of the station is reported once;
      [MqttApp.mqtt_app_start], [MqttApp.mqtt_app_alive]: the program starts from
      any flash contents and then runs on without undefined behaviour, as long as
      the events are those [MqttApp.allowed] admits: above all every PUBLISH brings
      its whole topic; [MqttApp.cut_topic_crashes]: if one
      does not, the program reads through a null pointer.

    - The IoT demo.  [IotLight.light_shows_saved], [IotLight.light_follows]: the
      lamp takes every colour it is told, whatever it was told before, shows those
      in the range of the PWM driver within 250 ticks, and its queue never
      refuses one; [IotLight.light_dim_stuck]: the saved colours for which it
      does not.  [IotControl.cloud_sets_lamp]: from the cloud's message to the
      colour and the answer.  [IotPlug.plug_state_survives]: the relay after a restart.
      [IotTimer.timers_schedule]: from the server's text to the SDK timer;
      [IotTimer.long_wait]: hours and milliseconds;
      [IotTimer.timer_callback_dangling], [IotTimer.timer_due_now_stops_all]: the
      timer gets the address of a dead object, or is not started at all.
    - Its web server.  [IotHttp.parse_print_url]: the request line;
      [IotHttp.upgrade_image_whole]: an image reaches the flash whole, however
      the connection cuts it behind the head of the request; [IotWeb.post_sets_lamp]: from the bytes of a
      request to the colour of the lamp and the one answer;
      [IotWeb.split_post_refused]: a request cut in two is lost.
    - Its cloud client and the whole demo.  [IotMain.demo_goes_on]: in
      every state the demo reaches by defined steps, what the client waits for can
      still happen and the function for it is defined, except that its search for
      an access point may hang (a partial statement: events that are undefined, for
      which see the theorems about messages and requests, end a run); [IotCloudLaws.cloud_message_sets_lamp],
      [IotCloudLaws.activation_saved], [IotCloudLaws.silent_cloud_dropped],
      [IotCloudLaws.ap_change_spec]: messages, activation, the missed beacons and
      the change of access point, whose search need not end;
      [IotCloudLaws.quiet_server_stalls]: a server that takes the connection and
      says nothing is waited for without end.
      [IotFind.search_answered]: a search is answered to the one who asked.
    - The SDIO slave.  [SdioLaws.sdio_stream]: what the host reads is a prefix of
      what the AT library wrote, no byte lost, doubled or out of order, as long as
      every write has a length;
      [SdioLaws.sdio_blocks]: the invariant of the descriptor chains and the send
      list; [SdioLaws.sdio_load_takes]: how much of a write is taken;
      [SdioLaws.sdio_receives]: the other direction;
      [SdioLaws.sdio_empty_load_wedges]: the empty write, when nothing waits, after
      which nothing is sent any more.
    - The DHCP server.  [DhcpsLaws.no_double_lease]: in every order of messages,
      timers, settings, starts and stops that [allowed] admits nothing is undefined,
      nothing leaks and no address is leased twice; [DhcpsLaws.requests_refine_grant]: the function
      that grants addresses against the table; [DhcpsLaws.discover_request_ack]:
      the exchange with a new station, to the bytes of the answers;
      [DhcpsLaws.leases_run_out]: time; [DhcpsLaws.static_below_range_doubles],
      [DhcpsLaws.long_datagram_overflows]: what lies outside the assumptions of
      the first theorem, and why they are there.

    ** Bounds and fuel

    Fuel bounds the polls of a UART status register ([tx_wait_write],
    [wait_fifo_empty], [output_finished]: any fuel above the bound of
    [TxDrains] is enough; for time-outs the caller chooses it), the 256 rounds of
    [drain_rx] (its counter has 8 bits), the 50001 rounds of the lock spin, the
    queue of colours ([queue_fuel], 41 rounds; it holds at most 40), the pieces
    of a string ([split], its length and one), the elements of a JSON text
    ([names], one more than there are), the parts of a JSON path, the access
    points tried in [ap_search], the rounds in which [sdio_load_data] fills
    descriptors (one more than there are bytes: each round takes at least one),
    the walks along the list of leases ([rounds], one more than there are nodes),
    the options of a DHCP message (one more than there are bytes: each option
    takes at least two),
    and the rounds of the MQTT receive loop
    ([mqtt_client_progress] gives the number that is enough,
    [mqtt_recv_endless] the input for which none is).

    ** Assumptions

    An interrupt handler runs as one step: preemption of the main program by a
    handler in the middle of a C function is not modelled.  Of the arguments of
    [os_printf] only the format is recorded.  [os_zalloc] of the two espconn
    protocol blocks and of the key records succeeds; of the Modbus buffer it is
    an input ([Alloc]).  What the flash reads is a function of the log ([Flash]);
    its documented behaviour is the class [NorFlash], of which MqttConfig.v has an
    instance; that of the PWM driver is the class [Pwm] of IotLight.v, that of the
    upgrade flag [UpgradeFlag] of IotHttp.v.  The JSON library of the SDK is a
    parameter ([JsonLib] of IotJson.v): the elements of a text, the order in which
    a tree is printed, the callbacks found in it.  In the IoT
    demo [os_zalloc] succeeds, and a local variable whose address escapes is an
    object of a store for as long as it lives (IotTimer.v).  The timer log says
    which timers were armed; that a one-shot timer stops by firing is the SDK's
    doing.  The receive buffer of the application is one object, which the UART
    driver and Modbus share.  For the IoT demo as a whole the flash keeps
    what is written ([Kept]), the MAC addresses have six bytes ([good_macs]), and
    the SDK calls back only where a callback is installed; where a theorem needs
    them these are hypotheses.  For the SDIO slave the descriptor engine behaves
    as the class [Slc] says (the status word is kept, the start bits read as 0, a
    transfer of the host sets its interrupt bit); in one window in which
    interrupts are enabled the host reads at most four blocks ([few_reads]), and
    [can_malloc] says that the start gets its list nodes.  For the DHCP server
    the allocator has room ([roomy]), lwIP has control blocks and pbufs ([pcbs],
    [pbufs]), [wifi_softap_dhcps_status] tells whether the server runs
    ([status_right]); [allowed] says which events its invariant withstands: a
    datagram of at most 543 bytes, a reported address that is none, the broadcast
    address or in the range, a range whose end is not a .255.

    ** Not modelled

    lwIP (vendored third-party code under examples/lwip_open_src_template_proj,
    of which only the byte order functions the DHCP server calls are here);
    of IoT_Demo the variants of the web server and the cloud client for the plug
    and the sensors (compiled out for the lamp; the plug's own file is IotPlug.v)
    and the current limit of the light ([LIGHT_CURRENT_LIMIT], switched off); of
    at_sdio the counters and prints under [SDIO_DEBUG]; the remaining examples,
    which are demonstrations of single SDK calls; [uart_buf_free], which gives
    storage back to the SDK and has no caller; the binary SDK and the binary
    Xlink library, of which only the headers exist. *)

From stdpp Require Export base option list numbers.
From Stdlib Require Export ZArith Lia Bool.

#[global] Open Scope Z_scope.

(** ** Machine integers

    A w-bit C integer is a [Z]; conversions truncate explicitly. *)

Definition u8 (z : Z) : Z := z mod 256.
Definition u16 (z : Z) : Z := z mod 65536.
Definition u32 (z : Z) : Z := z mod 4294967296.
(** Conversion to a signed type keeps the low bits and reads them in two's complement. *)
Definition i8 (z : Z) : Z := (z + 128) mod 256 - 128.
Definition i16 (z : Z) : Z := (z + 32768) mod 65536 - 32768.
Definition i32 (z : Z) : Z := (z + 2147483648) mod 4294967296 - 2147483648.

(** The value of an [int] expression; a sum or shift that leaves [int] is undefined. *)
Definition int_ok (z : Z) : option Z := if (-2147483648 <=? z) && (z <? 2147483648) then Some z else None.

Definition is_byte (z : Z) : Prop := 0 <= z < 256.
Definition is_u16 (z : Z) : Prop := 0 <= z < 65536.
Definition is_u32 (z : Z) : Prop := 0 <= z < 4294967296.

(** The elements of a concrete list. *)
Ltac bytes_tac := cbn; repeat (apply Forall_cons_2; [try (unfold is_byte, is_u16; lia); try done|]); apply Forall_nil_2.

(** A C truth value. *)
Definition b2z (b : bool) : Z := if b then 1 else 0.

(** ** Automation *)

(** Turn boolean tests of the code into propositions, then linear arithmetic. *)
Ltac zbool :=
  repeat match goal with
  | H : context [(?a <=? ?b)%Z] |- _ => destruct (Z.leb_spec a b)
  | H : context [(?a <? ?b)%Z] |- _ => destruct (Z.ltb_spec a b)
  | H : context [(?a =? ?b)%Z] |- _ => destruct (Z.eqb_spec a b)
  | |- context [(?a <=? ?b)%Z] => destruct (Z.leb_spec a b)
  | |- context [(?a <? ?b)%Z] => destruct (Z.ltb_spec a b)
  | |- context [(?a =? ?b)%Z] => destruct (Z.eqb_spec a b)
  end; cbn [andb orb negb] in *.

(** Case analysis on the tests a hypothesis [H : test = Some _] went through. *)
Ltac zinv H := zbool; try (injection H as H); subst; try discriminate; try lia.

(** Linear arithmetic with quotients and remainders by constants. *)
Ltac dlia := Z.to_euclidean_division_equations; lia.

(** Decide one boolean test of the goal by arithmetic. *)
Ltac ztrue e := replace e with true by (symmetry; rewrite ?andb_true_iff, ?orb_true_iff, ?Z.leb_le, ?Z.ltb_lt, ?Z.eqb_eq; lia).
Ltac zfalse e := replace e with false by (symmetry; rewrite ?andb_false_iff, ?orb_false_iff, ?Z.leb_gt, ?Z.ltb_ge, ?Z.eqb_neq; lia).

Lemma int_ok_small z : -2147483648 <= z < 2147483648 -> int_ok z = Some z.
Proof. intros. unfold int_ok. ztrue (-2147483648 <=? z). by ztrue (z <? 2147483648). Qed.

Lemma u8_small z : 0 <= z < 256 -> u8 z = z.
Proof. intros. apply Z.mod_small. lia. Qed.
Lemma u16_small z : 0 <= z < 65536 -> u16 z = z.
Proof. intros. apply Z.mod_small. lia. Qed.
Lemma u32_small z : 0 <= z < 4294967296 -> u32 z = z.
Proof. intros. apply Z.mod_small. lia. Qed.
Lemma i16_small z : -32768 <= z < 32768 -> i16 z = z.
Proof. intros. unfold i16. rewrite Z.mod_small; lia. Qed.
Lemma i32_small z : -2147483648 <= z < 2147483648 -> i32 z = z.
Proof. intros. unfold i32. rewrite Z.mod_small; lia. Qed.
Lemma u8_range z : 0 <= u8 z < 256.
Proof. apply Z.mod_pos_bound. lia. Qed.
Lemma u16_range z : 0 <= u16 z < 65536.
Proof. apply Z.mod_pos_bound. lia. Qed.
Lemma u32_range z : 0 <= u32 z < 4294967296.
Proof. apply Z.mod_pos_bound. lia. Qed.

Create Rewrite HintDb mach.
#[export] Hint Rewrite u8_small u16_small u32_small i16_small i32_small using lia : mach.
Create HintDb mach_range.
#[export] Hint Resolve u8_range u16_range u32_range : mach_range.

(** ** Lists indexed by integers *)

Definition zlen {A} (l : list A) : Z := Z.of_nat (length l).
Definition nthZ (l : list Z) (i : Z) : Z := nth (Z.to_nat i) l 0.

(** The list [f 0, ..., f (n-1)]. *)
Definition tab (n : Z) (f : Z -> Z) : list Z := (λ i : nat, f (Z.of_nat i)) <$> seq 0 (Z.to_nat n).

Lemma zlen_nonneg {A} (l : list A) : 0 <= zlen l.
Proof. unfold zlen. lia. Qed.
Lemma zlen_nil {A} : zlen (@nil A) = 0.
Proof. reflexivity. Qed.
Lemma zlen_cons {A} (x : A) l : zlen (x :: l) = 1 + zlen l.
Proof. unfold zlen. simpl length. lia. Qed.
Lemma zlen_app {A} (l k : list A) : zlen (l ++ k) = zlen l + zlen k.
Proof. unfold zlen. rewrite length_app. lia. Qed.
Lemma zlen_take {A} n (l : list A) : zlen (take (Z.to_nat n) l) = Z.max 0 (Z.min n (zlen l)).
Proof. unfold zlen. rewrite length_take. lia. Qed.
Lemma zlen_drop {A} n (l : list A) : zlen (drop (Z.to_nat n) l) = Z.max 0 (zlen l - Z.max 0 n).
Proof. unfold zlen. rewrite length_drop. lia. Qed.
Lemma zlen_tab n f : zlen (tab n f) = Z.max 0 n.
Proof. unfold zlen, tab. rewrite length_fmap, length_seq. lia. Qed.
Lemma zlen_replicate {A} n (x : A) : zlen (replicate (Z.to_nat n) x) = Z.max 0 n.
Proof. unfold zlen. rewrite length_replicate. lia. Qed.

Create Rewrite HintDb zlist.
Lemma drop_zlen_app {A} (a b : list A) : drop (Z.to_nat (zlen a)) (a ++ b) = b.
Proof. unfold zlen. by rewrite Nat2Z.id, drop_app_length. Qed.
#[export] Hint Rewrite @zlen_nil @zlen_cons @zlen_app @zlen_take @zlen_drop zlen_tab @zlen_replicate : zlist.

(** [zlia]: arithmetic over list lengths. *)
Ltac zlia := autorewrite with zlist in *; try lia.

Lemma zlen_0_nil {A} (l : list A) : zlen l = 0 -> l = [].
Proof. destruct l; [done|]. rewrite zlen_cons. pose proof (zlen_nonneg l). lia. Qed.

Lemma nthZ_byte buffer i : Forall is_byte buffer -> is_byte (nthZ buffer i).
Proof.
  intros H. unfold nthZ. destruct (nth_in_or_default (Z.to_nat i) buffer 0) as [Hi| ->]; [|unfold is_byte; lia].
  rewrite Forall_forall in H. by apply H.
Qed.

Lemma nthZ_tab n f i : 0 <= i < n -> nthZ (tab n f) i = f i.
Proof.
  intros Hi. unfold nthZ, tab.
  rewrite (nth_indep _ 0 (f (Z.of_nat 0))) by (rewrite length_fmap, length_seq; lia).
  rewrite (map_nth (λ i : nat, f (Z.of_nat i))), seq_nth by lia.
  f_equal. lia.
Qed.

Lemma nthZ_app l k i :
  0 <= i -> nthZ (l ++ k) i = if i <? zlen l then nthZ l i else nthZ k (i - zlen l).
Proof.
  intros Hi. unfold nthZ, zlen. destruct (Z.ltb_spec i (Z.of_nat (length l))).
  - rewrite app_nth1 by lia. done.
  - rewrite app_nth2 by lia. f_equal. lia.
Qed.

Lemma nthZ_cons_0 x l : nthZ (x :: l) 0 = x.
Proof. reflexivity. Qed.
Lemma nthZ_cons_S x l i : 0 <= i -> nthZ (x :: l) (1 + i) = nthZ l i.
Proof. intros. unfold nthZ. replace (Z.to_nat (1 + i)) with (S (Z.to_nat i)) by lia. done. Qed.

Lemma nth_drop_default (l : list Z) k n : nth k (drop n l) 0 = nth (n + k) l 0.
Proof.
  revert n; induction l as [|x l IH]; intros [|n]; simpl; try done.
  by destruct k.
Qed.

Lemma nthZ_drop l n i : 0 <= n -> 0 <= i -> nthZ (drop (Z.to_nat n) l) i = nthZ l (n + i).
Proof. intros. unfold nthZ. rewrite nth_drop_default. f_equal. lia. Qed.

Lemma nthZ_take l n i : 0 <= i < n -> nthZ (take (Z.to_nat n) l) i = nthZ l i.
Proof.
  intros. unfold nthZ. rewrite nth_firstn. destruct (Nat.ltb_spec (Z.to_nat i) (Z.to_nat n)); [done|lia].
Qed.

Lemma nthZ_replicate n v i : 0 <= i < n -> nthZ (replicate (Z.to_nat n) v) i = v.
Proof.
  intros. unfold nthZ.
  apply nth_lookup_Some. apply lookup_replicate_2. lia.
Qed.

Lemma list_ext_nthZ (l k : list Z) :
  zlen l = zlen k -> (forall i, 0 <= i < zlen l -> nthZ l i = nthZ k i) -> l = k.
Proof.
  intros Hlen Hi. apply (nth_ext l k 0 0); [unfold zlen in *; lia|].
  intros n Hn. specialize (Hi (Z.of_nat n)). unfold nthZ, zlen in Hi.
  rewrite Nat2Z.id in Hi. apply Hi. lia.
Qed.

Lemma tab_ext n f g : (forall i, 0 <= i < n -> f i = g i) -> tab n f = tab n g.
Proof.
  intros H. apply list_ext_nthZ; [zlia|]. intros i Hi. zlia.
  rewrite !nthZ_tab by lia. apply H. lia.
Qed.

Lemma tab_nthZ l : tab (zlen l) (nthZ l) = l.
Proof.
  apply list_ext_nthZ; [zlia; pose proof (zlen_nonneg l); lia|].
  intros i Hi. zlia. rewrite nthZ_tab by lia. done.
Qed.

Lemma tab_app m k f : 0 <= m -> 0 <= k -> tab (m + k) f = tab m f ++ tab k (λ i, f (m + i)).
Proof.
  intros. apply list_ext_nthZ; [zlia|]. intros i Hi. zlia.
  rewrite nthZ_tab, nthZ_app by lia. zlia.
  destruct (Z.ltb_spec i (Z.max 0 m)); rewrite nthZ_tab by lia; f_equal; lia.
Qed.

Lemma tab_0 n f : n <= 0 -> tab n f = [].
Proof. intros. apply zlen_0_nil. zlia. Qed.

Lemma tab_snoc n f : 0 <= n -> tab (n + 1) f = tab n f ++ [f n].
Proof.
  intros. rewrite tab_app by lia. f_equal. unfold tab. simpl. f_equal. f_equal. lia.
Qed.

Lemma tab_cons n f : 0 <= n -> tab (1 + n) f = f 0 :: tab n (λ i, f (1 + i)).
Proof. intros. rewrite tab_app by lia. done. Qed.

(** [slist]: prove two lists of bytes equal index by index. *)
Ltac slist := apply list_ext_nthZ; [zlia | let i := fresh "i" in let Hi := fresh "Hi" in intros i Hi; zlia].

(** [if( sz > len ) sz = len;] *)
Lemma clamp_min len sz : (if len <? sz then len else sz) = Z.min len sz.
Proof. zbool; lia. Qed.

(** ** Circular indices

    The cell of a ring of [sz] cells that lies [i] places after [p]. *)
Definition ring_ix (sz p i : Z) : Z := if p + i <? sz then p + i else p + i - sz.

Lemma ring_ix_range sz p i : 0 <= p < sz -> 0 <= i <= sz -> 0 <= ring_ix sz p i < sz \/ (p = 0 /\ i = sz).
Proof. intros. unfold ring_ix. zbool; lia. Qed.

Lemma ring_ix_mod sz p i : 0 <= p < sz -> 0 <= i < sz -> ring_ix sz p i = (p + i) mod sz.
Proof.
  intros. unfold ring_ix. zbool.
  - rewrite Z.mod_small; lia.
  - apply Z.mod_unique with 1; lia.
Qed.

(** The [n] bytes of the ring storage [b] that start at cell [p]. *)
Definition ring_view (sz : Z) (b : list Z) (p n : Z) : list Z := tab n (λ i, nthZ b (ring_ix sz p i)).

Lemma zlen_ring_view sz b p n : 0 <= n -> zlen (ring_view sz b p n) = n.
Proof. intros. unfold ring_view. zlia. Qed.

Lemma take_tab n m f : 0 <= n <= m -> take (Z.to_nat n) (tab m f) = tab n f.
Proof. intros. slist. rewrite nthZ_take, !nthZ_tab by lia. done. Qed.

Lemma drop_tab n m f : 0 <= n <= m -> drop (Z.to_nat n) (tab m f) = tab (m - n) (λ i, f (n + i)).
Proof. intros. slist. rewrite nthZ_drop, !nthZ_tab by lia. done. Qed.

(** Writing after the [used] bytes in view extends the view. *)
Lemma ring_view_app sz b b' p used n (src : Z -> Z) :
  0 <= used -> 0 <= n ->
  (forall i, 0 <= i < used -> nthZ b' (ring_ix sz p i) = nthZ b (ring_ix sz p i)) ->
  (forall i, 0 <= i < n -> nthZ b' (ring_ix sz p (used + i)) = src i) ->
  ring_view sz b' p (used + n) = ring_view sz b p used ++ tab n src.
Proof.
  intros ?? Hold Hnew. unfold ring_view. rewrite tab_app by lia.
  f_equal; apply tab_ext; auto.
Qed.

(** Reading [n] of the [used] bytes in view. *)
Lemma ring_view_drop sz b p used n :
  0 <= p < sz -> 0 <= n <= used -> used <= sz ->
  drop (Z.to_nat n) (ring_view sz b p used) =
  ring_view sz b (if p + n <? sz then p + n else p + n - sz) (used - n).
Proof.
  intros. unfold ring_view. rewrite drop_tab by lia. apply tab_ext.
  intros i Hi. f_equal. unfold ring_ix. zbool; lia.
Qed.

Lemma Forall_weaken {A} (P R : A -> Prop) l : Forall P l -> (forall x, P x -> R x) -> Forall R l.
Proof. intros H HPR. induction H; constructor; auto. Qed.

(** ** Bits and bytes *)

(** A property of all integers in [0, n) by evaluation. *)
Definition zall (n : nat) (f : Z -> bool) : bool := forallb (λ i, f (Z.of_nat i)) (seq 0 n).

Lemma zall_spec n f : zall n f = true -> forall i, 0 <= i < Z.of_nat n -> f i = true.
Proof.
  intros H i Hi. unfold zall in H. rewrite forallb_forall in H.
  specialize (H (Z.to_nat i)). rewrite Z2Nat.id in H by lia. apply H, in_seq. lia.
Qed.

Lemma land_ones_mod x n : 0 <= n -> Z.land x (Z.ones n) = x mod 2 ^ n.
Proof. intros. by apply Z.land_ones. Qed.

Lemma land_255 x : Z.land x 255 = x mod 256.
Proof. exact (Z.land_ones x 8 ltac:(lia)). Qed.
Lemma land_127 x : Z.land x 127 = x mod 128.
Proof. exact (Z.land_ones x 7 ltac:(lia)). Qed.
Lemma land_15 x : Z.land x 15 = x mod 16.
Proof. exact (Z.land_ones x 4 ltac:(lia)). Qed.
Lemma land_3 x : Z.land x 3 = x mod 4.
Proof. exact (Z.land_ones x 2 ltac:(lia)). Qed.
Lemma land_1 x : Z.land x 1 = x mod 2.
Proof. exact (Z.land_ones x 1 ltac:(lia)). Qed.
Lemma shiftr_8 x : Z.shiftr x 8 = x / 256.
Proof. exact (Z.shiftr_div_pow2 x 8 ltac:(lia)). Qed.

(** Disjoint bit fields add up. *)
Lemma lor_shiftl_add a b n : 0 <= n -> 0 <= b < 2 ^ n -> Z.lor (Z.shiftl a n) b = a * 2 ^ n + b.
Proof.
  intros Hn Hb. rewrite <- Z.shiftl_mul_pow2 by lia.
  rewrite <- Z.lxor_lor, <- Z.add_nocarry_lxor; try done; apply Z.bits_inj'; intros i Hi;
    rewrite Z.land_spec, Z.bits_0; destruct (Z.ltb_spec i n).
  all: try (rewrite Z.shiftl_spec_low by lia; done).
  all: rewrite <- (Z.mod_small b (2 ^ n)) by lia; rewrite Z.mod_pow2_bits_high by lia; apply andb_false_r.
Qed.

(** Big-endian sixteen-bit numbers. *)
Lemma be16_join x : 0 <= x < 65536 -> Z.lor (Z.shiftl (u8 (Z.shiftr x 8)) 8) (Z.land x 255) = x.
Proof.
  intros. rewrite land_255, shiftr_8, lor_shiftl_add by dlia.
  unfold u8. rewrite (Z.mod_small (x / 256)) by dlia. dlia.
Qed.

Lemma be16_join' x : 0 <= x < 65536 -> Z.lor (Z.shiftl (Z.shiftr x 8) 8) (Z.land x 255) = x.
Proof. intros. rewrite land_255, shiftr_8, lor_shiftl_add by dlia. dlia. Qed.

Lemma be16_bound hi lo : is_byte hi -> is_byte lo -> 0 <= Z.lor (Z.shiftl hi 8) lo < 65536.
Proof. unfold is_byte. intros. rewrite lor_shiftl_add by lia. lia. Qed.

(** The middle of a concatenation. *)
Lemma tab_app_mid a (x b : list Z) off : off = zlen a -> tab (zlen x) (λ i, nthZ (a ++ x ++ b) (off + i)) = x.
Proof.
  intros ->. transitivity (tab (zlen x) (nthZ x)); [|apply tab_nthZ]. apply tab_ext. intros i Hi.
  pose proof (zlen_nonneg a). rewrite nthZ_app by lia. zfalse (zlen a + i <? zlen a).
  replace (zlen a + i - zlen a) with i by lia. rewrite nthZ_app by lia. by ztrue (i <? zlen x).
Qed.

(** ** Record update

    [x <| f := v |>] is the record [x] with its field [f] changed to [v]; the
    record type provides its eta expansion as a [Settable] instance. *)

Class Settable (R : Type) := settable_eta : R -> R.
Class Setter {R T : Type} (getter : R -> T) := set_field : T -> R -> R.

Ltac solve_setter :=
  match goal with
  | |- @Setter ?R ?T ?getter =>
      let eta := constr:(_ : Settable R) in
      let eta := eval hnf in eta in
      exact (λ (v : T) (r : R), ltac:(
        let e := eval cbv beta in (eta r) in
        let p := eval pattern (getter r) in e in
        match p with ?g _ => let x := eval cbv beta in (g v) in exact x end))
  end.
#[export] Hint Extern 1 (Setter _) => solve_setter : typeclass_instances.

Notation "x <| f := v |>" := (set_field (getter := f) v x)
  (at level 1, f at next level, left associativity, format "x  <|  f  :=  v  |>").

(** ** Stateful code

    A computation over a state [S] that may be undefined ([None]). *)

Definition SM (S A : Type) : Type := S -> option (A * S).
Definition sret {S A} (a : A) : SM S A := λ s, Some (a, s).
Definition sbind {S A B} (m : SM S A) (k : A -> SM S B) : SM S B := λ s, '(a, s) ← m s; k a s.
Definition sget {S A} (f : S -> A) : SM S A := λ s, Some (f s, s).
Definition smod {S} (f : S -> S) : SM S unit := λ s, Some (tt, f s).
Definition slift {S A} (o : option A) : SM S A := λ s, a ← o; Some (a, s).
Definition swhen {S} (b : bool) (m : SM S unit) : SM S unit := if b then m else sret tt.

Declare Scope sm_scope.
Delimit Scope sm_scope with sm.
Notation "x <- m ;; k" := (sbind m (λ x, k)) (at level 100, m at next level, right associativity) : sm_scope.
Notation "' p <- m ;; k" := (sbind m (λ x, match x with p => k end))
  (at level 20, p pattern, m at level 99, k at level 200, only parsing) : sm_scope.
Notation "m ;; k" := (sbind m (λ _, k)) (at level 100, right associativity) : sm_scope.

Lemma sbind_lift {S A B} (o : option A) a (k : A -> SM S B) s : o = Some a -> sbind (slift o) k s = k a s.
Proof. by intros ->. Qed.

Lemma run_bind {S A B} (m : SM S A) (k : A -> SM S B) s a s1 : m s = Some (a, s1) -> sbind m k s = k a s1.
Proof. intros E. unfold sbind. by rewrite E. Qed.

(** Run the step of the code that is the partial operation of [E : operation = Some _]. *)
Ltac slift_step E := rewrite (sbind_lift _ _ _ _ E).

(** Reduce the plumbing of the monad. *)
Ltac sm := cbn [sbind sret sget smod slift swhen mbind option_bind set_field fst snd] in *.
