(* ===== verification/CMem.v ===== *)
(** * CMem: byte blocks, pointers and the C library's memory functions

    A block of storage is a list of bytes; a heap maps block identifiers to
    blocks; a pointer is a block with an offset.  Every access is checked:
    [None] is an access outside the block (or a [memcpy] between overlapping
    regions), that is behaviour the C standard leaves undefined. *)

From stdpp Require Import gmap.
From S2P Require Import Prelude.

(** ** One block *)

(** [b[i]] *)
Definition rd (b : list Z) (i : Z) : option Z :=
  if (0 <=? i) && (i <? zlen b) then Some (nthZ b i) else None.

(** The [n] bytes of [b] from offset [off]. *)
Definition bslice (b : list Z) (off n : Z) : option (list Z) :=
  if (0 <=? off) && (0 <=? n) && (off + n <=? zlen b)
  then Some (take (Z.to_nat n) (drop (Z.to_nat off) b)) else None.

(** [b] with the bytes [src] written from offset [off]. *)
Definition bsplice (b : list Z) (off : Z) (src : list Z) : option (list Z) :=
  if (0 <=? off) && (off + zlen src <=? zlen b)
  then Some (take (Z.to_nat off) b ++ src ++ drop (Z.to_nat (off + zlen src)) b) else None.

(** [b[i] = v] *)
Definition wr (b : list Z) (i v : Z) : option (list Z) := bsplice b i [v].

Lemma rd_Some b i : 0 <= i < zlen b -> rd b i = Some (nthZ b i).
Proof. intros. unfold rd. zbool; done || lia. Qed.

Lemma bslice_Some b off n :
  0 <= off -> 0 <= n -> off + n <= zlen b ->
  bslice b off n = Some (tab n (λ i, nthZ b (off + i))).
Proof.
  intros. unfold bslice. zbool; try lia. f_equal. slist.
  rewrite nthZ_tab, nthZ_take, nthZ_drop by lia. done.
Qed.

Lemma bslice_drop b o x r : 0 <= o <= zlen b -> drop (Z.to_nat o) b = x ++ r -> bslice b o (zlen x) = Some x.
Proof.
  intros Ho Hd. assert (Hz : zlen (drop (Z.to_nat o) b) = zlen x + zlen r) by (rewrite Hd; zlia).
  rewrite zlen_drop in Hz. pose proof (zlen_nonneg x). pose proof (zlen_nonneg r). unfold bslice.
  ztrue (0 <=? o). ztrue (0 <=? zlen x). ztrue (o + zlen x <=? zlen b). cbn [andb]. rewrite Hd.
  f_equal. unfold zlen. rewrite Nat2Z.id. apply take_app_length.
Qed.

Lemma bslice_inv b off n l :
  bslice b off n = Some l -> 0 <= off /\ 0 <= n /\ off + n <= zlen b /\ l = tab n (λ i, nthZ b (off + i)).
Proof.
  intros H. assert (Hr : 0 <= off /\ 0 <= n /\ off + n <= zlen b).
  { unfold bslice in H. zinv H. }
  rewrite bslice_Some in H by lia. injection H as <-. tauto.
Qed.

Lemma bsplice_Some b off src :
  0 <= off -> off + zlen src <= zlen b ->
  exists b', bsplice b off src = Some b' /\ zlen b' = zlen b /\
    forall i, 0 <= i -> nthZ b' i = if (off <=? i) && (i <? off + zlen src) then nthZ src (i - off) else nthZ b i.
Proof.
  intros. pose proof (zlen_nonneg src). unfold bsplice. ztrue (0 <=? off). ztrue (off + zlen src <=? zlen b). simpl.
  eexists; split; [done|]. split; [zlia|]. intros i Hi.
  rewrite nthZ_app by lia. zlia.
  destruct (Z.ltb_spec i (Z.max 0 (Z.min off (zlen b)))).
  { rewrite nthZ_take by lia. zfalse (off <=? i). done. }
  rewrite nthZ_app by lia. ztrue (off <=? i). zlia. simpl.
  destruct (Z.ltb_spec (i - Z.max 0 (Z.min off (zlen b))) (zlen src)).
  { ztrue (i <? off + zlen src). f_equal. lia. }
  zfalse (i <? off + zlen src). rewrite nthZ_drop by lia. f_equal. lia.
Qed.

Lemma bsplice_inv b off src b' :
  bsplice b off src = Some b' ->
  0 <= off /\ off + zlen src <= zlen b /\ zlen b' = zlen b /\
  forall i, 0 <= i -> nthZ b' i = if (off <=? i) && (i <? off + zlen src) then nthZ src (i - off) else nthZ b i.
Proof.
  intros H. assert (Hr : 0 <= off /\ off + zlen src <= zlen b).
  { unfold bsplice in H. zinv H. }
  destruct (bsplice_Some b off src) as (b2 & E & Hl & Hn); try lia.
  rewrite E in H. injection H as <-. tauto.
Qed.

Lemma wr_Some b i v :
  0 <= i < zlen b ->
  exists b', wr b i v = Some b' /\ zlen b' = zlen b /\
    forall j, 0 <= j -> nthZ b' j = if j =? i then v else nthZ b j.
Proof.
  intros. destruct (bsplice_Some b i [v]) as (b' & E & Hl & Hn); try (zlia).
  exists b'. split; [done|]. split; [done|]. intros j Hj. rewrite Hn by lia. change (zlen [v]) with 1.
  zbool; subst; try lia; rewrite ?Z.sub_diag; done.
Qed.

(** The four bytes of a 32-bit word in memory: the processor is little-endian. *)
Definition le_bytes (w : Z) : list Z := [w mod 256; w / 256 mod 256; w / 65536 mod 256; w / 16777216 mod 256].
(** [ip_address_t]: byte 0 of the union is the lowest byte of the word. *)
Definition word_of_bytes (l : list Z) : option Z :=
  a ← rd l 0; b ← rd l 1; c ← rd l 2; d ← rd l 3; Some (a + 256 * b + 65536 * c + 16777216 * d).

Lemma le_bytes_word ip w : Forall is_byte ip -> zlen ip = 4 -> word_of_bytes ip = Some w -> le_bytes w = ip /\ 0 <= w < 4294967296.
Proof.
  intros Hb Hz Hw. assert (Hn : length ip = 4%nat) by (unfold zlen in Hz; lia). do 5 (destruct ip as [|? ip]; try discriminate Hn).
  rename z into a, z0 into b, z1 into c, z2 into d.
  injection Hw as <-. change (nthZ [a; b; c; d] 0) with a. change (nthZ [a; b; c; d] 1) with b.
  change (nthZ [a; b; c; d] 2) with c. change (nthZ [a; b; c; d] 3) with d.
  apply Forall_cons_1 in Hb as [? Hb]. apply Forall_cons_1 in Hb as [? Hb]. apply Forall_cons_1 in Hb as [? Hb].
  apply Forall_cons_1 in Hb as [? _]. unfold is_byte in *.
  split; [|lia]. unfold le_bytes. f_equal; [dlia|]. f_equal; [dlia|]. f_equal; [dlia|]. f_equal. dlia.
Qed.

(** ** The heap *)

Record ptr := mk_ptr { p_blk : positive; p_off : Z }.
Abbreviation heap := (gmap positive (list Z)).

(** [p + n] *)
Definition padd (p : ptr) (n : Z) : ptr := mk_ptr (p_blk p) (p_off p + n).

Definition mem_load (h : heap) (p : ptr) (n : Z) : option (list Z) :=
  b ← h !! p_blk p; bslice b (p_off p) n.

Definition mem_store (h : heap) (p : ptr) (src : list Z) : option heap :=
  b ← h !! p_blk p; b' ← bsplice b (p_off p) src; Some (<[p_blk p := b']> h).

(** Whether two [n]-byte regions share a byte. *)
Definition overlap (p q : ptr) (n : Z) : bool :=
  (p_blk p =? p_blk q)%positive && (Z.abs (p_off p - p_off q) <? n).

(** [memcpy( dst, src, n )] *)
Definition memcpy (h : heap) (dst src : ptr) (n : Z) : option heap :=
  if overlap dst src n then None else
  bytes ← mem_load h src n; mem_store h dst bytes.

(** [memset( p, v, n )] *)
Definition memset (h : heap) (p : ptr) (v n : Z) : option heap :=
  if n <? 0 then None else mem_store h p (replicate (Z.to_nat n) (u8 v)).

Lemma mem_load_Some h p n b :
  h !! p_blk p = Some b -> 0 <= p_off p -> 0 <= n -> p_off p + n <= zlen b ->
  mem_load h p n = Some (tab n (λ i, nthZ b (p_off p + i))).
Proof. intros Hb ???. unfold mem_load. rewrite Hb. simpl. apply bslice_Some; lia. Qed.

Lemma mem_store_Some h p src b :
  h !! p_blk p = Some b -> 0 <= p_off p -> p_off p + zlen src <= zlen b ->
  exists b', mem_store h p src = Some (<[p_blk p := b']> h) /\ zlen b' = zlen b /\
    forall i, 0 <= i ->
      nthZ b' i = if (p_off p <=? i) && (i <? p_off p + zlen src) then nthZ src (i - p_off p) else nthZ b i.
Proof.
  intros Hb ??. unfold mem_store. rewrite Hb. simpl.
  destruct (bsplice_Some b (p_off p) src) as (b' & E & Hl & Hn); try lia.
  rewrite E. simpl. eauto.
Qed.

(** [memcpy] between regions that do not overlap: the destination block afterwards. *)
Lemma memcpy_Some h dst src n bd bs :
  overlap dst src n = false ->
  h !! p_blk dst = Some bd -> h !! p_blk src = Some bs ->
  0 <= n -> 0 <= p_off dst -> p_off dst + n <= zlen bd ->
  0 <= p_off src -> p_off src + n <= zlen bs ->
  exists bd', memcpy h dst src n = Some (<[p_blk dst := bd']> h) /\ zlen bd' = zlen bd /\
    forall i, 0 <= i ->
      nthZ bd' i = if (p_off dst <=? i) && (i <? p_off dst + n)
                   then nthZ bs (p_off src + (i - p_off dst)) else nthZ bd i.
Proof.
  intros Ho Hd Hs ?????. unfold memcpy. rewrite Ho.
  rewrite (mem_load_Some _ _ _ bs) by done. simpl.
  destruct (mem_store_Some h dst (tab n (λ i, nthZ bs (p_off src + i))) bd) as (b' & E & Hl & Hn);
    [done|done|zlia|].
  exists b'. split; [done|]. split; [done|]. intros i Hi. rewrite Hn by done.
  zlia. rewrite Z.max_r by lia.
  destruct (_ && _) eqn:Eb; [|done]. rewrite nthZ_tab; [done|].
  apply andb_true_iff in Eb as [?%Z.leb_le ?%Z.ltb_lt]. lia.
Qed.

Lemma overlap_blk p q n : p_blk p ≠ p_blk q -> overlap p q n = false.
Proof. intros. unfold overlap. destruct (Pos.eqb_spec (p_blk p) (p_blk q)); done. Qed.

Lemma memcpy_inv h dst src n h' :
  memcpy h dst src n = Some h' -> overlap dst src n = false /\
  exists bytes, mem_load h src n = Some bytes /\ mem_store h dst bytes = Some h'.
Proof.
  unfold memcpy. destruct (overlap dst src n); [done|].
  destruct (mem_load h src n) as [bytes|]; [|done]. simpl. eauto.
Qed.

(** [wrote b o l b']: the bytes [l] were written at offset [o] and nothing else changed. *)
Definition wrote (b : list Z) (o : Z) (l b' : list Z) : Prop :=
  zlen b' = zlen b /\
  forall i, 0 <= i -> nthZ b' i = if (o <=? i) && (i <? o + zlen l) then nthZ l (i - o) else nthZ b i.

Lemma wrote_nil b o : wrote b o [] b.
Proof. split; [done|]. intros i Hi. rewrite zlen_nil. zbool; done || lia. Qed.

Lemma wrote_snoc b o l b1 v b2 :
  0 <= o -> wrote b o l b1 -> wr b1 (o + zlen l) v = Some b2 -> wrote b o (l ++ [v]) b2.
Proof.
  intros Ho [Hz Hn] E. pose proof (zlen_nonneg l). unfold wr in E.
  apply bsplice_inv in E as (? & ? & Hz2 & Hn2). split; [lia|]. intros i Hi.
  rewrite Hn2, Hn, zlen_app by lia. change (zlen [v]) with 1.
  destruct (Z.ltb_spec i (o + zlen l)).
  - zfalse (o + zlen l <=? i). simpl. destruct (Z.leb_spec o i); simpl; [|done].
    rewrite nthZ_app by lia. ztrue (i <? o + (zlen l + 1)). ztrue (i - o <? zlen l). done.
  - ztrue (o <=? i). ztrue (o + zlen l <=? i). cbn [andb].
    destruct (Z.ltb_spec i (o + zlen l + 1)).
    + ztrue (i <? o + (zlen l + 1)). rewrite nthZ_app by lia. zfalse (i - o <? zlen l).
      f_equal. lia.
    + zfalse (i <? o + (zlen l + 1)). done.
Qed.

Lemma wrote_view b o l b' : 0 <= o -> wrote b o l b' -> tab (zlen l) (λ i, nthZ b' (o + i)) = l.
Proof.
  intros Ho [_ Hn]. transitivity (tab (zlen l) (nthZ l)); [|apply tab_nthZ]. apply tab_ext. intros i Hi.
  rewrite Hn by lia. zbool; try lia. f_equal. lia.
Qed.

Lemma wr_total b i v : 0 <= i < zlen b -> exists b', wr b i v = Some b'.
Proof. intros. destruct (wr_Some b i v) as (b' & E & _); eauto. Qed.
