(* ===== verification/CString.v ===== *)
(** * CString: C strings and the library functions on them

    A string is its list of non-zero characters; in a block of storage it ends
    at the first zero byte, and a function that runs off the block without
    finding one is undefined.  [strstr] and [atoi] as the C standard has them
    ([atoi] undefined when the value is no [int]). *)

From S2P Require Import Prelude CMem.

(** The string at the beginning of a block; [None] when it has no end there. *)
Fixpoint string_of (b : list Z) : option (list Z) :=
  match b with
  | [] => None
  | x :: b => if x =? 0 then Some [] else s ← string_of b; Some (x :: s)
  end.
Definition cstr (b : list Z) (o : Z) : option (list Z) := string_of (drop (Z.to_nat o) b).

Fixpoint starts_with (p s : list Z) : bool :=
  match p, s with
  | [], _ => true
  | _, [] => false
  | x :: p, y :: s => (x =? y) && starts_with p s
  end.

(** The offset of the first occurrence of [p] in [s]. *)
Fixpoint strstr (s p : list Z) : option Z :=
  if starts_with p s then Some 0 else match s with [] => None | _ :: s => k ← strstr s p; Some (1 + k) end.

Definition isdigit (c : Z) : bool := (48 <=? c) && (c <=? 57).
Definition isspace (c : Z) : bool := (c =? 32) || ((9 <=? c) && (c <=? 13)).

Fixpoint skip_space (b : list Z) : list Z :=
  match b with c :: r => if isspace c then skip_space r else b | [] => [] end.
Fixpoint digits (acc : Z) (b : list Z) : option Z :=
  match b with
  | [] => None
  | c :: b => if isdigit c then digits (acc * 10 + (c - 48)) b else Some acc
  end.
Definition atoi (b : list Z) : option Z :=
  match skip_space b with
  | [] => None
  | c :: r =>
      if c =? 45 then v ← digits 0 r; int_ok (- v)
      else if c =? 43 then v ← digits 0 r; int_ok v
      else v ← digits 0 (c :: r); int_ok v
  end.

(** ** Lemmas *)

Lemma string_of_app s r : Forall (λ c, c ≠ 0) s -> string_of (s ++ 0 :: r) = Some s.
Proof.
  induction 1 as [|c s Hc _ IH]; [done|]. cbn. apply Z.eqb_neq in Hc. by rewrite Hc, IH.
Qed.

(** A string copied to the beginning of a block of zeros. *)
Lemma bsplice_zeros n s : zlen s <= Z.of_nat n -> bsplice (replicate n 0) 0 s = Some (s ++ replicate (n - length s) 0).
Proof.
  intros Hs. unfold bsplice. change (0 <=? 0) with true. cbn [andb].
  replace (0 + zlen s <=? zlen (replicate n 0)) with true by (symmetry; apply Z.leb_le; unfold zlen in *; rewrite length_replicate; lia).
  replace (Z.to_nat (0 + zlen s)) with (length s) by (unfold zlen; lia). by rewrite drop_replicate.
Qed.
Lemma string_of_zeros n s : Forall (λ c, c ≠ 0) s -> zlen s < Z.of_nat n -> string_of (s ++ replicate (n - length s) 0) = Some s.
Proof.
  intros H Hs. unfold zlen in Hs. destruct (n - length s)%nat as [|k] eqn:E; [lia|]. by apply string_of_app.
Qed.

Lemma starts_with_app p s : starts_with p (p ++ s) = true.
Proof. induction p as [|x p IH]; [done|]. cbn. by rewrite Z.eqb_refl. Qed.

Lemma starts_with_spec p s : starts_with p s = true <-> exists r, s = p ++ r.
Proof.
  split; [|intros [r ->]; apply starts_with_app]. revert s. induction p as [|x p IH]; intros s H; [by exists s|].
  destruct s as [|y s]; [done|]. cbn in H. apply andb_true_iff in H as [E H]. apply Z.eqb_eq in E as ->.
  destruct (IH s H) as [r ->]. by exists r.
Qed.

(** A character that does not occur. *)
Definition no_char (c : Z) (s : list Z) : Prop := Forall (λ x, x ≠ c) s.
Lemma isdigit_no_char c s : isdigit c = false -> Forall (λ x, isdigit x = true) s -> no_char c s.
Proof. intros Hc H. induction H as [|x s Hx _ IH]; constructor; [intros ->; congruence|done]. Qed.
Lemma strstr_char_none s c : Forall (λ x, x ≠ c) s -> strstr s [c] = None.
Proof.
  induction 1 as [|x s Hx _ IH]; [done|]. cbn. replace (c =? x) with false by (symmetry; apply Z.eqb_neq; congruence).
  cbn. by rewrite IH.
Qed.
Lemma strstr_char s c r : Forall (λ x, x ≠ c) s -> strstr (s ++ c :: r) [c] = Some (zlen s).
Proof.
  induction 1 as [|x s Hx _ IH]; cbn; [by rewrite Z.eqb_refl|].
  replace (c =? x) with false by (symmetry; apply Z.eqb_neq; congruence). cbn. rewrite IH. cbn. by rewrite zlen_cons.
Qed.

Lemma no_char_first c a b r t : no_char c a -> no_char c b -> a ++ c :: r = b ++ c :: t -> a = b.
Proof.
  intros Ha. revert b. induction Ha as [|x a Hx _ IH]; intros [|y b] Hb E; [done|..].
  - injection E as -> _. by apply Forall_cons_1 in Hb as [].
  - injection E as -> _. done.
  - injection E as -> E. apply Forall_cons_1 in Hb as [_ Hb]. f_equal. by apply IH.
Qed.

(** A text found by its last character, and one found by its first. *)
Lemma strstr_last c q pre r : no_char c (pre ++ q) -> strstr (pre ++ q ++ c :: r) (q ++ [c]) = Some (zlen pre).
Proof.
  induction pre as [|x pre IH]; intros Hn.
  - cbn [app]. replace (q ++ c :: r) with ((q ++ [c]) ++ r) by (by rewrite <- app_assoc).
    destruct ((q ++ [c]) ++ r) as [|y s] eqn:E; [by destruct q|]. rewrite <- E. cbn. rewrite E. cbn. rewrite <- E. by rewrite starts_with_app.
  - cbn [app]. cbn [strstr]. replace (starts_with (q ++ [c]) (x :: pre ++ q ++ c :: r)) with false.
    + rewrite IH by (by apply Forall_cons_1 in Hn as []). cbn. by rewrite zlen_cons.
    + symmetry. destruct (starts_with _ _) eqn:E; [|done]. apply starts_with_spec in E as [t E]. exfalso.
      rewrite <- app_assoc in E. change (x :: pre ++ q ++ c :: r) with ((x :: pre) ++ q ++ c :: r) in E. rewrite app_assoc in E.
      apply no_char_first in E; [|exact Hn|by apply Forall_app in Hn as []].
      apply (f_equal length) in E. rewrite length_app in E. cbn in E. lia.
Qed.
Lemma strstr_head c q pre r : no_char c pre -> strstr (pre ++ (c :: q) ++ r) (c :: q) = Some (zlen pre).
Proof.
  induction 1 as [|x pre Hx _ IH].
  - cbn [app strstr starts_with]. by rewrite Z.eqb_refl, starts_with_app.
  - cbn [app strstr starts_with]. zfalse (c =? x). cbn [andb]. cbn [app] in IH. rewrite IH. cbn. by rewrite zlen_cons.
Qed.

(** The first occurrence stays the first when more text follows, and a
    beginning of what occurs occurs. *)
Lemma starts_with_more p s r : (length p <= length s)%nat -> starts_with p (s ++ r) = starts_with p s.
Proof.
  revert s. induction p as [|x p IH]; intros [|y s] Hl; try done; [cbn in Hl; lia|]. cbn in *. by rewrite IH by lia.
Qed.
Lemma strstr_length s p k : strstr s p = Some k -> (length p <= length s)%nat.
Proof.
  revert k. induction s as [|x s IH]; intros k; cbn [strstr].
  - destruct (starts_with p []) eqn:E; [|done]. apply starts_with_spec in E as [r E]. by destruct p.
  - destruct (starts_with p (x :: s)) eqn:E.
    + apply starts_with_spec in E as [r E]. rewrite E, length_app. lia.
    + destruct (strstr s p) as [j|]; [|done]. intros _. specialize (IH j eq_refl). cbn. lia.
Qed.
Lemma strstr_more s p r k : strstr s p = Some k -> strstr (s ++ r) p = Some k.
Proof.
  revert k. induction s as [|x s IH]; intros k Hk; pose proof (strstr_length _ _ _ Hk) as Hl.
  - destruct p; [|cbn in Hl; lia]. cbn in Hk. cbn [app]. destruct r; exact Hk.
  - cbn [app strstr] in *. change (x :: s ++ r) with ((x :: s) ++ r). rewrite starts_with_more by done.
    destruct (starts_with p (x :: s)); [done|]. destruct (strstr s p) as [j|] eqn:E; [|done]. by rewrite (IH j eq_refl).
Qed.
Lemma strstr_begin s p q k : strstr s (p ++ q) = Some k -> strstr s p ≠ None.
Proof.
  revert k. induction s as [|x s IH]; intros k; cbn [strstr].
  - destruct p; [done|]. by destruct (starts_with _ _) eqn:E.
  - destruct (starts_with p (x :: s)) eqn:Ep; [done|]. destruct (starts_with (p ++ q) (x :: s)) eqn:E.
    + apply starts_with_spec in E as [r E]. assert (starts_with p (x :: s) = true); [|congruence].
      apply starts_with_spec. exists (q ++ r). by rewrite E, app_assoc.
    + destruct (strstr s (p ++ q)) as [j|]; [|done]. intros _. specialize (IH j eq_refl). destruct (strstr s p); [done|exact IH].
Qed.
Lemma string_of_prefix s b : no_char 0 s -> string_of (s ++ b ++ [0]) = (s ++.) <$> string_of (b ++ [0]).
Proof.
  induction 1 as [|x s Hx _ IH]; cbn [app string_of]; [by destruct (string_of (b ++ [0]))|]. zfalse (x =? 0). rewrite IH.
  by destruct (string_of (b ++ [0])).
Qed.
Lemma string_of_ends b : exists s, string_of (b ++ [0]) = Some s.
Proof.
  induction b as [|x b [s IH]]; [by exists []|]. cbn. destruct (x =? 0); [by eexists|]. rewrite IH. by eexists.
Qed.

Lemma strstr_range s p k : strstr s p = Some k -> 0 <= k /\ k + zlen p <= zlen s.
Proof.
  revert k. induction s as [|x s IH]; intros k; cbn.
  - destruct (starts_with p []) eqn:E; [|done]. intros [= <-]. apply starts_with_spec in E as [r E].
    destruct p; [|done]. cbn. lia.
  - destruct (starts_with p (x :: s)) eqn:E.
    + intros [= <-]. apply starts_with_spec in E as [r ->]. zlia. pose proof (zlen_nonneg r). lia.
    + destruct (strstr s p) as [j|]; [|done]. cbn. intros [= <-]. specialize (IH j eq_refl). zlia.
Qed.

(** ** Decimal numbers *)

Fixpoint decimal_fuel (n : nat) (z : Z) : list Z :=
  match n with
  | O => []
  | S n => (if z <? 10 then [] else decimal_fuel n (z / 10)) ++ [48 + z mod 10]
  end.
(** The digits of [0 <= z < 10^10]. *)
Definition decimal (z : Z) : list Z := decimal_fuel 10 z.

(** ["%d"] *)
Definition percent_d (v : Z) : list Z := if v <? 0 then 45 :: decimal (- v) else decimal v.

Lemma digits_app acc s r : Forall (λ c, isdigit c = true) s ->
  digits acc (s ++ r) = digits (fold_left (λ a c, a * 10 + (c - 48)) s acc) r.
Proof. intros H. revert acc. induction H as [|c s Hc _ IH]; intros acc; [done|]. cbn. by rewrite Hc. Qed.

Lemma decimal_digits n z : 0 <= z -> Forall (λ c, isdigit c = true) (decimal_fuel n z).
Proof.
  revert z. induction n as [|n IH]; intros z Hz; cbn; [apply Forall_nil_2|]. apply Forall_app. split.
  - destruct (z <? 10); [apply Forall_nil_2|]. apply IH. dlia.
  - apply Forall_singleton. unfold isdigit. assert (0 <= z mod 10 < 10) by dlia. zbool; done || lia.
Qed.

Lemma decimal_value n z : 0 <= z < 10 ^ Z.of_nat n -> fold_left (λ a c, a * 10 + (c - 48)) (decimal_fuel n z) 0 = z.
Proof.
  revert z. induction n as [|n IH]; intros z Hz; [cbn in *; lia|]. cbn [decimal_fuel].
  rewrite fold_left_app. cbn [fold_left]. destruct (Z.ltb_spec z 10).
  - cbn. rewrite Z.mod_small; lia.
  - rewrite IH; [dlia|]. rewrite Nat2Z.inj_succ, Z.pow_succ_r in Hz by lia. split; [dlia|]. apply Z.div_lt_upper_bound; lia.
Qed.

Lemma decimal_nonempty n z : decimal_fuel (S n) z ≠ [].
Proof. cbn. intros E. apply app_eq_nil in E. by destruct E. Qed.

Lemma decimal_length n z : zlen (decimal_fuel n z) <= Z.of_nat n.
Proof.
  revert z. induction n as [|n IH]; intros z; cbn [decimal_fuel]; [done|]. zlia. specialize (IH (z / 10)).
  destruct (z <? 10); zlia; lia.
Qed.

Lemma decimal_length_eq n k z :
  10 ^ Z.of_nat k <= z < 10 ^ Z.of_nat (S k) -> (k < n)%nat -> zlen (decimal_fuel n z) = Z.of_nat (S k).
Proof.
  revert k z. induction n as [|n IH]; intros k z Hz Hk; [lia|]. cbn [decimal_fuel]. rewrite zlen_app.
  change (zlen [48 + z mod 10]) with 1. rewrite Nat2Z.inj_succ, Z.pow_succ_r in Hz by lia. destruct k as [|k].
  - change (10 ^ Z.of_nat 0) with 1 in Hz. ztrue (z <? 10). rewrite zlen_nil. lia.
  - rewrite Nat2Z.inj_succ, Z.pow_succ_r in Hz by lia. assert (0 < 10 ^ Z.of_nat k) by (apply Z.pow_pos_nonneg; lia).
    zfalse (z <? 10). rewrite (IH k); [lia| |lia]. rewrite Nat2Z.inj_succ, Z.pow_succ_r by lia.
    split; [apply Z.div_le_lower_bound; lia|apply Z.div_lt_upper_bound; lia].
Qed.

(** [atoi] reads back what was printed. *)
Lemma atoi_decimal z c r :
  0 <= z < 2147483648 -> isdigit c = false -> atoi (decimal z ++ c :: r) = Some z.
Proof.
  intros Hz Hc. assert (Hd : Forall (λ c, isdigit c = true) (decimal z)) by (apply decimal_digits; lia).
  pose proof (decimal_nonempty 9 z) as Hne. change (decimal_fuel 10 z) with (decimal z) in Hne.
  assert (Hv : digits 0 (decimal z ++ c :: r) = Some z).
  { rewrite digits_app by done. cbn [digits]. rewrite Hc. f_equal. apply decimal_value. cbn. lia. }
  unfold atoi. destruct (decimal z) as [|d l] eqn:E; [done|]. cbn [app] in *.
  apply Forall_cons_1 in Hd as [Hd _]. unfold isdigit in Hd. apply andb_true_iff in Hd as [D1 D2].
  apply Z.leb_le in D1, D2. cbn [skip_space]. replace (isspace d) with false by (unfold isspace; zbool; done || lia).
  zfalse (d =? 45). zfalse (d =? 43). rewrite Hv. cbn. apply int_ok_small. lia.
Qed.

Lemma decimal_short n k z : (1 <= k)%nat -> 0 <= z < 10 ^ Z.of_nat k -> zlen (decimal_fuel n z) <= Z.of_nat k.
Proof.
  revert k z. induction n as [|n IH]; intros k z Hk Hz; cbn [decimal_fuel]; [rewrite zlen_nil; lia|]. rewrite zlen_app.
  change (zlen [48 + z mod 10]) with 1. destruct (Z.ltb_spec z 10); [rewrite zlen_nil; lia|].
  destruct k as [|[|k]]; [lia|cbn in Hz; lia|]. rewrite Nat2Z.inj_succ, Z.pow_succ_r in Hz by lia.
  specialize (IH (S k) (z / 10)). assert (0 <= z / 10 < 10 ^ Z.of_nat (S k)); [|lia].
  split; [dlia|apply Z.div_lt_upper_bound; lia].
Qed.
Lemma decimal_9 z : 0 <= z < 1000000000 -> zlen (decimal z) <= 9.
Proof. intros Hz. apply (decimal_short 10 9); [lia|exact Hz]. Qed.
