(* ===== verification/UserRing.v ===== *)
(** * UserRing: the byte ring buffer of app/user/user_ringbuffer.c *)

From stdpp Require Import gmap.
From S2P Require Import Prelude CMem.

(** [ringbuf_t]; [pbuf] points into the heap. *)
Record ringbuf_t := mk_ringbuf {
  pbuf : ptr; head : Z; tail : Z; size : Z; lock : bool }.

(** [user_rb_init]; a null pointer is [None]. *)
Definition user_rb_init (h : heap) (p_rb : option ringbuf_t) (buf : option ptr) (sz : Z) :
    option (heap * option ringbuf_t) :=
  match p_rb, buf with
  | Some _, Some p =>
      if sz =? 0 then Some (h, p_rb) else
      h' ← memset h p 0 sz;
      Some (h', Some (mk_ringbuf p 0 0 sz false))
  | _, _ => Some (h, p_rb)
  end.

(** The spin of [user_rb_lock]: no other thread of control runs, so [lock]
    keeps its value and only the counter ends the loop. *)
Fixpoint user_rb_lock_spin (fuel : nat) (lck : bool) (i : Z) : option Z :=
  match fuel with
  | O => None
  | S fuel' =>
      if lck then
        let i := u32 (i + 1) in
        if 50000 <? i then Some i else user_rb_lock_spin fuel' lck i
      else Some i
  end.

Definition user_rb_lock (fuel : nat) (rb : ringbuf_t) : option ringbuf_t :=
  _ ← user_rb_lock_spin fuel (lock rb) 0;
  Some (mk_ringbuf (pbuf rb) (head rb) (tail rb) (size rb) true).

Definition user_rb_unlock (rb : ringbuf_t) : ringbuf_t :=
  mk_ringbuf (pbuf rb) (head rb) (tail rb) (size rb) false.

Definition user_rb_unread_size (rb : ringbuf_t) : Z :=
  if tail rb <=? head rb then u32 (head rb - tail rb)
  else u32 (size rb + head rb - tail rb).

Definition user_rb_reset (h : heap) (rb : ringbuf_t) : option (heap * ringbuf_t) :=
  h' ← memset h (pbuf rb) 0 (size rb);
  Some (h', mk_ringbuf (pbuf rb) 0 0 (size rb) (lock rb)).

Definition user_rb_put (h : heap) (rb : ringbuf_t) (src : ptr) (len : Z) :
    option (heap * ringbuf_t * Z) :=
  '(h', sz) ←
    (if tail rb <=? head rb then
       let sz := u32 (size rb + tail rb - head rb) in
       let rz := u32 (size rb - head rb) in
       let sz := if len <? sz then len else sz in
       if sz <=? rz then
         h1 ← memcpy h (padd (pbuf rb) (head rb)) src sz; Some (h1, sz)
       else
         h1 ← memcpy h (padd (pbuf rb) (head rb)) src rz;
         h2 ← memcpy h1 (pbuf rb) (padd src rz) (u32 (sz - rz)); Some (h2, sz)
     else
       let sz := u32 (tail rb - head rb) in
       let sz := if len <? sz then len else sz in
       h1 ← memcpy h (padd (pbuf rb) (head rb)) src sz; Some (h1, sz));
  let hd := u32 (head rb + sz) in
  let hd := if size rb <=? hd then u32 (hd - size rb) else hd in
  Some (h', mk_ringbuf (pbuf rb) hd (tail rb) (size rb) (lock rb), sz).

Definition user_rb_get (h : heap) (rb : ringbuf_t) (des : ptr) (len : Z) :
    option (heap * ringbuf_t * Z) :=
  '(h', sz) ←
    (if tail rb <=? head rb then
       let sz := u32 (head rb - tail rb) in
       let sz := if len <? sz then len else sz in
       h1 ← memcpy h des (padd (pbuf rb) (tail rb)) sz; Some (h1, sz)
     else
       let sz := u32 (size rb + head rb - tail rb) in
       let rz := u32 (size rb - tail rb) in
       let sz := if len <? sz then len else sz in
       if sz <=? rz then
         h1 ← memcpy h des (padd (pbuf rb) (tail rb)) sz; Some (h1, sz)
       else
         h1 ← memcpy h des (padd (pbuf rb) (tail rb)) rz;
         h2 ← memcpy h1 (padd des rz) (pbuf rb) (u32 (sz - rz)); Some (h2, sz));
  let tl := u32 (tail rb + sz) in
  let tl := if size rb <=? tl then u32 (tl - size rb) else tl in
  Some (h', mk_ringbuf (pbuf rb) (head rb) tl (size rb) (lock rb), sz).

(** ** Well-formed rings and their contents *)

(** The ring owns the storage [b] of its block from the start of the block. *)
Record rb_wf (h : heap) (rb : ringbuf_t) (b : list Z) : Prop := mk_rb_wf {
  wf_blk : h !! p_blk (pbuf rb) = Some b;
  wf_off : p_off (pbuf rb) = 0;
  wf_size : 0 < size rb < 2147483648;
  wf_storage : size rb <= zlen b;
  wf_head : 0 <= head rb < size rb;
  wf_tail : 0 <= tail rb < size rb }.

(** The unread bytes, oldest first. *)
Definition rb_contents (rb : ringbuf_t) (b : list Z) : list Z :=
  ring_view (size rb) b (tail rb) (user_rb_unread_size rb).

(** The room [user_rb_put] sees. *)
Definition rb_free (rb : ringbuf_t) : Z := size rb - user_rb_unread_size rb.

Lemma unread_eq h rb b :
  rb_wf h rb b ->
  user_rb_unread_size rb = if tail rb <=? head rb then head rb - tail rb else size rb + head rb - tail rb.
Proof. intros []. unfold user_rb_unread_size. zbool; apply u32_small; lia. Qed.

Lemma unread_range h rb b : rb_wf h rb b -> 0 <= user_rb_unread_size rb < size rb.
Proof. intros W. rewrite (unread_eq _ _ _ W). destruct W. zbool; lia. Qed.

(** Where the next byte goes: [head] lies [unread] cells after [tail]. *)
Lemma head_ix h rb b i :
  rb_wf h rb b -> 0 <= i -> user_rb_unread_size rb + i < size rb ->
  ring_ix (size rb) (tail rb) (user_rb_unread_size rb + i) = ring_ix (size rb) (head rb) i.
Proof.
  intros W. rewrite (unread_eq _ _ _ W). destruct W. unfold ring_ix. intros. zbool; lia.
Qed.

(** The cursor after [n] cells. *)
Definition rb_advance (rb : ringbuf_t) (p n : Z) : Z := if p + n <? size rb then p + n else p + n - size rb.

(** The shared tail of [user_rb_put] and [user_rb_get]: the cursor update. *)
Lemma advance_eq rb p n :
  0 < size rb < 2147483648 -> 0 <= p < size rb -> 0 <= n <= size rb ->
  (if size rb <=? u32 (p + n) then u32 (u32 (p + n) - size rb) else u32 (p + n)) = rb_advance rb p n.
Proof.
  intros. rewrite (u32_small (p + n)) by lia. unfold rb_advance.
  zbool; try lia. rewrite u32_small by lia. lia.
Qed.

(** [memcpy] seen through the pointwise contents of the destination block. *)
Lemma memcpy_to h dst src n bd bs :
  p_blk dst ≠ p_blk src ->
  h !! p_blk dst = Some bd -> h !! p_blk src = Some bs ->
  0 <= n -> 0 <= p_off dst -> p_off dst + n <= zlen bd ->
  0 <= p_off src -> p_off src + n <= zlen bs ->
  exists bd', memcpy h dst src n = Some (<[p_blk dst := bd']> h) /\ zlen bd' = zlen bd /\
    (forall i, 0 <= i < n -> nthZ bd' (p_off dst + i) = nthZ bs (p_off src + i)) /\
    (forall i, 0 <= i -> i < p_off dst \/ p_off dst + n <= i -> nthZ bd' i = nthZ bd i).
Proof.
  intros Hne Hd Hs ?????.
  destruct (memcpy_Some h dst src n bd bs) as (b' & E & Hl & Hn);
    [by apply overlap_blk|done|done|lia..|].
  exists b'. split; [done|]. split; [done|]. split; intros i Hi; [|intros]; rewrite Hn by lia; zbool; try lia.
  f_equal. lia.
Qed.

(** The storage after [user_rb_put] has taken [n] bytes. *)
Lemma put_block h rb b src bs len n :
  rb_wf h rb b -> h !! p_blk src = Some bs -> p_blk src ≠ p_blk (pbuf rb) ->
  0 <= len < 4294967296 -> 0 <= p_off src -> p_off src + len <= zlen bs ->
  n = Z.min len (rb_free rb) ->
  exists b', user_rb_put h rb src len =
      Some (<[p_blk (pbuf rb) := b']> h,
            mk_ringbuf (pbuf rb) (rb_advance rb (head rb) n) (tail rb) (size rb) (lock rb), n) /\
    zlen b' = zlen b /\
    (forall i, 0 <= i < user_rb_unread_size rb ->
       nthZ b' (ring_ix (size rb) (tail rb) i) = nthZ b (ring_ix (size rb) (tail rb) i)) /\
    (forall i, 0 <= i < n -> nthZ b' (ring_ix (size rb) (head rb) i) = nthZ bs (p_off src + i)).
Proof.
  intros W Hs Hne Hlen Hoff Hbs. unfold rb_free.
  rewrite (unread_eq _ _ _ W). unfold user_rb_put. destruct W as [Wb Wo Wsz Wst Wh Wt].
  assert (Hpd : forall k, p_off (padd (pbuf rb) k) = k) by (intros; unfold padd; simpl; lia).
  destruct (Z.leb_spec (tail rb) (head rb)) as [Hle|Hgt].
  - rewrite !clamp_min, (u32_small (_ + _ - _)), (u32_small (size rb - head rb)) by lia.
    intros Hn. replace (Z.min len _) with n by lia.
    destruct (Z.leb_spec n (size rb - head rb)).
    + destruct (memcpy_to h (padd (pbuf rb) (head rb)) src n b bs) as (b' & E & Hl & Hin & Hout);
        rewrite ?Hpd; try (simpl; done || lia).
      rewrite E. simpl. rewrite advance_eq by lia. exists b'. rewrite Hpd in *.
      repeat split; [done|intros i Hi; unfold ring_ix; zbool; try lia..].
      * apply Hout; lia.
      * apply Hin. lia.
    + destruct (memcpy_to h (padd (pbuf rb) (head rb)) src (size rb - head rb) b bs) as (b1 & E & Hl & Hin & Hout);
        rewrite ?Hpd; try (simpl; done || lia).
      rewrite E. simpl p_blk in *. simpl. rewrite u32_small by lia. rewrite Hpd in *.
      destruct (memcpy_to (<[p_blk (pbuf rb) := b1]> h) (pbuf rb) (padd src (size rb - head rb))
                  (n - (size rb - head rb)) b1 bs) as (b2 & E2 & Hl2 & Hin2 & Hout2);
        [simpl; congruence|apply lookup_insert_eq|rewrite lookup_insert_ne; [done|simpl; congruence]|simpl; lia..|].
      rewrite E2. simpl. rewrite advance_eq by lia. rewrite insert_insert_eq. exists b2.
      repeat split; [lia|intros i Hi; unfold ring_ix; zbool; try lia..].
      * rewrite Hout2, Hout by lia. done.
      * rewrite Hout2, Hin by lia. done.
      * replace (head rb + i - size rb) with (p_off (pbuf rb) + (head rb + i - size rb)) by lia.
        rewrite Hin2 by lia. simpl. f_equal. lia.
  - rewrite !clamp_min, (u32_small (tail rb - head rb)) by lia.
    intros Hn. replace (Z.min len _) with n by lia.
    destruct (memcpy_to h (padd (pbuf rb) (head rb)) src n b bs) as (b' & E & Hl & Hin & Hout);
      rewrite ?Hpd; try (simpl; done || lia).
    rewrite E. simpl. rewrite advance_eq by lia. exists b'. rewrite Hpd in *.
    repeat split; [done|intros i Hi; unfold ring_ix; zbool; try lia..].
    + apply Hout; lia.
    + apply Hout; lia.
    + apply Hin. lia.
Qed.

(** The destination after [user_rb_get] has delivered [n] bytes elsewhere. *)
Lemma get_block h rb b des d len n :
  rb_wf h rb b -> h !! p_blk des = Some d -> p_blk des ≠ p_blk (pbuf rb) ->
  0 <= len < 4294967296 -> n = Z.min len (user_rb_unread_size rb) ->
  0 <= p_off des -> p_off des + n <= zlen d ->
  exists d', user_rb_get h rb des len =
      Some (<[p_blk des := d']> h,
            mk_ringbuf (pbuf rb) (head rb) (rb_advance rb (tail rb) n) (size rb) (lock rb), n) /\
    zlen d' = zlen d /\
    (forall i, 0 <= i < n -> nthZ d' (p_off des + i) = nthZ b (ring_ix (size rb) (tail rb) i)).
Proof.
  intros W Hd Hne Hlen. rewrite (unread_eq _ _ _ W). unfold user_rb_get. destruct W as [Wb Wo Wsz Wst Wh Wt].
  assert (Hpd : forall k, p_off (padd (pbuf rb) k) = k) by (intros; unfold padd; simpl; lia).
  destruct (Z.leb_spec (tail rb) (head rb)) as [Hle|Hgt].
  - rewrite !clamp_min, (u32_small (head rb - tail rb)) by lia.
    intros Hn Hoff Hroom. replace (Z.min len _) with n by lia.
    destruct (memcpy_to h des (padd (pbuf rb) (tail rb)) n d b) as (d' & E & Hl & Hin & _);
      rewrite ?Hpd; try (simpl; done || lia).
    rewrite E. simpl. rewrite advance_eq by lia. exists d'. rewrite Hpd in *.
    repeat split; [done|]. intros i Hi. rewrite Hin by lia. unfold ring_ix. zbool; done || lia.
  - rewrite !clamp_min, (u32_small (_ + _ - _)), (u32_small (size rb - tail rb)) by lia.
    intros Hn Hoff Hroom. replace (Z.min len _) with n by lia.
    destruct (Z.leb_spec n (size rb - tail rb)).
    + destruct (memcpy_to h des (padd (pbuf rb) (tail rb)) n d b) as (d' & E & Hl & Hin & _);
        rewrite ?Hpd; try (simpl; done || lia).
      rewrite E. simpl. rewrite advance_eq by lia. exists d'. rewrite Hpd in *.
      repeat split; [done|]. intros i Hi. rewrite Hin by lia. unfold ring_ix. zbool; try lia.
    + destruct (memcpy_to h des (padd (pbuf rb) (tail rb)) (size rb - tail rb) d b) as (d1 & E & Hl & Hin & Hout);
        rewrite ?Hpd; try (simpl; done || lia).
      rewrite E. simpl. rewrite u32_small by lia. rewrite Hpd in *.
      destruct (memcpy_to (<[p_blk des := d1]> h) (padd des (size rb - tail rb)) (pbuf rb)
                  (n - (size rb - tail rb)) d1 b) as (d2 & E2 & Hl2 & Hin2 & Hout2);
        [simpl; congruence|apply lookup_insert_eq|rewrite lookup_insert_ne; done|simpl; lia..|].
      rewrite E2. simpl. rewrite advance_eq by lia. rewrite insert_insert_eq. exists d2.
      repeat split; [lia|]. intros i Hi. unfold ring_ix. simpl in *. zbool; try lia.
      * rewrite Hout2, Hin by lia. done.
      * replace (p_off des + i) with (p_off des + (size rb - tail rb) + (tail rb + i - size rb)) by lia.
        rewrite Hin2 by lia. f_equal. lia.
Qed.

Lemma advance_range rb p n :
  0 <= p < size rb -> 0 <= n <= size rb -> 0 <= rb_advance rb p n < size rb.
Proof. intros. unfold rb_advance. zbool; lia. Qed.

(** Unread bytes after the cursors have moved. *)
Lemma unread_put h rb b n :
  rb_wf h rb b -> 0 <= n <= rb_free rb ->
  user_rb_unread_size (mk_ringbuf (pbuf rb) (rb_advance rb (head rb) n) (tail rb) (size rb) (lock rb)) =
  if user_rb_unread_size rb + n =? size rb then 0 else user_rb_unread_size rb + n.
Proof.
  intros W. unfold rb_free. rewrite (unread_eq _ _ _ W). destruct W.
  unfold user_rb_unread_size, rb_advance; simpl. intros.
  zbool; try lia; rewrite u32_small by lia; lia.
Qed.

Lemma unread_get h rb b n :
  rb_wf h rb b -> 0 <= n <= user_rb_unread_size rb ->
  user_rb_unread_size (mk_ringbuf (pbuf rb) (head rb) (rb_advance rb (tail rb) n) (size rb) (lock rb)) =
  user_rb_unread_size rb - n.
Proof.
  intros W. rewrite (unread_eq _ _ _ W). destruct W.
  unfold user_rb_unread_size, rb_advance; simpl. intros.
  zbool; try lia; rewrite u32_small by lia; lia.
Qed.

Lemma wf_move h rb b b' hd tl :
  rb_wf h rb b -> zlen b' = zlen b -> 0 <= hd < size rb -> 0 <= tl < size rb ->
  rb_wf (<[p_blk (pbuf rb) := b']> h) (mk_ringbuf (pbuf rb) hd tl (size rb) (lock rb)) b'.
Proof. intros [] ???. split; simpl; try done; [apply lookup_insert_eq|lia]. Qed.

Lemma wf_other h rb b q d : rb_wf h rb b -> q ≠ p_blk (pbuf rb) -> rb_wf (<[q := d]> h) rb b.
Proof. intros [] ?. split; try done. by rewrite lookup_insert_ne. Qed.

(** ** What each operation does to the contents *)

Lemma rb_put_run h rb b src bs len :
  rb_wf h rb b -> h !! p_blk src = Some bs -> p_blk src ≠ p_blk (pbuf rb) ->
  0 <= len < 4294967296 -> 0 <= p_off src -> p_off src + len <= zlen bs ->
  let n := Z.min len (rb_free rb) in
  exists b' rb', user_rb_put h rb src len = Some (<[p_blk (pbuf rb) := b']> h, rb', n) /\
    rb_wf (<[p_blk (pbuf rb) := b']> h) rb' b' /\
    rb_contents rb' b' =
      if user_rb_unread_size rb + n =? size rb then []
      else rb_contents rb b ++ tab n (λ i, nthZ bs (p_off src + i)).
Proof.
  intros W Hs Hne Hlen Hoff Hbs n.
  pose proof (unread_range _ _ _ W) as Hu.
  assert (Hn : 0 <= n <= rb_free rb) by (unfold n, rb_free; lia).
  destruct (put_block h rb b src bs len n) as (b' & E & Hl & Hold & Hnew); try done.
  exists b', (mk_ringbuf (pbuf rb) (rb_advance rb (head rb) n) (tail rb) (size rb) (lock rb)).
  split; [done|]. split.
  { apply (wf_move _ _ b); [done|done|apply advance_range|]; destruct W; unfold rb_free in Hn; lia. }
  unfold rb_contents. simpl size. simpl tail. rewrite (unread_put h rb b) by done.
  unfold rb_free in Hn. zbool; [done|].
  apply ring_view_app; [lia|lia|done|]. intros i Hi.
  rewrite (head_ix h rb b) by (done || lia). apply Hnew. lia.
Qed.

(** [user_rb_put] accepts as many bytes as there is room for, never
    touches memory outside the ring and the source, keeps the ring well formed
    and appends what it accepted to the unread bytes, except when it fills the
    last cell: then [head] meets [tail] and every unread byte is lost. *)
Theorem user_rb_put_spec h rb b src bs len :
  rb_wf h rb b -> h !! p_blk src = Some bs -> p_blk src ≠ p_blk (pbuf rb) ->
  0 <= len < 4294967296 -> 0 <= p_off src -> p_off src + len <= zlen bs ->
  let n := Z.min len (rb_free rb) in
  exists b' rb', user_rb_put h rb src len = Some (<[p_blk (pbuf rb) := b']> h, rb', n) /\
    rb_wf (<[p_blk (pbuf rb) := b']> h) rb' b' /\
    rb_contents rb' b' =
      if user_rb_unread_size rb + n =? size rb then []
      else rb_contents rb b ++ tab n (λ i, nthZ bs (p_off src + i)).
Proof. apply rb_put_run. Qed.

Lemma rb_get_run h rb b des d len :
  rb_wf h rb b -> h !! p_blk des = Some d -> p_blk des ≠ p_blk (pbuf rb) ->
  0 <= len < 4294967296 ->
  let n := Z.min len (user_rb_unread_size rb) in
  0 <= p_off des -> p_off des + n <= zlen d ->
  exists d' rb', user_rb_get h rb des len = Some (<[p_blk des := d']> h, rb', n) /\
    rb_wf (<[p_blk des := d']> h) rb' b /\
    mem_load (<[p_blk des := d']> h) des n = Some (take (Z.to_nat len) (rb_contents rb b)) /\
    rb_contents rb' b = drop (Z.to_nat len) (rb_contents rb b).
Proof.
  intros W Hd Hne Hlen n Hoff Hroom.
  pose proof (unread_range _ _ _ W) as Hu. assert (Hn : 0 <= n <= user_rb_unread_size rb) by lia.
  destruct (get_block h rb b des d len n) as (d' & E & Hl & Hin); try done.
  exists d', (mk_ringbuf (pbuf rb) (head rb) (rb_advance rb (tail rb) n) (size rb) (lock rb)).
  split; [done|]. split.
  { apply wf_other; [|done]. destruct W. split; try done. simpl. apply advance_range; lia. }
  split.
  - rewrite (mem_load_Some _ _ _ d') by (rewrite ?lookup_insert_eq; done || lia). f_equal.
    unfold rb_contents, ring_view. slist.
    rewrite nthZ_take, !nthZ_tab by lia. rewrite Hin by lia. done.
  - unfold rb_contents. simpl size. simpl tail. rewrite (unread_get h rb b) by done.
    destruct (Z.le_gt_cases len (user_rb_unread_size rb)).
    + rewrite ring_view_drop by (destruct W; lia). unfold rb_advance.
      replace n with len by lia. done.
    + replace n with (user_rb_unread_size rb) by lia.
      rewrite drop_ge; [|unfold ring_view, tab; rewrite length_fmap, length_seq; lia].
      apply tab_0. lia.
Qed.

(** [user_rb_get] delivers the oldest [min len unread] bytes into a
    destination outside the ring and removes exactly those. *)
Theorem user_rb_get_spec h rb b des d len :
  rb_wf h rb b -> h !! p_blk des = Some d -> p_blk des ≠ p_blk (pbuf rb) ->
  0 <= len < 4294967296 ->
  let n := Z.min len (user_rb_unread_size rb) in
  0 <= p_off des -> p_off des + n <= zlen d ->
  exists d' rb', user_rb_get h rb des len = Some (<[p_blk des := d']> h, rb', n) /\
    rb_wf (<[p_blk des := d']> h) rb' b /\
    mem_load (<[p_blk des := d']> h) des n = Some (take (Z.to_nat len) (rb_contents rb b)) /\
    rb_contents rb' b = drop (Z.to_nat len) (rb_contents rb b).
Proof. apply rb_get_run. Qed.

(** ** Refinement of a first-in first-out queue of bytes *)

(** A client call: it owns the blocks it passes as source and destination. *)
Inductive rb_op := RbPut (bytes : list Z) | RbGet (len : Z) | RbReset.

(** The contract: a queue bounded by [cap]; each call answers a count and the bytes delivered. *)
Definition fifo_step (cap : Z) (q : list Z) (op : rb_op) : list Z * (Z * list Z) :=
  match op with
  | RbPut bs => let n := Z.min (zlen bs) (cap - zlen q) in (q ++ take (Z.to_nat n) bs, (n, []))
  | RbGet len => (drop (Z.to_nat len) q, (Z.min len (zlen q), take (Z.to_nat len) q))
  | RbReset => ([], (0, []))
  end.

Fixpoint fifo_run (cap : Z) (q : list Z) (ops : list rb_op) : list (Z * list Z) :=
  match ops with
  | [] => []
  | op :: ops => let '(q', out) := fifo_step cap q op in out :: fifo_run cap q' ops
  end.

(** The calls keep one cell free and pass lengths a [uint32_t] holds. *)
Fixpoint fifo_fits (cap : Z) (q : list Z) (ops : list rb_op) : Prop :=
  match ops with
  | [] => True
  | op :: ops =>
      match op with
      | RbPut bs => zlen q + zlen bs < cap
      | RbGet len => 0 <= len < 4294967296
      | RbReset => True
      end /\ fifo_fits cap (fst (fifo_step cap q op)) ops
  end.

(** The same calls on the ring. *)
Definition rb_step (h : heap) (rb : ringbuf_t) (src des : positive) (op : rb_op) :
    option (heap * ringbuf_t * (Z * list Z)) :=
  match op with
  | RbPut bs =>
      '(h', rb', n) ← user_rb_put (<[src := bs]> h) rb (mk_ptr src 0) (zlen bs); Some (h', rb', (n, []))
  | RbGet len =>
      '(h', rb', n) ← user_rb_get (<[des := replicate (Z.to_nat len) 0]> h) rb (mk_ptr des 0) len;
      bytes ← mem_load h' (mk_ptr des 0) n; Some (h', rb', (n, bytes))
  | RbReset => '(h', rb') ← user_rb_reset h rb; Some (h', rb', (0, []))
  end.

Fixpoint rb_run (h : heap) (rb : ringbuf_t) (src des : positive) (ops : list rb_op) :
    option (list (Z * list Z)) :=
  match ops with
  | [] => Some []
  | op :: ops =>
      '(h', rb', out) ← rb_step h rb src des op;
      outs ← rb_run h' rb' src des ops; Some (out :: outs)
  end.

Lemma memset_Some h p v n b :
  h !! p_blk p = Some b -> 0 <= n -> 0 <= p_off p -> p_off p + n <= zlen b ->
  exists b', memset h p v n = Some (<[p_blk p := b']> h) /\ zlen b' = zlen b.
Proof.
  intros Hb ???. unfold memset. zfalse (n <? 0).
  destruct (mem_store_Some h p (replicate (Z.to_nat n) (u8 v)) b) as (b' & E & Hl & _); [done|lia|zlia|].
  eauto.
Qed.

Lemma zlen_contents h rb b : rb_wf h rb b -> zlen (rb_contents rb b) = user_rb_unread_size rb.
Proof. intros W. apply zlen_ring_view. pose proof (unread_range _ _ _ W). lia. Qed.

Lemma fifo_simulation h rb b src des op q :
  rb_wf h rb b -> src ≠ p_blk (pbuf rb) -> des ≠ p_blk (pbuf rb) ->
  rb_contents rb b = q -> fifo_fits (size rb) q [op] ->
  exists h' rb' b', rb_step h rb src des op = Some (h', rb', snd (fifo_step (size rb) q op)) /\
    rb_wf h' rb' b' /\ rb_contents rb' b' = fst (fifo_step (size rb) q op) /\
    pbuf rb' = pbuf rb /\ size rb' = size rb.
Proof.
  intros W Hs Hd Hq [Hfit _]. pose proof (zlen_contents _ _ _ W) as Hz. rewrite Hq in Hz.
  pose proof (unread_range _ _ _ W) as Hu. destruct op as [bs|len|]; simpl in *.
  - pose proof (zlen_nonneg bs). assert (size rb < 2147483648) by (destruct W; lia).
    destruct (rb_put_run (<[src := bs]> h) rb b (mk_ptr src 0) bs (zlen bs)) as (b' & rb' & E & W' & Hc);
      [by apply wf_other|by rewrite lookup_insert_eq|done|lia|simpl; lia|simpl; lia|].
    rewrite E. simpl. unfold rb_free in *. rewrite Z.min_l in * by lia.
    rewrite Hz. rewrite Z.min_l by lia.
    assert (Hrb : pbuf rb' = pbuf rb /\ size rb' = size rb).
    { unfold user_rb_put in E. destruct (if tail rb <=? head rb then _ else _) as [[? ?]|]; [|done].
      simpl in E. injection E as _ <- _. done. }
    eexists _, rb', b'. split; [done|]. split; [done|]. split; [|done].
    rewrite Hc, Hq. zbool; [lia|]. f_equal. simpl.
    unfold zlen at 2. rewrite Nat2Z.id, take_ge by lia. apply tab_nthZ.
  - destruct (rb_get_run (<[des := replicate (Z.to_nat len) 0]> h) rb b (mk_ptr des 0)
                (replicate (Z.to_nat len) 0) len) as (d' & rb' & E & W' & Hm & Hc);
      [by apply wf_other|by rewrite lookup_insert_eq|done|lia|simpl; lia|simpl; zlia|].
    rewrite E. simpl. simpl in Hm. rewrite Hm. simpl. rewrite Hz.
    assert (Hrb : pbuf rb' = pbuf rb /\ size rb' = size rb).
    { unfold user_rb_get in E. destruct (if tail rb <=? head rb then _ else _) as [[? ?]|]; [|done].
      simpl in E. injection E as _ <- _. done. }
    eexists _, rb', b. rewrite Hq in *. split; [done|]. split; [done|]. done.
  - destruct (memset_Some h (pbuf rb) 0 (size rb) b) as (b' & E & Hl); try (destruct W; done || lia).
    unfold user_rb_reset. rewrite E. simpl.
    eexists _, _, b'. split; [done|]. split; [apply (wf_move _ _ b); destruct W; done || lia|].
    split; [|done]. unfold rb_contents, user_rb_unread_size; simpl. done.
Qed.

(** C10: from [user_rb_init] on, any sequence of puts, gets and resets that
    keeps one cell free behaves as a bounded first-in first-out queue: every
    call answers what the queue answers, and no access leaves its block. *)
Theorem user_rb_refines_fifo h rb0 buf storage sz src des ops :
  h !! buf = Some storage -> 0 < sz < 2147483648 -> sz <= zlen storage ->
  src ≠ buf -> des ≠ buf -> fifo_fits sz [] ops ->
  exists h1 rb1, user_rb_init h (Some rb0) (Some (mk_ptr buf 0)) sz = Some (h1, Some rb1) /\
    rb_run h1 rb1 src des ops = Some (fifo_run sz [] ops).
Proof.
  intros Hb Hsz Hst Hs Hd Hfits. unfold user_rb_init. zfalse (sz =? 0).
  destruct (memset_Some h (mk_ptr buf 0) 0 sz storage) as (b1 & E & Hl); try (simpl; done || lia).
  rewrite E. simpl. eexists _, _. split; [done|].
  assert (W : rb_wf (<[buf := b1]> h) (mk_ringbuf (mk_ptr buf 0) 0 0 sz false) b1).
  { split; simpl; try done; try lia. apply lookup_insert_eq. }
  assert (Hq : rb_contents (mk_ringbuf (mk_ptr buf 0) 0 0 sz false) b1 = []) by done.
  change sz with (size (mk_ringbuf (mk_ptr buf 0) 0 0 sz false)) in Hfits |- * at 2.
  assert (Hp : p_blk (pbuf (mk_ringbuf (mk_ptr buf 0) 0 0 sz false)) = buf) by done.
  revert W Hq Hp Hfits. generalize (<[buf := b1]> h) as hh.
  generalize (mk_ringbuf (mk_ptr buf 0) 0 0 sz false) as rb. revert b1 E Hl.
  generalize (@nil Z) as q. intros q b1 _ _. revert q b1.
  induction ops as [|op ops IH]; intros q b rb hh W Hq Hp Hfits; [done|].
  destruct (fifo_simulation hh rb b src des op q) as (h' & rb' & b' & Es & W' & Hc' & Hp' & Hsz');
    rewrite ?Hp; try done; [destruct Hfits; done|].
  simpl. rewrite Es. simpl. destruct (fifo_step (size rb) q op) as [q' out] eqn:Ef. simpl in *.
  rewrite (IH q' b' rb' h'); rewrite ?Hp', ?Hsz'; try done.
  destruct Hfits as [_ Hf]. rewrite Ef in Hf. done.
Qed.

Lemma lock_spin_held n i :
  0 <= i < 50001 -> 50001 - i <= Z.of_nat n -> user_rb_lock_spin n true i = Some 50001.
Proof.
  revert i. induction n as [|n IH]; intros i Hi Hn; [lia|].
  cbn [user_rb_lock_spin]. rewrite u32_small by lia.
  destruct (Z.ltb_spec 50000 (i + 1)); [f_equal; lia|apply IH; lia].
Qed.

(** the spin of [user_rb_lock] ends after at most 50001 rounds and the
    lock is then taken, whether or not it was free; the unread bytes are kept. *)
Theorem user_rb_lock_terminates rb fuel :
  50001 <= Z.of_nat fuel ->
  exists rb', user_rb_lock fuel rb = Some rb' /\ lock rb' = true /\
    user_rb_unread_size rb' = user_rb_unread_size rb.
Proof.
  intros Hf. unfold user_rb_lock. destruct (lock rb).
  - rewrite lock_spin_held by lia. simpl. eauto.
  - destruct fuel; [lia|]. simpl. eauto.
Qed.

(** ** The theorems at concrete inputs *)

Definition sample_heap : heap := <[1%positive := replicate 4 0]> (<[2%positive := [7; 8; 9]]> ∅).
Definition sample_ring : ringbuf_t := mk_ringbuf (mk_ptr 1%positive 0) 2 1 4 false.

Lemma sample_ring_wf : rb_wf sample_heap sample_ring (replicate 4 0).
Proof. split; try done; cbn; lia. Qed.

Lemma user_rb_put_spec_witness :
  exists b' rb', user_rb_put sample_heap sample_ring (mk_ptr 2%positive 1) 2 = Some (<[1%positive := b']> sample_heap, rb', 2) /\
    rb_contents rb' b' = [0; 8; 9].
Proof.
  destruct (user_rb_put_spec sample_heap sample_ring (replicate 4 0) (mk_ptr 2%positive 1) [7; 8; 9] 2 sample_ring_wf)
    as (b' & rb' & E & _ & C); [done|done|lia|cbn; lia|vm_compute; discriminate|].
  exists b', rb'. split; [exact E|exact C].
Defined.

Lemma user_rb_get_spec_witness :
  exists d' rb', user_rb_get sample_heap sample_ring (mk_ptr 2%positive 0) 3 = Some (<[2%positive := d']> sample_heap, rb', 1).
Proof.
  destruct (user_rb_get_spec sample_heap sample_ring (replicate 4 0) (mk_ptr 2%positive 0) [7; 8; 9] 3 sample_ring_wf)
    as (d' & rb' & E & _); [done|done|lia|cbn; lia|vm_compute; discriminate|].
  exists d', rb'. exact E.
Defined.

Lemma user_rb_refines_fifo_witness :
  exists h1 rb1, user_rb_init sample_heap (Some sample_ring) (Some (mk_ptr 1%positive 0)) 4 = Some (h1, Some rb1) /\
    rb_run h1 rb1 3 2 [RbPut [5; 6]; RbGet 1; RbPut [7]; RbGet 3] = Some (fifo_run 4 [] [RbPut [5; 6]; RbGet 1; RbPut [7]; RbGet 3]).
Proof.
  apply (user_rb_refines_fifo sample_heap sample_ring 1 (replicate 4 0) 4 3 2 [RbPut [5; 6]; RbGet 1; RbPut [7]; RbGet 3]);
    try done; vm_compute; repeat split; done || (intros; discriminate).
Defined.

Lemma user_rb_lock_terminates_witness :
  exists rb', user_rb_lock (Z.to_nat 50001) (mk_ringbuf (mk_ptr 1%positive 0) 2 1 4 true) = Some rb' /\ lock rb' = true.
Proof.
  destruct (user_rb_lock_terminates (mk_ringbuf (mk_ptr 1%positive 0) 2 1 4 true) (Z.to_nat 50001)) as (rb' & E & L & _); [lia|].
  exists rb'. split; [exact E|exact L].
Defined.
