(* ===== verification/MqttRing.v ===== *)
(** * MqttRing: the character ring of esp_mqtt_proj/mqtt/ringbuf.c

    The bytes behind [p_o] are the field [p_o]; [p_r] and [p_w] are offsets
    from it.  The interface [ByteQueue] is what proto.c relies on; the ring is
    its instance. *)

From S2P Require Import Prelude CMem.

(** ** The interface: a bounded queue of bytes with the ring's calling convention *)

Class ByteQueue (Q : Type) := {
  bq_put : Q -> Z -> option (Q * Z);
  bq_get : Q -> Z -> option (Q * Z * Z) }.

Class ByteQueueLaws (Q : Type) `{ByteQueue Q} := {
  bq_inv : Q -> Prop;
  bq_contents : Q -> list Z;
  bq_cap : Q -> Z;
  bq_bound q : bq_inv q -> zlen (bq_contents q) <= bq_cap q;
  bq_put_room q c : bq_inv q -> zlen (bq_contents q) < bq_cap q -> is_byte c ->
    exists q', bq_put q c = Some (q', 0) /\ bq_inv q' /\
      bq_contents q' = bq_contents q ++ [c] /\ bq_cap q' = bq_cap q;
  bq_put_full q c : bq_inv q -> zlen (bq_contents q) = bq_cap q -> bq_put q c = Some (q, -1);
  bq_get_cons q c0 c l : bq_inv q -> bq_contents q = c :: l ->
    exists q', bq_get q c0 = Some (q', 0, c) /\ bq_inv q' /\ bq_contents q' = l /\ bq_cap q' = bq_cap q;
  bq_get_nil q c0 : bq_inv q -> bq_contents q = [] -> bq_get q c0 = Some (q, -1, c0) }.

(** ** ringbuf.c *)

Record RINGBUF := mk_RINGBUF {
  p_o : list Z; p_r : Z; p_w : Z; fill_cnt : Z; rb_size : Z }.

(** [RINGBUF_Init]; a null pointer is [None].  The answer is the object and the return code. *)
Definition RINGBUF_Init (r : option RINGBUF) (buf : option (list Z)) (size : Z) : option RINGBUF * Z :=
  match r, buf with
  | Some _, Some b => if size <? 2 then (r, -1) else (Some (mk_RINGBUF b 0 0 0 size), 0)
  | _, _ => (r, -1)
  end.

Definition RINGBUF_Put (r : RINGBUF) (c : Z) : option (RINGBUF * Z) :=
  if rb_size r <=? fill_cnt r then Some (r, -1) else
  b ← wr (p_o r) (p_w r) c;
  let w := p_w r + 1 in
  let w := if rb_size r <=? w then 0 else w in
  Some (mk_RINGBUF b (p_r r) w (fill_cnt r + 1) (rb_size r), 0).

(** [RINGBUF_Get( r, &c )]: the object, the return code and the value of [c] afterwards. *)
Definition RINGBUF_Get (r : RINGBUF) (c : Z) : option (RINGBUF * Z * Z) :=
  if fill_cnt r <=? 0 then Some (r, -1, c) else
  v ← rd (p_o r) (p_r r);
  let q := p_r r + 1 in
  let q := if rb_size r <=? q then 0 else q in
  Some (mk_RINGBUF (p_o r) q (p_w r) (fill_cnt r - 1) (rb_size r), 0, v).

(** ** Invariant and contents *)

Record RINGBUF_inv (r : RINGBUF) : Prop := mk_RINGBUF_inv {
  inv_size : 2 <= rb_size r;
  inv_buf : rb_size r <= zlen (p_o r);
  inv_r : 0 <= p_r r < rb_size r;
  inv_fill : 0 <= fill_cnt r <= rb_size r;
  inv_w : p_w r = if p_r r + fill_cnt r <? rb_size r then p_r r + fill_cnt r else p_r r + fill_cnt r - rb_size r }.

Definition RINGBUF_contents (r : RINGBUF) : list Z :=
  ring_view (rb_size r) (p_o r) (p_r r) (fill_cnt r).

Lemma RINGBUF_Init_inv r b size :
  2 <= size -> size <= zlen b ->
  exists r', RINGBUF_Init (Some r) (Some b) size = (Some r', 0) /\
    RINGBUF_inv r' /\ RINGBUF_contents r' = [] /\ rb_size r' = size.
Proof.
  intros. unfold RINGBUF_Init. zfalse (size <? 2). eexists; split; [done|].
  split; [|done]. split; simpl; try lia. zbool; lia.
Qed.

Lemma RINGBUF_zlen r : RINGBUF_inv r -> zlen (RINGBUF_contents r) = fill_cnt r.
Proof. intros []. apply zlen_ring_view. lia. Qed.

Lemma RINGBUF_Put_room r c :
  RINGBUF_inv r -> fill_cnt r < rb_size r ->
  exists r', RINGBUF_Put r c = Some (r', 0) /\ RINGBUF_inv r' /\
    RINGBUF_contents r' = RINGBUF_contents r ++ [c] /\ rb_size r' = rb_size r.
Proof.
  intros [Hs Hb Hr Hf Hw] Hroom. unfold RINGBUF_Put. zfalse (rb_size r <=? fill_cnt r).
  destruct (wr_Some (p_o r) (p_w r) c) as (b & E & Hl & Hn); [rewrite Hw; zbool; lia|].
  rewrite E. simpl. eexists; split; [done|]. split; [|split; [|done]].
  - split; simpl; try lia. rewrite Hw. zbool; lia.
  - unfold RINGBUF_contents; simpl. change [c] with (tab 1 (λ _, c)). apply ring_view_app; [lia..| |].
    + intros i Hi. rewrite Hn by (unfold ring_ix; zbool; lia). rewrite Hw.
      unfold ring_ix. zbool; done || lia.
    + intros i Hi. rewrite Hn by (unfold ring_ix; zbool; lia). rewrite Hw. unfold ring_ix. zbool; done || lia.
Qed.

Lemma RINGBUF_Get_cons r c0 c l :
  RINGBUF_inv r -> RINGBUF_contents r = c :: l ->
  exists r', RINGBUF_Get r c0 = Some (r', 0, c) /\ RINGBUF_inv r' /\
    RINGBUF_contents r' = l /\ rb_size r' = rb_size r.
Proof.
  intros W Hc. pose proof (RINGBUF_zlen r W) as Hz. rewrite Hc, zlen_cons in Hz. pose proof (zlen_nonneg l).
  destruct W as [Hs Hb Hr Hf Hw]. unfold RINGBUF_Get. zfalse (fill_cnt r <=? 0).
  rewrite rd_Some by lia. simpl.
  assert (c = nthZ (p_o r) (p_r r) /\ l = drop (Z.to_nat 1) (RINGBUF_contents r)) as [-> ->].
  { rewrite Hc. split; [|done]. unfold RINGBUF_contents, ring_view in Hc.
    replace (fill_cnt r) with (1 + (fill_cnt r - 1)) in Hc by lia. rewrite tab_cons in Hc by lia.
    injection Hc as <- _. unfold ring_ix. zbool; try lia; f_equal; lia. }
  eexists; split; [done|]. split; [|split; [|done]].
  - split; simpl; try lia; [zbool; lia|]. rewrite Hw. zbool; lia.
  - unfold RINGBUF_contents; simpl. rewrite ring_view_drop by lia. f_equal. zbool; lia.
Qed.

#[export] Instance RINGBUF_queue : ByteQueue RINGBUF := {
  bq_put := RINGBUF_Put; bq_get := RINGBUF_Get }.

#[export, refine] Instance RINGBUF_queue_laws : ByteQueueLaws RINGBUF := {
  bq_inv := RINGBUF_inv; bq_contents := RINGBUF_contents; bq_cap := rb_size }.
Proof.
  - intros q W. rewrite RINGBUF_zlen by done. destruct W. lia.
  - intros q c W Hz Hc. rewrite RINGBUF_zlen in Hz by done. by apply RINGBUF_Put_room.
  - intros q c W Hz. rewrite RINGBUF_zlen in Hz by done. simpl. unfold RINGBUF_Put. by ztrue (rb_size q <=? fill_cnt q).
  - intros q c0 c l W Hc. by apply RINGBUF_Get_cons.
  - intros q c0 W Hc. assert (fill_cnt q = 0) by (rewrite <- RINGBUF_zlen, Hc by done; done).
    simpl. unfold RINGBUF_Get. by ztrue (fill_cnt q <=? 0).
Defined.
