(* ===== verification/MqttProto.v ===== *)
(** * MqttProto: message framing and the message queue

    esp_mqtt_proj/mqtt/proto.c frames a message between 0x7E and 0x7F and
    escapes these bytes and 0x7D inside it; queue.c stores framed messages in
    the character ring.  proto.c is modelled over the interface [ByteQueue] of
    MqttRing and proved against its laws. *)

From stdpp Require Import tactics.
From S2P Require Import Prelude CMem MqttRing.

(** ** proto.c: the parser *)

Record PROTO_PARSER := mk_PROTO {
  pp_buf : list Z; pp_bufSize : Z; pp_dataLen : Z; pp_isEsc : Z; pp_isBegin : Z;
  pp_callback : bool }.

(** [PROTO_Init] leaves [isBegin] as it finds it. *)
Definition PROTO_Init (parser : PROTO_PARSER) (completeCallback : bool) (buf : list Z) (bufSize : Z) :
    PROTO_PARSER * Z :=
  (mk_PROTO buf bufSize 0 0 (pp_isBegin parser) completeCallback, 0).

(** [PROTO_ParseByte]: the parser, the return code and whether the callback ran. *)
Definition PROTO_ParseByte (parser : PROTO_PARSER) (value : Z) : option (PROTO_PARSER * Z * bool) :=
  let '(mk_PROTO buf bufSize dataLen isEsc isBegin cb) := parser in
  if value =? 0x7D then Some (mk_PROTO buf bufSize dataLen 1 isBegin cb, -1, false)
  else if value =? 0x7E then Some (mk_PROTO buf bufSize 0 0 1 cb, -1, false)
  else if value =? 0x7F then Some (mk_PROTO buf bufSize dataLen isEsc 0 cb, 0, cb)
  else if isBegin =? 0 then Some (parser, -1, false)
  else
    let value := if isEsc =? 0 then value else Z.lxor value 0x20 in
    let isEsc := if isEsc =? 0 then isEsc else 0 in
    if dataLen <? bufSize then
      buf' ← wr buf dataLen value;
      Some (mk_PROTO buf' bufSize (u16 (dataLen + 1)) isEsc isBegin cb, -1, false)
    else Some (mk_PROTO buf bufSize dataLen isEsc isBegin cb, -1, false).

(** [PROTO_Parse]: [n] bytes of [buf] from [ix]; how often the callback ran. *)
Fixpoint PROTO_Parse_loop (n : nat) (parser : PROTO_PARSER) (buf : list Z) (ix calls : Z) :
    option (PROTO_PARSER * Z) :=
  match n with
  | O => Some (parser, calls)
  | S n => v ← rd buf ix;
      '(parser', _, c) ← PROTO_ParseByte parser v;
      PROTO_Parse_loop n parser' buf (ix + 1) (calls + b2z c)
  end.

Definition PROTO_Parse (parser : PROTO_PARSER) (buf : list Z) (len : Z) : option (PROTO_PARSER * Z) :=
  PROTO_Parse_loop (Z.to_nat len) parser buf 0 0.

(** [PROTO_Add]: stores the framed packet into [buf]; the packet's first two
    bytes hold its length.  The answer is the buffer and the return code. *)
Fixpoint PROTO_Add_loop (n : nat) (buf packet : list Z) (o ix i bufSize : Z) :
    option (list Z * option (Z * Z * Z)) :=
  match n with
  | O => Some (buf, Some (o, i, bufSize))
  | S n =>
      c ← rd packet ix;
      if (c =? 0x7D) || (c =? 0x7E) || (c =? 0x7F) then
        if bufSize <? 2 then Some (buf, None) else
        buf1 ← wr buf o 0x7D; buf2 ← wr buf1 (o + 1) (Z.lxor c 0x20);
        PROTO_Add_loop n buf2 packet (o + 2) (ix + 1) (u16 (i + 2)) (bufSize - 2)
      else
        if bufSize <? 1 then Some (buf, None) else
        buf1 ← wr buf o c;
        PROTO_Add_loop n buf1 packet (o + 1) (ix + 1) (u16 (i + 1)) (bufSize - 1)
  end.

Definition PROTO_Add (buf packet : list Z) (bufSize : Z) : option (list Z * Z) :=
  lo ← rd packet 0; hi ← rd packet 1;
  let len := lo + 256 * hi in
  if bufSize <? 1 then Some (buf, -1) else
  buf1 ← wr buf 0 0x7E;
  '(buf2, res) ← PROTO_Add_loop (Z.to_nat len) buf1 packet 1 0 2 (bufSize - 1);
  match res with
  | None => Some (buf2, -1)
  | Some (o, i, bufSize) =>
      if bufSize <? 1 then Some (buf2, -1) else
      buf3 ← wr buf2 o 0x7F; Some (buf3, i16 i)
  end.

Section Proto.
Context {Q : Type} `{ByteQueue Q}.

(** The loop of [PROTO_ParseRb]; [c] is the local variable the ring fills. *)
Fixpoint PROTO_ParseRb_loop (fuel : nat) (rb : Q) (proto : PROTO_PARSER) (c : Z) :
    option (Q * PROTO_PARSER * Z) :=
  match fuel with
  | O => None
  | S fuel =>
      '(rb', r, c') ← bq_get rb c;
      if r =? 0 then
        '(proto', r', _) ← PROTO_ParseByte proto c';
        if r' =? 0 then Some (rb', proto', 0) else PROTO_ParseRb_loop fuel rb' proto' c'
      else Some (rb', proto, -1)
  end.

(** [PROTO_ParseRb( rb, bufOut, &len, maxBufLen )]; [proto0] and [c0] are the
    uninitialised locals.  The answer is the ring, [bufOut], [len] and the return code. *)
Definition PROTO_ParseRb (fuel : nat) (proto0 : PROTO_PARSER) (c0 : Z)
    (rb : Q) (bufOut : list Z) (len maxBufLen : Z) : option (Q * list Z * Z * Z) :=
  let proto := fst (PROTO_Init proto0 false bufOut maxBufLen) in
  '(rb', proto', r) ← PROTO_ParseRb_loop fuel rb proto c0;
  if r =? 0 then Some (rb', pp_buf proto', pp_dataLen proto', 0)
  else Some (rb', pp_buf proto', len, -1).

(** The loop of [PROTO_AddRb]; [None] as the count is the early [return -1]. *)
Fixpoint PROTO_AddRb_loop (n : nat) (rb : Q) (packet : list Z) (ix i : Z) : option (Q * option Z) :=
  match n with
  | O => Some (rb, Some i)
  | S n =>
      c ← rd packet ix;
      if (c =? 0x7D) || (c =? 0x7E) || (c =? 0x7F) then
        '(rb1, r1) ← bq_put rb 0x7D;
        if r1 =? -1 then Some (rb1, None) else
        '(rb2, r2) ← bq_put rb1 (Z.lxor c 0x20);
        if r2 =? -1 then Some (rb2, None) else
        PROTO_AddRb_loop n rb2 packet (ix + 1) (u16 (i + 2))
      else
        '(rb1, r1) ← bq_put rb c;
        if r1 =? -1 then Some (rb1, None) else
        PROTO_AddRb_loop n rb1 packet (ix + 1) (u16 (i + 1))
  end.

(** [len] is an [I16]: counting it down to zero takes [len mod 65536] rounds. *)
Definition PROTO_AddRb (rb : Q) (packet : list Z) (len : Z) : option (Q * Z) :=
  '(rb1, r) ← bq_put rb 0x7E;
  if r =? -1 then Some (rb1, -1) else
  '(rb2, i) ← PROTO_AddRb_loop (Z.to_nat (u16 len)) rb1 packet 0 2;
  match i with
  | None => Some (rb2, -1)
  | Some i =>
      '(rb3, r3) ← bq_put rb2 0x7F;
      if r3 =? -1 then Some (rb3, -1) else Some (rb3, i16 i)
  end.
End Proto.

(** ** queue.c *)

(** [buf] of the source is the storage of [q_rb]; [q_buf] says it was allocated. *)
Record QUEUE := mk_QUEUE { q_buf : bool; q_rb : RINGBUF }.

(** [QUEUE_Init]; [alloc] is what [os_zalloc] answers. *)
Definition QUEUE_Init (queue : QUEUE) (alloc : option (list Z)) (bufferSize : Z) : QUEUE :=
  match RINGBUF_Init (Some (q_rb queue)) alloc bufferSize with
  | (Some rb, _) => mk_QUEUE (if alloc is Some _ then true else false) rb
  | (None, _) => mk_QUEUE (if alloc is Some _ then true else false) (q_rb queue)
  end.

Definition QUEUE_Puts (queue : QUEUE) (buffer : list Z) (len : Z) : option (QUEUE * Z) :=
  '(rb, r) ← PROTO_AddRb (q_rb queue) buffer (i16 len); Some (mk_QUEUE (q_buf queue) rb, r).

Definition QUEUE_Gets (fuel : nat) (proto0 : PROTO_PARSER) (c0 : Z) (queue : QUEUE)
    (buffer : list Z) (len maxLen : Z) : option (QUEUE * list Z * Z * Z) :=
  '(rb, buf, l, r) ← PROTO_ParseRb fuel proto0 c0 (q_rb queue) buffer len maxLen;
  Some (mk_QUEUE (q_buf queue) rb, buf, l, r).

Definition QUEUE_IsEmpty (queue : QUEUE) : bool := fill_cnt (q_rb queue) <=? 0.

(** ** The frame of a message *)

Definition stuff_byte (c : Z) : list Z :=
  if (c =? 0x7D) || (c =? 0x7E) || (c =? 0x7F) then [0x7D; Z.lxor c 0x20] else [c].
Definition stuff (p : list Z) : list Z := flat_map stuff_byte p.
Definition frame (p : list Z) : list Z := 0x7E :: stuff p ++ [0x7F].

Lemma stuff_cons c p : stuff (c :: p) = stuff_byte c ++ stuff p.
Proof. done. Qed.

Lemma stuff_byte_cases c :
  is_byte c ->
  (c = 0x7D \/ c = 0x7E \/ c = 0x7F) /\ stuff_byte c = [0x7D; Z.lxor c 0x20] /\
    0x5D <= Z.lxor c 0x20 <= 0x5F \/
  c ≠ 0x7D /\ c ≠ 0x7E /\ c ≠ 0x7F /\ stuff_byte c = [c].
Proof.
  intros _. unfold stuff_byte.
  destruct (Z.eqb_spec c 0x7D) as [->|]; [left; split; [lia|split; [done|vm_compute; split; done]]|].
  destruct (Z.eqb_spec c 0x7E) as [->|]; [left; split; [lia|split; [done|vm_compute; split; done]]|].
  destruct (Z.eqb_spec c 0x7F) as [->|]; [left; split; [lia|split; [done|vm_compute; split; done]]|].
  right. done.
Qed.

Lemma stuff_bytes p : Forall is_byte p -> Forall (λ c, is_byte c /\ c ≠ 0x7F) (stuff p).
Proof.
  induction 1 as [|c p Hc _ IH]; [done|]. rewrite stuff_cons, Forall_app. split; [|done].
  destruct (stuff_byte_cases c Hc) as [(_ & -> & ?)|(? & ? & ? & ->)]; repeat constructor; unfold is_byte in *; lia.
Qed.

Lemma zlen_frame p : zlen (frame p) = 2 + zlen (stuff p).
Proof. unfold frame. rewrite zlen_cons, zlen_app, zlen_cons, zlen_nil. lia. Qed.

Lemma stuff_len_ge p : zlen p <= zlen (stuff p).
Proof.
  induction p as [|c p IH]; [done|]. rewrite stuff_cons, zlen_app, zlen_cons.
  unfold stuff_byte. destruct (_ || _); rewrite !zlen_cons, zlen_nil; lia.
Qed.

(** A prefix of a frame that stops before the closing byte holds no 0x7F. *)
Lemma partial_frame p k :
  Forall is_byte p -> 0 <= k < zlen (frame p) -> Forall (λ c, c ≠ 0x7F) (take (Z.to_nat k) (frame p)).
Proof.
  intros Hp Hk. rewrite zlen_frame in Hk. unfold frame. change (0x7E :: stuff p ++ [0x7F]) with ((0x7E :: stuff p) ++ [0x7F]).
  rewrite take_app_le by (simpl; unfold zlen in Hk; lia).
  apply Forall_take. constructor; [done|]. eapply Forall_weaken; [by apply stuff_bytes|]. simpl; tauto.
Qed.

Section Framing.
Context {Q : Type} `{LQ : ByteQueueLaws Q}.

(** Putting bytes one after the other until the queue is full. *)
Fixpoint bq_puts (q : Q) (l : list Z) : option (Q * bool) :=
  match l with
  | [] => Some (q, true)
  | c :: l => '(q', r) ← bq_put q c; if r =? -1 then Some (q', false) else bq_puts q' l
  end.

Lemma bq_puts_app q l k :
  bq_puts q (l ++ k) = '(q', ok) ← bq_puts q l; if (ok : bool) then bq_puts q' k else Some (q', false).
Proof.
  revert q. induction l as [|c l IH]; intros q; simpl; [done|].
  destruct (bq_put q c) as [[q' r]|]; simpl; [|done]. destruct (r =? -1); [done|apply IH].
Qed.

Lemma bq_puts_spec q l :
  bq_inv q -> Forall is_byte l ->
  let room := bq_cap q - zlen (bq_contents q) in
  exists q', bq_puts q l = Some (q', zlen l <=? room) /\ bq_inv q' /\ bq_cap q' = bq_cap q /\
    bq_contents q' = bq_contents q ++ take (Z.to_nat room) l.
Proof.
  intros Hq Hl. revert q Hq. induction Hl as [|c l Hc _ IH]; intros q Hq; simpl.
  - pose proof (bq_bound q Hq). exists q. rewrite zlen_nil, take_nil, app_nil_r.
    ztrue (0 <=? bq_cap q - zlen (bq_contents q)). done.
  - pose proof (bq_bound q Hq). pose proof (zlen_nonneg l). rewrite zlen_cons.
    destruct (Z.eq_dec (zlen (bq_contents q)) (bq_cap q)) as [Hf|Hr].
    + rewrite (bq_put_full q c) by done. simpl. exists q.
      zfalse (1 + zlen l <=? bq_cap q - zlen (bq_contents q)).
      replace (Z.to_nat (bq_cap q - zlen (bq_contents q))) with O by lia.
      rewrite take_0, app_nil_r. done.
    + destruct (bq_put_room q c) as (q1 & E & Hq1 & Hc1 & Hcap1); [done|lia|done|].
      rewrite E. simpl. destruct (IH q1 Hq1) as (q2 & E2 & Hq2 & Hcap2 & Hc2).
      exists q2. rewrite E2, Hcap2, Hcap1, Hc2, Hc1 in *. rewrite zlen_app, zlen_cons, zlen_nil in *.
      split; [do 2 f_equal; zbool; done || lia|]. split; [done|]. split; [done|].
      rewrite <- app_assoc. f_equal.
      replace (Z.to_nat (bq_cap q - zlen (bq_contents q))) with (S (Z.to_nat (bq_cap q - (zlen (bq_contents q) + (1 + 0))))) by lia.
      done.
Qed.

(** [PROTO_AddRb_loop] puts the escaped bytes and counts them. *)
Lemma AddRb_loop_eq rb packet ix i p :
  0 <= ix -> ix + zlen p <= zlen packet -> (forall j, 0 <= j < zlen p -> nthZ packet (ix + j) = nthZ p j) ->
  0 <= i -> i + zlen (stuff p) < 65536 ->
  PROTO_AddRb_loop (length p) rb packet ix i =
  ('(rb', ok) ← bq_puts rb (stuff p); Some (rb', if (ok : bool) then Some (i + zlen (stuff p)) else None)).
Proof.
  revert rb ix i. induction p as [|c p IH]; intros rb ix i Hix Hlen Hnth Hi Hb.
  { simpl. rewrite zlen_nil, Z.add_0_r. done. }
  rewrite zlen_cons in *. pose proof (zlen_nonneg p). pose proof (zlen_nonneg (stuff p)).
  cbn [length PROTO_AddRb_loop]. rewrite rd_Some by lia. cbn [mbind option_bind].
  assert (Hc : nthZ packet ix = c) by (specialize (Hnth 0 ltac:(lia)); rewrite Z.add_0_r in Hnth; done). rewrite Hc.
  assert (Hp : forall j, 0 <= j < zlen p -> nthZ packet (ix + 1 + j) = nthZ p j).
  { intros j Hj. rewrite <- Z.add_assoc, Hnth, nthZ_cons_S by lia. done. }
  rewrite stuff_cons, bq_puts_app. rewrite stuff_cons, zlen_app in *. unfold stuff_byte in *.
  destruct ((c =? 0x7D) || (c =? 0x7E) || (c =? 0x7F)); rewrite ?zlen_cons, zlen_nil in *; cbn [bq_puts].
  - destruct (bq_put rb 0x7D) as [[rb1 r1]|]; cbn [mbind option_bind]; [|done]. destruct (r1 =? -1); [done|].
    destruct (bq_put rb1 (Z.lxor c 32)) as [[rb2 r2]|]; cbn [mbind option_bind]; [|done]. destruct (r2 =? -1); [done|].
    rewrite (u16_small (i + 2)), IH by (done || lia). cbn [mbind option_bind].
    destruct (bq_puts rb2 (stuff p)) as [[rb3 [|]]|]; cbn [mbind option_bind]; try done. do 3 f_equal. lia.
  - destruct (bq_put rb c) as [[rb1 r1]|]; cbn [mbind option_bind]; [|done]. destruct (r1 =? -1); [done|].
    rewrite (u16_small (i + 1)), IH by (done || lia). cbn [mbind option_bind].
    destruct (bq_puts rb1 (stuff p)) as [[rb3 [|]]|]; cbn [mbind option_bind]; try done. do 3 f_equal. lia.
Qed.

(** [PROTO_AddRb] puts the frame. *)
Lemma AddRb_eq rb packet len :
  0 <= len <= zlen packet -> len < 32768 ->
  let p := take (Z.to_nat len) packet in
  zlen (frame p) < 32768 ->
  PROTO_AddRb rb packet len =
  ('(rb', ok) ← bq_puts rb (frame p); Some (rb', if (ok : bool) then zlen (frame p) else -1)).
Proof.
  intros Hlen H16 p Hf. assert (Hp : zlen p = len) by (unfold p; rewrite zlen_take; lia).
  unfold PROTO_AddRb. rewrite u16_small by lia.
  replace (Z.to_nat len) with (length p) by (unfold zlen in Hp; lia).
  change (bq_puts rb (frame p)) with (bq_puts rb (126 :: stuff p ++ [127])). cbn [bq_puts].
  destruct (bq_put rb 126) as [[rb1 r]|]; cbn [mbind option_bind]; [|done].
  destruct (r =? -1); [done|]. rewrite zlen_frame in *. pose proof (zlen_nonneg (stuff p)).
  rewrite (AddRb_loop_eq rb1 packet 0 2 p); try lia.
  2:{ intros j Hj. unfold p. rewrite nthZ_take by lia. done. }
  rewrite bq_puts_app. destruct (bq_puts rb1 (stuff p)) as [[rb2 [|]]|]; cbn [bq_puts]; cbn [mbind option_bind]; try done.
  destruct (bq_put rb2 127) as [[rb3 r3]|]; cbn [mbind option_bind]; [|done]. destruct (r3 =? -1); [done|].
  rewrite i16_small by lia. done.
Qed.

Lemma frame_bytes p : Forall is_byte p -> Forall is_byte (frame p).
Proof.
  intros Hp. unfold frame. constructor; [unfold is_byte; lia|]. apply Forall_app. split.
  - eapply Forall_weaken; [by apply stuff_bytes|]. simpl; tauto.
  - repeat constructor; unfold is_byte; lia.
Qed.

Lemma AddRb_spec rb packet len :
  bq_inv rb -> 0 <= len <= zlen packet -> len < 32768 -> Forall is_byte (take (Z.to_nat len) packet) ->
  let p := take (Z.to_nat len) packet in
  zlen (frame p) < 32768 ->
  let room := bq_cap rb - zlen (bq_contents rb) in
  exists rb', PROTO_AddRb rb packet len = Some (rb', if zlen (frame p) <=? room then zlen (frame p) else -1) /\
    bq_inv rb' /\ bq_cap rb' = bq_cap rb /\
    bq_contents rb' = bq_contents rb ++ take (Z.to_nat room) (frame p).
Proof.
  intros Hrb Hlen H16 Hb p Hf room.
  destruct (bq_puts_spec rb (frame p)) as (rb' & E & Hi & Hc & Hcon); [done|by apply frame_bytes|].
  exists rb'. rewrite AddRb_eq by done. fold p. rewrite E. simpl. done.
Qed.
End Framing.

(** ** Parsing *)

Record pp_inv (P : PROTO_PARSER) : Prop := mk_pp_inv {
  pi_data : 0 <= pp_dataLen P <= pp_bufSize P;
  pi_size : pp_bufSize P < 65536;
  pi_buf : pp_bufSize P <= zlen (pp_buf P) }.

(** The bytes of the message parsed so far. *)
Definition pp_data (P : PROTO_PARSER) : list Z := tab (pp_dataLen P) (nthZ (pp_buf P)).

(** What every step keeps. *)
Definition pp_same (P P' : PROTO_PARSER) : Prop :=
  pp_inv P' /\ pp_bufSize P' = pp_bufSize P /\ zlen (pp_buf P') = zlen (pp_buf P) /\
  pp_callback P' = pp_callback P.

Lemma ParseByte_store P v :
  pp_inv P -> pp_dataLen P < pp_bufSize P ->
  exists b, wr (pp_buf P) (pp_dataLen P) v = Some b /\ zlen b = zlen (pp_buf P) /\
    tab (pp_dataLen P + 1) (nthZ b) = pp_data P ++ [v].
Proof.
  intros [] Hr. destruct (wr_Some (pp_buf P) (pp_dataLen P) v) as (b & E & Hl & Hn); [lia|].
  exists b. split; [done|]. split; [done|]. rewrite tab_snoc by lia. unfold pp_data. f_equal.
  - apply tab_ext. intros i Hi. rewrite Hn by lia. zbool; done || lia.
  - rewrite Hn by lia. zbool; done || lia.
Qed.

(** A byte other than 0x7F never ends a message and stays inside the buffer. *)
Lemma ParseByte_total P c :
  pp_inv P -> c ≠ 0x7F -> exists P', PROTO_ParseByte P c = Some (P', -1, false) /\ pp_same P P'.
Proof.
  intros W Hc. pose proof W as [Wd Ws Wb]. destruct P as [buf bs dl esc beg cb]. simpl in Wd, Ws, Wb. unfold PROTO_ParseByte.
  destruct (c =? 0x7D); [eexists; split; [done|]; repeat split; simpl; lia|].
  destruct (c =? 0x7E); [eexists; split; [done|]; repeat split; simpl; lia|].
  zfalse (c =? 0x7F). destruct (beg =? 0); [eexists; split; [done|]; repeat split; simpl; lia|].
  destruct (Z.ltb_spec dl bs); [|eexists; split; [done|]; repeat split; simpl; lia].
  destruct (ParseByte_store (mk_PROTO buf bs dl esc beg cb) (if esc =? 0 then c else Z.lxor c 32) W) as (b & E & Hl & _);
    [done|]. simpl in E, Hl. rewrite E. simpl. rewrite u16_small by lia.
  eexists; split; [done|]; repeat split; simpl; lia.
Qed.

(** Feeding bytes one after the other. *)
Fixpoint pp_feed (P : PROTO_PARSER) (l : list Z) : option PROTO_PARSER :=
  match l with
  | [] => Some P
  | c :: l => '(P', _, _) ← PROTO_ParseByte P c; pp_feed P' l
  end.

Lemma pp_feed_app P l k : pp_feed P (l ++ k) = P' ← pp_feed P l; pp_feed P' k.
Proof.
  revert P. induction l as [|c l IH]; intros P; [done|]. cbn [app pp_feed].
  destruct (PROTO_ParseByte P c) as [[[P1 ?] ?]|]; cbn [mbind option_bind]; [|done]. apply IH.
Qed.

Lemma pp_feed_total P l :
  pp_inv P -> Forall (λ c, c ≠ 0x7F) l -> exists P', pp_feed P l = Some P' /\ pp_same P P'.
Proof.
  intros W Hl. revert P W. induction Hl as [|c l Hc _ IH]; intros P W.
  { exists P. split; [done|]. unfold pp_same. done. }
  destruct (ParseByte_total P c W Hc) as (P1 & E & W1 & ? & ? & ?).
  destruct (IH P1 W1) as (P2 & E2 & W2 & ? & ? & ?).
  exists P2. simpl. rewrite E. simpl. split; [done|]. unfold pp_same. repeat split; congruence || apply W2.
Qed.

(** Between frames of one message: the start byte was seen and no escape is pending. *)
Definition pp_open (P : PROTO_PARSER) (d : list Z) : Prop :=
  pp_inv P /\ pp_isBegin P = 1 /\ pp_isEsc P = 0 /\ pp_data P = d.

(** An ordinary byte inside a message is appended, unescaped if an escape is
    pending, as long as the output has room. *)
Lemma ParseByte_char P c d v :
  pp_inv P -> pp_isBegin P = 1 -> pp_data P = d -> c ≠ 0x7D -> c ≠ 0x7E -> c ≠ 0x7F ->
  v = (if pp_isEsc P =? 0 then c else Z.lxor c 0x20) ->
  exists P', PROTO_ParseByte P c = Some (P', -1, false) /\ pp_same P P' /\
    pp_open P' (take (Z.to_nat (pp_bufSize P)) (d ++ [v])).
Proof.
  intros W Hb Hd H1 H2 H3 Hv. pose proof W as [Wd Ws Wb].
  assert (Hz : zlen d = pp_dataLen P) by (rewrite <- Hd; unfold pp_data; zlia).
  pose proof (ParseByte_store P v W) as Hst.
  destruct P as [buf bs dl esc beg cb]. simpl in *. subst beg. unfold PROTO_ParseByte.
  zfalse (c =? 125). zfalse (c =? 126). zfalse (c =? 127). cbn [Z.eqb].
  rewrite <- Hv. assert (He : (if esc =? 0 then esc else 0) = 0) by (zbool; done). rewrite He.
  destruct (Z.ltb_spec dl bs) as [Hlt|Hge].
  - destruct (Hst Hlt) as (b & E & Hl & Ht). rewrite E. simpl. rewrite u16_small by lia.
    eexists. split; [done|]. split; [repeat split; simpl; lia|].
    split; [split; simpl; lia|]. split; [done|]. split; [done|]. unfold pp_data at 1; simpl.
    rewrite Ht, Hd, take_ge; [done|]. rewrite length_app. unfold zlen in Hz. simpl. lia.
  - eexists. split; [done|]. split; [repeat split; simpl; lia|].
    split; [split; simpl; lia|]. split; [done|]. split; [done|]. unfold pp_data in *; simpl in *.
    rewrite take_app_le by (unfold zlen in Hz; lia). rewrite take_ge by (unfold zlen in Hz; lia). done.
Qed.

Lemma pp_feed_byte P d c :
  pp_open P d -> is_byte c ->
  exists P', pp_feed P (stuff_byte c) = Some P' /\ pp_same P P' /\
    pp_open P' (take (Z.to_nat (pp_bufSize P)) (d ++ [c])).
Proof.
  intros (W & Hb & He & Hd) Hc.
  destruct (stuff_byte_cases c Hc) as [(Hin & -> & Hx)|(H1 & H2 & H3 & ->)]; cbn [pp_feed].
  - set (P1 := mk_PROTO (pp_buf P) (pp_bufSize P) (pp_dataLen P) 1 (pp_isBegin P) (pp_callback P)).
    assert (E1 : PROTO_ParseByte P 0x7D = Some (P1, -1, false)) by (by destruct P).
    rewrite E1. cbn [mbind option_bind].
    destruct (ParseByte_char P1 (Z.lxor c 32) d c) as (P' & E & HP); try done; try lia.
    { destruct W. split; simpl; lia. }
    { simpl. by rewrite Z.lxor_assoc, Z.lxor_nilpotent, Z.lxor_0_r. }
    rewrite E. cbn [mbind option_bind]. eauto.
  - destruct (ParseByte_char P c d c) as (P' & E & HP); try done.
    { by rewrite He. }
    rewrite E. cbn [mbind option_bind]. eauto.
Qed.

Lemma pp_feed_stuff P d p :
  pp_open P d -> Forall is_byte p ->
  exists P', pp_feed P (stuff p) = Some P' /\ pp_same P P' /\
    pp_open P' (take (Z.to_nat (pp_bufSize P)) (d ++ p)).
Proof.
  intros W Hp. revert P d W. induction Hp as [|c p Hc _ IH]; intros P d W.
  - exists P. split; [done|]. pose proof W as (Wi & _ & _ & Hd). split; [done|].
    rewrite app_nil_r, take_ge; [done|]. destruct Wi.
    assert (zlen d = pp_dataLen P) by (rewrite <- Hd; unfold pp_data; zlia). unfold zlen in *. lia.
  - rewrite stuff_cons, pp_feed_app.
    destruct (pp_feed_byte P d c W Hc) as (P1 & E1 & (_ & Hs1 & Hl1 & Hcb1) & W1). rewrite E1. cbn [mbind option_bind].
    destruct (IH P1 _ W1) as (P2 & E2 & (W2i & Hs2 & Hl2 & Hcb2) & W2).
    exists P2. split; [done|]. split; [repeat split; congruence || apply W2i|].
    replace (d ++ c :: p) with ((d ++ [c]) ++ p) by (by rewrite <- app_assoc).
    rewrite Hs1 in W2. revert W2. generalize (d ++ [c]). intros l W2.
    rewrite take_app, take_take, Nat.min_id in W2. rewrite take_app.
    replace (Z.to_nat (pp_bufSize P) - length l)%nat with
      (Z.to_nat (pp_bufSize P) - length (take (Z.to_nat (pp_bufSize P)) l))%nat; [done|].
    rewrite length_take. lia.
Qed.

(** The opening byte and the escaped message, from any parser state. *)
Lemma pp_feed_message P p :
  pp_inv P -> Forall is_byte p ->
  exists P', pp_feed P (0x7E :: stuff p) = Some P' /\ pp_same P P' /\
    pp_data P' = take (Z.to_nat (pp_bufSize P)) p.
Proof.
  intros [Wd Ws Wb] Hp. set (P0 := mk_PROTO (pp_buf P) (pp_bufSize P) 0 0 1 (pp_callback P)).
  destruct (pp_feed_stuff P0 [] p) as (P' & E & Hs & _ & _ & _ & Hd); [|done|].
  { split; [split; simpl; lia|]. done. }
  exists P'. split; [|split; [apply Hs|done]]. rewrite <- E. destruct P. done.
Qed.

Section ParseRb.
Context {Q : Type} `{LQ : ByteQueueLaws Q}.

(** The loop consumes up to and including the first 0x7F. *)
Lemma ParseRb_loop_found fuel q P P1 c l1 l2 :
  bq_inv q -> bq_contents q = l1 ++ 0x7F :: l2 -> Forall (λ c, c ≠ 0x7F) l1 -> pp_inv P ->
  pp_feed P l1 = Some P1 -> (length l1 < fuel)%nat ->
  exists q' P', PROTO_ParseRb_loop fuel q P c = Some (q', P', 0) /\ bq_inv q' /\ bq_contents q' = l2 /\
    bq_cap q' = bq_cap q /\ pp_data P' = pp_data P1 /\ pp_dataLen P' = pp_dataLen P1 /\ pp_buf P' = pp_buf P1.
Proof.
  intros Hq Hc Hl. revert fuel q P c Hq Hc. induction Hl as [|x l1 Hx _ IH]; intros [|fuel] q P c Hq Hc W Hf Hlen;
    simpl in Hlen; try lia.
  - simpl in Hc, Hf. injection Hf as ->.
    destruct (bq_get_cons q c 0x7F l2 Hq Hc) as (q' & E & Hq' & Hc' & Hcap).
    cbn [PROTO_ParseRb_loop]. rewrite E. destruct P1. simpl.
    eexists _, _. split; [done|]. done.
  - simpl in Hc. destruct (bq_get_cons q c x _ Hq Hc) as (q' & E & Hq' & Hc' & Hcap).
    cbn [PROTO_ParseRb_loop]. rewrite E. cbn [mbind option_bind Z.eqb].
    destruct (ParseByte_total P x W Hx) as (P2 & E2 & W2 & _). cbn [pp_feed] in Hf. rewrite E2 in *.
    cbn [mbind option_bind Z.eqb] in *.
    destruct (IH fuel q' P2 x Hq' Hc' W2 Hf) as (q2 & P3 & Hr); [lia|].
    exists q2, P3. rewrite <- Hcap. exact Hr.
Qed.

(** Without a 0x7F the loop drains the queue and reports failure. *)
Lemma ParseRb_loop_none fuel q P c :
  bq_inv q -> Forall (λ c, c ≠ 0x7F) (bq_contents q) -> pp_inv P -> (length (bq_contents q) < fuel)%nat ->
  exists q' P', PROTO_ParseRb_loop fuel q P c = Some (q', P', -1) /\ bq_inv q' /\ bq_contents q' = [] /\
    bq_cap q' = bq_cap q /\ zlen (pp_buf P') = zlen (pp_buf P).
Proof.
  intros Hq Hl. remember (bq_contents q) as l eqn:El. revert fuel q P c Hq El.
  induction Hl as [|x l Hx _ IH]; intros [|fuel] q P c Hq El W Hlen; simpl in Hlen; try lia.
  - cbn [PROTO_ParseRb_loop]. rewrite bq_get_nil by done. simpl. eauto 10.
  - destruct (bq_get_cons q c x l Hq) as (q' & E & Hq' & Hc' & Hcap); [done|].
    cbn [PROTO_ParseRb_loop]. rewrite E. cbn [mbind option_bind Z.eqb].
    destruct (ParseByte_total P x W Hx) as (P2 & E2 & W2 & _ & Hz & _). rewrite E2. cbn [mbind option_bind Z.eqb].
    destruct (IH fuel q' P2 x Hq') as (q2 & P3 & E3 & Hr); [done|done|lia|].
    exists q2, P3. rewrite <- Hcap, <- Hz. done.
Qed.
End ParseRb.

(** ** The queue as a first-in first-out queue of messages

    The ring holds whole frames and, where [QUEUE_Puts] ran out of room, the
    beginning of a frame. *)

Inductive chunk := Full (p : list Z) | Part (p : list Z) (k : Z).

Definition chunk_ok (c : chunk) : Prop :=
  match c with
  | Full p => Forall is_byte p
  | Part p k => Forall is_byte p /\ 0 <= k < zlen (frame p)
  end.

Definition chunk_bytes (c : chunk) : list Z :=
  match c with Full p => frame p | Part p k => take (Z.to_nat k) (frame p) end.

(** The messages, oldest first. *)
Fixpoint messages (cs : list chunk) : list (list Z) :=
  match cs with
  | [] => []
  | Full p :: cs => p :: messages cs
  | Part _ _ :: cs => messages cs
  end.

Lemma messages_app cs ds : messages (cs ++ ds) = messages cs ++ messages ds.
Proof. induction cs as [|[p|p k] cs IH]; simpl; congruence. Qed.

(** [queue] holds the chunks [cs]. *)
Definition QUEUE_rep (queue : QUEUE) (cs : list chunk) : Prop :=
  RINGBUF_inv (q_rb queue) /\ Forall chunk_ok cs /\ RINGBUF_contents (q_rb queue) = flat_map chunk_bytes cs.

(** The part of the contents before the first whole frame, and that frame. *)
Lemma messages_cons cs p ps :
  Forall chunk_ok cs -> messages cs = p :: ps ->
  exists pre cs', Forall (λ c, c ≠ 0x7F) pre /\ flat_map chunk_bytes cs = pre ++ frame p ++ flat_map chunk_bytes cs' /\
    Forall chunk_ok cs' /\ messages cs' = ps /\ Forall is_byte p.
Proof.
  induction 1 as [|[q|q k] cs Hc Hcs IH]; intros Hm; [done|..]; cbn [flat_map chunk_bytes messages chunk_ok] in *.
  - injection Hm as -> <-. exists [], cs. done.
  - destruct (IH Hm) as (pre & cs' & Hp & Hf & H1 & H2 & H3).
    exists (take (Z.to_nat k) (frame q) ++ pre), cs'. rewrite Hf, <- app_assoc.
    split; [|done]. apply Forall_app. split; [apply partial_frame; tauto|done].
Qed.

Lemma messages_nil cs :
  Forall chunk_ok cs -> messages cs = [] -> Forall (λ c, c ≠ 0x7F) (flat_map chunk_bytes cs).
Proof.
  induction 1 as [|[q|q k] cs Hc Hcs IH]; intros Hm; [constructor|done|]; simpl in *.
  apply Forall_app. split; [apply partial_frame; tauto|auto].
Qed.

Lemma QUEUE_Init_rep q b size :
  2 <= size -> size <= zlen b -> QUEUE_rep (QUEUE_Init q (Some b) size) [] /\ rb_size (q_rb (QUEUE_Init q (Some b) size)) = size.
Proof.
  intros. unfold QUEUE_Init. destruct (RINGBUF_Init_inv (q_rb q) b size) as (r & E & W & Hc & Hs); [done|done|].
  rewrite E. simpl. done.
Qed.

(** [QUEUE_Puts] on a represented queue. *)
Lemma QUEUE_Puts_rep queue cs buffer len :
  QUEUE_rep queue cs -> 0 <= len <= zlen buffer -> len < 32768 -> Forall is_byte (take (Z.to_nat len) buffer) ->
  let p := take (Z.to_nat len) buffer in
  zlen (frame p) < 32768 ->
  let room := rb_size (q_rb queue) - zlen (flat_map chunk_bytes cs) in
  0 <= room /\
  exists queue', QUEUE_Puts queue buffer len =
      Some (queue', if zlen (frame p) <=? room then zlen (frame p) else -1) /\
    q_buf queue' = q_buf queue /\ rb_size (q_rb queue') = rb_size (q_rb queue) /\
    QUEUE_rep queue' (cs ++ [if zlen (frame p) <=? room then Full p else Part p room]).
Proof.
  intros (W & Hok & Hc) Hlen H16 Hb p Hf room.
  pose proof (bq_bound (q_rb queue) W) as Hbound. simpl in Hbound.
  destruct (AddRb_spec (LQ := RINGBUF_queue_laws) (q_rb queue) buffer len W Hlen H16 Hb Hf) as (rb' & E & W' & Hcap & Hc').
  fold p in E, Hc'. simpl in Hc', Hcap, W'. rewrite Hc in *. simpl in E. rewrite Hc in E.
  split; [unfold room; lia|]. unfold QUEUE_Puts. rewrite i16_small by lia. rewrite E. simpl.
  eexists; split; [done|]. split; [done|]. split; [done|]. split; [done|]. split.
  - apply Forall_app. split; [done|]. repeat constructor.
    fold room.
    destruct (Z.leb_spec (zlen (frame p)) room); simpl; [done|]. split; [done|]. unfold room in *; lia.
  - simpl. rewrite Hc', flat_map_app. f_equal. simpl. rewrite app_nil_r. fold room.
    destruct (Z.leb_spec (zlen (frame p)) room); simpl; [|done].
    apply take_ge. unfold zlen in *. lia.
Qed.

(** [QUEUE_Gets] on a represented queue. *)
Lemma QUEUE_Gets_rep queue cs fuel proto0 c0 buffer len maxLen :
  QUEUE_rep queue cs -> 0 <= maxLen < 65536 -> maxLen <= zlen buffer ->
  rb_size (q_rb queue) < Z.of_nat fuel ->
  exists queue' cs' buffer' len' r,
    QUEUE_Gets fuel proto0 c0 queue buffer len maxLen = Some (queue', buffer', len', r) /\
    QUEUE_rep queue' cs' /\ q_buf queue' = q_buf queue /\ rb_size (q_rb queue') = rb_size (q_rb queue) /\
    zlen buffer' = zlen buffer /\
    match messages cs with
    | [] => r = -1 /\ len' = len /\ cs' = []
    | p :: ps => r = 0 /\ messages cs' = ps /\
        len' = Z.min maxLen (zlen p) /\ tab len' (nthZ buffer') = take (Z.to_nat maxLen) p
    end.
Proof.
  intros (W & Hok & Hc) Hmax Hbuf Hfuel. unfold QUEUE_Gets, PROTO_ParseRb.
  pose proof (bq_bound (q_rb queue) W) as Hbound. simpl in Hbound.
  set (P0 := fst (PROTO_Init proto0 false buffer maxLen)).
  assert (W0 : pp_inv P0) by (split; simpl; lia).
  destruct (messages cs) as [|p ps] eqn:Hm.
  - destruct (ParseRb_loop_none (LQ := RINGBUF_queue_laws) fuel (q_rb queue) P0 c0 W) as (rb' & P' & E & W' & Hc' & Hcap & Hz);
      [simpl; rewrite Hc; by apply messages_nil|done|simpl; unfold zlen in Hbound; lia|].
    rewrite E. simpl. eexists _, [], _, _, _. split; [done|].
    split; [split; [done|]; split; [constructor|done]|]. split; [done|]. split; [done|]. split; [exact Hz|done].
  - destruct (messages_cons cs p ps Hok Hm) as (pre & cs' & Hpre & Hf & Hok' & Hm' & Hp).
    destruct (pp_feed_total P0 pre W0 Hpre) as (P1 & E1 & W1 & Hs1 & Hl1 & Hcb1).
    destruct (pp_feed_message P1 p W1 Hp) as (P2 & E2 & (W2 & Hs2 & Hz2 & _) & Hd2).
    assert (Hcon : RINGBUF_contents (q_rb queue) =
      (pre ++ 0x7E :: stuff p) ++ 0x7F :: flat_map chunk_bytes cs').
    { rewrite Hc, Hf. unfold frame. rewrite <- !app_assoc. simpl. rewrite <- !app_assoc. done. }
    destruct (ParseRb_loop_found (LQ := RINGBUF_queue_laws) fuel (q_rb queue) P0 P2 c0 (pre ++ 0x7E :: stuff p) (flat_map chunk_bytes cs') W)
      as (rb' & P' & E & W' & Hc' & Hcap & Hd' & Hdl' & Hb'); try done.
    + apply Forall_app. split; [done|]. constructor; [done|].
      eapply Forall_weaken; [by apply stuff_bytes|]. simpl; tauto.
    + rewrite pp_feed_app, E1. done.
    + rewrite Hcon in Hbound. unfold zlen in Hbound. rewrite length_app in Hbound. simpl in Hbound. lia.
    + rewrite E. simpl. eexists _, cs', _, _, _. split; [done|]. split; [done|]. split; [done|]. split; [done|].
      split; [by rewrite Hb', Hz2, Hl1|]. split; [done|]. split; [done|]. rewrite Hd2, Hs1 in Hd'. unfold pp_data in Hd'. simpl in Hd'.
      split; [|done]. apply (f_equal zlen) in Hd'. rewrite zlen_tab, zlen_take in Hd'.
      rewrite Hdl' in *. destruct W2. pose proof (zlen_nonneg p). lia.
Qed.

(** ** [PROTO_Add] and [PROTO_Parse] on flat buffers *)

(** What [PROTO_Add_loop] has stored when it stops; [l] was stored before it starts. *)
Lemma Add_loop_spec p buf packet ix i bs b0 l :
  0 <= ix -> ix + zlen p <= zlen packet -> (forall j, 0 <= j < zlen p -> nthZ packet (ix + j) = nthZ p j) ->
  wrote b0 0 l buf -> zlen l + bs <= zlen b0 -> 0 <= bs -> 0 <= i -> i + zlen (stuff p) < 65536 ->
  exists buf' l', wrote b0 0 (l ++ l') buf' /\ zlen l' <= bs /\
    PROTO_Add_loop (length p) buf packet (zlen l) ix i bs =
      Some (buf', if zlen (stuff p) <=? bs
                  then Some (zlen l + zlen (stuff p), i + zlen (stuff p), bs - zlen (stuff p)) else None) /\
    (zlen (stuff p) <= bs -> l' = stuff p).
Proof.
  revert buf ix i bs l. induction p as [|c p IH]; intros buf ix i bs l Hix Hlen Hnth Hw Hroom Hbs Hi Hb.
  { exists buf, []. rewrite (app_nil_r l). change (zlen (stuff [])) with 0. change (zlen (@nil Z)) with 0.
    simpl. ztrue (0 <=? bs). rewrite !Z.add_0_r, Z.sub_0_r.
    repeat split; try done; apply Hw. }
  rewrite zlen_cons in *. pose proof (zlen_nonneg p). pose proof (zlen_nonneg (stuff p)). pose proof (zlen_nonneg l).
  cbn [length PROTO_Add_loop]. rewrite rd_Some by lia. cbn [mbind option_bind].
  assert (Hc : nthZ packet ix = c) by (specialize (Hnth 0 ltac:(lia)); rewrite Z.add_0_r in Hnth; done). rewrite Hc.
  assert (Hp : forall j, 0 <= j < zlen p -> nthZ packet (ix + 1 + j) = nthZ p j).
  { intros j Hj. rewrite <- Z.add_assoc, Hnth, nthZ_cons_S by lia. done. }
  assert (Hz : zlen buf = zlen b0) by apply Hw.
  rewrite stuff_cons, zlen_app in *. unfold stuff_byte in *.
  destruct ((c =? 0x7D) || (c =? 0x7E) || (c =? 0x7F)); rewrite ?zlen_cons in *; change (zlen (@nil Z)) with 0 in *.
  - destruct (Z.ltb_spec bs 2).
    { exists buf, []. rewrite (app_nil_r l). change (zlen (@nil Z)) with 0. zfalse (1 + (1 + 0) + zlen (stuff p) <=? bs).
      repeat split; try done; try apply Hw; lia. }
    destruct (wr_total buf (zlen l) 0x7D) as (b1 & E1); [lia|]. rewrite E1. cbn [mbind option_bind].
    pose proof (wrote_snoc b0 0 l buf 0x7D b1 ltac:(lia) Hw E1) as Hw1.
    destruct (wr_total b1 (zlen l + 1) (Z.lxor c 32)) as (b2 & E2); [destruct Hw1; lia|]. rewrite E2. cbn [mbind option_bind].
    assert (Hl1 : zlen (l ++ [125]) = zlen l + 1) by (rewrite zlen_app; done).
    pose proof (wrote_snoc b0 0 (l ++ [125]) b1 (Z.lxor c 32) b2 ltac:(lia) Hw1) as Hw2. rewrite Hl1 in Hw2.
    specialize (Hw2 E2). rewrite <- app_assoc in Hw2. rewrite (u16_small (i + 2)) by lia.
    assert (Hl2 : zlen (l ++ [125] ++ [Z.lxor c 32]) = zlen l + 2) by (rewrite zlen_app; done).
    destruct (IH b2 (ix + 1) (i + 2) (bs - 2) _ ltac:(lia) ltac:(lia) Hp Hw2) as (buf' & l' & Hw' & Hl' & E' & Heq); try lia.
    rewrite Hl2 in E'. rewrite E'. exists buf', ([125; Z.lxor c 32] ++ l'). rewrite <- app_assoc in Hw'.
    split; [done|]. rewrite zlen_app. change (zlen [125; Z.lxor c 32]) with 2. split; [lia|]. split.
    + do 2 f_equal. zbool; try lia; try done. do 2 f_equal; [f_equal|]; lia.
    + intros. rewrite Heq by lia. done.
  - destruct (Z.ltb_spec bs 1).
    { exists buf, []. rewrite (app_nil_r l). change (zlen (@nil Z)) with 0. zfalse (1 + 0 + zlen (stuff p) <=? bs).
      repeat split; try done; try apply Hw; lia. }
    destruct (wr_total buf (zlen l) c) as (b1 & E1); [lia|]. rewrite E1. cbn [mbind option_bind].
    pose proof (wrote_snoc b0 0 l buf c b1 ltac:(lia) Hw E1) as Hw1. rewrite (u16_small (i + 1)) by lia.
    assert (Hl1 : zlen (l ++ [c]) = zlen l + 1) by (rewrite zlen_app; done).
    destruct (IH b1 (ix + 1) (i + 1) (bs - 1) _ ltac:(lia) ltac:(lia) Hp Hw1) as (buf' & l' & Hw' & Hl' & E' & Heq); try lia.
    rewrite Hl1 in E'. rewrite E'. exists buf', ([c] ++ l'). rewrite <- app_assoc in Hw'.
    split; [done|]. rewrite zlen_app. change (zlen [c]) with 1. split; [lia|]. split.
    + do 2 f_equal. zbool; try lia; try done. do 2 f_equal; [f_equal|]; lia.
    + intros. rewrite Heq by lia. done.
Qed.

(** [PROTO_Parse] is feeding, when no byte ends a message. *)
Lemma Parse_loop_feed l P P' buf ix calls :
  0 <= ix -> ix + zlen l <= zlen buf -> (forall j, 0 <= j < zlen l -> nthZ buf (ix + j) = nthZ l j) ->
  pp_inv P -> Forall (λ c, c ≠ 0x7F) l -> pp_feed P l = Some P' ->
  forall m, PROTO_Parse_loop (length l + m) P buf ix calls = PROTO_Parse_loop m P' buf (ix + zlen l) calls.
Proof.
  intros Hix Hlen Hnth W Hl. revert P ix Hix Hlen Hnth W.
  induction Hl as [|c l Hc _ IH]; intros P ix Hix Hlen Hnth W Hf m.
  { injection Hf as ->. change (zlen (@nil Z)) with 0. by rewrite Z.add_0_r. }
  rewrite zlen_cons in *. pose proof (zlen_nonneg l). cbn [length plus PROTO_Parse_loop pp_feed] in *.
  rewrite rd_Some by lia. cbn [mbind option_bind].
  assert (Hb : nthZ buf ix = c) by (specialize (Hnth 0 ltac:(lia)); rewrite Z.add_0_r in Hnth; done). rewrite Hb.
  destruct (ParseByte_total P c W Hc) as (P1 & E & W1 & _). rewrite E in *. cbn [mbind option_bind b2z] in *.
  rewrite Z.add_0_r, (IH P1 (ix + 1)); try done; try lia.
  - f_equal. lia.
  - intros j Hj. rewrite <- Z.add_assoc, Hnth, nthZ_cons_S by lia. done.
Qed.

(** The packet a flat buffer holds: it starts with its own length, low byte first. *)
Definition packet_len (packet : list Z) : Z := nthZ packet 0 + 256 * nthZ packet 1.

(** What [PROTO_Add] stores and answers. *)
Lemma PROTO_Add_spec buf packet bufSize :
  let p := take (Z.to_nat (packet_len packet)) packet in
  2 <= packet_len packet <= zlen packet -> 0 <= bufSize < 32768 -> bufSize <= zlen buf -> zlen (frame p) < 65536 ->
  exists buf' l', wrote buf 0 l' buf' /\ zlen l' <= bufSize /\
    PROTO_Add buf packet bufSize = Some (buf', if zlen (frame p) <=? bufSize then zlen (frame p) else -1) /\
    (zlen (frame p) <= bufSize -> l' = frame p).
Proof.
  intros p Hlen Hbs Hbuf Hfr. assert (Hp : zlen p = packet_len packet) by (unfold p; rewrite zlen_take; lia).
  pose proof (zlen_nonneg (stuff p)). rewrite zlen_frame in *.
  unfold PROTO_Add. rewrite !rd_Some by lia. cbn [mbind option_bind]. fold (packet_len packet).
  destruct (Z.ltb_spec bufSize 1).
  { exists buf, []. zfalse (2 + zlen (stuff p) <=? bufSize).
    split; [apply wrote_nil|]. split; [change (zlen (@nil Z)) with 0; lia|]. split; [done|lia]. }
  destruct (wr_total buf 0 0x7E) as (b1 & E1); [lia|]. rewrite E1. cbn [mbind option_bind].
  pose proof (wrote_snoc buf 0 [] buf 0x7E b1 ltac:(lia) (wrote_nil buf 0) E1) as Hw1. cbn [app] in Hw1.
  replace (Z.to_nat (packet_len packet)) with (length p) by (unfold zlen in Hp; lia).
  destruct (Add_loop_spec p b1 packet 0 2 (bufSize - 1) buf [0x7E]) as (b2 & l' & Hw2 & Hl' & E2 & Heq);
    try lia; try done; try (change (zlen [126]) with 1; lia).
  { intros j Hj. unfold p. rewrite nthZ_take by lia. done. }
  change (zlen [126]) with 1 in E2. rewrite E2. cbn [mbind option_bind].
  assert (Hz2 : zlen ([126] ++ l') = 1 + zlen l') by (rewrite zlen_app; done).
  destruct (Z.leb_spec (zlen (stuff p)) (bufSize - 1)) as [Hle|Hgt].
  2:{ exists b2, ([126] ++ l'). zfalse (2 + zlen (stuff p) <=? bufSize).
      split; [done|]. split; [lia|]. split; [done|lia]. }
  specialize (Heq Hle). subst l'.
  destruct (Z.ltb_spec (bufSize - 1 - zlen (stuff p)) 1).
  { exists b2, ([126] ++ stuff p). zfalse (2 + zlen (stuff p) <=? bufSize).
    split; [done|]. split; [lia|]. split; [done|lia]. }
  destruct (wr_total b2 (1 + zlen (stuff p)) 0x7F) as (b3 & E3); [destruct Hw2; lia|].
  rewrite E3. cbn [mbind option_bind].
  pose proof (wrote_snoc buf 0 ([126] ++ stuff p) b2 0x7F b3 ltac:(lia) Hw2) as Hw3.
  rewrite Hz2 in Hw3. specialize (Hw3 E3). rewrite <- app_assoc in Hw3.
  exists b3, (frame p). ztrue (2 + zlen (stuff p) <=? bufSize). rewrite i16_small by lia.
  rewrite zlen_frame. split; [done|]. split; [lia|]. done.
Qed.

(** Parsing a stored frame. *)
Lemma PROTO_Parse_frame parser buf p :
  Forall is_byte p -> pp_inv parser -> zlen (frame p) <= zlen buf -> tab (zlen (frame p)) (nthZ buf) = frame p ->
  exists parser', PROTO_Parse parser buf (zlen (frame p)) = Some (parser', b2z (pp_callback parser)) /\
    pp_data parser' = take (Z.to_nat (pp_bufSize parser)) p.
Proof.
  intros Hbp W Hle Hview. pose proof (zlen_nonneg (stuff p)). rewrite zlen_frame in *.
  assert (Hn : forall j, 0 <= j < 2 + zlen (stuff p) -> nthZ buf j = nthZ (frame p) j).
  { intros j Hj. rewrite <- Hview. by rewrite nthZ_tab. }
  change (frame p) with ((126 :: stuff p) ++ [127]) in Hn.
  destruct (pp_feed_message parser p W Hbp) as (P1 & Ef & (W1 & Hbs1 & _ & Hcb1) & Hd1).
  unfold PROTO_Parse.
  replace (Z.to_nat (2 + zlen (stuff p))) with (length (126%Z :: stuff p) + 1)%nat by (unfold zlen; simpl; lia).
  rewrite (Parse_loop_feed (126 :: stuff p) parser P1); try done; rewrite ?zlen_cons; try lia.
  2:{ intros j Hj. rewrite Z.add_0_l, Hn by lia. rewrite nthZ_app by lia. rewrite zlen_cons. by ztrue (j <? 1 + zlen (stuff p)). }
  2:{ constructor; [done|]. eapply Forall_weaken; [by apply stuff_bytes|]. simpl; tauto. }
  simpl. rewrite rd_Some by lia. simpl. rewrite Hn by lia. rewrite nthZ_app by lia. rewrite zlen_cons.
  zfalse (0 + (1 + zlen (stuff p)) <? 1 + zlen (stuff p)).
  replace (0 + (1 + zlen (stuff p)) - (1 + zlen (stuff p))) with 0 by lia. rewrite nthZ_cons_0, <- Hcb1.
  destruct P1. simpl. eexists; split; [done|exact Hd1].
Qed.

(** C36: [PROTO_Add] writes at most [bufSize] bytes; it answers the frame's
    length and stores the frame when the frame fits, and -1 otherwise.  Parsing
    the stored frame with [PROTO_Parse] runs the callback exactly once and
    leaves the packet, cut to the parser's buffer, in the parser. *)
Theorem PROTO_Add_Parse_roundtrip parser buf packet bufSize :
  let p := take (Z.to_nat (packet_len packet)) packet in
  Forall is_byte packet -> 2 <= packet_len packet <= zlen packet ->
  0 <= bufSize < 32768 -> bufSize <= zlen buf -> zlen (frame p) < 65536 ->
  pp_inv parser -> pp_callback parser = true ->
  exists buf', PROTO_Add buf packet bufSize = Some (buf', if zlen (frame p) <=? bufSize then zlen (frame p) else -1) /\
    (forall i, bufSize <= i -> nthZ buf' i = nthZ buf i) /\
    (zlen (frame p) <= bufSize ->
     exists parser', PROTO_Parse parser buf' (zlen (frame p)) = Some (parser', 1) /\
       pp_data parser' = take (Z.to_nat (pp_bufSize parser)) p).
Proof.
  intros p Hby Hlen Hbs Hbuf Hfr W Hcb.
  destruct (PROTO_Add_spec buf packet bufSize Hlen Hbs Hbuf Hfr) as (buf' & l' & [Hz Hn] & Hl' & E & Heq).
  exists buf'. split; [done|]. split.
  - intros i Hi. rewrite Hn by lia. zfalse (i <? 0 + zlen l'). by rewrite andb_false_r.
  - intros Hle. specialize (Heq Hle). subst l'.
    destruct (PROTO_Parse_frame parser buf' p) as (parser' & E' & Hd); [by apply Forall_take|done|fold p in Hl'; lia| |].
    { exact (wrote_view buf 0 (frame p) buf' ltac:(lia) (conj Hz Hn)). }
    rewrite Hcb in E'. eauto.
Qed.

(** ** The message queue against a first-in first-out queue of messages *)

Inductive queue_op := QPut (msg : list Z) | QGet.
Inductive queue_out := OPut (ret : Z) | OGet (msg : option (list Z)).

(** A client's calls; [proto0] and [c0] are the uninitialised locals of [PROTO_ParseRb]. *)
Definition QUEUE_step (fuel : nat) (proto0 : PROTO_PARSER) (c0 maxLen : Z) (queue : QUEUE) (op : queue_op) :
    option (QUEUE * queue_out) :=
  match op with
  | QPut msg => '(queue', r) ← QUEUE_Puts queue msg (zlen msg); Some (queue', OPut r)
  | QGet =>
      '(queue', buf, len, r) ← QUEUE_Gets fuel proto0 c0 queue (replicate (Z.to_nat maxLen) 0) 0 maxLen;
      Some (queue', OGet (if r =? 0 then Some (tab len (nthZ buf)) else None))
  end.

Fixpoint QUEUE_run (fuel : nat) (proto0 : PROTO_PARSER) (c0 maxLen : Z) (queue : QUEUE) (ops : list queue_op) :
    option (list queue_out) :=
  match ops with
  | [] => Some []
  | op :: ops =>
      '(queue', out) ← QUEUE_step fuel proto0 c0 maxLen queue op;
      outs ← QUEUE_run fuel proto0 c0 maxLen queue' ops; Some (out :: outs)
  end.

(** The contract: [mq] are the accepted messages not yet delivered. *)
Fixpoint message_fifo (maxLen : Z) (mq : list (list Z)) (ops : list queue_op) (outs : list queue_out) : Prop :=
  match ops, outs with
  | [], [] => True
  | QPut msg :: ops, OPut r :: outs =>
      r = zlen (frame msg) /\ message_fifo maxLen (mq ++ [msg]) ops outs \/
      r = -1 /\ message_fifo maxLen mq ops outs
  | QGet :: ops, OGet m :: outs =>
      match mq with
      | [] => m = None /\ message_fifo maxLen [] ops outs
      | msg :: mq => m = Some (take (Z.to_nat maxLen) msg) /\ message_fifo maxLen mq ops outs
      end
  | _, _ => False
  end.

Definition queue_op_ok (op : queue_op) : Prop :=
  match op with QPut msg => Forall is_byte msg /\ zlen (frame msg) < 32768 | QGet => True end.

Lemma QUEUE_run_fifo fuel proto0 c0 maxLen ops queue cs :
  QUEUE_rep queue cs -> 0 <= maxLen < 65536 -> rb_size (q_rb queue) < Z.of_nat fuel -> Forall queue_op_ok ops ->
  exists outs, QUEUE_run fuel proto0 c0 maxLen queue ops = Some outs /\ message_fifo maxLen (messages cs) ops outs.
Proof.
  intros R Hmax Hfuel Hok. revert queue cs R Hfuel. induction Hok as [|[msg|] ops Hop _ IH]; intros queue cs R Hfuel.
  - exists []. done.
  - destruct Hop as [Hb Hf]. pose proof (stuff_len_ge msg). pose proof (zlen_frame msg). pose proof (zlen_nonneg msg).
    assert (Ht : take (Z.to_nat (zlen msg)) msg = msg) by (unfold zlen; rewrite Nat2Z.id; by apply take_ge).
    destruct (QUEUE_Puts_rep queue cs msg (zlen msg) R) as (_ & queue' & E & _ & Hsz & R');
      [lia|lia|by rewrite Ht|rewrite Ht; done|]. rewrite Ht in *.
    destruct (IH queue' _ R') as (outs & Er & Hfifo); [lia|].
    cbn [QUEUE_run QUEUE_step]. rewrite E. cbn [mbind option_bind]. rewrite Er. eexists; split; [done|].
    rewrite messages_app in Hfifo. cbn [message_fifo]. revert Hfifo. zbool; cbn [messages]; [left; done|].
    rewrite app_nil_r. right. done.
  - destruct (QUEUE_Gets_rep queue cs fuel proto0 c0 (replicate (Z.to_nat maxLen) 0) 0 maxLen R)
      as (queue' & cs' & buf' & len' & r & E & R' & _ & Hsz & _ & Hm); [lia|zlia|lia|].
    destruct (IH queue' cs' R') as (outs & Er & Hfifo); [lia|].
    cbn [QUEUE_run QUEUE_step]. rewrite E. cbn [mbind option_bind]. rewrite Er. eexists; split; [done|].
    cbn [message_fifo]. destruct (messages cs) as [|p ps].
    + destruct Hm as (-> & _ & ->). done.
    + destruct Hm as (-> & <- & _ & ->). done.
Qed.

(** C11: from [QUEUE_Init] on, whatever messages are put and however often the
    ring overflows in between, [QUEUE_Gets] delivers exactly the messages
    [QUEUE_Puts] accepted, in order and unchanged (cut to [maxLen]); a refused
    message leaves no trace, and no call leaves the ring or the output buffer.
    The uninitialised [isBegin] of the parser never matters. *)
Theorem QUEUE_refines_message_fifo q0 b size proto0 c0 maxLen ops :
  2 <= size -> size <= zlen b -> 0 <= maxLen < 65536 -> Forall queue_op_ok ops ->
  exists outs, QUEUE_run (Z.to_nat (size + 1)) proto0 c0 maxLen (QUEUE_Init q0 (Some b) size) ops = Some outs /\
    message_fifo maxLen [] ops outs.
Proof.
  intros Hs Hb Hmax Hok. destruct (QUEUE_Init_rep q0 b size Hs Hb) as [R Hsz].
  apply (QUEUE_run_fifo _ _ _ _ _ _ [] R); [done|lia|done].
Qed.

(** ** The theorems at concrete inputs *)

Lemma PROTO_Add_Parse_roundtrip_witness :
  exists buf', PROTO_Add (replicate 16 0) [4; 0; 0x7E; 0x7F] 16 = Some (buf', 8) /\
    exists parser', PROTO_Parse (mk_PROTO (replicate 8 0) 8 0 0 0 true) buf' 8 = Some (parser', 1) /\
      pp_data parser' = [4; 0; 0x7E; 0x7F].
Proof.
  destruct (PROTO_Add_Parse_roundtrip (mk_PROTO (replicate 8 0) 8 0 0 0 true) (replicate 16 0) [4; 0; 0x7E; 0x7F] 16)
    as (buf' & E & _ & H); [bytes_tac|split; vm_compute; discriminate|lia|done|reflexivity|split; [cbn; lia|cbn; lia|vm_compute; discriminate]|done|].
  exists buf'. split; [exact E|]. apply H. vm_compute. discriminate.
Defined.

Lemma QUEUE_refines_message_fifo_witness :
  exists outs, QUEUE_run (Z.to_nat 13) (mk_PROTO [] 0 0 0 0 false) 0 4
      (QUEUE_Init (mk_QUEUE false (mk_RINGBUF [] 0 0 0 0)) (Some (replicate 12 0)) 12)
      [QPut [1; 0x7D]; QPut [2; 3; 4; 5; 6; 7]; QGet; QGet] = Some outs /\
    message_fifo 4 [] [QPut [1; 0x7D]; QPut [2; 3; 4; 5; 6; 7]; QGet; QGet] outs.
Proof.
  apply (QUEUE_refines_message_fifo (mk_QUEUE false (mk_RINGBUF [] 0 0 0 0)) (replicate 12 0) 12 (mk_PROTO [] 0 0 0 0 false) 0 4
    [QPut [1; 0x7D]; QPut [2; 3; 4; 5; 6; 7]; QGet; QGet]); [lia|done|lia|].
  repeat apply Forall_cons_2; try done; (split; [bytes_tac|done]).
Defined.
