(* ===== verification/MqttMsg.v ===== *)
(** * MqttMsg: MQTT message assembly and inspection

    esp_mqtt_proj/mqtt/mqtt_msg.c with the inline accessors of mqtt_msg.h,
    compiled with [PROTOCOL_NAMEv31] (mqtt_config.h).  A C string is the list of
    its bytes before the terminating zero; a null pointer is [None].  A pointer
    into the connection's buffer is an offset into it. *)

From S2P Require Import Prelude CMem.

Definition MQTT_MAX_FIXED_HEADER_SIZE : Z := 3.

Definition MQTT_CONNECT_FLAG_USERNAME : Z := 128.
Definition MQTT_CONNECT_FLAG_PASSWORD : Z := 64.
Definition MQTT_CONNECT_FLAG_WILL_RETAIN : Z := 32.
Definition MQTT_CONNECT_FLAG_WILL : Z := 4.
Definition MQTT_CONNECT_FLAG_CLEAN_SESSION : Z := 2.

(** [enum mqtt_message_type] *)
Definition MQTT_MSG_TYPE_CONNECT : Z := 1.
Definition MQTT_MSG_TYPE_CONNACK : Z := 2.
Definition MQTT_MSG_TYPE_PUBLISH : Z := 3.
Definition MQTT_MSG_TYPE_PUBACK : Z := 4.
Definition MQTT_MSG_TYPE_PUBREC : Z := 5.
Definition MQTT_MSG_TYPE_PUBREL : Z := 6.
Definition MQTT_MSG_TYPE_PUBCOMP : Z := 7.
Definition MQTT_MSG_TYPE_SUBSCRIBE : Z := 8.
Definition MQTT_MSG_TYPE_SUBACK : Z := 9.
Definition MQTT_MSG_TYPE_UNSUBSCRIBE : Z := 10.
Definition MQTT_MSG_TYPE_UNSUBACK : Z := 11.
Definition MQTT_MSG_TYPE_PINGREQ : Z := 12.
Definition MQTT_MSG_TYPE_PINGRESP : Z := 13.
Definition MQTT_MSG_TYPE_DISCONNECT : Z := 14.

(** [mqtt_connection_t]; [mc_data] and [mc_length] are the fields of its [message]. *)
Record mqtt_connection_t := mk_conn {
  mc_data : option Z; mc_length : Z; mc_message_id : Z; mc_buffer : list Z; mc_buffer_length : Z }.

Record mqtt_connect_info_t := mk_info {
  client_id : option (list Z); username : option (list Z); password : option (list Z);
  will_topic : option (list Z); will_message : option (list Z);
  keepalive : Z; will_qos : Z; will_retain : Z; clean_session : Z }.

Definition with_message (c : mqtt_connection_t) (data : option Z) (len : Z) (buf : list Z) : mqtt_connection_t :=
  mk_conn data len (mc_message_id c) buf (mc_buffer_length c).

(** ** Accessors of mqtt_msg.h *)

Definition mqtt_get_type (b0 : Z) : Z := Z.shiftr (Z.land b0 0xf0) 4.
Definition mqtt_get_dup (b0 : Z) : Z := Z.shiftr (Z.land b0 0x08) 3.
Definition mqtt_get_qos (b0 : Z) : Z := Z.shiftr (Z.land b0 0x06) 1.
Definition mqtt_get_retain (b0 : Z) : Z := Z.land b0 0x01.

(** ** Assembly *)

(** [append_string]: the return value is -1 or [len + 2]. *)
Definition append_string (c : mqtt_connection_t) (string : list Z) (len : Z) : option (mqtt_connection_t * Z) :=
  if mc_buffer_length c <? mc_length c + len + 2 then Some (c, -1) else
  b1 ← wr (mc_buffer c) (mc_length c) (u8 (Z.shiftr len 8));
  let l1 := u16 (mc_length c + 1) in
  b2 ← wr b1 l1 (Z.land len 0xff);
  let l2 := u16 (l1 + 1) in
  bytes ← bslice string 0 len;
  b3 ← bsplice b2 l2 bytes;
  Some (with_message c (mc_data c) (u16 (l2 + len)) b3, len + 2).

(** The loop [while(message_id == 0) message_id = ++connection->message_id]. *)
Fixpoint assign_message_id (fuel : nat) (message_id conn_id : Z) : option (Z * Z) :=
  match fuel with
  | O => None
  | S fuel =>
      if message_id =? 0 then
        let conn_id := u16 (conn_id + 1) in assign_message_id fuel conn_id conn_id
      else Some (message_id, conn_id)
  end.

Definition append_message_id (c : mqtt_connection_t) (message_id : Z) : option (mqtt_connection_t * Z) :=
  '(mid, cid) ← assign_message_id 3 message_id (mc_message_id c);
  let c := mk_conn (mc_data c) (mc_length c) cid (mc_buffer c) (mc_buffer_length c) in
  if mc_buffer_length c <? mc_length c + 2 then Some (c, 0) else
  b1 ← wr (mc_buffer c) (mc_length c) (Z.shiftr mid 8);
  let l1 := u16 (mc_length c + 1) in
  b2 ← wr b1 l1 (Z.land mid 0xff);
  Some (with_message c (mc_data c) (u16 (l1 + 1)) b2, mid).

Definition init_message (c : mqtt_connection_t) : mqtt_connection_t :=
  with_message c (mc_data c) MQTT_MAX_FIXED_HEADER_SIZE (mc_buffer c).

Definition fail_message (c : mqtt_connection_t) : mqtt_connection_t :=
  with_message c (Some 0) 0 (mc_buffer c).

Definition fixed_byte (type dup qos retain : Z) : Z :=
  Z.lor (Z.lor (Z.lor (Z.shiftl (Z.land type 0x0f) 4) (Z.shiftl (Z.land dup 1) 3))
               (Z.shiftl (Z.land qos 3) 1)) (Z.land retain 1).

Definition fini_message (c : mqtt_connection_t) (type dup qos retain : Z) : option mqtt_connection_t :=
  let remaining_length := mc_length c - MQTT_MAX_FIXED_HEADER_SIZE in
  if 127 <? remaining_length then
    b1 ← wr (mc_buffer c) 0 (fixed_byte type dup qos retain);
    b2 ← wr b1 1 (u8 (Z.lor 0x80 (remaining_length mod 128)));
    b3 ← wr b2 2 (u8 (remaining_length / 128));
    Some (with_message c (Some 0) (u16 (remaining_length + 3)) b3)
  else
    b1 ← wr (mc_buffer c) 1 (fixed_byte type dup qos retain);
    b2 ← wr b1 2 (u8 remaining_length);
    Some (with_message c (Some 1) (u16 (remaining_length + 2)) b2).

Definition mqtt_msg_init (buffer : list Z) (buffer_length : Z) : mqtt_connection_t :=
  mk_conn None 0 0 buffer buffer_length.

(** A non-null string whose first byte is not the terminator. *)
Definition present (s : option (list Z)) : option (list Z) :=
  match s with Some (x :: l) => Some (x :: l) | _ => None end.

(** [flags |= x] through [variable_header], nine bytes into the header at offset 3. *)
Definition or_flag (c : mqtt_connection_t) (x : Z) : option mqtt_connection_t :=
  f ← rd (mc_buffer c) 12; b ← wr (mc_buffer c) 12 (u8 (Z.lor f x));
  Some (with_message c (mc_data c) (mc_length c) b).

(** [append_string( connection, s, strlen( s ) ) < 0] and, when it holds, [fail_message]. *)
Definition append_or_fail (c : mqtt_connection_t) (s : list Z) : option (mqtt_connection_t + mqtt_connection_t) :=
  '(c, r) ← append_string c s (zlen s);
  Some (if r <? 0 then inl (fail_message c) else inr c).

(** Sequencing: [inl] is an early return of the function. *)
Definition and_then (r : option (mqtt_connection_t + mqtt_connection_t))
    (k : mqtt_connection_t -> option (mqtt_connection_t + mqtt_connection_t)) :
    option (mqtt_connection_t + mqtt_connection_t) :=
  x ← r; match x with inl c => Some (inl c) | inr c => k c end.

Definition finish (r : option (mqtt_connection_t + mqtt_connection_t))
    (k : mqtt_connection_t -> option mqtt_connection_t) : option mqtt_connection_t :=
  x ← r; match x with inl c => Some c | inr c => k c end.

(** The twelve bytes of [struct mqtt_connect_variable_header] before the
    optional parts set their flags: the length and text of "MQIsdp", version 3. *)
Definition variable_header (flags ka : Z) : list Z :=
  [0; 6; 77; 81; 73; 115; 100; 112; 3; flags; u8 (Z.shiftr ka 8); Z.land ka 0xff].

Definition mqtt_msg_connect (c : mqtt_connection_t) (info : mqtt_connect_info_t) : option mqtt_connection_t :=
  let c := init_message c in
  if mc_buffer_length c <? mc_length c + 12 then Some (fail_message c) else
  b ← bsplice (mc_buffer c) (mc_length c) (variable_header 0 (keepalive info));
  let c := with_message c (mc_data c) (u16 (mc_length c + 12)) b in
  c ← (if clean_session info =? 0 then Some c else or_flag c MQTT_CONNECT_FLAG_CLEAN_SESSION);
  finish
    (and_then (match present (client_id info) with
               | Some s => append_or_fail c s
               | None => Some (inl (fail_message c)) end) (λ c,
     and_then (match present (will_topic info) with
               | Some t =>
                   and_then (append_or_fail c t) (λ c,
                   m ← will_message info;
                   and_then (append_or_fail c m) (λ c,
                   c ← or_flag c MQTT_CONNECT_FLAG_WILL;
                   c ← (if will_retain info =? 0 then Some c else or_flag c MQTT_CONNECT_FLAG_WILL_RETAIN);
                   c ← or_flag c (Z.shiftl (Z.land (will_qos info) 3) 3);
                   Some (inr c)))
               | None => Some (inr c) end) (λ c,
     and_then (match present (username info) with
               | Some s => and_then (append_or_fail c s) (λ c,
                   c ← or_flag c MQTT_CONNECT_FLAG_USERNAME; Some (inr c))
               | None => Some (inr c) end) (λ c,
     match present (password info) with
     | Some s => and_then (append_or_fail c s) (λ c,
         c ← or_flag c MQTT_CONNECT_FLAG_PASSWORD; Some (inr c))
     | None => Some (inr c) end))))
    (λ c, fini_message c MQTT_MSG_TYPE_CONNECT 0 0 0).

(** [mqtt_msg_publish]; the second result is [*message_id], whose value on
    entry is the last argument. *)
Definition mqtt_msg_publish (c : mqtt_connection_t) (topic : option (list Z)) (data : list Z)
    (data_length qos retain message_id : Z) : option (mqtt_connection_t * Z) :=
  let c := init_message c in
  match present topic with
  | None => Some (fail_message c, message_id)
  | Some t =>
      '(c, r) ← append_string c t (zlen t);
      if r <? 0 then Some (fail_message c, message_id) else
      '(c, mid, ok) ←
        (if 0 <? qos then '(c, mid) ← append_message_id c 0; Some (c, mid, negb (mid =? 0))
         else Some (c, 0, true));
      if negb ok then Some (fail_message c, mid) else
      if mc_buffer_length c <? mc_length c + data_length then Some (fail_message c, mid) else
      bytes ← bslice data 0 data_length;
      b ← bsplice (mc_buffer c) (mc_length c) bytes;
      let c := with_message c (mc_data c) (u16 (mc_length c + data_length)) b in
      c ← fini_message c MQTT_MSG_TYPE_PUBLISH 0 qos retain;
      Some (c, mid)
  end.

(** The four acknowledgements share their text but for the type and the qos bits. *)
Definition ack_message (type qos : Z) (c : mqtt_connection_t) (message_id : Z) : option mqtt_connection_t :=
  '(c, r) ← append_message_id (init_message c) message_id;
  if r =? 0 then Some (fail_message c) else fini_message c type 0 qos 0.

Definition mqtt_msg_puback := ack_message MQTT_MSG_TYPE_PUBACK 0.
Definition mqtt_msg_pubrec := ack_message MQTT_MSG_TYPE_PUBREC 0.
Definition mqtt_msg_pubrel := ack_message MQTT_MSG_TYPE_PUBREL 1.
Definition mqtt_msg_pubcomp := ack_message MQTT_MSG_TYPE_PUBCOMP 0.

Definition mqtt_msg_subscribe (c : mqtt_connection_t) (topic : option (list Z)) (qos message_id : Z) :
    option (mqtt_connection_t * Z) :=
  let c := init_message c in
  match present topic with
  | None => Some (fail_message c, message_id)
  | Some t =>
      '(c, mid) ← append_message_id c 0;
      if mid =? 0 then Some (fail_message c, mid) else
      '(c, r) ← append_string c t (zlen t);
      if r <? 0 then Some (fail_message c, mid) else
      if mc_buffer_length c <? mc_length c + 1 then Some (fail_message c, mid) else
      b ← wr (mc_buffer c) (mc_length c) (u8 qos);
      let c := with_message c (mc_data c) (u16 (mc_length c + 1)) b in
      c ← fini_message c MQTT_MSG_TYPE_SUBSCRIBE 0 1 0;
      Some (c, mid)
  end.

Definition mqtt_msg_unsubscribe (c : mqtt_connection_t) (topic : option (list Z)) (message_id : Z) :
    option (mqtt_connection_t * Z) :=
  let c := init_message c in
  match present topic with
  | None => Some (fail_message c, message_id)
  | Some t =>
      '(c, mid) ← append_message_id c 0;
      if mid =? 0 then Some (fail_message c, mid) else
      '(c, r) ← append_string c t (zlen t);
      if r <? 0 then Some (fail_message c, mid) else
      c ← fini_message c MQTT_MSG_TYPE_UNSUBSCRIBE 0 1 0;
      Some (c, mid)
  end.

Definition mqtt_msg_pingreq (c : mqtt_connection_t) : option mqtt_connection_t :=
  fini_message (init_message c) MQTT_MSG_TYPE_PINGREQ 0 0 0.
Definition mqtt_msg_pingresp (c : mqtt_connection_t) : option mqtt_connection_t :=
  fini_message (init_message c) MQTT_MSG_TYPE_PINGRESP 0 0 0.
Definition mqtt_msg_disconnect (c : mqtt_connection_t) : option mqtt_connection_t :=
  fini_message (init_message c) MQTT_MSG_TYPE_DISCONNECT 0 0 0.

(** ** Inspection

    [buffer] is the memory from the pointer on; [length] is what the caller
    passes.  Shifts and sums that leave [int] are undefined: [None]. *)

(** The loop over the bytes of the remaining length, shared by three functions. *)
Fixpoint remaining_loop (fuel : nat) (buffer : list Z) (length i totlen : Z) : option (Z * Z) :=
  match fuel with
  | O => None
  | S fuel =>
      if i <? length then
        b ← rd buffer i;
        _ ← (if 7 * (i - 1) <? 32 then Some tt else None);
        v ← int_ok (Z.shiftl (Z.land b 0x7f) (7 * (i - 1)));
        totlen ← int_ok (totlen + v);
        if Z.land b 0x80 =? 0 then Some (i + 1, totlen)
        else remaining_loop fuel buffer length (i + 1) totlen
      else Some (i, totlen)
  end.

Definition mqtt_get_total_length (buffer : list Z) (length : Z) : option Z :=
  '(i, totlen) ← remaining_loop (Z.to_nat length + 1) buffer length 1 0; int_ok (totlen + i).

(** The pointer (an offset, [None] for null) and [*length] afterwards. *)
Definition mqtt_get_publish_topic (buffer : list Z) (length : Z) : option (option Z * Z) :=
  '(i, totlen) ← remaining_loop (Z.to_nat length + 1) buffer length 1 0;
  _ ← int_ok (totlen + i);
  if length <=? i + 2 then Some (None, length) else
  hi ← rd buffer i; lo ← rd buffer (i + 1);
  let i := i + 2 in
  let topiclen := Z.lor (Z.shiftl hi 8) lo in
  if length <? i + topiclen then Some (None, length) else
  Some (Some i, u16 topiclen).

Definition mqtt_get_publish_data (buffer : list Z) (blength : Z) : option (option Z * Z) :=
  '(i, totlen) ← remaining_loop (Z.to_nat blength + 1) buffer blength 1 0;
  totlen ← int_ok (totlen + i);
  if blength <=? i + 2 then Some (None, 0) else
  hi ← rd buffer i; lo ← rd buffer (i + 1);
  let i := i + 2 in
  let topiclen := Z.lor (Z.shiftl hi 8) lo in
  if blength <=? i + topiclen then Some (None, 0) else
  let i := i + topiclen in
  b0 ← rd buffer 0;
  let k i :=
    if totlen <? i then Some (None, 0)
    else if totlen <=? blength then Some (Some i, u16 (totlen - i))
    else Some (Some i, u16 (blength - i)) in
  if 0 <? mqtt_get_qos b0 then
    if blength <=? i + 2 then Some (None, 0) else k (i + 2)
  else k i.

(** The loop of [mqtt_get_id], which only looks for the last length byte. *)
Fixpoint skip_remaining (fuel : nat) (buffer : list Z) (length i : Z) : option Z :=
  match fuel with
  | O => None
  | S fuel =>
      if i <? length then
        b ← rd buffer i;
        if Z.land b 0x80 =? 0 then Some (i + 1) else skip_remaining fuel buffer length (i + 1)
      else Some i
  end.

Definition mqtt_get_id (buffer : list Z) (length : Z) : option Z :=
  if length <? 1 then Some 0 else
  b0 ← rd buffer 0;
  let type := mqtt_get_type b0 in
  if type =? MQTT_MSG_TYPE_PUBLISH then
    i ← skip_remaining (Z.to_nat length + 1) buffer length 1;
    if length <=? i + 2 then Some 0 else
    hi ← rd buffer i; lo ← rd buffer (i + 1);
    let i := i + 2 in
    let topiclen := Z.lor (Z.shiftl hi 8) lo in
    if length <=? i + topiclen then Some 0 else
    let i := i + topiclen in
    if 0 <? mqtt_get_qos b0 then
      if length <=? i + 2 then Some 0 else
      hi ← rd buffer i; lo ← rd buffer (i + 1);
      Some (u16 (Z.lor (Z.shiftl hi 8) lo))
    else Some 0
  else if (type =? MQTT_MSG_TYPE_PUBACK) || (type =? MQTT_MSG_TYPE_PUBREC) || (type =? MQTT_MSG_TYPE_PUBREL)
       || (type =? MQTT_MSG_TYPE_PUBCOMP) || (type =? MQTT_MSG_TYPE_SUBACK)
       || (type =? MQTT_MSG_TYPE_UNSUBACK) || (type =? MQTT_MSG_TYPE_SUBSCRIBE) then
    if 4 <=? length then
      b1 ← rd buffer 1;
      if Z.land b1 0x80 =? 0 then
        hi ← rd buffer 2; lo ← rd buffer 3; Some (u16 (Z.lor (Z.shiftl hi 8) lo))
      else Some 0
    else Some 0
  else Some 0.

(** ** Messages under construction *)

(** The buffer is as long as the connection says, and holds a fixed header. *)
Record conn_ok (c : mqtt_connection_t) : Prop := mk_conn_ok {
  co_min : 3 <= mc_buffer_length c;
  co_buf : mc_buffer_length c <= zlen (mc_buffer c);
  co_u16 : mc_buffer_length c < 65536;
  co_id : is_u16 (mc_message_id c) }.

(** [body] is what was stored after the three bytes kept for the fixed header. *)
Record building (c : mqtt_connection_t) (body : list Z) : Prop := mk_building {
  bd_ok : conn_ok c;
  bd_len : mc_length c = 3 + zlen body;
  bd_fit : 3 + zlen body <= mc_buffer_length c;
  bd_body : forall i, 0 <= i < zlen body -> nthZ (mc_buffer c) (3 + i) = nthZ body i }.

Definition message_bytes (c : mqtt_connection_t) : list Z :=
  match mc_data c with Some off => tab (mc_length c) (λ i, nthZ (mc_buffer c) (off + i)) | None => [] end.

Definition encode_string (s : list Z) : list Z := [u8 (Z.shiftr (zlen s) 8); Z.land (zlen s) 0xff] ++ s.
Definition encode_id (mid : Z) : list Z := [Z.shiftr mid 8; Z.land mid 0xff].

(** The fixed header of a body of [n] bytes. *)
Definition fixed_header (type dup qos retain n : Z) : list Z :=
  if 127 <? n then [fixed_byte type dup qos retain; u8 (Z.lor 0x80 (n mod 128)); u8 (n / 128)]
  else [fixed_byte type dup qos retain; u8 n].

(** Everything but the message itself is kept. *)
Definition conn_same (c c' : mqtt_connection_t) : Prop :=
  mc_message_id c' = mc_message_id c /\ mc_buffer_length c' = mc_buffer_length c /\
  zlen (mc_buffer c') = zlen (mc_buffer c).

Lemma conn_ok_init n : 3 <= n < 65536 -> conn_ok (mqtt_msg_init (replicate (Z.to_nat n) 0) n).
Proof. intros. split; simpl; unfold is_u16; zlia. Qed.

Lemma conn_ok_same c c' : conn_ok c -> conn_same c c' -> conn_ok c'.
Proof. intros [] (E1 & E2 & E3). split; rewrite ?E1, ?E2, ?E3; done || lia. Qed.

Lemma conn_same_trans c1 c2 c3 : conn_same c1 c2 -> conn_same c2 c3 -> conn_same c1 c3.
Proof. intros (?&?&?) (?&?&?). repeat split; congruence. Qed.

Lemma building_init c : conn_ok c -> building (init_message c) [] /\ conn_same c (init_message c).
Proof.
  intros W. pose proof W as [].
  split; [|done]. split; [done|done|simpl; change (zlen (@nil Z)) with 0; lia|].
  change (zlen (@nil Z)) with 0. lia.
Qed.

Lemma building_store c body l d :
  building c body -> 3 + zlen body + zlen l <= mc_buffer_length c ->
  exists b, bsplice (mc_buffer c) (mc_length c) l = Some b /\
    building (with_message c d (u16 (mc_length c + zlen l)) b) (body ++ l) /\
    conn_same c (with_message c d (u16 (mc_length c + zlen l)) b).
Proof.
  intros [W Hl Hf Hb] Hfit. pose proof W as []. pose proof (zlen_nonneg l). pose proof (zlen_nonneg body).
  destruct (bsplice_Some (mc_buffer c) (mc_length c) l) as (b & E & Hz & Hn); [lia|lia|].
  exists b. split; [done|]. assert (S : conn_same c (with_message c d (u16 (mc_length c + zlen l)) b)) by done.
  split; [|done]. split; [by apply (conn_ok_same c)|simpl..].
  - rewrite u16_small, zlen_app by lia. lia.
  - rewrite zlen_app. lia.
  - intros i Hi. rewrite zlen_app in Hi. rewrite Hn, nthZ_app, Hl by lia.
    destruct (Z.ltb_spec i (zlen body)).
    + zfalse (3 + zlen body <=? 3 + i). rewrite Hb by lia. done.
    + ztrue (3 + zlen body <=? 3 + i). ztrue (3 + i <? 3 + zlen body + zlen l). cbn [andb]. f_equal. lia.
Qed.

Lemma building_byte c body v d :
  building c body -> 3 + zlen body + 1 <= mc_buffer_length c ->
  exists b, wr (mc_buffer c) (mc_length c) v = Some b /\
    building (with_message c d (u16 (mc_length c + 1)) b) (body ++ [v]) /\
    conn_same c (with_message c d (u16 (mc_length c + 1)) b).
Proof. intros B Hf. exact (building_store c body [v] d B Hf). Qed.

Lemma append_string_spec c body s :
  building c body ->
  if mc_buffer_length c <? 3 + zlen body + zlen s + 2 then append_string c s (zlen s) = Some (c, -1)
  else exists c', append_string c s (zlen s) = Some (c', zlen s + 2) /\
         building c' (body ++ encode_string s) /\ conn_same c c'.
Proof.
  intros B. unfold append_string. pose proof (bd_len _ _ B) as Hl. rewrite Hl.
  destruct (Z.ltb_spec (mc_buffer_length c) (3 + zlen body + zlen s + 2)); [done|].
  pose proof (zlen_nonneg s). pose proof (zlen_nonneg body). rewrite <- Hl.
  destruct (building_byte c body (u8 (Z.shiftr (zlen s) 8)) (mc_data c) B) as (b1 & E1 & B1 & S1); [lia|].
  rewrite E1. cbn [mbind option_bind].
  destruct (building_byte _ _ (Z.land (zlen s) 255) (mc_data c) B1) as (b2 & E2 & B2 & S2); [zlia; simpl; lia|].
  cbn [mc_buffer mc_length with_message mc_data mc_message_id mc_buffer_length] in *. rewrite E2. cbn [mbind option_bind].
  rewrite bslice_Some by lia. cbn [mbind option_bind]. rewrite (tab_ext _ _ (nthZ s)), tab_nthZ by done.
  destruct (building_store _ _ s (mc_data c) B2) as (b3 & E3 & B3 & S3); [zlia; simpl; lia|].
  cbn [mc_buffer mc_length with_message mc_data mc_message_id mc_buffer_length] in *. rewrite E3. cbn [mbind option_bind].
  eexists; split; [done|]. rewrite <- !app_assoc in B3. split; [exact B3|].
  destruct S1 as (?&?&?), S2 as (?&?&?), S3 as (?&?&?). repeat split; simpl in *; congruence.
Qed.

(** The identifier [append_message_id] uses, and the counter it leaves. *)
Definition next_id (message_id conn_id : Z) : Z * Z :=
  if message_id =? 0 then
    if u16 (conn_id + 1) =? 0 then (1, 1) else (u16 (conn_id + 1), u16 (conn_id + 1))
  else (message_id, conn_id).

Lemma assign_message_id_eq mid cid : is_u16 cid -> assign_message_id 3 mid cid = Some (next_id mid cid).
Proof.
  intros Hc. unfold next_id. cbn [assign_message_id].
  destruct (Z.eqb_spec mid 0); [|done].
  destruct (Z.eqb_spec (u16 (cid + 1)) 0) as [E|]; [|done]. rewrite E. done.
Qed.

Lemma next_id_range mid cid :
  is_u16 mid -> is_u16 cid -> 1 <= fst (next_id mid cid) < 65536 /\ is_u16 (snd (next_id mid cid)).
Proof.
  unfold next_id, is_u16. intros. pose proof (u16_range (cid + 1)). zbool; simpl; lia.
Qed.

Definition with_id (c : mqtt_connection_t) (cid : Z) : mqtt_connection_t :=
  mk_conn (mc_data c) (mc_length c) cid (mc_buffer c) (mc_buffer_length c).

Lemma append_message_id_spec c body mid :
  building c body -> is_u16 mid ->
  let '(id, cid) := next_id mid (mc_message_id c) in
  if mc_buffer_length c <? 3 + zlen body + 2 then append_message_id c mid = Some (with_id c cid, 0)
  else exists c', append_message_id c mid = Some (c', id) /\
         building c' (body ++ encode_id id) /\ conn_same (with_id c cid) c'.
Proof.
  intros B Hmid. unfold append_message_id. pose proof (bd_len _ _ B) as Hl. pose proof (bd_ok _ _ B) as W.
  rewrite assign_message_id_eq by apply W.
  pose proof (next_id_range mid (mc_message_id c) Hmid ltac:(apply W)) as Hid.
  destruct (next_id mid (mc_message_id c)) as [id cid]. cbn [mbind option_bind mc_length mc_buffer mc_buffer_length fst snd] in *.
  assert (B0 : building (with_id c cid) body).
  { destruct B as [[] ? ? ?]. split; [split; simpl; try done; apply Hid|done..]. }
  rewrite Hl. destruct (Z.ltb_spec (mc_buffer_length c) (3 + zlen body + 2)); [by rewrite <- Hl|].
  pose proof (zlen_nonneg body). rewrite <- Hl.
  destruct (building_byte _ body (Z.shiftr id 8) (mc_data c) B0) as (b1 & E1 & B1 & S1); [simpl; lia|].
  cbn [mc_buffer mc_length with_message mc_data mc_message_id mc_buffer_length with_id] in *. rewrite E1. cbn [mbind option_bind].
  destruct (building_byte _ _ (Z.land id 255) (mc_data c) B1) as (b2 & E2 & B2 & S2); [zlia; simpl; lia|].
  cbn [mc_buffer mc_length with_message mc_data mc_message_id mc_buffer_length with_id] in *. rewrite E2. cbn [mbind option_bind].
  eexists; split; [done|]. rewrite <- !app_assoc in B2. split; [exact B2|].
  destruct S1 as (?&?&?), S2 as (?&?&?). repeat split; simpl in *; congruence.
Qed.

(** [fini_message] puts the fixed header in front of the body. *)
Lemma fini_message_spec c body type dup qos retain :
  building c body ->
  exists c', fini_message c type dup qos retain = Some c' /\ conn_same c c' /\
    message_bytes c' = fixed_header type dup qos retain (zlen body) ++ body /\
    mc_length c' = zlen (message_bytes c') /\
    (exists off, mc_data c' = Some off /\ 0 <= off /\ off + mc_length c' <= zlen (mc_buffer c')).
Proof.
  intros [W Hl Hf Hb]. pose proof W as []. pose proof (zlen_nonneg body). unfold fini_message, fixed_header, MQTT_MAX_FIXED_HEADER_SIZE.
  rewrite Hl. replace (3 + zlen body - 3) with (zlen body) by lia.
  destruct (Z.ltb_spec 127 (zlen body)).
  - destruct (wr_Some (mc_buffer c) 0 (fixed_byte type dup qos retain)) as (b1 & E1 & Z1 & N1); [lia|].
    destruct (wr_Some b1 1 (u8 (Z.lor 128 (zlen body mod 128)))) as (b2 & E2 & Z2 & N2); [lia|].
    destruct (wr_Some b2 2 (u8 (zlen body / 128))) as (b3 & E3 & Z3 & N3); [lia|].
    rewrite E1. cbn [mbind option_bind]. rewrite E2. cbn [mbind option_bind]. rewrite E3. cbn [mbind option_bind].
    eexists; split; [done|]. split; [repeat split; simpl; congruence|].
    unfold message_bytes; cbn [mc_data mc_length with_message mc_buffer]. rewrite u16_small by lia. split; [|split; [zlia|exists 0; split; [done|lia]]].
    rewrite Z.add_comm, tab_app by lia. f_equal.
    + unfold tab; simpl. rewrite !N3, !N2, !N1 by lia. done.
    + transitivity (tab (zlen body) (nthZ body)); [|apply tab_nthZ]. apply tab_ext. intros i Hi.
      rewrite N3, N2, N1 by lia. zbool; try lia. rewrite <- Hb by lia. f_equal; lia.
  - destruct (wr_Some (mc_buffer c) 1 (fixed_byte type dup qos retain)) as (b1 & E1 & Z1 & N1); [lia|].
    destruct (wr_Some b1 2 (u8 (zlen body))) as (b2 & E2 & Z2 & N2); [lia|].
    rewrite E1. cbn [mbind option_bind]. rewrite E2. cbn [mbind option_bind].
    eexists; split; [done|]. split; [repeat split; simpl; congruence|].
    unfold message_bytes; cbn [mc_data mc_length with_message mc_buffer]. rewrite u16_small by lia. split; [|split; [zlia|exists 1; split; [done|lia]]].
    rewrite Z.add_comm, tab_app by lia. f_equal.
    + unfold tab; simpl. rewrite !N2, !N1 by lia. done.
    + transitivity (tab (zlen body) (nthZ body)); [|apply tab_nthZ]. apply tab_ext. intros i Hi.
      rewrite N2, N1 by lia. zbool; try lia. rewrite <- Hb by lia. f_equal; lia.
Qed.

(** ** Reading a message back *)

Lemma fixed_byte_fields :
  forall type dup qos retain,
  let b := fixed_byte type dup qos retain in
  is_byte b /\ mqtt_get_type b = type mod 16 /\ mqtt_get_dup b = dup mod 2 /\
  mqtt_get_qos b = qos mod 4 /\ mqtt_get_retain b = retain mod 2.
Proof.
  intros type dup qos retain. unfold fixed_byte. rewrite land_15, land_3, !land_1.
  pose proof (zall_spec 16 (λ t, zall 2 (λ d, zall 4 (λ q, zall 2 (λ r,
    let b := Z.lor (Z.lor (Z.lor (Z.shiftl t 4) (Z.shiftl d 3)) (Z.shiftl q 1)) r in
    (0 <=? b) && (b <? 256) && (mqtt_get_type b =? t) && (mqtt_get_dup b =? d) &&
    (mqtt_get_qos b =? q) && (mqtt_get_retain b =? r))))) ltac:(vm_compute; reflexivity) (type mod 16) ltac:(dlia)) as H.
  apply zall_spec with (i := dup mod 2) in H; [|dlia].
  apply zall_spec with (i := qos mod 4) in H; [|dlia].
  apply zall_spec with (i := retain mod 2) in H; [|dlia].
  rewrite !andb_true_iff, !Z.eqb_eq, Z.leb_le, Z.ltb_lt in H. unfold is_byte. tauto.
Qed.

(** The length of the fixed header. *)
Definition header_len (n : Z) : Z := if 127 <? n then 3 else 2.

Lemma zlen_fixed_header type dup qos retain n : zlen (fixed_header type dup qos retain n) = header_len n.
Proof. unfold fixed_header, header_len. by destruct (127 <? n). Qed.

Lemma fixed_header_first type dup qos retain n rest :
  rd (fixed_header type dup qos retain n ++ rest) 0 = Some (fixed_byte type dup qos retain).
Proof.
  pose proof (zlen_nonneg rest).
  unfold fixed_header. destruct (127 <? n); rewrite rd_Some by (zlia); done.
Qed.

Lemma rd_app_r l k i : 0 <= i < zlen k -> rd (l ++ k) (zlen l + i) = Some (nthZ k i).
Proof.
  intros. pose proof (zlen_nonneg l). rewrite rd_Some by zlia. rewrite nthZ_app by lia.
  zfalse (zlen l + i <? zlen l). do 2 f_equal. lia.
Qed.

Lemma continuation_clear b : 0 <= b < 128 -> Z.land b 128 = 0 /\ Z.land b 127 = b.
Proof.
  intros. rewrite land_127, Z.mod_small by lia. split; [|done].
  apply Z.eqb_eq. exact (zall_spec 128 (λ b, Z.land b 128 =? 0) ltac:(vm_compute; reflexivity) b ltac:(lia)).
Qed.

Lemma continuation_set b : 0 <= b < 128 -> Z.land (u8 (Z.lor 128 b)) 128 = 128 /\ Z.land (u8 (Z.lor 128 b)) 127 = b.
Proof.
  intros. pose proof (zall_spec 128 (λ b, (Z.land (u8 (Z.lor 128 b)) 128 =? 128) && (Z.land (u8 (Z.lor 128 b)) 127 =? b))
    ltac:(vm_compute; reflexivity) b ltac:(lia)) as Hb. cbv beta in Hb.
  by rewrite andb_true_iff, !Z.eqb_eq in Hb.
Qed.

Lemma remaining_loop_step fuel buffer len i totlen b :
  i < len -> 1 <= i <= 3 -> 0 <= i < zlen buffer -> nthZ buffer i = b -> is_byte b -> 0 <= totlen < 16777216 ->
  remaining_loop (S fuel) buffer len i totlen =
    let t := totlen + Z.land b 127 * 2 ^ (7 * (i - 1)) in
    if Z.land b 128 =? 0 then Some (i + 1, t) else remaining_loop fuel buffer len (i + 1) t.
Proof.
  intros Hlen Hi Hr Hb Hby Ht. cbn [remaining_loop]. ztrue (i <? len). rewrite rd_Some, Hb by lia.
  cbn [mbind option_bind]. ztrue (7 * (i - 1) <? 32). cbn [mbind option_bind].
  rewrite Z.shiftl_mul_pow2 by lia.
  assert (0 <= Z.land b 127 < 128) by (rewrite land_127; dlia).
  assert (2 ^ (7 * (i - 1)) <= 16384) by (transitivity (2 ^ 14); [apply Z.pow_le_mono_r; lia|done]).
  assert (0 < 2 ^ (7 * (i - 1))) by (apply Z.pow_pos_nonneg; lia).
  rewrite int_ok_small by nia. cbn [mbind option_bind]. rewrite int_ok_small by nia. done.
Qed.

Lemma skip_remaining_step fuel buffer len i b :
  i < len -> 0 <= i < zlen buffer -> nthZ buffer i = b ->
  skip_remaining (S fuel) buffer len i =
    if Z.land b 128 =? 0 then Some (i + 1) else skip_remaining fuel buffer len (i + 1).
Proof. intros Hlen Hr Hb. cbn [skip_remaining]. ztrue (i <? len). by rewrite rd_Some, Hb by lia. Qed.

(** Both loops over the remaining length decode what [fini_message] stored. *)
Lemma remaining_loop_header type dup qos retain n rest len fuel :
  0 <= n <= 16383 -> header_len n <= len -> (3 <= fuel)%nat ->
  remaining_loop fuel (fixed_header type dup qos retain n ++ rest) len 1 0 = Some (header_len n, n) /\
  skip_remaining fuel (fixed_header type dup qos retain n ++ rest) len 1 = Some (header_len n).
Proof.
  intros Hn Hlen Hf. destruct fuel as [|[|[|fuel]]]; try lia. pose proof (zlen_nonneg rest).
  unfold fixed_header, header_len in *. destruct (Z.ltb_spec 127 n).
  - destruct (continuation_set (n mod 128)) as [C1 C2]; [dlia|].
    destruct (continuation_clear (n / 128)) as [C3 C4]; [dlia|]. pose proof (u8_range (Z.lor 128 (n mod 128))).
    rewrite (remaining_loop_step _ _ _ _ _ (u8 (Z.lor 128 (n mod 128)))), (skip_remaining_step _ _ _ _ (u8 (Z.lor 128 (n mod 128))))
      by (done || zlia). rewrite C1, C2. cbn [Z.eqb].
    rewrite (remaining_loop_step _ _ _ _ _ (n / 128)), (skip_remaining_step _ _ _ _ (n / 128));
      try (zlia; unfold is_byte; dlia); try (change (u8 (n / 128) = n / 128); apply u8_small; dlia).
    rewrite C3, C4. split; [|done]. cbv zeta. cbn [Z.eqb]. do 2 f_equal.
    replace (2 ^ (7 * (1 - 1))) with 1 by done. replace (2 ^ (7 * (1 + 1 - 1))) with 128 by done. dlia.
  - destruct (continuation_clear n) as [C1 C2]; [lia|].
    rewrite (remaining_loop_step _ _ _ _ _ n), (skip_remaining_step _ _ _ _ n);
      try (zlia; unfold is_byte; lia); try (change (u8 n = n); apply u8_small; lia).
    rewrite C1, C2. cbn [Z.eqb]. split; [|done]. cbv zeta. do 2 f_equal. change (2 ^ _) with 1. lia.
Qed.

(** The bytes of the topic length. *)
Lemma topic_length_bytes h t rest :
  zlen t < 65536 ->
  let m := h ++ encode_string t ++ rest in
  rd m (zlen h) = Some (u8 (Z.shiftr (zlen t) 8)) /\ rd m (zlen h + 1) = Some (Z.land (zlen t) 255) /\
  Z.lor (Z.shiftl (u8 (Z.shiftr (zlen t) 8)) 8) (Z.land (zlen t) 255) = zlen t.
Proof.
  intros Ht m. pose proof (zlen_nonneg t). pose proof (zlen_nonneg rest). unfold m, encode_string.
  split; [|split; [|by apply be16_join; lia]].
  - rewrite <- (Z.add_0_r (zlen h)) at 1. rewrite rd_app_r by zlia. done.
  - rewrite rd_app_r by zlia. done.
Qed.

Section Publish.
Variables (dup qos retain : Z) (t ids data rest : list Z) (len : Z).
Let body := encode_string t ++ ids ++ data.
Let n := zlen body.
Let m := fixed_header MQTT_MSG_TYPE_PUBLISH dup qos retain n ++ body ++ rest.
Hypothesis Ht : t ≠ [].
Hypothesis Hn : n <= 16383.
Hypothesis Hlen : header_len n + n <= len <= zlen m.

Lemma publish_lengths :
  1 <= zlen t /\ zlen t < 65536 /\ n = 2 + zlen t + zlen ids + zlen data /\ zlen m = header_len n + n + zlen rest /\
  0 <= n /\ 2 <= header_len n <= 3 /\ (3 <= Z.to_nat len + 1)%nat.
Proof.
  assert (1 <= zlen t) by (destruct t; [done|rewrite zlen_cons; pose proof (zlen_nonneg l); lia]).
  pose proof (zlen_nonneg ids). pose proof (zlen_nonneg data).
  assert (En : n = 2 + zlen t + zlen ids + zlen data).
  { unfold n, body, encode_string. zlia. }
  assert (Em : zlen m = header_len n + n + zlen rest) by (unfold m; rewrite !zlen_app, zlen_fixed_header; fold n; lia).
  assert (2 <= header_len n <= 3) by (unfold header_len; zbool; lia).
  repeat split; lia.
Qed.

Lemma publish_type : rd m 0 = Some (fixed_byte MQTT_MSG_TYPE_PUBLISH dup qos retain).
Proof. apply fixed_header_first. Qed.

(** What every inspector reads first: the remaining length, then the topic's length. *)
Lemma publish_front :
  remaining_loop (Z.to_nat len + 1) m len 1 0 = Some (header_len n, n) /\
  skip_remaining (Z.to_nat len + 1) m len 1 = Some (header_len n) /\
  exists hi lo, rd m (header_len n) = Some hi /\ rd m (header_len n + 1) = Some lo /\
    Z.lor (Z.shiftl hi 8) lo = zlen t.
Proof.
  pose proof publish_lengths as (?&?&En&Em&?&?&?). pose proof (zlen_nonneg ids). pose proof (zlen_nonneg data).
  destruct (remaining_loop_header MQTT_MSG_TYPE_PUBLISH dup qos retain n (body ++ rest) len (Z.to_nat len + 1)) as [E1 E2];
    [lia|lia|done|]. split; [done|]. split; [done|].
  destruct (topic_length_bytes (fixed_header MQTT_MSG_TYPE_PUBLISH dup qos retain n) t ((ids ++ data) ++ rest)) as (E3 & E4 & E5); [lia|].
  rewrite zlen_fixed_header in E3, E4. unfold m, body. rewrite <- app_assoc. eauto.
Qed.

Lemma publish_total : mqtt_get_total_length m len = Some (header_len n + n).
Proof.
  pose proof publish_lengths as (?&?&En&Em&?&?&?). unfold mqtt_get_total_length.
  destruct publish_front as [-> _]. cbn [mbind option_bind]. rewrite int_ok_small by lia. f_equal. lia.
Qed.

Lemma publish_topic :
  mqtt_get_publish_topic m len = Some (Some (header_len n + 2), zlen t) /\
  tab (zlen t) (λ i, nthZ m (header_len n + 2 + i)) = t.
Proof.
  pose proof publish_lengths as (?&?&En&Em&?&?&?). unfold mqtt_get_publish_topic.
  destruct publish_front as (-> & _ & hi & lo & E1 & E2 & E3). cbn [mbind option_bind].
  rewrite int_ok_small by lia. cbn [mbind option_bind].
  pose proof (zlen_nonneg ids). pose proof (zlen_nonneg data). zfalse (len <=? header_len n + 2).
  rewrite E1. cbn [mbind option_bind]. rewrite E2. cbn [mbind option_bind]. rewrite E3.
  zfalse (len <? header_len n + 2 + zlen t). rewrite u16_small by lia.
  split; [done|]. unfold m, body, encode_string. rewrite <- !app_assoc.
  rewrite (app_assoc (fixed_header _ _ _ _ _)). apply tab_app_mid.
  rewrite zlen_app, zlen_fixed_header. done.
Qed.

Hypothesis Hids : zlen ids = if 0 <? qos mod 4 then 2 else 0.

Lemma publish_data :
  data ≠ [] ->
  let off := header_len n + 2 + zlen t + zlen ids in
  mqtt_get_publish_data m len = Some (Some off, zlen data) /\
  tab (zlen data) (λ i, nthZ m (off + i)) = data.
Proof.
  intros Hdata. pose proof publish_lengths as (?&?&En&Em&?&?&?).
  assert (1 <= zlen data) by (destruct data as [|x l]; [done|rewrite zlen_cons; pose proof (zlen_nonneg l); lia]).
  intros off. unfold mqtt_get_publish_data.
  destruct publish_front as (-> & _ & hi & lo & E1 & E2 & E3). cbn [mbind option_bind].
  rewrite int_ok_small by lia. cbn [mbind option_bind].
  pose proof (zlen_nonneg ids). zfalse (len <=? header_len n + 2).
  rewrite E1. cbn [mbind option_bind]. rewrite E2. cbn [mbind option_bind]. rewrite E3.
  zfalse (len <=? header_len n + 2 + zlen t). rewrite publish_type.
  cbn [mbind option_bind]. destruct (fixed_byte_fields MQTT_MSG_TYPE_PUBLISH dup qos retain) as (_ & _ & _ & -> & _).
  split.
  - unfold off. rewrite Hids in *. destruct (0 <? qos mod 4).
    + zfalse (len <=? header_len n + 2 + zlen t + 2). zfalse (n + header_len n <? header_len n + 2 + zlen t + 2).
      ztrue (n + header_len n <=? len). rewrite u16_small by lia. do 2 f_equal. lia.
    + rewrite Z.add_0_r. zfalse (n + header_len n <? header_len n + 2 + zlen t).
      ztrue (n + header_len n <=? len). rewrite u16_small by lia. do 2 f_equal. lia.
  - assert (Hm : m = (fixed_header MQTT_MSG_TYPE_PUBLISH dup qos retain n ++ encode_string t ++ ids) ++ data ++ rest).
    { unfold m, body. by rewrite <- !app_assoc. }
    rewrite Hm. apply tab_app_mid. unfold off, encode_string.
    rewrite !zlen_app, zlen_fixed_header. change (zlen [_; _]) with 2. lia.
Qed.

(** The identifier is found when at least one more byte counts as the message's. *)
Lemma publish_id mid :
  header_len n + 2 + zlen t + zlen ids < len ->
  is_u16 mid -> ids = (if 0 <? qos mod 4 then encode_id mid else []) ->
  mqtt_get_id m len = Some (if 0 <? qos mod 4 then mid else 0).
Proof.
  intros Hmore Hmid Eids.
  pose proof publish_lengths as (?&?&En&Em&?&?&?). unfold mqtt_get_id.
  zfalse (len <? 1). rewrite publish_type. cbn [mbind option_bind].
  destruct (fixed_byte_fields MQTT_MSG_TYPE_PUBLISH dup qos retain) as (_ & -> & _ & -> & _).
  change (MQTT_MSG_TYPE_PUBLISH mod 16 =? MQTT_MSG_TYPE_PUBLISH) with true. cbn [mbind option_bind].
  destruct publish_front as (_ & -> & hi & lo & E1 & E2 & E3). cbn [mbind option_bind].
  pose proof (zlen_nonneg ids). zfalse (len <=? header_len n + 2).
  rewrite E1. cbn [mbind option_bind]. rewrite E2. cbn [mbind option_bind]. rewrite E3.
  zfalse (len <=? header_len n + 2 + zlen t).
  rewrite Hids in *. destruct (0 <? qos mod 4); [|done]. zfalse (len <=? header_len n + 2 + zlen t + 2).
  assert (Hm : m = (fixed_header MQTT_MSG_TYPE_PUBLISH dup qos retain n ++ encode_string t) ++ encode_id mid ++ data ++ rest).
  { unfold m, body. rewrite Eids, <- !app_assoc. done. }
  assert (Hh : zlen (fixed_header MQTT_MSG_TYPE_PUBLISH dup qos retain n ++ encode_string t) = header_len n + 2 + zlen t).
  { unfold encode_string. rewrite !zlen_app, zlen_fixed_header. change (zlen [_; _]) with 2. lia. }
  pose proof (zlen_nonneg rest). pose proof (zlen_nonneg data).
  rewrite <- Hh, Hm. rewrite <- (Z.add_0_r (zlen _)) at 1.
  rewrite !rd_app_r by (unfold encode_id; zlia). cbn [mbind option_bind].
  change (nthZ (encode_id mid ++ data ++ rest) 0) with (Z.shiftr mid 8).
  change (nthZ (encode_id mid ++ data ++ rest) 1) with (Z.land mid 255).
  rewrite be16_join' by apply Hmid. f_equal. by apply u16_small.
Qed.
End Publish.

(** ** What each constructor builds *)

Lemma present_cons t : t ≠ [] -> present (Some t) = Some t.
Proof. by destruct t. Qed.

Lemma zlen_encode_string s : zlen (encode_string s) = 2 + zlen s.
Proof. unfold encode_string. rewrite zlen_app. done. Qed.
Lemma zlen_encode_id mid : zlen (encode_id mid) = 2.
Proof. done. Qed.
#[export] Hint Rewrite zlen_encode_string zlen_encode_id : zlist.

Lemma fail_message_ok c : conn_ok c -> conn_ok (fail_message c) /\ mc_length (fail_message c) = 0.
Proof. intros []. split; [by split|done]. Qed.

Definition publish_body (t : list Z) (qos mid : Z) (data : list Z) : list Z :=
  encode_string t ++ (if 0 <? qos then encode_id mid else []) ++ data.
Definition publish_packet (qos retain : Z) (t : list Z) (mid : Z) (data : list Z) : list Z :=
  fixed_header MQTT_MSG_TYPE_PUBLISH 0 qos retain (zlen (publish_body t qos mid data)) ++ publish_body t qos mid data.

(** How the inspectors read a PUBLISH packet at the start of [len] received bytes. *)
Lemma publish_packet_reads qos retain t mid data rest len :
  t ≠ [] -> data ≠ [] -> 0 <= qos <= 3 -> 0 <= retain <= 1 -> is_u16 mid ->
  zlen (publish_body t qos mid data) <= 16383 ->
  let pk := publish_packet qos retain t mid data in
  let m := pk ++ rest in
  zlen pk <= len <= zlen m ->
  mqtt_get_type (nthZ m 0) = MQTT_MSG_TYPE_PUBLISH /\ mqtt_get_qos (nthZ m 0) = qos /\
  mqtt_get_retain (nthZ m 0) = retain /\
  mqtt_get_total_length m len = Some (zlen pk) /\
  (exists off, mqtt_get_publish_topic m len = Some (Some off, zlen t) /\ tab (zlen t) (λ i, nthZ m (off + i)) = t) /\
  (exists off, mqtt_get_publish_data m len = Some (Some off, zlen data) /\ tab (zlen data) (λ i, nthZ m (off + i)) = data) /\
  mqtt_get_id m len = Some (if 0 <? qos then mid else 0).
Proof.
  intros Ht Hd Hq Hr Hmid Hn pk m Hlen. set (ids := if 0 <? qos then encode_id mid else []).
  assert (Hqm : qos mod 4 = qos) by (rewrite Z.mod_small; lia).
  assert (Hids : zlen ids = if 0 <? qos mod 4 then 2 else 0) by (rewrite Hqm; unfold ids; by destruct (0 <? qos)).
  assert (Hpk : zlen pk = header_len (zlen (publish_body t qos mid data)) + zlen (publish_body t qos mid data)).
  { unfold pk, publish_packet. by rewrite zlen_app, zlen_fixed_header. }
  assert (Hm : m = fixed_header MQTT_MSG_TYPE_PUBLISH 0 qos retain (zlen (encode_string t ++ ids ++ data)) ++ (encode_string t ++ ids ++ data) ++ rest).
  { unfold m, pk, publish_packet. by rewrite <- app_assoc. }
  assert (H1 : 1 <= zlen data) by (destruct data as [|x l]; [done|rewrite zlen_cons; pose proof (zlen_nonneg l); lia]).
  assert (Hb : zlen (publish_body t qos mid data) = 2 + zlen t + zlen ids + zlen data) by (unfold publish_body; fold ids; zlia).
  rewrite Hpk in Hlen |- *.
  pose proof (fixed_byte_fields MQTT_MSG_TYPE_PUBLISH 0 qos retain) as (_ & Ty & _ & Qo & Re).
  assert (H0 : nthZ m 0 = fixed_byte MQTT_MSG_TYPE_PUBLISH 0 qos retain) by (rewrite Hm; unfold fixed_header; by destruct (127 <? _)).
  rewrite H0, Ty, Qo, Re, Hqm. split; [done|]. split; [done|]. split; [rewrite Z.mod_small; lia|].
  rewrite Hm in Hlen |- *. change (publish_body t qos mid data) with (encode_string t ++ ids ++ data) in *.
  split; [by apply publish_total|]. split; [eexists; by apply publish_topic|]. split; [eexists; by apply publish_data|].
  pose proof (publish_id 0 qos retain t ids data rest len Ht Hn Hlen Hids mid ltac:(lia) Hmid) as Hi.
  rewrite Hqm in Hi. by apply Hi.
Qed.

(** A constructor's answer: the message with this header and body, or the failed message. *)
Definition built (c' : mqtt_connection_t) (header body : list Z) : Prop :=
  message_bytes c' = header ++ body /\ mc_length c' = zlen (message_bytes c') /\ conn_ok c' /\
  (exists off, mc_data c' = Some off /\ 0 <= off /\ off + mc_length c' <= zlen (mc_buffer c')).
Definition failed (c' : mqtt_connection_t) : Prop := mc_length c' = 0 /\ conn_ok c' /\ mc_data c' = Some 0.

Lemma fini_built c body type dup qos retain :
  building c body ->
  exists c', fini_message c type dup qos retain = Some c' /\
    built c' (fixed_header type dup qos retain (zlen body)) body /\ conn_same c c'.
Proof.
  intros B. destruct (fini_message_spec c body type dup qos retain B) as (c' & E & S & Hb & Hl & Hd).
  exists c'. split; [done|]. split; [|done]. split; [done|]. split; [done|]. split; [|done].
  apply (conn_ok_same c); [apply B|done].
Qed.

Lemma failed_of c body : building c body -> failed (fail_message c).
Proof. intros [W _ _ _]. split; [done|]. split; [by destruct W|done]. Qed.

Lemma mqtt_msg_publish_spec c t data qos retain mid0 :
  conn_ok c -> t ≠ [] ->
  let mid := if 0 <? qos then fst (next_id 0 (mc_message_id c)) else 0 in
  let body := publish_body t qos mid data in
  exists c' m, mqtt_msg_publish c (Some t) data (zlen data) qos retain mid0 = Some (c', m) /\
    if 3 + zlen body <=? mc_buffer_length c
    then m = mid /\ built c' (fixed_header MQTT_MSG_TYPE_PUBLISH 0 qos retain (zlen body)) body
    else failed c'.
Proof.
  intros W Ht mid body. destruct (building_init c W) as [B0 S0].
  pose proof (zlen_nonneg t). pose proof (zlen_nonneg data).
  assert (Hlen : zlen body = 2 + zlen t + (if 0 <? qos then 2 else 0) + zlen data).
  { unfold body, publish_body. destruct (0 <? qos); zlia. }
  assert (Hmin : 2 + zlen t + zlen data <= zlen body) by (rewrite Hlen; destruct (0 <? qos); lia).
  unfold mqtt_msg_publish. rewrite present_cons by done.
  pose proof (append_string_spec (init_message c) [] t B0) as Ha.
  change (mc_buffer_length (init_message c)) with (mc_buffer_length c) in Ha. change (zlen (@nil Z)) with 0 in Ha.
  destruct (Z.ltb_spec (mc_buffer_length c) (3 + 0 + zlen t + 2)).
  { rewrite Ha. cbn [mbind option_bind]. eexists _, _. split; [done|].
    zfalse (3 + zlen body <=? mc_buffer_length c); by apply (failed_of _ []). }
  destruct Ha as (c1 & E1 & B1 & S1). rewrite E1. cbn [mbind option_bind]. zfalse (zlen t + 2 <? 0).
  assert (Hid1 : mc_message_id c1 = mc_message_id c /\ mc_buffer_length c1 = mc_buffer_length c) by (destruct S1 as (?&?&?); done).
  destruct Hid1 as [Hid1 Hbl1]. cbn [app] in B1.
  assert (Hmid : exists c2 ok, (if 0 <? qos then '(c, mid) ← append_message_id c1 0; Some (c, mid, negb (mid =? 0))
           else Some (c1, 0, true)) = Some (c2, if (ok : bool) then mid else 0, ok) /\
         mc_buffer_length c2 = mc_buffer_length c /\
         if (ok : bool) then building c2 (encode_string t ++ (if 0 <? qos then encode_id mid else []))
         else mc_buffer_length c < 3 + zlen body /\ failed (fail_message c2)).
  { unfold mid. destruct (0 <? qos).
    - pose proof (append_message_id_spec c1 (encode_string t) 0 B1 ltac:(unfold is_u16; lia)) as Hi.
      rewrite Hid1, Hbl1, zlen_encode_string in Hi.
      pose proof (next_id_range 0 (mc_message_id c) ltac:(unfold is_u16; lia) ltac:(apply W)) as Hr.
      destruct (next_id 0 (mc_message_id c)) as [id cid]. cbn [fst snd] in *.
      destruct (Z.ltb_spec (mc_buffer_length c) (3 + (2 + zlen t) + 2)).
      + rewrite Hi. exists (with_id c1 cid), false. split; [done|]. split; [done|]. split; [unfold publish_body in body; lia|].
        split; [done|]. split; [|done]. destruct (bd_ok _ _ B1). split; simpl; try done. apply Hr.
      + destruct Hi as (c2 & E2 & B2 & S2). rewrite E2. exists c2, true. cbn [mbind option_bind].
        zfalse (id =? 0). split; [done|]. split; [destruct S2 as (?&?&?); simpl in *; congruence|done].
    - exists c1, true. rewrite app_nil_r. done. }
  destruct Hmid as (c2 & ok & -> & Hbl2 & B2). cbn [mbind option_bind]. destruct ok; cbn [negb].
  2:{ destruct B2 as [? F]. eexists _, _. split; [done|]. zfalse (3 + zlen body <=? mc_buffer_length c). done. }
  assert (Hl2 : zlen (encode_string t ++ (if 0 <? qos then encode_id mid else [])) = zlen body - zlen data).
  { rewrite Hlen. destruct (0 <? qos); zlia. }
  rewrite Hbl2, (bd_len _ _ B2), Hl2.
  destruct (Z.ltb_spec (mc_buffer_length c) (3 + (zlen body - zlen data) + zlen data)).
  { eexists _, _. split; [done|]. zfalse (3 + zlen body <=? mc_buffer_length c). by apply (failed_of _ _ B2). }
  rewrite bslice_Some by lia. cbn [mbind option_bind]. rewrite (tab_ext _ _ (nthZ data)), tab_nthZ by done.
  destruct (building_store c2 _ data (mc_data c2) B2) as (b & E3 & B3 & _); [lia|].
  rewrite (bd_len _ _ B2), Hl2 in E3, B3. rewrite E3. cbn [mbind option_bind].
  rewrite <- app_assoc in B3. fold body in B3.
  destruct (fini_built _ _ MQTT_MSG_TYPE_PUBLISH 0 qos retain B3) as (c' & E4 & Hb & _). rewrite E4. cbn [mbind option_bind].
  eexists _, _. split; [done|]. ztrue (3 + zlen body <=? mc_buffer_length c). done.
Qed.

(** C15: a PUBLISH with a topic and a payload that are not empty, which fits the
    buffer and MQTT's two-byte remaining length, reads back unchanged: the
    inspectors of mqtt_msg.c find its type, qos, retain flag, total length,
    topic, payload and, for qos above 0, its nonzero identifier.  (For an empty
    payload they do not: [mqtt_publish_empty_id].) *)
Theorem mqtt_publish_roundtrip c t data qos retain mid0 :
  conn_ok c -> t ≠ [] -> data ≠ [] -> 0 <= qos <= 3 -> 0 <= retain <= 1 ->
  let n := 2 + zlen t + (if 0 <? qos then 2 else 0) + zlen data in
  3 + n <= mc_buffer_length c -> n <= 16383 ->
  exists c' mid, mqtt_msg_publish c (Some t) data (zlen data) qos retain mid0 = Some (c', mid) /\
    let m := message_bytes c' in
    mc_length c' = zlen m /\ (mid ≠ 0 <-> 0 < qos) /\
    mqtt_get_type (nthZ m 0) = MQTT_MSG_TYPE_PUBLISH /\ mqtt_get_qos (nthZ m 0) = qos /\
    mqtt_get_retain (nthZ m 0) = retain /\
    mqtt_get_total_length m (zlen m) = Some (zlen m) /\
    (exists off, mqtt_get_publish_topic m (zlen m) = Some (Some off, zlen t) /\
                 tab (zlen t) (λ i, nthZ m (off + i)) = t) /\
    (exists off, mqtt_get_publish_data m (zlen m) = Some (Some off, zlen data) /\
                 tab (zlen data) (λ i, nthZ m (off + i)) = data) /\
    mqtt_get_id m (zlen m) = Some mid.
Proof.
  intros W Ht Hd Hq Hr n Hfit Hn.
  destruct (mqtt_msg_publish_spec c t data qos retain mid0 W Ht) as (c' & mid & E & Hspec). revert Hspec.
  pose proof (next_id_range 0 (mc_message_id c) ltac:(unfold is_u16; lia) ltac:(apply W)) as [Hr' _].
  set (mid' := if 0 <? qos then fst (next_id 0 (mc_message_id c)) else 0) in *.
  assert (Hlen : zlen (publish_body t qos mid' data) = n) by (unfold n, publish_body; destruct (0 <? qos); zlia).
  rewrite Hlen. ztrue (3 + n <=? mc_buffer_length c). intros (-> & Hm & Hl & _).
  exists c', mid'. split; [done|]. cbv zeta.
  assert (Hmid : is_u16 mid' /\ (mid' ≠ 0 <-> 0 < qos)) by (unfold mid', is_u16; destruct (Z.ltb_spec 0 qos); lia).
  split; [done|]. split; [apply Hmid|]. rewrite <- Hlen in Hm, Hn.
  pose proof (publish_packet_reads qos retain t mid' data [] (zlen (message_bytes c')) Ht Hd Hq Hr (proj1 Hmid) Hn) as Hp.
  cbv zeta in Hp. rewrite app_nil_r in Hp. unfold publish_packet in Hp. rewrite <- Hm in Hp.
  destruct (Hp ltac:(lia)) as (T & Q & R & L & P & D & I). repeat split; try done. rewrite I. unfold mid'. by destruct (0 <? qos).
Qed.

(** ** CONNECT *)

Lemma append_or_fail_spec c body s :
  building c body ->
  if mc_buffer_length c <? 3 + zlen body + (2 + zlen s)
  then append_or_fail c s = Some (inl (fail_message c))
  else exists c', append_or_fail c s = Some (inr c') /\ building c' (body ++ encode_string s) /\ conn_same c c'.
Proof.
  intros B. unfold append_or_fail. pose proof (append_string_spec c body s B) as H. pose proof (zlen_nonneg s).
  destruct (Z.ltb_spec (mc_buffer_length c) (3 + zlen body + zlen s + 2)).
  - rewrite H. ztrue (mc_buffer_length c <? 3 + zlen body + (2 + zlen s)). done.
  - zfalse (mc_buffer_length c <? 3 + zlen body + (2 + zlen s)). destruct H as (c' & E & B' & S). rewrite E.
    cbn [mbind option_bind]. zfalse (zlen s + 2 <? 0). eauto.
Qed.

Lemma or_flag_spec c f ka rest x :
  building c (variable_header f ka ++ rest) ->
  exists c', or_flag c x = Some c' /\ building c' (variable_header (u8 (Z.lor f x)) ka ++ rest) /\ conn_same c c'.
Proof.
  intros [W Hl Hf Hb]. pose proof W as []. pose proof (zlen_nonneg rest).
  assert (Hz : zlen (variable_header f ka ++ rest) = 12 + zlen rest) by (rewrite zlen_app; done).
  assert (Hz' : forall f, zlen (variable_header f ka ++ rest) = 12 + zlen rest) by (intros; rewrite zlen_app; done).
  unfold or_flag. rewrite rd_Some by lia. cbn [mbind option_bind].
  pose proof (Hb 9 ltac:(lia)) as H9. change (3 + 9) with 12 in H9. rewrite H9.
  change (nthZ (variable_header f ka ++ rest) 9) with f.
  destruct (wr_Some (mc_buffer c) 12 (u8 (Z.lor f x))) as (b & E & Z' & N); [lia|]. rewrite E. cbn [mbind option_bind].
  eexists. split; [done|]. assert (S : conn_same c (with_message c (mc_data c) (mc_length c) b)) by done.
  split; [|done]. split; [by apply (conn_ok_same c)|cbn [mc_length mc_buffer_length with_message]; rewrite Hz'; lia..|].
  intros i Hi. rewrite Hz' in Hi. cbn [mc_buffer with_message]. rewrite N by lia.
  destruct (Z.eqb_spec (3 + i) 12) as [E12|].
  - replace i with 9 by lia. done.
  - rewrite Hb by lia. rewrite !nthZ_app by lia. change (zlen (variable_header _ _)) with 12.
    destruct (Z.ltb_spec i 12); [|done].
    assert (i = 0 \/ i = 1 \/ i = 2 \/ i = 3 \/ i = 4 \/ i = 5 \/ i = 6 \/ i = 7 \/ i = 8 \/ i = 10 \/ i = 11) as Hc by lia.
    by decompose [or] Hc; subst.
Qed.

(** The CONNECT flags and the strings of the payload. *)
Definition opt_field (s : option (list Z)) : list (list Z) := match present s with Some t => [t] | None => [] end.
Definition is_present (s : option (list Z)) : Z := match present s with Some _ => 1 | None => 0 end.

Definition connect_flags (info : mqtt_connect_info_t) : Z :=
  128 * is_present (username info) + 64 * is_present (password info) +
  is_present (will_topic info) * ((if will_retain info =? 0 then 0 else 32) + 8 * (will_qos info mod 4) + 4) +
  (if clean_session info =? 0 then 0 else 2).

Definition connect_fields (info : mqtt_connect_info_t) : list (list Z) :=
  opt_field (client_id info) ++
  match present (will_topic info) with Some t => [t; default [] (will_message info)] | None => [] end ++
  opt_field (username info) ++ opt_field (password info).

Definition connect_body (flags : Z) (info : mqtt_connect_info_t) (fields : list (list Z)) : list Z :=
  variable_header flags (keepalive info) ++ concat (encode_string <$> fields).

(** Where the assembly stands: the strings [fs] are stored and the flags are
    [flags], or they did not fit. *)
Definition stage (bl : Z) (info : mqtt_connect_info_t) (flags : Z) (fs : list (list Z))
    (r : option (mqtt_connection_t + mqtt_connection_t)) : Prop :=
  match r with
  | Some (inr c) => building c (connect_body flags info fs) /\ mc_buffer_length c = bl
  | Some (inl c) => failed c /\ mc_buffer_length c = bl /\ bl < 3 + zlen (connect_body flags info fs)
  | None => False
  end.

Lemma zlen_connect_body flags info fs : zlen (connect_body flags info fs) = 12 + zlen (concat (encode_string <$> fs)).
Proof. unfold connect_body. rewrite zlen_app. done. Qed.

Lemma stage_then bl info f f' fs fs' r k :
  stage bl info f fs r ->
  (forall c, building c (connect_body f info fs) -> mc_buffer_length c = bl -> stage bl info f' (fs ++ fs') (k c)) ->
  stage bl info f' (fs ++ fs') (and_then r k).
Proof.
  unfold and_then. destruct r as [[c|c]|]; cbn [mbind option_bind stage]; [|intros []; auto|done].
  intros (F & E & L) _. split; [done|]. split; [done|]. rewrite zlen_connect_body in *. rewrite fmap_app, concat_app, zlen_app.
  pose proof (zlen_nonneg (concat (encode_string <$> fs'))). lia.
Qed.

Lemma stage_append bl info f fs c s :
  building c (connect_body f info fs) -> mc_buffer_length c = bl -> stage bl info f (fs ++ [s]) (append_or_fail c s).
Proof.
  intros B Hbl. pose proof (append_or_fail_spec c _ s B) as H. rewrite Hbl in H.
  assert (E : connect_body f info (fs ++ [s]) = connect_body f info fs ++ encode_string s).
  { unfold connect_body. rewrite fmap_app, concat_app. cbn [fmap list_fmap concat]. rewrite app_nil_r, <- app_assoc. done. }
  destruct (Z.ltb_spec bl (3 + zlen (connect_body f info fs) + (2 + zlen s))).
  - rewrite H. split; [by eapply failed_of|]. split; [done|]. rewrite E, zlen_app, zlen_encode_string. lia.
  - destruct H as (c' & -> & B' & S). cbn [stage]. rewrite E. split; [done|]. destruct S as (_ & -> & _). done.
Qed.

Lemma stage_flag bl info f fs x c (k : mqtt_connection_t -> option (mqtt_connection_t + mqtt_connection_t)) f' fs' :
  building c (connect_body f info fs) -> mc_buffer_length c = bl ->
  (forall c, building c (connect_body (u8 (Z.lor f x)) info fs) -> mc_buffer_length c = bl -> stage bl info f' fs' (k c)) ->
  stage bl info f' fs' (c ← or_flag c x; k c).
Proof.
  intros B Hbl Hk. destruct (or_flag_spec _ _ _ _ x B) as (c' & -> & B' & S). cbn [mbind option_bind].
  apply Hk; [done|]. destruct S as (_ & -> & _). done.
Qed.

(** The flags after the optional parts, as the code accumulates them. *)
Definition flags_will (info : mqtt_connect_info_t) (f : Z) : Z :=
  match present (will_topic info) with
  | Some _ =>
      let f := u8 (Z.lor f MQTT_CONNECT_FLAG_WILL) in
      let f := if will_retain info =? 0 then f else u8 (Z.lor f MQTT_CONNECT_FLAG_WILL_RETAIN) in
      u8 (Z.lor f (Z.shiftl (Z.land (will_qos info) 3) 3))
  | None => f
  end.
Definition flag_if (s : option (list Z)) (x f : Z) : Z :=
  match present s with Some _ => u8 (Z.lor f x) | None => f end.

Lemma connect_flags_accumulate info :
  flag_if (password info) MQTT_CONNECT_FLAG_PASSWORD (flag_if (username info) MQTT_CONNECT_FLAG_USERNAME
    (flags_will info (if clean_session info =? 0 then 0 else u8 (Z.lor 0 MQTT_CONNECT_FLAG_CLEAN_SESSION)))) =
  connect_flags info.
Proof.
  unfold connect_flags, flags_will, flag_if, is_present. rewrite land_3.
  assert (Hq : will_qos info mod 4 = 0 \/ will_qos info mod 4 = 1 \/ will_qos info mod 4 = 2 \/ will_qos info mod 4 = 3) by dlia.
  destruct (clean_session info =? 0), (will_retain info =? 0), (present (will_topic info)),
    (present (username info)), (present (password info)); try done; by destruct Hq as [->|[->|[->| ->]]].
Qed.

Lemma stage_optional bl info f fs c s x :
  building c (connect_body f info fs) -> mc_buffer_length c = bl ->
  stage bl info (flag_if s x f) (fs ++ opt_field s)
    match present s with
    | Some s => and_then (append_or_fail c s) (λ c, c ← or_flag c x; Some (inr c))
    | None => Some (inr c)
    end.
Proof.
  intros B Hbl. unfold flag_if, opt_field. destruct (present s) as [t|]; [|by rewrite app_nil_r].
  rewrite <- (app_nil_r (fs ++ [t])). apply (stage_then bl info f _ (fs ++ [t]) []); [by apply stage_append|]. intros c1 B1 H1. rewrite app_nil_r.
  by eapply stage_flag.
Qed.

Lemma stage_will bl info f fs c :
  building c (connect_body f info fs) -> mc_buffer_length c = bl ->
  (present (will_topic info) ≠ None -> will_message info ≠ None) ->
  stage bl info (flags_will info f)
    (fs ++ match present (will_topic info) with Some t => [t; default [] (will_message info)] | None => [] end)
    match present (will_topic info) with
    | Some t => and_then (append_or_fail c t) (λ c,
        m ← will_message info;
        and_then (append_or_fail c m) (λ c,
        c ← or_flag c MQTT_CONNECT_FLAG_WILL;
        c ← (if will_retain info =? 0 then Some c else or_flag c MQTT_CONNECT_FLAG_WILL_RETAIN);
        c ← or_flag c (Z.shiftl (Z.land (will_qos info) 3) 3);
        Some (inr c)))
    | None => Some (inr c)
    end.
Proof.
  intros B Hbl Hm. unfold flags_will. destruct (present (will_topic info)) as [t|]; [|by rewrite app_nil_r].
  destruct (will_message info) as [m|]; [|by destruct Hm]. change (default [] (Some m)) with m.
  replace (fs ++ [t; m]) with ((fs ++ [t]) ++ [m]) by (by rewrite <- app_assoc).
  apply (stage_then bl info f _ (fs ++ [t]) [m]); [by apply stage_append|]. intros c1 B1 H1. cbn [mbind option_bind].
  rewrite <- (app_nil_r ((fs ++ [t]) ++ [m])).
  apply (stage_then bl info f _ ((fs ++ [t]) ++ [m]) []); [by apply stage_append|]. intros c2 B2 H2. rewrite app_nil_r.
  eapply stage_flag; [done..|]. intros c3 B3 H3. destruct (will_retain info =? 0); cbn [mbind option_bind].
  - by eapply stage_flag.
  - eapply stage_flag; [done..|]. intros c4 B4 H4. by eapply stage_flag.
Qed.

Lemma mqtt_msg_connect_total c info :
  conn_ok c -> (present (will_topic info) ≠ None -> will_message info ≠ None) ->
  let body := connect_body (connect_flags info) info (connect_fields info) in
  exists c', mqtt_msg_connect c info = Some c' /\ mc_buffer_length c' = mc_buffer_length c /\
    if present (client_id info) is Some _ then
      if 3 + zlen body <=? mc_buffer_length c
      then built c' (fixed_header MQTT_MSG_TYPE_CONNECT 0 0 0 (zlen body)) body
      else failed c'
    else failed c'.
Proof.
  intros W Hm body. destruct (building_init c W) as [B0 S0]. unfold mqtt_msg_connect.
  change (mc_length (init_message c)) with 3. cbn [mc_buffer_length init_message with_message].
  assert (Hb : 12 <= zlen body).
  { unfold body. rewrite zlen_connect_body. pose proof (zlen_nonneg (concat (encode_string <$> connect_fields info))). lia. }
  destruct (Z.ltb_spec (mc_buffer_length c) (3 + 12)).
  { eexists. split; [done|]. split; [done|]. zfalse (3 + zlen body <=? mc_buffer_length c).
    destruct (present (client_id info)); by eapply failed_of. }
  destruct (building_store (init_message c) [] (variable_header 0 (keepalive info)) (mc_data c) B0) as (b & E & B1 & _);
    [change (3 + 0 + 12 <= mc_buffer_length c); lia|].
  change (mc_length (init_message c)) with 3 in *. change (mc_buffer (init_message c)) with (mc_buffer c) in *.
  rewrite E. cbn [mbind option_bind]. change (zlen (variable_header 0 (keepalive info))) with 12 in B1.
  set (c1 := with_message _ _ _ b) in *. cbn [app] in B1.
  set (f0 := if clean_session info =? 0 then 0 else u8 (Z.lor 0 MQTT_CONNECT_FLAG_CLEAN_SESSION)).
  assert (Hc2 : exists c2, (if clean_session info =? 0 then Some c1 else or_flag c1 MQTT_CONNECT_FLAG_CLEAN_SESSION) = Some c2 /\
            building c2 (connect_body f0 info []) /\ mc_buffer_length c2 = mc_buffer_length c).
  { unfold f0, connect_body. cbn [fmap list_fmap concat]. destruct (clean_session info =? 0).
    - exists c1. rewrite app_nil_r. done.
    - rewrite <- (app_nil_r (variable_header 0 _)) in B1.
      destruct (or_flag_spec _ _ _ _ MQTT_CONNECT_FLAG_CLEAN_SESSION B1) as (c2 & E2 & B2 & S2). exists c2.
      split; [done|]. split; [done|]. destruct S2 as (_ & -> & _). done. }
  destruct Hc2 as (c2 & -> & B2 & Hbl). cbn [mbind option_bind].
  destruct (present (client_id info)) as [cid|] eqn:Ecid.
  2:{ eexists. split; [done|]. split; [done|]. by eapply failed_of. }
  match goal with |- context [finish ?r _] => assert (St : stage (mc_buffer_length c) info (connect_flags info) (connect_fields info) r) end.
  { rewrite <- connect_flags_accumulate. fold f0. unfold connect_fields, opt_field at 1. rewrite Ecid.
    apply (stage_then _ info f0 _ [cid]); [by apply (stage_append _ info f0 [])|]. intros c3 B3 H3.
    rewrite app_assoc.
    apply (stage_then _ info (flags_will info f0)); [by apply stage_will|]. intros c4 B4 H4.
    rewrite app_assoc. eapply stage_then; [by apply stage_optional|]. intros c5 B5 H5. by apply stage_optional. }
  unfold finish. destruct (and_then _ _) as [[c3|c3]|]; [| |by destruct St]; cbn [mbind option_bind].
  - exists c3. split; [done|]. destruct St as (F & E3 & L). split; [done|]. fold body in L. by zfalse (3 + zlen body <=? mc_buffer_length c).
  - destruct St as [B3 H3]. fold body in B3. destruct (fini_built _ _ MQTT_MSG_TYPE_CONNECT 0 0 0 B3) as (c' & E4 & Hbt & Sm).
    exists c'. split; [done|]. split; [destruct Sm as (_ & -> & _); done|]. pose proof (bd_fit _ _ B3). by ztrue (3 + zlen body <=? mc_buffer_length c).
Qed.

(** Mqtt_msg_connect builds exactly the MQTT 3.1 CONNECT packet (header,
    "MQIsdp", version 3, flags, keep-alive and the present strings in order)
    when it fits the buffer, and the failed (empty) message otherwise; a missing
    client id is refused. *)
Theorem mqtt_msg_connect_spec c info :
  conn_ok c -> (present (will_topic info) ≠ None -> will_message info ≠ None) ->
  let body := connect_body (connect_flags info) info (connect_fields info) in
  exists c', mqtt_msg_connect c info = Some c' /\ mc_buffer_length c' = mc_buffer_length c /\
    if present (client_id info) is Some _ then
      if 3 + zlen body <=? mc_buffer_length c
      then built c' (fixed_header MQTT_MSG_TYPE_CONNECT 0 0 0 (zlen body)) body
      else failed c'
    else failed c'.
Proof. apply mqtt_msg_connect_total. Qed.

(** ** Acknowledgements, subscriptions and the identifier of a message *)

Lemma ack_message_spec type qos c mid :
  conn_ok c -> is_u16 mid ->
  let id := fst (next_id mid (mc_message_id c)) in
  exists c', ack_message type qos c mid = Some c' /\
    if 5 <=? mc_buffer_length c then built c' (fixed_header type 0 qos 0 2) (encode_id id) else failed c'.
Proof.
  intros W Hmid id. destruct (building_init c W) as [B0 S0].
  pose proof (append_message_id_spec (init_message c) [] mid B0 Hmid) as H. unfold ack_message.
  cbn [mc_message_id mc_buffer_length init_message with_message] in H. change (zlen (@nil Z)) with 0 in H.
  pose proof (next_id_range mid (mc_message_id c) Hmid ltac:(apply W)) as Hr.
  unfold id. destruct (next_id mid (mc_message_id c)) as [i cid]. cbn [fst snd] in *.
  destruct (Z.ltb_spec (mc_buffer_length c) (3 + 0 + 2)).
  - rewrite H. cbn [mbind option_bind]. eexists. split; [done|]. zfalse (5 <=? mc_buffer_length c).
    split; [done|]. split; [|done]. destruct W. split; cbn; try done. apply Hr.
  - destruct H as (c1 & -> & B1 & S1). cbn [mbind option_bind]. zfalse (i =? 0). cbn [app] in B1.
    destruct (fini_built _ _ type 0 qos 0 B1) as (c' & -> & Hb & _). eexists. split; [done|].
    by ztrue (5 <=? mc_buffer_length c).
Qed.

(** Types whose messages carry their identifier right after the fixed header. *)
Definition id_after_header (type : Z) : bool :=
  (type =? MQTT_MSG_TYPE_PUBACK) || (type =? MQTT_MSG_TYPE_PUBREC) || (type =? MQTT_MSG_TYPE_PUBREL)
  || (type =? MQTT_MSG_TYPE_PUBCOMP) || (type =? MQTT_MSG_TYPE_SUBACK)
  || (type =? MQTT_MSG_TYPE_UNSUBACK) || (type =? MQTT_MSG_TYPE_SUBSCRIBE).

(** What [mqtt_get_id] finds in a message that starts with an identifier: it
    looks only behind a one-byte remaining length. *)
Lemma mqtt_get_id_header type dup qos retain id rest :
  is_u16 id -> 0 <= type < 16 -> id_after_header type = true ->
  let n := 2 + zlen rest in
  let m := fixed_header type dup qos retain n ++ encode_id id ++ rest in
  n <= 16383 ->
  mqtt_get_id m (zlen m) = Some (if n <=? 127 then id else 0).
Proof.
  intros Hid Ht Hk n m Hn. pose proof (zlen_nonneg rest).
  assert (Em : zlen m = header_len n + n) by (unfold m; rewrite !zlen_app, zlen_fixed_header; done).
  assert (2 <= header_len n <= 3) by (unfold header_len; zbool; lia).
  unfold mqtt_get_id. zfalse (zlen m <? 1). rewrite (fixed_header_first type dup qos retain n _ : rd m 0 = _).
  cbn [mbind option_bind].
  destruct (fixed_byte_fields type dup qos retain) as (_ & -> & _). rewrite Z.mod_small by lia.
  assert (Hp : (type =? MQTT_MSG_TYPE_PUBLISH) = false).
  { destruct (Z.eqb_spec type MQTT_MSG_TYPE_PUBLISH) as [->|]; done. }
  rewrite Hp. fold (id_after_header type). rewrite Hk. ztrue (4 <=? zlen m).
  rewrite !(rd_Some m) by lia. cbn [mbind option_bind]. unfold m, fixed_header.
  destruct (Z.ltb_spec 127 n).
  - zfalse (n <=? 127). change (nthZ _ 1) with (u8 (Z.lor 128 (n mod 128))).
    by destruct (continuation_set (n mod 128)) as [-> _]; [dlia|].
  - ztrue (n <=? 127). change (nthZ _ 1) with (u8 n). rewrite u8_small by lia.
    destruct (continuation_clear n) as [-> _]; [lia|]. cbn [Z.eqb].
    change (nthZ _ 2) with (Z.shiftr id 8). change (nthZ _ 3) with (Z.land id 255).
    rewrite be16_join' by done. by rewrite u16_small.
Qed.

(** An acknowledgement (PUBACK, PUBREC, PUBREL, PUBCOMP) for a nonzero
    identifier is a four-byte message whose type and identifier read back; for
    identifier 0 it carries a fresh nonzero one, which no peer ever sent. *)
Theorem mqtt_ack_roundtrip type qos c mid :
  conn_ok c -> 5 <= mc_buffer_length c -> is_u16 mid -> MQTT_MSG_TYPE_PUBACK <= type <= MQTT_MSG_TYPE_PUBCOMP ->
  exists c', ack_message type qos c mid = Some c' /\
    let m := message_bytes c' in
    zlen m = 4 /\ mc_length c' = 4 /\ mqtt_get_type (nthZ m 0) = type /\
    mqtt_get_total_length m 4 = Some 4 /\
    exists id, mqtt_get_id m 4 = Some id /\ (mid ≠ 0 -> id = mid) /\ (mid = 0 -> id ≠ mid).
Proof.
  intros W Hl Hmid Ht. unfold MQTT_MSG_TYPE_PUBACK, MQTT_MSG_TYPE_PUBCOMP in Ht.
  destruct (ack_message_spec type qos c mid W Hmid) as (c' & E & H). revert H.
  ztrue (5 <=? mc_buffer_length c). intros (Hm & Hlen & _). exists c'. split; [done|].
  pose proof (next_id_range mid (mc_message_id c) Hmid ltac:(apply W)) as [Hr _].
  set (id := fst _) in *. cbv zeta. rewrite Hm in *. change (zlen (fixed_header type 0 qos 0 2 ++ encode_id id)) with 4 in *.
  repeat split; try done.
  - change (nthZ _ 0) with (fixed_byte type 0 qos 0). destruct (fixed_byte_fields type 0 qos 0) as (_ & -> & _).
    apply Z.mod_small. lia.
  - exists id. split.
    + pose proof (mqtt_get_id_header type 0 qos 0 id [] ltac:(unfold is_u16; lia) ltac:(lia)) as Hi.
      rewrite app_nil_r in Hi. apply Hi; [|by vm_compute].
      assert (type = 4 \/ type = 5 \/ type = 6 \/ type = 7) as [->|[->|[->| ->]]] by lia; done.
    + unfold id in *. split; [|lia]. intros. unfold next_id. by zfalse (mid =? 0).
Qed.

Lemma mqtt_ack_roundtrip_witness :
  exists c', mqtt_msg_pubrec (mqtt_msg_init (replicate 16 0) 16) 513 = Some c' /\ message_bytes c' = [80; 2; 2; 1] /\
  exists id, mqtt_get_id (message_bytes c') 4 = Some id /\ (513 ≠ 0 -> id = 513).
Proof.
  destruct (mqtt_ack_roundtrip MQTT_MSG_TYPE_PUBREC 0 (mqtt_msg_init (replicate 16 0) 16) 513) as (c' & E & _ & _ & _ & _ & id & Hid & H & _);
    [by apply (conn_ok_init 16)|done..|].
  exists c'. split; [exact E|]. vm_compute in E. injection E as <-. split; [reflexivity|]. exists id. by split.
Defined.

Lemma mqtt_msg_subscribe_spec c t qos mid0 :
  conn_ok c -> t ≠ [] ->
  let id := fst (next_id 0 (mc_message_id c)) in
  let body := encode_id id ++ encode_string t ++ [u8 qos] in
  exists c' m, mqtt_msg_subscribe c (Some t) qos mid0 = Some (c', m) /\
    if 3 + zlen body <=? mc_buffer_length c
    then m = id /\ built c' (fixed_header MQTT_MSG_TYPE_SUBSCRIBE 0 1 0 (zlen body)) body
    else failed c'.
Proof.
  intros W Ht id body. destruct (building_init c W) as [B0 S0]. pose proof (zlen_nonneg t).
  assert (Hlen : zlen body = 5 + zlen t) by (unfold body; zlia).
  pose proof (append_message_id_spec (init_message c) [] 0 B0 ltac:(unfold is_u16; lia)) as H1.
  cbn [mc_message_id mc_buffer_length init_message with_message] in H1. change (zlen (@nil Z)) with 0 in H1.
  pose proof (next_id_range 0 (mc_message_id c) ltac:(unfold is_u16; lia) ltac:(apply W)) as Hr.
  unfold mqtt_msg_subscribe. rewrite present_cons by done. unfold id in *.
  destruct (next_id 0 (mc_message_id c)) as [i cid]. cbn [fst snd] in *.
  destruct (Z.ltb_spec (mc_buffer_length c) (3 + 0 + 2)).
  { rewrite H1. cbn [mbind option_bind]. eexists _, _. split; [done|]. zfalse (3 + zlen body <=? mc_buffer_length c).
    split; [done|]. split; [|done]. destruct W. split; cbn; try done. apply Hr. }
  destruct H1 as (c1 & -> & B1 & S1). cbn [mbind option_bind app] in *. zfalse (i =? 0).
  assert (Hbl1 : mc_buffer_length c1 = mc_buffer_length c) by (destruct S1 as (_ & -> & _); done).
  pose proof (append_string_spec c1 _ t B1) as H2. rewrite Hbl1, zlen_encode_id in H2.
  destruct (Z.ltb_spec (mc_buffer_length c) (3 + 2 + zlen t + 2)).
  { rewrite H2. cbn [mbind option_bind]. eexists _, _. split; [done|]. zfalse (3 + zlen body <=? mc_buffer_length c).
    by eapply failed_of. }
  destruct H2 as (c2 & -> & B2 & S2). cbn [mbind option_bind]. zfalse (zlen t + 2 <? 0).
  assert (Hbl2 : mc_buffer_length c2 = mc_buffer_length c) by (destruct S2 as (_ & -> & _); done).
  assert (Hl2 : mc_length c2 = 7 + zlen t) by (rewrite (bd_len _ _ B2); zlia). rewrite Hbl2, Hl2.
  destruct (Z.ltb_spec (mc_buffer_length c) (7 + zlen t + 1)).
  { eexists _, _. split; [done|]. zfalse (3 + zlen body <=? mc_buffer_length c). by eapply failed_of. }
  destruct (building_byte c2 _ (u8 qos) (mc_data c2) B2) as (b & E3 & B3 & _); [zlia|].
  rewrite Hl2 in *. rewrite E3. cbn [mbind option_bind]. rewrite <- app_assoc in B3. fold body in B3.
  destruct (fini_built _ _ MQTT_MSG_TYPE_SUBSCRIBE 0 1 0 B3) as (c' & -> & Hb & _).
  eexists _, _. split; [done|]. by ztrue (3 + zlen body <=? mc_buffer_length c).
Qed.

Lemma mqtt_msg_unsubscribe_spec c t mid0 :
  conn_ok c -> t ≠ [] ->
  let id := fst (next_id 0 (mc_message_id c)) in
  let body := encode_id id ++ encode_string t in
  exists c' m, mqtt_msg_unsubscribe c (Some t) mid0 = Some (c', m) /\
    if 3 + zlen body <=? mc_buffer_length c
    then m = id /\ built c' (fixed_header MQTT_MSG_TYPE_UNSUBSCRIBE 0 1 0 (zlen body)) body
    else failed c'.
Proof.
  intros W Ht id body. destruct (building_init c W) as [B0 S0]. pose proof (zlen_nonneg t).
  assert (Hlen : zlen body = 4 + zlen t) by (unfold body; zlia).
  pose proof (append_message_id_spec (init_message c) [] 0 B0 ltac:(unfold is_u16; lia)) as H1.
  cbn [mc_message_id mc_buffer_length init_message with_message] in H1. change (zlen (@nil Z)) with 0 in H1.
  pose proof (next_id_range 0 (mc_message_id c) ltac:(unfold is_u16; lia) ltac:(apply W)) as Hr.
  unfold mqtt_msg_unsubscribe. rewrite present_cons by done. unfold id in *.
  destruct (next_id 0 (mc_message_id c)) as [i cid]. cbn [fst snd] in *.
  destruct (Z.ltb_spec (mc_buffer_length c) (3 + 0 + 2)).
  { rewrite H1. cbn [mbind option_bind]. eexists _, _. split; [done|]. zfalse (3 + zlen body <=? mc_buffer_length c).
    split; [done|]. split; [|done]. destruct W. split; cbn; try done. apply Hr. }
  destruct H1 as (c1 & -> & B1 & S1). cbn [mbind option_bind app] in *. zfalse (i =? 0).
  assert (Hbl1 : mc_buffer_length c1 = mc_buffer_length c) by (destruct S1 as (_ & -> & _); done).
  pose proof (append_string_spec c1 _ t B1) as H2. rewrite Hbl1, zlen_encode_id in H2.
  destruct (Z.ltb_spec (mc_buffer_length c) (3 + 2 + zlen t + 2)).
  { rewrite H2. cbn [mbind option_bind]. eexists _, _. split; [done|]. zfalse (3 + zlen body <=? mc_buffer_length c).
    by eapply failed_of. }
  destruct H2 as (c2 & -> & B2 & S2). cbn [mbind option_bind]. zfalse (zlen t + 2 <? 0). fold body in B2.
  destruct (fini_built _ _ MQTT_MSG_TYPE_UNSUBSCRIBE 0 1 0 B2) as (c' & -> & Hb & _).
  eexists _, _. split; [done|]. by ztrue (3 + zlen body <=? mc_buffer_length c).
Qed.

(** A SUBSCRIBE or UNSUBSCRIBE that fits is built with a nonzero identifier
    and the topic, but [mqtt_get_id], which the client uses to match the
    acknowledgement, finds that identifier only in a SUBSCRIBE whose remaining
    length is one byte: it answers 0 for every UNSUBSCRIBE. *)
Theorem mqtt_subscription_ids c t qos mid0 :
  conn_ok c -> t ≠ [] -> 8 + zlen t <= mc_buffer_length c -> zlen t <= 16378 ->
  exists cs cu id, id ≠ 0 /\
    mqtt_msg_subscribe c (Some t) qos mid0 = Some (cs, id) /\ mqtt_msg_unsubscribe c (Some t) mid0 = Some (cu, id) /\
    message_bytes cs = fixed_header MQTT_MSG_TYPE_SUBSCRIBE 0 1 0 (5 + zlen t) ++ encode_id id ++ encode_string t ++ [u8 qos] /\
    message_bytes cu = fixed_header MQTT_MSG_TYPE_UNSUBSCRIBE 0 1 0 (4 + zlen t) ++ encode_id id ++ encode_string t /\
    mqtt_get_id (message_bytes cs) (mc_length cs) = Some (if 5 + zlen t <=? 127 then id else 0) /\
    mqtt_get_id (message_bytes cu) (mc_length cu) = Some 0.
Proof.
  intros W Ht Hf Hn. pose proof (zlen_nonneg t).
  destruct (mqtt_msg_subscribe_spec c t qos mid0 W Ht) as (cs & ms & Es & Hs).
  destruct (mqtt_msg_unsubscribe_spec c t mid0 W Ht) as (cu & mu & Eu & Hu).
  pose proof (next_id_range 0 (mc_message_id c) ltac:(unfold is_u16; lia) ltac:(apply W)) as [Hr _].
  set (id := fst _) in *.
  assert (L1 : zlen (encode_id id ++ encode_string t ++ [u8 qos]) = 5 + zlen t) by zlia.
  assert (L2 : zlen (encode_id id ++ encode_string t) = 4 + zlen t) by zlia.
  rewrite L1 in Hs. rewrite L2 in Hu. revert Hs Hu. ztrue (3 + (5 + zlen t) <=? mc_buffer_length c).
  ztrue (3 + (4 + zlen t) <=? mc_buffer_length c). intros (-> & Hs & Ls & _) (-> & Hu & Lu & _).
  exists cs, cu, id. split; [lia|]. split; [done|]. split; [done|]. split; [done|]. split; [done|]. rewrite Ls, Lu, Hs, Hu. split.
  - pose proof (mqtt_get_id_header MQTT_MSG_TYPE_SUBSCRIBE 0 1 0 id (encode_string t ++ [u8 qos])
      ltac:(unfold is_u16; lia) ltac:(unfold MQTT_MSG_TYPE_SUBSCRIBE; lia) eq_refl) as Hi.
    replace (2 + zlen (encode_string t ++ [u8 qos])) with (5 + zlen t) in Hi by zlia. apply Hi. lia.
  - unfold mqtt_get_id. rewrite fixed_header_first. cbn [mbind option_bind].
    destruct (fixed_byte_fields MQTT_MSG_TYPE_UNSUBSCRIBE 0 1 0) as (_ & -> & _). by destruct (_ <? 1).
Qed.

(** ** The inspectors on any received bytes *)

(** The remaining length ends within four bytes (or the message does). *)
Definition length_terminated (buffer : list Z) (len : Z) : Prop :=
  exists j, 1 <= j <= 4 /\ (len <= j \/ nthZ buffer j < 128).

Lemma land_128_clear b : is_byte b -> Z.land b 128 = 0 <-> b < 128.
Proof.
  intros Hb. pose proof (zall_spec 256 (λ b, Bool.eqb (Z.land b 128 =? 0) (b <? 128)) ltac:(vm_compute; reflexivity) b Hb) as H.
  cbv beta in H. apply eqb_prop in H. destruct (Z.eqb_spec (Z.land b 128) 0), (Z.ltb_spec b 128); try discriminate; lia.
Qed.

Lemma remaining_loop_safe buffer len k : forall fuel i totlen,
  Forall is_byte buffer -> len <= zlen buffer -> 1 <= i -> i + Z.of_nat k <= 4 -> (k < fuel)%nat ->
  len <= i + Z.of_nat k \/ nthZ buffer (i + Z.of_nat k) < 128 ->
  0 <= totlen < 2 ^ (7 * (i - 1)) ->
  (exists i' t, remaining_loop fuel buffer len i totlen = Some (i', t) /\
     i <= i' <= 5 /\ i' <= Z.max i len /\ 0 <= t < 268435456) /\
  (exists i', skip_remaining fuel buffer len i = Some i' /\ i <= i' <= 5 /\ i' <= Z.max i len).
Proof.
  induction k as [|k IH]; intros fuel i totlen Hby Hlen Hi H4 Hf Hend Ht;
    (destruct fuel as [|fuel]; [lia|]);
    assert (Hp : 2 ^ (7 * (i - 1)) <= 2097152) by (transitivity (2 ^ 21); [apply Z.pow_le_mono_r; lia|done]);
    assert (Hp' : 0 < 2 ^ (7 * (i - 1))) by (apply Z.pow_pos_nonneg; lia);
    pose proof (nthZ_byte buffer i Hby) as Hb; unfold is_byte in Hb;
    assert (Hv : 0 <= Z.land (nthZ buffer i) 127 < 128) by (rewrite land_127; dlia);
    cbn [remaining_loop skip_remaining]; destruct (Z.ltb_spec i len) as [Hil|Hil];
    try (split; [exists i, totlen|exists i]; repeat split; solve [done | lia]);
    rewrite rd_Some by lia; cbn [mbind option_bind]; ztrue (7 * (i - 1) <? 32); cbn [mbind option_bind];
    rewrite Z.shiftl_mul_pow2 by lia; rewrite int_ok_small by nia; cbn [mbind option_bind];
    rewrite int_ok_small by nia; cbn [mbind option_bind].
  - assert (E : Z.land (nthZ buffer i) 128 = 0).
    { apply land_128_clear; [done|]. replace (i + Z.of_nat 0) with i in Hend by lia. lia. }
    rewrite E. split; [exists (i + 1); eexists; split; [done|]|exists (i + 1); split; [done|lia]]. nia.
  - destruct (Z.eqb_spec (Z.land (nthZ buffer i) 128) 0).
    + split; [exists (i + 1); eexists; split; [done|]|exists (i + 1); split; [done|lia]]. nia.
    + replace (i + Z.of_nat (S k)) with (i + 1 + Z.of_nat k) in * by lia.
      replace (7 * (i + 1 - 1)) with (7 * (i - 1) + 7) in * by lia.
      destruct (IH fuel (i + 1) (totlen + Z.land (nthZ buffer i) 127 * 2 ^ (7 * (i - 1)))) as [(i' & t & -> & ?) (i2 & -> & ?)];
        try done; try lia.
      { replace (7 * (i + 1 - 1)) with (7 * (i - 1) + 7) by lia. rewrite Z.pow_add_r by lia. change (2 ^ 7) with 128. nia. }
      split; [exists i', t|exists i2]; (split; [done|lia]).
Qed.

Lemma terminated_loops buffer len :
  Forall is_byte buffer -> 0 <= len <= zlen buffer -> length_terminated buffer len ->
  (exists i t, remaining_loop (Z.to_nat len + 1) buffer len 1 0 = Some (i, t) /\ 1 <= i <= 5 /\ i <= Z.max 1 len /\ 0 <= t < 268435456) /\
  (exists i, skip_remaining (Z.to_nat len + 1) buffer len 1 = Some i /\ 1 <= i <= 5 /\ i <= Z.max 1 len).
Proof.
  intros Hby Hlen (j & Hj & Hend).
  assert (Hk : exists k, 1 + Z.of_nat k <= 4 /\ (k < Z.to_nat len + 1)%nat /\
             (len <= 1 + Z.of_nat k \/ nthZ buffer (1 + Z.of_nat k) < 128)).
  { destruct (Z.leb_spec len 1); [exists 0%nat; lia|].
    destruct Hend; [exists (Z.to_nat (len - 1)); lia|].
    destruct (Z.leb_spec len j); [exists (Z.to_nat (len - 1)); lia|].
    exists (Z.to_nat (j - 1)). replace (1 + Z.of_nat (Z.to_nat (j - 1))) with j by lia. lia. }
  destruct Hk as (k & H4 & Hf & He). apply (remaining_loop_safe buffer len k); try done; lia.
Qed.

Lemma rd_byte buffer i : Forall is_byte buffer -> 0 <= i < zlen buffer -> exists b, rd buffer i = Some b /\ is_byte b.
Proof. intros Hby Hi. rewrite rd_Some by lia. eauto using nthZ_byte. Qed.

(** The two bytes of a length or an identifier inside the message. *)
Ltac read_be16 Hby :=
  match goal with
  | |- context [rd ?b ?i] =>
      let x := fresh "hi" in let y := fresh "lo" in let E := fresh in
      destruct (rd_byte b i Hby) as (x & E & ?); [lia|]; rewrite E; clear E; cbn [mbind option_bind];
      destruct (rd_byte b (i + 1) Hby) as (y & E & ?); [lia|]; rewrite E; clear E; cbn [mbind option_bind];
      pose proof (be16_bound x y ltac:(assumption) ltac:(assumption))
  end.

(** A pointer into the message and the length that goes with it. *)
Definition inside (len : Z) (r : option Z * Z) : Prop :=
  match fst r with Some off => 0 <= off /\ 0 <= snd r /\ off + snd r <= len | None => True end.

Lemma total_length_safe buffer len :
  Forall is_byte buffer -> 0 <= len <= zlen buffer -> length_terminated buffer len ->
  exists n, mqtt_get_total_length buffer len = Some n /\ 1 <= n < 268435461.
Proof.
  intros Hby Hlen Hend. destruct (terminated_loops buffer len Hby Hlen Hend) as [(i & t & E & ?&?&?) _].
  unfold mqtt_get_total_length. rewrite E. cbn [mbind option_bind]. rewrite int_ok_small by lia. eexists; split; [done|lia].
Qed.

Lemma publish_topic_safe buffer len :
  Forall is_byte buffer -> 0 <= len <= zlen buffer -> len < 65536 -> length_terminated buffer len ->
  exists r, mqtt_get_publish_topic buffer len = Some r /\ inside len r.
Proof.
  intros Hby Hlen H16 Hend. destruct (terminated_loops buffer len Hby Hlen Hend) as [(i & t & E & ?&?&?) _].
  unfold mqtt_get_publish_topic. rewrite E. cbn [mbind option_bind]. rewrite int_ok_small by lia. cbn [mbind option_bind].
  destruct (Z.leb_spec len (i + 2)); [by eexists|]. read_be16 Hby.
  destruct (Z.ltb_spec len (i + 2 + Z.lor (hi ≪ 8) lo)); [by eexists|].
  rewrite u16_small by lia. eexists; split; [done|]. unfold inside; simpl; lia.
Qed.

Lemma publish_data_safe buffer len :
  Forall is_byte buffer -> 0 <= len <= zlen buffer -> len < 65536 -> length_terminated buffer len ->
  exists r, mqtt_get_publish_data buffer len = Some r /\ inside len r.
Proof.
  intros Hby Hlen H16 Hend. destruct (terminated_loops buffer len Hby Hlen Hend) as [(i & t & E & ?&?&?) _].
  unfold mqtt_get_publish_data. rewrite E. cbn [mbind option_bind]. rewrite int_ok_small by lia. cbn [mbind option_bind].
  destruct (Z.leb_spec len (i + 2)); [by eexists|]. read_be16 Hby.
  destruct (Z.leb_spec len (i + 2 + Z.lor (hi ≪ 8) lo)); [by eexists|].
  destruct (rd_byte buffer 0 Hby) as (b0 & E0 & ?); [lia|]. rewrite E0. cbn [mbind option_bind].
  set (off := i + 2 + Z.lor (hi ≪ 8) lo) in *. assert (0 <= off) by lia. clearbody off.
  assert (K : forall off, 0 <= off <= len -> exists r,
    (if t + i <? off then Some (None, 0)
     else if t + i <=? len then Some (Some off, u16 (t + i - off)) else Some (Some off, u16 (len - off))) = Some r /\ inside len r).
  { intros o Ho. zbool; eexists; (split; [done|]); unfold inside; simpl; rewrite ?u16_small by lia; lia || done. }
  destruct (0 <? mqtt_get_qos b0); [|apply K; lia].
  destruct (Z.leb_spec len (off + 2)); [by eexists|]. apply K. lia.
Qed.

Lemma skip_remaining_safe buffer len : forall fuel i,
  Forall is_byte buffer -> len <= zlen buffer -> 1 <= i -> (Z.to_nat (len - i) < fuel)%nat ->
  exists i', skip_remaining fuel buffer len i = Some i' /\ i <= i' /\ i' <= Z.max i len.
Proof.
  induction fuel as [|fuel IH]; intros i Hby Hlen Hi Hf; [lia|]. cbn [skip_remaining].
  destruct (Z.ltb_spec i len); [|exists i; split; [done|lia]]. rewrite rd_Some by lia. cbn [mbind option_bind].
  destruct (Z.land (nthZ buffer i) 128 =? 0); [exists (i + 1); split; [done|lia]|].
  destruct (IH (i + 1)) as (i' & E & ?); [done|lia..|]. exists i'. split; [done|lia].
Qed.

(** [mqtt_get_id] never reads outside the message, whatever the bytes are. *)
Lemma mqtt_get_id_safe buffer len :
  Forall is_byte buffer -> 0 <= len <= zlen buffer -> exists id, mqtt_get_id buffer len = Some id /\ is_u16 id.
Proof.
  intros Hby Hlen. assert (U0 : is_u16 0) by (unfold is_u16; lia). unfold mqtt_get_id. destruct (Z.ltb_spec len 1); [by eexists|].
  destruct (rd_byte buffer 0 Hby) as (b0 & E0 & ?); [lia|]. rewrite E0. cbn [mbind option_bind].
  destruct (mqtt_get_type b0 =? MQTT_MSG_TYPE_PUBLISH).
  - destruct (skip_remaining_safe buffer len (Z.to_nat len + 1) 1 Hby) as (i2 & E2 & ?&?); [lia..|].
    rewrite E2. cbn [mbind option_bind]. destruct (Z.leb_spec len (i2 + 2)); [by eexists|]. read_be16 Hby.
    destruct (Z.leb_spec len (i2 + 2 + Z.lor (hi ≪ 8) lo)); [by eexists|].
    destruct (0 <? mqtt_get_qos b0); [|by eexists].
    set (off := i2 + 2 + Z.lor (hi ≪ 8) lo) in *. assert (0 <= off) by lia. clearbody off.
    destruct (Z.leb_spec len (off + 2)); [by eexists|]. read_be16 Hby. eexists; split; [done|]. apply u16_range.
  - match goal with |- context [if ?b then (if 4 <=? _ then _ else _) else _] => destruct b end; [|by eexists].
    destruct (Z.leb_spec 4 len); [|by eexists].
    destruct (rd_byte buffer 1 Hby) as (b1 & E1 & ?); [lia|]. rewrite E1. cbn [mbind option_bind].
    destruct (Z.land b1 128 =? 0); [|by eexists]. rewrite !rd_Some by lia. eexists; split; [done|]. apply u16_range.
Qed.

(** ... and depends on the message's bytes only. *)
Lemma mqtt_get_id_local b b' len :
  len <= zlen b -> len <= zlen b' -> (forall i, 0 <= i < len -> nthZ b i = nthZ b' i) ->
  mqtt_get_id b len = mqtt_get_id b' len.
Proof.
  intros H1 H2 Hn. assert (R : forall i, i < len -> rd b i = rd b' i).
  { intros i Hi. destruct (Z.ltb_spec i 0).
    - unfold rd. by zfalse (0 <=? i).
    - rewrite !rd_Some by lia. f_equal. apply Hn. lia. }
  assert (S : forall fuel i, skip_remaining fuel b len i = skip_remaining fuel b' len i).
  { induction fuel as [|fuel IH]; intros i; [done|]. cbn [skip_remaining]. destruct (Z.ltb_spec i len); [|done].
    rewrite R by lia. destruct (rd b' i); [|done]. cbn [mbind option_bind]. by rewrite IH. }
  unfold mqtt_get_id. destruct (Z.ltb_spec len 1); [done|]. rewrite (R 0) by lia. destruct (rd b' 0) as [b0|]; [|done].
  cbn [mbind option_bind]. destruct (mqtt_get_type b0 =? MQTT_MSG_TYPE_PUBLISH).
  - rewrite S. destruct (skip_remaining _ b' len 1) as [i|]; [|done]. cbn [mbind option_bind].
    destruct (Z.leb_spec len (i + 2)); [done|]. rewrite (R i), (R (i + 1)) by lia.
    destruct (rd b' i) as [hi|]; [|done]. cbn [mbind option_bind]. destruct (rd b' (i + 1)) as [lo|]; [|done]. cbn [mbind option_bind].
    destruct (Z.leb_spec len (i + 2 + Z.lor (hi ≪ 8) lo)); [done|]. destruct (0 <? mqtt_get_qos b0); [|done].
    destruct (Z.leb_spec len (i + 2 + Z.lor (hi ≪ 8) lo + 2)); [done|]. by rewrite !R by lia.
  - destruct (Z.leb_spec 4 len); [|done]. by rewrite !R by lia.
Qed.

(** on any received bytes whose remaining length ends within four bytes, the
    inspectors of mqtt_msg.c neither read outside the message nor overflow, and
    the topic and payload they point to lie inside the message. *)
Theorem mqtt_inspectors_safe buffer len :
  Forall is_byte buffer -> 0 <= len <= zlen buffer -> len < 65536 -> length_terminated buffer len ->
  (exists n, mqtt_get_total_length buffer len = Some n /\ 1 <= n < 268435461) /\
  (exists r, mqtt_get_publish_topic buffer len = Some r /\ inside len r) /\
  (exists r, mqtt_get_publish_data buffer len = Some r /\ inside len r) /\
  (exists id, mqtt_get_id buffer len = Some id /\ is_u16 id).
Proof.
  auto using total_length_safe, publish_topic_safe, publish_data_safe, mqtt_get_id_safe.
Qed.

Lemma mqtt_inspectors_safe_witness :
  exists r, mqtt_get_publish_topic [48; 5; 0; 9; 97; 98; 99] 7 = Some r /\ inside 7 r.
Proof.
  apply (mqtt_inspectors_safe [48; 5; 0; 9; 97; 98; 99] 7);
    [by repeat constructor|done|done|exists 1; split; [lia|right; reflexivity]].
Defined.

(** Without the bound on the length bytes the sum leaves [int]: undefined behaviour. *)
Example mqtt_total_length_overflow :
  mqtt_get_total_length [48; 128; 128; 128; 128; 8; 0; 0] 8 = None.
Proof. reflexivity. Qed.

(** ** An empty payload *)

Lemma publish_id_empty qos retain t mid :
  t ≠ [] -> 1 <= qos <= 3 -> 4 + zlen t <= 16383 ->
  let m := publish_packet qos retain t mid [] in
  mqtt_get_id m (zlen m) = Some 0.
Proof.
  intros Ht Hq Hn m. unfold m, publish_packet, publish_body. ztrue (0 <? qos). clear m.
  set (body := encode_string t ++ encode_id mid ++ []).
  assert (Hz : zlen body = 4 + zlen t) by (unfold body; zlia).
  set (m := fixed_header MQTT_MSG_TYPE_PUBLISH 0 qos retain (zlen body) ++ body).
  assert (Hm : m = fixed_header MQTT_MSG_TYPE_PUBLISH 0 qos retain (zlen body) ++ body ++ []) by (unfold m; by rewrite app_nil_r).
  assert (Em : zlen m = header_len (zlen body) + zlen body) by (unfold m; by rewrite zlen_app, zlen_fixed_header).
  pose proof (zlen_nonneg t). assert (2 <= header_len (zlen body)) by (unfold header_len; zbool; lia).
  destruct (publish_front 0 qos retain t (encode_id mid) [] [] (zlen m) Ht) as (_ & E2 & hi & lo & E3 & E4 & E5);
    [fold body; lia|fold body; rewrite <- Hm; lia|].
  fold body in E2, E3, E4. rewrite <- Hm in E2, E3, E4. unfold mqtt_get_id.
  assert (E0 : rd m 0 = Some (fixed_byte MQTT_MSG_TYPE_PUBLISH 0 qos retain)) by apply fixed_header_first.
  zfalse (zlen m <? 1). rewrite E0. cbn [mbind option_bind].
  destruct (fixed_byte_fields MQTT_MSG_TYPE_PUBLISH 0 qos retain) as (_ & -> & _ & -> & _).
  change (MQTT_MSG_TYPE_PUBLISH mod 16 =? MQTT_MSG_TYPE_PUBLISH) with true. cbn [mbind option_bind].
  rewrite E2. cbn [mbind option_bind].
  zfalse (zlen m <=? header_len (zlen body) + 2). rewrite E3. cbn [mbind option_bind]. rewrite E4.
  cbn [mbind option_bind]. rewrite E5. zfalse (zlen m <=? header_len (zlen body) + 2 + zlen t).
  rewrite (Z.mod_small qos) by lia. ztrue (0 <? qos). by ztrue (zlen m <=? header_len (zlen body) + 2 + zlen t + 2).
Qed.

(** A PUBLISH of qos above 0 with an empty payload is built with a nonzero
    identifier, but [mqtt_get_id] given the message's own length answers 0. *)
Theorem mqtt_publish_empty_id c t qos retain mid0 :
  conn_ok c -> t ≠ [] -> 1 <= qos <= 3 -> 7 + zlen t <= mc_buffer_length c -> 4 + zlen t <= 16383 ->
  exists c' mid, mqtt_msg_publish c (Some t) [] 0 qos retain mid0 = Some (c', mid) /\ mid ≠ 0 /\
    mc_length c' = zlen (message_bytes c') /\ mqtt_get_id (message_bytes c') (mc_length c') = Some 0.
Proof.
  intros W Ht Hq Hf Hn.
  destruct (mqtt_msg_publish_spec c t [] qos retain mid0 W Ht) as (c' & mid & E & H). revert H.
  pose proof (publish_id_empty qos retain t (if 0 <? qos then fst (next_id 0 (mc_message_id c)) else 0) Ht Hq Hn) as Hi.
  unfold publish_packet, publish_body in *. revert Hi. ztrue (0 <? qos). set (id := fst _). cbv zeta.
  replace (zlen (encode_string t ++ encode_id id ++ [])) with (4 + zlen t) by zlia.
  ztrue (3 + (4 + zlen t) <=? mc_buffer_length c). intros Hi (-> & Hm & Hl & _).
  exists c', id. split; [done|]. pose proof (next_id_range 0 (mc_message_id c) ltac:(unfold is_u16; lia) ltac:(apply W)) as Hr.
  split; [unfold id; lia|]. split; [done|]. rewrite Hl, Hm.
  exact Hi.
Qed.

(** ** No constructor changes the size of the buffer *)

(** Take a defined computation of the source's error monad apart. *)
Ltac inv_some H :=
  repeat match type of H with
  | mbind _ _ = Some _ => let x := fresh "x" in let E := fresh "E" in apply bind_Some in H as (x & E & H); cbv beta in H
  | (let '(_, _) := ?x in _) = Some _ => is_var x; destruct x; cbv beta in H
  | (match ?x with inl _ => _ | inr _ => _ end) = Some _ => is_var x; destruct x; cbv beta in H
  | (if ?b then _ else _) = Some _ => destruct b eqn:?
  | (match ?x with Some _ => _ | None => _ end) = Some _ => destruct x eqn:?
  | Some _ = Some _ => injection H; clear H; intros; subst
  | None = Some _ => discriminate H
  end.

Definition keeps (c c' : mqtt_connection_t) : Prop := mc_buffer_length c' = mc_buffer_length c.

Lemma append_string_keeps c s n c' r : append_string c s n = Some (c', r) -> keeps c c'.
Proof. unfold append_string. intros H. inv_some H; done. Qed.
Lemma append_message_id_keeps c m c' r : append_message_id c m = Some (c', r) -> keeps c c'.
Proof. unfold append_message_id. intros H. inv_some H; done. Qed.
Lemma fini_message_keeps c t d q r c' : fini_message c t d q r = Some c' -> keeps c c'.
Proof. unfold fini_message. intros H. inv_some H; done. Qed.
Lemma or_flag_keeps c x c' : or_flag c x = Some c' -> keeps c c'.
Proof. unfold or_flag. intros H. inv_some H; done. Qed.

Definition keeps_sum (c : mqtt_connection_t) (r : mqtt_connection_t + mqtt_connection_t) : Prop :=
  match r with inl c' => keeps c c' | inr c' => keeps c c' end.

Lemma append_or_fail_keeps c s r : append_or_fail c s = Some r -> keeps_sum c r.
Proof. unfold append_or_fail. intros H. inv_some H. apply append_string_keeps in E. by destruct (_ <? 0). Qed.

(** Combine the facts about the primitives that [inv_some] left. *)
Ltac keeps_tac :=
  repeat match goal with
  | H : append_string _ _ _ = Some (_, _) |- _ => apply append_string_keeps in H
  | H : append_message_id _ _ = Some (_, _) |- _ => apply append_message_id_keeps in H
  | H : fini_message _ _ _ _ _ = Some _ |- _ => apply fini_message_keeps in H
  | H : or_flag _ _ = Some _ |- _ => apply or_flag_keeps in H
  | H : append_or_fail _ _ = Some _ |- _ => apply append_or_fail_keeps in H
  end; unfold keeps_sum, keeps in *; simpl in *; congruence.

Lemma mqtt_msg_publish_keeps c t d n q r m c' m' : mqtt_msg_publish c t d n q r m = Some (c', m') -> keeps c c'.
Proof.
  unfold mqtt_msg_publish. intros H. destruct (0 <? q); inv_some H; try done; inv_some E0; keeps_tac.
Qed.
Lemma ack_message_keeps ty q c m c' : ack_message ty q c m = Some c' -> keeps c c'.
Proof. unfold ack_message. intros H. inv_some H; keeps_tac. Qed.
Lemma mqtt_msg_subscribe_keeps c t q m c' m' : mqtt_msg_subscribe c t q m = Some (c', m') -> keeps c c'.
Proof. unfold mqtt_msg_subscribe. intros H. inv_some H; try done; keeps_tac. Qed.
Lemma mqtt_msg_unsubscribe_keeps c t m c' m' : mqtt_msg_unsubscribe c t m = Some (c', m') -> keeps c c'.
Proof. unfold mqtt_msg_unsubscribe. intros H. inv_some H; try done; keeps_tac. Qed.


(** ** The theorems at concrete inputs *)

Definition sample_conn : mqtt_connection_t := mqtt_msg_init (replicate 64 0) 64.

Lemma sample_conn_ok : conn_ok sample_conn.
Proof. by apply (conn_ok_init 64). Qed.

Lemma mqtt_publish_roundtrip_witness :
  exists c' mid, mqtt_msg_publish sample_conn (Some [116; 47; 97]) [1; 2] 2 1 0 0 = Some (c', mid) /\
    mqtt_get_id (message_bytes c') (zlen (message_bytes c')) = Some mid.
Proof.
  destruct (mqtt_publish_roundtrip sample_conn [116; 47; 97] [1; 2] 1 0 0 sample_conn_ok)
    as (c' & mid & E & H); [done|done|lia|lia|vm_compute; discriminate|vm_compute; discriminate|].
  exists c', mid. split; [exact E|]. apply H.
Defined.

Definition sample_info : mqtt_connect_info_t :=
  mk_info (Some [99]) (Some [117]) None (Some [119]) (Some [109]) 120 1 1 1.

Lemma mqtt_msg_connect_spec_witness :
  exists c', mqtt_msg_connect sample_conn sample_info = Some c' /\
    message_bytes c' = [16; 24; 0; 6; 77; 81; 73; 115; 100; 112; 3; 0xAE; 0; 120; 0; 1; 99; 0; 1; 119; 0; 1; 109; 0; 1; 117].
Proof.
  destruct (mqtt_msg_connect_spec sample_conn sample_info sample_conn_ok) as (c' & E & _ & H); [done|].
  exists c'. split; [exact E|]. vm_compute in H. apply H.
Defined.

Lemma mqtt_subscription_ids_witness :
  exists cs cu id, id ≠ 0 /\ mqtt_msg_subscribe sample_conn (Some [116]) 1 0 = Some (cs, id) /\
    mqtt_msg_unsubscribe sample_conn (Some [116]) 0 = Some (cu, id) /\ mqtt_get_id (message_bytes cu) (mc_length cu) = Some 0.
Proof.
  destruct (mqtt_subscription_ids sample_conn [116] 1 0 sample_conn_ok) as (cs & cu & id & Hid & Es & Eu & _ & _ & _ & G);
    [done|vm_compute; discriminate|vm_compute; discriminate|].
  by exists cs, cu, id.
Defined.

Lemma mqtt_publish_empty_id_witness :
  exists c' mid, mqtt_msg_publish sample_conn (Some [116]) [] 0 1 0 0 = Some (c', mid) /\ mid ≠ 0 /\
    mqtt_get_id (message_bytes c') (mc_length c') = Some 0.
Proof.
  destruct (mqtt_publish_empty_id sample_conn [116] 1 0 0 sample_conn_ok) as (c' & mid & E & Hm & _ & G);
    [done|lia|vm_compute; discriminate|vm_compute; discriminate|].
  by exists c', mid.
Defined.
