(* ===== verification/MqttUtils.v ===== *)
(** * MqttUtils: number and address parsing

    esp_mqtt_proj/mqtt/utils.c.  A pointer to a C string is the memory from
    there on, terminator included; running off its end is undefined ([None]). *)

From S2P Require Import Prelude CMem.

Definition is_digit (c : Z) : bool := (48 <=? c) && (c <=? 57).

(** The loop of [UTILS_IsIPV4]; all three counters are [uint8_t], so the test
    of the accumulator compares a truncated value. *)
Fixpoint UTILS_IsIPV4_loop (str : list Z) (segs chcnt accum : Z) : option Z :=
  match str with
  | [] => None
  | c :: str' =>
      if c =? 0 then
        if negb (segs =? 3) then Some 0 else if chcnt =? 0 then Some 0 else Some 1
      else if c =? 46 then
        if chcnt =? 0 then Some 0 else
        let segs := u8 (segs + 1) in
        if segs =? 4 then Some 0 else UTILS_IsIPV4_loop str' segs 0 0
      else if (c <? 48) || (57 <? c) then Some 0 else
        let accum := u8 (accum * 10 + c - 48) in
        if 255 <? accum then Some 0 else UTILS_IsIPV4_loop str' segs (u8 (chcnt + 1)) accum
  end.

Definition UTILS_IsIPV4 (str : option (list Z)) : option Z :=
  match str with None => Some 0 | Some s => UTILS_IsIPV4_loop s 0 0 0 end.

(** One number of [UTILS_StrToIP]: its value and the text behind the character
    that ended it, or [inl tt] for [return 0]. *)
Fixpoint StrToIP_number (start : list Z) (i n : Z) : option (unit + Z * list Z) :=
  match start with
  | [] => None
  | c :: start =>
      if is_digit c then
        n ← int_ok (n * 10); n ← int_ok (n + (c - 48)); StrToIP_number start i n
      else if ((i <? 3) && (c =? 46)) || (i =? 3) then Some (inr (n, start))
      else Some (inl tt)
  end.

(** The four rounds; [ip] is the memory the result goes to. *)
Fixpoint StrToIP_rounds (k : nat) (start : list Z) (i : Z) (ip : list Z) : option (list Z * Z) :=
  match k with
  | O => Some (ip, 1)
  | S k =>
      r ← StrToIP_number start i 0;
      match r with
      | inl _ => Some (ip, 0)
      | inr (n, start) =>
          if 256 <=? n then Some (ip, 0) else
          ip ← wr ip i n; StrToIP_rounds k start (i + 1) ip
      end
  end.

Definition UTILS_StrToIP (str ip : list Z) : option (list Z * Z) := StrToIP_rounds 4 str 0 ip.

Fixpoint Atoh_loop (s : list Z) (value : Z) : option Z :=
  match s with
  | [] => None
  | c :: s =>
      if c =? 0 then Some value else
      let k d := Atoh_loop s (Z.lor (u32 (Z.shiftl value 4)) d) in
      if (48 <=? c) && (c <=? 57) then k (c - 48)
      else if (65 <=? c) && (c <=? 70) then k (c - 65 + 10)
      else if (97 <=? c) && (c <=? 102) then k (c - 97 + 10)
      else Some value
  end.

Definition UTILS_Atoh (s : list Z) : option Z := Atoh_loop s 0.

(** ** Dotted text *)

Definition all_digits (s : list Z) : bool := forallb is_digit s.

(** The text cut at its dots. *)
Fixpoint segments (s : list Z) : list (list Z) :=
  match s with
  | [] => [[]]
  | c :: s =>
      if c =? 46 then [] :: segments s
      else match segments s with h :: t => (c :: h) :: t | [] => [[c]] end
  end.

Definition nonempty (s : list Z) : bool := match s with [] => false | _ => true end.

(** Four segments, each at least one digit and nothing else. *)
Definition dotted_quad (s : list Z) : bool :=
  match segments s with
  | [a; b; c; d] => forallb (λ x, nonempty x && all_digits x) [a; b; c; d]
  | _ => false
  end.

(** What the loop still has to see when [segs] dots and [chcnt] digits are behind it. *)
Definition quad_rest (segs chcnt : Z) (s : list Z) : bool :=
  match segments s with
  | h :: t => ((0 <? chcnt) || nonempty h) && all_digits h && forallb (λ x, nonempty x && all_digits x) t &&
              (segs + zlen t =? 3)
  | [] => false
  end.

Lemma segments_nonempty s : exists h t, segments s = h :: t.
Proof. induction s as [|c s (h & t & E)]; simpl; [eauto|]. destruct (c =? 46); rewrite ?E; eauto. Qed.

Lemma IsIPV4_loop_spec s : forall segs chcnt accum,
  Forall (λ c, c ≠ 0) s -> 0 <= segs <= 3 -> 0 <= chcnt -> chcnt + zlen s < 256 ->
  UTILS_IsIPV4_loop (s ++ [0]) segs chcnt accum = Some (b2z (quad_rest segs chcnt s)).
Proof.
  induction s as [|c s IH]; intros segs chcnt accum Hs Hsegs Hch Hlen.
  - simpl. unfold quad_rest, segments. cbn [forallb nonempty all_digits andb orb].
    change (zlen (@nil (list Z))) with 0. rewrite Z.add_0_r. rewrite !orb_false_r, !andb_true_r.
    destruct (Z.eqb_spec segs 3), (Z.eqb_spec chcnt 0), (Z.ltb_spec 0 chcnt); try lia; done.
  - inversion_clear Hs. rewrite zlen_cons in Hlen. pose proof (zlen_nonneg s).
    cbn [UTILS_IsIPV4_loop app]. zfalse (c =? 0). unfold quad_rest. cbn [segments].
    destruct (segments_nonempty s) as (h & t & E). destruct (Z.eqb_spec c 46).
    + rewrite E. cbn [nonempty all_digits forallb]. rewrite orb_false_r, andb_true_r, zlen_cons. pose proof (zlen_nonneg t).
      destruct (Z.eqb_spec chcnt 0); [by zfalse (0 <? chcnt)|]. ztrue (0 <? chcnt). rewrite u8_small by lia.
      destruct (Z.eqb_spec (segs + 1) 4).
      * zfalse (segs + (1 + zlen t) =? 3). by rewrite andb_false_r.
      * rewrite IH by (done || lia). unfold quad_rest. rewrite E. change (0 <? 0) with false.
        replace (segs + (1 + zlen t)) with (segs + 1 + zlen t) by lia. cbn [orb andb]. by rewrite ?andb_assoc.
    + rewrite E. unfold all_digits at 1. cbn [forallb nonempty]. fold (all_digits h). rewrite orb_true_r. unfold is_digit.
      destruct ((c <? 48) || (57 <? c)) eqn:Ed.
      { rewrite orb_true_iff, !Z.ltb_lt in Ed. destruct Ed; [zfalse (48 <=? c)|zfalse (c <=? 57); rewrite andb_false_r]; done. }
      rewrite orb_false_iff, !Z.ltb_ge in Ed. ztrue (48 <=? c). ztrue (c <=? 57).
      pose proof (u8_range (accum * 10 + c - 48)). zfalse (255 <? u8 (accum * 10 + c - 48)).
      rewrite IH by (rewrite ?u8_small by lia; done || lia). unfold quad_rest. rewrite E, u8_small by lia.
      ztrue (0 <? chcnt + 1). done.
Qed.

(** on any text shorter than 256 characters [UTILS_IsIPV4] answers 1 exactly
    for four dot-separated nonempty groups of decimal digits: the size of the
    numbers is not checked, although the code tries to. *)
Theorem UTILS_IsIPV4_spec s :
  Forall (λ c, c ≠ 0) s -> zlen s < 256 ->
  UTILS_IsIPV4 (Some (s ++ [0])) = Some (b2z (dotted_quad s)).
Proof.
  intros Hs Hl. unfold UTILS_IsIPV4. rewrite IsIPV4_loop_spec by (done || lia). do 2 f_equal.
  unfold quad_rest, dotted_quad. destruct (segments s) as [|a [|b [|c [|d [|e t]]]]]; try done;
    cbn [forallb]; rewrite ?zlen_cons; change (zlen (@nil (list Z))) with 0; cbn [Z.add Z.eqb].
  1-3: by rewrite andb_false_r.
  - change (0 <? 0) with false. cbn [orb]. by rewrite !andb_true_r, !andb_assoc.
  - pose proof (zlen_nonneg t). match goal with |- context [?x =? 3] => zfalse (x =? 3) end. by rewrite andb_false_r.
Qed.

(** ** Addresses *)

(** The value of a group of digits. *)
Definition number_from (n : Z) (ds : list Z) : Z := foldl (λ n c, n * 10 + (c - 48)) n ds.
Definition number (ds : list Z) : Z := number_from 0 ds.

Lemma number_from_ge ds : forall n, all_digits ds = true -> 0 <= n -> n <= number_from n ds.
Proof.
  induction ds as [|c ds IH]; intros n Hd Hn; simpl in *; [lia|].
  rewrite andb_true_iff in Hd. destruct Hd as [Hc Hd]. unfold is_digit in Hc. rewrite andb_true_iff, !Z.leb_le in Hc.
  etransitivity; [|apply IH; [done|lia]]. lia.
Qed.

Lemma StrToIP_number_spec ds c rest i : forall n,
  all_digits ds = true -> is_digit c = false -> ((i <? 3) && (c =? 46)) || (i =? 3) = true ->
  0 <= n -> number_from n ds < 2147483648 ->
  StrToIP_number (ds ++ c :: rest) i n = Some (inr (number_from n ds, rest)).
Proof.
  induction ds as [|d ds IH]; intros n Hd Hc Hi Hn Hv; cbn [app StrToIP_number].
  - by rewrite Hc, Hi.
  - cbn [all_digits forallb] in Hd. rewrite andb_true_iff in Hd. destruct Hd as [Hd1 Hd]. rewrite Hd1.
    pose proof Hd1 as Hr. unfold is_digit in Hr. rewrite andb_true_iff, !Z.leb_le in Hr.
    pose proof (number_from_ge ds (n * 10 + (d - 48)) Hd ltac:(lia)) as Hge. simpl in Hv.
    rewrite !int_ok_small by lia. cbn [mbind option_bind]. rewrite int_ok_small by lia. cbn [mbind option_bind].
    by apply IH; try lia.
Qed.

(** on four groups of digits separated by dots, whatever follows the fourth,
    [UTILS_StrToIP] stores the four values and answers 1 when each is below 256;
    otherwise it answers 0 having stored the values before the first bad one. *)
Theorem UTILS_StrToIP_spec a b c d e rest ip :
  Forall (λ ds, all_digits ds = true /\ number ds < 2147483648) [a; b; c; d] -> is_digit e = false -> zlen ip = 4 ->
  let n := number in
  UTILS_StrToIP (a ++ 46 :: b ++ 46 :: c ++ 46 :: d ++ e :: rest) ip =
  Some (if 256 <=? n a then (ip, 0)
        else if 256 <=? n b then (n a :: drop 1 ip, 0)
        else if 256 <=? n c then (n a :: n b :: drop 2 ip, 0)
        else if 256 <=? n d then (n a :: n b :: n c :: drop 3 ip, 0)
        else ([n a; n b; n c; n d], 1)).
Proof.
  intros HF He Hip n. destruct ip as [|i0 [|i1 [|i2 [|i3 [|]]]]]; try discriminate Hip.
  2:{ rewrite !zlen_cons in Hip. pose proof (zlen_nonneg l). lia. }
  repeat match goal with H : Forall _ (_ :: _) |- _ => inversion_clear H end.
  repeat match goal with H : _ /\ _ |- _ => destruct H end.
  unfold UTILS_StrToIP. cbn [StrToIP_rounds].
  rewrite StrToIP_number_spec by done. cbn [mbind option_bind]. fold (number a). unfold n.
  destruct (256 <=? number a); [done|]. change (wr [i0; i1; i2; i3] 0 (number a)) with (Some [number a; i1; i2; i3]). cbn [mbind option_bind].
  rewrite StrToIP_number_spec by done. cbn [mbind option_bind]. fold (number b).
  destruct (256 <=? number b); [done|]. change (wr _ (0 + 1) (number b)) with (Some [number a; number b; i2; i3]). cbn [mbind option_bind].
  rewrite StrToIP_number_spec by done. cbn [mbind option_bind]. fold (number c).
  destruct (256 <=? number c); [done|]. change (wr _ (0 + 1 + 1) (number c)) with (Some [number a; number b; number c; i3]). cbn [mbind option_bind].
  rewrite StrToIP_number_spec by done. cbn [mbind option_bind]. fold (number d).
  by destruct (256 <=? number d).
Qed.

(** ** Hexadecimal numbers *)

Definition hex_digit (c : Z) : option Z :=
  if (48 <=? c) && (c <=? 57) then Some (c - 48)
  else if (65 <=? c) && (c <=? 70) then Some (c - 65 + 10)
  else if (97 <=? c) && (c <=? 102) then Some (c - 97 + 10) else None.

Definition hex_value (s : list Z) (v : Z) : Z := foldl (λ v c, v * 16 + default 0 (hex_digit c)) v s.

Lemma hex_digit_range c d : hex_digit c = Some d -> 0 <= d < 16 /\ c ≠ 0.
Proof.
  unfold hex_digit. intros H.
  repeat match type of H with (if ?b then _ else _) = _ => destruct b eqn:?E end; try discriminate H;
    injection H as <-; rewrite ?andb_true_iff, ?Z.leb_le in *; lia.
Qed.

Lemma Atoh_loop_spec s c rest : forall v,
  Forall (λ c, hex_digit c ≠ None) s -> hex_digit c = None -> 0 <= v < 4294967296 ->
  Atoh_loop (s ++ c :: rest) v = Some (u32 (hex_value s v)).
Proof.
  induction s as [|x s IH]; intros v Hs Hc Hv; cbn [app Atoh_loop hex_value foldl].
  - unfold hex_digit in Hc. destruct (c =? 0); [by rewrite u32_small|].
    repeat match type of Hc with (if ?b then _ else _) = _ => destruct b; try discriminate Hc end. by rewrite u32_small.
  - inversion_clear Hs as [|? ? Hx Hs']. destruct (hex_digit x) as [d|] eqn:Ed; [|done]. destruct (hex_digit_range x d Ed) as [Hd H0].
    cbn [default]. zfalse (x =? 0).
    assert (K : Atoh_loop (s ++ c :: rest) (Z.lor (u32 (Z.shiftl v 4)) d) = Some (u32 (hex_value s (v * 16 + d)))).
    { assert (E : Z.lor (u32 (Z.shiftl v 4)) d = u32 (v * 16 + d)).
      { rewrite Z.shiftl_mul_pow2 by lia. change (2 ^ 4) with 16. unfold u32.
        replace ((v * 16) mod 4294967296) with (Z.shiftl (v mod 268435456) 4) by (rewrite Z.shiftl_mul_pow2 by lia; change (2 ^ 4) with 16; dlia).
        rewrite lor_shiftl_add by (change (2 ^ 4) with 16; lia). change (2 ^ 4) with 16. dlia. }
      rewrite E, IH by (done || (pose proof (u32_range (v * 16 + d)); lia)). f_equal.
      clear -Hs'. unfold hex_value. generalize (v * 16 + d) as w. induction s as [|y s IHs] using rev_ind; intros w.
      { simpl. unfold u32. dlia. }
      apply Forall_app in Hs' as [Hs' _].
      rewrite !foldl_app. simpl. specialize (IHs Hs' w). unfold u32 in *. dlia. }
    unfold hex_digit in Ed.
    repeat match type of Ed with (if ?b then _ else _) = _ => destruct b; [by injection Ed as <-|] end. discriminate Ed.
Qed.

(** [UTILS_Atoh] reads the leading hexadecimal digits, in either case, modulo 2^32. *)
Theorem UTILS_Atoh_spec s c rest :
  Forall (λ c, hex_digit c ≠ None) s -> hex_digit c = None ->
  UTILS_Atoh (s ++ c :: rest) = Some (u32 (hex_value s 0)).
Proof. intros. by apply Atoh_loop_spec. Qed.

(** "256.1.1.1" passes for an address, though [UTILS_StrToIP] refuses it. *)
Example UTILS_IsIPV4_256 :
  UTILS_IsIPV4 (Some [50; 53; 54; 46; 49; 46; 49; 46; 49; 0]) = Some 1 /\
  UTILS_StrToIP [50; 53; 54; 46; 49; 46; 49; 46; 49; 0] [0; 0; 0; 0] = Some ([0; 0; 0; 0], 0).
Proof. split; reflexivity. Qed.

(** ** The theorems at concrete inputs *)

Lemma UTILS_IsIPV4_spec_witness :
  UTILS_IsIPV4 (Some ([49; 46; 50; 46; 51; 46; 52] ++ [0])) = Some 1.
Proof. apply (UTILS_IsIPV4_spec [49; 46; 50; 46; 51; 46; 52]); [repeat constructor; done|reflexivity]. Defined.

Lemma UTILS_StrToIP_spec_witness :
  UTILS_StrToIP ([49; 48] ++ 46 :: [50] ++ 46 :: [51] ++ 46 :: [50; 53; 53] ++ 0 :: []) [0; 0; 0; 0] = Some ([10; 2; 3; 255], 1).
Proof.
  apply (UTILS_StrToIP_spec [49; 48] [50] [51] [50; 53; 53] 0 [] [0; 0; 0; 0]); [repeat constructor; done|done|done].
Defined.

Lemma UTILS_Atoh_spec_witness : UTILS_Atoh ([66; 101; 50] ++ 0 :: []) = Some 0xBE2.
Proof. apply (UTILS_Atoh_spec [66; 101; 50] 0 []); [repeat constructor; done|done]. Defined.
