(* ===== verification/MqttClient.v ===== *)
(** * MqttClient: the connection state machine of the MQTT client

    esp_mqtt_proj/mqtt/mqtt.c and mqtt.h, compiled with [MQTT_SSL_ENABLE].  The
    record [MQTT_Client] flattens the source's struct and its [mqtt_state]; every
    call into the SDK or into a user callback is an [event] of the trace.  The
    client is the only holder of its buffers; [out_buffer] is the buffer of
    [mqtt_connection]. *)

From S2P Require Import Prelude CMem MqttRing MqttProto MqttMsg MqttUtils.

Definition MQTT_BUF_SIZE : Z := 1024.
Definition QUEUE_BUFFER_SIZE : Z := 2048.
Definition MQTT_SEND_TIMOUT : Z := 5.
Definition MQTT_RECONNECT_TIMEOUT : Z := 5.

Inductive tConnState :=
| WIFI_INIT | WIFI_CONNECTING | WIFI_CONNECTING_ERROR | WIFI_CONNECTED | DNS_RESOLVE
| TCP_DISCONNECTING | TCP_DISCONNECTED | TCP_RECONNECT_DISCONNECTING | TCP_RECONNECT_REQ
| TCP_RECONNECT | TCP_CONNECTING | TCP_CONNECTING_ERROR | TCP_CONNECTED | MQTT_CONNECT_SEND
| MQTT_CONNECT_SENDING | MQTT_SUBSCIBE_SEND | MQTT_SUBSCIBE_SENDING | MQTT_DATA
| MQTT_KEEPALIVE_SEND | MQTT_PUBLISH_RECV | MQTT_PUBLISHING | MQTT_DELETING | MQTT_DELETED.

#[export] Instance tConnState_eq : EqDecision tConnState.
Proof. solve_decision. Defined.

(** The parts of [struct espconn] the client sets. *)
Record espconn := mk_espconn { ec_local_port : Z; ec_remote_port : Z; ec_remote_ip : list Z }.

(** Null pointers are [None] or [false]. *)
Record MQTT_Client := mk_client {
  pCon : option espconn; security : Z; host : option (list Z); port : Z; ip : list Z;
  connect_info_ptr : bool; in_buffer : option (list Z); in_buffer_length : Z;
  out_buffer : bool; out_buffer_length : Z; message_length : Z; message_length_read : Z;
  outbound_message : bool; mqtt_connection : mqtt_connection_t;
  pending_msg_id : Z; pending_msg_type : Z;
  connect_info : mqtt_connect_info_t;
  connectedCb : bool; disconnectedCb : bool; publishedCb : bool; timeoutCb : bool; dataCb : bool;
  keepAliveTick : Z; reconnectTick : Z; sendTimeout : Z; connState : tConnState;
  msgQueue : QUEUE; user_data : bool }.

#[export] Instance eta_client : Settable MQTT_Client := λ c, mk_client
  (pCon c) (security c) (host c) (port c) (ip c) (connect_info_ptr c) (in_buffer c) (in_buffer_length c)
  (out_buffer c) (out_buffer_length c) (message_length c) (message_length_read c) (outbound_message c)
  (mqtt_connection c) (pending_msg_id c) (pending_msg_type c) (connect_info c)
  (connectedCb c) (disconnectedCb c) (publishedCb c) (timeoutCb c) (dataCb c)
  (keepAliveTick c) (reconnectTick c) (sendTimeout c) (connState c) (msgQueue c) (user_data c).

#[export] Instance eta_info : Settable mqtt_connect_info_t := λ i, mk_info
  (client_id i) (username i) (password i) (will_topic i) (will_message i)
  (keepalive i) (will_qos i) (will_retain i) (clean_session i).

Inductive event :=
| EPost | EOsTask | ERegisterCallbacks | ETimerDisarm | ETimerArm
| EConnect (secure : bool) | EDisconnect (secure : bool) | ESend (secure : bool) (data : list Z)
| EDelete | EGetHostByName (name : list Z)
| EConnectedCb | EDisconnectedCb | EPublishedCb | ETimeoutCb
| EDataCb (topic : option (list Z)) (topic_length : Z) (data : option (list Z)) (data_length : Z).

Record world := mk_world { cl : MQTT_Client; trace : list event }.

Local Open Scope sm_scope.

Definition M : Type -> Type := SM world.

Definition emit (e : event) : M unit := smod (λ w, mk_world (cl w) (trace w ++ [e])).
Definition upd (f : MQTT_Client -> MQTT_Client) : M unit := smod (λ w, mk_world (f (cl w)) (trace w)).
Definition get {A} (f : MQTT_Client -> A) : M A := sget (λ w, f (cl w)).

Definition system_os_post : M unit := emit EPost.

(** The calls the source makes in one of two ways. *)
Definition tcp_connect : M unit := s <- get security ;; emit (EConnect (negb (s =? 0))).
Definition tcp_disconnect : M unit := s <- get security ;; emit (EDisconnect (negb (s =? 0))).
Definition tcp_send (data : list Z) (len : Z) : M unit :=
  s <- get security ;; bytes <- slift (bslice data 0 len) ;; emit (ESend (negb (s =? 0)) bytes).

(** The memory [outbound_message->data] points to, and its length. *)
Definition outbound_data (c : mqtt_connection_t) : option (list Z) :=
  off ← mc_data c; Some (drop (Z.to_nat off) (mc_buffer c)).

Definition ip_is_zero (a : list Z) : bool := forallb (λ b, b =? 0) a.

(** ** Callbacks of the SDK *)

Definition mqtt_dns_found (ipaddr : option (list Z)) : M unit :=
  match ipaddr with
  | None => upd (λ c, c <| connState := TCP_RECONNECT_REQ |>)
  | Some addr =>
      z <- get (λ c, ip_is_zero (ip c)) ;;
      swhen (z && negb (ip_is_zero addr)) (
        p <- get pCon ;; p <- slift p ;;
        upd (λ c, c <| pCon := Some (mk_espconn (ec_local_port p) (ec_remote_port p) addr) |>) ;;
        tcp_connect ;;
        upd (λ c, c <| connState := TCP_CONNECTING |>)) ;;
      system_os_post
  end.

(** The bytes at an offset of the message, null staying null. *)
Definition view (message : list Z) (p : option Z) (len : Z) : option (list Z) :=
  off ← p; Some (tab len (λ i, nthZ message (off + i))).

Definition deliver_publish (message : list Z) (length : Z) : M unit :=
  '(t, tl) <- slift (mqtt_get_publish_topic message (u16 length)) ;;
  '(d, dl) <- slift (mqtt_get_publish_data message (u16 length)) ;;
  cb <- get dataCb ;;
  swhen cb (emit (EDataCb (view message t tl) tl (view message d dl) dl)).

(** ** Sending *)

(** [result] is what [espconn_send] or [espconn_secure_send] answers; [ESPCONN_OK] is 0. *)
Definition mqtt_send_keepalive (result : Z) : M unit :=
  conn <- get mqtt_connection ;;
  conn <- slift (mqtt_msg_pingreq conn) ;;
  upd (λ c, c <| mqtt_connection := conn |> <| outbound_message := true |>) ;;
  upd (λ c, c <| pending_msg_type := MQTT_MSG_TYPE_PINGREQ |>) ;;
  data <- slift (outbound_data conn) ;;
  b0 <- slift (rd data 0) ;;
  upd (λ c, c <| pending_msg_type := mqtt_get_type b0 |>) ;;
  id <- slift (mqtt_get_id data (mc_length conn)) ;;
  upd (λ c, c <| pending_msg_id := id |> <| sendTimeout := MQTT_SEND_TIMOUT |>) ;;
  tcp_send data (mc_length conn) ;;
  upd (λ c, c <| outbound_message := false |>) ;;
  if result =? 0 then
    upd (λ c, c <| keepAliveTick := 0 |> <| connState := MQTT_DATA |>) ;; system_os_post
  else
    upd (λ c, c <| connState := TCP_RECONNECT_DISCONNECTING |>) ;; system_os_post.

Definition mqtt_tcpclient_delete : M unit :=
  p <- get pCon ;;
  match p with
  | Some _ => emit EDelete ;; upd (λ c, c <| pCon := None |>)
  | None => sret tt
  end.

Definition mqtt_client_delete : M unit :=
  mqtt_tcpclient_delete ;;
  upd (λ c, c <| host := None |> <| user_data := false |>
    <| connect_info := (connect_info c) <| client_id := None |> <| username := None |> <| password := None |>
                         <| will_topic := None |> <| will_message := None |> |>
    <| in_buffer := None |> <| out_buffer := false |>).

(** ** Receiving *)

(** Queue the response just built; a full queue is only logged. *)
Definition queue_response (build : mqtt_connection_t -> option mqtt_connection_t) : M unit :=
  conn <- get mqtt_connection ;;
  conn <- slift (build conn) ;;
  upd (λ c, c <| mqtt_connection := conn |> <| outbound_message := true |>) ;;
  data <- slift (outbound_data conn) ;;
  q <- get msgQueue ;;
  '(q, _) <- slift (QUEUE_Puts q data (mc_length conn)) ;;
  upd (λ c, c <| msgQueue := q |>).

(** The inner switch, on the type of a message received while connected.
    The cases that only log are empty. *)
Definition recv_message (msg_type msg_qos msg_id : Z) (buffer : list Z) : M unit :=
  if msg_type =? MQTT_MSG_TYPE_PUBLISH then
    (if msg_qos =? 1 then queue_response (λ conn, mqtt_msg_puback conn msg_id)
     else if msg_qos =? 2 then queue_response (λ conn, mqtt_msg_pubrec conn msg_id)
     else sret tt) ;;
    len <- get message_length_read ;;
    deliver_publish buffer len
  else if msg_type =? MQTT_MSG_TYPE_PUBREC then queue_response (λ conn, mqtt_msg_pubrel conn msg_id)
  else if msg_type =? MQTT_MSG_TYPE_PUBREL then queue_response (λ conn, mqtt_msg_pubcomp conn msg_id)
  else if msg_type =? MQTT_MSG_TYPE_PINGREQ then queue_response mqtt_msg_pingresp
  else sret tt.

(** The case of a connected client; [b] is [in_buffer]. *)
Definition recv_connected (pdata : list Z) (len msg_type msg_qos msg_id : Z) (b : list Z) : M (option (list Z * Z)) :=
  total <- slift (mqtt_get_total_length b len) ;;
  upd (λ c, c <| message_length_read := len |> <| message_length := u16 total |>) ;;
  recv_message msg_type msg_qos msg_id b ;;
  if msg_type =? MQTT_MSG_TYPE_PUBLISH then
    len <- get message_length_read ;;
    ml <- get message_length ;;
    if ml <? len then sret (Some (drop (Z.to_nat ml) pdata, u16 (len - ml))) else sret None
  else sret None.

(** The case of a client that waits for CONNACK; its return code is not looked at. *)
Definition recv_connack (msg_type : Z) : M unit :=
  if msg_type =? MQTT_MSG_TYPE_CONNACK then
    pend <- get pending_msg_type ;;
    if negb (pend =? MQTT_MSG_TYPE_CONNECT) then tcp_disconnect
    else
      upd (λ c, c <| connState := MQTT_DATA |>) ;;
      cb <- get connectedCb ;; swhen cb (emit EConnectedCb)
  else sret tt.

(** From [READPACKET] on: [Some (pdata, len)] is [goto READPACKET] with those values. *)
Definition recv_round (pdata : list Z) (len : Z) : M (option (list Z * Z)) :=
  if (len <? MQTT_BUF_SIZE) && (0 <? len) then
    b <- get in_buffer ;; b <- slift b ;;
    bytes <- slift (bslice pdata 0 len) ;;
    b <- slift (bsplice b 0 bytes) ;;
    upd (λ c, c <| in_buffer := Some b |>) ;;
    b0 <- slift (rd b 0) ;;
    let msg_type := mqtt_get_type b0 in
    let msg_qos := mqtt_get_qos b0 in
    blen <- get in_buffer_length ;;
    msg_id <- slift (mqtt_get_id b (u16 blen)) ;;
    st <- get connState ;;
    match st with
    | MQTT_CONNECT_SENDING =>
        recv_connack msg_type ;; sret None
    | MQTT_DATA | MQTT_KEEPALIVE_SEND => recv_connected pdata len msg_type msg_qos msg_id b
    | _ => sret None
    end
  else sret None.

Fixpoint recv_rounds (fuel : nat) (pdata : list Z) (len : Z) : M unit :=
  match fuel with
  | O => slift None
  | S fuel =>
      next <- recv_round pdata len ;;
      match next with
      | Some (pdata, len) => recv_rounds fuel pdata len
      | None => sret tt
      end
  end.

Definition mqtt_tcpclient_recv (fuel : nat) (pdata : list Z) (len : Z) : M unit :=
  upd (λ c, c <| keepAliveTick := 0 |>) ;;
  recv_rounds fuel pdata len ;;
  system_os_post.

(** ** The remaining callbacks *)

Definition mqtt_tcpclient_sent_cb : M unit :=
  upd (λ c, c <| sendTimeout := 0 |> <| keepAliveTick := 0 |>) ;;
  b <- get (λ c, (bool_decide (connState c = MQTT_DATA) || bool_decide (connState c = MQTT_KEEPALIVE_SEND)) &&
              (pending_msg_type c =? MQTT_MSG_TYPE_PUBLISH) && publishedCb c) ;;
  swhen b (emit EPublishedCb) ;;
  system_os_post.

Definition mqtt_timer : M unit :=
  st <- get connState ;;
  (match st with
   | MQTT_DATA =>
       upd (λ c, c <| keepAliveTick := u32 (keepAliveTick c + 1) |>) ;;
       ptr <- get connect_info_ptr ;; _ <- slift (if ptr : bool then Some tt else None) ;;
       b <- get (λ c, u32 (keepalive (connect_info c)) <? keepAliveTick c) ;;
       swhen b (upd (λ c, c <| connState := MQTT_KEEPALIVE_SEND |>) ;; system_os_post)
   | TCP_RECONNECT_REQ =>
       upd (λ c, c <| reconnectTick := u32 (reconnectTick c + 1) |>) ;;
       b <- get (λ c, MQTT_RECONNECT_TIMEOUT <? reconnectTick c) ;;
       swhen b (
         upd (λ c, c <| reconnectTick := 0 |> <| connState := TCP_RECONNECT |>) ;;
         system_os_post ;;
         cb <- get timeoutCb ;; swhen cb (emit ETimeoutCb))
   | _ => sret tt
   end) ;;
  b <- get (λ c, 0 <? sendTimeout c) ;;
  swhen b (upd (λ c, c <| sendTimeout := sendTimeout c - 1 |>)).

Definition mqtt_tcpclient_discon_cb : M unit :=
  upd (λ c, c <| connState := match connState c with
                              | TCP_DISCONNECTING => TCP_DISCONNECTED
                              | MQTT_DELETING => MQTT_DELETED
                              | _ => TCP_RECONNECT_REQ end |>) ;;
  cb <- get disconnectedCb ;; swhen cb (emit EDisconnectedCb) ;;
  system_os_post.

Definition mqtt_tcpclient_connect_cb : M unit :=
  emit ERegisterCallbacks ;;
  conn <- get (λ c, mqtt_msg_init (mc_buffer (mqtt_connection c)) (u16 (out_buffer_length c))) ;;
  info <- get connect_info ;;
  conn <- slift (mqtt_msg_connect conn info) ;;
  upd (λ c, c <| mqtt_connection := conn |> <| outbound_message := true |>) ;;
  data <- slift (outbound_data conn) ;;
  b0 <- slift (rd data 0) ;;
  id <- slift (mqtt_get_id data (mc_length conn)) ;;
  upd (λ c, c <| pending_msg_type := mqtt_get_type b0 |> <| pending_msg_id := id |>
              <| sendTimeout := MQTT_SEND_TIMOUT |>) ;;
  tcp_send data (mc_length conn) ;;
  upd (λ c, c <| outbound_message := false |> <| connState := MQTT_CONNECT_SENDING |>) ;;
  system_os_post.

Definition mqtt_tcpclient_recon_cb : M unit :=
  upd (λ c, c <| connState := TCP_RECONNECT_REQ |>) ;; system_os_post.

(** ** Requests of the application

    The stack buffers of the requests are uninitialised: [proto0] and [c0] are
    the locals of [PROTO_ParseRb], [stack] is [dataBuffer] and [len0] is
    [dataLen].  [os_zalloc] and [espconn_port] are the SDK's; [os_zalloc] is
    parameterised because the code never tests its answer. *)

Section Requests.
Variables (proto0 : PROTO_PARSER) (c0 : Z) (stack : list Z) (len0 : Z).
Variables (os_zalloc : Z -> option (list Z)) (espconn_port : Z).

(** [QUEUE_Gets] scans at most the whole ring. *)
Definition gets_fuel : nat := Z.to_nat (QUEUE_BUFFER_SIZE + 1).
(** Each round of the loop below takes a whole frame, of at least two bytes, out of the ring. *)
Definition enqueue_fuel : nat := Z.to_nat (QUEUE_BUFFER_SIZE / 2 + 2).

(** [while (QUEUE_Puts(...) == -1) if (QUEUE_Gets(...) == -1) return FALSE;], the
    post and [return TRUE], which four functions share. *)
Fixpoint enqueue (fuel : nat) (data : list Z) (len : Z) (dataBuffer : list Z) (dataLen : Z) : M bool :=
  match fuel with
  | O => slift None
  | S fuel =>
      q <- get msgQueue ;;
      '(q, r) <- slift (QUEUE_Puts q data len) ;;
      upd (λ c, c <| msgQueue := q |>) ;;
      if r =? -1 then
        '(q, buf, l, r) <- slift (QUEUE_Gets gets_fuel proto0 c0 q dataBuffer dataLen MQTT_BUF_SIZE) ;;
        upd (λ c, c <| msgQueue := q |>) ;;
        if r =? -1 then sret false else enqueue fuel data len buf l
      else system_os_post ;; sret true
  end.

Definition enqueue_outbound : M bool :=
  conn <- get mqtt_connection ;;
  data <- slift (outbound_data conn) ;;
  enqueue enqueue_fuel data (mc_length conn) stack len0.

Definition MQTT_Publish (topic : option (list Z)) (data : list Z) (data_length qos retain : Z) : M bool :=
  conn <- get mqtt_connection ;; id <- get pending_msg_id ;;
  '(conn, id) <- slift (mqtt_msg_publish conn topic data data_length qos retain id) ;;
  upd (λ c, c <| mqtt_connection := conn |> <| pending_msg_id := id |> <| outbound_message := true |>) ;;
  if mc_length conn =? 0 then sret false else enqueue_outbound.

Definition MQTT_Subscribe (topic : option (list Z)) (qos : Z) : M bool :=
  conn <- get mqtt_connection ;; id <- get pending_msg_id ;;
  '(conn, id) <- slift (mqtt_msg_subscribe conn topic qos id) ;;
  upd (λ c, c <| mqtt_connection := conn |> <| pending_msg_id := id |> <| outbound_message := true |>) ;;
  enqueue_outbound.

Definition MQTT_UnSubscribe (topic : option (list Z)) : M bool :=
  conn <- get mqtt_connection ;; id <- get pending_msg_id ;;
  '(conn, id) <- slift (mqtt_msg_unsubscribe conn topic id) ;;
  upd (λ c, c <| mqtt_connection := conn |> <| pending_msg_id := id |> <| outbound_message := true |>) ;;
  enqueue_outbound.

Definition MQTT_Ping : M bool :=
  conn <- get mqtt_connection ;;
  conn <- slift (mqtt_msg_pingreq conn) ;;
  upd (λ c, c <| mqtt_connection := conn |> <| outbound_message := true |>) ;;
  if mc_length conn =? 0 then sret false else enqueue_outbound.

Definition MQTT_Connect : M unit :=
  mqtt_tcpclient_delete ;;
  prt <- get port ;;
  let p := mk_espconn espconn_port prt [0; 0; 0; 0] in
  emit ERegisterCallbacks ;;
  upd (λ c, c <| keepAliveTick := 0 |> <| reconnectTick := 0 |>) ;;
  emit ETimerDisarm ;; emit ETimerArm ;;
  h <- get host ;; h <- slift h ;;
  '(addr, ok) <- slift (UTILS_StrToIP (h ++ [0]) (ec_remote_ip p)) ;;
  upd (λ c, c <| pCon := Some (mk_espconn espconn_port prt addr) |>) ;;
  (if negb (ok =? 0) then tcp_connect else emit (EGetHostByName h)) ;;
  upd (λ c, c <| connState := TCP_CONNECTING |>).

Definition MQTT_Disconnect : M unit :=
  upd (λ c, c <| connState := TCP_DISCONNECTING |>) ;; system_os_post ;; emit ETimerDisarm.

Definition MQTT_DeleteClient : M unit :=
  upd (λ c, c <| connState := MQTT_DELETING |>) ;; system_os_post ;; emit ETimerDisarm.

(** The task; [result] is [espconn_send]'s answer to a keep-alive. *)
Definition MQTT_Task (result : Z) : M unit :=
  st <- get connState ;;
  match st with
  | TCP_RECONNECT =>
      mqtt_tcpclient_delete ;; MQTT_Connect ;; upd (λ c, c <| connState := TCP_CONNECTING |>)
  | MQTT_DELETING | TCP_DISCONNECTING | TCP_RECONNECT_DISCONNECTING => tcp_disconnect
  | TCP_DISCONNECTED => mqtt_tcpclient_delete
  | MQTT_DELETED => mqtt_client_delete
  | MQTT_KEEPALIVE_SEND => mqtt_send_keepalive result
  | MQTT_DATA =>
      b <- get (λ c, QUEUE_IsEmpty (msgQueue c) || negb (sendTimeout c =? 0)) ;;
      if b : bool then sret tt else
      q <- get msgQueue ;;
      '(q, buf, l, r) <- slift (QUEUE_Gets gets_fuel proto0 c0 q stack len0 MQTT_BUF_SIZE) ;;
      upd (λ c, c <| msgQueue := q |>) ;;
      swhen (r =? 0) (
        b0 <- slift (rd buf 0) ;;
        id <- slift (mqtt_get_id buf l) ;;
        upd (λ c, c <| pending_msg_type := mqtt_get_type b0 |> <| pending_msg_id := id |>
                    <| sendTimeout := MQTT_SEND_TIMOUT |>) ;;
        tcp_send buf l ;;
        upd (λ c, c <| outbound_message := false |>))
  | _ => sret tt
  end.

(** [os_zalloc( strlen( s ) + 1 )], the copy and the closing zero, read back as a string. *)
Definition copy_string (s : list Z) : option (list Z) :=
  b ← os_zalloc (u32 (zlen s + 1)); b ← bsplice b 0 (s ++ [0]); b ← wr b (zlen s) 0;
  bslice b 0 (zlen s).

(** [os_memset( client, 0, sizeof( MQTT_Client ) )] *)
Definition zero_client : MQTT_Client :=
  mk_client None 0 None 0 [0; 0; 0; 0] false None 0 false 0 0 0 false (mk_conn None 0 0 [] 0) 0 0
    (mk_info None None None None None 0 0 0 0) false false false false false 0 0 0 WIFI_INIT
    (mk_QUEUE false (mk_RINGBUF [] 0 0 0 0)) false.

Definition MQTT_InitConnection (h : list Z) (prt sec : Z) : M unit :=
  upd (λ _, zero_client) ;;
  s <- slift (copy_string h) ;;
  upd (λ c, c <| host := Some s |> <| port := prt |> <| security := sec |>).

Definition copy_opt (s : option (list Z)) : option (option (list Z)) :=
  match s with Some s => s' ← copy_string s; Some (Some s') | None => Some None end.

Definition MQTT_InitClient (clientid : list Z) (client_user client_pass : option (list Z))
    (keepAliveTime cleanSession : Z) : M unit :=
  id <- slift (copy_string clientid) ;;
  user <- slift (copy_opt client_user) ;;
  pass <- slift (copy_opt client_pass) ;;
  upd (λ c, c <| connect_info := mk_info (Some id) user pass None None (i32 keepAliveTime) 0 0 cleanSession |>) ;;
  inb <- slift (os_zalloc MQTT_BUF_SIZE) ;;
  outb <- slift (os_zalloc MQTT_BUF_SIZE) ;;
  upd (λ c, c <| in_buffer := Some inb |> <| in_buffer_length := MQTT_BUF_SIZE |>
              <| out_buffer := true |> <| out_buffer_length := MQTT_BUF_SIZE |> <| connect_info_ptr := true |>
              <| mqtt_connection := mqtt_msg_init outb MQTT_BUF_SIZE |>
              <| msgQueue := QUEUE_Init (msgQueue c) (os_zalloc QUEUE_BUFFER_SIZE) QUEUE_BUFFER_SIZE |>) ;;
  emit EOsTask ;;
  system_os_post.

Definition MQTT_InitLWT (topic msg : list Z) (qos retain : Z) : M unit :=
  t <- slift (copy_string topic) ;;
  m <- slift (copy_string msg) ;;
  upd (λ c, c <| connect_info := (connect_info c) <| will_topic := Some t |> <| will_message := Some m |>
                                   <| will_qos := qos |> <| will_retain := retain |> |>).
End Requests.

Definition MQTT_OnConnected (cb : bool) : M unit := upd (λ c, c <| connectedCb := cb |>).
Definition MQTT_OnDisconnected (cb : bool) : M unit := upd (λ c, c <| disconnectedCb := cb |>).
Definition MQTT_OnData (cb : bool) : M unit := upd (λ c, c <| dataCb := cb |>).
Definition MQTT_OnPublished (cb : bool) : M unit := upd (λ c, c <| publishedCb := cb |>).
Definition MQTT_OnTimeout (cb : bool) : M unit := upd (λ c, c <| timeoutCb := cb |>).

(** ** The outgoing queue *)

(** Run a computation: what it answers and the world it leaves. *)
Definition runs {A} (m : M A) (w : world) (a : A) (w' : world) : Prop := m w = Some (a, w').

Lemma zlen_messages cs : 2 * zlen (messages cs) <= zlen (flat_map chunk_bytes cs).
Proof.
  induction cs as [|[p|p k] cs IH]; cbn [messages flat_map chunk_bytes]; [done|..]; rewrite zlen_app.
  - rewrite zlen_cons, zlen_frame. pose proof (zlen_nonneg (stuff p)). lia.
  - pose proof (zlen_nonneg (take (Z.to_nat k) (frame p))). lia.
Qed.

(** The ring of the client holds the chunks [cs]. *)
Definition queue_ok (q : QUEUE) (cs : list chunk) : Prop := QUEUE_rep q cs /\ rb_size (q_rb q) = QUEUE_BUFFER_SIZE.

Lemma queue_ok_bound q cs : queue_ok q cs -> zlen (flat_map chunk_bytes cs) <= QUEUE_BUFFER_SIZE.
Proof.
  intros [(W & _ & E) Hs]. pose proof (bq_bound (q_rb q) W) as H. simpl in H. rewrite E in H. lia.
Qed.

Definition room (cs : list chunk) : Z := QUEUE_BUFFER_SIZE - zlen (flat_map chunk_bytes cs).

Section Enqueue.
Variables (proto0 : PROTO_PARSER) (c0 : Z).

(** What the loop leaves in the ring: some of the oldest messages are gone,
    and either the new one is last or everything is. *)
Definition enqueued (p : list Z) (cs cs' : list chunk) (ok : bool) : Prop :=
  if ok then exists k, messages cs' = drop k (messages cs) ++ [p] else cs' = [].

Lemma enqueue_step fuel w cs data len p buf l :
  queue_ok (msgQueue (cl w)) cs -> 0 <= len <= zlen data -> take (Z.to_nat len) data = p ->
  Forall is_byte p -> zlen (frame p) < 32768 ->
  (length (messages cs) < fuel)%nat -> MQTT_BUF_SIZE <= zlen buf ->
  exists (ok : bool) q cs',
    enqueue proto0 c0 fuel data len buf l w =
      Some (ok, mk_world ((cl w) <| msgQueue := q |>) (trace w ++ if ok then [EPost] else [])) /\
    queue_ok q cs' /\ enqueued p cs cs' ok /\
    (zlen (frame p) <= room cs -> ok = true /\ messages cs' = messages cs ++ [p]) /\
    (QUEUE_BUFFER_SIZE < zlen (frame p) -> ok = false).
Proof.
  revert w cs buf l. induction fuel as [|fuel IH]; intros w cs buf l Q Hlen Ht Hp Hf Hfuel Hbuf; [lia|].
  destruct Q as [R Hs].
  assert (H16 : zlen p = len) by (rewrite <- Ht, zlen_take; lia).
  pose proof (stuff_len_ge p). pose proof (zlen_frame p).
  destruct (QUEUE_Puts_rep (msgQueue (cl w)) cs data len R) as (Hroom & q & E & _ & Hsq & R');
    [lia|lia|by rewrite Ht|by rewrite Ht|]. rewrite Ht, Hs in *. fold (room cs) in *.
  cbn [enqueue]. unfold get, upd, system_os_post, emit. sm. rewrite E. sm.
  destruct (Z.leb_spec (zlen (frame p)) (room cs)) as [Hfit|Hfull].
  - zfalse (zlen (frame p) =? -1). sm. exists true, q, (cs ++ [Full p]).
    assert (Hm : messages (cs ++ [Full p]) = messages cs ++ [p]) by (by rewrite messages_app).
    split; [by destruct w|]. split; [by split|]. split; [exists 0%nat; by rewrite Hm|]. split; [done|].
    unfold room in Hfit. pose proof (zlen_nonneg (flat_map chunk_bytes cs)). lia.
  - change (-1 =? -1) with true. cbv iota.
    destruct (QUEUE_Gets_rep q _ gets_fuel proto0 c0 buf l MQTT_BUF_SIZE R') as (q2 & cs2 & buf2 & l2 & r & E2 & R2 & _ & Hs2 & Hz2 & Hm);
      [unfold MQTT_BUF_SIZE; lia|done|unfold gets_fuel; rewrite Hsq; unfold QUEUE_BUFFER_SIZE; lia|].
    unfold sbind at 1. sm. rewrite E2. sm. rewrite messages_app in Hm. cbn [messages] in Hm. rewrite app_nil_r in Hm.
    destruct (messages cs) as [|m ms] eqn:Ecs.
    + destruct Hm as (-> & -> & ->). cbv iota. exists false, q2, [].
      rewrite app_nil_r. split; [by destruct w|]. split; [split; congruence|]. split; [done|].
      split; [lia|done].
    + destruct Hm as (-> & Hms & _ & _). change (0 =? -1) with false. cbv iota.
      destruct (IH (mk_world ((cl w) <| msgQueue := q2 |>) (trace w)) cs2 buf2 l2) as (ok & q3 & cs3 & E3 & Q3 & Hq3 & Hfit3 & Hbig3);
        [split; [done|cbn; congruence]|done..|rewrite Hms; simpl in Hfuel; lia|lia|].
      exists ok, q3, cs3. split; [exact E3|]. split; [done|]. split; [|split; [lia|done]].
      destruct ok; [|done]. destruct Hq3 as [k Hk]. exists (S k). rewrite Hk, Hms, Ecs. done.
Qed.
End Enqueue.

(** ** The invariant of an initialised client *)

Definition bytes_opt (s : option (list Z)) : Prop := match s with Some l => Forall is_byte l | None => True end.

(** A CONNECT can be assembled: the strings are bytes and a will has a message. *)
Definition info_ok (i : mqtt_connect_info_t) : Prop :=
  bytes_opt (client_id i) /\ bytes_opt (username i) /\ bytes_opt (password i) /\ bytes_opt (will_topic i) /\
  bytes_opt (will_message i) /\ (present (will_topic i) ≠ None -> will_message i ≠ None).

Record client_ok (c : MQTT_Client) (cs : list chunk) : Prop := mk_client_ok {
  ck_in : exists b, in_buffer c = Some b /\ zlen b = MQTT_BUF_SIZE /\ Forall is_byte b;
  ck_inlen : in_buffer_length c = MQTT_BUF_SIZE;
  ck_outlen : out_buffer_length c = MQTT_BUF_SIZE;
  ck_conn : conn_ok (mqtt_connection c);
  ck_connlen : mc_buffer_length (mqtt_connection c) = MQTT_BUF_SIZE;
  ck_ptr : connect_info_ptr c = true;
  ck_info : info_ok (connect_info c);
  ck_host : host c ≠ None;
  ck_queue : queue_ok (msgQueue c) cs }.

(** The message in the connection's buffer is [p]. *)
Definition holds (conn : mqtt_connection_t) (p : list Z) : Prop :=
  conn_ok conn /\ mc_buffer_length conn = MQTT_BUF_SIZE /\ mc_length conn = zlen p /\ zlen p <= MQTT_BUF_SIZE /\
  exists d, outbound_data conn = Some d /\ zlen p <= zlen d /\ take (Z.to_nat (zlen p)) d = p /\ 1 <= zlen d.

Lemma stuff_len_le p : zlen (stuff p) <= 2 * zlen p.
Proof.
  induction p as [|c p IH]; [done|]. rewrite stuff_cons, zlen_app, zlen_cons.
  unfold stuff_byte. destruct (_ || _); rewrite !zlen_cons, zlen_nil; lia.
Qed.

Lemma frame_len_le p : zlen (frame p) <= 2 + 2 * zlen p.
Proof. rewrite zlen_frame. pose proof (stuff_len_le p). lia. Qed.

Lemma built_holds conn h b :
  built conn h b -> mc_buffer_length conn = MQTT_BUF_SIZE -> 1 <= zlen h -> zlen (h ++ b) <= MQTT_BUF_SIZE ->
  holds conn (h ++ b).
Proof.
  intros (E & L & W & off & Eo & H0 & Hend) Hl Hh Hs. rewrite E in L. split; [done|]. split; [done|]. split; [done|].
  split; [done|]. unfold outbound_data. rewrite Eo. eexists. split; [done|].
  pose proof (zlen_nonneg b). pose proof (zlen_app h b) as Ha. rewrite zlen_drop.
  split; [lia|]. split; [|lia]. rewrite <- E at 2. unfold message_bytes. rewrite Eo, L.
  rewrite <- (tab_nthZ (drop (Z.to_nat off) (mc_buffer conn))), zlen_drop, take_tab by lia.
  apply tab_ext. intros i Hi. rewrite nthZ_drop by lia. done.
Qed.

Lemma failed_holds conn : failed conn -> mc_buffer_length conn = MQTT_BUF_SIZE -> holds conn [].
Proof.
  intros (L & W & E) Hl. split; [done|]. split; [done|]. split; [done|]. split; [done|].
  unfold outbound_data. rewrite E. eexists. split; [done|]. rewrite take_0. destruct W. rewrite Hl in *.
  unfold MQTT_BUF_SIZE in *. rewrite zlen_drop, zlen_nil. repeat split; lia.
Qed.

(** The header of a message is made of bytes. *)
Lemma fixed_header_bytes type dup qos retain n : 0 <= n -> Forall is_byte (fixed_header type dup qos retain n).
Proof.
  intros. pose proof (fixed_byte_fields type dup qos retain) as (Hb & _). unfold fixed_header.
  destruct (Z.ltb_spec 127 n); repeat apply Forall_cons_2; try done; apply u8_range.
Qed.

Lemma encode_string_bytes s : Forall is_byte s -> Forall is_byte (encode_string s).
Proof.
  intros. unfold encode_string. apply Forall_cons_2; [apply u8_range|]. apply Forall_cons_2; [|done].
  rewrite land_255. apply Z.mod_pos_bound. lia.
Qed.

Lemma encode_id_bytes id : is_u16 id -> Forall is_byte (encode_id id).
Proof.
  intros. unfold encode_id, is_u16 in *. apply Forall_cons_2; [|apply Forall_cons_2; [|done]]; unfold is_byte.
  - rewrite shiftr_8. dlia.
  - rewrite land_255. dlia.
Qed.

#[export] Hint Resolve fixed_header_bytes encode_string_bytes encode_id_bytes zlen_nonneg : mach_range.

Lemma publish_packet_bytes qos retain t mid data :
  Forall is_byte t -> Forall is_byte data -> is_u16 mid -> Forall is_byte (publish_packet qos retain t mid data).
Proof.
  intros. unfold publish_packet, publish_body. rewrite !Forall_app. repeat split; auto with mach_range.
  destruct (0 <? qos); auto with mach_range.
Qed.

(** A built message takes at most the buffer: the header uses one byte less when it can. *)
Lemma header_len_le n : header_len n <= 3 /\ 2 <= header_len n.
Proof. unfold header_len. zbool; lia. Qed.

Lemma built_fits conn h b type dup qos retain :
  built conn h b -> mc_buffer_length conn = MQTT_BUF_SIZE -> h = fixed_header type dup qos retain (zlen b) ->
  3 + zlen b <= MQTT_BUF_SIZE -> holds conn (h ++ b).
Proof.
  intros B Hl -> Hs. pose proof (header_len_le (zlen b)).
  apply built_holds; try done; rewrite ?zlen_app, zlen_fixed_header; lia.
Qed.

Lemma client_ok_queue c cs q cs' : client_ok c cs -> queue_ok q cs' -> client_ok (c <| msgQueue := q |>) cs'.
Proof. intros []; split; done. Qed.

Lemma client_ok_conn c cs conn b : client_ok c cs -> conn_ok conn -> mc_buffer_length conn = MQTT_BUF_SIZE ->
  client_ok (c <| mqtt_connection := conn |> <| outbound_message := b |>) cs.
Proof. intros []; split; done. Qed.

Lemma client_ok_pending c cs id : client_ok c cs -> client_ok (c <| pending_msg_id := id |>) cs.
Proof. intros []; split; done. Qed.

(** The queue after a request: the new message [p] is last and at most some of
    the oldest are gone, or the request failed and the queue is empty; nothing is
    lost when [p] fits. *)
Definition enqueue_result (p : list Z) (cs cs' : list chunk) (ok : bool) : Prop :=
  enqueued p cs cs' ok /\ (zlen (frame p) <= room cs -> ok = true /\ messages cs' = messages cs ++ [p]) /\
  (QUEUE_BUFFER_SIZE < zlen (frame p) -> ok = false).

Section RequestSpecs.
Variables (proto0 : PROTO_PARSER) (c0 : Z) (stack : list Z) (len0 : Z).
Hypothesis Hstack : MQTT_BUF_SIZE <= zlen stack.

Lemma enqueue_outbound_spec w cs p :
  client_ok (cl w) cs -> holds (mqtt_connection (cl w)) p -> Forall is_byte p ->
  exists (ok : bool) q cs',
    enqueue_outbound proto0 c0 stack len0 w =
      Some (ok, mk_world ((cl w) <| msgQueue := q |>) (trace w ++ if ok then [EPost] else [])) /\
    client_ok ((cl w) <| msgQueue := q |>) cs' /\ enqueue_result p cs cs' ok.
Proof.
  intros W (Hc & Hbl & Hl & Hs & d & Ed & Hd & Ht & _) Hb. pose proof (ck_queue _ _ W) as Q.
  unfold enqueue_outbound, get. sm. rewrite Ed. sm. rewrite Hl.
  pose proof (frame_len_le p). unfold MQTT_BUF_SIZE in *. pose proof (zlen_nonneg p).
  pose proof (zlen_messages cs) as Hm. pose proof (queue_ok_bound _ _ Q). change (zlen (messages cs)) with (Z.of_nat (length (messages cs))) in Hm.
  destruct (enqueue_step proto0 c0 enqueue_fuel w cs d (zlen p) p stack len0 Q) as (ok & q & cs' & E & Q' & R & F & B);
    try done; [lia|unfold enqueue_fuel, QUEUE_BUFFER_SIZE in *; change (2048 / 2 + 2) with 1026; lia|].
  exists ok, q, cs'. split; [done|]. split; [by apply (client_ok_queue _ cs)|]. done.
Qed.

Lemma publish_spec w cs t data qos retain :
  client_ok (cl w) cs -> t ≠ [] -> Forall is_byte t -> Forall is_byte data ->
  let mid := if 0 <? qos then fst (next_id 0 (mc_message_id (mqtt_connection (cl w)))) else 0 in
  let pk := publish_packet qos retain t mid data in
  exists ok w' cs', MQTT_Publish proto0 c0 stack len0 (Some t) data (zlen data) qos retain w = Some (ok, w') /\
    client_ok (cl w') cs' /\ connState (cl w') = connState (cl w) /\ trace w' = trace w ++ (if ok then [EPost] else []) /\
    if 3 + zlen (publish_body t qos mid data) <=? MQTT_BUF_SIZE then enqueue_result pk cs cs' ok
    else ok = false /\ cs' = cs.
Proof.
  intros W Ht Hbt Hbd mid pk. destruct (mqtt_msg_publish_spec _ t data qos retain (pending_msg_id (cl w)) (ck_conn _ _ W) Ht)
    as (conn & m & E & H).
  pose proof (next_id_range 0 _ ltac:(unfold is_u16; lia) (co_id _ (ck_conn _ _ W))) as [Hid _]. fold mid in H.
  pose proof (mqtt_msg_publish_keeps _ _ _ _ _ _ _ _ _ E) as K. unfold keeps in K. rewrite (ck_connlen _ _ W) in *.
  unfold MQTT_Publish, get, upd. sm. rewrite E. sm.
  destruct (Z.leb_spec (3 + zlen (publish_body t qos mid data)) MQTT_BUF_SIZE) as [Hs|Hs].
  - destruct H as [-> B]. assert (Hh : holds conn pk) by exact (built_fits _ _ _ _ _ _ _ B K eq_refl Hs).
    destruct B as (_ & _ & B & _). pose proof Hh as (_ & _ & Hlen & _).
    assert (1 <= zlen pk).
    { unfold pk, publish_packet. rewrite zlen_app, zlen_fixed_header.
      pose proof (header_len_le (zlen (publish_body t qos mid data))). pose proof (zlen_nonneg (publish_body t qos mid data)). lia. }
    cbn [cl mqtt_connection]. zfalse (mc_length conn =? 0).
    match goal with |- context [enqueue_outbound _ _ _ _ ?w1] => destruct (enqueue_outbound_spec w1 cs pk) as (ok & q & cs' & E1 & W1 & R) end;
      [cbn [cl]; destruct W; by split|done| |].
    { apply publish_packet_bytes; try done. unfold mid, is_u16. destruct (0 <? qos); lia. }
    rewrite E1. eexists _, _, _. split; [done|]. split; [exact W1|]. done.
  - destruct H as (L & Wc & _). cbn [cl mqtt_connection]. rewrite L. change (0 =? 0) with true. cbv iota.
    eexists _, _, cs. split; [done|]. split; [destruct W; by split|]. cbn. by rewrite app_nil_r.
Qed.

(** MQTT_Publish queues exactly the PUBLISH packet of its arguments with a
    fresh nonzero identifier when qos is above 0, dropping only oldest messages
    to make room; a packet larger than the 1024-byte buffer is refused and
    changes nothing, and the loop always ends. *)
Theorem MQTT_Publish_spec w cs t data qos retain :
  client_ok (cl w) cs -> t ≠ [] -> Forall is_byte t -> Forall is_byte data ->
  let mid := if 0 <? qos then fst (next_id 0 (mc_message_id (mqtt_connection (cl w)))) else 0 in
  let pk := publish_packet qos retain t mid data in
  exists ok w' cs', MQTT_Publish proto0 c0 stack len0 (Some t) data (zlen data) qos retain w = Some (ok, w') /\
    client_ok (cl w') cs' /\ connState (cl w') = connState (cl w) /\ trace w' = trace w ++ (if ok then [EPost] else []) /\
    if 3 + zlen (publish_body t qos mid data) <=? MQTT_BUF_SIZE then enqueue_result pk cs cs' ok
    else ok = false /\ cs' = cs.
Proof. apply publish_spec. Qed.
End RequestSpecs.

(** ** The task *)

Lemma messages_bytes cs : Forall chunk_ok cs -> Forall (Forall is_byte) (messages cs).
Proof. induction 1 as [|[p|p k] cs Hc _ IH]; cbn [messages]; [constructor|constructor; done|done]. Qed.

(** [mqtt_get_id] on a buffer that starts with the bytes [p]. *)
Lemma mqtt_get_id_prefix buf len p :
  Forall is_byte p -> 0 <= len <= zlen buf -> tab len (nthZ buf) = p -> exists id, mqtt_get_id buf len = Some id /\ is_u16 id.
Proof.
  intros Hp Hl Ht. assert (zlen p = len) by (rewrite <- Ht; zlia).
  rewrite (mqtt_get_id_local buf p len) by (lia || (intros i Hi; rewrite <- Ht, nthZ_tab by lia; done)).
  apply mqtt_get_id_safe; [done|lia].
Qed.

Lemma bslice_tab b n : 0 <= n <= zlen b -> bslice b 0 n = Some (tab n (nthZ b)).
Proof. intros. by rewrite bslice_Some by lia. Qed.

Section TaskSpec.
Variables (proto0 : PROTO_PARSER) (c0 : Z) (stack : list Z) (len0 : Z).
Variables (os_zalloc : Z -> option (list Z)) (espconn_port : Z).
Hypothesis Hstack : MQTT_BUF_SIZE <= zlen stack.

Lemma task_sends w cs result :
  client_ok (cl w) cs -> connState (cl w) = MQTT_DATA ->
  exists w' cs', MQTT_Task proto0 c0 stack len0 espconn_port result w = Some (tt, w') /\
    client_ok (cl w') cs' /\ connState (cl w') = MQTT_DATA /\
    if negb (sendTimeout (cl w) =? 0) then w' = w /\ cs' = cs
    else match messages cs with
         | [] => trace w' = trace w /\ messages cs' = []
         | p :: ps =>
             trace w' = trace w ++ [ESend (negb (security (cl w) =? 0)) (take (Z.to_nat MQTT_BUF_SIZE) p)] /\
             messages cs' = ps /\ sendTimeout (cl w') = MQTT_SEND_TIMOUT /\
             (p ≠ [] -> pending_msg_type (cl w') = mqtt_get_type (nthZ p 0))
         end.
Proof.
  intros W St. unfold MQTT_Task, get. sm. rewrite St. unfold sbind at 1. sm.
  pose proof (ck_queue _ _ W) as Q. destruct Q as [R Hs].
  destruct (negb (sendTimeout (cl w) =? 0)) eqn:Et; [rewrite orb_true_r; by exists w, cs|]. rewrite orb_false_r.
  destruct (QUEUE_IsEmpty (msgQueue (cl w))) eqn:Ee.
  { exists w, cs. split; [done|]. split; [done|]. split; [done|].
    assert (Hm : messages cs = []); [|by rewrite Hm].
    apply zlen_0_nil. pose proof (zlen_messages cs) as Hz. destruct R as ([] & _ & Ec). rewrite <- Ec in Hz.
    unfold QUEUE_IsEmpty in Ee. rewrite Z.leb_le in Ee. unfold RINGBUF_contents in Hz.
    rewrite zlen_ring_view in Hz by lia. pose proof (zlen_nonneg (messages cs)). lia. }
  destruct (QUEUE_Gets_rep (msgQueue (cl w)) cs gets_fuel proto0 c0 stack len0 MQTT_BUF_SIZE R)
    as (q & cs' & buf & l & r & E & R' & _ & Hs' & Hz & Hm);
    [unfold MQTT_BUF_SIZE; lia|done|unfold gets_fuel; rewrite Hs; unfold QUEUE_BUFFER_SIZE; lia|].
  sm. rewrite E. unfold upd. sm.
  assert (Q' : queue_ok q cs') by (split; [done|congruence]).
  destruct (messages cs) as [|p ps] eqn:Ecs.
  - destruct Hm as (-> & -> & ->). change (-1 =? 0) with false. cbn [swhen]. unfold sret.
    eexists _, []. split; [done|]. split; [by apply (client_ok_queue _ cs)|]. done.
  - destruct Hm as (-> & Hps & Hl & Htab). change (0 =? 0) with true. cbn [swhen].
    assert (Hb : Forall is_byte (take (Z.to_nat MQTT_BUF_SIZE) p)).
    { apply Forall_take. destruct R as (_ & Hok & _). apply messages_bytes in Hok. rewrite Ecs in Hok. by inversion Hok. }
    pose proof (zlen_nonneg p).
    assert (0 <= l <= zlen buf) by (rewrite Hl, Hz; unfold MQTT_BUF_SIZE in *; lia).
    destruct (mqtt_get_id_prefix buf l _ Hb ltac:(done) Htab) as (id & Ei & _).
    assert (H1 : 1 <= zlen buf) by (rewrite Hz; unfold MQTT_BUF_SIZE in *; lia).
    unfold tcp_send, get, upd, emit. sm. rewrite rd_Some by lia. sm. rewrite Ei. sm. rewrite bslice_tab by lia. sm. rewrite Htab.
    eexists _, cs'. split; [done|]. split; [destruct W; split; done|]. split; [done|]. split; [done|]. split; [done|].
    split; [done|]. intros Hp. cbn. f_equal.
    assert (1 <= zlen p) by (destruct p as [|x p']; [done|rewrite zlen_cons; pose proof (zlen_nonneg p'); lia]).
    rewrite <- (nthZ_take p MQTT_BUF_SIZE 0) by (unfold MQTT_BUF_SIZE; lia). rewrite <- Htab, nthZ_tab; [done|].
    rewrite Hl. unfold MQTT_BUF_SIZE. lia.
Qed.

(** Connected, the task sends nothing while an earlier message is
    unacknowledged by TCP or the queue is empty; otherwise it sends the oldest
    queued message, whole, removes it from the queue and arms the send timeout. *)
Theorem MQTT_Task_sends w cs result :
  client_ok (cl w) cs -> connState (cl w) = MQTT_DATA ->
  exists w' cs', MQTT_Task proto0 c0 stack len0 espconn_port result w = Some (tt, w') /\
    client_ok (cl w') cs' /\ connState (cl w') = MQTT_DATA /\
    if negb (sendTimeout (cl w) =? 0) then w' = w /\ cs' = cs
    else match messages cs with
         | [] => trace w' = trace w /\ messages cs' = []
         | p :: ps =>
             trace w' = trace w ++ [ESend (negb (security (cl w) =? 0)) (take (Z.to_nat MQTT_BUF_SIZE) p)] /\
             messages cs' = ps /\ sendTimeout (cl w') = MQTT_SEND_TIMOUT /\
             (p ≠ [] -> pending_msg_type (cl w') = mqtt_get_type (nthZ p 0))
         end.
Proof. apply task_sends. Qed.
End TaskSpec.

(** ** Received messages *)

Lemma queue_response_spec w cs build conn p :
  client_ok (cl w) cs -> build (mqtt_connection (cl w)) = Some conn -> holds conn p -> Forall is_byte p ->
  exists q cs',
    queue_response build w =
      Some (tt, mk_world ((cl w) <| mqtt_connection := conn |> <| outbound_message := true |> <| msgQueue := q |>) (trace w)) /\
    queue_ok q cs' /\ client_ok ((cl w) <| mqtt_connection := conn |> <| outbound_message := true |> <| msgQueue := q |>) cs' /\
    if zlen (frame p) <=? room cs then messages cs' = messages cs ++ [p] /\ room cs' = room cs - zlen (frame p)
    else messages cs' = messages cs.
Proof.
  intros W E (Hc & Hbl & Hl & Hs & d & Ed & Hd & Ht & _) Hb. pose proof (ck_queue _ _ W) as [R Hsz].
  unfold queue_response, get, upd. sm. rewrite E. sm. rewrite Ed. sm.
  pose proof (frame_len_le p). pose proof (zlen_nonneg p). unfold MQTT_BUF_SIZE in *.
  destruct (QUEUE_Puts_rep (msgQueue (cl w)) cs d (zlen p) R) as (Hroom & q & E2 & _ & Hsq & R');
    [lia|lia|by rewrite Ht|rewrite Ht; lia|]. rewrite Ht, Hsz in *. fold (room cs) in *.
  rewrite <- Hl in E2 at 1. slift_step E2. sm.
  eexists q, _. split; [done|]. assert (Q : queue_ok q (cs ++ [if zlen (frame p) <=? room cs then Full p else Part p (room cs)])) by done.
  split; [exact Q|]. split; [destruct W; by split|]. destruct (zlen (frame p) <=? room cs).
  - rewrite messages_app. split; [done|]. unfold room. rewrite flat_map_app, zlen_app. cbn [flat_map chunk_bytes]. rewrite app_nil_r. lia.
  - rewrite messages_app. cbn [messages]. by rewrite app_nil_r.
Qed.

(** The four-byte acknowledgement of identifier [mid]. *)
Definition ack_packet (type qos mid : Z) : list Z := fixed_header type 0 qos 0 2 ++ encode_id mid.

Lemma ack_packet_holds type qos conn mid :
  conn_ok conn -> mc_buffer_length conn = MQTT_BUF_SIZE -> is_u16 mid ->
  exists conn', ack_message type qos conn mid = Some conn' /\
    holds conn' (ack_packet type qos (fst (next_id mid (mc_message_id conn)))) /\
    Forall is_byte (ack_packet type qos (fst (next_id mid (mc_message_id conn)))).
Proof.
  intros W Hl Hm. destruct (ack_message_spec type qos conn mid W Hm) as (c' & E & H). rewrite Hl in H.
  change (5 <=? MQTT_BUF_SIZE) with true in H. pose proof (ack_message_keeps _ _ _ _ _ E) as K. unfold keeps in K.
  pose proof (next_id_range mid _ Hm (co_id _ W)) as [Hr _].
  exists c'. split; [done|]. split.
  - eapply built_fits; [exact H|congruence|reflexivity|]. unfold MQTT_BUF_SIZE. change (zlen (encode_id _)) with 2. lia.
  - unfold ack_packet. apply Forall_app. split; [apply fixed_header_bytes; lia|apply encode_id_bytes; unfold is_u16; lia].
Qed.

(** A PUBLISH as its sender means it. *)
Record publication := mk_pub { pb_qos : Z; pb_retain : Z; pb_topic : list Z; pb_id : Z; pb_data : list Z }.

Definition pub_ok (x : publication) : Prop :=
  0 <= pb_qos x <= 2 /\ 0 <= pb_retain x <= 1 /\ pb_topic x ≠ [] /\ pb_data x ≠ [] /\
  is_u16 (pb_id x) /\ (0 < pb_qos x -> pb_id x ≠ 0) /\ Forall is_byte (pb_topic x) /\ Forall is_byte (pb_data x).

Definition pub_bytes (x : publication) : list Z :=
  publish_packet (pb_qos x) (pb_retain x) (pb_topic x) (pb_id x) (pb_data x).
Definition pub_event (x : publication) : event :=
  EDataCb (Some (pb_topic x)) (zlen (pb_topic x)) (Some (pb_data x)) (zlen (pb_data x)).
(** The answer a PUBLISH asks for. *)
Definition pub_acks (x : publication) : list (list Z) :=
  if pb_qos x =? 1 then [ack_packet MQTT_MSG_TYPE_PUBACK 0 (pb_id x)]
  else if pb_qos x =? 2 then [ack_packet MQTT_MSG_TYPE_PUBREC 0 (pb_id x)] else [].

Definition receiving (st : tConnState) : Prop := st = MQTT_DATA \/ st = MQTT_KEEPALIVE_SEND.

Lemma pub_reads x rest len :
  pub_ok x -> zlen (pub_bytes x) <= len <= zlen (pub_bytes x ++ rest) -> zlen (pub_bytes x) < MQTT_BUF_SIZE ->
  let m := pub_bytes x ++ rest in
  mqtt_get_type (nthZ m 0) = MQTT_MSG_TYPE_PUBLISH /\ mqtt_get_qos (nthZ m 0) = pb_qos x /\
  mqtt_get_total_length m len = Some (zlen (pub_bytes x)) /\
  (exists off, mqtt_get_publish_topic m len = Some (Some off, zlen (pb_topic x)) /\ view m (Some off) (zlen (pb_topic x)) = Some (pb_topic x)) /\
  (exists off, mqtt_get_publish_data m len = Some (Some off, zlen (pb_data x)) /\ view m (Some off) (zlen (pb_data x)) = Some (pb_data x)) /\
  mqtt_get_id m len = Some (if 0 <? pb_qos x then pb_id x else 0).
Proof.
  intros (Hq & Hr & Ht & Hd & Hid & _) Hlen Hs m. unfold m, pub_bytes in *.
  assert (Hb : zlen (publish_body (pb_topic x) (pb_qos x) (pb_id x) (pb_data x)) <= 16383).
  { unfold publish_packet, MQTT_BUF_SIZE in Hs. rewrite zlen_app, zlen_fixed_header in Hs.
    pose proof (header_len_le (zlen (publish_body (pb_topic x) (pb_qos x) (pb_id x) (pb_data x)))). lia. }
  destruct (publish_packet_reads (pb_qos x) (pb_retain x) (pb_topic x) (pb_id x) (pb_data x) rest len) as
    (T & Q & _ & L & (ot & Et & Vt) & (od & Ed & Vd) & I); try done; [lia|].
  repeat split; try done; [exists ot|exists od]; (split; [done|]); cbn [view mbind option_bind]; f_equal; done.
Qed.

Lemma deliver_publish_spec w x rest len :
  pub_ok x -> zlen (pub_bytes x) <= len <= zlen (pub_bytes x ++ rest) -> len < MQTT_BUF_SIZE ->
  deliver_publish (pub_bytes x ++ rest) len w =
    Some (tt, mk_world (cl w) (trace w ++ if dataCb (cl w) then [pub_event x] else [])).
Proof.
  intros Hx Hlen Hs. pose proof (zlen_nonneg (pub_bytes x)).
  destruct (pub_reads x rest len Hx Hlen ltac:(lia)) as (_ & _ & _ & (ot & Et & Vt) & (od & Ed & Vd) & _).
  unfold deliver_publish. rewrite u16_small by (unfold MQTT_BUF_SIZE in *; lia). slift_step Et. slift_step Ed.
  unfold get, emit. sm. rewrite Vt, Vd. destruct w as [c tr]. cbn [cl trace]. destruct (dataCb c); cbn [swhen]; [done|].
  unfold sret. by rewrite app_nil_r.
Qed.

(** What a PUBLISH does to a connected client, the message being the start of
    [buffer], of which [len] bytes were received. *)
Lemma recv_message_publish w cs x rest len :
  client_ok (cl w) cs -> pub_ok x -> 10 <= room cs ->
  zlen (pub_bytes x) <= len <= zlen (pub_bytes x ++ rest) -> len < MQTT_BUF_SIZE -> message_length_read (cl w) = len ->
  exists conn ob q cs', recv_message MQTT_MSG_TYPE_PUBLISH (pb_qos x) (if 0 <? pb_qos x then pb_id x else 0) (pub_bytes x ++ rest) w =
      Some (tt, mk_world ((cl w) <| mqtt_connection := conn |> <| outbound_message := ob |> <| msgQueue := q |>)
                         (trace w ++ if dataCb (cl w) then [pub_event x] else [])) /\
    client_ok ((cl w) <| mqtt_connection := conn |> <| outbound_message := ob |> <| msgQueue := q |>) cs' /\
    messages cs' = messages cs ++ pub_acks x /\ room cs - 10 <= room cs'.
Proof.
  intros W Hx Hroom Hlen Hs Hmr. pose proof Hx as (Hq & _ & _ & _ & Hid & Hnz & _).
  assert (A : forall type q, exists conn, ack_message type q (mqtt_connection (cl w)) (pb_id x) = Some conn /\
    (0 < pb_qos x -> holds conn (ack_packet type q (pb_id x)) /\ Forall is_byte (ack_packet type q (pb_id x)))).
  { intros type q. destruct (ack_packet_holds type q _ (pb_id x) (ck_conn _ _ W) (ck_connlen _ _ W) Hid) as (conn & E & H1 & H2).
    exists conn. split; [done|]. intros Hp. specialize (Hnz Hp). unfold next_id in *. by destruct (Z.eqb_spec (pb_id x) 0). }
  unfold recv_message. change (MQTT_MSG_TYPE_PUBLISH =? MQTT_MSG_TYPE_PUBLISH) with true. cbv iota. unfold pub_acks.
  assert (Hc : pb_qos x = 0 \/ pb_qos x = 1 \/ pb_qos x = 2) by lia.
  assert (K : forall type q (build := λ conn, ack_message type q conn (pb_id x)), 0 < pb_qos x ->
    exists conn q' cs', (queue_response build;; (len <- get message_length_read;; deliver_publish (pub_bytes x ++ rest) len)) w =
      Some (tt, mk_world ((cl w) <| mqtt_connection := conn |> <| outbound_message := true |> <| msgQueue := q' |>)
                         (trace w ++ if dataCb (cl w) then [pub_event x] else [])) /\
      client_ok ((cl w) <| mqtt_connection := conn |> <| outbound_message := true |> <| msgQueue := q' |>) cs' /\
      messages cs' = messages cs ++ [ack_packet type q (pb_id x)] /\ room cs - 10 <= room cs').
  { intros type q build Hp. destruct (A type q) as (conn & E & Hh). destruct (Hh Hp) as [H1 H2].
    destruct (queue_response_spec w cs build conn _ W E H1 H2) as (q' & cs' & E2 & _ & W' & Hm).
    pose proof (frame_len_le (ack_packet type q (pb_id x))) as Hf. change (zlen (ack_packet type q (pb_id x))) with 4 in Hf.
    exists conn, q', cs'. unfold sbind at 1. rewrite E2. unfold get. sm.
    match goal with |- context [deliver_publish _ ?l] => replace l with len by (symmetry; exact Hmr) end.
    rewrite deliver_publish_spec by done. split; [done|]. split; [done|]. revert Hm. ztrue (zlen (frame (ack_packet type q (pb_id x))) <=? room cs). intros [-> ->].
    split; [done|lia]. }
  destruct Hc as [E|[E|E]]; rewrite E; cbn [Z.eqb Z.ltb Pos.eqb Z.compare].
  - exists (mqtt_connection (cl w)), (outbound_message (cl w)), (msgQueue (cl w)), cs.
    unfold get. sm. rewrite Hmr, deliver_publish_spec by done. rewrite app_nil_r.
    split; [by destruct w as [[] ?]|]. split; [destruct W; by split|]. split; [done|lia].
  - destruct (K MQTT_MSG_TYPE_PUBACK 0) as (conn & q' & cs' & H); [lia|]. by exists conn, true, q', cs'.
  - destruct (K MQTT_MSG_TYPE_PUBREC 0) as (conn & q' & cs' & H); [lia|]. by exists conn, true, q', cs'.
Qed.

(** The received bytes overwrite the start of [in_buffer]. *)
Lemma in_buffer_written b bytes :
  zlen bytes <= zlen b -> bsplice b 0 bytes = Some (bytes ++ drop (Z.to_nat (zlen bytes)) b).
Proof. intros. pose proof (zlen_nonneg bytes). unfold bsplice. cbn [Z.leb Z.compare andb]. by ztrue (0 + zlen bytes <=? zlen b). Qed.

Definition after_packet (rest : list Z) : option (list Z * Z) :=
  match rest with [] => None | _ => Some (rest, zlen rest) end.

Lemma pub_bytes_ok x : pub_ok x -> Forall is_byte (pub_bytes x).
Proof. intros (_ & _ & _ & _ & ? & _ & ? & ?). unfold pub_bytes. apply publish_packet_bytes; assumption. Qed.

Lemma pub_bytes_len x : 2 <= zlen (pub_bytes x).
Proof.
  unfold pub_bytes, publish_packet. rewrite zlen_app, zlen_fixed_header.
  match goal with |- context [header_len ?n] => pose proof (header_len_le n) end.
  pose proof (zlen_nonneg (publish_body (pb_topic x) (pb_qos x) (pb_id x) (pb_data x))). lia.
Qed.

(** What one PUBLISH changes. *)
Definition received (w : world) (cs : list chunk) (x : publication) (c' : MQTT_Client) (cs' : list chunk) : Prop :=
  client_ok c' cs' /\ connState c' = connState (cl w) /\ dataCb c' = dataCb (cl w) /\
  keepAliveTick c' = keepAliveTick (cl w) /\ messages cs' = messages cs ++ pub_acks x /\ room cs - 10 <= room cs'.

Lemma recv_connected_publish w cs x rest tail :
  client_ok (cl w) cs -> pub_ok x -> 10 <= room cs -> zlen (pub_bytes x ++ rest) < MQTT_BUF_SIZE ->
  exists c' cs',
    recv_connected (pub_bytes x ++ rest) (zlen (pub_bytes x ++ rest)) MQTT_MSG_TYPE_PUBLISH (pb_qos x)
      (if 0 <? pb_qos x then pb_id x else 0) (pub_bytes x ++ rest ++ tail) w =
      Some (after_packet rest, mk_world c' (trace w ++ if dataCb (cl w) then [pub_event x] else [])) /\
    received w cs x c' cs'.
Proof.
  intros W Hx Hroom Hs. pose proof (pub_bytes_len x). pose proof (zlen_nonneg rest). pose proof (zlen_nonneg tail).
  set (len := zlen (pub_bytes x ++ rest)) in *. assert (Hz : len = zlen (pub_bytes x) + zlen rest) by apply zlen_app.
  assert (Ha : zlen (pub_bytes x ++ rest ++ tail) = len + zlen tail) by (rewrite !zlen_app; lia).
  destruct (pub_reads x (rest ++ tail) len Hx) as (_ & _ & L & _); [lia|lia|].
  set (c1 := (cl w) <| message_length_read := len |> <| message_length := u16 (zlen (pub_bytes x)) |>).
  assert (W1 : client_ok c1 cs) by (destruct W; by split).
  destruct (recv_message_publish (mk_world c1 (trace w)) cs x (rest ++ tail) len W1 Hx) as (conn & ob & q & cs' & E1 & W2 & Hm & Hr);
    [lia|lia|lia|done|].
  exists (c1 <| mqtt_connection := conn |> <| outbound_message := ob |> <| msgQueue := q |>), cs'.
  split; [|done]. unfold recv_connected, upd, get. slift_step L. unfold sbind at 1. sm. fold c1. unfold sbind at 1. rewrite E1.
  change (MQTT_MSG_TYPE_PUBLISH =? MQTT_MSG_TYPE_PUBLISH) with true. sm.
  cbn [cl trace]. set (c' := c1 <| mqtt_connection := conn |> <| outbound_message := ob |> <| msgQueue := q |>).
  change (message_length c') with (u16 (zlen (pub_bytes x))). change (message_length_read c') with len.
  unfold MQTT_BUF_SIZE in *. rewrite !u16_small by lia. unfold after_packet.
  destruct rest as [|r rest']; [rewrite zlen_nil in Hz; by zfalse (zlen (pub_bytes x) <? len)|].
  rewrite zlen_cons in Hz |- *. pose proof (zlen_nonneg rest'). ztrue (zlen (pub_bytes x) <? len).
  rewrite drop_zlen_app. unfold sret. replace (len - zlen (pub_bytes x)) with (1 + zlen rest') by lia. done.
Qed.

(** One round on a PUBLISH packet followed by [rest]. *)
Lemma recv_round_publish w cs x rest :
  client_ok (cl w) cs -> receiving (connState (cl w)) -> pub_ok x -> 10 <= room cs -> Forall is_byte rest ->
  zlen (pub_bytes x ++ rest) < MQTT_BUF_SIZE ->
  exists c' cs', recv_round (pub_bytes x ++ rest) (zlen (pub_bytes x ++ rest)) w =
      Some (after_packet rest, mk_world c' (trace w ++ if dataCb (cl w) then [pub_event x] else [])) /\
    received w cs x c' cs'.
Proof.
  intros W Hst Hx Hroom Hrest Hs. destruct (ck_in _ _ W) as (b & Eb & Hb & Hbb).
  pose proof (zlen_nonneg rest). pose proof (pub_bytes_len x). pose proof (zlen_app (pub_bytes x) rest) as Hz.
  set (len := zlen (pub_bytes x ++ rest)) in *.
  unfold recv_round, get, upd. ztrue (len <? MQTT_BUF_SIZE). ztrue (0 <? len). cbn [andb]. sm.
  rewrite Eb. sm. unfold len at 1. rewrite bslice_tab by (unfold len; lia). sm. rewrite tab_nthZ.
  rewrite in_buffer_written by (fold len; lia). sm. fold len. set (tail := drop (Z.to_nat len) b).
  rewrite <- (app_assoc _ rest tail).
  assert (Hall : zlen (pub_bytes x ++ rest ++ tail) = MQTT_BUF_SIZE) by (rewrite !zlen_app; unfold tail; rewrite zlen_drop; lia).
  destruct (pub_reads x (rest ++ tail) MQTT_BUF_SIZE Hx) as (T & Q & _ & _ & _ & I); [lia|lia|].
  rewrite rd_Some by (rewrite Hall; unfold MQTT_BUF_SIZE; lia). sm. rewrite T, Q.
  match goal with |- context [mqtt_get_id _ (u16 ?l)] => replace (u16 l) with MQTT_BUF_SIZE by (symmetry; cbn; rewrite (ck_inlen _ _ W); done) end.
  rewrite I. sm. set (c1 := (cl w) <| in_buffer := Some (pub_bytes x ++ rest ++ tail) |>).
  assert (W1 : client_ok c1 cs).
  { destruct W. split; try done. eexists. split; [done|]. split; [done|]. rewrite !Forall_app. split; [by apply pub_bytes_ok|].
    split; [done|]. by apply Forall_drop. }
  destruct (recv_connected_publish (mk_world c1 (trace w)) cs x rest tail W1 Hx Hroom Hs) as (c' & cs' & E & R).
  exists c', cs'. split; [|exact R]. change (connState _) with (connState (cl w)). by destruct Hst as [-> | ->].
Qed.

Lemma client_ok_tick c cs t : client_ok c cs -> client_ok (c <| keepAliveTick := t |>) cs.
Proof. intros []; by split. Qed.

Definition pub_stream (ps : list publication) : list Z := flat_map pub_bytes ps.

Lemma recv_rounds_publications ps : forall fuel w cs,
  client_ok (cl w) cs -> receiving (connState (cl w)) -> Forall pub_ok ps -> ps ≠ [] ->
  10 * zlen ps <= room cs -> zlen (pub_stream ps) < MQTT_BUF_SIZE -> (length ps <= fuel)%nat ->
  exists c' cs', recv_rounds fuel (pub_stream ps) (zlen (pub_stream ps)) w =
      Some (tt, mk_world c' (trace w ++ if dataCb (cl w) then map pub_event ps else [])) /\
    client_ok c' cs' /\ connState c' = connState (cl w) /\ keepAliveTick c' = keepAliveTick (cl w) /\
    messages cs' = messages cs ++ flat_map pub_acks ps.
Proof.
  induction ps as [|x ps IH]; intros fuel w cs W Hst Hok Hne Hroom Hs Hf; [done|].
  destruct fuel as [|fuel]; [simpl in Hf; lia|]. inversion_clear Hok as [|? ? Hx Hps].
  cbn [pub_stream flat_map] in *. fold (pub_stream ps) in *. rewrite zlen_cons in Hroom. pose proof (zlen_nonneg ps).
  assert (Hb : Forall is_byte (pub_stream ps)).
  { clear -Hps. induction Hps as [|y ps Hy _ IHp]; cbn; [done|]. apply Forall_app. split; [by apply pub_bytes_ok|done]. }
  destruct (recv_round_publish w cs x (pub_stream ps) W Hst Hx) as (c1 & cs1 & E & W1 & S1 & D1 & T1 & M1 & R1); [lia|done|done|].
  cbn [recv_rounds]. unfold sbind at 1. rewrite E. destruct ps as [|y ps].
  - exists c1, cs1. unfold after_packet; cbn [pub_stream flat_map]. unfold sret. cbn [map]. rewrite app_nil_r, T1, S1, M1. done.
  - assert (Hne' : pub_stream (y :: ps) ≠ []).
    { cbn [pub_stream flat_map]. pose proof (pub_bytes_len y). destruct (pub_bytes y); [rewrite zlen_nil in *; lia|done]. }
    assert (Ha : after_packet (pub_stream (y :: ps)) = Some (pub_stream (y :: ps), zlen (pub_stream (y :: ps)))).
    { unfold after_packet. by destruct (pub_stream (y :: ps)). }
    rewrite Ha. rewrite zlen_app in Hs. pose proof (pub_bytes_len x).
    destruct (IH fuel (mk_world c1 (trace w ++ if dataCb (cl w) then [pub_event x] else [])) cs1 W1) as (c2 & cs2 & E2 & W2 & S2 & T2 & M2);
      [cbn [cl]; by rewrite S1|done|done|lia|lia|simpl in *; lia|].
    exists c2, cs2. cbn [mbind option_bind]. rewrite E2. cbn [cl trace] in *. rewrite D1, <- app_assoc. split; [by destruct (dataCb (cl w))|].
    rewrite S2, S1, T2, T1, M2, M1, <- app_assoc. done.
Qed.

(** C35: a connected client that receives one or more PUBLISH packets in one
    segment of less than 1024 bytes delivers topic and payload of each, in order
    and unchanged, to the data callback, and queues for each of qos 1 and 2 the
    PUBACK or PUBREC with its identifier; it stays connected.  Each packet has a
    topic and a payload that are not empty and, for qos 1 and 2, an identifier
    that is not 0 ([pub_ok]; [mqtt_publish_empty_id] says what an empty payload
    does); and the queue has ten free bytes for each of them, the most one
    acknowledgement can take. *)
Theorem mqtt_recv_publications w cs ps fuel :
  client_ok (cl w) cs -> receiving (connState (cl w)) -> dataCb (cl w) = true -> Forall pub_ok ps -> ps ≠ [] ->
  10 * zlen ps <= room cs -> zlen (pub_stream ps) < MQTT_BUF_SIZE -> (length ps <= fuel)%nat ->
  exists c' cs', mqtt_tcpclient_recv fuel (pub_stream ps) (zlen (pub_stream ps)) w =
      Some (tt, mk_world c' (trace w ++ map pub_event ps ++ [EPost])) /\
    client_ok c' cs' /\ connState c' = connState (cl w) /\ keepAliveTick c' = 0 /\
    messages cs' = messages cs ++ flat_map pub_acks ps.
Proof.
  intros W Hst Hd Hok Hne Hroom Hs Hf.
  destruct (recv_rounds_publications ps fuel (mk_world ((cl w) <| keepAliveTick := 0 |>) (trace w)) cs) as (c' & cs' & E & W' & S & T & Hm);
    try done; [by apply client_ok_tick|].
  exists c', cs'. unfold mqtt_tcpclient_recv, upd, system_os_post, emit. sm. unfold sbind at 1. rewrite E. sm.
  unfold smod. cbn [cl trace] in *. change (dataCb (cl w) <| keepAliveTick := 0 |>) with (dataCb (cl w)). rewrite Hd, <- app_assoc. done.
Qed.

(** ** Any received bytes *)

Lemma deliver_publish_safe w b len :
  Forall is_byte b -> 0 <= len <= zlen b -> len < MQTT_BUF_SIZE -> length_terminated b len ->
  exists tr, deliver_publish b len w = Some (tt, mk_world (cl w) (trace w ++ tr)).
Proof.
  intros Hb Hlen Hs Ht. unfold MQTT_BUF_SIZE in *.
  destruct (publish_topic_safe b len Hb Hlen ltac:(lia) Ht) as ([t tl] & Et & _).
  destruct (publish_data_safe b len Hb Hlen ltac:(lia) Ht) as ([d dl] & Ed & _).
  unfold deliver_publish. rewrite u16_small by lia. slift_step Et. slift_step Ed. unfold get, emit. sm.
  destruct w as [c tr]. cbn [cl trace]. destruct (dataCb c); cbn [swhen]; [by eexists|].
  exists []. by rewrite app_nil_r.
Qed.

Lemma ping_holds type conn :
  conn_ok conn -> mc_buffer_length conn = MQTT_BUF_SIZE ->
  exists conn', fini_message (init_message conn) type 0 0 0 = Some conn' /\
    holds conn' (fixed_header type 0 0 0 0) /\ Forall is_byte (fixed_header type 0 0 0 0).
Proof.
  intros W Hl. destruct (building_init conn W) as [B S].
  destruct (fini_built _ _ type 0 0 0 B) as (c' & E & Hb & _). exists c'. split; [done|].
  pose proof (fini_message_keeps _ _ _ _ _ _ E) as K. unfold keeps in K. cbn in K.
  split; [|apply fixed_header_bytes; lia].
  rewrite <- (app_nil_r (fixed_header type 0 0 0 0)). eapply built_fits; [exact Hb|congruence|done|].
  unfold MQTT_BUF_SIZE. rewrite zlen_nil. lia.
Qed.

(** What every response keeps. *)
Definition kept (c c' : MQTT_Client) : Prop :=
  connState c' = connState c /\ message_length_read c' = message_length_read c /\ message_length c' = message_length c /\
  pCon c' = pCon c /\ security c' = security c.

Lemma queue_response_safe w cs build conn p :
  client_ok (cl w) cs -> build (mqtt_connection (cl w)) = Some conn -> holds conn p -> Forall is_byte p ->
  exists c' cs', queue_response build w = Some (tt, mk_world c' (trace w)) /\ client_ok c' cs' /\ kept (cl w) c'.
Proof.
  intros W E H1 H2. destruct (queue_response_spec w cs build conn p W E H1 H2) as (q & cs' & E2 & _ & W' & _).
  eexists _, cs'. split; [exact E2|]. done.
Qed.

Lemma recv_message_safe w cs ty q id b len :
  client_ok (cl w) cs -> is_u16 id -> Forall is_byte b -> 0 <= len <= zlen b -> len < MQTT_BUF_SIZE ->
  length_terminated b len -> message_length_read (cl w) = len ->
  exists c' tr cs', recv_message ty q id b w = Some (tt, mk_world c' (trace w ++ tr)) /\ client_ok c' cs' /\ kept (cl w) c'.
Proof.
  intros W Hid Hb Hlen Hs Ht Hr.
  assert (A : forall type qo, exists c' cs', queue_response (λ conn, ack_message type qo conn id) w = Some (tt, mk_world c' (trace w)) /\
    client_ok c' cs' /\ kept (cl w) c').
  { intros type qo. destruct (ack_packet_holds type qo _ id (ck_conn _ _ W) (ck_connlen _ _ W) Hid) as (conn & E & H1 & H2).
    by eapply queue_response_safe. }
  assert (D : forall c, message_length_read c = len ->
    exists tr, (len <- get message_length_read;; deliver_publish b len) (mk_world c (trace w)) = Some (tt, mk_world c (trace w ++ tr))).
  { intros c Hc. unfold get, sbind, sget. cbn [mbind option_bind cl]. rewrite Hc. apply (deliver_publish_safe (mk_world c (trace w))); done. }
  assert (N : exists c' tr cs', Some (tt, w) = Some (tt, mk_world c' (trace w ++ tr)) /\ client_ok c' cs' /\ kept (cl w) c').
  { exists (cl w), [], cs. rewrite app_nil_r. by destruct w. }
  assert (A' : forall m c' cs', m w = Some (tt, mk_world c' (trace w)) /\ client_ok c' cs' /\ kept (cl w) c' ->
    exists c' tr cs', m w = Some (tt, mk_world c' (trace w ++ tr)) /\ client_ok c' cs' /\ kept (cl w) c').
  { intros m c' cs' H. exists c', [], cs'. by rewrite app_nil_r. }
  unfold recv_message. destruct (ty =? MQTT_MSG_TYPE_PUBLISH).
  - destruct (q =? 1); [|destruct (q =? 2)].
    1: destruct (A MQTT_MSG_TYPE_PUBACK 0) as (c' & cs' & E & W' & K).
    2: destruct (A MQTT_MSG_TYPE_PUBREC 0) as (c' & cs' & E & W' & K).
    1, 2: destruct (D c') as [tr Hd]; [destruct K as (_ & -> & _); done|]; exists c', tr, cs'; split; [|done];
      unfold sbind at 1; (unfold mqtt_msg_puback || unfold mqtt_msg_pubrec); rewrite E; exact Hd.
    destruct (D (cl w) Hr) as [tr Hd]. exists (cl w), tr, cs. split; [|done]. destruct w. exact Hd.
  - destruct (ty =? MQTT_MSG_TYPE_PUBREC); [destruct (A MQTT_MSG_TYPE_PUBREL 1) as (c' & cs' & H); by apply (A' _ c' cs')|].
    destruct (ty =? MQTT_MSG_TYPE_PUBREL); [destruct (A MQTT_MSG_TYPE_PUBCOMP 0) as (c' & cs' & H); by apply (A' _ c' cs')|].
    destruct (ty =? MQTT_MSG_TYPE_PINGREQ); [|exact N].
    destruct (ping_holds MQTT_MSG_TYPE_PINGRESP _ (ck_conn _ _ W) (ck_connlen _ _ W)) as (conn & E & H1 & H2).
    destruct (queue_response_safe w cs mqtt_msg_pingresp conn _ W E H1 H2) as (c' & cs' & H). by apply (A' _ c' cs').
Qed.

Lemma total_length_local b b' len :
  len <= zlen b -> len <= zlen b' -> (forall i, 0 <= i < len -> nthZ b i = nthZ b' i) ->
  mqtt_get_total_length b len = mqtt_get_total_length b' len.
Proof.
  intros H1 H2 Hn. unfold mqtt_get_total_length.
  assert (S : forall fuel i t, 0 <= i -> remaining_loop fuel b len i t = remaining_loop fuel b' len i t).
  { induction fuel as [|fuel IH]; intros i t Hi; [done|]. cbn [remaining_loop]. destruct (Z.ltb_spec i len); [|done].
    rewrite !rd_Some, Hn by lia. cbn [mbind option_bind]. destruct (7 * (i - 1) <? 32); [|done]. cbn [mbind option_bind].
    destruct (int_ok (Z.shiftl _ _)); [|done]. cbn [mbind option_bind]. destruct (int_ok (t + _)); [|done]. cbn [mbind option_bind].
    by rewrite IH by lia. }
  by rewrite S by lia.
Qed.

(** The state after a round: a CONNACK may have connected the client. *)
Definition round_state (c c' : MQTT_Client) : Prop :=
  pCon c' = pCon c /\ security c' = security c /\
  (connState c' = connState c \/ connState c = MQTT_CONNECT_SENDING /\ connState c' = MQTT_DATA).

(** Where a round goes back to [READPACKET]; it does when it must. *)
Definition round_next (must : Prop) (pdata : list Z) (len : Z) (next : option (list Z * Z)) : Prop :=
  match next with
  | None => must -> forall total, mqtt_get_total_length pdata len = Some total -> len <= u16 total
  | Some (pd, l) => exists total, mqtt_get_total_length pdata len = Some total /\ u16 total < len /\
      pd = drop (Z.to_nat (u16 total)) pdata /\ l = len - u16 total
  end.

Lemma recv_connected_safe w cs pdata len ty q id b :
  client_ok (cl w) cs -> is_u16 id -> Forall is_byte b -> 0 <= len <= zlen b -> len < MQTT_BUF_SIZE ->
  length_terminated b len -> (forall total, mqtt_get_total_length b len = Some total -> mqtt_get_total_length pdata len = Some total) ->
  exists next c' tr cs', recv_connected pdata len ty q id b w = Some (next, mk_world c' (trace w ++ tr)) /\
    client_ok c' cs' /\ round_state (cl w) c' /\ round_next (ty = MQTT_MSG_TYPE_PUBLISH) pdata len next.
Proof.
  intros W Hid Hb Hlen Hs Ht Htot. destruct (total_length_safe b len Hb Hlen Ht) as (total & E & _).
  set (c1 := (cl w) <| message_length_read := len |> <| message_length := u16 total |>).
  assert (W1 : client_ok c1 cs) by (destruct W; by split).
  destruct (recv_message_safe (mk_world c1 (trace w)) cs ty q id b len W1 Hid Hb Hlen Hs Ht eq_refl) as (c' & tr & cs' & E1 & W' & K).
  destruct K as (K1 & K2 & K3 & K4 & K5). cbn [cl] in *. change (message_length_read c1) with len in K2. change (message_length c1) with (u16 total) in K3.
  assert (RS : round_state (cl w) c') by (split; [done|]; split; [done|by left]).
  unfold recv_connected, upd, get. slift_step E. unfold sbind at 1. sm. fold c1. unfold sbind at 1. rewrite E1. cbn [mbind option_bind].
  destruct (Z.eqb_spec ty MQTT_MSG_TYPE_PUBLISH) as [|Hne].
  2:{ exists None, c', tr, cs'. split; [done|]. split; [done|]. split; [done|]. intros He. by destruct Hne. }
  unfold sbind, sget. cbn [mbind option_bind cl]. rewrite K2, K3.
  destruct (Z.ltb_spec (u16 total) len).
  2:{ exists None, c', tr, cs'. split; [done|]. split; [done|]. split; [done|]. intros _ t Et. rewrite (Htot _ E) in Et. by injection Et as <-. }
  eexists (Some _), c', tr, cs'. split; [done|]. split; [done|]. split; [done|]. exists total.
  split; [by apply Htot|]. split; [done|]. split; [done|]. pose proof (u16_range total). unfold MQTT_BUF_SIZE in *. apply u16_small. lia.
Qed.

Lemma recv_connack_safe w cs ty :
  client_ok (cl w) cs ->
  exists c' tr, recv_connack ty w = Some (tt, mk_world c' (trace w ++ tr)) /\ client_ok c' cs /\
    pCon c' = pCon (cl w) /\ security c' = security (cl w) /\ (connState c' = connState (cl w) \/ connState c' = MQTT_DATA).
Proof.
  intros W. unfold recv_connack. destruct w as [c t]. cbn [cl trace] in *.
  destruct (ty =? MQTT_MSG_TYPE_CONNACK); [|exists c, []; rewrite app_nil_r; split; [done|]; split; [done|]; split; [done|]; split; [done|by left]].
  unfold get, upd, emit, tcp_disconnect, get. sm. cbn [cl].
  destruct (negb (pending_msg_type c =? MQTT_MSG_TYPE_CONNECT)).
  - eexists c, _. split; [done|]. split; [done|]. split; [done|]. split; [done|by left].
  - exists (c <| connState := MQTT_DATA |>), (if connectedCb c then [EConnectedCb] else []).
    assert (client_ok (c <| connState := MQTT_DATA |>) cs) by (destruct W; by split).
    sm. cbn [cl]. change (connectedCb c <| connState := MQTT_DATA |>) with (connectedCb c).
    destruct (connectedCb c); cbn [swhen]; unfold sret; rewrite ?app_nil_r;
      (split; [done|]; split; [done|]; split; [done|]; split; [done|by right]).
Qed.

(** The conditions under which a round looks for another packet. *)
Definition must_continue (c : MQTT_Client) (pdata : list Z) (len : Z) : Prop :=
  0 < len /\ len < MQTT_BUF_SIZE /\ receiving (connState c) /\ mqtt_get_type (nthZ pdata 0) = MQTT_MSG_TYPE_PUBLISH.

Lemma recv_round_safe w cs pdata len :
  client_ok (cl w) cs -> Forall is_byte pdata -> 0 <= len <= zlen pdata -> length_terminated pdata len ->
  exists next c' tr cs', recv_round pdata len w = Some (next, mk_world c' (trace w ++ tr)) /\
    client_ok c' cs' /\ round_state (cl w) c' /\ round_next (must_continue (cl w) pdata len) pdata len next.
Proof.
  intros W Hpd Hlen Ht. assert (R0 : round_state (cl w) (cl w)) by (split; [done|]; split; [done|by left]).
  destruct ((len <? MQTT_BUF_SIZE) && (0 <? len)) eqn:Eg.
  2:{ exists None, (cl w), [], cs. unfold recv_round. rewrite Eg, app_nil_r. split; [by destruct w|]. split; [done|]. split; [done|].
      intros (H0 & H1 & _). rewrite andb_false_iff, !Z.ltb_ge in Eg. lia. }
  pose proof Eg as Hs. rewrite andb_true_iff, !Z.ltb_lt in Hs. destruct (ck_in _ _ W) as (b & Eb & Hb & Hbb).
  set (b' := take (Z.to_nat len) pdata ++ drop (Z.to_nat len) b).
  assert (Hz : zlen (take (Z.to_nat len) pdata) = len) by (rewrite zlen_take; lia).
  assert (Hz' : zlen b' = MQTT_BUF_SIZE) by (unfold b'; rewrite zlen_app, zlen_drop; lia).
  assert (Hb' : Forall is_byte b') by (apply Forall_app; split; [by apply Forall_take|by apply Forall_drop]).
  assert (Hn : forall i, 0 <= i < len -> nthZ b' i = nthZ pdata i).
  { intros i Hi. unfold b'. rewrite nthZ_app, Hz by lia. ztrue (i <? len). apply nthZ_take. lia. }
  assert (Ht' : length_terminated b' len).
  { destruct Ht as (j & Hj & Hd). exists j. split; [done|]. destruct (Z.leb_spec len j); [by left|]. rewrite Hn by lia. tauto. }
  set (c1 := (cl w) <| in_buffer := Some b' |>). assert (W1 : client_ok c1 cs) by (destruct W; split; try done; by exists b').
  destruct (mqtt_get_id_safe b' MQTT_BUF_SIZE Hb') as (id & Ei & Hid); [rewrite Hz'; unfold MQTT_BUF_SIZE; lia|].
  unfold recv_round. rewrite Eg. unfold get, upd. sm. rewrite Eb. sm. rewrite bslice_tab by lia. sm.
  assert (Htab : tab len (nthZ pdata) = take (Z.to_nat len) pdata).
  { apply list_ext_nthZ; [rewrite Hz; zlia|]. intros i Hi. rewrite zlen_tab in Hi. rewrite nthZ_tab, nthZ_take by lia. done. }
  rewrite Htab. pose proof (in_buffer_written b (take (Z.to_nat len) pdata)) as Ew. rewrite Hz in Ew. rewrite Ew by lia. fold b'. sm.
  fold c1. rewrite rd_Some by (rewrite Hz'; unfold MQTT_BUF_SIZE; lia). sm.
  cbn [cl]. change (in_buffer_length c1) with (in_buffer_length (cl w)). rewrite (ck_inlen _ _ W). change (u16 MQTT_BUF_SIZE) with MQTT_BUF_SIZE.
  rewrite Ei. sm. cbn [cl]. change (connState c1) with (connState (cl w)).
  assert (N : ~ receiving (connState (cl w)) -> exists next c' tr cs', Some (None (A := list Z * Z), mk_world c1 (trace w)) = Some (next, mk_world c' (trace w ++ tr)) /\
    client_ok c' cs' /\ round_state (cl w) c' /\ round_next (must_continue (cl w) pdata len) pdata len next).
  { intros Hnr. exists None, c1, [], cs. rewrite app_nil_r. split; [done|]. split; [done|]. split; [done|]. intros (_ & _ & Hr & _). tauto. }
  assert (C : exists next c' tr cs', recv_connected pdata len (mqtt_get_type (nthZ b' 0)) (mqtt_get_qos (nthZ b' 0)) id b' (mk_world c1 (trace w)) =
      Some (next, mk_world c' (trace w ++ tr)) /\ client_ok c' cs' /\ round_state (cl w) c' /\ round_next (must_continue (cl w) pdata len) pdata len next).
  { destruct (recv_connected_safe (mk_world c1 (trace w)) cs pdata len (mqtt_get_type (nthZ b' 0)) (mqtt_get_qos (nthZ b' 0)) id b')
      as (next & c' & tr & cs' & E & W' & RS & RN); try done; [lia|lia| |].
    2:{ exists next, c', tr, cs'. split; [done|]. split; [done|]. split; [done|]. destruct next as [[]|]; [exact RN|].
        intros (_ & _ & _ & Hty). apply RN. rewrite Hn by lia. done. }
    intros total E. rewrite <- E. apply total_length_local; lia || (intros i Hi; symmetry; by apply Hn). }
  destruct (connState (cl w)) eqn:Est; try exact C; try (apply N; intros []; congruence).
  destruct (recv_connack_safe (mk_world c1 (trace w)) cs (mqtt_get_type (nthZ b' 0)) W1) as (c' & tr & E & W' & HS1 & HS2 & HS3).
  exists None, c', tr, cs. unfold sbind. rewrite E. split; [done|]. split; [done|]. split.
  - split; [done|]. split; [done|]. destruct HS3 as [HS3|HS3]; [left; by rewrite HS3|right; done].
  - intros (_ & _ & [] & _); congruence.
Qed.

(** The rounds on [len] bytes end: every PUBLISH followed by more bytes has a
    nonzero length modulo 2^16, and lengths take at most four bytes. *)
Inductive recv_fine : list Z -> Z -> Prop :=
| recv_fine_intro pdata len :
    length_terminated pdata len ->
    (forall total, mqtt_get_total_length pdata len = Some total -> u16 total < len -> 0 < u16 total) ->
    (forall total, mqtt_get_total_length pdata len = Some total -> u16 total < len ->
       recv_fine (drop (Z.to_nat (u16 total)) pdata) (len - u16 total)) ->
    recv_fine pdata len.

Lemma round_state_trans c1 c2 c3 : round_state c1 c2 -> round_state c2 c3 -> round_state c1 c3.
Proof. intros (E1 & F1 & D1) (E2 & F2 & D2). unfold round_state. rewrite E2, F2. split; [done|]. split; [done|].
  destruct D1 as [D1|[D1 D1']], D2 as [D2|[D2 D2']]; [left|right|right|]; split || idtac; congruence.
Qed.

Lemma recv_rounds_safe fuel : forall w cs pdata len,
  client_ok (cl w) cs -> Forall is_byte pdata -> 0 <= len <= zlen pdata -> recv_fine pdata len -> (Z.to_nat len < fuel)%nat ->
  exists c' tr cs', recv_rounds fuel pdata len w = Some (tt, mk_world c' (trace w ++ tr)) /\
    client_ok c' cs' /\ round_state (cl w) c'.
Proof.
  induction fuel as [|fuel IH]; intros w cs pdata len W Hb Hlen Hfine Hf; [lia|].
  inversion_clear Hfine as [? ? Ht Hpos Hnext]. cbn [recv_rounds].
  destruct (recv_round_safe w cs pdata len W Hb Hlen Ht) as (next & c1 & tr & cs1 & E & W1 & R1 & N).
  unfold sbind at 1. rewrite E. cbn [mbind option_bind].
  destruct next as [[pd l]|]; [|by exists c1, tr, cs1].
  destruct N as (total & Et & Hl & -> & ->). pose proof (Hpos total Et Hl). pose proof (Hnext total Et Hl) as Hfine'.
  destruct (IH (mk_world c1 (trace w ++ tr)) cs1 (drop (Z.to_nat (u16 total)) pdata) (len - u16 total) W1) as (c2 & tr2 & cs2 & E2 & W2 & R2);
    [by apply Forall_drop|rewrite zlen_drop; lia|done|lia|].
  exists c2, (tr ++ tr2), cs2. rewrite app_assoc. split; [exact E2|]. split; [done|].
  by apply (round_state_trans _ c1).
Qed.

(** A PUBLISH whose header announces 65532 more bytes: its total length is 0
    modulo 2^16, the width of [message_length]. *)
Definition zero_length_packet (body : list Z) : list Z := [0x30; 0xFC; 0xFF; 0x03] ++ body.

Lemma zero_length_total body :
  mqtt_get_total_length (zero_length_packet body) (zlen (zero_length_packet body)) = Some 65536.
Proof.
  pose proof (zlen_nonneg body). assert (Hz : zlen (zero_length_packet body) = 4 + zlen body) by (unfold zero_length_packet; zlia).
  unfold mqtt_get_total_length. destruct (Z.to_nat _ + 1)%nat as [|[|[|[|fuel]]]] eqn:Ef; try lia.
  rewrite (remaining_loop_step _ _ _ _ _ 0xFC) by (lia || reflexivity || (unfold is_byte; lia)).
  change (Z.land 0xFC 128 =? 0) with false. cbv zeta iota. change (0 + _) with 124. change (1 + 1) with 2.
  rewrite (remaining_loop_step _ _ _ _ _ 0xFF) by (lia || reflexivity || (unfold is_byte; lia)).
  change (Z.land 0xFF 128 =? 0) with false. cbv zeta iota. change (124 + _) with 16380. change (2 + 1) with 3.
  rewrite (remaining_loop_step _ _ _ _ _ 0x03) by (lia || reflexivity || (unfold is_byte; lia)). reflexivity.
Qed.

Lemma endless_round w cs body :
  client_ok (cl w) cs -> receiving (connState (cl w)) -> Forall is_byte body -> 4 + zlen body < MQTT_BUF_SIZE ->
  let pk := zero_length_packet body in
  exists w' cs', recv_round pk (zlen pk) w = Some (Some (pk, zlen pk), w') /\
     client_ok (cl w') cs' /\ connState (cl w') = connState (cl w).
Proof.
  intros W Hst Hb Hs pk. pose proof (zlen_nonneg body). assert (Hz : zlen pk = 4 + zlen body) by (unfold pk, zero_length_packet; zlia).
  assert (Hpk : Forall is_byte pk) by (apply Forall_app; split; [repeat constructor; done|done]).
  destruct (recv_round_safe w cs pk (zlen pk) W Hpk) as (next & c' & tr & cs' & E & W' & (_ & _ & R) & N); [lia| |].
  { exists 3. split; [lia|]. right. done. }
  exists (mk_world c' (trace w ++ tr)), cs'. rewrite E. split; [|split; [exact W'|]].
  - do 2 f_equal. destruct next as [[pd l]|].
    + destruct N as (total & Et & _ & -> & ->). rewrite (zero_length_total body : _ pk (zlen pk) = _) in Et. injection Et as <-.
      change (u16 65536) with 0. rewrite Z.sub_0_r. done.
    + exfalso. assert (Hmust : must_continue (cl w) pk (zlen pk)) by (split; [lia|]; split; [lia|]; done).
      specialize (N Hmust _ (zero_length_total body)).
      change (u16 65536) with 0 in N. fold pk in N. lia.
  - cbn [cl]. destruct R as [R|[R _]]; [done|]. destruct Hst; congruence.
Qed.

(** C40: after a PUBLISH header whose total length is 65536 the receive callback
    jumps back to [READPACKET] with the same data for ever: every round is
    defined and ends where it began, so no number of rounds is enough. *)
Theorem mqtt_recv_endless w cs body :
  client_ok (cl w) cs -> receiving (connState (cl w)) -> Forall is_byte body -> 4 + zlen body < MQTT_BUF_SIZE ->
  let pk := zero_length_packet body in
  (exists w', recv_round pk (zlen pk) w = Some (Some (pk, zlen pk), w')) /\
  forall fuel, mqtt_tcpclient_recv fuel pk (zlen pk) w = None.
Proof.
  intros W Hst Hb Hs pk. split; [destruct (endless_round w cs body W Hst Hb Hs) as (w' & _ & E & _); eauto|].
  assert (L : forall fuel w cs, client_ok (cl w) cs -> receiving (connState (cl w)) -> recv_rounds fuel pk (zlen pk) w = None).
  { induction fuel as [|fuel IH]; intros w0 cs0 W0 S0; [done|]. cbn [recv_rounds].
    destruct (endless_round w0 cs0 body W0 S0 Hb Hs) as (w' & cs' & E & W' & S'). unfold sbind. fold pk in E. rewrite E.
    cbn [mbind option_bind]. apply (IH w' cs' W'). by rewrite S'. }
  intros fuel. unfold mqtt_tcpclient_recv, upd. sm. unfold sbind at 1. rewrite (L fuel _ cs); [done|by apply client_ok_tick|done].
Qed.

(** ** The one-second timer *)

Fixpoint ticks (n : nat) : M unit := match n with O => sret tt | S n => mqtt_timer ;; ticks n end.

(** Evaluate straight-line code of the client. *)
Ltac run_client :=
  unfold tcp_connect, tcp_disconnect, system_os_post; unfold get, upd, emit, swhen, sbind, sget, smod, sret, slift;
  cbn [mbind option_bind cl trace].

Definition dec_timeout (s : Z) : Z := if 0 <? s then s - 1 else s.

Lemma timer_data c tr :
  connState c = MQTT_DATA -> connect_info_ptr c = true ->
  let t := u32 (keepAliveTick c + 1) in
  let c' := c <| keepAliveTick := t |> <| sendTimeout := dec_timeout (sendTimeout c) |> in
  mqtt_timer (mk_world c tr) = Some (tt,
    if u32 (keepalive (connect_info c)) <? t
    then mk_world (c' <| connState := MQTT_KEEPALIVE_SEND |>) (tr ++ [EPost]) else mk_world c' tr).
Proof.
  intros St Hp t c'. unfold mqtt_timer. run_client. rewrite St. run_client. cbn. rewrite Hp. cbn.
  unfold c', t, dec_timeout. destruct (u32 (keepalive (connect_info c)) <? _); cbn; destruct (0 <? sendTimeout c) eqn:E; cbn; rewrite ?E; destruct c; done.
Qed.

Lemma timer_reconnect c tr :
  connState c = TCP_RECONNECT_REQ ->
  let t := u32 (reconnectTick c + 1) in
  let s := dec_timeout (sendTimeout c) in
  mqtt_timer (mk_world c tr) = Some (tt,
    if MQTT_RECONNECT_TIMEOUT <? t
    then mk_world (c <| reconnectTick := 0 |> <| connState := TCP_RECONNECT |> <| sendTimeout := s |>)
           (tr ++ EPost :: if timeoutCb c then [ETimeoutCb] else [])
    else mk_world (c <| reconnectTick := t |> <| sendTimeout := s |>) tr).
Proof.
  intros St t s. unfold mqtt_timer. run_client. rewrite St. run_client. cbn.
  unfold t, s, dec_timeout. destruct (MQTT_RECONNECT_TIMEOUT <? _); cbn; [destruct (timeoutCb c) eqn:Ec; cbn|];
    destruct (0 <? sendTimeout c) eqn:E; cbn; rewrite ?E, <- ?app_assoc; destruct c; done.
Qed.

Lemma ticks_data n : forall c tr,
  connState c = MQTT_DATA -> connect_info_ptr c = true -> 0 <= keepAliveTick c -> 0 <= sendTimeout c ->
  keepAliveTick c + Z.of_nat n <= u32 (keepalive (connect_info c)) ->
  exists c', ticks n (mk_world c tr) = Some (tt, mk_world c' tr) /\ connState c' = MQTT_DATA /\ connect_info_ptr c' = true /\
    connect_info c' = connect_info c /\ keepAliveTick c' = keepAliveTick c + Z.of_nat n /\
    sendTimeout c' = Z.max 0 (sendTimeout c - Z.of_nat n).
Proof.
  induction n as [|n IH]; intros c tr St Hp Ht Hs Hk.
  { exists c. split; [done|]. repeat split; try done; lia. }
  pose proof (u32_range (keepalive (connect_info c))). cbn [ticks]. unfold sbind. rewrite timer_data by done.
  rewrite (u32_small (keepAliveTick c + 1)) by lia. zfalse (u32 (keepalive (connect_info c)) <? keepAliveTick c + 1). cbn [mbind option_bind].
  set (c1 := c <| keepAliveTick := keepAliveTick c + 1 |> <| sendTimeout := dec_timeout (sendTimeout c) |>).
  assert (Hd : dec_timeout (sendTimeout c) = Z.max 0 (sendTimeout c - 1)) by (unfold dec_timeout; zbool; lia).
  assert (T1 : keepAliveTick c1 = keepAliveTick c + 1) by done. assert (S1 : sendTimeout c1 = dec_timeout (sendTimeout c)) by done.
  destruct (IH c1 tr St Hp) as (c' & E & St' & Hp' & Hi' & Ht' & Hs');
    [lia|lia|change (connect_info c1) with (connect_info c); lia|].
  exists c'. split; [exact E|]. repeat split; try done; lia.
Qed.

(** A connected client without traffic stays connected for [keepalive]
    seconds, its send timeout counting down to zero, and at the next tick of the
    timer asks the task for a keep-alive. *)
Theorem mqtt_timer_keepalive c tr :
  connState c = MQTT_DATA -> connect_info_ptr c = true -> keepAliveTick c = 0 -> 0 <= sendTimeout c ->
  0 <= keepalive (connect_info c) < 2147483648 ->
  (forall n, Z.of_nat n <= keepalive (connect_info c) ->
     exists c', ticks n (mk_world c tr) = Some (tt, mk_world c' tr) /\ connState c' = MQTT_DATA /\
       sendTimeout c' = Z.max 0 (sendTimeout c - Z.of_nat n)) /\
  exists c', (ticks (Z.to_nat (keepalive (connect_info c)));; mqtt_timer) (mk_world c tr) =
      Some (tt, mk_world c' (tr ++ [EPost])) /\ connState c' = MQTT_KEEPALIVE_SEND.
Proof.
  intros St Hp Ht Hs Hk. assert (Hu : u32 (keepalive (connect_info c)) = keepalive (connect_info c)) by (apply u32_small; lia).
  split.
  - intros n Hn. destruct (ticks_data n c tr) as (c' & E & St' & _ & _ & _ & Hs'); try done; [lia|rewrite Hu; lia|]. eauto.
  - destruct (ticks_data (Z.to_nat (keepalive (connect_info c))) c tr) as (c' & E & St' & Hp' & Hi' & Ht' & _); try done; [lia|rewrite Hu; lia|].
    unfold sbind. rewrite E. cbn [mbind option_bind]. rewrite timer_data by done. rewrite Hi', Hu, Ht', Ht, u32_small by lia.
    ztrue (keepalive (connect_info c) <? 0 + Z.of_nat (Z.to_nat (keepalive (connect_info c))) + 1). eexists; split; done.
Qed.

Lemma mqtt_tcpclient_delete_run c tr :
  mqtt_tcpclient_delete (mk_world c tr) =
  Some (tt, mk_world (c <| pCon := None |>) (tr ++ match pCon c with Some _ => [EDelete] | None => [] end)).
Proof.
  unfold mqtt_tcpclient_delete. run_client. destruct (pCon c) eqn:E; cbn; [done|]. rewrite app_nil_r. destruct c. cbn in E. by subst.
Qed.

(** The event that starts a connection to host [h]. *)
Definition connect_event (ok sec : Z) (h : list Z) : event :=
  if negb (ok =? 0) then EConnect (negb (sec =? 0)) else EGetHostByName h.

(** The events of a new connection to host [h], [old] the control block so far. *)
Definition connect_events (old : option espconn) (ok sec : Z) (h : list Z) : list event :=
  match old with Some _ => [EDelete] | None => [] end ++ [ERegisterCallbacks; ETimerDisarm; ETimerArm; connect_event ok sec h].

Lemma MQTT_Connect_run eport c tr h addr ok :
  host c = Some h -> UTILS_StrToIP (h ++ [0]) [0; 0; 0; 0] = Some (addr, ok) ->
  exists c', MQTT_Connect eport (mk_world c tr) = Some (tt, mk_world c' (tr ++ connect_events (pCon c) ok (security c) h)) /\
    connState c' = TCP_CONNECTING /\ pCon c' = Some (mk_espconn eport (port c) addr) /\
    keepAliveTick c' = 0 /\ reconnectTick c' = 0.
Proof.
  intros Hh Ha. unfold MQTT_Connect. unfold sbind at 1. rewrite mqtt_tcpclient_delete_run. run_client. cbn -[UTILS_StrToIP].
  rewrite Hh. cbn -[UTILS_StrToIP]. rewrite Ha. cbn. unfold connect_events, connect_event.
  destruct (negb (ok =? 0)); cbn; eexists; rewrite <- !app_assoc; split; done.
Qed.

(** What a tick keeps while the client waits to reconnect. *)
Definition same_conn (c c' : MQTT_Client) : Prop :=
  host c' = host c /\ port c' = port c /\ security c' = security c /\ timeoutCb c' = timeoutCb c /\ pCon c' = pCon c.

Lemma ticks_reconnect n : forall c tr,
  connState c = TCP_RECONNECT_REQ -> 0 <= reconnectTick c -> reconnectTick c + Z.of_nat n <= MQTT_RECONNECT_TIMEOUT ->
  exists c', ticks n (mk_world c tr) = Some (tt, mk_world c' tr) /\ connState c' = TCP_RECONNECT_REQ /\
    reconnectTick c' = reconnectTick c + Z.of_nat n /\ same_conn c c'.
Proof.
  unfold MQTT_RECONNECT_TIMEOUT. induction n as [|n IH]; intros c tr St H0 Hn.
  { exists c. split; [done|]. split; [done|]. split; [lia|done]. }
  cbn [ticks]. unfold sbind. rewrite timer_reconnect by done. rewrite u32_small by lia.
  unfold MQTT_RECONNECT_TIMEOUT. zfalse (5 <? reconnectTick c + 1). cbn [mbind option_bind].
  set (c1 := c <| reconnectTick := reconnectTick c + 1 |> <| sendTimeout := dec_timeout (sendTimeout c) |>).
  assert (T1 : reconnectTick c1 = reconnectTick c + 1) by done.
  destruct (IH c1 tr St) as (c' & E & St' & Ht' & S'); [lia|lia|].
  exists c'. split; [exact E|]. split; [done|]. split; [lia|exact S'].
Qed.

Lemma ticks_snoc n w : ticks (S n) w = (ticks n;; mqtt_timer) w.
Proof.
  revert w. induction n as [|n IH]; intros w; [cbn [ticks]; unfold sbind, sret; cbn [mbind option_bind]; by destruct (mqtt_timer w) as [[[] ?]|]|].
  change ((mqtt_timer;; ticks (S n)) w = ((mqtt_timer;; ticks n);; mqtt_timer) w).
  transitivity ((mqtt_timer;; (ticks n;; mqtt_timer)) w); unfold sbind; destruct (mqtt_timer w) as [[[] w1]|]; try done. exact (IH w1).
Qed.


(** ** The connection state machine *)

(** Code that never changes [connState]. *)
Definition state_kept {A} (m : M A) : Prop := forall w a w', m w = Some (a, w') -> connState (cl w') = connState (cl w).

Lemma kept_ret {A} (a : A) : state_kept (sret a).
Proof. intros w b w' [= <- <-]. done. Qed.
Lemma kept_get {A} (f : MQTT_Client -> A) : state_kept (get f).
Proof. intros w b w' [= <- <-]. done. Qed.
Lemma kept_lift {A} (o : option A) : state_kept (slift o).
Proof. intros w b w'. unfold slift. destruct o; [intros [= <- <-]; done|done]. Qed.
Lemma kept_emit e : state_kept (emit e).
Proof. intros w b w' [= <- <-]. done. Qed.
Lemma kept_upd f : (forall c, connState (f c) = connState c) -> state_kept (upd f).
Proof. intros H w b w' [= <- <-]. apply H. Qed.
Lemma kept_bind {A B} (m : M A) (k : A -> M B) : state_kept m -> (forall a, state_kept (k a)) -> state_kept (sbind m k).
Proof.
  intros Hm Hk w b w'. unfold sbind. destruct (m w) as [[a w1]|] eqn:E; [|done]. cbn [mbind option_bind]. intros E2.
  rewrite (Hk _ _ _ _ E2). by apply (Hm _ _ _ E).
Qed.
Lemma kept_when b m : state_kept m -> state_kept (swhen b m).
Proof. destruct b; [done|intros _; apply kept_ret]. Qed.

Create HintDb kept.
#[export] Hint Resolve @kept_ret @kept_get @kept_lift kept_emit kept_when : kept.
#[export] Hint Extern 1 (state_kept (upd _)) => apply kept_upd; done : kept.

Ltac kept :=
  repeat first
    [ solve [auto with kept]
    | apply kept_bind; [|intros ?]
    | match goal with
      | |- state_kept (match ?x with _ => _ end) => destruct x
      | |- state_kept (swhen _ _) => apply kept_when
      end ].

Lemma tcp_connect_kept : state_kept tcp_connect. Proof. unfold tcp_connect. kept. Qed.
Lemma tcp_disconnect_kept : state_kept tcp_disconnect. Proof. unfold tcp_disconnect. kept. Qed.
Lemma tcp_send_kept d n : state_kept (tcp_send d n). Proof. unfold tcp_send. kept. Qed.
Lemma post_kept : state_kept system_os_post. Proof. apply kept_emit. Qed.
#[export] Hint Resolve tcp_connect_kept tcp_disconnect_kept tcp_send_kept post_kept : kept.

Lemma delete_kept : state_kept mqtt_tcpclient_delete. Proof. unfold mqtt_tcpclient_delete. kept. Qed.
Lemma client_delete_kept : state_kept mqtt_client_delete.
Proof. unfold mqtt_client_delete. apply kept_bind; [apply delete_kept|intros _]. kept. Qed.
Lemma queue_response_kept b : state_kept (queue_response b). Proof. unfold queue_response. kept. Qed.
Lemma deliver_publish_kept m n : state_kept (deliver_publish m n). Proof. unfold deliver_publish. kept. Qed.
#[export] Hint Resolve delete_kept client_delete_kept queue_response_kept deliver_publish_kept : kept.
Lemma recv_message_kept t q i b : state_kept (recv_message t q i b). Proof. unfold recv_message. kept. Qed.
#[export] Hint Resolve recv_message_kept : kept.
Lemma recv_connected_kept p n t q i b : state_kept (recv_connected p n t q i b). Proof. unfold recv_connected. kept. Qed.
#[export] Hint Resolve recv_connected_kept : kept.
Lemma enqueue_kept p0 c0 fuel d n b l : state_kept (enqueue p0 c0 fuel d n b l).
Proof. revert b l. induction fuel as [|fuel IH]; intros b l; cbn [enqueue]; kept. Qed.
#[export] Hint Resolve enqueue_kept : kept.
Lemma enqueue_outbound_kept p0 c0 st l : state_kept (enqueue_outbound p0 c0 st l). Proof. unfold enqueue_outbound. kept. Qed.
#[export] Hint Resolve enqueue_outbound_kept : kept.

(** Everything that can happen to an initialised client.  [result] is the SDK's
    answer to a keep-alive. *)
Inductive input :=
| IDns (ipaddr : option (list Z)) | IRecv (pdata : list Z) (len : Z) | ISent | ITimer | IDisconnected | IConnected | IReconnect
| IPublish (topic : option (list Z)) (data : list Z) (data_length qos retain : Z) | ISubscribe (topic : option (list Z)) (qos : Z)
| IUnSubscribe (topic : option (list Z)) | IPing | ITask (result : Z)
| IConnectReq | IDisconnectReq | IDeleteReq.

Section Machine.
Variables (proto0 : PROTO_PARSER) (c0 : Z) (stack : list Z) (len0 eport : Z).

(** The handler that runs; [len + 1] rounds are enough for [len] bytes. *)
Definition handle (i : input) : M unit :=
  match i with
  | IDns a => mqtt_dns_found a
  | IRecv pdata len => mqtt_tcpclient_recv (Z.to_nat len + 1) pdata len
  | ISent => mqtt_tcpclient_sent_cb
  | ITimer => mqtt_timer
  | IDisconnected => mqtt_tcpclient_discon_cb
  | IConnected => mqtt_tcpclient_connect_cb
  | IReconnect => mqtt_tcpclient_recon_cb
  | IPublish t d n q r => _ <- MQTT_Publish proto0 c0 stack len0 t d n q r ;; sret tt
  | ISubscribe t q => _ <- MQTT_Subscribe proto0 c0 stack len0 t q ;; sret tt
  | IUnSubscribe t => _ <- MQTT_UnSubscribe proto0 c0 stack len0 t ;; sret tt
  | IPing => _ <- MQTT_Ping proto0 c0 stack len0 ;; sret tt
  | ITask result => MQTT_Task proto0 c0 stack len0 eport result
  | IConnectReq => MQTT_Connect eport
  | IDisconnectReq => MQTT_Disconnect
  | IDeleteReq => MQTT_DeleteClient
  end.

(** The transitions of [connState]. *)
Definition edge (i : input) (old new : tConnState) : Prop :=
  match i with
  | IDns None => new = TCP_RECONNECT_REQ
  | IDns (Some _) => new = old \/ new = TCP_CONNECTING
  | IRecv pdata len =>
      new = old \/ old = MQTT_CONNECT_SENDING /\ new = MQTT_DATA /\ 0 < len < MQTT_BUF_SIZE /\
                   mqtt_get_type (nthZ pdata 0) = MQTT_MSG_TYPE_CONNACK
  | ITimer =>
      new = old \/ old = MQTT_DATA /\ new = MQTT_KEEPALIVE_SEND \/ old = TCP_RECONNECT_REQ /\ new = TCP_RECONNECT
  | IDisconnected =>
      new = match old with TCP_DISCONNECTING => TCP_DISCONNECTED | MQTT_DELETING => MQTT_DELETED | _ => TCP_RECONNECT_REQ end
  | IConnected => new = MQTT_CONNECT_SENDING
  | IReconnect => new = TCP_RECONNECT_REQ
  | ITask result =>
      new = match old with
            | TCP_RECONNECT => TCP_CONNECTING
            | MQTT_KEEPALIVE_SEND => if result =? 0 then MQTT_DATA else TCP_RECONNECT_DISCONNECTING
            | s => s end
  | IConnectReq => new = TCP_CONNECTING
  | IDisconnectReq => new = TCP_DISCONNECTING
  | IDeleteReq => new = MQTT_DELETING
  | ISent | IPublish _ _ _ _ _ | ISubscribe _ _ | IUnSubscribe _ | IPing => new = old
  end.

Lemma publish_kept t d n q r : state_kept (MQTT_Publish proto0 c0 stack len0 t d n q r). Proof. unfold MQTT_Publish. kept. Qed.
Lemma subscribe_kept t q : state_kept (MQTT_Subscribe proto0 c0 stack len0 t q). Proof. unfold MQTT_Subscribe. kept. Qed.
Lemma unsubscribe_kept t : state_kept (MQTT_UnSubscribe proto0 c0 stack len0 t). Proof. unfold MQTT_UnSubscribe. kept. Qed.
Lemma ping_kept : state_kept (MQTT_Ping proto0 c0 stack len0). Proof. unfold MQTT_Ping. kept. Qed.
Lemma sent_kept : state_kept mqtt_tcpclient_sent_cb. Proof. unfold mqtt_tcpclient_sent_cb. kept. Qed.

Lemma sbind_inv {A B} (m : M A) (k : A -> M B) w b w' :
  sbind m k w = Some (b, w') -> exists a w1, m w = Some (a, w1) /\ k a w1 = Some (b, w').
Proof. unfold sbind. destruct (m w) as [[a w1]|]; [|done]. cbn. eauto. Qed.
Lemma lift_inv {A} (o : option A) (w : world) a w' : slift o w = Some (a, w') -> o = Some a /\ w' = w.
Proof. unfold slift. destruct o; [|done]. cbn. by intros [= <- <-]. Qed.

(** Take the next step of a run apart; [x] is what it answers, [E] why. *)
Ltac next_step H x E :=
  let w1 := fresh "w" in apply sbind_inv in H as (x & w1 & E & H);
  first [apply lift_inv in E as [E ->] | injection E as <- <- | idtac].

Lemma recv_connack_edge ty w w' :
  recv_connack ty w = Some (tt, w') ->
  connState (cl w') = connState (cl w) \/ connState (cl w') = MQTT_DATA /\ ty = MQTT_MSG_TYPE_CONNACK.
Proof.
  unfold recv_connack. destruct (Z.eqb_spec ty MQTT_MSG_TYPE_CONNACK) as [->|]; [|intros [= <-]; by left].
  intros H. next_step H pend E.
  destruct (negb _); [left; by apply (tcp_disconnect_kept _ _ _ H)|].
  next_step H u E. right. split; [|done].
  next_step H cb E.
  assert (K : state_kept (swhen (connectedCb (cl (mk_world ((cl w) <| connState := MQTT_DATA |>) (trace w)))) (emit EConnectedCb))) by kept.
  by rewrite (K _ _ _ H).
Qed.

Lemma recv_round_edge pdata len w next w' :
  recv_round pdata len w = Some (next, w') ->
  connState (cl w') = connState (cl w) /\ (connState (cl w) = MQTT_CONNECT_SENDING -> next = None) \/
  connState (cl w) = MQTT_CONNECT_SENDING /\ connState (cl w') = MQTT_DATA /\ next = None /\ 0 < len < MQTT_BUF_SIZE /\
    mqtt_get_type (nthZ pdata 0) = MQTT_MSG_TYPE_CONNACK.
Proof.
  unfold recv_round. destruct ((len <? MQTT_BUF_SIZE) && (0 <? len)) eqn:Eg; [|intros [= <- <-]; left; done].
  rewrite andb_true_iff, !Z.ltb_lt in Eg. intros H.
  next_step H ob E.
  next_step H b Eb.
  next_step H bytes Es.
  next_step H b' Ep.
  next_step H u E.
  next_step H b0 Er.
  next_step H n E.
  next_step H mid Ei.
  next_step H st E. cbn [cl] in H.
  change (connState (cl w) <| in_buffer := Some b' |>) with (connState (cl w)) in H.
  assert (H0 : b0 = nthZ pdata 0).
  { apply bsplice_inv in Ep as (_ & Hl & Hz & Hn). pose proof (zlen_nonneg b). unfold bslice in Es.
    destruct ((0 <=? 0) && (0 <=? len) && (0 + len <=? zlen pdata)) eqn:E2; [|done].
    rewrite !andb_true_iff, !Z.leb_le in E2. injection Es as <-. rewrite drop_0 in Hl, Hn. rewrite zlen_take in Hl, Hn.
    unfold rd in Er. destruct ((0 <=? 0) && (0 <? zlen b')); [|done]. injection Er as <-. rewrite Hn by lia. ztrue (0 <=? 0). ztrue (0 <? 0 + Z.max 0 (Z.min len (zlen pdata))). cbn [andb]. apply nthZ_take. lia. }
  destruct (connState (cl w)) eqn:Est; try (injection H as <- <-; left; done).
  - apply sbind_inv in H as (u' & w1 & E & H). injection H as <- <-. destruct u'. apply recv_connack_edge in E.
    rewrite H0 in E. cbn [cl] in E. change (connState (cl w) <| in_buffer := Some b' |>) with (connState (cl w)) in E.
    destruct E as [E|[E Hty]]; [left; by rewrite E, Est|right].
    split; [done|]. split; [done|]. split; [done|]. split; [lia|done].
  - left. split; [|done]. rewrite (recv_connected_kept _ _ _ _ _ _ _ _ _ H). done.
  - left. split; [|done]. rewrite (recv_connected_kept _ _ _ _ _ _ _ _ _ H). done.
Qed.

Lemma recv_rounds_edge fuel : forall pdata len w w',
  recv_rounds fuel pdata len w = Some (tt, w') ->
  connState (cl w') = connState (cl w) \/
  connState (cl w) = MQTT_CONNECT_SENDING /\ connState (cl w') = MQTT_DATA /\ 0 < len < MQTT_BUF_SIZE /\
    mqtt_get_type (nthZ pdata 0) = MQTT_MSG_TYPE_CONNACK.
Proof.
  induction fuel as [|fuel IH]; intros pdata len w w' H; [done|]. cbn [recv_rounds] in H.
  apply sbind_inv in H as (next & w1 & E & H).
  destruct (recv_round_edge _ _ _ _ _ E) as [[Es Hn]|(Es & Ed & -> & Hr)]; [|right; by injection H as <-].
  destruct next as [[pd l]|]; [|left; by injection H as <-].
  destruct (IH _ _ _ _ H) as [E2|(E2 & _)]; [left; congruence|]. rewrite Es in E2. by specialize (Hn E2).
Qed.

Lemma keepalive_edge result w w' :
  mqtt_send_keepalive result w = Some (tt, w') ->
  connState (cl w') = if result =? 0 then MQTT_DATA else TCP_RECONNECT_DISCONNECTING.
Proof.
  unfold mqtt_send_keepalive. intros H.
  next_step H conn E. next_step H conn' E2. next_step H u E. next_step H u' E. next_step H d E3. next_step H b0 E4.
  next_step H u2 E. next_step H mid E5. next_step H u3 E. next_step H u4 E6. next_step H u5 E.
  destruct (result =? 0); next_step H u6 E; injection H as <-; done.
Qed.

Lemma connect_edge w w' : MQTT_Connect eport w = Some (tt, w') -> connState (cl w') = TCP_CONNECTING.
Proof.
  unfold MQTT_Connect. intros H. next_step H u E. next_step H p E2. next_step H u2 E3. next_step H u3 E3. next_step H u4 E3.
  next_step H u5 E3. next_step H oh E3. next_step H h E4. next_step H r E5. destruct r as [addr ok].
  next_step H u6 E6. next_step H u7 E7. injection H as <-. done.
Qed.

Lemma connect_cb_edge w w' : mqtt_tcpclient_connect_cb w = Some (tt, w') -> connState (cl w') = MQTT_CONNECT_SENDING.
Proof.
  unfold mqtt_tcpclient_connect_cb. intros H. next_step H u E. next_step H conn E. next_step H info E. next_step H conn' E1.
  next_step H u1 E. next_step H d E2. next_step H b0 E3. next_step H mid E4. next_step H u2 E. next_step H u3 E5.
  next_step H u4 E. injection H as <-. done.
Qed.

Lemma kept_unit {A} (m : M A) w w' : state_kept m -> (_ <- m;; sret tt) w = Some (tt, w') -> connState (cl w') = connState (cl w).
Proof. intros Hm H. apply sbind_inv in H as (a & w1 & E & H). injection H as <-. by apply (Hm _ _ _ E). Qed.

Lemma timer_edge w w' : mqtt_timer w = Some (tt, w') -> edge ITimer (connState (cl w)) (connState (cl w')).
Proof.
  unfold mqtt_timer. intros H. next_step H st E. next_step H u E1.
  assert (K : state_kept (b <- get (λ c, 0 <? sendTimeout c);; swhen b (upd (λ c, c <| sendTimeout := sendTimeout c - 1 |>)))) by kept.
  rewrite (K _ _ _ H). clear H K. cbn [edge].
  destruct (connState (cl w)) eqn:Est; try (injection E1 as <- <-; left; done).
  - next_step E1 u1 E2. next_step E1 b E2. match type of E1 with swhen ?b _ _ = _ => destruct b end; cbn [swhen] in E1.
    + next_step E1 u2 E2. next_step E1 u3 E2. next_step E1 cb E2. right. right. split; [done|].
      match type of E1 with swhen ?c _ _ = _ => assert (K2 : state_kept (swhen c (emit ETimeoutCb))) by kept end.
      by rewrite (K2 _ _ _ E1).
    + injection E1 as <- <-. left. cbn. done.
  - next_step E1 u1 E2. next_step E1 hasp E2. next_step E1 u2 E3. next_step E1 b E2. match type of E1 with swhen ?b _ _ = _ => destruct b end; cbn [swhen] in E1.
    + next_step E1 u3 E2. injection E1 as <- <-. right. left. done.
    + injection E1 as <- <-. left. done.
Qed.

Lemma dns_edge a w w' : mqtt_dns_found a w = Some (tt, w') -> edge (IDns a) (connState (cl w)) (connState (cl w')).
Proof.
  destruct a as [addr|]; cbn [mqtt_dns_found edge]; intros H; [|by injection H as <-].
  next_step H z E. next_step H u E1. injection H as <-. cbn [cl].
  match type of E1 with swhen ?b _ _ = _ => destruct b end; cbn [swhen] in E1; [|injection E1 as <- <-; by left].
  next_step E1 p E2. next_step E1 p' E2. next_step E1 u1 E3. next_step E1 u2 E3. injection E1 as <- <-. by right.
Qed.

Lemma task_edge result w w' :
  MQTT_Task proto0 c0 stack len0 eport result w = Some (tt, w') -> edge (ITask result) (connState (cl w)) (connState (cl w')).
Proof.
  unfold MQTT_Task. intros H. next_step H st E. cbn [edge].
  destruct (connState (cl w)) eqn:Est; try (injection H as <-; by rewrite Est).
  - by rewrite (tcp_disconnect_kept _ _ _ H).
  - by rewrite (delete_kept _ _ _ H).
  - by rewrite (tcp_disconnect_kept _ _ _ H).
  - next_step H u E1. next_step H u' E2. by injection H as <-.
  - match type of H with ?m _ = _ => assert (K : state_kept m) by kept; rewrite (K _ _ _ H) end. done.
  - by rewrite (keepalive_edge _ _ _ H).
  - by rewrite (tcp_disconnect_kept _ _ _ H).
  - by rewrite (client_delete_kept _ _ _ H).
Qed.

Lemma handle_edge i w w' :
  handle i w = Some (tt, w') -> edge i (connState (cl w)) (connState (cl w')).
Proof.
  destruct i; cbn [handle]; intros H; try (refine (kept_unit _ _ _ _ H);
    first [apply publish_kept|apply subscribe_kept|apply unsubscribe_kept|apply ping_kept]).
  - by apply dns_edge.
  - unfold mqtt_tcpclient_recv in H. next_step H u E. next_step H u' E1. destruct u'. injection H as <-.
    apply recv_rounds_edge in E1. exact E1.
  - cbn [edge]. by rewrite (sent_kept _ _ _ H).
  - by apply timer_edge.
  - cbn [edge]. unfold mqtt_tcpclient_discon_cb in H. next_step H u E. next_step H b E. next_step H u' E1.
    match type of E1 with ?m _ = _ => assert (K : state_kept m) by kept end. injection H as <-. cbn [cl]. by rewrite (K _ _ _ E1).
  - by apply connect_cb_edge in H.
  - by injection H as <-.
  - by apply task_edge.
  - by apply connect_edge in H.
  - by injection H as <-.
  - by injection H as <-.
Qed.



(** Runs of the client. *)
Inductive reaches (w0 : world) : list input -> world -> Prop :=
| reaches_start : reaches w0 [] w0
| reaches_step ins w i w' : reaches w0 ins w -> handle i w = Some (tt, w') -> reaches w0 (ins ++ [i]) w'.

Definition is_connack (i : input) : Prop :=
  match i with IRecv pdata len => 0 < len < MQTT_BUF_SIZE /\ mqtt_get_type (nthZ pdata 0) = MQTT_MSG_TYPE_CONNACK | _ => False end.

(** A client is connected only after the TCP connection was established and
    then a CONNACK arrived. *)
Theorem mqtt_connected_after_connack w0 ins w :
  reaches w0 ins w -> connState (cl w0) = WIFI_INIT -> receiving (connState (cl w)) ->
  exists i1 i2 i3 k, ins = i1 ++ IConnected :: i2 ++ k :: i3 /\ is_connack k.
Proof.
  intros R H0. assert (K : (receiving (connState (cl w)) -> exists i1 i2 i3 k, ins = i1 ++ IConnected :: i2 ++ k :: i3 /\ is_connack k) /\
    (connState (cl w) = MQTT_CONNECT_SENDING -> exists i1 i2, ins = i1 ++ IConnected :: i2)); [|apply K].
  induction R as [|ins w i w' R IH E]; [rewrite H0; split; [intros []|]; done|]. destruct IH as [IH1 IH2].
  apply handle_edge in E. revert E IH1 IH2. generalize (connState (cl w)) (connState (cl w')). intros old new E IH1 IH2.
  assert (L : forall l, (exists i1 i2 i3 k, ins = i1 ++ IConnected :: i2 ++ k :: i3 /\ is_connack k) ->
    exists i1 i2 i3 k, ins ++ l = i1 ++ IConnected :: i2 ++ k :: i3 /\ is_connack k).
  { intros l (i1 & i2 & i3 & k & -> & Hk). exists i1, i2, (i3 ++ l), k. split; [|done].
    rewrite <- !app_assoc. cbn [app]. rewrite <- !app_assoc. done. }
  assert (L2 : forall l, (exists i1 i2, ins = i1 ++ IConnected :: i2) -> exists i1 i2, ins ++ l = i1 ++ IConnected :: i2).
  { intros l (i1 & i2 & ->). exists i1, (i2 ++ l). by rewrite <- app_assoc. }
  assert (Same : new = old -> (receiving new -> exists i1 i2 i3 k, ins ++ [i] = i1 ++ IConnected :: i2 ++ k :: i3 /\ is_connack k) /\
    (new = MQTT_CONNECT_SENDING -> exists i1 i2, ins ++ [i] = i1 ++ IConnected :: i2)) by (intros ->; auto).
  assert (Other : ~ receiving new -> new ≠ MQTT_CONNECT_SENDING -> (receiving new -> exists i1 i2 i3 k, ins ++ [i] = i1 ++ IConnected :: i2 ++ k :: i3 /\ is_connack k) /\
    (new = MQTT_CONNECT_SENDING -> exists i1 i2, ins ++ [i] = i1 ++ IConnected :: i2)) by tauto.
  assert (NR : forall st, st ≠ MQTT_DATA -> st ≠ MQTT_KEEPALIVE_SEND -> ~ receiving st) by (intros st ? ? []; done).
  destruct i; cbn [edge] in E; try (by apply Same); try (subst; by apply Other; [apply NR|]).
  - destruct ipaddr; [destruct E as [->| ->]; [by apply Same|]|subst]; (by apply Other; [apply NR|]).
  - destruct E as [->|(-> & -> & Hr & Hty)]; [by apply Same|]. split; [intros _|done].
    destruct (IH2 eq_refl) as (i1 & i2 & ->). exists i1, i2, [], (IRecv pdata len). split; [by rewrite <- app_assoc|done].
  - destruct E as [->|[(-> & ->)|(-> & ->)]]; [by apply Same| |by apply Other; [apply NR|]].
    split; [intros _; apply L, IH1; by left|done].
  - subst. destruct old; by apply Other; [apply NR|].
  - subst. split; [by intros []|]. intros _. exists ins, []. done.
  - subst. destruct old; try (by apply Same); try (by apply Other; [apply NR|]).
    destruct (result =? 0); [|by apply Other; [apply NR|]]. split; [intros _; apply L, IH1; by right|done].
Qed.
End Machine.

(** ** No handler of an initialised client is undefined *)

(** The computation is defined and keeps the invariant. *)
Definition safe (m : M unit) (w : world) : Prop := exists w' cs', m w = Some (tt, w') /\ client_ok (cl w') cs'.

(** Parsing a host name as an address does not overflow. *)
Definition host_ok (h : option (list Z)) : Prop :=
  exists s addr ok, h = Some s /\ UTILS_StrToIP (s ++ [0]) [0; 0; 0; 0] = Some (addr, ok).

Section Safety.
Variables (proto0 : PROTO_PARSER) (c0 : Z) (stack : list Z) (len0 eport : Z).
Hypothesis Hstack : MQTT_BUF_SIZE <= zlen stack.

Definition topic_bytes (t : option (list Z)) : Prop := bytes_opt t.

Definition input_ok (c : MQTT_Client) (i : input) : Prop :=
  match i with
  | IDns (Some addr) => ip_is_zero (ip c) = true -> ip_is_zero addr = false -> pCon c ≠ None
  | IRecv pdata len => Forall is_byte pdata /\ 0 <= len <= zlen pdata /\ recv_fine pdata len
  | IPublish t d n _ _ => topic_bytes t /\ Forall is_byte d /\ n = zlen d
  | ISubscribe t _ | IUnSubscribe t => topic_bytes t
  | ITask _ => connState c ≠ MQTT_DELETED /\ (connState c = TCP_RECONNECT -> host_ok (host c))
  | IConnectReq => host_ok (host c)
  | _ => True
  end.

Lemma enqueue_safe w cs p :
  client_ok (cl w) cs -> holds (mqtt_connection (cl w)) p -> Forall is_byte p ->
  safe (_ <- enqueue_outbound proto0 c0 stack len0;; sret tt) w.
Proof.
  intros W H1 H2. destruct (enqueue_outbound_spec proto0 c0 stack len0 Hstack w cs p W H1 H2) as (ok & q & cs' & E & W' & _).
  unfold safe, sbind. rewrite E. cbn. eexists _, cs'. split; [done|]. exact W'.
Qed.

(** A request that first builds a message and then queues it. *)
Lemma request_safe w cs conn p b id :
  client_ok (cl w) cs -> holds conn p -> Forall is_byte p ->
  safe (_ <- enqueue_outbound proto0 c0 stack len0;; sret tt)
    (mk_world ((cl w) <| mqtt_connection := conn |> <| pending_msg_id := id |> <| outbound_message := b |>) (trace w)).
Proof.
  intros W H1 H2. apply (enqueue_safe _ cs p); [|done|done]. destruct H1 as (Hc & Hl & _). destruct W; by split.
Qed.

Lemma present_dec t : (exists x l, present t = Some (x :: l) /\ t = Some (x :: l)) \/ present t = None.
Proof. destruct t as [[|x l]|]; [by right|left; by exists x, l|by right]. Qed.

Lemma publish_safe w cs t d q r :
  client_ok (cl w) cs -> topic_bytes t -> Forall is_byte d ->
  safe (_ <- MQTT_Publish proto0 c0 stack len0 t d (zlen d) q r;; sret tt) w.
Proof.
  intros W Ht Hd. destruct (present_dec t) as [(x & l & _ & ->)|Hn].
  - destruct (publish_spec proto0 c0 stack len0 Hstack w cs (x :: l) d q r W ltac:(done) Ht Hd) as (ok & w' & cs' & E & W' & _).
    unfold safe, sbind. rewrite E. cbn. by exists w', cs'.
  - unfold MQTT_Publish, mqtt_msg_publish. rewrite Hn. unfold safe. run_client.
    change (mc_length (fail_message _)) with 0. cbn. eexists _, cs. split; [done|].
    destruct W as [? ? ? Wc]; split; try done. by destruct Wc.
Qed.

(** What a subscription request leaves in the connection. *)
Lemma subscribe_holds conn t q id0 :
  conn_ok conn -> mc_buffer_length conn = MQTT_BUF_SIZE -> topic_bytes t ->
  exists conn' id p, mqtt_msg_subscribe conn t q id0 = Some (conn', id) /\ holds conn' p /\ Forall is_byte p.
Proof.
  intros W Hl Ht. destruct (present_dec t) as [(x & l & _ & ->)|Hn].
  - destruct (mqtt_msg_subscribe_spec conn (x :: l) q id0 W ltac:(done)) as (c' & m & E & H).
    pose proof (mqtt_msg_subscribe_keeps _ _ _ _ _ _ E) as K. unfold keeps in K. rewrite Hl in *.
    pose proof (next_id_range 0 _ ltac:(unfold is_u16; lia) (co_id _ W)) as [Hid _].
    destruct (Z.leb_spec (3 + zlen (encode_id (fst (next_id 0 (mc_message_id conn))) ++ encode_string (x :: l) ++ [u8 q])) MQTT_BUF_SIZE) as [Hs|Hs].
    + destruct H as [_ B]. eexists _, _, _. split; [done|]. split; [by eapply built_fits|].
      rewrite !Forall_app. split; [apply fixed_header_bytes, zlen_nonneg|].
      split; [apply encode_id_bytes; unfold is_u16; lia|]. split; [by apply encode_string_bytes|]. apply Forall_cons_2; [apply u8_range|done].
    + eexists _, _, []. split; [done|]. split; [by apply failed_holds|done].
  - unfold mqtt_msg_subscribe. rewrite Hn. eexists _, _, []. split; [done|]. split; [|done]. apply failed_holds; [|done].
    split; [done|]. split; [by destruct W|done].
Qed.

Lemma unsubscribe_holds conn t id0 :
  conn_ok conn -> mc_buffer_length conn = MQTT_BUF_SIZE -> topic_bytes t ->
  exists conn' id p, mqtt_msg_unsubscribe conn t id0 = Some (conn', id) /\ holds conn' p /\ Forall is_byte p.
Proof.
  intros W Hl Ht. destruct (present_dec t) as [(x & l & _ & ->)|Hn].
  - destruct (mqtt_msg_unsubscribe_spec conn (x :: l) id0 W ltac:(done)) as (c' & m & E & H).
    pose proof (mqtt_msg_unsubscribe_keeps _ _ _ _ _ E) as K. unfold keeps in K. rewrite Hl in *.
    pose proof (next_id_range 0 _ ltac:(unfold is_u16; lia) (co_id _ W)) as [Hid _].
    destruct (Z.leb_spec (3 + zlen (encode_id (fst (next_id 0 (mc_message_id conn))) ++ encode_string (x :: l))) MQTT_BUF_SIZE) as [Hs|Hs].
    + destruct H as [_ B]. eexists _, _, _. split; [done|]. split; [by eapply built_fits|].
      rewrite !Forall_app. split; [apply fixed_header_bytes, zlen_nonneg|].
      split; [apply encode_id_bytes; unfold is_u16; lia|]. by apply encode_string_bytes.
    + eexists _, _, []. split; [done|]. split; [by apply failed_holds|done].
  - unfold mqtt_msg_unsubscribe. rewrite Hn. eexists _, _, []. split; [done|]. split; [|done]. apply failed_holds; [|done].
    split; [done|]. split; [by destruct W|done].
Qed.

Lemma connect_body_bytes info : info_ok info -> Forall is_byte (connect_body (connect_flags info) info (connect_fields info)).
Proof.
  intros (H1 & H2 & H3 & H4 & H5 & _). unfold connect_body. apply Forall_app. split.
  - unfold variable_header. repeat apply Forall_cons_2; try (unfold is_byte; lia); try apply u8_range; [| |done].
    + unfold is_byte, connect_flags, is_present.
      destruct (present (username info)), (present (password info)), (present (will_topic info)),
        (will_retain info =? 0), (clean_session info =? 0); dlia.
    + rewrite land_255. apply Z.mod_pos_bound. lia.
  - assert (P : forall s, bytes_opt s -> Forall (Forall is_byte) (opt_field s)).
    { intros [[|x l]|] Hs; unfold opt_field; cbn; [done|apply Forall_cons_2; [exact Hs|done]|done]. }
    assert (F : Forall (Forall is_byte) (connect_fields info)).
    { unfold connect_fields. rewrite !Forall_app. split; [by apply P|]. split; [|split; by apply P].
      destruct (will_topic info) as [[|x l]|]; cbn; try done. apply Forall_cons_2; [exact H4|]. apply Forall_cons_2; [|done]. by destruct (will_message info). }
    clear -F. induction F as [|f fs Hf _ IH]; cbn [fmap list_fmap concat]; [done|]. apply Forall_app_2; [by apply encode_string_bytes|done].
Qed.

Lemma connect_holds conn info :
  conn_ok conn -> mc_buffer_length conn = MQTT_BUF_SIZE -> info_ok info ->
  exists conn' p, mqtt_msg_connect conn info = Some conn' /\ holds conn' p /\ Forall is_byte p.
Proof.
  intros W Hl Hi. pose proof Hi as (_ & _ & _ & _ & _ & Hw).
  destruct (mqtt_msg_connect_total conn info W Hw) as (c' & E & K & H). rewrite Hl in *.
  destruct (present (client_id info)); [|exists c', []; split; [done|]; split; [by apply failed_holds|done]].
  destruct (Z.leb_spec (3 + zlen (connect_body (connect_flags info) info (connect_fields info))) MQTT_BUF_SIZE) as [Hs|Hs].
  - eexists c', _. split; [done|]. split; [by eapply built_fits|]. apply Forall_app_2; [apply fixed_header_bytes, zlen_nonneg|].
    by apply connect_body_bytes.
  - exists c', []. split; [done|]. split; [by apply failed_holds|done].
Qed.

Lemma connected_safe w cs : client_ok (cl w) cs -> safe mqtt_tcpclient_connect_cb w.
Proof.
  intros W. pose proof (ck_conn _ _ W) as Wc. pose proof (ck_connlen _ _ W) as Hl.
  set (conn0 := mqtt_msg_init (mc_buffer (mqtt_connection (cl w))) MQTT_BUF_SIZE).
  assert (W0 : conn_ok conn0) by (destruct Wc; rewrite Hl in *; split; cbn; unfold MQTT_BUF_SIZE, is_u16 in *; lia).
  destruct (connect_holds conn0 (connect_info (cl w)) W0 eq_refl (ck_info _ _ W)) as (conn & p & E & (Wn & Hn & Hlen & Hs & d & Ed & Hd & Ht & H1) & Hp).
  assert (Htab : tab (zlen p) (nthZ d) = p).
  { rewrite <- (tab_nthZ d), take_tab in Ht; [done|]. pose proof (zlen_nonneg p). lia. }
  pose proof (zlen_nonneg p).
  destruct (mqtt_get_id_prefix d (zlen p) p Hp ltac:(lia) Htab) as (id & Ei & _).
  unfold safe, mqtt_tcpclient_connect_cb. run_client. cbn [cl].
  replace (u16 (out_buffer_length (cl w))) with MQTT_BUF_SIZE by (by rewrite (ck_outlen _ _ W)). fold conn0.
  rewrite E. cbn [mbind option_bind cl trace]. rewrite Ed. cbn [mbind option_bind]. rewrite rd_Some by lia. cbn [mbind option_bind].
  rewrite Hlen, Ei. cbn [mbind option_bind cl trace]. unfold tcp_send. run_client. rewrite bslice_tab by lia. cbn [mbind option_bind cl trace].
  eexists _, cs. split; [done|]. destruct W; by split.
Qed.

Lemma client_ok_simple c cs c' :
  client_ok c cs -> in_buffer c' = in_buffer c -> in_buffer_length c' = in_buffer_length c ->
  out_buffer_length c' = out_buffer_length c -> mqtt_connection c' = mqtt_connection c ->
  connect_info_ptr c' = connect_info_ptr c -> connect_info c' = connect_info c -> host c' = host c ->
  msgQueue c' = msgQueue c -> client_ok c' cs.
Proof. intros [] E1 E2 E3 E4 E5 E6 E7 E8. split; rewrite ?E1, ?E2, ?E3, ?E4, ?E5, ?E6, ?E7, ?E8; done. Qed.

Lemma keepalive_safe w cs result : client_ok (cl w) cs -> safe (mqtt_send_keepalive result) w.
Proof.
  intros W. destruct (ping_holds MQTT_MSG_TYPE_PINGREQ _ (ck_conn _ _ W) (ck_connlen _ _ W)) as (conn & E & (Wn & Hn & Hlen & Hs & d & Ed & Hd & Ht & H1) & Hp).
  set (p := fixed_header MQTT_MSG_TYPE_PINGREQ 0 0 0 0) in *. pose proof (zlen_nonneg p).
  assert (Htab : tab (zlen p) (nthZ d) = p) by (rewrite <- (tab_nthZ d), take_tab in Ht by lia; done).
  destruct (mqtt_get_id_prefix d (zlen p) p Hp ltac:(lia) Htab) as (id & Ei & _).
  unfold safe, mqtt_send_keepalive, mqtt_msg_pingreq. run_client. rewrite E. cbn [mbind option_bind cl trace].
  rewrite Ed. cbn [mbind option_bind]. rewrite rd_Some by lia. cbn [mbind option_bind]. rewrite Hlen, Ei.
  cbn [mbind option_bind cl trace]. unfold tcp_send. run_client. rewrite bslice_tab by lia. cbn [mbind option_bind cl trace].
  destruct (result =? 0); eexists _, cs; (split; [done|]); destruct W; by split.
Qed.

Lemma connect_req_safe w cs : client_ok (cl w) cs -> host_ok (host (cl w)) ->
  exists w', MQTT_Connect eport w = Some (tt, w') /\ client_ok (cl w') cs.
Proof.
  intros W (s & addr & ok & Hh & Ha). destruct w as [c tr]. cbn [cl] in *.
  unfold MQTT_Connect. unfold sbind at 1. rewrite mqtt_tcpclient_delete_run. run_client. cbn -[UTILS_StrToIP].
  rewrite Hh. cbn -[UTILS_StrToIP]. rewrite Ha. cbn.
  destruct (negb (ok =? 0)); cbn; eexists; (split; [done|]); cbn [cl]; eapply client_ok_simple; done.
Qed.

Lemma task_safe w cs result :
  client_ok (cl w) cs -> connState (cl w) ≠ MQTT_DELETED -> (connState (cl w) = TCP_RECONNECT -> host_ok (host (cl w))) ->
  safe (MQTT_Task proto0 c0 stack len0 eport result) w.
Proof.
  intros W Hd Hr. destruct (decide (connState (cl w) = MQTT_DATA)) as [Ed|Hn].
  { destruct (task_sends proto0 c0 stack len0 eport Hstack w cs result W Ed) as (w' & cs' & E & W' & _). by exists w', cs'. }
  assert (Dis : safe tcp_disconnect w).
  { unfold safe. run_client. eexists _, cs. split; [done|]. by destruct w. }
  assert (Self : safe (sret tt) w) by (by exists w, cs).
  unfold MQTT_Task, safe. unfold sbind at 1, get, sget. cbn [mbind option_bind].
  destruct (connState (cl w)) eqn:Est; try done; try exact Dis; try exact Self.
  - destruct w as [c tr]. rewrite mqtt_tcpclient_delete_run. eexists _, cs. split; [done|].
    cbn [cl] in *. eapply client_ok_simple; done.
  - destruct w as [c tr]. unfold sbind at 1. rewrite mqtt_tcpclient_delete_run. cbn [mbind option_bind cl] in *.
    match goal with |- context [MQTT_Connect eport;; _] => idtac end.
    destruct (connect_req_safe (mk_world (c <| pCon := None |>) (tr ++ match pCon c with Some _ => [EDelete] | None => [] end)) cs)
      as (w' & E & W'); [cbn [cl]; eapply client_ok_simple; done|by apply Hr|].
    unfold sbind. rewrite E. cbn [mbind option_bind]. unfold upd, smod. eexists _, cs. split; [done|]. cbn [cl]. eapply client_ok_simple; done.
  - by apply keepalive_safe with cs.
Qed.

Lemma handle_safe i w cs :
  client_ok (cl w) cs -> input_ok (cl w) i -> safe (handle proto0 c0 stack len0 eport i) w.
Proof.
  intros W Hi. destruct i; cbn [handle input_ok] in *.
  - destruct ipaddr as [addr|]; unfold mqtt_dns_found, safe; run_client.
    + destruct (ip_is_zero (ip (cl w)) && negb (ip_is_zero addr)) eqn:Ez; cbn.
      * apply andb_true_iff in Ez as [Ez1 Ez2%negb_true_iff]. specialize (Hi Ez1 Ez2). destruct (pCon (cl w)) as [p|] eqn:Ep; [|done].
        cbn. eexists _, cs; (split; [done|]); cbn [cl]; eapply client_ok_simple; done.
      * eexists _, cs; (split; [done|]); cbn [cl]; eapply client_ok_simple; done.
    + eexists _, cs. split; [done|]. cbn [cl]. eapply client_ok_simple; done.
  - destruct Hi as (Hb & Hl & Hf).
    destruct (recv_rounds_safe (Z.to_nat len + 1) (mk_world ((cl w) <| keepAliveTick := 0 |>) (trace w)) cs pdata len) as (c' & tr & cs' & E & W' & _);
      [cbn [cl]; by apply client_ok_tick|done|done|done|lia|].
    unfold safe, mqtt_tcpclient_recv. unfold upd, smod, sbind. cbn [mbind option_bind]. rewrite E. cbn [mbind option_bind]. by eexists _, cs'.
  - unfold mqtt_tcpclient_sent_cb, safe. run_client. cbn. destruct (_ && publishedCb (cl w)); cbn; eexists _, cs; (split; [done|]); cbn [cl]; eapply client_ok_simple; done.
  - destruct w as [c tr]. cbn [cl] in *. unfold safe. destruct (decide (connState c = MQTT_DATA)) as [E|E1].
    { rewrite timer_data by (apply W || done). destruct (_ <? _); eexists _, cs; (split; [done|]); cbn [cl]; eapply client_ok_simple; done. }
    destruct (decide (connState c = TCP_RECONNECT_REQ)) as [E|E2].
    { rewrite timer_reconnect by done. destruct (_ <? _); eexists _, cs; (split; [done|]); cbn [cl]; eapply client_ok_simple; done. }
    unfold mqtt_timer. run_client. destruct (connState c) eqn:Est; try done; run_client; cbn;
      (destruct (0 <? sendTimeout c); cbn; eexists _, cs; (split; [done|]); cbn [cl]; [eapply client_ok_simple; done|done]).
  - unfold mqtt_tcpclient_discon_cb, safe. run_client. cbn. destruct (disconnectedCb (cl w)); cbn; eexists _, cs; (split; [done|]); cbn [cl]; eapply client_ok_simple; done.
  - by apply connected_safe with cs.
  - unfold mqtt_tcpclient_recon_cb, safe. run_client. eexists _, cs; (split; [done|]); cbn [cl]; eapply client_ok_simple; done.
  - destruct Hi as (H1 & H2 & ->). by apply publish_safe with cs.
  - destruct (subscribe_holds _ topic qos (pending_msg_id (cl w)) (ck_conn _ _ W) (ck_connlen _ _ W) Hi) as (conn & id & p & E & H1 & H2).
    unfold MQTT_Subscribe, safe, get, upd. sm. rewrite E. sm. by apply (request_safe w cs conn p).
  - destruct (unsubscribe_holds _ topic (pending_msg_id (cl w)) (ck_conn _ _ W) (ck_connlen _ _ W) Hi) as (conn & id & p & E & H1 & H2).
    unfold MQTT_UnSubscribe, safe, get, upd. sm. rewrite E. sm. by apply (request_safe w cs conn p).
  - destruct (ping_holds MQTT_MSG_TYPE_PINGREQ _ (ck_conn _ _ W) (ck_connlen _ _ W)) as (conn & E & H1 & H2).
    unfold MQTT_Ping, mqtt_msg_pingreq, safe, get, upd. sm. rewrite E. sm.
    destruct (request_safe w cs conn _ true (pending_msg_id (cl w)) W H1 H2) as (w' & cs' & E' & W'). destruct H1 as (_ & _ & Hl & _).
    cbn [cl mqtt_connection]. rewrite Hl. exists w', cs'. split; [|done]. rewrite <- E'. by destruct w as [[] ?].
  - destruct Hi. by apply task_safe with cs.
  - destruct (connect_req_safe w cs W Hi) as (w' & E & W'). by exists w', cs.
  - unfold MQTT_Disconnect, safe. run_client. eexists _, cs; (split; [done|]); cbn [cl]; eapply client_ok_simple; done.
  - unfold MQTT_DeleteClient, safe. run_client. eexists _, cs; (split; [done|]); cbn [cl]; eapply client_ok_simple; done.
Qed.
End Safety.

(** C1: on an initialised client every handler, callback, timer tick, task step
    and request is defined (no null pointer, no access outside a buffer, no
    endless loop, no overflow) and keeps the client's invariant, under the
    conditions of [input_ok], which the code does not check: in a received
    segment every remaining length takes at most four bytes and no packet that
    is followed by another has a total length of 0 modulo 2^16; an address the
    name lookup finds arrives while the client still has a control block; when
    the client connects, at a request or in its task, it has a host name whose
    digits do not overflow the parser of addresses; the length given with a
    payload is its length; the task is not run on a deleted client.
    ([mqtt_recv_endless] and [lookup_after_delete] say what happens where the
    first or the second does not hold.) *)
Theorem mqtt_client_progress proto0 c0 stack len0 eport i w cs :
  MQTT_BUF_SIZE <= zlen stack -> client_ok (cl w) cs -> input_ok (cl w) i ->
  exists w' cs', handle proto0 c0 stack len0 eport i w = Some (tt, w') /\ client_ok (cl w') cs'.
Proof. intros Hs W Hi. by apply (handle_safe proto0 c0 stack len0 eport Hs i w cs). Qed.

(** The answer to a name lookup that was under way when the client was told to
    delete its connection is used without looking whether there still is one. *)
Theorem lookup_after_delete addr w :
  pCon (cl w) = None -> ip_is_zero (ip (cl w)) = true -> ip_is_zero addr = false -> mqtt_dns_found (Some addr) w = None.
Proof. intros Hp Hz Ha. unfold mqtt_dns_found. run_client. rewrite Hz, Ha. cbn. by rewrite Hp. Qed.

(** ** Initialisation *)

Section Init.
Variable os_zalloc : Z -> option (list Z).
(** Memory is found, and cleared. *)
Hypothesis zalloc_ok : forall n, 0 <= n -> os_zalloc n = Some (replicate (Z.to_nat n) 0).

Lemma copy_string_ok s : zlen s + 1 < 4294967296 -> copy_string os_zalloc s = Some s.
Proof.
  intros Hs. pose proof (zlen_nonneg s). unfold copy_string. rewrite u32_small by lia. rewrite zalloc_ok by lia. cbn [mbind option_bind].
  set (b := replicate (Z.to_nat (zlen s + 1)) 0). assert (Hb : zlen b = zlen s + 1) by (unfold b; zlia).
  assert (Hz : zlen (s ++ [0]) = zlen s + 1) by (rewrite zlen_app; done).
  destruct (bsplice_Some b 0 (s ++ [0])) as (b1 & E1 & L1 & N1); [lia|lia|]. rewrite E1. cbn [mbind option_bind].
  destruct (wr_Some b1 (zlen s) 0) as (b2 & E2 & L2 & N2); [lia|]. rewrite E2. cbn [mbind option_bind].
  rewrite bslice_tab by lia. f_equal. rewrite <- (tab_nthZ s) at 2. apply tab_ext. intros i Hi.
  rewrite N2, N1 by lia. zfalse (i =? zlen s). ztrue (0 <=? i). ztrue (i <? 0 + zlen (s ++ [0])). cbn [andb].
  rewrite Z.sub_0_r, nthZ_app by lia. by ztrue (i <? zlen s).
Qed.

Definition string_ok (s : list Z) : Prop := Forall is_byte s /\ zlen s + 1 < 4294967296.
Definition opt_string_ok (s : option (list Z)) : Prop := match s with Some s => string_ok s | None => True end.

Lemma copy_opt_ok s : opt_string_ok s -> copy_opt os_zalloc s = Some s.
Proof. destruct s as [s|]; [|done]. intros [_ H]. cbn. by rewrite copy_string_ok. Qed.

Lemma init_ok w h prt sec cid user pass ka clean :
  string_ok h -> string_ok cid -> opt_string_ok user -> opt_string_ok pass ->
  exists w', (MQTT_InitConnection os_zalloc h prt sec;; MQTT_InitClient os_zalloc cid user pass ka clean) w = Some (tt, w') /\
    client_ok (cl w') [] /\ connState (cl w') = WIFI_INIT /\ host (cl w') = Some h /\ port (cl w') = prt /\
    connect_info (cl w') = mk_info (Some cid) user pass None None (i32 ka) 0 0 clean /\ pCon (cl w') = None.
Proof.
  intros [H1 H1'] [H2 H2'] H3 H4. unfold MQTT_InitConnection, MQTT_InitClient. run_client.
  rewrite !copy_string_ok by done. cbn [mbind option_bind]. rewrite !copy_opt_ok by done. cbn [mbind option_bind].
  rewrite !zalloc_ok by (unfold MQTT_BUF_SIZE, QUEUE_BUFFER_SIZE; lia). cbn [mbind option_bind].
  eexists. split; [done|]. cbn [cl]. split; [|done]. split; try done.
  - exists (replicate (Z.to_nat MQTT_BUF_SIZE) 0). split; [done|]. split; [done|]. apply Forall_replicate. unfold is_byte. lia.
  - cbn. repeat split; try done; [by destruct user; [destruct H3|]|by destruct pass; [destruct H4|]].
Qed.

(** [MQTT_InitConnection] and [MQTT_InitClient] build a client that satisfies
    the invariant, with an empty queue, the given strings and no connection. *)
Theorem mqtt_init_ok w h prt sec cid user pass ka clean :
  string_ok h -> string_ok cid -> opt_string_ok user -> opt_string_ok pass ->
  exists w', (MQTT_InitConnection os_zalloc h prt sec;; MQTT_InitClient os_zalloc cid user pass ka clean) w = Some (tt, w') /\
    client_ok (cl w') [] /\ connState (cl w') = WIFI_INIT /\ host (cl w') = Some h /\ port (cl w') = prt /\
    connect_info (cl w') = mk_info (Some cid) user pass None None (i32 ka) 0 0 clean /\ pCon (cl w') = None.
Proof. apply init_ok. Qed.
End Init.

(** ** A concrete client, for the examples *)

Definition sample_zalloc (n : Z) : option (list Z) := Some (replicate (Z.to_nat n) 0).
(** Host "10.0.0.1", client id "ab", keep-alive 2 seconds. *)
Definition sample_host : list Z := [49; 48; 46; 48; 46; 48; 46; 49].
Definition sample_client (st : tConnState) : MQTT_Client :=
  match (MQTT_InitConnection sample_zalloc sample_host 1883 0;;
         MQTT_InitClient sample_zalloc [97; 98] None None 2 1) (mk_world zero_client []) with
  | Some (_, w) => (cl w) <| connState := st |> <| dataCb := true |>
  | None => zero_client
  end.

Lemma sample_client_ok st :
  client_ok (sample_client st) [] /\ connState (sample_client st) = st /\ host (sample_client st) = Some sample_host /\
  dataCb (sample_client st) = true /\ keepalive (connect_info (sample_client st)) = 2.
Proof.
  destruct (init_ok sample_zalloc ltac:(done) (mk_world zero_client []) sample_host 1883 0 [97; 98] None None 2 1)
    as (w' & E & W & _ & Hh & _ & Hi & _); [split; [repeat constructor; done|done]|split; [repeat constructor; done|done]|done|done|].
  unfold sample_client. rewrite E. split; [eapply client_ok_simple; done|]. split; [done|]. split; [exact Hh|]. split; [done|].
  change (keepalive (connect_info (cl w')) = 2). by rewrite Hi.
Qed.

Definition sample_world (st : tConnState) : world := mk_world (sample_client st) [].
Definition sample_stack : list Z := replicate 1024 0.
Definition sample_proto : PROTO_PARSER := fst (PROTO_Init (mk_PROTO [] 0 0 0 0 false) false [] 0).

(** ** The theorems at concrete inputs *)

Lemma MQTT_Publish_spec_witness :
  exists ok w' cs', MQTT_Publish sample_proto 0 sample_stack 0 (Some [116]) [1; 2] 2 1 0 (sample_world MQTT_DATA) = Some (ok, w') /\
    client_ok (cl w') cs' /\ ok = true.
Proof.
  destruct (sample_client_ok MQTT_DATA) as (W & _).
  destruct (MQTT_Publish_spec sample_proto 0 sample_stack 0 ltac:(vm_compute; discriminate) (sample_world MQTT_DATA) [] [116] [1; 2] 1 0 W)
    as (ok & w' & cs' & E & W' & _ & _ & R); [done|repeat constructor; done|repeat constructor; done|].
  exists ok, w', cs'. split; [exact E|]. split; [exact W'|]. vm_compute in E. by injection E as <- _.
Defined.

Lemma MQTT_Task_sends_witness :
  exists w' cs', MQTT_Task sample_proto 0 sample_stack 0 0 0 (sample_world MQTT_DATA) = Some (tt, w') /\ client_ok (cl w') cs'.
Proof.
  destruct (sample_client_ok MQTT_DATA) as (W & St & _).
  destruct (MQTT_Task_sends sample_proto 0 sample_stack 0 0 ltac:(vm_compute; discriminate) (sample_world MQTT_DATA) [] 0 W St)
    as (w' & cs' & E & W' & _). by exists w', cs'.
Defined.

Definition sample_pubs : list publication := [mk_pub 1 0 [116; 47; 97] 513 [1; 2; 3]; mk_pub 0 1 [116] 0 [9]; mk_pub 2 0 [98] 7 [4]].

Lemma mqtt_recv_publications_witness :
  exists c', mqtt_tcpclient_recv 3 (pub_stream sample_pubs) (zlen (pub_stream sample_pubs)) (sample_world MQTT_DATA) =
    Some (tt, mk_world c' (map pub_event sample_pubs ++ [EPost])).
Proof.
  destruct (sample_client_ok MQTT_DATA) as (W & St & _ & Hd & _).
  destruct (mqtt_recv_publications (sample_world MQTT_DATA) [] sample_pubs 3 W) as (c' & cs' & E & _).
  - left. exact St.
  - exact Hd.
  - repeat constructor; try done; unfold is_u16; cbn; lia.
  - done.
  - vm_compute. discriminate.
  - vm_compute. reflexivity.
  - done.
  - by exists c'.
Defined.

Lemma mqtt_recv_endless_witness :
  ~ exists fuel r, mqtt_tcpclient_recv fuel (zero_length_packet [0; 1; 116]) 7 (sample_world MQTT_DATA) = Some r.
Proof.
  destruct (sample_client_ok MQTT_DATA) as (W & St & _). intros (fuel & r & E).
  enough (mqtt_tcpclient_recv fuel (zero_length_packet [0; 1; 116]) 7 (sample_world MQTT_DATA) = None) by congruence.
  apply (mqtt_recv_endless (sample_world MQTT_DATA) [] [0; 1; 116] W); [left; exact St|repeat constructor; done|reflexivity].
Defined.

Lemma mqtt_timer_keepalive_witness :
  exists c', (ticks 2;; mqtt_timer) (sample_world MQTT_DATA) = Some (tt, mk_world c' [EPost]) /\ connState c' = MQTT_KEEPALIVE_SEND.
Proof.
  destruct (sample_client_ok MQTT_DATA) as (W & St & _ & _ & Hk).
  destruct (mqtt_timer_keepalive (sample_client MQTT_DATA) [] St (ck_ptr _ _ W)) as (_ & c' & E & S); [reflexivity|done|rewrite Hk; lia|].
  rewrite Hk in E. by exists c'.
Defined.



Lemma mqtt_client_progress_witness :
  exists w' cs', handle sample_proto 0 sample_stack 0 0 (IRecv [48; 2; 0; 9] 4) (sample_world MQTT_DATA) = Some (tt, w') /\ client_ok (cl w') cs'.
Proof.
  destruct (sample_client_ok MQTT_DATA) as (W & _).
  apply (mqtt_client_progress sample_proto 0 sample_stack 0 0 (IRecv [48; 2; 0; 9] 4) (sample_world MQTT_DATA) []);
    [vm_compute; discriminate|exact W|].
  split; [repeat constructor; done|]. split; [vm_compute; split; discriminate|]. constructor.
  - exists 1. split; [lia|right; reflexivity].
  - intros total E. injection E as <-. done.
  - intros total E. injection E as <-. done.
Defined.

Lemma mqtt_init_ok_witness :
  exists w', (MQTT_InitConnection sample_zalloc sample_host 1883 0;; MQTT_InitClient sample_zalloc [97; 98] None (Some [120]) 120 1)
      (mk_world zero_client []) = Some (tt, w') /\ client_ok (cl w') [].
Proof.
  destruct (mqtt_init_ok sample_zalloc ltac:(done) (mk_world zero_client []) sample_host 1883 0 [97; 98] None (Some [120]) 120 1)
    as (w' & E & W & _); [split; [repeat constructor; done|done]|split; [repeat constructor; done|done]|done|split; [repeat constructor; done|done]|].
  by exists w'.
Defined.

Definition sample_step (i : input) (w : world) : world :=
  match handle sample_proto 0 sample_stack 0 0 i w with Some (_, w') => w' | None => w end.
Definition sample_connack : input := IRecv [32; 2; 0; 0] 4.

Lemma mqtt_connected_after_connack_witness :
  exists i1 i2 i3 k, [IConnected; sample_connack] = i1 ++ IConnected :: i2 ++ k :: i3 /\ is_connack k.
Proof.
  apply (mqtt_connected_after_connack sample_proto 0 sample_stack 0 0 (sample_world WIFI_INIT) [IConnected; sample_connack]
    (sample_step sample_connack (sample_step IConnected (sample_world WIFI_INIT)))).
  - apply (reaches_step _ _ _ _ _ _ [IConnected] (sample_step IConnected (sample_world WIFI_INIT))); [|vm_compute; reflexivity].
    apply (reaches_step _ _ _ _ _ _ [] (sample_world WIFI_INIT)); [apply reaches_start|vm_compute; reflexivity].
  - vm_compute. reflexivity.
  - left. vm_compute. reflexivity.
Defined.

(** A client with a ring of [n] bytes and a message buffer of [m]. *)
Definition small_world (n m : nat) : world :=
  mk_world (zero_client <| msgQueue := QUEUE_Init (mk_QUEUE false (mk_RINGBUF [] 0 0 0 0)) (Some (replicate n 0)) (Z.of_nat n) |>
                        <| mqtt_connection := mqtt_msg_init (replicate m 0) (Z.of_nat m) |>) [].

(** A request can fail, and the queue lose everything, although the message alone
    would fit: what [QUEUE_Puts] left of it in the ring takes the room that
    dropping the older message freed. *)
Example enqueue_gives_up :
  match (b1 <- enqueue sample_proto 0 9 [1; 2] 2 sample_stack 0;;
         b2 <- enqueue sample_proto 0 9 [0x7E; 0x7E; 0x7E] 3 sample_stack 0;;
         sret (b1, b2)) (small_world 10 16) with
  | Some ((b1, b2), w) => b1 = true /\ b2 = false /\ QUEUE_IsEmpty (msgQueue (cl w)) = true
  | None => False
  end /\
  zlen (frame [0x7E; 0x7E; 0x7E]) = 8.
Proof. vm_compute. done. Qed.

(** An oversized topic is not refused: an empty message is queued. *)
Example subscribe_too_long :
  match MQTT_Subscribe sample_proto 0 sample_stack 0 (Some (replicate 20 97)) 0 (small_world 10 16) with
  | Some (b, w) => b = true /\ RINGBUF_contents (q_rb (msgQueue (cl w))) = frame []
  | None => False
  end.
Proof. vm_compute. done. Qed.
