(* ===== verification/Board.v ===== *)
(** * Board: the ESP8266 as the firmware of src/app sees it

    The peripheral registers and the functions of the binary SDK are not part
    of the repository: what a register read or an SDK call answers is given by
    an environment [Env], as a function of everything that happened before.
    The firmware's accesses and calls are recorded in a log.  The register
    macros of include/eagle_soc.h, include/gpio.h and include/ets_sys.h are
    modelled on top of that. *)

From Stdlib Require Import String.
From stdpp Require Import gmap.
From S2P Require Import Prelude CMem.
Local Open Scope sm_scope.

(** ** Functions and timers whose address the firmware passes around *)

(** The network connections: the two of the application, the one of the IoT
    demo to its cloud, its web server and the clients of that, and its answers to searches. *)
Inductive conn := user_tcp_client | user_udp_server | user_conn | web_server | web_client (k : nat) | ptrespconn.

Inductive fn :=
  | fp_uart_intr_handler | fp_uart0_rx_intr_handler | fp_uart_recvTask | fp_uart_test_rx
  | fp_uart1_write_char | fp_uart0_write_char | fp_uart0_write_char_no_wait
  | fp_key_intr_handler | fp_key_3s_cb (key : nat) | fp_key_50ms_cb (key : nat)
  | fp_user_key_long_press | fp_user_key_short_press | fp_user_restart
  | fp_hw_timer_isr_cb | fp_user (n : nat)
  | fp_modbus_receive | fp_modbus_send | fp_user_net_send_pipe
  | fp_user_tcp_dns_found | fp_user_tcp_dns_check_cb | fp_user_tcp_func_process
  | fp_user_tcp_connect_cb | fp_user_tcp_disconnect_cb | fp_user_tcp_reconnect_cb
  | fp_user_tcp_recv_cb | fp_user_tcp_sent_cb | fp_user_udp_recv_cb
  | fp_user_tcp_send | fp_user_udp_send | fp_user_tcp_pipe1_cb | fp_user_udp_pipe_cb
  | fp_user_tcp_status | fp_user_write_config | fp_user_read_config
  | fp_user_smartconfig_done | fp_user_smartconfig_timeout_cb | fp_app_init
  | fp_wifi_check_ip | fp_wifiConnectCb
  | fp_light_dh_pwm_adj_proc | fp_wait_time_overflow_check | fp_device_action
  | fp_user_plug_long_press | fp_user_plug_short_press | fp_user_link_led_timer_cb
  | fp_restart_10ms_cb | fp_upgrade_check_func (arg : option conn) | fp_local_upgrade_deinit
  | fp_webserver_listen | fp_webserver_recv | fp_webserver_recon | fp_webserver_discon | fp_json_scan_cb
  | fp_platform_check_ip (reset_flag : Z) | fp_platform_reconnect | fp_platform_ap_change | fp_platform_dns_check_cb
  | fp_platform_dns_found | fp_platform_timer_get | fp_platform_sent_beacon | fp_system_upgrade_reboot
  | fp_platform_connect_cb | fp_platform_discon_cb | fp_platform_recon_cb | fp_platform_recv_cb | fp_platform_sent_cb
  | fp_user_devicefind_recv
  | fp_handle_dhcp | fp_sdio_slave_isr | fp_sdio_recv_data_callback | fp_at_custom_uart_rx_buffer_fetch_cb | fp_at_sdio_response.

Inductive timer := t_buff | t_dns | t_sc | t_xlink_loop | t_key_restart | WiFiLinker | timer_pwm_adj | device_timer | link_led_timer
  | restart_10ms | upgrade_check_timer | app_upgrade_10s | client_timer | beacon_timer
  | t_key_3s (key : nat) | t_key_50ms (key : nat).

#[export] Instance timer_eq_dec : EqDecision timer. Proof. solve_decision. Defined.
#[export] Instance conn_eq_dec : EqDecision conn. Proof. solve_decision. Defined.
#[export] Instance fn_eq_dec : EqDecision fn. Proof. solve_decision. Defined.

(** ** Calls into the SDK *)

Inductive sdk :=
  (* gpio, interrupts, delays *)
  | gpio_init | gpio_output_set (set_mask clear_mask enable_mask disable_mask : Z) | gpio_input_get
  | gpio_register_set (reg value : Z) | gpio_pin_intr_state_set (i state : Z)
  | ets_isr_attach (inum : Z) (f : fn) | NmiTimSetFunc (f : fn)
  | ets_isr_mask (mask : Z) | ets_isr_unmask (mask : Z)
  | os_delay_us (us : Z) | uart_div_modify (uart_no div : Z) | os_install_putc1 (f : fn)
  (* system *)
  | os_timer_disarm (t : timer) | os_timer_setfn (t : timer) (f : fn) | os_timer_arm (t : timer) (ms repeat_flag : Z)
  | os_printf (msg : string) | system_get_time | system_get_free_heap_size | system_restart | system_restore
  | system_uart_swap | system_os_post (prio sig par : Z) | system_os_task (f : fn) (prio len : Z)
  | system_init_done_cb (f : fn) | system_get_flash_size_map | system_get_chip_id
  | system_param_save_with_protect (sec : Z) (bytes : list Z)
  | system_upgrade_init | system_upgrade_deinit | system_upgrade (data : list Z) | system_upgrade_erase_flash (len : Z)
  | system_upgrade_start (ip : list Z) (port : Z) (version url : list Z) | system_get_sdk_version | os_random
  | system_get_rst_info | system_rtc_mem_write (block : Z) (bytes : list Z)
  | system_upgrade_flag_check | system_upgrade_flag_set (flag : Z) | system_upgrade_reboot | system_upgrade_userbin_check
  | spi_flash_erase_sector (sec : Z) | spi_flash_write (addr : Z) (bytes : list Z)
  (* wifi *)
  | wifi_get_opmode | wifi_set_opmode (mode : Z) | wifi_station_get_connect_status | wifi_get_ip_info (ifx : Z)
  | wifi_set_opmode_current (mode : Z) | wifi_station_set_config_current (config : list Z)
  | wifi_station_set_config | wifi_station_connect | wifi_station_disconnect | wifi_get_macaddr (ifx : Z)
  | smartconfig_stop | smartconfig_start (f : fn) | smartconfig_set_type (ty : Z)
  | wifi_station_scan (f : fn) | wifi_station_config (config : list Z) | wifi_softap_config (config : list Z)
  | wifi_set_sleep_type (ty : Z) | wifi_status_led_install (id name func : Z)
  | wifi_station_get_current_ap_id | wifi_station_ap_change (id : Z) | wifi_station_ap_number_set (n : Z)
  | wifi_station_dhcpc_status | wifi_station_dhcpc_stop | wifi_set_ip_info (ifx ip netmask gw : Z)
  (* pwm *)
  | pwm_init (period : Z) (duty : list Z) (channels : Z) (pins : list (Z * Z * Z)) | pwm_start
  | pwm_set_duty (duty channel : Z) | pwm_get_duty (channel : Z) | pwm_set_period (period : Z) | pwm_get_period
  | set_pwm_debug_en (en : Z) | get_pwm_version
  (* network *)
  | espconn_connect (c : conn) (remote_ip : list Z) | espconn_disconnect (c : conn) | espconn_create (c : conn)
  | espconn_send (c : conn) (remote_ip : list Z) (remote_port : Z) (data : list Z)
  | espconn_regist (c : conn) (f : fn) | espconn_gethostbyname (name : string) (found : fn)
  | espconn_get_connection_info (c : conn) | espconn_sent (c : conn) (data : list Z)
  (* on a UDP block, with the address and port that are in the block when it is called *)
  | espconn_sent_udp (c : conn) (remote_ip : list Z) (remote_port : Z) (data : list Z)
  | espconn_accept (c : conn) | espconn_port | espconn_mdns_init (host server : string) (ip port : Z) (text : string)
  (* AT command library *)
  | at_customLinkMax (n : Z) | at_init | at_register_uart_rx_buffer_fetch_cb (f : fn) | at_set_custom_info (info : list Z)
  | at_fake_uart_enable (enable : bool) (f : fn) | at_fake_uart_rx (data : list Z) | at_cmd_array_regist (names : list string)
  | espconn_tcp_set_wnd (n : Z) | at_port_print (text : list Z) | at_response_ok | at_response_error
  (* lwIP, as its DHCP server calls it *)
  | udp_new | udp_bind (pcb port : Z) | udp_recv (pcb : Z) (f : fn) | udp_remove (pcb : Z) | udp_disconnect (pcb : Z)
  | udp_sendto (pcb : Z) (data : list Z) (ip port : Z) | pbuf_alloc (len : Z) | pbuf_ref | pbuf_free (received : bool)
  | wifi_softap_set_station_info (mac : list Z) (ip : Z) | wifi_softap_dhcps_status
  (* not calls: what the SDIO host does *)
  | sdio_host_read (data : list Z) | sdio_host_write (data : list Z)
  (* xlink *)
  | XlinkSystemInit (product_id product_key : string) | XlinkGetACK | XlinkSetACK (ack : Z)
  | XlinkSystemSetDeviceName (name : string) | XlinkPorcess_UDP_Enable | XlinkSystemSetWifiStatus (s : Z)
  | XlinkSystemLoop (ctime status : Z) | XlinkReSetSDK | xsdk_closeTCP (a : Z)
  | XlinkSendTcpPipe2 (data : list Z) | XlinkSendUdpPipe (data : list Z) (s_addr sin_port : Z)
  | setServerStatus (a b : Z) | process_tcp_data (data : list Z) (len : Z)
  | process_udp_data (data : list Z) (len s_addr sin_port : Z).

Inductive event :=
  | Rd (addr value : Z)
  | Wr (addr value : Z)
  | Do (c : sdk)              (* a call whose result is not used *)
  | Got (c : sdk) (result : Z).

(** The world outside the firmware. *)
Class Env := mk_env {
  hw_read : list event -> Z -> Z;   (* the value of a register *)
  sdk_ret : list event -> sdk -> Z  (* the result of an SDK call *) }.

(** Accesses that change nothing by themselves. *)
Definition is_effect (e : event) : bool :=
  match e with
  | Rd _ _ | Got gpio_input_get _ | Got system_get_time _ | Got system_get_free_heap_size _
  | Got system_get_flash_size_map _ | Got system_get_chip_id _ | Got wifi_get_opmode _
  | Got wifi_station_get_connect_status _ | Got (wifi_get_ip_info _) _
  | Got (pwm_get_duty _) _ | Got pwm_get_period _ | Got get_pwm_version _ => false
  | _ => true
  end.

(** What the firmware did, without what it looked at. *)
Definition effects (l : list event) : list event := List.filter is_effect l.

(** The words written to register [a], oldest first. *)
Definition written (a : Z) (l : list event) : list Z :=
  flat_map (λ e, match e with Wr a' v => if a' =? a then [v] else [] | _ => [] end) l.

(** ** The state of a component: the log, the memory and its own variables *)

Record sys (X : Type) := mk_sys { log : list event; mem : heap; st : X }.
Arguments mk_sys {_} _ _ _.
Arguments log {_} _.
Arguments mem {_} _.
Arguments st {_} _.

Abbreviation F X := (SM (sys X)).

Definition var {X A} (f : X -> A) : F X A := sget (λ s, f (st s)).
Definition modify {X} (f : X -> X) : F X unit := smod (λ s, mk_sys (log s) (mem s) (f (st s))).
Definition get_mem {X} : F X heap := sget mem.
Definition set_mem {X} (h : heap) : F X unit := smod (λ s, mk_sys (log s) h (st s)).
Definition record {X} (e : event) : F X unit := smod (λ s, mk_sys (log s ++ [e]) (mem s) (st s)).

(** A component whose variables [Y] are part of the variables [X] of a bigger one. *)
Class Part (X Y : Type) := mk_part {
  part : X -> Y;
  set_part : Y -> X -> X;
  part_set : forall y x, part (set_part y x) = y;
  set_set : forall y z x, set_part y (set_part z x) = set_part y x;
  set_part_id : forall x, set_part (part x) x = x }.
#[export] Instance part_whole {X} : Part X X.
Proof. by refine (mk_part X X (λ x, x) (λ y _, y) _ _ _). Defined.

Definition pvar {X Y A} `{Part X Y} (f : Y -> A) : F X A := sget (λ s, f (part (st s))).
Definition pmodify {X Y} `{Part X Y} (f : Y -> Y) : F X unit :=
  smod (λ s, mk_sys (log s) (mem s) (set_part (f (part (st s))) (st s))).

(** The SDK's heap: whether and where a block of a given size is placed. *)
Class Alloc := mk_alloc {
  block : heap -> Z -> option positive;
  block_fresh : forall h n p, block h n = Some p -> h !! p = None }.

(** [os_zalloc( size )]: null, or a new block of zeros. *)
Definition os_zalloc `{Alloc} {X} (size : Z) : F X (option ptr) :=
  h <- get_mem ;;
  match block h size with
  | Some p => set_mem (<[p := replicate (Z.to_nat size) 0]> h) ;; sret (Some (mk_ptr p 0))
  | None => sret None
  end.

(** What [spi_flash_read( addr, _, size )] reads, given what was erased and written so far. *)
Class Flash := spi_flash : list event -> Z -> Z -> list Z.
Definition spi_flash_read `{Flash} {X} (addr size : Z) : F X (list Z) :=
  l <- sget log ;; sret (spi_flash l addr size).

(** include/spi_flash.h *)
Definition SPI_FLASH_SEC_SIZE : Z := 4096.

(** [for( ... ) body]: one round per element. *)
Fixpoint sfor {S A} (l : list A) (body : A -> SM S unit) : SM S unit :=
  match l with [] => sret tt | a :: l => body a ;; sfor l body end.

(** The same with a value carried from round to round. *)
Fixpoint sfold {S A B} (l : list A) (body : B -> A -> SM S B) (b : B) : SM S B :=
  match l with [] => sret b | a :: l => b <- body b a ;; sfold l body b end.

Definition BIT (nr : Z) : Z := u32 (Z.shiftl 1 nr).

(** include/eagle_soc.h *)
Definition APB_CLK_FREQ : Z := 80 * 1000000.
Definition UART_CLK_FREQ : Z := APB_CLK_FREQ.
Definition PERIPHS_DPORT_BASEADDR : Z := 0x3ff00000.
Definition PERIPHS_GPIO_BASEADDR : Z := 0x60000300.
Definition PERIPHS_TIMER_BASEDDR : Z := 0x60000600.
Definition PERIPHS_IO_MUX : Z := 0x60000800.
Definition EDGE_INT_ENABLE_REG : Z := PERIPHS_DPORT_BASEADDR + 0x04.
Definition GPIO_ENABLE_ADDRESS : Z := 0x0c.
Definition GPIO_STATUS_ADDRESS : Z := 0x1c.
Definition GPIO_STATUS_W1TC_ADDRESS : Z := 0x24.
Definition GPIO_PIN0_ADDRESS : Z := 0x28.
Definition GPIO_PIN_ADDR (i : Z) : Z := GPIO_PIN0_ADDRESS + i * 4.
Definition GPIO_ID_PIN (n : Z) : Z := 0 + n.
Definition GPIO_PIN_INT_TYPE_SET (x : Z) : Z := Z.land (Z.shiftl x 7) 0x380.
Definition GPIO_PAD_DRIVER_ENABLE : Z := 1.
Definition GPIO_PAD_DRIVER_DISABLE : Z := Z.lnot GPIO_PAD_DRIVER_ENABLE.
Definition GPIO_PIN_PAD_DRIVER_SET (x : Z) : Z := Z.land (Z.shiftl x 2) 0x00000004.
Definition GPIO_AS_PIN_SOURCE : Z := 0.
Definition GPIO_PIN_SOURCE_SET (x : Z) : Z := Z.land (Z.shiftl x 0) 0x00000001.
Definition GPIO_PIN_INTR_DISABLE : Z := 0.
Definition GPIO_PIN_INTR_POSEDGE : Z := 1.
Definition GPIO_PIN_INTR_NEGEDGE : Z := 2.
Definition FRC1_LOAD_ADDRESS : Z := 0x00.
Definition FRC1_CTRL_ADDRESS : Z := 0x08.
Definition PERIPHS_IO_MUX_FUNC : Z := 0x13.
Definition PERIPHS_IO_MUX_FUNC_S : Z := 4.
Definition PERIPHS_IO_MUX_PULLUP : Z := BIT 7.
Definition PERIPHS_IO_MUX_MTDI_U : Z := PERIPHS_IO_MUX + 0x04.
Definition PERIPHS_IO_MUX_MTCK_U : Z := PERIPHS_IO_MUX + 0x08.
Definition PERIPHS_IO_MUX_MTMS_U : Z := PERIPHS_IO_MUX + 0x0C.
Definition PERIPHS_IO_MUX_MTDO_U : Z := PERIPHS_IO_MUX + 0x10.
Definition PERIPHS_IO_MUX_U0TXD_U : Z := PERIPHS_IO_MUX + 0x18.
Definition PERIPHS_IO_MUX_GPIO0_U : Z := PERIPHS_IO_MUX + 0x34.
Definition PERIPHS_IO_MUX_GPIO2_U : Z := PERIPHS_IO_MUX + 0x38.
Definition PERIPHS_IO_MUX_GPIO4_U : Z := PERIPHS_IO_MUX + 0x3C.
Definition PERIPHS_IO_MUX_GPIO5_U : Z := PERIPHS_IO_MUX + 0x40.
Definition FUNC_GPIO0 : Z := 0.
Definition FUNC_GPIO2 : Z := 0.
Definition FUNC_GPIO4 : Z := 0.
Definition FUNC_GPIO5 : Z := 0.
Definition FUNC_GPIO12 : Z := 3.
Definition FUNC_GPIO14 : Z := 3.
Definition FUNC_U0TXD : Z := 0.
Definition FUNC_U0RTS : Z := 4.
Definition FUNC_UART0_CTS : Z := 4.
Definition FUNC_U1TXD_BK : Z := 2.

(** include/ets_sys.h *)
Definition ETS_GPIO_INUM : Z := 4.
Definition ETS_UART_INUM : Z := 5.
Definition ETS_FRC_TIMER1_INUM : Z := 9.

Section Macros.
Context `{Env} {X : Type}.

(** A call whose result is not used. *)
Definition call (c : sdk) : F X unit := record (Do c).

(** A call whose result, a 32-bit word, is used. *)
Definition ask (c : sdk) : F X Z :=
  l <- sget log ;; record (Got c (u32 (sdk_ret l c))) ;; sret (u32 (sdk_ret l c)).

Definition READ_PERI_REG (a : Z) : F X Z :=
  l <- sget log ;; record (Rd a (u32 (hw_read l a))) ;; sret (u32 (hw_read l a)).
Definition WRITE_PERI_REG (a v : Z) : F X unit := record (Wr a (u32 v)).
Definition CLEAR_PERI_REG_MASK (a mask : Z) : F X unit :=
  v <- READ_PERI_REG a ;; WRITE_PERI_REG a (Z.land v (Z.lnot mask)).
Definition SET_PERI_REG_MASK (a mask : Z) : F X unit :=
  v <- READ_PERI_REG a ;; WRITE_PERI_REG a (Z.lor v mask).
Definition SET_PERI_REG_BITS (a bit_map value shift : Z) : F X unit :=
  v <- READ_PERI_REG a ;;
  WRITE_PERI_REG a (Z.lor (Z.land v (Z.lnot (Z.shiftl bit_map shift))) (Z.shiftl value shift)).

Definition TM1_EDGE_INT_ENABLE : F X unit := SET_PERI_REG_MASK EDGE_INT_ENABLE_REG (BIT 1).
Definition GPIO_REG_READ (reg : Z) : F X Z := READ_PERI_REG (PERIPHS_GPIO_BASEADDR + reg).
Definition GPIO_REG_WRITE (reg v : Z) : F X unit := WRITE_PERI_REG (PERIPHS_GPIO_BASEADDR + reg) v.
Definition RTC_REG_WRITE (addr v : Z) : F X unit := WRITE_PERI_REG (PERIPHS_TIMER_BASEDDR + addr) v.
Definition PIN_PULLUP_DIS (pin : Z) : F X unit := CLEAR_PERI_REG_MASK pin PERIPHS_IO_MUX_PULLUP.
Definition PIN_FUNC_SELECT (pin func : Z) : F X unit :=
  v <- READ_PERI_REG pin ;;
  WRITE_PERI_REG pin
    (Z.lor (Z.land v (Z.lnot (Z.shiftl PERIPHS_IO_MUX_FUNC PERIPHS_IO_MUX_FUNC_S)))
           (Z.shiftl (Z.lor (Z.shiftl (Z.land func (BIT 2)) 2) (Z.land func 0x3)) PERIPHS_IO_MUX_FUNC_S)).

Definition GPIO_OUTPUT_SET (gpio_no bit_value : Z) : F X unit :=
  call (gpio_output_set (Z.shiftl bit_value gpio_no) (Z.shiftl (Z.land (Z.lnot bit_value) 0x01) gpio_no)
          (Z.shiftl 1 gpio_no) 0).
Definition GPIO_DIS_OUTPUT (gpio_no : Z) : F X unit := call (gpio_output_set 0 0 0 (Z.shiftl 1 gpio_no)).
Definition GPIO_INPUT_GET (gpio_no : Z) : F X Z :=
  v <- ask gpio_input_get ;; sret (Z.land (Z.shiftr v gpio_no) (BIT 0)).

Definition ETS_INTR_ENABLE (inum : Z) : F X unit := call (ets_isr_unmask (Z.shiftl 1 inum)).
Definition ETS_INTR_DISABLE (inum : Z) : F X unit := call (ets_isr_mask (Z.shiftl 1 inum)).
Definition ETS_UART_INTR_ATTACH (f : fn) : F X unit := call (ets_isr_attach ETS_UART_INUM f).
Definition ETS_UART_INTR_ENABLE : F X unit := ETS_INTR_ENABLE ETS_UART_INUM.
Definition ETS_UART_INTR_DISABLE : F X unit := ETS_INTR_DISABLE ETS_UART_INUM.
Definition ETS_FRC1_INTR_ENABLE : F X unit := ETS_INTR_ENABLE ETS_FRC_TIMER1_INUM.
Definition ETS_GPIO_INTR_ATTACH (f : fn) : F X unit := call (ets_isr_attach ETS_GPIO_INUM f).
Definition ETS_GPIO_INTR_ENABLE : F X unit := ETS_INTR_ENABLE ETS_GPIO_INUM.
Definition ETS_GPIO_INTR_DISABLE : F X unit := ETS_INTR_DISABLE ETS_GPIO_INUM.
End Macros.

(** ** Lemmas and automation *)

Lemma effects_app l k : effects (l ++ k) = effects l ++ effects k.
Proof. apply List.filter_app. Qed.
Lemma written_app a l k : written a (l ++ k) = written a l ++ written a k.
Proof. apply flat_map_app. Qed.

(** [wp m s Q]: run from [s], [m] is defined and its result and final state satisfy [Q]. *)
Definition wp {S A} (m : SM S A) (s : S) (Q : A -> S -> Prop) : Prop := exists a s', m s = Some (a, s') /\ Q a s'.

Lemma wp_ret {S A} (a : A) (s : S) Q : Q a s -> wp (sret a) s Q.
Proof. intros. by exists a, s. Qed.
Lemma wp_bind {S A B} (m : SM S A) (k : A -> SM S B) s Q :
  wp m s (λ a s', wp (k a) s' Q) -> wp (sbind m k) s Q.
Proof. intros (a & s' & E & b & s2 & E2 & HQ). exists b, s2. split; [|done]. unfold sbind. by rewrite E. Qed.
Lemma wp_get {S A} (f : S -> A) s Q : Q (f s) s -> wp (sget f) s Q.
Proof. intros. by exists (f s), s. Qed.
Lemma wp_mono {S A} (m : SM S A) s (P Q : A -> S -> Prop) :
  wp m s P -> (forall a s', P a s' -> Q a s') -> wp m s Q.
Proof. intros (a & s' & E & HP) HI. exists a, s'. auto. Qed.
Lemma wp_when {S} (b : bool) (m : SM S unit) s Q :
  (b = true -> wp m s Q) -> (b = false -> Q tt s) -> wp (swhen b m) s Q.
Proof. destruct b; intros H1 H2; [by apply H1|]. apply wp_ret. by apply H2. Qed.
Lemma wp_lift {S A} (o : option A) a (s : S) Q : o = Some a -> Q a s -> wp (slift o) s Q.
Proof. intros -> ?. by exists a, s. Qed.

Lemma wp_modify {X} (f : X -> X) s (Q : unit -> sys X -> Prop) :
  Q tt (mk_sys (log s) (mem s) (f (st s))) -> wp (modify f) s Q.
Proof. intros. by eexists _, _. Qed.
Lemma wp_var {X A} (f : X -> A) (s : sys X) (Q : A -> sys X -> Prop) : Q (f (st s)) s -> wp (var f) s Q.
Proof. apply (wp_get (λ s, f (st s))). Qed.
Lemma wp_pvar {X Y A} `{Part X Y} (f : Y -> A) s (Q : A -> sys X -> Prop) :
  Q (f (part (st s))) s -> wp (pvar f) s Q.
Proof. intros. by eexists _, _. Qed.
Lemma wp_pmodify {X Y} `{Part X Y} (f : Y -> Y) s (Q : unit -> sys X -> Prop) :
  Q tt (mk_sys (log s) (mem s) (set_part (f (part (st s))) (st s))) -> wp (pmodify f) s Q.
Proof. intros. by eexists _, _. Qed.
Lemma wp_call {X} c s (Q : unit -> sys X -> Prop) :
  Q tt (mk_sys (log s ++ [Do c]) (mem s) (st s)) -> wp (call c) s Q.
Proof. intros. by eexists _, _. Qed.
Lemma wp_ask `{Env} {X} c s (Q : Z -> sys X -> Prop) :
  Q (u32 (sdk_ret (log s) c)) (mk_sys (log s ++ [Got c (u32 (sdk_ret (log s) c))]) (mem s) (st s)) -> wp (ask c) s Q.
Proof. intros. by eexists _, _. Qed.
Lemma wp_read `{Env} {X} a s (Q : Z -> sys X -> Prop) :
  Q (u32 (hw_read (log s) a)) (mk_sys (log s ++ [Rd a (u32 (hw_read (log s) a))]) (mem s) (st s)) ->
  wp (READ_PERI_REG a) s Q.
Proof. intros. by eexists _, _. Qed.
Lemma wp_write {X} a v s (Q : unit -> sys X -> Prop) :
  Q tt (mk_sys (log s ++ [Wr a (u32 v)]) (mem s) (st s)) -> wp (WRITE_PERI_REG a v) s Q.
Proof. intros. by eexists _, _. Qed.

Lemma wp_zalloc `{Alloc} {X} size s p (Q : option ptr -> sys X -> Prop) :
  block (mem s) size = Some p -> Q (Some (mk_ptr p 0)) (mk_sys (log s) (<[p := replicate (Z.to_nat size) 0]> (mem s)) (st s)) ->
  wp (os_zalloc size) s Q.
Proof. intros E HQ. eexists _, _. split; [|exact HQ]. unfold os_zalloc, get_mem. cbn. by rewrite E. Qed.

(** A loop keeps an invariant that may depend on what is left to do. *)
Lemma wp_for {S A} (body : A -> SM S unit) (I : list A -> S -> Prop) l s (Q : unit -> S -> Prop) :
  I l s -> (forall a l' s', I (a :: l') s' -> wp (body a) s' (λ _ s'', I l' s'')) ->
  (forall s', I [] s' -> Q tt s') -> wp (sfor l body) s Q.
Proof.
  intros HI Hb HQ. revert s HI. induction l as [|a l IH]; intros s HI; cbn [sfor]; [by apply wp_ret, HQ|].
  apply wp_bind. apply (wp_mono _ _ _ _ (Hb _ _ _ HI)). intros _ s' HI'. by apply IH.
Qed.
Lemma wp_fold {S A B} (body : B -> A -> SM S B) (I : list A -> B -> S -> Prop) l b s Q :
  I l b s -> (forall a l' b' s', I (a :: l') b' s' -> wp (body b' a) s' (λ b'' s'', I l' b'' s'')) ->
  (forall b' s', I [] b' s' -> Q b' s') -> wp (sfold l body b) s Q.
Proof.
  intros HI Hb HQ. revert b s HI. induction l as [|a l IH]; intros b s HI; cbn [sfold]; [by apply wp_ret, HQ|].
  apply wp_bind. apply (wp_mono _ _ _ _ (Hb _ _ _ _ HI)). intros b' s' HI'. by apply IH.
Qed.

(** Run straight-line code down to the resulting state. *)
Ltac run_board :=
  repeat (unfold call, ask, var, modify, get_mem, set_mem, record, READ_PERI_REG, WRITE_PERI_REG,
    CLEAR_PERI_REG_MASK, SET_PERI_REG_MASK, SET_PERI_REG_BITS, GPIO_REG_READ, GPIO_REG_WRITE, RTC_REG_WRITE,
    TM1_EDGE_INT_ENABLE, PIN_PULLUP_DIS, PIN_FUNC_SELECT, GPIO_OUTPUT_SET, GPIO_DIS_OUTPUT, GPIO_INPUT_GET,
    ETS_INTR_ENABLE, ETS_INTR_DISABLE, ETS_UART_INTR_ATTACH, ETS_UART_INTR_ENABLE, ETS_UART_INTR_DISABLE,
    ETS_FRC1_INTR_ENABLE, ETS_GPIO_INTR_ATTACH, ETS_GPIO_INTR_ENABLE, ETS_GPIO_INTR_DISABLE in *);
  cbn [sbind sret sget smod slift swhen mbind option_bind log mem st] in *.

(** A register that only the firmware changes: it reads back what was last written. *)
Definition reads_back `{Env} (a : Z) : Prop := forall l v, hw_read (l ++ [Wr a v]) a = v.

(** ** Timers *)

(** Whether timer [t] is running, from the calls made so far; that a one-shot
    timer stops by itself when it fires is not part of it. *)
Definition armed_step (t : timer) (b : bool) (e : event) : bool :=
  match e with
  | Do (os_timer_arm t' _ _) => if bool_decide (t' = t) then true else b
  | Do (os_timer_disarm t') => if bool_decide (t' = t) then false else b
  | _ => b
  end.
Definition armed (t : timer) (l : list event) : bool := fold_left (armed_step t) l false.

Lemma armed_snoc t l e : armed t (l ++ [e]) = armed_step t (armed t l) e.
Proof. unfold armed. by rewrite fold_left_app. Qed.

(** ** Parts that do not touch each other *)

(** Changing the variables [Y] leaves the variables [Z] alone. *)
Class Apart (X Y Z : Type) {PY : Part X Y} {PZ : Part X Z} := {
  part_apart : forall (y : Y) (x : X), (part (set_part y x) : Z) = part x }.

(** ** Partial correctness

    [lp m s Q]: if [m], run from [s], is defined, its result satisfies [Q]. *)
Definition lp {S A} (m : SM S A) (s : S) (Q : A -> S -> Prop) : Prop := forall a s', m s = Some (a, s') -> Q a s'.

Lemma lp_ret {S A} (a : A) (s : S) (Q : A -> S -> Prop) : Q a s -> lp (sret a) s Q.
Proof. intros HQ ? ? [= <- <-]. done. Qed.
Lemma lp_bind {S A B} (m : SM S A) (k : A -> SM S B) s (Q : B -> S -> Prop) :
  lp m s (λ a s', lp (k a) s' Q) -> lp (sbind m k) s Q.
Proof.
  intros H b s2. unfold sbind. destruct (m s) as [[a s1]|] eqn:E; [|discriminate]. cbn. intros E2. exact (H a s1 E b s2 E2).
Qed.
Lemma lp_mono {S A} (m : SM S A) s (P Q : A -> S -> Prop) : lp m s P -> (forall a s', P a s' -> Q a s') -> lp m s Q.
Proof. intros H HI a s' E. apply HI, H, E. Qed.
Lemma lp_lift {S A} (o : option A) (s : S) (Q : A -> S -> Prop) : (forall a, o = Some a -> Q a s) -> lp (slift o) s Q.
Proof. intros H a s'. unfold slift. destruct o; [|discriminate]. cbn. intros [= <- <-]. by apply H. Qed.
Lemma lp_when {S} (b : bool) (m : SM S unit) s (Q : unit -> S -> Prop) :
  (b = true -> lp m s Q) -> (b = false -> Q tt s) -> lp (swhen b m) s Q.
Proof. destruct b; intros H1 H2; [by apply H1|]. apply lp_ret. by apply H2. Qed.
Lemma lp_get {S A} (f : S -> A) s (Q : A -> S -> Prop) : Q (f s) s -> lp (sget f) s Q.
Proof. intros HQ ? ? [= <- <-]. done. Qed.
Lemma lp_pvar {X Y A} `{Part X Y} (f : Y -> A) s (Q : A -> sys X -> Prop) : Q (f (part (st s))) s -> lp (pvar f) s Q.
Proof. apply (lp_get (λ s, f (part (st s)))). Qed.
Lemma lp_pmodify {X Y} `{Part X Y} (f : Y -> Y) s (Q : unit -> sys X -> Prop) :
  Q tt (mk_sys (log s) (mem s) (set_part (f (part (st s))) (st s))) -> lp (pmodify f) s Q.
Proof. intros HQ ? ? [= <- <-]. done. Qed.
Lemma lp_set_mem {X} h s (Q : unit -> sys X -> Prop) : Q tt (mk_sys (log s) h (st s)) -> lp (set_mem h) s Q.
Proof. intros HQ ? ? [= <- <-]. done. Qed.
Lemma lp_call {X} c s (Q : unit -> sys X -> Prop) : Q tt (mk_sys (log s ++ [Do c]) (mem s) (st s)) -> lp (call c) s Q.
Proof. intros HQ ? ? [= <- <-]. done. Qed.
Lemma lp_ask `{Env} {X} c s (Q : Z -> sys X -> Prop) :
  Q (u32 (sdk_ret (log s) c)) (mk_sys (log s ++ [Got c (u32 (sdk_ret (log s) c))]) (mem s) (st s)) -> lp (ask c) s Q.
Proof. intros HQ a s' E. run_board. injection E as <- <-. done. Qed.

(** ** What a computation may add to the log *)

Definition emits {X A} (P : event -> Prop) (m : F X A) : Prop :=
  forall s, lp m s (λ _ s', exists k, log s' = log s ++ k /\ Forall P k).

Section Emits.
Context {X : Type} (P : event -> Prop).

Lemma emits_ret {A} (a : A) : emits (X := X) P (sret a).
Proof. intros s. apply lp_ret. exists []. by rewrite app_nil_r. Qed.
Lemma emits_bind {A B} (m : F X A) (k : A -> F X B) : emits P m -> (forall a, emits P (k a)) -> emits P (sbind m k).
Proof.
  intros Hm Hk s. apply lp_bind. eapply lp_mono; [apply Hm|]. cbv beta. intros a s1 (k1 & E1 & F1).
  eapply lp_mono; [apply Hk|]. cbv beta. intros b s2 (k2 & E2 & F2).
  exists (k1 ++ k2). rewrite E2, E1, <- app_assoc. split; [done|]. by apply Forall_app.
Qed.
Lemma emits_lift {A} (o : option A) : emits (X := X) P (slift o).
Proof. intros s. apply lp_lift. intros a _. exists []. by rewrite app_nil_r. Qed.
Lemma emits_get {A} (f : sys X -> A) : emits P (sget f).
Proof. intros s. apply lp_get. exists []. by rewrite app_nil_r. Qed.
Lemma emits_pmodify {Y} `{Part X Y} (f : Y -> Y) : emits (X := X) P (pmodify f).
Proof. intros s. apply lp_pmodify. exists []. by rewrite app_nil_r. Qed.
Lemma emits_when (b : bool) (m : F X unit) : emits P m -> emits P (swhen b m).
Proof. intros Hm. destruct b; [done|apply emits_ret]. Qed.
Lemma emits_if {A} (b : bool) (m k : F X A) : emits P m -> emits P k -> emits P (if b then m else k).
Proof. by destruct b. Qed.
Lemma emits_call c : P (Do c) -> emits (X := X) P (call c).
Proof. intros Hc s. apply lp_call. exists [Do c]. split; [done|by apply Forall_singleton]. Qed.
Lemma emits_ask `{Env} c : (forall v, P (Got c v)) -> emits (X := X) P (ask c).
Proof. intros Hc s. apply lp_ask. eexists. split; [done|by apply Forall_singleton]. Qed.
Lemma emits_for {A} (l : list A) (body : A -> F X unit) : (forall a, emits P (body a)) -> emits P (sfor l body).
Proof. intros Hb. induction l as [|a l IH]; [apply emits_ret|]. by apply emits_bind. Qed.
Lemma emits_option {A B} (o : option A) (m : A -> F X B) (k : F X B) : (forall a, emits P (m a)) -> emits P k ->
  emits P (match o with Some a => m a | None => k end).
Proof. by destruct o. Qed.
Lemma emits_option' {A B} (o : option A) (m : A -> F X B) (k : F X B) : emits P k -> (forall a, emits P (m a)) ->
  emits P (match o with None => k | Some a => m a end).
Proof. by destruct o. Qed.
End Emits.

Lemma emits_mono {X A} (P R : event -> Prop) (m : F X A) : (forall e, P e -> R e) -> emits P m -> emits R m.
Proof.
  intros HI Hm s. eapply lp_mono; [apply Hm|]. cbv beta. intros a s' (k & E & Fk). exists k. split; [done|]. by eapply Forall_weaken.
Qed.

Create HintDb emits.
#[export] Hint Resolve emits_ret emits_lift emits_get emits_pmodify emits_when emits_if emits_for emits_option : emits.
#[export] Hint Extern 1 (emits _ (call _)) => (apply emits_call; done) : emits.
#[export] Hint Extern 1 (emits _ (ask _)) => (apply emits_ask; done) : emits.
#[export] Hint Extern 1 (emits _ (pvar _)) => (apply emits_get) : emits.
#[export] Hint Extern 2 (emits _ (sbind _ _)) => (apply emits_bind; [|intros ?]) : emits.
