(* ===== verification/I2c.v ===== *)
(** * I2c: the bit-banged I2C master of driver/i2c_master.c

    The operations, a decoder of the two bus lines into I2C symbols as the
    specification, and what each operation puts on the bus. *)

From Stdlib Require Import String.
From S2P Require Import Prelude CMem Board.
Local Open Scope string_scope.
Local Open Scope Z_scope.
Local Open Scope sm_scope.
Local Open Scope list_scope.

Record i2c_vars := mk_i2c { m_nLastSDA : Z; m_nLastSCL : Z }.
#[export] Instance eta_i2c : Settable i2c_vars := λ r, mk_i2c (m_nLastSDA r) (m_nLastSCL r).

(** driver/i2c_master.h *)
Definition I2C_MASTER_SDA_GPIO : Z := 2.
Definition I2C_MASTER_SCL_GPIO : Z := 14.
Definition I2C_MASTER_SDA_MUX : Z := PERIPHS_IO_MUX_GPIO2_U.
Definition I2C_MASTER_SCL_MUX : Z := PERIPHS_IO_MUX_MTMS_U.
Definition I2C_MASTER_SDA_FUNC : Z := FUNC_GPIO2.
Definition I2C_MASTER_SCL_FUNC : Z := FUNC_GPIO14.
Definition SDA_BIT : Z := Z.shiftl 1 I2C_MASTER_SDA_GPIO.
Definition SCL_BIT : Z := Z.shiftl 1 I2C_MASTER_SCL_GPIO.
Definition I2C_MASTER_SDA_HIGH_SCL_HIGH : sdk := gpio_output_set (Z.lor SDA_BIT SCL_BIT) 0 (Z.lor SDA_BIT SCL_BIT) 0.
Definition I2C_MASTER_SDA_HIGH_SCL_LOW : sdk := gpio_output_set SDA_BIT SCL_BIT (Z.lor SDA_BIT SCL_BIT) 0.
Definition I2C_MASTER_SDA_LOW_SCL_HIGH : sdk := gpio_output_set SCL_BIT SDA_BIT (Z.lor SDA_BIT SCL_BIT) 0.
Definition I2C_MASTER_SDA_LOW_SCL_LOW : sdk := gpio_output_set 0 (Z.lor SDA_BIT SCL_BIT) (Z.lor SDA_BIT SCL_BIT) 0.

Section Master.
Context `{Env}.

Definition i2c_master_setDC (SDA SCL : Z) : F i2c_vars unit :=
  let SDA := Z.land SDA 0x01 in
  let SCL := Z.land SCL 0x01 in
  modify (λ v, v <| m_nLastSDA := SDA |>) ;;
  modify (λ v, v <| m_nLastSCL := SCL |>) ;;
  if (0 =? SDA) && (0 =? SCL) then call I2C_MASTER_SDA_LOW_SCL_LOW
  else if (0 =? SDA) && (1 =? SCL) then call I2C_MASTER_SDA_LOW_SCL_HIGH
  else if (1 =? SDA) && (0 =? SCL) then call I2C_MASTER_SDA_HIGH_SCL_LOW
  else call I2C_MASTER_SDA_HIGH_SCL_HIGH.

Definition i2c_master_getDC : F i2c_vars Z :=
  sda_out <- GPIO_INPUT_GET (GPIO_ID_PIN I2C_MASTER_SDA_GPIO) ;; sret (u8 sda_out).

Definition i2c_master_wait (us : Z) : F i2c_vars unit := call (os_delay_us us).

Definition i2c_master_stop : F i2c_vars unit :=
  i2c_master_wait 5 ;;
  scl <- var m_nLastSCL ;; i2c_master_setDC 0 scl ;;
  i2c_master_wait 5 ;;
  i2c_master_setDC 0 1 ;;
  i2c_master_wait 5 ;;
  i2c_master_setDC 1 1 ;;
  i2c_master_wait 5.

Definition i2c_master_init : F i2c_vars unit :=
  i2c_master_setDC 1 0 ;;
  i2c_master_wait 5 ;;
  i2c_master_setDC 0 0 ;;
  i2c_master_wait 5 ;;
  i2c_master_setDC 1 0 ;;
  i2c_master_wait 5 ;;
  sfor (seqZ 0 28) (λ _,
    i2c_master_setDC 1 0 ;;
    i2c_master_wait 5 ;;
    i2c_master_setDC 1 1 ;;
    i2c_master_wait 5) ;;
  i2c_master_stop.

Definition i2c_master_gpio_init : F i2c_vars unit :=
  ETS_GPIO_INTR_DISABLE ;;
  PIN_FUNC_SELECT I2C_MASTER_SDA_MUX I2C_MASTER_SDA_FUNC ;;
  PIN_FUNC_SELECT I2C_MASTER_SCL_MUX I2C_MASTER_SCL_FUNC ;;
  v <- GPIO_REG_READ (GPIO_PIN_ADDR (GPIO_ID_PIN I2C_MASTER_SDA_GPIO)) ;;
  GPIO_REG_WRITE (GPIO_PIN_ADDR (GPIO_ID_PIN I2C_MASTER_SDA_GPIO)) (Z.lor v (GPIO_PIN_PAD_DRIVER_SET GPIO_PAD_DRIVER_ENABLE)) ;;
  v <- GPIO_REG_READ GPIO_ENABLE_ADDRESS ;;
  GPIO_REG_WRITE GPIO_ENABLE_ADDRESS (Z.lor v (Z.shiftl 1 I2C_MASTER_SDA_GPIO)) ;;
  v <- GPIO_REG_READ (GPIO_PIN_ADDR (GPIO_ID_PIN I2C_MASTER_SCL_GPIO)) ;;
  GPIO_REG_WRITE (GPIO_PIN_ADDR (GPIO_ID_PIN I2C_MASTER_SCL_GPIO)) (Z.lor v (GPIO_PIN_PAD_DRIVER_SET GPIO_PAD_DRIVER_ENABLE)) ;;
  v <- GPIO_REG_READ GPIO_ENABLE_ADDRESS ;;
  GPIO_REG_WRITE GPIO_ENABLE_ADDRESS (Z.lor v (Z.shiftl 1 I2C_MASTER_SCL_GPIO)) ;;
  call I2C_MASTER_SDA_HIGH_SCL_HIGH ;;
  ETS_GPIO_INTR_ENABLE ;;
  i2c_master_init.

Definition i2c_master_start : F i2c_vars unit :=
  scl <- var m_nLastSCL ;; i2c_master_setDC 1 scl ;;
  i2c_master_wait 5 ;;
  i2c_master_setDC 1 1 ;;
  i2c_master_wait 5 ;;
  i2c_master_setDC 0 1 ;;
  i2c_master_wait 5.

Definition i2c_master_setAck (level : Z) : F i2c_vars unit :=
  sda <- var m_nLastSDA ;; i2c_master_setDC sda 0 ;;
  i2c_master_wait 5 ;;
  i2c_master_setDC level 0 ;;
  i2c_master_wait 5 ;;
  i2c_master_setDC level 1 ;;
  i2c_master_wait 8 ;;
  i2c_master_setDC level 0 ;;
  i2c_master_wait 5 ;;
  i2c_master_setDC 1 0 ;;
  i2c_master_wait 5.

Definition i2c_master_getAck : F i2c_vars Z :=
  sda <- var m_nLastSDA ;; i2c_master_setDC sda 0 ;;
  i2c_master_wait 5 ;;
  i2c_master_setDC 1 0 ;;
  i2c_master_wait 5 ;;
  i2c_master_setDC 1 1 ;;
  i2c_master_wait 5 ;;
  retVal <- i2c_master_getDC ;;
  i2c_master_wait 5 ;;
  i2c_master_setDC 1 0 ;;
  i2c_master_wait 5 ;;
  sret retVal.

Definition i2c_master_checkAck : F i2c_vars bool :=
  r <- i2c_master_getAck ;; sret (if negb (r =? 0) then false else true).

Definition i2c_master_send_ack : F i2c_vars unit := i2c_master_setAck 0x0.
Definition i2c_master_send_nack : F i2c_vars unit := i2c_master_setAck 0x1.

Definition i2c_master_readByte : F i2c_vars Z :=
  i2c_master_wait 5 ;;
  sda <- var m_nLastSDA ;; i2c_master_setDC sda 0 ;;
  i2c_master_wait 5 ;;
  retVal <- sfold (seqZ 0 8) (λ retVal i,
    i2c_master_wait 5 ;;
    i2c_master_setDC 1 0 ;;
    i2c_master_wait 5 ;;
    i2c_master_setDC 1 1 ;;
    i2c_master_wait 5 ;;
    k <- i2c_master_getDC ;;
    i2c_master_wait 5 ;;
    swhen (i =? 7) (i2c_master_wait 3) ;;
    let k := u8 (Z.shiftl k (7 - i)) in
    sret (Z.lor retVal k)) 0 ;;
  i2c_master_setDC 1 0 ;;
  i2c_master_wait 5 ;;
  sret retVal.

Definition i2c_master_writeByte (wrdata : Z) : F i2c_vars unit :=
  i2c_master_wait 5 ;;
  sda <- var m_nLastSDA ;; i2c_master_setDC sda 0 ;;
  i2c_master_wait 5 ;;
  sfor (rev (seqZ 0 8)) (λ i,
    let dat := u8 (Z.shiftr wrdata i) in
    i2c_master_setDC dat 0 ;;
    i2c_master_wait 5 ;;
    i2c_master_setDC dat 1 ;;
    i2c_master_wait 5 ;;
    swhen (i =? 0) (i2c_master_wait 3) ;;
    i2c_master_setDC dat 0 ;;
    i2c_master_wait 5).
End Master.

(** ** The humidity sensor of examples/IoT_Demo/user/user_sensor.c, a client of the master *)

Definition MVH3004_Addr : Z := 0x88.

Section Sensor.
Context `{Env}.

(** [pData] is the caller's buffer; the result is the buffer afterwards. *)
Definition user_mvh3004_burst_read (addr : Z) (pData : list Z) (len : Z) : F i2c_vars (bool * list Z) :=
  i2c_master_start ;;
  i2c_master_writeByte addr ;;
  ack <- i2c_master_getAck ;;
  if negb (ack =? 0) then
    call (os_printf "addr not ack when tx write cmd ") ;;
    i2c_master_stop ;;
    sret (false, pData)
  else
  i2c_master_stop ;;
  i2c_master_wait 40000 ;;
  i2c_master_start ;;
  i2c_master_writeByte (u8 (addr + 1)) ;;
  ack <- i2c_master_getAck ;;
  if negb (ack =? 0) then
    call (os_printf "addr not ack when tx write cmd ") ;;
    i2c_master_stop ;;
    sret (false, pData)
  else
  pData <- sfold (seqZ 0 len) (λ pData i,
    b <- i2c_master_readByte ;;
    pData <- slift (wr pData i b) ;;
    i2c_master_setAck (if i =? len - 1 then 1 else 0) ;;
    sret pData) pData ;;
  i2c_master_stop ;;
  sret (true, pData).

Definition user_mvh3004_read_th (data : list Z) : F i2c_vars (bool * list Z) :=
  user_mvh3004_burst_read MVH3004_Addr data 4.

Definition user_mvh3004_init : F i2c_vars unit := i2c_master_gpio_init.
End Sensor.

(** ** The bus as its other members see it

    [bus] is what the level changes and pauses of the log mean on an I2C bus:
    a bit is transferred when the clock goes high and low again while the data
    line rests, a data edge while the clock is high is a START or a STOP. *)

Inductive symbol := Start | Stop | Bit (b : Z).

Record bus := mk_bus {
  sda : Z; scl : Z;
  stable : bool;          (* the data line has rested since the clock rose *)
  age : Z;                (* microseconds since the last level change *)
  clean : bool;           (* one line at a time moved, levels were held 5 us, the input was
                             sampled while the clock was high and the data line released *)
  syms : list symbol;
  samples : list Z }.

Definition drive (a c : Z) (b : bus) : bus :=
  let dm := negb (a =? sda b) in
  let cm := negb (c =? scl b) in
  mk_bus a c
    (if scl b =? 1 then (if c =? 1 then stable b && negb dm else false) else (c =? 1))
    (if dm || cm then 0 else age b)
    (clean b && negb (dm && cm) && (negb (dm || cm) || (5 <=? age b)))
    (syms b ++
      if scl b =? 1 then
        if c =? 1 then if dm then [if a =? 0 then Start else Stop] else []
        else if stable b then [Bit (sda b)] else []
      else [])
    (samples b).

Definition hold (us : Z) (b : bus) : bus :=
  mk_bus (sda b) (scl b) (stable b) (age b + us) (clean b) (syms b) (samples b).

Definition sample (v : Z) (b : bus) : bus :=
  mk_bus (sda b) (scl b) (stable b) (age b)
    (clean b && (sda b =? 1) && (scl b =? 1) && (5 <=? age b)) (syms b)
    (samples b ++ [Z.land (Z.shiftr v I2C_MASTER_SDA_GPIO) 1]).

Definition pin_level (pin set clr old : Z) : Z :=
  if Z.testbit set pin then 1 else if Z.testbit clr pin then 0 else old.

Definition bus_step (b : bus) (e : event) : bus :=
  match e with
  | Do (gpio_output_set set clr _ _) =>
      drive (pin_level I2C_MASTER_SDA_GPIO set clr (sda b)) (pin_level I2C_MASTER_SCL_GPIO set clr (scl b)) b
  | Do (os_delay_us us) => hold us b
  | Got gpio_input_get v => sample v b
  | _ => b
  end.

(** Both lines are pulled up before the first access. *)
Definition bus_of (l : list event) : bus := fold_left bus_step l (mk_bus 1 1 false 0 true [] []).

(** The driver's record of the lines agrees with the bus. *)
Record at_bus (s : sys i2c_vars) (b : bus) : Prop := mk_at_bus {
  ab_bus : bus_of (log s) = b;
  ab_sda : m_nLastSDA (st s) = sda b;
  ab_scl : m_nLastSCL (st s) = scl b }.

Section Bus.
Context `{Env}.
Implicit Types (s : sys i2c_vars) (b : bus).

Lemma bus_of_snoc l e : bus_of (l ++ [e]) = bus_step (bus_of l) e.
Proof. unfold bus_of. by rewrite fold_left_app. Qed.

Lemma bus_of_step l e b b' : bus_of l = b -> bus_step b e = b' -> bus_of (l ++ [e]) = b'.
Proof. intros <- <-. apply bus_of_snoc. Qed.

Lemma bit_cases x : Z.land x 1 = 0 \/ Z.land x 1 = 1.
Proof. rewrite land_1. dlia. Qed.

Lemma wp_setDC_any s b a c (Q : unit -> sys i2c_vars -> Prop) :
  bus_of (log s) = b -> (forall s', at_bus s' (drive (Z.land a 1) (Z.land c 1) b) -> Q tt s') ->
  wp (i2c_master_setDC a c) s Q.
Proof.
  intros Hb HQ. unfold i2c_master_setDC. cbv zeta. do 2 (apply wp_bind, wp_modify).
  destruct (bit_cases a) as [Ea|Ea], (bit_cases c) as [Ec|Ec]; rewrite Ea, Ec in *;
    (eexists _, _; split; [reflexivity|]; apply HQ; split; [|reflexivity..];
     refine (bus_of_step _ _ _ _ Hb _); reflexivity).
Qed.

Lemma wp_setDC s b a c (Q : unit -> sys i2c_vars -> Prop) :
  at_bus s b -> (forall s', at_bus s' (drive (Z.land a 1) (Z.land c 1) b) -> Q tt s') ->
  wp (i2c_master_setDC a c) s Q.
Proof. intros A. apply wp_setDC_any, A. Qed.

Lemma wp_wait s b us (Q : unit -> sys i2c_vars -> Prop) :
  at_bus s b -> (forall s', at_bus s' (hold us b) -> Q tt s') -> wp (i2c_master_wait us) s Q.
Proof.
  intros [Hb H1 H2] HQ. eexists _, _. split; [reflexivity|]. apply HQ. split; [|done..].
  by refine (bus_of_step _ _ _ _ Hb _).
Qed.

Lemma wp_printf s b msg (Q : unit -> sys i2c_vars -> Prop) :
  at_bus s b -> (forall s', at_bus s' b -> Q tt s') -> wp (call (os_printf msg)) s Q.
Proof.
  intros [Hb H1 H2] HQ. eexists _, _. split; [reflexivity|]. apply HQ. split; [|done..].
  by refine (bus_of_step _ _ _ _ Hb _).
Qed.

Lemma wp_getDC s b (Q : Z -> sys i2c_vars -> Prop) :
  at_bus s b -> (forall v s', at_bus s' (sample v b) -> Q (Z.land (Z.shiftr v 2) 1) s') ->
  wp i2c_master_getDC s Q.
Proof.
  intros [Hb H1 H2] HQ. unfold i2c_master_getDC. eexists _, _. split; [reflexivity|].
  set (v := u32 (sdk_ret (log s) gpio_input_get)). change (BIT 0) with 1.
  rewrite (u8_small (Z.land _ _)) by (rewrite land_1; dlia). apply HQ. split; [|done..].
  by refine (bus_of_step _ _ _ _ Hb _).
Qed.

(** The bus between two operations. *)
Record rest b : Prop := mk_rest {
  rest_stable : stable b = false; rest_age : 5 <= age b;
  rest_sda : sda b = 0 \/ sda b = 1; rest_scl : scl b = 0 \/ scl b = 1 }.

(** From [b] the operation put [new] on the bus and sampled [smp]; the lines are left at [a], [c]. *)
Record ends b (new : list symbol) (smp : list Z) (a c : Z) (b' : bus) : Prop := mk_ends {
  e_syms : syms b' = syms b ++ new; e_samples : samples b' = samples b ++ smp;
  e_clean : clean b' = clean b; e_stable : stable b' = false; e_age : 5 <= age b';
  e_sda : sda b' = a; e_scl : scl b' = c }.

Lemma ends_rest b new smp a c b' : ends b new smp a c b' -> a = 0 \/ a = 1 -> c = 0 \/ c = 1 -> rest b'.
Proof. intros [] ? ?. split; try done; congruence. Qed.

Lemma ends_trans b n1 m1 a1 c1 b1 n2 m2 a2 c2 b2 :
  ends b n1 m1 a1 c1 b1 -> ends b1 n2 m2 a2 c2 b2 -> ends b (n1 ++ n2) (m1 ++ m2) a2 c2 b2.
Proof. intros [] []. split; try done; [rewrite app_assoc..|]; congruence. Qed.
End Bus.

(** Step through an operation, following the bus. *)
Ltac bus_go :=
  repeat lazymatch goal with
  | |- wp (sbind _ _) _ _ => apply wp_bind
  | |- wp (sret _) _ _ => apply wp_ret
  | A : at_bus ?s ?b |- wp (i2c_master_setDC _ _) ?s _ => apply (wp_setDC s b _ _ _ A); clear A; intros ? A
  | A : at_bus ?s ?b |- wp (i2c_master_wait _) ?s _ => apply (wp_wait s b _ _ A); clear A; intros ? A
  | A : at_bus ?s ?b |- wp (call (os_printf _)) ?s _ => apply (wp_printf s b _ _ A); clear A; intros ? A
  | A : at_bus ?s ?b |- wp i2c_master_getDC ?s _ => apply (wp_getDC s b _ A); clear A; intros ? ? A
  | A : at_bus ?s ?b |- wp (var m_nLastSDA) ?s _ => apply wp_get; rewrite (ab_sda s b A)
  | A : at_bus ?s ?b |- wp (var m_nLastSCL) ?s _ => apply wp_get; rewrite (ab_scl s b A)
  | |- wp (swhen _ _) _ _ => apply wp_when; intros
  end.

(** Compute what a concrete sequence of levels and pauses does. *)
Ltac bus_compute :=
  cbn [sda scl stable age clean syms samples hold drive sample];
  change (Z.land 0 1) with 0; change (Z.land 1 1) with 1;
  cbn; repeat match goal with |- context [5 <=? ?t] => ztrue (5 <=? t) end;
  rewrite ?andb_true_r, ?app_nil_r, <- ?app_assoc; cbn; try done; try lia.
Ltac bus_done A :=
  eexists; split; [exact A|]; split; bus_compute.

Section Operations.
Context `{Env}.
Implicit Types (s : sys i2c_vars) (b : bus).

Lemma start_spec s b :
  at_bus s b -> rest b -> (scl b = 1 -> sda b = 1) ->
  wp i2c_master_start s (λ _ s', exists b', at_bus s' b' /\ ends b [Start] [] 0 1 b').
Proof.
  intros A [Rs Ra Rd Rc] Hs. destruct b as [d c stb ag cl sy sm]. cbn in *. subst stb.
  unfold i2c_master_start. bus_go.
  destruct Rc as [->| ->]; [destruct Rd as [->| ->]|rewrite (Hs eq_refl) in *]; bus_done A.
Qed.

Lemma stop_spec s b :
  at_bus s b -> rest b -> scl b = 0 ->
  wp i2c_master_stop s (λ _ s', exists b', at_bus s' b' /\ ends b [Stop] [] 1 1 b').
Proof.
  intros A [Rs Ra Rd Rc] Hs. destruct b as [d c stb ag cl sy sm]. cbn in *. subst stb c.
  unfold i2c_master_stop. bus_go. destruct Rd as [->| ->]; bus_done A.
Qed.

Lemma setAck_spec s b level :
  at_bus s b -> rest b -> level = 0 \/ level = 1 ->
  wp (i2c_master_setAck level) s (λ _ s', exists b', at_bus s' b' /\ ends b [Bit level] [] 1 0 b').
Proof.
  intros A [Rs Ra Rd Rc] Hl. destruct b as [d c stb ag cl sy sm]. cbn in *. subst stb.
  unfold i2c_master_setAck. bus_go.
  destruct Rd as [->| ->], Rc as [->| ->], Hl as [->| ->]; bus_done A.
Qed.

Lemma getAck_spec s b :
  at_bus s b -> rest b ->
  wp i2c_master_getAck s (λ r s', exists b', at_bus s' b' /\ ends b [Bit 1] [r] 1 0 b').
Proof.
  intros A [Rs Ra Rd Rc]. destruct b as [d c stb ag cl sy sm]. cbn in *. subst stb.
  unfold i2c_master_getAck. bus_go.
  destruct Rd as [->| ->], Rc as [->| ->]; bus_done A.
Qed.

(** *** Writing a byte *)

Definition byte_bits (w : Z) : list symbol := (λ i, Bit (Z.land (Z.shiftr w i) 1)) <$> rev (seqZ 0 8).

Lemma u8_bit x : Z.land (u8 x) 1 = Z.land x 1.
Proof. unfold u8. rewrite !land_1. dlia. Qed.

Lemma write_round s b w i :
  at_bus s b -> rest b -> scl b = 0 ->
  wp (let dat := u8 (Z.shiftr w i) in
      i2c_master_setDC dat 0 ;; i2c_master_wait 5 ;; i2c_master_setDC dat 1 ;; i2c_master_wait 5 ;;
      swhen (i =? 0) (i2c_master_wait 3) ;; i2c_master_setDC dat 0 ;; i2c_master_wait 5) s
    (λ _ s', exists b' v, at_bus s' b' /\ ends b [Bit (Z.land (Z.shiftr w i) 1)] [] v 0 b' /\ rest b').
Proof.
  intros A [Rs Ra Rd Rc] Hs. destruct b as [d c stb ag cl sy sm]. cbn in *. subst stb c. cbv zeta.
  pose proof (u8_bit (Z.shiftr w i)) as Eb. destruct (bit_cases (Z.shiftr w i)) as [E|E]; rewrite E in Eb |- *;
  bus_go; rewrite Eb in A;
  (destruct Rd as [->| ->]; (eexists _, _; split; [exact A|]; (split; [split; [..|reflexivity|reflexivity]|split]; bus_compute))).
  all: tauto.
Qed.

Lemma writeByte_spec s b w :
  at_bus s b -> rest b ->
  wp (i2c_master_writeByte w) s (λ _ s', exists b' v, at_bus s' b' /\ ends b (byte_bits w) [] v 0 b' /\ rest b').
Proof.
  intros A R. unfold i2c_master_writeByte. bus_go.
  assert (R0 : exists b0, at_bus s'1 b0 /\ ends b [] [] (sda b) 0 b0 /\ rest b0).
  { destruct R as [Rs Ra Rd Rc]. destruct b as [d c stb ag cl sy sm]. cbn in *. subst stb.
    destruct Rd as [->| ->], Rc as [->| ->]; (eexists; split; [exact A|]; split; split; bus_compute); tauto. }
  clear A. destruct R0 as (b0 & A & E0 & R0).
  apply (wp_for _ (λ l s', exists b' v done, rev (seqZ 0 8) = done ++ l /\ at_bus s' b' /\
    ends b ((λ i, Bit (Z.land (Z.shiftr w i) 1)) <$> done) [] v 0 b' /\ rest b')).
  - exists b0, (sda b), []. done.
  - intros i l s2 (b' & v & done & Hl & A' & E & R').
    eapply wp_mono; [apply (write_round s2 b' w i A' R'); apply E|].
    intros _ s'' (b2 & v2 & A2 & E2 & R2). exists b2, v2, (done ++ [i]). rewrite <- app_assoc. split; [done|].
    split; [done|]. split; [|done]. rewrite fmap_app. exact (ends_trans _ _ _ _ _ _ _ [] _ _ _ E E2).
  - intros s2 (b' & v & done & Hl & A' & E & R'). rewrite app_nil_r in Hl. subst done. eauto.
Qed.

(** *** Reading a byte *)

(** Inside the loop the clock is high after each round, its bit still pending. *)
Definition pending b : list symbol := if (scl b =? 1) && stable b then [Bit (sda b)] else [].

Record mid b (new : list symbol) (smp : list Z) (b' : bus) : Prop := mk_mid {
  m_syms : syms b' ++ pending b' = syms b ++ new; m_samples : samples b' = samples b ++ smp;
  m_clean : clean b' = clean b; m_age : 5 <= age b';
  m_line : (sda b' = 0 \/ sda b' = 1) /\ scl b' = 0 /\ stable b' = false \/ sda b' = 1 /\ scl b' = 1 /\ stable b' = true }.

Definition read_round (retVal i : Z) : F i2c_vars Z :=
  i2c_master_wait 5 ;;
  i2c_master_setDC 1 0 ;;
  i2c_master_wait 5 ;;
  i2c_master_setDC 1 1 ;;
  i2c_master_wait 5 ;;
  k <- i2c_master_getDC ;;
  i2c_master_wait 5 ;;
  swhen (i =? 7) (i2c_master_wait 3) ;;
  let k := u8 (Z.shiftl k (7 - i)) in
  sret (Z.lor retVal k).

Lemma read_round_spec s b0 b new smp acc i :
  at_bus s b -> mid b0 new smp b ->
  wp (read_round acc i) s (λ r s', exists b' k, at_bus s' b' /\ mid b0 (new ++ [Bit 1]) (smp ++ [k]) b' /\
    (k = 0 \/ k = 1) /\ r = Z.lor acc (u8 (Z.shiftl k (7 - i)))).
Proof.
  intros A [Ms Mm Mc Ma Ml]. destruct b as [d c stb ag cl sy sm].
  cbn [syms samples clean age sda scl stable] in *. subst sm cl. unfold pending in Ms.
  cbn [sda scl stable syms] in Ms. unfold read_round.
  bus_go; eexists _, _; (split; [exact A|]); (split; [|split; [apply bit_cases|reflexivity]]);
    (destruct Ml as [([->| ->] & -> & ->)|(-> & -> & ->)];
     (split; [rewrite app_assoc, <- Ms; unfold pending; bus_compute|bus_compute..])); try tauto.
Qed.

(** The number whose bits, first bit highest, are [l]. *)
Definition msb_first (l : list Z) : Z := fold_left (λ acc k, 2 * acc + k) l 0.

Lemma msb_first_snoc l k : msb_first (l ++ [k]) = 2 * msb_first l + k.
Proof. unfold msb_first. by rewrite fold_left_app. Qed.

Lemma msb_first_join smp k :
  zlen smp < 8 -> k = 0 \/ k = 1 ->
  Z.lor (msb_first smp * 2 ^ (8 - zlen smp)) (u8 (Z.shiftl k (7 - zlen smp))) =
  msb_first (smp ++ [k]) * 2 ^ (8 - zlen (smp ++ [k])).
Proof.
  intros Hl Hk. pose proof (zlen_nonneg smp). rewrite msb_first_snoc, zlen_app. change (zlen [k]) with 1.
  replace (8 - (zlen smp + 1)) with (7 - zlen smp) by lia.
  replace (8 - zlen smp) with (Z.succ (7 - zlen smp)) by lia. rewrite Z.pow_succ_r by lia.
  rewrite Z.shiftl_mul_pow2 by lia.
  assert (0 < 2 ^ (7 - zlen smp) <= 2 ^ 7) by (split; [lia|apply Z.pow_le_mono_r; lia]).
  rewrite u8_small by (destruct Hk as [->| ->]; lia).
  rewrite <- Z.pow_succ_r, <- Z.shiftl_mul_pow2 by lia.
  rewrite lor_shiftl_add; [|lia|rewrite Z.pow_succ_r by lia; destruct Hk as [->| ->]; lia].
  rewrite Z.pow_succ_r by lia. lia.
Qed.

Lemma readByte_spec s b :
  at_bus s b -> rest b ->
  wp i2c_master_readByte s (λ r s', exists b' smp, at_bus s' b' /\ ends b (replicate 8 (Bit 1)) smp 1 0 b' /\
    zlen smp = 8 /\ r = msb_first smp).
Proof.
  intros A R. unfold i2c_master_readByte. fold (read_round). bus_go.
  assert (R0 : exists b0, at_bus s'1 b0 /\ mid b [] [] b0).
  { destruct R as [Rs Ra Rd Rc]. destruct b as [d c stb ag cl sy sm]. cbn in *. subst stb.
    destruct Rd as [->| ->], Rc as [->| ->]; (eexists; split; [exact A|]; split; bus_compute); tauto. }
  clear A. destruct R0 as (b0 & A & M0).
  apply (wp_fold _ (λ l r s', exists b' done smp, seqZ 0 8 = done ++ l /\ at_bus s' b' /\
    mid b (replicate (length done) (Bit 1)) smp b' /\ length smp = length done /\
    r = msb_first smp * 2 ^ (8 - zlen smp))).
  - exists b0, [], []. done.
  - intros i l r s2 (b' & done & smp & Hl & A' & M & Hs & Hr).
    assert (Hi : i = zlen smp /\ zlen smp < 8).
    { assert (Hk : seqZ 0 8 !! length done = Some i) by (rewrite Hl; apply list_lookup_middle; lia).
      apply lookup_seqZ in Hk. unfold zlen. lia. }
    eapply wp_mono; [apply (read_round_spec s2 b b' _ _ r i A' M)|].
    intros r' s'' (b2 & k & A2 & M2 & Hk & Hr').
    exists b2, (done ++ [i]), (smp ++ [k]). rewrite <- app_assoc. split; [done|]. split; [done|].
    rewrite !length_app. split.
    { rewrite replicate_add. exact M2. }
    split; [cbn; lia|]. subst r' r. destruct Hi as [-> Hi]. by apply msb_first_join.
  - intros r s2 (b' & done & smp & Hl & A' & M & Hs & Hr). rewrite app_nil_r in Hl. subst done.
    clear A. bus_go.
    destruct M as [Ms Mm Mc Ma Ml]. destruct b' as [d c stb ag cl sy sm].
    cbn [syms samples clean age sda scl stable] in *. subst sm cl. unfold pending in Ms. cbn [sda scl stable syms] in Ms.
    eexists _, smp. split; [exact A'|]. split; [|split; [unfold zlen; by rewrite Hs|]].
    + change (length (seqZ 0 8)) with 8%nat in Ms.
      destruct Ml as [([->| ->] & -> & ->)|(-> & -> & ->)];
        (split; [rewrite <- Ms; bus_compute|bus_compute..]).
    + rewrite Hr. unfold zlen. rewrite Hs. change (8 - Z.of_nat (length (seqZ 0 8))) with 0. lia.
Qed.
End Operations.

(** ** A burst read of the sensor *)

Section Burst.
Context `{Env}.
Implicit Types (s : sys i2c_vars) (b : bus).

Lemma wr_middle l x r v : wr (l ++ x :: r) (zlen l) v = Some (l ++ v :: r).
Proof.
  unfold wr, bsplice. pose proof (zlen_nonneg l). pose proof (zlen_nonneg r). zlia.
  ztrue (0 <=? zlen l). ztrue (zlen l + (1 + 0) <=? zlen l + (1 + zlen r)). cbn [andb]. f_equal.
  unfold zlen. rewrite Nat2Z.id, take_app_length. replace (Z.to_nat (Z.of_nat (length l) + (1 + 0))) with (length l + 1)%nat by lia.
  by rewrite drop_app_add.
Qed.

(** START, the address byte and the acknowledge slot, in which the master releases the line. *)
Definition address (a : Z) : list symbol := Start :: byte_bits a ++ [Bit 1].

(** [len] bytes read: the master releases the line for eight bits and acknowledges all but the last. *)
Definition data_bytes (n len : Z) : list symbol :=
  flat_map (λ i, replicate 8 (Bit 1) ++ [Bit (if i =? len - 1 then 1 else 0)]) (seqZ 0 n).

Lemma address_spec {B} s b a (k : Z -> F i2c_vars B) (Q : B -> sys i2c_vars -> Prop) :
  at_bus s b -> rest b -> (scl b = 1 -> sda b = 1) ->
  (forall r s' b', at_bus s' b' -> ends b (address a) [r] 1 0 b' -> wp (k r) s' Q) ->
  wp (i2c_master_start ;; i2c_master_writeByte a ;; ack <- i2c_master_getAck ;; k ack) s Q.
Proof.
  intros A R Hs HQ. apply wp_bind.
  eapply wp_mono; [exact (start_spec s b A R Hs)|]. intros _ s1 (b1 & A1 & E1). apply wp_bind.
  eapply wp_mono; [apply (writeByte_spec s1 b1 a A1)|].
  { apply (ends_rest _ _ _ _ _ _ E1); auto. }
  intros _ s2 (b2 & v & A2 & E2 & R2). apply wp_bind.
  eapply wp_mono; [exact (getAck_spec s2 b2 A2 R2)|]. intros r s3 (b3 & A3 & E3).
  apply (HQ r s3 b3 A3). exact (ends_trans _ _ _ _ _ _ _ _ _ _ _ (ends_trans _ _ _ _ _ _ _ _ _ _ _ E1 E2) E3).
Qed.

Lemma read_loop_spec s b b0 new smp0 pData len :
  at_bus s b -> ends b0 new smp0 1 0 b -> 0 <= len <= zlen pData ->
  wp (sfold (seqZ 0 len) (λ pData i,
        v <- i2c_master_readByte ;; pData <- slift (wr pData i v) ;;
        i2c_master_setAck (if i =? len - 1 then 1 else 0) ;; sret pData) pData) s
     (λ data' s', exists b' bytes, at_bus s' b' /\
        ends b0 (new ++ data_bytes len len) (smp0 ++ concat bytes) 1 0 b' /\
        zlen bytes = len /\ Forall (λ byte, zlen byte = 8) bytes /\
        data' = (msb_first <$> bytes) ++ drop (Z.to_nat len) pData).
Proof.
  intros A E Hlen.
  apply (wp_fold _ (λ l data s', exists b' done bytes, seqZ 0 len = done ++ l /\ at_bus s' b' /\
    ends b0 (new ++ data_bytes (zlen done) len) (smp0 ++ concat bytes) 1 0 b' /\
    zlen bytes = zlen done /\ Forall (λ byte, zlen byte = 8) bytes /\
    data = (msb_first <$> bytes) ++ drop (Z.to_nat (zlen done)) pData)).
  - exists b, [], []. cbn. rewrite !app_nil_r. done.
  - intros i l data s1 (b1 & done & bytes & Hl & A1 & E1 & Hn & Hb & Hd).
    assert (Hi : i = zlen done /\ zlen done < len).
    { assert (Hk : seqZ 0 len !! length done = Some i) by (rewrite Hl; apply list_lookup_middle; lia).
      apply lookup_seqZ in Hk. unfold zlen. lia. }
    assert (R1 : rest b1) by (apply (ends_rest _ _ _ _ _ _ E1); auto).
    apply wp_bind. eapply wp_mono; [exact (readByte_spec s1 b1 A1 R1)|].
    intros v s2 (b2 & smp & A2 & E2 & Hsmp & Hv). apply wp_bind.
    destruct (drop (Z.to_nat (zlen done)) pData) as [|x r] eqn:Ed.
    { assert (Hz : zlen (drop (Z.to_nat (zlen done)) pData) = 0) by (by rewrite Ed).
      rewrite zlen_drop in Hz. pose proof (zlen_nonneg done). lia. }
    assert (Hw : wr data i v = Some ((msb_first <$> bytes) ++ v :: r)).
    { subst data. destruct Hi as [-> _]. rewrite <- Hn.
      replace (zlen bytes) with (zlen (msb_first <$> bytes)) by (unfold zlen; by rewrite length_fmap). apply wr_middle. }
    apply (wp_lift _ _ _ _ Hw). apply wp_bind.
    eapply wp_mono; [apply (setAck_spec s2 b2 _ A2)|].
    { apply (ends_rest _ _ _ _ _ _ E2); auto. } { destruct (i =? len - 1); auto. }
    intros _ s3 (b3 & A3 & E3). apply wp_ret.
    exists b3, (done ++ [i]), (bytes ++ [smp]). rewrite <- app_assoc. split; [done|]. split; [done|].
    pose proof (zlen_nonneg done). split.
    { rewrite zlen_app. change (zlen [i]) with 1. unfold data_bytes in *. rewrite seqZ_app by lia.
      rewrite flat_map_app, concat_app. change (seqZ (0 + zlen done) 1) with [0 + zlen done]. cbn [flat_map concat].
      rewrite !app_nil_r, !(app_assoc _ (flat_map _ _)), !(app_assoc _ (concat bytes)).
      replace (0 + zlen done) with i by lia. rewrite <- (app_nil_r smp).
      exact (ends_trans _ _ _ _ _ _ _ _ _ _ _ E1 (ends_trans _ _ _ _ _ _ _ _ _ _ _ E2 E3)). }
    split; [rewrite !zlen_app; cbn; unfold zlen in *; cbn; lia|].
    split; [apply Forall_app_2; [done|by apply Forall_singleton]|].
    rewrite fmap_app, <- app_assoc. cbn. f_equal. rewrite <- Hv. f_equal.
    rewrite zlen_app. change (zlen [i]) with 1. replace (Z.to_nat (zlen done + 1)) with (Z.to_nat (zlen done) + 1)%nat by lia.
    by rewrite <- drop_drop, Ed.
  - intros data s1 (b1 & done & bytes & Hl & A1 & E1 & Hn & Hb & Hd). rewrite app_nil_r in Hl. subst done.
    assert (Hz : zlen (seqZ 0 len) = len) by (unfold zlen; rewrite length_seqZ; lia). rewrite Hz in *. eauto 10.
Qed.

Definition refused (r : Z) : bool := negb (r =? 0).

(** What one burst read puts on the bus: the sensor may refuse either address. *)
Definition burst_symbols (addr len : Z) (acks : list Z) : list symbol :=
  match acks with
  | [r] => address addr ++ [Stop]
  | _ => address addr ++ [Stop] ++ address (u8 (addr + 1)) ++
           (if forallb (λ r, negb (refused r)) acks then data_bytes len len else []) ++ [Stop]
  end.

Lemma rest_idle b new smp b' : ends b new smp 1 1 b' -> rest b' /\ (scl b' = 1 -> sda b' = 1).
Proof. intros E. split; [apply (ends_rest _ _ _ _ _ _ E); auto|]. intros _. apply E. Qed.

Lemma hold_ends b new smp a c b' us : 0 <= us -> ends b new smp a c b' -> ends b new smp a c (hold us b').
Proof. intros ? []. split; cbn; try done. lia. Qed.

(** A burst read of the humidity sensor, from an idle bus: whatever the
    sensor answers, the driver follows the I2C protocol (one line moves at a
    time, every level is held 5 us, inputs are sampled while the clock is high
    and the data line released) and returns the bus to idle with a STOP.  It
    sends START and the write address, STOP, START and the read address, and
    stops early at a missing acknowledge, with [pData] untouched; otherwise it
    reads [len] bytes, most significant bit first, acknowledges all but the
    last and stores them at the start of [pData]. *)
Theorem user_mvh3004_burst_read_spec s b addr pData len :
  at_bus s b -> rest b -> (scl b = 1 -> sda b = 1) -> 0 <= len <= zlen pData ->
  wp (user_mvh3004_burst_read addr pData len) s (λ out s', exists b' acks bytes,
    at_bus s' b' /\ ends b (burst_symbols addr len acks) (acks ++ concat bytes) 1 1 b' /\
    Forall (λ byte, zlen byte = 8) bytes /\
    ((exists r, acks = [r] /\ refused r = true) \/ (exists r, acks = [0; r])) /\
    if existsb refused acks then out = (false, pData) /\ bytes = []
    else zlen bytes = len /\ out = (true, (msb_first <$> bytes) ++ drop (Z.to_nat len) pData)).
Proof.
  intros A R Hs Hlen. unfold user_mvh3004_burst_read.
  apply (address_spec s b addr _ _ A R Hs). intros r1 s1 b1 A1 E1.
  assert (R1 : rest b1) by (apply (ends_rest _ _ _ _ _ _ E1); auto). destruct (negb (r1 =? 0)) eqn:Er1.
  { clear A. bus_go. eapply wp_mono; [apply (stop_spec _ b1 A1 R1); apply E1|]. intros _ s2 (b2 & A2 & E2).
    apply wp_ret. exists b2, [r1], []. cbn [concat existsb forallb burst_symbols]. unfold refused. rewrite Er1.
    split; [done|]. split; [exact (ends_trans _ _ _ _ _ _ _ _ _ _ _ E1 E2)|].
    split; [apply Forall_nil_2|]. split; [left; by exists r1|done]. }
  clear A. apply negb_false_iff, Z.eqb_eq in Er1. subst r1.
  bus_go. eapply wp_mono; [apply (stop_spec _ b1 A1 R1); apply E1|]. intros _ s2 (b2 & A2 & E2).
  pose proof (ends_trans _ _ _ _ _ _ _ _ _ _ _ E1 E2) as E12. clear A1. apply wp_bind, (wp_wait _ _ _ _ A2). clear A2; intros s3 A2.
  apply (hold_ends _ _ _ _ _ _ 40000) in E12; [|lia]. destruct (rest_idle _ _ _ _ E12) as [R3 H3].
  apply (address_spec _ _ (u8 (addr + 1)) _ _ A2 R3 H3). intros r4 s4 b4 A4 E4. clear A2.
  pose proof (ends_trans _ _ _ _ _ _ _ _ _ _ _ E12 E4) as E14.
  assert (R4 : rest b4) by (apply (ends_rest _ _ _ _ _ _ E4); auto). destruct (negb (r4 =? 0)) eqn:Er4.
  - bus_go. eapply wp_mono; [apply (stop_spec _ b4 A4 R4); apply E4|]. intros _ s5 (b5 & A5 & E5).
    apply wp_ret. exists b5, [0; r4], []. cbn [concat existsb forallb burst_symbols]. unfold refused.
    rewrite Er4. split; [done|]. split; [|split; [apply Forall_nil_2|split; [right; by exists r4|done]]].
    pose proof (ends_trans _ _ _ _ _ _ _ _ _ _ _ E14 E5) as E. rewrite <- !app_assoc in E. exact E.
  - apply wp_bind. eapply wp_mono; [exact (read_loop_spec _ b4 b _ _ pData len A4 E14 Hlen)|].
    intros data s5 (b5 & bytes & A5 & E5 & Hn & Hb & Hd). clear A4. bus_go.
    eapply wp_mono; [apply (stop_spec _ b5 A5)|].
    { apply (ends_rest _ _ _ _ _ _ E5); auto. } { apply E5. }
    intros _ s6 (b6 & A6 & E6). apply wp_ret. exists b6, [0; r4], bytes.
    cbn [existsb forallb burst_symbols]. unfold refused. rewrite Er4. cbn [negb andb orb Z.eqb].
    split; [done|]. split; [|split; [done|]; split; [right; by exists r4|by rewrite Hd]].
    pose proof (ends_trans _ _ _ _ _ _ _ _ _ _ _ E5 E6) as E. rewrite <- !app_assoc, ?app_nil_r in E. exact E.
Qed.
End Burst.

(** ** Taking over the bus *)

Section Init.
Context `{Env}.

(** [i2c_master_init] brings the bus to idle from whatever state the lines
    and the driver's variables were in: it clocks 27 released bits through,
    enough for a slave to finish any byte it was sending, and ends with a STOP
    (the 28th clock is turned into a START by the data edge of
    [i2c_master_stop], which expects a low clock). *)
Theorem i2c_master_init_spec (s : sys i2c_vars) :
  wp i2c_master_init s (λ _ s', exists b' pre, at_bus s' b' /\ rest b' /\ sda b' = 1 /\ scl b' = 1 /\
    syms b' = pre ++ replicate 27 (Bit 1) ++ [Start; Stop]).
Proof.
  unfold i2c_master_init. apply wp_bind, (wp_setDC_any s _ _ _ _ eq_refl). intros s0 A. bus_go.
  assert (H0 : exists b0, at_bus s'3 b0 /\ sda b0 = 1 /\ scl b0 = 0 /\ stable b0 = false).
  { eexists. split; [exact A|]. done. }
  clear A. destruct H0 as (b0 & A & Hd & Hc & Hs).
  apply (wp_for _ (λ l s', exists b' done, seqZ 0 28 = done ++ l /\ at_bus s' b' /\ sda b' = 1 /\
    if decide (done = []) then b' = b0
    else scl b' = 1 /\ stable b' = true /\ 5 <= age b' /\ syms b' = syms b0 ++ replicate (length done - 1) (Bit 1))).
  - exists b0, []. done.
  - intros i l s2 (b' & done & Hl & A' & Hd' & Hdone). clear A. bus_go.
    eexists _, (done ++ [i]). rewrite <- app_assoc. split; [done|]. split; [exact A'|]. split; [done|].
    rewrite decide_False by (by destruct done). rewrite length_app. cbn [length].
    destruct (decide (done = [])) as [->|Hne].
    + subst b'. destruct b0 as [d c stb ag cl sy sm]. cbn in Hd, Hc, Hs. subst. split_and!; bus_compute.
    + destruct Hdone as (Hc' & Hst' & Ha' & Hsy). destruct b' as [d c stb ag cl sy sm]. cbn in Hd', Hc', Hst', Ha', Hsy. subst.
      replace (length done + 1 - 1)%nat with (S (length done - 1)) by (destruct done; cbn; done || lia).
      rewrite replicate_S_end. split_and!; bus_compute.
  - intros s2 (b' & done & Hl & A' & Hd' & Hdone). rewrite app_nil_r in Hl. subst done.
    rewrite decide_False in Hdone by done. change (length (seqZ 0 28) - 1)%nat with 27%nat in Hdone.
    destruct Hdone as (Hc' & Hst' & Ha' & Hsy). clear A. unfold i2c_master_stop. bus_go.
    destruct b' as [d c stb ag cl sy sm]. cbn in Hd', Hc', Hst', Ha', Hsy. subst.
    eexists _, (syms b0). split; [exact A'|]. split; [split; bus_compute; tauto|]. split_and!; bus_compute.
Qed.
End Init.

(** ** The theorems at concrete inputs *)

(** A sensor that acknowledges everything and sends zeros. *)
Definition quiet_sensor : Env := mk_env (λ _ _, 0) (λ _ _, 0).

Lemma user_mvh3004_burst_read_spec_witness :
  let s := mk_sys [Do (os_delay_us 5)] ∅ (mk_i2c 1 1) in
  wp (@user_mvh3004_burst_read quiet_sensor 0x88 [9; 9; 9] 2) s (λ _ s', exists b', at_bus s' b' /\ clean b' = true).
Proof.
  eapply wp_mono.
  - apply (@user_mvh3004_burst_read_spec quiet_sensor _ (mk_bus 1 1 false 5 true [] []) 0x88 [9; 9; 9] 2).
    + split; reflexivity.
    + split; cbn; auto; lia.
    + reflexivity.
    + unfold zlen. cbn. lia.
  - intros out s' (b' & acks & bytes & A & E & _). exists b'. split; [exact A|]. exact (e_clean _ _ _ _ _ _ E).
Defined.

(** An acknowledging sensor is read to the end. *)
Example burst_of_two :
  fst <$> @user_mvh3004_burst_read quiet_sensor 0x88 [9; 9; 9] 2 (mk_sys [] ∅ (mk_i2c 1 1)) = Some (true, [0; 0; 9]).
Proof. vm_compute. reflexivity. Qed.
