(* ===== verification/HwTimer.v ===== *)
(** * HwTimer: the FRC1 hardware timer of driver/hw_timer.c *)

From S2P Require Import Prelude CMem Board.
Local Open Scope sm_scope.
Local Open Scope list_scope.

Record hw_timer_vars := mk_hw { user_hw_timer_cb : option fn }.

(** [t] is a [u32]; the products and the sum are 32 bits wide. *)
Definition US_TO_RTC_TIMER_TICKS (t : Z) : Z :=
  if negb (t =? 0) then
    if 0x35A <? t then
      u32 (u32 (Z.shiftr t 2 * (Z.shiftr APB_CLK_FREQ 4 / 250000)) +
           u32 (Z.land t 0x3 * (Z.shiftr APB_CLK_FREQ 4 / 1000000)))
    else u32 (t * Z.shiftr APB_CLK_FREQ 4) / 1000000
  else 0.

Definition FRC1_ENABLE_TIMER : Z := BIT 7.
Definition FRC1_AUTO_LOAD : Z := BIT 6.
Definition DIVDED_BY_16 : Z := 4.
Definition TM_EDGE_INT : Z := 0.
Inductive FRC1_TIMER_SOURCE_TYPE := FRC1_SOURCE | NMI_SOURCE.

Section HwTimer.
Context `{Env} {X : Type} `{Part X hw_timer_vars} (run : fn -> F X unit).

Definition hw_timer_arm (val : Z) : F X unit :=
  RTC_REG_WRITE FRC1_LOAD_ADDRESS (US_TO_RTC_TIMER_TICKS val).

Definition hw_timer_set_func (f : option fn) : F X unit := pmodify (λ _, mk_hw f).

Definition hw_timer_isr_cb : F X unit :=
  cb <- pvar user_hw_timer_cb ;;
  match cb with Some f => run f | None => sret tt end.

Definition hw_timer_init (source_type : FRC1_TIMER_SOURCE_TYPE) (req : Z) : F X unit :=
  (if req =? 1 then
     RTC_REG_WRITE FRC1_CTRL_ADDRESS
       (Z.lor (Z.lor (Z.lor FRC1_AUTO_LOAD DIVDED_BY_16) FRC1_ENABLE_TIMER) TM_EDGE_INT)
   else
     RTC_REG_WRITE FRC1_CTRL_ADDRESS (Z.lor (Z.lor DIVDED_BY_16 FRC1_ENABLE_TIMER) TM_EDGE_INT)) ;;
  match source_type with
  | NMI_SOURCE => call (NmiTimSetFunc fp_hw_timer_isr_cb)
  | FRC1_SOURCE => call (ets_isr_attach ETS_FRC_TIMER1_INUM fp_hw_timer_isr_cb)
  end ;;
  TM1_EDGE_INT_ENABLE ;;
  ETS_FRC1_INTR_ENABLE.

(** The two branches of the macro agree: five ticks a microsecond, modulo 2^32. *)
Lemma ticks_eq t : is_u32 t -> US_TO_RTC_TIMER_TICKS t = u32 (5 * t).
Proof.
  unfold is_u32, US_TO_RTC_TIMER_TICKS. intros Ht.
  change (Z.shiftr APB_CLK_FREQ 4) with 5000000. change (5000000 / 250000) with 20. change (5000000 / 1000000) with 5.
  destruct (Z.eqb_spec t 0) as [->|Hne]; [done|]. cbn [negb].
  destruct (Z.ltb_spec 0x35A t).
  - unfold u32. rewrite <- Zplus_mod, land_3, (Z.shiftr_div_pow2 t 2) by lia. f_equal. change (2 ^ 2) with 4. dlia.
  - rewrite !u32_small by lia. dlia.
Qed.

(** [hw_timer_arm] loads five ticks for every microsecond: the split
    multiplication of the macro never loses a bit a 32-bit product would keep,
    and is exact in the whole documented range. *)
Theorem hw_timer_arm_spec s val :
  is_u32 val ->
  wp (hw_timer_arm val) s (λ _ s',
    st s' = st s /\ log s' = log s ++ [Wr (PERIPHS_TIMER_BASEDDR + FRC1_LOAD_ADDRESS) ((5 * val) mod 2 ^ 32)] /\
    (val <= 0x7fffff -> (5 * val) mod 2 ^ 32 = 5 * val)).
Proof.
  intros Hv. unfold hw_timer_arm, RTC_REG_WRITE. apply wp_write. cbn [log st].
  rewrite ticks_eq by done. split; [done|]. split.
  - do 3 f_equal. unfold u32. change (2 ^ 32) with 4294967296. by rewrite Zmod_mod.
  - unfold is_u32 in Hv. intros. apply Z.mod_small. lia.
Qed.
End HwTimer.

(** ** The theorem at a concrete input *)

Lemma hw_timer_arm_spec_witness :
  wp (@hw_timer_arm hw_timer_vars 1000) (mk_sys [] ∅ (mk_hw None))
     (λ _ s', log s' = [Wr 0x60000600 5000]).
Proof.
  eapply wp_mono; [apply (@hw_timer_arm_spec hw_timer_vars (mk_sys [] ∅ (mk_hw None)) 1000); unfold is_u32; lia|].
  intros _ s' (_ & L & _). exact L.
Defined.

(** The longest documented delay does not fit the 23 bits the same comment
    gives for the value. *)
Example hw_timer_arm_longest : US_TO_RTC_TIMER_TICKS 0x7fffff = 41943035 /\ 0x7fffff < 41943035.
Proof. split; [reflexivity|lia]. Qed.
