(* ===== verification/Keys.v ===== *)
(** * Keys: the push-button driver of driver/key.c

    The handlers, the invariant that ties each key's record to the interrupt
    mode of its pin and to its timers, and what each timer callback runs. *)

From Stdlib Require Import String.
From stdpp Require Import relations.
From S2P Require Import Prelude CMem Board.
Local Open Scope sm_scope.
Local Open Scope string_scope.
Local Open Scope Z_scope.
Local Open Scope list_scope.

(** [struct single_key_param]; its two timers are [t_key_3s k] and [t_key_50ms k]. *)
Record single_key_param := mk_key {
  key_level : Z; gpio_id : Z; gpio_func : Z; gpio_name : Z;
  short_press : option fn; long_press : option fn }.
#[export] Instance eta_key : Settable single_key_param :=
  λ r, mk_key (key_level r) (gpio_id r) (gpio_func r) (gpio_name r) (short_press r) (long_press r).

(** [struct keys_param]: the array of pointers is the list of the keys it points to. *)
Record keys_param := mk_keys { key_num : Z; single_key : list single_key_param }.
#[export] Instance eta_keys : Settable keys_param := λ r, mk_keys (key_num r) (single_key r).

(** The block [os_zalloc] returns is zero. *)
Definition key_init_single (id name func : Z) (long short : option fn) : single_key_param :=
  let single_key := mk_key 0 0 0 0 None None in
  single_key <| gpio_id := id |> <| gpio_name := name |> <| gpio_func := func |>
             <| long_press := long |> <| short_press := short |>.

Section Driver.
Context `{Env} {X : Type} `{Part X keys_param} (run : fn -> F X unit).

(** [keys->single_key[i]]; an index outside the array is undefined. *)
Definition the_key (i : Z) : F X single_key_param :=
  keys <- pvar single_key ;; slift (keys !! Z.to_nat i).
Definition set_level (i v : Z) : F X unit :=
  pmodify (λ k, k <| single_key := alter (λ key, key <| key_level := v |>) (Z.to_nat i) (single_key k) |>).
Definition invoke (f : option fn) : F X unit := match f with Some f => run f | None => sret tt end.

Definition key_init : F X unit :=
  ETS_GPIO_INTR_ATTACH fp_key_intr_handler ;;
  ETS_GPIO_INTR_DISABLE ;;
  n <- pvar key_num ;;
  sfor (seqZ 0 n) (λ i,
    key <- the_key i ;;
    set_level i 1 ;;
    PIN_FUNC_SELECT (gpio_name key) (gpio_func key) ;;
    call (gpio_output_set 0 0 0 (GPIO_ID_PIN (gpio_id key))) ;;
    call (gpio_register_set (GPIO_PIN_ADDR (gpio_id key))
      (Z.lor (Z.lor (GPIO_PIN_INT_TYPE_SET GPIO_PIN_INTR_DISABLE) (GPIO_PIN_PAD_DRIVER_SET GPIO_PAD_DRIVER_DISABLE))
             (GPIO_PIN_SOURCE_SET GPIO_AS_PIN_SOURCE))) ;;
    GPIO_REG_WRITE GPIO_STATUS_W1TC_ADDRESS (BIT (gpio_id key)) ;;
    call (gpio_pin_intr_state_set (GPIO_ID_PIN (gpio_id key)) GPIO_PIN_INTR_NEGEDGE)) ;;
  ETS_GPIO_INTR_ENABLE.

Definition key_3s_cb (k : nat) : F X unit :=
  key <- the_key (Z.of_nat k) ;;
  call (os_timer_disarm (t_key_3s k)) ;;
  v <- GPIO_INPUT_GET (GPIO_ID_PIN (gpio_id key)) ;;
  if 0 =? v then invoke (long_press key) else sret tt.

Definition key_50ms_cb (k : nat) : F X unit :=
  key <- the_key (Z.of_nat k) ;;
  call (os_timer_disarm (t_key_50ms k)) ;;
  v <- GPIO_INPUT_GET (GPIO_ID_PIN (gpio_id key)) ;;
  if 1 =? v then
    call (os_timer_disarm (t_key_3s k)) ;;
    set_level (Z.of_nat k) 1 ;;
    call (gpio_pin_intr_state_set (GPIO_ID_PIN (gpio_id key)) GPIO_PIN_INTR_NEGEDGE) ;;
    invoke (short_press key)
  else call (gpio_pin_intr_state_set (GPIO_ID_PIN (gpio_id key)) GPIO_PIN_INTR_POSEDGE).

Definition key_intr_handler : F X unit :=
  gpio_status <- GPIO_REG_READ GPIO_STATUS_ADDRESS ;;
  n <- pvar key_num ;;
  sfor (seqZ 0 n) (λ i,
    let k := Z.to_nat i in
    key <- the_key i ;;
    swhen (negb (Z.land gpio_status (BIT (gpio_id key)) =? 0)) (
      call (gpio_pin_intr_state_set (GPIO_ID_PIN (gpio_id key)) GPIO_PIN_INTR_DISABLE) ;;
      GPIO_REG_WRITE GPIO_STATUS_W1TC_ADDRESS (Z.land gpio_status (BIT (gpio_id key))) ;;
      if key_level key =? 1 then
        call (os_timer_disarm (t_key_3s k)) ;;
        call (os_timer_setfn (t_key_3s k) (fp_key_3s_cb k)) ;;
        call (os_timer_arm (t_key_3s k) 3000 0) ;;
        set_level i 0 ;;
        call (gpio_pin_intr_state_set (GPIO_ID_PIN (gpio_id key)) GPIO_PIN_INTR_POSEDGE)
      else
        call (os_timer_disarm (t_key_50ms k)) ;;
        call (os_timer_setfn (t_key_50ms k) (fp_key_50ms_cb k)) ;;
        call (os_timer_arm (t_key_50ms k) 50 0))).
End Driver.

(** ** What the log says about a pin and its timers *)

(** The edge the pin interrupts on. *)
Definition mode_step (p m : Z) (e : event) : Z :=
  match e with Do (gpio_pin_intr_state_set i v) => if i =? p then v else m | _ => m end.
Definition pin_mode (p : Z) (l : list event) : Z := fold_left (mode_step p) l 0.

(** Presses (the 3 s timer was started) and releases (the pin waits for a press again). *)
Definition press (k : nat) (e : event) : bool :=
  match e with Do (os_timer_arm t _ _) => bool_decide (t = t_key_3s k) | _ => false end.
Definition release (p : Z) (e : event) : bool :=
  match e with Do (gpio_pin_intr_state_set i v) => (i =? p) && (v =? GPIO_PIN_INTR_NEGEDGE) | _ => false end.
Definition count (f : event -> bool) (l : list event) : Z := zlen (List.filter f l).

(** Where a key is: waiting for a press, held, or about to be checked for a release. *)
Inductive phase := Up | Held | Checking.

Definition in_phase (k : nat) (p level : Z) (l : list event) (ph : phase) : Prop :=
  match ph with
  | Up => level = 1 /\ pin_mode p l = GPIO_PIN_INTR_NEGEDGE /\ armed (t_key_50ms k) l = false /\ armed (t_key_3s k) l = false
  | Held => level = 0 /\ pin_mode p l = GPIO_PIN_INTR_POSEDGE /\ armed (t_key_50ms k) l = false
  | Checking => level = 0 /\ pin_mode p l = GPIO_PIN_INTR_DISABLE /\ armed (t_key_50ms k) l = true
  end.

Definition key_ok (k : nat) (p level : Z) (l : list event) : Prop :=
  (exists ph, in_phase k p level l ph) /\ count (press k) l + level = count (release p) l.

(** Events that are about no key. *)
Definition quiet (e : event) : bool :=
  match e with
  | Do (gpio_pin_intr_state_set _ _) => false
  | Do (os_timer_arm t _ _) | Do (os_timer_disarm t) =>
      match t with t_key_3s _ | t_key_50ms _ => false | _ => true end
  | _ => true
  end.

(** Events that are not about key [k] on pin [p]. *)
Definition other (k : nat) (p : Z) (e : event) : bool :=
  match e with
  | Do (gpio_pin_intr_state_set i _) => negb (i =? p)
  | Do (os_timer_arm t _ _) | Do (os_timer_disarm t) =>
      negb (bool_decide (t = t_key_3s k)) && negb (bool_decide (t = t_key_50ms k))
  | _ => true
  end.

Lemma other_step k p e : other k p e = true ->
  (forall m, mode_step p m e = m) /\ (forall b, armed_step (t_key_50ms k) b e = b) /\
  (forall b, armed_step (t_key_3s k) b e = b) /\ press k e = false /\ release p e = false.
Proof.
  destruct e as [| |c|]; try (cbn; by auto). destruct c; try (cbn; by auto); cbn.
  - by destruct (i =? p).
  - intros [Ha Hb]%andb_true_iff. destruct (bool_decide (t = t_key_3s k)); try done.
    destruct (bool_decide (t = t_key_50ms k)); try done.
  - intros [Ha Hb]%andb_true_iff. destruct (bool_decide (t = t_key_3s k)); try done.
    destruct (bool_decide (t = t_key_50ms k)); try done.
Qed.

Lemma key_ok_other k p level l l' :
  forallb (other k p) l' = true -> key_ok k p level l -> key_ok k p level (l ++ l').
Proof.
  revert l. induction l' as [|e l' IH]; intros l Ho Hk; [by rewrite app_nil_r|].
  cbn in Ho. apply andb_true_iff in Ho as [He Ho]. replace (l ++ e :: l') with ((l ++ [e]) ++ l') by (by rewrite <- app_assoc).
  apply IH; [done|]. apply other_step in He as (Hm & Ha & Hb & Hp & Hr). unfold key_ok, count in *.
  rewrite !List.filter_app, !zlen_app. cbn [List.filter]. rewrite Hp, Hr. rewrite !zlen_nil.
  destruct Hk as [[ph Hph] Hc]. split; [exists ph|lia].
  unfold in_phase, pin_mode, armed in *. rewrite !fold_left_app. cbn [fold_left]. by rewrite Hm, Ha, Hb.
Qed.

Lemma quiet_other k p l : forallb quiet l = true -> forallb (other k p) l = true.
Proof.
  induction l as [|e l IH]; [done|]. cbn. intros [He Hl]%andb_true_iff. rewrite (IH Hl), andb_true_r.
  destruct e as [| |c|]; try done. destruct c; try done; cbn in *; destruct t; try done; by rewrite !bool_decide_eq_false_2.
Qed.

(** ** The invariant of the whole driver *)

Section Invariant.
Context `{Env} {X : Type} `{PX : Part X keys_param} (run : fn -> F X unit).
Implicit Types s : sys X.

(** The callbacks leave the keys alone and return. *)
Context (run_quiet : forall f s, wp (run f) s (λ _ s',
  part (st s') = part (st s) /\ exists l, log s' = log s ++ l /\ forallb quiet l = true)).

Definition keys_of s : list single_key_param := single_key (part (st s)).

(** The table is as long as it says and no two keys share a pin. *)
Definition table_ok (t : keys_param) : Prop :=
  key_num t = zlen (single_key t) /\ NoDup (gpio_id <$> single_key t).

Definition keys_ok s : Prop :=
  table_ok (part (st s)) /\
  forall k key, keys_of s !! k = Some key -> key_ok k (gpio_id key) (key_level key) (log s).

Lemma table_key s i : table_ok (part (st s)) -> 0 <= i < key_num (part (st s)) -> exists key, keys_of s !! Z.to_nat i = Some key.
Proof. intros [Hn _] Hi. apply lookup_lt_is_Some_2. unfold keys_of. unfold zlen in Hn. lia. Qed.

Lemma wp_the_key s i key (Q : single_key_param -> sys X -> Prop) :
  keys_of s !! Z.to_nat i = Some key -> Q key s -> wp (the_key i) s Q.
Proof. intros Hk HQ. unfold the_key. apply wp_bind, wp_pvar. by apply (wp_lift _ key). Qed.

Lemma table_alter t k v :
  table_ok t -> table_ok (t <| single_key := alter (λ key, key <| key_level := v |>) k (single_key t) |>).
Proof.
  intros [Hn Hd]. split; cbn; [unfold zlen in *; by rewrite length_alter|].
  replace (gpio_id <$> alter _ k (single_key t)) with (gpio_id <$> single_key t); [done|].
  apply list_eq. intros j. rewrite !list_lookup_fmap. destruct (decide (j = k)) as [->|Hj].
  - rewrite list_lookup_alter_eq. by destruct (single_key t !! k).
  - by rewrite list_lookup_alter_ne.
Qed.

Lemma keys_ok_quiet s s' l :
  keys_ok s -> part (st s') = part (st s) -> log s' = log s ++ l -> forallb quiet l = true -> keys_ok s'.
Proof.
  unfold keys_ok, keys_of. intros [Ht Hk] -> -> Hl. split; [done|]. intros k key Hkey.
  apply key_ok_other; [by apply quiet_other|]. by apply Hk.
Qed.

(** One key moves to another phase; the events are about it alone. *)
Lemma keys_ok_move s s' k key level l :
  keys_ok s -> keys_of s !! k = Some key ->
  part (st s') = (part (st s)) <| single_key := alter (λ key, key <| key_level := level |>) k (keys_of s) |> ->
  log s' = log s ++ l ->
  (forall j p, j ≠ k -> p ≠ gpio_id key -> forallb (other j p) l = true) ->
  key_ok k (gpio_id key) level (log s ++ l) -> keys_ok s'.
Proof.
  unfold keys_ok, keys_of. intros [Ht Hk] Hkey -> -> Ho Hnew. split; [by apply table_alter|].
  cbn. intros j key' Hj. destruct (decide (j = k)) as [->|Hne].
  - rewrite list_lookup_alter_eq, Hkey in Hj. cbn in Hj. injection Hj as <-. exact Hnew.
  - rewrite list_lookup_alter_ne in Hj by done. apply key_ok_other; [|by apply Hk].
    apply Ho; [done|]. intros Hp. apply Hne. destruct Ht as [_ Hd].
    refine (NoDup_lookup _ j k (gpio_id key) Hd _ _); rewrite list_lookup_fmap; [rewrite Hj|rewrite Hkey]; cbn; congruence.
Qed.

Lemma alter_same k key s : keys_of s !! k = Some key ->
  part (st s) = (part (st s)) <| single_key := alter (λ x, x <| key_level := key_level key |>) k (keys_of s) |>.
Proof.
  unfold keys_of. intros Hk. destruct (part (st s)) as [n ks]. cbn in *. unfold set_field. f_equal. apply list_eq. intros j.
  destruct (decide (j = k)) as [->|Hj]; [|by rewrite list_lookup_alter_ne].
  rewrite list_lookup_alter_eq, Hk. cbn. by destruct key.
Qed.
End Invariant.

(** The events of a handler are about the key it handles. *)
Ltac others := intros; unfold GPIO_ID_PIN; rewrite ?Z.add_0_l; cbn; repeat (first [rewrite bool_decide_eq_false_2 by congruence | rewrite (proj2 (Z.eqb_neq _ _)) by congruence]; cbn); done.

(** Recompute one key's phase after concrete events. *)
Ltac phase_tac :=
  unfold key_ok, in_phase, pin_mode, armed, count, GPIO_ID_PIN in *; rewrite ?Z.add_0_l in *;
  rewrite ?List.filter_app, ?zlen_app, ?fold_left_app in *; cbn in *;
  repeat (first [rewrite Z.eqb_refl in * | rewrite bool_decide_eq_true_2 in * by done | rewrite bool_decide_eq_false_2 in * by done]; cbn in * );
  rewrite ?zlen_cons, ?zlen_nil in *.

Section Handlers.
Context `{Env} {X : Type} `{PX : Part X keys_param} (run : fn -> F X unit).
Implicit Types s : sys X.
Context (run_quiet : forall f s, wp (run f) s (λ _ s',
  part (st s') = part (st s) /\ exists l, log s' = log s ++ l /\ forallb quiet l = true)).

Lemma invoke_ok f s : keys_ok s -> wp (invoke run f) s (λ _ s', keys_ok s' /\ part (st s') = part (st s)).
Proof.
  intros Hk. destruct f as [f|]; cbn [invoke]; [|by apply wp_ret].
  eapply wp_mono; [apply run_quiet|]. intros _ s' (Hp & l & Hl & Hq). split; [|done]. by apply (keys_ok_quiet s s' l).
Qed.

(** The table apart from the levels. *)
Definition same_table s s' : Prop :=
  key_num (part (st s')) = key_num (part (st s)) /\ gpio_id <$> keys_of s' = gpio_id <$> keys_of s.

Lemma key_3s_ok k key s :
  keys_ok s -> keys_of s !! k = Some key -> wp (key_3s_cb run k) s (λ _ s', keys_ok s').
Proof.
  intros Hok Hk. unfold key_3s_cb. apply wp_bind, (wp_the_key s _ key); [by rewrite Nat2Z.id|].
  apply wp_bind, wp_call, wp_bind. unfold GPIO_INPUT_GET. apply wp_bind, wp_ask, wp_ret. cbn [log st mem].
  set (s1 := mk_sys _ _ _).
  assert (Hs1 : keys_ok s1).
  { apply (keys_ok_move s s1 k key (key_level key)
      [Do (os_timer_disarm (t_key_3s k)); Got gpio_input_get (u32 (sdk_ret (log s ++ [Do (os_timer_disarm (t_key_3s k))]) gpio_input_get))]);
      try done.
    - apply (alter_same k key s Hk).
    - unfold s1. cbn [log]. by rewrite <- app_assoc.
    - others.
    - destruct Hok as [_ Hok]. specialize (Hok k key Hk) as [[ph Hph] Hc].
      split; [exists ph; destruct ph|]; phase_tac; tauto || lia. }
  destruct (0 =? _).
  - eapply wp_mono; [by apply invoke_ok|]. by intros ? ? [? _].
  - by apply wp_ret.
Qed.

Lemma key_50ms_ok k key s :
  keys_ok s -> keys_of s !! k = Some key -> armed (t_key_50ms k) (log s) = true ->
  wp (key_50ms_cb run k) s (λ _ s', keys_ok s').
Proof.
  intros Hok Hk Ha. unfold key_50ms_cb. apply wp_bind, (wp_the_key s _ key); [by rewrite Nat2Z.id|].
  apply wp_bind, wp_call, wp_bind. unfold GPIO_INPUT_GET. apply wp_bind, wp_ask, wp_ret. cbn [log st mem].
  assert (Hph : in_phase k (gpio_id key) (key_level key) (log s) Checking /\
      count (press k) (log s) + key_level key = count (release (gpio_id key)) (log s)).
  { destruct Hok as [_ Hok]. specialize (Hok k key Hk) as [[ph Hph] Hc]. split; [|done].
    destruct ph; unfold in_phase in *; rewrite Ha in Hph; destruct_and?; done. }
  destruct (1 =? _).
  - apply wp_bind, wp_call, wp_bind, wp_pmodify, wp_bind, wp_call. cbn [log st mem].
    eapply wp_mono; [apply invoke_ok|by intros ? ? [? _]].
    eapply (keys_ok_move s _ k key 1); [done|done|cbn [st]; rewrite Nat2Z.id; apply part_set
      |cbn [log]; by rewrite <- !app_assoc|others|].
    split; [exists Up|]; phase_tac; destruct_and?; tauto || lia.
  - apply wp_call.
    eapply (keys_ok_move s _ k key (key_level key)); [done|done|apply (alter_same k key s Hk)
      |cbn [log]; by rewrite <- !app_assoc|others|].
    split; [exists Held|]; phase_tac; destruct_and?; tauto || lia.
Qed.

Lemma irq_round_ok status i key s :
  keys_ok s -> keys_of s !! Z.to_nat i = Some key ->
  wp (swhen (negb (Z.land status (BIT (gpio_id key)) =? 0)) (
      call (gpio_pin_intr_state_set (GPIO_ID_PIN (gpio_id key)) GPIO_PIN_INTR_DISABLE) ;;
      GPIO_REG_WRITE GPIO_STATUS_W1TC_ADDRESS (Z.land status (BIT (gpio_id key))) ;;
      if key_level key =? 1 then
        call (os_timer_disarm (t_key_3s (Z.to_nat i))) ;;
        call (os_timer_setfn (t_key_3s (Z.to_nat i)) (fp_key_3s_cb (Z.to_nat i))) ;;
        call (os_timer_arm (t_key_3s (Z.to_nat i)) 3000 0) ;;
        set_level i 0 ;;
        call (gpio_pin_intr_state_set (GPIO_ID_PIN (gpio_id key)) GPIO_PIN_INTR_POSEDGE)
      else
        call (os_timer_disarm (t_key_50ms (Z.to_nat i))) ;;
        call (os_timer_setfn (t_key_50ms (Z.to_nat i)) (fp_key_50ms_cb (Z.to_nat i))) ;;
        call (os_timer_arm (t_key_50ms (Z.to_nat i)) 50 0))) s
    (λ _ s', keys_ok s' /\ key_num (part (st s')) = key_num (part (st s))).
Proof.
  intros Hok Hk. set (k := Z.to_nat i) in *. apply wp_when; [|done]. intros _.
  pose proof (proj2 Hok k key Hk) as [[ph Hph] Hc].
  apply wp_bind, wp_call, wp_bind, wp_write. cbn [log st mem].
  destruct (Z.eqb_spec (key_level key) 1) as [E|E].
  - do 3 apply wp_bind, wp_call. apply wp_bind, wp_pmodify, wp_call. cbn [log st mem].
    split; [|by rewrite part_set].
    eapply (keys_ok_move s _ k key 0); [done|done|cbn [st]; apply part_set
      |cbn [log]; by rewrite <- !app_assoc|others|].
    destruct ph; unfold in_phase in Hph; destruct_and?; try congruence.
    split; [exists Held|]; phase_tac; tauto || lia.
  - do 2 apply wp_bind, wp_call. apply wp_call. cbn [log st mem]. split; [|done].
    eapply (keys_ok_move s _ k key (key_level key)); [done|done|apply (alter_same k key s Hk)
      |cbn [log]; by rewrite <- !app_assoc|others|].
    destruct ph; unfold in_phase in Hph; destruct_and?; try congruence;
      (split; [exists Checking|]; phase_tac; tauto || lia).
Qed.

Lemma key_intr_ok s : keys_ok s -> wp key_intr_handler s (λ _ s', keys_ok s').
Proof.
  intros Hok. unfold key_intr_handler. apply wp_bind. unfold GPIO_REG_READ. apply wp_read, wp_bind, wp_pvar.
  cbn [log st mem]. set (status := u32 _). set (n := key_num (part (st s))).
  apply (wp_for _ (λ l s', keys_ok s' /\ key_num (part (st s')) = n /\ Forall (λ i, 0 <= i < n) l)).
  - split; [|split; [done|]].
    + by eapply (keys_ok_quiet s _ [_]); [done|..].
    + apply Forall_seqZ. lia.
  - intros i l s1 (Hok1 & Hn & Hl). apply Forall_cons_1 in Hl as [Hi Hl].
    destruct (table_key s1 i) as [key Hkey]; [apply Hok1|lia|].
    apply wp_bind, (wp_the_key s1 i key); [done|].
    eapply wp_mono; [by apply irq_round_ok|]. intros _ s2 [Hok2 Hn2]. split; [done|]. split; [congruence|done].
  - by intros s1 [? _].
Qed.
End Handlers.

(** ** Initialisation and all reachable states *)

Definition untouched (k : nat) (p : Z) (l : list event) : Prop :=
  armed (t_key_50ms k) l = false /\ armed (t_key_3s k) l = false /\ count (press k) l = 0 /\ count (release p) l = 0.

Lemma untouched_other k p l l' : forallb (other k p) l' = true -> untouched k p l -> untouched k p (l ++ l').
Proof.
  revert l. induction l' as [|e l' IH]; intros l Ho Hk; [by rewrite app_nil_r|].
  cbn in Ho. apply andb_true_iff in Ho as [He Ho]. replace (l ++ e :: l') with ((l ++ [e]) ++ l') by (by rewrite <- app_assoc).
  apply IH; [done|]. apply other_step in He as (Hm & Ha & Hb & Hp & Hr). unfold untouched, count, armed in *.
  rewrite !List.filter_app, !zlen_app, !fold_left_app. cbn [List.filter fold_left]. rewrite Hp, Hr, Ha, Hb, !zlen_nil.
  destruct_and?. split_and!; done || lia.
Qed.

Section Reachable.
Context `{Env} {X : Type} `{PX : Part X keys_param} (run : fn -> F X unit).
Implicit Types s : sys X.
Context (run_quiet : forall f s, wp (run f) s (λ _ s',
  part (st s') = part (st s) /\ exists l, log s' = log s ++ l /\ forallb quiet l = true)).

(** During [key_init] the first [n] keys are ready. *)
Definition ready (n : nat) s : Prop :=
  forall j key, keys_of s !! j = Some key ->
    if decide (j < n)%nat then key_ok j (gpio_id key) (key_level key) (log s) else untouched j (gpio_id key) (log s).

Lemma key_init_ok s :
  table_ok (part (st s)) -> forallb quiet (log s) = true -> wp key_init s (λ _ s', keys_ok s').
Proof.
  intros Ht Hq. unfold key_init. do 2 apply wp_bind, wp_call. apply wp_bind, wp_pvar. cbn [log st mem].
  set (s0 := mk_sys _ _ _). set (n := key_num (part (st s))). apply wp_bind.
  apply (wp_for _ (λ l s', exists d, seqZ 0 n = d ++ l /\ table_ok (part (st s')) /\
    key_num (part (st s')) = n /\ ready (length d) s')).
  - exists []. split_and!; [done|done|done|]. intros j key Hj. rewrite decide_False by (cbn; lia).
    change (log s0) with ((log s ++ [Do (ets_isr_attach ETS_GPIO_INUM fp_key_intr_handler)]) ++ [Do (ets_isr_mask (Z.shiftl 1 ETS_GPIO_INUM))]).
    rewrite <- app_assoc. change (log s ++ _) with ([] ++ (log s ++ [Do (ets_isr_attach ETS_GPIO_INUM fp_key_intr_handler)] ++
      [Do (ets_isr_mask (Z.shiftl 1 ETS_GPIO_INUM))])).
    apply untouched_other; [|done]. rewrite forallb_app, (quiet_other _ _ _ Hq). done.
  - intros i l s1 (d & Hd & Ht1 & Hn1 & Hr1).
    assert (Hi : i = zlen d /\ zlen d < n).
    { assert (Hk : seqZ 0 n !! length d = Some i) by (rewrite Hd; apply list_lookup_middle; lia).
      apply lookup_seqZ in Hk. unfold zlen. lia. }
    destruct Hi as [-> Hi]. pose proof (zlen_nonneg d).
    destruct (table_key s1 (zlen d)) as [key Hkey]; [done|lia|].
    assert (Hk : Z.to_nat (zlen d) = length d) by (unfold zlen; lia). rewrite Hk in Hkey.
    apply wp_bind, (wp_the_key s1 _ key); [by rewrite Hk|]. apply wp_bind, wp_pmodify. cbn [log st mem].
    unfold PIN_FUNC_SELECT. apply wp_bind, wp_bind, wp_read, wp_write, wp_bind, wp_call, wp_bind, wp_call, wp_bind, wp_write, wp_call.
    cbn [log st mem]. rewrite part_set, Hk.
    exists (d ++ [zlen d]). rewrite <- app_assoc. split; [done|]. split; [by apply table_alter|]. split; [done|].
    intros j key' Hj. unfold keys_of in Hj. cbn [st] in Hj. rewrite part_set in Hj. cbn in Hj.
    cbn [log]. rewrite <- !app_assoc. specialize (Hr1 j). rewrite length_app. cbn [length].
    destruct (decide (j = length d)) as [->|Hne].
    + unfold keys_of in Hkey. rewrite list_lookup_alter_eq, Hkey in Hj. cbn in Hj. injection Hj as <-.
      specialize (Hr1 key Hkey). rewrite decide_False in Hr1 by lia. rewrite decide_True by lia.
      destruct Hr1 as (? & ? & ? & ?). split; [exists Up|]; phase_tac; tauto || lia.
    + rewrite list_lookup_alter_ne in Hj by done. specialize (Hr1 key' Hj).
      assert (Hp : gpio_id key' ≠ gpio_id key).
      { intros Hp. apply Hne. refine (NoDup_lookup _ j (length d) (gpio_id key') (proj2 Ht1) _ _);
          rewrite list_lookup_fmap; [rewrite Hj|unfold keys_of in Hkey; rewrite Hkey]; cbn; congruence. }
      destruct (decide (j < length d)%nat); [rewrite decide_True by lia; apply key_ok_other|
        rewrite decide_False by lia; apply untouched_other]; try done; revert Hp Hne; others.
  - intros s1 (d & Hd & Ht1 & Hn1 & Hr1). rewrite app_nil_r in Hd. subst d. apply wp_call.
    eapply (keys_ok_quiet s1 _ [_]); [|done..]. split; [done|]. intros k key Hkey. specialize (Hr1 k key Hkey).
    rewrite decide_True in Hr1; [done|]. apply lookup_lt_Some in Hkey. destruct Ht1 as [Hz _].
    unfold keys_of in Hkey. unfold zlen in Hz. rewrite length_seqZ. lia.
Qed.

(** The SDK calls the handlers; the rest of the firmware runs in between. *)
Inductive key_step : sys X -> sys X -> Prop :=
  | step_irq s s' : key_intr_handler s = Some (tt, s') -> key_step s s'
  | step_3s k s s' : armed (t_key_3s k) (log s) = true -> key_3s_cb run k s = Some (tt, s') -> key_step s s'
  | step_50ms k s s' : armed (t_key_50ms k) (log s) = true -> key_50ms_cb run k s = Some (tt, s') -> key_step s s'
  | step_else s s' l : part (st s') = part (st s) -> log s' = log s ++ l -> forallb quiet l = true -> key_step s s'.

Lemma wp_run {A} (m : F X A) s (Q : A -> sys X -> Prop) a s' : wp m s Q -> m s = Some (a, s') -> Q a s'.
Proof. intros (b & s2 & E & HQ) E'. rewrite E in E'. by injection E' as <- <-. Qed.

Lemma the_key_defined {A} (k : nat) s (m : single_key_param -> F X A) r :
  (key <- the_key (Z.of_nat k) ;; m key) s = Some r -> exists key, keys_of s !! k = Some key.
Proof.
  unfold the_key, pvar, sget, slift, sbind. cbn [mbind option_bind]. rewrite Nat2Z.id.
  unfold keys_of. destruct (single_key (part (st s)) !! k); [eauto|done].
Qed.

Lemma key_step_ok s s' : keys_ok s -> key_step s s' -> keys_ok s'.
Proof.
  intros Hok Hs. destruct Hs as [s s' E|k s s' Ha E|k s s' Ha E|s s' l Hp Hl Hq].
  - exact (wp_run _ _ (λ _ s', keys_ok s') _ _ (key_intr_ok s Hok) E).
  - destruct (the_key_defined _ _ _ _ E) as [key Hk].
    exact (wp_run _ _ (λ _ s', keys_ok s') _ _ (key_3s_ok run run_quiet k key s Hok Hk) E).
  - destruct (the_key_defined _ _ _ _ E) as [key Hk].
    exact (wp_run _ _ (λ _ s', keys_ok s') _ _ (key_50ms_ok run run_quiet k key s Hok Hk Ha) E).
  - by apply (keys_ok_quiet s s' l).
Qed.

Lemma wp_defined {A} (m : F X A) s Q : wp m s Q -> exists a s', m s = Some (a, s').
Proof. intros (a & s' & E & _). eauto. Qed.

(** C13: from [key_init] on, whatever order interrupts, timer expirations and
    the rest of the firmware come in, the driver never goes deaf and never
    stops: every key either waits for the edge that fits its recorded level
    with its pin interrupt enabled, or its 50 ms check is pending; presses and
    releases alternate, so each press is answered by exactly one release; and
    every handler that can be called is defined. *)
Theorem keys_never_deaf s0 :
  table_ok (part (st s0)) -> forallb quiet (log s0) = true ->
  exists s1, key_init s0 = Some (tt, s1) /\ forall s, rtc key_step s1 s ->
    (exists s', key_intr_handler s = Some (tt, s')) /\
    forall k key, keys_of s !! k = Some key ->
      key_ok k (gpio_id key) (key_level key) (log s) /\
      (exists s', key_3s_cb run k s = Some (tt, s')) /\
      (armed (t_key_50ms k) (log s) = true -> exists s', key_50ms_cb run k s = Some (tt, s')).
Proof.
  intros Ht Hq. destruct (key_init_ok s0 Ht Hq) as ([] & s1 & E & Hok1). exists s1. split; [done|].
  intros s Hs. assert (Hok : keys_ok s).
  { clear E. induction Hs; [done|]. apply IHHs. by eapply key_step_ok. }
  split; [destruct (wp_defined _ _ _ (key_intr_ok s Hok)) as ([] & s' & E'); eauto|]. intros k key Hk.
  split; [by apply Hok|]. split.
  - destruct (wp_defined _ _ _ (key_3s_ok run run_quiet k key s Hok Hk)) as ([] & s' & E'); eauto.
  - intros Ha. destruct (wp_defined _ _ _ (key_50ms_ok run run_quiet k key s Hok Hk Ha)) as ([] & s' & E'); eauto.
Qed.
End Reachable.

(** ** The theorem at a concrete input *)

Definition one_key : keys_param :=
  mk_keys 1 [key_init_single 0 PERIPHS_IO_MUX_GPIO0_U FUNC_GPIO0 (Some fp_user_key_long_press) (Some fp_user_key_short_press)].

(** The pin reads high. *)
Definition released : Env := mk_env (λ _ _, 1) (λ _ _, 1).

Lemma keys_never_deaf_witness :
  exists s1, @key_init released keys_param _ (mk_sys [] ∅ one_key) = Some (tt, s1) /\
    exists key, keys_of s1 !! 0%nat = Some key /\ key_ok 0 0 (key_level key) (log s1).
Proof.
  destruct (@keys_never_deaf released keys_param _ (λ f, call (os_printf "pressed"))
    (λ f s, ex_intro _ tt (ex_intro _ _ (conj eq_refl (conj eq_refl (ex_intro _ _ (conj eq_refl eq_refl))))))
    (mk_sys [] ∅ one_key)) as (s1 & E & H).
  - split; [reflexivity|]. apply NoDup_singleton.
  - reflexivity.
  - exists s1. split; [exact E|]. assert (E' := E). vm_compute in E'. injection E' as E'. subst s1.
    eexists. split; [reflexivity|]. apply (proj2 (H _ (rtc_refl _ _)) 0%nat _ eq_refl).
Defined.
