(* ===== verification/UartReg.v ===== *)
(** * UartReg: the UART registers (driver/uart_register.h, driver/uart.h) and their status fields

    Shared by the two UART drivers: register addresses and fields, the polling
    of the transmit FIFO and what a transmitter guarantees. *)

From S2P Require Import Prelude CMem Board.
Local Open Scope sm_scope.
Local Open Scope list_scope.

Definition UART0 : Z := 0.
Definition UART1 : Z := 1.
Definition REG_UART_BASE (i : Z) : Z := 0x60000000 + i * 0xf00.
Definition UART_FIFO (i : Z) : Z := REG_UART_BASE i + 0x0.
Definition UART_INT_ST (i : Z) : Z := REG_UART_BASE i + 0x8.
Definition UART_INT_ENA (i : Z) : Z := REG_UART_BASE i + 0xC.
Definition UART_INT_CLR (i : Z) : Z := REG_UART_BASE i + 0x10.
Definition UART_STATUS (i : Z) : Z := REG_UART_BASE i + 0x1C.
Definition UART_CONF0 (i : Z) : Z := REG_UART_BASE i + 0x20.
Definition UART_CONF1 (i : Z) : Z := REG_UART_BASE i + 0x24.

(** UART_INT_ST, UART_INT_ENA and UART_INT_CLR *)
Definition UART_RXFIFO_TOUT_INT : Z := BIT 8.
Definition UART_RXFIFO_OVF_INT : Z := BIT 4.
Definition UART_FRM_ERR_INT : Z := BIT 3.
Definition UART_TXFIFO_EMPTY_INT : Z := BIT 1.
Definition UART_RXFIFO_FULL_INT : Z := BIT 0.

(** UART_STATUS *)
Definition UART_TXFIFO_CNT : Z := 0x000000FF.
Definition UART_TXFIFO_CNT_S : Z := 16.
Definition UART_RXFIFO_CNT : Z := 0x000000FF.
Definition UART_RXFIFO_CNT_S : Z := 0.

(** UART_CONF0 *)
Definition UART_TXD_INV : Z := BIT 22.
Definition UART_CTS_INV : Z := BIT 20.
Definition UART_RTS_INV : Z := BIT 23.
Definition UART_RXD_INV : Z := BIT 19.
Definition UART_TXFIFO_RST : Z := BIT 18.
Definition UART_RXFIFO_RST : Z := BIT 17.
Definition UART_TX_FLOW_EN : Z := BIT 15.
Definition UART_STOP_BIT_NUM : Z := 0x00000003.
Definition UART_STOP_BIT_NUM_S : Z := 4.
Definition UART_BIT_NUM : Z := 0x00000003.
Definition UART_BIT_NUM_S : Z := 2.
Definition UART_PARITY_EN : Z := BIT 1.
Definition UART_PARITY_EN_M : Z := 0x00000001.
Definition UART_PARITY_EN_S : Z := 1.
Definition UART_PARITY : Z := BIT 0.
Definition UART_PARITY_M : Z := 0x00000001.
Definition UART_PARITY_S : Z := 0.
Definition UART_LINE_INV_MASK : Z := Z.shiftl 0x3f 19.

(** UART_CONF1 *)
Definition UART_RX_TOUT_EN : Z := BIT 31.
Definition UART_RX_TOUT_THRHD : Z := 0x0000007F.
Definition UART_RX_TOUT_THRHD_S : Z := 24.
Definition UART_RX_FLOW_EN : Z := BIT 23.
Definition UART_RX_FLOW_THRHD : Z := 0x0000007F.
Definition UART_RX_FLOW_THRHD_S : Z := 16.
Definition UART_TXFIFO_EMPTY_THRHD : Z := 0x0000007F.
Definition UART_TXFIFO_EMPTY_THRHD_S : Z := 8.
Definition UART_RXFIFO_FULL_THRHD : Z := 0x0000007F.
Definition UART_RXFIFO_FULL_THRHD_S : Z := 0.

(** driver/uart.h *)
Definition UART_FIFO_LEN : Z := 128.
Definition UART_TX_EMPTY_THRESH_VAL : Z := 0x10.
Definition UART_TX_BUFFER_SIZE : Z := 256.
Definition UART_RX_BUFFER_SIZE : Z := 256.

(** [( status >> UART_TXFIFO_CNT_S ) & UART_TXFIFO_CNT] and the same for the receiver. *)
Definition txfifo_cnt (status : Z) : Z := Z.land (Z.shiftr status UART_TXFIFO_CNT_S) UART_TXFIFO_CNT.
Definition rxfifo_cnt (status : Z) : Z := Z.land (Z.shiftr status UART_RXFIFO_CNT_S) UART_RXFIFO_CNT.

(** [STATUS] of include/c_types.h. *)
Inductive STATUS := OK | FAIL | PENDING | BUSY | CANCEL.

Section Polling.
Context `{Env} {X : Type}.

(** [while( txfifo_cnt >= limit );] *)
Fixpoint wait_tx (fuel : nat) (uart_no limit : Z) : F X unit :=
  match fuel with
  | O => slift None
  | S fuel =>
      v <- READ_PERI_REG (UART_STATUS uart_no) ;;
      if limit <=? txfifo_cnt v then wait_tx fuel uart_no limit else sret tt
  end.

(** Poll for room, then write: the busy-waiting transmitters. *)
Definition tx_wait_write (fuel : nat) (uart_no limit byte : Z) : F X unit :=
  wait_tx fuel uart_no limit ;; WRITE_PERI_REG (UART_FIFO uart_no) byte.
End Polling.

(** What the hardware promises a busy-waiting sender: while the FIFO is too
    full each look at it brings the moment nearer at which a byte has left. *)
Class TxDrains `{Env} (uart_no limit : Z) (bound : nat) := {
  tx_time : list event -> nat;
  tx_time_bound : forall l, (tx_time l <= bound)%nat;
  tx_time_dec : forall l, let v := u32 (hw_read l (UART_STATUS uart_no)) in
    limit <= txfifo_cnt v -> (tx_time (l ++ [Rd (UART_STATUS uart_no) v]) < tx_time l)%nat }.

Section Transmit.
Context `{Env} {X : Type}.
Implicit Types s : sys X.

(** The log grew by looks at registers only. *)
Definition looked (l l' : list event) : Prop := exists k, l' = l ++ k /\ effects k = [] /\ forall a, written a k = [].

Lemma looked_refl l : looked l l.
Proof. exists []. by rewrite app_nil_r. Qed.
Lemma looked_read l a v : looked l (l ++ [Rd a v]).
Proof. by exists [Rd a v]. Qed.
Lemma looked_trans l1 l2 l3 : looked l1 l2 -> looked l2 l3 -> looked l1 l3.
Proof.
  intros (k1 & -> & E1 & W1) (k2 & -> & E2 & W2). exists (k1 ++ k2). rewrite <- app_assoc.
  split; [done|]. split; [by rewrite effects_app, E1, E2|]. intros a. by rewrite written_app, W1, W2.
Qed.
Lemma looked_effects l l' : looked l l' -> effects l' = effects l.
Proof. intros (k & -> & E & _). by rewrite effects_app, E, app_nil_r. Qed.
Lemma looked_written l l' a : looked l l' -> written a l' = written a l.
Proof. intros (k & -> & _ & W). by rewrite written_app, W, app_nil_r. Qed.

Lemma wait_tx_spec u limit bound `{!TxDrains u limit bound} fuel s :
  (tx_time (log s) < fuel)%nat ->
  wp (wait_tx fuel u limit) s (λ _ s', looked (log s) (log s') /\ mem s' = mem s /\ st s' = st s).
Proof.
  revert s. induction fuel as [|fuel IH]; intros s Hf; [lia|]. cbn [wait_tx]. apply wp_bind, wp_read.
  destruct (Z.leb_spec limit (txfifo_cnt (u32 (hw_read (log s) (UART_STATUS u))))) as [Hle|Hgt].
  - eapply wp_mono; [apply IH|].
    + cbn [log]. pose proof (tx_time_dec (log s) Hle). lia.
    + cbn [log mem st]. intros _ s' (Hl & Hm & Hs). split; [|done]. eapply looked_trans; [apply looked_read|exact Hl].
  - apply wp_ret. split; [apply looked_read|done].
Qed.

(** [sent u bytes s s']: exactly these bytes went to the transmitter, and nothing else happened. *)
Definition sent (u : Z) (bytes : list Z) s s' : Prop :=
  effects (log s') = effects (log s) ++ (Wr (UART_FIFO u) <$> bytes) /\
  written (UART_FIFO u) (log s') = written (UART_FIFO u) (log s) ++ bytes /\
  mem s' = mem s /\ st s' = st s.

Lemma sent_nil u s : sent u [] s s.
Proof. split_and!; rewrite ?app_nil_r; done. Qed.
Lemma sent_trans u b1 b2 s1 s2 s3 : sent u b1 s1 s2 -> sent u b2 s2 s3 -> sent u (b1 ++ b2) s1 s3.
Proof.
  intros (E1 & W1 & M1 & S1) (E2 & W2 & M2 & S2). split_and!; try congruence.
  - by rewrite E2, E1, fmap_app, app_assoc.
  - by rewrite W2, W1, app_assoc.
Qed.

Lemma sent_write u v s : sent u [u32 v] s (mk_sys (log s ++ [Wr (UART_FIFO u) (u32 v)]) (mem s) (st s)).
Proof.
  split_and!; try done; cbn [log]; [by rewrite effects_app|]. rewrite written_app. cbn. by rewrite Z.eqb_refl.
Qed.

Lemma sent_look u b s1 s2 s3 :
  looked (log s1) (log s2) -> mem s2 = mem s1 -> st s2 = st s1 -> sent u b s2 s3 -> sent u b s1 s3.
Proof.
  intros L M S (E & W & M2 & S2). split_and!; try congruence.
  - by rewrite E, (looked_effects _ _ L).
  - by rewrite W, (looked_written _ _ _ L).
Qed.

Lemma tx_wait_write_spec u limit bound `{!TxDrains u limit bound} fuel byte s :
  (bound < fuel)%nat -> is_byte byte ->
  wp (tx_wait_write fuel u limit byte) s (λ _ s', sent u [byte] s s').
Proof.
  intros Hf Hb. unfold tx_wait_write. apply wp_bind. eapply wp_mono; [apply (wait_tx_spec u limit bound)|].
  - pose proof (tx_time_bound (log s)). lia.
  - intros _ s1 (L & M & S). apply wp_write. apply (sent_look u _ s s1); try done.
    pose proof (sent_write u byte s1) as Hw. by rewrite u32_small in Hw at 1 by (unfold is_byte in Hb; lia).
Qed.
End Transmit.
