(* ===== verification/UserUart.v ===== *)
(** * UserUart: the application's UART driver, app/user/user_uart.c

    Initialisation, the transmitters and the interrupt handler, with the
    receive buffer it fills in memory. *)

From stdpp Require Import gmap.
From S2P Require Import Prelude CMem Board UartReg.
Local Open Scope sm_scope.
Local Open Scope list_scope.

(** app/include/user_uart.h *)
Definition STOP_BITS_ONE : Z := 1.
Definition DATA_BITS_EIGHT : Z := 3.
Definition BAUDRATE_9600 : Z := 9600.
Definition BAUDRATE_115200 : Z := 115200.
Definition PARITY_NONE : Z := 0.

(** [rx_buffer_t]; a null pointer is [None]. *)
Record rx_buffer_t := mk_rx { buffer : option ptr; len : Z }.
#[export] Instance eta_rx : Settable rx_buffer_t := λ r, mk_rx (buffer r) (len r).

(** The driver's static variables. *)
Record uart_vars := mk_uart { uart0_rx_cb : option fn; uart0_tx_empty_cb : option fn; uart1_tx_empty_cb : option fn }.
#[export] Instance eta_uart : Settable uart_vars := λ r, mk_uart (uart0_rx_cb r) (uart0_tx_empty_cb r) (uart1_tx_empty_cb r).
Definition uart_initial : uart_vars := mk_uart None None None.

Section Setup.
Context `{Env} {X : Type}.

(** The word length, stop bits and parity [uart0_init] and [uart1_init] select. *)
Definition conf0_8n1 : Z :=
  Z.lor (Z.lor (Z.shiftl PARITY_NONE UART_PARITY_S) (Z.shiftl STOP_BITS_ONE UART_STOP_BIT_NUM_S))
        (Z.shiftl DATA_BITS_EIGHT UART_BIT_NUM_S).

Definition uart0_init (rate frame_interval : Z) : F X unit :=
  ETS_UART_INTR_ATTACH fp_uart_intr_handler ;;
  PIN_PULLUP_DIS PERIPHS_IO_MUX_U0TXD_U ;;
  PIN_FUNC_SELECT PERIPHS_IO_MUX_U0TXD_U FUNC_U0TXD ;;
  call (uart_div_modify UART0 (UART_CLK_FREQ / rate)) ;;
  WRITE_PERI_REG (UART_CONF0 UART0) conf0_8n1 ;;
  SET_PERI_REG_MASK (UART_CONF0 UART0) (Z.lor UART_RXFIFO_RST UART_TXFIFO_RST) ;;
  CLEAR_PERI_REG_MASK (UART_CONF0 UART0) (Z.lor UART_RXFIFO_RST UART_TXFIFO_RST) ;;
  WRITE_PERI_REG (UART_CONF1 UART0)
    (Z.lor (Z.lor (Z.lor (Z.shiftl (Z.land UART_RXFIFO_FULL_THRHD 96) UART_RXFIFO_FULL_THRHD_S)
                         (Z.shiftl (Z.land UART_RX_TOUT_THRHD frame_interval) UART_RX_TOUT_THRHD_S))
                  UART_RX_TOUT_EN)
           (Z.shiftl (Z.land UART_TXFIFO_EMPTY_THRHD 1) UART_TXFIFO_EMPTY_THRHD_S)) ;;
  WRITE_PERI_REG (UART_INT_CLR UART0) 0xFFFF ;;
  SET_PERI_REG_MASK (UART_INT_ENA UART0)
    (Z.lor (Z.lor (Z.lor (Z.lor UART_RXFIFO_FULL_INT UART_RXFIFO_OVF_INT) UART_RXFIFO_TOUT_INT)
                  UART_TXFIFO_EMPTY_INT) UART_FRM_ERR_INT).

Definition uart1_init (rate : Z) : F X unit :=
  PIN_FUNC_SELECT PERIPHS_IO_MUX_GPIO2_U FUNC_U1TXD_BK ;;
  call (uart_div_modify UART1 (UART_CLK_FREQ / rate)) ;;
  WRITE_PERI_REG (UART_CONF0 UART1) conf0_8n1 ;;
  SET_PERI_REG_MASK (UART_CONF0 UART1) (Z.lor UART_RXFIFO_RST UART_TXFIFO_RST) ;;
  CLEAR_PERI_REG_MASK (UART_CONF0 UART1) (Z.lor UART_RXFIFO_RST UART_TXFIFO_RST) ;;
  WRITE_PERI_REG (UART_CONF1 UART1)
    (Z.lor (Z.shiftl (Z.land UART_RXFIFO_FULL_THRHD 1) UART_RXFIFO_FULL_THRHD_S)
           (Z.shiftl (Z.land UART_TXFIFO_EMPTY_THRHD 1) UART_TXFIFO_EMPTY_THRHD_S)) ;;
  WRITE_PERI_REG (UART_INT_CLR UART1) 0xFFFF ;;
  SET_PERI_REG_MASK (UART_INT_ENA UART1) UART_TXFIFO_EMPTY_INT.

Definition uart_enable_isr : F X unit := ETS_UART_INTR_ENABLE.
Definition uart_disable_isr : F X unit := ETS_UART_INTR_DISABLE.

Definition uart0_send_byte_nowait (byte : Z) : F X STATUS :=
  v <- READ_PERI_REG (UART_STATUS UART0) ;;
  if u8 (txfifo_cnt v) <? UART_TXFIFO_EMPTY_THRHD then WRITE_PERI_REG (UART_FIFO UART0) byte ;; sret OK
  else sret BUSY.

Definition uart0_send_byte (fuel : nat) (byte : Z) : F X Z :=
  tx_wait_write fuel UART0 UART_TXFIFO_EMPTY_THRHD byte ;; sret byte.

(** [*( buf + i )] *)
Definition load_byte (buf : ptr) (i : Z) : F X Z :=
  h <- get_mem ;; b <- slift (mem_load h (padd buf i) 1) ;; sret (nthZ b 0).

Definition uart0_send_buffer (fuel : nat) (buf : ptr) (len : Z) : F X unit :=
  sfor (seqZ 0 len) (λ i, b <- load_byte buf i ;; uart0_send_byte fuel b ;; sret tt).

Definition uart1_send_byte_nowait (byte : Z) : F X STATUS :=
  v <- READ_PERI_REG (UART_STATUS UART1) ;;
  if u8 (txfifo_cnt v) <? UART_TXFIFO_EMPTY_THRHD then WRITE_PERI_REG (UART_FIFO UART1) byte ;; sret OK
  else sret BUSY.

Definition uart1_send_byte (fuel : nat) (byte : Z) : F X Z :=
  tx_wait_write fuel UART1 UART_TXFIFO_EMPTY_THRHD byte ;; sret byte.

Definition uart1_send_buffer (fuel : nat) (buf : ptr) (len : Z) : F X unit :=
  sfor (seqZ 0 len) (λ i, b <- load_byte buf i ;; uart1_send_byte fuel b ;; sret tt).
End Setup.

Section Interrupts.
Context `{Env} {X : Type} `{PU : Part X uart_vars} `{PR : Part X rx_buffer_t}.
(** What the installed callbacks do. *)
Context (run_rx run_tx : fn -> F X unit).

Definition uart0_set_rx_cb (cb : option fn) : F X unit := pmodify (λ v, v <| uart0_rx_cb := cb |>).
Definition uart0_set_tx_empty_cb (cb : option fn) : F X unit := pmodify (λ v, v <| uart0_tx_empty_cb := cb |>).
Definition uart1_set_tx_empty_cb (cb : option fn) : F X unit := pmodify (λ v, v <| uart1_tx_empty_cb := cb |>).

(** [while ( p_rx_buffer->len < len )]: at most 255 rounds, [len] being 8 bits wide. *)
Fixpoint drain_rx (fuel : nat) (n : Z) : F X unit :=
  match fuel with
  | O => slift None
  | S fuel =>
      l <- pvar len ;;
      if l <? n then
        b <- pvar buffer ;; b <- slift b ;;
        v <- READ_PERI_REG (UART_FIFO UART0) ;;
        h <- get_mem ;; h <- slift (mem_store h (padd b l) [Z.land v 0xFF]) ;; set_mem h ;;
        pmodify (λ r, r <| len := u8 (l + 1) |>) ;;
        drain_rx fuel n
      else sret tt
  end.

(** The receive branch up to the callback. *)
Definition uart0_receive : F X unit :=
  pmodify (λ r, r <| len := 0 |>) ;;
  v <- READ_PERI_REG (UART_STATUS UART0) ;;
  drain_rx 256 (u8 (rxfifo_cnt v)) ;;
  WRITE_PERI_REG (UART_INT_CLR UART0) UART_RXFIFO_TOUT_INT.

Definition has (status bit : Z) : bool := bit =? Z.land status bit.

Definition uart_intr_handler : F X unit :=
  status0 <- READ_PERI_REG (UART_INT_ST UART0) ;;
  status1 <- READ_PERI_REG (UART_INT_ST UART1) ;;
  (if has status0 UART_FRM_ERR_INT then
     WRITE_PERI_REG (UART_INT_CLR UART0) UART_FRM_ERR_INT
   else if has status0 UART_RXFIFO_TOUT_INT || has status0 UART_RXFIFO_OVF_INT || has status0 UART_RXFIFO_FULL_INT then
     uart0_receive ;;
     cb <- pvar uart0_rx_cb ;;
     match cb with Some f => run_rx f | None => sret tt end
   else if has status0 UART_TXFIFO_EMPTY_INT then
     CLEAR_PERI_REG_MASK (UART_INT_ENA UART0) UART_TXFIFO_EMPTY_INT ;;
     WRITE_PERI_REG (UART_INT_CLR UART0) UART_TXFIFO_EMPTY_INT ;;
     cb <- pvar uart0_tx_empty_cb ;;
     match cb with Some f => run_tx f | None => sret tt end
   else sret tt) ;;
  (if has status1 UART_FRM_ERR_INT then
     WRITE_PERI_REG (UART_INT_CLR UART1) UART_FRM_ERR_INT
   else if has status1 UART_TXFIFO_EMPTY_INT then
     CLEAR_PERI_REG_MASK (UART_INT_ENA UART1) UART_TXFIFO_EMPTY_INT ;;
     WRITE_PERI_REG (UART_INT_CLR UART1) UART_TXFIFO_EMPTY_INT ;;
     cb <- pvar uart1_tx_empty_cb ;;
     match cb with Some f => run_tx f | None => sret tt end
   else sret tt).
End Interrupts.

(** ** Transmitting *)

Section Sending.
Context `{Env} {X : Type}.
Implicit Types s : sys X.

(** The block and the bytes a pointer leads to. *)
Lemma load_byte_spec s buf i b (Q : Z -> sys X -> Prop) :
  mem_load (mem s) buf (zlen b) = Some b -> 0 <= i < zlen b -> Q (nthZ b i) s -> wp (load_byte buf i) s Q.
Proof.
  intros Hb Hi HQ. unfold load_byte. apply wp_bind. eexists _, s. split; [reflexivity|]. apply wp_bind.
  unfold mem_load in *. destruct (mem s !! p_blk buf) as [blk|] eqn:E; [|done]. cbn [mbind option_bind] in Hb.
  apply bslice_inv in Hb as (? & ? & ? & Hb).
  assert (Hbi : nthZ b i = nthZ blk (p_off buf + i)) .
  { transitivity (nthZ (tab (zlen b) (λ i, nthZ blk (p_off buf + i))) i); [by rewrite <- Hb|by rewrite nthZ_tab]. }
  apply (wp_lift _ [nthZ b i]).
  - rewrite Hbi. unfold padd. cbn [p_blk p_off]. rewrite E. cbn [mbind option_bind]. rewrite bslice_Some by lia.
    f_equal. rewrite (tab_cons 0) by lia. rewrite tab_0 by lia. by rewrite Z.add_0_r.
  - by apply wp_ret.
Qed.

(** A loop over the first [n] bytes of a buffer: what has been done depends on the bytes done. *)
Lemma wp_for_bytes (body : Z -> F X unit) (I : list Z -> sys X -> Prop) b n s (Q : unit -> sys X -> Prop) :
  0 <= n <= zlen b -> I [] s ->
  (forall d x s', I d s' -> b !! length d = Some x -> nthZ b (zlen d) = x -> zlen d < n ->
    wp (body (zlen d)) s' (λ _ s'', I (d ++ [x]) s'')) ->
  (forall s', I (take (Z.to_nat n) b) s' -> Q tt s') ->
  wp (sfor (seqZ 0 n) body) s Q.
Proof.
  intros Hn HI Hb HQ.
  apply (wp_for _ (λ l s', exists d, seqZ 0 n = d ++ l /\ I (take (length d) b) s')).
  - by exists [].
  - intros i l s1 (d & Hd & Hs).
    assert (Hi : i = zlen d /\ zlen d < n).
    { assert (Hk : seqZ 0 n !! length d = Some i) by (rewrite Hd; apply list_lookup_middle; lia).
      apply lookup_seqZ in Hk. unfold zlen. lia. }
    destruct Hi as [-> Hi]. destruct (lookup_lt_is_Some_2 b (length d)) as [x Hx]; [unfold zlen in *; lia|].
    assert (Hnx : nthZ b (zlen d) = x) by (unfold nthZ, zlen; rewrite Nat2Z.id; by apply nth_lookup_Some).
    assert (Hlen : length (take (length d) b) = length d) by (rewrite length_take; unfold zlen in *; lia).
    assert (Hz : zlen (take (length d) b) = zlen d) by (unfold zlen; by rewrite Hlen).
    rewrite <- Hz. eapply wp_mono.
    + apply (Hb _ x); [done| | |]; rewrite ?Hlen, ?Hz; done.
    + intros ? s2 Hs2. exists (d ++ [zlen d]). rewrite <- app_assoc. split; [done|].
      rewrite length_app. cbn [length]. by rewrite Nat.add_1_r, (take_S_r _ _ _ Hx).
  - intros s1 (d & Hd & Hs). rewrite app_nil_r in Hd. subst d. apply HQ. by rewrite length_seqZ in Hs.
Qed.

Lemma send_bytes_spec u bound `{!TxDrains u UART_TXFIFO_EMPTY_THRHD bound} fuel
    (body : Z -> F X unit) s buf b n :
  (forall i, body i = (b <- load_byte buf i ;; (tx_wait_write fuel u UART_TXFIFO_EMPTY_THRHD b ;; sret b) ;; sret tt)) ->
  (bound < fuel)%nat -> mem_load (mem s) buf (zlen b) = Some b -> Forall is_byte b -> 0 <= n <= zlen b ->
  wp (sfor (seqZ 0 n) body) s (λ _ s', sent u (take (Z.to_nat n) b) s s').
Proof.
  intros Hbody Hf Hb Hbytes Hn. apply (wp_for_bytes _ (λ d s', sent u d s s') b); [done|apply sent_nil| |done].
  intros d x s1 Hs Hx Hnx Hd. rewrite Hbody. pose proof (zlen_nonneg d).
  apply wp_bind, (load_byte_spec s1 buf _ b); [destruct Hs as (_ & _ & -> & _); done|lia|]. rewrite Hnx.
  apply wp_bind, wp_bind. eapply wp_mono.
  - apply (tx_wait_write_spec u _ bound); [done|]. by apply (Forall_lookup_1 _ _ _ _ Hbytes Hx).
  - intros ? s2 Hs2. apply wp_ret, wp_ret. by apply (sent_trans _ _ _ _ s1).
Qed.

Lemma uart0_send_buffer_ok bound `{!TxDrains UART0 UART_TXFIFO_EMPTY_THRHD bound} fuel s buf b :
  (bound < fuel)%nat -> mem_load (mem s) buf (zlen b) = Some b -> Forall is_byte b ->
  wp (uart0_send_buffer fuel buf (zlen b)) s (λ _ s', sent UART0 b s s').
Proof.
  intros. eapply wp_mono.
  - apply (send_bytes_spec UART0 bound fuel _ s buf b); try done. pose proof (zlen_nonneg b). lia.
  - intros ? s' Hs. pose proof (zlen_nonneg b). unfold zlen in Hs. by rewrite Nat2Z.id, take_ge in Hs by lia.
Qed.
End Sending.

(** ** Receiving *)

Section Receiving.
Context `{Env} {X : Type} `{PR : Part X rx_buffer_t}.
Implicit Types s : sys X.

(** The bytes of the words read from the FIFO register. *)
Definition rx_bytes (vs : list Z) : list Z := (λ v, Z.land v 0xFF) <$> vs.

Lemma rx_bytes_ok vs : Forall is_byte (rx_bytes vs).
Proof. apply Forall_fmap, Forall_true. intros v. unfold is_byte. cbn. rewrite land_255. dlia. Qed.

Lemma drain_rx_spec fuel n p blk0 : forall s done blk,
  part (st s) = mk_rx (Some p) (zlen done) -> zlen done <= n <= 255 -> n - zlen done < Z.of_nat fuel ->
  mem s !! p_blk p = Some blk -> wrote blk0 (p_off p) done blk -> 0 <= p_off p -> p_off p + n <= zlen blk0 ->
  wp (drain_rx fuel n) s (λ _ s', exists vs blk', zlen done + zlen vs = n /\
    log s' = log s ++ (Rd (UART_FIFO UART0) <$> vs) /\ mem s' = <[p_blk p := blk']> (mem s) /\
    wrote blk0 (p_off p) (done ++ rx_bytes vs) blk' /\ st s' = set_part (mk_rx (Some p) n) (st s)).
Proof.
  induction fuel as [|fuel IH]; intros s done blk Hp Hn Hf Hb Hw Ho Hroom; [lia|].
  cbn [drain_rx]. apply wp_bind, wp_pvar. rewrite Hp. cbn [len].
  destruct (Z.ltb_spec (zlen done) n) as [Hlt|Hge].
  - apply wp_bind, wp_pvar, wp_bind. rewrite Hp. cbn [buffer].
    apply (wp_lift _ p); [done|]. apply wp_bind, wp_read. set (v := u32 _). apply wp_bind.
    eexists _, _. split; [reflexivity|]. cbn [mem]. apply wp_bind. pose proof (zlen_nonneg done).
    destruct Hw as [Hz Hw].
    destruct (wr_total blk (p_off p + zlen done) (Z.land v 0xFF)) as [blk' Eb]; [lia|].
    apply (wp_lift _ (<[p_blk p := blk']> (mem s))).
    { unfold mem_store, padd. cbn [p_blk p_off]. rewrite Hb. cbn [mbind option_bind]. unfold wr in Eb. by rewrite Eb. }
    apply wp_bind. eexists _, _. split; [reflexivity|]. cbn [log mem st]. apply wp_bind, wp_pmodify. cbn [log mem st].
    rewrite Hp. unfold set_field. cbn [buffer]. rewrite u8_small by lia.
    eapply wp_mono.
    + apply (IH _ (done ++ [Z.land v 0xFF]) blk'); cbn [log mem st].
      * rewrite part_set, zlen_app. done.
      * rewrite zlen_app. change (zlen [Z.land v 0xFF]) with 1. lia.
      * rewrite zlen_app. change (zlen [Z.land v 0xFF]) with 1. lia.
      * apply lookup_insert_eq.
      * by apply (wrote_snoc _ _ _ blk).
      * done.
      * done.
    + cbn [log mem st]. intros ? s' (vs & blk2 & Hl & Hlog & Hm & Hw2 & Hst).
      exists (v :: vs), blk2. rewrite zlen_app in Hl. change (zlen [Z.land v 0xFF]) with 1 in Hl.
      split; [rewrite zlen_cons; lia|]. split; [by rewrite Hlog, <- app_assoc|].
      split; [by rewrite Hm, insert_insert_eq|]. split; [by rewrite <- app_assoc in Hw2|]. by rewrite Hst, set_set.
  - apply wp_ret. exists [], blk. assert (zlen done = n) as <- by lia. cbn. rewrite !app_nil_r, Z.add_0_r.
    split; [done|]. split; [done|]. split; [by rewrite insert_id|]. split; [done|]. by rewrite <- Hp, set_part_id.
Qed.

Lemma uart0_receive_ok s p blk l0 :
  part (st s) = mk_rx (Some p) l0 -> mem s !! p_blk p = Some blk -> 0 <= p_off p -> p_off p + 255 <= zlen blk ->
  let status := u32 (hw_read (log s) (UART_STATUS UART0)) in
  wp uart0_receive s (λ _ s', exists vs blk', zlen vs = rxfifo_cnt status /\
    log s' = log s ++ [Rd (UART_STATUS UART0) status] ++ (Rd (UART_FIFO UART0) <$> vs) ++
      [Wr (UART_INT_CLR UART0) UART_RXFIFO_TOUT_INT] /\
    mem s' = <[p_blk p := blk']> (mem s) /\ wrote blk (p_off p) (rx_bytes vs) blk' /\
    st s' = set_part (mk_rx (Some p) (zlen vs)) (st s)).
Proof.
  intros Hp Hb Ho Hroom status. unfold uart0_receive. apply wp_bind, wp_pmodify, wp_bind, wp_read. cbn [log mem st].
  fold status. rewrite Hp. unfold set_field. cbn [buffer].
  assert (Hc : 0 <= rxfifo_cnt status < 256).
  { unfold rxfifo_cnt, UART_RXFIFO_CNT. rewrite land_255. dlia. }
  rewrite u8_small by lia. apply wp_bind. eapply wp_mono.
  - apply (drain_rx_spec 256 (rxfifo_cnt status) p blk _ [] blk); cbn [log mem st]; try done; try lia.
    + by rewrite part_set.
    + rewrite zlen_nil. lia.
    + rewrite zlen_nil. lia.
    + apply wrote_nil.
  - cbn [log mem st]. intros ? s1 (vs & blk' & Hl & Hlog & Hm & Hw & Hst). rewrite zlen_nil in Hl. cbn in Hl.
    apply wp_write. cbn [log mem st]. exists vs, blk'. split; [done|]. split; [|split; [done|split; [done|]]].
    + rewrite Hlog, <- !app_assoc. done.
    + rewrite Hst, set_set. by rewrite <- Hl.
Qed.

(** the receive branch of the interrupt handler moves exactly the bytes
    the FIFO announces, in the order they are read, to the start of the receive
    buffer and records their number, for any number the status register can
    hold and with no write outside the buffer; the only interrupt it
    acknowledges is the time-out, even when FULL or OVF brought it here. *)
Theorem uart0_receive_spec s p blk l0 :
  part (st s) = mk_rx (Some p) l0 -> mem s !! p_blk p = Some blk -> 0 <= p_off p -> p_off p + 255 <= zlen blk ->
  let status := u32 (hw_read (log s) (UART_STATUS UART0)) in
  wp uart0_receive s (λ _ s', exists vs, zlen vs = rxfifo_cnt status /\
    log s' = log s ++ [Rd (UART_STATUS UART0) status] ++ (Rd (UART_FIFO UART0) <$> vs) ++
      [Wr (UART_INT_CLR UART0) UART_RXFIFO_TOUT_INT] /\
    mem_load (mem s') p (zlen vs) = Some (rx_bytes vs) /\ part (st s') = mk_rx (Some p) (zlen vs)).
Proof.
  intros Hp Hb Ho Hroom status. eapply wp_mono; [exact (uart0_receive_ok s p blk l0 Hp Hb Ho Hroom)|].
  cbn beta. intros ? s' (vs & blk' & Hl & Hlog & Hm & Hw & Hst). fold status in Hl, Hlog. exists vs.
  split; [done|]. split; [done|]. rewrite Hst, part_set. split; [|done].
  assert (Hz : zlen (rx_bytes vs) = zlen vs) by (unfold zlen, rx_bytes; by rewrite length_fmap).
  assert (Hr : 0 <= zlen vs < 256) by (rewrite Hl; unfold rxfifo_cnt, UART_RXFIFO_CNT; rewrite land_255; dlia).
  pose proof (proj1 Hw). rewrite Hm, (mem_load_Some _ _ _ blk') by (rewrite ?lookup_insert_eq; done || lia).
  rewrite <- Hz. f_equal. by apply (wrote_view blk).
Qed.
End Receiving.

(** ** The theorem at a concrete input *)

(** A receiver that announces two bytes and delivers 0x41 each time. *)
Definition two_bytes : Env := mk_env (λ l a, if a =? UART_STATUS UART0 then 2 else 0x41) (λ _ _, 0).

Lemma uart0_receive_spec_witness :
  let s := mk_sys [] (<[1%positive := replicate 256 0]> ∅) (mk_rx (Some (mk_ptr 1 0)) 0) in
  wp (@uart0_receive two_bytes _ _) s (λ _ s', exists vs,
    mem_load (mem s') (mk_ptr 1 0) 2 = Some (rx_bytes vs) /\ st s' = mk_rx (Some (mk_ptr 1 0)) 2).
Proof.
  eapply wp_mono; [apply (@uart0_receive_spec two_bytes _ _ (mk_sys [] (<[1%positive := replicate 256 0]> ∅) (mk_rx (Some (mk_ptr 1 0)) 0))
    (mk_ptr 1 0) (replicate 256 0) 0); [reflexivity|reflexivity|cbn; lia|vm_compute; discriminate]|].
  cbn beta. intros ? s' (vs & Hl & Hlog & Hm & Hst).
  assert (Hv : zlen vs = 2) by (rewrite Hl; reflexivity). rewrite Hv in *. exists vs. split; [exact Hm|exact Hst].
Defined.
