(* ===== verification/Modbus.v ===== *)
(** * Modbus: the Modbus RTU framing of app/user/modbus.c

    The table-driven CRC against the bitwise CRC-16, what it detects, and the
    frames [modbus_send] and [modbus_receive] let through. *)

From stdpp Require Import gmap.
From S2P Require Import Prelude CMem Board UartReg UserUart.
Local Open Scope sm_scope.
Local Open Scope list_scope.

Definition MODBUS_BUFFER_SIZE : Z := 256.

Definition auchCRCHi : list Z := [
    0x00; 0xC1; 0x81; 0x40; 0x01; 0xC0; 0x80; 0x41; 0x01; 0xC0; 0x80; 0x41; 0x00; 0xC1; 0x81; 0x40;
    0x01; 0xC0; 0x80; 0x41; 0x00; 0xC1; 0x81; 0x40; 0x00; 0xC1; 0x81; 0x40; 0x01; 0xC0; 0x80; 0x41;
    0x01; 0xC0; 0x80; 0x41; 0x00; 0xC1; 0x81; 0x40; 0x00; 0xC1; 0x81; 0x40; 0x01; 0xC0; 0x80; 0x41;
    0x00; 0xC1; 0x81; 0x40; 0x01; 0xC0; 0x80; 0x41; 0x01; 0xC0; 0x80; 0x41; 0x00; 0xC1; 0x81; 0x40;
    0x01; 0xC0; 0x80; 0x41; 0x00; 0xC1; 0x81; 0x40; 0x00; 0xC1; 0x81; 0x40; 0x01; 0xC0; 0x80; 0x41;
    0x00; 0xC1; 0x81; 0x40; 0x01; 0xC0; 0x80; 0x41; 0x01; 0xC0; 0x80; 0x41; 0x00; 0xC1; 0x81; 0x40;
    0x00; 0xC1; 0x81; 0x40; 0x01; 0xC0; 0x80; 0x41; 0x01; 0xC0; 0x80; 0x41; 0x00; 0xC1; 0x81; 0x40;
    0x01; 0xC0; 0x80; 0x41; 0x00; 0xC1; 0x81; 0x40; 0x00; 0xC1; 0x81; 0x40; 0x01; 0xC0; 0x80; 0x41;
    0x01; 0xC0; 0x80; 0x41; 0x00; 0xC1; 0x81; 0x40; 0x00; 0xC1; 0x81; 0x40; 0x01; 0xC0; 0x80; 0x41;
    0x00; 0xC1; 0x81; 0x40; 0x01; 0xC0; 0x80; 0x41; 0x01; 0xC0; 0x80; 0x41; 0x00; 0xC1; 0x81; 0x40;
    0x00; 0xC1; 0x81; 0x40; 0x01; 0xC0; 0x80; 0x41; 0x01; 0xC0; 0x80; 0x41; 0x00; 0xC1; 0x81; 0x40;
    0x01; 0xC0; 0x80; 0x41; 0x00; 0xC1; 0x81; 0x40; 0x00; 0xC1; 0x81; 0x40; 0x01; 0xC0; 0x80; 0x41;
    0x00; 0xC1; 0x81; 0x40; 0x01; 0xC0; 0x80; 0x41; 0x01; 0xC0; 0x80; 0x41; 0x00; 0xC1; 0x81; 0x40;
    0x01; 0xC0; 0x80; 0x41; 0x00; 0xC1; 0x81; 0x40; 0x00; 0xC1; 0x81; 0x40; 0x01; 0xC0; 0x80; 0x41;
    0x01; 0xC0; 0x80; 0x41; 0x00; 0xC1; 0x81; 0x40; 0x00; 0xC1; 0x81; 0x40; 0x01; 0xC0; 0x80; 0x41;
    0x00; 0xC1; 0x81; 0x40; 0x01; 0xC0; 0x80; 0x41; 0x01; 0xC0; 0x80; 0x41; 0x00; 0xC1; 0x81; 0x40].

Definition auchCRCLo : list Z := [
    0x00; 0xC0; 0xC1; 0x01; 0xC3; 0x03; 0x02; 0xC2; 0xC6; 0x06; 0x07; 0xC7; 0x05; 0xC5; 0xC4; 0x04;
    0xCC; 0x0C; 0x0D; 0xCD; 0x0F; 0xCF; 0xCE; 0x0E; 0x0A; 0xCA; 0xCB; 0x0B; 0xC9; 0x09; 0x08; 0xC8;
    0xD8; 0x18; 0x19; 0xD9; 0x1B; 0xDB; 0xDA; 0x1A; 0x1E; 0xDE; 0xDF; 0x1F; 0xDD; 0x1D; 0x1C; 0xDC;
    0x14; 0xD4; 0xD5; 0x15; 0xD7; 0x17; 0x16; 0xD6; 0xD2; 0x12; 0x13; 0xD3; 0x11; 0xD1; 0xD0; 0x10;
    0xF0; 0x30; 0x31; 0xF1; 0x33; 0xF3; 0xF2; 0x32; 0x36; 0xF6; 0xF7; 0x37; 0xF5; 0x35; 0x34; 0xF4;
    0x3C; 0xFC; 0xFD; 0x3D; 0xFF; 0x3F; 0x3E; 0xFE; 0xFA; 0x3A; 0x3B; 0xFB; 0x39; 0xF9; 0xF8; 0x38;
    0x28; 0xE8; 0xE9; 0x29; 0xEB; 0x2B; 0x2A; 0xEA; 0xEE; 0x2E; 0x2F; 0xEF; 0x2D; 0xED; 0xEC; 0x2C;
    0xE4; 0x24; 0x25; 0xE5; 0x27; 0xE7; 0xE6; 0x26; 0x22; 0xE2; 0xE3; 0x23; 0xE1; 0x21; 0x20; 0xE0;
    0xA0; 0x60; 0x61; 0xA1; 0x63; 0xA3; 0xA2; 0x62; 0x66; 0xA6; 0xA7; 0x67; 0xA5; 0x65; 0x64; 0xA4;
    0x6C; 0xAC; 0xAD; 0x6D; 0xAF; 0x6F; 0x6E; 0xAE; 0xAA; 0x6A; 0x6B; 0xAB; 0x69; 0xA9; 0xA8; 0x68;
    0x78; 0xB8; 0xB9; 0x79; 0xBB; 0x7B; 0x7A; 0xBA; 0xBE; 0x7E; 0x7F; 0xBF; 0x7D; 0xBD; 0xBC; 0x7C;
    0xB4; 0x74; 0x75; 0xB5; 0x77; 0xB7; 0xB6; 0x76; 0x72; 0xB2; 0xB3; 0x73; 0xB1; 0x71; 0x70; 0xB0;
    0x50; 0x90; 0x91; 0x51; 0x93; 0x53; 0x52; 0x92; 0x96; 0x56; 0x57; 0x97; 0x55; 0x95; 0x94; 0x54;
    0x9C; 0x5C; 0x5D; 0x9D; 0x5F; 0x9F; 0x9E; 0x5E; 0x5A; 0x9A; 0x9B; 0x5B; 0x99; 0x59; 0x58; 0x98;
    0x88; 0x48; 0x49; 0x89; 0x4B; 0x8B; 0x8A; 0x4A; 0x4E; 0x8E; 0x8F; 0x4F; 0x8D; 0x4D; 0x4C; 0x8C;
    0x44; 0x84; 0x85; 0x45; 0x87; 0x47; 0x46; 0x86; 0x82; 0x42; 0x43; 0x83; 0x41; 0x81; 0x80; 0x40].

(** The static variables of modbus.c; [modbus_rx_buffer] is an [rx_buffer_t] of its own. *)
Record modbus_vars := mk_modbus { crcH : Z; crcL : Z; idx : Z; modbus_recv_frame_cb : option fn }.
#[export] Instance eta_modbus : Settable modbus_vars :=
  λ r, mk_modbus (crcH r) (crcL r) (idx r) (modbus_recv_frame_cb r).

(** As the C start-up leaves them. *)
Definition modbus_initial : modbus_vars := mk_modbus 0xFF 0xFF 0 None.

(** [crcH << 8 | crcL], a [uint16_t]. *)
Definition crc_value (v : modbus_vars) : Z := u16 (Z.lor (Z.shiftl (crcH v) 8) (crcL v)).

(** One round: [idx = crcL ^ byte; crcL = crcH ^ auchCRCHi[idx]; crcH = auchCRCLo[idx];] *)
Definition crc_round (v : modbus_vars) (byte : Z) : option modbus_vars :=
  let i := Z.lxor (crcL v) byte in
  hi ← rd auchCRCHi i; lo ← rd auchCRCLo i;
  Some (v <| idx := i |> <| crcL := Z.lxor (crcH v) hi |> <| crcH := lo |>).

Section Modbus.
Context `{Env} {X : Type} `{PM : Part X modbus_vars} `{PR : Part X rx_buffer_t}.
(** The installed frame callback, called with the buffer and its length. *)
Context (run_frame : fn -> ptr -> Z -> F X unit).

Definition crc_update (byte : Z) : F X unit :=
  v <- pvar (λ v, v) ;; v <- slift (crc_round v byte) ;; pmodify (λ _, v).

Definition modbus_init `{Alloc} : F X unit :=
  p <- os_zalloc MODBUS_BUFFER_SIZE ;;
  pmodify (λ r : rx_buffer_t, r <| buffer := p |>) ;;
  uart0_init BAUDRATE_9600 64 ;;
  uart_enable_isr.

Definition modbus_crc16_init : F X unit :=
  pmodify (λ v, v <| crcH := 0xFF |> <| crcL := 0xFF |> <| idx := 0 |>).

Definition modbus_crc16_once (byte : Z) : F X Z := crc_update byte ;; pvar crc_value.

Definition modbus_crc16 (buf : ptr) (len : Z) : F X Z :=
  pmodify (λ v, v <| crcH := 0xFF |> <| crcL := 0xFF |> <| idx := 0 |>) ;;
  sfor (seqZ 0 len) (λ i, b <- load_byte buf i ;; crc_update b) ;;
  pvar crc_value.

Definition modbus_checksum : F X Z := pvar crc_value.

Definition modbus_send (fuel : nat) (pbuf : option ptr) (len : Z) : F X unit :=
  match pbuf with
  | Some p =>
      c <- modbus_crc16 p len ;;
      if c =? 0x00 then sfor (seqZ 0 len) (λ i, b <- load_byte p i ;; uart0_send_byte fuel b ;; sret tt)
      else sret tt
  | None => sret tt
  end.

(** [pbuf] is the address of [modbus_rx_buffer], the only [rx_buffer_t] there is, or null. *)
Definition modbus_receive (pbuf : option rx_buffer_t) : F X unit :=
  match pbuf with
  | Some r =>
      p <- slift (buffer r) ;;
      c <- modbus_crc16 p (len r) ;;
      if c =? 0 then
        cb <- pvar modbus_recv_frame_cb ;;
        match cb with Some f => run_frame f p (len r) | None => sret tt end
      else sret tt
  | None => sret tt
  end.

Definition modbus_set_recv_frame_fn (callback : option fn) : F X unit :=
  pmodify (λ v, v <| modbus_recv_frame_cb := callback |>).
End Modbus.

(** ** The bitwise CRC-16 *)

(** One shift of the reflected polynomial x^16 + x^15 + x^2 + 1. *)
Definition crc_bit (c : Z) : Z := Z.lxor (Z.shiftr c 1) (if Z.testbit c 0 then 0xA001 else 0).
Definition crc_byte (c b : Z) : Z := Nat.iter 8 crc_bit (Z.lxor c b).
Definition crc_from (c : Z) (msg : list Z) : Z := fold_left crc_byte msg c.
Definition crc16 (msg : list Z) : Z := crc_from 0xFFFF msg.

Lemma lxor_bound n a b : 0 <= n -> 0 <= a < 2 ^ n -> 0 <= b < 2 ^ n -> 0 <= Z.lxor a b < 2 ^ n.
Proof.
  intros Hn Ha Hb. assert (E : Z.lxor a b = Z.lxor a b mod 2 ^ n).
  { apply Z.bits_inj'. intros i Hi. destruct (Z.lt_ge_cases i n).
    - by rewrite Z.mod_pow2_bits_low by lia.
    - rewrite Z.mod_pow2_bits_high by lia. rewrite Z.lxor_spec.
      rewrite <- (Z.mod_small a (2 ^ n)), <- (Z.mod_small b (2 ^ n)) by lia.
      by rewrite !Z.mod_pow2_bits_high by lia. }
  rewrite E. apply Z.mod_pos_bound. lia.
Qed.

Lemma crc_bit_lxor a b : crc_bit (Z.lxor a b) = Z.lxor (crc_bit a) (crc_bit b).
Proof.
  unfold crc_bit. rewrite Z.shiftr_lxor, Z.lxor_spec.
  destruct (Z.testbit a 0), (Z.testbit b 0); cbn [xorb]; rewrite ?Z.lxor_0_r; apply Z.bits_inj'; intros i _;
    rewrite !Z.lxor_spec; destruct (Z.testbit (Z.shiftr a 1) i), (Z.testbit (Z.shiftr b 1) i), (Z.testbit 0xA001 i); done.
Qed.

Lemma crc_iter_lxor n a b : Nat.iter n crc_bit (Z.lxor a b) = Z.lxor (Nat.iter n crc_bit a) (Nat.iter n crc_bit b).
Proof. induction n as [|n IH]; [done|]. by rewrite !Nat.iter_succ, IH, crc_bit_lxor. Qed.

Lemma crc_iter_shift n h : Nat.iter n crc_bit (Z.shiftl h (Z.of_nat n)) = h.
Proof.
  induction n as [|n IH]; [apply Z.shiftl_0_r|]. rewrite Nat.iter_succ_r.
  replace (crc_bit _) with (Z.shiftl h (Z.of_nat n)); [done|]. unfold crc_bit.
  rewrite Z.shiftl_spec_low by lia. rewrite Z.lxor_0_r, Z.shiftr_shiftl_l by lia. f_equal. lia.
Qed.

Lemma crc_bit_bound c : 0 <= c < 65536 -> 0 <= crc_bit c < 65536.
Proof.
  intros Hc. apply (lxor_bound 16); [lia| |destruct (Z.testbit c 0); lia].
  rewrite Z.shiftr_div_pow2 by lia. change (2 ^ 1) with 2. change (2 ^ 16) with 65536. dlia.
Qed.

Lemma crc_iter_bound n c : 0 <= c < 65536 -> 0 <= Nat.iter n crc_bit c < 65536.
Proof. intros. induction n; [done|]. rewrite Nat.iter_succ. by apply crc_bit_bound. Qed.

Lemma crc_byte_bound c b : 0 <= c < 65536 -> is_byte b -> 0 <= crc_byte c b < 65536.
Proof. unfold is_byte. intros. apply crc_iter_bound, (lxor_bound 16); lia. Qed.

Lemma crc_from_bound msg : forall c, 0 <= c < 65536 -> Forall is_byte msg -> 0 <= crc_from c msg < 65536.
Proof.
  induction msg as [|b msg IH]; intros c Hc Hm; [done|]. apply Forall_cons_1 in Hm as [Hb Hm].
  apply IH; [by apply crc_byte_bound|done].
Qed.

Lemma crc_from_app c m1 m2 : crc_from c (m1 ++ m2) = crc_from (crc_from c m1) m2.
Proof. apply fold_left_app. Qed.

(** The two tables together hold the CRC of every byte. *)
Lemma crc_tables i : is_byte i ->
  rd auchCRCHi i = Some (Z.land (Nat.iter 8 crc_bit i) 255) /\ rd auchCRCLo i = Some (Z.shiftr (Nat.iter 8 crc_bit i) 8).
Proof.
  intros Hi. unfold is_byte in Hi.
  assert (Hall : zall 256 (λ i, (nthZ auchCRCHi i =? Z.land (Nat.iter 8 crc_bit i) 255) &&
    (nthZ auchCRCLo i =? Z.shiftr (Nat.iter 8 crc_bit i) 8)) = true) by (vm_compute; reflexivity).
  assert (E : (nthZ auchCRCHi i =? Z.land (Nat.iter 8 crc_bit i) 255) &&
    (nthZ auchCRCLo i =? Z.shiftr (Nat.iter 8 crc_bit i) 8) = true).
  { apply (zall_spec 256 (λ i, (nthZ auchCRCHi i =? Z.land (Nat.iter 8 crc_bit i) 255) &&
      (nthZ auchCRCLo i =? Z.shiftr (Nat.iter 8 crc_bit i) 8)) Hall). lia. }
  apply andb_true_iff in E. destruct E as [E1 E2]. apply Z.eqb_eq in E1, E2. clear Hall.
  assert (zlen auchCRCHi = 256 /\ zlen auchCRCLo = 256) as [H1 H2] by done.
  rewrite !rd_Some by (rewrite ?H1, ?H2; lia). by rewrite E1, E2.
Qed.

(** The register the two halves stand for. *)
Definition crc_reg (v : modbus_vars) : Z := crcH v * 256 + crcL v.

Lemma crc_value_reg v : is_byte (crcH v) -> is_byte (crcL v) -> crc_value v = crc_reg v.
Proof.
  unfold is_byte, crc_value, crc_reg. intros. rewrite lor_shiftl_add by lia. change (2 ^ 8) with 256. apply u16_small. lia.
Qed.

(** Two bytes side by side. *)
Lemma lxor_halves a b : 0 <= b < 256 -> Z.lxor (Z.shiftl a 8) b = a * 256 + b.
Proof.
  intros Hb. rewrite Z.lxor_lor; [by rewrite lor_shiftl_add by lia|].
  apply Z.bits_inj'. intros i Hi. rewrite Z.land_spec, Z.bits_0. destruct (Z.lt_ge_cases i 8).
  - by rewrite Z.shiftl_spec_low.
  - rewrite <- (Z.mod_small b (2 ^ 8)) by lia. by rewrite Z.mod_pow2_bits_high, andb_false_r by lia.
Qed.

(** One round of the code is one byte of the bitwise CRC. *)
Lemma crc_round_spec v b :
  is_byte (crcH v) -> is_byte (crcL v) -> is_byte b ->
  exists v', crc_round v b = Some v' /\ crc_reg v' = crc_byte (crc_reg v) b /\
    is_byte (crcH v') /\ is_byte (crcL v') /\ modbus_recv_frame_cb v' = modbus_recv_frame_cb v.
Proof.
  intros HH HL Hb. unfold is_byte in HH, HL.
  assert (Hi : is_byte (Z.lxor (crcL v) b)) by (apply (lxor_bound 8); unfold is_byte in *; lia).
  destruct (crc_tables _ Hi) as [E1 E2]. unfold crc_round. rewrite E1. cbn [mbind option_bind]. rewrite E2.
  set (t := Nat.iter 8 crc_bit (Z.lxor (crcL v) b)) in *.
  assert (Ht : 0 <= t < 65536) by (apply crc_iter_bound; unfold is_byte in Hi; lia).
  cbn [mbind option_bind]. eexists. split; [reflexivity|]. unfold set_field, crc_reg. cbn [crcH crcL modbus_recv_frame_cb].
  rewrite land_255, shiftr_8.
  assert (Hl : 0 <= Z.lxor (crcH v) (t mod 256) < 256) by (apply (lxor_bound 8); [lia|lia|dlia]).
  split; [|split_and!; unfold is_byte; dlia || done].
  transitivity (Z.lxor (crcH v) t).
  - assert (Et : t = Z.lxor (Z.shiftl (t / 256) 8) (t mod 256)) by (rewrite lxor_halves by dlia; dlia).
    rewrite Et at 3. rewrite (Z.lxor_comm (Z.shiftl _ _)), <- Z.lxor_assoc, (Z.lxor_comm _ (Z.shiftl _ _)).
    by rewrite lxor_halves by lia.
  - unfold crc_byte. rewrite <- lxor_halves, Z.lxor_assoc, crc_iter_lxor by lia. by rewrite (crc_iter_shift 8).
Qed.

Lemma crc_bit_0 c : 0 <= c < 65536 -> crc_bit c = 0 -> c = 0.
Proof.
  unfold crc_bit. intros Hc. destruct (Z.testbit c 0) eqn:E; intros H.
  - apply Z.lxor_eq in H. rewrite Z.shiftr_div_pow2 in H by lia. change (2 ^ 1) with 2 in H. dlia.
  - rewrite Z.lxor_0_r, Z.shiftr_div_pow2 in H by lia. change (2 ^ 1) with 2 in H.
    assert (c = 0 \/ c = 1) as [?| ->] by dlia; [done|discriminate].
Qed.

Lemma crc_iter_0 n c : 0 <= c < 65536 -> Nat.iter n crc_bit c = 0 -> c = 0.
Proof.
  intros Hc. induction n as [|n IH]; [done|]. rewrite Nat.iter_succ. intros H.
  apply IH, crc_bit_0; [by apply crc_iter_bound|done].
Qed.

(** A message damaged by [e]: the bytes of both, combined one by one. *)
Definition damage (m e : list Z) : list Z := zip_with Z.lxor m e.

Lemma crc_from_cons c b msg : crc_from c (b :: msg) = crc_from (crc_byte c b) msg.
Proof. done. Qed.
Lemma crc_from_nil c : crc_from c [] = c.
Proof. done. Qed.
Lemma crc_byte_0 : crc_byte 0 0 = 0.
Proof. done. Qed.
Lemma crc_byte_unfold c b : crc_byte c b = Nat.iter 8 crc_bit (Z.lxor c b).
Proof. done. Qed.
Lemma crc_byte_lxor c d b x : crc_byte (Z.lxor c d) (Z.lxor b x) = Z.lxor (crc_byte c b) (crc_byte d x).
Proof.
  unfold crc_byte. rewrite <- crc_iter_lxor.
  replace (Z.lxor (Z.lxor c d) (Z.lxor b x)) with (Z.lxor (Z.lxor c b) (Z.lxor d x)); [done|].
  apply Z.bits_inj'. intros i _. rewrite !Z.lxor_spec.
  destruct (Z.testbit c i), (Z.testbit d i), (Z.testbit b i), (Z.testbit x i); done.
Qed.
Lemma crc_byte_zero c : 0 <= c < 65536 -> crc_byte c 0 = 0 -> c = 0.
Proof. intros Hc. unfold crc_byte. rewrite Z.lxor_0_r. by apply crc_iter_0. Qed.
(** The CRC of a byte reaches into the high half. *)
Lemma crc_small a : is_byte a -> crc_byte 0 a < 256 -> a = 0.
Proof.
  unfold is_byte. intros Ha Hs. destruct (Z.eq_dec a 0) as [|Hn]; [done|exfalso].
  assert (Hall : zall 256 (λ a, (a =? 0) || (256 <=? crc_byte 0 a)) = true) by (vm_compute; reflexivity).
  assert (E : (a =? 0) || (256 <=? crc_byte 0 a) = true) by (apply (zall_spec 256 (λ a, (a =? 0) || (256 <=? crc_byte 0 a)) Hall); lia).
  apply orb_true_iff in E as [E|E]; [apply Z.eqb_eq in E|apply Z.leb_le in E]; lia.
Qed.
#[local] Opaque crc_byte crc_from.

Lemma crc_from_damage m : forall e c d, length e = length m ->
  crc_from (Z.lxor c d) (damage m e) = Z.lxor (crc_from c m) (crc_from d e).
Proof.
  induction m as [|b m IH]; intros [|x e] c d Hl; try discriminate; [done|]. injection Hl as Hl.
  change (damage (b :: m) (x :: e)) with (Z.lxor b x :: damage m e).
  rewrite !crc_from_cons, crc_byte_lxor. apply IH, Hl.
Qed.

Lemma crc_zeros n : crc_from 0 (replicate n 0) = 0.
Proof. induction n as [|n IH]; [done|]. rewrite replicate_S, crc_from_cons, crc_byte_0. exact IH. Qed.

Lemma crc_zeros_nz n : forall c, 0 <= c < 65536 -> crc_from c (replicate n 0) = 0 -> c = 0.
Proof.
  induction n as [|n IH]; intros c Hc H; [exact H|]. rewrite replicate_S, crc_from_cons in H.
  apply crc_byte_zero; [done|]. apply IH; [by apply crc_byte_bound; unfold is_byte; lia|exact H].
Qed.

(** A burst of two bytes never has the CRC of silence. *)
Lemma crc_burst i a b j : is_byte a -> is_byte b ->
  crc_from 0 (replicate i 0 ++ [a; b] ++ replicate j 0) = 0 -> a = 0 /\ b = 0.
Proof.
  intros Ha Hb. rewrite !crc_from_app, crc_zeros, !crc_from_cons, crc_from_nil. intros H.
  assert (B1 : 0 <= crc_byte 0 a < 65536) by (apply crc_byte_bound; done || lia).
  apply crc_zeros_nz in H; [|by apply crc_byte_bound]. rewrite crc_byte_unfold in H.
  apply crc_iter_0 in H; [|apply (lxor_bound 16); unfold is_byte in *; lia]. apply Z.lxor_eq in H.
  assert (a = 0) as -> by (apply crc_small; unfold is_byte in *; lia). by rewrite crc_byte_0 in H.
Qed.

(** A message followed by its CRC, low byte first. *)
Definition with_crc (msg : list Z) : list Z := msg ++ [crc16 msg mod 256; crc16 msg / 256].

Lemma crc16_with_crc msg : Forall is_byte msg -> crc16 (with_crc msg) = 0.
Proof.
  intros Hm. unfold crc16 at 1, with_crc. rewrite crc_from_app. change (crc_from 0xFFFF msg) with (crc16 msg).
  assert (Hc : 0 <= crc16 msg < 65536) by (apply crc_from_bound; done || lia).
  rewrite !crc_from_cons, crc_from_nil. set (c := crc16 msg) in *. clearbody c.
  assert (E : crc_byte c (c mod 256) = c / 256); [|by rewrite E, crc_byte_unfold, Z.lxor_nilpotent].
  rewrite crc_byte_unfold. assert (Ec : c = Z.lxor (Z.shiftl (c / 256) 8) (c mod 256)) by (rewrite lxor_halves by dlia; dlia).
  rewrite Ec at 1. rewrite Z.lxor_assoc, Z.lxor_nilpotent, Z.lxor_0_r. apply (crc_iter_shift 8).
Qed.

(** ** The code against the bitwise CRC *)

Section Operations.
Context `{Env} {X : Type} `{PM : Part X modbus_vars}.
Implicit Types s : sys X.

(** From [s] to [s'] only the CRC registers changed, and they hold [c]. *)
Definition crc_is (c : Z) s s' : Prop :=
  log s' = log s /\ mem s' = mem s /\
  exists v, st s' = set_part v (st s) /\ is_byte (crcH v) /\ is_byte (crcL v) /\ crc_reg v = c /\
    modbus_recv_frame_cb v = modbus_recv_frame_cb (part (st s)).

Lemma crc_reset_ok s (Q : unit -> sys X -> Prop) :
  (forall s', crc_is 0xFFFF s s' -> Q tt s') -> wp (modbus_crc16_init) s Q.
Proof. intros HQ. apply wp_pmodify, HQ. split_and!; [done|done|]. eexists. by split_and!. Qed.

Lemma crc_update_ok c b s s' :
  crc_is c s s' -> is_byte b -> wp (crc_update b) s' (λ _ s2, crc_is (crc_byte c b) s s2).
Proof.
  intros (HL & HM & v & Hst & Hh & Hl & Hc & Hcb) Hb. destruct (crc_round_spec v b) as (v' & E & Hr & Hh' & Hl' & Hcb'); try done.
  unfold crc_update. apply wp_bind, wp_pvar, wp_bind. rewrite Hst, part_set. apply (wp_lift _ v' _ _ E), wp_pmodify.
  cbn [log mem st]. split_and!; [done|done|]. exists v'. rewrite Hst, set_set, Hr, Hc, Hcb', Hcb. by split_and!.
Qed.

Lemma crc_value_ok c s s' (Q : Z -> sys X -> Prop) : crc_is c s s' -> Q c s' -> wp (pvar crc_value) s' Q.
Proof.
  intros (_ & _ & v & Hst & Hh & Hl & <- & _) HQ. apply wp_pvar. by rewrite Hst, part_set, crc_value_reg.
Qed.

Lemma modbus_crc16_ok buf b s :
  mem_load (mem s) buf (zlen b) = Some b -> Forall is_byte b ->
  wp (modbus_crc16 buf (zlen b)) s (λ r s', r = crc16 b /\ crc_is (crc16 b) s s').
Proof.
  intros Hb Hbytes. pose proof (zlen_nonneg b). apply wp_bind, crc_reset_ok. intros s1 H1. apply wp_bind.
  apply (wp_for_bytes _ (λ d s', crc_is (crc_from 0xFFFF d) s s') b); [lia|by rewrite crc_from_nil| |].
  - intros d x s2 H2 Hx Hn Hd. pose proof (zlen_nonneg d). cbn beta.
    apply wp_bind, (load_byte_spec s2 buf (zlen d) b); [by destruct H2 as (_ & -> & _)|lia|]. rewrite Hn.
    eapply wp_mono; [apply (crc_update_ok (crc_from 0xFFFF d) _ s); [done|by apply (Forall_lookup_1 _ _ _ _ Hbytes Hx)]|].
    intros ? s3 H4. by rewrite crc_from_app, crc_from_cons, crc_from_nil.
  - intros s2 H2. unfold zlen in H2. rewrite Nat2Z.id, take_ge in H2 by lia. by apply (crc_value_ok _ s _ _ H2).
Qed.

(** Feeding the bytes one at a time. *)
Definition crc_stream (msg : list Z) : F X Z :=
  modbus_crc16_init ;; sfor msg (λ b, modbus_crc16_once b ;; sret tt) ;; modbus_checksum.

(** C38: the table-driven routine computes the bitwise CRC-16 of the Modbus
    standard (reflected polynomial 0xA001, start value 0xFFFF) of the bytes in
    memory, for every length, and the incremental interface (init, one call per
    byte, checksum) computes the same value; neither touches anything but the
    CRC registers. *)
Theorem modbus_crc16_equals_bitwise buf msg s :
  mem_load (mem s) buf (zlen msg) = Some msg -> Forall is_byte msg ->
  wp (modbus_crc16 buf (zlen msg)) s (λ r s', r = crc16 msg /\ log s' = log s /\ mem s' = mem s) /\
  wp (crc_stream msg) s (λ r s', r = crc16 msg /\ log s' = log s /\ mem s' = mem s).
Proof.
  intros Hb Hbytes. split.
  - eapply wp_mono; [by apply modbus_crc16_ok|]. cbn beta. intros r s' (-> & L & M & _). done.
  - apply wp_bind, crc_reset_ok. intros s1 H1. apply wp_bind.
    apply (wp_for _ (λ l s', exists d, msg = d ++ l /\ crc_is (crc_from 0xFFFF d) s s')).
    + exists []. by rewrite crc_from_nil.
    + intros b l s2 (d & -> & H2). apply Forall_app in Hbytes as [_ [Hx _]%Forall_cons_1].
      apply wp_bind, wp_bind. eapply wp_mono; [by apply (crc_update_ok (crc_from 0xFFFF d) b s)|]. cbn beta. intros ? s3 H3.
      apply (crc_value_ok _ s _ _ H3), wp_ret. exists (d ++ [b]).
      by rewrite <- app_assoc, crc_from_app, crc_from_cons, crc_from_nil.
    + intros s2 (d & E & H2). rewrite app_nil_r in E. subst d. apply (crc_value_ok _ s _ _ H2).
      by destruct H2 as (L & M & _).
Qed.

(** ** Sending *)

Lemma modbus_send_ok bound `{!TxDrains UART0 UART_TXFIFO_EMPTY_THRHD bound} fuel buf b s :
  (bound < fuel)%nat -> mem_load (mem s) buf (zlen b) = Some b -> Forall is_byte b ->
  wp (modbus_send fuel (Some buf) (zlen b)) s (λ _ s',
    effects (log s') = effects (log s) ++ (if crc16 b =? 0 then Wr (UART_FIFO UART0) <$> b else []) /\ mem s' = mem s /\
    exists v, modbus_recv_frame_cb v = modbus_recv_frame_cb (part (st s)) /\ st s' = set_part v (st s)).
Proof.
  intros Hf Hb Hbytes. apply wp_bind. eapply wp_mono; [by apply modbus_crc16_ok|].
  cbn beta. intros r s1 (-> & L & M & v & Hst & _ & _ & _ & Hcb). destruct (Z.eqb_spec (crc16 b) 0).
  - eapply wp_mono; [apply (send_bytes_spec UART0 bound fuel _ s1 buf b); try done|].
    + by rewrite M.
    + pose proof (zlen_nonneg b). lia.
    + cbn beta. intros ? s' (E & _ & M' & S'). unfold zlen in E. rewrite Nat2Z.id, take_ge in E by lia.
      rewrite E, L, M', M, S'. split; [done|]. split; [done|]. by exists v.
  - apply wp_ret. rewrite L, M, app_nil_r. split; [done|]. split; [done|]. by exists v.
Qed.

(** [modbus_send] transmits the buffer if it is a frame with a correct CRC
    (in particular any message with its CRC appended, low byte first), byte by
    byte, in order and with nothing else happening, and otherwise, the empty
    frame included, it sends nothing at all. *)
Theorem modbus_send_spec bound `{!TxDrains UART0 UART_TXFIFO_EMPTY_THRHD bound} fuel buf b s :
  (bound < fuel)%nat -> mem_load (mem s) buf (zlen b) = Some b -> Forall is_byte b ->
  wp (modbus_send fuel (Some buf) (zlen b)) s (λ _ s',
    effects (log s') = effects (log s) ++
      (if crc16 b =? 0 then Wr (UART_FIFO UART0) <$> b else []) /\ mem s' = mem s) /\
  (forall msg, b = with_crc msg -> crc16 b = 0) /\ crc16 [] <> 0.
Proof.
  intros Hf Hb Hbytes. split; [|split; [intros msg ->; apply crc16_with_crc; by apply Forall_app in Hbytes as [? _]|done]].
  eapply wp_mono; [by apply (modbus_send_ok bound)|]. cbn beta. by intros ? s' (E & M & _).
Qed.
End Operations.

(** ** Receiving *)

Section Receive.
Context `{Env} {X : Type} `{PM : Part X modbus_vars}.
Context (run_frame : fn -> ptr -> Z -> F X unit).
Implicit Types s : sys X.

(** [frame] differs from [valid] in at most two neighbouring bytes, and does differ. *)
Definition damaged (valid frame : list Z) : Prop :=
  exists before a b after e1 e2, is_byte e1 /\ is_byte e2 /\ (e1, e2) <> (0, 0) /\
    valid = before ++ [a; b] ++ after /\ frame = before ++ [Z.lxor a e1; Z.lxor b e2] ++ after.

Lemma lxor_zeros l : damage l (replicate (length l) 0) = l.
Proof. induction l as [|x l IH]; [done|]. cbn. unfold damage in IH. by rewrite Z.lxor_0_r, IH. Qed.

Lemma crc16_damaged valid frame : damaged valid frame -> crc16 valid = 0 -> crc16 frame <> 0.
Proof.
  intros (p & a & b & q & e1 & e2 & H1 & H2 & Hne & -> & ->) Hv Hf. apply Hne.
  set (e := replicate (length p) 0 ++ [e1; e2] ++ replicate (length q) 0).
  assert (E : p ++ [Z.lxor a e1; Z.lxor b e2] ++ q = damage (p ++ [a; b] ++ q) e).
  { unfold damage, e. rewrite !zip_with_app by (by rewrite ?length_replicate). cbn [zip_with].
    pose proof (lxor_zeros p) as Ep. pose proof (lxor_zeros q) as Eq. unfold damage in Ep, Eq. by rewrite Ep, Eq. }
  unfold crc16 in Hf. rewrite E in Hf. change 0xFFFF with (Z.lxor 0xFFFF 0) in Hf.
  rewrite crc_from_damage in Hf by (unfold e; rewrite !length_app, !length_replicate; done).
  unfold crc16 in Hv. rewrite Hv in Hf. apply crc_burst in Hf as [-> ->]; done.
Qed.

Lemma modbus_receive_ok buf b s :
  mem_load (mem s) buf (zlen b) = Some b -> Forall is_byte b ->
  exists v, modbus_recv_frame_cb v = modbus_recv_frame_cb (part (st s)) /\
    let s' := mk_sys (log s) (mem s) (set_part v (st s)) in
    modbus_receive run_frame (Some (mk_rx (Some buf) (zlen b))) s =
      (if crc16 b =? 0 then
         match modbus_recv_frame_cb (part (st s)) with Some f => run_frame f buf (zlen b) s' | None => Some (tt, s') end
       else Some (tt, s')).
Proof.
  intros Hb Hbytes. destruct (modbus_crc16_ok buf b s Hb Hbytes) as (r & s1 & E & -> & L & M & v & Hst & _ & _ & _ & Hcb).
  exists v. split; [done|]. destruct s1 as [l1 h1 x1]. cbn [log mem st] in *. subst l1 h1 x1. cbn zeta.
  unfold modbus_receive. cbn [buffer len]. unfold sbind at 1. cbn [slift mbind option_bind].
  unfold sbind at 1. rewrite E. cbn [mbind option_bind]. destruct (crc16 b =? 0); [|done].
  unfold sbind, pvar. cbn [sget mbind option_bind st]. rewrite part_set, Hcb.
  by destruct (modbus_recv_frame_cb (part (st s))).
Qed.

(** [modbus_receive] passes a received frame with a correct CRC to the
    installed callback, with its buffer and its length, exactly once and with
    only the CRC registers changed before; a frame in which up to two
    neighbouring bytes of a correct one were damaged in any way, such as any
    burst of up to nine bits, is dropped without a trace, and so is an empty one. *)
Theorem modbus_receive_spec buf b s :
  mem_load (mem s) buf (zlen b) = Some b -> Forall is_byte b ->
  exists s', log s' = log s /\ mem s' = mem s /\ (exists v, st s' = set_part v (st s)) /\
    modbus_receive run_frame (Some (mk_rx (Some buf) (zlen b))) s =
      (if crc16 b =? 0 then
         match modbus_recv_frame_cb (part (st s)) with Some f => run_frame f buf (zlen b) s' | None => Some (tt, s') end
       else Some (tt, s')) /\
    (forall msg, Forall is_byte msg -> b = with_crc msg -> crc16 b = 0) /\
    (forall valid, crc16 valid = 0 -> damaged valid b -> crc16 b <> 0) /\ (b = [] -> crc16 b <> 0).
Proof.
  intros Hb Hbytes. destruct (modbus_receive_ok buf b s Hb Hbytes) as (v & _ & E). exists (mk_sys (log s) (mem s) (set_part v (st s))). cbn zeta in E. rewrite E.
  split; [reflexivity|]. split; [done|]. split; [by exists v|]. split; [done|].
  split; [intros msg Hm ->; by apply crc16_with_crc|]. split; [|by intros ->].
  intros valid Hv Hd. by apply (crc16_damaged valid).
Qed.
End Receive.

(** ** The theorems at concrete inputs *)

(** A UART that is always idle. *)
Definition idle_uart : Env := mk_env (λ _ _, 0) (λ _ _, 0).
#[export] Instance idle_uart_drains u : @TxDrains idle_uart u UART_TXFIFO_EMPTY_THRHD 0.
Proof. refine (@Build_TxDrains idle_uart _ _ _ (λ _, 0%nat) _ _); [done|]. intros l v Hv. exfalso. vm_compute in Hv. by apply Hv. Defined.

(** Read holding registers 0 and 1 of slave 1, as a Modbus master sends it. *)
Definition sample_request : list Z := [0x01; 0x03; 0x00; 0x00; 0x00; 0x02; 0xC4; 0x0B].
Definition sample_modbus : modbus_vars := mk_modbus 0xFF 0xFF 0 (Some (fp_user 0)).
Definition sample_frame_state : sys modbus_vars := mk_sys [] (<[1%positive := sample_request]> ∅) sample_modbus.

Lemma sample_request_bytes : Forall is_byte sample_request.
Proof. repeat constructor; done. Qed.

(** The same with its third byte changed. *)
Definition bad_request : list Z := [0x01; 0x03; 0x10; 0x00; 0x00; 0x02; 0xC4; 0x0B].
Definition bad_frame_state : sys modbus_vars := mk_sys [] (<[1%positive := bad_request]> ∅) sample_modbus.
Lemma bad_request_bytes : Forall is_byte bad_request.
Proof. repeat constructor; done. Qed.

Lemma sample_request_crc : crc16 sample_request = 0.
Proof. vm_compute. reflexivity. Qed.

Lemma modbus_crc16_equals_bitwise_witness :
  crc16 (take 6 sample_request) = 0x0BC4 /\
  wp (@modbus_crc16 _ _ (mk_ptr 1 0) 8) sample_frame_state (λ r s', r = 0 /\ log s' = []).
Proof.
  split; [vm_compute; reflexivity|]. eapply wp_mono.
  - apply (proj1 (@modbus_crc16_equals_bitwise _ _ (mk_ptr 1 0) sample_request sample_frame_state eq_refl sample_request_bytes)).
  - cbn beta. intros r s' (-> & L & _). split; [exact sample_request_crc|exact L].
Defined.

Lemma modbus_send_spec_witness :
  wp (@modbus_send idle_uart _ _ 1 (Some (mk_ptr 1 0)) 8) sample_frame_state
    (λ _ s', effects (log s') = Wr (UART_FIFO UART0) <$> sample_request).
Proof.
  eapply wp_mono.
  - apply (proj1 (@modbus_send_spec idle_uart _ _ 0 _ 1 (mk_ptr 1 0) sample_request sample_frame_state
      ltac:(lia) eq_refl sample_request_bytes)).
  - cbn beta. intros ? s' (E & _). rewrite sample_request_crc in E. exact E.
Defined.

(** The sample request arrives, and then the damaged one:
    the callback runs once. *)
Lemma modbus_receive_spec_witness :
  let run := λ (f : fn) (p : ptr) (n : Z), call (X := modbus_vars) system_restart in
  let r := Some (mk_rx (Some (mk_ptr 1 0)) 8) in
  (exists s', modbus_receive run r sample_frame_state = Some (tt, s') /\ log s' = [Do system_restart]) /\
  (exists s', modbus_receive run r bad_frame_state = Some (tt, s') /\ log s' = []).
Proof.
  intros run r. split.
  - destruct (modbus_receive_spec run (mk_ptr 1 0) sample_request sample_frame_state eq_refl sample_request_bytes)
      as (s' & L & _ & _ & E & _ & _ & _).
    rewrite sample_request_crc in E. eexists. split; [exact E|]. cbn [log]. by rewrite L.
  - destruct (modbus_receive_spec run (mk_ptr 1 0) bad_request bad_frame_state eq_refl bad_request_bytes)
      as (s' & L & _ & _ & E & _ & D & _).
    assert (Hd : damaged sample_request bad_request).
    { exists [0x01; 0x03], 0, 0, [0; 0x02; 0xC4; 0x0B], 0x10, 0. unfold is_byte. split_and!; [lia|lia|lia|lia|done|reflexivity|reflexivity]. }
    specialize (D sample_request sample_request_crc Hd). exists s'. split; [|exact L].
    destruct (Z.eqb_spec (crc16 bad_request) 0); [contradiction|exact E].
Defined.
