(* ===== verification/UartDriver.v ===== *)
(** * UartDriver: the SDK's UART driver, driver/uart.c: characters, strings and settings

    The transmit functions, the line settings and the waiting functions that do
    not involve the software buffers (UartBuffer.v) or the interrupt handler
    and its task (UartTask.v). *)

From Stdlib Require Import String Ascii.
From stdpp Require Import gmap.
From S2P Require Import Prelude CMem Board UartReg UserUart.
Local Open Scope string_scope.
Local Open Scope Z_scope.
Local Open Scope sm_scope.
Local Open Scope list_scope.

(** [UartParityMode], [UART_HwFlowCtrl] and [UartBautRate] of driver/uart.h. *)
Definition NONE_BITS : Z := 0x2.
Definition ODD_BITS : Z := 1.
Definition EVEN_BITS : Z := 0.
Definition USART_HardwareFlowControl_RTS : Z := 0x1.
Definition USART_HardwareFlowControl_CTS : Z := 0x2.
Definition STICK_PARITY_EN : Z := 1.
Definition ONE_STOP_BIT : Z := 0x1.
Definition EIGHT_BITS : Z := 0x3.
Definition BIT_RATE_115200 : Z := 115200.

(** The characters of a string literal, as the compiler stores them. *)
Definition chars (s : string) : list Z := (λ a, Z.of_nat (nat_of_ascii a)) <$> list_ascii_of_string s.
Lemma chars_bytes s : Forall is_byte (chars s).
Proof. apply Forall_fmap, Forall_true. intros a. unfold is_byte. cbn. pose proof (nat_ascii_bounded a). lia. Qed.

(** The line end ["\n\r"] of the driver's messages. *)
Definition LF_CR : string := String (ascii_of_nat 10) (String (ascii_of_nat 13) "").

Section Transmit.
Context `{Env} {X : Type}.

(** [while (true) { ... if (... < 126) break; } WRITE_PERI_REG(...)] *)
Definition uart_tx_one_char (fuel : nat) (uart TxChar : Z) : F X STATUS :=
  tx_wait_write fuel uart 126 TxChar ;; sret OK.

Definition uart1_write_char (fuel : nat) (c : Z) : F X unit :=
  if c =? 10 then
    uart_tx_one_char fuel UART1 13 ;; uart_tx_one_char fuel UART1 10 ;; sret tt
  else if c =? 13 then sret tt
  else uart_tx_one_char fuel UART1 c ;; sret tt.

Definition uart0_write_char (fuel : nat) (c : Z) : F X unit :=
  if c =? 10 then
    uart_tx_one_char fuel UART0 13 ;; uart_tx_one_char fuel UART0 10 ;; sret tt
  else if c =? 13 then sret tt
  else uart_tx_one_char fuel UART0 c ;; sret tt.

Definition uart0_tx_buffer (fuel : nat) (buf : ptr) (len : Z) : F X unit :=
  sfor (seqZ 0 len) (λ i, b <- load_byte buf i ;; uart_tx_one_char fuel UART0 b ;; sret tt).

(** [while( *str )]: the string up to its terminator. *)
Fixpoint uart0_sendStr (fuel : nat) (str : list Z) : F X unit :=
  match str with
  | [] => slift None
  | c :: str => if c =? 0 then sret tt else uart_tx_one_char fuel UART0 c ;; uart0_sendStr fuel str
  end.

Definition uart_tx_one_char_no_wait (uart TxChar : Z) : F X STATUS :=
  v <- READ_PERI_REG (UART_STATUS uart) ;;
  swhen (u8 (txfifo_cnt v) <? 126) (WRITE_PERI_REG (UART_FIFO uart) TxChar) ;;
  sret OK.

Definition uart0_tx_one_char_no_wait (TxChar : Z) : F X STATUS :=
  v <- READ_PERI_REG (UART_STATUS UART0) ;;
  swhen (u8 (txfifo_cnt v) <? 126) (WRITE_PERI_REG (UART_FIFO UART0) TxChar) ;;
  sret OK.

Fixpoint uart1_sendStr_no_wait (str : list Z) : F X unit :=
  match str with
  | [] => slift None
  | c :: str => if c =? 0 then sret tt else uart_tx_one_char_no_wait UART1 c ;; uart1_sendStr_no_wait str
  end.

(** [#define DBG1 uart1_sendStr_no_wait], on a literal. *)
Definition DBG1 (s : string) : F X unit := uart1_sendStr_no_wait (chars s ++ [0]).
End Transmit.

Section Settings.
Context `{Env} {X : Type}.

Definition uart_rx_intr_disable (uart_no : Z) : F X unit :=
  CLEAR_PERI_REG_MASK (UART_INT_ENA uart_no) (Z.lor UART_RXFIFO_FULL_INT UART_RXFIFO_TOUT_INT).
Definition uart_rx_intr_enable (uart_no : Z) : F X unit :=
  SET_PERI_REG_MASK (UART_INT_ENA uart_no) (Z.lor UART_RXFIFO_FULL_INT UART_RXFIFO_TOUT_INT).

Definition UART_SetWordLength (uart_no len : Z) : F X unit :=
  SET_PERI_REG_BITS (UART_CONF0 uart_no) UART_BIT_NUM len UART_BIT_NUM_S.
Definition UART_SetStopBits (uart_no bit_num : Z) : F X unit :=
  SET_PERI_REG_BITS (UART_CONF0 uart_no) UART_STOP_BIT_NUM bit_num UART_STOP_BIT_NUM_S.
Definition UART_SetLineInverse (uart_no inverse_mask : Z) : F X unit :=
  CLEAR_PERI_REG_MASK (UART_CONF0 uart_no) UART_LINE_INV_MASK ;;
  SET_PERI_REG_MASK (UART_CONF0 uart_no) inverse_mask.

Definition UART_SetParity (uart_no Parity_mode : Z) : F X unit :=
  CLEAR_PERI_REG_MASK (UART_CONF0 uart_no) (Z.lor UART_PARITY UART_PARITY_EN) ;;
  if Parity_mode =? NONE_BITS then sret tt
  else SET_PERI_REG_MASK (UART_CONF0 uart_no) (Z.lor Parity_mode UART_PARITY_EN).

(** A division by zero is undefined. *)
Definition UART_SetBaudrate (uart_no baud_rate : Z) : F X unit :=
  if baud_rate =? 0 then slift None else call (uart_div_modify uart_no (UART_CLK_FREQ / baud_rate)).

Definition UART_SetFlowCtrl (uart_no flow_ctrl rx_thresh : Z) : F X unit :=
  (if negb (Z.land flow_ctrl USART_HardwareFlowControl_RTS =? 0) then
     PIN_FUNC_SELECT PERIPHS_IO_MUX_MTDO_U FUNC_U0RTS ;;
     SET_PERI_REG_BITS (UART_CONF1 uart_no) UART_RX_FLOW_THRHD rx_thresh UART_RX_FLOW_THRHD_S ;;
     SET_PERI_REG_MASK (UART_CONF1 uart_no) UART_RX_FLOW_EN
   else CLEAR_PERI_REG_MASK (UART_CONF1 uart_no) UART_RX_FLOW_EN) ;;
  (if negb (Z.land flow_ctrl USART_HardwareFlowControl_CTS =? 0) then
     PIN_FUNC_SELECT PERIPHS_IO_MUX_MTCK_U FUNC_UART0_CTS ;;
     SET_PERI_REG_MASK (UART_CONF0 uart_no) UART_TX_FLOW_EN
   else CLEAR_PERI_REG_MASK (UART_CONF0 uart_no) UART_TX_FLOW_EN).

(** One round of [while (status & (UART_TXFIFO_CNT << UART_TXFIFO_CNT_S))] per unit of fuel. *)
Fixpoint wait_fifo_empty (fuel : nat) (uart_no time_out_us t_s : Z) : F X unit :=
  match fuel with
  | O => slift None
  | S fuel =>
      v <- READ_PERI_REG (UART_STATUS uart_no) ;;
      if Z.land v (Z.shiftl UART_TXFIFO_CNT UART_TXFIFO_CNT_S) =? 0 then sret tt
      else
        now <- ask system_get_time ;;
        if time_out_us <? u32 (now - t_s) then sret tt
        else WRITE_PERI_REG 0X60000914 0X73 ;; wait_fifo_empty fuel uart_no time_out_us t_s
  end.
Definition UART_WaitTxFifoEmpty (fuel : nat) (uart_no time_out_us : Z) : F X unit :=
  t_s <- ask system_get_time ;; wait_fifo_empty fuel uart_no time_out_us t_s.

Definition UART_ResetFifo (uart_no : Z) : F X unit :=
  SET_PERI_REG_MASK (UART_CONF0 uart_no) (Z.lor UART_RXFIFO_RST UART_TXFIFO_RST) ;;
  CLEAR_PERI_REG_MASK (UART_CONF0 uart_no) (Z.lor UART_RXFIFO_RST UART_TXFIFO_RST).
Definition UART_ClearIntrStatus (uart_no clr_mask : Z) : F X unit :=
  WRITE_PERI_REG (UART_INT_CLR uart_no) clr_mask.
Definition UART_SetIntrEna (uart_no ena_mask : Z) : F X unit :=
  SET_PERI_REG_MASK (UART_INT_ENA uart_no) ena_mask.
End Settings.
