(* ===== verification/UartBuffer.v ===== *)
(** * UartBuffer: the software buffers of driver/uart.c

    The code under [#if UART_BUFF_EN]: the ring buffers between the
    application and the two UART FIFOs. *)

From Stdlib Require Import String.
From stdpp Require Import gmap.
From S2P Require Import Prelude CMem Board UartReg UserUart UartDriver.
Local Open Scope string_scope.
Local Open Scope Z_scope.
Local Open Scope sm_scope.
Local Open Scope list_scope.

Inductive TCPState := RUN | BLOCK.

(** [struct UartBuffer].  The storage belongs to the buffer alone, so it is part
    of the record and [pInPos] and [pOutPos] are positions in it; [nextBuff] is
    never anything but null. *)
Record UartBuffer := mk_buffer {
  UartBuffSize : Z; pUartBuff : list Z; pInPos : Z; pOutPos : Z; BuffState : STATUS; Space : Z; TcpControl : TCPState }.
#[export] Instance eta_buffer : Settable UartBuffer := λ b, mk_buffer
  (UartBuffSize b) (pUartBuff b) (pInPos b) (pOutPos b) (BuffState b) (Space b) (TcpControl b).

(** The static pointers. *)
Record uart_buffers := mk_buffers { pTxBuffer : option UartBuffer; pRxBuffer : option UartBuffer }.
#[export] Instance eta_buffers : Settable uart_buffers := λ b, mk_buffers (pTxBuffer b) (pRxBuffer b).

(** [os_memcpy( p, src, n )] into the storage of a buffer at its in position. *)
Definition copy_in (b : UartBuffer) (src : list Z) : option UartBuffer :=
  s ← bsplice (pUartBuff b) (pInPos b) src; Some (b <| pUartBuff := s |>).

(** [pInPos += n; pInPos = base + (pInPos - base) % size; Space -= n] *)
Definition advance_in (b : UartBuffer) (n : Z) : option UartBuffer :=
  if UartBuffSize b =? 0 then None else
  Some (b <| pInPos := (pInPos b + n) mod UartBuffSize b |> <| Space := u16 (Space b - n) |>).

(** The same for the out position; [Space += n]. *)
Definition advance_out (b : UartBuffer) (n : Z) : option UartBuffer :=
  if UartBuffSize b =? 0 then None else
  Some (b <| pOutPos := (pOutPos b + n) mod UartBuffSize b |> <| Space := u16 (Space b + n) |>).

Definition Uart_Buf_Cpy (pCur : UartBuffer) (pdata : list Z) (data_len : Z) : option UartBuffer :=
  if data_len =? 0 then Some pCur else
  let tail_len := u16 (UartBuffSize pCur - pInPos pCur) in
  if data_len <=? tail_len then
    d ← bslice pdata 0 data_len;
    b ← copy_in pCur d;
    advance_in b data_len
  else
    d ← bslice pdata 0 tail_len;
    b ← copy_in pCur d;
    b ← advance_in b tail_len;
    d ← bslice pdata tail_len (data_len - tail_len);
    b ← copy_in b d;
    advance_in b (data_len - tail_len).

Section Buffers.
Context `{Env} {X : Type} `{PB : Part X uart_buffers}.
(** What a block fresh from [os_malloc] holds. *)
Context (os_malloc : Z -> list Z).

Definition Uart_Buf_Init (buf_size : Z) : F X (option UartBuffer) :=
  heap_size <- ask system_get_free_heap_size ;;
  if heap_size <=? buf_size then DBG1 (String.append "no buf for uart" LF_CR) ;; sret None
  else sret (Some (mk_buffer buf_size (os_malloc buf_size) 0 0 OK (u16 buf_size) RUN)).

(** [*(p->pInPos++) = c; if( p->pInPos == end ) p->pInPos = base] *)
Definition put_byte (b : UartBuffer) (c : Z) : option UartBuffer :=
  s ← wr (pUartBuff b) (pInPos b) c;
  let p := pInPos b + 1 in
  Some (b <| pUartBuff := s |> <| pInPos := if p =? UartBuffSize b then 0 else p |>).

(** [*(p->pOutPos++)] and the same wrap. *)
Definition get_byte (b : UartBuffer) : option (Z * UartBuffer) :=
  c ← rd (pUartBuff b) (pOutPos b);
  let p := pOutPos b + 1 in
  Some (c, b <| pOutPos := if p =? UartBuffSize b then 0 else p |>).

(** [rx_buff_deq( pdata, data_len )]: the result and the bytes written to [pdata]. *)
Definition rx_buff_deq (data_len : Z) : F X (Z * list Z) :=
  rx <- pvar pRxBuffer ;; rx <- slift rx ;;
  let buf_len := u16 (UartBuffSize rx - Space rx) in
  let tail_len := u16 (UartBuffSize rx - pOutPos rx) in
  let len_tmp := if buf_len <? data_len then buf_len else data_len in
  r <- slift (
    if pOutPos rx <=? pInPos rx then
      d ← bslice (pUartBuff rx) (pOutPos rx) len_tmp;
      Some (d, rx <| pOutPos := pOutPos rx + len_tmp |> <| Space := u16 (Space rx + len_tmp) |>)
    else if tail_len <? len_tmp then
      d1 ← bslice (pUartBuff rx) (pOutPos rx) tail_len;
      rx ← advance_out rx tail_len;
      d2 ← bslice (pUartBuff rx) (pOutPos rx) (len_tmp - tail_len);
      rx ← advance_out rx (len_tmp - tail_len);
      Some (d1 ++ d2, rx)
    else
      d ← bslice (pUartBuff rx) (pOutPos rx) len_tmp;
      rx ← advance_out rx len_tmp;
      Some (d, rx)) ;;
  pmodify (λ s, s <| pRxBuffer := Some (snd r) |>) ;;
  swhen (UART_FIFO_LEN <=? Space (snd r)) (uart_rx_intr_enable UART0) ;;
  sret (len_tmp, fst r).

(** The loop [while(buf_idx < fifo_len)]. *)
Definition rx_fill (fifo_len : Z) (rx : UartBuffer) : F X UartBuffer :=
  sfold (seqZ 0 fifo_len) (λ rx _,
    fifo_data <- READ_PERI_REG (UART_FIFO UART0) ;; slift (put_byte rx (Z.land fifo_data 0xFF))) rx.

Definition Uart_rx_buff_enq : F X unit :=
  v <- READ_PERI_REG (UART_STATUS UART0) ;;
  let fifo_len := u8 (rxfifo_cnt v) in
  rx <- pvar pRxBuffer ;; rx <- slift rx ;;
  if Space rx <=? fifo_len then
    call (os_printf (String.append "buf full!!!" LF_CR))
  else
    rx <- rx_fill fifo_len rx ;;
    let rx := rx <| Space := u16 (Space rx - fifo_len) |> in
    pmodify (λ s, s <| pRxBuffer := Some rx |>) ;;
    swhen (UART_FIFO_LEN <=? Space rx) (uart_rx_intr_enable UART0).

Definition tx_buff_enq (pdata : list Z) (data_len : Z) : F X unit :=
  CLEAR_PERI_REG_MASK (UART_INT_ENA UART0) UART_TXFIFO_EMPTY_INT ;;
  tx <- pvar pTxBuffer ;;
  match tx with
  | None =>
      DBG1 (String.append LF_CR (String.append "null, create buffer struct" LF_CR)) ;;
      b <- Uart_Buf_Init UART_TX_BUFFER_SIZE ;;
      pmodify (λ s, s <| pTxBuffer := b |>) ;;
      match b with
      | Some b => b <- slift (Uart_Buf_Cpy b pdata data_len) ;; pmodify (λ s, s <| pTxBuffer := Some b |>)
      | None => DBG1 (String.append "uart tx MALLOC no buf " LF_CR)
      end
  | Some b =>
      if data_len <=? Space b then
        b <- slift (Uart_Buf_Cpy b pdata data_len) ;; pmodify (λ s, s <| pTxBuffer := Some b |>)
      else DBG1 (String.append "UART TX BUF FULL!!!!" LF_CR)
  end ;;
  SET_PERI_REG_MASK (UART_CONF1 UART0)
    (Z.shiftl (Z.land UART_TX_EMPTY_THRESH_VAL UART_TXFIFO_EMPTY_THRHD) UART_TXFIFO_EMPTY_THRHD_S) ;;
  SET_PERI_REG_MASK (UART_INT_ENA UART0) UART_TXFIFO_EMPTY_INT.

Definition tx_fifo_insert (pTxBuff : UartBuffer) (data_len uart_no : Z) : F X UartBuffer :=
  b <- sfold (seqZ 0 data_len) (λ b _,
    r <- slift (get_byte b) ;; WRITE_PERI_REG (UART_FIFO uart_no) (fst r) ;; sret (snd r)) pTxBuff ;;
  slift (b ← advance_out b 0; Some (b <| Space := u16 (Space b + data_len) |>)).

Definition tx_start_uart_buffer (uart_no : Z) : F X unit :=
  v <- READ_PERI_REG (UART_STATUS uart_no) ;;
  let fifo_remain := u8 (UART_FIFO_LEN - u8 (txfifo_cnt v)) in
  tx <- pvar pTxBuffer ;;
  match tx with
  | Some tx =>
      let data_len := u16 (UartBuffSize tx - Space tx) in
      if fifo_remain <? data_len then
        tx <- tx_fifo_insert tx fifo_remain uart_no ;;
        pmodify (λ s, s <| pTxBuffer := Some tx |>) ;;
        SET_PERI_REG_MASK (UART_INT_ENA UART0) UART_TXFIFO_EMPTY_INT
      else
        tx <- tx_fifo_insert tx (u8 data_len) uart_no ;;
        pmodify (λ s, s <| pTxBuffer := Some tx |>)
  | None => DBG1 (String.append "pTxBuff null " LF_CR)
  end.

(** The TXFIFO_EMPTY branch of [uart0_rx_intr_handler]; the buffers exist only
    when the driver is compiled with [UART_BUFF_EN]. *)
Definition tx_empty_branch (UART_BUFF_EN : bool) : F X unit :=
  CLEAR_PERI_REG_MASK (UART_INT_ENA UART0) UART_TXFIFO_EMPTY_INT ;;
  swhen UART_BUFF_EN (tx_start_uart_buffer UART0) ;;
  WRITE_PERI_REG (UART_INT_CLR UART0) UART_TXFIFO_EMPTY_INT.
End Buffers.

(** ** A ring of cells

    The storage [s] of [sz] cells, written at [i] and read at [o], holds the
    queue [q]. *)
Record cells (sz : Z) (s : list Z) (i o : Z) (q : list Z) : Prop := mk_cells {
  cells_size : 0 < sz < 65536;
  cells_store : zlen s = sz;
  cells_out : 0 <= o < sz;
  cells_len : zlen q <= sz;
  cells_in : i = ring_ix sz o (zlen q);
  cells_data : ring_view sz s o (zlen q) = q }.

Lemma cells_in_range sz s i o q : cells sz s i o q -> 0 <= i < sz.
Proof. intros [? ? ? ? -> _]. unfold ring_ix. pose proof (zlen_nonneg q). zbool; lia. Qed.

(** Wrapping a position that moved by at most the size. *)
Lemma wrap_mod sz p : 0 < sz -> 0 <= p <= sz -> p mod sz = if p =? sz then 0 else p.
Proof.
  intros Hs Hp. destruct (Z.eqb_spec p sz) as [->|]; [by apply Z.mod_same; lia|]. apply Z.mod_small. lia.
Qed.

Lemma cells_put sz s i o q d :
  cells sz s i o q -> zlen q + zlen d <= sz -> i + zlen d <= sz ->
  exists s', bsplice s i d = Some s' /\ cells sz s' ((i + zlen d) mod sz) o (q ++ d).
Proof.
  intros C Hq Hi. pose proof (cells_in_range _ _ _ _ _ C) as Hr. destruct C as [Hs Hst Ho Hl Hin Hd].
  pose proof (zlen_nonneg d). pose proof (zlen_nonneg q).
  destruct (bsplice_Some s i d) as (s' & E & Hl' & Hn); [lia|lia|]. exists s'. split; [done|].
  rewrite wrap_mod by lia. split; rewrite ?zlen_app; try lia.
  - unfold ring_ix in Hin |- *. zbool; lia.
  - rewrite <- (tab_nthZ d), <- Hd at 2. rewrite (ring_view_app sz s s' o (zlen q) (zlen d) (nthZ d)).
    + rewrite !Hd. done.
    + done.
    + done.
    + intros j Hj. rewrite Hn by (unfold ring_ix in *; zbool; lia).
      assert (~ (i <= ring_ix sz o j < i + zlen d)) by (unfold ring_ix in *; zbool; lia). zbool; done || lia.
    + intros j Hj. assert (Ej : ring_ix sz o (zlen q + j) = i + j) by (unfold ring_ix in *; zbool; lia).
      rewrite Ej, Hn by lia. ztrue (i <=? i + j). ztrue (i + j <? i + zlen d). cbn. f_equal. lia.
Qed.

Lemma cells_get sz s i o q n :
  cells sz s i o q -> 0 <= n <= zlen q -> o + n <= sz ->
  bslice s o n = Some (take (Z.to_nat n) q) /\ cells sz s i ((o + n) mod sz) (drop (Z.to_nat n) q).
Proof.
  intros [Hs Hst Ho Hl Hin Hd] Hn Hon. split.
  - rewrite bslice_Some by lia. f_equal. rewrite <- Hd. unfold ring_view. rewrite take_tab by lia.
    apply tab_ext. intros j Hj. unfold ring_ix. by ztrue (o + j <? sz).
  - rewrite wrap_mod by lia.
    assert (Hdl : zlen (drop (Z.to_nat n) q) = zlen q - n) by zlia. split; try lia; rewrite ?Hdl.
    + zbool; lia.
    + unfold ring_ix in Hin |- *. zbool; lia.
    + rewrite <- Hd at 2. rewrite ring_view_drop by lia. f_equal. zbool; lia.
Qed.

(** ** One buffer *)

(** The ring of a buffer, whatever [Space] says. *)
Definition ring_holds (b : UartBuffer) (q : list Z) : Prop :=
  cells (UartBuffSize b) (pUartBuff b) (pInPos b) (pOutPos b) q.

(** A buffer that holds the queue [q]. *)
Definition holds (b : UartBuffer) (q : list Z) : Prop :=
  ring_holds b q /\ Space b = UartBuffSize b - zlen q.

Ltac fields := unfold set_field in *; cbn [UartBuffSize pUartBuff pInPos pOutPos Space pTxBuffer pRxBuffer] in *.

Lemma put_run b q d :
  ring_holds b q -> zlen q + zlen d <= UartBuffSize b -> pInPos b + zlen d <= UartBuffSize b ->
  exists b', copy_in b d = Some b' /\ exists b2, advance_in b' (zlen d) = Some b2 /\
    ring_holds b2 (q ++ d) /\ UartBuffSize b2 = UartBuffSize b /\ pOutPos b2 = pOutPos b /\
    pInPos b2 = (pInPos b + zlen d) mod UartBuffSize b /\ Space b2 = u16 (Space b - zlen d).
Proof.
  intros C Hq Hi. destruct (cells_put _ _ _ _ _ d C) as (s & E & C2); [done|done|].
  unfold copy_in. rewrite E. cbn [mbind option_bind]. eexists. split; [done|]. unfold advance_in. fields.
  pose proof (cells_size _ _ _ _ _ C). zfalse (UartBuffSize b =? 0). eexists. split; [done|]. unfold ring_holds. fields. done.
Qed.

Lemma put_byte_ok b q c :
  ring_holds b q -> zlen q < UartBuffSize b ->
  exists b', put_byte b c = Some b' /\ ring_holds b' (q ++ [c]) /\
    UartBuffSize b' = UartBuffSize b /\ Space b' = Space b.
Proof.
  intros C Hq. pose proof (cells_in_range _ _ _ _ _ C).
  destruct (cells_put _ _ _ _ _ [c] C) as (s & E & C2); change (zlen [c]) with 1 in *; [lia|lia|].
  unfold put_byte, wr. rewrite E. cbn [mbind option_bind]. eexists. split; [done|]. unfold ring_holds. fields.
  rewrite wrap_mod in C2 by lia. done.
Qed.

Lemma get_byte_ok b c q :
  ring_holds b (c :: q) ->
  exists b', get_byte b = Some (c, b') /\ ring_holds b' q /\ UartBuffSize b' = UartBuffSize b /\ Space b' = Space b.
Proof.
  intros C. pose proof (zlen_nonneg q). assert (Hz : zlen (c :: q) = 1 + zlen q) by apply zlen_cons.
  pose proof (cells_out _ _ _ _ _ C). pose proof (cells_store _ _ _ _ _ C).
  destruct (cells_get _ _ _ _ _ 1 C) as [E C2]; [lia|lia|]. cbn in C2.
  unfold get_byte. rewrite rd_Some by lia. cbn [mbind option_bind].
  rewrite bslice_Some in E by lia. injection E as E. rewrite Z.add_0_r in E. rewrite E.
  eexists. split; [done|]. unfold ring_holds. fields. rewrite wrap_mod in C2 by lia. done.
Qed.

Lemma Uart_Buf_Cpy_ok b q d rest :
  holds b q -> zlen d <= Space b ->
  exists b', Uart_Buf_Cpy b (d ++ rest) (zlen d) = Some b' /\ holds b' (q ++ d) /\ UartBuffSize b' = UartBuffSize b.
Proof.
  intros [C Hs] Hd. pose proof (cells_in_range _ _ _ _ _ C) as Hi. pose proof (cells_size _ _ _ _ _ C) as Hsz.
  pose proof (zlen_nonneg d). pose proof (zlen_nonneg q). pose proof (zlen_nonneg rest). unfold Uart_Buf_Cpy.
  destruct (Z.eqb_spec (zlen d) 0) as [E0|Hne].
  { apply zlen_0_nil in E0 as ->. exists b. rewrite app_nil_r. done. }
  rewrite u16_small by lia. set (tl := UartBuffSize b - pInPos b).
  assert (Hsl : forall o n, 0 <= o -> 0 <= n -> o + n <= zlen d ->
    bslice (d ++ rest) o n = Some (take (Z.to_nat n) (drop (Z.to_nat o) d))).
  { intros o n ???. unfold bslice. rewrite zlen_app. ztrue (0 <=? o). ztrue (0 <=? n). ztrue (o + n <=? zlen d + zlen rest).
    cbn. f_equal. rewrite drop_app_le by (unfold zlen in *; lia).
    rewrite take_app_le by (rewrite length_drop; unfold zlen in *; lia). done. }
  destruct (Z.leb_spec (zlen d) tl) as [Hle|Hgt].
  - rewrite (Hsl 0 (zlen d)) by lia. change (Z.to_nat 0) with 0%nat. rewrite drop_0. rewrite take_ge by (unfold zlen; lia). cbn [mbind option_bind].
    destruct (put_run b q d C) as (b1 & E1 & b2 & E2 & C2 & Hz & Ho & _ & Hsp); [lia|unfold tl in *; lia|].
    rewrite E1. cbn [mbind option_bind]. exists b2. split; [done|]. split; [|done]. split; [done|].
    rewrite Hsp, Hs, Hz, zlen_app, u16_small by lia. lia.
  - rewrite (Hsl 0 tl) by lia. change (Z.to_nat 0) with 0%nat. rewrite drop_0. cbn [mbind option_bind]. set (d1 := take (Z.to_nat tl) d).
    assert (Hl1 : zlen d1 = tl) by (unfold d1; zlia). rewrite <- Hl1.
    destruct (put_run b q d1 C) as (b1 & E1 & b2 & E2 & C2 & Hz & Ho & Hi2 & Hsp); [lia|unfold tl in *; lia|].
    rewrite E1. cbn [mbind option_bind]. rewrite E2. cbn [mbind option_bind]. rewrite (Hsl (zlen d1) (zlen d - zlen d1)) by lia.
    rewrite Hl1 in *. set (d2 := drop (Z.to_nat tl) d).
    assert (Hl2 : zlen d2 = zlen d - tl) by (unfold d2; zlia). rewrite <- Hl2.
    rewrite take_ge by (unfold zlen; lia). cbn [mbind option_bind].
    assert (E0 : pInPos b + tl = UartBuffSize b) by (unfold tl; lia). rewrite E0, Z.mod_same in Hi2 by lia.
    destruct (put_run b2 (q ++ d1) d2 C2) as (b3 & E3 & b4 & E4 & C4 & Hz4 & Ho4 & _ & Hsp4); [rewrite zlen_app; lia|lia|].
    rewrite E3. cbn [mbind option_bind]. exists b4. split; [done|]. split; [|lia]. split.
    + rewrite <- app_assoc in C4. unfold d1, d2 in C4. by rewrite take_drop in C4.
    + rewrite Hsp4, Hsp, Hs, zlen_app, (u16_small (_ - tl)), u16_small by lia. lia.
Qed.

Lemma clamp_min' len sz : (if sz <? len then sz else len) = Z.min len sz.
Proof. zbool; lia. Qed.
Lemma take_min_len (q : list Z) n : 0 <= n -> take (Z.to_nat (Z.min n (zlen q))) q = take (Z.to_nat n) q.
Proof.
  intros Hn. destruct (Z.le_gt_cases n (zlen q)); [by rewrite Z.min_l|]. rewrite Z.min_r by lia.
  by rewrite !take_ge by (unfold zlen in *; lia).
Qed.
Lemma drop_min_len (q : list Z) n : 0 <= n -> drop (Z.to_nat (Z.min n (zlen q))) q = drop (Z.to_nat n) q.
Proof.
  intros Hn. destruct (Z.le_gt_cases n (zlen q)); [by rewrite Z.min_l|]. rewrite Z.min_r by lia.
  by rewrite !drop_ge by (unfold zlen in *; lia).
Qed.

(** The three ways of [rx_buff_deq] to take [m] bytes out. *)
Lemma deq_ok b q m cap :
  ring_holds b q -> Space b = UartBuffSize b - zlen q -> 0 <= m <= zlen q -> UartBuffSize b = cap -> zlen q < cap ->
  exists b', (if pOutPos b <=? pInPos b then
      d ← bslice (pUartBuff b) (pOutPos b) m;
      Some (d, b <| pOutPos := pOutPos b + m |> <| Space := u16 (UartBuffSize b - zlen q + m) |>)
    else if UartBuffSize b - pOutPos b <? m then
      d1 ← bslice (pUartBuff b) (pOutPos b) (UartBuffSize b - pOutPos b);
      rx ← advance_out b (UartBuffSize b - pOutPos b);
      d2 ← bslice (pUartBuff rx) (pOutPos rx) (m - (UartBuffSize b - pOutPos b));
      rx ← advance_out rx (m - (UartBuffSize b - pOutPos b));
      Some (d1 ++ d2, rx)
    else
      d ← bslice (pUartBuff b) (pOutPos b) m; rx ← advance_out b m; Some (d, rx)) =
    Some (take (Z.to_nat m) q, b') /\ holds b' (drop (Z.to_nat m) q) /\ UartBuffSize b' = cap.
Proof.
  intros C Hsp Hm Ec Hq. pose proof (cells_size _ _ _ _ _ C). pose proof (cells_out _ _ _ _ _ C).
  pose proof (cells_in _ _ _ _ _ C) as Hin. unfold ring_ix in Hin.
  assert (Hdl : zlen (drop (Z.to_nat m) q) = zlen q - m) by zlia.
  destruct (Z.leb_spec (pOutPos b) (pInPos b)).
  - assert (pOutPos b + m < UartBuffSize b) by (zbool; lia).
    destruct (cells_get _ _ _ _ _ m C) as [E C2]; [lia|lia|]. rewrite E. cbn [mbind option_bind].
    eexists. split; [done|]. rewrite Z.mod_small in C2 by lia. unfold holds, ring_holds. fields. rewrite u16_small by lia.
    split; [split; [done|lia]|done].
  - unfold advance_out. zfalse (UartBuffSize b =? 0). destruct (Z.ltb_spec (UartBuffSize b - pOutPos b) m).
    + destruct (cells_get _ _ _ _ _ (UartBuffSize b - pOutPos b) C) as [E C2]; [lia|lia|].
      rewrite E. cbn [mbind option_bind]. fields. cbn [mbind option_bind].
      replace (pOutPos b + (UartBuffSize b - pOutPos b)) with (UartBuffSize b) in * by lia.
      rewrite Z.mod_same in * by lia. set (t := UartBuffSize b - pOutPos b) in *.
      destruct (cells_get _ _ _ _ _ (m - t) C2) as [E2 C3]; [zlia|lia|]. rewrite E2. cbn [mbind option_bind]. fields.
      cbn [mbind option_bind]. fields. zfalse (UartBuffSize b =? 0). cbn [mbind option_bind].
      rewrite drop_drop in C3. replace (Z.to_nat t + Z.to_nat (m - t))%nat with (Z.to_nat m) in C3 by lia.
      eexists. split; [|split; [split|]].
      * do 2 f_equal. replace (Z.to_nat m) with (Z.to_nat t + Z.to_nat (m - t))%nat by lia. by rewrite take_take_drop.
      * exact C3.
      * fields. rewrite Hsp, (u16_small (_ + t)), u16_small by lia. lia.
      * done.
    + destruct (cells_get _ _ _ _ _ m C) as [E C2]; [lia|lia|]. rewrite E. cbn [mbind option_bind].
      eexists. split; [done|]. unfold holds, ring_holds. fields. rewrite Hsp, u16_small by lia.
      split; [split; [done|lia]|done].
Qed.

(** ** What the log says *)

(** The words read from register [a], oldest first. *)
Definition got (a : Z) (l : list event) : list Z :=
  flat_map (λ e, match e with Rd a' v => if a' =? a then [v] else [] | _ => [] end) l.
Lemma got_app a l k : got a (l ++ k) = got a l ++ got a k.
Proof. apply flat_map_app. Qed.

Section Log.
Context `{Env} {X : Type}.
Implicit Types s : sys X.

(** Nothing but debug output on UART1 happened. *)
Definition debugged s s' : Prop :=
  mem s' = mem s /\ st s' = st s /\
  (forall a, a <> UART_FIFO UART1 -> written a (log s') = written a (log s)) /\
  (forall a, a <> UART_STATUS UART1 -> got a (log s') = got a (log s)).

Lemma debugged_refl s : debugged s s.
Proof. done. Qed.
Lemma debugged_trans s1 s2 s3 : debugged s1 s2 -> debugged s2 s3 -> debugged s1 s3.
Proof.
  intros (M1 & S1 & W1 & G1) (M2 & S2 & W2 & G2). split_and!; try congruence.
  - intros a Ha. by rewrite W2, W1.
  - intros a Ha. by rewrite G2, G1.
Qed.

Lemma sendStr_no_wait_ok l s : wp (uart1_sendStr_no_wait (l ++ [0])) s (λ _ s', debugged s s').
Proof.
  revert s. induction l as [|c l IH]; intros s; cbn [app uart1_sendStr_no_wait]; [by apply wp_ret|].
  destruct (c =? 0); [by apply wp_ret|]. unfold uart_tx_one_char_no_wait. apply wp_bind, wp_bind, wp_read.
  assert (L : forall r, debugged s (mk_sys (log s ++ [Rd (UART_STATUS UART1) r]) (mem s) (st s))).
  { intros r. split_and!; cbn [log]; try done; intros a Ha; [by rewrite written_app, app_nil_r|].
    rewrite got_app. cbn. apply Z.eqb_neq in Ha. rewrite Z.eqb_sym, Ha. by rewrite app_nil_r. }
  apply wp_bind, wp_when; intros _.
  - apply wp_write. apply wp_ret. eapply wp_mono; [apply IH|]. intros ? s' D. eapply debugged_trans; [|exact D].
    eapply debugged_trans; [apply L|]. split_and!; cbn [log]; try done; intros r Hr.
    + rewrite written_app. cbn. apply Z.eqb_neq in Hr. rewrite Z.eqb_sym, Hr. by rewrite app_nil_r.
    + by rewrite got_app, app_nil_r.
  - apply wp_ret. eapply wp_mono; [apply IH|]. intros ? s' D. eapply debugged_trans; [apply L|exact D].
Qed.

Lemma DBG1_ok msg s : wp (DBG1 msg) s (λ _ s', debugged s s').
Proof. apply sendStr_no_wait_ok. Qed.

(** The log after [s'] continues that of [s] with a part that writes [out] to UART0's FIFO. *)
Definition outputs (out : list Z) s s' : Prop :=
  written (UART_FIFO UART0) (log s') = written (UART_FIFO UART0) (log s) ++ out.

(** The transmitter's interrupt is enabled: the last word written to the enable register says so. *)
Definition tx_armed s : Prop :=
  exists before v, written (UART_INT_ENA UART0) (log s) = before ++ [v] /\ Z.testbit v 1 = true.

Lemma set_mask_ok a m s (Q : unit -> sys X -> Prop) :
  (forall v, Q tt (mk_sys (log s ++ [Rd a v; Wr a (u32 (Z.lor v m))]) (mem s) (st s))) ->
  wp (SET_PERI_REG_MASK a m) s Q.
Proof. intros HQ. apply wp_bind, wp_read, wp_write. cbn [log mem st]. rewrite <- app_assoc. apply HQ. Qed.

Lemma clear_mask_ok a m s (Q : unit -> sys X -> Prop) :
  (forall v, Q tt (mk_sys (log s ++ [Rd a v; Wr a (u32 (Z.land v (Z.lnot m)))]) (mem s) (st s))) ->
  wp (CLEAR_PERI_REG_MASK a m) s Q.
Proof. intros HQ. apply wp_bind, wp_read, wp_write. cbn [log mem st]. rewrite <- app_assoc. apply HQ. Qed.

Lemma outputs_trans o1 o2 s1 s2 s3 : outputs o1 s1 s2 -> outputs o2 s2 s3 -> outputs (o1 ++ o2) s1 s3.
Proof. unfold outputs. intros E1 E2. by rewrite E2, E1, app_assoc. Qed.

Lemma outputs_nil k s s' : log s' = log s ++ k -> written (UART_FIFO UART0) k = [] -> outputs [] s s'.
Proof. unfold outputs. intros -> E. by rewrite written_app, E. Qed.

Lemma debugged_outputs s s' : debugged s s' -> outputs [] s s'.
Proof. intros (_ & _ & W & _). unfold outputs. rewrite W by done. by rewrite app_nil_r. Qed.

Lemma armed_set l v s' : log s' = l ++ [Rd (UART_INT_ENA UART0) v; Wr (UART_INT_ENA UART0) (u32 (Z.lor v UART_TXFIFO_EMPTY_INT))] ->
  tx_armed s'.
Proof.
  intros E. unfold tx_armed. rewrite E. eexists _, _. rewrite written_app. cbn [written flat_map app]. rewrite Z.eqb_refl. split; [reflexivity|].
  change (u32 (Z.lor v UART_TXFIFO_EMPTY_INT)) with (Z.lor v 2 mod 2 ^ 32).
  rewrite Z.mod_pow2_bits_low, Z.lor_spec by lia. by rewrite orb_true_r.
Qed.
End Log.

(** ** The transmit side *)

Section TxSide.
Context `{Env} {X : Type} `{PB : Part X uart_buffers}.
Context (os_malloc : Z -> list Z).
Implicit Types s : sys X.

(** The transmit buffer holds [q], out of [cap] bytes. *)
Definition tx_holds (cap : Z) (q : list Z) s : Prop :=
  exists b, pTxBuffer (part (st s)) = Some b /\ holds b q /\ UartBuffSize b = cap.

Lemma tx_holds_same cap q s s' : st s' = st s -> tx_holds cap q s -> tx_holds cap q s'.
Proof. unfold tx_holds. by intros ->. Qed.

Lemma tx_buff_enq_ok cap q d s :
  tx_holds cap q s ->
  wp (tx_buff_enq os_malloc d (zlen d)) s (λ _ s', outputs [] s s' /\ mem s' = mem s /\ tx_armed s' /\
    tx_holds cap (if zlen q + zlen d <=? cap then q ++ d else q) s').
Proof.
  intros (b & Eb & Hb & Ec). unfold tx_buff_enq. apply wp_bind, clear_mask_ok. intros v1. apply wp_bind, wp_pvar.
  cbn [st]. rewrite Eb. set (s1 := mk_sys _ _ _). assert (O1 : outputs [] s s1) by (eapply outputs_nil; [reflexivity|done]).
  assert (Finish : forall s2, outputs [] s s2 -> mem s2 = mem s ->
    tx_holds cap (if zlen q + zlen d <=? cap then q ++ d else q) s2 ->
    wp (SET_PERI_REG_MASK (UART_CONF1 UART0)
          (Z.shiftl (Z.land UART_TX_EMPTY_THRESH_VAL UART_TXFIFO_EMPTY_THRHD) UART_TXFIFO_EMPTY_THRHD_S) ;;
        SET_PERI_REG_MASK (UART_INT_ENA UART0) UART_TXFIFO_EMPTY_INT)%sm s2
      (λ _ s', outputs [] s s' /\ mem s' = mem s /\ tx_armed s' /\
        tx_holds cap (if zlen q + zlen d <=? cap then q ++ d else q) s')).
  { intros s2 O2 M2 T2. apply wp_bind, set_mask_ok. intros v2. apply set_mask_ok. intros v3. cbn [log mem st].
    split_and!; [|done|by eapply armed_set|by eapply tx_holds_same].
    apply (outputs_trans [] [] _ s2 _ O2). eapply outputs_nil; [cbn [log]; rewrite <- app_assoc; reflexivity|done]. }
  assert (Hsp : Space b = cap - zlen q) by (rewrite <- Ec; apply Hb).
  destruct (Z.leb_spec (zlen d) (Space b)) as [Hle|Hgt].
  - destruct (Uart_Buf_Cpy_ok b q d [] Hb Hle) as (b' & E & Hb' & Hz). rewrite app_nil_r in E.
    apply wp_bind, wp_bind, (wp_lift _ b' _ _ E), wp_pmodify. apply Finish; cbn [log mem st]; [done|done|].
    exists b'. cbn [st]. rewrite part_set. fields. ztrue (zlen q + zlen d <=? cap). split; [done|]. split; [done|lia].
  - apply wp_bind. eapply wp_mono; [apply DBG1_ok|]. intros ? s2 D. apply Finish.
    + apply (outputs_trans [] [] _ s1 _ O1). by apply debugged_outputs.
    + apply D.
    + zfalse (zlen q + zlen d <=? cap). eapply tx_holds_same; [apply D|]. by exists b.
Qed.

Lemma tx_insert_loop u n : forall b q s, ring_holds b q -> 0 <= n <= zlen q -> Forall is_byte q ->
  wp (sfold (seqZ 0 n) (λ b _,
    r <- slift (get_byte b) ;; WRITE_PERI_REG (UART_FIFO u) (fst r) ;; sret (snd r)) b)%sm s
  (λ b' s', ring_holds b' (drop (Z.to_nat n) q) /\ UartBuffSize b' = UartBuffSize b /\ Space b' = Space b /\
    mem s' = mem s /\ st s' = st s /\ log s' = log s ++ (Wr (UART_FIFO u) <$> take (Z.to_nat n) q)).
Proof.
  intros b q s Hb Hn Hq.
  apply (wp_fold _ (λ l b' s', exists k, length l = (Z.to_nat n - k)%nat /\ (k <= Z.to_nat n)%nat /\
    ring_holds b' (drop k q) /\ UartBuffSize b' = UartBuffSize b /\ Space b' = Space b /\
    mem s' = mem s /\ st s' = st s /\ log s' = log s ++ (Wr (UART_FIFO u) <$> take k q))).
  - exists 0%nat. rewrite length_seqZ, drop_0, take_0, app_nil_r. split_and!; done || lia.
  - intros i l b' s' (k & Hk & Hkn & Hb' & Hz & Hsp & M & St & L). cbn [length] in Hk.
    destruct (lookup_lt_is_Some_2 q k) as [c Hc]; [unfold zlen in Hn; lia|].
    rewrite (drop_S _ _ _ Hc) in Hb'. destruct (get_byte_ok _ _ _ Hb') as (b2 & E & Hb2 & Hz2 & Hsp2).
    apply wp_bind, (wp_lift _ (c, b2) _ _ E). cbn [fst snd]. apply wp_bind, wp_write, wp_ret. exists (S k).
    cbn [log mem st]. split_and!; try done; try lia; try congruence.
    pose proof (Forall_lookup_1 _ _ _ _ Hq Hc) as Hcb. unfold is_byte in Hcb.
    by rewrite L, (take_S_r _ _ _ Hc), fmap_app, u32_small, <- app_assoc by lia.
  - intros b' s' (k & Hk & Hkn & Hb' & R). cbn in Hk. assert (k = Z.to_nat n) as -> by lia. done.
Qed.

Lemma tx_fifo_insert_ok b q n u s :
  holds b q -> 0 <= n <= zlen q -> Forall is_byte q ->
  wp (tx_fifo_insert b n u) s (λ b' s', holds b' (drop (Z.to_nat n) q) /\ UartBuffSize b' = UartBuffSize b /\
    mem s' = mem s /\ st s' = st s /\ log s' = log s ++ (Wr (UART_FIFO u) <$> take (Z.to_nat n) q)).
Proof.
  intros [Hb Hs] Hn Hq. apply wp_bind. eapply wp_mono; [by apply (tx_insert_loop u n b q)|]. cbn beta.
  intros b1 s1 (Hb1 & Hz1 & Hs1 & R). pose proof (cells_size _ _ _ _ _ Hb1). pose proof (cells_out _ _ _ _ _ Hb1).
  pose proof (cells_len _ _ _ _ _ Hb). unfold advance_out. zfalse (UartBuffSize b1 =? 0). eapply wp_lift; [reflexivity|].
  split; [|split; [by fields|done]]. unfold holds, ring_holds. fields. rewrite Z.add_0_r, Z.mod_small by lia.
  split; [done|]. rewrite Z.add_0_r, Hs1, Hs, (u16_small (_ - zlen q)) by lia.
  rewrite u16_small, Hz1 by lia. zlia.
Qed.

(** The room the transmit FIFO reports. *)
Definition fifo_room s (u : Z) : Z := u8 (UART_FIFO_LEN - txfifo_cnt (u32 (hw_read (log s) (UART_STATUS u)))).

Lemma written_fifo l : written (UART_FIFO UART0) (Wr (UART_FIFO UART0) <$> l) = l.
Proof. induction l as [|c l IH]; [done|]. cbn [fmap list_fmap written flat_map]. rewrite Z.eqb_refl. cbn. f_equal. exact IH. Qed.

Lemma txfifo_cnt_range v : 0 <= txfifo_cnt v < 256.
Proof. unfold txfifo_cnt, UART_TXFIFO_CNT. rewrite land_255. dlia. Qed.

Lemma tx_start_ok cap q s :
  tx_holds cap q s -> Forall is_byte q ->
  let n := Z.to_nat (fifo_room s UART0) in
  wp (tx_start_uart_buffer UART0) s (λ _ s', outputs (take n q) s s' /\ mem s' = mem s /\
    tx_holds cap (drop n q) s' /\ (drop n q <> [] -> tx_armed s')).
Proof.
  intros (b & Eb & Hb & Ec) Hq n. unfold tx_start_uart_buffer. apply wp_bind, wp_read. cbn [log mem st].
  pose proof (txfifo_cnt_range (u32 (hw_read (log s) (UART_STATUS UART0)))) as Hc. rewrite (u8_small (txfifo_cnt _)) by lia.
  fold (fifo_room s UART0). assert (Hr : 0 <= fifo_room s UART0 < 256) by (unfold fifo_room, u8; dlia).
  apply wp_bind, wp_pvar. cbn [st]. rewrite Eb. set (s1 := mk_sys _ _ _).
  assert (O1 : outputs [] s s1) by (eapply outputs_nil; [reflexivity|done]).
  assert (Hsp : UartBuffSize b - Space b = zlen q) by (destruct Hb; lia). rewrite Hsp.
  pose proof (cells_len _ _ _ _ _ (proj1 Hb)). pose proof (cells_size _ _ _ _ _ (proj1 Hb)). pose proof (zlen_nonneg q).
  rewrite u16_small by lia.
  assert (Out : forall m s2, log s2 = log s1 ++ (Wr (UART_FIFO UART0) <$> take m q) -> outputs (take m q) s s2).
  { intros m s2 E. apply (outputs_trans [] _ _ s1 _ O1). unfold outputs. by rewrite E, written_app, written_fifo. }
  destruct (Z.ltb_spec (fifo_room s UART0) (zlen q)) as [Hlt|Hge].
  - apply wp_bind. eapply wp_mono; [apply (tx_fifo_insert_ok b q); done || lia|]. cbn beta.
    intros b' s2 (Hb' & Hz & M & S & L). apply wp_bind, wp_pmodify, set_mask_ok. intros v. cbn [log mem st].
    split_and!; [|done| |intros _; by eapply armed_set].
    + specialize (Out n s2 L). unfold outputs in *. cbn [log]. rewrite written_app, Out. cbn. by rewrite app_nil_r.
    + exists b'. cbn [st]. rewrite part_set. fields. split; [done|]. split; [done|lia].
  - apply wp_bind. rewrite u8_small by lia. eapply wp_mono; [apply (tx_fifo_insert_ok b q); done || lia|]. cbn beta.
    intros b' s2 (Hb' & Hz & M & S & L). apply wp_pmodify. cbn [log mem st].
    assert (Ht : forall k, (length q <= k)%nat -> take k q = q /\ drop k q = []) by (intros; by rewrite take_ge, drop_ge).
    destruct (Ht (Z.to_nat (zlen q))) as [T1 D1]; [unfold zlen; lia|]. destruct (Ht n) as [T2 D2]; [unfold n, zlen in *; lia|].
    rewrite T1 in L. rewrite D1 in Hb'. rewrite T2, D2. rewrite <- T1 in L. split_and!; [|done| |done].
    + specialize (Out _ s2 L). rewrite T1 in Out. exact Out.
    + exists b'. cbn [st]. rewrite part_set. fields. split; [done|]. split; [done|lia].
Qed.
Lemma tx_empty_ok cap q s :
  tx_holds cap q s -> Forall is_byte q ->
  wp (tx_empty_branch true) s (λ _ s', exists n, outputs (take n q) s s' /\ mem s' = mem s /\
    tx_holds cap (drop n q) s' /\ (drop n q <> [] -> tx_armed s')).
Proof.
  intros T Hq. apply wp_bind, clear_mask_ok. intros v. set (s1 := mk_sys _ _ _).
  assert (O1 : outputs [] s s1) by (eapply outputs_nil; [reflexivity|done]).
  apply wp_bind. eapply wp_mono; [apply (tx_start_ok cap q s1); [by eapply tx_holds_same|done]|]. cbn beta.
  intros ? s2 (O2 & M & T2 & A). apply wp_write. eexists. split_and!; [|done|by eapply tx_holds_same|].
  - pose proof (outputs_trans _ _ _ _ _ O1 O2) as O. unfold outputs in *. cbn [log].
    rewrite written_app. cbn. by rewrite app_nil_r.
  - intros Hne. destruct (A Hne) as (l & w & E & B). exists l, w. cbn [log]. rewrite written_app, E. cbn.
    by rewrite app_nil_r.
Qed.

(** What happens to the transmit buffer: the application enqueues, the interrupt says the FIFO is empty. *)
Inductive tx_op := TxEnq (data : list Z) | TxEmpty.

Definition tx_step (op : tx_op) : F X unit :=
  match op with TxEnq d => tx_buff_enq os_malloc d (zlen d) | TxEmpty => tx_empty_branch true end.

(** A bounded byte queue that takes a message as a whole or not at all:
    [tx_queue cap q ops out q'] if [out] can leave it on the way from [q] to [q']. *)
Inductive tx_queue (cap : Z) : list Z -> list tx_op -> list Z -> list Z -> Prop :=
  | tq_nil q : tx_queue cap q [] [] q
  | tq_put q d ops out q' : zlen q + zlen d <= cap ->
      tx_queue cap (q ++ d) ops out q' -> tx_queue cap q (TxEnq d :: ops) out q'
  | tq_full q d ops out q' : cap < zlen q + zlen d ->
      tx_queue cap q ops out q' -> tx_queue cap q (TxEnq d :: ops) out q'
  | tq_send q n ops out q' :
      tx_queue cap (drop n q) ops out q' -> tx_queue cap q (TxEmpty :: ops) (take n q ++ out) q'.

Definition tx_op_ok (op : tx_op) : Prop := match op with TxEnq d => Forall is_byte d | TxEmpty => True end.

(** While there is no buffer yet: the memory for it is found, and no message is
    longer than the buffer that is made for the first one. *)
Record can_create (ops : list tx_op) : Prop := {
  cc_memory : zlen (os_malloc UART_TX_BUFFER_SIZE) = UART_TX_BUFFER_SIZE;
  cc_heap : forall l, UART_TX_BUFFER_SIZE < u32 (sdk_ret l system_get_free_heap_size);
  cc_fits : Forall (λ op, match op with TxEnq d => zlen d <= UART_TX_BUFFER_SIZE | TxEmpty => True end) ops }.

(** The buffer holds [q]; or there is none, and nothing waits. *)
Definition tx_has (cap : Z) (q : list Z) (ops : list tx_op) s : Prop :=
  tx_holds cap q s \/ pTxBuffer (part (st s)) = None /\ q = [] /\ cap = UART_TX_BUFFER_SIZE /\ can_create ops.

Lemma malloc_holds n : 0 < n < 65536 -> zlen (os_malloc n) = n -> holds (mk_buffer n (os_malloc n) 0 0 OK (u16 n) RUN) [].
Proof.
  intros Hn Hz. split; [|cbn; rewrite u16_small by lia; rewrite zlen_nil; lia]. unfold ring_holds. fields.
  split; rewrite ?Hz, ?zlen_nil; try lia.
  - change (zlen (@nil Z)) with 0. unfold ring_ix. zbool; lia.
  - by apply tab_0.
Qed.

(** The first message makes the buffer. *)
Lemma tx_create_ok d ops s : pTxBuffer (part (st s)) = None -> can_create (TxEnq d :: ops) ->
  wp (tx_buff_enq os_malloc d (zlen d)) s (λ _ s', outputs [] s s' /\ tx_armed s' /\ tx_holds UART_TX_BUFFER_SIZE d s').
Proof.
  intros Hn [Hm Hh Hf%Forall_cons_1]. destruct Hf as [Hd _]. unfold tx_buff_enq. apply wp_bind, clear_mask_ok. intros v1. apply wp_bind, wp_pvar.
  cbn [st]. rewrite Hn. set (s1 := mk_sys _ _ _). assert (O1 : outputs [] s s1) by (eapply outputs_nil; [reflexivity|done]).
  apply wp_bind, wp_bind. eapply wp_mono; [apply DBG1_ok|]. cbn beta. intros ? s2 D. assert (O2 := debugged_outputs _ _ D).
  assert (O12 : outputs [] s s2) by exact (outputs_trans [] [] _ s1 _ O1 O2).
  unfold Uart_Buf_Init. apply wp_bind, wp_bind, wp_ask. rewrite (proj2 (Z.leb_gt _ _) (Hh _)). apply wp_ret. cbn [log mem st].
  apply wp_bind, wp_pmodify. cbn [log mem st]. pose proof (malloc_holds UART_TX_BUFFER_SIZE ltac:(unfold UART_TX_BUFFER_SIZE; lia) Hm) as Hb.
  destruct (Uart_Buf_Cpy_ok _ [] d [] Hb) as (b' & E & Hb' & Hz); [cbn [Space]; rewrite u16_small by (unfold UART_TX_BUFFER_SIZE; lia); exact Hd|].
  rewrite app_nil_r in E. apply wp_bind, (wp_lift _ b' _ _ E), wp_pmodify. cbn [log mem st].
  apply wp_bind, set_mask_ok. intros v2. apply set_mask_ok. intros v3. cbn [log mem st]. split_and!; [|by eapply armed_set|].
  - apply (outputs_trans [] [] _ s2 _ O12). eapply outputs_nil; [cbn [log]; rewrite <- !app_assoc; reflexivity|done].
  - exists b'. cbn [st]. rewrite !part_set. fields. done.
Qed.

(** The interrupt finds no buffer. *)
Lemma tx_empty_none s : pTxBuffer (part (st s)) = None -> wp (tx_empty_branch true) s (λ _ s', outputs [] s s' /\ st s' = st s).
Proof.
  intros Hn. apply wp_bind, clear_mask_ok. intros v. set (s1 := mk_sys _ _ _).
  assert (O1 : outputs [] s s1) by (eapply outputs_nil; [reflexivity|done]).
  apply wp_bind. unfold swhen, tx_start_uart_buffer. apply wp_bind, wp_read. apply wp_bind, wp_pvar. cbn [log mem st s1]. rewrite Hn.
  set (s2 := mk_sys _ _ _). assert (O2 : outputs [] s s2) by (apply (outputs_trans [] [] _ s1 _ O1); eapply outputs_nil; [reflexivity|done]).
  eapply wp_mono; [apply DBG1_ok|]. cbn beta. intros ? s3 D. apply wp_write. split; [|by destruct D as (_ & -> & _)].
  pose proof (outputs_trans [] [] _ s2 _ O2 (debugged_outputs _ _ D)) as O3. unfold outputs in *. cbn [log]. rewrite written_app. cbn. by rewrite app_nil_r.
Qed.

(** C14: the software transmit buffer is a bounded first-in first-out queue.  Through
    any sequence of enqueue calls and transmit interrupts, from a state in which the
    buffer exists, or from one in which the first enqueue call makes it: the bytes
    written to the FIFO of UART0 are those of the accepted messages, in order,
    none lost and none twice, a message that does not fit is refused as a
    whole, every access stays inside the storage, and as long as a byte is
    waiting the transmit interrupt is left enabled.  While the buffer does not
    exist its memory must be found and no message may be longer than it
    ([can_create]): the code does not compare the first one with the room it has
    just made ([first_message_overflows]). *)
Theorem tx_buffer_refines_queue cap ops : forall q s,
  tx_has cap q ops s -> Forall is_byte q -> Forall tx_op_ok ops -> (q <> [] -> tx_armed s) ->
  wp (sfor ops tx_step) s (λ _ s', exists out q', tx_queue cap q ops out q' /\ outputs out s s' /\
    tx_has cap q' [] s' /\ (q' <> [] -> tx_armed s')).
Proof.
  induction ops as [|op ops IH]; intros q s T Hq Ho A; cbn [sfor].
  { apply wp_ret. exists [], q. split; [constructor|]. split; [unfold outputs; by rewrite app_nil_r|done]. }
  apply Forall_cons_1 in Ho as [Hop Ho]. apply wp_bind. destruct T as [T|(Hn & -> & -> & C)]; destruct op as [d|]; cbn [tx_step tx_op_ok] in *.
  - eapply wp_mono; [by apply (tx_buff_enq_ok cap q d)|]. cbn beta. intros ? s1 (O1 & _ & A1 & T1).
    assert (Hq1 : Forall is_byte (if zlen q + zlen d <=? cap then q ++ d else q)) by (destruct (_ <=? _); [by apply Forall_app|done]).
    eapply wp_mono; [by apply (IH _ s1 (or_introl T1) Hq1 Ho)|]. cbn beta. intros ? s2 (out & q' & Q & O2 & R).
    exists out, q'. split; [|split; [|done]].
    + destruct (Z.leb_spec (zlen q + zlen d) cap); [by apply tq_put|apply tq_full; done].
    + exact (outputs_trans _ _ _ _ _ O1 O2).
  - eapply wp_mono; [by apply (tx_empty_ok cap q)|]. cbn beta. intros ? s1 (n & O1 & _ & T1 & A1).
    assert (Hq1 : Forall is_byte (drop n q)) by by apply Forall_drop.
    eapply wp_mono; [by apply (IH _ s1 (or_introl T1) Hq1 Ho A1)|]. cbn beta. intros ? s2 (out & q' & Q & O2 & R).
    exists (take n q ++ out), q'. split; [by apply tq_send|]. split; [|done]. exact (outputs_trans _ _ _ _ _ O1 O2).
  - eapply wp_mono; [by apply (tx_create_ok d ops)|]. cbn beta. intros ? s1 (O1 & A1 & T1).
    eapply wp_mono; [by apply (IH _ s1 (or_introl T1) Hop Ho)|]. cbn beta. intros ? s2 (out & q' & Q & O2 & R).
    exists out, q'. split; [|split; [exact (outputs_trans _ _ _ _ _ O1 O2)|done]].
    apply tq_put; [|exact Q]. destruct C as [_ _ Cf%Forall_cons_1]. rewrite zlen_nil. apply Cf.
  - eapply wp_mono; [by apply tx_empty_none|]. cbn beta. intros ? s1 (O1 & S1).
    assert (C1 : can_create ops) by (destruct C as [C1 C2 [_ C3]%Forall_cons_1]; by split).
    eapply wp_mono; [apply (IH [] s1); [right; by rewrite S1|done..]|]. cbn beta. intros ? s2 (out & q' & Q & O2 & R).
    exists out, q'. split; [|split; [exact (outputs_trans _ _ _ _ _ O1 O2)|done]]. exact (tq_send _ [] 0 _ _ _ Q).
Qed.
End TxSide.

(** ** The receive side *)

Section RxSide.
Context `{Env} {X : Type} `{PB : Part X uart_buffers}.
Implicit Types s : sys X.

(** The receive buffer holds [q]; it is never full to the last byte. *)
Definition rx_holds (cap : Z) (q : list Z) s : Prop :=
  exists b, pRxBuffer (part (st s)) = Some b /\ holds b q /\ UartBuffSize b = cap /\ zlen q < cap.

(** The receive interrupts are enabled. *)
Definition rx_armed s : Prop :=
  exists before v, written (UART_INT_ENA UART0) (log s) = before ++ [v] /\ Z.testbit v 0 = true /\ Z.testbit v 8 = true.

(** The words taken out of the receive FIFO between [s] and [s']. *)
Definition inputs (vs : list Z) s s' : Prop :=
  got (UART_FIFO UART0) (log s') = got (UART_FIFO UART0) (log s) ++ vs.

Lemma inputs_trans v1 v2 s1 s2 s3 : inputs v1 s1 s2 -> inputs v2 s2 s3 -> inputs (v1 ++ v2) s1 s3.
Proof. unfold inputs. intros E1 E2. by rewrite E2, E1, app_assoc. Qed.

Lemma got_fifo vs : got (UART_FIFO UART0) (Rd (UART_FIFO UART0) <$> vs) = vs.
Proof. induction vs as [|c l IH]; [done|]. cbn [fmap list_fmap got flat_map]. rewrite Z.eqb_refl. cbn. f_equal. exact IH. Qed.

Lemma rx_armed_set l v s' :
  log s' = l ++ [Rd (UART_INT_ENA UART0) v; Wr (UART_INT_ENA UART0) (u32 (Z.lor v (Z.lor UART_RXFIFO_FULL_INT UART_RXFIFO_TOUT_INT)))] ->
  rx_armed s'.
Proof.
  intros E. unfold rx_armed. rewrite E. eexists _, _. rewrite written_app. cbn [written flat_map app]. rewrite Z.eqb_refl.
  split; [reflexivity|].
  change (u32 (Z.lor v (Z.lor UART_RXFIFO_FULL_INT UART_RXFIFO_TOUT_INT))) with (Z.lor v 257 mod 2 ^ 32).
  rewrite !Z.mod_pow2_bits_low, !Z.lor_spec by lia. by rewrite !orb_true_r.
Qed.

Lemma rx_enable_ok s :
  wp (uart_rx_intr_enable UART0) s (λ _ s', inputs [] s s' /\ mem s' = mem s /\ st s' = st s /\ rx_armed s').
Proof.
  apply set_mask_ok. intros v. split_and!; cbn [log]; [|done|done|].
  - unfold inputs. cbn [log]. by rewrite got_app.
  - by eapply rx_armed_set.
Qed.

Lemma rx_fill_ok n b q s : ring_holds b q -> zlen q + n < UartBuffSize b -> 0 <= n ->
  wp (rx_fill n b) s (λ b' s', exists vs, zlen vs = n /\ ring_holds b' (q ++ rx_bytes vs) /\
    UartBuffSize b' = UartBuffSize b /\ Space b' = Space b /\ mem s' = mem s /\ st s' = st s /\
    log s' = log s ++ (Rd (UART_FIFO UART0) <$> vs)).
Proof.
  intros Hb Hn H0.
  apply (wp_fold _ (λ l b' s', exists vs, (length l + length vs = Z.to_nat n)%nat /\
    ring_holds b' (q ++ rx_bytes vs) /\ UartBuffSize b' = UartBuffSize b /\ Space b' = Space b /\
    mem s' = mem s /\ st s' = st s /\ log s' = log s ++ (Rd (UART_FIFO UART0) <$> vs))).
  - exists []. rewrite length_seqZ. cbn. rewrite !app_nil_r. split_and!; done || lia.
  - intros i l b' s1 (vs & Hl & Hb' & Hz & Hsp & M & S1 & L). cbn [length] in Hl. apply wp_bind, wp_read.
    set (v := u32 _). assert (Hlen : zlen (rx_bytes vs) = zlen vs) by (unfold zlen, rx_bytes; by rewrite length_fmap).
    destruct (put_byte_ok b' _ (Z.land v 0xFF) Hb') as (b2 & E & Hb2 & Hz2 & Hsp2); [rewrite zlen_app, Hlen; unfold zlen in *; lia|].
    apply (wp_lift _ b2 _ _ E). exists (vs ++ [v]). cbn [log mem st]. rewrite length_app. cbn [length].
    unfold rx_bytes in *. rewrite !fmap_app, L, <- app_assoc. rewrite <- app_assoc in Hb2.
    split_and!; try done; try lia; congruence.
  - intros b' s1 (vs & Hl & R). exists vs. split; [unfold zlen; cbn in Hl; lia|done].
Qed.

Lemma rx_enq_ok cap q s :
  rx_holds cap q s ->
  wp Uart_rx_buff_enq s (λ _ s', exists vs, inputs vs s s' /\ rx_holds cap (q ++ rx_bytes vs) s').
Proof.
  intros (b & Eb & Hb & Ec & Hq). unfold Uart_rx_buff_enq. apply wp_bind, wp_read.
  set (n := rxfifo_cnt _). assert (Hn : 0 <= n < 256) by (unfold n, rxfifo_cnt, UART_RXFIFO_CNT; rewrite land_255; dlia).
  rewrite u8_small by lia. apply wp_bind, wp_pvar. cbn [st]. rewrite Eb. apply wp_bind, (wp_lift _ b _ _ eq_refl).
  set (s1 := mk_sys _ _ _). assert (I1 : inputs [] s s1) by (unfold inputs, s1; cbn [log]; by rewrite got_app).
  pose proof (zlen_nonneg q). assert (Hsp : Space b = cap - zlen q) by (rewrite <- Ec; apply Hb).
  pose proof (cells_size _ _ _ _ _ (proj1 Hb)). destruct (Z.leb_spec (Space b) n) as [Hle|Hgt].
  - apply wp_call. exists []. cbn [log mem st]. split; [|rewrite app_nil_r; by exists b].
    unfold inputs in *. cbn [log]. rewrite got_app, I1. cbn. by rewrite !app_nil_r.
  - apply wp_bind. eapply wp_mono; [apply (rx_fill_ok n b q s1 (proj1 Hb)); lia|]. cbn beta.
    intros b' s2 (vs & Hl & Hb' & Hz & Hsp2 & M & S2 & L). apply wp_bind, wp_pmodify. cbn [log mem st].
    set (b2 := b' <| Space := u16 (Space b' - n) |>). set (s3 := mk_sys _ _ _).
    assert (Hvs : zlen (rx_bytes vs) = n) by (unfold zlen, rx_bytes in *; by rewrite length_fmap).
    assert (R3 : rx_holds cap (q ++ rx_bytes vs) s3).
    { exists b2. unfold s3. cbn [st]. rewrite part_set. unfold b2, holds, ring_holds. fields. rewrite zlen_app, Hvs.
      rewrite Hsp2, u16_small by lia. split; [done|]. split; [split; [exact Hb'|lia]|lia]. }
    assert (I3 : inputs vs s s3).
    { apply (inputs_trans [] vs _ s1 _ I1). unfold inputs, s3. cbn [log]. by rewrite L, got_app, got_fifo. }
    apply wp_when; intros _; [|by exists vs]. eapply wp_mono; [apply rx_enable_ok|]. intros ? s4 (I4 & M4 & S4 & _).
    exists vs. split; [|unfold rx_holds; by rewrite S4]. pose proof (inputs_trans _ _ _ _ _ I3 I4) as I. by rewrite app_nil_r in I.
Qed.

Lemma rx_deq_ok cap q n s :
  rx_holds cap q s -> 0 <= n < 65536 ->
  wp (rx_buff_deq n) s (λ r s', r = (Z.min n (zlen q), take (Z.to_nat n) q) /\ inputs [] s s' /\
    rx_holds cap (drop (Z.to_nat n) q) s' /\ (UART_FIFO_LEN <= cap - zlen (drop (Z.to_nat n) q) -> rx_armed s')).
Proof.
  intros (b & Eb & Hb & Ec & Hq) Hn. unfold rx_buff_deq. apply wp_bind, wp_pvar. rewrite Eb.
  apply wp_bind, (wp_lift _ b _ _ eq_refl). destruct Hb as [C Hsp].
  pose proof (cells_size _ _ _ _ _ C). pose proof (cells_out _ _ _ _ _ C). pose proof (cells_in _ _ _ _ _ C) as Hin.
  pose proof (zlen_nonneg q). rewrite (u16_small (UartBuffSize b - pOutPos b)), Hsp by lia.
  replace (UartBuffSize b - (UartBuffSize b - zlen q)) with (zlen q) by lia. rewrite (u16_small (zlen q)) by lia. rewrite clamp_min'.
  set (m := Z.min n (zlen q)). assert (Hm : 0 <= m <= zlen q) by lia.
  assert (Et : take (Z.to_nat m) q = take (Z.to_nat n) q) by (apply take_min_len; lia).
  assert (Ed : drop (Z.to_nat m) q = drop (Z.to_nat n) q) by (apply drop_min_len; lia).
  assert (Hdl : zlen (drop (Z.to_nat n) q) = zlen q - m) by (rewrite <- Ed; zlia).
  match goal with |- wp (sbind (slift ?o) _) _ _ =>
    assert (Hr : exists b', o = Some (take (Z.to_nat n) q, b') /\ holds b' (drop (Z.to_nat n) q) /\ UartBuffSize b' = cap) end.
  { rewrite <- Et, <- Ed. rewrite <- Ed in Hdl. apply (deq_ok b q m cap C Hsp Hm Ec). lia. }
  destruct Hr as (b' & E & Hb' & Hz). apply wp_bind, (wp_lift _ _ _ _ E), wp_bind, wp_pmodify. cbn [fst snd log mem st].
  set (s1 := mk_sys _ _ _).
  assert (R1 : rx_holds cap (drop (Z.to_nat n) q) s1).
  { exists b'. unfold s1. cbn [st]. rewrite part_set. fields. split_and!; done || lia. }
  assert (Hs' : Space b' = cap - zlen (drop (Z.to_nat n) q)) by (rewrite <- Hz; apply Hb').
  apply wp_bind, wp_when; intros Ew.
  - eapply wp_mono; [apply rx_enable_ok|]. intros ? s2 (I2 & _ & S2 & A2). apply wp_ret. split; [done|]. split; [exact I2|].
    split; [unfold rx_holds; by rewrite S2|done].
  - apply wp_ret. split; [done|]. split; [unfold inputs; by rewrite app_nil_r|]. split; [done|]. apply Z.leb_gt in Ew. lia.
Qed.
(** What happens to the receive buffer: the receive task moves bytes in, the application takes bytes out. *)
Inductive rx_op := RxTask | RxDeq (len : Z).
Definition rx_op_ok (op : rx_op) : Prop := match op with RxTask => True | RxDeq n => 0 <= n < 65536 end.

(** The bytes handed to the application are collected. *)
Definition rx_step (acc : list Z) (op : rx_op) : F X (list Z) :=
  match op with
  | RxTask => Uart_rx_buff_enq ;; sret acc
  | RxDeq n => r <- rx_buff_deq n ;; sret (acc ++ snd r)
  end.

Lemma inputs_nil s : inputs [] s s.
Proof. unfold inputs. by rewrite app_nil_r. Qed.

(** Through any sequence of receive tasks and [rx_buff_deq] calls, with any
    fill level the FIFO may report, the bytes handed to the application
    followed by those still buffered are exactly the bytes read from the FIFO
    register, in order: none is lost, duplicated or read outside the storage.
    A dequeue that leaves room for a whole FIFO also leaves the receive
    interrupts enabled. *)
Theorem rx_buffer_lossless cap ops q s :
  rx_holds cap q s -> Forall rx_op_ok ops ->
  wp (sfold ops rx_step []) s (λ out s', exists vs q', inputs vs s s' /\ q ++ rx_bytes vs = out ++ q' /\
    rx_holds cap q' s' /\
    forall before n, ops = before ++ [RxDeq n] -> UART_FIFO_LEN <= cap - zlen q' -> rx_armed s').
Proof.
  intros R Ho.
  apply (wp_fold _ (λ l out s', exists d vs q', ops = d ++ l /\ inputs vs s s' /\ q ++ rx_bytes vs = out ++ q' /\
    rx_holds cap q' s' /\
    forall before n, d = before ++ [RxDeq n] -> UART_FIFO_LEN <= cap - zlen q' -> rx_armed s')).
  - exists [], [], q. split; [done|]. split; [apply inputs_nil|]. split; [apply app_nil_r|]. split; [done|].
    intros before n E. by destruct before.
  - intros op l out s1 (d & vs & q1 & -> & I1 & E1 & R1 & _). apply Forall_app in Ho as [_ [Hop _]%Forall_cons_1].
    destruct op as [|n]; cbn [rx_step rx_op_ok] in *; apply wp_bind.
    + eapply wp_mono; [by apply (rx_enq_ok cap q1)|]. cbn beta. intros ? s2 (v2 & I2 & R2). apply wp_ret.
      exists (d ++ [RxTask]), (vs ++ v2), (q1 ++ rx_bytes v2). rewrite <- app_assoc. split; [done|].
      split; [exact (inputs_trans _ _ _ _ _ I1 I2)|]. split; [|split; [done|]].
      * unfold rx_bytes in *. by rewrite fmap_app, !app_assoc, E1.
      * intros before n E. by apply app_inj_tail in E as [_ ?].
    + eapply wp_mono; [by apply (rx_deq_ok cap q1 n)|]. cbn beta. intros r s2 (-> & I2 & R2 & A2). apply wp_ret.
      exists (d ++ [RxDeq n]), vs, (drop (Z.to_nat n) q1). rewrite <- app_assoc. split; [done|].
      split; [pose proof (inputs_trans _ _ _ _ _ I1 I2) as I; by rewrite app_nil_r in I|]. split; [|split; [done|]].
      * cbn [snd]. by rewrite E1, <- app_assoc, take_drop.
      * intros before n' E. exact A2.
  - intros out s1 (d & vs & q1 & E & R1). rewrite app_nil_r in E. subst d. by exists vs, q1.
Qed.
End RxSide.

(** ** Concrete inputs *)

(** A board whose transmit FIFO has room for two bytes, whose receive FIFO
    announces three, and whose every word read ends in 0x41 or 3. *)
Definition small_fifos : Env := mk_env
  (λ _ a, if a =? UART_STATUS UART0 then Z.shiftl 126 16 + 3 else 0x41) (λ _ _, 0).
Definition fresh_buffer (n : Z) : UartBuffer := mk_buffer n (replicate (Z.to_nat n) 0) 0 0 OK n RUN.
Definition sample_buffers : sys uart_buffers := mk_sys [] ∅ (mk_buffers (Some (fresh_buffer 4)) (Some (fresh_buffer 8))).

Lemma fresh_holds n : 0 < n < 65536 -> holds (fresh_buffer n) [].
Proof.
  intros Hn. split; [|cbn; rewrite zlen_nil; lia]. unfold ring_holds, fresh_buffer. fields.
  split; rewrite ?zlen_replicate, ?zlen_nil; try lia.
  - change (zlen (@nil Z)) with 0. unfold ring_ix. zbool; lia.
  - by apply tab_0.
Qed.

(** No buffer yet, and memory for one. *)
Definition big_heap : Env := mk_env (λ _ a, if a =? UART_STATUS UART0 then Z.shiftl 126 16 + 3 else 0x41) (λ _ _, 1000).
Definition no_buffers : sys uart_buffers := mk_sys [] ∅ (mk_buffers None None).

(** An interrupt that finds no buffer; two messages, the first makes it; then two
    interrupts of which each moves two bytes. *)
Definition sample_tx_ops : list tx_op := [TxEmpty; TxEnq [1; 2; 3]; TxEnq [4; 5; 6]; TxEmpty; TxEmpty].
Lemma tx_buffer_refines_queue_witness :
  wp (sfor sample_tx_ops (@tx_step big_heap _ _ (λ n, replicate (Z.to_nat n) 0)))
    no_buffers (λ _ s', exists out q', tx_queue UART_TX_BUFFER_SIZE [] sample_tx_ops out q' /\
      written (UART_FIFO UART0) (log s') = out).
Proof.
  eapply wp_mono.
  - apply (@tx_buffer_refines_queue big_heap _ _ (λ n, replicate (Z.to_nat n) 0) UART_TX_BUFFER_SIZE sample_tx_ops [] no_buffers).
    + right. split; [reflexivity|]. split; [reflexivity|]. split; [reflexivity|].
      split; [reflexivity|intros l; by vm_compute|unfold sample_tx_ops, UART_TX_BUFFER_SIZE; repeat constructor; by vm_compute].
    + constructor.
    + unfold sample_tx_ops, tx_op_ok, is_byte. repeat constructor; lia.
    + done.
  - cbn beta. intros ? s' (out & q' & Q & O & _). exists out, q'. split; [exact Q|exact O].
Defined.

Lemma rx_buffer_lossless_witness :
  wp (sfold [RxTask; RxDeq 2; RxTask; RxDeq 9] (@rx_step small_fifos _ _) []) sample_buffers
    (λ out s', exists vs q', rx_bytes vs = out ++ q').
Proof.
  eapply wp_mono.
  - apply (@rx_buffer_lossless small_fifos _ _ 8 [RxTask; RxDeq 2; RxTask; RxDeq 9] [] sample_buffers).
    + exists (fresh_buffer 8). split; [reflexivity|]. split; [by apply fresh_holds|]. split; reflexivity.
    + unfold rx_op_ok. repeat constructor; lia.
  - cbn beta. intros out s' (vs & q' & _ & E & _). exists vs, q'. exact E.
Defined.

(** The first message after a missing [uart_init] is not compared with the
    room: 300 bytes go into 256 cells and [Space] underflows. *)
Example first_message_overflows :
  option_map Space (Uart_Buf_Cpy (fresh_buffer UART_TX_BUFFER_SIZE) (replicate 300 7) 300) = Some 65492.
Proof. vm_compute. reflexivity. Qed.
