(* ===== verification/UartTask.v ===== *)
(** * UartTask: configuration, interrupt handler and task of driver/uart.c

    The part of the driver that ties the transmit functions (UartDriver.v) and
    the software buffers (UartBuffer.v) together.  The compile-time switches of
    driver/uart.h are a parameter; [uart_h] is the setting of the repository. *)

From Stdlib Require Import String Ascii.
From stdpp Require Import gmap.
From S2P Require Import Prelude CMem Board UartReg UserUart UartDriver UartBuffer.
Local Open Scope string_scope.
Local Open Scope Z_scope.
Local Open Scope sm_scope.
Local Open Scope list_scope.

(** [UART_BUFF_EN], [UART_SELFTEST], [UART_HW_RTS] and [UART_HW_CTS]. *)
Class Switches := mk_switches { UART_BUFF_EN : bool; UART_SELFTEST : bool; UART_HW_RTS : bool; UART_HW_CTS : bool }.
Definition uart_h : Switches := mk_switches false false false false.

Definition uart_recvTaskPrio : Z := 0.
Definition uart_recvTaskQueueLen : Z := 10.

(** The members of [UartDev] the driver uses; [TrigLvl] is that of its [rcv_buff]. *)
Record UartDevice := mk_device {
  baut_rate : Z; data_bits : Z; exist_parity : Z; parity : Z; stop_bits : Z; TrigLvl : Z }.
#[export] Instance eta_device : Settable UartDevice := λ d, mk_device
  (baut_rate d) (data_bits d) (exist_parity d) (parity d) (stop_bits d) (TrigLvl d).

(** The line end ["\r\n"] of the handler's messages. *)
Definition CR_LF : string := String (ascii_of_nat 13) (String (ascii_of_nat 10) "").

Section Task.
Context `{Env} `{Switches} {X : Type} `{PD : Part X UartDevice} `{PB : Part X uart_buffers}.
Context (os_malloc : Z -> list Z).

Definition uart_config (uart_no : Z) : F X unit :=
  (if uart_no =? UART1 then PIN_FUNC_SELECT PERIPHS_IO_MUX_GPIO2_U FUNC_U1TXD_BK
   else
     ETS_UART_INTR_ATTACH fp_uart0_rx_intr_handler ;;
     PIN_PULLUP_DIS PERIPHS_IO_MUX_U0TXD_U ;;
     PIN_FUNC_SELECT PERIPHS_IO_MUX_U0TXD_U FUNC_U0TXD ;;
     swhen UART_HW_RTS (PIN_FUNC_SELECT PERIPHS_IO_MUX_MTDO_U FUNC_U0RTS) ;;
     swhen UART_HW_CTS (PIN_FUNC_SELECT PERIPHS_IO_MUX_MTCK_U FUNC_UART0_CTS)) ;;
  d <- pvar (λ d, d) ;;
  (if baut_rate d =? 0 then slift None else call (uart_div_modify uart_no (UART_CLK_FREQ / baut_rate d))) ;;
  WRITE_PERI_REG (UART_CONF0 uart_no)
    (Z.lor (Z.lor (Z.lor (Z.shiftl (Z.land (exist_parity d) UART_PARITY_EN_M) UART_PARITY_EN_S)
                         (Z.shiftl (Z.land (parity d) UART_PARITY_M) UART_PARITY_S))
                  (Z.shiftl (Z.land (stop_bits d) UART_STOP_BIT_NUM) UART_STOP_BIT_NUM_S))
           (Z.shiftl (Z.land (data_bits d) UART_BIT_NUM) UART_BIT_NUM_S)) ;;
  SET_PERI_REG_MASK (UART_CONF0 uart_no) (Z.lor UART_RXFIFO_RST UART_TXFIFO_RST) ;;
  CLEAR_PERI_REG_MASK (UART_CONF0 uart_no) (Z.lor UART_RXFIFO_RST UART_TXFIFO_RST) ;;
  (if uart_no =? UART0 then
     WRITE_PERI_REG (UART_CONF1 uart_no)
       (Z.lor (Z.shiftl (Z.land 100 UART_RXFIFO_FULL_THRHD) UART_RXFIFO_FULL_THRHD_S)
         (Z.lor (if UART_HW_RTS then Z.lor (Z.shiftl (Z.land 110 UART_RX_FLOW_THRHD) UART_RX_FLOW_THRHD_S) UART_RX_FLOW_EN else 0)
           (Z.lor (Z.lor (Z.shiftl (Z.land 0x02 UART_RX_TOUT_THRHD) UART_RX_TOUT_THRHD_S) UART_RX_TOUT_EN)
             (Z.shiftl (Z.land 0x10 UART_TXFIFO_EMPTY_THRHD) UART_TXFIFO_EMPTY_THRHD_S)))) ;;
     swhen UART_HW_CTS (SET_PERI_REG_MASK (UART_CONF0 uart_no) UART_TX_FLOW_EN) ;;
     SET_PERI_REG_MASK (UART_INT_ENA uart_no) (Z.lor UART_RXFIFO_TOUT_INT UART_FRM_ERR_INT)
   else
     WRITE_PERI_REG (UART_CONF1 uart_no) (Z.shiftl (Z.land (TrigLvl d) UART_RXFIFO_FULL_THRHD) UART_RXFIFO_FULL_THRHD_S)) ;;
  WRITE_PERI_REG (UART_INT_CLR uart_no) 0xffff ;;
  SET_PERI_REG_MASK (UART_INT_ENA uart_no) (Z.lor UART_RXFIFO_FULL_INT UART_RXFIFO_OVF_INT).

Definition uart0_write_char_no_wait (c : Z) : F X unit :=
  let put := λ ch, if UART_BUFF_EN then tx_buff_enq os_malloc [ch] 1
                   else uart_tx_one_char_no_wait UART0 ch ;; sret tt in
  if c =? 10 then put 13 ;; put 10
  else if c =? 13 then sret tt
  else put c.

(** [bit == ( READ_PERI_REG( UART_INT_ST( UART0 ) ) & bit )] *)
Definition pending_intr (bit : Z) : F X bool := v <- READ_PERI_REG (UART_INT_ST UART0) ;; sret (has v bit).

Definition uart0_rx_intr_handler : F X unit :=
  frm_err <- pending_intr UART_FRM_ERR_INT ;;
  if (frm_err : bool) then
    DBG1 (String.append "FRM_ERR" CR_LF) ;; WRITE_PERI_REG (UART_INT_CLR UART0) UART_FRM_ERR_INT
  else
  full <- pending_intr UART_RXFIFO_FULL_INT ;;
  if (full : bool) then
    uart_rx_intr_disable UART0 ;; WRITE_PERI_REG (UART_INT_CLR UART0) UART_RXFIFO_FULL_INT ;;
    call (system_os_post uart_recvTaskPrio 0 0)
  else
  tout <- pending_intr UART_RXFIFO_TOUT_INT ;;
  if (tout : bool) then
    uart_rx_intr_disable UART0 ;; WRITE_PERI_REG (UART_INT_CLR UART0) UART_RXFIFO_TOUT_INT ;;
    call (system_os_post uart_recvTaskPrio 0 0)
  else
  empty <- pending_intr UART_TXFIFO_EMPTY_INT ;;
  if (empty : bool) then tx_empty_branch UART_BUFF_EN
  else
  ovf <- pending_intr UART_RXFIFO_OVF_INT ;;
  if (ovf : bool) then
    WRITE_PERI_REG (UART_INT_CLR UART0) UART_RXFIFO_OVF_INT ;; DBG1 (String.append "RX OVF!!" CR_LF)
  else sret tt.

Definition uart_test_rx : F X unit :=
  r <- rx_buff_deq 128 ;; tx_buff_enq os_malloc (snd r) (fst r).

(** [events->sig] is the only part of the event the task looks at. *)
Definition uart_recvTask (fuel : nat) (sig : Z) : F X unit :=
  if sig =? 0 then
    if UART_BUFF_EN then Uart_rx_buff_enq
    else
      v <- READ_PERI_REG (UART_STATUS UART0) ;;
      sfor (seqZ 0 (u8 (rxfifo_cnt v))) (λ _,
        d <- READ_PERI_REG (UART_FIFO UART0) ;;
        uart_tx_one_char fuel UART0 (Z.land d 0xFF) ;; sret tt) ;;
      WRITE_PERI_REG (UART_INT_CLR UART0) (Z.lor UART_RXFIFO_FULL_INT UART_RXFIFO_TOUT_INT) ;;
      uart_rx_intr_enable UART0
  else sret tt.

Definition uart_init (uart0_br uart1_br : Z) : F X unit :=
  call (system_os_task fp_uart_recvTask uart_recvTaskPrio uart_recvTaskQueueLen) ;;
  pmodify (λ d : UartDevice, d <| baut_rate := uart0_br |>) ;;
  uart_config UART0 ;;
  pmodify (λ d : UartDevice, d <| baut_rate := uart1_br |>) ;;
  uart_config UART1 ;;
  ETS_UART_INTR_ENABLE ;;
  swhen UART_BUFF_EN (
    b <- Uart_Buf_Init os_malloc UART_TX_BUFFER_SIZE ;; pmodify (λ s, s <| pTxBuffer := b |>) ;;
    b <- Uart_Buf_Init os_malloc UART_RX_BUFFER_SIZE ;; pmodify (λ s, s <| pRxBuffer := b |>)) ;;
  swhen (UART_SELFTEST && UART_BUFF_EN) (
    call (os_timer_disarm t_buff) ;; call (os_timer_setfn t_buff fp_uart_test_rx) ;; call (os_timer_arm t_buff 10 1)).

Definition uart_reattach : F X unit := uart_init BIT_RATE_115200 BIT_RATE_115200.

(** One round of [while(1)] per unit of fuel. *)
Fixpoint output_finished (fuel : nat) (uart_no time_out_us t_start : Z) : F X bool :=
  match fuel with
  | O => slift None
  | S fuel =>
      v <- READ_PERI_REG (UART_STATUS uart_no) ;;
      tx <- pvar pTxBuffer ;;
      let tx_buff_len := match tx with Some b => u32 (UartBuffSize b - Space b) | None => 0 end in
      if (u8 (txfifo_cnt v) =? 0) && (tx_buff_len =? 0) then sret true
      else
        now <- ask system_get_time ;;
        if time_out_us <? u32 (now - t_start) then sret false
        else WRITE_PERI_REG 0X60000914 0X73 ;; output_finished fuel uart_no time_out_us t_start
  end.
Definition UART_CheckOutputFinished (fuel : nat) (uart_no time_out_us : Z) : F X bool :=
  t_start <- ask system_get_time ;; output_finished fuel uart_no time_out_us t_start.

Definition UART_SetPrintPort (uart_no : Z) : F X unit :=
  if uart_no =? 1 then call (os_install_putc1 fp_uart1_write_char)
  else call (os_install_putc1 fp_uart0_write_char_no_wait) ;; call (os_install_putc1 fp_uart0_write_char).

Definition uart_init_2 (uart0_br uart1_br : Z) : F X unit :=
  pmodify (λ d : UartDevice, d <| baut_rate := uart0_br |> <| exist_parity := STICK_PARITY_EN |>
    <| parity := EVEN_BITS |> <| stop_bits := ONE_STOP_BIT |> <| data_bits := EIGHT_BITS |>) ;;
  uart_config UART0 ;;
  pmodify (λ d : UartDevice, d <| baut_rate := uart1_br |>) ;;
  uart_config UART1 ;;
  ETS_UART_INTR_ENABLE ;;
  call (os_install_putc1 fp_uart1_write_char).
End Task.

(** ** The receive interrupt and its task, without the software buffers *)

Section Echo.
Context `{Env} {X : Type} `{PD : Part X UartDevice} `{PB : Part X uart_buffers}.
Implicit Types s : sys X.
#[local] Instance switches : Switches := uart_h.

(** Polling reads nothing but the status register. *)
Lemma wait_tx_got fuel u limit a : a <> UART_STATUS u -> forall s r s',
  wait_tx fuel u limit s = Some (r, s') -> got a (log s') = got a (log s).
Proof.
  intros Ha. induction fuel as [|fuel IH]; intros s r s' E; [discriminate|]. cbn [wait_tx] in E. run_board.
  assert (G : forall v, got a (log s ++ [Rd (UART_STATUS u) v]) = got a (log s)).
  { intros v. rewrite got_app. cbn. apply Z.eqb_neq in Ha. rewrite Z.eqb_sym, Ha. apply app_nil_r. }
  destruct (limit <=? _).
  - apply IH in E. rewrite E. apply G.
  - injection E as <- <-. apply G.
Qed.

Lemma tx_one_char_ok bound `{!TxDrains UART0 126 bound} fuel c s :
  (bound < fuel)%nat -> is_byte c ->
  wp (uart_tx_one_char fuel UART0 c) s (λ _ s', sent UART0 [c] s s' /\
    got (UART_FIFO UART0) (log s') = got (UART_FIFO UART0) (log s)).
Proof.
  intros Hf Hc. apply wp_bind. destruct (tx_wait_write_spec UART0 126 bound fuel c s Hf Hc) as (r & s' & E & Hs).
  exists r, s'. split; [done|]. apply wp_ret. split; [done|]. unfold tx_wait_write, sbind in E.
  destruct (wait_tx fuel UART0 126 s) as [[r0 s0]|] eqn:Ew; [|discriminate]. cbn [mbind option_bind] in E.
  apply wait_tx_got with (a := UART_FIFO UART0) in Ew; [|done]. run_board. injection E as <- <-. cbn [log].
  by rewrite got_app, Ew, app_nil_r.
Qed.

(** One round of the task: a byte in, the same byte out. *)
Definition echoed (vs : list Z) s s' : Prop :=
  inputs vs s s' /\ outputs (rx_bytes vs) s s' /\ mem s' = mem s /\ st s' = st s.

(** The receive interrupts FULL and TOUT are disabled. *)
Definition rx_masked s : Prop :=
  exists before v, written (UART_INT_ENA UART0) (log s) = before ++ [v] /\ Z.testbit v 0 = false /\ Z.testbit v 8 = false.

Lemma recvTask_ok bound `{!TxDrains UART0 126 bound} fuel s :
  (bound < fuel)%nat ->
  wp (uart_recvTask fuel 0) s (λ _ s', exists vs,
    zlen vs = rxfifo_cnt (u32 (hw_read (log s) (UART_STATUS UART0))) /\ echoed vs s s' /\ rx_armed s').
Proof.
  intros Hf. unfold uart_recvTask. cbn [Z.eqb UART_BUFF_EN switches uart_h]. apply wp_bind, wp_read.
  set (n := rxfifo_cnt _). assert (Hn : 0 <= n < 256) by (unfold n, rxfifo_cnt, UART_RXFIFO_CNT; rewrite land_255; dlia).
  rewrite u8_small by lia. set (s1 := mk_sys _ _ _).
  assert (E1 : echoed [] s s1).
  { split_and!; try done; [unfold inputs, s1; cbn [log]; by rewrite got_app|].
    unfold outputs, s1. cbn [log]. by rewrite written_app. }
  apply wp_bind, (wp_for _ (λ l s', exists vs, (length l + length vs = Z.to_nat n)%nat /\ echoed vs s s')).
  - exists []. rewrite length_seqZ. cbn. split; [lia|done].
  - intros i l s2 (vs & Hl & (I & O & M & S)). cbn [length] in Hl. apply wp_bind, wp_read. set (v := u32 _).
    assert (Hb : is_byte (Z.land v 0xFF)) by (unfold is_byte; rewrite land_255; dlia).
    apply wp_bind. eapply wp_mono; [by apply (tx_one_char_ok bound)|]. cbn beta.
    intros ? s3 ((_ & W & M3 & S3) & G). cbn [log mem st] in *. apply wp_ret. exists (vs ++ [v]). rewrite length_app.
    cbn [length]. split; [lia|]. split_and!; try congruence.
    + unfold inputs in *. rewrite G, got_app, I. change (got (UART_FIFO UART0) [Rd (UART_FIFO UART0) v]) with [v]. by rewrite app_assoc.
    + unfold outputs, rx_bytes in *. rewrite W, written_app, O, fmap_app. cbn. by rewrite !app_nil_r, app_assoc.
  - intros s2 (vs & Hl & (I & O & M & S)). apply wp_bind, wp_write. cbn [log mem st].
    set (s3 := mk_sys _ _ _). assert (E3 : echoed vs s s3).
    { split_and!; try done; [unfold inputs, s3 in *; cbn [log]; by rewrite got_app, I, app_nil_r|].
      unfold outputs, s3 in *. cbn [log]. rewrite written_app, O. cbn. by rewrite app_nil_r. }
    apply set_mask_ok. intros w. exists vs. split; [unfold zlen; cbn in Hl; lia|]. destruct E3 as (I3 & O3 & M3 & S3).
    split; [split_and!; try done|].
    + unfold inputs in *. cbn [log]. by rewrite got_app, I3, app_nil_r.
    + unfold outputs in *. cbn [log]. rewrite written_app, O3. cbn. by rewrite app_nil_r.
    + by eapply rx_armed_set.
Qed.

Lemma masked_clear l v s' k k2 : log s' = ((l ++ [Rd (UART_INT_ENA UART0) v; Wr (UART_INT_ENA UART0)
    (u32 (Z.land v (Z.lnot (Z.lor UART_RXFIFO_FULL_INT UART_RXFIFO_TOUT_INT))))]) ++ k) ++ k2 ->
  written (UART_INT_ENA UART0) k = [] -> written (UART_INT_ENA UART0) k2 = [] -> rx_masked s'.
Proof.
  intros E Ek Ek2. unfold rx_masked. rewrite E. eexists _, _. rewrite !written_app, Ek, Ek2, !app_nil_r. cbn [written flat_map app].
  rewrite Z.eqb_refl. split; [reflexivity|].
  change (u32 (Z.land v (Z.lnot (Z.lor UART_RXFIFO_FULL_INT UART_RXFIFO_TOUT_INT)))) with (Z.land v (Z.lnot 257) mod 2 ^ 32).
  rewrite !Z.mod_pow2_bits_low, !Z.land_spec by lia. by rewrite !andb_false_r.
Qed.

(** On a receive interrupt (FIFO full, or the time-out if it is not full)
    without a frame error the handler disables the receive interrupts and
    posts the receive task exactly once; the task then sends every byte the
    FIFO announces back, each once and in order, and enables the receive
    interrupts again. *)
Theorem uart_echo bound `{!TxDrains UART0 126 bound} fuel s :
  (bound < fuel)%nat ->
  let st1 := u32 (hw_read (log s) (UART_INT_ST UART0)) in
  let l1 := log s ++ [Rd (UART_INT_ST UART0) st1] in
  let st2 := u32 (hw_read l1 (UART_INT_ST UART0)) in
  let l2 := l1 ++ [Rd (UART_INT_ST UART0) st2] in
  let st3 := u32 (hw_read l2 (UART_INT_ST UART0)) in
  has st1 UART_FRM_ERR_INT = false ->
  has st2 UART_RXFIFO_FULL_INT || has st3 UART_RXFIFO_TOUT_INT = true ->
  wp uart0_rx_intr_handler s (λ _ s1, inputs [] s s1 /\ outputs [] s s1 /\ rx_masked s1 /\
    List.filter (λ e, match e with Do _ => true | _ => false end) (log s1) =
      List.filter (λ e, match e with Do _ => true | _ => false end) (log s) ++ [Do (system_os_post uart_recvTaskPrio 0 0)]) /\
  wp (uart_recvTask fuel 0) s (λ _ s', exists vs,
    zlen vs = rxfifo_cnt (u32 (hw_read (log s) (UART_STATUS UART0))) /\ inputs vs s s' /\ outputs (rx_bytes vs) s s' /\
    rx_armed s').
Proof.
  intros Hf st1 l1 st2 l2 st3 H1 H2. split.
  - unfold uart0_rx_intr_handler, pending_intr. apply wp_bind, wp_bind, wp_read, wp_ret. fold st1. rewrite H1.
    apply wp_bind, wp_bind, wp_read, wp_ret. cbn [log mem st]. fold l1. fold st2. destruct (has st2 UART_RXFIFO_FULL_INT).
    + apply wp_bind, clear_mask_ok. intros v. apply wp_bind, wp_write, wp_call. cbn [log mem st]. split_and!.
      * unfold inputs, l1. cbn [log]. by rewrite <- !app_assoc, got_app.
      * unfold outputs, l1. cbn [log]. by rewrite <- !app_assoc, written_app.
      * eapply masked_clear; reflexivity.
      * unfold l1. cbn [log]. by rewrite <- !app_assoc, List.filter_app.
    + cbn [orb] in H2. apply wp_bind, wp_bind, wp_read, wp_ret. cbn [log mem st]. fold l2. fold st3. rewrite H2.
      apply wp_bind, clear_mask_ok. intros v. apply wp_bind, wp_write, wp_call. cbn [log mem st]. split_and!.
      * unfold inputs, l2, l1. cbn [log]. by rewrite <- !app_assoc, got_app.
      * unfold outputs, l2, l1. cbn [log]. by rewrite <- !app_assoc, written_app.
      * eapply masked_clear; reflexivity.
      * unfold l2, l1. cbn [log]. by rewrite <- !app_assoc, List.filter_app.
  - eapply wp_mono; [by apply (recvTask_ok bound)|]. cbn beta. intros ? s' (vs & E & (I & O & _) & A). by exists vs.
Qed.
End Echo.

(** ** The theorem at a concrete input *)

(** FIFO full, three bytes waiting, transmitter idle. *)
Definition three_bytes : Env := mk_env (λ _ a, if a =? UART_STATUS UART0 then 3 else if a =? UART_INT_ST UART0 then 1 else 0x41) (λ _ _, 0).
#[export] Instance three_bytes_drains : @TxDrains three_bytes UART0 126 0.
Proof. refine (@Build_TxDrains three_bytes _ _ _ (λ _, 0%nat) _ _); [done|]. intros l v Hv. exfalso. vm_compute in Hv. by apply Hv. Defined.

Lemma uart_echo_witness :
  wp (@uart_recvTask three_bytes uart_h _ _ 1 0) (mk_sys [] ∅ (mk_buffers None None))
    (λ _ s', exists vs, zlen vs = 3 /\ written (UART_FIFO UART0) (log s') = rx_bytes vs).
Proof.
  eapply wp_mono.
  - refine (proj2 (@uart_echo three_bytes _ _ 0 _ 1 (mk_sys [] ∅ (mk_buffers None None)) _ _ _)); [lia|reflexivity|reflexivity].
  - cbn beta. intros ? s' (vs & E & _ & O & _). exists vs. split; [exact E|exact O].
Defined.
