(* ===== verification/SmartConfig.v ===== *)
(** * SmartConfig: app/user/user_smartconfig.c

    The smartconfig session: its flag, its timer and the SDK's status callback. *)

From Stdlib Require Import String Ascii.
From stdpp Require Import gmap.
From S2P Require Import Prelude CMem Board.
Local Open Scope string_scope.
Local Open Scope Z_scope.
Local Open Scope sm_scope.
Local Open Scope list_scope.

(** The static variables. *)
Record sc_vars := mk_sc { smartconfig_status : bool; sc_timeout : Z }.
#[export] Instance eta_sc : Settable sc_vars := λ v, mk_sc (smartconfig_status v) (sc_timeout v).
(** Their initial values. *)
Definition sc_initial : sc_vars := mk_sc false 60000.

(** include/smartconfig.h and include/user_interface.h *)
Definition SC_TYPE_ESPTOUCH : Z := 0.
Definition STATION_MODE : Z := 0x01.
Definition SOFTAP_MODE : Z := 0x02.
Definition STATION_IF : Z := 0x00.

(** [sc_status] with what [pdata] points to: the type, the station
    configuration (passed on unread), the address of the phone if there is one. *)
Inductive sc_status :=
  | SC_STATUS_WAIT | SC_STATUS_FIND_CHANNEL | SC_STATUS_GETTING_SSID_PSWD (type : Z)
  | SC_STATUS_LINK | SC_STATUS_LINK_OVER (phone_ip : option (list Z)).

(** A message that ends in a line feed. *)
Definition line (s : string) : string := String.append s (String (ascii_of_nat 10) "").

Section SmartConfig.
Context `{Env} {X : Type} `{PS : Part X sc_vars}.

(** Of the arguments of [os_printf] only the format string is recorded. *)
Definition user_smartconfig_done (status : sc_status) : F X unit :=
  match status with
  | SC_STATUS_WAIT => call (os_printf (line "SC_STATUS_WAIT"))
  | SC_STATUS_FIND_CHANNEL => call (os_printf (line "SC_STATUS_FIND_CHANNEL"))
  | SC_STATUS_GETTING_SSID_PSWD type =>
      call (os_printf (line "SC_STATUS_GETTING_SSID_PSWD")) ;;
      if type =? SC_TYPE_ESPTOUCH then call (os_printf (line "SC_TYPE:SC_TYPE_ESPTOUCH"))
      else call (os_printf (line "SC_TYPE:SC_TYPE_AIRKISS"))
  | SC_STATUS_LINK =>
      call (os_printf (line "SC_STATUS_LINK")) ;;
      call wifi_station_set_config ;; call wifi_station_disconnect ;; call wifi_station_connect
  | SC_STATUS_LINK_OVER phone_ip =>
      call (os_printf (line "SC_STATUS_LINK_OVER")) ;;
      match phone_ip with
      | Some ip => slift (bslice ip 0 4) ;; call (os_printf (line "Phone ip: %d.%d.%d.%d"))
      | None => sret tt
      end ;;
      call (os_timer_disarm t_sc) ;; call smartconfig_stop ;;
      pmodify (λ v, v <| smartconfig_status := false |>)
  end.

Definition user_smartconfig_timeout_cb : F X unit :=
  call (os_timer_disarm t_sc) ;; call smartconfig_stop ;;
  pmodify (λ v, v <| smartconfig_status := false |>).

Definition user_smartconfig_start : F X unit :=
  pmodify (λ v, v <| smartconfig_status := true |>) ;;
  call (os_timer_disarm t_sc) ;; call smartconfig_stop ;;
  call (wifi_set_opmode STATION_MODE) ;;
  call (smartconfig_set_type SC_TYPE_ESPTOUCH) ;;
  call (os_timer_setfn t_sc fp_user_smartconfig_timeout_cb) ;;
  t <- pvar sc_timeout ;;
  call (os_timer_arm t_sc t 0) ;;
  call (smartconfig_start fp_user_smartconfig_done).

Definition user_smartconfig_set_timeout (timeout : Z) : F X unit :=
  pmodify (λ v, v <| sc_timeout := timeout |>).
Definition user_smartconfig_status : F X bool := pvar smartconfig_status.
End SmartConfig.
