(* ===== verification/TcpClient.v ===== *)
(** * TcpClient: app/user/user_tcp_client.c

    The TCP connection to the cloud server: DNS discovery, reconnection, and
    the ring of bytes waiting to be sent. *)

From Stdlib Require Import String.
From stdpp Require Import gmap.
From S2P Require Import Prelude CMem UserRing Board SmartConfig.
Local Open Scope string_scope.
Local Open Scope Z_scope.
Local Open Scope sm_scope.
Local Open Scope list_scope.

Definition TCP_SEND_BUFFER_SIZE : Z := 1024.
(** include/user_net.h *)
Definition XLINK_DOMAIN : string := "cm2.xlink.cn".
Definition TCP_LOCAL_PORT : Z := 5001.
Definition TCP_REMOTE_PORT : Z := 23778.
(** include/user_interface.h *)
Definition STATION_GOT_IP : Z := 5.

(** [XLINK_APP_STATUS] *)
Inductive XLINK_APP_STATUS :=
  | XLINK_WIFI_STA_PRO_TESTCOMPLETE | XLINK_WIFI_STA_CONNECT_SERVER | XLINK_WIFI_STA_DISCONNCT_SERVER
  | XLINK_WIFI_STA_APP_CONNECT | XLINK_WIFI_STA_APP_DISCONNECT | XLINK_WIFI_STA_APP_TIMEOUT
  | XLINK_WIFI_STA_LOGIN_SUCCESS.

(** [XLINK_USER_CONFIG]: the members this program writes, and which of the
    functions the Xlink library provides are installed. *)
Record XLINK_USER_CONFIG := mk_config {
  maclen : Z; in_internet : Z; wifisoftVersion : Z; wifi_type : Z; pipetype : Z; devicetype : Z;
  send_tcp : option fn; send_udp : option fn; tcp_pipe : option fn; tcp_pipe2 : option fn; udp_pipe : option fn;
  status : option fn; writeConfig : option fn; readConfig : option fn; DebugPrintf : option fn; server_time : option fn;
  has_setServerStatus : bool; has_process_tcp_data : bool; has_process_udp_data : bool }.
#[export] Instance eta_config : Settable XLINK_USER_CONFIG := λ c, mk_config
  (maclen c) (in_internet c) (wifisoftVersion c) (wifi_type c) (pipetype c) (devicetype c)
  (send_tcp c) (send_udp c) (tcp_pipe c) (tcp_pipe2 c) (udp_pipe c)
  (status c) (writeConfig c) (readConfig c) (DebugPrintf c) (server_time c)
  (has_setServerStatus c) (has_process_tcp_data c) (has_process_udp_data c).

(** The [proto.tcp] block of [user_tcp_client]. *)
Record esp_tcp := mk_esp_tcp { local_port : Z; remote_port : Z; tcp_remote_ip : list Z }.
#[export] Instance eta_esp_tcp : Settable esp_tcp := λ t, mk_esp_tcp (local_port t) (remote_port t) (tcp_remote_ip t).

(** The static variables; [tcp_send_buffer] is a block of the memory. *)
Record tcp_vars := mk_tcp {
  proto_tcp : option esp_tcp; tcp_rb_send : ringbuf_t; reconn_cnt : Z; isConnectServer : bool;
  flag_dns_discovery : bool; isDnsFound : bool; remote_ip : Z; user_tcp_recv_pipe_cb : option fn }.
#[export] Instance eta_tcp : Settable tcp_vars := λ v, mk_tcp
  (proto_tcp v) (tcp_rb_send v) (reconn_cnt v) (isConnectServer v)
  (flag_dns_discovery v) (isDnsFound v) (remote_ip v) (user_tcp_recv_pipe_cb v).
(** All zero; the pointer of the ring is null then, for which any pointer stands. *)
Definition tcp_initial (null : ptr) : tcp_vars := mk_tcp None (mk_ringbuf null 0 0 0 false) 0 false false false 0 None.

Section TcpClient.
Context `{Env} {X : Type} `{PT : Part X tcp_vars} `{PS : Part X sc_vars} `{PC : Part X XLINK_USER_CONFIG}.
(** The address of [tcp_send_buffer]. *)
Context (tcp_send_buffer : ptr).
(** The installed pipe callback, called with a buffer and its length. *)
Context (run_pipe : fn -> ptr -> Z -> F X unit).

(** [espconn_connect( &user_tcp_client )] *)
Definition tcp_connect : F X unit :=
  t <- pvar proto_tcp ;; t <- slift t ;; call (espconn_connect user_tcp_client (tcp_remote_ip t)).

Definition user_tcp_reconnect : F X unit :=
  b <- user_smartconfig_status ;;
  if (b : bool) then pmodify (λ v, v <| reconn_cnt := 0 |>)
  else
    pmodify (λ v, v <| reconn_cnt := u8 (reconn_cnt v + 1) |>) ;;
    call (espconn_disconnect user_tcp_client) ;;
    n <- pvar reconn_cnt ;;
    if 5 <? n then
      pmodify (λ v, v <| reconn_cnt := 0 |> <| isDnsFound := false |> <| isConnectServer := false |>
                      <| flag_dns_discovery := false |>)
    else tcp_connect.

Definition user_tcp_status (status : XLINK_APP_STATUS) : F X unit :=
  match status with
  | XLINK_WIFI_STA_CONNECT_SERVER => call (os_printf "connect server...")
  | XLINK_WIFI_STA_DISCONNCT_SERVER =>
      pmodify (λ v, v <| isConnectServer := false |>) ;;
      user_tcp_reconnect ;;
      call (os_printf "disconnect server...")
  | XLINK_WIFI_STA_LOGIN_SUCCESS =>
      pmodify (λ v, v <| isConnectServer := true |>) ;;
      call (os_printf "login server...")
  | _ => sret tt
  end.

(** [ip] is null or points to an address. *)
Definition user_tcp_dns_found (ip : option Z) : F X unit :=
  pmodify (λ v, v <| reconn_cnt := 0 |> <| isConnectServer := false |> <| flag_dns_discovery := false |>) ;;
  match ip with
  | None => sret tt
  | Some addr =>
      if addr =? 0 then sret tt
      else
        call (os_printf "dns found...") ;;
        pmodify (λ v, v <| remote_ip := addr |>) ;;
        call (os_timer_disarm t_dns) ;;
        pmodify (λ v, v <| isDnsFound := true |>) ;;
        t <- pvar proto_tcp ;; t <- slift t ;;
        pmodify (λ v, v <| proto_tcp := Some (t <| tcp_remote_ip := le_bytes addr |>) |>) ;;
        tcp_connect
  end.

Definition user_tcp_dns_check_cb : F X unit :=
  call (espconn_gethostbyname XLINK_DOMAIN fp_user_tcp_dns_found).

Definition user_tcp_start_dns : F X unit :=
  pmodify (λ v, v <| remote_ip := 0 |>) ;;
  call (os_timer_disarm t_dns) ;;
  call (os_timer_setfn t_dns fp_user_tcp_dns_check_cb) ;;
  call (os_timer_arm t_dns 1000 1) ;;
  call (os_printf "start dns...").

(** [user_rb_get( &tcp_rb_send, des, len )] on the memory and the static ring. *)
Definition rb_get (des : ptr) (len : Z) : F X Z :=
  h <- get_mem ;; rb <- pvar tcp_rb_send ;;
  r <- slift (user_rb_get h rb des len) ;;
  let '(h, rb, n) := r in
  set_mem h ;; pmodify (λ v, v <| tcp_rb_send := rb |>) ;; sret n.

Definition rb_put (src : ptr) (len : Z) : F X Z :=
  h <- get_mem ;; rb <- pvar tcp_rb_send ;;
  r <- slift (user_rb_put h rb src len) ;;
  let '(h, rb, n) := r in
  set_mem h ;; pmodify (λ v, v <| tcp_rb_send := rb |>) ;; sret n.

Definition user_tcp_send_loop : F X unit :=
  c <- pvar isConnectServer ;;
  if (c : bool) then
    rb <- pvar tcp_rb_send ;;
    let len := user_rb_unread_size rb in
    if len =? 0 then sret tt
    else
      v <- GPIO_INPUT_GET 12 ;;
      (if negb (v =? 0) then GPIO_OUTPUT_SET 12 0 else GPIO_OUTPUT_SET 12 1) ;;
      rb_get tcp_send_buffer len ;;
      h <- get_mem ;;
      d <- slift (mem_load h tcp_send_buffer len) ;;
      call (XlinkSendTcpPipe2 d)
  else sret tt.

Definition user_tcp_func_process : F X unit :=
  t <- ask system_get_time ;;
  let ctime := t / 1000000 in
  mode <- ask wifi_get_opmode ;;
  if u8 mode =? STATION_MODE then
    status <- ask wifi_station_get_connect_status ;;
    ip <- ask (wifi_get_ip_info STATION_IF) ;;
    if (u8 status =? STATION_GOT_IP) && negb (ip =? 0) then
      f <- pvar flag_dns_discovery ;; d <- pvar isDnsFound ;;
      swhen (negb f && negb d) (
        pmodify (λ v, v <| flag_dns_discovery := true |> <| reconn_cnt := 0 |>) ;;
        user_tcp_start_dns) ;;
      call (XlinkSystemLoop ctime 0) ;;
      user_tcp_send_loop
    else sret tt
  else
    pmodify (λ v, v <| reconn_cnt := 0 |> <| isConnectServer := false |> <| flag_dns_discovery := false |>
                    <| isDnsFound := false |>).

Definition user_tcp_set_recv_pipe_fn (callback : option fn) : F X unit :=
  pmodify (λ v, v <| user_tcp_recv_pipe_cb := callback |>).

(** The length is passed on as a [uint16_t]. *)
Definition user_tcp_pipe1_cb (buffer : ptr) (len : Z) : F X unit :=
  cb <- pvar user_tcp_recv_pipe_cb ;;
  match cb with Some f => run_pipe f buffer (u16 len) | None => sret tt end.
Definition user_tcp_pipe2_cb : F X unit := sret tt.

(** [if( user_config.setServerStatus != NULL ) user_config.setServerStatus( a, b )] *)
Definition set_server_status (a b : Z) : F X unit :=
  c <- pvar has_setServerStatus ;; swhen c (call (setServerStatus a b)).

Definition user_tcp_connect_cb : F X unit :=
  call (os_printf "tcp connected...") ;;
  set_server_status 1 0 ;;
  pmodify (λ v, v <| reconn_cnt := 0 |>).

Definition user_tcp_disconnect_cb : F X unit :=
  call (os_printf "tcp disconnected...") ;;
  set_server_status 0 0 ;;
  call (xsdk_closeTCP 1) ;;
  user_tcp_reconnect.

Definition user_tcp_reconnect_cb : F X unit :=
  call (os_printf "tcp disconnected with error: %d") ;;
  user_tcp_reconnect.

(** [buf] is null or the [len] bytes received; a call through a null pointer is undefined. *)
Definition user_tcp_recv_cb (buf : option (list Z)) (len : Z) : F X unit :=
  match buf with
  | None => sret tt
  | Some d =>
      if len =? 0 then sret tt
      else
        c <- pvar has_process_tcp_data ;;
        if (c : bool) then call (process_tcp_data d len) else slift None
  end.
Definition user_tcp_sent_cb : F X unit := sret tt.

Definition user_tcp_send (data : list Z) (datalen : Z) : F X Z :=
  t <- pvar proto_tcp ;; t <- slift t ;;
  d <- slift (bslice data 0 datalen) ;;
  call (espconn_send user_tcp_client (tcp_remote_ip t) (remote_port t) d) ;;
  sret (i32 datalen).

Definition user_tcp_send_pipe (pbuf : ptr) (len : Z) : F X unit :=
  c <- pvar isConnectServer ;;
  swhen c (rb_put pbuf len ;; sret tt).

Definition user_tcp_disconnect : F X unit :=
  call (espconn_disconnect user_tcp_client) ;; call (xsdk_closeTCP 1).

Definition user_tcp_client_init : F X unit :=
  t <- pvar proto_tcp ;;
  let t := match t with Some t => t | None => mk_esp_tcp 0 0 [0; 0; 0; 0] end in
  pmodify (λ v, v <| proto_tcp := Some (t <| local_port := TCP_LOCAL_PORT |> <| remote_port := TCP_REMOTE_PORT |>) |>) ;;
  call (espconn_regist user_tcp_client fp_user_tcp_connect_cb) ;;
  call (espconn_regist user_tcp_client fp_user_tcp_disconnect_cb) ;;
  call (espconn_regist user_tcp_client fp_user_tcp_reconnect_cb) ;;
  call (espconn_regist user_tcp_client fp_user_tcp_recv_cb) ;;
  call (espconn_regist user_tcp_client fp_user_tcp_sent_cb) ;;
  h <- get_mem ;; rb <- pvar tcp_rb_send ;;
  r <- slift (user_rb_init h (Some rb) (Some tcp_send_buffer) TCP_SEND_BUFFER_SIZE) ;;
  let '(h, rb) := r in
  set_mem h ;; rb <- slift rb ;; pmodify (λ v, v <| tcp_rb_send := rb |>).
End TcpClient.

(** ** The send loop *)

Lemma overlap_self p k n : overlap p (padd p k) n = (Z.abs k <? n).
Proof.
  unfold overlap, padd. cbn [p_blk p_off]. rewrite Pos.eqb_refl. cbn.
  by replace (Z.abs (p_off p - (p_off p + k))) with (Z.abs k) by lia.
Qed.
Lemma overlap_sym p q n : overlap p q n = overlap q p n.
Proof. unfold overlap. rewrite Pos.eqb_sym. by replace (Z.abs (p_off p - p_off q)) with (Z.abs (p_off q - p_off p)) by lia. Qed.

(** The bytes up to the end of the storage, which [user_rb_get] copies first. *)
Definition first_part (rb : ringbuf_t) (b : list Z) : list Z := tab (size rb - tail rb) (λ i, nthZ b (tail rb + i)).

(** [user_rb_get] of everything into the ring's own storage: what ends up at the start of it. *)
Definition self_get (rb : ringbuf_t) (b : list Z) : option (list Z) :=
  let u := user_rb_unread_size rb in
  let r := size rb - tail rb in
  if tail rb <=? head rb then
    if tail rb <? u then None else Some (rb_contents rb b)
  else if (tail rb <? r) || (r <? head rb) then None
  else Some (first_part rb b ++ take (Z.to_nat (head rb)) (first_part rb b)).

Lemma memcpy_overlap h p q n : overlap p q n = true -> memcpy h p q n = None.
Proof. unfold memcpy. by intros ->. Qed.

Lemma user_rb_get_self h rb b :
  rb_wf h rb b -> 0 < user_rb_unread_size rb ->
  match self_get rb b with
  | None => user_rb_get h rb (pbuf rb) (user_rb_unread_size rb) = None
  | Some sent => exists b', let h' := <[p_blk (pbuf rb) := b']> h in
      user_rb_get h rb (pbuf rb) (user_rb_unread_size rb) =
        Some (h', mk_ringbuf (pbuf rb) (head rb) (head rb) (size rb) (lock rb), user_rb_unread_size rb) /\
      zlen b' = zlen b /\ zlen sent = user_rb_unread_size rb /\
      mem_load h' (pbuf rb) (user_rb_unread_size rb) = Some sent
  end.
Proof.
  intros W Hu. pose proof (unread_eq _ _ _ W) as Eu. pose proof (unread_range _ _ _ W) as Hr.
  unfold self_get, user_rb_get. set (u := user_rb_unread_size rb) in *. destruct W as [Wb Wo Wsz Wst Wh Wt].
  assert (Hpd : p_off (padd (pbuf rb) (tail rb)) = tail rb) by (unfold padd; simpl; lia).
  destruct (Z.leb_spec (tail rb) (head rb)) as [Hle|Hgt].
  - rewrite clamp_min, (u32_small (head rb - tail rb)) by lia. rewrite <- Eu, Z.min_id.
    destruct (Z.ltb_spec (tail rb) u) as [Hov|Hno].
    + rewrite memcpy_overlap; [done|]. rewrite overlap_self. ztrue (Z.abs (tail rb) <? u). done.
    + destruct (memcpy_Some h (pbuf rb) (padd (pbuf rb) (tail rb)) u b b) as (b' & E & Hl & Hn);
        [rewrite overlap_self; zfalse (Z.abs (tail rb) <? u); done|done|done|lia..|].
      rewrite E. cbn [mbind option_bind]. exists b'.
      assert (Ez : zlen (rb_contents rb b) = u) by (unfold rb_contents; apply zlen_ring_view; fold u; lia).
      split; [|split; [done|split; [done|]]].
      * rewrite (u32_small (tail rb + u)) by lia. replace (tail rb + u) with (head rb) by lia. zfalse (size rb <=? head rb). done.
      * rewrite (mem_load_Some _ _ _ b') by (rewrite ?lookup_insert_eq; done || lia). f_equal.
        unfold rb_contents. fold u. apply tab_ext. intros i Hi. rewrite Wo, Hn by lia. rewrite Hpd, Wo.
        ztrue (0 <=? 0 + i). ztrue (0 + i <? 0 + u). cbn. f_equal. unfold ring_ix. ztrue (tail rb + i <? size rb). lia.
  - set (r := size rb - tail rb). rewrite clamp_min, (u32_small (size rb + head rb - tail rb)), (u32_small r) by lia.
    rewrite <- Eu, Z.min_id.
    destruct (Z.ltb_spec (tail rb) r) as [Hov|Hno].
    { cbn [orb]. destruct (u <=? r) eqn:Eur; (rewrite memcpy_overlap; [done|]); rewrite overlap_self.
      - apply Z.leb_le in Eur. ztrue (Z.abs (tail rb) <? u). done.
      - ztrue (Z.abs (tail rb) <? r). done. }
    cbn [orb].
    destruct (memcpy_Some h (pbuf rb) (padd (pbuf rb) (tail rb)) r b b) as (b1 & E1 & Hl1 & Hn1);
      [rewrite overlap_self; zfalse (Z.abs (tail rb) <? r); done|done|done|lia..|].
    assert (Hfst : forall i, 0 <= i < r -> nthZ b1 i = nthZ (first_part rb b) i).
    { intros i Hi. rewrite Hn1 by lia. rewrite Wo, Hpd. ztrue (0 <=? i). ztrue (i <? 0 + r). cbn.
      unfold first_part. rewrite nthZ_tab by lia. f_equal. lia. }
    assert (Ezf : zlen (first_part rb b) = r) by (unfold first_part; rewrite zlen_tab; lia).
    destruct (Z.leb_spec u r) as [Hur|Hur].
    + assert (head rb = 0 /\ u = r) as [H0 ->] by lia. zfalse (r <? head rb). rewrite E1. cbn [mbind option_bind].
      exists b1. rewrite H0. cbn [take Z.to_nat]. rewrite app_nil_r. split; [|split; [done|split; [done|]]].
      * rewrite (u32_small (tail rb + r)) by lia. ztrue (size rb <=? tail rb + r). rewrite u32_small by lia.
        do 4 f_equal. lia.
      * rewrite (mem_load_Some _ _ _ b1) by (rewrite ?lookup_insert_eq; done || lia). f_equal.
        rewrite <- Ezf at 1. rewrite <- (tab_nthZ (first_part rb b)) at 2. apply tab_ext. intros i Hi.
        rewrite Wo. apply Hfst. lia.
    + rewrite E1. cbn [mbind option_bind]. rewrite (u32_small (u - r)) by lia. replace (u - r) with (head rb) by lia.
      destruct (Z.ltb_spec r (head rb)) as [Hov2|Hno2].
      { rewrite memcpy_overlap; [done|]. rewrite overlap_sym, overlap_self. ztrue (Z.abs r <? head rb). done. }
      destruct (memcpy_Some (<[p_blk (pbuf rb) := b1]> h) (padd (pbuf rb) r) (pbuf rb) (head rb) b1 b1) as (b2 & E2 & Hl2 & Hn2);
        [rewrite overlap_sym, overlap_self; zfalse (Z.abs r <? head rb); done|apply lookup_insert_eq|apply lookup_insert_eq|
         unfold padd; cbn [p_off]; lia..|].
      rewrite E2. cbn [mbind option_bind]. unfold padd at 1. cbn [p_blk]. rewrite insert_insert_eq. exists b2.
      assert (Ezt : zlen (take (Z.to_nat (head rb)) (first_part rb b)) = head rb) by zlia.
      split; [|split; [lia|split; [rewrite zlen_app; lia|]]].
      * rewrite (u32_small (tail rb + u)) by lia. ztrue (size rb <=? tail rb + u). rewrite u32_small by lia.
        do 4 f_equal. lia.
      * rewrite (mem_load_Some _ _ _ b2) by (rewrite ?lookup_insert_eq; done || lia). f_equal.
        apply list_ext_nthZ; [rewrite zlen_tab, zlen_app; lia|]. rewrite zlen_tab. intros i Hi.
        rewrite nthZ_tab, Wo, Hn2, nthZ_app, Ezf by lia. unfold padd. cbn [p_off]. rewrite Wo.
        destruct (Z.ltb_spec i r).
        -- zfalse (0 + r <=? 0 + i). cbn. apply Hfst. lia.
        -- ztrue (0 + r <=? 0 + i). ztrue (0 + i <? 0 + r + head rb). cbn. rewrite nthZ_take by lia.
           replace (0 + (0 + i - (0 + r))) with (i - r) by lia. apply Hfst. lia.
Qed.

Section SendLoop.
Context `{Env} {X : Type} `{PT : Part X tcp_vars}.
Context (tcp_send_buffer : ptr).
Implicit Types s : sys X.

(** The LED on pin 12 is toggled. *)
Definition led_events (v : Z) : list event :=
  let on := if Z.land (Z.shiftr (u32 v) 12) (BIT 0) =? 0 then 1 else 0 in
  [Got gpio_input_get (u32 v);
   Do (gpio_output_set (Z.shiftl on 12) (Z.shiftl (Z.land (Z.lnot on) 0x01) 12) (Z.shiftl 1 12) 0)].

(** The send loop fetches all waiting bytes into the very array the ring
    keeps them in.  If they lie contiguously and entirely behind the place they
    are copied to, exactly these bytes are handed to [XlinkSendTcpPipe2] and the
    ring is empty; if source and destination overlap the call of [memcpy] is
    undefined; and if the bytes wrap around the end of the array, the copy of
    the first part destroys the second before it is read: what is sent is the
    first part followed by its own beginning. *)
Theorem user_tcp_send_loop_spec b s :
  let v := part (st s) in
  let rb := tcp_rb_send v in
  let u := user_rb_unread_size rb in
  rb_wf (mem s) rb b -> pbuf rb = tcp_send_buffer -> isConnectServer v = true ->
  (u = 0 -> user_tcp_send_loop tcp_send_buffer s = Some (tt, s)) /\
  (0 < u -> self_get rb b = None -> user_tcp_send_loop tcp_send_buffer s = None) /\
  (0 < u -> forall sent, self_get rb b = Some sent ->
    wp (user_tcp_send_loop tcp_send_buffer) s (λ _ s',
      log s' = log s ++ led_events (sdk_ret (log s) gpio_input_get) ++ [Do (XlinkSendTcpPipe2 sent)] /\
      user_rb_unread_size (tcp_rb_send (part (st s'))) = 0)) /\
  (tail rb <= head rb -> u <= tail rb -> self_get rb b = Some (rb_contents rb b)) /\
  (tail rb <= head rb -> tail rb < u -> self_get rb b = None).
Proof.
  intros v rb u W Ep Hc. pose proof (unread_range _ _ _ W) as Hr. fold u in Hr.
  split_and!.
  - intros Hu. unfold user_tcp_send_loop, pvar. unfold sbind at 1. cbn [sget mbind option_bind]. fold v. rewrite Hc.
    unfold sbind at 1. cbn [sget mbind option_bind]. fold v rb u. by rewrite Hu.
  - intros Hu Hs. pose proof (user_rb_get_self _ _ _ W Hu) as G. rewrite Hs in G. fold u in G. rewrite Ep in G.
    unfold user_tcp_send_loop, rb_get, pvar. unfold sbind at 1. cbn [sget mbind option_bind]. fold v. rewrite Hc.
    unfold sbind at 1. cbn [sget mbind option_bind]. fold v rb u. zfalse (u =? 0). run_board. fold v rb.
    destruct (negb _); cbn [mbind option_bind]; run_board; fold v rb; by rewrite G.
  - intros Hu sent Hs. pose proof (user_rb_get_self _ _ _ W Hu) as G. rewrite Hs in G. fold u in G. rewrite Ep in G.
    destruct G as (b' & E & Hl & Hz & Hm). unfold user_tcp_send_loop. apply wp_bind, wp_pvar. fold v. rewrite Hc.
    apply wp_bind, wp_pvar. fold v rb u. zfalse (u =? 0). apply wp_bind, wp_bind, wp_ask, wp_ret.
    apply wp_bind. set (w := u32 (sdk_ret (log s) gpio_input_get)).
    assert (Led : wp (if negb (Z.land (Z.shiftr w 12) (BIT 0) =? 0) then GPIO_OUTPUT_SET 12 0 else GPIO_OUTPUT_SET 12 1)
      (mk_sys (log s ++ [Got gpio_input_get w]) (mem s) (st s)) (λ _ s1, s1 = mk_sys (log s ++ led_events (sdk_ret (log s) gpio_input_get)) (mem s) (st s))).
    { unfold led_events. fold w. destruct (Z.land (Z.shiftr w 12) (BIT 0) =? 0); cbn [negb]; apply wp_call; cbn [log mem st]; by rewrite <- app_assoc. }
    eapply wp_mono; [exact Led|]. cbn beta. intros ? s1 ->. unfold rb_get. apply wp_bind, wp_bind. eexists _, _. split; [reflexivity|].
    apply wp_bind, wp_pvar. cbn [log mem st]. fold v rb. apply wp_bind, (wp_lift _ _ _ _ E), wp_bind.
    eexists _, _. split; [reflexivity|]. cbn [log mem st]. apply wp_bind, wp_pmodify, wp_ret, wp_bind. cbn [log mem st].
    eexists _, _. split; [reflexivity|]. cbn [mem]. apply wp_bind, (wp_lift _ _ _ _ Hm), wp_call. cbn [log mem st].
    split; [by rewrite <- app_assoc|]. rewrite part_set. unfold set_field. cbn [tcp_rb_send]. unfold user_rb_unread_size. cbn [head tail size].
    rewrite Z.leb_refl, Z.sub_diag. done.
  - intros Hle Hu. unfold self_get. fold u. ztrue (tail rb <=? head rb). by zfalse (tail rb <? u).
  - intros Hle Hu. unfold self_get. fold u. ztrue (tail rb <=? head rb). by ztrue (tail rb <? u).
Qed.
End SendLoop.

(** ** The connection *)

(** Whether the last request to the TCP connection was to connect. *)
Definition conn_step (b : bool) (e : event) : bool :=
  match e with
  | Do (espconn_connect user_tcp_client _) => true
  | Do (espconn_disconnect user_tcp_client) => false
  | _ => b
  end.
Definition connecting (l : list event) : bool := fold_left conn_step l false.
Lemma connecting_snoc l e : connecting (l ++ [e]) = conn_step (connecting l) e.
Proof. unfold connecting. by rewrite fold_left_app. Qed.

(** One step of a partial-correctness proof, and what a step does to the log's summaries. *)
Ltac lp_step :=
  lazymatch goal with
  | |- lp (sbind _ _) _ _ => apply lp_bind
  | |- lp (pvar _) _ _ => apply lp_pvar
  | |- lp (pmodify _) _ _ => apply lp_pmodify
  | |- lp (call _) _ _ => apply lp_call
  | |- lp (ask _) _ _ => apply lp_ask
  | |- lp (sret _) _ _ => apply lp_ret
  | |- lp (set_mem _) _ _ => apply lp_set_mem
  | |- lp (sget _) _ _ => apply lp_get
  | |- lp (slift _) _ _ => apply lp_lift; intros ? ?
  | |- lp (swhen _ _) _ _ => apply lp_when; intros ?
  end;
  cbn [log mem st] in *; rewrite ?part_set, ?part_apart in *; unfold set_field in *;
  cbn [proto_tcp tcp_rb_send reconn_cnt isConnectServer flag_dns_discovery isDnsFound remote_ip user_tcp_recv_pipe_cb] in *.
Ltac logs := rewrite ?armed_snoc, ?connecting_snoc in *; cbn [armed_step conn_step] in *;
  rewrite ?(bool_decide_eq_true_2 (t_dns = t_dns)) in * by done.

Section Connection.
Context `{Env} {X : Type} `{PT : Part X tcp_vars} `{PS : Part X sc_vars} `{PC : Part X XLINK_USER_CONFIG}.
Context `{AS : !Apart X tcp_vars sc_vars} `{AT : !Apart X sc_vars tcp_vars}.
Context (tcp_send_buffer : ptr).
Implicit Types s : sys X.

(** Something will happen: a name lookup is being retried by its timer, or a
    connection was requested from the SDK, or neither is believed, and then
    the periodic loop starts over. *)
Definition tcp_alive s : Prop :=
  let v := part (st s) in
  0 <= reconn_cnt v <= 5 /\
  (flag_dns_discovery v = true -> isDnsFound v = false /\ armed t_dns (log s) = true) /\
  (isDnsFound v = true -> connecting (log s) = true).

(** What happens to the client outside a smartconfig session. *)
Inductive tcp_input :=
  | XlinkLoop | DnsTimer | DnsFound (ip : option Z) | Connected | Disconnected | Failed
  | Status (status : XLINK_APP_STATUS) | Received (buf : option (list Z)) (len : Z) | SendPipe (p : ptr) (len : Z)
  | SendNow (data : list Z) (len : Z).

Definition tcp_handle (i : tcp_input) : F X unit :=
  match i with
  | XlinkLoop => user_tcp_func_process tcp_send_buffer
  | DnsTimer => user_tcp_dns_check_cb
  | DnsFound ip => user_tcp_dns_found ip
  | Connected => user_tcp_connect_cb
  | Disconnected => user_tcp_disconnect_cb
  | Failed => user_tcp_reconnect_cb
  | Status st => user_tcp_status st
  | Received buf len => user_tcp_recv_cb buf len
  | SendPipe p len => user_tcp_send_pipe p len
  | SendNow d len => user_tcp_send d len ;; sret tt
  end.

(** The variables the connection logic does not read. *)
Definition same_conn_vars (v v' : tcp_vars) : Prop :=
  reconn_cnt v' = reconn_cnt v /\ flag_dns_discovery v' = flag_dns_discovery v /\ isDnsFound v' = isDnsFound v.

Lemma send_loop_quiet s : lp (user_tcp_send_loop tcp_send_buffer) s (λ _ s',
  same_conn_vars (part (st s)) (part (st s')) /\ (part (st s') : sc_vars) = part (st s) /\
  armed t_dns (log s') = armed t_dns (log s) /\ connecting (log s') = connecting (log s)).
Proof.
  unfold user_tcp_send_loop, rb_get. repeat lp_step. destruct (isConnectServer _); [|by apply lp_ret].
  repeat lp_step. destruct (_ =? 0); [by apply lp_ret|]. unfold GPIO_INPUT_GET. repeat lp_step.
  destruct (negb _); unfold GPIO_OUTPUT_SET, get_mem; repeat lp_step; destruct a as [[h' rb'] n'];
    repeat lp_step; logs; done.
Qed.

Lemma reconnect_alive s :
  smartconfig_status (part (st s)) = false -> tcp_alive s ->
  lp user_tcp_reconnect s (λ _ s', tcp_alive s' /\ (part (st s') : sc_vars) = part (st s)).
Proof.
  intros Hsc (Hc & Hf & Hd). unfold user_tcp_reconnect, user_smartconfig_status. repeat lp_step. rewrite Hsc.
  repeat lp_step. rewrite u8_small by lia. destruct (Z.ltb_spec 5 (reconn_cnt (part (st s)) + 1)).
  - repeat lp_step. split; [|done]. unfold tcp_alive. cbn [log st]. rewrite part_set. cbn. split; [lia|done].
  - unfold tcp_connect. repeat lp_step. split; [|done]. unfold tcp_alive. cbn [log st]. rewrite part_set. logs.
    cbn. split; [lia|]. split; [exact Hf|done].
Qed.
(** The station is connected to an access point and has an address. *)
Definition online : Prop := forall l,
  u8 (u32 (sdk_ret l wifi_get_opmode)) = STATION_MODE /\
  u8 (u32 (sdk_ret l wifi_station_get_connect_status)) = STATION_GOT_IP /\
  u32 (sdk_ret l (wifi_get_ip_info STATION_IF)) <> 0.

Definition same_sc s s' : Prop := (part (st s') : sc_vars) = part (st s).

Lemma tcp_alive_same s s' :
  same_conn_vars (part (st s)) (part (st s')) -> armed t_dns (log s') = armed t_dns (log s) ->
  connecting (log s') = connecting (log s) -> tcp_alive s -> tcp_alive s'.
Proof. unfold tcp_alive. intros (-> & -> & ->) -> ->. done. Qed.

Lemma func_process_alive s :
  tcp_alive s -> lp (user_tcp_func_process tcp_send_buffer) s (λ _ s', tcp_alive s' /\ same_sc s s').
Proof.
  intros A. unfold user_tcp_func_process. repeat lp_step. destruct (_ =? STATION_MODE).
  - repeat lp_step. destruct (_ && _).
    + assert (Rest : forall s1, tcp_alive s1 -> same_sc s s1 ->
        lp (user_tcp_send_loop tcp_send_buffer) s1 (λ _ s', tcp_alive s' /\ same_sc s s')).
      { intros s1 A1 S1. eapply lp_mono; [apply send_loop_quiet|]. cbn beta. intros ? s2 (V & S2 & T & C).
        split; [|by unfold same_sc in *; rewrite S2]. by apply (tcp_alive_same s1). }
      repeat lp_step.
      * unfold user_tcp_start_dns. repeat lp_step. apply Rest; [|unfold same_sc; cbn [st]; by rewrite !part_apart].
        destruct A as (Hc & Hf & Hd). match goal with H : _ && _ = true |- _ => apply andb_true_iff in H as [_ Hnd]; apply negb_true_iff in Hnd end.
        unfold tcp_alive. cbn [log st]. rewrite !part_set. logs. cbn. rewrite Hnd. split; [lia|]. done.
      * apply Rest; [|done]. apply (tcp_alive_same s); try done; cbn [log]; by logs.
    + apply lp_ret. split; [|done]. apply (tcp_alive_same s); try done; cbn [log]; by logs.
  - repeat lp_step. split; [|unfold same_sc; cbn [st]; by rewrite part_apart]. unfold tcp_alive. cbn [log st]. rewrite part_set. cbn.
    split; [lia|done].
Qed.

Lemma handle_alive i s :
  smartconfig_status (part (st s)) = false -> tcp_alive s ->
  lp (tcp_handle i) s (λ _ s', tcp_alive s' /\ same_sc s s').
Proof.
  intros Hsc A.
  assert (Recon : forall s1, same_sc s s1 -> tcp_alive s1 -> lp user_tcp_reconnect s1 (λ _ s', tcp_alive s' /\ same_sc s s')).
  { intros s1 S1 A1. eapply lp_mono; [apply reconnect_alive; [by unfold same_sc in S1; rewrite S1|done]|]. cbn beta.
    intros ? s2 (A2 & S2). split; [done|]. unfold same_sc in *. by rewrite S2. }
  assert (Same : forall l x, (part x : sc_vars) = part (st s) -> same_conn_vars (part (st s)) (part x) ->
    armed t_dns l = armed t_dns (log s) -> connecting l = connecting (log s) ->
    forall h, tcp_alive (mk_sys l h x) /\ same_sc s (mk_sys l h x)).
  { intros l x S V T C h. split; [|done]. by apply (tcp_alive_same s). }
  destruct i as [| |ip| | | |st0|buf len|p len|d len]; cbn [tcp_handle].
  - by apply func_process_alive.
  - unfold user_tcp_dns_check_cb. repeat lp_step. apply Same; try done; by logs.
  - unfold user_tcp_dns_found. repeat lp_step. destruct A as (Hc & Hf & Hd).
    destruct ip as [addr|]; [destruct (addr =? 0)|]; unfold tcp_connect; repeat lp_step;
      (split; [|unfold same_sc; cbn [st]; by rewrite !part_apart]); unfold tcp_alive; cbn [log st]; rewrite !part_set; logs;
      cbn; (split; [lia|done]).
  - unfold user_tcp_connect_cb, set_server_status. repeat lp_step; (split; [|unfold same_sc; cbn [st]; by rewrite ?part_apart]);
      destruct A as (Hc & Hf & Hd); unfold tcp_alive; cbn [log st]; rewrite part_set; logs; cbn; (split; [lia|done]).
  - unfold user_tcp_disconnect_cb, set_server_status. repeat lp_step; apply Recon; try done; apply (tcp_alive_same s); try done; cbn [log]; by logs.
  - unfold user_tcp_reconnect_cb. repeat lp_step. apply Recon; try done. apply (tcp_alive_same s); try done; cbn [log]; by logs.
  - destruct st0; cbn [user_tcp_status]; repeat lp_step; try (by split).
    + apply Same; try done; by logs.
    + eapply lp_mono; [apply Recon|].
      * unfold same_sc. cbn [st]. by rewrite part_apart.
      * apply (tcp_alive_same s); try done. unfold same_conn_vars. cbn [st]. by rewrite part_set.
      * cbn beta. intros ? s1 (A1 & S1). repeat lp_step. split; [|done]. apply (tcp_alive_same s1); try done; cbn [log]; by logs.
    + split; [|unfold same_sc; cbn [st]; by rewrite part_apart]. apply (tcp_alive_same s); try done; [|cbn [log]; by logs..].
      unfold same_conn_vars. cbn [st]. by rewrite part_set.
  - unfold user_tcp_recv_cb. destruct buf as [d|]; [|by apply lp_ret]. destruct (len =? 0); [by apply lp_ret|]. repeat lp_step.
    destruct (has_process_tcp_data _); repeat lp_step; [|discriminate]. apply Same; try done; by logs.
  - unfold user_tcp_send_pipe, rb_put, get_mem. repeat lp_step; [|by split]. destruct a as [[h' rb'] n']. repeat lp_step.
    apply Same; try done; [by rewrite part_apart|]. unfold same_conn_vars. by rewrite part_set.
  - unfold user_tcp_send. repeat lp_step. apply Same; try done; by logs.
Qed.

(** The client has its protocol block, and keeps it. *)
Definition has_block s : Prop := proto_tcp (part (st s)) <> None.

Lemma reconnect_block s : has_block s -> lp user_tcp_reconnect s (λ _ s', has_block s').
Proof.
  unfold has_block. intros Hb. unfold user_tcp_reconnect, user_smartconfig_status, tcp_connect.
  repeat lp_step; (destruct (smartconfig_status _); repeat lp_step; [by rewrite ?part_set|]; destruct (_ <? _); repeat lp_step; by rewrite ?part_set).
Qed.

Lemma send_loop_block s : has_block s -> lp (user_tcp_send_loop tcp_send_buffer) s (λ _ s', has_block s').
Proof.
  unfold has_block. intros Hb. unfold user_tcp_send_loop, rb_get. repeat lp_step. destruct (isConnectServer _); [|by apply lp_ret].
  repeat lp_step. destruct (_ =? 0); [by apply lp_ret|]. unfold GPIO_INPUT_GET. repeat lp_step.
  destruct (negb _); unfold GPIO_OUTPUT_SET, get_mem; repeat lp_step; destruct a as [[h' rb'] n']; repeat lp_step; by rewrite ?part_set.
Qed.

Lemma handle_block i s : has_block s -> lp (tcp_handle i) s (λ _ s', has_block s').
Proof.
  intros Hb. assert (Hb0 := Hb). unfold has_block in Hb.
  destruct i as [| |ip| | | |st0|buf len|p len|d len]; cbn [tcp_handle].
  - unfold user_tcp_func_process. repeat lp_step. destruct (_ =? STATION_MODE); repeat lp_step.
    + destruct (_ && _); repeat lp_step; unfold user_tcp_start_dns; repeat lp_step; try done; apply send_loop_block; unfold has_block; cbn [st]; by rewrite ?part_set.
    + unfold has_block. cbn [st]. by rewrite part_set.
  - unfold user_tcp_dns_check_cb. by repeat lp_step.
  - unfold user_tcp_dns_found. repeat lp_step. unfold has_block.
    destruct ip as [addr|]; [destruct (addr =? 0)|]; unfold tcp_connect; repeat lp_step; cbn [st]; by rewrite ?part_set.
  - unfold user_tcp_connect_cb, set_server_status. unfold has_block. repeat lp_step; cbn [st]; by rewrite ?part_set.
  - unfold user_tcp_disconnect_cb, set_server_status. repeat lp_step; by apply reconnect_block.
  - unfold user_tcp_reconnect_cb. repeat lp_step. by apply reconnect_block.
  - destruct st0; cbn [user_tcp_status]; repeat lp_step; try done; unfold has_block; cbn [st]; rewrite ?part_set; try done.
    eapply lp_mono; [apply reconnect_block; unfold has_block; cbn [st]; by rewrite part_set|]. cbn beta. intros ? s1 B1. by repeat lp_step.
  - unfold user_tcp_recv_cb. destruct buf as [d|]; [|by apply lp_ret]. destruct (len =? 0); [by apply lp_ret|]. repeat lp_step.
    destruct (has_process_tcp_data _); repeat lp_step; [done|discriminate].
  - unfold user_tcp_send_pipe, rb_put, get_mem. repeat lp_step; [|done]. destruct a as [[h' rb'] n']. repeat lp_step. unfold has_block. cbn [st]. by rewrite part_set.
  - unfold user_tcp_send. by repeat lp_step.
Qed.

(** The callbacks of the lookup, the connection and the SDK's status: they are always defined. *)
Definition connection_callback (i : tcp_input) : Prop :=
  match i with DnsTimer | DnsFound _ | Connected | Disconnected | Failed | Status _ => True | _ => False end.

(** One step of a total-correctness proof. *)
Ltac wp_step :=
  lazymatch goal with
  | |- wp (sbind _ _) _ _ => apply wp_bind
  | |- wp (pvar _) _ _ => apply wp_pvar
  | |- wp (pmodify _) _ _ => apply wp_pmodify
  | |- wp (call _) _ _ => apply wp_call
  | |- wp (ask _) _ _ => apply wp_ask
  | |- wp (sret _) _ _ => apply wp_ret
  | |- wp (swhen _ _) _ _ => apply wp_when; intros ?
  end;
  cbn [log mem st] in *; rewrite ?part_set, ?part_apart in *; unfold set_field in *;
  cbn [proto_tcp tcp_rb_send reconn_cnt isConnectServer flag_dns_discovery isDnsFound remote_ip user_tcp_recv_pipe_cb] in *.

Lemma connect_defined s Q : has_block s -> (forall s', Q tt s') -> wp tcp_connect s Q.
Proof.
  unfold has_block. intros Hb HQ. unfold tcp_connect. repeat wp_step. destruct (proto_tcp _) as [t|]; [|done].
  eapply wp_lift; [done|]. by repeat wp_step.
Qed.
Lemma reconnect_defined s Q : has_block s -> (forall s', Q tt s') -> wp user_tcp_reconnect s Q.
Proof.
  unfold has_block. intros Hb HQ. unfold user_tcp_reconnect, user_smartconfig_status. repeat wp_step. destruct (smartconfig_status _); repeat wp_step; [done|].
  destruct (_ <? _); repeat wp_step; [done|]. apply connect_defined; [|done]. unfold has_block. cbn [st]. by rewrite part_set.
Qed.
Lemma callback_defined i s : has_block s -> connection_callback i -> wp (tcp_handle i) s (λ _ _, True).
Proof.
  intros Hb Hi. assert (Hb0 := Hb). unfold has_block in Hb. destruct i as [| |ip| | | |st0|buf len|p len|d len]; try done; cbn [tcp_handle].
  - unfold user_tcp_dns_check_cb. by repeat wp_step.
  - unfold user_tcp_dns_found. repeat wp_step. destruct ip as [addr|]; [destruct (addr =? 0)|]; repeat wp_step; try done.
    destruct (proto_tcp (part (st s))) as [t|]; [|done]. eapply wp_lift; [done|]. repeat wp_step. apply connect_defined; [|done]. unfold has_block. cbn [st]. by rewrite part_set.
  - unfold user_tcp_connect_cb, set_server_status. by repeat wp_step.
  - unfold user_tcp_disconnect_cb, set_server_status. repeat wp_step; by apply reconnect_defined.
  - unfold user_tcp_reconnect_cb. repeat wp_step. by apply reconnect_defined.
  - destruct st0; cbn [user_tcp_status]; repeat wp_step; try done. apply reconnect_defined; [unfold has_block; cbn [st]; by rewrite part_set|]. intros s'. by repeat wp_step.
Qed.

(** What happens besides: anything that leaves the connection's variables, its
    timer and the SDK's connection alone.  This is the rest of the program, and it
    is also what the send loop may do beyond its definition, where its copy
    overlaps ([user_tcp_send_loop_spec]): leave any bytes in memory, any counters
    in the ring, and hand any bytes to the library. *)
Definition beside s s' : Prop :=
  same_conn_vars (part (st s)) (part (st s')) /\ same_sc s s' /\ armed t_dns (log s') = armed t_dns (log s) /\
  connecting (log s') = connecting (log s) /\ (has_block s -> has_block s').

Inductive tcp_reaches s0 : sys X -> Prop :=
  | tr_start : tcp_reaches s0 s0
  | tr_step i s s' : tcp_reaches s0 s -> tcp_handle i s = Some (tt, s') -> tcp_reaches s0 s'
  | tr_beside s s' : tcp_reaches s0 s -> beside s s' -> tcp_reaches s0 s'.

Lemma reaches_alive s0 s : smartconfig_status (part (st s0)) = false -> tcp_alive s0 -> has_block s0 -> tcp_reaches s0 s ->
  tcp_alive s /\ same_sc s0 s /\ has_block s.
Proof.
  intros Hsc A0 B0. induction 1 as [|i s1 s2 _ (A1 & S1 & B1) E|s1 s2 _ (A1 & S1 & B1) (V & S2 & T & C & B2)]; [done|..].
  - assert (Hsc1 : smartconfig_status (part (st s1)) = false) by (unfold same_sc in S1; by rewrite S1).
    destruct (handle_alive i s1 Hsc1 A1 _ _ E) as [A2 S2]. split; [done|]. split; [|by apply (handle_block i s1 B1 _ _ E)].
    unfold same_sc in *. by rewrite S2.
  - split; [by apply (tcp_alive_same s1)|]. split; [|by apply B2]. unfold same_sc in *. by rewrite S2.
Qed.

(** While no send can be undefined, because the server is not logged in to or nothing
    waits, a round of the loop starts the lookup. *)
Lemma round_looks_up s : online -> isDnsFound (part (st s)) = false -> flag_dns_discovery (part (st s)) = false ->
  isConnectServer (part (st s)) = false \/ user_rb_unread_size (tcp_rb_send (part (st s))) = 0 ->
  wp (user_tcp_func_process tcp_send_buffer) s (λ _ s', flag_dns_discovery (part (st s')) = true /\ armed t_dns (log s') = true).
Proof.
  intros On Hd Hf Hq. unfold user_tcp_func_process. do 4 wp_step. rewrite (proj1 (On _)). cbn [Z.eqb STATION_MODE Pos.eqb]. do 4 wp_step.
  destruct (On (log s ++ [Got system_get_time (u32 (sdk_ret (log s) system_get_time))] ++
    [Got wifi_get_opmode (u32 (sdk_ret (log s ++ [Got system_get_time (u32 (sdk_ret (log s) system_get_time))]) wifi_get_opmode))])) as (_ & E2 & _).
  rewrite app_assoc in E2. rewrite E2. match goal with |- context [negb (?x =? 0)] => assert (Hx : x <> 0) by apply (On _) end.
  apply Z.eqb_neq in Hx. rewrite Hx. cbn [Z.eqb STATION_GOT_IP Pos.eqb andb negb]. repeat wp_step; rewrite ?Hd, ?Hf in *; [|discriminate].
  unfold user_tcp_start_dns. repeat wp_step. unfold user_tcp_send_loop. repeat wp_step.
  destruct Hq as [-> | Hq]; [|destruct (isConnectServer _); [repeat wp_step; rewrite Hq; cbn [Z.eqb]|]];
    apply wp_ret; cbn [log st]; rewrite !part_set; by logs.
Qed.

(** C12: outside a smartconfig session the client never gives up.  Take any
    state its callbacks can reach, in any order, mixed with anything the rest of the
    program does beside it ([beside]), also with whatever the send loop leaves in
    memory when it copies a region onto itself.  There a connection has been
    requested from the SDK if the server's address is believed known, and the
    retry timer runs if a lookup is under way; the count of failed attempts is at
    most five; and every callback of the lookup, of the connection and of the
    login status is defined.  Otherwise, if the station is online, the next round
    of the periodic loop starts a lookup: it returns when the client is not logged
    in or has nothing to send (while it sends, only if it returns:
    [user_tcp_send_loop_spec]). *)
Theorem tcp_client_alive s0 s :
  smartconfig_status (part (st s0)) = false -> tcp_alive s0 -> has_block s0 -> tcp_reaches s0 s ->
  tcp_alive s /\
  (forall i, connection_callback i -> exists s', tcp_handle i s = Some (tt, s')) /\
  (online -> isDnsFound (part (st s)) = false -> flag_dns_discovery (part (st s)) = false ->
    let looks_up s' := flag_dns_discovery (part (st s')) = true /\ armed t_dns (log s') = true in
    (isConnectServer (part (st s)) = false \/ user_rb_unread_size (tcp_rb_send (part (st s))) = 0 ->
      exists s', tcp_handle XlinkLoop s = Some (tt, s') /\ looks_up s') /\
    forall s', tcp_handle XlinkLoop s = Some (tt, s') -> looks_up s').
Proof.
  intros Hsc A0 B0 R. destruct (reaches_alive s0 s Hsc A0 B0 R) as (A & _ & B). split; [done|]. split.
  { intros i Hi. destruct (callback_defined i s B Hi) as ([] & s' & E & _). by exists s'. }
  intros On Hd Hf looks_up. split.
  { intros Hq. destruct (round_looks_up s On Hd Hf Hq) as ([] & s' & E & L). by exists s'. }
  intros s'. cbn [tcp_handle].
  assert (L : lp (user_tcp_func_process tcp_send_buffer) s (λ _ s', looks_up s')).
  { unfold user_tcp_func_process. repeat lp_step. rewrite (proj1 (On _)). cbn [Z.eqb STATION_MODE Pos.eqb]. repeat lp_step.
    destruct (On (log s ++ [Got system_get_time (u32 (sdk_ret (log s) system_get_time))] ++
      [Got wifi_get_opmode (u32 (sdk_ret (log s ++ [Got system_get_time (u32 (sdk_ret (log s) system_get_time))]) wifi_get_opmode))])) as (_ & E2 & _).
    rewrite app_assoc in E2. rewrite E2. match goal with |- context [negb (?x =? 0)] => assert (Hx : x <> 0) by apply (On _) end.
    apply Z.eqb_neq in Hx. rewrite Hx. cbn [Z.eqb STATION_GOT_IP Pos.eqb andb negb]. repeat lp_step; rewrite ?Hd, ?Hf in *; [|discriminate].
    unfold user_tcp_start_dns. repeat lp_step. eapply lp_mono; [apply send_loop_quiet|]. cbn beta. intros ? s2 ((_ & F & _) & _ & T & _).
    unfold looks_up. cbn [log st] in *. rewrite F, T, !part_set. logs. done. }
  intros E. exact (L _ _ E).
Qed.
End Connection.

(** ** The theorem at a concrete input *)

(** Six bytes wait, four before the end of the storage and two after the wrap:
    the two are lost to the copy of the first four. *)
Definition wrapped_ring : sys tcp_vars := mk_sys [] {[1%positive := [1; 2; 3; 4; 5; 6; 7; 8]]}
  (mk_tcp None (mk_ringbuf (mk_ptr 1 0) 2 4 8 false) 0 true false true 0 None).
Definition silent_world : Env := mk_env (λ _ _, 0) (λ _ _, 0).

Lemma wrapped_ring_wf : rb_wf (mem wrapped_ring) (tcp_rb_send (st wrapped_ring)) [1; 2; 3; 4; 5; 6; 7; 8].
Proof. split; try reflexivity; cbn; lia. Qed.

Lemma user_tcp_send_loop_spec_witness :
  rb_contents (tcp_rb_send (st wrapped_ring)) [1; 2; 3; 4; 5; 6; 7; 8] = [5; 6; 7; 8; 1; 2] /\
  wp (@user_tcp_send_loop silent_world _ _ (mk_ptr 1 0)) wrapped_ring (λ _ s', exists l,
    log s' = l ++ [Do (XlinkSendTcpPipe2 [5; 6; 7; 8; 5; 6])] /\ user_rb_unread_size (tcp_rb_send (st s')) = 0).
Proof.
  split; [reflexivity|]. eapply wp_mono.
  - apply (proj1 (proj2 (proj2 (@user_tcp_send_loop_spec silent_world tcp_vars part_whole (mk_ptr 1 0) [1; 2; 3; 4; 5; 6; 7; 8] wrapped_ring wrapped_ring_wf eq_refl eq_refl))));
      reflexivity.
  - cbn beta. intros ? s' (L & U). eexists. split; [|exact U]. rewrite L, app_assoc. reflexivity.
Defined.
