(* ===== verification/UdpServer.v ===== *)
(** * UdpServer: app/user/user_udp_server.c

    The UDP socket the phone application talks to; the address of the last
    datagram is the address replies go to. *)

From Stdlib Require Import String.
From stdpp Require Import gmap.
From S2P Require Import Prelude CMem Board TcpClient.
Local Open Scope sm_scope.
Local Open Scope list_scope.

(** include/user_net.h *)
Definition UDP_LOCAL_PORT : Z := 5987.
Definition UDP_REMOTE_PORT : Z := 6000.

(** The [proto.udp] block of [user_udp_server]. *)
Record esp_udp := mk_esp_udp { udp_local_port : Z; udp_remote_port : Z; udp_remote_ip : list Z }.
#[export] Instance eta_esp_udp : Settable esp_udp := λ u, mk_esp_udp (udp_local_port u) (udp_remote_port u) (udp_remote_ip u).

(** The static variables. *)
Record udp_vars := mk_udp { proto_udp : option esp_udp; user_udp_recv_pipe_cb : option fn }.
#[export] Instance eta_udp : Settable udp_vars := λ v, mk_udp (proto_udp v) (user_udp_recv_pipe_cb v).
Definition udp_initial : udp_vars := mk_udp None None.

(** [xlink_addr]: the members the program uses. *)
Record xlink_addr := mk_addr { s_addr : Z; sin_port : Z }.

(** Where a datagram came from, as [espconn_get_connection_info] tells it: the
    four bytes of the address and the port. *)
Class Peer := remot_info : list event -> list Z * Z.

Section UdpServer.
Context `{Env} `{Peer} {X : Type} `{PU : Part X udp_vars} `{PC : Part X XLINK_USER_CONFIG}.
(** The installed pipe callback, called with a buffer and its length. *)
Context (run_pipe : fn -> ptr -> Z -> F X unit).

Definition the_udp : F X esp_udp := u <- pvar proto_udp ;; slift u.

Definition user_udp_server_init : F X unit :=
  pmodify (λ v, v <| proto_udp := Some (mk_esp_udp UDP_LOCAL_PORT UDP_REMOTE_PORT [0x00; 0x00; 0x00; 0x00]) |>) ;;
  call (espconn_regist user_udp_server fp_user_udp_recv_cb) ;;
  call (espconn_create user_udp_server).

Definition user_udp_pipe_cb (buffer : ptr) (len : Z) : F X unit :=
  cb <- pvar user_udp_recv_pipe_cb ;;
  match cb with Some f => run_pipe f buffer (u16 len) | None => sret tt end.

Definition user_udp_set_recv_pipe_fn (callback : option fn) : F X unit :=
  pmodify (λ v, v <| user_udp_recv_pipe_cb := callback |>).

(** [pdata] is null or the [len] bytes received; [ESPCONN_OK] is 0. *)
Definition user_udp_recv_cb (pdata : option (list Z)) (len : Z) : F X unit :=
  match pdata with
  | None => sret tt
  | Some d =>
      if len =? 0 then sret tt
      else
        l <- sget log ;;
        r <- ask (espconn_get_connection_info user_udp_server) ;;
        if negb (r =? 0) then sret tt
        else
          let '(ip, port) := remot_info l in
          u <- the_udp ;;
          ip4 <- slift (bslice ip 0 4) ;;
          pmodify (λ v, v <| proto_udp := Some (u <| udp_remote_ip := ip4 |> <| udp_remote_port := i32 port |>) |>) ;;
          u <- the_udp ;;
          w <- slift (word_of_bytes (udp_remote_ip u)) ;;
          c <- pvar has_process_udp_data ;;
          swhen c (call (process_udp_data d len w (u16 (udp_remote_port u))))
  end.

Definition user_udp_send (addr : xlink_addr) (pdata : list Z) (len : Z) : F X Z :=
  u <- the_udp ;;
  pmodify (λ v, v <| proto_udp :=
    Some (u <| udp_remote_port := sin_port addr |> <| udp_remote_ip := le_bytes (s_addr addr) |>) |>) ;;
  u <- the_udp ;;
  d <- slift (bslice pdata 0 len) ;;
  call (espconn_send user_udp_server (udp_remote_ip u) (udp_remote_port u) d) ;;
  sret (i32 len).

Definition user_udp_send_pipe (pbuf : ptr) (len : Z) : F X unit :=
  u <- the_udp ;;
  w <- slift (word_of_bytes (udp_remote_ip u)) ;;
  h <- get_mem ;; d <- slift (mem_load h pbuf len) ;;
  call (XlinkSendUdpPipe d w (u16 (udp_remote_port u))).
End UdpServer.

(** ** The way back to the sender *)

Section Reply.
Context `{Env} `{Peer} {X : Type} `{PU : Part X udp_vars} `{PC : Part X XLINK_USER_CONFIG}.
Implicit Types s : sys X.

(** A datagram is handed to the Xlink library with the address and the port
    of its sender; what the serial line answers until the next one arrives is
    handed to the library for that same address and port, and when the library
    sends it, it goes to exactly the four bytes and the port it came from. *)
Theorem udp_reply_returns s d len u0 ip port w :
  proto_udp (part (st s)) = Some u0 -> 0 < len -> u32 (sdk_ret (log s) (espconn_get_connection_info user_udp_server)) = 0 ->
  remot_info (log s) = (ip, port) -> zlen ip = 4 -> Forall is_byte ip -> word_of_bytes ip = Some w -> 0 <= port < 65536 ->
  wp (user_udp_recv_cb (Some d) len) s (λ _ s1,
    log s1 = log s ++ [Got (espconn_get_connection_info user_udp_server) 0] ++
      (if has_process_udp_data (part (st s1)) then [Do (process_udp_data d len w port)] else []) /\
    forall buf b, mem_load (mem s1) buf (zlen b) = Some b ->
    wp (user_udp_send_pipe buf (zlen b)) s1 (λ _ s2, log s2 = log s1 ++ [Do (XlinkSendUdpPipe b w port)] /\
      wp (user_udp_send (mk_addr w port) b (zlen b)) s2 (λ _ s3,
        log s3 = log s2 ++ [Do (espconn_send user_udp_server ip port b)]))).
Proof.
  intros Hu Hlen Hr Hi Hz Hb Hw Hp. destruct (le_bytes_word ip w Hb Hz Hw) as [Hle Hwr].
  assert (Hs : bslice ip 0 4 = Some ip).
  { rewrite <- Hz, bslice_Some by lia. f_equal. apply tab_nthZ. }
  unfold user_udp_recv_cb, the_udp. zfalse (len =? 0). apply wp_bind, wp_get, wp_bind, wp_ask. rewrite Hr. cbn [Z.eqb negb].
  rewrite Hi. apply wp_bind, wp_bind, wp_pvar. cbn [log mem st]. rewrite Hu. apply (wp_lift _ u0); [done|].
  apply wp_bind, (wp_lift _ _ _ _ Hs), wp_bind, wp_pmodify. cbn [log mem st]. apply wp_bind, wp_bind, wp_pvar. cbn [st]. rewrite part_set.
  unfold set_field. cbn [proto_udp udp_local_port]. eapply wp_lift; [reflexivity|]. cbn [udp_remote_ip udp_remote_port].
  apply wp_bind, (wp_lift _ _ _ _ Hw), wp_bind, wp_pvar. cbn [st]. rewrite i32_small, u16_small by lia.
  set (s0 := mk_sys _ _ _).
  assert (Rest : forall l, let s1 := mk_sys l (mem s0) (st s0) in forall buf b, mem_load (mem s1) buf (zlen b) = Some b ->
    wp (user_udp_send_pipe buf (zlen b)) s1 (λ _ s2, log s2 = log s1 ++ [Do (XlinkSendUdpPipe b w port)] /\
      wp (user_udp_send (mk_addr w port) b (zlen b)) s2 (λ _ s3,
        log s3 = log s2 ++ [Do (espconn_send user_udp_server ip port b)]))).
  { intros l s1 buf b Hload. pose proof (zlen_nonneg b). unfold user_udp_send_pipe, user_udp_send, the_udp.
    apply wp_bind, wp_bind, wp_pvar. unfold s1, s0. cbn [log mem st]. rewrite part_set. eapply wp_lift; [reflexivity|].
    cbn [udp_remote_ip udp_remote_port]. apply wp_bind, (wp_lift _ _ _ _ Hw), wp_bind, wp_get, wp_bind, (wp_lift _ _ _ _ Hload), wp_call.
    cbn [log mem st]. rewrite u16_small by lia. split; [done|]. apply wp_bind, wp_bind, wp_pvar. cbn [log mem st]. rewrite part_set.
    eapply wp_lift; [reflexivity|]. apply wp_bind, wp_pmodify. cbn [log mem st]. apply wp_bind, wp_bind, wp_pvar. cbn [st]. rewrite part_set.
    eapply wp_lift; [reflexivity|]. unfold set_field. cbn [udp_remote_ip udp_remote_port s_addr sin_port].
    apply wp_bind, (wp_lift _ b); [rewrite bslice_Some by lia; f_equal; apply tab_nthZ|]. rewrite Hle. by apply wp_bind, wp_call, wp_ret. }
  apply wp_when; intros Hc.
  - apply wp_call. cbn [log mem st]. match goal with |- context [if ?c then _ else _] => replace c with true by (symmetry; exact Hc) end.
    split; [unfold s0; cbn [log]; by rewrite <- app_assoc|]. exact (Rest (log s0 ++ [Do (process_udp_data d len w port)])).
  - match goal with |- context [if ?c then _ else _] => replace c with false by (symmetry; exact Hc) end. split; [done|]. exact (Rest (log s0)).
Qed.
End Reply.
