(* ===== verification/UserNet.v ===== *)
(** * UserNet: app/user/user_net.c, user_key.c and user_main.c

    The Xlink configuration, the key functions and the start of the
    application: which callback is installed where. *)

From Stdlib Require Import String.
From stdpp Require Import gmap.
From S2P Require Import Prelude CMem UserRing Board Keys UartReg UserUart UartDriver UartBuffer UartTask Modbus.
From S2P Require Import SmartConfig TcpClient UdpServer.
Local Open Scope string_scope.
Local Open Scope Z_scope.
Local Open Scope sm_scope.
Local Open Scope list_scope.

(** include/user_net.h and include/user_config.h *)
Definition PRIV_PARAM_START_SECTOR : Z := 0x7C.
Definition PRODUCT_ID : string := "160fa6b327fe03e9160fa6b327fe2201".
Definition PRODUCT_KEY : string := "67cb003e45caa03a6a973c1aa333b077".
(** include/user_key.h *)
Definition USER_KEY_NUM : Z := 1.
Definition USER_KEY_SMARTCONFIG_IO_MUX : Z := PERIPHS_IO_MUX_GPIO0_U.
Definition USER_KEY_SMARTCONFIG_IO_NUM : Z := 0.
Definition USER_KEY_SMARTCONFIG_FUNC : Z := FUNC_GPIO0.

(** The static variable of user_net.c. *)
Record net_vars := mk_net { auth_pwd_name_buf : list Z }.
#[export] Instance eta_net : Settable net_vars := λ v, mk_net (auth_pwd_name_buf v).
Definition net_initial : net_vars := mk_net (replicate 128 0).
Definition user_config_initial : XLINK_USER_CONFIG :=
  mk_config 0 0 0 0 0 0 None None None None None None None None None None false false false.

(** Which functions [XlinkSystemInit] installs: [setServerStatus],
    [process_tcp_data], [process_udp_data]. *)
Class Libraries := xlink_installs : bool * bool * bool.

Section Net.
Context `{Env} `{Alloc} `{Peer} `{Flash} `{Libraries} {X : Type}.
Context `{PN : Part X net_vars} `{PC : Part X XLINK_USER_CONFIG} `{PT : Part X tcp_vars} `{PU : Part X udp_vars}
  `{PS : Part X sc_vars} `{PK : Part X keys_param} `{PV : Part X uart_vars} `{PR : Part X rx_buffer_t} `{PM : Part X modbus_vars}.
Context (tcp_send_buffer : ptr).

(** [xlink_memcpy( auth_pwd_name_buf, data, datalen )]: beyond the 128 bytes of the buffer it is undefined. *)
Definition user_write_config (data : list Z) (datalen : Z) : F X Z :=
  d <- slift (bslice data 0 datalen) ;;
  b <- pvar auth_pwd_name_buf ;;
  b <- slift (bsplice b 0 d) ;;
  pmodify (λ v, v <| auth_pwd_name_buf := b |>) ;;
  call (spi_flash_erase_sector PRIV_PARAM_START_SECTOR) ;;
  call (spi_flash_write (PRIV_PARAM_START_SECTOR * 4096) b) ;;
  sret (i32 datalen).

(** The result and the bytes copied to [Buffer]. *)
Definition user_read_config (bufferlen : Z) : F X (Z * list Z) :=
  b <- spi_flash_read (PRIV_PARAM_START_SECTOR * 4096) 128 ;;
  pmodify (λ v, v <| auth_pwd_name_buf := b |>) ;;
  b <- pvar auth_pwd_name_buf ;;
  d <- slift (bslice b 0 bufferlen) ;;
  sret (i32 bufferlen, d).

Definition user_net_send_pipe (pbuf : ptr) (len : Z) : F X unit :=
  user_tcp_send_pipe pbuf len ;; user_udp_send_pipe pbuf len.

Definition user_net_init : F X unit :=
  user_udp_server_init ;;
  user_tcp_client_init tcp_send_buffer ;;
  pmodify (λ c, c <| maclen := 6 |> <| in_internet := 1 |> <| wifisoftVersion := 1 |> <| wifi_type := STATION_MODE |>
    <| pipetype := 1 |> <| devicetype := 0 |>
    <| send_tcp := Some fp_user_tcp_send |> <| send_udp := Some fp_user_udp_send |>
    <| tcp_pipe := Some fp_user_tcp_pipe1_cb |> <| tcp_pipe2 := None |> <| udp_pipe := Some fp_user_udp_pipe_cb |>
    <| TcpClient.status := Some fp_user_tcp_status |>
    <| writeConfig := Some fp_user_write_config |> <| readConfig := Some fp_user_read_config |>
    <| DebugPrintf := None |> <| server_time := None |>) ;;
  call (wifi_get_macaddr STATION_IF) ;;
  ask (XlinkSystemInit PRODUCT_ID PRODUCT_KEY) ;;
  (let '(s, t, u) := xlink_installs in
   pmodify (λ c, c <| has_setServerStatus := s |> <| has_process_tcp_data := t |> <| has_process_udp_data := u |>)) ;;
  a <- ask XlinkGetACK ;;
  swhen (a =? 0) (call (XlinkSetACK 88888888)) ;;
  call (XlinkSystemSetDeviceName "Test") ;;
  call XlinkPorcess_UDP_Enable ;;
  set_server_status 0 0 ;;
  call (XlinkSystemSetWifiStatus 1) ;;
  call (os_timer_disarm t_xlink_loop) ;;
  call (os_timer_setfn t_xlink_loop fp_user_tcp_func_process) ;;
  call (os_timer_arm t_xlink_loop 100 1).

(** ** user_key.c *)

Definition user_restart : F X unit := call system_restart.
Definition user_key_short_press : F X unit := user_tcp_disconnect ;; user_smartconfig_start.
Definition user_key_long_press : F X unit :=
  call wifi_station_disconnect ;; call XlinkReSetSDK ;; call system_restore ;;
  call (wifi_set_opmode SOFTAP_MODE) ;;
  call (os_timer_disarm t_key_restart) ;; call (os_timer_setfn t_key_restart fp_user_restart) ;;
  call (os_timer_arm t_key_restart 100 0).

Definition user_key_init : F X unit :=
  let key0 := key_init_single USER_KEY_SMARTCONFIG_IO_NUM USER_KEY_SMARTCONFIG_IO_MUX USER_KEY_SMARTCONFIG_FUNC
    (Some fp_user_key_long_press) (Some fp_user_key_short_press) in
  pmodify (λ _ : keys_param, mk_keys USER_KEY_NUM [key0]) ;;
  key_init.

(** ** user_main.c *)

(** [enum flash_size_map] counts from 0: 4M, 2M, 8M, 16M (two maps of 512), 32M
    (512), 16M (1024), 32M (1024), 32M (2048), 64M, 128M. *)
Definition user_rf_cal_sector_set : F X Z :=
  size_map <- ask system_get_flash_size_map ;;
  sret (match size_map with
        | 0 => 128 - 5
        | 2 => 256 - 5
        | 3 | 5 => 512 - 5
        | 4 | 6 => 1024 - 5
        | 8 => 2048 - 5
        | 9 => 4096 - 5
        | _ => 0
        end).
Definition user_rf_pre_init : F X unit := sret tt.

Definition app_init : F X unit :=
  call gpio_init ;;
  call system_uart_swap ;;
  uart1_init BAUDRATE_115200 ;;
  UART_SetPrintPort UART1 ;;
  GPIO_DIS_OUTPUT 0 ;;
  GPIO_DIS_OUTPUT 13 ;;
  PIN_FUNC_SELECT PERIPHS_IO_MUX_GPIO0_U FUNC_GPIO0 ;;
  PIN_FUNC_SELECT PERIPHS_IO_MUX_GPIO4_U FUNC_GPIO4 ;;
  PIN_FUNC_SELECT PERIPHS_IO_MUX_GPIO5_U FUNC_GPIO5 ;;
  PIN_FUNC_SELECT PERIPHS_IO_MUX_MTDI_U FUNC_GPIO12 ;;
  PIN_FUNC_SELECT PERIPHS_IO_MUX_MTMS_U FUNC_GPIO14 ;;
  GPIO_OUTPUT_SET 12 0 ;;
  GPIO_OUTPUT_SET 14 0 ;;
  GPIO_OUTPUT_SET 16 0 ;;
  GPIO_OUTPUT_SET 4 0 ;;
  modbus_init ;;
  user_key_init ;;
  uart0_set_rx_cb (Some fp_modbus_receive) ;;
  uart0_set_tx_empty_cb None ;;
  uart1_set_tx_empty_cb None ;;
  modbus_set_recv_frame_fn (Some fp_user_net_send_pipe) ;;
  user_tcp_set_recv_pipe_fn (Some fp_modbus_send) ;;
  user_udp_set_recv_pipe_fn (Some fp_modbus_send) ;;
  user_net_init.

Definition user_init : F X unit := call (system_init_done_cb fp_app_init).
End Net.
