(* ===== verification/App.v ===== *)
(** * App: the application as a whole

    All the static variables of src/app/user in one state, the callbacks
    [app_init] installs, and what a frame does on its way from the serial line
    to the network. *)

From Stdlib Require Import String.
From stdpp Require Import gmap.
From S2P Require Import Prelude CMem UserRing Board Keys UartReg UserUart UartTask Modbus SmartConfig TcpClient UdpServer UserNet.
Local Open Scope sm_scope.
Local Open Scope list_scope.

(** ** The state *)

Record app := mk_app {
  a_net : net_vars; a_config : XLINK_USER_CONFIG; a_tcp : tcp_vars; a_udp : udp_vars; a_sc : sc_vars;
  a_keys : keys_param; a_uart : uart_vars; a_rx : rx_buffer_t; a_modbus : modbus_vars }.
#[export] Instance eta_app : Settable app := λ a, mk_app
  (a_net a) (a_config a) (a_tcp a) (a_udp a) (a_sc a) (a_keys a) (a_uart a) (a_rx a) (a_modbus a).

Ltac part_of f g := refine (mk_part app _ f g _ _ _); [done|done|by intros []].
#[export] Instance app_net : Part app net_vars. Proof. part_of a_net (λ v a, a <| a_net := v |>). Defined.
#[export] Instance app_config : Part app XLINK_USER_CONFIG. Proof. part_of a_config (λ v a, a <| a_config := v |>). Defined.
#[export] Instance app_tcp : Part app tcp_vars. Proof. part_of a_tcp (λ v a, a <| a_tcp := v |>). Defined.
#[export] Instance app_udp : Part app udp_vars. Proof. part_of a_udp (λ v a, a <| a_udp := v |>). Defined.
#[export] Instance app_sc : Part app sc_vars. Proof. part_of a_sc (λ v a, a <| a_sc := v |>). Defined.
#[export] Instance app_keys : Part app keys_param. Proof. part_of a_keys (λ v a, a <| a_keys := v |>). Defined.
#[export] Instance app_uart : Part app uart_vars. Proof. part_of a_uart (λ v a, a <| a_uart := v |>). Defined.
#[export] Instance app_rx : Part app rx_buffer_t. Proof. part_of a_rx (λ v a, a <| a_rx := v |>). Defined.
#[export] Instance app_modbus : Part app modbus_vars. Proof. part_of a_modbus (λ v a, a <| a_modbus := v |>). Defined.
#[export] Instance app_tcp_sc : Apart app tcp_vars sc_vars. Proof. by constructor. Defined.
#[export] Instance app_sc_tcp : Apart app sc_vars tcp_vars. Proof. by constructor. Defined.

(** The variables as the C start-up leaves them: zero, but for the initialised ones. *)
Definition app_initial (null : ptr) : app := mk_app net_initial user_config_initial (tcp_initial null) udp_initial sc_initial
  (mk_keys 0 []) uart_initial (mk_rx None 0) modbus_initial.

(** ** Calls through the installed pointers *)

Section App.
Context `{Env} `{Alloc} `{Peer} `{Flash} `{Libraries} (tcp_send_buffer : ptr) (fuel : nat).
Implicit Types s : sys app.

(** A pipe: a function of a buffer and its length.  Only these two are ever installed. *)
Definition run_pipe (f : fn) (p : ptr) (n : Z) : F app unit :=
  match f with
  | fp_user_net_send_pipe => user_net_send_pipe p n
  | fp_modbus_send => modbus_send fuel (Some p) n
  | _ => slift None
  end.

(** [uart0_rx_cb( &modbus_rx_buffer )] *)
Definition run_rx (f : fn) : F app unit :=
  match f with
  | fp_modbus_receive => r <- pvar (λ r : rx_buffer_t, r) ;; modbus_receive run_pipe (Some r)
  | _ => slift None
  end.

(** No [tx_empty] callback is installed. *)
Definition run_tx (f : fn) : F app unit := slift None.

Definition uart_interrupt : F app unit := uart_intr_handler run_rx run_tx.

(** The application once it has started: the way from the serial line to the
    network is connected, and its buffers exist and do not overlap. *)
Record app_ready (s : sys app) : Prop := {
  ready_rx_cb : uart0_rx_cb (a_uart (st s)) = Some fp_modbus_receive;
  ready_tx_cb : uart0_tx_empty_cb (a_uart (st s)) = None /\ uart1_tx_empty_cb (a_uart (st s)) = None;
  ready_frame_cb : modbus_recv_frame_cb (a_modbus (st s)) = Some fp_user_net_send_pipe;
  ready_tcp_cb : user_tcp_recv_pipe_cb (a_tcp (st s)) = Some fp_modbus_send;
  ready_udp_cb : user_udp_recv_pipe_cb (a_udp (st s)) = Some fp_modbus_send;
  ready_rx : exists p blk, buffer (a_rx (st s)) = Some p /\ mem s !! p_blk p = Some blk /\ p_off p = 0 /\ zlen blk = 256 /\
    p_blk p <> p_blk (pbuf (tcp_rb_send (a_tcp (st s))));
  ready_ring : exists b, rb_wf (mem s) (tcp_rb_send (a_tcp (st s))) b;
  ready_storage : pbuf (tcp_rb_send (a_tcp (st s))) = tcp_send_buffer;
  ready_tcp : is_Some (proto_tcp (a_tcp (st s)));
  ready_udp : exists u w, proto_udp (a_udp (st s)) = Some u /\ word_of_bytes (udp_remote_ip u) = Some w }.

(** ** Starting up *)

(** Code that only records accesses and calls. *)
Definition only_logs {A} (m : F app A) : Prop := forall s, exists a l, m s = Some (a, mk_sys l (mem s) (st s)).

Lemma only_logs_bind {A B} (m : F app A) (k : A -> F app B) : only_logs m -> (forall a, only_logs (k a)) -> only_logs (sbind m k).
Proof.
  intros Hm Hk s. destruct (Hm s) as (a & l & E). destruct (Hk a (mk_sys l (mem s) (st s))) as (b & l' & E').
  exists b, l'. unfold sbind. by rewrite E.
Qed.
Lemma only_logs_ret {A} (a : A) : only_logs (sret a).
Proof. intros [l h x]. by exists a, l. Qed.
Lemma only_logs_call c : only_logs (call c).
Proof. intros s. by eexists _, _. Qed.
Lemma only_logs_ask c : only_logs (ask c).
Proof. intros s. by eexists _, _. Qed.
Lemma only_logs_read a : only_logs (READ_PERI_REG a).
Proof. intros s. by eexists _, _. Qed.
Lemma only_logs_write a v : only_logs (WRITE_PERI_REG a v).
Proof. intros s. by eexists _, _. Qed.
Lemma only_logs_when b (m : F app unit) : only_logs m -> only_logs (swhen b m).
Proof. destruct b; [done|]. intros _. apply only_logs_ret. Qed.
Lemma only_logs_pvar {Y A} `{Part app Y} (f : Y -> A) : only_logs (pvar f).
Proof. intros [l h x]. by eexists _, _. Qed.
Ltac solve_logs := repeat
  lazymatch goal with
  | |- only_logs (sbind _ _) => apply only_logs_bind; [|intros ?]
  | |- only_logs (sret _) => apply only_logs_ret
  | |- only_logs (call _) => apply only_logs_call
  | |- only_logs (ask _) => apply only_logs_ask
  | |- only_logs (READ_PERI_REG _) => apply only_logs_read
  | |- only_logs (WRITE_PERI_REG _ _) => apply only_logs_write
  | |- only_logs (swhen _ _) => apply only_logs_when
  | |- only_logs (pvar _) => apply only_logs_pvar
  | |- only_logs _ => progress unfold ETS_UART_INTR_ATTACH, ETS_UART_INTR_ENABLE, ETS_GPIO_INTR_ATTACH, ETS_GPIO_INTR_DISABLE,
      ETS_GPIO_INTR_ENABLE, ETS_INTR_ENABLE, ETS_INTR_DISABLE, PIN_PULLUP_DIS, PIN_FUNC_SELECT, GPIO_REG_WRITE, GPIO_DIS_OUTPUT,
      GPIO_OUTPUT_SET, SET_PERI_REG_MASK, CLEAR_PERI_REG_MASK, set_server_status
  end.

Lemma wp_only {A B} (m : F app A) (k : A -> F app B) s Q :
  only_logs m -> (forall a l, wp (k a) (mk_sys l (mem s) (st s)) Q) -> wp (sbind m k) s Q.
Proof. intros Hm Hk. apply wp_bind. destruct (Hm s) as (a & l & E). eexists _, _. split; [exact E|]. apply Hk. Qed.

Lemma uart0_init_logs rate iv : only_logs (uart0_init rate iv).
Proof. unfold uart0_init. solve_logs. Qed.
Lemma uart1_init_logs rate : only_logs (uart1_init rate).
Proof. unfold uart1_init. solve_logs. Qed.
Lemma print_port_logs : only_logs (UART_SetPrintPort UART1).
Proof. unfold UART_SetPrintPort. cbn. solve_logs. Qed.

Ltac start_logs :=
  lazymatch goal with
  | |- only_logs (uart0_init _ _) => apply uart0_init_logs
  | |- only_logs (uart1_init _) => apply uart1_init_logs
  | |- only_logs (UART_SetPrintPort _) => apply print_port_logs
  | |- _ => solve_logs
  end.
Ltac app_step :=
  lazymatch goal with
  | |- wp (sbind (pmodify _) _) _ _ => apply wp_bind, wp_pmodify; cbn [log mem st]
  | |- wp (sbind (pvar _) _) _ _ => apply wp_bind, wp_pvar; cbn [log mem st]
  | |- wp (sbind _ _) _ _ => apply wp_only; [solve [start_logs]|intros ? ?; cbn [log mem st]]
  end.

(** Evaluate the variables. *)
Ltac app_eval := lazymatch goal with |- wp _ (mk_sys _ _ ?x) _ => let x' := eval cbv beta iota delta [set_field set_part part app_net app_config app_tcp app_udp app_sc app_keys app_uart app_rx
  app_modbus app_initial sc_initial user_config_initial tcp_initial udp_initial uart_initial modbus_initial a_net a_config a_tcp a_udp a_sc a_keys a_uart a_rx a_modbus
  buffer uart0_rx_cb uart0_tx_empty_cb uart1_tx_empty_cb modbus_recv_frame_cb proto_tcp tcp_rb_send reconn_cnt isConnectServer
  flag_dns_discovery isDnsFound remote_ip user_tcp_recv_pipe_cb proto_udp user_udp_recv_pipe_cb local_port remote_port
  tcp_remote_ip smartconfig_status sc_timeout len crcH crcL idx remote_ip
  udp_local_port udp_remote_port udp_remote_ip key_num single_key maclen in_internet wifisoftVersion wifi_type
  pipetype devicetype send_tcp send_udp tcp_pipe tcp_pipe2 udp_pipe TcpClient.status writeConfig readConfig DebugPrintf server_time
  has_setServerStatus has_process_tcp_data has_process_udp_data] in x in change x with x' end.

(** The one key: smartconfig when it is pressed shortly, a restart as an access point when long. *)
Definition smartconfig_key : single_key_param :=
  key_init_single USER_KEY_SMARTCONFIG_IO_NUM USER_KEY_SMARTCONFIG_IO_MUX USER_KEY_SMARTCONFIG_FUNC
    (Some fp_user_key_long_press) (Some fp_user_key_short_press).

(** [user_key_init] installs its table of one key. *)
Lemma user_key_init_ok s (Q : unit -> sys app -> Prop) :
  (forall l, Q tt (mk_sys l (mem s) (set_part (mk_keys 1 [smartconfig_key <| key_level := 1 |>]) (st s)))) -> wp user_key_init s Q.
Proof.
  intros HQ. unfold user_key_init. app_step. unfold key_init. repeat app_step.
  apply wp_bind. change (seqZ 0 _) with [0]. unfold sfor. apply wp_bind, wp_bind. unfold the_key. app_step.
  eapply wp_lift; [reflexivity|]. unfold set_level. repeat app_step. apply wp_call, wp_ret. cbn [log mem st].
  apply wp_call. cbn [log mem st]. rewrite !set_set. by apply HQ.
Qed.

(** C16: [app_init], run on the variables the C start-up leaves, returns, if the
    allocator has the frame buffer; from then on the callbacks between serial line
    and network are connected, the buffers exist and do not overlap, the table of
    keys holds exactly the one key, with its pin and its two functions and not
    pressed, the periodic loop's timer runs, no smartconfig session is open, and
    the connection logic is in the state from which [tcp_client_alive] follows. *)
Theorem app_init_ready l h b p null :
  p_off tcp_send_buffer = 0 -> h !! p_blk tcp_send_buffer = Some b -> zlen b = TCP_SEND_BUFFER_SIZE ->
  block h MODBUS_BUFFER_SIZE = Some p ->
  wp (app_init tcp_send_buffer) (mk_sys l h (app_initial null)) (λ _ s', app_ready s' /\ tcp_alive s' /\ has_block s' /\
    armed t_xlink_loop (log s') = true /\ smartconfig_status (a_sc (st s')) = false /\
    a_keys (st s') = mk_keys 1 [smartconfig_key <| key_level := 1 |>]).
Proof.
  unfold TCP_SEND_BUFFER_SIZE. intros Ho Hb Hz Hp. unfold app_init. repeat app_step.
  apply wp_bind. unfold modbus_init. apply wp_bind, (wp_zalloc _ _ p); [done|]. cbn [log mem st]. repeat app_step. apply wp_call.
  cbn [log mem st]. apply wp_bind, user_key_init_ok. intros lk. cbn [log mem st]. app_eval.
  unfold uart0_set_rx_cb, uart0_set_tx_empty_cb, uart1_set_tx_empty_cb, modbus_set_recv_frame_fn, user_tcp_set_recv_pipe_fn,
    user_udp_set_recv_pipe_fn. repeat app_step. app_eval.
  unfold user_net_init, user_udp_server_init. apply wp_bind. repeat app_step. apply wp_call. cbn [log mem st].
  unfold user_tcp_client_init. apply wp_bind. repeat app_step. app_eval.
  apply wp_bind. eexists _, _. split; [reflexivity|]. cbn [mem]. repeat app_step. apply wp_bind.
  assert (Hne : p <> p_blk tcp_send_buffer) by (intros ->; apply block_fresh in Hp; congruence).
  set (h1 := <[p:=_]> h).
  assert (Hb1 : h1 !! p_blk tcp_send_buffer = Some b) by (unfold h1; rewrite lookup_insert_ne; [exact Hb|exact Hne]).
  assert (Hp1 : h1 !! p = Some (replicate 256 0)) by (apply lookup_insert_eq). clearbody h1.
  destruct (memset_Some h1 tcp_send_buffer 0 TCP_SEND_BUFFER_SIZE b) as (b' & E & Hz'); [exact Hb1|unfold TCP_SEND_BUFFER_SIZE; lia..|].
  eapply wp_lift; [unfold user_rb_init; cbn [Z.eqb TCP_SEND_BUFFER_SIZE Pos.eqb]; rewrite E; reflexivity|].
  apply wp_bind. eexists _, _. split; [reflexivity|]. cbn [log mem st].
  apply wp_bind. eapply wp_lift; [reflexivity|].
  apply wp_pmodify. cbn [log mem st]. app_eval. repeat app_step. destruct xlink_installs as [[i1 i2] i3].
  app_step. app_eval. repeat app_step. apply wp_call. cbn [log mem st].
  split_and!; [split|unfold tcp_alive; cbn; by split_and!|unfold has_block; by cbn|by rewrite armed_snoc|done..]; cbn [log mem st a_tcp a_uart a_udp a_rx a_modbus]; try done.
  - eexists _, (replicate 256 0). split; [reflexivity|]. cbn [p_blk p_off pbuf tcp_rb_send]. by rewrite lookup_insert_ne.
  - exists b'. split; cbn [pbuf tcp_rb_send head tail size TCP_SEND_BUFFER_SIZE]; [apply lookup_insert_eq|done|done|..]; unfold TCP_SEND_BUFFER_SIZE; lia.
  - by eexists _, _.
Qed.

(** ** A frame on its way *)

Lemma user_rb_put_pbuf h rb src n h' rb' m : user_rb_put h rb src n = Some (h', rb', m) -> pbuf rb' = pbuf rb.
Proof.
  unfold user_rb_put. intros E. destruct (if tail rb <=? head rb then _ else _) as [[h1 sz]|]; [|discriminate].
  cbn [mbind option_bind] in E. by injection E as _ <- _.
Qed.

Lemma net_send_pipe_ok s p frame blk b u w :
  let rb := tcp_rb_send (a_tcp (st s)) in
  let n := Z.min (zlen frame) (rb_free rb) in
  mem s !! p_blk p = Some blk -> 0 <= p_off p -> p_off p + zlen frame <= zlen blk -> zlen frame < 4294967296 ->
  mem_load (mem s) p (zlen frame) = Some frame -> p_blk p <> p_blk (pbuf rb) -> rb_wf (mem s) rb b ->
  isConnectServer (a_tcp (st s)) = true -> proto_udp (a_udp (st s)) = Some u -> word_of_bytes (udp_remote_ip u) = Some w ->
  wp (user_net_send_pipe p (zlen frame)) s (λ _ s',
    log s' = log s ++ [Do (XlinkSendUdpPipe frame w (u16 (udp_remote_port u)))] /\
    exists b' rb', pbuf rb' = pbuf rb /\ mem s' = <[p_blk (pbuf rb) := b']> (mem s) /\
      st s' = set_part ((a_tcp (st s)) <| tcp_rb_send := rb' |>) (st s) /\ rb_wf (mem s') rb' b' /\
      rb_contents rb' b' = if user_rb_unread_size rb + n =? size rb then [] else rb_contents rb b ++ take (Z.to_nat n) frame).
Proof.
  intros rb n Hb Ho Hl Hm Hload Hne W Hc Hu Hw. pose proof (zlen_nonneg frame) as Hz. pose proof (unread_range _ _ _ W) as Hr.
  destruct (rb_put_run _ _ _ p blk (zlen frame) W Hb Hne) as (b' & rb' & E & W' & C); [lia..|]. fold n in E, C.
  pose proof (user_rb_put_pbuf _ _ _ _ _ _ _ E) as Hp.
  unfold user_net_send_pipe, user_tcp_send_pipe, rb_put, user_udp_send_pipe, the_udp.
  apply wp_bind, wp_bind, wp_pvar. change (part (st s)) with (a_tcp (st s)). rewrite Hc. cbn [swhen]. apply wp_bind, wp_bind.
  eexists _, _. split; [reflexivity|]. apply wp_bind, wp_pvar. change (tcp_rb_send (part (st s))) with rb.
  apply wp_bind, (wp_lift _ _ _ _ E), wp_bind. eexists _, _. split; [reflexivity|]. cbn [log mem st].
  apply wp_bind, wp_pmodify, wp_ret, wp_ret. cbn [log mem st]. apply wp_bind, wp_bind, wp_pvar. cbn [st].
  apply (wp_lift _ u); [exact Hu|]. apply wp_bind, (wp_lift _ _ _ _ Hw), wp_bind. eexists _, _. split; [reflexivity|].
  cbn [mem]. apply wp_bind. apply (wp_lift _ frame).
  { unfold mem_load in *. by rewrite lookup_insert_ne. }
  apply wp_call. cbn [log mem st]. split; [done|]. exists b', rb'. split; [done|]. split; [done|]. split; [done|]. split; [done|].
  rewrite C. destruct (_ =? size rb); [done|]. f_equal. rewrite (mem_load_Some _ _ _ blk) in Hload by (done || lia).
  injection Hload as Hf. rewrite <- Hf. assert (Hn : 0 <= n <= zlen frame) by (unfold n, rb_free; lia).
  apply list_ext_nthZ; [zlia|]. rewrite zlen_tab. intros i Hi. rewrite nthZ_take, !nthZ_tab by lia. done.
Qed.

Lemma wp_eq {A} (m m' : F app A) s s' Q : m s = m' s' -> wp m' s' Q -> wp m s Q.
Proof. unfold wp. by intros ->. Qed.

(** What the ring holds after [frame] was put into it. *)
Definition ring_after (rb : ringbuf_t) (b frame : list Z) : list Z :=
  let n := Z.min (zlen frame) (rb_free rb) in
  if user_rb_unread_size rb + n =? size rb then [] else rb_contents rb b ++ take (Z.to_nat n) frame.

Lemma app_ready_frame s v l : modbus_recv_frame_cb v = modbus_recv_frame_cb (a_modbus (st s)) ->
  app_ready s -> app_ready (mk_sys l (mem s) (set_part v (st s))).
Proof. intros Hv [R1 R2 R3 R4 R5 R6 R7 R8 R9 R10]. split; cbn; try done. by rewrite Hv. Qed.

Lemma app_ready_ring s rb' b' l : let rb := tcp_rb_send (a_tcp (st s)) in
  pbuf rb' = pbuf rb -> rb_wf (<[p_blk (pbuf rb) := b']> (mem s)) rb' b' -> app_ready s ->
  app_ready (mk_sys l (<[p_blk (pbuf rb) := b']> (mem s)) (set_part ((a_tcp (st s)) <| tcp_rb_send := rb' |>) (st s))).
Proof.
  intros rb Hp W [R1 R2 R3 R4 R5 (p & blk & R6 & R7 & R8 & R9 & R10) R11 R12 R13 R14]. split; cbn; try done.
  - exists p, blk. rewrite Hp, lookup_insert_ne by (by apply not_eq_sym). done.
  - by exists b'.
  - by rewrite Hp.
Qed.

Lemma run_rx_ok s p frame b u w :
  let rb := tcp_rb_send (a_tcp (st s)) in
  app_ready s -> a_rx (st s) = mk_rx (Some p) (zlen frame) -> mem_load (mem s) p (zlen frame) = Some frame ->
  Forall is_byte frame -> zlen frame < 256 -> rb_wf (mem s) rb b -> isConnectServer (a_tcp (st s)) = true ->
  proto_udp (a_udp (st s)) = Some u -> word_of_bytes (udp_remote_ip u) = Some w ->
  wp (run_rx fp_modbus_receive) s (λ _ s', app_ready s' /\
    log s' = log s ++ (if crc16 frame =? 0 then [Do (XlinkSendUdpPipe frame w (u16 (udp_remote_port u)))] else []) /\
    exists b', rb_wf (mem s') (tcp_rb_send (a_tcp (st s'))) b' /\
      rb_contents (tcp_rb_send (a_tcp (st s'))) b' = if crc16 frame =? 0 then ring_after rb b frame else rb_contents rb b).
Proof.
  intros rb R Hrx Hload Hbytes Hlt W Hc Hu Hw. destruct (ready_rx _ R) as (p' & blk & Hp & Hb & Ho & Hz & Hne).
  rewrite Hrx in Hp. injection Hp as <-. unfold run_rx. apply wp_bind, wp_pvar. change (part (st s)) with (a_rx (st s)). rewrite Hrx.
  destruct (modbus_receive_ok run_pipe p frame s Hload Hbytes) as (v & Hv & E). cbn zeta in E.
  change (part (st s)) with (a_modbus (st s)) in Hv, E. rewrite (ready_frame_cb _ R) in E. cbn [run_pipe] in E.
  pose proof (app_ready_frame s v (log s) Hv R) as R1. set (s1 := mk_sys _ _ _) in R1.
  destruct (crc16 frame =? 0).
  - apply (wp_eq _ _ _ _ _ E). eapply wp_mono.
    { apply (net_send_pipe_ok s1 p frame blk b u w); try done; lia. }
    cbn beta. intros ? s' (L & b' & rb' & Hp & M & S & W' & C). split; [|split; [done|exists b'; rewrite S; by split]].
    destruct s' as [l' h' x']. cbn [log mem st] in *. subst h' x'. by apply app_ready_ring.
  - eexists _, _. split; [exact E|]. split; [done|]. cbn [log mem]. rewrite app_nil_r. split; [done|]. by exists b.
Qed.

(** C3: when the application is ready and logged in, a receive interrupt moves
    the bytes waiting in the FIFO into the frame buffer; if their CRC is right
    they are sent, once and complete, as a UDP datagram to the last known peer
    and put after the bytes waiting for the TCP connection, cut off where the
    ring has no more cells; but if they fill it to its last cell, the ring reads as
    empty, and all that waited for TCP is lost with them ([ring_after]).  If the
    CRC is not right they go nowhere.  The application stays ready. *)
Theorem frame_reaches_network s b u w :
  app_ready s ->
  let rb := tcp_rb_send (a_tcp (st s)) in
  rb_wf (mem s) rb b -> isConnectServer (a_tcp (st s)) = true ->
  proto_udp (a_udp (st s)) = Some u -> word_of_bytes (udp_remote_ip u) = Some w ->
  let v0 := u32 (hw_read (log s) (UART_INT_ST UART0)) in
  let l1 := log s ++ [Rd (UART_INT_ST UART0) v0] in
  let v1 := u32 (hw_read l1 (UART_INT_ST UART1)) in
  let l2 := l1 ++ [Rd (UART_INT_ST UART1) v1] in
  let v2 := u32 (hw_read l2 (UART_STATUS UART0)) in
  has v0 UART_FRM_ERR_INT = false ->
  has v0 UART_RXFIFO_TOUT_INT || has v0 UART_RXFIFO_OVF_INT || has v0 UART_RXFIFO_FULL_INT = true ->
  has v1 UART_FRM_ERR_INT = false -> has v1 UART_TXFIFO_EMPTY_INT = false ->
  wp uart_interrupt s (λ _ s', app_ready s' /\ exists vs, zlen vs = rxfifo_cnt v2 /\
    log s' = l2 ++ [Rd (UART_STATUS UART0) v2] ++ (Rd (UART_FIFO UART0) <$> vs) ++ [Wr (UART_INT_CLR UART0) UART_RXFIFO_TOUT_INT] ++
      (if crc16 (rx_bytes vs) =? 0 then [Do (XlinkSendUdpPipe (rx_bytes vs) w (u16 (udp_remote_port u)))] else []) /\
    exists b', rb_wf (mem s') (tcp_rb_send (a_tcp (st s'))) b' /\
      rb_contents (tcp_rb_send (a_tcp (st s'))) b' =
        if crc16 (rx_bytes vs) =? 0 then ring_after rb b (rx_bytes vs) else rb_contents rb b).
Proof.
  intros R rb W Hc Hu Hw v0 l1 v1 l2 v2 F0 I0 F1 T1. destruct (ready_rx _ R) as (p & blk & Hp & Hb & Ho & Hz & Hne).
  unfold uart_interrupt, uart_intr_handler. apply wp_bind, wp_read. fold v0. apply wp_bind, wp_read. cbn [log mem st]. fold l1 v1 l2.
  rewrite F0, I0, F1, T1. apply wp_bind, wp_bind. eapply wp_mono.
  { apply (uart0_receive_ok _ p blk (len (a_rx (st s)))); cbn [log mem st]; [|done|lia..]. cbn. destruct (a_rx (st s)); cbn in *; congruence. }
  cbn beta. cbn [log mem st]. fold v2. intros ? s1 (vs & blk' & Hl & Hlog & Hm & Hwr & Hst).
  assert (Hr : 0 <= zlen vs < 256) by (rewrite Hl; unfold rxfifo_cnt, UART_RXFIFO_CNT; rewrite land_255; dlia).
  assert (Hzf : zlen (rx_bytes vs) = zlen vs) by (unfold zlen, rx_bytes; by rewrite length_fmap).
  pose proof (proj1 Hwr) as Hz'.
  assert (Hload : mem_load (mem s1) p (zlen (rx_bytes vs)) = Some (rx_bytes vs)).
  { rewrite Hm, (mem_load_Some _ _ _ blk') by (rewrite ?lookup_insert_eq; done || lia). f_equal. apply (wrote_view blk); [lia|done]. }
  apply wp_bind, wp_pvar. change (part (st s1)) with (a_uart (st s1)).
  assert (R1 : app_ready s1).
  { destruct R as [R1 R2 R3 R4 R5 R6 (b0 & R7) R8 R9 R10]. split; rewrite ?Hst, ?Hm; cbn; try done.
    - exists p, blk'. rewrite lookup_insert_eq. split_and!; try done. lia.
    - exists b0. by apply wf_other. }
  rewrite (ready_rx_cb _ R1). eapply wp_mono.
  { apply (run_rx_ok s1 p (rx_bytes vs) b u w); rewrite ?Hst, ?Hzf; cbn; try done; [by rewrite <- Hzf|apply rx_bytes_ok|lia|].
    rewrite Hm. by apply wf_other. }
  cbn beta. intros ? s2 (R2 & L & b' & W' & C). apply wp_ret. split; [done|]. exists vs. split; [done|].
  split; [by rewrite L, Hlog, <- !app_assoc|]. exists b'. split; [done|]. rewrite C, Hst. done.
Qed.

(** when the application is ready, what arrives from the server or from a
    phone is sent over the serial line, complete and in order, if its CRC is
    right, and not at all otherwise; nothing else happens and the application
    stays ready. *)
Theorem network_reaches_serial bound `{!TxDrains UART0 UART_TXFIFO_EMPTY_THRHD bound} s p frame :
  (bound < fuel)%nat -> app_ready s -> mem_load (mem s) p (zlen frame) = Some frame -> Forall is_byte frame ->
  zlen frame < 65536 -> forall pipe, pipe = user_tcp_pipe1_cb run_pipe \/ pipe = user_udp_pipe_cb run_pipe ->
  wp (pipe p (zlen frame)) s (λ _ s', app_ready s' /\ mem s' = mem s /\
    effects (log s') = effects (log s) ++ (if crc16 frame =? 0 then Wr (UART_FIFO UART0) <$> frame else [])).
Proof.
  intros Hf R Hload Hbytes Hlt pipe Hpipe. pose proof (zlen_nonneg frame) as Hz.
  assert (Run : wp (run_pipe fp_modbus_send p (zlen frame)) s (λ _ s', app_ready s' /\ mem s' = mem s /\
    effects (log s') = effects (log s) ++ (if crc16 frame =? 0 then Wr (UART_FIFO UART0) <$> frame else []))).
  { eapply wp_mono; [by apply (modbus_send_ok bound)|]. cbn beta. intros ? s' (E & M & v & Hv & S). split; [|done].
    destruct s' as [l' h' x']. cbn [log mem st] in *. subst h' x'. by apply app_ready_frame. }
  destruct Hpipe as [->| ->]; apply wp_bind, wp_pvar.
  - change (part (st s)) with (a_tcp (st s)). rewrite (ready_tcp_cb _ R), u16_small by lia. exact Run.
  - change (part (st s)) with (a_udp (st s)). rewrite (ready_udp_cb _ R), u16_small by lia. exact Run.
Qed.


(** ** After a short key press *)

(** The key is pressed, and the SDK reports the closed connection before the session ends. *)
Definition key_press_closes : F app unit := user_key_short_press ;; user_tcp_disconnect_cb ;; user_smartconfig_timeout_cb.

(** The client believes to know the server, but no connection is requested and no lookup runs. *)
Definition stalled s : Prop :=
  isDnsFound (a_tcp (st s)) = true /\ connecting (log s) = false /\ armed t_dns (log s) = false.

Lemma loop_stalled s : (forall l, u8 (u32 (sdk_ret l wifi_get_opmode)) = STATION_MODE) -> stalled s ->
  lp (user_tcp_func_process tcp_send_buffer) s (λ _ s', stalled s').
Proof.
  intros On (Hd & Hc & Ht). unfold user_tcp_func_process. repeat lp_step. rewrite On. cbn [Z.eqb STATION_MODE Pos.eqb]. repeat lp_step.
  destruct (_ && _); repeat lp_step; rewrite ?part_set in *.
  - exfalso. match goal with H : _ && negb _ = true |- _ => change (part (st s)) with (a_tcp (st s)) in H; rewrite Hd, andb_false_r in H; discriminate end.
  - eapply lp_mono; [apply send_loop_quiet|]. cbn beta. cbn [log mem st]. intros ? s' ((_ & _ & D) & _ & T & C). logs.
    split_and!; [by rewrite <- Hd|by rewrite C|by rewrite T].
  - split_and!; cbn [log]; [done|by logs..].
Qed.

(** C39: a short key press closes the connection and starts smartconfig; if the
    SDK reports the closed connection while smartconfig is still running,
    [user_tcp_reconnect] does nothing and forgets it: [isDnsFound] stays set,
    so that after the session, in station mode, however often the periodic
    loop runs, it neither connects nor looks the server up again. *)
Theorem smartconfig_stalls_client s0 s1 s2 :
  (forall l, u8 (u32 (sdk_ret l wifi_get_opmode)) = STATION_MODE) ->
  isDnsFound (a_tcp (st s0)) = true -> armed t_dns (log s0) = false ->
  key_press_closes s0 = Some (tt, s1) ->
  rtc (λ s s', user_tcp_func_process tcp_send_buffer s = Some (tt, s')) s1 s2 ->
  smartconfig_status (a_sc (st s1)) = false /\ stalled s2.
Proof.
  intros On Hd Ht E R. assert (L : lp key_press_closes s0
    (λ _ s, smartconfig_status (a_sc (st s)) = false /\ stalled s)).
  { unfold key_press_closes, user_key_short_press, user_tcp_disconnect, user_smartconfig_start, user_tcp_disconnect_cb, user_smartconfig_timeout_cb,
      set_server_status, user_tcp_reconnect, user_smartconfig_status. repeat lp_step.
    all: cbn; repeat lp_step; split; [done|]; split_and!; cbn [log]; [done|by logs..]. }
  destruct (L _ _ E) as [Hs St]. split; [done|]. clear E L Hs. induction R as [|s s' s3 E R IH]; [done|]. apply IH. exact (loop_stalled _ On St _ _ E).
Qed.

End App.

(** ** The theorems at concrete inputs *)

#[local] Instance sample_alloc : Alloc.
Proof.
  refine (mk_alloc (λ h _, Some (fresh (dom h : gset positive))) _). intros h n p [= <-].
  apply not_elem_of_dom, is_fresh.
Defined.
#[local] Instance sample_peer : Peer := λ _, ([192; 168; 0; 7], 6000).
#[local] Instance sample_libraries : Libraries := (true, true, true).

(** The storage of the ring, and the frame buffer holding the sample request. *)
Definition sample_memory : heap :=
  <[1%positive := replicate 1024 0]> (<[2%positive := sample_request ++ replicate 248 0]> ∅).

(** The application running: connected, logged in, the phone's address known. *)
Definition sample_app : app := mk_app net_initial user_config_initial
  (mk_tcp (Some (mk_esp_tcp 5001 23778 [1; 2; 3; 4])) (mk_ringbuf (mk_ptr 1 0) 0 0 1024 false) 0 true false true 0 (Some fp_modbus_send))
  (mk_udp (Some (mk_esp_udp 5987 6000 [192; 168; 0; 7])) (Some fp_modbus_send)) sc_initial (mk_keys 0 [])
  (mk_uart (Some fp_modbus_receive) None None) (mk_rx (Some (mk_ptr 2 0)) 0) (mk_modbus 0xFF 0xFF 0 (Some fp_user_net_send_pipe)).
Definition sample_state : sys app := mk_sys [] sample_memory sample_app.

Lemma sample_ready : app_ready (mk_ptr 1 0) sample_state.
Proof.
  split; try done.
  - exists (mk_ptr 2 0), (sample_request ++ replicate 248 0). by split_and!.
  - exists (replicate 1024 0). split; try done; cbn; lia.
  - by eexists _, _.
Qed.
Lemma sample_ring_ok : rb_wf sample_memory (mk_ringbuf (mk_ptr 1 0) 0 0 1024 false) (replicate 1024 0).
Proof. split; try done; cbn; lia. Qed.

(** The sample request waits in the FIFO, and the receive time-out is pending. *)
Definition request_waiting : Env := mk_env
  (λ l a, if a =? UART_INT_ST UART0 then UART_RXFIFO_TOUT_INT else if a =? UART_STATUS UART0 then 8
          else if a =? UART_FIFO UART0 then
            nthZ sample_request (zlen (List.filter (λ e, match e with Rd a' _ => a' =? UART_FIFO UART0 | _ => false end) l))
          else 0) (λ _ _, 0).

(** The request on its way: it arrives at the phone. *)
Example sample_request_arrives :
  match @uart_interrupt request_waiting 1 sample_state with Some (_, s) => reverse (log s) !! 0%nat | None => None end =
    Some (Do (XlinkSendUdpPipe sample_request 117483712 6000)).
Proof. vm_compute. reflexivity. Qed.

Lemma frame_reaches_network_witness :
  wp (@uart_interrupt request_waiting 1) sample_state (λ _ s', app_ready (mk_ptr 1 0) s' /\
    exists vs, zlen vs = 8 /\ exists b', rb_contents (tcp_rb_send (a_tcp (st s'))) b' =
      if crc16 (rx_bytes vs) =? 0 then rx_bytes vs else []).
Proof.
  eapply wp_mono.
  - apply (@frame_reaches_network request_waiting (mk_ptr 1 0) 1 sample_state
      (replicate 1024 0) (mk_esp_udp 5987 6000 [192; 168; 0; 7]) 117483712 sample_ready sample_ring_ok); reflexivity.
  - cbn beta. intros ? s' (R & vs & Hl & _ & b' & _ & C). split; [exact R|]. exists vs.
    assert (Hv : zlen vs = 8) by (rewrite Hl; reflexivity). split; [exact Hv|]. exists b'. rewrite C.
    destruct (crc16 (rx_bytes vs) =? 0); [|reflexivity]. unfold ring_after.
    assert (Hz : zlen (rx_bytes vs) = 8) by (unfold zlen, rx_bytes; rewrite length_fmap; exact Hv). rewrite Hz.
    transitivity (take 8 (rx_bytes vs)); [reflexivity|]. apply take_ge. unfold zlen in Hz. lia.
Defined.

Lemma network_reaches_serial_witness :
  wp (@user_udp_pipe_cb app _ (@run_pipe idle_uart 1) (mk_ptr 2 0) 8) sample_state
    (λ _ s', effects (log s') = Wr (UART_FIFO UART0) <$> sample_request).
Proof.
  eapply wp_mono.
  - apply (@network_reaches_serial idle_uart (mk_ptr 1 0) 1 0 _ sample_state (mk_ptr 2 0) sample_request
      ltac:(lia) sample_ready eq_refl sample_request_bytes eq_refl). by right.
  - cbn beta. intros ? s' (_ & _ & E). rewrite sample_request_crc in E. exact E.
Defined.

Lemma app_init_ready_witness :
  wp (app_init (H := silent_world) (mk_ptr 1 0))
    (mk_sys [] (<[1%positive := replicate 1024 0]> ∅) (app_initial (mk_ptr 1 0)))
    (λ _ s', app_ready (mk_ptr 1 0) s' /\ smartconfig_status (a_sc (st s')) = false).
Proof.
  eapply wp_mono.
  - apply (app_init_ready (H := silent_world) (mk_ptr 1 0) [] (<[1%positive := replicate 1024 0]> ∅)
      (replicate 1024 0) 2%positive (mk_ptr 1 0)); reflexivity.
  - cbn beta. intros ? s' (R & _ & _ & _ & S & _). split; [exact R|exact S].
Defined.

(** A station with an address; nothing else answers. *)
Definition station_online : Env := mk_env (λ _ _, 0) (λ _ c,
  match c with wifi_get_opmode => 1 | wifi_station_get_connect_status => 5 | wifi_get_ip_info _ => 0x0700A8C0 | _ => 0 end).

(** Started; the server is not known yet. *)
Definition started_app : sys app := mk_sys [] sample_memory (sample_app <| a_tcp := (a_tcp sample_app) <| isDnsFound := false |> <| isConnectServer := false |> |>).

Lemma tcp_client_alive_witness :
  (exists s', tcp_handle (H := station_online) (mk_ptr 1 0) (Status XLINK_WIFI_STA_DISCONNCT_SERVER) started_app = Some (tt, s')) /\
  exists s', tcp_handle (H := station_online) (mk_ptr 1 0) XlinkLoop started_app = Some (tt, s') /\
    flag_dns_discovery (a_tcp (st s')) = true /\ armed t_dns (log s') = true.
Proof.
  destruct (tcp_client_alive (H := station_online) (mk_ptr 1 0) started_app started_app) as (_ & C & L).
  - reflexivity.
  - by split_and!.
  - discriminate.
  - constructor.
  - split; [by apply C|]. destruct L as [L _]; [|reflexivity|reflexivity|apply L; by left].
    intros l. split_and!; [reflexivity|reflexivity|discriminate].
Defined.

Definition after (r : option (unit * sys app)) : sys app := match r with Some (_, s) => s | None => sample_state end.
Lemma after_eq r : is_Some r -> r = Some (tt, after r).
Proof. intros [[[] s] ->]. done. Qed.
Lemma key_press_runs : is_Some (key_press_closes sample_state).
Proof. destruct (key_press_closes sample_state) eqn:E; [done|]. vm_compute in E. discriminate E. Qed.
Lemma round_runs : is_Some (user_tcp_func_process (H := station_online) (mk_ptr 1 0) (after (key_press_closes sample_state))).
Proof. destruct (user_tcp_func_process _ _) eqn:E; [done|]. vm_compute in E. discriminate E. Qed.

Lemma smartconfig_stalls_client_witness :
  exists s1 s2, key_press_closes sample_state = Some (tt, s1) /\
    user_tcp_func_process (H := station_online) (mk_ptr 1 0) s1 = Some (tt, s2) /\
    smartconfig_status (a_sc (st s1)) = false /\ stalled s2.
Proof.
  pose proof (after_eq _ key_press_runs) as E1. pose proof (after_eq _ round_runs) as E2.
  eexists _, _. split; [exact E1|]. split; [exact E2|].
  apply (smartconfig_stalls_client (H := station_online) (mk_ptr 1 0) sample_state); [reflexivity|reflexivity|reflexivity|exact E1|].
  apply rtc_once. exact E2.
Defined.

Lemma udp_reply_returns_witness :
  wp (@user_udp_recv_cb silent_world sample_peer app _ _ (Some [1; 2; 3]) 3) sample_state
    (λ _ s1, log s1 = [Got (espconn_get_connection_info user_udp_server) 0] ++
      (if has_process_udp_data (a_config (st s1)) then [Do (process_udp_data [1; 2; 3] 3 117483712 6000)] else [])).
Proof.
  eapply wp_mono.
  - apply (@udp_reply_returns silent_world sample_peer app _ _ sample_state [1; 2; 3] 3 (mk_esp_udp 5987 6000 [192; 168; 0; 7])
      [192; 168; 0; 7] 6000 117483712); try reflexivity; [|lia]. repeat (apply Forall_cons_2; [unfold is_byte; lia|]). done.
  - cbn beta. intros ? s1 (L & _). exact L.
Defined.
