(* ===== verification/MqttConfig.v ===== *)
(** * MqttConfig: the stored configuration of the MQTT example

    esp_mqtt_proj/modules/config.c with config.h and mqtt_config.h: two copies
    of the configuration in flash, a flag in a third sector that says which one
    counts, and what a power failure at any moment leaves. *)

From Stdlib Require Import String.
From stdpp Require Import gmap.
From S2P Require Import Prelude CMem Board UartDriver.
Local Open Scope string_scope.
Local Open Scope Z_scope.
Local Open Scope sm_scope.
Local Open Scope list_scope.

(** include/mqtt_config.h and include/user_interface.h *)
Definition CFG_HOLDER : Z := 0x00FF55A4.
Definition CFG_LOCATION : Z := 0x79.
Definition MQTT_HOST : string := "192.168.1.100".
Definition MQTT_PORT : Z := 1883.
Definition MQTT_KEEPALIVE : Z := 120.
Definition MQTT_USER : string := "DVES_USER".
Definition MQTT_PASS : string := "DVES_PASS".
Definition STA_SSID : string := "DVES_HOME".
Definition STA_PASS : string := "yourpassword".
Definition AUTH_WPA2_PSK : Z := 3.
Definition STA_TYPE : Z := AUTH_WPA2_PSK.
Definition DEFAULT_SECURITY : Z := 0.

(** ** [SYSCFG]

    The structure is read from and written to flash as it lies in memory: a
    block of bytes, its members at their offsets, three bytes of padding last. *)

Definition SYSCFG_size : Z := 308.
Definition o_cfg_holder : Z := 0.
Definition o_device_id : Z := 4.
Definition o_sta_ssid : Z := 36.
Definition o_sta_pwd : Z := 100.
Definition o_sta_type : Z := 164.
Definition o_mqtt_host : Z := 168.
Definition o_mqtt_port : Z := 232.
Definition o_mqtt_user : Z := 236.
Definition o_mqtt_pass : Z := 268.
Definition o_mqtt_keepalive : Z := 300.
Definition o_security : Z := 304.

(** A [uint32_t] member. *)
Definition word_at (b : list Z) (o : Z) : Z :=
  nthZ b o + 256 * nthZ b (o + 1) + 65536 * nthZ b (o + 2) + 16777216 * nthZ b (o + 3).
Definition word_bytes (w : Z) : list Z := [w mod 256; w / 256 mod 256; w / 65536 mod 256; w / 16777216 mod 256].

(** [os_strncpy( dst, src, n )]: the string, cut to [n] bytes or padded with zeros to [n]. *)
Definition strncpy (b : list Z) (o : Z) (src : string) (n : Z) : option (list Z) :=
  let s := take (Z.to_nat n) (chars src) in
  bsplice b o (s ++ replicate (Z.to_nat (n - zlen s)) 0).

(** ["DVES_%08X"] *)
Definition hex_digit (d : Z) : Z := if d <? 10 then 48 + d else 55 + d.
Definition hex8 (w : Z) : list Z :=
  (λ k, hex_digit (Z.shiftr w (4 * k) mod 16)) <$> [7; 6; 5; 4; 3; 2; 1; 0].
Definition device_name (chip : Z) : list Z := chars "DVES_" ++ hex8 chip.

(** The part of [CFG_Load] that fills in the default configuration. *)
Definition default_config (chip : Z) : option (list Z) :=
  let b := replicate (Z.to_nat SYSCFG_size) 0 in
  b ← bsplice b o_cfg_holder (word_bytes CFG_HOLDER);
  b ← bsplice b o_device_id (device_name chip ++ [0]);
  b ← wr b (o_device_id + 32 - 1) 0;
  b ← strncpy b o_sta_ssid STA_SSID (64 - 1);
  b ← strncpy b o_sta_pwd STA_PASS (64 - 1);
  b ← bsplice b o_sta_type (word_bytes STA_TYPE);
  b ← strncpy b o_mqtt_host MQTT_HOST (64 - 1);
  b ← bsplice b o_mqtt_port (word_bytes MQTT_PORT);
  b ← strncpy b o_mqtt_user MQTT_USER (32 - 1);
  b ← strncpy b o_mqtt_pass MQTT_PASS (32 - 1);
  b ← wr b o_security DEFAULT_SECURITY;
  bsplice b o_mqtt_keepalive (word_bytes MQTT_KEEPALIVE).

(** ** The module *)

Record cfg_vars := mk_cfg { sysCfg : list Z; saveFlag : list Z }.
#[export] Instance eta_cfg : Settable cfg_vars := λ v, mk_cfg (sysCfg v) (saveFlag v).

(** The address of the sector [CFG_LOCATION + i]. *)
Definition cfg_addr (i : Z) : Z := (CFG_LOCATION + i) * SPI_FLASH_SEC_SIZE.

Section Config.
Context `{Env} `{Flash} {X : Type} `{PF : Part X cfg_vars}.

(** One branch of [CFG_Save]: the configuration into the sector
    [CFG_LOCATION + i], then the flag. *)
Definition save_copy (i flag : Z) : F X unit :=
  call (spi_flash_erase_sector (CFG_LOCATION + i)) ;;
  c <- pvar sysCfg ;;
  call (spi_flash_write (cfg_addr i) c) ;;
  f <- pvar saveFlag ;; f <- slift (wr f 0 flag) ;;
  pmodify (λ v, v <| saveFlag := f |>) ;;
  call (spi_flash_erase_sector (CFG_LOCATION + 3)) ;;
  call (spi_flash_write (cfg_addr 3) f).

Definition CFG_Save : F X unit :=
  f <- spi_flash_read (cfg_addr 3) 4 ;;
  pmodify (λ v, v <| saveFlag := f |>) ;;
  flag <- slift (rd f 0) ;;
  if flag =? 0 then save_copy 1 1 else save_copy 0 0.

Definition CFG_Load : F X unit :=
  f <- spi_flash_read (cfg_addr 3) 4 ;;
  pmodify (λ v, v <| saveFlag := f |>) ;;
  flag <- slift (rd f 0) ;;
  c <- spi_flash_read (cfg_addr (if flag =? 0 then 0 else 1)) SYSCFG_size ;;
  pmodify (λ v, v <| sysCfg := c |>) ;;
  if negb (word_at c o_cfg_holder =? CFG_HOLDER) then
    chip <- ask system_get_chip_id ;;
    d <- slift (default_config chip) ;;
    pmodify (λ v, v <| sysCfg := d |>) ;;
    CFG_Save
  else sret tt.
End Config.

(** ** What the flash does

    The documented behaviour of the SDK's flash functions: an erased sector
    reads 0xFF, bytes written to erased cells read back, and nothing else
    changes. *)

(** The sector an event works on. *)
Definition flash_sector (e : event) : option Z :=
  match e with
  | Do (spi_flash_erase_sector sec) => Some sec
  | Do (spi_flash_write a _) => Some (a / SPI_FLASH_SEC_SIZE)
  | _ => None
  end.

(** The [n] cells from [a] on lie in sector [sec]. *)
Definition in_sector (sec a n : Z) : Prop :=
  sec * SPI_FLASH_SEC_SIZE <= a /\ 0 <= n /\ a + n <= (sec + 1) * SPI_FLASH_SEC_SIZE.

Class NorFlash `{Flash} := {
  flash_len : forall l a n, 0 <= n -> zlen (spi_flash l a n) = n;
  flash_bytes : forall l a n, Forall is_byte (spi_flash l a n);
  flash_erased : forall l sec a n, in_sector sec a n ->
    spi_flash (l ++ [Do (spi_flash_erase_sector sec)]) a n = replicate (Z.to_nat n) 255;
  flash_written : forall l a d, in_sector (a / SPI_FLASH_SEC_SIZE) a (zlen d) -> Forall is_byte d ->
    spi_flash l a (zlen d) = replicate (length d) 255 -> spi_flash (l ++ [Do (spi_flash_write a d)]) a (zlen d) = d;
  flash_other : forall l e sec a n, in_sector sec a n -> flash_sector e <> Some sec ->
    (forall a' d, e = Do (spi_flash_write a' d) -> in_sector (a' / SPI_FLASH_SEC_SIZE) a' (zlen d)) ->
    spi_flash (l ++ [e]) a n = spi_flash l a n }.

(** The configuration a flash with contents [c] holds. *)
Definition stored (c : Z -> Z -> list Z) : list Z :=
  c (cfg_addr (if nthZ (c (cfg_addr 3) 4) 0 =? 0 then 0 else 1)) SYSCFG_size.

(** What a power failure during the operations [ops] may leave: those before some [e] were carried out, [e] itself
    was cut short and may have left anything in its sector. *)
Definition interrupted `{Flash} (l ops : list event) (c : Z -> Z -> list Z) : Prop :=
  (forall a n, 0 <= n -> zlen (c a n) = n) /\
  exists m e, ops !! m = Some e /\
    forall sec a n, in_sector sec a n -> flash_sector e <> Some sec -> c a n = spi_flash (l ++ take m ops) a n.

Definition config_ok (b : list Z) : Prop := zlen b = SYSCFG_size /\ Forall is_byte b /\ word_at b o_cfg_holder = CFG_HOLDER.

Section Laws.
Context `{Env} `{!Flash} `{!NorFlash} {X : Type} `{PF : Part X cfg_vars}.
Implicit Types s : sys X.

Lemma cfg_in_sector i n : 0 <= n <= 4096 -> in_sector (CFG_LOCATION + i) (cfg_addr i) n.
Proof. unfold in_sector, cfg_addr, SPI_FLASH_SEC_SIZE, CFG_LOCATION. lia. Qed.
Lemma cfg_addr_sector i : cfg_addr i / SPI_FLASH_SEC_SIZE = CFG_LOCATION + i.
Proof. unfold cfg_addr. apply Z.div_mul. done. Qed.

(** What is written to sector [CFG_LOCATION + i] after erasing it reads back, and no other sector changes. *)
Lemma rewritten l i d : zlen d <= 4096 -> Forall is_byte d ->
  spi_flash ((l ++ [Do (spi_flash_erase_sector (CFG_LOCATION + i))]) ++ [Do (spi_flash_write (cfg_addr i) d)]) (cfg_addr i) (zlen d) = d.
Proof.
  intros Hd Hb. pose proof (zlen_nonneg d). apply flash_written; [rewrite cfg_addr_sector; by apply cfg_in_sector|done|].
  rewrite flash_erased by (by apply cfg_in_sector). unfold zlen. by rewrite Nat2Z.id.
Qed.

Lemma erase_other l sec sec' a n : in_sector sec a n -> sec' <> sec ->
  spi_flash (l ++ [Do (spi_flash_erase_sector sec')]) a n = spi_flash l a n.
Proof. intros Hs Hne. eapply flash_other; [exact Hs|cbn; congruence|done]. Qed.
Lemma write_other l sec i d a n : in_sector sec a n -> CFG_LOCATION + i <> sec -> zlen d <= 4096 ->
  spi_flash (l ++ [Do (spi_flash_write (cfg_addr i) d)]) a n = spi_flash l a n.
Proof.
  intros Hs Hne Hd. pose proof (zlen_nonneg d). eapply flash_other; [exact Hs|cbn; rewrite cfg_addr_sector; congruence|].
  intros a' d' [= <- <-]. rewrite cfg_addr_sector. by apply cfg_in_sector.
Qed.

Lemma bsplice_bytes b o src b' : Forall is_byte b -> Forall is_byte src -> bsplice b o src = Some b' -> Forall is_byte b'.
Proof.
  intros Hb Hs. unfold bsplice. destruct (_ && _); [|discriminate]. intros [= <-].
  apply Forall_app_2; [by apply Forall_take|]. apply Forall_app_2; [done|by apply Forall_drop].
Qed.

(** The four operations of a save. *)
Definition save_ops (i : Z) (c f : list Z) : list event :=
  [Do (spi_flash_erase_sector (CFG_LOCATION + i)); Do (spi_flash_write (cfg_addr i) c);
   Do (spi_flash_erase_sector (CFG_LOCATION + 3)); Do (spi_flash_write (cfg_addr 3) f)].

Lemma save_copy_ok i flag s (Q : unit -> sys X -> Prop) :
  zlen (saveFlag (part (st s))) = 4 -> Forall is_byte (saveFlag (part (st s))) -> is_byte flag ->
  (forall f s', zlen f = 4 -> Forall is_byte f -> nthZ f 0 = flag ->
    log s' = log s ++ save_ops i (sysCfg (part (st s))) f -> sysCfg (part (st s')) = sysCfg (part (st s)) -> Q tt s') ->
  wp (save_copy i flag) s Q.
Proof.
  intros Hz Hb Hf HQ. destruct (wr_Some (saveFlag (part (st s))) 0 flag) as (f & E & Hzf & Hn); [lia|].
  assert (Hbf : Forall is_byte f) by (apply (bsplice_bytes _ 0 [flag] _ Hb); [by apply Forall_cons_2|exact E]).
  unfold save_copy.
  repeat first [apply wp_bind; first [apply wp_call|apply wp_pvar|apply wp_pmodify|apply (wp_lift _ _ _ _ E)]|apply wp_call];
    apply (HQ f); [lia|done|by rewrite Hn| |]; cbn [log st].
  - unfold save_ops. by rewrite <- !app_assoc.
  - by rewrite part_set.
Qed.

(** A save puts the configuration in the copy that does not count, and makes it count. *)
Lemma CFG_Save_ok s (Q : unit -> sys X -> Prop) :
  (forall i f s', (i = 1 /\ nthZ (spi_flash (log s) (cfg_addr 3) 4) 0 = 0 \/ i = 0 /\ nthZ (spi_flash (log s) (cfg_addr 3) 4) 0 <> 0) ->
    zlen f = 4 -> Forall is_byte f -> nthZ f 0 = i ->
    log s' = log s ++ save_ops i (sysCfg (part (st s))) f -> sysCfg (part (st s')) = sysCfg (part (st s)) -> Q tt s') ->
  wp CFG_Save s Q.
Proof.
  intros HQ. pose proof (flash_len (log s) (cfg_addr 3) 4 ltac:(lia)) as Hz.
  pose proof (flash_bytes (log s) (cfg_addr 3) 4) as Hb.
  unfold CFG_Save, spi_flash_read. apply wp_bind, wp_bind, wp_get, wp_ret, wp_bind, wp_pmodify, wp_bind.
  eapply wp_lift; [apply rd_Some; lia|].
  set (s1 := mk_sys _ _ _).
  assert (E1 : saveFlag (part (st s1)) = spi_flash (log s) (cfg_addr 3) 4) by (unfold s1; cbn [st]; by rewrite part_set).
  assert (E2 : sysCfg (part (st s1)) = sysCfg (part (st s))) by (unfold s1; cbn [st]; by rewrite part_set).
  assert (E3 : log s1 = log s) by done. clearbody s1.
  destruct (Z.eqb_spec (nthZ (spi_flash (log s) (cfg_addr 3) 4) 0) 0);
    (apply save_copy_ok; [by rewrite E1|by rewrite E1|unfold is_byte; lia|]);
    intros f s' ? ? ? L C; rewrite E2 in L, C; rewrite E3 in L; (eapply HQ; [|done..|exact L|exact C]); lia.
Qed.

(** The other copy is not touched by a save, nor is the flag by its first two operations. *)
Lemma save_keeps l i c f k n m : 0 <= n <= 4096 -> zlen c <= 4096 -> zlen f = 4 -> k <> i -> (k <> 3 \/ (m <= 2)%nat) ->
  spi_flash (l ++ take m (save_ops i c f)) (cfg_addr k) n = spi_flash l (cfg_addr k) n.
Proof.
  intros Hn Hc Hf Hk H3. pose proof (cfg_in_sector k n Hn) as Hs.
  assert (E1 : forall l', spi_flash (l' ++ [Do (spi_flash_erase_sector (CFG_LOCATION + i))]) (cfg_addr k) n = spi_flash l' (cfg_addr k) n)
    by (intros; eapply erase_other; [done|lia]).
  assert (E2 : forall l', spi_flash (l' ++ [Do (spi_flash_write (cfg_addr i) c)]) (cfg_addr k) n = spi_flash l' (cfg_addr k) n)
    by (intros; eapply write_other; [done|lia|done]).
  assert (E3 : k <> 3 -> forall l', spi_flash (l' ++ [Do (spi_flash_erase_sector (CFG_LOCATION + 3))]) (cfg_addr k) n = spi_flash l' (cfg_addr k) n)
    by (intros; eapply erase_other; [done|lia]).
  assert (E4 : k <> 3 -> forall l', spi_flash (l' ++ [Do (spi_flash_write (cfg_addr 3) f)]) (cfg_addr k) n = spi_flash l' (cfg_addr k) n)
    by (intros; eapply write_other; [done|lia|lia]).
  destruct m as [|[|[|[|m]]]]; unfold save_ops; cbn [take]; rewrite ?take_nil; rewrite ?(app_nil_r l);
    repeat match goal with |- context [?a :: ?b :: ?t] => change (a :: b :: t) with ([a] ++ (b :: t)) end;
    rewrite ?(app_assoc _ [_]), ?E1, ?E2; try done;
    rewrite ?E4, ?E3, ?E2, ?E1 by lia; done.
Qed.

(** The copy being saved is there once its two operations are done. *)
Lemma save_done l i c f m : zlen c <= 4096 -> Forall is_byte c -> zlen f = 4 -> i <> 3 -> (2 <= m)%nat ->
  spi_flash (l ++ take m (save_ops i c f)) (cfg_addr i) (zlen c) = c.
Proof.
  intros Hc Hb Hf Hi Hm. pose proof (zlen_nonneg c). pose proof (cfg_in_sector i (zlen c) ltac:(lia)) as Hs.
  destruct m as [|[|[|[|m]]]]; try lia; unfold save_ops; cbn [take]; rewrite ?take_nil;
    repeat match goal with |- context [?a :: ?b :: ?t] => change (a :: b :: t) with ([a] ++ (b :: t)) end;
    rewrite ?(app_assoc _ [_]).
  - by apply rewritten.
  - rewrite (erase_other _ _ _ _ _ Hs) by lia. by apply rewritten.
  - rewrite (write_other _ _ _ _ _ _ Hs) by lia. rewrite (erase_other _ _ _ _ _ Hs) by lia. by apply rewritten.
Qed.

Lemma save_flag l i c f : zlen f = 4 -> Forall is_byte f ->
  spi_flash (l ++ save_ops i c f) (cfg_addr 3) 4 = f.
Proof.
  intros Hf Hb. unfold save_ops.
  repeat match goal with |- context [?a :: ?b :: ?t] => change (a :: b :: t) with ([a] ++ (b :: t)) end.
  rewrite ?(app_assoc _ [_]). rewrite <- Hf. apply rewritten; [lia|done].
Qed.

Lemma stored_new l i c f : zlen c = SYSCFG_size -> Forall is_byte c -> zlen f = 4 -> Forall is_byte f ->
  nthZ f 0 = i -> i = 0 \/ i = 1 -> stored (spi_flash (l ++ save_ops i c f)) = c.
Proof.
  intros Hc Hb Hf Hbf Hn Hi. unfold stored. rewrite save_flag by done. rewrite Hn.
  replace (if i =? 0 then 0 else 1) with i by (destruct Hi as [E|E]; rewrite E; done).
  rewrite <- Hc. rewrite <- (take_ge (save_ops i c f) 4) by (cbn; lia). apply save_done; unfold SYSCFG_size in *; try done; lia.
Qed.

Lemma stored_interrupted l i c f k : zlen c = SYSCFG_size -> Forall is_byte c -> zlen f = 4 ->
  i = 1 /\ nthZ (spi_flash l (cfg_addr 3) 4) 0 = 0 \/ i = 0 /\ nthZ (spi_flash l (cfg_addr 3) 4) 0 <> 0 ->
  interrupted l (save_ops i c f) k -> stored k = stored (spi_flash l) \/ stored k = c.
Proof.
  intros Hc Hb Hf Hi (_ & m & e & Hm & Hk). unfold SYSCFG_size in *.
  set (j := if nthZ (spi_flash l (cfg_addr 3) 4) 0 =? 0 then 0 else 1).
  assert (Hj : (j = 0 \/ j = 1) /\ j <> i /\ (i = 0 \/ i = 1))
    by (unfold j; destruct Hi as [[-> E]|[-> E]]; destruct (Z.eqb_spec (nthZ (spi_flash l (cfg_addr 3) 4) 0) 0); lia).
  assert (Hold : flash_sector e <> Some (CFG_LOCATION + j) -> k (cfg_addr j) 308 = spi_flash l (cfg_addr j) 308).
  { intros He. rewrite (Hk _ _ _ (cfg_in_sector j 308 ltac:(lia)) He). apply save_keeps; lia. }
  assert (Hsec : flash_sector e = Some (CFG_LOCATION + i) /\ (m < 2)%nat \/ flash_sector e = Some (CFG_LOCATION + 3) /\ (2 <= m)%nat).
  { destruct m as [|[|[|[|m]]]]; cbn in Hm; try done; injection Hm as <-; cbn; rewrite ?cfg_addr_sector;
      [left|left|right|right]; split; done || lia. }
  destruct Hsec as [[He Hlt]|[He Hge]].
  - left. unfold stored. rewrite (Hk _ _ _ (cfg_in_sector 3 4 ltac:(lia))) by (rewrite He; intros [=]; lia).
    rewrite save_keeps by lia. fold j. apply Hold. rewrite He. intros [=]. lia.
  - assert (Hnew : k (cfg_addr i) 308 = c).
    { rewrite (Hk _ _ _ (cfg_in_sector i 308 ltac:(lia))) by (rewrite He; intros [=]; lia).
      rewrite <- Hc. apply save_done; done || lia. }
    assert (Ho : k (cfg_addr j) 308 = spi_flash l (cfg_addr j) 308) by (apply Hold; rewrite He; intros [=]; lia).
    unfold stored, SYSCFG_size. fold j. set (x := if nthZ (k (cfg_addr 3) 4) 0 =? 0 then 0 else 1).
    assert (Hx : x = 0 \/ x = 1) by (unfold x; destruct (nthZ (k _ _) 0 =? 0); auto). clearbody x j.
    assert (x = i \/ x = j) as [->| ->] by lia; auto.
Qed.
End Laws.

Section Loading.
Context `{Env} `{!Flash} {X : Type} `{PF : Part X cfg_vars}.
Implicit Types s : sys X.

(** What a load reads before it looks at the holder. *)
Lemma CFG_Load_reads s (Q : unit -> sys X -> Prop) :
  zlen (spi_flash (log s) (cfg_addr 3) 4) = 4 ->
  (forall s', log s' = log s -> sysCfg (part (st s')) = stored (spi_flash (log s)) ->
    wp (if negb (word_at (stored (spi_flash (log s))) o_cfg_holder =? CFG_HOLDER) then
          chip <- ask system_get_chip_id ;; d <- slift (default_config chip) ;; pmodify (λ v, v <| sysCfg := d |>) ;; CFG_Save
        else sret tt) s' Q) -> wp CFG_Load s Q.
Proof.
  intros Hz HQ. unfold CFG_Load, spi_flash_read.
  apply wp_bind, wp_bind, wp_get, wp_ret, wp_bind, wp_pmodify, wp_bind. eapply wp_lift; [apply rd_Some; lia|].
  apply wp_bind, wp_bind, wp_get, wp_ret, wp_bind, wp_pmodify. apply HQ; [done|]. cbn [st log]. by rewrite !part_set.
Qed.

Lemma CFG_Load_valid s (Q : unit -> sys X -> Prop) :
  zlen (spi_flash (log s) (cfg_addr 3) 4) = 4 -> word_at (stored (spi_flash (log s))) o_cfg_holder = CFG_HOLDER ->
  (forall s', log s' = log s -> sysCfg (part (st s')) = stored (spi_flash (log s)) -> Q tt s') -> wp CFG_Load s Q.
Proof.
  intros Hz Hw HQ. apply CFG_Load_reads; [done|]. intros s' L C. rewrite Hw, Z.eqb_refl. apply wp_ret. by apply HQ.
Qed.
End Loading.

Lemma hex_digit_byte d : 0 <= d < 16 -> is_byte (hex_digit d).
Proof. intros. unfold hex_digit, is_byte. destruct (Z.ltb_spec d 10); lia. Qed.
Lemma hex8_bytes w : length (hex8 w) = 8%nat /\ Forall is_byte (hex8 w).
Proof.
  split; [done|]. unfold hex8. apply Forall_fmap, Forall_forall. intros k _. apply hex_digit_byte.
  apply Z.mod_pos_bound. lia.
Qed.

(** The default configuration fits its fields and is valid. *)
Lemma default_config_ok chip : exists d, default_config chip = Some d /\ config_ok d.
Proof.
  unfold default_config, device_name. destruct (hex8_bytes chip) as [Hl Hb]. revert Hl Hb. generalize (hex8 chip).
  intros l Hl Hb. do 8 (destruct l as [|?x l]; [done|]). destruct l; [|done].
  repeat match goal with H : Forall _ (_ :: _) |- _ => apply Forall_cons_1 in H as [? H] end.
  eexists. split; [vm_compute; reflexivity|]. split; [reflexivity|]. split; [|reflexivity].
  repeat (apply Forall_cons_2; [first [assumption|unfold is_byte; lia]|]). apply Forall_nil_2.
Qed.

(** What a load leaves, in the flash and in memory. *)
Definition loaded `{Env} `{!Flash} {X} `{Part X cfg_vars} (s s' : sys X) : Prop :=
  let c := sysCfg (part (st s')) in
  c = stored (spi_flash (log s')) /\ config_ok c /\
  if word_at (stored (spi_flash (log s))) o_cfg_holder =? CFG_HOLDER then
    log s' = log s /\ c = stored (spi_flash (log s))
  else default_config (u32 (sdk_ret (log s) system_get_chip_id)) = Some c.

Lemma CFG_Load_loads `{Env} `{!Flash} `{!NorFlash} {X} `{PF : Part X cfg_vars} (s : sys X) :
  wp CFG_Load s (λ _ s', loaded s s').
Proof.
  pose proof (flash_len (log s) (cfg_addr 3) 4 ltac:(lia)) as Hz.
  apply CFG_Load_reads; [done|]. intros s1 L C. unfold loaded.
  destruct (Z.eqb_spec (word_at (stored (spi_flash (log s))) o_cfg_holder) CFG_HOLDER) as [Hw|Hw]; cbn [negb].
  - apply wp_ret. rewrite L, C. split; [done|]. split; [|done].
    split; [by apply flash_len|]. split; [apply flash_bytes|done].
  - apply wp_bind, wp_ask, wp_bind. rewrite L. destruct (default_config_ok (u32 (sdk_ret (log s) system_get_chip_id))) as (d & E & Hd).
    apply (wp_lift _ _ _ _ E). apply wp_bind, wp_pmodify, CFG_Save_ok.
    cbn [log st]. rewrite part_set. intros i f s' Hi Hf Hbf Hn L' C'. cbn [set_field sysCfg] in L', C'.
    pose proof Hd as (Hz' & Hb & Hh). rewrite L', C'. split; [symmetry|split; [exact Hd|exact E]].
    apply stored_new; [exact Hz'|exact Hb|exact Hf|exact Hbf|exact Hn|lia].
Qed.

(** Loading never gets stuck, whatever the flash holds. If the copy that counts carries the
    holder, it is loaded and nothing is written; otherwise the defaults are loaded, with the chip
    number in the device name, and stored, so that the next load finds them. *)
Theorem config_load_total `{Env} `{!Flash} `{!NorFlash} (s : sys cfg_vars) :
  exists s', CFG_Load s = Some (tt, s') /\ loaded s s'.
Proof. destruct (CFG_Load_loads s) as ([] & s' & E & L). eauto. Qed.

(** C8: A save cannot lose the configuration. After it the new one is stored; and if power fails
    at any point of it, during an erase or a write, whatever that leaves in the sector being worked
    on, the next start loads the old configuration or the new one, complete, and never the defaults. *)
Theorem config_survives_power_failure `{Env} `{!Flash} `{!NorFlash} (s : sys cfg_vars) (old : list Z) :
  stored (spi_flash (log s)) = old -> config_ok old -> config_ok (sysCfg (st s)) ->
  exists s' ops, CFG_Save s = Some (tt, s') /\ log s' = log s ++ ops /\
    stored (spi_flash (log s')) = sysCfg (st s) /\
    forall c, interrupted (log s) ops c -> forall (after : Flash) (s2 : sys cfg_vars), after (log s2) = c ->
      exists s3, CFG_Load s2 = Some (tt, s3) /\ log s3 = log s2 /\
        (sysCfg (st s3) = old \/ sysCfg (st s3) = sysCfg (st s)).
Proof.
  intros Ho Hold (Hz & Hb & Hh).
  destruct (CFG_Save_ok s (λ _ s', exists ops, log s' = log s ++ ops /\ stored (spi_flash (log s')) = sysCfg (st s) /\
    forall c, interrupted (log s) ops c -> stored c = old \/ stored c = sysCfg (st s)))
    as ([] & s' & E & ops & L & S & I).
  { intros i f s' Hi Hf Hbf Hn L C. exists (save_ops i (sysCfg (st s)) f). rewrite L. split; [done|].
    split; [apply stored_new; [exact Hz|exact Hb|exact Hf|exact Hbf|exact Hn|lia]|]. intros c. rewrite <- Ho. by apply stored_interrupted. }
  exists s', ops. split; [done|]. split; [done|]. split; [done|]. intros c Hi after s2 <-.
  pose proof (I _ Hi) as Hst. destruct Hi as [Hlen _].
  assert (Hw : word_at (stored (after (log s2))) o_cfg_holder = CFG_HOLDER) by (destruct Hst as [-> | ->]; [apply Hold|done]).
  destruct (@CFG_Load_valid _ after _ _ s2 (λ _ s3, log s3 = log s2 /\ sysCfg (st s3) = stored (after (log s2)))) as ([] & s3 & E3 & L3 & C3).
  - apply Hlen. lia.
  - exact Hw.
  - intros s3 L3 C3. split; [exact L3|exact C3].
  - exists s3. split; [done|]. split; [done|]. rewrite C3. exact Hst.
Qed.

(** Only the log and the variables of config.c change. *)
Definition only_cfg {X} `{Part X cfg_vars} (s s' : sys X) : Prop :=
  mem s' = mem s /\ exists v, st s' = set_part v (st s).

Section Frame.
Context `{Env} `{!Flash} {X : Type} `{PF : Part X cfg_vars}.
#[export] Instance only_cfg_preorder : PreOrder (@only_cfg X PF).
Proof.
  split.
  - intros s. split; [done|]. exists (part (st s)). by rewrite set_part_id.
  - intros s1 s2 s3 [M (v & E)] [M' (v' & E')]. split; [congruence|]. exists v'. by rewrite E', E, set_set.
Qed.

Lemma cfg_ret {A} (a : A) (s : sys X) : lp (sret a) s (λ _, only_cfg s).
Proof. by apply lp_ret. Qed.
Lemma cfg_bind {A B} (m : F X A) (k : A -> F X B) s :
  lp m s (λ _, only_cfg s) -> (forall a s', lp (k a) s' (λ _, only_cfg s')) -> lp (sbind m k) s (λ _, only_cfg s).
Proof.
  intros Hm Hk. apply lp_bind, (lp_mono _ _ _ _ Hm). intros a s1 H1. apply (lp_mono _ _ _ _ (Hk a s1)). intros b s2 H2. by etrans.
Qed.
Lemma cfg_read addr n (s : sys X) : lp (spi_flash_read addr n) s (λ _, only_cfg s).
Proof. unfold spi_flash_read. by apply lp_bind, lp_get, lp_ret. Qed.
Lemma cfg_lift {A} (o : option A) (s : sys X) : lp (slift o) s (λ _, only_cfg s).
Proof. by apply lp_lift. Qed.
Lemma cfg_pvar {A} (f : cfg_vars -> A) (s : sys X) : lp (pvar f) s (λ _, only_cfg s).
Proof. by apply lp_pvar. Qed.
Lemma cfg_pmodify f (s : sys X) : lp (pmodify f) s (λ _, only_cfg s).
Proof. apply lp_pmodify. split; [done|]. by eexists. Qed.
Lemma cfg_call c (s : sys X) : lp (call c) s (λ _, only_cfg s).
Proof. apply lp_call. split; [done|]. exists (part (st s)). by rewrite set_part_id. Qed.
Lemma cfg_ask c (s : sys X) : lp (ask c) s (λ _, only_cfg s).
Proof. apply lp_ask. split; [done|]. exists (part (st s)). by rewrite set_part_id. Qed.

Ltac cfg_frame := repeat lazymatch goal with
  | |- lp (sbind _ _) _ _ => apply cfg_bind; [|intros ? ?]
  | |- lp (sret _) _ _ => apply cfg_ret
  | |- lp (spi_flash_read _ _) _ _ => apply cfg_read
  | |- lp (slift _) _ _ => apply cfg_lift
  | |- lp (pvar _) _ _ => apply cfg_pvar
  | |- lp (pmodify _) _ _ => apply cfg_pmodify
  | |- lp (call _) _ _ => apply cfg_call
  | |- lp (ask _) _ _ => apply cfg_ask
  | |- lp (if ?b then _ else _) _ _ => destruct b
  end.
Lemma save_copy_frame i flag (s : sys X) : lp (save_copy i flag) s (λ _, only_cfg s).
Proof. unfold save_copy. cfg_frame. Qed.
Lemma CFG_Save_frame (s : sys X) : lp CFG_Save s (λ _, only_cfg s).
Proof. unfold CFG_Save. cfg_frame; apply save_copy_frame. Qed.
Lemma CFG_Load_frame (s : sys X) : lp CFG_Load s (λ _, only_cfg s).
Proof. unfold CFG_Load. cfg_frame; apply CFG_Save_frame. Qed.
End Frame.

(** ** A flash that keeps the laws *)

(** One cell of a NOR flash: erasing sets its bits, writing clears some. *)
Definition nor_step (x old : Z) (e : event) : Z :=
  match e with
  | Do (spi_flash_erase_sector sec) => if x / SPI_FLASH_SEC_SIZE =? sec then 255 else old
  | Do (spi_flash_write a d) => if (a <=? x) && (x <? a + zlen d) then Z.land old (nthZ d (x - a) mod 256) else old
  | _ => old
  end.
Definition nor_cell (l : list event) (x : Z) : Z := foldl (nor_step x) 255 l.
Definition nor_flash : Flash := λ l a n, tab n (λ i, nor_cell l (a + i)).

Lemma nor_cell_snoc l e x : nor_cell (l ++ [e]) x = nor_step x (nor_cell l x) e.
Proof. unfold nor_cell. by rewrite foldl_app. Qed.
Lemma nor_cell_byte l x : is_byte (nor_cell l x).
Proof.
  induction l as [|e l IH] using rev_ind; [unfold is_byte; cbn; lia|]. rewrite nor_cell_snoc.
  unfold nor_step. destruct e as [| |c|]; try done. destruct c; try done; case_match; try done; unfold is_byte in *; try lia.
  change 256 with (2 ^ 8). rewrite <- (Z.land_ones _ 8), Z.land_assoc, Z.land_ones by lia. apply Z.mod_pos_bound. lia.
Qed.
Lemma in_sector_div sec a n i : in_sector sec a n -> 0 <= i < n -> (a + i) / SPI_FLASH_SEC_SIZE = sec.
Proof. unfold in_sector, SPI_FLASH_SEC_SIZE. intros. symmetry. apply (Z.div_unique _ _ _ (a + i - sec * 4096)); lia. Qed.

#[export] Instance nor_laws : @NorFlash nor_flash.
Proof.
  split; unfold spi_flash, nor_flash.
  - intros. zlia.
  - intros. unfold tab. apply Forall_fmap, Forall_true. intros x. apply nor_cell_byte.
  - intros l sec a n Hs. slist. rewrite nthZ_tab, nthZ_replicate, nor_cell_snoc by zlia. cbn. rewrite (in_sector_div _ _ _ _ Hs) by zlia.
    by rewrite Z.eqb_refl.
  - intros l a d Hs Hb He. pose proof (zlen_nonneg d). slist. rewrite nthZ_tab, nor_cell_snoc by zlia. unfold nor_step.
    assert (Ec : nor_cell l (a + i) = 255).
    { apply (f_equal (λ k, nthZ k i)) in He. rewrite nthZ_tab in He by zlia. rewrite He.
      replace (length d) with (Z.to_nat (zlen d)) by (unfold zlen; lia). apply nthZ_replicate. zlia. }
    rewrite Ec. ztrue ((a <=? a + i) && (a + i <? a + zlen d)). replace (a + i - a) with i by lia.
    assert (Hd : is_byte (nthZ d i)) by (by apply nthZ_byte).
    unfold is_byte in Hd. rewrite Z.mod_small by lia. rewrite Z.land_comm. apply (Z.land_ones_low _ 8); [lia|].
    destruct (Z.eq_dec (nthZ d i) 0) as [->|]; [done|]. apply Z.log2_lt_pow2; lia.
  - intros l e sec a n Hs He Hw. slist. rewrite !nthZ_tab, nor_cell_snoc by zlia.
    unfold nor_step. destruct e as [| |c|]; try done. destruct c; try done; cbn in *.
    + rewrite (in_sector_div _ _ _ _ Hs) by zlia. destruct (Z.eqb_spec sec sec0); congruence.
    + case_match eqn:E; [|done]. apply andb_true_iff in E as [?%Z.leb_le ?%Z.ltb_lt].
      exfalso. apply He. f_equal.
      pose proof (in_sector_div _ _ _ i Hs ltac:(zlia)) as E1.
      rewrite <- E1. symmetry. replace (a + i) with (addr + (a + i - addr)) by lia.
      apply (in_sector_div _ _ _ _ (Hw _ _ eq_refl)). lia.
Qed.

(** ** The properties at work *)

Definition blank_chip : Env := mk_env (λ _ _, 0) (λ _ c, match c with system_get_chip_id => 0x00C0FFEE | _ => 0 end).
Definition cfg_off : sys cfg_vars := mk_sys [] ∅ (mk_cfg [] []).

(** After the first start on an erased chip. *)
Definition first_start : sys cfg_vars :=
  match @CFG_Load blank_chip nor_flash _ _ cfg_off with Some (_, s) => s | None => cfg_off end.

Lemma config_load_total_witness :
  let s := cfg_off in exists s', @CFG_Load blank_chip nor_flash _ _ s = Some (tt, s') /\ config_ok (sysCfg (st s')).
Proof.
  destruct (@config_load_total blank_chip nor_flash nor_laws cfg_off) as (s' & E & _ & O & _).
  exists s'. split; [exact E|exact O].
Defined.

Example first_start_name : take 14 (drop 4 (sysCfg (st first_start))) = chars "DVES_00C0FFEE" ++ [0].
Proof. vm_compute. reflexivity. Qed.

(** Power fails before the flag is erased: the next start finds one of the two. *)
Lemma config_survives_power_failure_witness :
  exists s' ops, @CFG_Save nor_flash _ _ first_start = Some (tt, s') /\ log s' = log first_start ++ ops /\
    exists s3, @CFG_Load blank_chip nor_flash _ _ (mk_sys (log first_start ++ take 2 ops) ∅ (mk_cfg [] [])) = Some (tt, s3).
Proof.
  assert (Es : sysCfg (st first_start) = stored (nor_flash (log first_start))) by (vm_compute; reflexivity).
  assert (Ok : config_ok (sysCfg (st first_start))).
  { split; [vm_compute; reflexivity|]. split; [rewrite Es; apply (@flash_bytes nor_flash nor_laws)|vm_compute; reflexivity]. }
  destruct (@config_survives_power_failure blank_chip nor_flash nor_laws first_start _ (eq_sym Es) Ok Ok)
    as (s' & ops & E & L & _ & After).
  assert (N : match @CFG_Save nor_flash _ _ first_start with Some (_, s) => length (log s) | None => O end = 9%nat)
    by (vm_compute; reflexivity).
  rewrite E, L, length_app in N. change (length (log first_start)) with 5%nat in N.
  destruct (lookup_lt_is_Some_2 ops 2) as [e He]; [lia|].
  destruct (After (nor_flash (log first_start ++ take 2 ops))) with (after := nor_flash)
    (s2 := mk_sys (log first_start ++ take 2 ops) ∅ (mk_cfg [] [])) as (s3 & E3 & _); [|reflexivity|].
  - split; [intros; apply (@flash_len nor_flash nor_laws); assumption|]. exists 2%nat, e. split; [exact He|reflexivity].
  - exists s', ops. split; [exact E|]. split; [exact L|]. exists s3. exact E3.
Defined.
