(* ===== verification/Wifi.v ===== *)
(** * Wifi: the station of the MQTT example

    esp_mqtt_proj/modules/wifi.c: joining a network and the timer that polls
    its status and reports every change.  Messages printed by [INFO] are not
    recorded. *)

From stdpp Require Import gmap.
From S2P Require Import Prelude CMem Board SmartConfig TcpClient.
Local Open Scope sm_scope.
Local Open Scope list_scope.

(** include/user_interface.h: the answers of [wifi_station_get_connect_status]
    ([STATION_GOT_IP] is in TcpClient.v), and the layout of [struct station_config]:
    [ssid], [password], [bssid_set], [bssid]. *)
Definition STATION_IDLE : Z := 0.
Definition STATION_WRONG_PASSWORD : Z := 2.
Definition STATION_NO_AP_FOUND : Z := 3.
Definition STATION_CONNECT_FAIL : Z := 4.
Definition station_config_size : Z := 32 + 64 + 1 + 6.
Definition o_ssid : Z := 0.
Definition o_password : Z := 32.

(** The static variables, and their initial values. *)
Record wifi_vars := mk_wifi { wifiCb : option fn; wifiStatus : Z; lastWifiStatus : Z }.
#[export] Instance eta_wifi : Settable wifi_vars := λ v, mk_wifi (wifiCb v) (wifiStatus v) (lastWifiStatus v).
Definition wifi_initial : wifi_vars := mk_wifi None STATION_IDLE STATION_IDLE.

Section Wifi.
Context `{Env} {X : Type} `{PW : Part X wifi_vars}.
(** A call through [wifiCb]. *)
Context (run_cb : fn -> Z -> F X unit).

Definition linker (ms : Z) : F X unit :=
  call (os_timer_setfn WiFiLinker fp_wifi_check_ip) ;; call (os_timer_arm WiFiLinker ms 0).

(** [wifi_station_get_connect_status() == status], a call of its own each time. *)
Definition status_is (status : Z) : F X bool :=
  v <- ask wifi_station_get_connect_status ;; sret (u8 v =? status).

(** The inner chain of [if]s. *)
Definition retry : F X unit :=
  wrong <- status_is STATION_WRONG_PASSWORD ;;
  if (wrong : bool) then call wifi_station_connect else
  no_ap <- status_is STATION_NO_AP_FOUND ;;
  if (no_ap : bool) then call wifi_station_connect else
  fail <- status_is STATION_CONNECT_FAIL ;;
  if (fail : bool) then call wifi_station_connect else sret tt.

Definition wifi_check_ip : F X unit :=
  call (os_timer_disarm WiFiLinker) ;;
  addr <- ask (wifi_get_ip_info STATION_IF) ;;
  v <- ask wifi_station_get_connect_status ;;
  pmodify (λ w, w <| wifiStatus := u8 v |>) ;;
  (if (u8 v =? STATION_GOT_IP) && negb (addr =? 0) then linker 2000
   else
     retry ;; linker 500) ;;
  now <- pvar wifiStatus ;; last <- pvar lastWifiStatus ;;
  swhen (negb (now =? last)) (
    pmodify (λ w, w <| lastWifiStatus := now |>) ;;
    cb <- pvar wifiCb ;;
    match cb with Some f => run_cb f now | None => sret tt end).

(** [os_sprintf( field, "%s", s )] *)
Definition sprintf_s (b : list Z) (o : Z) (s : list Z) : option (list Z) := bsplice b o (s ++ [0]).

(** [ssid] and [pass] are the strings the arguments point to. *)
Definition WIFI_Connect (ssid pass : list Z) (cb : option fn) : F X unit :=
  call (wifi_set_opmode_current STATION_MODE) ;;
  pmodify (λ w, w <| wifiCb := cb |>) ;;
  conf <- slift (sprintf_s (replicate (Z.to_nat station_config_size) 0) o_ssid ssid) ;;
  conf <- slift (sprintf_s conf o_password pass) ;;
  call (wifi_station_set_config_current conf) ;;
  call (os_timer_disarm WiFiLinker) ;;
  linker 1000 ;;
  call wifi_station_connect.
End Wifi.

(** ** What a poll does *)

Section Laws.
Context `{Env} {X : Type} `{PW : Part X wifi_vars}.
Context (run_cb : fn -> Z -> F X unit).
Implicit Types s : sys X.

(** The looks at the status after the first one: the network is joined again as
    soon as one of them shows the failure it looks for. *)
Inductive retries : list event -> Prop :=
  | retry_wrong a : u8 a = STATION_WRONG_PASSWORD -> retries [Got wifi_station_get_connect_status a; Do wifi_station_connect]
  | retry_no_ap a b : u8 a <> STATION_WRONG_PASSWORD -> u8 b = STATION_NO_AP_FOUND ->
      retries [Got wifi_station_get_connect_status a; Got wifi_station_get_connect_status b; Do wifi_station_connect]
  | retry_fail a b c : u8 a <> STATION_WRONG_PASSWORD -> u8 b <> STATION_NO_AP_FOUND -> u8 c = STATION_CONNECT_FAIL ->
      retries [Got wifi_station_get_connect_status a; Got wifi_station_get_connect_status b;
               Got wifi_station_get_connect_status c; Do wifi_station_connect]
  | retry_none a b c : u8 a <> STATION_WRONG_PASSWORD -> u8 b <> STATION_NO_AP_FOUND -> u8 c <> STATION_CONNECT_FAIL ->
      retries [Got wifi_station_get_connect_status a; Got wifi_station_get_connect_status b;
               Got wifi_station_get_connect_status c].

(** With an address the next poll is two seconds away, without one half a second. *)
Definition poll_log (addr v : Z) (l : list event) : Prop :=
  exists retry ms,
    l = [Do (os_timer_disarm WiFiLinker); Got (wifi_get_ip_info STATION_IF) addr; Got wifi_station_get_connect_status v]
        ++ retry ++ [Do (os_timer_setfn WiFiLinker fp_wifi_check_ip); Do (os_timer_arm WiFiLinker ms 0)] /\
    if (u8 v =? STATION_GOT_IP) && negb (addr =? 0) then retry = [] /\ ms = 2000 else retries retry /\ ms = 500.

(** The state in which the callback runs, or the poll ends. *)
Record polled s (v : Z) s1 : Prop := {
  polled_log : exists addr l, poll_log addr v l /\ log s1 = log s ++ l;
  polled_mem : mem s1 = mem s;
  polled_st : st s1 = set_part (mk_wifi (wifiCb (part (st s))) (u8 v) (u8 v)) (st s) }.

Definition report f (v : Z) s1 : option (unit * sys X) :=
  match f with Some f => run_cb f (u8 v) s1 | None => Some (tt, s1) end.

Lemma retry_run s : exists l, retries l /\ retry s = Some (tt, mk_sys (log s ++ l) (mem s) (st s)).
Proof.
  unfold retry, status_is, call, ask, record. sm. cbn [log mem st].
  set (a := u32 _). destruct (Z.eqb_spec (u8 a) STATION_WRONG_PASSWORD); sm; cbn [log mem st];
    [eexists; split; [by apply retry_wrong|unfold smod; cbn [log mem st]; by rewrite <- !app_assoc]|].
  set (b := u32 _). destruct (Z.eqb_spec (u8 b) STATION_NO_AP_FOUND); sm; cbn [log mem st];
    [eexists; split; [by apply retry_no_ap|unfold smod; cbn [log mem st]; by rewrite <- !app_assoc]|].
  set (c := u32 _). destruct (Z.eqb_spec (u8 c) STATION_CONNECT_FAIL); sm; cbn [log mem st]; eexists;
    (split; [first [by apply retry_fail|by apply retry_none]|unfold smod, sret; cbn [log mem st]; by rewrite <- !app_assoc]).
Qed.

Lemma wifi_poll s : exists v s1, polled s v s1 /\
  wifi_check_ip run_cb s =
    if u8 v =? lastWifiStatus (part (st s)) then Some (tt, s1) else report (wifiCb (part (st s))) v s1.
Proof.
  set (l1 := log s ++ [Do (os_timer_disarm WiFiLinker)]).
  set (addr := u32 (sdk_ret l1 (wifi_get_ip_info STATION_IF))).
  set (l2 := l1 ++ [Got (wifi_get_ip_info STATION_IF) addr]).
  set (v := u32 (sdk_ret l2 wifi_station_get_connect_status)).
  set (l3 := l2 ++ [Got wifi_station_get_connect_status v]).
  set (w := part (st s)).
  assert (P : exists l, poll_log addr v l /\
    (if (u8 v =? STATION_GOT_IP) && negb (addr =? 0) then linker 2000 else retry ;; linker 500)
      (mk_sys l3 (mem s) (set_part (w <| wifiStatus := u8 v |>) (st s))) =
    Some (tt, mk_sys (log s ++ l) (mem s) (set_part (w <| wifiStatus := u8 v |>) (st s)))).
  { unfold poll_log. destruct (_ && _).
    - eexists. split; [by exists [], 2000|]. unfold linker, call, record. sm. unfold smod. cbn [log mem st]. unfold l3, l2, l1.
      by rewrite <- !app_assoc.
    - set (s3 := mk_sys _ _ _). destruct (retry_run s3) as (l & Hl & E). eexists. split; [by exists l, 500|].
      rewrite (run_bind _ _ _ _ _ E). unfold linker, call, record. sm. unfold smod. cbn [log mem st]. unfold s3, l3, l2, l1. cbn [log].
      by rewrite <- !app_assoc. }
  destruct P as (l & Pl & E).
  exists v, (mk_sys (log s ++ l) (mem s) (set_part (mk_wifi (wifiCb w) (u8 v) (u8 v)) (st s))).
  split; [split; [by exists addr, l|done|done]|].
  unfold wifi_check_ip. rewrite (run_bind _ _ _ tt (mk_sys l1 (mem s) (st s))) by done.
  rewrite (run_bind _ _ _ addr (mk_sys l2 (mem s) (st s))) by done.
  rewrite (run_bind _ _ _ v (mk_sys l3 (mem s) (st s))) by done.
  rewrite (run_bind _ _ _ tt (mk_sys l3 (mem s) (set_part (w <| wifiStatus := u8 v |>) (st s)))) by done.
  rewrite (run_bind _ _ _ _ _ E). unfold pvar, pmodify, swhen, report. sm. cbn [log mem st]. rewrite part_set. cbn [set_field wifiStatus lastWifiStatus wifiCb].
  destruct (Z.eqb_spec (u8 v) (lastWifiStatus w)) as [Ev|Ev]; cbn [negb].
  - rewrite Ev. reflexivity.
  - rewrite (run_bind _ _ _ tt (mk_sys (log s ++ l) (mem s) (set_part (mk_wifi (wifiCb w) (u8 v) (u8 v)) (st s)))).
    + unfold sbind, sget. cbn. rewrite part_set. by destruct (wifiCb w).
    + unfold smod. cbn [log mem st]. by rewrite part_set, set_set.
Qed.

(** [n] polls, one per expiry of the timer. *)
Definition polls (n : nat) : F X unit := sfor (replicate n tt) (λ _, wifi_check_ip run_cb).
End Laws.

(** The values that differ from the one before them; before the first is [last]. *)
Fixpoint changes (last : Z) (vs : list Z) : list Z :=
  match vs with
  | [] => []
  | v :: vs => if v =? last then changes last vs else v :: changes v vs
  end.

(** The readings of the status at the start of each poll. *)
Definition readings : list event -> list Z :=
  let fix go first l := match l with
    | [] => []
    | Do (os_timer_disarm WiFiLinker) :: l => go true l
    | Got wifi_station_get_connect_status v :: l => if first : bool then u8 v :: go false l else go false l
    | _ :: l => go first l end in go false.

Section Reports.
Context `{Env} {X : Type} `{PW : Part X wifi_vars}.
Context (run_cb : fn -> Z -> F X unit).
Implicit Types s : sys X.

(** The callback that is installed, whose calls can be read off the rest of the
    state, and which leaves the log and the variables of wifi.c alone. *)
Variables (f : fn) (reports : X -> list Z).
Hypothesis reports_set : forall w x, reports (set_part w x) = reports x.
Hypothesis callback : forall v s, exists s', run_cb f v s = Some (tt, s') /\
  log s' = log s /\ part (st s') = part (st s) /\ reports (st s') = reports (st s) ++ [v].

Lemma readings_retries l k : retries l -> readings (l ++ k) = readings k.
Proof. by destruct 1. Qed.
Lemma readings_poll addr v l k : poll_log addr v l -> readings (l ++ k) = u8 v :: readings k.
Proof.
  intros (retry & ms & -> & Hr). unfold readings. cbn. f_equal. rewrite <- app_assoc.
  destruct (_ && _); [by destruct Hr as [-> ->]|]. destruct Hr as [Hr ->]. exact (readings_retries _ _ Hr).
Qed.

Lemma polls_report n : forall s, wifiCb (part (st s)) = Some f ->
  exists l s', polls run_cb n s = Some (tt, s') /\ log s' = log s ++ l /\ length (readings l) = n /\
    reports (st s') = reports (st s) ++ changes (lastWifiStatus (part (st s))) (readings l).
Proof.
  induction n as [|n IH]; intros s Hf; [by exists [], s; rewrite !app_nil_r|].
  destruct (wifi_poll run_cb s) as (v & s1 & [(addr & l & Pl & L) M S] & E). rewrite Hf in E. cbn [report] in E.
  assert (N : exists s2, wifi_check_ip run_cb s = Some (tt, s2) /\ log s2 = log s ++ l /\
    part (st s2) = mk_wifi (Some f) (u8 v) (u8 v) /\
    reports (st s2) = reports (st s) ++ (if u8 v =? lastWifiStatus (part (st s)) then [] else [u8 v])).
  { rewrite E. destruct (_ =? _).
    - exists s1. split; [done|]. rewrite S, part_set, reports_set, Hf, app_nil_r. done.
    - destruct (callback (u8 v) s1) as (s2 & E2 & L2 & P2 & R2). exists s2. split; [done|].
      by rewrite P2, R2, L2, S, part_set, reports_set, Hf. }
  destruct N as (s2 & E2 & L2 & P2 & R2). destruct (IH s2) as (l' & s' & E' & L' & N' & R'); [by rewrite P2|].
  exists (l ++ l'), s'. unfold polls. cbn [replicate sfor]. rewrite (run_bind _ _ _ _ _ E2). split; [exact E'|].
  split; [by rewrite L', L2, app_assoc|]. rewrite (readings_poll _ _ _ _ Pl). split; [cbn; by rewrite N'|].
  rewrite R', R2, P2. cbn [lastWifiStatus changes]. rewrite <- app_assoc. f_equal.
  destruct (Z.eqb_spec (u8 v) (lastWifiStatus (part (st s)))) as [->|]; done.
Qed.

(** However often the timer fires, the application hears of every change of
    the connection status, once and in order, and of nothing else: what [n] polls
    report is the sequence of the statuses they read without repetitions. *)
Theorem wifi_polls_report n s : wifiCb (part (st s)) = Some f ->
  exists l s', polls run_cb n s = Some (tt, s') /\ log s' = log s ++ l /\ length (readings l) = n /\
    reports (st s') = reports (st s) ++ changes (lastWifiStatus (part (st s))) (readings l).
Proof. apply polls_report. Qed.
End Reports.

(** ** Joining a network *)

Section Connect.
Context `{Env} {X : Type} `{PW : Part X wifi_vars}.
Implicit Types s : sys X.

(** A byte of a structure into which a string was printed. *)
Lemma sprintf_s_ok b o t : 0 <= o -> o + zlen t + 1 <= zlen b ->
  exists b', sprintf_s b o t = Some b' /\ zlen b' = zlen b /\
    forall i, 0 <= i -> nthZ b' i = if (o <=? i) && (i <? o + zlen t) then nthZ t (i - o) else if i =? o + zlen t then 0 else nthZ b i.
Proof.
  intros Ho Hl. pose proof (zlen_nonneg t). unfold sprintf_s.
  assert (Hz : zlen (t ++ [0]) = zlen t + 1) by (rewrite zlen_app; done).
  destruct (bsplice_Some b o (t ++ [0])) as (b' & E & L & N); [lia|lia|]. exists b'. split; [done|]. split; [done|].
  intros i Hi. rewrite N, Hz by lia. destruct (Z.leb_spec o i), (Z.ltb_spec i (o + (zlen t + 1))), (Z.ltb_spec i (o + zlen t)), (Z.eqb_spec i (o + zlen t));
    cbn [andb]; try lia; try done; rewrite nthZ_app by lia.
  - by ztrue (i - o <? zlen t).
  - zfalse (i - o <? zlen t). subst i. by replace (o + zlen t - o - zlen t) with 0 by lia.
Qed.

(** The configuration handed to the SDK: the password whole, with its closing zero; of the
    name the 32 bytes that fit.  A name of 32 bytes or more is printed past its field, into the
    password's, which is printed afterwards; it then has no closing zero. *)
Lemma WIFI_Connect_ok ssid pass cb s : zlen ssid <= 63 -> zlen pass <= 63 ->
  exists conf,
    WIFI_Connect ssid pass cb s = Some (tt, mk_sys (log s ++ [Do (wifi_set_opmode_current STATION_MODE);
      Do (wifi_station_set_config_current conf); Do (os_timer_disarm WiFiLinker);
      Do (os_timer_setfn WiFiLinker fp_wifi_check_ip); Do (os_timer_arm WiFiLinker 1000 0); Do wifi_station_connect])
      (mem s) (set_part ((part (st s)) <| wifiCb := cb |>) (st s))) /\
    zlen conf = station_config_size /\
    (forall i, 0 <= i < 32 -> nthZ conf (o_ssid + i) = if i <? zlen ssid then nthZ ssid i else 0) /\
    (forall i, 0 <= i < zlen pass -> nthZ conf (o_password + i) = nthZ pass i) /\ nthZ conf (o_password + zlen pass) = 0.
Proof.
  intros Hs Hp. pose proof (zlen_nonneg ssid). pose proof (zlen_nonneg pass). unfold o_ssid, o_password.
  destruct (sprintf_s_ok (replicate (Z.to_nat station_config_size) 0) 0 ssid) as (b1 & E1 & L1 & N1);
    [lia|rewrite zlen_replicate; unfold station_config_size; lia|].
  rewrite zlen_replicate in L1. change (0 `max` station_config_size) with station_config_size in L1.
  destruct (sprintf_s_ok b1 32 pass) as (b2 & E2 & L2 & N2); [lia|rewrite L1; unfold station_config_size; lia|].
  exists b2. split; [|split; [lia|]].
  - unfold WIFI_Connect, linker, o_ssid, o_password, call, record, pmodify. sm. rewrite E1. sm. rewrite E2. sm.
    unfold smod. cbn [log mem st]. by rewrite <- !app_assoc.
  - split; [|split].
    + intros i Hi. rewrite Z.add_0_l, N2, N1 by lia. zfalse ((32 <=? i) && (i <? 32 + zlen pass)). zfalse (i =? 32 + zlen pass).
      rewrite Z.sub_0_r, Z.add_0_l. ztrue (0 <=? i). cbn [andb]. destruct (Z.ltb_spec i (zlen ssid)); [done|].
      destruct (_ =? _); [done|]. apply nthZ_replicate. unfold station_config_size. lia.
    + intros i Hi. rewrite N2 by lia. ztrue ((32 <=? 32 + i) && (32 + i <? 32 + zlen pass)). f_equal. lia.
    + rewrite N2 by lia. zfalse ((32 <=? 32 + zlen pass) && (32 + zlen pass <? 32 + zlen pass)). by rewrite Z.eqb_refl.
Qed.
End Connect.

(** ** A station whose status is read as 0, 1, 1, 5, 5, ... *)

Definition joining : Env := mk_env (λ _ _, 0) (λ l c,
  match c with
  | wifi_station_get_connect_status =>
      let n := length (List.filter (λ e, match e with Do (os_timer_disarm WiFiLinker) => true | _ => false end) l) in
      match n with 1%nat => 0 | 2%nat | 3%nat => 1 | _ => 5 end
  | _ => 0
  end).
#[local] Instance part_fst {Y} : Part (wifi_vars * Y) wifi_vars.
Proof. refine (mk_part _ _ fst (λ w x, (w, snd x)) _ _ _); [done|done|by intros []]. Defined.
Definition note_status (f : fn) (v : Z) : F (wifi_vars * list Z) unit := modify (λ x, (fst x, snd x ++ [v])).
Definition waiting : sys (wifi_vars * list Z) := mk_sys [] ∅ (wifi_initial <| wifiCb := Some fp_wifiConnectCb |>, []).

Lemma wifi_polls_report_witness :
  exists s', @polls joining _ _ note_status 6 waiting = Some (tt, s') /\ snd (st s') = [1; 5].
Proof.
  destruct (@wifi_polls_report joining _ _ note_status fp_wifiConnectCb snd) with (n := 6%nat) (s := waiting)
    as (l & s' & E & L & _ & R).
  - reflexivity.
  - intros v s. exists (mk_sys (log s) (mem s) (fst (st s), snd (st s) ++ [v])). repeat split.
  - reflexivity.
  - exists s'. split; [exact E|].
    assert (C : match @polls joining _ _ note_status 6 waiting with Some (_, s) => snd (st s) = [1; 5] | None => False end)
      by (vm_compute; reflexivity).
    rewrite E in C. exact C.
Defined.
