(* ===== verification/MqttApp.v ===== *)
(** * MqttApp: the MQTT example as a whole

    esp_mqtt_proj/user/user_main.c: the start from the stored configuration,
    the callbacks of the client, and the client, the station and the
    configuration in one state.  What the client sends to the SDK is in its own
    trace (MqttClient.v), what the rest does is in the log (Board.v). *)

From Stdlib Require Import String.
From stdpp Require Import gmap.
From S2P Require Import Prelude CMem CString MqttProto MqttMsg MqttUtils MqttClient.
From S2P Require Import Board SmartConfig UartDriver TcpClient MqttConfig Wifi.
Local Open Scope string_scope.
Local Open Scope Z_scope.
Local Open Scope sm_scope.
Local Open Scope list_scope.

Record mqtt_app := mk_mqtt_app { ma_cfg : cfg_vars; ma_wifi : wifi_vars; mqttClient : world }.
#[export] Instance eta_mqtt_app : Settable mqtt_app := λ a, mk_mqtt_app (ma_cfg a) (ma_wifi a) (mqttClient a).
Ltac part_of f g := refine (mk_part mqtt_app _ f g _ _ _); [done|done|by intros []].
#[export] Instance mqtt_app_cfg : Part mqtt_app cfg_vars. Proof. part_of ma_cfg (λ v a, a <| ma_cfg := v |>). Defined.
#[export] Instance mqtt_app_wifi : Part mqtt_app wifi_vars. Proof. part_of ma_wifi (λ v a, a <| ma_wifi := v |>). Defined.
#[export] Instance mqtt_app_client : Part mqtt_app world. Proof. part_of mqttClient (λ v a, a <| mqttClient := v |>). Defined.

Definition mqtt_app_initial : mqtt_app :=
  mk_mqtt_app (mk_cfg (replicate (Z.to_nat SYSCFG_size) 0) [0; 0; 0; 0]) wifi_initial (mk_world zero_client []).

(** Work of the client, on its part of the state. *)
Definition client {A} (m : M A) : F mqtt_app A :=
  λ s, '(a, w) ← m (mqttClient (st s)); Some (a, mk_sys (log s) (mem s) ((st s) <| mqttClient := w |>)).

Section MqttApp.
Context `{Env} `{Flash}.
(** As in MqttClient.v: what the stack holds, and the SDK's memory and ports;
    [uart_init] comes with the SDK's driver library. *)
Context (proto0 : PROTO_PARSER) (c0 : Z) (stack : list Z) (len0 : Z).
Context (os_zalloc : Z -> option (list Z)) (espconn_port : Z) (uart_init : Z -> Z -> F mqtt_app unit).

Definition wifiConnectCb (status : Z) : F mqtt_app unit :=
  if status =? STATION_GOT_IP then client (MQTT_Connect espconn_port) else client MQTT_Disconnect.

Definition mqttConnectedCb : M unit :=
  MQTT_Subscribe proto0 c0 stack len0 (Some (chars "/mqtt/topic/0")) 0 ;;
  MQTT_Subscribe proto0 c0 stack len0 (Some (chars "/mqtt/topic/1")) 1 ;;
  MQTT_Subscribe proto0 c0 stack len0 (Some (chars "/mqtt/topic/2")) 2 ;;
  MQTT_Publish proto0 c0 stack len0 (Some (chars "/mqtt/topic/0")) (chars "hello0") 6 0 0 ;;
  MQTT_Publish proto0 c0 stack len0 (Some (chars "/mqtt/topic/1")) (chars "hello1") 6 1 0 ;;
  MQTT_Publish proto0 c0 stack len0 (Some (chars "/mqtt/topic/2")) (chars "hello2") 6 2 0 ;;
  sret tt.

(** These two only print. *)
Definition mqttDisconnectedCb : M unit := sret tt.
Definition mqttPublishedCb : M unit := sret tt.

(** [os_zalloc( n + 1 )], the copy, the closing zero.  Reading through a null pointer is undefined. *)
Definition copy_data (p : option (list Z)) (n : Z) : option (list Z) :=
  b ← os_zalloc (u32 (n + 1));
  b ← match p with
      | Some p => p ← bslice p 0 n; bsplice b 0 p
      | None => if n =? 0 then Some b else None
      end;
  wr b n 0.

(** The two buffers, which are printed and freed. *)
Definition mqttDataCb (topic : option (list Z)) (topic_len : Z) (data : option (list Z)) (data_len : Z)
    : option (list Z * list Z) :=
  topicBuf ← copy_data topic topic_len;
  dataBuf ← copy_data data data_len;
  Some (topicBuf, dataBuf).

(** The callback behind an event of the client. *)
Definition run_callback (e : MqttClient.event) : M unit :=
  match e with
  | EConnectedCb => mqttConnectedCb
  | EDisconnectedCb => mqttDisconnectedCb
  | EPublishedCb => mqttPublishedCb
  | EDataCb t tl d dl => slift (mqttDataCb t tl d dl) ;; sret tt
  | _ => sret tt
  end.

(** A handler of the client with the callbacks it calls. *)
Definition handle_app (i : input) : M unit :=
  n <- sget (λ w, length (trace w)) ;;
  handle proto0 c0 stack len0 espconn_port i ;;
  calls <- sget (λ w, drop n (trace w)) ;;
  sfor calls run_callback.

Definition run_wifi_cb (f : fn) (v : Z) : F mqtt_app unit :=
  match f with fp_wifiConnectCb => wifiConnectCb v | _ => slift None end.

Definition user_rf_cal_sector_set : F mqtt_app Z :=
  size_map <- ask system_get_flash_size_map ;;
  sret (match size_map with
        | 0 => 128 - 5
        | 2 => 256 - 5
        | 3 | 5 => 512 - 5
        | 4 | 6 => 1024 - 5
        | 8 => 2048 - 5
        | 9 => 4096 - 5
        | _ => 0
        end).

(** [user_init], with the strings the calls read from [sysCfg]. *)
Definition user_init : F mqtt_app unit :=
  uart_init BIT_RATE_115200 BIT_RATE_115200 ;;
  call (os_delay_us 60000) ;;
  CFG_Load ;;
  c <- pvar sysCfg ;;
  mqtt_host <- slift (cstr c o_mqtt_host) ;;
  client (MQTT_InitConnection os_zalloc mqtt_host (word_at c o_mqtt_port) (nthZ c o_security)) ;;
  device_id <- slift (cstr c o_device_id) ;;
  mqtt_user <- slift (cstr c o_mqtt_user) ;;
  mqtt_pass <- slift (cstr c o_mqtt_pass) ;;
  client (MQTT_InitClient os_zalloc device_id (Some mqtt_user) (Some mqtt_pass) (word_at c o_mqtt_keepalive) 1) ;;
  client (MQTT_InitLWT os_zalloc (chars "/lwt") (chars "offline") 0 0) ;;
  client (MQTT_OnConnected true) ;;
  client (MQTT_OnDisconnected true) ;;
  client (MQTT_OnPublished true) ;;
  client (MQTT_OnData true) ;;
  sta_ssid <- slift (cstr c o_sta_ssid) ;;
  sta_pwd <- slift (cstr c o_sta_pwd) ;;
  WIFI_Connect sta_ssid sta_pwd (Some fp_wifiConnectCb).

(** What can happen once the program runs: an event of the client, or the timer
    of wifi.c expires. *)
Inductive app_event := AClient (i : input) | APoll.
Definition app_step (e : app_event) : F mqtt_app unit :=
  match e with
  | AClient i => client (handle_app i)
  | APoll => wifi_check_ip run_wifi_cb
  end.
End MqttApp.

(** ** What the client's code leaves alone, and which events it causes *)

(** A null pointer comes with length 0 for the data; for the topic the length is
    then what [mqtt_get_publish_topic] was given. *)
Definition buffer_ok (p : option (list Z)) (n : Z) : Prop :=
  match p with Some p => zlen p = n /\ n < 65536 | None => n = 0 end.
Definition event_ok (e : MqttClient.event) : Prop :=
  match e with EDataCb t tl d dl => (t <> None -> buffer_ok t tl) /\ buffer_ok d dl | _ => True end.

(** The step only adds such events and leaves the host name. *)
Definition tame_step (w w' : world) : Prop :=
  (exists l, trace w' = trace w ++ l /\ Forall event_ok l) /\ host (cl w') = host (cl w).
Definition tame {A} (m : M A) : Prop := forall w a w', m w = Some (a, w') -> tame_step w w'.

#[export] Instance tame_step_preorder : PreOrder tame_step.
Proof.
  split.
  - intros w. split; [exists []; by rewrite app_nil_r|done].
  - intros w1 w2 w3 [(l & E & F) H] [(l' & E' & F') H']. split; [|congruence].
    exists (l ++ l'). rewrite E', E, app_assoc. split; [done|by apply Forall_app_2].
Qed.

Lemma tame_ret {A} (a : A) : tame (sret a).
Proof. intros w b w' [= <- <-]. done. Qed.
Lemma tame_sget {A} (f : world -> A) : tame (sget f).
Proof. intros w b w' [= <- <-]. done. Qed.
Lemma tame_get {A} (f : MQTT_Client -> A) : tame (get f).
Proof. intros w b w' [= <- <-]. done. Qed.
Lemma tame_lift {A} (o : option A) : tame (slift o).
Proof. intros w b w'. unfold slift. destruct o; [intros [= <- <-]; done|done]. Qed.
Lemma tame_emit e : event_ok e -> tame (emit e).
Proof. intros He w b w' [= <- <-]. split; [|done]. exists [e]. split; [done|by apply Forall_cons_2]. Qed.
Lemma tame_upd f : (forall c, host (f c) = host c) -> tame (upd f).
Proof. intros H w b w' [= <- <-]. split; [|apply H]. exists []. by rewrite app_nil_r. Qed.
Lemma tame_bind {A B} (m : M A) (k : A -> M B) : tame m -> (forall a, tame (k a)) -> tame (sbind m k).
Proof.
  intros Hm Hk w b w'. unfold sbind. destruct (m w) as [[a w1]|] eqn:E; [|done]. cbn [mbind option_bind]. intros E2.
  etrans; [by apply (Hm _ _ _ E)|by apply (Hk _ _ _ _ E2)].
Qed.
Lemma tame_when b m : tame m -> tame (swhen b m).
Proof. destruct b; [done|intros _; apply tame_ret]. Qed.

Create HintDb tame.
#[export] Hint Resolve @tame_ret @tame_get @tame_sget @tame_lift tame_when : tame.
#[export] Hint Extern 1 (tame (upd _)) => apply tame_upd; done : tame.
#[export] Hint Extern 1 (tame (emit _)) => apply tame_emit; exact I : tame.
Ltac tame :=
  repeat first
    [ solve [auto with tame]
    | apply tame_bind; [|intros ?]
    | match goal with
      | |- tame (match ?x with _ => _ end) => destruct x
      | |- tame (swhen _ _) => apply tame_when
      end ].

Lemma post_tame : tame MqttClient.system_os_post. Proof. unfold MqttClient.system_os_post. tame. Qed.
Lemma tcp_connect_tame : tame MqttClient.tcp_connect. Proof. unfold MqttClient.tcp_connect. tame. Qed.
Lemma tcp_disconnect_tame : tame tcp_disconnect. Proof. unfold tcp_disconnect. tame. Qed.
Lemma tcp_send_tame d n : tame (tcp_send d n). Proof. unfold tcp_send. tame. Qed.
#[export] Hint Resolve post_tame tcp_connect_tame tcp_disconnect_tame tcp_send_tame : tame.

Lemma dns_tame a : tame (mqtt_dns_found a). Proof. unfold mqtt_dns_found. tame. Qed.
Lemma tcpclient_delete_tame : tame mqtt_tcpclient_delete. Proof. unfold mqtt_tcpclient_delete. tame. Qed.
Lemma queue_response_tame b : tame (queue_response b). Proof. unfold queue_response. tame. Qed.
Lemma keepalive_tame r : tame (mqtt_send_keepalive r). Proof. unfold mqtt_send_keepalive. tame. Qed.
#[export] Hint Resolve dns_tame tcpclient_delete_tame queue_response_tame keepalive_tame : tame.

Lemma topic_buffer message b n t tl : mqtt_get_publish_topic b n = Some (t, tl) ->
  view message t tl <> None -> buffer_ok (view message t tl) tl.
Proof.
  unfold mqtt_get_publish_topic, view. destruct (remaining_loop _ _ _ _ _) as [[i tot]|]; [|discriminate]. cbn [mbind option_bind].
  destruct (int_ok _); [|discriminate]. cbn [mbind option_bind]. destruct (_ <=? _); [by intros [= <- <-]|].
  destruct (rd b i) as [hi|]; [|discriminate]. cbn [mbind option_bind]. destruct (rd b (i + 1)) as [lo|]; [|discriminate]. cbn [mbind option_bind].
  destruct (_ <? _); [by intros [= <- <-]|]. intros [= <- <-] _. cbn. pose proof (u16_range (Z.lor (Z.shiftl hi 8) lo)). unfold is_u16 in *. rewrite zlen_tab. lia.
Qed.
Lemma data_buffer message b n d dl : mqtt_get_publish_data b n = Some (d, dl) -> buffer_ok (view message d dl) dl.
Proof.
  unfold mqtt_get_publish_data, view. destruct (remaining_loop _ _ _ _ _) as [[i tot]|]; [|discriminate]. cbn [mbind option_bind].
  destruct (int_ok _) as [z|]; [|discriminate]. cbn [mbind option_bind]. destruct (_ <=? _); [by intros [= <- <-]|].
  destruct (rd b i) as [hi|]; [|discriminate]. cbn [mbind option_bind]. destruct (rd b (i + 1)) as [lo|]; [|discriminate]. cbn [mbind option_bind].
  destruct (_ <=? _); [by intros [= <- <-]|]. destruct (rd b 0); [|discriminate]. cbn [mbind option_bind].
  assert (K : forall j, (if z <? j then Some (None, 0)
    else if z <=? n then Some (Some j, u16 (z - j)) else Some (Some j, u16 (n - j))) = Some (d, dl) ->
    match (off ← d; Some (tab dl (λ i0 : Z, nthZ message (off + i0)))) with
    | Some p => zlen p = dl /\ dl < 65536 | None => dl = 0 end).
  { intros j. destruct (_ <? _); [by intros [= <- <-]|].
    destruct (_ <=? _); intros [= <- <-]; cbn; rewrite zlen_tab; pose proof (u16_range (z - j)); pose proof (u16_range (n - j)); unfold is_u16 in *; lia. }
  cbv zeta. destruct (0 <? _); [|apply K]. destruct (n <=? i + 2 + Z.lor (Z.shiftl hi 8) lo + 2); [by intros [= <- <-]|apply K].
Qed.

Lemma deliver_publish_tame m n : tame (deliver_publish m n).
Proof.
  unfold deliver_publish. intros w a w'.
  destruct (mqtt_get_publish_topic m (u16 n)) as [[t tl]|] eqn:Et; [|discriminate]. rewrite (sbind_lift _ (t, tl)) by done.
  destruct (mqtt_get_publish_data m (u16 n)) as [[d dl]|] eqn:Ed; [|discriminate]. rewrite (sbind_lift _ (d, dl)) by done.
  revert w a w'. change (tame (cb <- get dataCb ;; swhen cb (emit (EDataCb (view m t tl) tl (view m d dl) dl)))).
  apply tame_bind; [apply tame_get|intros b]. apply tame_when, tame_emit. split.
  - intros Hn. by apply (topic_buffer m m (u16 n)).
  - by apply (data_buffer m m (u16 n)).
Qed.
#[export] Hint Resolve deliver_publish_tame : tame.
Lemma recv_message_tame t q i b : tame (recv_message t q i b). Proof. unfold recv_message. tame. Qed.
#[export] Hint Resolve recv_message_tame : tame.
Lemma recv_connected_tame p n t q i b : tame (recv_connected p n t q i b). Proof. unfold recv_connected. tame. Qed.
Lemma recv_connack_tame ty : tame (recv_connack ty). Proof. unfold recv_connack. tame. Qed.
#[export] Hint Resolve recv_connected_tame recv_connack_tame : tame.
Lemma recv_round_tame p n : tame (recv_round p n). Proof. unfold recv_round. tame. Qed.
#[export] Hint Resolve recv_round_tame : tame.
Lemma recv_rounds_tame fuel : forall p n, tame (recv_rounds fuel p n).
Proof. induction fuel as [|fuel IH]; intros p n; cbn [recv_rounds]; tame. Qed.
#[export] Hint Resolve recv_rounds_tame : tame.
Lemma recv_tame fuel p n : tame (mqtt_tcpclient_recv fuel p n). Proof. unfold mqtt_tcpclient_recv. tame. Qed.
Lemma timer_tame : tame mqtt_timer. Proof. unfold mqtt_timer. tame. Qed.
Lemma sent_tame : tame mqtt_tcpclient_sent_cb. Proof. unfold mqtt_tcpclient_sent_cb. tame. Qed.
Lemma discon_tame : tame mqtt_tcpclient_discon_cb. Proof. unfold mqtt_tcpclient_discon_cb. tame. Qed.
Lemma connect_cb_tame : tame mqtt_tcpclient_connect_cb. Proof. unfold mqtt_tcpclient_connect_cb. tame. Qed.
Lemma recon_tame : tame mqtt_tcpclient_recon_cb. Proof. unfold mqtt_tcpclient_recon_cb. tame. Qed.
Lemma enqueue_tame p0 c0 fuel d n b l : tame (enqueue p0 c0 fuel d n b l).
Proof. revert b l. induction fuel as [|fuel IH]; intros b l; cbn [enqueue]; tame. Qed.
#[export] Hint Resolve recv_tame timer_tame sent_tame discon_tame connect_cb_tame recon_tame enqueue_tame : tame.
Lemma enqueue_outbound_tame p0 c0 st l : tame (enqueue_outbound p0 c0 st l). Proof. unfold enqueue_outbound. tame. Qed.
#[export] Hint Resolve enqueue_outbound_tame : tame.
Lemma publish_tame p0 c0 st l t d n q r : tame (MQTT_Publish p0 c0 st l t d n q r). Proof. unfold MQTT_Publish. tame. Qed.
Lemma subscribe_tame p0 c0 st l t q : tame (MQTT_Subscribe p0 c0 st l t q). Proof. unfold MQTT_Subscribe. tame. Qed.
Lemma unsubscribe_tame p0 c0 st l t : tame (MQTT_UnSubscribe p0 c0 st l t). Proof. unfold MQTT_UnSubscribe. tame. Qed.
Lemma ping_tame p0 c0 st l : tame (MQTT_Ping p0 c0 st l). Proof. unfold MQTT_Ping. tame. Qed.
Lemma connect_tame ep : tame (MQTT_Connect ep). Proof. unfold MQTT_Connect. tame. Qed.
Lemma disconnect_tame : tame MQTT_Disconnect. Proof. unfold MQTT_Disconnect. tame. Qed.
Lemma deletereq_tame : tame MQTT_DeleteClient. Proof. unfold MQTT_DeleteClient. tame. Qed.
#[export] Hint Resolve publish_tame subscribe_tame unsubscribe_tame ping_tame connect_tame disconnect_tame deletereq_tame : tame.
Lemma connected_tame p0 c0 st l : tame (mqttConnectedCb p0 c0 st l). Proof. unfold mqttConnectedCb. tame. Qed.
#[export] Hint Resolve connected_tame : tame.

Lemma run_get {A B} (f : MQTT_Client -> A) (k : A -> M B) w : sbind (get f) k w = k (f (cl w)) w.
Proof. done. Qed.

(** A client that is not deleted. *)
Lemma handle_tame p0 c0 st l ep i w w' :
  handle p0 c0 st l ep i w = Some (tt, w') -> connState (cl w) <> MQTT_DELETED -> tame_step w w'.
Proof.
  intros E Hd. destruct i; cbn [handle] in E; try (revert E; match goal with |- ?m _ = _ -> _ => assert (T : tame m) by tame end; apply T).
  unfold MQTT_Task in E. rewrite (run_get connState) in E.
  revert E. destruct (connState (cl w)); [..|done]; match goal with |- ?m _ = _ -> _ => assert (T : tame m) by tame end; apply T.
Qed.

(** ** Nothing the program does is undefined *)

Definition undeleted (st : tConnState) : Prop := st <> MQTT_DELETING /\ st <> MQTT_DELETED.

(** The client as the program uses it: it is never deleted, and its host name stays. *)
Definition client_good (w : world) : Prop :=
  (exists cs, client_ok (cl w) cs) /\ host_ok (host (cl w)) /\ undeleted (connState (cl w)).

(** The events of a handler's run. *)
Definition new_events (w w' : world) : list MqttClient.event := drop (length (trace w)) (trace w').

Lemma new_events_tame w w' : tame_step w w' -> Forall event_ok (new_events w w').
Proof. intros [(l & E & F) _]. unfold new_events. by rewrite E, drop_app_length. Qed.

Section Good.
Context (proto0 : PROTO_PARSER) (c0 : Z) (stack : list Z) (len0 : Z).
Context (os_zalloc : Z -> option (list Z)) (espconn_port : Z).
Hypothesis Hstack : MQTT_BUF_SIZE <= zlen stack.
Hypothesis zalloc_ok : forall n, 0 <= n -> os_zalloc n = Some (replicate (Z.to_nat n) 0).

Abbreviation client_handle := (handle proto0 c0 stack len0 espconn_port).
Abbreviation client_handle_app := (handle_app proto0 c0 stack len0 os_zalloc espconn_port).
Abbreviation client_callback := (run_callback proto0 c0 stack len0 os_zalloc).

Lemma edge_undeleted i old new : edge i old new -> i <> IDeleteReq -> undeleted old -> undeleted new.
Proof.
  unfold undeleted. intros He Hi [H1 H2]. destruct i; cbn in He; try done; try (subst; by split).
  - destruct ipaddr; [destruct He as [->| ->]|subst]; by split.
  - destruct He as [->|(_ & -> & _)]; by split.
  - destruct He as [->|[(_ & ->)|(_ & ->)]]; by split.
  - subst. by destruct old.
  - subst. destruct old; try done. by destruct (_ =? _).
Qed.

Lemma handle_good i w : client_good w -> i <> IDeleteReq -> input_ok (cl w) i ->
  exists w', client_handle i w = Some (tt, w') /\ client_good w' /\ tame_step w w'.
Proof.
  intros ((cs & W) & Hh & Hu) Hi Hin.
  destruct (handle_safe proto0 c0 stack len0 espconn_port Hstack i w cs W Hin) as (w' & cs' & E & W').
  assert (T : tame_step w w') by (eapply handle_tame; [exact E|apply Hu]).
  exists w'. split; [done|]. split; [|done]. split; [by exists cs'|]. destruct T as [_ ->]. split; [done|].
  exact (edge_undeleted _ _ _ (handle_edge _ _ _ _ _ _ _ _ E) Hi Hu).
Qed.

(** A request whose answer is not looked at. *)
Lemma request_good {B} (m : M bool) (k : M B) i w : client_good w -> client_handle i = (_ <- m ;; sret tt) -> i <> IDeleteReq ->
  input_ok (cl w) i -> exists w', client_good w' /\ (m ;; k) w = k w'.
Proof.
  intros G Hm Hi Hin. destruct (handle_good i w G Hi Hin) as (w' & E & G' & _). exists w'. split; [done|].
  rewrite Hm in E. unfold sbind in *. destruct (m w) as [[a w1]|]; [|discriminate]. cbn in *. by injection E as ->.
Qed.

Lemma copy_data_ok p n : buffer_ok p n -> exists b, copy_data os_zalloc p n = Some b.
Proof.
  unfold buffer_ok, copy_data. intros H.
  assert (Hn : 0 <= n < 65536) by (destruct p as [p|]; [pose proof (zlen_nonneg p)|]; lia).
  rewrite u32_small by lia. rewrite zalloc_ok by lia. cbn [mbind option_bind].
  set (b := replicate (Z.to_nat (n + 1)) 0). assert (Hb : zlen b = n + 1) by (unfold b; zlia).
  assert (K : exists b', (match p with Some p => p ← bslice p 0 n; bsplice b 0 p | None => if n =? 0 then Some b else None end) = Some b' /\ zlen b' = n + 1).
  { destruct p as [p|]; [|subst n; by exists b]. rewrite bslice_tab by lia. cbn [mbind option_bind].
    destruct (bsplice_Some b 0 (tab n (nthZ p))) as (b' & E & L & _); [lia|rewrite zlen_tab; lia|]. exists b'. split; [done|lia]. }
  destruct K as (b' & E & L). rewrite E. cbn [mbind option_bind]. destruct (wr_Some b' n 0) as (b2 & E2 & _); [lia|]. by exists b2.
Qed.

Lemma connected_good w : client_good w -> exists w', mqttConnectedCb proto0 c0 stack len0 w = Some (tt, w') /\ client_good w'.
Proof.
  assert (Hb : forall s, Forall is_byte (chars s)) by (intros; apply chars_bytes).
  intros G. unfold mqttConnectedCb.
  repeat match goal with G : client_good ?w |- context [(MQTT_Subscribe _ _ _ _ ?t ?q ;; ?k) ?w] =>
    destruct (request_good (MQTT_Subscribe proto0 c0 stack len0 t q) k (ISubscribe t q) w G eq_refl ltac:(done) (Hb _)) as (? & ? & ->); clear G end.
  repeat match goal with G : client_good ?w |- context [(MQTT_Publish _ _ _ _ ?t ?d ?n ?q ?r ;; ?k) ?w] =>
    destruct (request_good (MQTT_Publish proto0 c0 stack len0 t d n q r) k (IPublish t d n q r) w G eq_refl ltac:(done)
      (conj (Hb _) (conj (Hb _) eq_refl))) as (? & ? & ->); clear G end.
  by eexists.
Qed.

(** Data without a topic is what [mqttDataCb] cannot take. *)
Definition has_topic (e : MqttClient.event) : Prop := match e with EDataCb None _ _ _ => False | _ => True end.

Lemma callback_good e w : client_good w -> event_ok e -> has_topic e -> exists w', client_callback e w = Some (tt, w') /\ client_good w'.
Proof.
  intros G He Ht. destruct e; cbn [MqttApp.run_callback]; try (by exists w).
  - by apply connected_good.
  - destruct topic as [t|]; [|done]. destruct He as [H1 H2].
    destruct (copy_data_ok _ _ (H1 ltac:(done))) as (tb & E1). destruct (copy_data_ok _ _ H2) as (db & E2).
    unfold mqttDataCb. exists w. rewrite E1. cbn [mbind option_bind]. rewrite E2. done.
Qed.

Lemma callbacks_good l : forall w, client_good w -> Forall event_ok l -> Forall has_topic l ->
  exists w', sfor l client_callback w = Some (tt, w') /\ client_good w'.
Proof.
  induction l as [|e l IH]; intros w G He Ht; [by exists w|]. apply Forall_cons_1 in He as [He Hes], Ht as [Ht Hts].
  destruct (callback_good e w G He Ht) as (w1 & E & G1). cbn [sfor]. rewrite (run_bind _ _ _ _ _ E). by apply IH.
Qed.

Lemma handle_app_good i w : client_good w -> i <> IDeleteReq -> input_ok (cl w) i ->
  (forall w', client_handle i w = Some (tt, w') -> Forall has_topic (new_events w w')) ->
  exists w', client_handle_app i w = Some (tt, w') /\ client_good w'.
Proof.
  intros G Hi Hin Ht. destruct (handle_good i w G Hi Hin) as (w1 & E & G1 & T).
  unfold MqttApp.handle_app. rewrite (run_bind _ _ _ (length (trace w)) w) by done. rewrite (run_bind _ _ _ _ _ E).
  rewrite (run_bind _ _ _ (new_events w w1) w1) by done.
  apply callbacks_good; [done|by apply new_events_tame|by apply Ht].
Qed.
End Good.

(** ** From start-up on *)

(** The state of the running program: the client is good, and the timer of
    wifi.c, which calls back into it, is armed. *)
Definition app_good (s : sys mqtt_app) : Prop :=
  client_good (mqttClient (st s)) /\ wifiCb (ma_wifi (st s)) = Some fp_wifiConnectCb /\ armed WiFiLinker (log s) = true.

Section Alive.
Context `{Env}.
Context (proto0 : PROTO_PARSER) (c0 : Z) (stack : list Z) (len0 : Z).
Context (os_zalloc : Z -> option (list Z)) (espconn_port : Z).
Hypothesis Hstack : MQTT_BUF_SIZE <= zlen stack.
Hypothesis zalloc_ok : forall n, 0 <= n -> os_zalloc n = Some (replicate (Z.to_nat n) 0).
Implicit Types s : sys mqtt_app.
Abbreviation run_step := (app_step proto0 c0 stack len0 os_zalloc espconn_port).
Abbreviation client_handle := (handle proto0 c0 stack len0 espconn_port).

(** What may happen in a state.  The packets received end (see
    [mqtt_client_progress]), and a PUBLISH among them holds its whole topic. *)
Definition allowed s (e : app_event) : Prop :=
  match e with
  | AClient i =>
      let w := mqttClient (st s) in
      i <> IDeleteReq /\ input_ok (cl w) i /\ forall w', client_handle i w = Some (tt, w') -> Forall has_topic (new_events w w')
  | APoll => True
  end.

(** The states reached from [s] by such events. *)
Inductive app_reach s : sys mqtt_app -> Prop :=
  | reach_here : app_reach s s
  | reach_next e s1 s2 : app_reach s s1 -> allowed s1 e -> run_step e s1 = Some (tt, s2) -> app_reach s s2.

Lemma client_run {A} (m : M A) s a w : m (mqttClient (st s)) = Some (a, w) ->
  client m s = Some (a, mk_sys (log s) (mem s) ((st s) <| mqttClient := w |>)).
Proof. intros E. unfold client. by rewrite E. Qed.

Lemma wifiConnectCb_good v s : app_good s ->
  exists s', run_wifi_cb espconn_port fp_wifiConnectCb v s = Some (tt, s') /\ app_good s'.
Proof.
  intros (G & Hcb & Ha). cbn [run_wifi_cb]. unfold wifiConnectCb.
  assert (K : forall m i, client_handle i = m -> i = IConnectReq \/ i = IDisconnectReq -> exists s', client m s = Some (tt, s') /\ app_good s').
  { intros m i <- Hi. destruct (handle_good proto0 c0 stack len0 espconn_port Hstack i (mqttClient (st s)) G) as (w & E & G' & _);
      [by destruct Hi; subst|destruct Hi; subst; [apply G|done]|]. eexists. split; [by apply client_run|]. by split. }
  destruct (v =? STATION_GOT_IP); [apply (K _ IConnectReq)|apply (K _ IDisconnectReq)]; auto.
Qed.

Lemma armed_poll addr v l k : poll_log addr v l -> armed WiFiLinker (k ++ l) = true.
Proof.
  intros (r & ms & -> & _). rewrite !app_assoc. change [Do (os_timer_setfn WiFiLinker fp_wifi_check_ip); Do (os_timer_arm WiFiLinker ms 0)]
    with ([Do (os_timer_setfn WiFiLinker fp_wifi_check_ip)] ++ [Do (os_timer_arm WiFiLinker ms 0)]).
  rewrite app_assoc, armed_snoc. cbn [armed_step]. by rewrite bool_decide_true.
Qed.

Lemma poll_good s : app_good s -> exists s', run_step APoll s = Some (tt, s') /\ app_good s'.
Proof.
  intros (G & Hcb & Ha). cbn [MqttApp.app_step].
  destruct (wifi_poll (run_wifi_cb espconn_port) s) as (v & s1 & [(addr & l & Pl & L) M S] & E).
  cbn [part mqtt_app_wifi] in E. rewrite Hcb in E. cbn [report] in E. rewrite E.
  assert (G1 : app_good s1).
  { unfold app_good. rewrite S, L. cbn. split; [done|]. split; [done|]. by apply (armed_poll addr v). }
  destruct (_ =? _); [by exists s1|by apply wifiConnectCb_good].
Qed.

Lemma step_good e s : app_good s -> allowed s e -> exists s', run_step e s = Some (tt, s') /\ app_good s'.
Proof.
  intros G He. destruct e as [i|]; [|by apply poll_good]. destruct He as (Hi & Hin & Ht). pose proof G as (Gc & Hcb & Ha).
  destruct (handle_app_good proto0 c0 stack len0 os_zalloc espconn_port Hstack zalloc_ok i _ Gc Hi Hin Ht) as (w & E & Gw).
  cbn [MqttApp.app_step]. eexists. split; [by apply client_run|]. by split.
Qed.

Lemma reach_good s s' : app_good s -> app_reach s s' -> app_good s'.
Proof.
  intros G R. induction R as [|e s1 s2 R IH He E]; [done|].
  destruct (step_good e s1 IH He) as (s2' & E' & G'). rewrite E in E'. by injection E' as <-.
Qed.

End Alive.

(** ** A topic that is not there *)

Section Truncated.
(** A PUBLISH packet, its header of [hl] bytes, and what comes of it in a first
    segment of [k] bytes that ends inside the topic. *)
Variables (qos retain : Z) (t body : list Z) (k : Z).
Let n := zlen (encode_string t ++ body).
Let hl := header_len n.
Let packet := fixed_header MQTT_MSG_TYPE_PUBLISH 0 qos retain n ++ encode_string t ++ body.
Definition first_segment : list Z := take (Z.to_nat k) packet.
Hypothesis Ht : Forall is_byte t.
Hypothesis Hn : n <= 16383.
Hypothesis Hk : hl <= k < hl + 2 + zlen t.

(** A buffer that starts with it. *)
Variable tail : list Z.
Let b := first_segment ++ tail.

Lemma hl_range : 2 <= hl <= 3 /\ n = 2 + zlen t + zlen body /\ zlen packet = hl + n /\ zlen first_segment = k.
Proof.
  pose proof (header_len_le n). pose proof (zlen_nonneg t). pose proof (zlen_nonneg body).
  assert (E : n = 2 + zlen t + zlen body) by (unfold n, encode_string; zlia).
  assert (P : zlen packet = hl + n) by (unfold packet; rewrite zlen_app, zlen_fixed_header; done).
  split; [unfold hl; lia|]. split; [done|]. split; [done|]. unfold first_segment. rewrite zlen_take. lia.
Qed.
Lemma segment_header : exists rest, b = fixed_header MQTT_MSG_TYPE_PUBLISH 0 qos retain n ++ rest.
Proof.
  unfold b, first_segment, packet. rewrite take_app_ge.
  - rewrite <- app_assoc. by eexists.
  - pose proof (zlen_fixed_header MQTT_MSG_TYPE_PUBLISH 0 qos retain n) as E. fold hl in E. unfold zlen in E at 1. lia.
Qed.
Lemma segment_rd i : 0 <= i < k -> rd b i = Some (nthZ packet i).
Proof.
  intros Hi. pose proof hl_range as (_ & _ & _ & Hz). pose proof (zlen_nonneg tail). unfold b. rewrite rd_Some.
  - f_equal. rewrite nthZ_app by lia. ztrue (i <? zlen first_segment). unfold first_segment. by rewrite nthZ_take.
  - rewrite zlen_app. lia.
Qed.
Lemma segment_loop : remaining_loop (Z.to_nat k + 1) b k 1 0 = Some (hl, n).
Proof.
  destruct segment_header as (rest & ->). pose proof hl_range. pose proof (zlen_nonneg t). pose proof (zlen_nonneg body).
  by apply (remaining_loop_header MQTT_MSG_TYPE_PUBLISH 0 qos retain n rest k); lia.
Qed.
Lemma segment_total : mqtt_get_total_length b k = Some (hl + n).
Proof.
  pose proof hl_range. pose proof (zlen_nonneg t). pose proof (zlen_nonneg body).
  unfold mqtt_get_total_length. rewrite segment_loop. cbn [mbind option_bind]. rewrite int_ok_small by lia. f_equal. lia.
Qed.
Lemma segment_topic_length : hl + 2 < k -> rd b hl = Some (u8 (Z.shiftr (zlen t) 8)) /\ rd b (hl + 1) = Some (Z.land (zlen t) 255) /\
  Z.lor (Z.shiftl (u8 (Z.shiftr (zlen t) 8)) 8) (Z.land (zlen t) 255) = zlen t.
Proof.
  intros H2. pose proof hl_range as (Hr & En & Hp & _). pose proof (zlen_nonneg body).
  destruct (topic_length_bytes (fixed_header MQTT_MSG_TYPE_PUBLISH 0 qos retain n) t body) as (E1 & E2 & E3); [lia|].
  rewrite zlen_fixed_header in E1, E2. fold hl in E1, E2. fold packet in E1, E2.
  rewrite !segment_rd by lia. rewrite rd_Some in E1, E2 by lia. done.
Qed.
Lemma segment_topic : mqtt_get_publish_topic b k = Some (None, k).
Proof.
  pose proof hl_range as (Hr & En & _). pose proof (zlen_nonneg body). pose proof (zlen_nonneg t).
  unfold mqtt_get_publish_topic. rewrite segment_loop. cbn [mbind option_bind]. rewrite int_ok_small by lia. cbn [mbind option_bind].
  destruct (Z.leb_spec k (hl + 2)); [done|]. destruct segment_topic_length as (-> & -> & E); [lia|]. cbn [mbind option_bind].
  cbv zeta. rewrite E. by ztrue (k <? hl + 2 + zlen t).
Qed.
Lemma segment_data : mqtt_get_publish_data b k = Some (None, 0).
Proof.
  pose proof hl_range as (Hr & En & _). pose proof (zlen_nonneg body). pose proof (zlen_nonneg t).
  unfold mqtt_get_publish_data. rewrite segment_loop. cbn [mbind option_bind]. rewrite int_ok_small by lia. cbn [mbind option_bind].
  destruct (Z.leb_spec k (hl + 2)); [done|]. destruct segment_topic_length as (-> & -> & E); [lia|]. cbn [mbind option_bind].
  cbv zeta. rewrite E. by ztrue (k <=? hl + 2 + zlen t).
Qed.
End Truncated.

Section Crash.
Context (proto0 : PROTO_PARSER) (c0 : Z) (stack : list Z) (len0 : Z).
Context (os_zalloc : Z -> option (list Z)) (espconn_port : Z).

Lemma answer_run w cs qos id : client_ok (cl w) cs -> is_u16 id ->
  exists c', (if qos =? 1 then queue_response (λ conn, mqtt_msg_puback conn id)
              else if qos =? 2 then queue_response (λ conn, mqtt_msg_pubrec conn id) else sret tt) w = Some (tt, mk_world c' (trace w)) /\
    dataCb c' = dataCb (cl w) /\ kept (cl w) c'.
Proof.
  intros W Hid.
  assert (A : forall type qo, exists c', queue_response (λ conn, ack_message type qo conn id) w = Some (tt, mk_world c' (trace w)) /\
    dataCb c' = dataCb (cl w) /\ kept (cl w) c').
  { intros type qo. destruct (ack_packet_holds type qo _ id (ck_conn _ _ W) (ck_connlen _ _ W) Hid) as (conn & E & H1 & H2).
    destruct (queue_response_spec w cs (λ conn, ack_message type qo conn id) conn _ W E H1 H2) as (q & cs' & E2 & _). by eexists. }
  destruct (qos =? 1); [apply A|]. destruct (qos =? 2); [apply A|]. exists (cl w). by destruct w.
Qed.

Variables (qos retain : Z) (t body : list Z) (k : Z).
Let n := zlen (encode_string t ++ body).
Let hl := header_len n.
Hypothesis Ht : Forall is_byte t.
Hypothesis Hbody : Forall is_byte body.
Hypothesis Hn : n <= 16383.
Hypothesis Hk : hl <= k < hl + 2 + zlen t.
Hypothesis Hsmall : k < MQTT_BUF_SIZE.

Lemma segment_first tail : let b := first_segment qos retain t body k ++ tail in
  exists b0, rd b 0 = Some b0 /\ mqtt_get_type b0 = MQTT_MSG_TYPE_PUBLISH.
Proof.
  destruct (segment_header qos retain t body k Hk tail) as (rest & ->). eexists. split; [apply fixed_header_first|].
  apply (fixed_byte_fields MQTT_MSG_TYPE_PUBLISH).
Qed.

Lemma recv_cut w cs id q tail : client_ok (cl w) cs -> is_u16 id -> dataCb (cl w) = true ->
  let b := first_segment qos retain t body k ++ tail in
  exists c', recv_connected (first_segment qos retain t body k) k MQTT_MSG_TYPE_PUBLISH q id b w =
    Some (None, mk_world c' (trace w ++ [EDataCb None k None 0])).
Proof.
  intros W Hid Hcb b. pose proof (hl_range qos retain t body k Hk) as (Hr & En & _). fold n hl in Hr, En.
  pose proof (zlen_nonneg t). pose proof (zlen_nonneg body). unfold MQTT_BUF_SIZE in *.
  pose proof (segment_total qos retain t body k Hn Hk tail) as Et. fold n hl b in Et.
  set (c1 := (cl w) <| message_length_read := k |> <| message_length := u16 (hl + n) |>).
  assert (W1 : client_ok c1 cs) by (destruct W; by split).
  destruct (answer_run (mk_world c1 (trace w)) cs q id W1 Hid) as (c2 & E2 & D2 & (_ & L2 & M2 & _)).
  unfold recv_connected. rewrite (sbind_lift _ _ _ _ Et). rewrite (run_bind _ _ _ tt (mk_world c1 (trace w))) by done.
  exists c2. rewrite (run_bind _ _ _ tt (mk_world c2 (trace w ++ [EDataCb None k None 0]))).
  - change (MQTT_MSG_TYPE_PUBLISH =? MQTT_MSG_TYPE_PUBLISH) with true. cbv iota.
    rewrite run_get, run_get. cbn [cl]. rewrite L2, M2. cbn [cl]. change (message_length c1) with (u16 (hl + n)).
    change (message_length_read c1) with k. rewrite u16_small by lia. by zfalse (hl + n <? k).
  - unfold recv_message. change (MQTT_MSG_TYPE_PUBLISH =? MQTT_MSG_TYPE_PUBLISH) with true. cbv iota.
    rewrite (run_bind _ _ _ _ _ E2). rewrite run_get. cbn [cl]. rewrite L2. change (message_length_read (cl (mk_world c1 (trace w)))) with k.
    unfold deliver_publish. rewrite u16_small by lia.
    rewrite (sbind_lift _ _ _ _ (segment_topic qos retain t body k Hn Hk tail)).
    rewrite (sbind_lift _ _ _ _ (segment_data qos retain t body k Hn Hk tail)).
    rewrite run_get. cbn [cl] in D2 |- *. rewrite D2. change (dataCb c1) with (dataCb (cl w)). by rewrite Hcb.
Qed.

Lemma recv_cut_round w cs : client_ok (cl w) cs -> receiving (connState (cl w)) -> dataCb (cl w) = true ->
  exists c', recv_round (first_segment qos retain t body k) k w = Some (None, mk_world c' (trace w ++ [EDataCb None k None 0])).
Proof.
  intros W Hst Hcb. pose proof (hl_range qos retain t body k Hk) as (Hr & En & _ & Hz). fold n hl in Hr, En.
  set (p := first_segment qos retain t body k) in *. pose proof (zlen_nonneg t). pose proof (zlen_nonneg body).
  destruct (ck_in _ _ W) as (b0 & Eb & Hb & Hbb). unfold MQTT_BUF_SIZE in *.
  pose proof (in_buffer_written b0 p) as Ew. rewrite Hz in Ew. set (tail := drop (Z.to_nat k) b0) in *. set (b := p ++ tail) in *.
  assert (Hpb : Forall is_byte p).
  { apply Forall_take, Forall_app_2; [by apply fixed_header_bytes; lia|]. by apply Forall_app_2; [apply encode_string_bytes|]. }
  assert (Hb' : Forall is_byte b) by (apply Forall_app_2; [done|by apply Forall_drop]).
  assert (Hzb : zlen b = 1024) by (unfold b, tail; rewrite zlen_app, zlen_drop; lia).
  destruct (mqtt_get_id_safe b 1024 Hb' ltac:(lia)) as (id & Ei & Hid).
  destruct (segment_first tail) as (h & Eh & Ty). fold p b in Eh.
  set (c1 := (cl w) <| in_buffer := Some b |>).
  assert (W1 : client_ok c1 cs) by (destruct W; split; try done; by exists b).
  destruct (recv_cut (mk_world c1 (trace w)) cs id (mqtt_get_qos h) tail W1 Hid Hcb) as (c' & E). fold p b in E.
  exists c'. unfold recv_round, MQTT_BUF_SIZE. ztrue ((k <? 1024) && (0 <? k)).
  rewrite run_get. rewrite (sbind_lift _ _ _ _ Eb).
  assert (Es : bslice p 0 k = Some p) by (rewrite bslice_tab by lia; f_equal; rewrite <- Hz; apply tab_nthZ).
  rewrite (sbind_lift _ _ _ _ Es). rewrite (sbind_lift _ _ _ _ (Ew ltac:(lia))). fold b.
  rewrite (run_bind _ _ _ tt (mk_world c1 (trace w))) by done. rewrite (sbind_lift _ _ _ _ Eh). cbv zeta. rewrite Ty.
  rewrite run_get. cbn [cl]. change (in_buffer_length c1) with (in_buffer_length (cl w)). rewrite (ck_inlen _ _ W).
  change (u16 MQTT_BUF_SIZE) with 1024. rewrite (sbind_lift _ _ _ _ Ei). rewrite run_get. cbn [cl].
  change (connState c1) with (connState (cl w)). by destruct Hst as [-> | ->].
Qed.

(** TCP may cut a PUBLISH anywhere.  When a segment ends inside the topic, [mqtt_get_publish_topic]
    finds no topic, returns null and leaves the length as it was; the client passes both on, and the
    program's [mqttDataCb] copies that many bytes from the null pointer: undefined behaviour, in every
    connected state, with any quality of service. *)
Theorem cut_topic_crashes w cs : client_ok (cl w) cs -> receiving (connState (cl w)) -> dataCb (cl w) = true ->
  let i := IRecv (first_segment qos retain t body k) k in
  (exists w', handle proto0 c0 stack len0 espconn_port i w = Some (tt, w') /\ new_events w w' = [EDataCb None k None 0; EPost]) /\
  handle_app proto0 c0 stack len0 os_zalloc espconn_port i w = None.
Proof.
  intros W Hst Hcb i. pose proof (hl_range qos retain t body k Hk) as (Hr & En & _). fold n hl in Hr, En. pose proof (zlen_nonneg t).
  set (c0' := (cl w) <| keepAliveTick := 0 |>).
  destruct (recv_cut_round (mk_world c0' (trace w)) cs) as (c' & E); [by apply client_ok_tick|done|done|].
  assert (K : handle proto0 c0 stack len0 espconn_port i w = Some (tt, mk_world c' ((trace w ++ [EDataCb None k None 0]) ++ [EPost]))).
  { cbn [handle i]. unfold mqtt_tcpclient_recv. rewrite (run_bind _ _ _ tt (mk_world c0' (trace w))) by done.
    rewrite (run_bind _ _ _ tt (mk_world c' (trace w ++ [EDataCb None k None 0]))); [done|].
    rewrite Nat.add_1_r. cbn [recv_rounds]. by rewrite (run_bind _ _ _ _ _ E). }
  assert (N : drop (length (trace w)) ((trace w ++ [EDataCb None k None 0]) ++ [EPost]) = [EDataCb None k None 0; EPost])
    by (by rewrite <- app_assoc, drop_app_length).
  split; [by eexists|]. unfold handle_app. rewrite (run_bind _ _ _ (length (trace w)) w) by done. rewrite (run_bind _ _ _ _ _ K).
  rewrite (run_bind _ _ _ [EDataCb None k None 0; EPost] (mk_world c' ((trace w ++ [EDataCb None k None 0]) ++ [EPost])))
    by (unfold sget; cbn [trace]; by rewrite N).
  assert (D : mqttDataCb os_zalloc None k None 0 = None).
  { unfold mqttDataCb, copy_data. destruct (os_zalloc (u32 (k + 1))) as [z|]; [|done]. cbn [mbind option_bind]. by zfalse (k =? 0). }
  cbn [sfor run_callback]. unfold sbind, slift. by rewrite D.
Qed.
End Crash.

(** ** Starting up *)

Lemma string_of_ok b : forall s, string_of b = Some s -> Forall is_byte b -> Forall is_byte s /\ zlen s < zlen b.
Proof.
  induction b as [|x b IH]; intros s E Hb; [done|]. cbn [string_of] in E. apply Forall_cons_1 in Hb as [Hx Hb].
  rewrite zlen_cons. pose proof (zlen_nonneg b).
  destruct (x =? 0); [injection E as <-; split; [done|change (zlen (@nil Z)) with 0; lia]|].
  destruct (string_of b) as [s'|]; [|discriminate]. injection E as <-. destruct (IH s' eq_refl Hb).
  rewrite zlen_cons. split; [by apply Forall_cons_2|lia].
Qed.
Lemma cstr_string_ok c o s : config_ok c -> cstr c o = Some s -> string_ok s.
Proof.
  intros (Hz & Hb & _) E. destruct (string_of_ok _ _ E) as [H1 H2]; [by apply Forall_drop|].
  split; [done|]. revert H2. unfold zlen in *. rewrite length_drop. unfold SYSCFG_size in Hz. lia.
Qed.

(** The strings of a configuration: each ends, the broker's name can be parsed,
    and the network's name and password fit [struct station_config]. *)
Record strings := mk_strings { s_host : list Z; s_device : list Z; s_user : list Z; s_pass : list Z; s_ssid : list Z; s_pwd : list Z }.
Record strings_of (c : list Z) (x : strings) : Prop := {
  so_host : cstr c o_mqtt_host = Some (s_host x); so_device : cstr c o_device_id = Some (s_device x);
  so_user : cstr c o_mqtt_user = Some (s_user x); so_pass : cstr c o_mqtt_pass = Some (s_pass x);
  so_ssid : cstr c o_sta_ssid = Some (s_ssid x); so_pwd : cstr c o_sta_pwd = Some (s_pwd x);
  so_parse : host_ok (Some (s_host x)); so_ssid_fits : zlen (s_ssid x) <= 63; so_pwd_fits : zlen (s_pwd x) <= 63 }.

Lemma string_of_cons x b s : 0 < x -> string_of b = Some s -> string_of (x :: b) = Some (x :: s).
Proof. intros Hx E. cbn. rewrite E. by zfalse (x =? 0). Qed.
Lemma hex_digit_positive d : 0 <= d < 16 -> 0 < hex_digit d.
Proof. unfold hex_digit. destruct (Z.ltb_spec d 10); lia. Qed.

Definition default_strings (chip : Z) : strings :=
  mk_strings (chars MQTT_HOST) (device_name chip) (chars MQTT_USER) (chars MQTT_PASS) (chars STA_SSID) (chars STA_PASS).

(** The default configuration is usable. *)
Lemma default_strings_of chip d : default_config chip = Some d -> strings_of d (default_strings chip).
Proof.
  unfold default_config, default_strings, device_name. destruct (hex8_bytes chip) as [Hl _].
  assert (Hnz : Forall (λ x, 0 < x) (hex8 chip)).
  { unfold hex8. apply Forall_fmap, Forall_forall. intros k _. apply hex_digit_positive, Z.mod_pos_bound. lia. }
  revert Hl Hnz. generalize (hex8 chip). intros l Hl Hnz. do 8 (destruct l as [|?x l]; [discriminate Hl|]). destruct l; [|discriminate Hl].
  repeat match goal with H : Forall _ (_ :: _) |- _ => apply Forall_cons_1 in H as [? H] end.
  intros E. vm_compute in E. injection E as <-.
  split; [vm_compute; reflexivity| |vm_compute; reflexivity..| |vm_compute; discriminate|vm_compute; discriminate].
  - unfold cstr. change (Z.to_nat o_device_id) with 4%nat. cbn [drop s_device]. change (chars "DVES_") with [68; 86; 69; 83; 95]. cbn [app].
    repeat (apply string_of_cons; [assumption || reflexivity|]). reflexivity.
  - eexists _, _, _. split; [reflexivity|vm_compute; reflexivity].
Qed.

Section Start.
Context `{Env} `{!Flash} `{!NorFlash}.
Context (proto0 : PROTO_PARSER) (c0 : Z) (stack : list Z) (len0 : Z).
Context (os_zalloc : Z -> option (list Z)) (espconn_port : Z) (uart_init : Z -> Z -> F mqtt_app unit).
Hypothesis zalloc_ok : forall n, 0 <= n -> os_zalloc n = Some (replicate (Z.to_nat n) 0).
(** The driver library keeps away from the flash and from the program's variables. *)
Hypothesis uart_quiet : forall a b s, wp (uart_init a b) s (λ _ s',
  st s' = st s /\ exists l, log s' = log s ++ l /\ Forall (λ e, flash_sector e = None) l).
Implicit Types s : sys mqtt_app.

Lemma wp_client {A} (m : M A) a w s (Q : A -> sys mqtt_app -> Prop) : m (mqttClient (st s)) = Some (a, w) ->
  Q a (mk_sys (log s) (mem s) ((st s) <| mqttClient := w |>)) -> wp (client m) s Q.
Proof. intros E HQ. eexists _, _. split; [by apply client_run|done]. Qed.

(** The flash as seen from where it was not touched. *)
Lemma flash_quiet l k i n : 0 <= n <= 4096 -> Forall (λ e, flash_sector e = None) k ->
  spi_flash (l ++ k) (cfg_addr i) n = spi_flash l (cfg_addr i) n.
Proof.
  intros Hn Hk. induction k as [|e k IH] using rev_ind; [by rewrite app_nil_r|]. apply Forall_app in Hk as [Hk He].
  apply Forall_cons_1 in He as [He _]. rewrite app_assoc, <- IH by done.
  apply (flash_other _ _ _ _ _ (cfg_in_sector i n Hn)); [by rewrite He|]. intros a d ->. discriminate.
Qed.
Lemma stored_quiet l k : Forall (λ e, flash_sector e = None) k -> stored (spi_flash (l ++ k)) = stored (spi_flash l).
Proof. intros Hk. unfold stored, SYSCFG_size. by rewrite !(flash_quiet _ k) by (done || lia). Qed.

(** The client after [user_init], made from the configuration [c]. *)
Definition started_client (c : list Z) (x : strings) (cl' : MQTT_Client) : Prop :=
  host cl' = Some (s_host x) /\ port cl' = word_at c o_mqtt_port /\ connState cl' = WIFI_INIT /\
  connect_info cl' = mk_info (Some (s_device x)) (Some (s_user x)) (Some (s_pass x)) (Some (chars "/lwt")) (Some (chars "offline"))
    (i32 (word_at c o_mqtt_keepalive)) 0 0 1 /\
  connectedCb cl' = true /\ disconnectedCb cl' = true /\ publishedCb cl' = true /\ dataCb cl' = true.

(** The calls that set the client up, as one. *)
Definition client_setup (c : list Z) (x : strings) : M unit :=
  MQTT_InitConnection os_zalloc (s_host x) (word_at c o_mqtt_port) (nthZ c o_security) ;;
  MQTT_InitClient os_zalloc (s_device x) (Some (s_user x)) (Some (s_pass x)) (word_at c o_mqtt_keepalive) 1 ;;
  MQTT_InitLWT os_zalloc (chars "/lwt") (chars "offline") 0 0 ;;
  MQTT_OnConnected true ;; MQTT_OnDisconnected true ;; MQTT_OnPublished true ;; MQTT_OnData true.

Lemma client_setup_ok c x w : config_ok c -> strings_of c x ->
  exists w', client_setup c x w = Some (tt, w') /\ client_ok (cl w') [] /\ started_client c x (cl w').
Proof.
  intros Hc Hx.
  destruct (init_ok os_zalloc zalloc_ok w (s_host x) (word_at c o_mqtt_port) (nthZ c o_security) (s_device x)
    (Some (s_user x)) (Some (s_pass x)) (word_at c o_mqtt_keepalive) 1) as (w1 & E & W & St & Ho & Po & In & _);
    try (cbn; eapply cstr_string_ok; [exact Hc|apply Hx]).
  apply sbind_inv in E as ([] & w0 & E0 & E1). unfold client_setup. rewrite (run_bind _ _ _ _ _ E0), (run_bind _ _ _ _ _ E1).
  assert (L : forall t, zlen t + 1 < 4294967296 -> copy_string os_zalloc t = Some t) by (intros; by apply copy_string_ok).
  unfold MQTT_InitLWT. eexists. split.
  - unfold sbind at 1 2. unfold slift. rewrite !L by (vm_compute; reflexivity). reflexivity.
  - cbn [cl]. split.
    + destruct W as [? ? ? ? ? ? I ? ?]. split; try done. destruct I as (? & ? & ? & _).
      cbn [connect_info set_field]. repeat split; try done; apply chars_bytes.
    + unfold started_client. cbn. by rewrite Ho, Po, St, In.
Qed.

(** The program right after [user_init]. *)
Record started s s' : Prop := {
  started_conf : exists c x, strings_of c x /\ started_client c x (cl (mqttClient (st s'))) /\
    (word_at (stored (spi_flash (log s))) o_cfg_holder = CFG_HOLDER -> c = stored (spi_flash (log s))) /\
    (word_at (stored (spi_flash (log s))) o_cfg_holder <> CFG_HOLDER -> exists chip, default_config chip = Some c) /\
    exists l conf, log s' = l ++ [Do (wifi_set_opmode_current STATION_MODE);
      Do (wifi_station_set_config_current conf); Do (os_timer_disarm WiFiLinker);
      Do (os_timer_setfn WiFiLinker fp_wifi_check_ip); Do (os_timer_arm WiFiLinker 1000 0); Do wifi_station_connect] /\
      (forall i, 0 <= i < 32 -> nthZ conf (o_ssid + i) = if i <? zlen (s_ssid x) then nthZ (s_ssid x) i else 0) /\
      (forall i, 0 <= i < zlen (s_pwd x) -> nthZ conf (o_password + i) = nthZ (s_pwd x) i) /\ nthZ conf (o_password + zlen (s_pwd x)) = 0;
  started_good : app_good s' }.

Lemma user_init_ok s :
  (word_at (stored (spi_flash (log s))) o_cfg_holder = CFG_HOLDER -> exists x, strings_of (stored (spi_flash (log s))) x) ->
  wp (user_init os_zalloc uart_init) s (λ _ s', started s s').
Proof.
  intros Hconf. unfold user_init. apply wp_bind. apply (wp_mono _ _ _ _ (uart_quiet _ _ s)). intros _ s1 (S1 & l1 & L1 & Q1).
  apply wp_bind, wp_call. set (s2 := mk_sys _ _ _).
  assert (Q2 : stored (spi_flash (log s2)) = stored (spi_flash (log s))).
  { unfold s2. cbn [log]. rewrite L1, <- app_assoc. apply stored_quiet, Forall_app_2; [done|]. by apply Forall_cons_2. }
  apply wp_bind. apply (wp_mono _ _ _ _ (CFG_Load_loads s2)). intros _ s3 (E3 & Ok & Hd).
  set (c := sysCfg (part (st s3))) in *.
  assert (X : exists x, strings_of c x /\
    (word_at (stored (spi_flash (log s))) o_cfg_holder = CFG_HOLDER -> c = stored (spi_flash (log s))) /\
    (word_at (stored (spi_flash (log s))) o_cfg_holder <> CFG_HOLDER -> exists chip, default_config chip = Some c)).
  { rewrite Q2 in Hd. destruct (Z.eqb_spec (word_at (stored (spi_flash (log s))) o_cfg_holder) CFG_HOLDER) as [Hh|Hh].
    - destruct Hd as [_ ->]. destruct (Hconf Hh) as [x Hx]. by exists x.
    - exists (default_strings (u32 (sdk_ret (log s2) system_get_chip_id))). split; [exact (default_strings_of _ _ Hd)|].
      split; [intros E; by destruct Hh|]. intros _. eexists. exact Hd. }
  destruct X as (x & Hx & Hsame & Hdef). pose proof Hx as [X1 X2 X3 X4 X5 X6 Xp X7 X8].
  destruct (client_setup_ok c x (mqttClient (st s3)) Ok Hx) as (w & E & W & SC).
  unfold client_setup in E.
  apply sbind_inv in E as ([] & w1 & C1 & E). apply sbind_inv in E as ([] & w2 & C2 & E). apply sbind_inv in E as ([] & w3 & C3 & E).
  apply sbind_inv in E as ([] & w4 & C4 & E). apply sbind_inv in E as ([] & w5 & C5 & E). apply sbind_inv in E as ([] & w6 & C6 & C7).
  apply wp_bind, wp_pvar. fold c.
  apply wp_bind, (wp_lift _ _ _ _ X1). apply wp_bind; eapply wp_client; [exact C1|].
  apply wp_bind, (wp_lift _ _ _ _ X2), wp_bind, (wp_lift _ _ _ _ X3), wp_bind, (wp_lift _ _ _ _ X4).
  apply wp_bind; eapply wp_client; [exact C2|]. apply wp_bind; eapply wp_client; [exact C3|].
  apply wp_bind; eapply wp_client; [exact C4|]. apply wp_bind; eapply wp_client; [exact C5|].
  apply wp_bind; eapply wp_client; [exact C6|]. apply wp_bind; eapply wp_client; [exact C7|].
  apply wp_bind, (wp_lift _ _ _ _ X5), wp_bind, (wp_lift _ _ _ _ X6).
  match goal with |- wp (WIFI_Connect _ _ ?cb) ?s8 _ => destruct (WIFI_Connect_ok (s_ssid x) (s_pwd x) cb s8 X7 X8) as (conf & E & _ & Hs & Hp & Hz) end.
  eexists tt, _. split; [exact E|]. split.
  - exists c, x. split; [exact Hx|]. split; [exact SC|]. split; [exact Hsame|]. split; [exact Hdef|].
    exists (log s3), conf. split; [reflexivity|]. split; [exact Hs|]. split; [exact Hp|exact Hz].
  - split; [|split; [done|]].
    + split; [by exists []|]. destruct SC as (Sh & _ & Ss & _). split; [cbn; by rewrite Sh|]. cbn. rewrite Ss. by split.
    + cbn [log]. generalize (log s3). intros l. unfold armed. rewrite fold_left_app. reflexivity.
Qed.

End Start.

(** ** The properties at work *)

Definition fresh_app : sys mqtt_app := mk_sys [] ∅ mqtt_app_initial.
Definition some_uart (a b : Z) : F mqtt_app unit := call (uart_div_modify 0 a).


Definition running_app : sys mqtt_app := mk_sys [Do (os_timer_arm WiFiLinker 1000 0)] ∅
  (mk_mqtt_app (mk_cfg [] []) (wifi_initial <| wifiCb := Some fp_wifiConnectCb |>) (sample_world WIFI_INIT)).

Lemma sample_host_ok st : host_ok (host (sample_client st)).
Proof.
  destruct (sample_client_ok st) as (_ & _ & -> & _). eexists _, _, _. split; [reflexivity|vm_compute; reflexivity].
Qed.
Lemma running_app_good : app_good running_app.
Proof.
  split; [|split; reflexivity]. split; [exists []; apply sample_client_ok|]. split; [apply sample_host_ok|].
  split; discriminate.
Qed.


(** "abc" as topic, "x" as payload; the segment ends after the "a". *)
Lemma cut_topic_crashes_witness :
  handle_app sample_proto 0 sample_stack 0 sample_zalloc 5000 (IRecv [0x30; 6; 0; 3; 97] 5) (sample_world MQTT_DATA) = None.
Proof.
  destruct (cut_topic_crashes sample_proto 0 sample_stack 0 sample_zalloc 5000 0 0 [97; 98; 99] [120] 5) with (w := sample_world MQTT_DATA) (cs := @nil chunk)
    as [_ E].
  - repeat (apply Forall_cons_2; [unfold is_byte; lia|]). apply Forall_nil_2.
  - repeat (apply Forall_cons_2; [unfold is_byte; lia|]). apply Forall_nil_2.
  - vm_compute. discriminate.
  - vm_compute. split; [discriminate|reflexivity].
  - reflexivity.
  - apply sample_client_ok.
  - left. apply sample_client_ok.
  - apply sample_client_ok.
  - exact E.
Defined.
