(* ===== verification/IotLight.v ===== *)
(** * IotLight: the dimmer of the IoT demo

    IoT_Demo/user/user_light.c and user_light_adj.c with include/user_light.h,
    include/user_light_adj.h and src/include/pwm.h: the five PWM channels, the
    queue of colours to fade to, and the fade itself, which a timer drives.  An
    array of words is a list of integers, read and written with the bounds
    checks of CMem.v.  [SAVE_LIGHT_PARAM] and [LIGHT_CURRENT_LIMIT] are 0, as
    the header has them. *)

From Stdlib Require Import String.
From stdpp Require Import gmap.
From S2P Require Import Prelude CMem Board MqttConfig.
Local Open Scope string_scope.
Local Open Scope Z_scope.
Local Open Scope sm_scope.
Local Open Scope list_scope.

Definition PWM_CHANNEL_NUM_MAX : Z := 8.
Definition PWM_CHANNEL : Z := 5.
Definition LIGHT_RED : Z := 0.
Definition LIGHT_GREEN : Z := 1.
Definition LIGHT_BLUE : Z := 2.
Definition LIGHT_COLD_WHITE : Z := 3.
Definition LIGHT_WARM_WHITE : Z := 4.
Definition PRIV_PARAM_START_SEC : Z := 0x3C.
Definition PRIV_PARAM_SAVE : Z := 0.
Definition LIGHT_EVT_QNUM : Z := 40.
(** include/user_interface.h *)
Definition LIGHT_SLEEP_T : Z := 1.
(** include/eagle_soc.h *)
Definition FUNC_GPIO13 : Z := 3.
Definition FUNC_GPIO15 : Z := 3.

(** ** Data *)

(** [struct pwm_param] *)
Record pwm_param := mk_pwm { period : Z; freq : Z; duty : list Z }.
(** [struct light_saved_param] *)
Record light_saved_param := mk_saved { pwm_period : Z; pwm_duty : list Z }.

(** The variables of the two files. *)
Record light_vars := mk_light {
  light_sleep_flg : Z; min_ms : Z; current_duty : list Z; change_finish : bool; duty_now : list Z;
  LightEvtArr : list pwm_param; CurFreeLightEvtIdx : Z; TotalUsedLightEvtNum : Z; CurEvtIdxToBeUse : Z;
  light_param : light_saved_param }.
#[export] Instance eta_pwm : Settable pwm_param := λ v, mk_pwm (period v) (freq v) (duty v).
#[export] Instance eta_saved : Settable light_saved_param := λ v, mk_saved (pwm_period v) (pwm_duty v).
#[export] Instance eta_light : Settable light_vars := λ v,
  mk_light (light_sleep_flg v) (min_ms v) (current_duty v) (change_finish v) (duty_now v) (LightEvtArr v)
    (CurFreeLightEvtIdx v) (TotalUsedLightEvtNum v) (CurEvtIdxToBeUse v) (light_param v).

(** Their initial values. *)
Definition light_initial : light_vars :=
  mk_light 0 15 (replicate 5 0) true (replicate 5 0) (replicate 40 (mk_pwm 0 0 (replicate 8 0))) 0 0 0
    (mk_saved 0 (replicate 5 0)).

(** [ABS_MINUS(x,y)]; the difference is unsigned. *)
Definition ABS_MINUS (x y : Z) : Z := if x <? y then u32 (y - x) else u32 (x - y).

(** The new value of [duty_now[i]]. *)
Definition approach (now target : Z) : Z :=
  let d := Z.shiftr (u32 (u32 (now * 15) + target)) 4 in
  if ABS_MINUS d target <? 20 then target else d.

(** The bytes of the structure in flash and its members. *)
Definition light_saved_size : Z := 4 + 4 * PWM_CHANNEL.
Definition saved_of_bytes (b : list Z) : light_saved_param :=
  mk_saved (word_at b 0) ((λ i, word_at b (4 + 4 * i)) <$> seqZ 0 PWM_CHANNEL).
Definition saved_to_bytes (p : light_saved_param) : list Z :=
  word_bytes (pwm_period p) ++ List.concat (word_bytes <$> pwm_duty p).
Definition light_addr : Z := (PRIV_PARAM_START_SEC + PRIV_PARAM_SAVE) * SPI_FLASH_SEC_SIZE.

Section Light.
Context `{Env} `{Flash} {X : Type} `{PL : Part X light_vars}.

(** ** user_light.c *)

Definition user_light_get_duty (channel : Z) : F X Z :=
  d <- pvar (λ v, pwm_duty (light_param v)) ;; slift (rd d channel).

Definition user_light_set_duty (dt channel : Z) : F X unit :=
  old <- user_light_get_duty channel ;;
  swhen (negb (dt =? old)) (
    call (pwm_set_duty dt channel) ;;
    new <- ask (pwm_get_duty channel) ;;
    d <- pvar (λ v, pwm_duty (light_param v)) ;;
    d <- slift (wr d channel new) ;;
    pmodify (λ v, v <| light_param := (light_param v) <| pwm_duty := d |> |>)).

Definition user_light_get_period : F X Z := pvar (λ v, pwm_period (light_param v)).

Definition user_light_set_period (p : Z) : F X unit :=
  old <- user_light_get_period ;;
  swhen (negb (p =? old)) (
    call (pwm_set_period p) ;;
    new <- ask pwm_get_period ;;
    pmodify (λ v, v <| light_param := (light_param v) <| pwm_period := new |> |>)).

Definition user_light_restart : F X unit :=
  call (spi_flash_erase_sector (PRIV_PARAM_START_SEC + PRIV_PARAM_SAVE)) ;;
  p <- pvar light_param ;;
  call (spi_flash_write light_addr (saved_to_bytes p)) ;;
  call pwm_start.

(** ** user_light_adj.c *)

(** The index into [LightEvtArr] of the entry, or [None] for a null pointer. *)
Definition LightEvtMalloc : F X (option Z) :=
  pmodify (λ v, v <| TotalUsedLightEvtNum := u8 (TotalUsedLightEvtNum v + 1) |>) ;;
  n <- pvar TotalUsedLightEvtNum ;;
  tmp <- (if LIGHT_EVT_QNUM <? n then
      pmodify (λ v, v <| TotalUsedLightEvtNum := u8 (TotalUsedLightEvtNum v - 1) |>) ;;
      sret None
    else
      i <- pvar CurFreeLightEvtIdx ;;
      pmodify (λ v, v <| CurFreeLightEvtIdx := u8 (i + 1) |>) ;;
      j <- pvar CurFreeLightEvtIdx ;;
      swhen (LIGHT_EVT_QNUM - 1 <? j) (pmodify (λ v, v <| CurFreeLightEvtIdx := 0 |>)) ;;
      sret (Some i)) ;;
  call (os_printf "malloc:%u\n") ;;
  sret tmp.

Definition LightEvtFree : F X unit :=
  pmodify (λ v, v <| TotalUsedLightEvtNum := u8 (TotalUsedLightEvtNum v - 1) |>) ;;
  call (os_printf "free:%u\n").

Definition light_save_target_duty : F X unit :=
  c <- pvar current_duty ;;
  pmodify (λ v, v <| light_param := (light_param v) <| pwm_duty := c |> |>) ;;
  p <- ask pwm_get_period ;;
  pmodify (λ v, v <| light_param := (light_param v) <| pwm_period := p |> |>).

(** Both checks stop at the first channel that decides; [l] is the channels left. *)
Fixpoint duty_diff_from (l : list Z) : F X bool :=
  match l with
  | [] => sret false
  | i :: l =>
      d <- ask (pwm_get_duty i) ;;
      c <- pvar current_duty ;; t <- slift (rd c i) ;;
      if negb (d =? t) then sret true else duty_diff_from l
  end.
Definition check_pwm_current_duty_diff : F X bool := duty_diff_from (seqZ 0 PWM_CHANNEL).

Fixpoint duty_zero_from (l : list Z) : F X bool :=
  match l with
  | [] => sret true
  | i :: l =>
      d <- ask (pwm_get_duty i) ;;
      if negb (d =? 0) then sret false else duty_zero_from l
  end.
Definition check_pwm_duty_zero : F X bool := duty_zero_from (seqZ 0 PWM_CHANNEL).

(** One round of the loop of [light_dh_pwm_adj_proc]. *)
Definition adjust_channel (i : Z) : F X unit :=
  now <- pvar duty_now ;; n <- slift (rd now i) ;;
  cur <- pvar current_duty ;; t <- slift (rd cur i) ;;
  now <- slift (wr now i (approach n t)) ;;
  pmodify (λ v, v <| duty_now := now |>) ;;
  user_light_set_duty (approach n t) i.

(** [light_dh_pwm_adj_proc], which calls [light_pwm_smooth_adj_proc], here [smooth]. *)
Definition dh_pwm_adj (smooth : F X unit) : F X unit :=
  sfor (seqZ 0 PWM_CHANNEL) adjust_channel ;;
  call pwm_start ;;
  diff <- check_pwm_current_duty_diff ;;
  if (diff : bool) then
    pmodify (λ v, v <| change_finish := false |>) ;;
    call (os_timer_disarm timer_pwm_adj) ;;
    call (os_timer_setfn timer_pwm_adj fp_light_dh_pwm_adj_proc) ;;
    ms <- pvar min_ms ;;
    call (os_timer_arm timer_pwm_adj ms 0)
  else
    call (os_printf "finish\n") ;;
    pmodify (λ v, v <| change_finish := true |>) ;;
    call (os_timer_disarm timer_pwm_adj) ;;
    smooth.

(** The second half of [light_pwm_smooth_adj_proc]. *)
Definition light_settled : F X unit :=
  fin <- pvar change_finish ;;
  swhen fin (
    light_save_target_duty ;;
    zero <- check_pwm_duty_zero ;;
    swhen zero (
      flg <- pvar light_sleep_flg ;;
      swhen (flg =? 0) (
        call (os_printf "light sleep en\r\n") ;;
        call (wifi_set_sleep_type LIGHT_SLEEP_T) ;;
        pmodify (λ v, v <| light_sleep_flg := 1 |>)))).

(** The two functions call each other; every round takes an entry off the
    queue, which holds at most [LIGHT_EVT_QNUM]. *)
Fixpoint smooth_adj (fuel : nat) : F X unit :=
  match fuel with
  | O => slift None
  | S fuel =>
      n <- pvar TotalUsedLightEvtNum ;;
      swhen (0 <? n) (
        i <- pvar CurEvtIdxToBeUse ;;
        q <- pvar LightEvtArr ;; e <- slift (q !! Z.to_nat i) ;;
        user_light_set_period (period e) ;;
        pmodify (λ v, v <| current_duty := take (Z.to_nat PWM_CHANNEL) (duty e) |>) ;;
        pmodify (λ v, v <| CurEvtIdxToBeUse := u8 (i + 1) |>) ;;
        j <- pvar CurEvtIdxToBeUse ;;
        swhen (LIGHT_EVT_QNUM - 1 <? j) (pmodify (λ v, v <| CurEvtIdxToBeUse := 0 |>)) ;;
        LightEvtFree ;;
        fin <- pvar change_finish ;;
        swhen fin (dh_pwm_adj (smooth_adj fuel))) ;;
      light_settled
  end.

Definition queue_fuel : nat := S (Z.to_nat LIGHT_EVT_QNUM).
Definition light_pwm_smooth_adj_proc : F X unit := smooth_adj queue_fuel.
Definition light_dh_pwm_adj_proc : F X unit := dh_pwm_adj light_pwm_smooth_adj_proc.

(** [light_set_aim_r] and its siblings. *)
Definition set_aim_channel (channel d : Z) : F X unit :=
  c <- pvar current_duty ;; c <- slift (wr c channel d) ;;
  pmodify (λ v, v <| current_duty := c |>) ;;
  light_pwm_smooth_adj_proc.
Definition light_set_aim_r (r : Z) : F X unit := set_aim_channel LIGHT_RED r.
Definition light_set_aim_g (g : Z) : F X unit := set_aim_channel LIGHT_GREEN g.
Definition light_set_aim_b (b : Z) : F X unit := set_aim_channel LIGHT_BLUE b.
Definition light_set_aim_cw (cw : Z) : F X unit := set_aim_channel LIGHT_COLD_WHITE cw.
Definition light_set_aim_ww (ww : Z) : F X unit := set_aim_channel LIGHT_WARM_WHITE ww.

Definition duty_max_limit (p : Z) : Z := u32 (p * 1000) / 45.
Definition limited (p d : Z) : Z := if d <? duty_max_limit p then d else duty_max_limit p.

(** What [light_set_aim] writes to the entry. *)
Definition fill_evt (e : pwm_param) (r g b cw ww p : Z) : option pwm_param :=
  d ← wr (duty e) LIGHT_RED (limited p r);
  d ← wr d LIGHT_GREEN (limited p g);
  d ← wr d LIGHT_BLUE (limited p b);
  d ← wr d LIGHT_COLD_WHITE (limited p cw);
  d ← wr d LIGHT_WARM_WHITE (limited p ww);
  Some (mk_pwm (if p <? 10000 then p else 10000) (freq e) d).

Definition light_set_aim (r g b cw ww p : Z) : F X unit :=
  tmp <- LightEvtMalloc ;;
  match tmp with
  | Some i =>
      q <- pvar LightEvtArr ;; e <- slift (q !! Z.to_nat i) ;;
      e <- slift (fill_evt e r g b cw ww p) ;;
      pmodify (λ v, v <| LightEvtArr := <[Z.to_nat i := e]> (LightEvtArr v) |>) ;;
      call (os_printf "prd:%u  r : %u  g: %u  b: %u  cw: %u  ww: %u \r\n") ;;
      light_pwm_smooth_adj_proc
  | None => call (os_printf "light para full\n")
  end.

Definition io_info : list (Z * Z * Z) :=
  [(PERIPHS_IO_MUX_MTDI_U, FUNC_GPIO12, 12); (PERIPHS_IO_MUX_MTDO_U, FUNC_GPIO15, 15);
   (PERIPHS_IO_MUX_MTCK_U, FUNC_GPIO13, 13); (PERIPHS_IO_MUX_MTMS_U, FUNC_GPIO14, 14);
   (PERIPHS_IO_MUX_GPIO5_U, FUNC_GPIO5, 5)].

Definition user_light_init : F X unit :=
  b <- spi_flash_read light_addr light_saved_size ;;
  pmodify (λ v, v <| light_param := saved_of_bytes b |>) ;;
  p <- pvar (λ v, pwm_period (light_param v)) ;;
  swhen ((10000 <? p) || (p <? 1000)) (pmodify (λ v, v <| light_param := (light_param v) <| pwm_period := 1000 |> |>)) ;;
  p <- pvar (λ v, pwm_period (light_param v)) ;;
  call (pwm_init p (replicate (Z.to_nat PWM_CHANNEL) 0) PWM_CHANNEL io_info) ;;
  call (os_printf "LIGHT PARAM: R: %d \r\n") ;;
  call (os_printf "LIGHT PARAM: G: %d \r\n") ;;
  call (os_printf "LIGHT PARAM: B: %d \r\n") ;;
  call (os_printf "LIGHT PARAM: CW: %d \r\n") ;;
  call (os_printf "LIGHT PARAM: WW: %d \r\n") ;;
  call (os_printf "LIGHT PARAM: P: %d \r\n") ;;
  t <- pvar (λ v, pwm_duty (light_param v)) ;;
  r <- slift (rd t LIGHT_RED) ;; g <- slift (rd t LIGHT_GREEN) ;; bl <- slift (rd t LIGHT_BLUE) ;;
  cw <- slift (rd t LIGHT_COLD_WHITE) ;; ww <- slift (rd t LIGHT_WARM_WHITE) ;;
  light_set_aim r g bl cw ww p ;;
  call (set_pwm_debug_en 0) ;;
  v <- ask get_pwm_version ;;
  call (os_printf "PWM version : %08x \r\n").
End Light.

(** ** What the PWM driver does

    The driver is binary.  What its documentation (src/include/pwm.h) promises:
    it keeps a period and a duty per channel, reads back what was set as long as
    it lies in the documented range, and drives the outputs with what was set
    when [pwm_start] was last called.  What it makes of values out of range is
    left open ([fit_period], [fit_duty]). *)

Record pwm_regs := mk_regs { reg_period : Z; reg_duty : list Z; shown : Z * list Z }.

Definition regs_step (fp : Z -> Z) (fd : Z -> Z -> Z) (r : pwm_regs) (e : event) : pwm_regs :=
  match e with
  | Do (pwm_init p ds _ _) => mk_regs (fp p) (u32 <$> ds) (shown r)
  | Do (pwm_set_period p) => mk_regs (fp p) (reg_duty r) (shown r)
  | Do (pwm_set_duty d ch) => mk_regs (reg_period r) (<[Z.to_nat ch := fd (reg_period r) d]> (reg_duty r)) (shown r)
  | Do pwm_start => mk_regs (reg_period r) (reg_duty r) (reg_period r, reg_duty r)
  | _ => r
  end.
Definition regs_of fp fd (l : list event) : pwm_regs := fold_left (regs_step fp fd) l (mk_regs 0 [] (0, [])).

(** The largest duty of a period. *)
Definition full_duty (p : Z) : Z := p * 1000 / 45.

(** The largest duty that [light_set_aim] lets through for any period: 2^32 - 1 over 45. *)
Definition duty_top : Z := 95443717.

Class Pwm `{Env} := {
  fit_period : Z -> Z;
  fit_duty : Z -> Z -> Z;
  fit_period_ok : forall p, 1000 <= p <= 10000 -> fit_period p = p;
  fit_duty_ok : forall p d, 1000 <= p <= 10000 -> 0 <= d <= full_duty p -> fit_duty p d = d;
  period_reads : forall l, reg_duty (regs_of fit_period fit_duty l) ≠ [] ->
    u32 (sdk_ret l pwm_get_period) = reg_period (regs_of fit_period fit_duty l);
  duty_reads : forall l ch, 0 <= ch < zlen (reg_duty (regs_of fit_period fit_duty l)) ->
    u32 (sdk_ret l (pwm_get_duty ch)) = nthZ (reg_duty (regs_of fit_period fit_duty l)) ch }.

(** One goal per channel. *)
Lemma channels i : 0 <= i < 5 -> i = 0 \/ i = 1 \/ i = 2 \/ i = 3 \/ i = 4.
Proof. lia. Qed.
Ltac each_channel i := destruct (channels i ltac:(lia)) as [-> | [-> | [-> | [-> | ->]]]].

(** ** One channel *)

Definition shrink (e : Z) : Z := let e' := e - e / 16 in if e' <? 20 then 0 else e'.

Lemma shrink_mono a b : 0 <= a <= b -> 0 <= shrink a <= shrink b.
Proof.
  intros. unfold shrink. assert (a - a / 16 <= b - b / 16) by dlia. assert (0 <= a - a / 16) by dlia. zbool; lia.
Qed.

Lemma approach_eq n t : 0 <= n <= duty_top -> 0 <= t <= duty_top ->
  approach n t = let d := (n * 15 + t) / 16 in if Z.abs (d - t) <? 20 then t else d.
Proof.
  unfold duty_top. intros. unfold approach, ABS_MINUS. rewrite (u32_small (n * 15)), u32_small by lia.
  rewrite Z.shiftr_div_pow2 by lia. change (2 ^ 4) with 16. cbv zeta.
  assert (0 <= (n * 15 + t) / 16 <= 95443717) by dlia.
  destruct (Z.ltb_spec ((n * 15 + t) / 16) t); rewrite u32_small by lia;
    [replace (Z.abs _) with (t - (n * 15 + t) / 16) by lia|replace (Z.abs _) with ((n * 15 + t) / 16 - t) by lia]; done.
Qed.

Lemma approach_range n t : 0 <= n <= duty_top -> 0 <= t <= duty_top -> 0 <= approach n t <= duty_top.
Proof. intros. rewrite approach_eq by lia. cbv zeta. unfold duty_top in *. assert (0 <= (n * 15 + t) / 16 <= 95443717) by dlia. zbool; lia. Qed.

Lemma approach_near n t : 0 <= n <= duty_top -> 0 <= t <= duty_top -> Z.abs (approach n t - t) <= shrink (Z.abs (n - t)).
Proof.
  intros. rewrite approach_eq by lia. cbv zeta. unfold shrink.
  assert (Z.abs ((n * 15 + t) / 16 - t) <= Z.abs (n - t) - Z.abs (n - t) / 16) by dlia.
  zbool; lia.
Qed.

Lemma approach_at t : 0 <= t <= duty_top -> approach t t = t.
Proof. intros. rewrite approach_eq by lia. cbv zeta. replace (t * 15 + t) with (t * 16) by lia. rewrite Z.div_mul by lia. zbool; lia. Qed.

(** From 0 the first step lands on the target only if that is at most 20. *)
Lemma approach_0 t : 0 <= t <= duty_top -> (approach 0 t = t <-> t <= 20).
Proof. intros. rewrite approach_eq by lia. cbv zeta. zbool; dlia. Qed.

(** ** One round and one tick *)

Lemma nthZ_insert (l : list Z) i j v :
  0 <= i < zlen l -> 0 <= j -> nthZ (<[Z.to_nat i := v]> l) j = if j =? i then v else nthZ l j.
Proof.
  unfold zlen, nthZ. intros Hi Hj. rewrite !nth_lookup. destruct (Z.eqb_spec j i) as [->|].
  - rewrite list_lookup_insert_eq by lia. done.
  - rewrite list_lookup_insert_ne by lia. done.
Qed.

(** What the fade changes of the variables. *)
Definition with_adj (v : light_vars) (n d : list Z) : light_vars :=
  v <| duty_now := n |> <| light_param := mk_saved (pwm_period (light_param v)) d |>.

Section Laws.
Context `{Env} `{Flash} `{!Pwm} {X : Type} `{PL : Part X light_vars}.
Implicit Types s : sys X.

Definition V (s : sys X) : light_vars := part (st s).
Definition R (s : sys X) : pwm_regs := regs_of fit_period fit_duty (log s).
Definition now_ s i : Z := nthZ (duty_now (V s)) i.
Definition cur_ s i : Z := nthZ (current_duty (V s)) i.
Definition saved_ s i : Z := nthZ (pwm_duty (light_param (V s))) i.
Definition out_ s i : Z := nthZ (reg_duty (R s)) i.
Definition running s : bool := armed timer_pwm_adj (log s).

Lemma R_snoc l e (m : heap) (x : X) :
  R (mk_sys (l ++ [e]) m x) = regs_step fit_period fit_duty (R (mk_sys l m x)) e.
Proof. unfold R, regs_of. cbn [log]. by rewrite fold_left_app. Qed.
Lemma running_snoc l e (m : heap) (x : X) : running (mk_sys (l ++ [e]) m x) = armed_step timer_pwm_adj (running (mk_sys l m x)) e.
Proof. apply armed_snoc. Qed.
Lemma V_set l (m : heap) (x : X) v : V (mk_sys l m (set_part v x)) = v.
Proof. apply part_set. Qed.

Definition shape s : Prop :=
  zlen (duty_now (V s)) = 5 /\ zlen (current_duty (V s)) = 5 /\
  zlen (pwm_duty (light_param (V s))) = 5 /\ zlen (reg_duty (R s)) = 5.

(** The driver's answers. *)
Lemma wp_ask_duty ch s (Q : Z -> sys X -> Prop) :
  zlen (reg_duty (R s)) = 5 -> 0 <= ch < 5 ->
  Q (out_ s ch) (mk_sys (log s ++ [Got (pwm_get_duty ch) (out_ s ch)]) (mem s) (st s)) -> wp (ask (pwm_get_duty ch)) s Q.
Proof. intros Hz Hc HQ. apply wp_ask. unfold R in Hz. rewrite duty_reads by (rewrite Hz; lia). exact HQ. Qed.
Lemma wp_ask_period s (Q : Z -> sys X -> Prop) :
  zlen (reg_duty (R s)) = 5 -> Q (reg_period (R s)) (mk_sys (log s ++ [Got pwm_get_period (reg_period (R s))]) (mem s) (st s)) ->
  wp (ask pwm_get_period) s Q.
Proof.
  intros Hz HQ. apply wp_ask. rewrite period_reads; [exact HQ|]. unfold R in Hz. intros E. rewrite E in Hz. done.
Qed.

Definition next_now s i := approach (now_ s i) (cur_ s i).
Definition next_saved s i := if next_now s i =? saved_ s i then saved_ s i else fit_duty (reg_period (R s)) (next_now s i).
Definition next_out s i := if next_now s i =? saved_ s i then out_ s i else fit_duty (reg_period (R s)) (next_now s i).

(** The channels for which [c] holds have moved one step. *)
Definition moved (c : Z -> bool) s s' : Prop :=
  shape s' /\ (exists n d, V s' = with_adj (V s) n d) /\ reg_period (R s') = reg_period (R s) /\ running s' = running s /\
  forall i, 0 <= i < 5 ->
    now_ s' i = (if c i then next_now s i else now_ s i) /\
    saved_ s' i = (if c i then next_saved s i else saved_ s i) /\
    out_ s' i = (if c i then next_out s i else out_ s i).

Lemma moved_none s : shape s -> moved (λ _, false) s s.
Proof.
  intros Hs. split; [done|]. split; [|done].
  exists (duty_now (V s)), (pwm_duty (light_param (V s))). unfold with_adj. by destruct (V s) as [?????????[??]].
Qed.

Lemma set_duty_ok ch dt s :
  shape s -> 0 <= ch < 5 ->
  wp (user_light_set_duty dt ch) s (λ _ s',
    shape s' /\ (exists d, V s' = with_adj (V s) (duty_now (V s)) d) /\ reg_period (R s') = reg_period (R s) /\
    running s' = running s /\ forall j, 0 <= j < 5 ->
      saved_ s' j = (if j =? ch then if dt =? saved_ s ch then saved_ s ch else fit_duty (reg_period (R s)) dt else saved_ s j) /\
      out_ s' j = (if j =? ch then if dt =? saved_ s ch then out_ s ch else fit_duty (reg_period (R s)) dt else out_ s j)).
Proof.
  intros (Hn & Hc & Hd & Hr) Hch. unfold user_light_set_duty, user_light_get_duty.
  apply wp_bind, wp_bind, wp_pvar. apply (wp_lift _ (saved_ s ch)); [apply rd_Some; fold (V s); lia|].
  apply wp_when; intros E.
  2: { apply negb_false_iff in E. rewrite E. split; [done|]. split; [exists (pwm_duty (light_param (V s))); unfold with_adj; by destruct (V s) as [?????????[??]]|].
       split; [done|]. split; [done|]. intros j Hj. destruct (Z.eqb_spec j ch) as [->|]; done. }
  apply negb_true_iff in E. rewrite E. apply wp_bind, wp_call. set (s1 := mk_sys _ _ _).
  assert (HR1 : R s1 = mk_regs (reg_period (R s)) (<[Z.to_nat ch := fit_duty (reg_period (R s)) dt]> (reg_duty (R s))) (shown (R s))).
  { unfold s1. rewrite R_snoc. by destruct s. }
  assert (Hz1 : zlen (reg_duty (R s1)) = 5) by (rewrite HR1; unfold zlen in *; cbn; rewrite length_insert; lia).
  apply wp_bind, wp_ask_duty; [done..|].
  assert (Ho1 : forall j, 0 <= j < 5 -> out_ s1 j = if j =? ch then fit_duty (reg_period (R s)) dt else out_ s j).
  { intros j Hj. unfold out_ at 1. rewrite HR1. cbn. apply nthZ_insert; lia. }
  apply wp_bind, wp_pvar, wp_bind. destruct (wr_Some (pwm_duty (light_param (V s))) ch (out_ s1 ch)) as (d & Ed & Hzd & Hnd); [lia|].
  apply (wp_lift _ d); [exact Ed|]. apply wp_pmodify. cbn [log mem st].
  unfold shape, out_, saved_. rewrite V_set.
  assert (HR : forall x e m y, R (mk_sys (log s1 ++ [Got x e]) m y) = R s1).
  { intros. rewrite R_snoc. done. }
  rewrite HR. change (part (st s)) with (V s). cbn [duty_now current_duty light_param pwm_duty set_field].
  split; [split_and!; done || lia|]. split; [by exists d|]. split; [by rewrite HR1|].
  split; [rewrite running_snoc; unfold s1; cbn [log mem st]; rewrite running_snoc; by destruct s|].
  intros j Hj. rewrite Hnd by lia. specialize (Ho1 j Hj) as Ho. unfold out_ in Ho. rewrite Ho.
  split; [|done]. destruct (Z.eqb_spec j ch) as [->|]; [|done]. rewrite Ho1 by lia. by rewrite Z.eqb_refl.
Qed.

Lemma moved_step k s s1 :
  0 <= k < 5 -> moved (λ i, i <? k) s s1 -> wp (adjust_channel k) s1 (λ _ s2, moved (λ i, i <? k + 1) s s2).
Proof.
  intros Hk (Hs1 & (n1 & d1 & HV1) & Hp1 & Ha1 & Hi1). pose proof Hs1 as (Hn & Hc & Hd & Hr).
  assert (Hat : now_ s1 k = now_ s k /\ saved_ s1 k = saved_ s k /\ out_ s1 k = out_ s k).
  { specialize (Hi1 k Hk). rewrite Z.ltb_irrefl in Hi1. done. }
  assert (Hcur : cur_ s1 k = cur_ s k) by (unfold cur_; rewrite HV1; done).
  unfold adjust_channel. apply wp_bind, wp_pvar, wp_bind. apply (wp_lift _ (now_ s1 k)); [apply rd_Some; fold (V s1); lia|].
  apply wp_bind, wp_pvar, wp_bind. apply (wp_lift _ (cur_ s1 k)); [apply rd_Some; fold (V s1); lia|].
  destruct (wr_Some (duty_now (V s1)) k (approach (now_ s1 k) (cur_ s1 k))) as (n & En & Hzn & Hnn); [lia|].
  apply wp_bind, (wp_lift _ n); [exact En|]. apply wp_bind, wp_pmodify. set (s2 := mk_sys _ _ _).
  assert (HV2 : V s2 = (V s1) <| duty_now := n |>) by apply V_set.
  assert (HR2 : R s2 = R s1) by done.
  eapply wp_mono; [apply (set_duty_ok k)|].
  { unfold shape. rewrite HV2, HR2. cbn. split_and!; done || lia. } { done. }
  intros _ s3 (Hs3 & (d & HV3) & Hp3 & Ha3 & Hi3).
  split; [done|]. split; [exists n, d; rewrite HV3, HV2, HV1; done|]. split; [by rewrite Hp3, HR2|].
  split; [by rewrite Ha3|]. intros i Hi. specialize (Hi3 i Hi). specialize (Hi1 i Hi).
  assert (Hnow3 : now_ s3 i = nthZ n i) by (unfold now_; rewrite HV3, HV2; done).
  assert (Hsv2 : forall j, saved_ s2 j = saved_ s1 j) by (intros; unfold saved_; rewrite HV2; done).
  assert (Ho2 : forall j, out_ s2 j = out_ s1 j) by (intros; unfold out_; rewrite HR2; done).
  rewrite !Hsv2, !Ho2, HR2, Hp1 in Hi3. rewrite Hnow3, Hnn by lia.
  destruct Hat as (A1 & A2 & A3). rewrite A1, Hcur in *. fold (next_now s k) in Hi3 |- *.
  rewrite A2, A3 in Hi3. fold (next_saved s k) in Hi3. fold (next_out s k) in Hi3. fold (now_ s1 i).
  destruct (Z.eqb_spec i k) as [->|Hne].
  - ztrue (k <? k + 1). done.
  - replace (i <? k + 1) with (i <? k) by (zbool; lia). destruct Hi1 as (-> & B2 & B3). rewrite B2, B3 in Hi3. done.
Qed.

Lemma adjust_all s : shape s -> wp (sfor (seqZ 0 PWM_CHANNEL) adjust_channel) s (λ _ s', moved (λ _, true) s s').
Proof.
  intros Hs. apply (wp_for _ (λ l s', exists k, 0 <= k <= 5 /\ l = seqZ k (5 - k) /\ moved (λ i, i <? k) s s')).
  - exists 0. split; [lia|]. split; [done|]. pose proof (moved_none s Hs) as (A & B & C & D & E).
    split_and!; try done. intros i Hi. zfalse (i <? 0). exact (E i Hi).
  - intros a l' s' (k & Hk & El & Hm). destruct (decide (k = 5)) as [->|]; [done|].
    rewrite seqZ_cons in El by lia. injection El as -> ->.
    eapply wp_mono; [apply moved_step; [lia|exact Hm]|]. intros [] s2 Hm2. exists (k + 1).
    split; [lia|]. split; [|done]. f_equal; lia.
  - intros s' (k & Hk & El & (A & B & C & D & E)).
    assert (k = 5) as -> by (destruct (decide (k = 5)); [done|]; rewrite seqZ_cons in El by lia; done).
    split_and!; try done. intros i Hi. specialize (E i Hi). cbn beta in E. destruct (Z.ltb_spec i 5); [done|lia].
Qed.

(** Looking at the driver changes nothing. *)
Definition same s s' : Prop := V s' = V s /\ R s' = R s /\ running s' = running s.

Lemma same_trans s1 s2 s3 : same s1 s2 -> same s2 s3 -> same s1 s3.
Proof. unfold same. intuition congruence. Qed.
Lemma same_got c z s : same s (mk_sys (log s ++ [Got c z]) (mem s) (st s)).
Proof. split; [done|]. split; [rewrite R_snoc|rewrite running_snoc]; by destruct s. Qed.
Lemma same_shape s s' : same s s' -> shape s -> shape s'.
Proof. unfold same, shape. intros (-> & -> & _). done. Qed.
Lemma same_out s s' i : same s s' -> out_ s' i = out_ s i.
Proof. unfold same, out_. by intros (_ & -> & _). Qed.
Lemma same_cur s s' i : same s s' -> cur_ s' i = cur_ s i.
Proof. unfold same, cur_. by intros (-> & _). Qed.

Lemma diff_from_ok l s :
  shape s -> Forall (λ i, 0 <= i < 5) l ->
  wp (duty_diff_from l) s (λ b s', same s s' /\ b = negb (forallb (λ i, out_ s i =? cur_ s i) l)).
Proof.
  revert s. induction l as [|i l IH]; intros s Hs Hl; cbn [duty_diff_from forallb]; [by apply wp_ret|].
  apply Forall_cons_1 in Hl as [Hi Hl]. apply wp_bind, wp_ask_duty; [apply Hs|done|]. pose proof (same_got (pwm_get_duty i) (out_ s i) s) as Hg.
  apply wp_bind, wp_pvar, wp_bind, (wp_lift _ (cur_ s i)); [apply rd_Some; fold (V s); destruct Hs; cbn; fold (V s); lia|].
  destruct (out_ s i =? cur_ s i); cbn [negb andb]; [|by apply wp_ret].
  eapply wp_mono; [apply IH; [by eapply same_shape|done]|]. intros b s' (Hb & ->).
  split; [by eapply same_trans|]. f_equal. clear -Hg.
  induction l as [|a l IH]; cbn [forallb]; [done|]. by rewrite (same_out _ _ a Hg), (same_cur _ _ a Hg), IH.
Qed.

Lemma zero_from_ok l s :
  shape s -> Forall (λ i, 0 <= i < 5) l ->
  wp (duty_zero_from l) s (λ _ s', same s s').
Proof.
  revert s. induction l as [|i l IH]; intros s Hs Hl; cbn [duty_zero_from]; [by apply wp_ret|].
  apply Forall_cons_1 in Hl as [Hi Hl]. apply wp_bind, wp_ask_duty; [apply Hs|done|]. pose proof (same_got (pwm_get_duty i) (out_ s i) s) as Hg.
  destruct (negb _); [by apply wp_ret|].
  eapply wp_mono; [apply IH; [by eapply same_shape|done]|]. intros b s' Hb. by eapply same_trans.
Qed.

Definition latched (r : pwm_regs) : pwm_regs := mk_regs (reg_period r) (reg_duty r) (reg_period r, reg_duty r).

(** One run of the timer function, up to its call of [light_pwm_smooth_adj_proc]. *)
Lemma tick_rule smooth s (Q : unit -> sys X -> Prop) :
  shape s ->
  (forall s1 s2, moved (λ _, true) s s1 -> R s2 = latched (R s1) ->
    V s2 = (V s1) <| change_finish := false |> -> running s2 = true ->
    (exists i, 0 <= i < 5 /\ out_ s1 i ≠ cur_ s1 i) -> Q tt s2) ->
  (forall s1 s2, moved (λ _, true) s s1 -> R s2 = latched (R s1) ->
    V s2 = (V s1) <| change_finish := true |> -> running s2 = false ->
    (forall i, 0 <= i < 5 -> out_ s1 i = cur_ s1 i) -> wp smooth s2 Q) ->
  wp (dh_pwm_adj smooth) s Q.
Proof.
  intros Hs Hmore Hend. unfold dh_pwm_adj. apply wp_bind. eapply wp_mono; [by apply adjust_all|]. intros [] s1 Hm.
  apply wp_bind, wp_call. set (sa := mk_sys _ _ _).
  assert (HRa : R sa = latched (R s1)) by (unfold sa; rewrite R_snoc; by destruct s1).
  assert (Hsa : shape sa). { destruct Hm as [Hm _]. unfold shape in *. by rewrite HRa. }
  assert (Hoa : forall i, out_ sa i = out_ s1 i) by (intros; unfold out_; by rewrite HRa).
  apply wp_bind. eapply wp_mono; [apply diff_from_ok; [done|by apply Forall_seqZ; intros; change PWM_CHANNEL with 5 in *; lia]|].
  intros b s2 ((HV2 & HR2 & Ha2) & ->).
  destruct (forallb _ _) eqn:E; cbn [negb].
  - apply wp_bind, wp_call, wp_bind, wp_pmodify, wp_bind, wp_call. cbn [log mem st]. set (s3 := mk_sys _ _ _).
    apply (Hend s1); [done|..].
    + transitivity (R s2); [unfold s3, R, regs_of; cbn [log]; by rewrite !fold_left_app|by rewrite HR2, HRa].
    + unfold s3. rewrite V_set. fold (V s2). rewrite HV2. done.
    + unfold s3. rewrite running_snoc. cbn. by rewrite bool_decide_eq_true_2.
    + intros i Hi. rewrite forallb_forall in E. specialize (E i). rewrite Z.eqb_eq, Hoa in E. apply E.
      apply list_elem_of_In, elem_of_seqZ. change PWM_CHANNEL with 5. lia.
  - apply wp_bind, wp_pmodify, wp_bind, wp_call, wp_bind, wp_call, wp_bind, wp_pvar, wp_call. cbn [log mem st]. set (s3 := mk_sys _ _ _).
    apply (Hmore s1); [done|..].
    + transitivity (R s2); [unfold s3, R, regs_of; cbn [log]; by rewrite !fold_left_app|by rewrite HR2, HRa].
    + unfold s3. rewrite V_set. fold (V s2). rewrite HV2. done.
    + unfold s3. rewrite running_snoc. cbn. by rewrite bool_decide_eq_true_2.
    + assert (Hx : exists i, In i (seqZ 0 PWM_CHANNEL) /\ (out_ sa i =? cur_ sa i) = false).
      { clear -E. induction (seqZ 0 PWM_CHANNEL) as [|a l IH]; [done|]. cbn [forallb] in E.
        destruct (out_ sa a =? cur_ sa a) eqn:Ea; [|exists a; split; [by left|done]].
        destruct (IH E) as (i & Hi & Ei). exists i. split; [by right|done]. }
      destruct Hx as (i & Hi & Ei). exists i. apply list_elem_of_In, elem_of_seqZ in Hi. change PWM_CHANNEL with 5 in Hi.
      split; [lia|]. rewrite <- Hoa. by apply Z.eqb_neq.
Qed.

Lemma settled_ok s :
  shape s -> wp light_settled s (λ _ s', R s' = R s /\ running s' = running s /\ exists f,
    V s' = if change_finish (V s)
           then (V s) <| light_param := mk_saved (reg_period (R s)) (current_duty (V s)) |> <| light_sleep_flg := f |> else V s).
Proof.
  intros Hs. unfold light_settled. apply wp_bind, wp_pvar. fold (V s). apply wp_when; intros E; rewrite E.
  2: { do 2 (split; [done|]). by exists 0. }
  apply wp_bind. unfold light_save_target_duty. apply wp_bind, wp_pvar, wp_bind, wp_pmodify. set (s1 := mk_sys _ _ _).
  assert (HV1 : V s1 = (V s) <| light_param := (light_param (V s)) <| pwm_duty := current_duty (V s) |> |>) by apply V_set.
  apply wp_bind, wp_ask_period; [apply Hs|]. change (R s1) with (R s). apply wp_pmodify. cbn [log mem st]. set (s2 := mk_sys _ _ _).
  assert (HV2 : V s2 = (V s) <| light_param := mk_saved (reg_period (R s)) (current_duty (V s)) |>).
  { unfold s2. rewrite V_set. fold (V s1). by rewrite HV1. }
  assert (HR2 : R s2 = R s) by (unfold s2; by rewrite R_snoc).
  assert (Ha2 : running s2 = running s) by (unfold s2; by rewrite running_snoc).
  assert (Hs2 : shape s2). { unfold shape in *. rewrite HR2, HV2. cbn. tauto. }
  apply wp_bind. eapply wp_mono; [apply zero_from_ok; [done|by apply Forall_seqZ; intros; change PWM_CHANNEL with 5 in *; lia]|].
  intros z s3 (HV3 & HR3 & Ha3). apply wp_when; intros _.
  2: { rewrite HR3, Ha3. do 2 (split; [done|]). exists (light_sleep_flg (V s)). by rewrite HV3, HV2. }
  apply wp_bind, wp_pvar. apply wp_when; intros _.
  2: { rewrite HR3, Ha3. do 2 (split; [done|]). exists (light_sleep_flg (V s)). by rewrite HV3, HV2. }
  apply wp_bind, wp_call, wp_bind, wp_call, wp_pmodify. cbn [log mem st]. set (s4 := mk_sys _ _ _).
  assert (HR4 : R s4 = R s3) by (unfold s4, R, regs_of; cbn [log]; by rewrite !fold_left_app).
  assert (Ha4 : running s4 = running s3) by (unfold s4, running, armed; cbn [log]; by rewrite !fold_left_app).
  rewrite HR4, Ha4, HR3, Ha3. do 2 (split; [done|]). exists 1. unfold s4. rewrite V_set. fold (V s3). by rewrite HV3, HV2.
Qed.

(** ** The invariant *)

(** The queue between two calls: an entry that is put in is taken out before
    [light_set_aim] returns. *)
Definition queue_ok (v : light_vars) : Prop :=
  length (LightEvtArr v) = 40%nat /\ Forall (λ e, zlen (duty e) = 8) (LightEvtArr v) /\
  0 <= CurEvtIdxToBeUse v < 40 /\ CurFreeLightEvtIdx v = CurEvtIdxToBeUse v /\ TotalUsedLightEvtNum v = 0.

Definition core s : Prop :=
  shape s /\ queue_ok (V s) /\ pwm_period (light_param (V s)) = reg_period (R s) /\
  forall i, 0 <= i < 5 -> 0 <= now_ s i <= duty_top /\ 0 <= cur_ s i <= duty_top.

(** The driver takes the colour aimed at as it is. *)
Definition fits s : Prop :=
  1000 <= reg_period (R s) <= 10000 /\ forall i, 0 <= i < 5 -> cur_ s i <= full_duty (reg_period (R s)).

(** The next round sees the difference between what is saved and what the driver has. *)
Definition synced s : Prop := forall i, 0 <= i < 5 -> saved_ s i = out_ s i \/ next_now s i ≠ saved_ s i.

Definition light_ok s : Prop :=
  core s /\ (forall i, 0 <= i < 5 -> saved_ s i = out_ s i) /\ running s = negb (change_finish (V s)) /\
  (change_finish (V s) = true ->
    (forall i, 0 <= i < 5 -> out_ s i = cur_ s i) /\ shown (R s) = (reg_period (R s), reg_duty (R s))).

(** What stays from [s] to [s']. *)
Definition aiming s s' : Prop := current_duty (V s') = current_duty (V s) /\ reg_period (R s') = reg_period (R s).

Lemma full_duty_max p : p <= 10000 -> full_duty p <= 222222.
Proof. unfold full_duty. dlia. Qed.
Lemma fits_aiming s s' : aiming s s' -> fits s -> fits s'.
Proof. intros [E1 E2]. unfold fits, cur_. by rewrite E1, E2. Qed.

Lemma settled_keeps s :
  light_ok s -> wp light_settled s (λ _ s', light_ok s' /\ aiming s s' /\ duty_now (V s') = duty_now (V s) /\
    change_finish (V s') = change_finish (V s)).
Proof.
  intros ((Hs & Hq & Hp & Hb) & Hsy & Ha & Hf). eapply wp_mono; [by apply settled_ok|].
  intros _ s' (HR & Har & f & HV). destruct (change_finish (V s)) eqn:E.
  - destruct (Hf eq_refl) as [Hf1 Hf2]. assert (Hc : current_duty (V s') = current_duty (V s)) by (rewrite HV; done).
    assert (Hn : duty_now (V s') = duty_now (V s)) by (rewrite HV; done).
    assert (Hsv : pwm_duty (light_param (V s')) = current_duty (V s)) by (rewrite HV; done).
    assert (Hpp : pwm_period (light_param (V s')) = reg_period (R s)) by (rewrite HV; done).
    assert (Hfin : change_finish (V s') = change_finish (V s)) by (rewrite HV; done).
    assert (Hq' : queue_ok (V s')) by (rewrite HV; exact Hq).
    unfold light_ok, core, shape, aiming, now_, cur_, saved_, out_ in *. rewrite HR, Har, Hc, Hn, Hsv, Hpp, Hfin, E.
    destruct Hs as (? & ? & ? & ?). split_and!; try done; intros; first [by apply Hb|by rewrite Hf1|lia].
  - assert (Hl : light_ok s').
    { unfold light_ok, core, shape, now_, cur_, saved_, out_ in *. rewrite HR, Har, HV, E. tauto. }
    split; [done|]. unfold aiming. rewrite HR, HV. done.
Qed.

Lemma smooth_empty n s (Q : unit -> sys X -> Prop) :
  TotalUsedLightEvtNum (V s) = 0 -> wp light_settled s Q -> wp (smooth_adj (S n)) s Q.
Proof.
  intros E HQ. cbn [smooth_adj]. apply wp_bind, wp_pvar, wp_bind. fold (V s). rewrite E. by apply wp_ret.
Qed.

(** One run of the timer function. *)
Lemma tick_ok n s :
  core s -> synced s -> wp (dh_pwm_adj (smooth_adj (S n))) s (λ _ s', light_ok s' /\ aiming s s' /\
    (forall i, 0 <= i < 5 -> now_ s' i = next_now s i) /\
    (fits s -> (forall i, 0 <= i < 5 -> next_now s i = cur_ s i) -> change_finish (V s') = true)).
Proof.
  intros (Hs & Hq & Hp & Hb) Hsy.
  assert (Hmoved : forall s1, moved (λ _, true) s s1 -> core s1 /\ aiming s s1 /\
    (forall i, 0 <= i < 5 -> now_ s1 i = next_now s i) /\ (forall i, 0 <= i < 5 -> saved_ s1 i = out_ s1 i) /\
    (fits s -> forall i, 0 <= i < 5 -> next_now s i = cur_ s i -> out_ s1 i = cur_ s1 i)).
  { intros s1 (Hs1 & (n1 & d1 & HV1) & Hp1 & _ & Hi1).
    assert (Hc1 : forall i, cur_ s1 i = cur_ s i) by (intros; unfold cur_; by rewrite HV1).
    split_and!.
    - split; [done|]. split; [by rewrite HV1|]. split; [by rewrite HV1, Hp1|].
      intros i Hi. destruct (Hi1 i Hi) as (-> & _). rewrite Hc1. specialize (Hb i Hi).
      split; [apply approach_range; lia|lia].
    - split; [by rewrite HV1|done].
    - intros i Hi. apply (Hi1 i Hi).
    - intros i Hi. destruct (Hi1 i Hi) as (_ & -> & ->). unfold next_saved, next_out.
      destruct (Z.eqb_spec (next_now s i) (saved_ s i)) as [E|]; [|done]. by destruct (Hsy i Hi).
    - intros [Hr Hfit] i Hi En. rewrite Hc1. destruct (Hi1 i Hi) as (_ & _ & ->). unfold next_out.
      destruct (Z.eqb_spec (next_now s i) (saved_ s i)) as [E|].
      + destruct (Hsy i Hi) as [E2|]; [|done]. congruence.
      + rewrite En. apply fit_duty_ok; [lia|]. split; [by apply Hb|by apply Hfit]. }
  apply tick_rule; [done|..]; intros s1 s2 Hm HR2 HV2 Ha2 Hx; destruct (Hmoved s1 Hm) as (Hk1 & [Hc1 Hp1] & Hn1 & Hsv1 & Hen1).
  - assert (Hl : light_ok s2).
    { unfold light_ok, core, shape, now_, cur_, saved_, out_ in *. rewrite HR2, HV2, Ha2. cbn. split; [exact Hk1|]. done. }
    split; [done|]. split; [unfold aiming; rewrite HV2, HR2; done|].
    split; [intros i Hi; unfold now_; rewrite HV2; by apply Hn1|]. intros Hfit Hall. destruct Hx as (i & Hi & Hx).
    destruct Hx. apply Hen1; [done..|]. by apply Hall.
  - assert (Hl : light_ok s2).
    { unfold light_ok, core, shape, now_, cur_, saved_, out_ in *. rewrite HR2, HV2, Ha2. cbn. split; [exact Hk1|].
      split; [done|]. done. }
    apply smooth_empty; [apply Hl|]. eapply wp_mono; [by apply settled_keeps|].
    intros _ s3 (Hl3 & [Hc3 Hp3] & Hn3 & Hf3). split; [done|]. split.
    { unfold aiming. rewrite Hc3, Hp3, HV2, HR2. done. }
    split; [|intros _ _; rewrite Hf3, HV2; done]. intros i Hi. unfold now_. rewrite Hn3, HV2. by apply Hn1.
Qed.

(** ** Setting a colour *)

(** The period the driver has after [user_light_set_period]. *)
Definition new_period s p : Z := if p =? reg_period (R s) then p else fit_period p.
Lemma new_period_ok s p : 1000 <= p <= 10000 -> new_period s p = p.
Proof. intros Hp. unfold new_period. rewrite fit_period_ok by done. by case_match. Qed.

Lemma set_period_ok p s :
  zlen (reg_duty (R s)) = 5 -> pwm_period (light_param (V s)) = reg_period (R s) ->
  wp (user_light_set_period p) s (λ _ s', R s' = mk_regs (new_period s p) (reg_duty (R s)) (shown (R s)) /\
    running s' = running s /\ V s' = (V s) <| light_param := mk_saved (new_period s p) (pwm_duty (light_param (V s))) |>).
Proof.
  intros Hz Hp. unfold user_light_set_period, user_light_get_period. apply wp_bind, wp_pvar. fold (V s). rewrite Hp.
  unfold new_period. apply wp_when; intros E.
  - apply negb_true_iff in E. rewrite E. apply wp_bind, wp_call. set (s1 := mk_sys _ _ _).
    assert (HR1 : R s1 = mk_regs (fit_period p) (reg_duty (R s)) (shown (R s))).
    { unfold s1. rewrite R_snoc. cbn. by destruct s. }
    apply wp_bind, wp_ask_period; [by rewrite HR1|]. rewrite HR1. cbn [reg_period]. apply wp_pmodify. cbn [log mem st].
    split; [rewrite R_snoc; exact HR1|]. split; [rewrite running_snoc; unfold s1; cbn [log mem st]; rewrite running_snoc; by destruct s|].
    rewrite V_set. done.
  - apply negb_false_iff in E. rewrite E. apply Z.eqb_eq in E. subst p. split; [by destruct (R s)|]. split; [done|]. rewrite <- Hp.
    by destruct (V s) as [?????????[??]].
Qed.

(** A state in which [light_set_aim] has just put entry [e] into the queue. *)
Definition loaded (e : pwm_param) s : Prop :=
  shape s /\ length (LightEvtArr (V s)) = 40%nat /\ Forall (λ e, zlen (duty e) = 8) (LightEvtArr (V s)) /\
  0 <= CurEvtIdxToBeUse (V s) < 40 /\
  CurFreeLightEvtIdx (V s) = (if CurEvtIdxToBeUse (V s) =? 39 then 0 else CurEvtIdxToBeUse (V s) + 1) /\
  TotalUsedLightEvtNum (V s) = 1 /\ LightEvtArr (V s) !! Z.to_nat (CurEvtIdxToBeUse (V s)) = Some e /\
  pwm_period (light_param (V s)) = reg_period (R s) /\
  forall i, 0 <= i < 5 -> 0 <= now_ s i <= duty_top /\ 0 <= nthZ (duty e) i <= duty_top.

(** A fade is running, or a new one will move every channel the driver is not up to date with. *)
Definition can_aim (t : Z -> Z) s : Prop :=
  if change_finish (V s) then forall i, 0 <= i < 5 -> saved_ s i = out_ s i \/ approach (now_ s i) (t i) ≠ saved_ s i
  else running s = true /\ forall i, 0 <= i < 5 -> saved_ s i = out_ s i.

(** The entry has been taken out and has become the target. *)
Definition popped (e : pwm_param) s s' : Prop :=
  core s' /\ (forall i, 0 <= i < 5 -> cur_ s' i = nthZ (duty e) i) /\ reg_period (R s') = new_period s (period e) /\
  (forall i, saved_ s' i = saved_ s i /\ out_ s' i = out_ s i /\ now_ s' i = now_ s i) /\
  change_finish (V s') = change_finish (V s) /\ running s' = running s.

Lemma smooth_pop n' e s (Q : unit -> sys X -> Prop) :
  loaded e s ->
  (forall s', popped e s s' ->
    wp (swhen (change_finish (V s')) (dh_pwm_adj (smooth_adj n'))) s' (λ _ s'', wp light_settled s'' Q)) ->
  wp (smooth_adj (S n')) s Q.
Proof.
  intros (Hs & Hlen & Hall & Huse & Hfree & Htot & He & Hp & Hb) HQ. pose proof Hs as (Hn & Hc & Hd & Hr).
  assert (Hze : zlen (duty e) = 8) by (rewrite Forall_lookup in Hall; by apply (Hall _ _ He)).
  cbn [smooth_adj]. apply wp_bind, wp_pvar. fold (V s). rewrite Htot.
  apply wp_bind, wp_when; intros E0; [|done]. apply wp_bind, wp_pvar, wp_bind, wp_pvar, wp_bind. fold (V s).
  apply (wp_lift _ e); [exact He|]. apply wp_bind. eapply wp_mono; [by apply set_period_ok|].
  intros _ s1 (HR1 & Ha1 & HV1). apply wp_bind, wp_pmodify, wp_bind, wp_pmodify, wp_bind, wp_pvar. cbn [log mem st].
  rewrite !part_set. fold (V s1). rewrite HV1. cbn [CurEvtIdxToBeUse set_field]. rewrite (u8_small (_ + 1)) by lia.
  change (LIGHT_EVT_QNUM - 1) with 39. change (Z.to_nat PWM_CHANNEL) with 5%nat.
  set (v1 := (V s) <| light_param := mk_saved (new_period s (period e)) (pwm_duty (light_param (V s))) |> <| current_duty := take 5 (duty e) |>
    <| CurEvtIdxToBeUse := CurFreeLightEvtIdx (V s) |> <| TotalUsedLightEvtNum := 0 |>).
  apply wp_bind. apply (wp_mono _ _ (λ _ s2, log s2 = log s1 /\ V s2 = v1 <| TotalUsedLightEvtNum := 1 |>)).
  { apply wp_when; intros E; [apply wp_pmodify|]; cbn [log mem st]; (split; [done|]); rewrite V_set, ?part_set;
      unfold v1; clear -Hfree Htot Huse E; destruct (V s) as [????????? lp]; cbn in *; subst; zbool; done || lia. }
  intros [] s2 [Hl2 HV2]. apply wp_bind. unfold LightEvtFree. apply wp_bind, wp_pmodify, wp_call. cbn [log mem st].
  set (s3 := mk_sys _ _ _). apply wp_bind, wp_pvar. fold (V s3).
  assert (HV3 : V s3 = v1) by (unfold s3; rewrite V_set; fold (V s2); rewrite HV2; done).
  assert (HR3 : R s3 = mk_regs (new_period s (period e)) (reg_duty (R s)) (shown (R s))) by (unfold s3; rewrite R_snoc; unfold R; cbn; rewrite Hl2; exact HR1).
  assert (Ha3 : running s3 = running s) by (unfold s3; rewrite running_snoc; unfold running; cbn; rewrite Hl2; exact Ha1).
  assert (Hcur : forall i, 0 <= i < 5 -> cur_ s3 i = nthZ (duty e) i).
  { intros i Hi. unfold cur_. rewrite HV3. unfold v1. cbn [current_duty set_field]. apply (nthZ_take _ 5). lia. }
  assert (Hcore : core s3).
  { unfold core, shape, queue_ok, now_. rewrite HV3, HR3. unfold v1. cbn. split_and!; try done || lia.
    - unfold zlen in *. rewrite length_take. lia.
    - rewrite Hfree. zbool; lia.
    - rewrite Hfree. zbool; lia.
    - intros i Hi. rewrite Hcur by done. by apply Hb. }
  assert (Hso : forall i, saved_ s3 i = saved_ s i /\ out_ s3 i = out_ s i /\ now_ s3 i = now_ s i).
  { intros i. unfold saved_, out_, now_. rewrite HV3, HR3. done. }
  apply HQ. split; [done|]. split; [done|]. split; [by rewrite HR3|]. split; [done|]. split; [by rewrite HV3|done].
Qed.

Lemma smooth_one n e s :
  loaded e s -> can_aim (nthZ (duty e)) s ->
  wp (smooth_adj (S (S n))) s (λ _ s', light_ok s' /\ (forall i, 0 <= i < 5 -> cur_ s' i = nthZ (duty e) i) /\
    reg_period (R s') = new_period s (period e)).
Proof.
  intros Hl Hcan. apply (smooth_pop _ e); [done|]. intros s3 (Hcore & Hcur & Hper & Hso & Hf3 & Ha3).
  unfold can_aim in Hcan. rewrite Hf3. destruct (change_finish (V s)).
  - apply (wp_mono _ _ (λ _ s', light_ok s' /\ aiming s3 s')).
    + cbn [swhen]. eapply wp_mono; [apply (tick_ok n); [done|]|by intros _ s4 (? & ? & _)].
      intros i Hi. unfold next_now. destruct (Hso i) as (-> & -> & ->). rewrite Hcur by done. by apply Hcan.
    + intros [] s4 [Hl4 [Hc4 Hp4]]. eapply wp_mono; [by apply settled_keeps|]. intros _ s5 (Hl5 & [Hc5 Hp5] & _).
      split; [done|]. split; [|congruence]. intros i Hi. rewrite <- Hcur by done. unfold cur_. by rewrite Hc5, Hc4.
  - cbn [swhen]. apply wp_ret. unfold light_settled. apply wp_bind, wp_pvar. fold (V s3). rewrite Hf3. apply wp_ret.
    split; [|done]. split; [done|]. rewrite Hf3, Ha3. destruct Hcan as [-> Hcan]. split; [|done].
    intros i Hi. destruct (Hso i) as (-> & -> & _). by apply Hcan.
Qed.

(** The colour [light_set_aim] aims at, and its period. *)
Definition aim (r g b cw ww p i : Z) : Z := limited p (nthZ [r; g; b; cw; ww] i).
Definition aim_period (p : Z) : Z := if p <? 10000 then p else 10000.

Lemma limited_min p d : 1000 <= p <= 10000 -> limited p d = Z.min d (full_duty p).
Proof. intros. unfold limited, duty_max_limit. rewrite u32_small by lia. fold (full_duty p). zbool; lia. Qed.
Lemma limited_range p d : 0 <= d -> 0 <= limited p d <= duty_top.
Proof.
  intros. unfold limited, duty_max_limit, duty_top. pose proof (u32_range (p * 1000)) as Hu. unfold is_u32 in Hu.
  assert (0 <= u32 (p * 1000) / 45 <= 95443717) by dlia. zbool; lia.
Qed.
Lemma aim_range r g b cw ww p i : Forall (λ d, 0 <= d) [r; g; b; cw; ww] -> 0 <= aim r g b cw ww p i <= duty_top.
Proof.
  intros Harg. apply limited_range. unfold nthZ. destruct (nth_in_or_default (Z.to_nat i) [r; g; b; cw; ww] 0) as [Hin| ->]; [|lia].
  rewrite List.Forall_forall in Harg. by apply Harg.
Qed.

(** A period, and a colour for it, that the driver is documented to take. *)
Definition drivable (r g b cw ww p : Z) : Prop :=
  1000 <= p /\ forall i, 0 <= i < 5 -> aim r g b cw ww p i <= full_duty (aim_period p).

Lemma aim_period_range p : 1000 <= p -> 1000 <= aim_period p <= 10000.
Proof. unfold aim_period. zbool; lia. Qed.
Lemma aim_period_id p : p <= 10000 -> aim_period p = p.
Proof. unfold aim_period. zbool; lia. Qed.
Lemma drivable_range r g b cw ww p : 1000 <= p <= 10000 -> drivable r g b cw ww p.
Proof. intros Hp. split; [lia|]. intros i _. unfold aim. rewrite aim_period_id, limited_min by lia. lia. Qed.

Lemma fill_evt_ok e r g b cw ww p :
  zlen (duty e) = 8 ->
  exists e', fill_evt e r g b cw ww p = Some e' /\ period e' = aim_period p /\ zlen (duty e') = 8 /\
    forall i, 0 <= i < 5 -> nthZ (duty e') i = aim r g b cw ww p i.
Proof.
  intros Hz. unfold fill_evt.
  destruct (wr_Some (duty e) LIGHT_RED (limited p r)) as (d1 & -> & Z1 & N1); [unfold LIGHT_RED; lia|]. cbn [mbind option_bind].
  destruct (wr_Some d1 LIGHT_GREEN (limited p g)) as (d2 & -> & Z2 & N2); [unfold LIGHT_GREEN; lia|]. cbn [mbind option_bind].
  destruct (wr_Some d2 LIGHT_BLUE (limited p b)) as (d3 & -> & Z3 & N3); [unfold LIGHT_BLUE; lia|]. cbn [mbind option_bind].
  destruct (wr_Some d3 LIGHT_COLD_WHITE (limited p cw)) as (d4 & -> & Z4 & N4); [unfold LIGHT_COLD_WHITE; lia|]. cbn [mbind option_bind].
  destruct (wr_Some d4 LIGHT_WARM_WHITE (limited p ww)) as (d5 & -> & Z5 & N5); [unfold LIGHT_WARM_WHITE; lia|]. cbn [mbind option_bind].
  eexists. split; [done|]. cbn [period duty]. split; [done|]. split; [lia|]. intros i Hi.
  rewrite N5, N4, N3, N2, N1 by lia. unfold LIGHT_RED, LIGHT_GREEN, LIGHT_BLUE, LIGHT_COLD_WHITE, LIGHT_WARM_WHITE, aim.
  each_channel i; done.
Qed.

Lemma aim_loads r g b cw ww p s (Q : unit -> sys X -> Prop) :
  core s -> Forall (λ d, 0 <= d) [r; g; b; cw; ww] ->
  (forall e s', loaded e s' -> (forall i, 0 <= i < 5 -> nthZ (duty e) i = aim r g b cw ww p i) -> period e = aim_period p -> R s' = R s ->
    (forall i, saved_ s' i = saved_ s i /\ out_ s' i = out_ s i /\ now_ s' i = now_ s i) ->
    change_finish (V s') = change_finish (V s) -> running s' = running s -> wp light_pwm_smooth_adj_proc s' Q) ->
  wp (light_set_aim r g b cw ww p) s Q.
Proof.
  intros (Hs & (Hlen & Hall & Huse & Hfree & Htot) & Hp & Hb) Harg HQ.
  unfold light_set_aim. apply wp_bind. unfold LightEvtMalloc. apply wp_bind, wp_pmodify, wp_bind, wp_pvar. cbn [log mem st].
  rewrite part_set. fold (V s). cbn [TotalUsedLightEvtNum set_field]. rewrite Htot. change (u8 (0 + 1)) with 1. cbn [Z.ltb].
  apply wp_bind, wp_bind, wp_pvar, wp_bind, wp_pmodify, wp_bind, wp_pvar, wp_bind. cbn [log mem st]. rewrite !part_set, !set_set.
  cbn [CurFreeLightEvtIdx set_field]. rewrite Hfree, (u8_small (_ + 1)) by lia. change (LIGHT_EVT_QNUM - 1) with 39.
  set (use := CurEvtIdxToBeUse (V s)) in *.
  set (v1 := (V s) <| TotalUsedLightEvtNum := 1 |> <| CurFreeLightEvtIdx := if use =? 39 then 0 else use + 1 |>).
  apply (wp_mono _ _ (λ _ s2, log s2 = log s /\ V s2 = v1)).
  { apply wp_when; intros E; [apply wp_pmodify|]; cbn [log mem st]; (split; [done|]); rewrite V_set, ?part_set;
      unfold v1, use in *; clear -Hfree Htot Huse E; destruct (V s) as [????????? lp]; cbn in *; subst; zbool; done || lia. }
  intros [] s2 [Hl2 HV2]. apply wp_ret, wp_bind, wp_call, wp_ret, wp_bind, wp_pvar, wp_bind. cbn [log mem st]. fold (V s2).
  rewrite HV2. unfold v1 at 1. cbn [LightEvtArr set_field].
  destruct (lookup_lt_is_Some_2 (LightEvtArr (V s)) (Z.to_nat use)) as [e0 He0]; [lia|].
  apply (wp_lift _ e0); [exact He0|]. assert (Hz0 : zlen (duty e0) = 8) by (rewrite Forall_lookup in Hall; by apply (Hall _ _ He0)).
  destruct (fill_evt_ok e0 r g b cw ww p Hz0) as (e & Ee & Hpe & Hze & Hne).
  apply wp_bind, (wp_lift _ e); [exact Ee|]. apply wp_bind, wp_pmodify, wp_bind, wp_call. cbn [log mem st]. set (s3 := mk_sys _ _ _).
  assert (HV3 : V s3 = v1 <| LightEvtArr := <[Z.to_nat use := e]> (LightEvtArr (V s)) |>).
  { unfold s3. rewrite V_set. fold (V s2). rewrite HV2. done. }
  assert (HR3 : R s3 = R s) by (unfold s3, R, regs_of; cbn [log]; rewrite !fold_left_app, Hl2; done).
  assert (Ha3 : running s3 = running s) by (unfold s3, running, armed; cbn [log]; rewrite !fold_left_app, Hl2; done).
  assert (Hsame : forall i, saved_ s3 i = saved_ s i /\ out_ s3 i = out_ s i /\ now_ s3 i = now_ s i).
  { intros i. unfold saved_, out_, now_. rewrite HV3, HR3. done. }
  apply (HQ e); [|done|done|done|done|by rewrite HV3|done].
  unfold loaded, shape. rewrite HV3, HR3. unfold v1. cbn. fold use. split_and!; try apply Hs; try done || lia.
  - by rewrite length_insert.
  - by apply Forall_insert.
  - rewrite list_lookup_insert_eq; [done|lia].
  - intros i Hi. destruct (Hsame i) as (_ & _ & ->). rewrite Hne by done. split; [by apply Hb|by apply aim_range].
Qed.

Lemma aim_ok r g b cw ww p s :
  core s -> can_aim (aim r g b cw ww p) s -> Forall (λ d, 0 <= d) [r; g; b; cw; ww] ->
  wp (light_set_aim r g b cw ww p) s (λ _ s', light_ok s' /\
    (forall i, 0 <= i < 5 -> cur_ s' i = aim r g b cw ww p i) /\ reg_period (R s') = new_period s (aim_period p)).
Proof.
  intros Hk Hcan Harg. apply aim_loads; [done..|]. intros e s' Hl He Hpe HR Hsame Hf Ha.
  eapply wp_mono; [apply (smooth_one 39 e); [done|]|].
  - unfold can_aim in *. rewrite Hf, Ha. destruct (change_finish (V s)); [|split; [apply Hcan|]]; intros i Hi;
      destruct (Hsame i) as (-> & -> & ?); [|by apply Hcan]. rewrite He by done. replace (now_ s' i) with (now_ s i) by done. by apply Hcan.
  - intros _ s2 (Hl2 & Hc2 & Hp2). split; [done|]. split; [intros i Hi; rewrite Hc2 by done; by apply He|].
    rewrite Hp2, Hpe. unfold new_period. by rewrite HR.
Qed.

(** ... in the range the driver is documented for. *)
Lemma aim_fits r g b cw ww p s :
  core s -> can_aim (aim r g b cw ww p) s -> Forall (λ d, 0 <= d) [r; g; b; cw; ww] -> drivable r g b cw ww p ->
  wp (light_set_aim r g b cw ww p) s (λ _ s', light_ok s' /\ fits s' /\
    (forall i, 0 <= i < 5 -> cur_ s' i = aim r g b cw ww p i) /\ reg_period (R s') = aim_period p).
Proof.
  intros Hk Hcan Harg [Hp Hd]. pose proof (aim_period_range p Hp) as Hr.
  eapply wp_mono; [by apply aim_ok|]. intros [] s' (Hl & Hc & Hp'). rewrite new_period_ok in Hp' by done.
  split; [done|]. split; [|done]. split; [lia|]. intros i Hi. rewrite Hc, Hp' by done. by apply Hd.
Qed.

(** The SDK runs the timer function until it is no longer asked to, at most [n] times. *)
Fixpoint fade (n : nat) : F X unit :=
  match n with
  | O => sret tt
  | S n =>
      fin <- pvar change_finish ;;
      if (fin : bool) then sret tt else light_dh_pwm_adj_proc ;; fade n
  end.

(** How far the fade is from its end after [k] rounds, at most. *)
Definition gap (k : nat) : Z := Nat.iter k shrink duty_top.
Lemma gap_250 : gap 250 = 0.
Proof. vm_compute. reflexivity. Qed.

Lemma fade_ok n k s :
  light_ok s -> fits s -> (forall i, 0 <= i < 5 -> Z.abs (now_ s i - cur_ s i) <= gap k) -> gap (k + n) = 0 -> (0 < n)%nat ->
  wp (fade n) s (λ _ s', light_ok s' /\ aiming s s' /\ change_finish (V s') = true).
Proof.
  revert k s. induction n as [|n IH]; intros k s Hl Hfit Hg Hz Hn; [lia|]. cbn [fade]. apply wp_bind, wp_pvar. fold (V s).
  destruct (change_finish (V s)) eqn:E; [by apply wp_ret|].
  pose proof Hl as ((_ & _ & _ & Hb) & Hsy & _).
  assert (Hg' : forall i, 0 <= i < 5 -> Z.abs (next_now s i - cur_ s i) <= gap (S k)).
  { intros i Hi. specialize (Hb i Hi). specialize (Hg i Hi). unfold next_now.
    pose proof (approach_near (now_ s i) (cur_ s i) ltac:(lia) ltac:(lia)). change (gap (S k)) with (shrink (gap k)).
    pose proof (shrink_mono (Z.abs (now_ s i - cur_ s i)) (gap k) ltac:(lia)). lia. }
  apply wp_bind. eapply wp_mono; [apply (tick_ok 40); [apply Hl|]|].
  { intros i Hi. left. by apply Hsy. }
  intros [] s1 (Hl1 & Ha1 & Hn1 & Hf1). pose proof Ha1 as [Hc1 Hp1].
  destruct n as [|n].
  - apply wp_ret. split; [done|]. split; [done|]. apply Hf1; [done|]. intros i Hi. specialize (Hg' i Hi).
    replace (k + 1)%nat with (S k) in Hz by lia. lia.
  - eapply wp_mono; [apply (IH (S k)); [done|by apply (fits_aiming s)| |by replace (S k + S n)%nat with (k + S (S n))%nat by lia|lia]|].
    + intros i Hi. rewrite Hn1 by done. unfold cur_ at 1. rewrite Hc1. by apply Hg'.
    + intros [] s2 (Hl2 & [Hc2 Hp2] & Hf2). split; [done|]. split; [|done]. split; congruence.
Qed.

(** What the lamp shows. *)
Definition shows (p : Z) (c : Z -> Z) s : Prop :=
  exists d, shown (R s) = (p, d) /\ zlen d = 5 /\ forall i, 0 <= i < 5 -> nthZ d i = c i.

(** From wherever the fade is. *)
Lemma fade_shows p c s :
  light_ok s -> fits s -> (forall i, 0 <= i < 5 -> cur_ s i = c i) -> reg_period (R s) = p ->
  wp (fade 250) s (λ _ s', light_ok s' /\ running s' = false /\ shows p c s').
Proof.
  intros Hl Hfit Hc Hp. eapply wp_mono; [apply (fade_ok 250 0); [done..| |exact gap_250|lia]|].
  - pose proof Hl as ((_ & _ & _ & Hb) & _). intros i Hi. specialize (Hb i Hi). change (gap 0) with duty_top. lia.
  - intros [] s2 (Hl2 & [Hc2 Hp2] & Hf2). split; [done|]. pose proof Hl2 as ((Hs2 & _) & _ & Ha2 & Hsh2).
    rewrite Hf2 in Ha2. split; [done|]. destruct (Hsh2 Hf2) as [Ho Hsh]. exists (reg_duty (R s2)).
    split; [rewrite Hsh; f_equal; congruence|]. split; [apply Hs2|]. intros i Hi. fold (out_ s2 i).
    rewrite Ho by done. unfold cur_. rewrite Hc2. by apply Hc.
Qed.

Lemma aim_fade r g b cw ww p s :
  core s -> can_aim (aim r g b cw ww p) s -> Forall (λ d, 0 <= d) [r; g; b; cw; ww] -> drivable r g b cw ww p ->
  wp (light_set_aim r g b cw ww p ;; fade 250) s
    (λ _ s', light_ok s' /\ running s' = false /\ shows (aim_period p) (aim r g b cw ww p) s').
Proof.
  intros Hk Hcan Harg Hd. apply wp_bind. eapply wp_mono; [by apply aim_fits|]. intros [] s1 (Hl1 & Hf1 & Hc1 & Hp1). by apply fade_shows.
Qed.

(** ** Start-up *)

(** The bytes [user_light_init] reads, and what it makes of them. *)
Definition stored s : list Z := spi_flash (log s) light_addr light_saved_size.
Definition saved_word (b : list Z) (i : Z) : Z := word_at b (4 + 4 * i).
Definition start_period (b : list Z) : Z := if (10000 <? word_at b 0) || (word_at b 0 <? 1000) then 1000 else word_at b 0.
Definition start_aim (b : list Z) (i : Z) : Z :=
  aim (saved_word b 0) (saved_word b 1) (saved_word b 2) (saved_word b 3) (saved_word b 4) (start_period b) i.

Lemma saved_words b i : 0 <= i < 5 -> nthZ (pwm_duty (saved_of_bytes b)) i = saved_word b i.
Proof.
  intros. each_channel i; done.
Qed.
Lemma word_nonneg b o : Forall is_byte b -> 0 <= word_at b o.
Proof.
  intros Hb. unfold word_at. pose proof (nthZ_byte b o Hb) as B0. pose proof (nthZ_byte b (o + 1) Hb) as B1.
  pose proof (nthZ_byte b (o + 2) Hb) as B2. pose proof (nthZ_byte b (o + 3) Hb) as B3. unfold is_byte in *. lia.
Qed.
Lemma start_period_range b : 1000 <= start_period b <= 10000.
Proof. unfold start_period. zbool; lia. Qed.

Lemma fits_same s s' : same s s' -> fits s -> fits s'.
Proof. intros (HV & HR & _). unfold fits, cur_. by rewrite HV, HR. Qed.
Lemma light_ok_same s s' : same s s' -> light_ok s -> light_ok s'.
Proof. intros (HV & HR & Ha). unfold light_ok, core, shape, now_, cur_, saved_, out_. by rewrite HV, HR, Ha. Qed.

(** [user_light_init] from the first use of [light_set_aim] on. *)
Lemma init_rule s (Q : unit -> sys X -> Prop) :
  V s = light_initial ->
  (forall s' b, b = stored s -> core s' -> change_finish (V s') = true ->
    (forall i, 0 <= i < 5 -> now_ s' i = 0 /\ out_ s' i = 0 /\ saved_ s' i = saved_word b i) ->
    wp (light_set_aim (saved_word b 0) (saved_word b 1) (saved_word b 2) (saved_word b 3) (saved_word b 4) (start_period b)) s'
      (λ _ s1, forall s2, same s1 s2 -> Q tt s2)) ->
  wp user_light_init s Q.
Proof.
  intros Hini HQ. unfold user_light_init, spi_flash_read. apply wp_bind, wp_bind, wp_get, wp_ret. fold (stored s).
  set (b := stored s) in *. apply wp_bind, wp_pmodify, wp_bind, wp_pvar. cbn [log mem st]. rewrite part_set. fold (V s). rewrite Hini.
  apply wp_bind. change (pwm_period (light_param (light_initial <| light_param := saved_of_bytes b |>))) with (word_at b 0).
  set (v1 := light_initial <| light_param := mk_saved (start_period b) (pwm_duty (saved_of_bytes b)) |>).
  apply (wp_mono _ _ (λ _ s1, log s1 = log s /\ V s1 = v1)).
  { unfold v1, start_period. apply wp_when; intros E; rewrite E; [apply wp_pmodify|]; cbn [log mem st];
      (split; [done|]); rewrite V_set, ?part_set; done. }
  intros [] s1 [Hl1 HV1]. apply wp_bind, wp_pvar. fold (V s1). rewrite HV1. change (pwm_period (light_param v1)) with (start_period b).
  do 7 (apply wp_bind, wp_call). cbn [log mem st]. set (s2 := mk_sys _ _ _).
  assert (HV2 : V s2 = v1) by exact HV1.
  assert (HR2 : exists sh, R s2 = mk_regs (start_period b) (replicate 5 0) sh).
  { unfold s2, R, regs_of. cbn [log]. rewrite !fold_left_app. cbn [fold_left regs_step].
    rewrite fit_period_ok by apply start_period_range. by eexists. }
  destruct HR2 as [sh HR2]. apply wp_bind, wp_pvar. fold (V s2). rewrite HV2.
  change (pwm_duty (light_param v1)) with (pwm_duty (saved_of_bytes b)).
  assert (Hrd : forall i, 0 <= i < 5 -> rd (pwm_duty (saved_of_bytes b)) i = Some (saved_word b i)).
  { intros i Hi. rewrite rd_Some by (change (zlen (pwm_duty (saved_of_bytes b))) with 5; lia). by rewrite saved_words. }
  apply wp_bind, (wp_lift _ (saved_word b 0)); [by apply Hrd|]. apply wp_bind, (wp_lift _ (saved_word b 1)); [by apply Hrd|].
  apply wp_bind, (wp_lift _ (saved_word b 2)); [by apply Hrd|]. apply wp_bind, (wp_lift _ (saved_word b 3)); [by apply Hrd|].
  apply wp_bind, (wp_lift _ (saved_word b 4)); [by apply Hrd|]. apply wp_bind.
  eapply wp_mono; [apply (HQ s2 b)|]; [done|..].
  - unfold core, shape, queue_ok, now_, cur_. rewrite HV2, HR2. unfold v1. cbn.
    split_and!; try done || lia; [by repeat constructor|].
    intros i Hi. change (0 <= nthZ (replicate (Z.to_nat 5) 0) i <= duty_top /\
      0 <= nthZ (replicate (Z.to_nat 5) 0) i <= duty_top).
    rewrite nthZ_replicate by lia. unfold duty_top. lia.
  - by rewrite HV2.
  - intros i Hi. unfold now_, out_, saved_. rewrite HV2, HR2. split_and!; [| |by apply saved_words];
      each_channel i; done.
  - intros [] s3 H3. apply wp_bind, wp_call, wp_bind, wp_ask, wp_call. cbn [log mem st]. apply H3.
    split; [done|]. split; [unfold R, regs_of|unfold running, armed]; cbn [log]; by rewrite !fold_left_app.
Qed.

(** A saved duty of 1 to 20 is the bad case. *)
Definition bright (b : list Z) : Prop := forall i, 0 <= i < 5 -> saved_word b i = 0 \/ 20 < saved_word b i.

Lemma approach_le t u : 0 <= t <= u -> t <= 222222 -> 20 < u -> approach 0 t ≠ u.
Proof. intros. rewrite approach_eq by (unfold duty_top; lia). cbv zeta. zbool; dlia. Qed.

Lemma init_can_aim b s :
  Forall is_byte b -> bright b -> change_finish (V s) = true ->
  (forall i, 0 <= i < 5 -> now_ s i = 0 /\ out_ s i = 0 /\ saved_ s i = saved_word b i) -> can_aim (start_aim b) s.
Proof.
  intros Hb Hbr Hf Hi. unfold can_aim. rewrite Hf. intros i Hr. destruct (Hi i Hr) as (-> & -> & ->).
  destruct (Hbr i Hr) as [->|Hgt]; [by left|right]. pose proof (start_period_range b). unfold start_aim, aim.
  rewrite limited_min by lia.
  replace (nthZ _ i) with (saved_word b i) by
    (each_channel i; done).
  pose proof (full_duty_max (start_period b) ltac:(lia)). assert (0 <= full_duty (start_period b)) by (unfold full_duty; dlia).
  apply approach_le; lia.
Qed.

Lemma user_light_init_ok s :
  V s = light_initial -> Forall is_byte (stored s) -> bright (stored s) ->
  wp user_light_init s (λ _ s', light_ok s').
Proof.
  intros Hini Hby Hbr. apply init_rule; [done|]. intros s1 b -> Hk Hf Hi.
  eapply wp_mono; [apply aim_ok; [done|by apply init_can_aim|]|].
  - repeat (apply Forall_cons_2; [by apply word_nonneg|]). by apply Forall_nil_2.
  - intros [] s2 [Hl _] s3 H3. by apply (light_ok_same s2).
Qed.

Lemma wp_result {A} (m : F X A) s (Q : A -> sys X -> Prop) a s' : wp m s Q -> m s = Some (a, s') -> Q a s'.
Proof. intros (b & s2 & E & HQ) E'. rewrite E in E'. by injection E' as <- <-. Qed.

(** The lamp in use: a new colour, whatever its period and duties, the timer,
    or anything else that leaves the lamp's variables, the PWM and the timer
    alone.  Nothing calls the functions that set a single channel (the calls in
    user_webserver.c are commented out); see [set_aim_channel_at_rest]. *)
Inductive light_step : sys X -> sys X -> Prop :=
  | step_aim r g b cw ww p s s' : Forall (λ d, 0 <= d) [r; g; b; cw; ww] ->
      light_set_aim r g b cw ww p s = Some (tt, s') -> light_step s s'
  | step_tick s s' : running s = true -> light_dh_pwm_adj_proc s = Some (tt, s') -> light_step s s'
  | step_else s s' : same s s' -> light_step s s'.

Lemma light_ok_aims t s : light_ok s -> can_aim t s.
Proof.
  intros (_ & Hsy & Ha & _). unfold can_aim. destruct (change_finish (V s)); [|done].
  intros i Hi. left. by apply Hsy.
Qed.

Lemma dh_ok s : light_ok s -> wp light_dh_pwm_adj_proc s (λ _ s', light_ok s').
Proof.
  intros Hl. eapply wp_mono; [apply (tick_ok 40); [apply Hl|]|by intros [] s' [? _]].
  intros i Hi. left. by apply Hl.
Qed.

Lemma light_step_ok s s' : light_ok s -> light_step s s' -> light_ok s'.
Proof.
  intros Hl Hs. destruct Hs as [r g b cw ww p s s' Harg E|s s' Ha E|s s' E].
  - apply (wp_result _ _ (λ _ s', light_ok s' /\ _) _ _ (aim_ok r g b cw ww p s (proj1 Hl) (light_ok_aims _ s Hl) Harg) E).
  - exact (wp_result _ _ (λ _ s', light_ok s') _ _ (dh_ok s Hl) E).
  - by apply (light_ok_same s).
Qed.

Lemma light_reach_ok s s' : light_ok s -> rtc light_step s s' -> light_ok s'.
Proof. intros Hl Hs. induction Hs; [done|]. apply IHHs. by eapply light_step_ok. Qed.

(** The five functions that set one channel start no fade: with the lamp at
    rest, the outputs stay as they are, the timer stays off, and yet
    [light_param] records the new value as reached. *)
Theorem set_aim_channel_at_rest ch d s :
  light_ok s -> change_finish (V s) = true -> 0 <= ch < 5 ->
  wp (set_aim_channel ch d) s (λ _ s', shown (R s') = shown (R s) /\ running s' = false /\ saved_ s' ch = d).
Proof.
  intros (((Hn & Hc & Hd & Hr) & Hq & _) & _ & Ha & _) Hf Hch. rewrite Hf in Ha. unfold set_aim_channel. apply wp_bind, wp_pvar, wp_bind.
  destruct (wr_Some (current_duty (V s)) ch d) as (c & Ec & Hz & Hnc); [lia|]. apply (wp_lift _ c); [exact Ec|].
  apply wp_bind, wp_pmodify. set (s1 := mk_sys _ _ _).
  assert (HV1 : V s1 = (V s) <| current_duty := c |>) by apply V_set.
  change light_pwm_smooth_adj_proc with (smooth_adj 41). apply smooth_empty; [rewrite HV1; apply Hq|].
  eapply wp_mono; [apply settled_ok; unfold shape; rewrite HV1; cbn; split_and!; done || lia|].
  intros [] s2 (HR2 & Ha2 & f & HV2). rewrite HV1 in HV2. cbn [change_finish set_field] in HV2. rewrite Hf in HV2.
  split; [by rewrite HR2|]. split; [by rewrite Ha2|]. unfold saved_. rewrite HV2. cbn [light_param pwm_duty set_field].
  rewrite Hnc by lia. by rewrite Z.eqb_refl.
Qed.

(** The lamp comes up in the saved colour.  Whatever the flash holds, as
    long as no saved duty lies between 1 and 20, [user_light_init] is defined,
    repairs a period out of range, and within 250 runs of its timer the fade is
    over, the timer is off, and the outputs carry the saved duties, each limited to
    what the period allows. *)
Theorem light_shows_saved s :
  V s = light_initial -> Forall is_byte (stored s) -> bright (stored s) ->
  wp (user_light_init ;; fade 250) s (λ _ s', running s' = false /\
    shows (start_period (stored s)) (start_aim (stored s)) s').
Proof.
  intros Hini Hby Hbr. apply wp_bind, init_rule; [done|]. intros s1 b -> Hk Hf Hi. pose proof (start_period_range (stored s)) as Hr.
  eapply wp_mono; [apply aim_fits; [done|by apply init_can_aim| |by apply drivable_range]|].
  { repeat (apply Forall_cons_2; [by apply word_nonneg|]). by apply Forall_nil_2. }
  intros [] s2 (Hl2 & Hf2 & Hc2 & Hp2) s3 H3. pose proof (light_ok_same _ _ H3 Hl2) as Hl3. rewrite aim_period_id in Hp2 by lia.
  eapply wp_mono; [apply (fade_shows (start_period (stored s)) (start_aim (stored s))); [done|by eapply fits_same| |]|by intros [] s4 [_ ?]].
  - intros i Hi'. transitivity (cur_ s2 i); [by apply same_cur|by apply Hc2].
  - destruct H3 as (_ & -> & _). done.
Qed.

(** C19: the lamp always follows.  From a start-up on as in [light_shows_saved]
    (no saved duty from 1 to 20), after any sequence of [light_set_aim] calls,
    with whatever periods and duties, and timer expirations, also in the middle of a
    fade: the timer function is defined, the queue of colours is empty between two
    calls, so that it never refuses one, and the next [light_set_aim] is defined
    too, whatever it is given.  If its period is at least 1000 and what
    it makes of the duties is not above what its period allows (which is always so
    for a period up to 10000: [light_set_aim] cuts the duties itself), then
    within 250 runs of the timer the outputs carry the period, cut to 10000, and
    these duties, and the timer stops. *)
Theorem light_follows s0 :
  V s0 = light_initial -> Forall is_byte (stored s0) -> bright (stored s0) ->
  exists s1, user_light_init s0 = Some (tt, s1) /\ forall s, rtc light_step s1 s ->
    TotalUsedLightEvtNum (V s) = 0 /\ (exists s', light_dh_pwm_adj_proc s = Some (tt, s')) /\
    forall r g b cw ww p, Forall (λ d, 0 <= d) [r; g; b; cw; ww] ->
      (exists s', light_set_aim r g b cw ww p s = Some (tt, s')) /\
      (1000 <= p <= 10000 \/ drivable r g b cw ww p ->
       wp (light_set_aim r g b cw ww p ;; fade 250) s (λ _ s', running s' = false /\ shows (aim_period p) (aim r g b cw ww p) s')).
Proof.
  intros Hini Hby Hbr. destruct (user_light_init_ok s0 Hini Hby Hbr) as ([] & s1 & E & Hl1). exists s1. split; [done|].
  intros s Hs. pose proof (light_reach_ok s1 s Hl1 Hs) as Hl. split; [apply Hl|]. split; [destruct (dh_ok s Hl) as ([] & s' & E' & _); eauto|]. intros r g b cw ww p Harg. split.
  { destruct (aim_ok r g b cw ww p s) as ([] & s' & E' & _); [apply Hl|by apply light_ok_aims|done|eauto]. }
  intros Hp. assert (Hd : drivable r g b cw ww p) by (destruct Hp; [by apply drivable_range|done]).
  eapply wp_mono; [apply aim_fade; [apply Hl|by apply light_ok_aims|done..]|]. by intros [] s' [_ ?].
Qed.

(** ** Where it does not *)

Definition stuck i s : Prop :=
  shape s /\ change_finish (V s) = false /\ running s = true /\ out_ s i = 0 /\
  saved_ s i = cur_ s i /\ now_ s i = cur_ s i /\ 0 < cur_ s i <= 20.

(** A round that does not change what the driver has for channel [i]. *)
Lemma stuck_round i smooth s :
  shape s -> 0 <= i < 5 -> out_ s i = 0 -> saved_ s i = cur_ s i -> next_now s i = cur_ s i -> 0 < cur_ s i <= 20 ->
  wp (dh_pwm_adj smooth) s (λ _ s', stuck i s').
Proof.
  intros Hs Hi Ho Hsv Hn Hc. apply tick_rule; [done|..]; intros s1 s2 (Hs1 & (n & d & HV1) & _ & _ & Hi1) HR2 HV2 Ha2 Hx;
    destruct (Hi1 i Hi) as (En & Es & Eo); unfold next_saved, next_out in *; rewrite Hn, Hsv, Z.eqb_refl in *;
    assert (Ec1 : cur_ s1 i = cur_ s i) by (unfold cur_; by rewrite HV1).
  - assert (Ec2 : cur_ s2 i = cur_ s i) by (unfold cur_ in *; by rewrite HV2).
    split; [unfold shape in *; by rewrite HR2, HV2|]. split; [by rewrite HV2|]. split; [done|].
    assert (out_ s2 i = out_ s1 i) by (unfold out_; by rewrite HR2).
    assert (saved_ s2 i = saved_ s1 i) by (unfold saved_; by rewrite HV2).
    assert (now_ s2 i = now_ s1 i) by (unfold now_; by rewrite HV2).
    cbn beta in *. split; [congruence|]. split; [congruence|]. split; [congruence|lia].
  - exfalso. specialize (Hx i Hi). lia.
Qed.

Lemma stuck_fade i n s : 0 <= i < 5 -> stuck i s -> wp (fade n) s (λ _ s', stuck i s').
Proof.
  intros Hi. revert s. induction n as [|n IH]; intros s Hst; cbn [fade]; [by apply wp_ret|].
  apply wp_bind, wp_pvar. fold (V s). pose proof Hst as (Hs & Hf & Ha & Ho & Hsv & Hn & Hc). rewrite Hf.
  apply wp_bind. eapply wp_mono; [apply (stuck_round i); try done|].
  - unfold next_now. rewrite Hn. apply approach_at. unfold duty_top; lia.
  - intros [] s1 Hs1. by apply IH.
Qed.

(** C34: a dim saved colour is never shown.  When a saved duty is between 1
    and 20, the channel stays dark and the fade never ends: the saved value is
    already in [light_param], so [user_light_set_duty] skips the PWM, and the
    timer function finds a difference and arms its timer for ever. *)
Theorem light_dim_stuck s i n :
  V s = light_initial -> Forall is_byte (stored s) -> 0 <= i < 5 -> 1 <= saved_word (stored s) i <= 20 ->
  wp (user_light_init ;; fade n) s (λ _ s', change_finish (V s') = false /\ running s' = true /\ out_ s' i = 0).
Proof.
  intros Hini Hby Hi Hdim. apply wp_bind, init_rule; [done|]. intros s1 b -> Hk Hf Hz.
  apply aim_loads; [done|..].
  { repeat (apply Forall_cons_2; [by apply word_nonneg|]). by apply Forall_nil_2. }
  intros e s2 Hl He Hpe _ Hsame Hf2 Ha2. change light_pwm_smooth_adj_proc with (smooth_adj 41). apply (smooth_pop 40 e); [done|].
  intros s3 (Hk3 & Hc3 & Hp3 & Hso & Hf3 & Ha3). rewrite Hf3, Hf2, Hf. cbn [swhen].
  assert (Hcur : cur_ s3 i = saved_word (stored s) i).
  { rewrite Hc3, He by done. unfold aim. pose proof (start_period_range (stored s)). rewrite limited_min by lia.
    assert (22222 <= full_duty (start_period (stored s))) by (unfold full_duty; dlia).
    replace (nthZ _ i) with (saved_word (stored s) i) by
      (each_channel i; done). lia. }
  destruct (Hso i) as (Es3 & Eo3 & En3), (Hsame i) as (Es2 & Eo2 & En2), (Hz i Hi) as (En1 & Eo1 & Es1).
  eapply wp_mono; [apply (stuck_round i); [apply Hk3|done|congruence|congruence| |lia]|].
  - unfold next_now. rewrite En3, En2, En1, Hcur. apply approach_0; unfold duty_top; lia.
  - intros [] s4 Hs4. pose proof Hs4 as (_ & Hf4 & _). unfold light_settled. apply wp_bind, wp_pvar. fold (V s4). rewrite Hf4.
    apply wp_ret. intros s5 (HV5 & HR5 & Ha5).
    assert (Hs5 : stuck i s5) by (unfold stuck, shape, out_, saved_, cur_, now_ in *; by rewrite HV5, HR5, Ha5).
    eapply wp_mono; [by apply stuck_fade|]. intros [] s6 (_ & ? & ? & ? & _). done.
Qed.
End Laws.

(** ** The theorems at concrete inputs *)

(** A driver that limits periods and duties to the documented range. *)
Definition lamp_period (p : Z) : Z := Z.max 1000 (Z.min p 10000).
Definition lamp_duty (p d : Z) : Z := Z.max 0 (Z.min d 222222).
Definition lamp_ret (l : list event) (c : sdk) : Z :=
  match c with
  | pwm_get_period => reg_period (regs_of lamp_period lamp_duty l)
  | pwm_get_duty ch => nthZ (reg_duty (regs_of lamp_period lamp_duty l)) ch
  | _ => 0
  end.
Definition lamp : Env := mk_env (λ _ _, 0) lamp_ret.

Lemma lamp_range l :
  is_u32 (reg_period (regs_of lamp_period lamp_duty l)) /\ Forall is_u32 (reg_duty (regs_of lamp_period lamp_duty l)).
Proof.
  induction l as [|e l [IHp IHd]] using rev_ind; [by split; [|apply Forall_nil_2]|].
  unfold regs_of in *. rewrite fold_left_app. cbn [fold_left]. set (r := fold_left _ l _) in *.
  destruct e as [| |[]|]; cbn [regs_step reg_period reg_duty]; try (by split).
  - split; [unfold is_u32, lamp_period; lia|]. apply Forall_fmap, Forall_true. intros d. apply u32_range.
  - split; [done|]. apply Forall_insert; [done|]. unfold is_u32, lamp_duty. lia.
  - split; [unfold is_u32, lamp_period; lia|done].
Qed.

Lemma lamp_laws : @Pwm lamp.
Proof.
  refine (@Build_Pwm lamp lamp_period lamp_duty _ _ _ _).
  - intros p Hp. unfold lamp_period. lia.
  - intros p d Hp Hd. pose proof (full_duty_max p ltac:(lia)). unfold lamp_duty. lia.
  - intros l _. cbn [sdk_ret lamp lamp_ret]. apply u32_small, lamp_range.
  - intros l ch _. cbn [sdk_ret lamp lamp_ret]. apply u32_small. destruct (lamp_range l) as [_ Hd].
    unfold nthZ. destruct (nth_in_or_default (Z.to_nat ch) (reg_duty (regs_of lamp_period lamp_duty l)) 0) as [Hin| ->]; [|lia].
    rewrite List.Forall_forall in Hd. by apply Hd.
Qed.

(** A flash that holds the given period and duties. *)
Definition lamp_flash (p : light_saved_param) : Flash := λ _ _ _, saved_to_bytes p.
Definition dark : sys light_vars := mk_sys [] ∅ light_initial.
Definition orange : light_saved_param := mk_saved 1000 [22222; 8000; 0; 0; 21].
Definition dim : light_saved_param := mk_saved 1000 [22222; 8000; 7; 0; 21].

Lemma light_shows_saved_witness :
  exists s', (@user_light_init lamp (lamp_flash orange) _ _ ;; @fade lamp _ _ 250)%sm dark = Some (tt, s') /\
    @shows lamp lamp_laws _ 1000 (λ i, nthZ [22222; 8000; 0; 0; 21] i) s'.
Proof.
  destruct (@light_shows_saved lamp (lamp_flash orange) lamp_laws light_vars _ dark) as ([] & s' & E & _ & d & Hd & Hz & Hn).
  - reflexivity.
  - bytes_tac.
  - intros i Hi. each_channel i; vm_compute; intuition congruence.
  - exists s'. split; [exact E|]. exists d. split; [exact Hd|]. split; [exact Hz|]. intros i Hi. rewrite Hn by exact Hi.
    each_channel i; reflexivity.
Defined.

Lemma light_follows_witness :
  exists s1, @user_light_init lamp (lamp_flash orange) _ _ dark = Some (tt, s1) /\
    wp (@light_set_aim lamp _ _ 5 0 22222 0 0 1000 ;; @fade lamp _ _ 250)%sm s1
      (λ _ s', running s' = false /\ @shows lamp lamp_laws _ 1000 (aim 5 0 22222 0 0 1000) s').
Proof.
  destruct (@light_follows lamp (lamp_flash orange) lamp_laws light_vars _ dark) as (s1 & E & H).
  - reflexivity.
  - bytes_tac.
  - intros i Hi. each_channel i; vm_compute; intuition congruence.
  - exists s1. split; [exact E|]. destruct (H s1 (rtc_refl _ _)) as (_ & _ & Haim). apply Haim; [|lia].
    repeat (apply Forall_cons_2; [lia|]). apply Forall_nil_2.
Defined.

Lemma light_dim_stuck_witness :
  wp (@user_light_init lamp (lamp_flash dim) _ _ ;; @fade lamp _ _ 1000)%sm dark
    (λ _ s', change_finish (V s') = false /\ running s' = true /\ @out_ lamp lamp_laws _ s' 2 = 0).
Proof.
  apply (@light_dim_stuck lamp (lamp_flash dim) lamp_laws light_vars _ dark 2 1000).
  - reflexivity.
  - bytes_tac.
  - lia.
  - split; vm_compute; congruence.
Defined.
