(* ===== verification/IotPlug.v ===== *)
(** * IotPlug: the power plug of the IoT demo

    IoT_Demo/user/user_plug.c with include/user_plug.h, compiled with
    [PLUG_DEVICE]: the relay, its saved state, the link LED and the key.
    IoT_Demo/driver/key.c is the key driver of Keys.v but for the delay of a long
    press (5 s instead of 3 s), which [key_init] does not use. *)

From Stdlib Require Import String.
From stdpp Require Import gmap.
From S2P Require Import Prelude CMem Board Keys MqttConfig IotLight.
Local Open Scope string_scope.
Local Open Scope Z_scope.
Local Open Scope sm_scope.
Local Open Scope list_scope.

Definition PLUG_KEY_NUM : Z := 1.
Definition PLUG_KEY_0_IO_MUX : Z := PERIPHS_IO_MUX_MTCK_U.
Definition PLUG_KEY_0_IO_NUM : Z := 13.
Definition PLUG_KEY_0_IO_FUNC : Z := FUNC_GPIO13.
Definition PLUG_WIFI_LED_IO_MUX : Z := PERIPHS_IO_MUX_GPIO0_U.
Definition PLUG_WIFI_LED_IO_NUM : Z := 0.
Definition PLUG_WIFI_LED_IO_FUNC : Z := FUNC_GPIO0.
Definition PLUG_LINK_LED_IO_MUX : Z := PERIPHS_IO_MUX_MTDI_U.
Definition PLUG_LINK_LED_IO_NUM : Z := 12.
Definition PLUG_LINK_LED_IO_FUNC : Z := FUNC_GPIO12.
Definition PLUG_RELAY_LED_IO_MUX : Z := PERIPHS_IO_MUX_MTDO_U.
Definition PLUG_RELAY_LED_IO_NUM : Z := 15.
Definition PLUG_RELAY_LED_IO_FUNC : Z := FUNC_GPIO15.

(** [plug_param] is the four bytes of [struct plug_saved_param]; its first is [status]. *)
Record plug_vars := mk_plug { plug_param : list Z; link_led_level : Z }.
#[export] Instance eta_plug : Settable plug_vars := λ v, mk_plug (plug_param v) (link_led_level v).
Definition plug_initial : plug_vars := mk_plug [0; 0; 0; 0] 0.
Definition plug_addr : Z := (PRIV_PARAM_START_SEC + PRIV_PARAM_SAVE) * SPI_FLASH_SEC_SIZE.

Section Plug.
Context `{Env} `{Flash} {X : Type} `{PP : Part X plug_vars} `{PK : Part X keys_param}.

Definition PLUG_STATUS_OUTPUT (pin on : Z) : F X unit := GPIO_OUTPUT_SET pin on.

Definition user_plug_get_status : F X Z := p <- pvar plug_param ;; slift (rd p 0).

(** [status] is a [bool], an unsigned char of the SDK. *)
Definition user_plug_set_status (status : Z) : F X unit :=
  old <- user_plug_get_status ;;
  swhen (negb (status =? old)) (
    if 1 <? status then call (os_printf "error status input!\n")
    else
      p <- pvar plug_param ;; p <- slift (wr p 0 status) ;;
      pmodify (λ v, v <| plug_param := p |>) ;;
      PLUG_STATUS_OUTPUT PLUG_RELAY_LED_IO_NUM status).

Definition user_plug_short_press : F X unit :=
  old <- user_plug_get_status ;;
  user_plug_set_status (Z.land (Z.lnot old) 0x01) ;;
  call (spi_flash_erase_sector (PRIV_PARAM_START_SEC + PRIV_PARAM_SAVE)) ;;
  p <- pvar plug_param ;;
  call (spi_flash_write plug_addr p).

Definition user_plug_long_press (user_esp_platform_set_active : Z -> F X unit) : F X unit :=
  user_esp_platform_set_active 0 ;;
  call system_restore ;;
  call system_restart.

Definition user_link_led_init : F X unit := PIN_FUNC_SELECT PLUG_LINK_LED_IO_MUX PLUG_LINK_LED_IO_FUNC.

Definition user_link_led_output (level : Z) : F X unit := GPIO_OUTPUT_SET (GPIO_ID_PIN PLUG_LINK_LED_IO_NUM) level.

Definition user_link_led_timer_cb : F X unit :=
  pmodify (λ v, v <| link_led_level := Z.land (Z.lnot (link_led_level v)) 0x01 |>) ;;
  l <- pvar link_led_level ;;
  GPIO_OUTPUT_SET (GPIO_ID_PIN PLUG_LINK_LED_IO_NUM) l.

Definition user_link_led_timer_init : F X unit :=
  call (os_timer_disarm link_led_timer) ;;
  call (os_timer_setfn link_led_timer fp_user_link_led_timer_cb) ;;
  call (os_timer_arm link_led_timer 50 1) ;;
  pmodify (λ v, v <| link_led_level := 0 |>) ;;
  GPIO_OUTPUT_SET (GPIO_ID_PIN PLUG_LINK_LED_IO_NUM) 0.

Definition user_link_led_timer_done : F X unit :=
  call (os_timer_disarm link_led_timer) ;;
  GPIO_OUTPUT_SET (GPIO_ID_PIN PLUG_LINK_LED_IO_NUM) 0.

Definition user_plug_init : F X unit :=
  user_link_led_init ;;
  call (wifi_status_led_install PLUG_WIFI_LED_IO_NUM PLUG_WIFI_LED_IO_MUX PLUG_WIFI_LED_IO_FUNC) ;;
  pmodify (λ _, mk_keys PLUG_KEY_NUM
    [key_init_single PLUG_KEY_0_IO_NUM PLUG_KEY_0_IO_MUX PLUG_KEY_0_IO_FUNC
       (Some fp_user_plug_long_press) (Some fp_user_plug_short_press)]) ;;
  key_init ;;
  b <- spi_flash_read plug_addr 4 ;;
  pmodify (λ v, v <| plug_param := b |>) ;;
  PIN_FUNC_SELECT PLUG_RELAY_LED_IO_MUX PLUG_RELAY_LED_IO_FUNC ;;
  status <- user_plug_get_status ;;
  swhen (status =? 0xff) (
    p <- pvar plug_param ;; p <- slift (wr p 0 1) ;; pmodify (λ v, v <| plug_param := p |>)) ;;
  status <- user_plug_get_status ;;
  PLUG_STATUS_OUTPUT PLUG_RELAY_LED_IO_NUM status.
End Plug.

(** ** The relay and the flash *)

(** Where the output of the relay stands after the calls so far. *)
Definition relay_step (b : bool) (e : event) : bool :=
  match e with
  | Do (gpio_output_set set_mask clear_mask _ _) =>
      if Z.testbit set_mask PLUG_RELAY_LED_IO_NUM then true
      else if Z.testbit clear_mask PLUG_RELAY_LED_IO_NUM then false else b
  | _ => b
  end.
Definition relay (l : list event) : bool := fold_left relay_step l false.

Lemma relay_set l v : v = 0 \/ v = 1 ->
  relay (l ++ [Do (gpio_output_set (Z.shiftl v PLUG_RELAY_LED_IO_NUM)
    (Z.shiftl (Z.land (Z.lnot v) 0x01) PLUG_RELAY_LED_IO_NUM) (Z.shiftl 1 PLUG_RELAY_LED_IO_NUM) 0)]) = (v =? 1).
Proof. unfold relay. rewrite fold_left_app. by intros [-> | ->]. Qed.

Definition no_flash (e : event) : Prop := flash_sector e = None.
Lemma flash_same `{!Flash} `{!NorFlash} l k sec a n : in_sector sec a n -> Forall no_flash k -> spi_flash (l ++ k) a n = spi_flash l a n.
Proof.
  intros Hs Hk. induction k as [|e k IH] using rev_ind; [by rewrite app_nil_r|]. apply Forall_app in Hk as [Hk He].
  apply Forall_cons_1 in He as [He _]. assert (Hne : flash_sector e <> Some sec) by (unfold no_flash in He; by rewrite He).
  rewrite app_assoc, (flash_other _ _ _ _ _ Hs Hne); [by apply IH|]. intros a' d ->. done.
Qed.

Section Laws.
Context `{Env} `{!Flash} `{!NorFlash} {X : Type} `{PP : Part X plug_vars} `{PK : Part X keys_param}.
Implicit Types s : sys X.

Definition param s : list Z := plug_param (part (st s)).
Definition status_of s : Z := nthZ (param s) 0.
Definition plug_ok s : Prop := zlen (param s) = 4 /\ Forall is_byte (param s) /\ (status_of s = 0 \/ status_of s = 1).

Lemma plug_in_sector n : 0 <= n <= 4096 -> in_sector (PRIV_PARAM_START_SEC + PRIV_PARAM_SAVE) plug_addr n.
Proof. unfold in_sector, plug_addr, SPI_FLASH_SEC_SIZE, PRIV_PARAM_START_SEC, PRIV_PARAM_SAVE. lia. Qed.

Lemma wp_status s (Q : Z -> sys X -> Prop) : zlen (param s) = 4 -> Q (status_of s) s -> wp user_plug_get_status s Q.
Proof. intros Hz HQ. apply wp_bind, wp_pvar, (wp_lift _ (status_of s)); [apply rd_Some; fold (param s); lia|done]. Qed.

Lemma set_status_ok v s : plug_ok s -> v = 0 \/ v = 1 -> wp (user_plug_set_status v) s (λ _ s', plug_ok s' /\
  status_of s' = v /\ exists k, log s' = log s ++ k /\ Forall no_flash k /\ (relay (log s) = (status_of s =? 1) -> relay (log s') = (v =? 1))).
Proof.
  intros (Hz & Hb & Hs) Hv. apply wp_bind, wp_status; [done|]. apply wp_when; intros E.
  - zfalse (1 <? v). apply wp_bind, wp_pvar, wp_bind. fold (param s).
    destruct (wr_Some (param s) 0 v) as (b & Eb & Zb & Nb); [lia|]. apply (wp_lift _ b); [exact Eb|].
    apply wp_bind, wp_pmodify. unfold PLUG_STATUS_OUTPUT, GPIO_OUTPUT_SET. apply wp_call. cbn [log mem st].
    unfold plug_ok, status_of, param. cbn [st]. rewrite part_set. cbn [plug_param set_field].
    rewrite Nb by lia. cbn [Z.eqb]. split; [split; [lia|split; [|done]]|split; [done|]].
    + eapply bsplice_bytes; [exact Hb| |exact Eb]. apply Forall_singleton. unfold is_byte. lia.
    + eexists. split; [done|]. split; [by apply Forall_singleton|]. intros _. by apply relay_set.
  - apply negb_false_iff, Z.eqb_eq in E. subst v. split; [done|]. split; [done|]. exists []. rewrite app_nil_r. by repeat split.
Qed.

(** the plug remembers.  A press of the button toggles the relay and the
    state in flash, and when the device starts again, with whatever its variables
    hold, [user_plug_init] drives the relay with that state. *)
Theorem plug_state_survives s :
  plug_ok s -> relay (log s) = (status_of s =? 1) ->
  wp user_plug_short_press s (λ _ s1, relay (log s1) = negb (relay (log s)) /\
    forall s2, log s2 = log s1 -> wp user_plug_init s2 (λ _ s3, relay (log s3) = relay (log s1) /\ param s3 = param s1)).
Proof.
  intros Hok Hr. pose proof Hok as (Hz & Hb & Hs). unfold user_plug_short_press. apply wp_bind, wp_status; [done|].
  assert (Hnew : Z.land (Z.lnot (status_of s)) 0x01 = 1 - status_of s) by (destruct Hs as [-> | ->]; done). rewrite Hnew.
  apply wp_bind. eapply wp_mono; [apply set_status_ok; [done|lia]|].
  intros [] s1 (Hok1 & Hs1 & k1 & Hl1 & _ & Hr1). specialize (Hr1 Hr). pose proof Hok1 as (Hz1 & Hb1 & _).
  apply wp_bind, wp_call, wp_bind, wp_pvar, wp_call. cbn [log mem st]. fold (param s1).
  assert (Hfl : spi_flash ((log s1 ++ [Do (spi_flash_erase_sector (PRIV_PARAM_START_SEC + PRIV_PARAM_SAVE))]) ++
    [Do (spi_flash_write plug_addr (param s1))]) plug_addr 4 = param s1).
  { rewrite <- Hz1. assert (Esec : plug_addr / SPI_FLASH_SEC_SIZE = PRIV_PARAM_START_SEC + PRIV_PARAM_SAVE) by reflexivity.
    apply flash_written; [rewrite Esec; apply plug_in_sector; lia|done|].
    rewrite flash_erased by (apply plug_in_sector; lia). unfold zlen. by rewrite Nat2Z.id. }
  set (l1 := (log s1 ++ _) ++ _) in *.
  assert (Hrl : relay l1 = (1 - status_of s =? 1)) by (unfold l1, relay in *; rewrite !fold_left_app; exact Hr1).
  split; [rewrite Hrl, Hr; by destruct Hs as [-> | ->]|]. intros s2 Hl2.
  unfold user_plug_init, user_link_led_init, key_init. unfold PIN_FUNC_SELECT at 1. apply wp_bind, wp_bind, wp_read, wp_write.
  apply wp_bind, wp_call, wp_bind, wp_pmodify, wp_bind, wp_bind, wp_call, wp_bind, wp_call, wp_bind, wp_pvar. cbn [log mem st].
  rewrite part_set. cbn [key_num]. change (seqZ 0 PLUG_KEY_NUM) with [0]. cbn [sfor].
  apply wp_bind, wp_bind, wp_bind. unfold the_key at 1. apply wp_bind, wp_pvar. cbn [log mem st]. rewrite part_set. cbn [single_key].
  eapply wp_lift; [reflexivity|]. apply wp_bind, wp_pmodify, wp_bind. unfold PIN_FUNC_SELECT at 1. apply wp_bind, wp_read, wp_write.
  cbn [log mem st]. apply wp_bind, wp_call, wp_bind, wp_call, wp_bind, wp_write. cbn [log mem st].
  apply wp_call. cbn [log mem st]. apply wp_ret, wp_call. cbn [log mem st].
  unfold spi_flash_read. apply wp_bind, wp_bind, wp_get. cbn [log mem st]. apply wp_ret.
  match goal with |- wp _ {| log := ?L; mem := _; st := _ |} _ => set (lr := L) end.
  assert (Hlr : exists k, lr = l1 ++ k /\ Forall no_flash k /\ relay lr = relay l1).
  { eexists. split; [unfold lr; rewrite Hl2; cbn [log]; rewrite <- !app_assoc; reflexivity|]. split; [by repeat (apply Forall_cons_2; [done|])|].
    unfold relay. unfold lr. rewrite Hl2. cbn [log]. by rewrite !fold_left_app. }
  destruct Hlr as (k & Hlk & Hk & Hrk).
  assert (Hread : spi_flash lr plug_addr 4 = param s1).
  { rewrite Hlk, (flash_same _ _ (PRIV_PARAM_START_SEC + PRIV_PARAM_SAVE)); [done|apply plug_in_sector; lia|done]. }
  rewrite Hread. apply wp_bind, wp_pmodify, wp_bind, wp_bind, wp_read, wp_write. cbn [log mem st].
  match goal with |- wp _ ?S _ => set (sr := S) end.
  assert (Hsr : param sr = param s1) by (unfold param, sr; cbn [st]; by rewrite part_set).
  assert (Hstat : status_of sr = 1 - status_of s) by (unfold status_of at 1; rewrite Hsr; exact Hs1).
  apply wp_bind, wp_status; [by rewrite Hsr|]. rewrite Hstat. zfalse (1 - status_of s =? 255). apply wp_bind, wp_ret.
  apply wp_bind, wp_status; [by rewrite Hsr|]. rewrite Hstat. apply wp_call. cbn [log mem st]. split.
  - rewrite Hrl. apply relay_set. lia.
  - unfold param in Hsr |- *. cbn [st]. exact Hsr.
Qed.
End Laws.

(** ** The theorem at a concrete input *)

Definition plug_parts : Type := plug_vars * keys_param.
Instance plug_part_vars : Part plug_parts plug_vars.
Proof. refine (mk_part plug_parts plug_vars fst (λ y x, (y, snd x)) _ _ _); [done|done|by intros []]. Defined.
Instance plug_part_keys : Part plug_parts keys_param.
Proof. refine (mk_part plug_parts keys_param snd (λ y x, (fst x, y)) _ _ _); [done|done|by intros []]. Defined.
Definition plugged_in : sys plug_parts := mk_sys [] ∅ (plug_initial, mk_keys 0 []).

Lemma plug_state_survives_witness :
  wp (@user_plug_short_press plug_parts _) plugged_in (λ _ s1, relay (log s1) = true /\
    wp (@user_plug_init released nor_flash plug_parts _ _) (mk_sys (log s1) ∅ (plug_initial, mk_keys 0 []))
      (λ _ s3, relay (log s3) = true)).
Proof.
  destruct (@plug_state_survives released nor_flash nor_laws plug_parts _ _ plugged_in) as ([] & s1 & E & Hr & Hinit).
  - split; [reflexivity|]. split; [bytes_tac|left; reflexivity].
  - reflexivity.
  - exists tt, s1. split; [exact E|]. change (relay (log s1) = true) in Hr. split; [exact Hr|].
    destruct (Hinit (mk_sys (log s1) ∅ (plug_initial, mk_keys 0 [])) eq_refl) as ([] & s3 & E3 & H3 & _).
    exists tt, s3. split; [exact E3|]. congruence.
Defined.
