(* ===== verification/IotTimer.v ===== *)
(** * IotTimer: the timers of the IoT demo

    IoT_Demo/user/user_esp_platform_timer.c: the server sends the time and a
    list of timers as text; the device computes which of them is due first, waits
    with one SDK timer, performs the actions and starts over.  [PLUG_DEVICE] is
    the compile-time switch.  [os_zalloc] gives a block of zeros; the blocks of
    the code are never shared and are modelled as values, but for [pwait_action],
    whose address the SDK timer keeps. *)

From Stdlib Require Import String.
From stdpp Require Import gmap.
From S2P Require Import Prelude CMem CString Board UartDriver Keys IotPlug.
Local Open Scope string_scope.
Local Open Scope Z_scope.
Local Open Scope sm_scope.
Local Open Scope list_scope.

(** [struct esp_platform_wait_timer_param]; [wait_time_param] has 11 bytes, [wait_action] 15. *)
Record esp_platform_wait_timer_param := mk_timer {
  wait_time_param : list Z; wait_action : list Z; wait_time_second : Z }.
(** [struct wait_param]; [action] has 20 rows of 15 bytes. *)
Record wait_param := mk_wait { action : list (list Z); action_number : Z; count : Z; min_time_backup : Z }.
#[export] Instance eta_wait_timer : Settable esp_platform_wait_timer_param :=
  λ v, mk_timer (wait_time_param v) (wait_action v) (wait_time_second v).
#[export] Instance eta_wait : Settable wait_param := λ v, mk_wait (action v) (action_number v) (count v) (min_time_backup v).
Definition zero_timer : esp_platform_wait_timer_param := mk_timer (replicate 11 0) (replicate 15 0) 0.
Definition zero_wait : wait_param := mk_wait (replicate 20 (replicate 15 0)) 0 0 0.

(** The variables of the file; [timer_arg] is the argument that [device_timer]
    carries; [objects] holds the local variables whose address is taken, for as
    long as they live. *)
Record timer_vars := mk_timers {
  min_wait_second : Z; timestamp_str : list Z; timestamp : Z; timer_splits : list (option (list Z));
  timer_arg : option positive; objects : gmap positive wait_param }.
#[export] Instance eta_timers : Settable timer_vars := λ v,
  mk_timers (min_wait_second v) (timestamp_str v) (timestamp v) (timer_splits v) (timer_arg v) (objects v).
Definition timer_initial : timer_vars := mk_timers 0 (replicate 11 0) 0 (replicate 20 None) None ∅.

(** ** Strings *)

(** [indexof( p1, p2, start )]; [p1 + start] beyond the end of the string is undefined. *)
Definition indexof (p1 p2 : list Z) (start : Z) : option Z :=
  if (0 <=? start) && (start <=? zlen p1) then
    Some match strstr (drop (Z.to_nat start) p1) p2 with Some find => start + find | None => -1 end
  else None.

(** The string that [split] puts into a block of 100 bytes. *)
Definition piece (p1 : list Z) (start len : Z) : option (list Z) :=
  s ← bslice p1 start len;
  b ← bsplice (replicate 100 0) 0 s;
  b ← wr b len 0;
  Some s.

(** The loop of [split], the pieces so far in [splits], an array of [slots]. *)
Fixpoint split_from (fuel : nat) (p1 p2 : list Z) (slots : Z) (splits : list (list Z)) (i : Z) : option (list (list Z)) :=
  match fuel with
  | O => None
  | S fuel =>
      e ← indexof p1 p2 i;
      let e := if e =? -1 then zlen p1 else e in
      p ← piece p1 i (e - i);
      if zlen splits <? slots then
        let splits := splits ++ [p] in
        let i := e + 1 in
        if zlen p1 <? i then Some splits else split_from fuel p1 p2 slots splits i
      else None
  end.
(** Every round moves [i] on; the result of the code is the number of pieces. *)
Definition split (p1 p2 : list Z) (slots : Z) : option (list (list Z)) := split_from (S (length p1)) p1 p2 slots [] 0.

(** ** One timer *)

Definition SEP : list Z := [59].
Definition EQUALS : list Z := [61].
Definition WEEK : Z := 7 * 24 * 3600.

(** The part the three modes share: split at "=", copy the two members. *)
Definition timer_members (str : list Z) : option esp_platform_wait_timer_param :=
  w ← split str EQUALS 2;
  w0 ← w !! 0%nat;
  t ← bsplice (wait_time_param zero_timer) 0 (drop 1 w0);
  w1 ← w !! 1%nat;
  a ← bsplice (wait_action zero_timer) 0 w1;
  Some (mk_timer t a 0).

Definition fixed_timer (now : Z) (str : list Z) : option esp_platform_wait_timer_param :=
  p ← timer_members str;
  n ← atoi (wait_time_param p);
  t ← int_ok (n - now);
  Some (p <| wait_time_second := t |>).

(** [timestamp % n] is undefined for [n = 0]. *)
Definition loop_timer (now : Z) (str : list Z) : option esp_platform_wait_timer_param :=
  p ← timer_members str;
  n ← atoi (wait_time_param p);
  if n =? 0 then None else
  t ← int_ok (n - Z.rem now n);
  Some (p <| wait_time_second := t |>).

Definition week_timer (now : Z) (str : list Z) : option esp_platform_wait_timer_param :=
  p ← timer_members str;
  d ← int_ok (now - 1388937600);
  let monday_wait_time := Z.rem d WEEK in
  n ← atoi (wait_time_param p);
  t ← (if monday_wait_time <? n then int_ok (n - monday_wait_time)
       else int_ok (WEEK - monday_wait_time + n));
  Some (p <| wait_time_second := t |>).

(** One round of the loop of [user_platform_timer_first_start]. *)
Definition start_timer (now : Z) (str : list Z) : option esp_platform_wait_timer_param :=
  f ← indexof str (chars "f") 0;
  if f =? 0 then fixed_timer now str else
  l ← indexof str (chars "l") 0;
  if l =? 0 then loop_timer now str else
  w ← indexof str (chars "w") 0;
  if w =? 0 then week_timer now str else Some zero_timer.

(** [esp_platform_find_min_time]: the comparison is unsigned. *)
Definition min_time (l : list esp_platform_wait_timer_param) : Z :=
  fold_left (λ m p, if (u32 (wait_time_second p) <? m) && (0 <=? wait_time_second p) then u32 (wait_time_second p) else m)
    l 0xFFFFFFF.

(** The loop of [esp_platform_timer_action]. *)
Fixpoint collect (min : Z) (l : list esp_platform_wait_timer_param) (a : list (list Z)) (n : Z) : option (list (list Z) * Z) :=
  match l with
  | [] => Some (a, n)
  | p :: l =>
      if u32 (wait_time_second p) =? min then
        row ← a !! Z.to_nat n;
        s ← string_of (wait_action p);
        row ← bsplice row 0 s;
        collect min l (<[Z.to_nat n := row]> a) (u16 (n + 1))
      else collect min l a n
  end.

Section Timer.
Context `{Env} {X : Type} `{PT : Part X timer_vars} `{PP : Part X plug_vars} (PLUG_DEVICE : bool).

Definition esp_platform_find_min_time (l : list esp_platform_wait_timer_param) : F X unit :=
  pmodify (λ v, v <| min_wait_second := min_time l |>).

(** [*pwait_action]: undefined once the object is gone. *)
Definition the_wait (p : positive) : F X wait_param := o <- pvar objects ;; slift (o !! p).

Definition user_esp_platform_wait_time_overflow_check (p : positive) : F X unit :=
  call (os_printf "min_wait_second = %d") ;;
  w <- the_wait p ;;
  (if 3600 <=? min_time_backup w then
     call (os_timer_disarm device_timer) ;;
     call (os_timer_setfn device_timer fp_wait_time_overflow_check) ;;
     pmodify (λ v, v <| timer_arg := Some p |>) ;;
     call (os_timer_arm device_timer 3600000 0) ;;
     call (os_printf "min_wait_second is extended\n")
   else
     call (os_timer_disarm device_timer) ;;
     call (os_timer_setfn device_timer fp_device_action) ;;
     pmodify (λ v, v <| timer_arg := Some p |>) ;;
     call (os_timer_arm device_timer (u32 (min_time_backup w * 1000)) 0) ;;
     call (os_printf "min_wait_second is = %dms\n")) ;;
  pmodify (λ v, v <| objects := <[p := w <| min_time_backup := u32 (min_time_backup w - 3600) |>]> (objects v) |>).

(** The local [pwait_action] lives from here to the end of the function. *)
Definition esp_platform_timer_action (l : list esp_platform_wait_timer_param) (n : Z) : F X unit :=
  o <- pvar objects ;;
  let p := fresh (dom o) in
  min <- pvar min_wait_second ;;
  '(a, k) <- slift (collect min l (action zero_wait) 0) ;;
  pmodify (λ v, v <| objects := <[p := mk_wait a k n min]> (objects v) |>) ;;
  user_esp_platform_wait_time_overflow_check p ;;
  pmodify (λ v, v <| objects := delete p (objects v) |>).

(** The loop over the timers: [timer_splits[i]] must point to a string. *)
Fixpoint start_timers (now : Z) (l : list Z) : F X (list esp_platform_wait_timer_param) :=
  match l with
  | [] => sret []
  | i :: l =>
      s <- pvar timer_splits ;; s <- slift (s !! Z.to_nat i) ;; str <- slift s ;;
      p <- slift (start_timer now str) ;;
      r <- start_timers now l ;;
      sret (p :: r)
  end.

Definition user_platform_timer_first_start (n : Z) : F X unit :=
  call (os_printf "current timestamp= %ds\n") ;;
  pmodify (λ v, v <| timestamp := i32 (timestamp v + min_wait_second v) |>) ;;
  now <- pvar timestamp ;;
  l <- start_timers now (seqZ 0 n) ;;
  esp_platform_find_min_time l ;;
  min <- pvar min_wait_second ;;
  if min =? 0 then sret tt else esp_platform_timer_action l n.

(** The loop of [user_esp_platform_device_action]; the result says whether it
    ran to its end ([return] inside it leaves the function). *)
Fixpoint perform (l : list Z) (a : list (list Z)) : F X bool :=
  match l with
  | [] => sret true
  | i :: l =>
      row <- slift (a !! Z.to_nat i) ;;
      c <- slift (rd row 0) ;;
      if c =? 48 then sret true else
      s <- slift (string_of row) ;;
      if bool_decide (s = chars "on_switch") then user_plug_set_status 1 ;; perform l a
      else if bool_decide (s = chars "off_switch") then user_plug_set_status 0 ;; perform l a
      else if bool_decide (s = chars "on_off_switch") then
        st <- user_plug_get_status ;;
        user_plug_set_status (if st =? 0 then 1 else 0) ;;
        perform l a
      else sret false
  end.

Definition user_esp_platform_device_action (p : positive) : F X unit :=
  w <- the_wait p ;;
  call (os_printf "there is %d action at the same time\n") ;;
  swhen PLUG_DEVICE (
    go_on <- perform (seqZ 0 (action_number w)) (action w) ;;
    swhen go_on (user_platform_timer_first_start (count w))).

(** The function [device_timer] calls when it expires. *)
Definition device_timer_fires (f : fn) : F X unit :=
  arg <- pvar timer_arg ;; p <- slift arg ;;
  match f with
  | fp_wait_time_overflow_check => user_esp_platform_wait_time_overflow_check p
  | fp_device_action => user_esp_platform_device_action p
  | _ => slift None
  end.

(** ** The message of the server *)

Definition TIMESTAMP_KEY : list Z := [34] ++ chars "timestamp" ++ [34; 58].
Definition TIMERS_KEY : list Z := [34] ++ chars "timers" ++ [34; 58; 32; 34].

(** The time stamp: the text between the key and the next comma. *)
Definition read_timestamp (pbuffer : list Z) : F X unit :=
  match strstr pbuffer TIMESTAMP_KEY with
  | Some k =>
      let pstr_start := k + 13 in
      stop <- slift (indexof pbuffer (chars ",") pstr_start) ;;
      s <- slift (bslice pbuffer pstr_start (stop - pstr_start)) ;;
      b <- pvar timestamp_str ;; b <- slift (bsplice b 0 s) ;;
      pmodify (λ v, v <| timestamp_str := b |>) ;;
      t <- slift (atoi b) ;;
      pmodify (λ v, v <| timestamp := t |>)
  | None => sret tt
  end.

Definition user_platform_timer_start (pbuffer : list Z) : F X unit :=
  pmodify (λ v, v <| min_wait_second := 0 |>) ;;
  read_timestamp pbuffer ;;
  pmodify (λ v, v <| timer_splits := replicate 20 None |>) ;;
  match strstr pbuffer TIMERS_KEY with
  | Some k =>
      let pstr_start := drop (Z.to_nat k) pbuffer in
      let str_begin := 11 in
      str_end <- slift (indexof pstr_start [34] str_begin) ;;
      if str_begin =? str_end then call (os_timer_disarm device_timer)
      else
        split_buffer <- slift (bslice pstr_start str_begin (str_end - str_begin)) ;;
        l <- slift (split split_buffer SEP 20) ;;
        pmodify (λ v, v <| timer_splits := (Some <$> l) ++ drop (length l) (timer_splits v) |>) ;;
        user_platform_timer_first_start (u16 (zlen l))
  | None => sret tt
  end.
End Timer.

(** ** Splitting undoes joining *)

Fixpoint join (c : Z) (l : list (list Z)) : list Z :=
  match l with [] => [] | [x] => x | x :: l => x ++ c :: join c l end.

Lemma piece_mid a x b : zlen x < 100 -> piece (a ++ x ++ b) (zlen a) (zlen x) = Some x.
Proof.
  intros Hx. unfold piece. pose proof (zlen_nonneg a). pose proof (zlen_nonneg x). pose proof (zlen_nonneg b).
  rewrite bslice_Some by zlia. rewrite tab_app_mid by done. cbn [mbind option_bind].
  destruct (bsplice_Some (replicate (Z.to_nat 100) 0) 0 x) as (b1 & E1 & Z1 & _); [lia|zlia|].
  change (Z.to_nat 100) with 100%nat in E1. rewrite E1. cbn [mbind option_bind].
  rewrite zlen_replicate in Z1. destruct (wr_total b1 (zlen x) 0) as [b2 ->]; [lia|]. done.
Qed.

Lemma split_from_join c parts slots : parts ≠ [] -> Forall (no_char c) parts -> Forall (λ x, zlen x < 100) parts ->
  forall fuel pre acc, (length parts <= fuel)%nat -> zlen acc + zlen parts <= slots ->
  split_from fuel (pre ++ join c parts) [c] slots acc (zlen pre) = Some (acc ++ parts).
Proof.
  intros Hne Hc Hl. induction parts as [|x parts IH]; [done|]. clear Hne.
  apply Forall_cons_1 in Hc as [Hx Hc]. apply Forall_cons_1 in Hl as [Hlx Hl].
  intros [|fuel] pre acc Hf Hs; [cbn in Hf; lia|]. cbn [split_from]. unfold indexof.
  pose proof (zlen_nonneg pre). pose proof (zlen_nonneg x). pose proof (zlen_nonneg parts). rewrite zlen_cons in Hs.
  ztrue (0 <=? zlen pre). destruct parts as [|y parts].
  - cbn [join]. rewrite (zlen_app pre x). ztrue (zlen pre <=? zlen pre + zlen x). cbn [andb]. rewrite drop_zlen_app.
    rewrite strstr_char_none by done. cbn [mbind option_bind].
    change (-1 =? -1) with true. cbv iota zeta. replace (zlen pre + zlen x - zlen pre) with (zlen x) by lia.
    rewrite <- (app_nil_r x) at 1. rewrite piece_mid by done. cbn [mbind option_bind].
    ztrue (zlen acc <? slots). by ztrue (zlen pre + zlen x <? zlen pre + zlen x + 1).
  - change (join c (x :: y :: parts)) with (x ++ c :: join c (y :: parts)).
    set (p1 := pre ++ x ++ c :: join c (y :: parts)). pose proof (zlen_nonneg (join c (y :: parts))).
    assert (Hz : zlen p1 = zlen pre + zlen x + 1 + zlen (join c (y :: parts))) by (unfold p1; zlia).
    ztrue (zlen pre <=? zlen p1). cbn [andb].
    assert (Hd : drop (Z.to_nat (zlen pre)) p1 = x ++ c :: join c (y :: parts)) by apply drop_zlen_app.
    assert (Hp : piece p1 (zlen pre) (zlen x) = Some x) by (by apply piece_mid). rewrite Hd, strstr_char by done.
    cbn [mbind option_bind]. zfalse (zlen pre + zlen x =? -1). cbv zeta.
    replace (zlen pre + zlen x - zlen pre) with (zlen x) by lia. rewrite Hp.
    cbn [mbind option_bind]. ztrue (zlen acc <? slots). zfalse (zlen p1 <? zlen pre + zlen x + 1).
    assert (Hp1 : p1 = (pre ++ x ++ [c]) ++ join c (y :: parts)) by (unfold p1; by rewrite <- !app_assoc).
    replace (zlen pre + zlen x + 1) with (zlen (pre ++ x ++ [c])) by zlia. rewrite Hp1.
    rewrite IH; [by rewrite <- app_assoc|done|done|done|cbn in *; lia|zlia; lia].
Qed.

Lemma join_length c parts : (length parts <= S (length (join c parts)))%nat.
Proof.
  induction parts as [|x parts IH]; [cbn; lia|]. destruct parts as [|y parts]; [cbn; lia|].
  change (join c (x :: y :: parts)) with (x ++ c :: join c (y :: parts)). rewrite length_app. cbn [length] in *. lia.
Qed.

(** [split] undoes the joining of any pieces that do not contain the
    separator, have less than 100 characters and fit into the array. *)
Theorem split_join c parts slots :
  parts ≠ [] -> Forall (no_char c) parts -> Forall (λ x, zlen x < 100) parts -> zlen parts <= slots ->
  split (join c parts) [c] slots = Some parts.
Proof.
  intros Hne Hc Hl Hs. unfold split. apply (split_from_join c parts slots Hne Hc Hl _ [] []); [apply join_length|done].
Qed.

(** ** The timers the server describes *)

Inductive mode := Fixed | Loop | Weekly.
Record timer_spec := mk_spec { sp_mode : mode; sp_seconds : Z; sp_action : list Z }.

Definition letter (m : mode) : Z := match m with Fixed => 102 | Loop => 108 | Weekly => 119 end.
Definition print_timer (t : timer_spec) : list Z := (letter (sp_mode t) :: decimal (sp_seconds t)) ++ 61 :: sp_action t.
Definition print_timers (ts : list timer_spec) : list Z := join 59 (print_timer <$> ts).

(** Monday, 0:00, in the server's time zone. *)
Definition MONDAY : Z := 1388937600.

(** Seconds from [now] until the timer is due. *)
Definition due (now : Z) (t : timer_spec) : Z :=
  match sp_mode t with
  | Fixed => sp_seconds t - now
  | Loop => sp_seconds t - now mod sp_seconds t
  | Weekly =>
      let m := (now - MONDAY) mod WEEK in
      if m <? sp_seconds t then sp_seconds t - m else WEEK - m + sp_seconds t
  end.

Definition good_timer (t : timer_spec) : Prop :=
  0 <= sp_seconds t < 2147483648 /\
  match sp_mode t with Fixed => True | Loop => 0 < sp_seconds t | Weekly => sp_seconds t < WEEK end /\
  no_char 61 (sp_action t) /\ no_char 59 (sp_action t) /\ no_char 0 (sp_action t) /\ zlen (sp_action t) <= 14.
Definition good_time (now : Z) : Prop := MONDAY <= now < 2147483648.

(** What [due] means: a fixed timer is due at its second; a loop timer at the
    next multiple of its period; a weekly timer at the next moment of the week
    it names. *)
Lemma due_spec now t :
  good_timer t -> good_time now ->
  match sp_mode t with
  | Fixed => now + due now t = sp_seconds t
  | Loop => (now + due now t) mod sp_seconds t = 0 /\ 0 < due now t /\
      forall d, 0 < d < due now t -> (now + d) mod sp_seconds t ≠ 0
  | Weekly => (now + due now t - MONDAY) mod WEEK = sp_seconds t /\ 0 < due now t /\
      forall d, 0 < d < due now t -> (now + d - MONDAY) mod WEEK ≠ sp_seconds t
  end.
Proof.
  intros (Hs & Hm & _) Hn. unfold due. destruct (sp_mode t); [lia| |].
  - set (p := sp_seconds t) in *. pose proof (Z.mod_pos_bound now p Hm) as B. pose proof (Z.div_mod now p ltac:(lia)) as D.
    split; [|split; [lia|]].
    + replace (now + (p - now mod p)) with ((now / p + 1) * p) by lia. apply Z.mod_mul. lia.
    + intros d Hd E. assert (E2 : (now + d) mod p = now mod p + d).
      { symmetry. apply Z.mod_unique with (now / p); lia. }
      lia.
  - unfold WEEK, MONDAY in *. set (w := sp_seconds t) in *. cbv zeta. change (7 * 24 * 3600) with 604800 in *.
    destruct (Z.ltb_spec ((now - 1388937600) mod 604800) w); (split; [dlia|]; split; [dlia|]; intros d Hd; dlia).
Qed.

Lemma due_range now t : good_timer t -> good_time now -> -2147483648 <= due now t < 2147483648.
Proof.
  intros (Hs & Hm & _) Hn. unfold due, good_time, MONDAY, WEEK in *. destruct (sp_mode t); [lia| |].
  - pose proof (Z.mod_pos_bound now (sp_seconds t) Hm). lia.
  - change (7 * 24 * 3600) with 604800 in *. cbv zeta.
    pose proof (Z.mod_pos_bound (now - 1388937600) 604800 ltac:(lia)). zbool; lia.
Qed.

(** The first character decides. *)
Lemma indexof_first c x s : exists e, indexof (x :: s) [c] 0 = Some e /\ (e =? 0) = (c =? x).
Proof.
  unfold indexof. pose proof (zlen_nonneg (x :: s)). change (0 <=? 0) with true. ztrue (0 <=? zlen (x :: s)). cbn [andb drop Z.to_nat].
  eexists. split; [done|]. change (drop (Z.to_nat 0) (x :: s)) with (x :: s).
  cbn [strstr starts_with]. destruct (c =? x) eqn:E; [done|]. cbn [andb].
  destruct (strstr s [c]) as [k|] eqn:Ek; cbn [mbind option_bind]; [|done].
  apply strstr_range in Ek as [Ek _]. apply Z.eqb_neq. lia.
Qed.

Lemma members_print t : good_timer t ->
  exists b, timer_members (print_timer t) = Some (mk_timer b (sp_action t ++ replicate (15 - length (sp_action t)) 0) 0) /\
    atoi b = Some (sp_seconds t).
Proof.
  intros (Hs & Hm & H61 & H59 & H0 & Hl). pose proof (decimal_digits 10 (sp_seconds t) ltac:(lia)) as Hd.
  pose proof (decimal_length 10 (sp_seconds t)) as Hdl. fold (decimal (sp_seconds t)) in Hd, Hdl.
  unfold timer_members, print_timer. set (w0 := letter (sp_mode t) :: decimal (sp_seconds t)).
  assert (Es : split (w0 ++ 61 :: sp_action t) EQUALS 2 = Some [w0; sp_action t]).
  { assert (Hc : Forall (no_char 61) [w0; sp_action t]).
    { apply Forall_cons_2; [|by apply Forall_singleton]. apply Forall_cons_2; [by destruct (sp_mode t)|]. by apply isdigit_no_char. }
    assert (Hz : Forall (λ x, zlen x < 100) [w0; sp_action t]).
    { apply Forall_cons_2; [unfold w0; zlia|apply Forall_singleton; lia]. }
    apply (split_from_join 61 [w0; sp_action t] 2 ltac:(done) Hc Hz _ [] []); [unfold w0; cbn; lia|done]. }
  rewrite Es. subst w0. cbn [mbind option_bind lookup list_lookup zero_timer wait_time_param wait_action drop]. rewrite drop_0.
  rewrite bsplice_zeros by lia. cbn [mbind option_bind].
  rewrite bsplice_zeros by lia. cbn [mbind option_bind]. eexists. split; [done|].
  unfold zlen in Hdl. destruct (11 - length (decimal (sp_seconds t)))%nat as [|k] eqn:E; [lia|]. cbn [replicate].
  by apply atoi_decimal.
Qed.

(** The text of one timer is read as what it says. *)
Lemma start_timer_print now t : good_timer t -> good_time now ->
  exists p, start_timer now (print_timer t) = Some p /\ wait_time_second p = due now t /\
    wait_action p = sp_action t ++ replicate (15 - length (sp_action t)) 0.
Proof.
  intros Hg Hn. pose proof (due_range now t Hg Hn) as Hr. destruct (members_print t Hg) as (b & Em & Ea). destruct Hg as (Hs & Hm & _).
  unfold good_time, MONDAY in Hn. unfold start_timer.
  destruct (indexof_first 102 (letter (sp_mode t)) (decimal (sp_seconds t) ++ 61 :: sp_action t)) as (f & Ef & Hf).
  destruct (indexof_first 108 (letter (sp_mode t)) (decimal (sp_seconds t) ++ 61 :: sp_action t)) as (l & El & Hl).
  destruct (indexof_first 119 (letter (sp_mode t)) (decimal (sp_seconds t) ++ 61 :: sp_action t)) as (w & Ew & Hw).
  change (letter (sp_mode t) :: decimal (sp_seconds t) ++ 61 :: sp_action t) with (print_timer t) in *.
  change (chars "f") with [102]. change (chars "l") with [108]. change (chars "w") with [119].
  rewrite Ef. cbn [mbind option_bind]. rewrite Hf, El. cbn [mbind option_bind]. rewrite Hl, Ew. cbn [mbind option_bind]. rewrite Hw.
  unfold due in *. destruct (sp_mode t); cbn [letter Z.eqb Pos.eqb].
  - unfold fixed_timer. rewrite Em. cbn [mbind option_bind wait_time_param]. rewrite Ea. cbn [mbind option_bind].
    rewrite int_ok_small by lia. cbn [mbind option_bind]. by eexists.
  - unfold loop_timer. rewrite Em. cbn [mbind option_bind wait_time_param]. rewrite Ea. cbn [mbind option_bind].
    zfalse (sp_seconds t =? 0). rewrite Z.rem_mod_nonneg by lia. rewrite int_ok_small by lia. cbn [mbind option_bind]. by eexists.
  - unfold week_timer. rewrite Em. cbn [mbind option_bind wait_time_param]. unfold MONDAY in *. rewrite int_ok_small by lia.
    cbn [mbind option_bind]. rewrite Ea. cbn [mbind option_bind]. rewrite Z.rem_mod_nonneg by (unfold WEEK; lia). cbv zeta in Hr.
    destruct (_ <? sp_seconds t); (rewrite int_ok_small by lia); cbn [mbind option_bind]; by eexists.
Qed.

(** ** Which timer is first *)

(** [m] is the shortest wait of the timers that are not over, at most [0xFFFFFFF]. *)
Definition first_due (now : Z) (ts : list timer_spec) (m : Z) : Prop :=
  0 <= m <= 0xFFFFFFF /\ (forall t, In t ts -> 0 <= due now t -> m <= due now t) /\
  (m = 0xFFFFFFF \/ exists t, In t ts /\ due now t = m).

(** What the code knows of the timers. *)
Definition entry (now : Z) (p : esp_platform_wait_timer_param) (t : timer_spec) : Prop :=
  wait_time_second p = due now t /\ -2147483648 <= due now t < 2147483648 /\
  wait_action p = sp_action t ++ replicate (15 - length (sp_action t)) 0 /\ no_char 0 (sp_action t) /\ zlen (sp_action t) <= 14.

Lemma min_time_spec now l ts : Forall2 (entry now) l ts -> first_due now ts (min_time l).
Proof.
  unfold min_time, first_due. intros Hl.
  enough (G : forall m0, 0 <= m0 <= 0xFFFFFFF ->
    let m := fold_left (λ (m : Z) (p : esp_platform_wait_timer_param), if (u32 (wait_time_second p) <? m) && (0 <=? wait_time_second p) then u32 (wait_time_second p) else m) l m0 in
    0 <= m <= m0 /\ (forall t, In t ts -> 0 <= due now t -> m <= due now t) /\ (m = m0 \/ exists t, In t ts /\ due now t = m)).
  { destruct (G 0xFFFFFFF ltac:(lia)) as (A & B & C). split; [lia|]. split; [exact B|exact C]. }
  induction Hl as [|p t l ts (Hw & Hr & _) _ IH]; intros m0 Hm0; cbn [fold_left].
  - split; [lia|]. split; [done|by left].
  - set (m1 := if (u32 (wait_time_second p) <? m0) && (0 <=? wait_time_second p) then u32 (wait_time_second p) else m0).
    assert (Hm1 : 0 <= m1 <= m0 /\ (0 <= due now t -> m1 <= due now t) /\ (m1 = m0 \/ m1 = due now t)).
    { unfold m1. rewrite Hw. destruct (Z.leb_spec 0 (due now t)).
      - rewrite u32_small by lia. zbool; lia.
      - rewrite andb_false_r. lia. }
    destruct (IH m1 ltac:(lia)) as (A & B & C). split; [lia|]. split.
    + intros t' [<-|Ht'] Hd; [lia|by apply B].
    + destruct C as [C|(t' & Ht' & C)]; [|right; exists t'; split; [by right|done]].
      destruct Hm1 as (_ & _ & [E|E]); [left; congruence|right; exists t; split; [by left|congruence]].
Qed.

(** The rows of [pwait_action.action] when [d] are the actions collected. *)
Definition row_of (s : list Z) : list Z := s ++ replicate (15 - length s) 0.
Definition rows (d : list (list Z)) : list (list Z) := (row_of <$> d) ++ replicate (20 - length d) (replicate 15 0).

Lemma collect_spec now min l ts d :
  Forall2 (entry now) l ts -> 0 <= min <= 0xFFFFFFF -> (length d + length ts <= 20)%nat ->
  collect min l (rows d) (zlen d) =
  Some (let d' := d ++ (sp_action <$> filter (λ t, due now t = min) ts) in (rows d', zlen d')).
Proof.
  intros Hl Hmin. revert d. induction Hl as [|p t l ts (Hw & Hr & Ha & H0 & Hz) _ IH]; intros d Hd; cbn [collect].
  { cbn. by rewrite app_nil_r. }
  rewrite filter_cons. assert (Hiff : (u32 (wait_time_second p) =? min) = bool_decide (due now t = min)).
  { rewrite Hw. destruct (decide (0 <= due now t)).
    - rewrite u32_small by lia. destruct (Z.eqb_spec (due now t) min); [by rewrite bool_decide_eq_true_2|by rewrite bool_decide_eq_false_2].
    - replace (u32 (due now t)) with (due now t + 4294967296) by (unfold u32; dlia).
      rewrite bool_decide_eq_false_2 by lia. apply Z.eqb_neq. lia. }
  rewrite Hiff. cbn [length] in Hd. case_bool_decide as E; [rewrite decide_True by done|rewrite decide_False by done; apply IH; lia].
  assert (Hrow : rows d !! Z.to_nat (zlen d) = Some (replicate 15 0)).
  { unfold zlen. rewrite Nat2Z.id. unfold rows. rewrite lookup_app_r by (rewrite length_fmap; lia).
    rewrite length_fmap. apply lookup_replicate_2. lia. }
  rewrite Hrow. cbn [mbind option_bind]. rewrite Ha, string_of_zeros by (done || lia). cbn [mbind option_bind].
  rewrite bsplice_zeros by lia. cbn [mbind option_bind]. fold (row_of (sp_action t)).
  assert (Hins : <[Z.to_nat (zlen d) := row_of (sp_action t)]> (rows d) = rows (d ++ [sp_action t])).
  { unfold zlen, rows. rewrite Nat2Z.id, fmap_app, length_app. cbn [length fmap list_fmap].
    rewrite insert_app_r_alt by (rewrite length_fmap; lia). rewrite length_fmap, Nat.sub_diag, <- app_assoc. f_equal.
    destruct (20 - length d)%nat as [|k] eqn:Ek; [lia|]. cbn. do 2 f_equal. lia. }
  rewrite Hins. replace (u16 (zlen d + 1)) with (zlen (d ++ [sp_action t])) by
    (rewrite zlen_app; change (zlen [sp_action t]) with 1; rewrite u16_small; unfold zlen; lia).
  rewrite IH by (rewrite length_app; cbn; lia). cbn [fmap list_fmap]. by rewrite <- app_assoc.
Qed.

(** ** From the message to the timer *)

Section Laws.
Context `{Env} {X : Type} `{PT : Part X timer_vars} `{PP : Part X plug_vars} (PLUG_DEVICE : bool).
Implicit Types s : sys X.

Definition T (s : sys X) : timer_vars := part (st s).
Lemma T_set l (m : heap) (x : X) v : T (mk_sys l m (set_part v x)) = v.
Proof. apply part_set. Qed.

(** What [user_esp_platform_wait_time_overflow_check] asks the SDK for. *)
Definition wait_events (m : Z) : list event :=
  if 3600 <=? m then
    [Do (os_timer_disarm device_timer); Do (os_timer_setfn device_timer fp_wait_time_overflow_check);
     Do (os_timer_arm device_timer 3600000 0); Do (os_printf "min_wait_second is extended\n")]
  else
    [Do (os_timer_disarm device_timer); Do (os_timer_setfn device_timer fp_device_action);
     Do (os_timer_arm device_timer (u32 (m * 1000)) 0); Do (os_printf "min_wait_second is = %dms\n")].

Lemma overflow_check_ok p w s : objects (T s) !! p = Some w ->
  wp (user_esp_platform_wait_time_overflow_check p) s (λ _ s',
    log s' = log s ++ Do (os_printf "min_wait_second = %d") :: wait_events (min_time_backup w) /\
    T s' = (T s) <| timer_arg := Some p |>
      <| objects := <[p := w <| min_time_backup := u32 (min_time_backup w - 3600) |>]> (objects (T s)) |>).
Proof.
  intros Hp. unfold user_esp_platform_wait_time_overflow_check, wait_events. apply wp_bind, wp_call, wp_bind.
  unfold the_wait. apply wp_bind, wp_pvar. cbn [log mem st]. apply (wp_lift _ w); [exact Hp|]. apply wp_bind.
  destruct (3600 <=? min_time_backup w); apply wp_bind, wp_call, wp_bind, wp_call, wp_bind, wp_pmodify, wp_bind, wp_call, wp_call, wp_pmodify;
    cbn [log mem st]; (split; [by rewrite <- !app_assoc|]); rewrite T_set, part_set; done.
Qed.

Lemma timer_action_ok now m l ts s :
  Forall2 (entry now) l ts -> (length ts <= 20)%nat -> 0 <= m <= 0xFFFFFFF -> min_wait_second (T s) = m ->
  wp (esp_platform_timer_action l (zlen ts)) s (λ _ s', exists p, objects (T s) !! p = None /\
    log s' = log s ++ Do (os_printf "min_wait_second = %d") :: wait_events m /\
    T s' = (T s) <| timer_arg := Some p |>).
Proof.
  intros Hl Hts Hm Hmin. unfold esp_platform_timer_action. apply wp_bind, wp_pvar. fold (T s).
  set (p := fresh (dom (objects (T s)))).
  assert (Hp : objects (T s) !! p = None) by (apply not_elem_of_dom; apply is_fresh).
  apply wp_bind, wp_pvar. fold (T s). rewrite Hmin.
  pose proof (collect_spec now m l ts [] Hl Hm ltac:(cbn; lia)) as Hc. cbv zeta in Hc. cbn [app] in Hc.
  change (rows []) with (action zero_wait) in Hc. change (zlen []) with 0 in Hc.
  apply wp_bind. eapply wp_lift; [exact Hc|]. cbv beta iota. apply wp_bind, wp_pmodify, wp_bind. set (s1 := mk_sys _ _ _).
  assert (HT1 : T s1 = (T s) <| objects := <[p := mk_wait (rows (sp_action <$> filter (λ t, due now t = m) ts))
    (zlen (sp_action <$> filter (λ t, due now t = m) ts)) (zlen ts) m]> (objects (T s)) |>) by apply T_set.
  eapply wp_mono; [eapply overflow_check_ok; rewrite HT1; apply lookup_insert_eq|]. intros [] s2 [Hl2 HT2].
  apply wp_pmodify. cbn [log mem st]. exists p. split; [done|]. split; [exact Hl2|]. rewrite T_set. fold (T s2).
  rewrite HT2, HT1. unfold set_field. cbn. f_equal. rewrite insert_insert_eq. by apply delete_insert_id.
Qed.

Lemma start_timers_ok now ts pre rest s :
  Forall good_timer ts -> good_time now ->
  timer_splits (T s) = pre ++ (Some <$> (print_timer <$> ts)) ++ rest ->
  wp (start_timers now (seqZ (zlen pre) (zlen ts))) s (λ r s', s' = s /\ Forall2 (entry now) r ts).
Proof.
  intros Hg Hn. revert pre. induction Hg as [|t ts Ht _ IH]; intros pre Hs; [by apply wp_ret|].
  pose proof (zlen_nonneg pre). pose proof (zlen_nonneg ts). rewrite zlen_cons, seqZ_cons by lia. cbn [start_timers].
  destruct (start_timer_print now t Ht Hn) as (p & Ep & Hw & Ha).
  apply wp_bind, wp_pvar. fold (T s). rewrite Hs. cbn [fmap list_fmap app].
  apply wp_bind, (wp_lift _ (Some (print_timer t))).
  { unfold zlen. rewrite Nat2Z.id. by apply list_lookup_middle. }
  apply wp_bind, (wp_lift _ (print_timer t)); [done|]. apply wp_bind, (wp_lift _ p); [exact Ep|]. apply wp_bind.
  replace (Z.succ (zlen pre)) with (zlen (pre ++ [Some (print_timer t)])) by (rewrite zlen_app; unfold zlen; cbn; lia).
  replace (Z.pred (1 + zlen ts)) with (zlen ts) by lia.
  eapply wp_mono; [apply IH; rewrite Hs; by rewrite <- app_assoc|]. intros r s' [-> Hr]. apply wp_ret. split; [done|].
  constructor; [|done]. split; [done|]. split; [by apply due_range|]. split; [done|]. destruct Ht as (_ & _ & _ & _ & ? & ?). done.
Qed.

(** What starting the timers [ts] at time [now] leaves. *)
Definition started (now : Z) (ts : list timer_spec) (s s' : sys X) : Prop :=
  exists m, first_due now ts m /\ min_wait_second (T s') = m /\ timestamp (T s') = now /\ objects (T s') = objects (T s) /\
    if m =? 0 then log s' = log s ++ [Do (os_printf "current timestamp= %ds\n")] /\ timer_arg (T s') = timer_arg (T s)
    else log s' = log s ++ Do (os_printf "current timestamp= %ds\n") :: Do (os_printf "min_wait_second = %d") :: wait_events m /\
         exists p, timer_arg (T s') = Some p /\ objects (T s') !! p = None.

Lemma first_start_ok now ts rest s :
  Forall good_timer ts -> good_time now -> (length ts <= 20)%nat -> now = i32 (timestamp (T s) + min_wait_second (T s)) ->
  timer_splits (T s) = (Some <$> (print_timer <$> ts)) ++ rest ->
  wp (user_platform_timer_first_start (zlen ts)) s (λ _ s', started now ts s s').
Proof.
  intros Hg Hn Hts Hnow Hsp. unfold user_platform_timer_first_start. apply wp_bind, wp_call, wp_bind, wp_pmodify, wp_bind, wp_pvar.
  cbn [log mem st]. rewrite part_set. fold (T s). cbn [timestamp set_field]. rewrite <- Hnow. set (s1 := mk_sys _ _ _).
  assert (HT1 : T s1 = (T s) <| timestamp := now |>) by apply T_set.
  apply wp_bind. eapply wp_mono; [apply (start_timers_ok now ts [] rest); [done..|rewrite HT1; exact Hsp]|].
  intros l s2 [-> Hl]. pose proof (min_time_spec now l ts Hl) as Hfd. pose proof Hfd as [Hm _]. set (m := min_time l) in *.
  apply wp_bind. unfold esp_platform_find_min_time. apply wp_pmodify. set (s2 := mk_sys _ _ _).
  assert (HT2 : T s2 = (T s) <| timestamp := now |> <| min_wait_second := m |>).
  { unfold s2. rewrite T_set. fold (T s1). by rewrite HT1. }
  apply wp_bind, wp_pvar. fold (T s2). rewrite HT2. cbn [min_wait_second set_field].
  assert (Hs : forall s', T s' = T s2 \/ (exists p, T s' = (T s2) <| timer_arg := Some p |>) ->
    min_wait_second (T s') = m /\ timestamp (T s') = now /\ objects (T s') = objects (T s)).
  { intros s' [->|[p ->]]; rewrite HT2; done. }
  destruct (m =? 0) eqn:E.
  - apply wp_ret. exists m. destruct (Hs s2 (or_introl eq_refl)) as (? & ? & ?). rewrite E. split_and!; try done. by rewrite HT2.
  - eapply wp_mono; [apply (timer_action_ok now m l ts); [done|done|done|by rewrite HT2]|].
    intros [] s3 (p & Hp & Hl3 & HT3). exists m. destruct (Hs s3 (or_intror (ex_intro _ p HT3))) as (? & ? & Ho).
    rewrite E. do 4 (split; [done|]). split; [rewrite Hl3; unfold s2, s1; cbn [log]; by rewrite <- app_assoc|].
    exists p. split; [by rewrite HT3|]. rewrite Ho. rewrite HT2 in Hp. exact Hp.
Qed.

(** A message with the time stamp [now] and the timers [ts]: what follows the
    first occurrence of each key. *)
Definition message (msg : list Z) (now : Z) (ts : list timer_spec) : Prop :=
  (exists k r, strstr msg TIMESTAMP_KEY = Some k /\ drop (Z.to_nat (k + 12)) msg = 32 :: decimal now ++ 44 :: r) /\
  (exists j r, strstr msg TIMERS_KEY = Some j /\ drop (Z.to_nat (j + 11)) msg = print_timers ts ++ 34 :: r).

Lemma indexof_drop b o x c r : 0 <= o <= zlen b -> drop (Z.to_nat o) b = x ++ c :: r -> no_char c x ->
  indexof b [c] o = Some (o + zlen x).
Proof.
  intros Ho Hd Hx. unfold indexof. ztrue (0 <=? o). ztrue (o <=? zlen b). cbn [andb]. rewrite Hd. by rewrite strstr_char.
Qed.

Lemma join_no_char c d l : c ≠ d -> Forall (no_char d) l -> no_char d (join c l).
Proof.
  intros Hcd Hall. induction Hall as [|x l Hx Hl IH]; [apply Forall_nil_2|]. destruct l as [|y l]; [done|].
  change (join c (x :: y :: l)) with (x ++ c :: join c (y :: l)). apply Forall_app. split; [done|]. by constructor.
Qed.

(** The time stamp is a static array; its last byte stays zero. *)
Lemma read_timestamp_ok msg now ts s :
  message msg now ts -> good_time now -> zlen (timestamp_str (T s)) = 11 -> nthZ (timestamp_str (T s)) 10 = 0 ->
  wp (read_timestamp msg) s (λ _ s', log s' = log s /\ exists b, zlen b = 11 /\ nthZ b 10 = 0 /\
    T s' = (T s) <| timestamp_str := b |> <| timestamp := now |>).
Proof.
  intros [(k & r & Ek & Hd) _] Hn Hz H10. unfold read_timestamp. rewrite Ek. apply strstr_range in Ek as [Hk1 Hk2].
  change (zlen TIMESTAMP_KEY) with 12 in Hk2. unfold good_time, MONDAY in Hn.
  assert (Hdz : zlen (decimal now) = 10) by (apply (decimal_length_eq 10 9); [cbn; lia|lia]).
  assert (Hlen : zlen (drop (Z.to_nat (k + 12)) msg) = 12 + zlen r) by (rewrite Hd; zlia). rewrite zlen_drop in Hlen. pose proof (zlen_nonneg r).
  assert (Hd1 : drop (Z.to_nat (k + 13)) msg = decimal now ++ 44 :: r).
  { replace (Z.to_nat (k + 13)) with (Z.to_nat (k + 12) + 1)%nat by lia. rewrite <- drop_drop, Hd. done. }
  assert (Hdig : no_char 44 (decimal now)) by (apply isdigit_no_char; [done|apply decimal_digits; lia]).
  cbv zeta. apply wp_bind, (wp_lift _ (k + 13 + 10)).
  { change (chars ",") with [44]. rewrite <- Hdz. eapply indexof_drop; [lia|exact Hd1|done]. }
  replace (k + 13 + 10 - (k + 13)) with (zlen (decimal now)) by lia.
  apply wp_bind, (wp_lift _ (decimal now)); [eapply bslice_drop; [lia|exact Hd1]|].
  apply wp_bind, wp_pvar, wp_bind. fold (T s).
  destruct (bsplice_Some (timestamp_str (T s)) 0 (decimal now)) as (b & Eb & Zb & Nb); [lia|lia|].
  apply (wp_lift _ b); [exact Eb|]. apply wp_bind, wp_pmodify. cbn [log mem st].
  assert (Hb10 : nthZ b 10 = 0) by (rewrite Nb by lia; rewrite Hdz; exact H10).
  assert (Hb : b = decimal now ++ [0]).
  { apply list_ext_nthZ; [zlia|]. intros i Hi. rewrite Nb by lia. rewrite nthZ_app by lia. rewrite Hdz, Z.sub_0_r. change (0 + 10) with 10.
    destruct (Z.ltb_spec i 10) as [|]; [by ztrue (0 <=? i)|]. assert (i = 10) as -> by lia. exact H10. }
  apply wp_bind, (wp_lift _ now); [rewrite Hb; apply atoi_decimal; [lia|done]|]. apply wp_pmodify. cbn [log mem st].
  split; [done|]. exists b. split; [lia|]. split; [done|]. rewrite T_set, part_set. done.
Qed.

Lemma print_timer_chars t d : good_timer t -> isdigit d = false -> d ≠ 61 -> d ≠ 102 -> d ≠ 108 -> d ≠ 119 ->
  no_char d (sp_action t) -> no_char d (print_timer t) /\ zlen (print_timer t) < 100.
Proof.
  intros (Hs & _ & _ & _ & _ & Hz) Hd ? ? ? ? Ha. pose proof (decimal_length 10 (sp_seconds t)).
  pose proof (decimal_digits 10 (sp_seconds t) ltac:(lia)) as Hdig. unfold print_timer, decimal in *. split; [|zlia].
  apply Forall_app. split; [|by constructor; [congruence|]].
  apply Forall_cons_2; [destruct (sp_mode t); cbn; congruence|]. by apply isdigit_no_char.
Qed.

Definition good_timers (ts : list timer_spec) : Prop :=
  ts ≠ [] /\ (length ts <= 20)%nat /\ Forall good_timer ts /\ Forall (λ t, no_char 34 (sp_action t)) ts.

Lemma print_timers_ok ts : good_timers ts ->
  no_char 34 (print_timers ts) /\ 0 < zlen (print_timers ts) /\ split (print_timers ts) SEP 20 = Some (print_timer <$> ts).
Proof.
  intros (Hne & Hlen & Hg & Hq).
  assert (H34 : Forall (no_char 34) (print_timer <$> ts)).
  { apply Forall_fmap, Forall_forall. intros t Ht. rewrite Forall_forall in Hg, Hq. apply print_timer_chars; try done; auto. }
  assert (H59 : Forall (no_char 59) (print_timer <$> ts) /\ Forall (λ x, zlen x < 100) (print_timer <$> ts)).
  { rewrite Forall_forall in Hg. split; apply Forall_fmap, Forall_forall; intros t Ht; apply (print_timer_chars t 59); try done; auto;
      apply (Hg t Ht). }
  split; [by apply join_no_char|]. split.
  - destruct ts as [|t ts]; [done|]. unfold print_timers. cbn [fmap list_fmap]. pose proof (zlen_nonneg (join 59 (print_timer <$> ts))).
    destruct (print_timer <$> ts) as [|y l]; [cbn [join]|change (join 59 (print_timer t :: y :: l)) with (print_timer t ++ 59 :: join 59 (y :: l))];
      unfold print_timer; zlia; pose proof (zlen_nonneg (decimal (sp_seconds t))); pose proof (zlen_nonneg (sp_action t));
      try pose proof (zlen_nonneg (join 59 (y :: l))); lia.
  - unfold split, SEP, print_timers. destruct H59 as [H59 Hz].
    apply (split_from_join 59 (print_timer <$> ts) 20 ltac:(by destruct ts) H59 Hz _ [] []); [apply join_length|].
    unfold zlen. rewrite length_fmap. cbn. lia.
Qed.

Lemma timer_start_ok msg now ts s :
  message msg now ts -> good_time now -> good_timers ts -> zlen (timestamp_str (T s)) = 11 -> nthZ (timestamp_str (T s)) 10 = 0 ->
  wp (user_platform_timer_start msg) s (λ _ s', started now ts s s').
Proof.
  intros Hmsg Hn Hts Hz H10. destruct (print_timers_ok ts Hts) as (H34 & Hpos & Hsplit). unfold user_platform_timer_start.
  apply wp_bind, wp_pmodify, wp_bind. set (s0 := mk_sys _ _ _).
  assert (HT0 : T s0 = (T s) <| min_wait_second := 0 |>) by apply T_set.
  eapply wp_mono; [apply (read_timestamp_ok msg now ts); [done|done|by rewrite HT0..]|].
  intros [] s1 (Hl1 & b & _ & _ & HT1). apply wp_bind, wp_pmodify. set (s2 := mk_sys _ _ _).
  assert (HT2 : T s2 = (T s1) <| timer_splits := replicate 20 None |>) by apply T_set.
  destruct Hmsg as [_ (j & r & Ej & Hd)]. rewrite Ej. apply strstr_range in Ej as [Hj1 Hj2]. change (zlen TIMERS_KEY) with 11 in Hj2.
  cbv zeta. assert (Hd1 : drop (Z.to_nat 11) (drop (Z.to_nat j) msg) = print_timers ts ++ 34 :: r).
  { rewrite drop_drop. rewrite <- Hd. f_equal. lia. }
  assert (Hz1 : zlen (drop (Z.to_nat j) msg) = zlen msg - j) by (rewrite zlen_drop; lia).
  apply wp_bind, (wp_lift _ (11 + zlen (print_timers ts))); [eapply indexof_drop; [lia|exact Hd1|done]|].
  zfalse (11 =? 11 + zlen (print_timers ts)). replace (11 + zlen (print_timers ts) - 11) with (zlen (print_timers ts)) by lia.
  apply wp_bind, (wp_lift _ (print_timers ts)); [eapply bslice_drop; [lia|exact Hd1]|].
  apply wp_bind, (wp_lift _ (print_timer <$> ts)); [exact Hsplit|]. apply wp_bind, wp_pmodify. set (s3 := mk_sys _ _ _).
  assert (HT3 : T s3 = (T s2) <| timer_splits := (Some <$> (print_timer <$> ts)) ++ drop (length (print_timer <$> ts)) (timer_splits (T s2)) |>)
    by apply T_set.
  destruct Hts as (Hne & Hlen & Hg & Hq).
  replace (u16 (zlen (print_timer <$> ts))) with (zlen ts) by (unfold zlen; rewrite length_fmap, u16_small; lia).
  eapply wp_mono; [eapply (first_start_ok now ts); [done|done|done| |rewrite HT3; reflexivity]|].
  - rewrite HT3, HT2, HT1, HT0. cbn [timestamp min_wait_second set_field]. unfold good_time, MONDAY in Hn. rewrite i32_small; lia.
  - intros [] s4 (m & Hm & Hmin & Hts4 & Ho & Hcase). exists m. do 3 (split; [done|]).
    split; [rewrite Ho, HT3, HT2, HT1, HT0; done|]. destruct (m =? 0).
    + destruct Hcase as [Hl4 Ha4]. split; [rewrite Hl4; unfold s3, s2; cbn [log]; by rewrite Hl1|]. rewrite Ha4, HT3, HT2, HT1, HT0. done.
    + destruct Hcase as [Hl4 Ha4]. split; [rewrite Hl4; unfold s3, s2; cbn [log]; by rewrite Hl1|done].
Qed.

(** C22: from the text to the timer.  For every message that carries a time
    and one to twenty timers in the server's notation, [user_platform_timer_start]
    is defined and computes the wait [m] until the first of them is due; unless
    one is due this very second, it sets [device_timer] to [m] seconds, or to one
    hour when it is longer. *)
Theorem timers_schedule msg now ts s :
  message msg now ts -> good_time now -> good_timers ts -> zlen (timestamp_str (T s)) = 11 -> nthZ (timestamp_str (T s)) 10 = 0 ->
  exists s' m, user_platform_timer_start msg s = Some (tt, s') /\ first_due now ts m /\ timestamp (T s') = now /\
    (0 < m -> log s' = log s ++ Do (os_printf "current timestamp= %ds\n") :: Do (os_printf "min_wait_second = %d") :: wait_events m).
Proof.
  intros Hmsg Hn Hts Hz H10. destruct (timer_start_ok msg now ts s Hmsg Hn Hts Hz H10) as ([] & s' & E & m & Hm & _ & Ht & _ & Hc).
  exists s', m. do 3 (split; [done|]). intros Hpos. destruct (Z.eqb_spec m 0); [lia|]. apply Hc.
Qed.

(** C33: the object the timer is given is gone.  When [user_platform_timer_start]
    has started the timer, the timer carries the address of [pwait_action], a
    local variable of a function that has returned: whichever of the two
    functions the timer calls, its first access to the object is undefined. *)
Theorem timer_callback_dangling msg now ts s m :
  message msg now ts -> good_time now -> good_timers ts -> zlen (timestamp_str (T s)) = 11 -> nthZ (timestamp_str (T s)) 10 = 0 ->
  first_due now ts m -> 0 < m ->
  exists s', user_platform_timer_start msg s = Some (tt, s') /\ armed device_timer (log s') = true /\
    forall f, device_timer_fires PLUG_DEVICE f s' = None.
Proof.
  intros Hmsg Hn Hts Hz H10 Hm Hpos. destruct (timer_start_ok msg now ts s Hmsg Hn Hts Hz H10) as ([] & s' & E & m' & Hm' & _ & _ & Ho & Hc).
  assert (0 < m').
  { destruct Hm as (_ & Hle & _), Hm' as (? & _ & [->|(t & Ht & <-)]); [lia|]. specialize (Hle t Ht). lia. }
  exists s'. split; [done|]. destruct (Z.eqb_spec m' 0); [lia|]. destruct Hc as (Hl & p & Hp & Hdead). split.
  - rewrite Hl. unfold wait_events, armed. rewrite fold_left_app. by destruct (3600 <=? m').
  - intros f. unfold device_timer_fires. erewrite run_bind by done. fold (T s'). rewrite Hp. cbn [slift sbind mbind option_bind].
    assert (Hw : the_wait p s' = None).
    { unfold the_wait, pvar, sget, sbind, slift. cbn. fold (T s'). by rewrite Hdead. }
    destruct f; try done.
    + unfold user_esp_platform_wait_time_overflow_check, call, record, smod, sbind at 1. cbn. unfold the_wait, pvar, sget, sbind, slift. cbn. fold (T s'). by rewrite Hdead.
    + unfold user_esp_platform_device_action, sbind at 1. by rewrite Hw.
Qed.

(** One timer that is due this very second stops all of them.  The code
    then returns without starting [device_timer], and nothing will start it
    until the server sends the timers again. *)
Theorem timer_due_now_stops_all msg now ts t s :
  message msg now ts -> good_time now -> good_timers ts -> zlen (timestamp_str (T s)) = 11 -> nthZ (timestamp_str (T s)) 10 = 0 ->
  In t ts -> due now t = 0 ->
  exists s', user_platform_timer_start msg s = Some (tt, s') /\ log s' = log s ++ [Do (os_printf "current timestamp= %ds\n")].
Proof.
  intros Hmsg Hn Hts Hz H10 Ht Hd. destruct (timer_start_ok msg now ts s Hmsg Hn Hts Hz H10) as ([] & s' & E & m & (Hm & Hle & _) & _ & _ & _ & Hc).
  exists s'. split; [done|]. specialize (Hle t Ht ltac:(lia)). assert (m = 0) as -> by lia. by destruct Hc.
Qed.

(** ** Long waits *)

Definition timer_ms (l : list event) : list Z :=
  flat_map (λ e, match e with Do (os_timer_arm device_timer ms _) => [ms] | _ => [] end) l.
Definition timer_fns (l : list event) : list fn :=
  flat_map (λ e, match e with Do (os_timer_setfn device_timer f) => [f] | _ => [] end) l.

(** A wait of any length is kept to the millisecond.  As long as the object
    lives, [m] seconds become [m / 3600] hours followed by the rest, no product
    leaves 32 bits, and only the last expiration performs the actions. *)
Theorem long_wait p w s :
  objects (T s) !! p = Some w -> 0 <= min_time_backup w <= 0xFFFFFFF ->
  let m := min_time_backup w in
  let n := Z.to_nat (m / 3600) in
  wp (sfor (replicate (S n) tt) (λ _, user_esp_platform_wait_time_overflow_check p)) s (λ _ s', exists l, log s' = log s ++ l /\
    timer_fns l = replicate n fp_wait_time_overflow_check ++ [fp_device_action] /\
    timer_ms l = replicate n 3600000 ++ [m mod 3600 * 1000] /\ 3600000 * Z.of_nat n + m mod 3600 * 1000 = m * 1000).
Proof.
  intros Hp Hm m n. assert (Hmn : m = 3600 * Z.of_nat n + m mod 3600) by (unfold n; dlia).
  assert (Hr : 0 <= m mod 3600 < 3600) by dlia.
  set (r := m mod 3600) in *. clearbody r n. subst m. revert w s Hp Hm Hmn. induction n as [|n IH]; intros w s Hp Hm Hmn; cbn [replicate sfor]; apply wp_bind;
    (eapply wp_mono; [by apply overflow_check_ok|]); intros [] s1 [Hl1 HT1]; unfold wait_events in Hl1; rewrite Hmn in Hl1.
  - replace (3600 <=? 3600 * Z.of_nat 0 + r) with false in Hl1 by (symmetry; apply Z.leb_gt; lia). apply wp_ret. eexists. split; [exact Hl1|]. cbn.
    rewrite u32_small by lia. do 2 (split; [done|]). lia.
  - replace (3600 <=? 3600 * Z.of_nat (S n) + r) with true in Hl1 by (symmetry; apply Z.leb_le; lia).
    eapply wp_mono; [eapply (IH (w <| min_time_backup := u32 (min_time_backup w - 3600) |>))|].
    + rewrite HT1. apply lookup_insert_eq.
    + cbn [min_time_backup set_field]. rewrite u32_small; lia.
    + cbn [min_time_backup set_field]. rewrite u32_small; lia.
    + intros [] s2 (l & Hl2 & Hf & Hms & Hsum). eexists. split; [rewrite Hl2, Hl1, <- app_assoc; reflexivity|].
      cbn. fold (timer_fns l) (timer_ms l). rewrite Hf, Hms. do 2 (split; [done|]). lia.
Qed.
End Laws.

(** ** The theorems at concrete inputs *)

Definition parts : Type := timer_vars * plug_vars.
Instance part_timers : Part parts timer_vars.
Proof. refine (mk_part parts timer_vars fst (λ y x, (y, snd x)) _ _ _); [done|done|by intros []]. Defined.
Instance part_plug : Part parts plug_vars.
Proof. refine (mk_part parts plug_vars snd (λ y x, (fst x, y)) _ _ _); [done|done|by intros []]. Defined.

Definition at_noon : Z := 1400000000.
Definition on_at : timer_spec := mk_spec Fixed 1400005000 (chars "on_switch").
Definition hourly : timer_spec := mk_spec Loop 7000 (chars "on_off_switch").
Definition weekly : timer_spec := mk_spec Weekly 100000 (chars "off_switch").
Definition on_now : timer_spec := mk_spec Fixed 1400000000 (chars "on_switch").
Definition server_text (ts : list timer_spec) : list Z :=
  123 :: TIMESTAMP_KEY ++ 32 :: decimal at_noon ++ 44 :: 32 :: TIMERS_KEY ++ print_timers ts ++ [34; 125].
Definition fresh_device : sys parts := mk_sys [] ∅ (timer_initial, plug_initial).
(** The calls of this file give no results. *)
Definition silent : Env := mk_env (λ _ _, 0) (λ _ _, 0).

Ltac no_chars := apply (proj2 (List.Forall_forall _ _)); intros ? Hin; vm_compute in Hin; intuition (subst; discriminate).
Ltac good_one := split; [vm_compute; intuition congruence|split; [vm_compute; done|split; [no_chars|split; [no_chars|split; [no_chars|vm_compute; congruence]]]]].
Ltac the_message := split; [exists 1, (32 :: TIMERS_KEY ++ print_timers [on_at; hourly; weekly] ++ [34; 125])|exists 26, [125]]; (split; vm_compute; reflexivity).

Lemma the_timers_good : good_timers [on_at; hourly; weekly].
Proof.
  split; [done|]. split; [cbn; lia|]. split.
  - apply Forall_cons_2; [good_one|]. apply Forall_cons_2; [good_one|]. apply Forall_singleton. good_one.
  - apply Forall_cons_2; [no_chars|]. apply Forall_cons_2; [no_chars|]. apply Forall_singleton. no_chars.
Qed.

Lemma timers_schedule_witness :
  exists s' m, @user_platform_timer_start parts _ (server_text [on_at; hourly; weekly]) fresh_device = Some (tt, s') /\
    first_due at_noon [on_at; hourly; weekly] m.
Proof.
  destruct (@timers_schedule parts _ (server_text [on_at; hourly; weekly]) at_noon [on_at; hourly; weekly] fresh_device)
    as (s' & m & E & Hm & _).
  - the_message.
  - split; vm_compute; congruence.
  - exact the_timers_good.
  - reflexivity.
  - reflexivity.
  - exists s', m. split; [exact E|exact Hm].
Defined.

Lemma first_due_at_noon : first_due at_noon [on_at; hourly; weekly] 5000.
Proof.
  split; [lia|]. split.
  - intros t [<-|[<-|[<-|[]]]] _; vm_compute; congruence.
  - right. exists on_at. split; [by left|reflexivity].
Qed.

Lemma timer_callback_dangling_witness :
  exists s', @user_platform_timer_start parts _ (server_text [on_at; hourly; weekly]) fresh_device = Some (tt, s') /\
    armed device_timer (log s') = true /\ device_timer_fires true fp_wait_time_overflow_check s' = None.
Proof.
  destruct (@timer_callback_dangling parts _ _ true (server_text [on_at; hourly; weekly]) at_noon [on_at; hourly; weekly] fresh_device 5000)
    as (s' & E & Ha & Hf).
  - the_message.
  - split; vm_compute; congruence.
  - exact the_timers_good.
  - reflexivity.
  - reflexivity.
  - exact first_due_at_noon.
  - lia.
  - exists s'. split; [exact E|]. split; [exact Ha|exact (Hf _)].
Defined.

Lemma timer_due_now_stops_all_witness :
  exists s', @user_platform_timer_start parts _ (server_text [on_now; hourly; weekly]) fresh_device = Some (tt, s') /\
    log s' = [Do (os_printf "current timestamp= %ds\n")].
Proof.
  apply (@timer_due_now_stops_all parts _ (server_text [on_now; hourly; weekly]) at_noon [on_now; hourly; weekly] on_now fresh_device).
  - split; [exists 1, (32 :: TIMERS_KEY ++ print_timers [on_now; hourly; weekly] ++ [34; 125])|exists 26, [125]]; (split; vm_compute; reflexivity).
  - split; vm_compute; congruence.
  - split; [done|]. split; [cbn; lia|]. split.
    + apply Forall_cons_2; [good_one|]. apply Forall_cons_2; [good_one|]. apply Forall_singleton. good_one.
    + apply Forall_cons_2; [no_chars|]. apply Forall_cons_2; [no_chars|]. apply Forall_singleton. no_chars.
  - reflexivity.
  - reflexivity.
  - by left.
  - reflexivity.
Defined.

(** An object that lives, with three hours less a quarter to wait. *)
Definition waiting : sys parts :=
  mk_sys [] ∅ (timer_initial <| objects := {[1%positive := zero_wait <| min_time_backup := 9900 |>]} |>, plug_initial).

Lemma long_wait_witness :
  wp (sfor (replicate 3 tt) (λ _, user_esp_platform_wait_time_overflow_check 1%positive)) waiting (λ _ s', exists l, log s' = l /\
    timer_fns l = [fp_wait_time_overflow_check; fp_wait_time_overflow_check; fp_device_action] /\
    timer_ms l = [3600000; 3600000; 2700000]).
Proof.
  destruct (@long_wait parts _ 1%positive (zero_wait <| min_time_backup := 9900 |>) waiting) as ([] & s' & E & l & Hl & Hf & Hms & _).
  - reflexivity.
  - cbn. lia.
  - exists tt, s'. split; [exact E|]. exists l. split; [exact Hl|]. split; [exact Hf|exact Hms].
Defined.
