(* ===== verification/IotControl.v ===== *)
(** * IotControl: the light under the control of the cloud

    The part of IoT_Demo/user/user_esp_platform.c that answers the cloud's
    requests about the light ([LIGHT_DEVICE]): reading the nonce, reporting and
    setting the colour.  The blocks of [os_zalloc] and the local arrays are not
    shared and are modelled as values; [os_zalloc] succeeds. *)

From Stdlib Require Import String.
From stdpp Require Import gmap.
From S2P Require Import Prelude CMem CString Board UartDriver MqttConfig IotLight IotTimer.
Local Open Scope string_scope.
Local Open Scope Z_scope.
Local Open Scope sm_scope.
Local Open Scope list_scope.

(** include/user_interface.h *)
Definition MODEM_SLEEP_T : Z := 2.

(** The static variables of [user_esp_platform_set_info]. *)
Record control_vars := mk_control { rr : Z; gg : Z; bb : Z; cw : Z; ww : Z; ctl_period : Z }.
#[export] Instance eta_control : Settable control_vars := λ v, mk_control (rr v) (gg v) (bb v) (cw v) (ww v) (ctl_period v).
Definition control_initial : control_vars := mk_control 0 0 0 0 0 0.

(** [os_strchr( s + o, c )] as an offset into [s]. *)
Definition strchr (s : list Z) (c o : Z) : option (option Z) :=
  if (0 <=? o) && (o <=? zlen s) then Some (k ← strstr (drop (Z.to_nat o) s) [c]; Some (o + k)) else None.

Definition quoted (s : string) : list Z := [34] ++ chars s ++ [34].

(** ** [user_esp_platform_parse_nonce] *)

Definition NONCE_KEY : list Z := quoted "nonce" ++ [58; 32].

(** The text from [o] up to the first of the three characters that is tried and found. *)
Fixpoint nonce_end (pbuffer : list Z) (o : Z) (l : list Z) : option (option Z) :=
  match l with
  | [] => Some None
  | c :: l => e ← strchr pbuffer c o; match e with Some e => Some (Some e) | None => nonce_end pbuffer o l end
  end.

Definition user_esp_platform_parse_nonce (pbuffer : list Z) : option Z :=
  match strstr pbuffer NONCE_KEY with
  | None => Some 0
  | Some k =>
      let pstr := k + 9 in
      e ← nonce_end pbuffer pstr (chars ",}]");
      match e with
      | None => Some 0
      | Some pparse =>
          s ← bslice pbuffer pstr (pparse - pstr);
          noncestr ← bsplice (replicate 11 0) 0 s;
          atoi noncestr
      end
  end.

(** ** [user_esp_platform_set_info] *)

Definition LIGHT_PATH : list Z := quoted "path" ++ [58; 32] ++ quoted "/v1/datastreams/light/datapoint/".
Definition DATAPOINT_KEY : list Z := [123] ++ quoted "datapoint" ++ [58; 32].

(** The text between the beginning of the data point and the first "}}";
    its length is a 16-bit number. *)
Definition datapoint (pbuffer : list Z) (k : Z) : option (list Z) :=
  pbuf ← strstr pbuffer (chars "}}");
  bslice pbuffer k (u16 (u16 (pbuf - k) + 2)).

(** One member: the first [c], four characters on, up to the next comma; [Some None]
    when there is none. *)
Definition member (pdata : list Z) (c : Z) : option (option Z) :=
  match strstr pdata [c] with
  | None => Some None
  | Some k =>
      let pstr := k + 4 in
      e ← strchr pdata 44 pstr;
      match e with
      | None => Some None
      | Some pbuf =>
          s ← bslice pdata pstr (u16 (pbuf - pstr));
          recvbuf ← bsplice (replicate 10 0) 0 s;
          data ← atoi recvbuf;
          Some (Some (u32 data))
      end
  end.

Section Control.
Context `{Env} {X : Type} `{PL : Part X light_vars} `{PC : Part X control_vars}.

Definition RESPONSE_FRAME (nonce p r g b white : Z) : list Z :=
  [123] ++ quoted "status" ++ chars ": 200," ++ quoted "nonce" ++ chars ": " ++ percent_d nonce ++
  chars ", " ++ quoted "datapoint" ++ chars ": {" ++ quoted "x" ++ chars ": " ++ percent_d p ++
  chars "," ++ quoted "y" ++ chars ": " ++ percent_d r ++ chars "," ++ quoted "z" ++ chars ": " ++ percent_d g ++
  chars "," ++ quoted "k" ++ chars ": " ++ percent_d b ++ chars "," ++ quoted "l" ++ chars ": " ++ percent_d white ++
  chars "}," ++ quoted "deliver_to_device" ++ chars ":true}" ++ [10].

(** A block of [packet_size] bytes takes the frame. *)
Definition user_esp_platform_get_info (pbuffer : list Z) : F X unit :=
  nonce <- slift (user_esp_platform_parse_nonce pbuffer) ;;
  white_val <- user_light_get_duty LIGHT_COLD_WHITE ;;
  p <- user_light_get_period ;;
  r <- user_light_get_duty LIGHT_RED ;; g <- user_light_get_duty LIGHT_GREEN ;; b <- user_light_get_duty LIGHT_BLUE ;;
  call (os_printf "%s\n") ;;
  call (espconn_sent user_conn (RESPONSE_FRAME nonce (i32 p) (i32 r) (i32 g) (i32 b) (i32 white_val))).

(** [if (pstr != NULL)] store the member and print it. *)
Definition set_member (pdata : list Z) (c : Z) (set : Z -> control_vars -> control_vars) (msgs : list string) : F X unit :=
  v <- slift (member pdata c) ;;
  match v with Some data => pmodify (set data) ;; sfor msgs (λ m, call (os_printf m)) | None => sret tt end.

(** The end of the function, and of [light_status_set] of the web server. *)
Definition set_lamp (r g b cw ww p : Z) : F X unit :=
  flg <- pvar light_sleep_flg ;;
  swhen (negb (Z.lor (Z.lor (Z.lor (Z.lor r g) b) cw) ww =? 0) && (flg =? 1)) (
    call (os_printf "modem sleep en\r\n") ;;
    call (wifi_set_sleep_type MODEM_SLEEP_T) ;;
    pmodify (λ l, l <| light_sleep_flg := 0 |>)) ;;
  light_set_aim r g b cw ww p.

Definition user_esp_platform_set_info (pbuffer : list Z) : F X unit :=
  pmodify (λ v, v <| ww := 0 |>) ;;
  pmodify (λ v, v <| cw := 0 |>) ;;
  match strstr pbuffer LIGHT_PATH with
  | None => sret tt
  | Some _ =>
      match strstr pbuffer DATAPOINT_KEY with
      | None => sret tt
      | Some k =>
          pdata <- slift (datapoint pbuffer k) ;;
          set_member pdata 120 (λ d v, v <| ctl_period := d |>) [] ;;
          set_member pdata 121 (λ d v, v <| rr := d |>) ["r: %d\r\n"] ;;
          set_member pdata 122 (λ d v, v <| gg := d |>) ["g: %d\r\n"] ;;
          set_member pdata 107 (λ d v, v <| bb := d |>) ["b: %d\r\n"] ;;
          set_member pdata 108 (λ d v, v <| cw := d |> <| ww := d |>) ["cw: %d\r\n"; "ww:%d\r\n"]
      end
  end ;;
  v <- pvar (λ v, v) ;;
  set_lamp (rr v) (gg v) (bb v) (cw v) (ww v) (ctl_period v) ;;
  user_esp_platform_get_info pbuffer.
End Control.

(** ** What the functions of the lamp do outside it *)

(** Calls of the PWM driver and the flash, lines on the console, the lamp's own
    timer, the sleep mode of the radio; and [espconn_sent]. *)
Definition lamp_call (c : sdk) : bool :=
  match c with
  | pwm_init _ _ _ _ | pwm_start | pwm_set_duty _ _ | pwm_get_duty _ | pwm_set_period _ | pwm_get_period
  | set_pwm_debug_en _ | get_pwm_version | spi_flash_erase_sector _ | spi_flash_write _ _
  | os_printf _ | wifi_set_sleep_type _ | espconn_sent _ _ => true
  | os_timer_disarm t | os_timer_setfn t _ | os_timer_arm t _ _ => bool_decide (t = timer_pwm_adj)
  | _ => false
  end.
Definition lamp_event (e : event) : Prop := match e with Do c | Got c _ => lamp_call c = true | _ => False end.

Section Emits.
Context `{Env} {X : Type} `{PL : Part X light_vars} `{PC : Part X control_vars}.

Lemma emits_set_duty d ch : emits (X := X) lamp_event (user_light_set_duty d ch).
Proof. unfold user_light_set_duty, user_light_get_duty. auto 20 with emits. Qed.
Lemma emits_set_period p : emits (X := X) lamp_event (user_light_set_period p).
Proof. unfold user_light_set_period, user_light_get_period. auto 20 with emits. Qed.
Lemma emits_diff l : emits (X := X) lamp_event (duty_diff_from l).
Proof. induction l; cbn [duty_diff_from]; auto 20 with emits. Qed.
Lemma emits_zero l : emits (X := X) lamp_event (duty_zero_from l).
Proof. induction l; cbn [duty_zero_from]; auto 20 with emits. Qed.
Lemma emits_smooth n : emits (X := X) lamp_event (smooth_adj n).
Proof.
  induction n as [|n IH]; [apply emits_lift|]. pose proof emits_set_duty. pose proof emits_set_period. pose proof emits_diff. pose proof emits_zero.
  cbn [smooth_adj]. unfold dh_pwm_adj, check_pwm_current_duty_diff, adjust_channel, light_settled, light_save_target_duty, check_pwm_duty_zero, LightEvtFree.
  auto 40 with emits.
Qed.
Lemma emits_set_lamp r g b cw ww p : emits (X := X) lamp_event (set_lamp r g b cw ww p).
Proof.
  unfold set_lamp, light_set_aim, LightEvtMalloc, light_pwm_smooth_adj_proc. pose proof (emits_smooth queue_fuel). auto 40 with emits.
Qed.
Lemma emits_get_info msg : emits (X := X) lamp_event (user_esp_platform_get_info msg).
Proof. unfold user_esp_platform_get_info, user_light_get_duty, user_light_get_period. auto 20 with emits. Qed.
Lemma emits_set_info msg : emits (X := X) lamp_event (user_esp_platform_set_info msg).
Proof.
  pose proof emits_set_lamp. pose proof emits_get_info. unfold user_esp_platform_set_info, set_member.
  auto 40 with emits.
Qed.
Lemma emits_light_init `{!Flash} : emits (X := X) lamp_event user_light_init.
Proof.
  unfold user_light_init, spi_flash_read, light_set_aim, LightEvtMalloc, light_pwm_smooth_adj_proc. pose proof (emits_smooth queue_fuel).
  auto 60 with emits.
Qed.
End Emits.

(** ** What a message says *)

Lemma strchr_app pre x c r o : zlen pre = o -> no_char c x -> strchr (pre ++ x ++ c :: r) c o = Some (Some (o + zlen x)).
Proof.
  intros <- Hx. pose proof (zlen_nonneg pre). pose proof (zlen_nonneg x). pose proof (zlen_nonneg r). unfold strchr.
  ztrue (0 <=? zlen pre). replace (zlen pre <=? zlen (pre ++ x ++ c :: r)) with true by (symmetry; apply Z.leb_le; zlia).
  cbn [andb]. by rewrite drop_zlen_app, strstr_char.
Qed.

(** The first [c] of the text starts the member ["c": v,]. *)
Lemma member_ok pre c v r : no_char c pre -> 0 <= v < 1000000000 ->
  member (pre ++ c :: 34 :: 58 :: 32 :: decimal v ++ 44 :: r) c = Some (Some v).
Proof.
  intros Hpre Hv. unfold member. rewrite strstr_char by done. cbv zeta.
  set (pre' := pre ++ [c; 34; 58; 32]). assert (Hz : zlen pre' = zlen pre + 4) by (unfold pre'; zlia; cbn; lia).
  assert (Htext : pre ++ c :: 34 :: 58 :: 32 :: decimal v ++ 44 :: r = pre' ++ decimal v ++ 44 :: r) by (unfold pre'; by rewrite <- app_assoc).
  rewrite Htext. assert (Hd : no_char 44 (decimal v)) by (apply isdigit_no_char; [done|apply decimal_digits; lia]).
  rewrite (strchr_app pre' (decimal v) 44 r (zlen pre + 4)) by done. cbn [mbind option_bind].
  assert (H9 : zlen (decimal v) <= 9) by (by apply decimal_9).
  pose proof (zlen_nonneg (decimal v)). replace (zlen pre + 4 + zlen (decimal v) - (zlen pre + 4)) with (zlen (decimal v)) by lia.
  rewrite u16_small by lia. rewrite <- Hz, (bslice_drop _ _ (decimal v) (44 :: r)) by (apply drop_zlen_app || (pose proof (zlen_nonneg pre'); pose proof (zlen_nonneg r); zlia)).
  cbn [mbind option_bind]. rewrite bsplice_zeros by lia. cbn [mbind option_bind].
  unfold zlen in H9. destruct (10 - length (decimal v))%nat as [|k] eqn:E; [lia|]. cbn [replicate].
  rewrite atoi_decimal by (done || lia). cbn [mbind option_bind]. by rewrite u32_small by lia.
Qed.

(** A member that is not followed by a comma, as the last one of an object, is not read. *)
Lemma last_member_ignored pre c v : no_char c pre -> 0 <= v -> zlen (decimal v) <= 9 ->
  member (pre ++ c :: 34 :: 58 :: 32 :: decimal v ++ chars "}}") c = Some None.
Proof.
  intros Hpre Hv H9. unfold member. rewrite strstr_char by done. cbv zeta. unfold strchr. pose proof (zlen_nonneg pre). pose proof (zlen_nonneg (decimal v)).
  set (pre' := pre ++ [c; 34; 58; 32]).
  assert (Htext : pre ++ c :: 34 :: 58 :: 32 :: decimal v ++ chars "}}" = pre' ++ decimal v ++ chars "}}") by (unfold pre'; by rewrite <- app_assoc).
  assert (Hz : zlen pre' = zlen pre + 4) by (unfold pre'; zlia; cbn; lia). rewrite Htext, <- Hz.
  ztrue (0 <=? zlen pre'). replace (zlen pre' <=? zlen (pre' ++ decimal v ++ chars "}}")) with true
    by (symmetry; apply Z.leb_le; rewrite !zlen_app; pose proof (zlen_nonneg (chars "}}")); lia).
  cbn [andb]. rewrite drop_zlen_app, strstr_char_none; [done|]. apply Forall_app. split; [|by repeat constructor].
  apply isdigit_no_char; [done|by apply decimal_digits].
Qed.

(** The members of a data point, and the text up to the "}}" that ends it. *)
Definition member_text (c v : Z) : list Z := [34; c; 34; 58; 32] ++ decimal v ++ [44].
Definition control_text (p r g b w : Z) (tail : list Z) : list Z :=
  DATAPOINT_KEY ++ [123] ++ member_text 120 p ++ member_text 121 r ++ member_text 122 g ++ member_text 107 b ++
  member_text 108 w ++ tail.

(** The requests that set period [p], red [r], green [g], blue [b], white [w]. *)
Definition sets_light (msg : list Z) (p r g b w : Z) : Prop :=
  (exists k, strstr msg LIGHT_PATH = Some k) /\
  (exists k tail rest, strstr msg DATAPOINT_KEY = Some k /\
     drop (Z.to_nat k) msg = (control_text p r g b w tail ++ chars "}}") ++ rest /\
     strstr msg (chars "}}") = Some (k + zlen (control_text p r g b w tail)) /\ zlen (control_text p r g b w tail) < 65534) /\
  Forall (λ v, 0 <= v < 1000000000) [p; r; g; b; w].

Lemma digits_no_char c v : 0 <= v -> isdigit c = false -> no_char c (decimal v).
Proof. intros Hv Hc. apply isdigit_no_char; [done|]. by apply decimal_digits. Qed.

Ltac no_char_tac :=
  unfold no_char, member_text;
  repeat match goal with
  | |- Forall _ (_ ++ _) => apply Forall_app; split
  | |- Forall _ (_ :: _) => apply Forall_cons_2; [done|]
  | |- Forall _ [] => apply Forall_nil_2
  | |- Forall _ (decimal _) => apply digits_no_char; [lia|done]
  | |- Forall _ DATAPOINT_KEY => apply (proj2 (List.Forall_forall _ _)); intros ? Hin; vm_compute in Hin; intuition (subst; discriminate)
  end.

Lemma members_ok p r g b w tail : Forall (λ v, 0 <= v < 1000000000) [p; r; g; b; w] ->
  let pdata := control_text p r g b w tail ++ chars "}}" in
  member pdata 120 = Some (Some p) /\ member pdata 121 = Some (Some r) /\ member pdata 122 = Some (Some g) /\
  member pdata 107 = Some (Some b) /\ member pdata 108 = Some (Some w).
Proof.
  intros Hv. repeat (apply Forall_cons_1 in Hv as [? Hv]). cbv zeta.
  set (k0 := DATAPOINT_KEY ++ [123]).
  assert (E : forall pre c v rest txt, txt = pre ++ member_text c v ++ rest -> no_char c pre -> c ≠ 34 -> 0 <= v < 1000000000 ->
    member txt c = Some (Some v)).
  { intros pre c v rest txt -> Hpre Hc Hr. unfold member_text. rewrite <- (member_ok (pre ++ [34]) c v rest); [|by apply Forall_app; split; [|apply Forall_singleton]|done].
    f_equal. by rewrite <- !app_assoc. }
  unfold control_text. split_and!.
  - eapply (E k0); [unfold k0; rewrite <- !app_assoc; reflexivity|unfold k0; no_char_tac|done|done].
  - eapply (E (k0 ++ member_text 120 p)); [unfold k0; rewrite <- !app_assoc; reflexivity|unfold k0; no_char_tac|done|done].
  - eapply (E (k0 ++ member_text 120 p ++ member_text 121 r)); [unfold k0; rewrite <- !app_assoc; reflexivity|unfold k0; no_char_tac|done|done].
  - eapply (E (k0 ++ member_text 120 p ++ member_text 121 r ++ member_text 122 g));
      [unfold k0; rewrite <- !app_assoc; reflexivity|unfold k0; no_char_tac|done|done].
  - eapply (E (k0 ++ member_text 120 p ++ member_text 121 r ++ member_text 122 g ++ member_text 107 b));
      [unfold k0; rewrite <- !app_assoc; reflexivity|unfold k0; no_char_tac|done|done].
Qed.

Lemma datapoint_ok msg k p r g b w tail rest :
  strstr msg DATAPOINT_KEY = Some k -> drop (Z.to_nat k) msg = (control_text p r g b w tail ++ chars "}}") ++ rest ->
  strstr msg (chars "}}") = Some (k + zlen (control_text p r g b w tail)) -> zlen (control_text p r g b w tail) < 65534 ->
  datapoint msg k = Some (control_text p r g b w tail ++ chars "}}").
Proof.
  intros Ek Hd E2 Hlen. apply strstr_range in Ek as [Hk1 Hk2]. pose proof (zlen_nonneg DATAPOINT_KEY).
  pose proof (zlen_nonneg (control_text p r g b w tail)) as Hz. unfold datapoint. rewrite E2. cbn [mbind option_bind].
  set (t := control_text p r g b w tail) in *. replace (k + zlen t - k) with (zlen t) by lia.
  rewrite (u16_small (zlen t)), u16_small by lia. replace (zlen t + 2) with (zlen (t ++ chars "}}")) by (by rewrite zlen_app).
  eapply bslice_drop; [lia|exact Hd].
Qed.

Section Laws.
Context `{Env} `{!Flash} `{!Pwm} {X : Type} `{PL : Part X light_vars} `{PC : Part X control_vars} `{!Apart X control_vars light_vars}.
Implicit Types s : sys X.

Definition C (s : sys X) : control_vars := part (st s).

(** Work that leaves the lamp, its PWM and its timer alone. *)
Lemma wp_control f s (Q : unit -> sys X -> Prop) :
  (forall s', same s s' -> C s' = f (C s) -> Q tt s') -> wp (pmodify f) s Q.
Proof.
  intros HQ. apply wp_pmodify, HQ; [|apply part_set]. split; [|done]. unfold V. cbn [st]. apply part_apart.
Qed.
Lemma wp_print msg s (Q : unit -> sys X -> Prop) : (forall s', same s s' -> C s' = C s -> Q tt s') -> wp (call (os_printf msg)) s Q.
Proof.
  intros HQ. apply wp_call, HQ; [|done]. split; [done|]. split; [unfold R, regs_of|unfold running, armed]; cbn [log]; by rewrite fold_left_app.
Qed.
Lemma wp_prints msgs s (Q : unit -> sys X -> Prop) :
  (forall s', same s s' -> C s' = C s -> Q tt s') -> wp (sfor msgs (λ m, call (os_printf m))) s Q.
Proof.
  revert s Q. induction msgs as [|m msgs IH]; intros s Q HQ; cbn [sfor]; [by apply wp_ret, HQ|].
  apply wp_bind, wp_print. intros s1 HS1 C1. apply IH. intros s2 HS2 C2. apply HQ; [by eapply same_trans|congruence].
Qed.

Lemma set_member_ok pdata c v set msgs s (Q : unit -> sys X -> Prop) : member pdata c = Some (Some v) ->
  (forall s', same s s' -> C s' = set v (C s) -> Q tt s') -> wp (set_member pdata c set msgs) s Q.
Proof.
  intros Em HQ. unfold set_member. apply wp_bind, (wp_lift _ (Some v)); [exact Em|]. apply wp_bind, wp_control. intros s1 HS1 C1.
  apply wp_prints. intros s2 HS2 C2. apply HQ; [by eapply same_trans|congruence].
Qed.

(** The flag is not part of the invariant. *)
Lemma light_ok_flag f s s' :
  V s' = (V s) <| light_sleep_flg := f |> -> R s' = R s -> running s' = running s -> light_ok s -> light_ok s'.
Proof. intros HV HR Ha. unfold light_ok, core, shape, now_, cur_, saved_, out_. rewrite HV, HR, Ha. done. Qed.

Lemma get_duty_ok ch s (Q : Z -> sys X -> Prop) : shape s -> 0 <= ch < 5 -> Q (saved_ s ch) s -> wp (user_light_get_duty ch) s Q.
Proof.
  intros (_ & _ & Hd & _) Hch HQ. apply wp_bind, wp_pvar. apply (wp_lift _ (saved_ s ch)); [apply rd_Some; fold (V s); lia|done].
Qed.

(** The answer: its nonce is that of the request, its period that of the lamp. *)
Lemma get_info_ok msg nonce s :
  light_ok s -> 0 <= reg_period (R s) <= 10000 -> user_esp_platform_parse_nonce msg = Some nonce ->
  wp (user_esp_platform_get_info msg) s (λ _ s', same s s' /\ exists l r g b white, log s' = l ++
    [Do (espconn_sent user_conn (RESPONSE_FRAME nonce (reg_period (R s)) r g b white))]).
Proof.
  intros Hl Hr En. pose proof Hl as ((Hs & _ & Hp & _) & _). unfold user_esp_platform_get_info.
  apply wp_bind, (wp_lift _ nonce); [exact En|]. apply wp_bind, get_duty_ok; [done|unfold LIGHT_COLD_WHITE; lia|].
  apply wp_bind, wp_pvar. fold (V s). rewrite Hp, i32_small by lia.
  do 3 (apply wp_bind, get_duty_ok; [done|unfold LIGHT_RED, LIGHT_GREEN, LIGHT_BLUE; lia|]).
  apply wp_bind, wp_call, wp_call. cbn [log mem st]. split.
  - split; [done|]. split; [unfold R, regs_of|unfold running, armed]; cbn [log]; by rewrite !fold_left_app.
  - by eexists _, _, _, _, _.
Qed.

Lemma set_lamp_ok r g b cw ww p s :
  light_ok s -> Forall (λ d, 0 <= d) [r; g; b; cw; ww] -> 1000 <= p <= 10000 ->
  wp (set_lamp r g b cw ww p) s (λ _ s', light_ok s' /\ fits s' /\
    (forall i, 0 <= i < 5 -> cur_ s' i = aim r g b cw ww p i) /\ reg_period (R s') = p).
Proof.
  intros Hl Harg Hp. apply wp_bind, wp_pvar, wp_bind. apply (wp_mono _ _ (λ _ s', light_ok s')).
  { apply wp_when; [intros _|done]. apply wp_bind, wp_call, wp_bind, wp_call, wp_pmodify. cbn [log mem st].
    eapply (light_ok_flag 0 s); [apply V_set|unfold R, regs_of; cbn [log]; by rewrite !fold_left_app|
      unfold running, armed; cbn [log]; by rewrite !fold_left_app|done]. }
  intros [] s8 Hl8. eapply wp_mono; [apply aim_fits; [apply Hl8|by apply light_ok_aims|done|by apply drivable_range]|].
  intros [] s9. by rewrite aim_period_id by lia.
Qed.

Lemma set_info_ok msg p r g b w nonce s :
  light_ok s -> sets_light msg p r g b w -> 1000 <= p <= 10000 -> user_esp_platform_parse_nonce msg = Some nonce ->
  wp (user_esp_platform_set_info msg) s (λ _ s', light_ok s' /\ fits s' /\ (forall i, 0 <= i < 5 -> cur_ s' i = aim r g b w w p i) /\
    reg_period (R s') = p /\ exists l r' g' b' white, log s' = l ++
      [Do (espconn_sent user_conn (RESPONSE_FRAME nonce p r' g' b' white))]).
Proof.
  intros Hl [(k0 & Hpath) ((k & tail & rest & Ek & Hd & E2 & Hlen) & Hv)] Hp En.
  pose proof (members_ok p r g b w tail Hv) as Hm. cbv zeta in Hm. destruct Hm as (Mx & My & Mz & Mk & Ml).
  unfold user_esp_platform_set_info. apply wp_bind, wp_control. intros s1 HS1 C1. apply wp_bind, wp_control. intros s2 HS2 C2.
  rewrite Hpath, Ek. apply wp_bind. apply wp_bind, (wp_lift _ _ _ _ (datapoint_ok _ _ _ _ _ _ _ _ _ Ek Hd E2 Hlen)).
  apply wp_bind, (set_member_ok _ _ _ _ _ _ _ Mx). intros s3 HS3 C3. apply wp_bind, (set_member_ok _ _ _ _ _ _ _ My). intros s4 HS4 C4.
  apply wp_bind, (set_member_ok _ _ _ _ _ _ _ Mz). intros s5 HS5 C5. apply wp_bind, (set_member_ok _ _ _ _ _ _ _ Mk). intros s6 HS6 C6.
  apply (set_member_ok _ _ _ _ _ _ _ Ml). intros s7 HS7 C7.
  assert (Hs7 : same s s7) by (repeat (eapply same_trans; [eassumption|]); by split_and!).
  assert (HC : C s7 = mk_control r g b w w p) by (rewrite C7, C6, C5, C4, C3; done).
  pose proof (light_ok_same _ _ Hs7 Hl) as Hl7. clear C1 C2 C3 C4 C5 C6 C7 HS1 HS2 HS3 HS4 HS5 HS6 HS7.
  apply wp_bind, wp_pvar. fold (C s7). rewrite HC. cbn [rr gg bb cw ww ctl_period].
  apply wp_bind. eapply wp_mono; [apply set_lamp_ok; [done| |done]|].
  { repeat (apply Forall_cons_1 in Hv as [? Hv]). repeat (apply Forall_cons_2; [lia|]). apply Forall_nil_2. }
  intros [] s9 (Hl9 & Hf9 & Hc9 & Hp9). eapply wp_mono; [apply get_info_ok; done || lia|]. intros [] s10 (HS10 & l & r' & g' & b' & wh & Hlog).
  split; [by apply (light_ok_same s9)|]. split; [by apply (fits_same s9)|]. split; [|split].
  - intros i Hi. rewrite (same_cur _ _ i HS10). by apply Hc9.
  - destruct HS10 as (_ & -> & _). done.
  - exists l, r', g', b', wh. rewrite Hlog, Hp9. done.
Qed.

(** A request of the cloud sets the lamp.  After any use of the lamp, a
    message that names period and colours as the cloud writes them is answered
    with its own nonce, and within 250 runs of its timer the lamp shows
    that colour, each channel limited to what the period allows; both white
    channels take the one white value. *)
Theorem cloud_sets_lamp s0 :
  V s0 = light_initial -> Forall is_byte (stored s0) -> bright (stored s0) ->
  exists s1, user_light_init s0 = Some (tt, s1) /\ forall s, rtc light_step s1 s ->
    forall msg p r g b w nonce, sets_light msg p r g b w -> 1000 <= p <= 10000 ->
      user_esp_platform_parse_nonce msg = Some nonce ->
      wp (user_esp_platform_set_info msg) s (λ _ s2,
        (exists l r' g' b' white, log s2 = l ++ [Do (espconn_sent user_conn (RESPONSE_FRAME nonce p r' g' b' white))]) /\
        wp (fade 250) s2 (λ _ s3, running s3 = false /\ shows p (aim r g b w w p) s3)).
Proof.
  intros Hini Hby Hbr. destruct (user_light_init_ok s0 Hini Hby Hbr) as ([] & s1 & E & Hl1). exists s1. split; [done|].
  intros s Hs msg p r g b w nonce Hmsg Hp En. pose proof (light_reach_ok s1 s Hl1 Hs) as Hl.
  eapply wp_mono; [by apply (set_info_ok msg p r g b w nonce)|]. intros [] s2 (Hl2 & Hf2 & Hc2 & Hp2 & Hlog). split; [exact Hlog|].
  eapply wp_mono; [by apply (fade_shows p (aim r g b w w p))|]. by intros [] s3 [_ ?].
Qed.
End Laws.

(** ** The theorem at a concrete input *)

Definition controlled : Type := light_vars * control_vars.
Instance controlled_light : Part controlled light_vars.
Proof. refine (mk_part controlled light_vars fst (λ y x, (y, snd x)) _ _ _); [done|done|by intros []]. Defined.
Instance controlled_vars : Part controlled control_vars.
Proof. refine (mk_part controlled control_vars snd (λ y x, (fst x, y)) _ _ _); [done|done|by intros []]. Defined.
Instance controlled_apart : Apart controlled control_vars light_vars.
Proof. by constructor. Defined.

Definition request : list Z :=
  [123] ++ LIGHT_PATH ++ chars "," ++ NONCE_KEY ++ chars "7," ++ quoted "body" ++ chars ": " ++
  control_text 1000 22222 0 50 300 (quoted "at" ++ chars ": 1") ++ chars "}}" ++ chars "}".

Lemma cloud_sets_lamp_witness :
  exists s1, @user_light_init lamp (lamp_flash orange) _ controlled_light (mk_sys [] ∅ (light_initial, control_initial)) = Some (tt, s1) /\
    wp (@user_esp_platform_set_info lamp _ controlled_light controlled_vars request) s1 (λ _ s2,
      wp (@fade lamp _ _ 250) s2 (λ _ s3, @shows lamp lamp_laws _ 1000 (aim 22222 0 50 300 300 1000) s3)).
Proof.
  destruct (@cloud_sets_lamp lamp (lamp_flash orange) lamp_laws controlled _ _ _ (mk_sys [] ∅ (light_initial, control_initial)))
    as (s1 & E & HI).
  - reflexivity.
  - bytes_tac.
  - intros i Hi. assert (Hc : i = 0 \/ i = 1 \/ i = 2 \/ i = 3 \/ i = 4) by lia.
    destruct Hc as [-> | [-> | [-> | [-> | ->]]]]; vm_compute; intuition congruence.
  - exists s1. split; [exact E|].
    destruct (HI s1 (rtc_refl _ _) request 1000 22222 0 50 300 7) as ([] & s2 & E2 & _ & s3 & E3).
    + split; [exists 1; vm_compute; reflexivity|]. split.
      * exists 63, (quoted "at" ++ chars ": 1"), (chars "}"). split; [vm_compute; reflexivity|].
        split; [vm_compute; reflexivity|]. split; vm_compute; reflexivity.
      * repeat (apply Forall_cons_2; [lia|]). apply Forall_nil_2.
    + lia.
    + vm_compute. reflexivity.
    + exists tt, s2. split; [exact E2|]. destruct E3 as (s4 & E3 & _ & Hsh). exists s3, s4. split; [exact E3|exact Hsh].
Defined.
