(* ===== verification/IotHttp.v ===== *)
(** * IotHttp: the requests and answers of the IoT demo's web server

    The transport half of IoT_Demo/user/user_webserver.c: reading the request
    line, collecting the segments of a request, answering, and receiving a new
    firmware image.  Received data is a block that ends in a zero byte, as the
    SDK delivers it; the blocks of [os_zalloc] and the local arrays are not
    shared and are modelled as values; [os_zalloc] succeeds. *)

From Stdlib Require Import String.
From stdpp Require Import gmap.
From S2P Require Import Prelude CMem CString Board UartDriver.
Local Open Scope string_scope.
Local Open Scope Z_scope.
Local Open Scope sm_scope.
Local Open Scope list_scope.

(** [os_strstr( b + o, p )] as an offset into [b]; the string must end in the block. *)
Definition os_strstr (b : list Z) (o : Z) (p : list Z) : option (option Z) :=
  s ← cstr b o; Some (k ← strstr s p; Some (o + k)).

(** Whether [b] begins with [p]: [os_strncmp( b, p, n ) == 0] for a [p] of [n]
    characters, and with the zero at the end of [p] [os_strcmp( b, p ) == 0]. *)
Fixpoint begins (b p : list Z) : option bool :=
  match p, b with
  | [], _ => Some true
  | _, [] => None
  | x :: p, y :: b => if x =? y then begins b p else Some false
  end.
Definition os_strcmp_eq (b p : list Z) : option bool := begins b (p ++ [0]).

Definition CRLF : list Z := [13; 10].
Definition HEAD_END : list Z := CRLF ++ CRLF.
Definition CONTENT_LENGTH : list Z := chars "Content-Length: ".

(** The number written from [o] to [e], read through a buffer of [n] bytes. *)
Definition number_field (n : nat) (b : list Z) (o e : Z) : option Z :=
  s ← bslice b o (e - o); length_buf ← bsplice (replicate n 0) 0 s; v ← atoi length_buf; Some (u32 v).

(** ** [parse_url] *)

Inductive ProtocolType := GET | POST.
Record URL_Frame := mk_url { Type_ : ProtocolType; pSelect : list Z; pCommand : list Z; pFilename : list Z }.
#[export] Instance eta_url : Settable URL_Frame := λ f, mk_url (Type_ f) (pSelect f) (pCommand f) (pFilename f).

Definition URLSize : nat := 10.
(** A block of [os_zalloc( sizeof(URL_Frame) )]. *)
Definition zero_frame : URL_Frame := mk_url GET (replicate URLSize 0) (replicate URLSize 0) (replicate URLSize 0).

(** Copy the text from [o] to [e] to the beginning of [field]; the length is an unsigned char. *)
Definition copy_field (pbuffer field : list Z) (o e : Z) : option (list Z) :=
  s ← bslice pbuffer o (u8 (e - o)); bsplice field 0 s.

(** What follows the "=". *)
Definition parse_filename (pbuffer : list Z) (o : Z) (f : URL_Frame) : option URL_Frame :=
  str ← os_strstr pbuffer o (chars "&");
  match str with
  | Some str => n ← copy_field pbuffer (pFilename f) o str; Some (f <| pFilename := n |>)
  | None =>
      str ← os_strstr pbuffer o (chars " HTTP");
      match str with
      | Some str => n ← copy_field pbuffer (pFilename f) o str; Some (f <| pFilename := n |>)
      | None => Some f
      end
  end.

(** What follows the method and the character after it. *)
Definition parse_path (pbuffer : list Z) (o : Z) (f : URL_Frame) : option URL_Frame :=
  str ← os_strstr pbuffer o (chars "?");
  match str with
  | None => Some f
  | Some str =>
      s ← copy_field pbuffer (pSelect f) o str;
      let f := f <| pSelect := s |> in
      let o := str + 1 in
      e ← os_strstr pbuffer o (chars "=");
      match e with
      | None => Some f
      | Some e => c ← copy_field pbuffer (pCommand f) o e; parse_filename pbuffer (e + 1) (f <| pCommand := c |>)
      end
  end.

Definition parse_url (precv : option (list Z)) (purl_frame : URL_Frame) : option URL_Frame :=
  match precv with
  | None => Some purl_frame
  | Some precv =>
      host ← os_strstr precv 0 (chars "Host:");
      match host with
      | None => Some purl_frame
      | Some host =>
          let length := u8 host in
          line ← bslice precv 0 length;
          pbuffer ← bsplice (replicate (Z.to_nat (length + 1)) 0) 0 line;
          let f := mk_url (Type_ purl_frame) (replicate URLSize 0) (replicate URLSize 0) (replicate URLSize 0) in
          get ← begins pbuffer (chars "GET ");
          if get : bool then parse_path pbuffer (4 + 1) (f <| Type_ := GET |>)
          else
            post ← begins pbuffer (chars "POST ");
            if post : bool then parse_path pbuffer (5 + 1) (f <| Type_ := POST |>) else parse_path pbuffer 1 f
      end
  end.

(** ** The static variables *)

Record http_vars := mk_http {
  precvbuffer : option (list Z); dat_sumlength : Z; save_totallength : Z;
  upgrade_lock : Z; totallength : Z; sumlength : Z; erase_length : Z }.
#[export] Instance eta_http : Settable http_vars := λ v, mk_http (precvbuffer v) (dat_sumlength v) (save_totallength v)
  (upgrade_lock v) (totallength v) (sumlength v) (erase_length v).
Definition http_initial : http_vars := mk_http None 0 0 0 0 0 0.

(** include/upgrade.h *)
Definition LIMIT_ERASE_SIZE : Z := 0x10000.
Definition UPGRADE_FLAG_IDLE : Z := 0.
Definition UPGRADE_FLAG_START : Z := 1.
Definition UPGRADE_FLAG_FINISH : Z := 2.

Section Http.
Context `{Env} {X : Type} `{PH : Part X http_vars}.

(** ** [check_data] and [save_data] *)

Definition check_data (precv : list Z) (length : Z) : F X bool :=
  ptemp <- slift (os_strstr precv 0 HEAD_END) ;;
  match ptemp with
  | None => sret true
  | Some ptemp =>
      let tmp_totallength := u16 (u16 (length - ptemp) - 4) in
      pdata <- slift (os_strstr precv 0 CONTENT_LENGTH) ;;
      match pdata with
      | None => sret true
      | Some pdata =>
          let pdata := pdata + 16 in
          e <- slift (os_strstr precv pdata CRLF) ;;
          match e with
          | None => sret true
          | Some e =>
              n <- slift (number_field 10 precv pdata e) ;;
              pmodify (λ v, v <| dat_sumlength := n |>) ;;
              call (os_printf "A_dat:%u,tot:%u,lenght:%u\n") ;;
              sret (n =? tmp_totallength)
          end
      end
  end.

Definition reset_lengths : F X unit := pmodify (λ v, v <| save_totallength := 0 |> <| dat_sumlength := 0 |>).

(** Whether everything has arrived. *)
Definition data_complete : F X bool :=
  t <- pvar save_totallength ;; d <- pvar dat_sumlength ;;
  if t =? d then reset_lengths ;; sret true else sret false.

(** A new [precvbuffer] for the request that begins with [precv]. *)
Definition keep_request (precv : list Z) (headlength : Z) : F X unit :=
  d <- pvar dat_sumlength ;;
  if 1024 <=? u32 (d + headlength) then
    s <- slift (bslice precv 0 (headlength + 1)) ;;
    b <- slift (bsplice (replicate (Z.to_nat (headlength + 1)) 0) 0 s) ;;
    pmodify (λ v, v <| precvbuffer := Some b |>)
  else
    s <- slift (cstr precv 0) ;;
    b <- slift (bsplice (replicate (Z.to_nat (u32 (d + headlength + 1))) 0) 0 s) ;;
    pmodify (λ v, v <| precvbuffer := Some b |>).

(** The place of the "\r\n" that [precvbuffer] holds for a moment is only compared with null. *)
Definition save_data (precv : list Z) (length : Z) : F X bool :=
  ptemp <- slift (os_strstr precv 0 HEAD_END) ;;
  match ptemp with
  | Some ptemp =>
      let length := u16 (u16 (length - ptemp) - 4) in
      pmodify (λ v, v <| save_totallength := u32 (save_totallength v + length) |>) ;;
      let headlength := u16 (ptemp + 4) in
      pdata <- slift (os_strstr precv 0 CONTENT_LENGTH) ;;
      match pdata with
      | Some pdata =>
          let pdata := pdata + 16 in
          e <- slift (os_strstr precv pdata CRLF) ;;
          match e with
          | Some e => n <- slift (number_field 10 precv pdata e) ;; pmodify (λ v, v <| dat_sumlength := n |>)
          | None => sret tt
          end ;;
          keep_request precv headlength ;; data_complete
      | None =>
          t <- pvar save_totallength ;;
          if negb (t =? 0) then reset_lengths ;; sret false
          else keep_request precv headlength ;; data_complete
      end
  | None =>
      p <- pvar precvbuffer ;;
      match p with
      | Some b =>
          pmodify (λ v, v <| save_totallength := u32 (save_totallength v + length) |>) ;;
          s <- slift (string_of b) ;;
          d <- slift (bslice precv 0 length) ;;
          b <- slift (bsplice b (zlen s) d) ;;
          pmodify (λ v, v <| precvbuffer := Some b |>) ;;
          data_complete
      | None => reset_lengths ;; sret false
      end
  end.

(** ** [data_send] *)

Definition ok_head (n : Z) : list Z :=
  chars "HTTP/1.0 200 OK" ++ CRLF ++ chars "Content-Length: " ++ percent_d n ++ CRLF ++ chars "Server: lwIP/1.4.0" ++ CRLF.
Definition json_head : list Z :=
  chars "Content-type: application/json" ++ CRLF ++ chars "Expires: Fri, 10 Apr 2008 14:00:00 GMT" ++ CRLF ++
  chars "Pragma: no-cache" ++ CRLF ++ CRLF.
Definition bad_head : list Z :=
  chars "HTTP/1.0 400 BadRequest" ++ CRLF ++ chars "Content-Length: 0" ++ CRLF ++ chars "Server: lwIP/1.4.0" ++ CRLF ++ [10].

(** The string [s] printed into [httphead]. *)
Definition httphead (s : list Z) : option (list Z) := bsplice (replicate 256 0) 0 (s ++ [0]).

(** The first [length] bytes of [b] are sent; the SDK refuses a null connection. *)
Definition send_bytes (c : option conn) (b : list Z) (length : Z) : F X unit :=
  d <- slift (bslice b 0 length) ;;
  match c with Some c => call (espconn_sent c d) | None => sret tt end.

(** An answer of failure is never given with a text ([pbuf] would be null). *)
Definition data_send (arg : option conn) (responseOK : bool) (psend : option (list Z)) : F X unit :=
  match responseOK, psend with
  | true, Some b =>
      s <- slift (string_of b) ;;
      let head := ok_head (zlen s) ++ json_head in
      _ <- slift (httphead head) ;;
      let length := u16 (zlen head + zlen s) in
      pbuf <- slift (bsplice (replicate (Z.to_nat (length + 1)) 0) 0 head) ;;
      pbuf <- slift (bsplice pbuf (zlen head) s) ;;
      send_bytes arg pbuf length
  | true, None =>
      let head := ok_head 0 ++ [10] in
      b <- slift (httphead head) ;; send_bytes arg b (u16 (zlen head))
  | false, None => b <- slift (httphead bad_head) ;; send_bytes arg b (u16 (zlen bad_head))
  | false, Some _ => slift None
  end.

Definition response_send (arg : option conn) (responseOK : bool) : F X unit := data_send arg responseOK None.

(** ** The firmware image *)

Definition upgrade_check_func (arg : option conn) : F X unit :=
  call (os_timer_disarm upgrade_check_timer) ;;
  f <- ask system_upgrade_flag_check ;;
  if u8 f =? UPGRADE_FLAG_START then
    response_send arg false ;;
    call system_upgrade_deinit ;;
    call (system_upgrade_flag_set UPGRADE_FLAG_IDLE) ;;
    pmodify (λ v, v <| upgrade_lock := 0 |>) ;;
    call (os_printf "local upgrade failed\n")
  else
    f <- ask system_upgrade_flag_check ;;
    swhen (u8 f =? UPGRADE_FLAG_FINISH) (
      call (os_printf "local upgrade success\n") ;;
      response_send arg true ;;
      pmodify (λ v, v <| upgrade_lock := 0 |>)).

Definition local_upgrade_deinit : F X unit :=
  f <- ask system_upgrade_flag_check ;;
  swhen (negb (u8 f =? UPGRADE_FLAG_START)) (
    call (os_printf "system upgrade deinit\n") ;;
    call system_upgrade_deinit).

(** The part of [local_upgrade_download] after a segment was passed on. *)
Definition download_done (pespconn : conn) : F X unit :=
  t <- pvar totallength ;; n <- pvar sumlength ;;
  swhen (t =? n) (
    call (os_printf "upgrade file download finished.\n") ;;
    call (system_upgrade_flag_set UPGRADE_FLAG_FINISH) ;;
    pmodify (λ v, v <| totallength := 0 |> <| sumlength := 0 |>) ;;
    upgrade_check_func (Some pespconn) ;;
    call (os_timer_disarm app_upgrade_10s) ;;
    call (os_timer_setfn app_upgrade_10s fp_local_upgrade_deinit) ;;
    call (os_timer_arm app_upgrade_10s 10 0)).

(** The segment with the head of the request. *)
Definition download_first (pespconn : conn) (pusrdata : list Z) (length : Z) : F X unit :=
  ptr <- slift (os_strstr pusrdata 0 CONTENT_LENGTH) ;;
  n <- match ptr with
       | None => call (os_printf "Content-Length: failed\n") ;; sret None
       | Some ptr =>
           let ptr := ptr + 16 in
           e <- slift (os_strstr pusrdata ptr CRLF) ;;
           match e with
           | None => call (os_printf "sumlength failed\n") ;; sret None
           | Some e => n <- slift (number_field 32 pusrdata ptr e) ;; pmodify (λ v, v <| sumlength := n |>) ;; sret (Some n)
           end
       end ;;
  if bool_decide (n = Some 0) then
    call (os_timer_disarm upgrade_check_timer) ;;
    call (os_timer_setfn upgrade_check_timer (fp_upgrade_check_func (Some pespconn))) ;;
    call (os_timer_arm upgrade_check_timer 10 0)
  else
    n <- pvar sumlength ;;
    swhen (negb (n =? 0)) (
      if LIMIT_ERASE_SIZE <=? n then
        call (system_upgrade_erase_flash 0xFFFF) ;;
        pmodify (λ v, v <| erase_length := u32 (n - LIMIT_ERASE_SIZE) |>)
      else
        call (system_upgrade_erase_flash n) ;;
        pmodify (λ v, v <| erase_length := 0 |>)) ;;
    ptr <- slift (os_strstr pusrdata 0 HEAD_END) ;;
    ptr <- slift ptr ;;
    let length := u16 (u16 (length - ptr) - 4) in
    pmodify (λ v, v <| totallength := u32 (totallength v + length) |>) ;;
    call (os_printf "upgrade file download start.\n") ;;
    d <- slift (bslice pusrdata (ptr + 4) length) ;;
    call (system_upgrade d) ;;
    download_done pespconn.

(** Every other segment. *)
Definition download_next (pespconn : conn) (pusrdata : list Z) (length : Z) : F X unit :=
  pmodify (λ v, v <| totallength := u32 (totallength v + length) |>) ;;
  e <- pvar erase_length ;;
  (if LIMIT_ERASE_SIZE <=? e then
     call (system_upgrade_erase_flash 0xFFFF) ;;
     pmodify (λ v, v <| erase_length := u32 (e - LIMIT_ERASE_SIZE) |>)
   else
     call (system_upgrade_erase_flash e) ;;
     pmodify (λ v, v <| erase_length := 0 |>)) ;;
  d <- slift (bslice pusrdata 0 length) ;;
  call (system_upgrade d) ;;
  download_done pespconn.

Definition local_upgrade_download (pespconn : conn) (pusrdata : list Z) (length : Z) : F X unit :=
  t <- pvar totallength ;;
  first <- (if t =? 0 then
              p <- slift (os_strstr pusrdata 0 HEAD_END) ;;
              match p with
              | None => sret false
              | Some _ => p <- slift (os_strstr pusrdata 0 (chars "Content-Length")) ;; sret (bool_decide (p ≠ None))
              end
            else sret false) ;;
  if first : bool then download_first pespconn pusrdata length else download_next pespconn pusrdata length.
End Http.

(** ** Reading a block from a position on *)

(** From offset [o] the block [b] holds [x]. *)
Definition holds (b : list Z) (o : Z) (x : list Z) : Prop := 0 <= o <= zlen b /\ drop (Z.to_nat o) b = x.

Lemma holds_all b : holds b 0 b.
Proof. split; [pose proof (zlen_nonneg b); lia|done]. Qed.
Lemma holds_skip b o x y : holds b o (x ++ y) -> holds b (o + zlen x) y.
Proof.
  intros [Ho E]. pose proof (zlen_nonneg x). pose proof (zlen_nonneg y).
  assert (Hz : zlen (drop (Z.to_nat o) b) = zlen x + zlen y) by (rewrite E; zlia). rewrite zlen_drop in Hz. split; [lia|].
  replace (Z.to_nat (o + zlen x)) with (Z.to_nat o + Z.to_nat (zlen x))%nat by lia. by rewrite <- drop_drop, E, drop_zlen_app.
Qed.
Lemma holds_slice b o x r : holds b o (x ++ r) -> bslice b o (zlen x) = Some x.
Proof. intros [Ho E]. by eapply bslice_drop. Qed.
Lemma holds_cstr b o s r : no_char 0 s -> holds b o (s ++ 0 :: r) -> cstr b o = Some s.
Proof. intros Hs [_ E]. unfold cstr. rewrite E. by apply string_of_app. Qed.
Lemma holds_strstr b o s r p : no_char 0 s -> holds b o (s ++ 0 :: r) ->
  os_strstr b o p = Some (k ← strstr s p; Some (o + k)).
Proof. intros Hs Hb. unfold os_strstr. by rewrite (holds_cstr _ _ _ _ Hs Hb). Qed.

Lemma begins_app p r : begins (p ++ r) p = Some true.
Proof. induction p as [|x p IH]; [by destruct r|]. cbn. by rewrite Z.eqb_refl. Qed.

(** ** The request line *)

Definition pad (n : nat) (s : list Z) : list Z := s ++ replicate (n - length s) 0.

Lemma copy_field_ok b o x r e : holds b o (x ++ r) -> e = o + zlen x -> zlen x <= 10 ->
  copy_field b (replicate URLSize 0) o e = Some (pad URLSize x).
Proof.
  intros Hb -> Hx. pose proof (zlen_nonneg x). unfold copy_field. replace (o + zlen x - o) with (zlen x) by lia.
  rewrite u8_small by lia. rewrite (holds_slice _ _ _ _ Hb). cbn [mbind option_bind]. apply bsplice_zeros. unfold URLSize. lia.
Qed.

(** The characters of a name in a request line: not one of "\0 &:=?". *)
Definition plain (s : list Z) : Prop := Forall (λ c, existsb (Z.eqb c) [0; 32; 38; 58; 61; 63] = false) s.
Lemma plain_no_char s c : plain s -> existsb (Z.eqb c) [0; 32; 38; 58; 61; 63] = true -> no_char c s.
Proof. intros Hs Hc. eapply List.Forall_impl; [|exact Hs]. cbv beta. intros x Hx ->. congruence. Qed.

Definition method (ty : ProtocolType) : list Z := match ty with GET => chars "GET " | POST => chars "POST " end.
Definition print_url (ty : ProtocolType) (sel cmd file : list Z) : list Z :=
  method ty ++ chars "/" ++ sel ++ chars "?" ++ cmd ++ chars "=" ++ file ++ chars " HTTP/1.1" ++ CRLF.

Lemma parse_path_ok b o sel cmd file f r :
  plain sel -> plain cmd -> plain file -> zlen sel <= 10 -> zlen cmd <= 10 -> zlen file <= 10 ->
  pSelect f = replicate URLSize 0 -> pCommand f = replicate URLSize 0 -> pFilename f = replicate URLSize 0 ->
  holds b o (sel ++ chars "?" ++ cmd ++ chars "=" ++ file ++ (chars " HTTP/1.1" ++ CRLF) ++ 0 :: r) ->
  parse_path b o f = Some (mk_url (Type_ f) (pad URLSize sel) (pad URLSize cmd) (pad URLSize file)).
Proof.
  intros Ps Pc Pf Ls Lc Lf Es Ec Ef Hb.
  assert (Hz : forall s, plain s -> no_char 0 s) by (intros s Hs; by apply plain_no_char).
  assert (Hn : forall c s, plain s -> existsb (Z.eqb c) [0; 32; 38; 58; 61; 63] = true -> no_char c s) by (intros; by apply plain_no_char).
  set (tail := chars " HTTP/1.1" ++ CRLF) in *. assert (Ht : no_char 0 tail /\ no_char 38 tail) by (split; by repeat constructor).
  destruct Ht as [Ht Ht'].
  unfold parse_path. rewrite (holds_strstr b o (sel ++ chars "?" ++ cmd ++ chars "=" ++ file ++ tail) r);
    [|repeat (apply Forall_app; split); (by apply Hz) || (by repeat constructor)|by rewrite <- !app_assoc].
  cbn [mbind option_bind]. change (chars "?" ++ cmd ++ chars "=" ++ file ++ tail) with (63 :: cmd ++ chars "=" ++ file ++ tail).
  change (chars "?") with [63]. rewrite strstr_char by (by apply Hn). cbn [mbind option_bind].
  rewrite Es, (copy_field_ok _ _ _ _ _ Hb eq_refl Ls). cbn [mbind option_bind].
  assert (Hb2 := holds_skip _ _ _ _ (holds_skip _ _ _ _ Hb)). change (zlen (chars "?")) with 1 in Hb2.
  rewrite (holds_strstr b (o + zlen sel + 1) (cmd ++ chars "=" ++ file ++ tail) r);
    [|repeat (apply Forall_app; split); (by apply Hz) || (by repeat constructor)|by rewrite <- !app_assoc].
  cbn [mbind option_bind]. change (chars "=" ++ file ++ tail) with (61 :: file ++ tail).
  change (chars "=") with [61]. rewrite strstr_char by (by apply Hn). cbn [mbind option_bind].
  assert (Ec' : pCommand (f <| pSelect := pad URLSize sel |>) = replicate URLSize 0) by exact Ec.
  rewrite Ec', (copy_field_ok _ _ _ _ _ Hb2 eq_refl Lc). cbn [mbind option_bind].
  assert (Hb3 := holds_skip _ _ _ _ (holds_skip _ _ _ _ Hb2)). change (zlen (chars "=")) with 1 in Hb3.
  unfold parse_filename. rewrite !(holds_strstr b (o + zlen sel + 1 + zlen cmd + 1) (file ++ tail) r);
    [|by apply Forall_app; split; [apply Hz|]|by rewrite <- !app_assoc|by apply Forall_app; split; [apply Hz|]|by rewrite <- !app_assoc].
  cbn [mbind option_bind]. change (chars "&") with [38]. rewrite strstr_char_none by (apply Forall_app; split; [by apply Hn|done]).
  cbn [mbind option_bind]. replace (file ++ tail) with (file ++ (32 :: chars "HTTP") ++ chars "/1.1" ++ CRLF) by done.
  change (chars " HTTP") with (32 :: chars "HTTP"). rewrite strstr_head by (by apply Hn). cbn [mbind option_bind].
  assert (Ef' : pFilename (f <| pSelect := pad URLSize sel |> <| pCommand := pad URLSize cmd |>) = replicate URLSize 0) by exact Ef.
  rewrite Ef', (copy_field_ok _ _ _ _ _ Hb3 eq_refl Lf). done.
Qed.

(** The web server reads the request line it is sent: the method and the three
    names (of at most ten characters) of the first line of a request come back
    from [parse_url], whatever follows "Host:". *)
Theorem parse_print_url ty sel cmd file rest r f :
  plain sel -> plain cmd -> plain file -> zlen sel <= 10 -> zlen cmd <= 10 -> zlen file <= 10 -> no_char 0 rest ->
  parse_url (Some (print_url ty sel cmd file ++ chars "Host:" ++ rest ++ 0 :: r)) f =
  Some (mk_url ty (pad URLSize sel) (pad URLSize cmd) (pad URLSize file)).
Proof.
  intros Ps Pc Pf Ls Lc Lf Hr. set (line := print_url ty sel cmd file).
  assert (Hl0 : forall c, c = 0 \/ c = 58 -> no_char c line).
  { intros c Hc. unfold line, print_url. destruct Hc as [-> | ->], ty; repeat (apply Forall_app; split);
      (by apply plain_no_char) || (by repeat constructor). }
  pose proof (zlen_nonneg sel). pose proof (zlen_nonneg cmd). pose proof (zlen_nonneg file).
  assert (Hlen : 0 <= zlen line < 255).
  { unfold line, print_url. assert (Hm : 0 <= zlen (method ty) <= 5) by (destruct ty; vm_compute; intuition congruence). rewrite !zlen_app.
    change (zlen (chars "/")) with 1. change (zlen (chars "?")) with 1. change (zlen (chars "=")) with 1.
    change (zlen (chars " HTTP/1.1")) with 9. change (zlen CRLF) with 2. lia. }
  unfold parse_url. rewrite (holds_strstr _ 0 (line ++ chars "Host:" ++ rest) r).
  2: { apply Forall_app; split; [apply Hl0; by left|apply Forall_app; split; [by repeat constructor|done]]. }
  2: { rewrite <- !app_assoc. apply holds_all. }
  cbn [mbind option_bind]. change (chars "Host:" ++ rest) with (chars "Host" ++ 58 :: rest).
  change (chars "Host:") with (chars "Host" ++ [58]) at 1.
  rewrite strstr_last by (apply Forall_app; split; [apply Hl0; by right|by repeat constructor]).
  cbn [mbind option_bind]. rewrite u8_small by lia. replace (0 + zlen line) with (zlen line) by lia.
  rewrite (holds_slice _ 0 line (chars "Host:" ++ rest ++ 0 :: r)) by apply holds_all. cbn [mbind option_bind].
  rewrite bsplice_zeros by lia. replace (Z.to_nat (zlen line + 1) - length line)%nat with 1%nat by (unfold zlen in *; lia).
  change (replicate 1 0) with [0]. cbn [mbind option_bind].
  assert (Hh : holds (line ++ [0]) (match ty with GET => 5 | POST => 6 end)
    (sel ++ chars "?" ++ cmd ++ chars "=" ++ file ++ (chars " HTTP/1.1" ++ CRLF) ++ 0 :: [])).
  { replace (match ty with GET => 5 | POST => 6 end) with (0 + zlen (method ty ++ chars "/")) by (by destruct ty).
    apply holds_skip. unfold line, print_url. rewrite <- !app_assoc. apply holds_all. }
  destruct ty; [assert (E : begins (line ++ [0]) (chars "GET ") = Some true) by (unfold line, print_url; rewrite <- app_assoc; apply begins_app)
    |assert (E : begins (line ++ [0]) (chars "GET ") = Some false /\ begins (line ++ [0]) (chars "POST ") = Some true)
       by (split; [done|unfold line, print_url; rewrite <- app_assoc; apply begins_app]); destruct E as [E E2]].
  - rewrite E. cbn [mbind option_bind]. by rewrite (parse_path_ok _ _ sel cmd file _ []).
  - rewrite E, E2. cbn [mbind option_bind]. by rewrite (parse_path_ok _ _ sel cmd file _ []).
Qed.

(** ** The head of a request *)

(** [head] ends with its only empty line and says that [n] bytes follow. *)
Definition request_head (head : list Z) (n : Z) : Prop :=
  no_char 0 head /\ strstr head HEAD_END = Some (zlen head - 4) /\
  exists j r, strstr head CONTENT_LENGTH = Some j /\ drop (Z.to_nat (j + 16)) head = decimal n ++ CRLF ++ r.

(** What the string functions find in a segment that begins with it. *)
Lemma head_found head n body : request_head head n -> 0 <= n ->
  let b := head ++ body ++ [0] in exists j,
  os_strstr b 0 HEAD_END = Some (Some (zlen head - 4)) /\
  os_strstr b 0 CONTENT_LENGTH = Some (Some j) /\ os_strstr b 0 (chars "Content-Length") ≠ Some None /\
  os_strstr b 0 (chars "Content-Length") ≠ None /\
  os_strstr b (j + 16) CRLF = Some (Some (j + 16 + zlen (decimal n))) /\
  exists r, holds b (j + 16) (decimal n ++ r).
Proof.
  intros (H0 & Hend & j & r & Hcl & Hd) Hn b. exists j. destruct (string_of_ends body) as [q Hq].
  assert (Hs : cstr b 0 = Some (head ++ q)) by (unfold b, cstr; change (Z.to_nat 0) with 0%nat; by rewrite drop_0, string_of_prefix, Hq).
  assert (Hj : 0 <= j /\ j + 16 <= zlen head) by (apply strstr_range in Hcl as [? Hc]; by change (zlen CONTENT_LENGTH) with 16 in Hc).
  unfold os_strstr. rewrite Hs. cbn [mbind option_bind].
  rewrite (strstr_more _ _ q _ Hend), (strstr_more _ _ q _ Hcl). cbn [mbind option_bind].
  assert (Hpre : strstr (head ++ q) (chars "Content-Length") ≠ None).
  { apply (strstr_begin _ _ (chars ": ") j). exact (strstr_more _ _ q _ Hcl). }
  assert (Hh : holds b (j + 16) ((decimal n ++ CRLF ++ r) ++ body ++ [0])).
  { split; [unfold b; rewrite zlen_app; pose proof (zlen_nonneg (body ++ [0])); lia|]. unfold b. rewrite drop_app_le, Hd; [done|unfold zlen in *; lia]. }
  assert (Hdr : no_char 0 (decimal n ++ CRLF ++ r)) by (rewrite <- Hd; by apply Forall_drop).
  split; [by f_equal|]. split; [done|]. split; [by destruct (strstr (head ++ q) _)|]. split; [done|]. split.
  - destruct Hh as [_ Hh]. unfold cstr. rewrite Hh, string_of_prefix, Hq by done. cbn [fmap option_fmap option_map mbind option_bind].
    replace ((decimal n ++ CRLF ++ r) ++ q) with (decimal n ++ CRLF ++ r ++ q) by (by rewrite <- !app_assoc).
    unfold CRLF. rewrite strstr_head; [done|]. apply isdigit_no_char; [done|]. by apply decimal_digits.
  - exists ((CRLF ++ r) ++ body ++ [0]). by rewrite app_assoc.
Qed.

Lemma number_ok w b o n r : holds b o (decimal n ++ r) -> 0 <= n < 2147483648 -> zlen (decimal n) < Z.of_nat w ->
  number_field w b o (o + zlen (decimal n)) = Some n.
Proof.
  intros Hb Hn Hw. unfold number_field. replace (o + zlen (decimal n) - o) with (zlen (decimal n)) by lia.
  rewrite (holds_slice _ _ _ _ Hb). cbn [mbind option_bind]. rewrite bsplice_zeros by lia. cbn [mbind option_bind].
  destruct (w - length (decimal n))%nat as [|k] eqn:E; [unfold zlen in Hw; lia|]. cbn [replicate].
  rewrite atoi_decimal by done. cbn [mbind option_bind]. by rewrite u32_small by lia.
Qed.

(** ** A firmware image *)

(** What [espconn_sent] was given for connection [c], and [system_upgrade]. *)
Definition answers (c : conn) (l : list event) : list (list Z) :=
  flat_map (λ e, match e with Do (espconn_sent c' d) => if bool_decide (c' = c) then [d] else [] | _ => [] end) l.
Definition image (l : list event) : list Z :=
  flat_map (λ e, match e with Do (system_upgrade d) => d | _ => [] end) l.

Definition answer (ok : bool) : list Z := if ok then ok_head 0 ++ [10] else bad_head.

Lemma answers_app c l k : answers c (l ++ k) = answers c l ++ answers c k.
Proof. apply flat_map_app. Qed.
Lemma image_app l k : image (l ++ k) = image l ++ image k.
Proof. apply flat_map_app. Qed.

(** The SDK's upgrade flag is what the firmware set last. *)
Definition last_flag (l : list event) : Z :=
  fold_left (λ f e, match e with Do (system_upgrade_flag_set x) => u8 x | _ => f end) l UPGRADE_FLAG_IDLE.
Class UpgradeFlag `{Env} := flag_check : forall l, u8 (u32 (sdk_ret l system_upgrade_flag_check)) = last_flag l.

Section Upgrade.
Context `{Env} `{!UpgradeFlag} {X : Type} `{PH : Part X http_vars}.
Implicit Types s : sys X.

Definition HV (s : sys X) : http_vars := part (st s).

Lemma response_ok c b s (Q : unit -> sys X -> Prop) :
  Q tt (mk_sys (log s ++ [Do (espconn_sent c (answer b))]) (mem s) (st s)) -> wp (response_send (Some c) b) s Q.
Proof.
  intros HQ. unfold response_send, data_send.
  destruct b; (apply wp_bind; eapply wp_lift; [vm_compute; reflexivity|]; apply wp_bind; eapply wp_lift; [vm_compute; reflexivity|]; by apply wp_call).
Qed.

(** The image is complete, or it is not. *)
Definition received (c : conn) (n t : Z) (part : list Z) s s' : Prop :=
  image (log s') = image (log s) ++ part /\
  if t =? n then totallength (HV s') = 0 /\ upgrade_lock (HV s') = 0 /\ answers c (log s') = answers c (log s) ++ [answer true]
  else totallength (HV s') = t /\ sumlength (HV s') = n /\ upgrade_lock (HV s') = upgrade_lock (HV s) /\ answers c (log s') = answers c (log s).

Lemma done_ok c n t s : totallength (HV s) = t -> sumlength (HV s) = n ->
  wp (download_done c) s (λ _ s', received c n t [] s s').
Proof.
  intros Ht Hn. unfold download_done. apply wp_bind, wp_pvar, wp_bind, wp_pvar. fold (HV s). rewrite Ht, Hn. unfold received.
  apply wp_when; intros E; rewrite E.
  - apply wp_bind, wp_call, wp_bind, wp_call, wp_bind, wp_pmodify, wp_bind. cbn [log mem st].
    unfold upgrade_check_func. apply wp_bind, wp_call, wp_bind, wp_ask. cbn [log mem st]. rewrite flag_check. unfold last_flag at 1.
    rewrite !fold_left_app. cbn [fold_left]. change (u8 UPGRADE_FLAG_FINISH =? UPGRADE_FLAG_START) with false. cbn iota.
    apply wp_bind, wp_ask. cbn [log mem st]. rewrite flag_check. unfold last_flag at 1. rewrite !fold_left_app. cbn [fold_left].
    change (u8 UPGRADE_FLAG_FINISH =? UPGRADE_FLAG_FINISH) with true. cbn [swhen].
    apply wp_bind, wp_call, wp_bind, response_ok, wp_pmodify. cbn [log mem st].
    apply wp_bind, wp_call, wp_bind, wp_call, wp_call. cbn [log mem st].
    unfold HV. cbn [st]. rewrite part_set, !image_app, !answers_app, part_set. cbn [image answers flat_map app totallength upgrade_lock set_field].
    rewrite bool_decide_eq_true_2 by done. rewrite ?app_nil_r. by repeat split.
  - rewrite app_nil_r. by repeat split.
Qed.

(** Every segment but the first. *)
Lemma next_ok c n t d s : totallength (HV s) = t -> sumlength (HV s) = n -> t ≠ 0 -> 0 <= t -> t + zlen d <= n < 4294967296 ->
  zlen d < 65536 -> wp (local_upgrade_download c (d ++ [0]) (zlen d)) s (λ _ s', received c n (t + zlen d) d s s').
Proof.
  intros Ht Hn Ht0 Htp Hsum Hd. pose proof (zlen_nonneg d). unfold local_upgrade_download. apply wp_bind, wp_pvar. fold (HV s). rewrite Ht.
  zfalse (t =? 0). apply wp_bind, wp_ret. cbn iota. unfold download_next. apply wp_bind, wp_pmodify. fold (HV s).
  rewrite Ht, u32_small by lia. apply wp_bind, wp_pvar. cbn [st]. rewrite part_set. cbn [erase_length set_field].
  set (s1 := mk_sys _ _ _). apply wp_bind. apply (wp_mono _ _ (λ _ s2, totallength (HV s2) = t + zlen d /\ sumlength (HV s2) = n /\
    upgrade_lock (HV s2) = upgrade_lock (HV s) /\ answers c (log s2) = answers c (log s) /\ image (log s2) = image (log s))).
  { destruct (LIMIT_ERASE_SIZE <=? _); apply wp_bind, wp_call, wp_pmodify; unfold HV, s1; cbn [log mem st]; rewrite !part_set, answers_app, image_app;
      cbn [totallength sumlength upgrade_lock set_field answers image flat_map]; rewrite !app_nil_r; by fold (HV s); rewrite Hn. }
  intros [] s2 (T2 & N2 & L2 & A2 & I2). apply wp_bind, (wp_lift _ d); [apply (holds_slice _ 0 d [0]), holds_all|].
  apply wp_bind, wp_call. eapply wp_mono; [by apply (done_ok c n (t + zlen d))|]. cbn [log mem st]. unfold received. cbn [log mem].
  rewrite image_app, answers_app. cbn [image answers flat_map]. rewrite !app_nil_r, A2, I2. intros [] s' [Hi Hc].
  split; [exact Hi|]. rewrite <- L2. exact Hc.
Qed.

(** The first segment. *)
Lemma first_ok c head n d s : request_head head n -> totallength (HV s) = 0 -> 0 < n < 2147483648 -> zlen d <= n ->
  zlen head + zlen d < 65536 ->
  wp (local_upgrade_download c (head ++ d ++ [0]) (zlen head + zlen d)) s (λ _ s', received c n (zlen d) d s s').
Proof.
  intros Hh Ht Hn Hd Hlen. pose proof (zlen_nonneg d). pose proof Hh as (_ & Hend & _). apply strstr_range in Hend as [Hk _].
  assert (Hn0 : 0 <= n) by lia. destruct (head_found head n d Hh Hn0) as (j & E1 & E2 & E3 & E4 & E5 & r & Hb). set (b := head ++ d ++ [0]) in *.
  unfold local_upgrade_download. apply wp_bind, wp_pvar. fold (HV s). rewrite Ht. cbn [Z.eqb].
  apply wp_bind, wp_bind. eapply wp_lift; [exact E1|]. apply wp_bind. destruct (os_strstr b 0 (chars "Content-Length")) as [[z|]|] eqn:E; [|done..].
  eapply wp_lift; [reflexivity|]. apply wp_ret. rewrite bool_decide_eq_true_2 by done. unfold download_first.
  apply wp_bind. eapply wp_lift; [exact E2|]. apply wp_bind, wp_bind. eapply wp_lift; [exact E5|]. apply wp_bind, (wp_lift _ n).
  { eapply number_ok; [exact Hb|lia|]. pose proof (decimal_length 10 n). unfold decimal. lia. }
  apply wp_bind, wp_pmodify, wp_ret. rewrite bool_decide_eq_false_2 by (intros [= ->]; lia).
  apply wp_bind, wp_pvar. cbn [st]. rewrite part_set. cbn [sumlength set_field]. zfalse (n =? 0). cbn [negb swhen].
  set (s1 := mk_sys _ _ _). apply wp_bind. apply (wp_mono _ _ (λ _ s2, totallength (HV s2) = 0 /\ sumlength (HV s2) = n /\
    upgrade_lock (HV s2) = upgrade_lock (HV s) /\ answers c (log s2) = answers c (log s) /\ image (log s2) = image (log s))).
  { destruct (LIMIT_ERASE_SIZE <=? n); apply wp_bind, wp_call, wp_pmodify; unfold HV, s1; cbn [log mem st]; rewrite !part_set, answers_app, image_app;
      cbn [totallength sumlength upgrade_lock set_field answers image flat_map]; rewrite !app_nil_r; by fold (HV s); rewrite Ht. }
  intros [] s2 (T2 & N2 & L2 & A2 & I2). apply wp_bind. eapply wp_lift; [exact E1|]. apply wp_bind. eapply wp_lift; [reflexivity|].
  replace (zlen head + zlen d - (zlen head - 4)) with (zlen d + 4) by lia. rewrite (u16_small (zlen d + 4)) by lia.
  replace (zlen d + 4 - 4) with (zlen d) by lia. rewrite u16_small by lia.
  apply wp_bind, wp_pmodify, wp_bind, wp_call, wp_bind, (wp_lift _ d).
  { replace (zlen head - 4 + 4) with (0 + zlen head) by lia. apply (holds_slice _ _ d [0]), holds_skip, holds_all. }
  apply wp_bind, wp_call. cbn [log mem st]. fold (HV s2). rewrite T2, u32_small by lia.
  eapply wp_mono; [apply (done_ok c n (zlen d)); unfold HV; cbn [st]; rewrite part_set; [done|exact N2]|]. unfold received. cbn [log mem].
  rewrite !image_app, !answers_app. cbn [image answers flat_map]. rewrite !app_nil_r, A2, I2. intros [] s' [Hi Hc].
  split; [exact Hi|]. unfold HV in Hc. cbn [st] in Hc. rewrite part_set in Hc. cbn [upgrade_lock set_field] in Hc. fold (HV s') (HV s2) in Hc. rewrite L2 in Hc. exact Hc.
Qed.

Definition receive_rest (c : conn) (segments : list (list Z)) : F X unit :=
  sfor segments (λ d, local_upgrade_download c (d ++ [0]) (zlen d)).

Lemma rest_ok c n segments : forall t s, totallength (HV s) = t -> sumlength (HV s) = n -> 0 < t ->
  segments ≠ [] -> Forall (λ d, 0 < zlen d < 65536) segments -> t + zlen (List.concat segments) = n -> n < 4294967296 ->
  wp (receive_rest c segments) s (λ _ s', received c n n (List.concat segments) s s').
Proof.
  induction segments as [|d l IH]; intros t s Ht Hn Htp Hne Hseg Hsum Hmax; [done|]. apply Forall_cons_1 in Hseg as [Hd Hl].
  cbn [List.concat] in *. rewrite zlen_app in Hsum. pose proof (zlen_nonneg (List.concat l)).
  apply wp_bind. eapply wp_mono; [apply (next_ok c n t d); (done || lia)|]. intros [] s1 [Hi Hc].
  destruct l as [|d' l].
  - apply wp_ret. cbn [List.concat] in *. change (zlen (@nil Z)) with 0 in Hsum. rewrite app_nil_r. replace n with (t + zlen d) at 2 by lia. by split.
  - assert (Hpos : 0 < zlen (List.concat (d' :: l))).
    { apply Forall_cons_1 in Hl as [Hd' _]. cbn [List.concat]. rewrite zlen_app. pose proof (zlen_nonneg (List.concat l)). lia. }
    replace (t + zlen d =? n) with false in Hc by (symmetry; apply Z.eqb_neq; lia). destruct Hc as (T1 & N1 & L1 & A1).
    eapply wp_mono; [apply (IH (t + zlen d)); (done || lia)|]. intros [] s2 [Hi2 Hc2]. unfold received. rewrite Z.eqb_refl in *. rewrite Hi2, Hi, <- A1.
    by rewrite app_assoc.
Qed.

(** C21: A firmware image arrives whole.  When the server expects an image ([upgrade_lock]),
    the first segment holds the whole head of the request and at least one byte of the
    image, and the connection cuts the rest into segments of any sizes below 2^16: then
    the parts after the head reach the flash in order and complete, no answer is given
    before the last one, then exactly one, and the server takes requests again. *)
Theorem upgrade_image_whole c s head part segments n :
  totallength (HV s) = 0 -> request_head head n -> 0 < n < 2147483648 -> zlen part + zlen (List.concat segments) = n ->
  0 < zlen part -> zlen head + zlen part < 65536 -> Forall (λ d, 0 < zlen d < 65536) segments ->
  wp (local_upgrade_download c (head ++ part ++ [0]) (zlen head + zlen part)) s (λ _ s1,
    (segments ≠ [] -> answers c (log s1) = answers c (log s)) /\
    wp (receive_rest c segments) s1 (λ _ s2,
      image (log s2) = image (log s) ++ part ++ List.concat segments /\
      answers c (log s2) = answers c (log s) ++ [answer true] /\
      upgrade_lock (HV s2) = 0 /\ totallength (HV s2) = 0)).
Proof.
  intros Ht Hh Hn Hsum Hp Hlen Hseg. pose proof (zlen_nonneg (List.concat segments)).
  eapply wp_mono; [apply (first_ok c head n part); (done || lia)|]. intros [] s1 [Hi Hc]. destruct segments as [|d l].
  - cbn [List.concat] in *. change (zlen (@nil Z)) with 0 in Hsum. split; [done|]. apply wp_ret. rewrite app_nil_r.
    replace (zlen part =? n) with true in Hc by (symmetry; apply Z.eqb_eq; lia). destruct Hc as (? & ? & ?). by repeat split.
  - assert (Hpos : 0 < zlen (List.concat (d :: l))).
    { apply Forall_cons_1 in Hseg as [Hd' _]. cbn [List.concat]. rewrite zlen_app. pose proof (zlen_nonneg (List.concat l)). lia. }
    replace (zlen part =? n) with false in Hc by (symmetry; apply Z.eqb_neq; lia). destruct Hc as (T1 & N1 & L1 & A1).
    split; [done|]. eapply wp_mono; [apply (rest_ok c n (d :: l) (zlen part)); (done || lia)|]. intros [] s2 [Hi2 Hc2].
    rewrite Z.eqb_refl in Hc2. destruct Hc2 as (? & ? & ?). rewrite Hi2, Hi, <- app_assoc, <- A1. by repeat split.
Qed.
End Upgrade.

(** ** Collecting a request *)

Section Collect.
Context `{Env} {X : Type} `{PH : Part X http_vars}.
Implicit Types s : sys X.

(** The state after [f] on the variables and a line on the console. *)
Definition after_http (f : http_vars -> http_vars) (l : list event) s : sys X :=
  mk_sys (log s ++ l) (mem s) (set_part (f (HV s)) (st s)).

Lemma check_head_ok head n body s (Q : bool -> sys X -> Prop) :
  request_head head n -> 0 <= n < 1000000000 -> zlen head + zlen body < 65536 ->
  Q (n =? zlen body) (after_http (λ v, v <| dat_sumlength := n |>) [Do (os_printf "A_dat:%u,tot:%u,lenght:%u\n")] s) ->
  wp (check_data (head ++ body ++ [0]) (zlen head + zlen body)) s Q.
Proof.
  intros Hh Hn Hlen HQ. pose proof (zlen_nonneg body). pose proof Hh as (_ & Hend & _). apply strstr_range in Hend as [Hk _].
  destruct (head_found head n body Hh) as (j & E1 & E2 & _ & _ & E5 & r & Hb); [lia|].
  unfold check_data. apply wp_bind. eapply wp_lift; [exact E1|]. apply wp_bind. eapply wp_lift; [exact E2|].
  apply wp_bind. eapply wp_lift; [exact E5|]. apply wp_bind, (wp_lift _ n).
  { eapply number_ok; [exact Hb|lia|]. pose proof (decimal_9 n ltac:(lia)). lia. }
  apply wp_bind, wp_pmodify, wp_bind, wp_call, wp_ret. cbn [log mem st].
  replace (zlen head + zlen body - (zlen head - 4)) with (zlen body + 4) by lia. rewrite (u16_small (zlen body + 4)) by lia.
  replace (zlen body + 4 - 4) with (zlen body) by lia. by rewrite u16_small by lia.
Qed.

(** A request that fits into one segment is kept, with a zero after it. *)
Lemma save_complete_ok head body s (Q : bool -> sys X -> Prop) :
  request_head head (zlen body) -> no_char 0 body -> zlen head + zlen body < 1024 -> save_totallength (HV s) = 0 ->
  Q true (after_http (λ v, v <| precvbuffer := Some (head ++ body ++ [0]) |> <| save_totallength := 0 |> <| dat_sumlength := 0 |>) [] s) ->
  wp (save_data (head ++ body ++ [0]) (zlen head + zlen body)) s Q.
Proof.
  intros Hh H0 Hlen Ht HQ. pose proof (zlen_nonneg body). pose proof Hh as (Hh0 & Hend & _). apply strstr_range in Hend as [Hk _].
  destruct (head_found head (zlen body) body Hh) as (j & E1 & E2 & _ & _ & E5 & r & Hb); [lia|].
  unfold save_data. apply wp_bind. eapply wp_lift; [exact E1|]. cbv beta iota zeta.
  replace (zlen head + zlen body - (zlen head - 4)) with (zlen body + 4) by lia. rewrite (u16_small (zlen body + 4)) by lia.
  replace (zlen body + 4 - 4) with (zlen body) by lia. replace (zlen head - 4 + 4) with (zlen head) by lia. rewrite !u16_small by lia.
  apply wp_bind, wp_pmodify, wp_bind. fold (HV s). rewrite Ht, u32_small by lia. eapply wp_lift; [exact E2|]. cbv beta iota.
  apply wp_bind. eapply wp_lift; [exact E5|]. cbv beta iota. apply wp_bind, wp_bind, (wp_lift _ (zlen body)).
  { eapply number_ok; [exact Hb|lia|]. pose proof (decimal_9 (zlen body) ltac:(lia)). lia. }
  apply wp_pmodify, wp_bind. cbn [log mem st]. rewrite part_set, set_set. cbn [set_field].
  unfold keep_request. apply wp_bind, wp_pvar. cbn [st]. rewrite part_set. cbn [dat_sumlength set_field].
  rewrite (u32_small (zlen body + zlen head)) by lia. zfalse (1024 <=? zlen body + zlen head).
  apply wp_bind, (wp_lift _ (head ++ body)).
  { apply (holds_cstr _ 0 _ []); [by apply Forall_app; split|]. rewrite <- app_assoc. apply holds_all. }
  rewrite u32_small by lia. apply wp_bind, (wp_lift _ (head ++ body ++ [0])).
  { rewrite bsplice_zeros by (rewrite zlen_app; lia).
    replace (Z.to_nat (zlen body + zlen head + 1) - length (head ++ body))%nat with 1%nat; [by rewrite <- app_assoc|].
    rewrite length_app. unfold zlen in *. lia. }
  apply wp_pmodify. cbn [log mem st]. rewrite part_set, set_set. cbn [set_field].
  unfold data_complete. apply wp_bind, wp_pvar, wp_bind, wp_pvar. cbn [st]. rewrite !part_set. cbn [save_totallength dat_sumlength set_field].
  rewrite Z.eqb_refl. apply wp_bind, wp_pmodify, wp_ret. cbn [log mem st]. rewrite part_set, set_set.
  unfold after_http in HQ. rewrite app_nil_r in HQ. exact HQ.
Qed.

(** Without an empty line, and nothing kept before: the segment is lost. *)
Lemma save_tail_ok b n s (Q : bool -> sys X -> Prop) :
  os_strstr b 0 HEAD_END = Some None -> precvbuffer (HV s) = None ->
  Q false (after_http (λ v, v <| save_totallength := 0 |> <| dat_sumlength := 0 |>) [] s) -> wp (save_data b n) s Q.
Proof.
  intros Hb Hp HQ. unfold save_data. apply wp_bind. eapply wp_lift; [exact Hb|]. apply wp_bind, wp_pvar. fold (HV s). rewrite Hp.
  apply wp_bind, wp_pmodify, wp_ret. unfold after_http in HQ. rewrite app_nil_r in HQ. exact HQ.
Qed.
Lemma check_tail_ok b n s (Q : bool -> sys X -> Prop) :
  os_strstr b 0 HEAD_END = Some None -> Q true s -> wp (check_data b n) s Q.
Proof. intros Hb HQ. unfold check_data. apply wp_bind. eapply wp_lift; [exact Hb|]. by apply wp_ret. Qed.
End Collect.

(** A request whose head and body together have 1024 bytes or more is kept
    without its body, and what is kept is no string: every string function the
    server then calls on it reads past its end. *)
Lemma long_request_unterminated `{Env} {X : Type} `{PH : Part X http_vars} head body s :
  no_char 0 head -> no_char 0 body -> 0 < zlen body -> 1024 <= dat_sumlength (HV s) + zlen head -> 
  0 <= dat_sumlength (HV s) < 1000000000 -> zlen head < 65536 ->
  wp (keep_request (head ++ body ++ [0]) (zlen head)) s (λ _ s', exists b, precvbuffer (HV s') = Some b /\ cstr b 0 = None).
Proof.
  intros Hh Hb Hz Hlen Hd Hl. destruct body as [|x body]; [done|]. pose proof (zlen_nonneg head). unfold keep_request. apply wp_bind, wp_pvar. fold (HV s).
  rewrite u32_small by lia. ztrue (1024 <=? dat_sumlength (HV s) + zlen head).
  assert (Hx : no_char 0 (head ++ [x])) by (apply Forall_app; split; [done|]; apply Forall_cons_1 in Hb as [? _]; by apply Forall_singleton).
  assert (Hlx : zlen (head ++ [x]) = zlen head + 1) by (by rewrite zlen_app).
  apply wp_bind, (wp_lift _ (head ++ [x])).
  { rewrite <- Hlx. apply (holds_slice _ 0 _ (body ++ [0])). replace (head ++ (x :: body) ++ [0]) with ((head ++ [x]) ++ body ++ [0]) by (by rewrite <- app_assoc).
    apply holds_all. }
  apply wp_bind, (wp_lift _ (head ++ [x])).
  { rewrite bsplice_zeros by lia. replace (Z.to_nat (zlen head + 1) - length (head ++ [x]))%nat with 0%nat by (unfold zlen in *; lia). by rewrite app_nil_r. }
  apply wp_pmodify. exists (head ++ [x]). unfold HV. cbn [st]. rewrite part_set. split; [done|]. unfold cstr. change (Z.to_nat 0) with 0%nat. rewrite drop_0.
  clear - Hx. induction Hx as [|y l Hy _ IH]; [done|]. cbn. zfalse (y =? 0). by rewrite IH.
Qed.

(** ** The theorems at concrete inputs *)

Definition upgrading : http_vars := http_initial <| upgrade_lock := 1 |>.
Definition upgrade_head : list Z := chars "POST /device/bin/upgrade/?bin=latest HTTP/1.1" ++ CRLF ++ CONTENT_LENGTH ++ chars "11" ++ HEAD_END.
Definition flag_env : Env := mk_env (λ _ _, 0) (λ l c, match c with system_upgrade_flag_check => last_flag l | _ => 0 end).

Lemma last_flag_byte l : 0 <= last_flag l < 256.
Proof.
  induction l as [|e l IH] using rev_ind; [done|]. unfold last_flag in *. rewrite fold_left_app. cbn [fold_left].
  destruct e as [| |[]|]; try exact IH. apply u8_range.
Qed.
Lemma flag_env_law : @UpgradeFlag flag_env.
Proof. intros l. cbn. pose proof (last_flag_byte l). by rewrite u32_small, u8_small by lia. Qed.

Lemma upgrade_image_whole_witness :
  wp (@local_upgrade_download flag_env http_vars _ (web_client 0) (upgrade_head ++ [233; 3; 0; 2] ++ [0]) (zlen upgrade_head + 4))
    (mk_sys [] ∅ upgrading) (λ _ s1, wp (@receive_rest flag_env http_vars _ (web_client 0) [[0; 16; 64; 0]; [1; 2; 255]]) s1 (λ _ s2,
      image (log s2) = [233; 3; 0; 2; 0; 16; 64; 0; 1; 2; 255] /\ upgrade_lock (@HV http_vars _ s2) = 0)).
Proof.
  destruct (@upgrade_image_whole flag_env flag_env_law http_vars _ (web_client 0) (mk_sys [] ∅ upgrading) upgrade_head [233; 3; 0; 2]
    [[0; 16; 64; 0]; [1; 2; 255]] 11) as ([] & s1 & E1 & _ & [] & s2 & E2 & Hi & _ & Hl & _).
  - reflexivity.
  - split; [|split; [reflexivity|]].
    + apply (proj2 (List.Forall_forall _ _)). intros x Hx. vm_compute in Hx. intuition (subst; discriminate).
    + exists 47, (CRLF). split; reflexivity.
  - lia.
  - reflexivity.
  - reflexivity.
  - reflexivity.
  - repeat (apply Forall_cons_2; [vm_compute; by split|]). apply Forall_nil_2.
  - exists tt, s1. split; [exact E1|]. exists tt, s2. split; [exact E2|]. split; [exact Hi|exact Hl].
Defined.

Lemma parse_print_url_witness :
  parse_url (Some (print_url POST (chars "config") (chars "command") (chars "light") ++ chars "Host:" ++ chars " 192.168.4.1" ++ [0])) zero_frame =
  Some (mk_url POST (pad 10 (chars "config")) (pad 10 (chars "command")) (pad 10 (chars "light"))).
Proof. apply (parse_print_url POST (chars "config") (chars "command") (chars "light") (chars " 192.168.4.1") []); by repeat constructor. Defined.
