(* ===== verification/IotJson.v ===== *)
(** * IotJson: what the web server of the IoT demo reports and sets as JSON

    IoT_Demo/user/user_json.c, and the JSON trees of
    IoT_Demo/user/user_webserver.c with their callbacks, compiled with
    [LIGHT_DEVICE].  The JSON library of the SDK is not part of the repository:
    in which order it prints a tree and calls its callbacks, how it writes a
    value and what elements it finds in a text are parameters ([JsonLib]). *)

From Stdlib Require Import String.
From stdpp Require Import gmap.
From S2P Require Import Prelude CMem CString Board UartDriver TcpClient SmartConfig MqttConfig IotLight IotControl.
Local Open Scope string_scope.
Local Open Scope Z_scope.
Local Open Scope sm_scope.
Local Open Scope list_scope.

(** ** Data *)

(** [device_callback], ...: the functions that print and, for three of them, set values. *)
Inductive callback :=
  | device_callback | userbin_callback | version_callback | connect_status_callback
  | light_callback | wifi_station_callback | wifi_softap_callback | scan_callback.
#[export] Instance callback_eq_dec : EqDecision callback. Proof. solve_decision. Defined.

Inductive jtree :=
  | JCallback (c : callback)
  | JObject (pairs : list (string * jtree))
  | JArray (values : list jtree).

Definition leaves (c : callback) (names : list string) : jtree := JObject ((λ n, (n, JCallback c)) <$> names).

Definition userbin_tree : jtree := leaves userbin_callback ["status"; "user_bin"].
Definition userinfo_tree : jtree := JObject [("user_info", userbin_tree)].
Definition device_tree : jtree := leaves device_callback ["product"; "manufacturer"].
Definition version_tree : jtree := leaves version_callback ["hardware"; "sdk_version"; "iot_version"].
Definition info_tree : jtree := JObject [("Version", version_tree); ("Device", device_tree)].
Definition INFOTree : jtree := JObject [("info", info_tree)].
Definition status_sub_tree : jtree := leaves connect_status_callback ["status"].
Definition connect_status_tree : jtree := JObject [("Status", status_sub_tree)].
Definition con_status_tree : jtree := JObject [("info", connect_status_tree)].
Definition rgb_tree : jtree := leaves light_callback ["red"; "green"; "blue"; "cwhite"; "wwhite"].
Definition sta_tree : jtree := JObject [("period", JCallback light_callback); ("rgb", rgb_tree)].
Definition PwmTree : jtree := JObject [("light", sta_tree)].
Definition get_station_config_tree : jtree := leaves wifi_station_callback ["ssid"; "password"].
Definition set_station_config_tree : jtree := leaves wifi_station_callback ["ssid"; "password"; "token"].
Definition ip_tree : jtree := leaves wifi_station_callback ["ip"; "mask"; "gw"].
Definition get_station_tree : jtree := JObject [("Connect_Station", get_station_config_tree); ("Ipinfo_Station", ip_tree)].
Definition set_station_tree : jtree := JObject [("Connect_Station", set_station_config_tree)].
Definition softap_config_tree : jtree := leaves wifi_softap_callback ["authmode"; "channel"; "ssid"; "password"].
Definition softap_ip_tree : jtree := leaves wifi_softap_callback ["ip"; "mask"; "gw"].
Definition get_softap_tree : jtree := JObject [("Connect_Softap", softap_config_tree); ("Ipinfo_Softap", softap_ip_tree)].
Definition set_softap_tree : jtree := JObject [("Ipinfo_Softap", softap_config_tree)].
Definition get_wifi_tree : jtree := JObject [("Station", get_station_tree); ("Softap", get_softap_tree)].
Definition set_wifi_tree : jtree := JObject [("Station", set_station_tree); ("Softap", set_softap_tree)].
Definition wifi_response_tree : jtree := JObject [("Response", get_wifi_tree)].
Definition wifi_request_tree : jtree := JObject [("Request", set_wifi_tree)].
Definition wifi_info_tree : jtree := JObject [("wifi", wifi_response_tree)].
Definition wifi_req_tree : jtree := JObject [("wifi", wifi_request_tree)].
Definition scaninfo_tree : jtree := leaves scan_callback ["bssid"; "ssid"; "rssi"; "channel"; "authmode"].
Definition scanrslt_tree : jtree := JArray (replicate 8 scaninfo_tree).
Definition scantree : jtree :=
  JObject [("TotalPage", JCallback scan_callback); ("PageNum", JCallback scan_callback); ("ScanResult", scanrslt_tree)].
Definition scanres_tree : jtree := JObject [("Response", scantree)].
Definition scan_tree : jtree := JObject [("scan", scanres_tree)].

(** One element of a JSON text. *)
Record token := mk_token {
  tk_type : Z;
  tk_is : string -> bool;   (* [jsonparse_strcmp_value( _, s ) == 0] *)
  tk_int : Z;               (* [jsonparse_get_value_as_int] *)
  tk_text : list Z          (* what [jsonparse_copy_value] copies *) }.

(** include/json/json.h *)
Definition JSON_TYPE_PAIR_NAME : Z := 78.

(** What is printed one after the other: text of the library's own, and what a
    callback prints at the member of that name. *)
Inductive printed := Text (s : list Z) | Output (c : callback) (path : string).

(** A position in a tree: the values from the root to it, the last one first. *)
Abbreviation context := (list jtree).

Class JsonLib := mk_json_lib {
  json_pieces : context -> list printed;          (* [jsontree_print_next] until it is done *)
  json_callbacks : jtree -> list callback;      (* [jsontree_find_next( _, JSON_TYPE_CALLBACK )] until null *)
  json_elements : list Z -> list token;         (* [jsonparse_next] until it returns 0 *)
  json_end : token;                             (* the element after the last one; its type is 0 *)
  json_int : Z -> list Z;                       (* [jsontree_write_int] *)
  json_string : list Z -> list Z                (* [jsontree_write_string] *) }.

(** include/user_interface.h *)
Record station_config := mk_sta { sta_ssid : list Z; sta_password : list Z; sta_bssid : list Z }.
Record softap_config := mk_ap {
  ap_ssid : list Z; ap_password : list Z; ssid_len : Z; channel : Z; authmode : Z;
  ssid_hidden : Z; max_connection : Z; beacon_interval : Z }.
Record bss_info := mk_bss { bssid : list Z; bss_ssid : list Z; bss_channel : Z; rssi : Z; bss_authmode : Z }.
Record ip_info := mk_ip_info { ip : Z; netmask : Z; gw : Z }.
Record scaninfo := mk_scaninfo { scan_pespconn : option conn; totalpage : Z; pagenum : Z; page_sn : Z; data_cnt : Z }.
#[export] Instance eta_sta : Settable station_config := λ c, mk_sta (sta_ssid c) (sta_password c) (sta_bssid c).
#[export] Instance eta_ap : Settable softap_config := λ c, mk_ap (ap_ssid c) (ap_password c) (ssid_len c) (channel c)
  (authmode c) (ssid_hidden c) (max_connection c) (beacon_interval c).
#[export] Instance eta_scaninfo : Settable scaninfo := λ c,
  mk_scaninfo (scan_pespconn c) (totalpage c) (pagenum c) (page_sn c) (data_cnt c).
Definition zero_sta : station_config := mk_sta (replicate 32 0) (replicate 64 0) (replicate 7 0).
Definition zero_ap : softap_config := mk_ap (replicate 32 0) (replicate 64 0) 0 0 0 0 0 0.
Definition zero_scan : scaninfo := mk_scaninfo None 0 0 0 0.

Definition AUTH_OPEN : Z := 0.
Definition AUTH_WEP : Z := 1.
Definition AUTH_WPA_PSK : Z := 2.
Definition AUTH_WPA_WPA2_PSK : Z := 4.
Definition SOFTAP_IF : Z := 1.

(** include/user_esp_platform.h *)
Definition ESP_PARAM_START_SEC : Z := 0x3D.
Definition DEVICE_CONNECTING : Z := 40.

(** [struct esp_platform_saved_param] without its padding. *)
Record esp_platform_saved_param := mk_esp_param { devkey : list Z; token_ : list Z; activeflag : Z }.
#[export] Instance eta_esp_param : Settable esp_platform_saved_param := λ p, mk_esp_param (devkey p) (token_ p) (activeflag p).
Definition esp_param_bytes (p : esp_platform_saved_param) : list Z := devkey p ++ token_ p ++ [activeflag p].

(** What the SDK tells about the WiFi and itself. *)
Class Station := mk_station {
  station_config_now : list event -> station_config;
  softap_config_now : list event -> softap_config;
  ip_info_now : list event -> Z -> ip_info;
  scannum : list event -> Z;
  sdk_version : list Z }.

(** The static variables of the callbacks, those of [light_status_set], and
    [device_status] and [esp_param] of user_esp_platform.c.  [bss] is a pointer
    into [bss_head], here the list from that entry on. *)
Record json_vars := mk_json {
  sta_conf : option station_config; ap_conf : option softap_config;
  pscaninfo : option scaninfo; bss_head : list bss_info; bss : list bss_info;
  PostCmdNeeRsp : Z; lr : Z; lg : Z; lb : Z; lcw : Z; lww : Z; lperiod : Z;
  device_status : Z; esp_param : esp_platform_saved_param }.
#[export] Instance eta_json : Settable json_vars := λ v, mk_json (sta_conf v) (ap_conf v) (pscaninfo v) (bss_head v) (bss v)
  (PostCmdNeeRsp v) (lr v) (lg v) (lb v) (lcw v) (lww v) (lperiod v) (device_status v) (esp_param v).
Definition json_initial : json_vars :=
  mk_json None None None [] [] 1 0 0 0 0 0 0 0 (mk_esp_param (replicate 40 0) (replicate 40 0) 0).

(** ** Text *)

(** ["%02x"] *)
Definition hex2 (v : Z) : list Z :=
  (λ d, if d <? 10 then 48 + d else 87 + d) <$> [v / 16; v mod 16].

Fixpoint separated (c : Z) (l : list (list Z)) : list Z :=
  match l with [] => [] | [s] => s | s :: l => s ++ c :: separated c l end.

(** [MACSTR] and [IPSTR] *)
Definition MACSTR (b : list Z) : list Z := separated 58 (hex2 <$> take 6 b).
Definition IPSTR (addr : Z) : list Z := separated 46 (decimal <$> le_bytes addr).

Definition authmode_name (mode : Z) : option (list Z) :=
  if mode =? AUTH_OPEN then Some (chars "OPEN")
  else if mode =? AUTH_WEP then Some (chars "WEP")
  else if mode =? AUTH_WPA_PSK then Some (chars "WPAPSK")
  else if mode =? AUTH_WPA2_PSK then Some (chars "WPA2PSK")
  else if mode =? AUTH_WPA_WPA2_PSK then Some (chars "WPAPSK/WPA2PSK")
  else None.

(** ** The JSON parser as the callbacks use it: what is left, and the current element. *)

Record parser := mk_parser { rest : list token; current : token }.

Section Json.
Context `{Env} `{Flash} `{JsonLib} `{Station} {X : Type} `{PL : Part X light_vars} `{PJ : Part X json_vars}.

Definition jsonparse_setup (text : list Z) : parser := mk_parser (json_elements text) json_end.
Definition jsonparse_next (p : parser) : parser :=
  match rest p with t :: l => mk_parser l t | [] => mk_parser [] json_end end.

(** The element after the name and the colon. *)
Definition value_of (p : parser) : parser := jsonparse_next (jsonparse_next p).

(** [while ((type = jsonparse_next(parser)) != 0) if (type == JSON_TYPE_PAIR_NAME)]
    body; the body may return from the function. *)
Fixpoint each_name {A} (fuel : nat) (body : A -> parser -> F X (option (A * parser))) (a : A) (p : parser) : F X unit :=
  match fuel with
  | O => slift None
  | S n =>
      let p := jsonparse_next p in
      if tk_type (current p) =? 0 then sret tt
      else if tk_type (current p) =? JSON_TYPE_PAIR_NAME then
        r <- body a p ;;
        match r with Some (a, p) => each_name n body a p | None => sret tt end
      else each_name n body a p
  end.
Definition names {A} (body : A -> parser -> F X (option (A * parser))) (a : A) (p : parser) : F X unit :=
  each_name (S (length (rest p))) body a p.

(** ** user_esp_platform.c *)

Definition user_esp_platform_set_connect_status (status : Z) : F X unit := pmodify (λ v, v <| device_status := u8 status |>).

Definition user_esp_platform_get_connect_status : F X Z :=
  status <- ask wifi_station_get_connect_status ;;
  d <- pvar device_status ;;
  let status := if u8 status =? STATION_GOT_IP then (if d =? 0 then DEVICE_CONNECTING else d) else u8 status in
  call (os_printf "status %d\n") ;;
  sret status.

Definition save_esp_param : F X unit :=
  p <- pvar esp_param ;; call (system_param_save_with_protect ESP_PARAM_START_SEC (esp_param_bytes p)).

Definition user_esp_platform_set_active (flag : Z) : F X unit :=
  pmodify (λ v, v <| esp_param := (esp_param v) <| activeflag := flag |> |>) ;; save_esp_param.

Definition user_esp_platform_set_token (token : list Z) : F X unit :=
  pmodify (λ v, v <| esp_param := (esp_param v) <| activeflag := 0 |> |>) ;;
  p <- pvar esp_param ;;
  t <- slift (bsplice (token_ p) 0 token) ;;
  pmodify (λ v, v <| esp_param := (esp_param v) <| token_ := t |> |>) ;;
  save_esp_param.

(** ** Printing *)

Definition device_get (path : string) : F X (list Z) :=
  sret (if String.prefix "manufacture" path then json_string (chars "Espressif Systems")
        else if String.prefix "product" path then json_string (chars "Light") else []).

(** The local array is not initialised when the name is neither of the two. *)
Definition userbin_get (path : string) : F X (list Z) :=
  if String.eqb path "status" then sret (json_string (chars "200"))
  else if String.prefix "user_bin" path then
    b <- ask system_upgrade_userbin_check ;;
    if u8 b =? 0x00 then sret (json_string (chars "user1.bin"))
    else
      b <- ask system_upgrade_userbin_check ;;
      if u8 b =? 0x01 then sret (json_string (chars "user2.bin")) else sret []
  else slift None.

Definition iot_version : list Z := chars "v1.0.5t45772(a)".
(** The same holds here. *)
Definition version_get (path : string) : F X (list Z) :=
  if String.prefix "hardware" path then sret (json_string (chars "0.1"))
  else if String.prefix "sdk_version" path then
    s <- slift (bsplice (replicate 32 0) 0 (sdk_version ++ [0])) ;; sret (json_string sdk_version)
  else if String.prefix "iot_version" path then sret (json_string iot_version)
  else slift None.

Definition connect_status_get (path : string) : F X (list Z) :=
  if String.eqb path "status" then s <- user_esp_platform_get_connect_status ;; sret (json_int s) else sret [].

Definition light_status_get (path : string) : F X (list Z) :=
  let duty c := d <- user_light_get_duty c ;; sret (json_int (i32 d)) in
  if String.prefix "red" path then duty LIGHT_RED
  else if String.prefix "green" path then duty LIGHT_GREEN
  else if String.prefix "blue" path then duty LIGHT_BLUE
  else if String.prefix "wwhite" path then if LIGHT_WARM_WHITE <? PWM_CHANNEL then duty LIGHT_WARM_WHITE else sret (json_int 0)
  else if String.prefix "cwhite" path then if LIGHT_COLD_WHITE <? PWM_CHANNEL then duty LIGHT_COLD_WHITE else sret (json_int 0)
  else if String.prefix "period" path then p <- user_light_get_period ;; sret (json_int (i32 p))
  else sret [].

(** [jsontree_write_string( _, b )] for a character array. *)
Definition write_string (b : list Z) : F X (list Z) := s <- slift (string_of b) ;; sret (json_string s).

Definition the_sta : F X station_config := c <- pvar sta_conf ;; slift c.
Definition the_ap : F X softap_config := c <- pvar ap_conf ;; slift c.
Definition the_scan : F X scaninfo := c <- pvar pscaninfo ;; slift c.

Definition ip_text (i : ip_info) (path : string) : option (list Z) :=
  if String.prefix "ip" path then Some (IPSTR (ip i))
  else if String.prefix "mask" path then Some (IPSTR (netmask i))
  else if String.prefix "gw" path then Some (IPSTR (gw i)) else None.

Definition write_ip (i : ip_info) (path : string) : F X (list Z) :=
  match ip_text i path with Some s => sret (json_string s) | None => sret [] end.

Definition wifi_station_get (path : string) : F X (list Z) :=
  _ <- the_sta ;;
  l <- sget log ;;
  pmodify (λ v, v <| sta_conf := Some (station_config_now l) |>) ;;
  let ipconfig := ip_info_now l STATION_IF in
  c <- the_sta ;;
  if String.prefix "ssid" path then write_string (sta_ssid c)
  else if String.prefix "password" path then write_string (sta_password c)
  else write_ip ipconfig path.

Definition write_authmode (mode : Z) : list Z :=
  match authmode_name mode with Some s => json_string s | None => json_int mode end.

Definition wifi_softap_get (path : string) : F X (list Z) :=
  _ <- the_ap ;;
  l <- sget log ;;
  pmodify (λ v, v <| ap_conf := Some (softap_config_now l) |>) ;;
  let ipconfig := ip_info_now l SOFTAP_IF in
  c <- the_ap ;;
  if String.prefix "ssid" path then write_string (ap_ssid c)
  else if String.prefix "password" path then write_string (ap_password c)
  else if String.prefix "channel" path then sret (json_int (channel c))
  else if String.prefix "authmode" path then sret (write_authmode (authmode c))
  else write_ip ipconfig path.

Definition the_bss : F X bss_info := b <- pvar bss ;; slift (head b).

Definition scan_get (path : string) : F X (list Z) :=
  if String.prefix "TotalPage" path then s <- the_scan ;; sret (json_int (totalpage s))
  else if String.prefix "PageNum" path then s <- the_scan ;; sret (json_int (pagenum s))
  else if String.prefix "bssid" path then
    pmodify (λ v, match bss v with [] => v <| bss := bss_head v |> | _ => v end) ;;
    b <- the_bss ;; sret (json_string (MACSTR (bssid b)))
  else if String.prefix "ssid" path then b <- the_bss ;; write_string (bss_ssid b)
  else if String.prefix "rssi" path then b <- the_bss ;; sret (json_int (- rssi b))
  else if String.prefix "channel" path then b <- the_bss ;; sret (json_int (bss_channel b))
  else if String.prefix "authmode" path then
    b <- the_bss ;;
    pmodify (λ v, v <| bss := tail (bss v) |>) ;;
    sret (write_authmode (bss_authmode b))
  else sret [].

Definition output (c : callback) (path : string) : F X (list Z) :=
  match c with
  | device_callback => device_get path
  | userbin_callback => userbin_get path
  | version_callback => version_get path
  | connect_status_callback => connect_status_get path
  | light_callback => light_status_get path
  | wifi_station_callback => wifi_station_get path
  | wifi_softap_callback => wifi_softap_get path
  | scan_callback => scan_get path
  end.

(** ** user_json.c *)

Definition jsonSize : Z := 2 * 1024.

(** The first pair whose name begins with the text from [start] to the next "/". *)
Fixpoint find_pair (name : list Z) (pairs : list (string * jtree)) : option jtree :=
  match pairs with
  | [] => None
  | (n, v) :: pairs => if starts_with name (chars n) then Some v else find_pair name pairs
  end.

Fixpoint find_from (fuel : nat) (json : context) (v : jtree) (start : list Z) : context :=
  match fuel with
  | O => json
  | S fuel =>
      let end_ := strstr start (chars "/") in
      if bool_decide (end_ = Some 0) then json
      else
        let len := match end_ with Some e => e | None => zlen start end in
        match v with
        | JObject pairs =>
            match find_pair (take (Z.to_nat len) start) pairs with
            | Some v =>
                match end_ with
                | Some e => let start := drop (Z.to_nat (e + 1)) start in if bool_decide (start = []) then v :: json else find_from fuel (v :: json) v start
                | None => v :: json
                end
            | None => json
            end
        | _ => json
        end
  end.
(** Every round but the last takes a character of the path. *)
Definition find_json_path (tree : jtree) (path : string) : context := find_from (S (String.length path)) [tree] tree (chars path).

(** [json_buf] and [pos] *)
Definition json_putchar (b : list Z * Z) (c : Z) : option (list Z * Z) :=
  let '(json_buf, pos) := b in
  if pos <=? jsonSize then json_buf ← wr json_buf pos c; Some (json_buf, pos + 1) else Some (json_buf, pos).

Fixpoint json_put (b : list Z * Z) (s : list Z) : option (list Z * Z) :=
  match s with [] => Some b | c :: s => b ← json_putchar b c; json_put b s end.

Fixpoint print_pieces (l : list printed) (b : list Z * Z) : F X (list Z * Z) :=
  match l with
  | [] => sret b
  | Text s :: l => b <- slift (json_put b s) ;; print_pieces l b
  | Output c path :: l => s <- output c path ;; b <- slift (json_put b s) ;; print_pieces l b
  end.

(** The text that is copied to [pbuf]. *)
Definition json_ws_send (tree : jtree) (path : string) : F X (list Z) :=
  r <- print_pieces (json_pieces (find_json_path tree path)) (replicate (Z.to_nat jsonSize) 0, 0) ;;
  let '(json_buf, pos) := r in
  json_buf <- slift (wr json_buf pos 0) ;;
  slift (bslice json_buf 0 pos).

(** ** Setting *)

(** One member of the light: the first of the names that matches stores the value. *)
Definition light_names : list (string * (Z -> json_vars -> json_vars) * string) :=
  [("red", (λ d v, v <| lr := d |>), "R: %d \n"); ("green", (λ d v, v <| lg := d |>), "G: %d \n");
   ("blue", (λ d v, v <| lb := d |>), "B: %d \n"); ("cwhite", (λ d v, v <| lcw := d |>), "CW: %d \n");
   ("wwhite", (λ d v, v <| lww := d |>), "WW: %d \n"); ("period", (λ d v, v <| lperiod := d |>), "PERIOD: %d \n");
   ("response", (λ d v, v <| PostCmdNeeRsp := d |>), "rspneed: %d \n")].

Definition light_member (_ : unit) (p : parser) : F X (option (unit * parser)) :=
  match List.find (λ m, tk_is (current p) (fst (fst m))) light_names with
  | Some (_, set, msg) =>
      let p := value_of p in
      let status := u32 (tk_int (current p)) in
      pmodify (set status) ;; call (os_printf msg) ;; sret (Some (tt, p))
  | None => sret (Some (tt, p))
  end.

Definition light_status_set (p : parser) : F X unit :=
  pmodify (λ v, v <| lperiod := 1000 |> <| lcw := 0 |> <| lww := 0 |>) ;;
  names light_member tt p ;;
  v <- pvar (λ v, v) ;;
  set_lamp (lr v) (lg v) (lb v) (lcw v) (lww v) (lperiod v).

(** [char buffer[64]] after [jsonparse_copy_value]: the string it holds. *)
Definition copy_value (p : parser) : list Z := take 63 (tk_text (current p)).

(** [station_tree] has no value before one of the two names was read: [garbage]
    is what its byte of the stack happens to hold. *)
Definition tree_flag (p : parser) (yes no : string) (flag : bool) : bool :=
  if tk_is (current p) yes then true else if tk_is (current p) no then false else flag.

Definition station_member (station_tree : bool) (p : parser) : F X (option (bool * parser)) :=
  let station_tree := tree_flag p "Station" "Softap" station_tree in
  if negb station_tree then sret (Some (station_tree, p))
  else if tk_is (current p) "ssid" then
    let p := value_of p in
    c <- the_sta ;; s <- slift (bsplice (sta_ssid c) 0 (copy_value p)) ;;
    pmodify (λ v, v <| sta_conf := Some (c <| sta_ssid := s |>) |>) ;; sret (Some (station_tree, p))
  else if tk_is (current p) "password" then
    let p := value_of p in
    c <- the_sta ;; s <- slift (bsplice (sta_password c) 0 (copy_value p)) ;;
    pmodify (λ v, v <| sta_conf := Some (c <| sta_password := s |>) |>) ;; sret (Some (station_tree, p))
  else if tk_is (current p) "token" then
    let p := value_of p in
    user_esp_platform_set_token (copy_value p) ;; sret (Some (station_tree, p))
  else sret (Some (station_tree, p)).

Definition wifi_station_set (garbage : bool) (p : parser) : F X unit := names station_member garbage p.

(** The "authmode" member; [None] returns from the function. *)
Definition set_authmode (p : parser) : F X bool :=
  let buffer := copy_value p in
  let set m := pmodify (λ v, v <| ap_conf := (λ c, c <| authmode := m |>) <$> ap_conf v |>) in
  _ <- the_ap ;;
  if bool_decide (buffer = chars "OPEN") then set AUTH_OPEN ;; sret true
  else if bool_decide (buffer = chars "WPAPSK") then set AUTH_WPA_PSK ;; call (os_printf "%d %s\n") ;; sret true
  else if bool_decide (buffer = chars "WPA2PSK") then set AUTH_WPA2_PSK ;; sret true
  else if bool_decide (buffer = chars "WPAPSK/WPA2PSK") then set AUTH_WPA_WPA2_PSK ;; sret true
  else set AUTH_OPEN ;; sret false.

Definition softap_other (p : parser) : F X parser :=
  if tk_is (current p) "channel" then
    let p := value_of p in
    c <- the_ap ;;
    pmodify (λ v, v <| ap_conf := Some (c <| channel := u8 (tk_int (current p)) |>) |>) ;; sret p
  else if tk_is (current p) "ssid" then
    let p := value_of p in
    c <- the_ap ;; s <- slift (bsplice (ap_ssid c) 0 (copy_value p)) ;;
    pmodify (λ v, v <| ap_conf := Some (c <| ap_ssid := s |>) |>) ;; sret p
  else if tk_is (current p) "password" then
    let p := value_of p in
    c <- the_ap ;; s <- slift (bsplice (ap_password c) 0 (copy_value p)) ;;
    pmodify (λ v, v <| ap_conf := Some (c <| ap_password := s |>) |>) ;; sret p
  else sret p.

Definition softap_member (softap_tree : bool) (p : parser) : F X (option (bool * parser)) :=
  let softap_tree := (if tk_is (current p) "Station" then false else if tk_is (current p) "Softap" then true else softap_tree) in
  if negb softap_tree then sret (Some (softap_tree, p))
  else
    let q := value_of p in
    if tk_is (current p) "authmode" then
      go <- set_authmode q ;;
      if go : bool then p <- softap_other q ;; sret (Some (softap_tree, p)) else sret None
    else p <- softap_other p ;; sret (Some (softap_tree, p)).

Definition wifi_softap_set (garbage : bool) (p : parser) : F X unit := names softap_member garbage p.

(** [c->set], and what the stack holds for the two WiFi callbacks. *)
Definition set_callback (garbage : bool) (c : callback) (p : parser) : F X unit :=
  match c with
  | light_callback => light_status_set p
  | wifi_station_callback => wifi_station_set garbage p
  | wifi_softap_callback => wifi_softap_set garbage p
  | _ => sret tt
  end.

Fixpoint parse_each (garbage : bool) (l : list callback) (c_bak : option callback) (text : list Z) : F X unit :=
  match l with
  | [] => sret tt
  | c :: l =>
      if bool_decide (c_bak = Some c) then parse_each garbage l c_bak text
      else set_callback garbage c (jsonparse_setup text) ;; parse_each garbage l (Some c) text
  end.
Definition json_parse (garbage : bool) (tree : jtree) (text : list Z) : F X unit :=
  parse_each garbage (json_callbacks tree) None text.
End Json.
