(* ===== verification/IotWeb.v ===== *)
(** * IotWeb: the web server of the IoT demo

    The rest of IoT_Demo/user/user_webserver.c, compiled with [LIGHT_DEVICE]:
    which request does what.  [os_zalloc] succeeds. *)

From Stdlib Require Import String.
From stdpp Require Import gmap.
From S2P Require Import Prelude CMem CString Board UartDriver SmartConfig IotLight IotControl IotHttp IotJson.
Local Open Scope string_scope.
Local Open Scope Z_scope.
Local Open Scope sm_scope.
Local Open Scope list_scope.

(** include/user_webserver.h *)
Inductive ParmType :=
  | SWITCH_STATUS | INFOMATION | WIFI | SCAN | REBOOT | DEEP_SLEEP | LIGHT_STATUS | CONNECT_STATUS | USER_BIN.

(** include/espconn.h *)
Definition ESPCONN_CLOSE : Z := 6.

(** [rstparm] (its type and its connection), whether [restart_10ms] is
    allocated, and the port of the server. *)
Record web_vars := mk_web { rstparm : option (ParmType * option conn); restart_timer : bool; local_port : Z }.
#[export] Instance eta_web : Settable web_vars := λ v, mk_web (rstparm v) (restart_timer v) (local_port v).
Definition web_initial : web_vars := mk_web None false 0.

(** The [state] member of a connection, which the SDK sets. *)
Class ConnState := conn_state : list event -> conn -> Z.

Definition sta_bytes (c : station_config) : list Z := sta_ssid c ++ sta_password c ++ sta_bssid c.
(** The two strings and the other members, in order. *)
Definition ap_members (c : softap_config) : list Z :=
  ap_ssid c ++ ap_password c ++ [ssid_len c; channel c; authmode c; ssid_hidden c; max_connection c; beacon_interval c].

(** The trees declared in the functions. *)
Definition total_tree : jtree := JObject [("total", JObject [("Response", leaves scan_callback ["TotalPage"])])].
Definition page_tree : jtree := JObject [("page", scaninfo_tree)].
Definition last_scan_tree : jtree := JObject [("scan", JObject [("Response", leaves scan_callback ["TotalPage"; "PageNum"])])].

(** The answers of a refused page. *)
Definition no_scan : list Z := chars "{" ++ [10] ++ quoted "successful" ++ chars ": false," ++ [10] ++ quoted "data" ++ chars ": null" ++ [10] ++ chars "}".
Definition bad_page (why : string) : list Z :=
  chars "{" ++ [10] ++ quoted "successful" ++ chars ": false," ++ [10] ++ quoted "meessage" ++ chars ": " ++ quoted why ++ [10] ++ chars "}".
Definition scan_result_head : list Z := chars "," ++ [10] ++ quoted "ScanResult" ++ chars ": [" ++ [10].

Section Web.
Context `{Env} `{Flash} `{JsonLib} `{Station} `{ConnState} {X : Type}
  `{PL : Part X light_vars} `{PH : Part X http_vars} `{PJ : Part X json_vars} `{PW : Part X web_vars}.
(** [user_esp_platform_check_ip] of the cloud client, which is not modelled, and
    what the stack holds for the two WiFi callbacks. *)
Context (user_esp_platform_check_ip : Z -> F X unit) (garbage : bool).

(** ** [json_send] *)

Definition zero_page : list Z := replicate (Z.to_nat jsonSize) 0.

(** Entry after entry at the end of the text; [o] is the offset of [pscanbuf]. *)
Fixpoint scan_entries (n : nat) (b : list Z) (o : Z) : F X (list Z * Z) :=
  match n with
  | O => sret (b, o)
  | S n =>
      t <- json_ws_send page_tree "page" ;;
      b <- slift (bsplice b o t) ;;
      s <- slift (cstr b o) ;;
      b <- slift (bsplice b (o + zlen s) (chars "," ++ [10; 0])) ;;
      s <- slift (cstr b o) ;;
      scan_entries n b (o + zlen s)
  end.

(** A page with fewer than eight entries. *)
Definition last_page (scancount : Z) : F X (list Z) :=
  b <- slift (bsplice zero_page 0 (scan_result_head ++ [0])) ;;
  r <- scan_entries (Z.to_nat scancount) b (zlen scan_result_head) ;;
  let '(b, o) := r in
  b <- slift (bsplice b (o - 2) (chars "]" ++ [10; 0])) ;;
  t <- json_ws_send last_scan_tree "scan" ;;
  pbuf <- slift (bsplice zero_page 0 t) ;;
  s <- slift (cstr pbuf 0) ;;
  entries <- slift (cstr b 0) ;;
  pbuf <- slift (bsplice pbuf (zlen s - 4) entries) ;;
  s <- slift (cstr pbuf 0) ;;
  slift (bsplice pbuf (zlen s) (chars "}" ++ [10] ++ chars "}" ++ [0])).

Definition set_scan (f : scaninfo -> scaninfo) : F X unit := pmodify (λ v, v <| pscaninfo := f <$> pscaninfo v |>).

(** Count [n] more entries; whether that many were found. *)
Definition take_entries (n : Z) : F X bool :=
  set_scan (λ s, s <| data_cnt := u8 (data_cnt s + n) |> <| page_sn := pagenum s |>) ;;
  s <- the_scan ;;
  l <- sget log ;;
  if u16 (scannum l) <? data_cnt s then set_scan (λ s, s <| data_cnt := u8 (data_cnt s - n) |>) ;; sret false
  else sret true.

Definition scan_page : F X (list Z) :=
  h <- pvar bss_head ;;
  match h with
  | [] =>
      pmodify (λ v, v <| pscaninfo := None |>) ;;
      slift (bsplice zero_page 0 (no_scan ++ [0]))
  | _ =>
      s <- the_scan ;;
      if page_sn s =? pagenum s then
        set_scan (λ s, s <| page_sn := 0 |>) ;;
        slift (bsplice zero_page 0 (bad_page "repeated page" ++ [0]))
      else
        l <- sget log ;;
        let scancount := u8 (u16 (scannum l) - (pagenum s - 1) * 8) in
        ok <- take_entries (if 8 <=? scancount then 8 else scancount) ;;
        if negb ok then slift (bsplice zero_page 0 (bad_page "error page" ++ [0]))
        else if 8 <=? scancount then t <- json_ws_send scan_tree "scan" ;; slift (bsplice zero_page 0 t)
        else last_page scancount
  end.

Definition json_send (c : conn) (ty : ParmType) : F X unit :=
  let page tree path := t <- json_ws_send tree path ;; slift (bsplice zero_page 0 t) in
  pbuf <- match ty with
          | LIGHT_STATUS => page PwmTree "light"
          | INFOMATION => page INFOTree "info"
          | WIFI => page wifi_info_tree "wifi"
          | CONNECT_STATUS => page con_status_tree "info"
          | USER_BIN => page userinfo_tree "user_info"
          | SCAN => scan_page
          | SWITCH_STATUS | REBOOT | DEEP_SLEEP => sret zero_page
          end ;;
  data_send (Some c) true (Some pbuf).

(** [arg] is the list of what the scan found. *)
Definition json_scan_cb (arg : list bss_info) : F X unit :=
  s <- the_scan ;;
  l <- sget log ;;
  let n := u16 (scannum l) in
  set_scan (λ s, s <| totalpage := u8 (if n mod 8 =? 0 then n / 8 else n / 8 + 1) |>) ;;
  pmodify (λ v, v <| bss_head := arg |> <| bss := [] |>) ;;
  t <- json_ws_send total_tree "total" ;;
  pbuf <- slift (bsplice zero_page 0 t) ;;
  data_send (scan_pespconn s) true (Some pbuf).

(** ** The delayed restart *)

Definition restart_10ms_cb : F X unit :=
  r <- pvar rstparm ;;
  match r with
  | Some (WIFI, Some _) =>
      sta <- the_sta ;; x <- slift (rd (sta_ssid sta) 0) ;;
      swhen (negb (x =? 0)) (
        call (wifi_station_config (sta_bytes sta)) ;;
        call wifi_station_disconnect ;;
        call wifi_station_connect ;;
        user_esp_platform_check_ip 1) ;;
      ap <- the_ap ;; x <- slift (rd (ap_ssid ap) 0) ;;
      swhen (negb (x =? 0)) (call (wifi_softap_config (ap_members ap)) ;; call system_restart) ;;
      pmodify (λ v, v <| ap_conf := None |> <| sta_conf := None |>) ;;
      pmodify (λ v, v <| rstparm := None |> <| restart_timer := false |>)
  | Some (DEEP_SLEEP, Some c) | Some (REBOOT, Some c) =>
      l <- sget log ;;
      if conn_state l c =? ESPCONN_CLOSE then call (wifi_set_opmode STATION_MODE)
      else call (os_timer_arm restart_10ms 10 0)
  | _ => sret tt
  end.

(** ** [webserver_recv] *)

Definition selects (f : URL_Frame) (sel cmd : string) : F X bool :=
  a <- slift (os_strcmp_eq (pSelect f) (chars sel)) ;;
  if a : bool then slift (os_strcmp_eq (pCommand f) (chars cmd)) else sret false.
Definition file_is (f : URL_Frame) (name : string) : F X bool := slift (os_strcmp_eq (pFilename f) (chars name)).

Definition refuse (c : conn) : F X unit := response_send (Some c) false.

Definition get_scan (c : conn) (pusrdata : list Z) : F X unit :=
  amp <- slift (os_strstr pusrdata 0 (chars "&")) ;;
  match amp with
  | None =>
      pmodify (λ v, match pscaninfo v with None => v <| pscaninfo := Some zero_scan |> | _ => v end) ;;
      set_scan (λ s, s <| scan_pespconn := Some c |> <| pagenum := 0 |> <| page_sn := 0 |> <| data_cnt := 0 |>) ;;
      call (wifi_station_scan fp_json_scan_cb)
  | Some amp =>
      let o := amp + 1 in
      page <- slift (begins (drop (Z.to_nat o) pusrdata) (chars "page")) ;;
      if page : bool then
        s <- pvar pscaninfo ;;
        match s with
        | Some _ =>
            x <- slift (rd pusrdata (o + 5)) ;;
            set_scan (λ s, s <| pagenum := u8 (u8 x - 0x30) |>) ;;
            s <- the_scan ;;
            if (totalpage s <? pagenum s) || (pagenum s =? 0) then refuse c else json_send c SCAN
        | None => refuse c
        end
      else
        finish <- slift (begins (drop (Z.to_nat o) pusrdata) (chars "finish")) ;;
        if finish : bool then
          pmodify (λ v, v <| bss_head := [] |>) ;;
          response_send (Some c) true
        else refuse c
  end.

Definition get_wifi (c : conn) : F X unit :=
  pmodify (λ v, v <| ap_conf := Some zero_ap |> <| sta_conf := Some zero_sta |>) ;;
  json_send c WIFI ;;
  pmodify (λ v, v <| sta_conf := None |> <| ap_conf := None |>).

Definition do_get (c : conn) (f : URL_Frame) (pusrdata : list Z) : F X unit :=
  client <- selects f "client" "command" ;;
  if client : bool then
    info <- file_is f "info" ;;
    swhen info (json_send c INFOMATION) ;;
    status <- file_is f "status" ;;
    if status : bool then json_send c CONNECT_STATUS else
    scan <- file_is f "scan" ;;
    if scan : bool then get_scan c pusrdata else refuse c
  else
    config <- selects f "config" "command" ;;
    if config : bool then
      wifi <- file_is f "wifi" ;; if wifi : bool then get_wifi c else
      light <- file_is f "light" ;; if light : bool then json_send c LIGHT_STATUS else
      reboot <- file_is f "reboot" ;; if reboot : bool then json_send c REBOOT else
      refuse c
    else
      upgrade <- selects f "upgrade" "command" ;;
      if upgrade : bool then getuser <- file_is f "getuser" ;; swhen getuser (json_send c USER_BIN)
      else refuse c.

(** The timer of the restart, allocated if need be and set to 10 ms. *)
Definition arm_restart : F X unit :=
  call (os_timer_setfn restart_10ms fp_restart_10ms_cb) ;; call (os_timer_arm restart_10ms 10 0).
Definition disarm_restart : F X unit := t <- pvar restart_timer ;; swhen t (call (os_timer_disarm restart_10ms)).

Definition post_reboot (c : conn) : F X unit :=
  disarm_restart ;;
  pmodify (λ v, v <| rstparm := Some (REBOOT, Some c) |>) ;;
  pmodify (λ v, v <| restart_timer := true |>) ;;
  arm_restart ;;
  response_send (Some c) true.

Definition post_wifi (c : conn) (body : list Z) : F X unit :=
  user_esp_platform_set_connect_status DEVICE_CONNECTING ;;
  disarm_restart ;;
  pmodify (λ v, match ap_conf v with None => v <| ap_conf := Some zero_ap |> | _ => v end) ;;
  pmodify (λ v, match sta_conf v with None => v <| sta_conf := Some zero_sta |> | _ => v end) ;;
  json_parse garbage wifi_req_tree body ;;
  pmodify (λ v, v <| rstparm := Some (WIFI, Some c) |>) ;;
  sta <- the_sta ;; x <- slift (rd (sta_ssid sta) 0) ;;
  ap <- the_ap ;; y <- slift (rd (ap_ssid ap) 0) ;;
  (if negb (x =? 0) || negb (y =? 0) then
     pmodify (λ v, v <| ap_conf := Some (ap <| ssid_hidden := 0 |> <| max_connection := 4 |>) |>) ;;
     pmodify (λ v, v <| restart_timer := true |>) ;;
     call (os_timer_disarm restart_10ms) ;;
     arm_restart
   else
     pmodify (λ v, v <| sta_conf := None |> <| ap_conf := None |>) ;;
     pmodify (λ v, v <| rstparm := None |>)) ;;
  response_send (Some c) true.

Definition post_light (c : conn) (body : list Z) : F X unit :=
  json_parse garbage PwmTree body ;;
  call (os_printf "rsp1:%u\n") ;;
  rsp <- pvar PostCmdNeeRsp ;;
  if rsp =? 0 then pmodify (λ v, v <| PostCmdNeeRsp := 1 |>) else response_send (Some c) true.

Definition post_reset (c : conn) : F X unit :=
  response_send (Some c) true ;;
  user_esp_platform_set_active 0 ;;
  call system_restore ;;
  call system_restart.

Definition upgrade_start (c : conn) : F X unit :=
  response_send (Some c) true ;;
  call (os_printf "local upgrade start\n") ;;
  pmodify (λ v, v <| upgrade_lock := 1 |>) ;;
  call system_upgrade_init ;;
  call (system_upgrade_flag_set UPGRADE_FLAG_START) ;;
  call (os_timer_disarm upgrade_check_timer) ;;
  call (os_timer_setfn upgrade_check_timer (fp_upgrade_check_func None)) ;;
  call (os_timer_arm upgrade_check_timer 120000 0).

Definition upgrade_reset (c : conn) : F X unit :=
  response_send (Some c) true ;; call (os_printf "local upgrade restart\n") ;; call system_upgrade_reboot.

Definition do_post (c : conn) (f : URL_Frame) : F X unit :=
  b <- pvar precvbuffer ;; b <- slift b ;;
  k <- slift (os_strstr b 0 HEAD_END) ;;
  match k with
  | None => sret tt
  | Some k =>
      config <- selects f "config" "command" ;;
      if config : bool then
        reboot <- file_is f "reboot" ;; if reboot : bool then post_reboot c else
        wifi <- file_is f "wifi" ;; if wifi : bool then body <- slift (cstr b (k + 4)) ;; post_wifi c body else
        light <- file_is f "light" ;; if light : bool then body <- slift (cstr b (k + 4)) ;; post_light c body else
        reset <- file_is f "reset" ;; if reset : bool then post_reset c else
        refuse c
      else
        upgrade <- selects f "upgrade" "command" ;;
        if upgrade : bool then
          start <- file_is f "start" ;; if start : bool then upgrade_start c else
          reset <- file_is f "reset" ;; if reset : bool then upgrade_reset c else
          refuse c
        else refuse c
  end.

Definition free_request : F X unit := pmodify (λ v, v <| precvbuffer := None |>).

Definition webserver_recv (c : conn) (pusrdata : list Z) (length : Z) : F X unit :=
  lock <- pvar upgrade_lock ;;
  if lock =? 0 then
    call (os_printf "len:%u\n") ;;
    ok <- check_data pusrdata length ;;
    if negb ok then call (os_printf "goto\n")
    else
      parse_flag <- save_data pusrdata length ;;
      swhen (negb parse_flag) (refuse c) ;;
      b <- pvar precvbuffer ;;
      f <- slift (parse_url b zero_frame) ;;
      match Type_ f with
      | GET => call (os_printf "We have a GET request.\n") ;; do_get c f pusrdata
      | POST => call (os_printf "We have a POST request.\n") ;; do_post c f
      end ;;
      free_request
  else
    swhen (lock =? 1) (local_upgrade_download c pusrdata length ;; free_request).

(** ** Connections *)

Definition webserver_recon (c : conn) (err : Z) : F X unit := call (os_printf "webserver's %d.%d.%d.%d:%d err %d reconnect\n").
Definition webserver_discon (c : conn) : F X unit := call (os_printf "webserver's %d.%d.%d.%d:%d disconnect\n").

Definition webserver_listen (c : conn) : F X unit :=
  call (espconn_regist c fp_webserver_recv) ;;
  call (espconn_regist c fp_webserver_recon) ;;
  call (espconn_regist c fp_webserver_discon).

Definition user_webserver_init (port : Z) : F X unit :=
  pmodify (λ v, v <| local_port := port |>) ;;
  call (espconn_regist web_server fp_webserver_listen) ;;
  call (espconn_accept web_server).
End Web.

(** ** The variables of the device that the server touches *)

Record device := mk_device { d_light : light_vars; d_http : http_vars; d_json : json_vars; d_web : web_vars }.
#[export] Instance eta_device : Settable device := λ d, mk_device (d_light d) (d_http d) (d_json d) (d_web d).
Ltac part_of f g := refine (mk_part device _ f g _ _ _); [done|done|by intros []].
#[export] Instance device_light : Part device light_vars. Proof. part_of d_light (λ v d, d <| d_light := v |>). Defined.
#[export] Instance device_http : Part device http_vars. Proof. part_of d_http (λ v d, d <| d_http := v |>). Defined.
#[export] Instance device_json : Part device json_vars. Proof. part_of d_json (λ v d, d <| d_json := v |>). Defined.
#[export] Instance device_web : Part device web_vars. Proof. part_of d_web (λ v d, d <| d_web := v |>). Defined.
Definition device_initial : device := mk_device light_initial http_initial json_initial web_initial.

(** ** What the lamp's functions leave alone

    [calm m]: [m] answers no request and changes only the lamp's variables. *)

Definition no_answer (e : event) : Prop := match e with Do (espconn_sent _ _) => False | _ => True end.
Definition others (d : device) : http_vars * json_vars * web_vars := (d_http d, d_json d, d_web d).
Definition calm {A} (m : F device A) : Prop :=
  forall s, lp m s (λ _ s', (exists k, log s' = log s ++ k /\ Forall no_answer k) /\ others (st s') = others (st s)).

Lemma calm_ret {A} (a : A) : calm (sret a).
Proof. intros s. apply lp_ret. split; [exists []; by rewrite app_nil_r|done]. Qed.
Lemma calm_bind {A B} (m : F device A) (k : A -> F device B) : calm m -> (forall a, calm (k a)) -> calm (sbind m k).
Proof.
  intros Hm Hk s. apply lp_bind. eapply lp_mono; [apply Hm|]. cbv beta. intros a s1 [(k1 & E1 & F1) O1].
  eapply lp_mono; [apply Hk|]. cbv beta. intros b s2 [(k2 & E2 & F2) O2]. split; [|congruence].
  exists (k1 ++ k2). rewrite E2, E1, <- app_assoc. split; [done|]. by apply Forall_app.
Qed.
Lemma calm_lift {A} (o : option A) : calm (slift o).
Proof. intros s. apply lp_lift. intros a _. split; [exists []; by rewrite app_nil_r|done]. Qed.
Lemma calm_get {A} (f : sys device -> A) : calm (sget f).
Proof. intros s. apply lp_get. split; [exists []; by rewrite app_nil_r|done]. Qed.
Lemma calm_light f : calm (pmodify (H := device_light) f).
Proof. intros s. apply lp_pmodify. split; [exists []; by rewrite app_nil_r|by destruct (st s)]. Qed.
Lemma calm_when (b : bool) (m : F device unit) : calm m -> calm (swhen b m).
Proof. intros Hm. destruct b; [done|apply calm_ret]. Qed.
Lemma calm_if {A} (b : bool) (m k : F device A) : calm m -> calm k -> calm (if b then m else k).
Proof. by destruct b. Qed.
Lemma calm_call c : no_answer (Do c) -> calm (call c).
Proof. intros Hc s. apply lp_call. split; [exists [Do c]; split; [done|by apply Forall_singleton]|done]. Qed.
Lemma calm_for {A} (l : list A) (body : A -> F device unit) : (forall a, calm (body a)) -> calm (sfor l body).
Proof. intros Hb. induction l as [|a l IH]; [apply calm_ret|]. by apply calm_bind. Qed.

Create HintDb calm.
#[export] Hint Resolve calm_ret calm_lift calm_get calm_light calm_when calm_if calm_for : calm.
#[export] Hint Extern 1 (calm (call _)) => (by apply calm_call) : calm.
#[export] Hint Extern 1 (calm (pvar _)) => (apply calm_get) : calm.
#[export] Hint Extern 2 (calm (sbind _ _)) => (apply calm_bind; [|intros ?]) : calm.

Section Calm.
Context `{Env}.

Lemma calm_ask c : calm (ask c).
Proof. intros s. apply lp_ask. split; [eexists; split; [done|by apply Forall_singleton]|done]. Qed.
Local Hint Resolve calm_ask : calm.

Lemma calm_set_duty d ch : calm (user_light_set_duty d ch).
Proof. unfold user_light_set_duty, user_light_get_duty. auto 20 with calm. Qed.
Lemma calm_set_period p : calm (user_light_set_period p).
Proof. unfold user_light_set_period, user_light_get_period. auto 20 with calm. Qed.
Lemma calm_malloc : calm LightEvtMalloc.
Proof. unfold LightEvtMalloc. auto 20 with calm. Qed.
Lemma calm_free : calm LightEvtFree.
Proof. unfold LightEvtFree. auto 20 with calm. Qed.
Lemma calm_diff l : calm (duty_diff_from l).
Proof. induction l; cbn [duty_diff_from]; auto 20 with calm. Qed.
Lemma calm_zero l : calm (duty_zero_from l).
Proof. induction l; cbn [duty_zero_from]; auto 20 with calm. Qed.
Lemma calm_adjust i : calm (adjust_channel i).
Proof. unfold adjust_channel. pose proof calm_set_duty. auto 20 with calm. Qed.
Lemma calm_dh smooth : calm smooth -> calm (dh_pwm_adj smooth).
Proof. intros Hs. unfold dh_pwm_adj, check_pwm_current_duty_diff. pose proof calm_adjust. pose proof calm_diff. auto 20 with calm. Qed.
Lemma calm_settled : calm light_settled.
Proof. unfold light_settled, light_save_target_duty, check_pwm_duty_zero. pose proof calm_zero. auto 30 with calm. Qed.
Lemma calm_smooth n : calm (smooth_adj n).
Proof.
  induction n as [|n IH]; [apply calm_lift|]. cbn [smooth_adj]. pose proof calm_settled. pose proof calm_set_period. pose proof calm_free.
  pose proof (calm_dh _ IH). auto 30 with calm.
Qed.
Lemma calm_set_lamp r g b cw ww p : calm (set_lamp r g b cw ww p).
Proof.
  unfold set_lamp, light_set_aim, light_pwm_smooth_adj_proc. pose proof calm_malloc. pose proof (calm_smooth queue_fuel).
  apply calm_bind; [auto with calm|intros flg]. apply calm_bind; [auto 20 with calm|intros _].
  apply calm_bind; [done|intros [i|]]; auto 20 with calm.
Qed.
End Calm.

(** ** What a text sets *)

(** A text as the parser sees it: members (a name, the colon, a value) and
    everything else between them. *)
Inductive item := Other (t : token) | Member (name colon value : token).
Definition tokens_of (l : list item) : list token :=
  flat_map (λ i, match i with Other t => [t] | Member n c v => [n; c; v] end) l.

Definition inner (t : token) : Prop := tk_type t ≠ 0 /\ tk_type t ≠ JSON_TYPE_PAIR_NAME.
Definition good_item (i : item) : Prop :=
  match i with Other t => inner t | Member n c v => tk_type n = JSON_TYPE_PAIR_NAME /\ inner c /\ inner v end.

(** The variables after the members, in order; a name the light does not know changes nothing. *)
Definition set_by (v : json_vars) (i : item) : json_vars :=
  match i with
  | Other _ => v
  | Member n _ x =>
      let d := u32 (tk_int x) in
      if tk_is n "red" then v <| lr := d |>
      else if tk_is n "green" then v <| lg := d |>
      else if tk_is n "blue" then v <| lb := d |>
      else if tk_is n "cwhite" then v <| lcw := d |>
      else if tk_is n "wwhite" then v <| lww := d |>
      else if tk_is n "period" then v <| lperiod := d |>
      else if tk_is n "response" then v <| PostCmdNeeRsp := d |>
      else v
  end.
Definition set_by_all (l : list item) (v : json_vars) : json_vars := fold_left set_by l v.

Definition is_print (e : event) : Prop := match e with Do (os_printf _) => True | _ => False end.

Section Laws.
Context `{Env} `{!Flash} `{JsonLib} `{Station} `{ConnState} `{!Pwm} (check_ip : Z -> F device unit) (garbage : bool).
Implicit Types s : sys device.

Definition J s : json_vars := d_json (st s).

(** [s'] is [s] with lines on the console and other variables of the callbacks. *)
Definition sets (f : json_vars -> json_vars) s s' : Prop :=
  (exists k, log s' = log s ++ k /\ Forall is_print k) /\ st s' = (st s) <| d_json := f (J s) |>.

Lemma sets_trans f g s1 s2 s3 : sets f s1 s2 -> sets g s2 s3 -> sets (λ v, g (f v)) s1 s3.
Proof.
  intros [(k & E & F) Es] [(k' & E' & F') Es']. split.
  - exists (k ++ k'). rewrite E', E, <- app_assoc. split; [done|]. by apply Forall_app.
  - unfold J in *. rewrite Es', Es. by destruct (st s1).
Qed.
Lemma sets_ext f g s s' : f (J s) = g (J s) -> sets f s s' -> sets g s s'.
Proof. intros E [Hk Hs]. split; [done|]. by rewrite <- E. Qed.
Lemma sets_refl s : sets (λ v, v) s s.
Proof. split; [exists []; by rewrite app_nil_r|by unfold J; destruct (st s)]. Qed.

Lemma print_inert k l : Forall is_print k -> (forall c, answers c (l ++ k) = answers c l) /\
  (forall fp fd, regs_of fp fd (l ++ k) = regs_of fp fd l) /\ (forall t, armed t (l ++ k) = armed t l).
Proof.
  intros Hk. revert l. induction Hk as [|e k He _ IH]; intros l; [by rewrite app_nil_r|].
  replace (l ++ e :: k) with ((l ++ [e]) ++ k) by (by rewrite <- app_assoc). destruct (IH (l ++ [e])) as (Ha & Hr & Ht).
  destruct e as [| |c0|]; try done. destruct c0; try done. split; [|split]; intros.
  - rewrite Ha, answers_app. cbn. by rewrite app_nil_r.
  - rewrite Hr. unfold regs_of. by rewrite fold_left_app.
  - rewrite Ht. unfold armed. by rewrite fold_left_app.
Qed.

Lemma sets_same f s s' : sets f s s' -> same s s'.
Proof.
  intros [(k & E & F) Es]. destruct (print_inert k (log s) F) as (_ & Hr & Ht). split; [|split].
  - unfold V. cbn. by rewrite Es.
  - unfold R. rewrite E. apply Hr.
  - unfold running. rewrite E. apply Ht.
Qed.

Lemma set_by_found n c x v : set_by v (Member n c x) =
  match List.find (λ m, tk_is n (fst (fst m))) light_names with Some (_, set, _) => set (u32 (tk_int x)) v | None => v end.
Proof. cbn. repeat match goal with |- context [if tk_is n ?t then _ else _] => destruct (tk_is n t); [done|] end. done. Qed.

Lemma each_light fuel items cur s : tk_type json_end = 0 -> Forall good_item items -> (length (tokens_of items) < fuel)%nat ->
  wp (each_name fuel light_member tt (mk_parser (tokens_of items) cur)) s (λ _ s', sets (set_by_all items) s s').
Proof.
  intros Hend Hi. revert fuel cur s. induction Hi as [|i items Hi _ IH]; intros fuel cur s Hf.
  - destruct fuel as [|fuel]; [cbn in Hf; lia|]. cbn [each_name jsonparse_next tokens_of flat_map rest current]. rewrite Hend. apply wp_ret, sets_refl.
  - assert (Hskip : forall t l fuel cur s (Q : unit -> sys device -> Prop), inner t -> (length (t :: l) < fuel)%nat ->
      (forall fuel', (length l < fuel')%nat -> wp (each_name fuel' light_member tt (mk_parser l t)) s Q) ->
      wp (each_name fuel light_member tt (mk_parser (t :: l) cur)) s Q).
    { clear. intros t l fuel cur s Q [HA HB] Hf HQ. destruct fuel as [|fuel]; [cbn in Hf; lia|]. cbn [each_name jsonparse_next rest current].
      zfalse (tk_type t =? 0). zfalse (tk_type t =? JSON_TYPE_PAIR_NAME). apply HQ. cbn in Hf. lia. }
    destruct i as [t|n c v].
    + apply Hskip; [done|done|]. intros fuel' Hf'. apply IH. done.
    + destruct Hi as (Hn & Hc & Hv). destruct fuel as [|fuel]; [cbn in Hf; lia|]. cbn [tokens_of flat_map app] in *. fold (tokens_of items) in *.
      cbn [each_name jsonparse_next rest current]. rewrite Hn. change (JSON_TYPE_PAIR_NAME =? 0) with false. rewrite Z.eqb_refl.
      unfold light_member. cbn [current]. pose proof (set_by_found n c v (J s)) as Hset.
      assert (Hext : forall f s', f (J s) = set_by (J s) (Member n c v) -> sets (λ v, set_by_all items (f v)) s s' ->
        sets (set_by_all (Member n c v :: items)) s s') by (intros f s' E; apply sets_ext; cbn [set_by_all fold_left]; by rewrite <- E).
      destruct (List.find (λ m, tk_is n (fst (fst m))) light_names) as [[[nm set] msg]|].
      * apply wp_bind, wp_bind, wp_pmodify, wp_bind, wp_call, wp_ret. cbn [log mem st value_of jsonparse_next rest current].
        eapply wp_mono; [apply IH; cbn in Hf; lia|]. intros [] s' Hs. apply (Hext (set (u32 (tk_int v)))); [done|].
        refine (sets_trans _ _ s _ s' _ Hs). split; [by eexists; split; [done|apply Forall_singleton]|done].
      * apply wp_bind, wp_ret. apply Hskip; [done|cbn in *; lia|]. intros f1 Hf1. apply Hskip; [done|cbn in *; lia|]. intros f2 Hf2.
        eapply wp_mono; [by apply IH|]. intros [] s' Hs. by apply (Hext (λ v, v)).
Qed.

(** The callback of the light. *)
Lemma light_set_ok text items s : tk_type json_end = 0 -> json_elements text = tokens_of items -> Forall good_item items ->
  let j := set_by_all items ((J s) <| lperiod := 1000 |> <| lcw := 0 |> <| lww := 0 |>) in
  light_ok s -> Forall (λ d, 0 <= d) [lr j; lg j; lb j; lcw j; lww j] -> 1000 <= lperiod j <= 10000 ->
  wp (light_status_set (jsonparse_setup text)) s (λ _ s', (light_ok s' /\ fits s' /\
    (forall i, 0 <= i < 5 -> cur_ s' i = aim (lr j) (lg j) (lb j) (lcw j) (lww j) (lperiod j) i) /\ reg_period (R s') = lperiod j) /\
    (exists k, log s' = log s ++ k /\ Forall no_answer k) /\ others (st s') = (d_http (st s), j, d_web (st s))).
Proof.
  intros Hend Htext Hi j Hl Hpos Hp. unfold light_status_set. apply wp_bind, wp_pmodify. set (s1 := mk_sys _ _ _).
  assert (HS1 : sets (λ v, v <| lperiod := 1000 |> <| lcw := 0 |> <| lww := 0 |>) s s1) by (split; [exists []; by rewrite app_nil_r|done]).
  apply wp_bind. unfold names, jsonparse_setup. cbn [rest]. rewrite Htext.
  eapply wp_mono; [apply each_light; [done|done|lia]|]. intros [] s2 HS2. assert (HS3 := sets_trans _ _ _ _ _ HS1 HS2).
  assert (HJ : d_json (st s2) = j) by (destruct HS3 as [_ ->]; done).
  apply wp_bind, wp_pvar. cbn [part device_json]. rewrite HJ.
  destruct (set_lamp_ok (lr j) (lg j) (lb j) (lcw j) (lww j) (lperiod j) s2) as ([] & s3 & E & HQ);
    [apply (light_ok_same s); [by eapply sets_same|done]|done|done|].
  exists tt, s3. split; [exact E|]. split; [exact HQ|]. destruct (calm_set_lamp (lr j) (lg j) (lb j) (lcw j) (lww j) (lperiod j) s2 tt s3 E) as [(k & Ek & Fk) Ho].
  destruct HS3 as [(k' & Ek' & Fk') Es]. split.
  - exists (k' ++ k). rewrite Ek, Ek', <- app_assoc. split; [done|]. apply Forall_app. split; [|done].
    eapply List.Forall_impl; [|exact Fk']. intros [| |[]|]; done.
  - rewrite Ho. unfold others. by rewrite Es.
Qed.
Lemma parse_light text l s (Q : unit -> sys device -> Prop) :
  json_callbacks PwmTree = light_callback :: l -> Forall (eq light_callback) l ->
  wp (light_status_set (jsonparse_setup text)) s Q -> wp (json_parse garbage PwmTree text) s Q.
Proof.
  intros Hc Hl HQ. unfold json_parse. rewrite Hc. cbn [parse_each set_callback]. rewrite bool_decide_eq_false_2 by done. apply wp_bind.
  eapply wp_mono; [exact HQ|]. intros [] s' HQ'. clear - Hl HQ'. induction Hl as [|c l <- _ IH]; [by apply wp_ret|].
  cbn [parse_each]. by rewrite bool_decide_eq_true_2.
Qed.

(** Waiting for a request: no image is coming in, and no request is half read. *)
Definition idle (h : http_vars) : Prop := upgrade_lock h = 0 /\ precvbuffer h = None /\ save_totallength h = 0.

(** The request [b] was read and kept. *)
Definition kept (b : list Z) s s1 : Prop :=
  (exists k, log s1 = log s ++ k /\ Forall is_print k) /\
  st s1 = (st s) <| d_http := (d_http (st s)) <| precvbuffer := Some b |> <| save_totallength := 0 |> <| dat_sumlength := 0 |> |>.

Lemma kept_same b s s1 : kept b s s1 -> same s s1 /\ (forall c, answers c (log s1) = answers c (log s)).
Proof.
  intros [(k & E & F) Es]. destruct (print_inert k (log s) F) as (Ha & Hr & Ht). split; [split; [|split]|].
  - unfold V. cbn. by rewrite Es.
  - unfold R. rewrite E. apply Hr.
  - unfold running. rewrite E. apply Ht.
  - intros c. rewrite E. apply Ha.
Qed.

(** A complete request in one segment is answered from what its text says. *)
Lemma recv_post c head body f s (Q : unit -> sys device -> Prop) :
  idle (d_http (st s)) -> request_head head (zlen body) -> no_char 0 body -> zlen head + zlen body < 1024 ->
  parse_url (Some (head ++ body ++ [0])) zero_frame = Some f -> Type_ f = POST ->
  (forall s1, kept (head ++ body ++ [0]) s s1 -> wp (do_post garbage c f) s1 (λ _ s2,
     Q tt (mk_sys (log s2) (mem s2) ((st s2) <| d_http := (d_http (st s2)) <| precvbuffer := None |> |>)))) ->
  wp (webserver_recv garbage c (head ++ body ++ [0]) (zlen head + zlen body)) s Q.
Proof.
  intros (Hlock & Hbuf & Htot) Hh Hz0 Hlen Hurl Hty HQ. pose proof (zlen_nonneg head). pose proof (zlen_nonneg body).
  unfold webserver_recv. apply wp_bind, wp_pvar. cbn [part device_http]. rewrite Hlock. change (0 =? 0) with true. cbn iota.
  apply wp_bind, wp_call, wp_bind, (check_head_ok head (zlen body)); [done|lia|lia|]. rewrite Z.eqb_refl. cbn [negb].
  apply wp_bind, save_complete_ok; [done|done|lia|by unfold HV; cbn|]. cbn [negb swhen].
  apply wp_bind, wp_ret, wp_bind, wp_pvar. cbn [st after_http part set_part device_http d_http set_field precvbuffer].
  apply wp_bind, (wp_lift _ _ _ _ Hurl). rewrite Hty. apply wp_bind, wp_bind, wp_call. cbn [log mem st after_http].
  match goal with |- wp _ ?S _ => assert (HS : kept (head ++ body ++ [0]) s S) end.
  { split; [|by destruct (st s) as [? [] ? ?]]. eexists. split; [cbn [log]; rewrite <- !app_assoc; reflexivity|]. by repeat (apply Forall_cons_2; [done|]). }
  eapply wp_mono; [by apply HQ|]. intros [] s2 HQ2. by apply wp_pmodify.
Qed.

(** The names of such a request compared with those of the server. *)
Lemma light_frame :
  let f := pad URLSize (chars "light") in
  os_strcmp_eq (pad URLSize (chars "config")) (chars "config") = Some true /\
  os_strcmp_eq (pad URLSize (chars "command")) (chars "command") = Some true /\
  os_strcmp_eq f (chars "reboot") = Some false /\ os_strcmp_eq f (chars "wifi") = Some false /\ os_strcmp_eq f (chars "light") = Some true.
Proof. vm_compute. done. Qed.


(** A request cut in two is lost.  When the body of a request comes in a segment
    of its own, the first segment is passed over in silence, the second is
    answered twice with a refusal, and no part of the request takes effect: of all
    the variables only the lengths of the request in progress may differ. *)
Theorem split_post_refused c head n part1 part2 s :
  idle (d_http (st s)) -> request_head head n -> 0 <= n < 1000000000 -> zlen part1 ≠ n -> zlen head + zlen part1 < 65536 ->
  os_strstr (part2 ++ [0]) 0 HEAD_END = Some None ->
  wp (webserver_recv garbage c (head ++ part1 ++ [0]) (zlen head + zlen part1)) s (λ _ s1,
    answers c (log s1) = answers c (log s) /\
    wp (webserver_recv garbage c (part2 ++ [0]) (zlen part2)) s1 (λ _ s2,
      answers c (log s2) = answers c (log s) ++ [answer false; answer false] /\
      same s s2 /\ st s2 = (st s) <| d_http := (d_http (st s)) <| dat_sumlength := 0 |> |>)).
Proof.
  intros (Hlock & Hbuf & Htot) Hh Hn Hne Hlen Htail. pose proof (zlen_nonneg head). pose proof (zlen_nonneg part1).
  unfold webserver_recv at 1. apply wp_bind, wp_pvar. cbn [part device_http]. rewrite Hlock. change (0 =? 0) with true. cbn iota.
  apply wp_bind, wp_call, wp_bind, (check_head_ok head n); [done|lia|lia|]. zfalse (n =? zlen part1). cbn [negb]. apply wp_call.
  cbn [log mem st after_http]. split; [rewrite !answers_app; cbn; by rewrite !app_nil_r|].
  unfold webserver_recv. apply wp_bind, wp_pvar. cbn [st part set_part device_http d_http set_field upgrade_lock]. unfold HV. cbn [st part device_http].
  rewrite Hlock. change (0 =? 0) with true. cbn iota. apply wp_bind, wp_call, wp_bind, check_tail_ok; [done|]. cbn [negb].
  apply wp_bind, save_tail_ok; [done|unfold HV; cbn; exact Hbuf|]. cbn [negb swhen]. apply wp_bind. unfold refuse at 1. apply response_ok.
  apply wp_bind, wp_pvar. cbn [log mem st after_http part set_part device_http d_http set_field precvbuffer]. unfold HV. cbn [st part device_http d_http precvbuffer set_field].
  rewrite Hbuf. apply wp_bind. eapply wp_lift; [reflexivity|]. cbn [Type_ zero_frame]. apply wp_bind, wp_bind, wp_call. cbn [log mem st].
  unfold do_get, selects. do 3 (apply wp_bind, wp_bind; eapply wp_lift; [vm_compute; reflexivity|]; apply wp_ret; cbv iota).
  unfold refuse. apply response_ok. apply wp_pmodify. cbn [log mem st]. split; [|split].
  - rewrite !answers_app. cbn. rewrite !bool_decide_eq_true_2 by done. by rewrite !app_nil_r, <- !app_assoc.
  - split; [done|]. split; [unfold R, regs_of|unfold running, armed]; cbn [log]; by rewrite !fold_left_app.
  - destruct (st s) as [? [] ? ?]. cbn in *. by subst.
Qed.
End Laws.

(** ** Requests that do not do what they say *)

Section Oddities.
Context `{Env} `{!Flash} `{JsonLib} `{Station} `{ConnState} (check_ip : Z -> F device unit) (garbage : bool).
Implicit Types s : sys device.

(** "POST /config?command=reboot" arms the timer of [restart_10ms_cb]; when that
    runs with the connection closed it sets the WiFi mode and nothing else: the
    device does not restart. *)
Theorem reboot_only_sets_mode c s :
  wp (post_reboot c) s (λ _ s1, answers c (log s1) = answers c (log s) ++ [answer true] /\
    (conn_state (log s1) c = ESPCONN_CLOSE ->
     wp (restart_10ms_cb check_ip) s1 (λ _ s2, log s2 = log s1 ++ [Do (wifi_set_opmode STATION_MODE)] /\ st s2 = st s1))).
Proof.
  unfold post_reboot, disarm_restart, arm_restart. apply wp_bind, wp_bind, wp_pvar.
  apply (wp_mono _ _ (λ _ s', answers c (log s') = answers c (log s) /\ st s' = st s)).
  { apply wp_when; intros _; [apply wp_call|done]. cbn [log mem st]. rewrite answers_app. cbn. by rewrite app_nil_r. }
  intros [] s1 [Ha Hs]. apply wp_bind, wp_pmodify, wp_bind, wp_pmodify, wp_bind, wp_bind, wp_call, wp_call, response_ok.
  cbn [log mem st part set_part device_web]. split.
  - rewrite !answers_app, Ha. cbn. rewrite bool_decide_eq_true_2 by done. by rewrite !app_nil_r.
  - intros Hc. unfold restart_10ms_cb. apply wp_bind, wp_pvar. cbn [st part set_part device_web d_web set_field rstparm].
    apply wp_bind, wp_get. cbn [log]. rewrite Hc. change (ESPCONN_CLOSE =? ESPCONN_CLOSE) with true. by apply wp_call.
Qed.

(** "GET /client?command=info" is refused after it was answered. *)
Theorem info_answered_twice c f data s t :
  selects f "client" "command" s = Some (true, s) -> pFilename f = pad URLSize (chars "info") ->
  json_send c INFOMATION s = Some (tt, t) ->
  wp (do_get c f data) s (λ _ s', answers c (log s') = answers c (log t) ++ [answer false]).
Proof.
  intros Hsel Hf Ht. unfold do_get. apply wp_bind. exists true, s. split; [exact Hsel|]. cbv iota. unfold file_is. rewrite Hf.
  assert (F : os_strcmp_eq (pad URLSize (chars "info")) (chars "info") = Some true /\
    os_strcmp_eq (pad URLSize (chars "info")) (chars "status") = Some false /\
    os_strcmp_eq (pad URLSize (chars "info")) (chars "scan") = Some false) by (by vm_compute). destruct F as (F1 & F2 & F3).
  apply wp_bind, (wp_lift _ _ _ _ F1), wp_bind. exists tt, t. split; [exact Ht|].
  apply wp_bind, (wp_lift _ _ _ _ F2). cbv iota. apply wp_bind, (wp_lift _ _ _ _ F3). cbv iota. apply response_ok.
  cbn [log]. rewrite answers_app. cbn. by rewrite bool_decide_eq_true_2.
Qed.
End Oddities.

(** ** The theorems at concrete inputs *)

Fixpoint callbacks_of (t : jtree) : list callback :=
  match t with
  | JCallback c => [c]
  | JObject pairs => flat_map (λ p, callbacks_of (snd p)) pairs
  | JArray values => flat_map callbacks_of values
  end.
Definition mark (c : Z) : token := mk_token c (λ _, false) 0 [c].
Definition name (s : string) : token := mk_token JSON_TYPE_PAIR_NAME (String.eqb s) 0 (chars s).
Definition number (v : Z) : token := mk_token 48 (λ _, false) v (percent_d v).

(** {"period":1000,"rgb":{"red":22222,"wwhite":300}} *)
Definition sample_text : list Z :=
  chars "{" ++ quoted "period" ++ chars ":1000," ++ quoted "rgb" ++ chars ":{" ++ quoted "red" ++ chars ":22222," ++ quoted "wwhite" ++ chars ":300}}".
Definition sample_items : list item :=
  [Other (mark 123); Member (name "period") (mark 58) (number 1000); Other (mark 44); Member (name "rgb") (mark 58) (mark 123);
   Member (name "red") (mark 58) (number 22222); Other (mark 44); Member (name "wwhite") (mark 58) (number 300);
   Other (mark 125); Other (mark 125)].
Definition sample_json : JsonLib :=
  mk_json_lib (λ _, []) callbacks_of (λ _, tokens_of sample_items) (mark 0) percent_d (λ s, [34] ++ s ++ [34]).
Definition sample_station : Station := mk_station (λ _, zero_sta) (λ _, zero_ap) (λ _ _, mk_ip_info 0 0 0) (λ _, 0) (chars "2.1.0").
Definition sample_rest : list Z := chars " 192.168.4.1" ++ CRLF ++ CONTENT_LENGTH ++ chars "48" ++ HEAD_END.
Definition sample_head : list Z := print_url POST (chars "config") (chars "command") (chars "light") ++ chars "Host:" ++ sample_rest.

Ltac no_zero := apply (proj2 (List.Forall_forall _ _)); intros ? Hin; vm_compute in Hin; intuition (subst; discriminate).

Lemma sample_request : request_head sample_head 48.
Proof. split; [no_zero|]. split; [reflexivity|]. exists 56, CRLF. split; reflexivity. Defined.


Lemma split_post_refused_witness :
  wp (@webserver_recv lamp sample_json sample_station device _ _ _ _ false (web_client 0) (sample_head ++ [] ++ [0]) (zlen sample_head + 0))
    (mk_sys [] ∅ device_initial) (λ _ s1,
      wp (@webserver_recv lamp sample_json sample_station device _ _ _ _ false (web_client 0) (sample_text ++ [0]) (zlen sample_text)) s1 (λ _ s2,
        answers (web_client 0) (log s2) = [answer false; answer false] /\ st s2 = device_initial)).
Proof.
  destruct (@split_post_refused lamp sample_json sample_station lamp_laws false (web_client 0) sample_head 48 [] sample_text
    (mk_sys [] ∅ device_initial)) as ([] & s1 & E1 & Ha1 & [] & s2 & E2 & Ha2 & _ & Hs2).
  - by split_and!.
  - exact sample_request.
  - lia.
  - discriminate.
  - reflexivity.
  - reflexivity.
  - exists tt, s1. split; [exact E1|]. exists tt, s2. split; [exact E2|]. split; [exact Ha2|exact Hs2].
Defined.
