(* ===== verification/IotCloud.v ===== *)
(** * IotCloud: the cloud client of the IoT demo

    The rest of IoT_Demo/user/user_esp_platform.c, as include/user_config.h has
    it: [LIGHT_DEVICE], [USE_DNS], [AP_CACHE], no SSL.  [os_zalloc] succeeds and
    blocks that are freed by the function that allocates them are values. *)

From Stdlib Require Import String.
From stdpp Require Import gmap.
From S2P Require Import Prelude CMem CString Board UartDriver SmartConfig TcpClient UdpServer Wifi MqttConfig IotLight IotTimer IotControl IotHttp IotJson.
Local Open Scope string_scope.
Local Open Scope Z_scope.
Local Open Scope sm_scope.
Local Open Scope list_scope.

(** ** Constants *)

(** include/user_config.h, include/user_esp_platform.h *)
Definition ESP_DOMAIN : string := "iot.espressif.cn".
Definition BEACON_TIME : Z := 50000.
Definition AP_CACHE_NUMBER : Z := 5.
Definition packet_size : Z := 2 * 1024.
Definition DEVICE_ACTIVE_DONE : Z := 41.
Definition DEVICE_ACTIVE_FAIL : Z := 42.
Definition DEVICE_CONNECT_SERVER_FAIL : Z := 43.
(** include/user_interface.h, include/espconn.h *)
Definition STATIONAP_MODE : Z := 0x03.
Definition REASON_WDT_RST : Z := 1.
Definition REASON_EXCEPTION_RST : Z := 2.
Definition REASON_SOFT_WDT_RST : Z := 3.
Definition ESPCONN_NONE : Z := 0.
Definition ESPCONN_CONNECT : Z := 3.

(** ** The messages *)

Definition jpair (name : string) (value : list Z) : list Z := quoted name ++ chars ": " ++ value.
Definition jstr (s : list Z) : list Z := [34] ++ s ++ [34].
Definition meta_token (word : string) (devkey : list Z) : list Z :=
  quoted "meta" ++ chars ": {" ++ jpair "Authorization" (jstr (chars word ++ chars " " ++ devkey)) ++ chars "}".

Definition ACTIVE_FRAME (nonce : Z) (token bssid version devkey : list Z) : list Z :=
  chars "{" ++ jpair "nonce" (percent_d nonce) ++ chars "," ++ jpair "path" (quoted "/v1/device/activate/") ++ chars ", " ++
  jpair "method" (quoted "POST") ++ chars ", " ++ quoted "body" ++ chars ": {" ++ jpair "encrypt_method" (quoted "PLAIN") ++ chars ", " ++
  jpair "token" (jstr token) ++ chars ", " ++ jpair "bssid" (jstr (MACSTR bssid)) ++ chars "," ++ quoted "rom_version" ++ chars ":" ++ jstr version ++
  chars "}, " ++ meta_token "token" devkey ++ chars "}" ++ [10].
Definition FIRST_FRAME (nonce : Z) (devkey : list Z) : list Z :=
  chars "{" ++ jpair "nonce" (percent_d nonce) ++ chars ", " ++ jpair "path" (quoted "/v1/device/identify") ++ chars ", " ++
  jpair "method" (quoted "GET") ++ chars "," ++ meta_token "token" devkey ++ chars "}" ++ [10].
Definition UPGRADE_FRAME (devkey action pre_version version : list Z) : list Z :=
  chars "{" ++ jpair "path" (quoted "/v1/messages/") ++ chars ", " ++ jpair "method" (quoted "POST") ++ chars ", " ++ meta_token "token" devkey ++
  chars "," ++ quoted "get" ++ chars ":{" ++ quoted "action" ++ chars ":" ++ jstr action ++ chars "}," ++ quoted "body" ++ chars ":{" ++
  quoted "pre_rom_version" ++ chars ":" ++ jstr pre_version ++ chars "," ++ quoted "rom_version" ++ chars ":" ++ jstr version ++ chars "}}" ++ [10].
Definition BEACON_FRAME (devkey : list Z) : list Z :=
  chars "{" ++ jpair "path" (quoted "/v1/ping/") ++ chars ", " ++ jpair "method" (quoted "POST") ++ chars "," ++ meta_token "token" devkey ++ chars "}" ++ [10].
Definition RPC_RESPONSE_FRAME (nonce : Z) : list Z :=
  chars "{" ++ jpair "status" (chars "200") ++ chars ", " ++ jpair "nonce" (percent_d nonce) ++ chars ", " ++ jpair "deliver_to_device" (chars "true") ++ chars "}" ++ [10].
Definition TIMER_FRAME (devkey : list Z) : list Z :=
  chars "{" ++ jpair "body" (chars "{}") ++ chars ", " ++ quoted "get" ++ chars ":{" ++ quoted "is_humanize_format_simple" ++ chars ":" ++ quoted "true" ++
  chars "}," ++ meta_token "Token" devkey ++ chars "," ++ quoted "path" ++ chars ":" ++ quoted "/v1/device/timers/" ++ chars "," ++
  quoted "post" ++ chars ":{}," ++ jpair "method" (quoted "GET") ++ chars "}" ++ [10].
Definition pheadbuffer (devkey : list Z) : list Z :=
  chars "Connection: keep-alive" ++ CRLF ++ chars "Cache-Control: no-cache" ++ CRLF ++
  chars "User-Agent: Mozilla/5.0 (Windows NT 5.1) AppleWebKit/537.36 (KHTML, like Gecko) Chrome/30.0.1599.101 Safari/537.36 " ++ CRLF ++
  chars "Accept: */*" ++ CRLF ++ chars "Authorization: token " ++ devkey ++ CRLF ++ chars "Accept-Encoding: gzip,deflate,sdch" ++ CRLF ++
  chars "Accept-Language: zh-CN,zh;q=0.8" ++ HEAD_END.
(** [IPSTR] of four bytes. *)
Definition ip_bytes_text (ip : list Z) : list Z := separated 46 (decimal <$> ip).
Definition upgrade_request (version user_bin ip : list Z) (port : Z) (devkey : list Z) : list Z :=
  chars "GET /v1/device/rom/?action=download_rom&version=" ++ version ++ chars "&filename=" ++ user_bin ++ chars " HTTP/1.0" ++ CRLF ++
  chars "Host: " ++ ip_bytes_text ip ++ chars ":" ++ percent_d port ++ CRLF ++ pheadbuffer devkey.

(** What is looked for in a message. *)
Definition ACTIVATE_KEY : list Z := quoted "activate_status" ++ chars ": ".
Definition UPGRADE_KEY : list Z := jpair "action" (quoted "sys_upgrade").
Definition REBOOT_KEY : list Z := jpair "action" (quoted "sys_reboot").
Definition VERSION_KEY : list Z := quoted "version" ++ chars ":".
Definition METHOD_KEY : list Z := quoted "method" ++ chars ": ".

(** ** The static variables

    [esp_param] and [device_status] are in [json_vars].  [conn_tcp] is
    [user_tcp] once [user_conn.proto.tcp] points to it; [c_state] is
    [user_conn.state], which the SDK writes too. *)
Record cloud_vars := mk_cloud {
  device_recon_count : Z; active_nonce : Z; ping_status : Z; esp_server_ip : Z;
  pbuffer : list Z; conn_tcp : option esp_tcp; c_state : Z }.
#[export] Instance eta_cloud : Settable cloud_vars := λ v, mk_cloud
  (device_recon_count v) (active_nonce v) (ping_status v) (esp_server_ip v) (pbuffer v) (conn_tcp v) (c_state v).
Definition zero_buffer : list Z := replicate 2048 0.
Definition cloud_initial : cloud_vars := mk_cloud 0 0 0 0 zero_buffer None 0.

(** [struct upgrade_server_info] *)
Record upgrade_server_info := mk_server {
  sv_conn : option conn; sv_ip : list Z; sv_port : Z; sv_flag : Z; pre_version : list Z; upgrade_version : list Z; sv_url : list Z }.

(** What the SDK keeps: its address, the saved parameters, the RTC memory. *)
Class Kept := mk_kept {
  macaddr : list event -> Z -> list Z;              (* [wifi_get_macaddr] *)
  saved_param : list event -> Z -> list Z;          (* [system_param_load] *)
  rtc_mem : list event -> Z -> Z -> list Z          (* [system_rtc_mem_read] *) }.

Section Cloud.
Context `{Env} `{Flash} `{Kept} {X : Type} `{PL : Part X light_vars} `{PC : Part X control_vars} `{PT : Part X timer_vars}
  `{PJ : Part X json_vars} `{PV : Part X cloud_vars}.
(** The rounds of the loop of [user_esp_platform_ap_change], which need not end. *)
Context (ap_rounds : nat).

(** ** Sending *)

(** [os_sprintf( pbuf, ... )] into a block of [packet_size] bytes, and
    [espconn_sent( pespconn, pbuf, os_strlen( pbuf ) )]. *)
Definition packet (frame : list Z) : option (list Z) :=
  pbuf ← bsplice (replicate (Z.to_nat packet_size) 0) 0 (frame ++ [0]); string_of pbuf.
Definition send_packet (c : conn) (frame : list Z) : F X unit :=
  d <- slift (packet frame) ;; call (os_printf "%s\n") ;; call (espconn_sent c d).

(** A local array of 41 zeros that took 40 bytes, as a string. *)
Definition key_string (b : list Z) : option (list Z) := d ← bslice b 0 40; a ← bsplice (replicate 41 0) 0 d; string_of a.

(** The caller's buffer, when there is one. *)
Definition user_esp_platform_get_token (token : option (list Z)) : F X (option (list Z)) :=
  match token with
  | None => sret None
  | Some b => p <- pvar esp_param ;; b <- slift (bsplice b 0 (token_ p)) ;; sret (Some b)
  end.

Definition user_esp_platform_sent (pespconn : conn) : F X unit :=
  p <- pvar esp_param ;;
  devkey <- slift (key_string (devkey p)) ;;
  swhen (activeflag p =? 0xFF) (pmodify (λ v, v <| esp_param := (esp_param v) <| activeflag := 0 |> |>)) ;;
  p <- pvar esp_param ;;
  if activeflag p =? 0 then
    r <- ask os_random ;;
    pmodify (λ v, v <| active_nonce := Z.land r 0x7FFFFFFF |>) ;;
    token <- slift (key_string (token_ p)) ;;
    l <- sget log ;;
    call (wifi_get_macaddr STATION_IF) ;;
    let bssid := macaddr l STATION_IF in
    nonce <- pvar active_nonce ;;
    send_packet pespconn (ACTIVE_FRAME nonce token bssid iot_version devkey)
  else
    r <- ask os_random ;;
    let nonce := Z.land r 0x7FFFFFFF in
    send_packet pespconn (FIRST_FRAME nonce devkey).

(** Without the line about the LED of the plug. *)
Definition user_esp_platform_discon (pespconn : conn) : F X unit :=
  call (os_printf "user_esp_platform_discon\n") ;;
  call (espconn_disconnect pespconn).

Definition user_esp_platform_sent_cb : F X unit := call (os_printf "user_esp_platform_sent_cb\n").

Definition user_esp_platform_sent_beacon (pespconn : option conn) : F X unit :=
  match pespconn with
  | None => sret tt
  | Some c =>
      state <- pvar c_state ;;
      if state =? ESPCONN_CONNECT then
        p <- pvar esp_param ;;
        if activeflag p =? 0 then
          call (os_printf "please check device is activated.\n") ;;
          user_esp_platform_sent c
        else
          devkey <- slift (key_string (devkey p)) ;;
          t <- ask system_get_time ;;
          call (os_printf "user_esp_platform_sent_beacon %u\n") ;;
          ping <- pvar ping_status ;;
          if ping =? 0 then
            call (os_printf "user_esp_platform_sent_beacon sent fail!\n") ;;
            user_esp_platform_discon c
          else
            d <- slift (packet (BEACON_FRAME devkey)) ;;
            call (espconn_sent c d) ;;
            pmodify (λ v, v <| ping_status := 0 |>) ;;
            call (os_timer_arm beacon_timer BEACON_TIME 0)
      else
        call (os_printf "user_esp_platform_sent_beacon sent fail!\n") ;;
        user_esp_platform_discon c
  end.

Definition user_platform_rpc_set_rsp (pespconn : option conn) (nonce : Z) : F X unit :=
  match pespconn with None => sret tt | Some c => send_packet c (RPC_RESPONSE_FRAME nonce) end.

Definition user_platform_timer_get (pespconn : option conn) : F X unit :=
  p <- pvar esp_param ;;
  devkey <- slift (key_string (devkey p)) ;;
  match pespconn with None => sret tt | Some c => send_packet c (TIMER_FRAME devkey) end.

(** ** Firmware upgrades *)

(** [server] is freed at the end. *)
Definition user_esp_platform_upgrade_rsp (server : upgrade_server_info) : F X unit :=
  p <- pvar esp_param ;;
  devkey <- slift (key_string (devkey p)) ;;
  pre <- slift (string_of (pre_version server)) ;;
  version <- slift (string_of (upgrade_version server)) ;;
  c <- slift (sv_conn server) ;;
  if sv_flag server =? 1 then
    call (os_printf "user_esp_platform_upgarde_successfully\n") ;;
    send_packet c (UPGRADE_FRAME devkey (chars "device_upgrade_success") pre version)
  else
    call (os_printf "user_esp_platform_upgrade_failed\n") ;;
    send_packet c (UPGRADE_FRAME devkey (chars "device_upgrade_failed") pre version).

(** The name of the other image, in an array of nine characters. *)
Definition user_bin_name : F X (list Z) :=
  b <- ask system_upgrade_userbin_check ;;
  if u8 b =? 0x00 then slift (bsplice (replicate 9 0) 0 (chars "user2.bin" ++ [0]))
  else
    b <- ask system_upgrade_userbin_check ;;
    if u8 b =? 0x01 then slift (bsplice (replicate 9 0) 0 (chars "user1.bin" ++ [0]))
    else sret (replicate 9 0).

Definition user_esp_platform_upgrade_begin (pespconn : conn) (server : upgrade_server_info) : F X unit :=
  p <- pvar esp_param ;;
  devkey <- slift (key_string (devkey p)) ;;
  t <- pvar conn_tcp ;; t <- slift t ;;
  let ip := tcp_remote_ip t in
  let port := 80 in
  user_bin <- user_bin_name ;;
  bin <- slift (string_of user_bin) ;;
  version <- slift (string_of (upgrade_version server)) ;;
  url <- slift (bsplice (replicate 512 0) 0 (upgrade_request version bin ip port devkey ++ [0])) ;;
  call (os_printf "%s\n") ;;
  url <- slift (string_of url) ;;
  r <- ask (system_upgrade_start ip port version url) ;;
  swhen (u8 r =? 0) (call (os_printf "upgrade is already started\n")).

(** ** What the cloud sends *)

Definition found (text key : list Z) : bool := match strstr text key with Some _ => true | None => false end.

(** "activate_status": 1, with the nonce of the request. *)
Definition recv_activate (b text : list Z) (k : Z) : F X unit :=
  one <- slift (begins (drop (Z.to_nat (k + 19)) b) (chars "1")) ;;
  if one : bool then
    call (os_printf "device activates successful.\n") ;;
    pmodify (λ v, v <| device_status := DEVICE_ACTIVE_DONE |>) ;;
    pmodify (λ v, v <| esp_param := (esp_param v) <| activeflag := 1 |> |>) ;;
    save_esp_param ;;
    user_esp_platform_sent user_conn ;;
    call system_restart
  else
    call (os_printf "device activates failed.\n") ;;
    pmodify (λ v, v <| device_status := DEVICE_ACTIVE_FAIL |>).

Definition recv_upgrade (b text : list Z) : F X unit :=
  match strstr text VERSION_KEY with
  | None => sret tt
  | Some k =>
      nonce <- slift (user_esp_platform_parse_nonce text) ;;
      user_platform_rpc_set_rsp (Some user_conn) nonce ;;
      version <- slift (bslice b (k + 12) 16) ;;
      version <- slift (wr version 15 0) ;;
      pre <- slift (bsplice (replicate 16 0) 0 (iot_version ++ [0])) ;;
      user_esp_platform_upgrade_begin user_conn (mk_server None (replicate 4 0) 0 0 pre version [])
  end.

Definition set_client_timer (f : fn) (ms : Z) : F X unit :=
  call (os_timer_disarm client_timer) ;; call (os_timer_setfn client_timer f) ;; call (os_timer_arm client_timer ms 0).

Definition recv_timers (text : list Z) : F X unit :=
  nonce <- slift (user_esp_platform_parse_nonce text) ;;
  user_platform_rpc_set_rsp (Some user_conn) nonce ;;
  set_client_timer fp_platform_timer_get 2000.

Definition recv_method (b text : list Z) (k : Z) : F X unit :=
  get <- slift (begins (drop (Z.to_nat (k + 11)) b) (chars "GET")) ;;
  if get : bool then user_esp_platform_get_info text
  else
    post <- slift (begins (drop (Z.to_nat (k + 11)) b) (chars "POST")) ;;
    swhen post (user_esp_platform_set_info text).

(** The chain of [else if]s; [b] is [pbuffer], [text] the string in it (a buffer
    without a zero is taken to be undefined). *)
Definition recv_other (b text pusrdata : list Z) : F X unit :=
  if found text UPGRADE_KEY then recv_upgrade b text
  else if found text REBOOT_KEY then set_client_timer fp_system_upgrade_reboot 1000
  else if found text (chars "/v1/device/timers/") then recv_timers text
  else match strstr text METHOD_KEY with
  | Some k => recv_method b text k
  | None =>
      if found text (chars "ping success") then
        call (os_printf "ping success\n") ;; pmodify (λ v, v <| ping_status := 1 |>)
      else if found text (chars "send message success") then sret tt
      else if found text (chars "timers") then
        s <- slift (cstr pusrdata 0) ;; user_platform_timer_start s
      else if found text (chars "device") then user_platform_timer_get (Some user_conn)
      else sret tt
  end.

Definition recv_message (b pusrdata : list Z) : F X unit :=
  text <- slift (string_of b) ;;
  match strstr text ACTIVATE_KEY with
  | Some k =>
      nonce <- slift (user_esp_platform_parse_nonce text) ;;
      active <- pvar active_nonce ;;
      if u32 nonce =? active then recv_activate b text k else recv_other b text pusrdata
  | None => recv_other b text pusrdata
  end.

(** [pusrdata]: the memory from the received data on. *)
Definition user_esp_platform_recv_cb (pusrdata : list Z) (length : Z) : F X unit :=
  call (os_printf "user_esp_platform_recv_cb %s\n") ;;
  call (os_timer_disarm beacon_timer) ;;
  data <- slift (bslice pusrdata 0 length) ;;
  b <- pvar pbuffer ;;
  (if length =? 1460 then
     b <- slift (bsplice b 0 data) ;;
     pmodify (λ v, v <| pbuffer := b |>)
   else
     s <- slift (string_of b) ;;
     b <- slift (bsplice b (zlen s) data) ;;
     pmodify (λ v, v <| pbuffer := b |>) ;;
     recv_message b pusrdata ;;
     pmodify (λ v, v <| pbuffer := zero_buffer |>)) ;;
  call (os_timer_arm beacon_timer BEACON_TIME 0).

(** ** Joining the network and connecting *)

(** [while (wifi_station_ap_change(i) != true)] *)
Fixpoint ap_search (n : nat) (i : Z) : F X unit :=
  match n with
  | O => slift None
  | S n =>
      r <- ask (wifi_station_ap_change i) ;;
      if u8 r =? 1 then sret tt
      else
        let i := u8 (i + 1) in
        ap_search n (if i =? AP_CACHE_NUMBER - 1 then 0 else i)
  end.

Definition user_esp_platform_ap_change : F X unit :=
  call (os_printf "user_esp_platform_ap_is_changing\n") ;;
  r <- ask wifi_station_get_current_ap_id ;;
  let current_id := u8 r in
  call (os_printf "current ap id =%d\n") ;;
  ap_search ap_rounds (if current_id =? AP_CACHE_NUMBER - 1 then 0 else u8 (current_id + 1)) ;;
  pmodify (λ v, v <| device_recon_count := 0 |>) ;;
  set_client_timer (fp_platform_check_ip 0) 100.

Definition user_esp_platform_reset_mode : F X bool :=
  mode <- ask wifi_get_opmode ;;
  swhen (u8 mode =? STATION_MODE) (call (wifi_set_opmode STATIONAP_MODE)) ;;
  set_client_timer fp_platform_ap_change 5000 ;;
  sret true.

(** [++device_recon_count == 5] *)
Definition fifth_failure : F X bool :=
  pmodify (λ v, v <| device_recon_count := u8 (device_recon_count v + 1) |>) ;;
  n <- pvar device_recon_count ;; sret (n =? 5).

Definition user_esp_platform_recon_cb (err : Z) : F X unit :=
  call (os_printf "user_esp_platform_recon_cb\n") ;;
  call (os_timer_disarm beacon_timer) ;;
  fifth <- fifth_failure ;;
  stop <- (if fifth : bool then
             pmodify (λ v, v <| device_status := DEVICE_CONNECT_SERVER_FAIL |>) ;; user_esp_platform_reset_mode
           else sret false) ;;
  if stop : bool then sret tt else set_client_timer fp_platform_reconnect 1000.

Definition user_esp_platform_connect_cb : F X unit :=
  call (os_printf "user_esp_platform_connect_cb\n") ;;
  mode <- ask wifi_get_opmode ;;
  swhen (u8 mode =? STATIONAP_MODE) (call (wifi_set_opmode STATION_MODE)) ;;
  pmodify (λ v, v <| device_recon_count := 0 |>) ;;
  call (espconn_regist user_conn fp_platform_recv_cb) ;;
  call (espconn_regist user_conn fp_platform_sent_cb) ;;
  user_esp_platform_sent user_conn.

Definition the_tcp : F X esp_tcp := t <- pvar conn_tcp ;; slift t.

Definition user_esp_platform_connect : F X unit :=
  call (os_printf "user_esp_platform_connect\n") ;;
  t <- the_tcp ;; call (espconn_connect user_conn (tcp_remote_ip t)).

Definition set_tcp (f : esp_tcp -> esp_tcp) : F X unit :=
  t <- the_tcp ;; pmodify (λ v, v <| conn_tcp := Some (f t) |>).

(** [ipaddr] is null or points to an address. *)
Definition user_esp_platform_dns_found (ipaddr : option Z) : F X unit :=
  match ipaddr with
  | None =>
      call (os_printf "user_esp_platform_dns_found NULL\n") ;;
      fifth <- fifth_failure ;;
      swhen fifth (
        pmodify (λ v, v <| device_status := DEVICE_CONNECT_SERVER_FAIL |>) ;;
        user_esp_platform_reset_mode ;;
        sret tt)
  | Some addr =>
      call (os_printf "user_esp_platform_dns_found %d.%d.%d.%d\n") ;;
      ip <- pvar esp_server_ip ;;
      swhen ((ip =? 0) && negb (addr =? 0)) (
        call (os_timer_disarm client_timer) ;;
        pmodify (λ v, v <| esp_server_ip := addr |>) ;;
        set_tcp (λ t, t <| tcp_remote_ip := le_bytes addr |>) ;;
        port <- ask espconn_port ;;
        set_tcp (λ t, t <| local_port := i32 port |>) ;;
        set_tcp (λ t, t <| remote_port := 8000 |>) ;;
        pmodify (λ v, v <| ping_status := 1 |>) ;;
        call (espconn_regist user_conn fp_platform_connect_cb) ;;
        call (espconn_regist user_conn fp_platform_discon_cb) ;;
        call (espconn_regist user_conn fp_platform_recon_cb) ;;
        user_esp_platform_connect)
  end.

Definition user_esp_platform_dns_check_cb : F X unit :=
  call (os_printf "user_esp_platform_dns_check_cb\n") ;;
  call (espconn_gethostbyname ESP_DOMAIN fp_platform_dns_found) ;;
  call (os_timer_arm client_timer 1000 0).

Definition user_esp_platform_start_dns : F X unit :=
  pmodify (λ v, v <| esp_server_ip := 0 |>) ;;
  call (espconn_gethostbyname ESP_DOMAIN fp_platform_dns_found) ;;
  set_client_timer fp_platform_dns_check_cb 1000.

(** [struct mdns_info] with its one line of text. *)
Definition user_mdns_conf : F X unit :=
  addr <- ask (wifi_get_ip_info STATION_IF) ;;
  call (espconn_mdns_init "espressif_light_demo" "espLight" addr 80 "version = 1.0.1").

Definition user_esp_platform_check_ip (reset_flag : Z) : F X unit :=
  call (os_timer_disarm client_timer) ;;
  addr <- ask (wifi_get_ip_info STATION_IF) ;;
  got <- status_is STATION_GOT_IP ;;
  if (got : bool) && negb (addr =? 0) then
    user_mdns_conf ;;
    pmodify (λ v, v <| conn_tcp := Some (default (mk_esp_tcp 0 0 (replicate 4 0)) (conn_tcp v)) |> <| c_state := ESPCONN_NONE |>) ;;
    pmodify (λ v, v <| device_status := DEVICE_CONNECTING |>) ;;
    swhen (negb (reset_flag =? 0)) (pmodify (λ v, v <| device_recon_count := 0 |>)) ;;
    call (os_timer_disarm beacon_timer) ;;
    call (os_timer_setfn beacon_timer fp_platform_sent_beacon) ;;
    user_esp_platform_start_dns
  else
    wrong <- status_is STATION_WRONG_PASSWORD ;;
    failed <- (if wrong : bool then sret true
               else no_ap <- status_is STATION_NO_AP_FOUND ;;
                    if no_ap : bool then sret true else status_is STATION_CONNECT_FAIL) ;;
    if failed : bool then user_esp_platform_reset_mode ;; sret tt
    else
      call (os_timer_setfn client_timer (fp_platform_check_ip 0)) ;;
      call (os_timer_arm client_timer 100 0).

Definition user_esp_platform_reconnect : F X unit :=
  call (os_printf "user_esp_platform_reconnect\n") ;;
  user_esp_platform_check_ip 0.

Definition user_esp_platform_discon_cb (pespconn : option conn) : F X unit :=
  call (os_printf "user_esp_platform_discon_cb\n") ;;
  call (os_timer_disarm beacon_timer) ;;
  match pespconn with
  | None => sret tt
  | Some _ =>
      port <- ask espconn_port ;;
      set_tcp (λ t, t <| local_port := i32 port |>) ;;
      user_esp_platform_reconnect
  end.

(** ** [user_esp_platform_init] *)

Definition esp_param_of_bytes (b : list Z) : esp_platform_saved_param :=
  mk_esp_param (take 40 b) (take 40 (drop 40 b)) (nthZ b 80).

(** [struct dhcp_client_info]: three addresses, the flag and padding, 16 bytes. *)
Definition dhcp_client_info_size : Z := 16.
Definition sizeof_rst_info : Z := 28.

(** The address kept from before a deep sleep.  [beyond]: the 12 bytes of the
    stack after [dhcp_info] that the last call also writes. *)
Definition restore_dhcp (beyond : list Z) : F X unit :=
  l <- sget log ;;
  let dhcp_info := rtc_mem l 64 dhcp_client_info_size in
  swhen (nthZ dhcp_info 12 =? 0x01) (
    r <- ask wifi_station_dhcpc_status ;;
    swhen (u8 r =? 1) (call wifi_station_dhcpc_stop) ;;
    ip <- slift (word_of_bytes (take 4 dhcp_info)) ;;
    netmask <- slift (word_of_bytes (take 4 (drop 4 dhcp_info))) ;;
    gw <- slift (word_of_bytes (take 4 (drop 8 dhcp_info))) ;;
    r <- ask (wifi_set_ip_info STATION_IF ip netmask gw) ;;
    swhen (negb (u8 r =? 1)) (call (os_printf "set default ip wrong\n"))) ;;
  call (system_rtc_mem_write 64 (replicate (Z.to_nat dhcp_client_info_size) 0 ++ beyond)).

Definition print_reset_reason : F X unit :=
  r <- ask system_get_rst_info ;;
  call (os_printf "reset reason: %x\n") ;;
  swhen ((r =? REASON_WDT_RST) || (r =? REASON_EXCEPTION_RST) || (r =? REASON_SOFT_WDT_RST)) (
    swhen (r =? REASON_EXCEPTION_RST) (call (os_printf "Fatal exception (%d):\n")) ;;
    call (os_printf "epc1=0x%08x, epc2=0x%08x, epc3=0x%08x, excvaddr=0x%08x, depc=0x%08x\n")).

(** The version string is a constant here ([iot_version]). *)
Definition user_esp_platform_init (beyond : list Z) : F X unit :=
  call (os_printf "IOT VERSION = %s\n") ;;
  l <- sget log ;;
  pmodify (λ v, v <| esp_param := esp_param_of_bytes (saved_param l ESP_PARAM_START_SEC) |>) ;;
  print_reset_reason ;;
  restore_dhcp beyond ;;
  call (wifi_station_ap_number_set AP_CACHE_NUMBER) ;;
  p <- pvar esp_param ;;
  swhen (negb (activeflag p =? 1)) (call (wifi_set_opmode STATIONAP_MODE)) ;;
  user_light_init ;;
  mode <- ask wifi_get_opmode ;;
  swhen (negb (u8 mode =? SOFTAP_MODE)) (set_client_timer (fp_platform_check_ip 1) 100).
End Cloud.

(** ** What the client waits for

    Its two timers, and whether the SDK has a connection to report on: from
    [espconn_connect] to the callback that ends the connection. *)

Record waits := mk_waits { w_fn : option fn; w_client : bool; w_beacon : bool; w_link : bool; w_over : bool }.
#[export] Instance eta_waits : Settable waits := λ w, mk_waits (w_fn w) (w_client w) (w_beacon w) (w_link w) (w_over w).

Definition wait_step (w : waits) (e : event) : waits :=
  match e with
  | Do (os_timer_disarm client_timer) => w <| w_client := false |>
  | Do (os_timer_setfn client_timer f) => w <| w_fn := Some f |>
  | Do (os_timer_arm client_timer _ _) => w <| w_client := true |>
  | Do (os_timer_disarm beacon_timer) => w <| w_beacon := false |>
  | Do (os_timer_arm beacon_timer _ _) => w <| w_beacon := true |>
  | Do (espconn_connect user_conn _) => w <| w_link := true |>
  | Do system_restart | Do system_upgrade_reboot => w <| w_over := true |>
  | _ => w
  end.
Definition wait_all (w : waits) (l : list event) : waits := fold_left wait_step l w.
Definition no_wait (e : event) : Prop := forall w, wait_step w e = w.

Lemma wait_app w l k : wait_all w (l ++ k) = wait_all (wait_all w l) k.
Proof. apply fold_left_app. Qed.
Lemma wait_none w k : Forall no_wait k -> wait_all w k = w.
Proof. intros Hk. revert w. induction Hk as [|e k He _ IH]; intros w; [done|].
  change (wait_all (wait_step w e) k = w). rewrite He. apply IH. Qed.

Lemma lamp_no_wait e : lamp_event e -> no_wait e.
Proof. intros He w. destruct e as [| |c|]; try done. destruct c; try done; destruct t; done. Qed.

(** [lp] with the waits along: [w] before, and what the code logs applied to it after. *)
Definition tlp {X A} (m : F X A) (s : sys X) (w : waits) (Q : A -> sys X -> waits -> Prop) : Prop :=
  lp m s (λ a s', exists k, log s' = log s ++ k /\ Q a s' (wait_all w k)).

Section Waits.
Context {X : Type}.
Implicit Types (s : sys X) (w : waits).

Lemma tlp_ret {A} (a : A) s w (Q : A -> sys X -> waits -> Prop) : Q a s w -> tlp (sret a) s w Q.
Proof. intros HQ. apply lp_ret. exists []. by rewrite app_nil_r. Qed.
Lemma tlp_bind {A B} (m : F X A) (k : A -> F X B) s w (Q : B -> sys X -> waits -> Prop) :
  tlp m s w (λ a s' w', tlp (k a) s' w' Q) -> tlp (sbind m k) s w Q.
Proof.
  intros Hm. apply lp_bind. eapply lp_mono; [exact Hm|]. cbv beta. intros a s1 (k1 & E1 & Hk).
  eapply lp_mono; [exact Hk|]. cbv beta. intros b s2 (k2 & E2 & HQ). exists (k1 ++ k2). rewrite E2, E1, <- app_assoc, wait_app. done.
Qed.
Lemma tlp_mono {A} (m : F X A) s w (P Q : A -> sys X -> waits -> Prop) :
  tlp m s w P -> (forall a s' w', P a s' w' -> Q a s' w') -> tlp m s w Q.
Proof. intros Hm HI. eapply lp_mono; [exact Hm|]. cbv beta. intros a s' (k & E & HP). exists k. auto. Qed.
Lemma tlp_lift {A} (o : option A) s w (Q : A -> sys X -> waits -> Prop) : (forall a, o = Some a -> Q a s w) -> tlp (slift o) s w Q.
Proof. intros HQ. apply lp_lift. intros a E. exists []. rewrite app_nil_r. split; [done|by apply HQ]. Qed.
Lemma tlp_pvar {Y A} `{Part X Y} (f : Y -> A) s w (Q : A -> sys X -> waits -> Prop) : Q (f (part (st s))) s w -> tlp (pvar f) s w Q.
Proof. intros HQ. apply lp_pvar. exists []. by rewrite app_nil_r. Qed.
Lemma tlp_get {A} (f : sys X -> A) s w (Q : A -> sys X -> waits -> Prop) : Q (f s) s w -> tlp (sget f) s w Q.
Proof. intros HQ. apply lp_get. exists []. by rewrite app_nil_r. Qed.
Lemma tlp_pmodify {Y} `{Part X Y} (f : Y -> Y) s w (Q : unit -> sys X -> waits -> Prop) :
  Q tt (mk_sys (log s) (mem s) (set_part (f (part (st s))) (st s))) w -> tlp (pmodify f) s w Q.
Proof. intros HQ. apply lp_pmodify. exists []. by rewrite app_nil_r. Qed.
Lemma tlp_call c s w (Q : unit -> sys X -> waits -> Prop) :
  Q tt (mk_sys (log s ++ [Do c]) (mem s) (st s)) (wait_step w (Do c)) -> tlp (call c) s w Q.
Proof. intros HQ. apply lp_call. by exists [Do c]. Qed.
Lemma tlp_ask `{Env} c s w (Q : Z -> sys X -> waits -> Prop) : 
  (forall v, Q v (mk_sys (log s ++ [Got c v]) (mem s) (st s)) w) -> tlp (ask c) s w Q.
Proof. intros HQ. apply lp_ask. eexists. split; [done|]. apply HQ. Qed.
Lemma tlp_when (b : bool) (m : F X unit) s w (Q : unit -> sys X -> waits -> Prop) :
  (b = true -> tlp m s w Q) -> (b = false -> Q tt s w) -> tlp (swhen b m) s w Q.
Proof. destruct b; intros H1 H2; [by apply H1|]. apply tlp_ret. by apply H2. Qed.
(** Work that is none of the client's. *)
Lemma tlp_emits {A} P (m : F X A) s w (Q : A -> sys X -> waits -> Prop) :
  emits P m -> (forall e, P e -> no_wait e) -> (forall a s', Q a s' w) -> tlp m s w Q.
Proof.
  intros Hm HP HQ. eapply lp_mono; [apply Hm|]. cbv beta. intros a s' (k & E & Fk). exists k. split; [done|].
  rewrite wait_none; [apply HQ|]. by eapply Forall_weaken.
Qed.
End Waits.

(** The functions with which the client goes on by itself. *)
Definition retries (f : fn) : Prop :=
  match f with
  | fp_platform_check_ip _ | fp_platform_reconnect | fp_platform_ap_change | fp_platform_dns_check_cb => True
  | _ => False
  end.
(** The client is not stuck: the device restarts, or the SDK will report on the
    connection, or the timer will call one of these functions. *)
Definition going_on (w : waits) : Prop :=
  w_over w = true \/ w_link w = true \/ (w_client w = true /\ exists f, w_fn w = Some f /\ retries f).

Ltac tlp_step :=
  lazymatch goal with
  | |- tlp (sbind _ _) _ _ _ => apply tlp_bind
  | |- tlp (pvar _) _ _ _ => apply tlp_pvar
  | |- tlp (pmodify _) _ _ _ => apply tlp_pmodify
  | |- tlp (call _) _ _ _ => apply tlp_call
  | |- tlp (ask _) _ _ _ => apply tlp_ask; intros ?
  | |- tlp (sret _) _ _ _ => apply tlp_ret
  | |- tlp (sget _) _ _ _ => apply tlp_get
  | |- tlp (slift _) _ _ _ => apply tlp_lift; intros ? _
  | |- tlp (swhen _ _) _ _ _ => apply tlp_when; intros _
  | |- tlp (if ?b then _ else _) _ _ _ => destruct b
  | |- tlp (match ?o with Some _ => _ | None => _ end) _ _ _ => destruct o
  end; cbn [wait_step log mem st].

(** Run to the end, then read the state of the waits off. *)
Ltac tlp_run := repeat tlp_step; cbn [wait_step log mem st].
Ltac goes_on :=
  unfold going_on in *; cbn [w_fn w_client w_beacon w_link w_over set_field] in *; cbn in *; naive_solver.

Section Alive.
Context `{Env} `{Flash} `{Kept} {X : Type} `{PL : Part X light_vars} `{PC : Part X control_vars} `{PT : Part X timer_vars}
  `{PJ : Part X json_vars} `{PV : Part X cloud_vars} (ap_rounds : nat).
Implicit Types (s : sys X) (w : waits).

(** [revives m]: however things stood, the client goes on after [m]. *)
Definition revives (m : F X unit) : Prop := forall s w, tlp m s w (λ _ _ w', going_on w').
(** [keeps m]: if it went on, it still does. *)
Definition keeps {A} (m : F X A) : Prop := forall s w, going_on w -> tlp m s w (λ _ _ w', going_on w').

Lemma emits_keeps {A} P (m : F X A) : emits P m -> (forall e, P e -> no_wait e) -> keeps m.
Proof. intros Hm HP s w Hw. by eapply tlp_emits. Qed.
Lemma keeps_bind {A B} (m : F X A) (k : A -> F X B) : keeps m -> (forall a, keeps (k a)) -> keeps (sbind m k).
Proof. intros Hm Hk s w Hw. apply tlp_bind. eapply tlp_mono; [by apply Hm|]. cbv beta. intros a s' w' Hw'. by apply Hk. Qed.
Lemma revives_keeps m : revives m -> keeps m.
Proof. intros Hm s w _. apply Hm. Qed.

Lemma set_timer_revives f ms : retries f -> revives (set_client_timer f ms).
Proof. intros Hf s w. unfold set_client_timer. tlp_run. right. right. split; [done|]. by exists f. Qed.

(** The timer of the client is set whether the mode changes or not. *)
Lemma reset_mode_runs s w : tlp user_esp_platform_reset_mode s w (λ b _ w', b = true /\ going_on w').
Proof.
  unfold user_esp_platform_reset_mode, set_client_timer. tlp_run.
  all: split; [done|]; right; right; (split; [done|]); by eexists.
Qed.

Lemma start_dns_revives : revives user_esp_platform_start_dns.
Proof. intros s w. unfold user_esp_platform_start_dns. tlp_run. by apply set_timer_revives. Qed.

Lemma check_ip_revives r : revives (user_esp_platform_check_ip r).
Proof.
  intros s w. unfold user_esp_platform_check_ip, user_mdns_conf, status_is. tlp_run.
  all: try apply start_dns_revives.
  all: try (eapply tlp_mono; [apply reset_mode_runs|]; cbv beta; intros b s' w' [_ Hw]; by apply tlp_ret).
  all: right; right; (split; [done|]); by eexists.
Qed.

Lemma reconnect_revives : revives user_esp_platform_reconnect.
Proof. intros s w. unfold user_esp_platform_reconnect. tlp_run. apply check_ip_revives. Qed.

Lemma discon_revives c : revives (user_esp_platform_discon_cb (Some c)).
Proof. intros s w. unfold user_esp_platform_discon_cb, set_tcp, the_tcp. tlp_run. apply reconnect_revives. Qed.

Lemma recon_revives err : revives (user_esp_platform_recon_cb err).
Proof.
  intros s w. unfold user_esp_platform_recon_cb, fifth_failure. tlp_run; [|by apply set_timer_revives].
  eapply tlp_mono; [apply reset_mode_runs|]. cbv beta. intros b s' w' [-> Hw]. by apply tlp_ret.
Qed.

Lemma ap_search_emits n i : emits (X := X) no_wait (ap_search n i).
Proof.
  revert i. induction n as [|n IH]; intros i; [apply emits_lift|]. cbn [ap_search]. apply emits_bind; [by apply emits_ask|].
  intros r. apply emits_if; [apply emits_ret|apply IH].
Qed.

Lemma ap_change_revives : revives (user_esp_platform_ap_change ap_rounds).
Proof.
  intros s w. unfold user_esp_platform_ap_change. do 7 tlp_step.
  eapply tlp_emits; [apply ap_search_emits|done|]. intros _ s'. tlp_run. by apply set_timer_revives.
Qed.

(** The timer has fired: only its function is known. *)
Lemma dns_check_revives s w : w_fn w = Some fp_platform_dns_check_cb -> tlp user_esp_platform_dns_check_cb s w (λ _ _ w', going_on w').
Proof. intros Hf. unfold user_esp_platform_dns_check_cb. tlp_run. right. right. split; [done|]. by exists fp_platform_dns_check_cb. Qed.

Lemma dns_found_keeps a : keeps (user_esp_platform_dns_found a).
Proof.
  intros s w Hw. unfold user_esp_platform_dns_found, fifth_failure, user_esp_platform_connect, set_tcp, the_tcp. tlp_run; try done.
  - by right; left.
  - eapply tlp_mono; [apply reset_mode_runs|]. cbv beta. intros b s' w' [_ ?]. by apply tlp_ret.
Qed.

Lemma no_wait_call c : (forall w, wait_step w (Do c) = w) -> emits (X := X) no_wait (call c).
Proof. intros Hc. by apply emits_call. Qed.
Local Hint Extern 0 (emits no_wait (call _)) => (apply no_wait_call; intros ?; reflexivity) : emits.

Lemma send_packet_emits c f : emits (X := X) no_wait (send_packet c f).
Proof. unfold send_packet. auto 20 with emits. Qed.
Local Hint Resolve send_packet_emits : emits.
Lemma sent_emits c : emits (X := X) no_wait (user_esp_platform_sent c).
Proof. unfold user_esp_platform_sent. auto 30 with emits. Qed.
Lemma rpc_emits c n : emits (X := X) no_wait (user_platform_rpc_set_rsp c n).
Proof. unfold user_platform_rpc_set_rsp. destruct c; auto 20 with emits. Qed.
Lemma timer_get_emits c : emits (X := X) no_wait (user_platform_timer_get c).
Proof. unfold user_platform_timer_get. destruct c; auto 20 with emits. Qed.
Lemma upgrade_emits c v : emits (X := X) no_wait (user_esp_platform_upgrade_begin c v).
Proof. unfold user_esp_platform_upgrade_begin, user_bin_name. auto 40 with emits. Qed.
Lemma start_timers_emits now l : emits (X := X) no_wait (start_timers now l).
Proof. induction l as [|i l IH]; cbn [start_timers]; auto 20 with emits. Qed.
Lemma overflow_check_emits p : emits (X := X) no_wait (user_esp_platform_wait_time_overflow_check p).
Proof. unfold user_esp_platform_wait_time_overflow_check, the_wait. auto 30 with emits. Qed.
Lemma timer_action_emits l n : emits (X := X) no_wait (esp_platform_timer_action l n).
Proof.
  unfold esp_platform_timer_action. pose proof overflow_check_emits. do 2 (apply emits_bind; [auto with emits|intros ?]).
  apply emits_bind; [auto with emits|]. intros [a' k]. auto 20 with emits.
Qed.
Lemma timer_start_emits t : emits (X := X) no_wait (user_platform_timer_start t).
Proof.
  unfold user_platform_timer_start, read_timestamp, user_platform_timer_first_start, esp_platform_find_min_time.
  pose proof start_timers_emits. pose proof timer_action_emits. auto 60 with emits.
Qed.

(** While there is a connection the client goes on, whatever it does. *)
Lemma link_stays w k : w_link w = true -> w_link (wait_all w k) = true.
Proof.
  revert w. induction k as [|e k IH]; intros w Hw; [done|]. apply (IH (wait_step w e)).
  destruct e as [| |c|]; try done. destruct c; try done.
  all: match goal with t : timer |- _ => by destruct t | c : conn |- _ => by destruct c end.
Qed.
Lemma linked_keeps {A} (m : F X A) s w : emits (λ _, True) m -> w_link w = true -> tlp m s w (λ _ _ w', w_link w' = true).
Proof.
  intros Hm Hw. eapply lp_mono; [apply Hm|]. cbv beta. intros a s' (k & E & _). exists k. split; [done|by apply link_stays].
Qed.

Lemma emits_any {A} P (m : F X A) : emits P m -> emits (λ _, True) m.
Proof. apply emits_mono. done. Qed.

Lemma recv_emits data n : emits (X := X) (λ _, True) (user_esp_platform_recv_cb data n).
Proof.
  pose proof (λ c, emits_any _ _ (sent_emits c)). pose proof (λ c n, emits_any _ _ (rpc_emits c n)).
  pose proof (λ c, emits_any _ _ (timer_get_emits c)). pose proof (λ c v, emits_any _ _ (upgrade_emits c v)).
  pose proof (λ t, emits_any _ _ (timer_start_emits t)). pose proof (λ t, emits_any _ _ (emits_get_info t)).
  pose proof (λ t, emits_any _ _ (emits_set_info t)).
  assert (forall b t d, emits (X := X) (λ _, True) (recv_other b t d)).
  { intros b t d. unfold recv_other, recv_upgrade, recv_timers, recv_method, set_client_timer.
    repeat match goal with |- context [match strstr t ?k with _ => _ end] => destruct (strstr t k) end; auto 40 with emits. }
  unfold user_esp_platform_recv_cb, recv_message, recv_activate, save_esp_param. auto 60 with emits.
Qed.

Lemma beacon_keeps c : keeps (user_esp_platform_sent_beacon c).
Proof.
  intros s w Hw. unfold user_esp_platform_sent_beacon, user_esp_platform_discon. destruct c as [c|]; [|by tlp_run].
  tlp_run; try done. by apply (tlp_emits _ _ _ _ _ (sent_emits c)).
Qed.
Lemma connect_keeps : keeps user_esp_platform_connect_cb.
Proof.
  intros s w Hw. unfold user_esp_platform_connect_cb. tlp_run; by apply (tlp_emits _ _ _ _ _ (sent_emits user_conn)).
Qed.
End Alive.

(** ** The messages fit *)

(** Text without a zero, of at most [n] characters. *)
Definition clean (n : Z) (s : list Z) : Prop := no_char 0 s /\ zlen s <= n.

Lemma clean_const s : forallb (λ c, negb (c =? 0)) s = true -> clean (zlen s) s.
Proof.
  intros Hs. split; [|done]. rewrite forallb_forall in Hs. apply (proj2 (List.Forall_forall _ _)). intros c Hc E.
  specialize (Hs c Hc). by rewrite E in Hs.
Qed.
Lemma clean_app n m s r : clean n s -> clean m r -> clean (n + m) (s ++ r).
Proof. intros [H1 H2] [H3 H4]. split; [by apply Forall_app|]. rewrite zlen_app. lia. Qed.
Lemma clean_cons n c s : c ≠ 0 -> clean n s -> clean (1 + n) (c :: s).
Proof. intros Hc [H1 H2]. split; [by apply Forall_cons_2|]. rewrite zlen_cons. lia. Qed.
Lemma clean_le n m s : clean n s -> n <= m -> clean m s.
Proof. intros [H1 H2] Hm. split; [done|lia]. Qed.
Lemma clean_decimal z : 0 <= z -> clean 10 (decimal z).
Proof. intros Hz. split; [apply isdigit_no_char; [done|by apply decimal_digits]|apply (decimal_length 10)]. Qed.
Lemma clean_percent_d v : clean 11 (percent_d v).
Proof.
  unfold percent_d. destruct (Z.ltb_spec v 0); [|by eapply clean_le; [apply clean_decimal|lia]].
  apply (clean_cons 10); [done|]. apply clean_decimal. lia.
Qed.
Lemma clean_hex2 v : is_byte v -> clean 2 (hex2 v).
Proof. intros [? ?]. split; [|done]. unfold no_char, hex2. cbn. repeat constructor; destruct (_ <? 10); dlia. Qed.
Lemma clean_MACSTR b : Forall is_byte b -> length b = 6%nat -> clean 17 (MACSTR b).
Proof.
  intros Hb Hl. do 7 (destruct b as [|? b]; try discriminate Hl). repeat (apply Forall_cons_1 in Hb as [? Hb]).
  unfold MACSTR. cbn [take fmap list_fmap separated]. apply (clean_le (2 + (1 + (2 + (1 + (2 + (1 + (2 + (1 + (2 + (1 + 2))))))))))); [|done].
  do 5 (eapply (clean_app 2); [by apply clean_hex2|]; eapply clean_cons; [done|]). by apply clean_hex2.
Qed.

Lemma packet_ok f : clean 2047 f -> packet f = Some f.
Proof.
  intros [H0 Hz]. unfold packet. rewrite bsplice_zeros by (rewrite zlen_app; change (zlen [0]) with 1; rewrite Z2Nat.id by done; unfold packet_size; lia). cbn [mbind option_bind].
  rewrite <- app_assoc. by apply string_of_app.
Qed.

(** A saved key, up to the first zero in it. *)
Definition key (b : list Z) : list Z := default [] (string_of (b ++ [0])).

Lemma string_of_clean b s : string_of b = Some s -> no_char 0 s /\ zlen s <= zlen b.
Proof.
  revert s. induction b as [|x b IH]; intros s; cbn [string_of]; [done|]. destruct (Z.eqb_spec x 0).
  - intros [= <-]. split; [apply Forall_nil_2|]. apply zlen_nonneg.
  - destruct (string_of b) as [r|]; [|done]. cbn. intros [= <-]. destruct (IH r eq_refl) as [? ?].
    split; [by apply Forall_cons_2|]. rewrite !zlen_cons. lia.
Qed.
Lemma key_string_ok b : length b = 40%nat -> key_string b = Some (key b) /\ clean 40 (key b).
Proof.
  intros Hb. assert (Hz : zlen b = 40) by (unfold zlen; lia). unfold key_string, key.
  pose proof (bslice_drop b 0 b [] ltac:(pose proof (zlen_nonneg b); lia)) as E. rewrite Hz in E. rewrite E by (by rewrite app_nil_r).
  cbn [mbind option_bind]. rewrite (bsplice_zeros 41) by lia. cbn [mbind option_bind]. rewrite Hb. cbn [Nat.sub replicate].
  destruct (string_of_ends b) as [s Es]. rewrite Es. split; [done|]. cbn [default].
  assert (K : forall c t, string_of (c ++ [0]) = Some t -> no_char 0 t /\ zlen t <= zlen c).
  { clear. induction c as [|x c IH]; intros t; cbn.
    - intros [= <-]. split; [apply Forall_nil_2|done].
    - destruct (Z.eqb_spec x 0); [intros [= <-]; split; [apply Forall_nil_2|apply zlen_nonneg]|].
      destruct (string_of (c ++ [0])) as [r|]; [|done]. cbn. intros [= <-]. destruct (IH r eq_refl). split; [by apply Forall_cons_2|].
      rewrite !zlen_cons. lia. }
  destruct (K b s Es) as [K1 K2]. split; [exact K1|]. change (zlen s <= 40). rewrite <- Hz. exact K2.
Qed.

(** The parts that vary are assumptions; the rest is evaluated. *)
Ltac clean_frame :=
  eapply clean_le;
  [ repeat lazymatch goal with
    | |- clean _ (_ ++ _) => apply clean_app
    | |- clean _ (percent_d _) => apply clean_percent_d
    | |- clean _ (MACSTR _) => by apply clean_MACSTR
    | |- clean _ (jpair _ _) => unfold jpair
    | |- clean _ (jstr _) => unfold jstr
    | |- clean _ (meta_token _ _) => unfold meta_token
    | |- clean _ _ => first [eassumption|apply clean_const; reflexivity]
    end
  | vm_compute; discriminate ].

Lemma clean_active nonce token bssid devkey : clean 40 token -> clean 40 devkey -> Forall is_byte bssid -> length bssid = 6%nat ->
  clean 2047 (ACTIVE_FRAME nonce token bssid iot_version devkey).
Proof. intros. unfold ACTIVE_FRAME. clean_frame. Qed.
Lemma clean_first nonce devkey : clean 40 devkey -> clean 2047 (FIRST_FRAME nonce devkey).
Proof. intros. unfold FIRST_FRAME. clean_frame. Qed.
Lemma clean_beacon devkey : clean 40 devkey -> clean 2047 (BEACON_FRAME devkey).
Proof. intros. unfold BEACON_FRAME. clean_frame. Qed.
Lemma clean_rpc nonce : clean 2047 (RPC_RESPONSE_FRAME nonce).
Proof. unfold RPC_RESPONSE_FRAME. clean_frame. Qed.
Lemma clean_timer devkey : clean 40 devkey -> clean 2047 (TIMER_FRAME devkey).
Proof. intros. unfold TIMER_FRAME. clean_frame. Qed.
