(* ===== verification/IotFind.v ===== *)
(** * IotFind: how a phone finds the device

    IoT_Demo/user/user_devicefind.c, compiled with [LIGHT_DEVICE].  [os_zalloc]
    succeeds; plain [char] is unsigned, as on this processor. *)

From Stdlib Require Import String.
From stdpp Require Import gmap.
From S2P Require Import Prelude CMem CString Board UartDriver SmartConfig TcpClient UdpServer MqttConfig IotControl IotHttp IotJson IotCloud.
Local Open Scope string_scope.
Local Open Scope Z_scope.
Local Open Scope sm_scope.
Local Open Scope list_scope.

Definition device_find_request : list Z := chars "Are You Espressif IOT Smart Device?".
Definition device_find_response_ok : list Z := chars "I'm Light.".
(** include/espconn.h *)
Definition ESPCONN_OK : Z := 0.

(** [ptrespconn.proto.udp] *)
Record find_vars := mk_find { find_udp : option esp_udp }.
#[export] Instance eta_find : Settable find_vars := λ v, mk_find (find_udp v).
Definition find_initial : find_vars := mk_find None.

(** [ip_addr_netcmp( a, b, mask )] *)
Definition ip_addr_netcmp (a b mask : Z) : bool := Z.land a mask =? Z.land b mask.

(** The answer: "%s" MACSTR " " IPSTR. *)
Definition find_answer (hwaddr : list Z) (ip : Z) : list Z := device_find_response_ok ++ MACSTR hwaddr ++ [32] ++ IPSTR ip.

Section Find.
Context `{Env} `{Kept} `{Station} `{Peer} {X : Type} `{PF : Part X find_vars}.

Definition the_find : F X esp_udp := u <- pvar find_udp ;; slift u.

Definition address_of (ifx : Z) : F X (ip_info * list Z) :=
  l <- sget log ;; call (wifi_get_macaddr ifx) ;; sret (ip_info_now l ifx, macaddr l ifx).

(** The address and the interface the answer names. *)
Definition own_address : F X (ip_info * list Z) :=
  mode <- ask wifi_get_opmode ;;
  if negb (u8 mode =? STATION_MODE) then
    r <- address_of SOFTAP_IF ;;
    u <- the_find ;; remote <- slift (word_of_bytes (udp_remote_ip u)) ;;
    if negb (ip_addr_netcmp remote (ip (fst r)) (netmask (fst r))) then address_of STATION_IF else sret r
  else address_of STATION_IF.

(** The answer goes through an array of 40 characters, to the sender. *)
Definition find_reply (ipconfig : ip_info) (hwaddr : list Z) : F X unit :=
  b <- slift (bsplice (replicate 40 0) 0 (find_answer hwaddr (ip ipconfig) ++ [0])) ;;
  call (os_printf "%s\n") ;;
  d <- slift (string_of b) ;;
  l <- sget log ;;
  r <- ask (espconn_get_connection_info ptrespconn) ;;
  if negb (i8 r =? ESPCONN_OK) then sret tt
  else
    let '(remote, port) := remot_info l in
    u <- the_find ;;
    ip4 <- slift (bslice remote 0 4) ;;
    pmodify (λ v, v <| find_udp := Some (u <| udp_remote_ip := ip4 |> <| udp_remote_port := i32 port |>) |>) ;;
    u <- the_find ;;
    call (espconn_sent_udp ptrespconn (udp_remote_ip u) (udp_remote_port u) d).

(** [os_strncmp( a, b, n ) == 0] of two blocks *)
Fixpoint os_strncmp_eq (n : nat) (a b : list Z) : option bool :=
  match n with
  | O => Some true
  | S n =>
      match a, b with
      | x :: a, y :: b => if x =? y then (if x =? 0 then Some true else os_strncmp_eq n a b) else Some false
      | _, _ => None
      end
  end.

Definition user_devicefind_recv (pusrdata : option (list Z)) (length : Z) : F X unit :=
  r <- own_address ;;
  let '(ipconfig, hwaddr) := r in
  match pusrdata with
  | None => sret tt
  | Some data =>
      let n := zlen device_find_request in
      same <- (if length =? n then slift (os_strncmp_eq (Z.to_nat n) data (device_find_request ++ [0])) else sret false) ;;
      if same : bool then find_reply ipconfig hwaddr
      else if length =? n + 18 then
        b <- slift (bsplice (replicate 60 0) 0 (device_find_request ++ [32] ++ MACSTR hwaddr ++ [0])) ;;
        call (os_printf "%s") ;;
        mine <- slift (os_strncmp_eq (Z.to_nat (n + 18)) b data) ;;
        if mine : bool then find_reply ipconfig hwaddr else sret tt
      else sret tt
  end.

Definition user_devicefind_init : F X unit :=
  pmodify (λ v, v <| find_udp := Some (mk_esp_udp 1025 0 (replicate 4 0)) |>) ;;
  call (espconn_regist ptrespconn fp_user_devicefind_recv) ;;
  call (espconn_create ptrespconn).
End Find.

(** ** Lengths *)

Lemma zlen_hex2 v : zlen (hex2 v) = 2.
Proof. reflexivity. Qed.
Lemma zlen_MACSTR b : length b = 6%nat -> zlen (MACSTR b) = 17.
Proof. intros Hb. do 7 (destruct b as [|? b]; try discriminate Hb). reflexivity. Qed.
Lemma zlen_find_answer hw a : length hw = 6%nat -> zlen (find_answer hw a) = 28 + zlen (IPSTR a).
Proof. intros Hw. unfold find_answer. rewrite !zlen_app, zlen_MACSTR by done. change (zlen device_find_response_ok) with 10. zlia. Qed.

Lemma decimal_no_zero n z : 0 <= z -> no_char 0 (decimal_fuel n z).
Proof. intros. apply isdigit_no_char; [done|]. by apply decimal_digits. Qed.
Lemma find_answer_no_zero hw a : Forall is_byte hw -> length hw = 6%nat -> no_char 0 (find_answer hw a).
Proof.
  intros Hb Hw. assert (Hx : forall v, is_byte v -> no_char 0 (hex2 v)).
  { intros v [H0 H1]. unfold no_char, hex2. cbn. repeat constructor; destruct (_ <? 10); dlia. }
  do 7 (destruct hw as [|? hw]; try discriminate Hw). repeat (apply Forall_cons_1 in Hb as [? Hb]).
  unfold find_answer, MACSTR, IPSTR, le_bytes. cbn [take fmap list_fmap separated].
  repeat match goal with
  | |- no_char 0 (hex2 _) => by apply Hx
  | |- no_char 0 (decimal _) => apply decimal_no_zero; dlia
  | |- no_char 0 device_find_response_ok => by repeat constructor
  | |- no_char 0 (_ ++ _) => apply Forall_app; split
  | |- no_char 0 (_ :: _) => apply Forall_cons_2; [done|]
  | |- Forall _ (hex2 _) => by apply Hx
  | |- Forall _ (decimal _) => apply decimal_no_zero; dlia
  | |- Forall _ device_find_response_ok => by repeat constructor
  | |- Forall _ (_ ++ _) => apply Forall_app; split
  | |- Forall _ (_ :: _) => apply Forall_cons_2; [done|]
  | |- Forall _ [] => apply Forall_nil_2
  end.
Qed.

Lemma strncmp_same n a r : (n <= length a)%nat -> no_char 0 a -> os_strncmp_eq n (a ++ r) (a ++ [0]) = Some true.
Proof.
  intros Hn Ha. revert n Hn. induction Ha as [|x a Hx _ IH]; intros n Hn; [destruct n; [done|cbn in Hn; lia]|].
  destruct n as [|n]; [done|]. cbn. rewrite Z.eqb_refl. apply Z.eqb_neq in Hx. rewrite Hx. apply IH. cbn in Hn. lia.
Qed.

Section Laws.
Context `{Env} `{Kept} `{Station} `{Peer} {X : Type} `{PF : Part X find_vars}.
Implicit Types s : sys X.

(** The search without the address of a device, as the phone sends it. *)
Lemma search_replies data s (Q : unit -> sys X -> Prop) :
  wp own_address s (λ r s1, wp (find_reply (fst r) (snd r)) s1 Q) ->
  wp (user_devicefind_recv (Some (device_find_request ++ data)) (zlen device_find_request)) s Q.
Proof.
  intros HQ. unfold user_devicefind_recv. apply wp_bind. eapply wp_mono; [exact HQ|]. cbv beta. intros [ic hw] s1 HQ1.
  cbv zeta. rewrite Z.eqb_refl. apply wp_bind. apply (wp_lift _ true); [|exact HQ1].
  apply strncmp_same; [done|by repeat constructor].
Qed.

(** The device is in station mode and reports address [a] and MAC [hw]. *)
Definition station_says s a hw : Prop :=
  u8 (u32 (sdk_ret (log s) wifi_get_opmode)) = STATION_MODE /\
  let l := log s ++ [Got wifi_get_opmode (u32 (sdk_ret (log s) wifi_get_opmode))] in
  ip (ip_info_now l STATION_IF) = a /\ macaddr l STATION_IF = hw.

Lemma own_station s a hw (Q : ip_info * list Z -> sys X -> Prop) : station_says s a hw ->
  (forall i v, ip i = a -> Q (i, hw) (mk_sys (log s ++ [Got wifi_get_opmode v; Do (wifi_get_macaddr STATION_IF)]) (mem s) (st s))) -> wp own_address s Q.
Proof.
  intros (Hm & Ha & Hw) HQ. unfold own_address, address_of. apply wp_bind, wp_ask. rewrite Hm. cbn [Z.eqb STATION_MODE Pos.eqb negb].
  apply wp_bind, wp_get, wp_bind, wp_call, wp_ret. cbn [log mem st]. rewrite Hw, <- app_assoc. by apply HQ.
Qed.

(** C28: a search is answered.  In station mode, the text the phone broadcasts is
    answered with "I'm Light.", the MAC address and the IP address of the
    device, once and with nothing else, to the address and port the datagram came
    from, as the SDK reports them for this datagram; provided it reports them at
    all and the IP address has at most eleven characters ([search_overflows] is
    about longer ones). *)
Theorem search_answered data s a hw u :
  station_says s a hw -> length hw = 6%nat -> Forall is_byte hw -> zlen (IPSTR a) <= 11 ->
  (forall l, i8 (u32 (sdk_ret l (espconn_get_connection_info ptrespconn))) = ESPCONN_OK) ->
  (forall l, zlen (fst (remot_info l)) = 4) -> find_udp (part (st s)) = Some u ->
  wp (user_devicefind_recv (Some (device_find_request ++ data)) (zlen device_find_request)) s (λ _ s', exists v r,
    let l := log s ++ [Got wifi_get_opmode v; Do (wifi_get_macaddr STATION_IF); Do (os_printf "%s\n")] in
    let from := fst (remot_info l) in let port := i32 (snd (remot_info l)) in
    log s' = l ++ [Got (espconn_get_connection_info ptrespconn) r; Do (espconn_sent_udp ptrespconn from port (find_answer hw a))] /\
    find_udp (part (st s')) = Some (u <| udp_remote_ip := from |> <| udp_remote_port := port |>)).
Proof.
  intros Hs Hw Hb Hlen Hok Hpeer Hu. apply search_replies. eapply own_station; [exact Hs|]. intros i v <-. cbn [fst snd].
  pose proof (zlen_find_answer hw (ip i) Hw) as Hz. unfold find_reply. apply wp_bind. eapply wp_lift.
  { apply bsplice_zeros. rewrite zlen_app, Hz. change (zlen [0]) with 1. lia. }
  apply wp_bind, wp_call, wp_bind. eapply wp_lift.
  { rewrite <- app_assoc. apply string_of_app. by apply find_answer_no_zero. }
  apply wp_bind, wp_get, wp_bind, wp_ask. rewrite Hok. cbn [Z.eqb ESPCONN_OK negb log mem st]. rewrite <- app_assoc. cbn [app].
  set (l' := log s ++ [_; _; _]). destruct (remot_info l') as [remote port] eqn:Ep.
  apply wp_bind. unfold the_find. apply wp_bind, wp_pvar. cbn [st]. rewrite Hu. eapply wp_lift; [done|].
  assert (Hr : zlen remote = 4) by (rewrite <- (Hpeer l'), Ep; done).
  apply wp_bind. eapply wp_lift.
  { pose proof (bslice_drop remote 0 remote [] ltac:(lia)) as E. rewrite Hr in E. apply E. by rewrite app_nil_r. }
  apply wp_bind, wp_pmodify. apply wp_bind, wp_bind, wp_pvar. cbn [log mem st]. rewrite part_set. eapply wp_lift; [done|].
  apply wp_call. cbn [log mem st]. eexists v, _. cbv zeta. fold l'. rewrite Ep, part_set. cbn [fst snd]. split; [|done]. by rewrite <- app_assoc.
Qed.

(** A longer IP address overflows the array.  In station mode, with an address
    of twelve characters or more, as 192.168.1.10, every search makes the device
    write past the 40 characters of [DeviceBuffer]. *)
Theorem search_overflows data s a hw :
  station_says s a hw -> length hw = 6%nat -> 12 <= zlen (IPSTR a) ->
  user_devicefind_recv (Some (device_find_request ++ data)) (zlen device_find_request) s = None.
Proof.
  intros (Hm & Ha & Hw) Hl Hlen.
  unfold user_devicefind_recv. erewrite run_bind.
  2:{ unfold own_address, address_of. erewrite run_bind by reflexivity. rewrite Hm. cbn [Z.eqb STATION_MODE Pos.eqb negb]. reflexivity. }
  cbn [log]. rewrite Hw. cbv zeta. rewrite Z.eqb_refl.
  erewrite run_bind by (unfold slift; rewrite strncmp_same; [reflexivity|done|by repeat constructor]). cbv iota.
  unfold find_reply, sbind at 1, slift at 1. rewrite Ha.
  assert (E : bsplice (replicate 40 0) 0 (find_answer hw a ++ [0]) = None); [|by rewrite E].
  unfold bsplice. change (zlen (replicate 40 0)) with 40. rewrite zlen_app, zlen_find_answer by done.
  change (zlen [0]) with 1. by zfalse (0 + (28 + zlen (IPSTR a) + 1) <=? 40).
Qed.

(** Which address the answer names is decided by the address of the phone that was
    answered before, not of the one that asks: the first search after start-up
    over the device's own access point is answered with the address of the
    station. *)
Theorem first_search_names_station s u :
  (forall l, u8 (u32 (sdk_ret l wifi_get_opmode)) ≠ STATION_MODE) -> find_udp (part (st s)) = Some u -> udp_remote_ip u = replicate 4 0 ->
  (forall l, Z.land (ip (ip_info_now l SOFTAP_IF)) (netmask (ip_info_now l SOFTAP_IF)) ≠ 0) ->
  wp own_address s (λ r s', st s' = st s /\ exists l, r = (ip_info_now l STATION_IF, macaddr l STATION_IF)).
Proof.
  intros Hm Hu Hz Hip. unfold own_address, address_of, the_find. apply wp_bind, wp_ask.
  replace (u8 _ =? STATION_MODE) with false by (symmetry; apply Z.eqb_neq, Hm). cbn [negb].
  do 2 apply wp_bind. apply wp_get, wp_bind, wp_call, wp_ret, wp_bind, wp_bind, wp_pvar. cbn [log mem st]. rewrite Hu.
  eapply wp_lift; [done|]. apply wp_bind. eapply wp_lift; [rewrite Hz; reflexivity|]. cbn [fst]. unfold ip_addr_netcmp.
  set (l := log s ++ _). specialize (Hip l). change (nthZ (replicate 4 0) 0 + 256 * nthZ (replicate 4 0) 1 + 65536 * nthZ (replicate 4 0) 2 + 16777216 * nthZ (replicate 4 0) 3) with 0.
  rewrite Z.land_0_l. replace (0 =? Z.land _ _) with false by (symmetry; apply Z.eqb_neq; congruence). cbn [negb].
  apply wp_bind, wp_get, wp_bind, wp_call, wp_ret. split; [done|]. by eexists.
Qed.
End Laws.

(** ** The theorems at concrete inputs *)

Definition find_env : Env := mk_env (λ _ _, 0) (λ _ c, match c with wifi_get_opmode => 1 | _ => 0 end).
Definition find_kept : Kept := mk_kept (λ _ _, [24; 254; 52; 1; 2; 3]) (λ _ _, []) (λ _ _ _, []).
Definition find_station (a : Z) : Station := mk_station (λ _, zero_sta) (λ _, zero_ap) (λ _ _, mk_ip_info a 0x00FFFFFF 0) (λ _, 0) [].
Definition find_peer : Peer := λ _, ([192; 168; 4; 2], 1025).
Definition found_by : sys find_vars := mk_sys [] ∅ (mk_find (Some (mk_esp_udp 1025 0 (replicate 4 0)))).

(** 192.168.4.7 *)
Lemma search_answered_witness :
  wp (@user_devicefind_recv find_env find_kept (find_station 0x0704A8C0) find_peer find_vars _ (Some (device_find_request ++ [0])) (zlen device_find_request)) found_by
    (λ _ s', exists v r, log s' = [Got wifi_get_opmode v; Do (wifi_get_macaddr STATION_IF); Do (os_printf "%s\n");
      Got (espconn_get_connection_info ptrespconn) r; Do (espconn_sent_udp ptrespconn [192; 168; 4; 2] 1025 (chars "I'm Light.18:fe:34:01:02:03 192.168.4.7"))]).
Proof.
  destruct (@search_answered find_env find_kept (find_station 0x0704A8C0) find_peer find_vars _ [0] found_by 0x0704A8C0 [24; 254; 52; 1; 2; 3]
    (mk_esp_udp 1025 0 (replicate 4 0))) as ([] & s' & E & v & r & El & _).
  - split; [reflexivity|]. split; reflexivity.
  - reflexivity.
  - bytes_tac.
  - vm_compute. discriminate.
  - reflexivity.
  - reflexivity.
  - reflexivity.
  - exists tt, s'. split; [exact E|]. exists v, r. rewrite El. reflexivity.
Defined.

(** 192.168.1.10 *)
Lemma search_overflows_witness :
  @user_devicefind_recv find_env find_kept (find_station 0x0A01A8C0) find_peer find_vars _ (Some (device_find_request ++ [0])) (zlen device_find_request) found_by = None.
Proof.
  apply (@search_overflows find_env find_kept (find_station 0x0A01A8C0) find_peer find_vars _ [0] found_by 0x0A01A8C0 [24; 254; 52; 1; 2; 3]).
  - split; [reflexivity|]. split; reflexivity.
  - reflexivity.
  - vm_compute. discriminate.
Defined.

Definition ap_env : Env := mk_env (λ _ _, 0) (λ _ c, match c with wifi_get_opmode => 3 | _ => 0 end).
Lemma first_search_names_station_witness :
  wp (@own_address ap_env find_kept (find_station 0x0104A8C0) find_vars _) found_by (λ r _, r = (mk_ip_info 0x0104A8C0 0x00FFFFFF 0, [24; 254; 52; 1; 2; 3])).
Proof.
  destruct (@first_search_names_station ap_env find_kept (find_station 0x0104A8C0) find_vars _ found_by (mk_esp_udp 1025 0 (replicate 4 0)))
    as (r & s' & E & _ & l & Er).
  - intros l. vm_compute. discriminate.
  - reflexivity.
  - reflexivity.
  - intros l. vm_compute. discriminate.
  - exists r, s'. split; [exact E|]. rewrite Er. reflexivity.
Defined.
