(* ===== verification/IotMain.v ===== *)
(** * IotMain: the IoT demo as a whole

    IoT_Demo/user/user_main.c, and the program put together: one state for the
    lamp, the cloud client, the web server, the timers and the search, the
    functions the SDK calls, and what can be said about them in any order. *)

From Stdlib Require Import String.
From stdpp Require Import gmap relations.
From S2P Require Import Prelude CMem CString Board UartDriver SmartConfig TcpClient UdpServer Wifi MqttConfig IotLight IotPlug IotTimer IotControl IotHttp IotJson IotWeb IotCloud IotFind.
Local Open Scope string_scope.
Local Open Scope Z_scope.
Local Open Scope sm_scope.
Local Open Scope list_scope.

(** ** The state *)

(** [m_plug] belongs to the other variant of the demo; the timers can name it. *)
Record demo := mk_demo {
  m_light : light_vars; m_http : http_vars; m_json : json_vars; m_web : web_vars; m_control : control_vars;
  m_timer : timer_vars; m_plug : plug_vars; m_cloud : cloud_vars; m_find : find_vars }.
#[export] Instance eta_demo : Settable demo := λ d, mk_demo (m_light d) (m_http d) (m_json d) (m_web d) (m_control d)
  (m_timer d) (m_plug d) (m_cloud d) (m_find d).
Ltac demo_part f g := refine (mk_part demo _ f g _ _ _); [done|done|by intros []].
#[export] Instance demo_light : Part demo light_vars. Proof. demo_part m_light (λ v d, d <| m_light := v |>). Defined.
#[export] Instance demo_http : Part demo http_vars. Proof. demo_part m_http (λ v d, d <| m_http := v |>). Defined.
#[export] Instance demo_json : Part demo json_vars. Proof. demo_part m_json (λ v d, d <| m_json := v |>). Defined.
#[export] Instance demo_web : Part demo web_vars. Proof. demo_part m_web (λ v d, d <| m_web := v |>). Defined.
#[export] Instance demo_control : Part demo control_vars. Proof. demo_part m_control (λ v d, d <| m_control := v |>). Defined.
#[export] Instance demo_timer : Part demo timer_vars. Proof. demo_part m_timer (λ v d, d <| m_timer := v |>). Defined.
#[export] Instance demo_plug : Part demo plug_vars. Proof. demo_part m_plug (λ v d, d <| m_plug := v |>). Defined.
#[export] Instance demo_cloud : Part demo cloud_vars. Proof. demo_part m_cloud (λ v d, d <| m_cloud := v |>). Defined.
#[export] Instance demo_find : Part demo find_vars. Proof. demo_part m_find (λ v d, d <| m_find := v |>). Defined.
#[export] Instance demo_apart : Apart demo control_vars light_vars. Proof. by constructor. Defined.
Definition demo_initial : demo :=
  mk_demo light_initial http_initial json_initial web_initial control_initial timer_initial plug_initial cloud_initial find_initial.

(** include/user_webserver.h *)
Definition SERVER_PORT : Z := 80.

Section Main.
Context `{Env} `{Flash} `{Kept} `{JsonLib} `{Station} `{ConnState} `{Peer} (garbage : bool).

(** [enum flash_size_map] counts from 0: 4M, 2M, 8M, 16M (two maps of 512), 32M
    (512), 16M (1024), 32M (1024), 32M (2048), 64M, 128M. *)
Definition user_rf_cal_sector_set : F demo Z :=
  size_map <- ask system_get_flash_size_map ;;
  sret (match size_map with
        | 0 => 128 - 5
        | 2 => 256 - 5
        | 3 | 5 => 512 - 5
        | 4 | 6 => 1024 - 5
        | 8 => 2048 - 5
        | 9 => 4096 - 5
        | _ => 0
        end).
Definition user_rf_pre_init : F demo unit := sret tt.

Definition user_init (beyond : list Z) : F demo unit :=
  call system_get_sdk_version ;;
  call (os_printf "SDK version:%s\n") ;;
  user_esp_platform_init beyond ;;
  user_devicefind_init ;;
  user_webserver_init SERVER_PORT.

(** The function [client_timer] calls; [ap_rounds] bounds the tries of the search for an access point. *)
Definition client_timer_fires (ap_rounds : nat) (f : fn) : F demo unit :=
  match f with
  | fp_platform_check_ip r => user_esp_platform_check_ip r
  | fp_platform_reconnect => user_esp_platform_reconnect
  | fp_platform_ap_change => user_esp_platform_ap_change ap_rounds
  | fp_platform_dns_check_cb => user_esp_platform_dns_check_cb
  | fp_platform_timer_get => user_platform_timer_get (Some user_conn)
  | fp_system_upgrade_reboot => call system_upgrade_reboot
  | _ => slift None
  end.

(** What the SDK calls besides, and leaves the cloud client's connection alone. *)
Inductive input :=
  | Beacon | DnsFound (addr : option Z) | Connected | Sent | UpgradeDone (server : upgrade_server_info)
  | WebRequest (c : conn) (data : list Z) (len : Z) | WebTimer | Scanned (found : list bss_info)
  | UpgradeCheck (arg : option conn) | UpgradeDeinit
  | Search (data : option (list Z)) (len : Z) | LampTimer | DeviceTimer (f : fn).

Definition handle (i : input) : F demo unit :=
  match i with
  | Beacon => user_esp_platform_sent_beacon (Some user_conn)
  | DnsFound a => user_esp_platform_dns_found a
  | Connected => user_esp_platform_connect_cb
  | Sent => user_esp_platform_sent_cb
  | UpgradeDone server => user_esp_platform_upgrade_rsp server
  | WebRequest c data len => webserver_recv garbage c data len
  | WebTimer => restart_10ms_cb user_esp_platform_check_ip
  | Scanned found => json_scan_cb found
  | UpgradeCheck arg => upgrade_check_func arg
  | UpgradeDeinit => local_upgrade_deinit
  | Search data len => user_devicefind_recv data len
  | LampTimer => light_dh_pwm_adj_proc
  | DeviceTimer f => device_timer_fires false f
  end.

(** ** Steps of the program

    A step is one call by the SDK that is defined; the waits of the cloud
    client ([IotCloud.waits]) follow the log.  The search for an access point may
    take any number of tries. *)
Definition runs (m : F demo unit) (w : waits) (s : sys demo) (w' : waits) (s' : sys demo) : Prop :=
  m s = Some (tt, s') /\ exists k, log s' = log s ++ k /\ w' = wait_all w k.

Inductive demo_step : waits * sys demo -> waits * sys demo -> Prop :=
  | step_client w s n f w' s' :
      w_client w = true -> w_fn w = Some f ->
      runs (client_timer_fires n f) (w <| w_client := false |>) s w' s' -> demo_step (w, s) (w', s')
  | step_input w s i w' s' : runs (handle i) w s w' s' -> demo_step (w, s) (w', s')
  | step_recv w s data len w' s' :
      w_link w = true -> runs (user_esp_platform_recv_cb data len) w s w' s' -> demo_step (w, s) (w', s')
  | step_disconnected w s w' s' :
      w_link w = true -> runs (user_esp_platform_discon_cb (Some user_conn)) (w <| w_link := false |>) s w' s' -> demo_step (w, s) (w', s')
  | step_failed w s err w' s' :
      w_link w = true -> runs (user_esp_platform_recon_cb err) (w <| w_link := false |>) s w' s' -> demo_step (w, s) (w', s')
  | step_state w s state :
      demo_step (w, s) (w, mk_sys (log s) (mem s) ((st s) <| m_cloud := (m_cloud (st s)) <| c_state := state |> |>)).
End Main.

(** ** What leaves the timer of the client alone *)

Definition hands_off (e : event) : bool :=
  match e with Do (os_timer_disarm t) | Do (os_timer_setfn t _) => negb (bool_decide (t = client_timer)) | _ => true end.
Abbreviation off := (λ e, hands_off e = true).

Lemma going_on_step w e : hands_off e = true -> going_on w -> going_on (wait_step w e).
Proof.
  intros He Hw. destruct e as [| |c|]; try done. destruct c; try done.
  all: try match goal with t : timer |- _ => destruct t; try done | c : conn |- _ => destruct c; try done end.
  all: first [by right; left|by left|goes_on].
Qed.
Lemma going_on_all w k : Forall off k -> going_on w -> going_on (wait_all w k).
Proof. intros Hk. revert w. induction Hk as [|e k He _ IH]; intros w Hw; [done|]. apply (IH (wait_step w e)). by apply going_on_step. Qed.

Section Off.
Context `{Env} `{Flash} `{Kept} `{JsonLib} `{Station} `{ConnState} `{Peer} (garbage : bool).

Lemma off_keeps {A} (m : F demo A) : emits off m -> keeps m.
Proof.
  intros Hm s w Hw. eapply lp_mono; [apply Hm|]. cbv beta. intros a s' (k & E & Fk). exists k. split; [done|]. by apply going_on_all.
Qed.
Lemma lamp_off {A} (m : F demo A) : emits lamp_event m -> emits off m.
Proof. apply emits_mono. intros [| |c|] He; try done. by destruct c; try done; destruct t. Qed.
Lemma no_wait_off {A} (m : F demo A) : emits no_wait m -> emits off m.
Proof.
  apply emits_mono. intros [| |c|] He; try done. destruct c; try done; destruct t; try done; exfalso.
  - specialize (He (mk_waits None true true true true)). discriminate He.
  - specialize (He (mk_waits None true true true true)). discriminate He.
Qed.

Lemma names_off {A} (body : A -> parser -> F demo (option (A * parser))) a p :
  (forall a p, emits off (body a p)) -> emits off (names body a p).
Proof.
  intros Hb. unfold names. generalize (S (length (rest p))). intros n. revert a p.
  induction n as [|n IH]; intros a p; [apply emits_lift|]. cbn [each_name]. apply emits_if; [apply emits_ret|].
  apply emits_if; [|apply IH]. apply emits_bind; [apply Hb|]. intros [[a' p']|]; [apply IH|apply emits_ret].
Qed.

Lemma output_off c path : emits (X := demo) off (output c path).
Proof.
  unfold output. destruct c; unfold device_get, userbin_get, version_get, connect_status_get, user_esp_platform_get_connect_status, light_status_get,
    user_light_get_duty, user_light_get_period, wifi_station_get, wifi_softap_get, scan_get, write_string, write_ip, the_sta, the_ap, the_scan, the_bss.
  all: auto 40 with emits.
Qed.
Lemma print_off l b : emits (X := demo) off (print_pieces l b).
Proof.
  revert b. induction l as [|[s|c path] l IH]; intros b; cbn [print_pieces]; [apply emits_ret| |]; pose proof output_off; auto with emits.
Qed.
Lemma json_ws_off tree path : emits (X := demo) off (json_ws_send tree path).
Proof. unfold json_ws_send. apply emits_bind; [apply print_off|]. intros [b pos]. auto with emits. Qed.

Lemma send_off c b n : emits (X := demo) off (send_bytes c b n).
Proof. unfold send_bytes. destruct c; auto with emits. Qed.
Lemma data_send_off c ok b : emits (X := demo) off (data_send c ok b).
Proof. pose proof send_off. unfold data_send. destruct ok, b; auto 20 with emits. Qed.
Lemma response_off c ok : emits (X := demo) off (response_send c ok).
Proof. apply data_send_off. Qed.

Lemma set_lamp_off r g b cw ww p : emits (X := demo) off (set_lamp r g b cw ww p).
Proof. apply lamp_off, emits_set_lamp. Qed.
Lemma light_set_off p : emits (X := demo) off (light_status_set p).
Proof.
  pose proof set_lamp_off. unfold light_status_set. apply emits_bind; [auto with emits|intros _].
  apply emits_bind; [|auto with emits]. apply names_off. intros [] q. unfold light_member.
  destruct (List.find _ _) as [[[? ?] ?]|]; auto with emits.
Qed.
Lemma station_set_off p : emits (X := demo) off (wifi_station_set garbage p).
Proof.
  apply names_off. intros a q. unfold station_member, user_esp_platform_set_token, save_esp_param, the_sta. cbv zeta. auto 40 with emits.
Qed.
Lemma softap_set_off p : emits (X := demo) off (wifi_softap_set garbage p).
Proof.
  apply names_off. intros a q. unfold softap_member, softap_other, set_authmode, the_ap. cbv zeta. auto 60 with emits.
Qed.
Lemma json_parse_off tree text : emits (X := demo) off (json_parse garbage tree text).
Proof.
  unfold json_parse. generalize (json_callbacks tree) (@None callback). intros l. induction l as [|c l IH]; intros bak; cbn [parse_each]; [apply emits_ret|].
  apply emits_if; [apply IH|]. apply emits_bind; [|auto].
  destruct c; cbn [set_callback]; first [apply light_set_off|apply station_set_off|apply softap_set_off|apply emits_ret].
Qed.

(** The web server. *)
Lemma scan_entries_off n b o : emits (X := demo) off (scan_entries n b o).
Proof.
  pose proof json_ws_off. revert b o. induction n as [|n IH]; intros b o; cbn [scan_entries]; auto 20 with emits.
Qed.
Lemma scan_page_off : emits (X := demo) off scan_page.
Proof.
  pose proof json_ws_off. pose proof scan_entries_off. unfold scan_page, take_entries, set_scan, the_scan, last_page. apply emits_bind; [auto with emits|].
  intros [|h t]; [auto with emits|]. apply emits_bind; [auto with emits|intros sc]. apply emits_if; [auto with emits|].
  apply emits_bind; [auto with emits|intros l]. cbv zeta. apply emits_bind; [auto 20 with emits|intros ok]. apply emits_if; [auto with emits|].
  apply emits_if; [auto with emits|]. apply emits_bind; [auto with emits|intros b]. apply emits_bind; [auto with emits|intros [b' o]].
  auto 20 with emits.
Qed.
Lemma json_send_off c ty : emits (X := demo) off (json_send c ty).
Proof.
  pose proof json_ws_off. pose proof scan_page_off. pose proof data_send_off. unfold json_send. cbv zeta. destruct ty; auto 20 with emits.
Qed.
Lemma scan_cb_off l : emits (X := demo) off (json_scan_cb l).
Proof.
  pose proof json_ws_off. pose proof data_send_off. unfold json_scan_cb, set_scan, the_scan. cbv zeta. auto 30 with emits.
Qed.
Lemma refuse_off c : emits (X := demo) off (refuse c).
Proof. apply response_off. Qed.
Lemma do_get_off c f data : emits (X := demo) off (do_get c f data).
Proof.
  pose proof json_send_off. pose proof response_off. pose proof refuse_off.
  unfold do_get, selects, file_is, get_scan, get_wifi, set_scan, the_scan. cbv zeta. auto 60 with emits.
Qed.
Lemma do_post_off c f : emits (X := demo) off (do_post garbage c f).
Proof.
  pose proof response_off. pose proof refuse_off. pose proof json_parse_off.
  unfold do_post, selects, file_is, post_reboot, post_wifi, post_light, post_reset, upgrade_start, upgrade_reset, disarm_restart, arm_restart,
    the_sta, the_ap, user_esp_platform_set_connect_status, user_esp_platform_set_active, save_esp_param. cbv zeta. auto 80 with emits.
Qed.
Lemma upgrade_check_off c : emits (X := demo) off (upgrade_check_func c).
Proof. pose proof response_off. unfold upgrade_check_func. auto 30 with emits. Qed.
Lemma download_off c data n : emits (X := demo) off (local_upgrade_download c data n).
Proof.
  pose proof upgrade_check_off. unfold local_upgrade_download, download_first, download_next, download_done. cbv zeta. auto 60 with emits.
Qed.
Lemma recv_off c data n : emits (X := demo) off (webserver_recv garbage c data n).
Proof.
  pose proof do_get_off. pose proof do_post_off. pose proof refuse_off. pose proof download_off.
  assert (emits (X := demo) off (check_data data n)) by (unfold check_data; cbv zeta; auto 40 with emits).
  assert (emits (X := demo) off (save_data data n)) by (unfold save_data, keep_request, data_complete, reset_lengths; cbv zeta; auto 60 with emits).
  assert (forall f, emits (X := demo) off (match Type_ f with
    | GET => call (os_printf "We have a GET request.\n") ;; do_get c f data
    | POST => call (os_printf "We have a POST request.\n") ;; do_post garbage c f end)) by (intros f; destruct (Type_ f); auto with emits).
  unfold webserver_recv, free_request. auto 60 with emits.
Qed.

(** The rest of what the SDK calls. *)
Lemma find_off data n : emits (X := demo) off (user_devicefind_recv data n).
Proof.
  assert (emits (X := demo) off own_address) by (unfold own_address, address_of, the_find; auto 30 with emits).
  assert (forall i hw, emits (X := demo) off (find_reply i hw)).
  { intros i hw. unfold find_reply, the_find. do 4 (apply emits_bind; [auto with emits|intros ?]). apply emits_bind; [auto with emits|intros r].
    apply emits_if; [auto with emits|]. destruct (remot_info _) as [remote port]. auto 20 with emits. }
  unfold user_devicefind_recv. apply emits_bind; [done|]. intros [i hw]. destruct data; [|auto with emits]. cbv zeta. auto 30 with emits.
Qed.
Lemma device_timer_off f : emits (X := demo) off (device_timer_fires false f).
Proof.
  pose proof (λ p, no_wait_off _ (overflow_check_emits (X := demo) p)). unfold device_timer_fires, user_esp_platform_device_action, the_wait. cbn [swhen].
  destruct f; auto 30 with emits.
Qed.
Lemma lamp_timer_off : emits (X := demo) off light_dh_pwm_adj_proc.
Proof.
  apply lamp_off. pose proof (@emits_set_duty _ demo _). pose proof (@emits_diff _ demo _). pose proof (@emits_smooth _ demo _ queue_fuel).
  unfold light_dh_pwm_adj_proc, dh_pwm_adj, adjust_channel, check_pwm_current_duty_diff, light_pwm_smooth_adj_proc. auto 40 with emits.
Qed.
Lemma upgrade_rsp_off v : emits (X := demo) off (user_esp_platform_upgrade_rsp v).
Proof.
  pose proof (λ c f, no_wait_off _ (send_packet_emits (X := demo) c f)). unfold user_esp_platform_upgrade_rsp. auto 30 with emits.
Qed.
Lemma web_timer_keeps : keeps (restart_10ms_cb (user_esp_platform_check_ip (X := demo))).
Proof.
  unfold restart_10ms_cb. apply keeps_bind; [apply off_keeps, emits_get|]. intros [[ty [c|]]|]; [|apply off_keeps; destruct ty; auto with emits|apply off_keeps, emits_ret].
  destruct ty; try (apply off_keeps; solve [auto 20 with emits]).
  apply keeps_bind; [apply off_keeps; unfold the_sta; auto with emits|intros sta]. apply keeps_bind; [apply off_keeps, emits_lift|intros x].
  apply keeps_bind; [|intros _; apply off_keeps; unfold the_ap; auto 20 with emits].
  destruct (negb _); cbn [swhen]; [|apply off_keeps, emits_ret].
  do 3 (apply keeps_bind; [apply off_keeps; auto with emits|intros _]). apply revives_keeps, check_ip_revives.
Qed.

Lemma handle_keeps i : keeps (handle garbage i).
Proof.
  destruct i; cbn [handle].
  - apply beacon_keeps.
  - apply dns_found_keeps.
  - apply connect_keeps.
  - apply off_keeps. unfold user_esp_platform_sent_cb. auto with emits.
  - apply off_keeps, upgrade_rsp_off.
  - apply off_keeps, recv_off.
  - apply web_timer_keeps.
  - apply off_keeps, scan_cb_off.
  - apply off_keeps, upgrade_check_off.
  - apply off_keeps. unfold local_upgrade_deinit. auto 20 with emits.
  - apply off_keeps, find_off.
  - apply off_keeps, lamp_timer_off.
  - apply off_keeps, device_timer_off.
Qed.
End Off.

(** ** The connection block

    [conn_tcp] is set before the client connects, and stays set. *)

Definition blocked {A} (m : F demo A) : Prop := forall s w,
  (w_link w = true -> conn_tcp (m_cloud (st s)) ≠ None) ->
  tlp m s w (λ _ s' w', w_link w' = true -> conn_tcp (m_cloud (st s')) ≠ None).

Lemma blocked_ret {A} (a : A) : blocked (sret a).
Proof. intros s w Hw. by apply tlp_ret. Qed.
Lemma blocked_bind {A B} (m : F demo A) (k : A -> F demo B) : blocked m -> (forall a, blocked (k a)) -> blocked (sbind m k).
Proof. intros Hm Hk s w Hw. apply tlp_bind. eapply tlp_mono; [by apply Hm|]. cbv beta. intros a s' w' Hw'. by apply Hk. Qed.
Lemma blocked_lift {A} (o : option A) : blocked (slift o).
Proof. intros s w Hw. by apply tlp_lift. Qed.
Lemma blocked_get {A} (f : sys demo -> A) : blocked (sget f).
Proof. intros s w Hw. by apply tlp_get. Qed.
Lemma blocked_when (b : bool) (m : F demo unit) : blocked m -> blocked (swhen b m).
Proof. intros Hm. destruct b; [done|apply blocked_ret]. Qed.
Lemma blocked_if {A} (b : bool) (m k : F demo A) : blocked m -> blocked k -> blocked (if b then m else k).
Proof. by destruct b. Qed.
Lemma blocked_option {A B} (o : option A) (m : A -> F demo B) (k : F demo B) : (forall a, blocked (m a)) -> blocked k ->
  blocked (match o with Some a => m a | None => k end).
Proof. by destruct o. Qed.
Lemma blocked_call c : (forall w, w_link (wait_step w (Do c)) = w_link w) -> blocked (call c).
Proof. intros Hc s w Hw. apply tlp_call. by rewrite Hc. Qed.
Lemma blocked_ask `{Env} c : blocked (ask c).
Proof. intros s w Hw. by apply tlp_ask. Qed.
Lemma blocked_pmodify {Y} `{Part demo Y} (f : Y -> Y) :
  (forall d, conn_tcp (m_cloud d) ≠ None -> conn_tcp (m_cloud (set_part (f (part d)) d)) ≠ None) -> blocked (pmodify f).
Proof. intros Hf s w Hw. apply tlp_pmodify. intros Hl. by apply Hf, Hw. Qed.
Lemma blocked_for {A} (l : list A) (body : A -> F demo unit) : (forall a, blocked (body a)) -> blocked (sfor l body).
Proof. intros Hb. induction l as [|a l IH]; [apply blocked_ret|]. by apply blocked_bind. Qed.

Create HintDb blocked.
#[local] Hint Resolve blocked_ret blocked_lift blocked_get blocked_when blocked_if blocked_option blocked_for blocked_ask : blocked.
#[local] Hint Extern 1 (blocked (call _)) =>
  (apply blocked_call; intros ?; first [reflexivity|match goal with t : timer |- _ => by destruct t | c : conn |- _ => by destruct c end]) : blocked.
#[local] Hint Extern 1 (blocked (pvar _)) => (apply blocked_get) : blocked.
#[local] Hint Extern 1 (blocked (pmodify _)) => (apply blocked_pmodify; intros ? ?; first [assumption|discriminate]) : blocked.
#[local] Hint Extern 2 (blocked (sbind _ _)) => (apply blocked_bind; [|intros ?]) : blocked.

Section Blocked.
Context `{Env} `{Flash} `{Kept} `{JsonLib} `{Station} `{ConnState} `{Peer} (garbage : bool).

Lemma set_duty_blocked d ch : blocked (user_light_set_duty d ch).
Proof. unfold user_light_set_duty, user_light_get_duty. auto 20 with blocked. Qed.
Lemma set_period_blocked p : blocked (user_light_set_period p).
Proof. unfold user_light_set_period, user_light_get_period. auto 20 with blocked. Qed.
Lemma diff_blocked l : blocked (duty_diff_from l).
Proof. induction l; cbn [duty_diff_from]; auto 20 with blocked. Qed.
Lemma zero_blocked l : blocked (duty_zero_from l).
Proof. induction l; cbn [duty_zero_from]; auto 20 with blocked. Qed.
Lemma smooth_blocked n : blocked (smooth_adj n).
Proof.
  induction n as [|n IH]; [apply blocked_lift|]. pose proof set_duty_blocked. pose proof set_period_blocked. pose proof diff_blocked. pose proof zero_blocked.
  cbn [smooth_adj]. unfold light_settled, light_save_target_duty, check_pwm_duty_zero, LightEvtFree, dh_pwm_adj, adjust_channel, check_pwm_current_duty_diff.
  auto 40 with blocked.
Qed.
Lemma lamp_timer_blocked : blocked light_dh_pwm_adj_proc.
Proof.
  pose proof set_duty_blocked. pose proof diff_blocked. pose proof (smooth_blocked queue_fuel).
  unfold light_dh_pwm_adj_proc, dh_pwm_adj, adjust_channel, check_pwm_current_duty_diff, light_pwm_smooth_adj_proc. auto 40 with blocked.
Qed.
Lemma set_aim_blocked r g b cw ww p : blocked (light_set_aim r g b cw ww p).
Proof. unfold light_set_aim, LightEvtMalloc, light_pwm_smooth_adj_proc. pose proof (smooth_blocked queue_fuel). auto 40 with blocked. Qed.
Lemma set_lamp_blocked r g b cw ww p : blocked (set_lamp r g b cw ww p).
Proof. unfold set_lamp. pose proof set_aim_blocked. auto 40 with blocked. Qed.
Lemma get_info_blocked msg : blocked (user_esp_platform_get_info msg).
Proof. unfold user_esp_platform_get_info, user_light_get_duty, user_light_get_period. auto 20 with blocked. Qed.
Lemma set_info_blocked msg : blocked (user_esp_platform_set_info msg).
Proof. pose proof set_lamp_blocked. pose proof get_info_blocked. unfold user_esp_platform_set_info, set_member. auto 40 with blocked. Qed.
Lemma light_init_blocked : blocked user_light_init.
Proof. unfold user_light_init, spi_flash_read. pose proof set_aim_blocked. auto 60 with blocked. Qed.

(** The web server. *)
Lemma names_blocked {A} (body : A -> parser -> F demo (option (A * parser))) a p : (forall a p, blocked (body a p)) -> blocked (names body a p).
Proof.
  intros Hb. unfold names. generalize (S (length (rest p))). intros n. revert a p.
  induction n as [|n IH]; intros a p; [apply blocked_lift|]. cbn [each_name]. apply blocked_if; [apply blocked_ret|].
  apply blocked_if; [|apply IH]. apply blocked_bind; [apply Hb|]. intros [[a' p']|]; [apply IH|apply blocked_ret].
Qed.
Lemma output_blocked c path : blocked (output c path).
Proof.
  unfold output. destruct c; unfold device_get, userbin_get, version_get, connect_status_get, user_esp_platform_get_connect_status, light_status_get,
    user_light_get_duty, user_light_get_period, wifi_station_get, wifi_softap_get, scan_get, write_string, write_ip, the_sta, the_ap, the_scan, the_bss.
  all: auto 40 with blocked.
Qed.
Lemma print_blocked l b : blocked (print_pieces l b).
Proof.
  revert b. induction l as [|[s|c path] l IH]; intros b; cbn [print_pieces]; [apply blocked_ret| |]; pose proof output_blocked; auto with blocked.
Qed.
Lemma json_ws_blocked tree path : blocked (json_ws_send tree path).
Proof. unfold json_ws_send. apply blocked_bind; [apply print_blocked|]. intros [b pos]. auto with blocked. Qed.
Lemma data_send_blocked c ok b : blocked (data_send c ok b).
Proof.
  assert (forall c b n, blocked (send_bytes c b n)) by (intros [] b' n; unfold send_bytes; auto with blocked).
  unfold data_send. destruct ok, b; auto 20 with blocked.
Qed.
Lemma response_blocked c ok : blocked (response_send c ok).
Proof. apply data_send_blocked. Qed.
Lemma light_set_blocked p : blocked (light_status_set p).
Proof.
  pose proof set_lamp_blocked. unfold light_status_set. apply blocked_bind; [auto with blocked|intros _].
  apply blocked_bind; [|auto with blocked]. apply names_blocked. intros [] q. unfold light_member.
  destruct (List.find _ _) as [[[? ?] ?]|]; auto with blocked.
Qed.
Lemma station_set_blocked p : blocked (wifi_station_set garbage p).
Proof.
  apply names_blocked. intros a q. unfold station_member, user_esp_platform_set_token, save_esp_param, the_sta. cbv zeta. auto 40 with blocked.
Qed.
Lemma softap_set_blocked p : blocked (wifi_softap_set garbage p).
Proof. apply names_blocked. intros a q. unfold softap_member, softap_other, set_authmode, the_ap. cbv zeta. auto 60 with blocked. Qed.
Lemma json_parse_blocked tree text : blocked (json_parse garbage tree text).
Proof.
  unfold json_parse. generalize (json_callbacks tree) (@None callback). intros l. induction l as [|c l IH]; intros bak; cbn [parse_each]; [apply blocked_ret|].
  apply blocked_if; [apply IH|]. apply blocked_bind; [|auto].
  destruct c; cbn [set_callback]; first [apply light_set_blocked|apply station_set_blocked|apply softap_set_blocked|apply blocked_ret].
Qed.
Lemma scan_entries_blocked n b o : blocked (scan_entries n b o).
Proof. pose proof json_ws_blocked. revert b o. induction n as [|n IH]; intros b o; cbn [scan_entries]; auto 20 with blocked. Qed.
Lemma scan_page_blocked : blocked scan_page.
Proof.
  pose proof json_ws_blocked. pose proof scan_entries_blocked. unfold scan_page, take_entries, set_scan, the_scan, last_page. apply blocked_bind; [auto with blocked|].
  intros [|h t]; [auto with blocked|]. apply blocked_bind; [auto with blocked|intros sc]. apply blocked_if; [auto with blocked|].
  apply blocked_bind; [auto with blocked|intros l]. cbv zeta. apply blocked_bind; [auto 20 with blocked|intros ok]. apply blocked_if; [auto with blocked|].
  apply blocked_if; [auto with blocked|]. apply blocked_bind; [auto with blocked|intros b]. apply blocked_bind; [auto with blocked|intros [b' o]].
  auto 20 with blocked.
Qed.
Lemma json_send_blocked c ty : blocked (json_send c ty).
Proof.
  pose proof json_ws_blocked. pose proof scan_page_blocked. pose proof data_send_blocked. unfold json_send. cbv zeta. destruct ty; auto 20 with blocked.
Qed.
Lemma scan_cb_blocked l : blocked (json_scan_cb l).
Proof. pose proof json_ws_blocked. pose proof data_send_blocked. unfold json_scan_cb, set_scan, the_scan. cbv zeta. auto 30 with blocked. Qed.
Lemma do_get_blocked c f data : blocked (do_get c f data).
Proof.
  pose proof json_send_blocked. pose proof response_blocked.
  assert (forall c, blocked (refuse c)) by (intros; apply response_blocked).
  unfold do_get, selects, file_is, get_scan, get_wifi, set_scan, the_scan. cbv zeta. auto 60 with blocked.
Qed.
Lemma do_post_blocked c f : blocked (do_post garbage c f).
Proof.
  pose proof response_blocked. pose proof json_parse_blocked.
  assert (forall c, blocked (refuse c)) by (intros; apply response_blocked).
  unfold do_post, selects, file_is, post_reboot, post_wifi, post_light, post_reset, upgrade_start, upgrade_reset, disarm_restart, arm_restart,
    the_sta, the_ap, user_esp_platform_set_connect_status, user_esp_platform_set_active, save_esp_param. cbv zeta. auto 80 with blocked.
Qed.
Lemma upgrade_check_blocked c : blocked (upgrade_check_func c).
Proof. pose proof response_blocked. unfold upgrade_check_func. auto 30 with blocked. Qed.
Lemma web_recv_blocked c data n : blocked (webserver_recv garbage c data n).
Proof.
  pose proof do_get_blocked. pose proof do_post_blocked. pose proof response_blocked.
  assert (blocked (local_upgrade_download c data n)).
  { pose proof upgrade_check_blocked. unfold local_upgrade_download, download_first, download_next, download_done. cbv zeta. auto 60 with blocked. }
  assert (blocked (check_data data n)) by (unfold check_data; cbv zeta; auto 40 with blocked).
  assert (blocked (save_data data n)) by (unfold save_data, keep_request, data_complete, reset_lengths; cbv zeta; auto 60 with blocked).
  assert (forall f, blocked (match Type_ f with
    | GET => call (os_printf "We have a GET request.\n") ;; do_get c f data
    | POST => call (os_printf "We have a POST request.\n") ;; do_post garbage c f end)) by (intros f; destruct (Type_ f); auto with blocked).
  assert (forall c, blocked (refuse c)) by (intros; apply response_blocked).
  unfold webserver_recv, free_request. auto 60 with blocked.
Qed.

(** The cloud client. *)
Lemma reset_mode_blocked : blocked user_esp_platform_reset_mode.
Proof. unfold user_esp_platform_reset_mode, set_client_timer. auto 20 with blocked. Qed.
Lemma check_ip_blocked r : blocked (user_esp_platform_check_ip r).
Proof.
  pose proof reset_mode_blocked. unfold user_esp_platform_check_ip, user_mdns_conf, user_esp_platform_start_dns, set_client_timer, status_is. auto 40 with blocked.
Qed.
Lemma ap_change_blocked n : blocked (user_esp_platform_ap_change n).
Proof.
  assert (forall i, blocked (ap_search n i)) by (induction n as [|n IH]; intros i; cbn [ap_search]; auto with blocked).
  unfold user_esp_platform_ap_change, set_client_timer. auto 20 with blocked.
Qed.
Lemma sent_blocked c : blocked (user_esp_platform_sent c).
Proof. unfold user_esp_platform_sent, send_packet. auto 40 with blocked. Qed.
Lemma timer_get_blocked c : blocked (user_platform_timer_get c).
Proof. unfold user_platform_timer_get, send_packet. auto 20 with blocked. Qed.
Lemma beacon_blocked c : blocked (user_esp_platform_sent_beacon c).
Proof. pose proof sent_blocked. unfold user_esp_platform_sent_beacon, user_esp_platform_discon. auto 40 with blocked. Qed.
Lemma connected_blocked : blocked user_esp_platform_connect_cb.
Proof. pose proof sent_blocked. unfold user_esp_platform_connect_cb. auto 20 with blocked. Qed.
Lemma timer_action_blocked l n : blocked (esp_platform_timer_action l n).
Proof.
  assert (forall p, blocked (user_esp_platform_wait_time_overflow_check p)) by (intros p; unfold user_esp_platform_wait_time_overflow_check, the_wait; auto 30 with blocked).
  unfold esp_platform_timer_action. do 2 (apply blocked_bind; [auto with blocked|intros ?]).
  apply blocked_bind; [auto with blocked|]. intros [a' k]. auto 20 with blocked.
Qed.
Lemma timer_start_blocked t : blocked (user_platform_timer_start t).
Proof.
  assert (forall now l, blocked (start_timers now l)) by (intros now l; induction l as [|i l IH]; cbn [start_timers]; auto 20 with blocked).
  unfold user_platform_timer_start, read_timestamp, user_platform_timer_first_start, esp_platform_find_min_time.
  pose proof timer_action_blocked. auto 60 with blocked.
Qed.
Lemma recv_blocked data n : blocked (user_esp_platform_recv_cb data n).
Proof.
  pose proof sent_blocked. pose proof timer_get_blocked. pose proof timer_start_blocked. pose proof get_info_blocked. pose proof set_info_blocked.
  assert (forall c n, blocked (user_platform_rpc_set_rsp c n)) by (intros c k; unfold user_platform_rpc_set_rsp, send_packet; auto 20 with blocked).
  assert (forall c v, blocked (user_esp_platform_upgrade_begin c v)) by (intros c v; unfold user_esp_platform_upgrade_begin, user_bin_name; auto 40 with blocked).
  assert (forall b t d, blocked (recv_other b t d)).
  { intros b t d. unfold recv_other, recv_upgrade, recv_timers, recv_method, set_client_timer.
    repeat match goal with |- context [match strstr t ?k with _ => _ end] => destruct (strstr t k) end; auto 40 with blocked. }
  unfold user_esp_platform_recv_cb, recv_message, recv_activate, save_esp_param. auto 60 with blocked.
Qed.
Lemma set_tcp_blocked f : blocked (set_tcp f).
Proof. unfold set_tcp, the_tcp. auto 20 with blocked. Qed.
Lemma discon_blocked c : blocked (user_esp_platform_discon_cb c).
Proof. pose proof set_tcp_blocked. pose proof check_ip_blocked. unfold user_esp_platform_discon_cb, user_esp_platform_reconnect. auto 40 with blocked. Qed.
Lemma recon_blocked err : blocked (user_esp_platform_recon_cb err).
Proof. pose proof reset_mode_blocked. unfold user_esp_platform_recon_cb, fifth_failure, set_client_timer. auto 40 with blocked. Qed.
(** The one place that connects has the block. *)
Lemma connects_blocked : blocked user_esp_platform_connect.
Proof.
  intros s w Hw. unfold user_esp_platform_connect, the_tcp. apply tlp_bind, tlp_call, tlp_bind, tlp_bind, tlp_pvar, tlp_lift. intros t Et.
  apply tlp_call. cbn [log mem st] in *. intros _ E. cbn [part demo_cloud] in Et. congruence.
Qed.
Lemma dns_found_blocked a : blocked (user_esp_platform_dns_found a).
Proof.
  pose proof connects_blocked. pose proof set_tcp_blocked. pose proof reset_mode_blocked. unfold user_esp_platform_dns_found, fifth_failure. auto 60 with blocked.
Qed.

Lemma find_blocked data n : blocked (user_devicefind_recv data n).
Proof.
  assert (blocked own_address) by (unfold own_address, address_of, the_find; auto 30 with blocked).
  assert (forall i hw, blocked (find_reply i hw)).
  { intros i hw. unfold find_reply, the_find. do 4 (apply blocked_bind; [auto with blocked|intros ?]). apply blocked_bind; [auto with blocked|intros r].
    apply blocked_if; [auto with blocked|]. destruct (remot_info _) as [remote port]. auto 20 with blocked. }
  unfold user_devicefind_recv. apply blocked_bind; [done|]. intros [i hw]. destruct data; [|auto with blocked]. cbv zeta. auto 30 with blocked.
Qed.
Lemma device_timer_blocked f : blocked (device_timer_fires false f).
Proof.
  assert (forall p, blocked (user_esp_platform_wait_time_overflow_check p)) by (intros p; unfold user_esp_platform_wait_time_overflow_check, the_wait; auto 30 with blocked).
  pose proof timer_action_blocked. unfold device_timer_fires, user_esp_platform_device_action, the_wait. cbn [swhen]. destruct f; auto 30 with blocked.
Qed.
Lemma web_timer_blocked : blocked (restart_10ms_cb (user_esp_platform_check_ip (X := demo))).
Proof.
  pose proof check_ip_blocked. unfold restart_10ms_cb, the_sta, the_ap. apply blocked_bind; [auto with blocked|]. intros [[ty [c|]]|]; [|destruct ty; auto 20 with blocked|auto with blocked].
  destruct ty; auto 40 with blocked.
Qed.
Lemma handle_blocked i : blocked (handle garbage i).
Proof.
  destruct i; cbn [handle].
  - apply beacon_blocked.
  - apply dns_found_blocked.
  - apply connected_blocked.
  - unfold user_esp_platform_sent_cb. auto with blocked.
  - unfold user_esp_platform_upgrade_rsp, send_packet. auto 40 with blocked.
  - apply web_recv_blocked.
  - apply web_timer_blocked.
  - apply scan_cb_blocked.
  - apply upgrade_check_blocked.
  - unfold local_upgrade_deinit. auto 20 with blocked.
  - apply find_blocked.
  - apply lamp_timer_blocked.
  - apply device_timer_blocked.
Qed.
End Blocked.

(** ** The cloud client never gives up *)

Definition no_waits : waits := mk_waits None false false false false.

Ltac wp_step :=
  lazymatch goal with
  | |- wp (sbind _ _) _ _ => apply wp_bind
  | |- wp (pvar _) _ _ => apply wp_pvar
  | |- wp (pmodify _) _ _ => apply wp_pmodify
  | |- wp (call _) _ _ => apply wp_call
  | |- wp (ask _) _ _ => apply wp_ask
  | |- wp (sret _) _ _ => apply wp_ret
  | |- wp (sget _) _ _ => apply wp_get
  end;
  cbn [log mem st part set_part demo_light demo_json demo_cloud demo_timer demo_control set_field swhen
       m_light m_http m_json m_web m_control m_timer m_plug m_cloud m_find
       device_recon_count active_nonce ping_status esp_server_ip pbuffer conn_tcp c_state esp_param device_status devkey token_ activeflag].
Ltac wp_run := repeat wp_step.

Section Life.
Context `{Env} `{Flash} `{Kept} `{JsonLib} `{Station} `{ConnState} `{Peer} (garbage : bool).

Lemma tlp_runs (m : F demo unit) w s w' s' (Q : waits -> Prop) : tlp m s w (λ _ _ w'', Q w'') -> runs m w s w' s' -> Q w'.
Proof.
  intros Hm [E (k & Ek & ->)]. destruct (Hm _ _ E) as (k' & Ek' & HQ). rewrite Ek in Ek'. by apply app_inv_head in Ek' as <-.
Qed.

Lemma client_timer_goes_on n f w s : w_fn w = Some f -> going_on (w <| w_client := true |>) ->
  tlp (client_timer_fires n f) s (w <| w_client := false |>) (λ _ _ w', going_on w').
Proof.
  intros Hf Hw. assert (Hstill : ~ retries f -> going_on (w <| w_client := false |>)).
  { intros Hn. destruct Hw as [Hw|[Hw|(_ & g & Eg & Hg)]]; [by left|by right; left|]. cbn in Eg. rewrite Hf in Eg. by injection Eg as <-. }
  destruct f; cbn [client_timer_fires]; try (by apply tlp_lift; intros ? [=]).
  - apply check_ip_revives.
  - apply reconnect_revives.
  - apply ap_change_revives.
  - by apply dns_check_revives.
  - eapply tlp_emits; [apply timer_get_emits|done|]. intros _ _. apply Hstill. intros [].
  - apply tlp_call. left. done.
Qed.

Lemma step_goes_on c c' : demo_step garbage c c' -> going_on (fst c) -> going_on (fst c').
Proof.
  intros Hs Hw. destruct Hs as [w s n f w' s' Hc Hf Hr|w s i w' s' Hr|w s data len w' s' Hl Hr|w s w' s' _ Hr|w s err w' s' _ Hr|w s state]; cbn [fst] in *.
  - eapply tlp_runs; [|exact Hr]. apply client_timer_goes_on; [done|]. by destruct w; cbn in *; subst.
  - eapply tlp_runs; [|exact Hr]. by apply handle_keeps.
  - right. left. eapply (tlp_runs _ _ _ _ _ (λ w, w_link w = true)); [|exact Hr]. by apply linked_keeps, Hl; apply recv_emits.
  - eapply tlp_runs; [|exact Hr]. apply discon_revives.
  - eapply tlp_runs; [|exact Hr]. apply recon_revives.
  - done.
Qed.

Lemma tlp_any {A} P (m : F demo A) s w (Q : A -> sys demo -> waits -> Prop) : emits P m -> (forall a s' w', Q a s' w') -> tlp m s w Q.
Proof. intros Hm HQ. eapply lp_mono; [apply Hm|]. cbv beta. intros a s' (k & E & _). exists k. auto. Qed.
Lemma tlp_ask_answer c s w (Q : Z -> sys demo -> waits -> Prop) : (forall l, Q (u32 (sdk_ret l c)) (mk_sys (log s ++ [Got c (u32 (sdk_ret l c))]) (mem s) (st s)) w) ->
  tlp (ask c) s w Q.
Proof. intros HQ. apply lp_ask. eexists. split; [done|]. apply (HQ (log s)). Qed.

(** Start-up ends with the timer set. *)
Lemma init_goes_on beyond s w : (forall l, u8 (u32 (sdk_ret l wifi_get_opmode)) ≠ SOFTAP_MODE) ->
  tlp (user_init beyond) s w (λ _ _ w', going_on w').
Proof.
  intros Hm. unfold user_init. do 2 (apply tlp_bind, tlp_call).
  apply tlp_bind. eapply tlp_mono.
  2:{ cbv beta. intros a s' w' Hw'. apply off_keeps; [|exact Hw']. unfold user_devicefind_init, user_webserver_init. auto 20 with emits. }
  unfold user_esp_platform_init. apply tlp_bind, tlp_call, tlp_bind, tlp_get, tlp_bind, tlp_pmodify.
  apply tlp_bind. apply (tlp_any off); [unfold print_reset_reason; auto 20 with emits|intros _ s1 w1].
  apply tlp_bind. apply (tlp_any off); [unfold restore_dhcp; cbv zeta; auto 40 with emits|intros _ s2 w2].
  apply tlp_bind, tlp_call, tlp_bind, tlp_pvar, tlp_bind. apply (tlp_any off); [auto with emits|intros _ s3 w3].
  apply tlp_bind. apply (tlp_any lamp_event); [apply emits_light_init|intros _ s4 w4].
  apply tlp_bind, tlp_ask_answer. intros l. replace (u8 _ =? SOFTAP_MODE) with false by (symmetry; apply Z.eqb_neq, Hm).
  cbn [negb swhen]. by apply set_timer_revives.
Qed.

Lemma init_blocked beyond : blocked (user_init beyond).
Proof.
  pose proof light_init_blocked. unfold user_init, user_esp_platform_init, print_reset_reason, restore_dhcp, set_client_timer, user_devicefind_init, user_webserver_init.
  cbv zeta. auto 60 with blocked.
Qed.
Lemma blocked_runs (m : F demo unit) w s w' s' : blocked m -> runs m w s w' s' ->
  (w_link w = true -> conn_tcp (m_cloud (st s)) ≠ None) -> w_link w' = true -> conn_tcp (m_cloud (st s')) ≠ None.
Proof.
  intros Hm [E (k & Ek & ->)] Hw. destruct (Hm _ _ Hw _ _ E) as (k' & Ek' & HQ). rewrite Ek in Ek'. by apply app_inv_head in Ek' as <-.
Qed.
Lemma step_blocked c c' : demo_step garbage c c' -> (w_link (fst c) = true -> conn_tcp (m_cloud (st (snd c))) ≠ None) ->
  w_link (fst c') = true -> conn_tcp (m_cloud (st (snd c'))) ≠ None.
Proof.
  intros Hs Hw. destruct Hs as [w s n f w' s' Hc Hf Hr|w s i w' s' Hr|w s data len w' s' Hl Hr|w s w' s' Hl Hr|w s err w' s' Hl Hr|w s state]; cbn [fst snd] in *.
  - refine (blocked_runs _ _ _ _ _ _ Hr Hw). pose proof ap_change_blocked. pose proof check_ip_blocked. pose proof timer_get_blocked.
    destruct f; cbn [client_timer_fires]; unfold user_esp_platform_reconnect, user_esp_platform_dns_check_cb; auto 20 with blocked.
  - refine (blocked_runs _ _ _ _ _ _ Hr Hw). apply handle_blocked.
  - refine (blocked_runs _ _ _ _ _ _ Hr Hw). apply recv_blocked.
  - refine (blocked_runs _ _ _ _ _ _ Hr _); [apply discon_blocked|done].
  - refine (blocked_runs _ _ _ _ _ _ Hr _); [apply recon_blocked|done].
  - exact Hw.
Qed.

(** *** The next step is defined *)

Definition can_run (m : F demo unit) w s : Prop := exists w' s', runs m w s w' s'.

Lemma defined_runs (m : F demo unit) (Q : waits -> Prop) w s : wp m s (λ _ _, True) -> tlp m s w (λ _ _ w', Q w') -> can_run m w s.
Proof. intros ([] & s' & E & _) Hm. destruct (Hm _ _ E) as (k & Ek & _). exists (wait_all w k), s'. split; [done|by exists k]. Qed.

Lemma armed_last t l ms rep : armed t (l ++ [Do (os_timer_arm t ms rep)]) = true.
Proof. rewrite armed_snoc. cbn. by rewrite bool_decide_eq_true_2. Qed.
(** Looking for the network always ends with the timer set. *)
Ltac wp_test := match goal with |- wp (if ?b then _ else _) _ _ => destruct b | |- wp (swhen ?b _) _ _ => destruct b; cbn [swhen] end.
Implicit Types s : sys demo.
Definition cloud s : cloud_vars := m_cloud (st s).

Lemma reset_mode_arms s (Q : bool -> sys demo -> Prop) :
  (forall l, armed client_timer l = true -> Q true (mk_sys l (mem s) (st s))) -> wp user_esp_platform_reset_mode s Q.
Proof. intros HQ. unfold user_esp_platform_reset_mode, set_client_timer. repeat first [wp_step|wp_test]; apply HQ, armed_last. Qed.
Lemma check_ip_arms r s : wp (user_esp_platform_check_ip r) s (λ _ s', armed client_timer (log s') = true).
Proof.
  unfold user_esp_platform_check_ip, user_mdns_conf, user_esp_platform_start_dns, set_client_timer, status_is.
  repeat first [wp_step|wp_test]; cbn [log]; try apply armed_last.
  all: apply reset_mode_arms; intros l Hl; by apply wp_ret.
Qed.
Lemma discon_arms s : conn_tcp (cloud s) ≠ None -> wp (user_esp_platform_discon_cb (Some user_conn)) s (λ _ s', armed client_timer (log s') = true).
Proof.
  intros Ht. destruct (conn_tcp (cloud s)) as [t|] eqn:Et; [|done]. unfold user_esp_platform_discon_cb, set_tcp, the_tcp, user_esp_platform_reconnect.
  wp_run. fold (cloud s). rewrite Et. eapply wp_lift; [done|]. wp_run. apply check_ip_arms.
Qed.

(** The access points the search tries in turn, each refused. *)
Definition next_ap (i : Z) : Z := let i := u8 (i + 1) in if i =? AP_CACHE_NUMBER - 1 then 0 else i.
Definition first_ap (current : Z) : Z := if current =? AP_CACHE_NUMBER - 1 then 0 else u8 (current + 1).
Fixpoint all_refused (n : nat) (i : Z) (l : list event) : Prop :=
  match n with
  | O => True
  | S n => let v := u32 (sdk_ret l (wifi_station_ap_change i)) in
      u8 v ≠ 1 /\ all_refused n (next_ap i) (l ++ [Got (wifi_station_ap_change i) v])
  end.
(** ... in a search that begins in [s]. *)
Definition refused (n : nat) s : Prop :=
  let l := log s ++ [Do (os_printf "user_esp_platform_ap_is_changing\n")] in
  let v := u32 (sdk_ret l wifi_station_get_current_ap_id) in
  all_refused n (first_ap (u8 v)) ((l ++ [Got wifi_station_get_current_ap_id v]) ++ [Do (os_printf "current ap id =%d\n")]).

Lemma search_or_refused n i s : wp (ap_search (X := demo) n i) s (λ _ _, True) \/ all_refused n i (log s).
Proof.
  revert i s. induction n as [|n IH]; intros i s; [by right|]. cbn [ap_search all_refused]. cbv zeta.
  destruct (Z.eqb_spec (u8 (u32 (sdk_ret (log s) (wifi_station_ap_change i)))) 1) as [E|E].
  - left. do 2 wp_step. rewrite E. by apply wp_ret.
  - destruct (IH (next_ap i) (mk_sys (log s ++ [Got (wifi_station_ap_change i) (u32 (sdk_ret (log s) (wifi_station_ap_change i)))]) (mem s) (st s))) as [Hd|Hr];
      [left|by right]. do 2 wp_step. apply Z.eqb_neq in E. rewrite E. exact Hd.
Qed.

Lemma ap_change_or_refused n s : wp (user_esp_platform_ap_change (X := demo) n) s (λ _ _, True) \/ refused n s.
Proof.
  unfold refused. cbv zeta. set (l := log s ++ _). set (v := u32 _). set (l' := (l ++ _) ++ _).
  destruct (search_or_refused n (first_ap (u8 v)) (mk_sys l' (mem s) (st s))) as [Hd|Hr]; [left|by right].
  unfold user_esp_platform_ap_change. do 7 wp_step. fold l v. fold (first_ap (u8 v)). fold l'.
  eapply wp_mono; [exact Hd|]. intros [] s' _. unfold set_client_timer. wp_run. done.
Qed.

(** What the client waits for can happen, and then it goes on. *)
Definition can_go_on w s : Prop :=
  w_over w = true \/
  (w_link w = true /\ can_run (user_esp_platform_discon_cb (Some user_conn)) (w <| w_link := false |>) s /\
    forall err, can_run (user_esp_platform_recon_cb err) (w <| w_link := false |>) s) \/
  (w_client w = true /\ exists f, w_fn w = Some f /\ retries f /\ forall n,
    can_run (client_timer_fires n f) (w <| w_client := false |>) s \/ f = fp_platform_ap_change /\ refused n s).

Lemma going_on_can w s : going_on w -> (w_link w = true -> conn_tcp (m_cloud (st s)) ≠ None) -> can_go_on w s.
Proof.
  intros [Hw|[Hw|(Hw & f & Ef & Hf)]] Ht; [by left|right; left|right; right].
  - specialize (Ht Hw). split; [done|]. split.
    + eapply defined_runs; [|apply discon_revives]. eapply wp_mono; [by apply discon_arms|done].
    + intros err. eapply defined_runs; [|apply recon_revives]. unfold user_esp_platform_recon_cb, fifth_failure, set_client_timer.
      repeat first [wp_step|wp_test]; try done. apply reset_mode_arms. intros l _. wp_run. done.
  - split; [done|]. exists f. split; [done|]. split; [done|]. intros n.
    assert (Hgo : tlp (client_timer_fires n f) s (w <| w_client := false |>) (λ _ _ w', going_on w')).
    { apply client_timer_goes_on; [done|]. right. right. split; [done|]. by exists f. }
    destruct f; try done.
    + left. eapply defined_runs; [|exact Hgo]. eapply wp_mono; [apply check_ip_arms|done].
    + left. eapply defined_runs; [|exact Hgo]. cbn [client_timer_fires]. unfold user_esp_platform_reconnect. wp_step. wp_step. eapply wp_mono; [apply check_ip_arms|done].
    + destruct (ap_change_or_refused n s) as [Hd|Hr]; [left; by eapply defined_runs|by right].
    + left. eapply defined_runs; [|exact Hgo]. cbn [client_timer_fires]. unfold user_esp_platform_dns_check_cb. by wp_run.
Qed.

(** C4: the cloud client never gives up, except where it hangs.  Whatever the SDK,
    the network and the phone do after start-up, in any order and for any length of
    time, up to a step that is undefined (a message or request that breaks the
    program, a search for an access point that never ends): the device is
    restarting; or the SDK still owes the client the end of a connection, and the
    callback for it, of whichever kind, is defined; or the client's timer is
    set to a function that tries again, and that function is defined when the
    timer fires.  The one exception is the search for an access point
    ([user_esp_platform_ap_change], see [IotCloudLaws.ap_change_spec]), where the
    client may hang: it runs through unless every access point it tries is refused,
    however many it tries.  (The radio is not in access-point mode at start-up.) *)
Theorem demo_goes_on beyond s w' s' c :
  (forall l, u8 (u32 (sdk_ret l wifi_get_opmode)) ≠ SOFTAP_MODE) ->
  runs (user_init beyond) no_waits s w' s' -> rtc (demo_step garbage) (w', s') c -> can_go_on (fst c) (snd c).
Proof.
  intros Hm Hr Hc. assert (H0' : going_on (fst (w', s'))) by (eapply tlp_runs; [by apply init_goes_on|exact Hr]).
  assert (Hb : w_link (fst (w', s')) = true -> conn_tcp (m_cloud (st (snd (w', s')))) ≠ None).
  { refine (blocked_runs _ _ _ _ _ _ Hr _); [apply init_blocked|done]. }
  induction Hc as [c|c1 c2 c3 Hstep _ IH]; [by apply going_on_can|]. apply IH; [by eapply step_goes_on|by eapply step_blocked].
Qed.
End Life.

(** ** The theorem at a concrete input *)

Definition sample_devkey : list Z := chars "0123456789abcdef0123456789abcdef01234567".
Definition sample_param (flag : Z) : esp_platform_saved_param := mk_esp_param sample_devkey sample_devkey flag.
Definition sample_kept : Kept :=
  mk_kept (λ _ _, [24; 254; 52; 1; 2; 3]) (λ _ _, esp_param_bytes (sample_param 1)) (λ _ _ _, replicate 16 0).
Definition sample_state : ConnState := λ _ _, 0.
Definition sample_peer : Peer := λ _, ([192; 168; 4; 2], 1025).

Lemma demo_starts : exists s', @user_init lamp (lamp_flash orange) sample_kept (replicate 12 0) (mk_sys [] ∅ demo_initial) = Some (tt, s').
Proof. eexists. vm_compute. reflexivity. Defined.

Lemma demo_goes_on_witness :
  exists s', @user_init lamp (lamp_flash orange) sample_kept (replicate 12 0) (mk_sys [] ∅ demo_initial) = Some (tt, s') /\
    @can_go_on lamp (wait_all no_waits (log s')) s'.
Proof.
  destruct demo_starts as [s' E]. exists s'. split; [exact E|].
  apply (@demo_goes_on lamp (lamp_flash orange) sample_kept sample_json sample_station sample_state sample_peer false (replicate 12 0)
    (mk_sys [] ∅ demo_initial) (wait_all no_waits (log s')) s' (wait_all no_waits (log s'), s')).
  - intros l. vm_compute. discriminate.
  - split; [exact E|]. exists (log s'). split; reflexivity.
  - apply rtc_refl.
Defined.
