(* ===== verification/IotCloudLaws.v ===== *)
(** * IotCloudLaws: what the cloud client of the IoT demo does

    Theorems about IotCloud.v on the whole program's state (IotMain.v): the
    messages sent, what a message from the cloud leads to, losing the connection,
    changing the access point, and the messages that break the client. *)

From Stdlib Require Import String.
From stdpp Require Import gmap relations.
From S2P Require Import Prelude CMem CString Board UartDriver SmartConfig TcpClient UdpServer Wifi MqttConfig IotLight IotTimer IotControl IotHttp IotJson IotWeb IotCloud IotMain.
Local Open Scope string_scope.
Local Open Scope Z_scope.
Local Open Scope sm_scope.
Local Open Scope list_scope.

(** The saved parameters are as long as they must be. *)
Definition good_keys (p : esp_platform_saved_param) : Prop := length (devkey p) = 40%nat /\ length (token_ p) = 40%nat.
(** The SDK's addresses are six bytes. *)
Definition good_macs `{Kept} : Prop := forall l i, Forall is_byte (macaddr l i) /\ length (macaddr l i) = 6%nat.

Section Laws.
Context `{EV : Env} `{PW : !Pwm} `{KE : Kept} (Hmac : good_macs).
Implicit Types s : sys demo.

Definition param s : esp_platform_saved_param := esp_param (m_json (st s)).
Definition not_active s : bool := (activeflag (param s) =? 0) || (activeflag (param s) =? 0xFF).

Lemma send_packet_ok c f s (Q : unit -> sys demo -> Prop) : clean 2047 f ->
  Q tt (mk_sys (log s ++ [Do (os_printf "%s\n"); Do (espconn_sent c f)]) (mem s) (st s)) -> wp (send_packet c f) s Q.
Proof.
  intros Hf HQ. unfold send_packet. apply wp_bind. eapply wp_lift; [by apply packet_ok|]. wp_run. by rewrite <- app_assoc.
Qed.

(** What is sent first: a device without activation asks for it, with its token
    and a new nonce, which it remembers; an activated one names itself. *)
Record introduced c s s' : Prop := {
  in_log : exists k f, log s' = log s ++ k ++ [Do (os_printf "%s\n"); Do (espconn_sent c f)] /\ (forall t, armed t (log s ++ k) = armed t (log s)) /\
    if not_active s
    then exists l i, f = ACTIVE_FRAME (active_nonce (cloud s')) (key (token_ (param s))) (macaddr l i) iot_version (key (devkey (param s)))
    else exists nonce, f = FIRST_FRAME nonce (key (devkey (param s)));
  in_st : if not_active s
    then exists n, 0 <= n < 2147483648 /\
      st s' = (st s) <| m_json := (m_json (st s)) <| esp_param := (param s) <| activeflag := 0 |> |> |>
                     <| m_cloud := (cloud s) <| active_nonce := n |> |>
    else st s' = st s }.

Lemma random_range r : 0 <= Z.land r 0x7FFFFFFF < 2147483648.
Proof. change 0x7FFFFFFF with (Z.ones 31). rewrite (land_ones_mod r 31) by lia. apply Z.mod_pos_bound. lia. Qed.

Lemma armed_got t l c v : armed t (l ++ [Got c v]) = armed t l.
Proof. by rewrite armed_snoc. Qed.

Lemma sent_ok c s (Q : unit -> sys demo -> Prop) : good_keys (param s) ->
  (forall s', introduced c s s' -> Q tt s') -> wp (user_esp_platform_sent c) s Q.
Proof.
  intros [Hd Ht] HQ. destruct (key_string_ok _ Hd) as [Ed Cd], (key_string_ok _ Ht) as [Et Ct].
  unfold user_esp_platform_sent. wp_step. wp_step. apply wp_bind. eapply wp_lift; [exact Ed|].
  assert (Hin : forall s1, (log s1 = log s /\ mem s1 = mem s /\ devkey (param s1) = devkey (param s) /\ token_ (param s1) = token_ (param s) /\
      (activeflag (param s1) = 0 <-> not_active s = true) /\
      (if not_active s then st s1 = (st s) <| m_json := (m_json (st s)) <| esp_param := (param s) <| activeflag := 0 |> |> |> else st s1 = st s)) ->
    wp (p <- pvar esp_param ;;
        if activeflag p =? 0 then
          r <- ask os_random ;;
          pmodify (λ v, v <| active_nonce := Z.land r 0x7FFFFFFF |>) ;;
          token <- slift (key_string (token_ p)) ;;
          l <- sget log ;; call (wifi_get_macaddr STATION_IF) ;;
          nonce <- pvar active_nonce ;;
          send_packet c (ACTIVE_FRAME nonce token (macaddr l STATION_IF) iot_version (key (devkey (param s))))
        else r <- ask os_random ;; send_packet c (FIRST_FRAME (Z.land r 0x7FFFFFFF) (key (devkey (param s))))) s1 Q).
  { intros s1 (El & Em & Edk & Etk & Ha & Est). do 2 wp_step. fold (param s1). destruct (Z.eqb_spec (activeflag (param s1)) 0) as [E0|E0].
    - assert (Hn : not_active s = true) by (by apply Ha). rewrite Hn in Est. rewrite Etk. do 4 wp_step. apply wp_bind. eapply wp_lift; [exact Et|]. wp_run.
      set (r := Z.land _ _). destruct (Hmac (log s1 ++ [Got os_random (u32 (sdk_ret (log s1) os_random))]) STATION_IF) as [Hb Hl].
      apply send_packet_ok; [by apply clean_active|]. apply HQ. cbn [log mem st]. constructor; cbn [log mem st]; rewrite Hn.
      + exists [Got os_random (u32 (sdk_ret (log s1) os_random)); Do (wifi_get_macaddr STATION_IF)]. eexists. split; [by rewrite El, <- !app_assoc|].
        split; [|by eexists _, _]. intros t. change [?a; ?b] with ([a] ++ [b]). by rewrite app_assoc, !armed_snoc.
      + exists r. split; [apply random_range|]. by rewrite Est.
    - assert (Hn : not_active s = false) by (destruct (not_active s); [by destruct E0; apply Ha|done]). rewrite Hn in Est. wp_run.
      apply send_packet_ok; [by apply clean_first|]. apply HQ. cbn [log mem st]. constructor; cbn [log mem st]; rewrite Hn; [|done].
      exists [Got os_random (u32 (sdk_ret (log s1) os_random))]. eexists. split; [by rewrite El, <- !app_assoc|]. split; [|by eexists].
      intros t. by rewrite armed_snoc. }
  fold (param s). apply wp_bind. unfold not_active in *. destruct (Z.eqb_spec (activeflag (param s)) 255) as [E|E].
  - apply wp_pmodify. apply Hin. cbn [log mem st]. rewrite orb_true_r. by split_and!.
  - apply wp_ret. apply Hin. split_and!; try done; rewrite orb_false_r; [by rewrite Z.eqb_eq|].
    destruct (Z.eqb_spec (activeflag (param s)) 0) as [E0|E0]; [|done]. unfold param in *. destruct (st s) as [? ? [? ? ? ? ? ? ? ? ? ? ? ? ? []] ? ? ? ? ? ?]. cbn in *. by subst.
Qed.

(** ** Reading a message *)

(** The buffer with a message in it. *)
Definition with_message (msg : list Z) : list Z := msg ++ replicate (2048 - length msg) 0.

(** A message that arrives in one piece is looked at, and then forgotten; the
    next beacon is due in 50 seconds. *)
Lemma recv_ok msg more s (Q : unit -> sys demo -> Prop) :
  clean 2047 msg -> zlen msg ≠ 1460 -> pbuffer (cloud s) = zero_buffer ->
  (forall s1, log s1 = log s ++ [Do (os_printf "user_esp_platform_recv_cb %s\n"); Do (os_timer_disarm beacon_timer)] -> mem s1 = mem s ->
     st s1 = (st s) <| m_cloud := (cloud s) <| pbuffer := with_message msg |> |> ->
     wp (recv_message (with_message msg) (msg ++ more)) s1 (λ _ s2,
       Q tt (mk_sys (log s2 ++ [Do (os_timer_arm beacon_timer BEACON_TIME 0)]) (mem s2)
               ((st s2) <| m_cloud := (cloud s2) <| pbuffer := zero_buffer |> |>)))) ->
  wp (user_esp_platform_recv_cb (msg ++ more) (zlen msg)) s Q.
Proof.
  intros [H0 Hz] Hn Hb HQ. pose proof (zlen_nonneg msg). pose proof (zlen_nonneg more). unfold user_esp_platform_recv_cb. wp_run.
  eapply wp_lift; [apply (bslice_drop _ 0 msg more); [zlia|done]|]. wp_run. fold (cloud s). rewrite Hb. zfalse (zlen msg =? 1460).
  apply wp_bind. eapply wp_lift; [reflexivity|]. apply wp_bind. eapply wp_lift.
  { change (zlen []) with 0. unfold zero_buffer. apply bsplice_zeros. cbn. lia. }
  wp_run. eapply wp_mono; [apply HQ|]; cbn [log mem st]; [by rewrite <- app_assoc|done|done|].
  intros [] s2 HQ2. by wp_run.
Qed.

Lemma message_text msg : clean 2047 msg -> string_of (with_message msg) = Some msg.
Proof.
  intros [H0 Hz]. unfold with_message. destruct (2048 - length msg)%nat as [|k] eqn:E; [unfold zlen in Hz; lia|].
  cbn [replicate]. by apply string_of_app.
Qed.

(** A message that is no answer to an activation, and none of the special requests. *)
Definition plain (msg : list Z) : Prop :=
  strstr msg ACTIVATE_KEY = None /\ strstr msg UPGRADE_KEY = None /\ strstr msg REBOOT_KEY = None /\ strstr msg (chars "/v1/device/timers/") = None.

Lemma plain_ok msg data s (Q : unit -> sys demo -> Prop) : clean 2047 msg -> plain msg ->
  wp (match strstr msg METHOD_KEY with
      | Some k => recv_method (with_message msg) msg k
      | None =>
          if found msg (chars "ping success") then
            call (os_printf "ping success\n") ;; pmodify (λ v, v <| ping_status := 1 |>)
          else if found msg (chars "send message success") then sret tt
          else if found msg (chars "timers") then
            s <- slift (cstr data 0) ;; user_platform_timer_start s
          else if found msg (chars "device") then user_platform_timer_get (Some user_conn)
          else sret tt
      end) s Q -> wp (recv_message (with_message msg) data) s Q.
Proof.
  intros Hc (H1 & H2 & H3 & H4) HQ. unfold recv_message. apply wp_bind. eapply wp_lift; [by apply message_text|].
  rewrite H1. unfold recv_other, found at 1 2 3. by rewrite H2, H3, H4.
Qed.

(** ** The lamp *)

(** The method of a request: the four characters after its key. *)
Definition posts (msg : list Z) : Prop := exists k pre rest, strstr msg METHOD_KEY = Some k /\ msg = pre ++ chars "POST" ++ rest /\ zlen pre = k + 11.

Lemma post_read msg k s (Q : unit -> sys demo -> Prop) : posts msg -> strstr msg METHOD_KEY = Some k ->
  wp (user_esp_platform_set_info msg) s Q -> wp (recv_method (with_message msg) msg k) s Q.
Proof.
  intros (k' & pre & rest & Ek' & Emsg & Hz) Ek HQ. rewrite Ek in Ek'. injection Ek' as <-.
  assert (Hd : drop (Z.to_nat (k + 11)) (with_message msg) = chars "POST" ++ rest ++ replicate (2048 - length msg) 0).
  { unfold with_message. rewrite Emsg at 1. rewrite <- Hz, <- !app_assoc. apply drop_zlen_app. }
  unfold recv_method. rewrite Hd. apply wp_bind. apply (wp_lift _ false); [done|]. apply wp_bind. apply (wp_lift _ true); [apply begins_app|exact HQ].
Qed.


(** ** The beacon *)


Definition connected s : Prop := c_state (cloud s) = ESPCONN_CONNECT /\ activeflag (param s) ≠ 0.

(** A beacon when the last one was answered. *)
Lemma beacon_ok s (Q : unit -> sys demo -> Prop) : connected s -> good_keys (param s) -> ping_status (cloud s) ≠ 0 ->
  (forall k, Q tt (mk_sys (log s ++ k ++ [Do (espconn_sent user_conn (BEACON_FRAME (key (devkey (param s))))); Do (os_timer_arm beacon_timer BEACON_TIME 0)])
      (mem s) ((st s) <| m_cloud := (cloud s) <| ping_status := 0 |> |>))) ->
  wp (user_esp_platform_sent_beacon (Some user_conn)) s Q.
Proof.
  intros [Hs Ha] [Hd Ht] Hp HQ. destruct (key_string_ok _ Hd) as [Ed Cd]. unfold user_esp_platform_sent_beacon. do 2 wp_step. fold (cloud s). rewrite Hs, Z.eqb_refl.
  do 2 wp_step. fold (param s). apply Z.eqb_neq in Ha. rewrite Ha. apply wp_bind. eapply wp_lift; [exact Ed|]. do 6 wp_step. fold (cloud s).
  apply Z.eqb_neq in Hp. rewrite Hp. apply wp_bind. eapply wp_lift; [apply packet_ok; by apply clean_beacon|]. wp_run. rewrite <- !app_assoc.
  exact (HQ [_; _]).
Qed.

(** A beacon when the last one was not. *)
Lemma beacon_drops s (Q : unit -> sys demo -> Prop) : connected s -> good_keys (param s) -> ping_status (cloud s) = 0 ->
  (forall k, Q tt (mk_sys (log s ++ k ++ [Do (espconn_disconnect user_conn)]) (mem s) (st s))) ->
  wp (user_esp_platform_sent_beacon (Some user_conn)) s Q.
Proof.
  intros [Hs Ha] [Hd _] Hp HQ. destruct (key_string_ok _ Hd) as [Ed _]. unfold user_esp_platform_sent_beacon, user_esp_platform_discon.
  do 2 wp_step. fold (cloud s). rewrite Hs, Z.eqb_refl. do 2 wp_step. fold (param s). apply Z.eqb_neq in Ha. rewrite Ha.
  apply wp_bind. eapply wp_lift; [exact Ed|]. do 6 wp_step. fold (cloud s). rewrite Hp. cbn [Z.eqb]. wp_run. rewrite <- !app_assoc.
  exact (HQ [_; _; _; _]).
Qed.


(** a silent cloud is dropped.  An activated, connected device sends a ping
    when its beacon timer fires; if "ping success" has not arrived when it fires
    again, the device disconnects, and the end of the connection makes it look
    for the network again: its timer is set. *)
Theorem silent_cloud_dropped s : connected s -> good_keys (param s) -> ping_status (cloud s) = 1 -> conn_tcp (cloud s) ≠ None ->
  wp (user_esp_platform_sent_beacon (Some user_conn)) s (λ _ s1,
    armed beacon_timer (log s1) = true /\
    (exists k, log s1 = log s ++ k ++ [Do (espconn_sent user_conn (BEACON_FRAME (key (devkey (param s))))); Do (os_timer_arm beacon_timer BEACON_TIME 0)]) /\
    wp (user_esp_platform_sent_beacon (Some user_conn)) s1 (λ _ s2,
      (exists k, log s2 = log s1 ++ k ++ [Do (espconn_disconnect user_conn)]) /\
      wp (user_esp_platform_discon_cb (Some user_conn)) s2 (λ _ s3, armed client_timer (log s3) = true))).
Proof.
  intros Hs Hk Hp Ht. apply beacon_ok; [done|done|by rewrite Hp|]. intros k. split; [|split; [by exists k|]].
  { cbn [log]. change [?a; ?b] with ([a] ++ [b]). rewrite !app_assoc. apply armed_last. }
  apply beacon_drops; [done|done|done|]. intros k'. split; [by exists k'|]. by apply discon_arms.
Qed.

(** ** Losing the connection *)

(** What a lost connection or a failed lookup leads to.  The first four
    failures in a row are followed by another try after a second; the fifth opens
    the device's own access point, if it was a station only, reports
    [DEVICE_CONNECT_SERVER_FAIL] and changes the access point after five seconds. *)
Theorem fifth_failure_changes_ap err s : 0 <= device_recon_count (cloud s) <= 4 ->
  wp (user_esp_platform_recon_cb err) s (λ _ s',
    armed beacon_timer (log s') = false /\ device_recon_count (cloud s') = device_recon_count (cloud s) + 1 /\
    if device_recon_count (cloud s) =? 4 then
      device_status (m_json (st s')) = DEVICE_CONNECT_SERVER_FAIL /\
      exists l mode, log s' = l ++ [Got wifi_get_opmode mode] ++ (if u8 mode =? STATION_MODE then [Do (wifi_set_opmode STATIONAP_MODE)] else []) ++
        [Do (os_timer_disarm client_timer); Do (os_timer_setfn client_timer fp_platform_ap_change); Do (os_timer_arm client_timer 5000 0)]
    else
      device_status (m_json (st s')) = device_status (m_json (st s)) /\
      exists l, log s' = l ++ [Do (os_timer_disarm client_timer); Do (os_timer_setfn client_timer fp_platform_reconnect); Do (os_timer_arm client_timer 1000 0)]).
Proof.
  intros Hn. unfold user_esp_platform_recon_cb, fifth_failure. wp_run. fold (cloud s). rewrite u8_small by lia.
  assert (Hoff : forall l f ms, armed beacon_timer (((l ++ [Do (os_timer_disarm client_timer)]) ++ [Do (os_timer_setfn client_timer f)]) ++ [Do (os_timer_arm client_timer ms 0)]) = armed beacon_timer l).
  { intros. by rewrite !armed_snoc. }
  assert (H1 : armed beacon_timer ((log s ++ [Do (os_printf "user_esp_platform_recon_cb\n")]) ++ [Do (os_timer_disarm beacon_timer)]) = false) by (by rewrite !armed_snoc).
  destruct (Z.eqb_spec (device_recon_count (cloud s)) 4) as [E|E].
  - rewrite E. change (4 + 1 =? 5) with true. cbv iota. unfold user_esp_platform_reset_mode, set_client_timer. wp_run. set (mode := u32 _).
    destruct (u8 mode =? STATION_MODE) eqn:Em; cbn [swhen]; wp_run; cbn [log st cloud m_cloud m_json device_recon_count device_status]; rewrite Hoff;
      (split; [rewrite ?armed_snoc; reflexivity|]); (split; [done|]); (split; [done|]); exists (log s ++ [Do (os_printf "user_esp_platform_recon_cb\n"); Do (os_timer_disarm beacon_timer)]), mode;
      rewrite Em, <- !app_assoc; reflexivity.
  - zfalse (device_recon_count (cloud s) + 1 =? 5). wp_run. unfold set_client_timer. wp_run.
    rewrite Hoff. split; [exact H1|]. split; [done|]. split; [done|].
    exists (log s ++ [Do (os_printf "user_esp_platform_recon_cb\n"); Do (os_timer_disarm beacon_timer)]). rewrite <- !app_assoc. reflexivity.
Qed.

(** ** Changing the access point *)

(** Which of the cached access points can be joined, as long as this search lasts. *)
Definition joins (J : Z -> bool) : Prop := forall l i, (u8 (u32 (sdk_ret l (wifi_station_ap_change i))) =? 1) = J i.

Lemma search_finds J n i s : joins J -> (exists k, (k < n)%nat /\ J (Nat.iter k next_ap i) = true) ->
  wp (ap_search n i) s (λ _ s', st s' = st s).
Proof.
  intros HJ. revert i s. induction n as [|n IH]; intros i s (k & Hk & HJk); [lia|]. cbn [ap_search]. apply wp_bind, wp_ask. rewrite HJ.
  destruct (J i) eqn:E; [by apply wp_ret|]. destruct k as [|k]; [cbn in HJk; congruence|]. fold (next_ap i).
  eapply wp_mono; [apply (IH (next_ap i))|].
  - exists k. split; [lia|]. by rewrite <- Nat.iter_succ_r.
  - cbv beta. by intros [] s' ->.
Qed.
Lemma search_fails J n i s : joins J -> (forall k, J (Nat.iter k next_ap i) = false) -> ap_search (X := demo) n i s = None.
Proof.
  intros HJ. revert i s. induction n as [|n IH]; intros i s Hn; [done|]. cbn [ap_search]. unfold ask.
  erewrite run_bind by reflexivity. rewrite HJ. pose proof (Hn 0%nat) as E0. cbn in E0. rewrite E0. fold (next_ap i). apply IH. intros k. specialize (Hn (S k)). by rewrite Nat.iter_succ_r in Hn.
Qed.

(** From any of the five but the fourth, the search goes round the first four and never reaches the last. *)
Lemma next_ap_small i : 0 <= i <= 3 -> 0 <= next_ap i <= 3.
Proof. intros Hi. unfold next_ap, AP_CACHE_NUMBER. rewrite u8_small by lia. zbool; lia. Qed.
Lemma next_ap_iter k i : 0 <= i <= 3 -> 0 <= Nat.iter k next_ap i <= 3.
Proof. intros Hi. induction k as [|k IH]; [done|]. by apply next_ap_small. Qed.
Lemma next_ap_covers i j : 0 <= i <= 3 -> 0 <= j <= 3 -> exists k, (k < 4)%nat /\ Nat.iter k next_ap i = j.
Proof.
  intros Hi Hj.
  assert (i = 0 \/ i = 1 \/ i = 2 \/ i = 3) as [-> | [-> | [-> | ->]]] by lia;
    assert (j = 0 \/ j = 1 \/ j = 2 \/ j = 3) as [-> | [-> | [-> | ->]]] by lia;
    first [exists 0%nat; by split; [lia|]|exists 1%nat; by split; [lia|]|exists 2%nat; by split; [lia|]|exists 3%nat; by split; [lia|]].
Qed.

(** C25: changing the access point.  From any of the five cached access points but
    the fourth: if one of the first four can be joined, the search finds one
    within four tries and the device looks for its address after 100 ms; if none
    of them can, also when the fifth could, the loop never ends: no number of rounds is
    enough. *)
Theorem ap_change_spec J current s : joins J -> 0 <= current <= 4 -> current ≠ 3 ->
  (forall l, u8 (u32 (sdk_ret l wifi_station_get_current_ap_id)) = current) ->
  if J 0 || J 1 || J 2 || J 3
  then wp (user_esp_platform_ap_change 4) s (λ _ s', device_recon_count (cloud s') = 0 /\
    exists l, log s' = l ++ [Do (os_timer_setfn client_timer (fp_platform_check_ip 0)); Do (os_timer_arm client_timer 100 0)])
  else forall rounds, user_esp_platform_ap_change (X := demo) rounds s = None.
Proof.
  intros HJ Hc H3 Hcur. assert (Hf : 0 <= first_ap current <= 3).
  { unfold first_ap, AP_CACHE_NUMBER. change (5 - 1) with 4. destruct (Z.eqb_spec current 4); [lia|]. rewrite u8_small by lia. lia. }
  destruct (J 0 || J 1 || J 2 || J 3) eqn:EJ.
  - assert (Hj : exists j, 0 <= j <= 3 /\ J j = true).
    { apply orb_true_iff in EJ as [EJ|EJ]; [|by exists 3]. apply orb_true_iff in EJ as [EJ|EJ]; [|by exists 2].
      apply orb_true_iff in EJ as [EJ|EJ]; [by exists 0|by exists 1]. }
    destruct Hj as (j & Hj & Jj). destruct (next_ap_covers _ _ Hf Hj) as (k & Hk & Ek).
    unfold user_esp_platform_ap_change. do 7 wp_step. rewrite Hcur. fold (first_ap current).
    eapply wp_mono; [apply (search_finds J); [done|exists k; by rewrite Ek]|]. cbv beta. intros [] s' _. unfold set_client_timer. wp_run.
    split; [done|]. eexists. by rewrite <- app_assoc.
  - intros rounds. unfold user_esp_platform_ap_change. erewrite run_bind by reflexivity. unfold ask at 1. erewrite run_bind by reflexivity. cbv zeta.
    erewrite run_bind by reflexivity. cbn [log mem st]. rewrite Hcur. fold (first_ap current). unfold sbind at 1.
    rewrite (search_fails J); [done|done|]. intros k. pose proof (next_ap_iter k _ Hf) as Hk.
    apply orb_false_iff in EJ as [EJ ?]. apply orb_false_iff in EJ as [EJ ?]. apply orb_false_iff in EJ as [? ?].
    assert (Nat.iter k next_ap (first_ap current) = 0 \/ Nat.iter k next_ap (first_ap current) = 1 \/ Nat.iter k next_ap (first_ap current) = 2 \/
      Nat.iter k next_ap (first_ap current) = 3) as [-> | [-> | [-> | ->]]] by lia; done.
Qed.

(** ** Activation *)

(** C24: the device is activated once.  The answer "activate_status": 1 to the
    request with the device's last nonce makes it save its parameters with the
    flag set, name itself to the cloud and restart.  The answer comes in one piece
    of at most 2047 characters and not of exactly 1460 (which the code takes for the
    first part of a longer one), no earlier part waits in the buffer, and the strings
    of the stored keys end within their arrays ([good_keys]). *)
Theorem activation_saved msg more k pre rest n s :
  clean 2047 msg -> zlen msg ≠ 1460 -> pbuffer (cloud s) = zero_buffer -> good_keys (param s) ->
  strstr msg ACTIVATE_KEY = Some k -> msg = pre ++ chars "1" ++ rest -> zlen pre = k + 19 ->
  user_esp_platform_parse_nonce msg = Some n -> u32 n = active_nonce (cloud s) ->
  wp (user_esp_platform_recv_cb (msg ++ more) (zlen msg)) s (λ _ s',
    param s' = (param s) <| activeflag := 1 |> /\ device_status (m_json (st s')) = DEVICE_ACTIVE_DONE /\ pbuffer (cloud s') = zero_buffer /\
    exists k1 k2 nonce, log s' = log s ++ k1 ++ [Do (system_param_save_with_protect ESP_PARAM_START_SEC (esp_param_bytes ((param s) <| activeflag := 1 |>)))]
      ++ k2 ++ [Do (os_printf "%s\n"); Do (espconn_sent user_conn (FIRST_FRAME nonce (key (devkey (param s))))); Do system_restart;
                Do (os_timer_arm beacon_timer BEACON_TIME 0)]).
Proof.
  intros Hc Hn Hb Hk Ek Emsg Hz En Hact. apply recv_ok; [done|done|done|]. intros s1 El Em Est. unfold recv_message.
  apply wp_bind. eapply wp_lift; [by apply message_text|]. rewrite Ek. apply wp_bind. eapply wp_lift; [exact En|]. wp_step. wp_step.
  assert (E1 : active_nonce (m_cloud (st s1)) = active_nonce (cloud s)) by (by rewrite Est). rewrite E1, <- Hact, Z.eqb_refl.
  assert (Hd : drop (Z.to_nat (k + 19)) (with_message msg) = chars "1" ++ rest ++ replicate (2048 - length msg) 0).
  { unfold with_message. rewrite Emsg at 1. rewrite <- Hz, <- !app_assoc. apply drop_zlen_app. }
  unfold recv_activate. rewrite Hd. apply wp_bind. apply (wp_lift _ true); [apply begins_app|]. cbv iota. unfold save_esp_param. wp_run.
  assert (Ep : esp_param (m_json (st s1)) = param s) by (by rewrite Est). rewrite Ep.
  set (s3 := mk_sys _ _ _). assert (Hp3 : param s3 = (param s) <| activeflag := 1 |>) by done.
  assert (Hd3 : device_status (m_json (st s3)) = DEVICE_ACTIVE_DONE) by done.
  assert (Hna : not_active s3 = false) by done.
  apply sent_ok; [by rewrite Hp3|]. intros s2 [(k2 & f & El2 & _ & Hf) Hst2].
  rewrite Hna in Hf, Hst2. destruct Hf as (nonce & ->). rewrite Hp3 in El2. wp_run. unfold param, cloud. cbn [st m_json m_cloud set_field].
  rewrite Hst2. split; [done|]. split; [done|]. split; [done|].
  exists [Do (os_printf "user_esp_platform_recv_cb %s\n"); Do (os_timer_disarm beacon_timer); Do (os_printf "device activates successful.\n")], k2, nonce.
  cbn [log]. rewrite El2. unfold s3. cbn [log]. rewrite El, <- !app_assoc. reflexivity.
Qed.

(** ** What breaks the client *)

Lemma lp_never {A} (m : F demo A) s : lp m s (λ _ _, False) -> m s = None.
Proof. intros Hm. destruct (m s) as [[a s']|] eqn:E; [|done]. by destruct (Hm a s'). Qed.

Ltac lp_step' :=
  lazymatch goal with
  | |- lp (sbind _ _) _ _ => apply lp_bind
  | |- lp (pvar _) _ _ => apply lp_pvar
  | |- lp (pmodify _) _ _ => apply lp_pmodify
  | |- lp (call _) _ _ => apply lp_call
  | |- lp (ask _) _ _ => apply lp_ask
  | |- lp (sret _) _ _ => apply lp_ret
  | |- lp (sget _) _ _ => apply lp_get
  end;
  cbn [log mem st part set_part demo_json demo_cloud set_field m_json m_cloud pbuffer esp_param].

(** A long message breaks the client.  A segment of 1460 bytes is kept for the
    next one, in a buffer of 2048 bytes; if that next one has more than 588
    bytes, it is written past the end of the buffer. *)
Theorem long_message_overflows first second n s :
  zlen first = 1460 -> no_char 0 first -> pbuffer (cloud s) = zero_buffer -> 588 < n -> n ≠ 1460 ->
  wp (user_esp_platform_recv_cb first 1460) s (λ _ s1, user_esp_platform_recv_cb second n s1 = None).
Proof.
  intros Hz H0 Hb Hn H1460. unfold user_esp_platform_recv_cb at 1. wp_run.
  eapply wp_lift; [rewrite <- Hz; apply (bslice_drop first 0 first []); [zlia|by rewrite app_nil_r]|]. wp_run. fold (cloud s). rewrite Hb.
  change (1460 =? 1460) with true. cbv iota. apply wp_bind. eapply wp_lift; [unfold zero_buffer; apply bsplice_zeros; cbn; lia|]. wp_run.
  assert (Hl : length first = 1460%nat) by (unfold zlen in Hz; lia). rewrite Hl. change (2048 - 1460)%nat with 588%nat.
  apply lp_never. unfold user_esp_platform_recv_cb. repeat lp_step'. apply lp_lift. intros data Hdata. apply bslice_inv in Hdata as (_ & _ & _ & Hdata).
  repeat lp_step'. zfalse (n =? 1460). apply lp_bind, lp_lift. intros t Ht. change (replicate 588 0) with (0 :: replicate 587 0) in Ht.
  rewrite string_of_app in Ht by done. injection Ht as <-. apply lp_bind, lp_lift. intros b Hs.
  apply bsplice_inv in Hs as (_ & Hs & _). exfalso. rewrite zlen_app, Hz in Hs. change (zlen (replicate 588 0)) with 588 in Hs.
  rewrite Hdata, zlen_tab in Hs. lia.
Qed.

(** The name "user1.bin" or "user2.bin" with its zero does not fit the array of nine. *)
Lemma user_bin_overflows b s : (b = 0 \/ b = 1) -> (forall l, u8 (u32 (sdk_ret l system_upgrade_userbin_check)) = b) ->
  lp (user_bin_name (X := demo)) s (λ _ _, False).
Proof.
  intros Hb Hl. unfold user_bin_name. do 2 lp_step'. rewrite Hl. destruct Hb as [-> | ->].
  - apply lp_lift. intros a Ha. vm_compute in Ha. discriminate Ha.
  - cbn [Z.eqb]. do 2 lp_step'. rewrite Hl. cbn [Z.eqb Pos.eqb]. apply lp_lift. intros a Ha. vm_compute in Ha. discriminate Ha.
Qed.

(** An upgrade by the cloud breaks the client.  Every message that asks for a
    firmware upgrade and names a version makes the device copy the ten bytes of
    the image's name into an array of nine. *)
Theorem upgrade_request_overflows msg more k b s :
  clean 2047 msg -> zlen msg ≠ 1460 -> pbuffer (cloud s) = zero_buffer -> strstr msg ACTIVATE_KEY = None ->
  found msg UPGRADE_KEY = true -> strstr msg VERSION_KEY = Some k ->
  (b = 0 \/ b = 1) -> (forall l, u8 (u32 (sdk_ret l system_upgrade_userbin_check)) = b) ->
  user_esp_platform_recv_cb (msg ++ more) (zlen msg) s = None.
Proof.
  intros Hc Hn Hb HA HU HV Hbin Hl. pose proof Hc as [H0 Hz]. apply lp_never. unfold user_esp_platform_recv_cb. repeat lp_step'.
  apply lp_lift. intros data Hdata. rewrite (bslice_drop _ 0 msg more) in Hdata by (done || (pose proof (zlen_nonneg msg); pose proof (zlen_nonneg more); zlia)).
  injection Hdata as <-. repeat lp_step'. fold (cloud s). rewrite Hb. zfalse (zlen msg =? 1460). apply lp_bind, lp_lift. intros t Ht.
  assert (t = []) as -> by (by injection Ht as <-). change (zlen []) with 0. apply lp_bind, lp_lift. intros b1 Hb1.
  unfold zero_buffer in Hb1. rewrite bsplice_zeros in Hb1 by (cbn; lia). injection Hb1 as <-. fold (with_message msg). repeat lp_step'.
  unfold recv_message. apply lp_bind, lp_lift. intros t Ht'. rewrite message_text in Ht' by done. injection Ht' as <-. rewrite HA.
  unfold recv_other. rewrite HU. unfold recv_upgrade. rewrite HV. apply lp_bind, lp_lift. intros nonce _. apply lp_bind.
  eapply lp_mono; [exact (λ _ _ _, I)|]. intros _ s1 _. apply lp_bind, lp_lift. intros v1 _. apply lp_bind, lp_lift. intros v2 _. apply lp_bind, lp_lift. intros pre _.
  unfold user_esp_platform_upgrade_begin. repeat lp_step'. apply lp_lift. intros devkey _. repeat lp_step'. apply lp_lift. intros tcp _. cbv zeta.
  apply lp_bind. eapply lp_mono; [by apply (user_bin_overflows b)|]. by intros.
Qed.

(** ** Where the client waits for ever *)

(** C31: a cloud that says nothing stops the client.  From the answer of the name
    server to the end of [connect_cb] neither of the client's timers is set: it
    sends its first message, and if nothing comes back on a connection that stays
    open, nothing of the client ever runs again. *)
Theorem quiet_server_stalls addr t s : addr ≠ 0 -> esp_server_ip (cloud s) = 0 -> conn_tcp (cloud s) = Some t -> good_keys (param s) ->
  armed beacon_timer (log s) = false ->
  wp (user_esp_platform_dns_found (Some addr)) s (λ _ s1,
    (exists l, log s1 = l ++ [Do (espconn_connect user_conn (le_bytes addr))]) /\
    wp user_esp_platform_connect_cb s1 (λ _ s2,
      (exists l f, log s2 = l ++ [Do (espconn_sent user_conn f)]) /\
      armed client_timer (log s2) = false /\ armed beacon_timer (log s2) = false)).
Proof.
  intros Ha Hip Ht Hk Hb. apply Z.eqb_neq in Ha. unfold user_esp_platform_dns_found. wp_run. fold (cloud s). rewrite Hip, Ha. cbn [Z.eqb andb negb swhen].
  unfold set_tcp, the_tcp, user_esp_platform_connect. wp_run. fold (cloud s). rewrite Ht. eapply wp_lift; [done|]. wp_run. eapply wp_lift; [done|]. wp_run.
  eapply wp_lift; [done|]. wp_run. eapply wp_lift; [done|]. wp_run. split; [by eexists|].
  unfold user_esp_platform_connect_cb.
  assert (Hsend : forall s2, armed client_timer (log s2) = false -> armed beacon_timer (log s2) = false -> param s2 = param s ->
    wp (user_esp_platform_sent user_conn) s2 (λ _ s3, (exists l f, log s3 = l ++ [Do (espconn_sent user_conn f)]) /\
      armed client_timer (log s3) = false /\ armed beacon_timer (log s3) = false)).
  { intros s2 H1 H2 Hp. apply sent_ok; [by rewrite Hp|]. intros s3 [(k & f & El & Harm & _) _].
    rewrite El. change [?a; ?b] with ([a] ++ [b]). rewrite !app_assoc, !armed_snoc. cbn [armed_step]. rewrite !Harm. split; [by eexists _, f|done]. }
  wp_run. match goal with |- wp (swhen ?b _) _ _ => destruct b; cbn [swhen] end; wp_run; (apply Hsend; [| |done]); cbn [log]; rewrite !armed_snoc; cbn [armed_step];
    (reflexivity || exact Hb).
Qed.

(** A device that is not activated asks once more, and stops.  When the beacon
    timer fires before the activation was answered, the request is sent again
    with a new nonce, but the timer is not: unless the cloud answers, nothing of
    the client runs again. *)
Theorem unactivated_beacon_stalls s : c_state (cloud s) = ESPCONN_CONNECT -> activeflag (param s) = 0 -> good_keys (param s) ->
  armed beacon_timer (log s) = false ->
  wp (user_esp_platform_sent_beacon (Some user_conn)) s (λ _ s', armed beacon_timer (log s') = false /\ armed client_timer (log s') = armed client_timer (log s) /\
    exists l i k, log s' = log s ++ k ++ [Do (espconn_sent user_conn (ACTIVE_FRAME (active_nonce (cloud s')) (key (token_ (param s))) (macaddr l i) iot_version (key (devkey (param s)))))]).
Proof.
  intros Hs Ha Hk Hb. unfold user_esp_platform_sent_beacon. do 2 wp_step. fold (cloud s). rewrite Hs, Z.eqb_refl. do 2 wp_step. fold (param s).
  rewrite Ha. change (0 =? 0) with true. cbv iota. wp_run. set (s1 := mk_sys _ _ _). assert (Hp : param s1 = param s) by done.
  assert (Hna : not_active s1 = true) by (unfold not_active; by rewrite Hp, Ha).
  apply sent_ok; [by rewrite Hp|]. intros s2 [(k & f & El & Harm & Hf) _]. rewrite Hna in Hf. destruct Hf as (l & i & ->). rewrite Hp in *.
  assert (E : forall t, armed t (log s2) = armed t (log s)).
  { intros t. rewrite El. change [?a; ?b] with ([a] ++ [b]). rewrite !app_assoc, !armed_snoc. cbn [armed_step]. rewrite Harm. unfold s1. cbn [log]. by rewrite armed_snoc. }
  rewrite !E. split; [done|]. split; [done|]. exists l, i, ([Do (os_printf "please check device is activated.\n")] ++ k ++ [Do (os_printf "%s\n")]).
  rewrite El. unfold s1. cbn [log]. by rewrite <- !app_assoc.
Qed.
End Laws.

(** ** The theorems at concrete inputs *)

Lemma sample_macs : @good_macs sample_kept.
Proof. intros l i. split; [bytes_tac|reflexivity]. Defined.

Definition cloud_request : list Z :=
  [123] ++ LIGHT_PATH ++ chars "," ++ METHOD_KEY ++ quoted "POST" ++ chars "," ++ NONCE_KEY ++ chars "7," ++ quoted "body" ++ chars ": " ++
  control_text 1000 22222 0 50 300 (quoted "at" ++ chars ": 1") ++ chars "}}" ++ chars "}".

Ltac clean_tac := split; [apply (proj2 (List.Forall_forall _ _)); intros ? Hin; vm_compute in Hin; intuition (subst; discriminate)|vm_compute; congruence].


(** A state of the client: the flag of the device, the answer to the last ping, a connection. *)
Definition client (flag ping nonce : Z) : demo :=
  demo_initial <| m_json := json_initial <| esp_param := sample_param flag |> |>
    <| m_cloud := cloud_initial <| conn_tcp := Some (mk_esp_tcp 0 8000 [1; 2; 3; 4]) |> <| c_state := ESPCONN_CONNECT |> <| ping_status := ping |> <| active_nonce := nonce |> |>.
Definition running_client (flag ping nonce : Z) : sys demo := mk_sys [] ∅ (client flag ping nonce).

Lemma silent_cloud_dropped_witness :
  wp (@user_esp_platform_sent_beacon lamp sample_kept demo _ _ (Some user_conn)) (running_client 1 1 0) (λ _ s1,
    armed beacon_timer (log s1) = true /\
    wp (@user_esp_platform_sent_beacon lamp sample_kept demo _ _ (Some user_conn)) s1 (λ _ s2,
      exists k, log s2 = log s1 ++ k ++ [Do (espconn_disconnect user_conn)])).
Proof.
  destruct (@silent_cloud_dropped lamp sample_kept (running_client 1 1 0)) as ([] & s1 & E1 & Ha & _ & [] & s2 & E2 & Hk & _).
  - split; [reflexivity|discriminate].
  - split; reflexivity.
  - reflexivity.
  - discriminate.
  - exists tt, s1. split; [exact E1|]. split; [exact Ha|]. exists tt, s2. split; [exact E2|exact Hk].
Defined.

Lemma fifth_failure_changes_ap_witness :
  wp (@user_esp_platform_recon_cb lamp demo _ _ (-11)) (mk_sys [] ∅ (demo_initial <| m_cloud := cloud_initial <| device_recon_count := 4 |> |>)) (λ _ s',
    device_status (m_json (st s')) = DEVICE_CONNECT_SERVER_FAIL).
Proof.
  destruct (@fifth_failure_changes_ap lamp (-11) (mk_sys [] ∅ (demo_initial <| m_cloud := cloud_initial <| device_recon_count := 4 |> |>))) as ([] & s' & E & _ & _ & Hs & _).
  - vm_compute. split; discriminate.
  - exists tt, s'. split; [exact E|exact Hs].
Defined.

(** Only the third access point, then only the fifth, can be joined. *)
Definition one_ap (j : Z) : Env := mk_env (λ _ _, 0) (λ _ c, match c with wifi_station_ap_change i => if i =? j then 1 else 0 | _ => 0 end).
Lemma one_ap_joins j : @joins (one_ap j) (λ i, i =? j).
Proof. intros l i. cbn. by destruct (i =? j). Qed.

Lemma ap_change_spec_witness :
  wp (@user_esp_platform_ap_change (one_ap 2) demo _ 4) (mk_sys [] ∅ demo_initial) (λ _ s', exists l,
    log s' = l ++ [Do (os_timer_setfn client_timer (fp_platform_check_ip 0)); Do (os_timer_arm client_timer 100 0)]) /\
  (forall rounds, @user_esp_platform_ap_change (one_ap 4) demo _ rounds (mk_sys [] ∅ demo_initial) = None).
Proof.
  split.
  - destruct (@ap_change_spec (one_ap 2) (λ i, i =? 2) 0 (mk_sys [] ∅ demo_initial)) as ([] & s' & E & _ & Hl).
    + apply one_ap_joins.
    + lia.
    + lia.
    + reflexivity.
    + exists tt, s'. split; [exact E|exact Hl].
  - refine (@ap_change_spec (one_ap 4) (λ i, i =? 4) 0 (mk_sys [] ∅ demo_initial) _ _ _ _).
    + apply one_ap_joins.
    + lia.
    + lia.
    + reflexivity.
Defined.

Definition activation : list Z := chars "{" ++ NONCE_KEY ++ chars "5, " ++ ACTIVATE_KEY ++ chars "1}".
Lemma activation_saved_witness :
  wp (@user_esp_platform_recv_cb lamp sample_kept demo _ _ _ _ _ (activation ++ [0]) (zlen activation)) (running_client 0 1 5) (λ _ s',
    activeflag (param s') = 1 /\ device_status (m_json (st s')) = DEVICE_ACTIVE_DONE).
Proof.
  destruct (@activation_saved lamp sample_kept sample_macs activation [0] 13 (take 32 activation) (chars "}") 5 (running_client 0 1 5))
    as ([] & s' & E & Hp & Hd & _).
  - clean_tac.
  - vm_compute. discriminate.
  - reflexivity.
  - split; reflexivity.
  - vm_compute. reflexivity.
  - vm_compute. reflexivity.
  - vm_compute. reflexivity.
  - vm_compute. reflexivity.
  - reflexivity.
  - exists tt, s'. split; [exact E|]. split; [rewrite Hp; reflexivity|exact Hd].
Defined.

Lemma long_message_overflows_witness :
  wp (@user_esp_platform_recv_cb lamp sample_kept demo _ _ _ _ _ (replicate 1460 65) 1460) (running_client 1 1 0) (λ _ s1,
    @user_esp_platform_recv_cb lamp sample_kept demo _ _ _ _ _ (replicate 589 65 ++ [0]) 589 s1 = None).
Proof.
  apply (@long_message_overflows lamp sample_kept (replicate 1460 65) (replicate 589 65 ++ [0]) 589 (running_client 1 1 0)).
  - vm_compute. reflexivity.
  - apply Forall_replicate. discriminate.
  - reflexivity.
  - reflexivity.
  - discriminate.
Defined.

Definition upgrade_message : list Z :=
  chars "{" ++ NONCE_KEY ++ chars "5, " ++ UPGRADE_KEY ++ chars ", " ++ VERSION_KEY ++ chars " " ++ quoted "v1.0.6t45772(a)" ++ chars "}".
Lemma upgrade_request_overflows_witness :
  @user_esp_platform_recv_cb lamp sample_kept demo _ _ _ _ _ (upgrade_message ++ [0]) (zlen upgrade_message) (running_client 1 1 0) = None.
Proof.
  apply (@upgrade_request_overflows lamp sample_kept upgrade_message [0] 38 0 (running_client 1 1 0)).
  - clean_tac.
  - vm_compute. discriminate.
  - reflexivity.
  - vm_compute. reflexivity.
  - vm_compute. reflexivity.
  - vm_compute. reflexivity.
  - left. reflexivity.
  - reflexivity.
Defined.

Lemma quiet_server_stalls_witness :
  wp (@user_esp_platform_dns_found lamp demo _ _ (Some 0x04030201)) (running_client 1 0 0) (λ _ s1,
    wp (@user_esp_platform_connect_cb lamp sample_kept demo _ _) s1 (λ _ s2, armed client_timer (log s2) = false /\ armed beacon_timer (log s2) = false)).
Proof.
  destruct (@quiet_server_stalls lamp sample_kept sample_macs 0x04030201 (mk_esp_tcp 0 8000 [1; 2; 3; 4]) (running_client 1 0 0))
    as ([] & s1 & E1 & _ & [] & s2 & E2 & _ & Ha).
  - discriminate.
  - reflexivity.
  - reflexivity.
  - split; reflexivity.
  - reflexivity.
  - exists tt, s1. split; [exact E1|]. exists tt, s2. split; [exact E2|exact Ha].
Defined.

Lemma unactivated_beacon_stalls_witness :
  wp (@user_esp_platform_sent_beacon lamp sample_kept demo _ _ (Some user_conn)) (running_client 0 1 0) (λ _ s', armed beacon_timer (log s') = false).
Proof.
  destruct (@unactivated_beacon_stalls lamp sample_kept sample_macs (running_client 0 1 0)) as ([] & s' & E & Ha & _).
  - reflexivity.
  - reflexivity.
  - split; reflexivity.
  - reflexivity.
  - exists tt, s'. split; [exact E|exact Ha].
Defined.
