(* ===== verification/SdioSlave.v ===== *)
(** * SdioSlave: the SDIO slave driver (src/examples/at_sdio/driver/sdio_slv.c)

    Five blocks of 2048 bytes carry data to the SDIO host.  They are in two
    linked lists: the blocks to send, of which the first is offered to the host,
    and the free ones, of which the first may be partly filled.  The application
    ([sdio_load_data]) and the interrupt handler ([sdio_slave_isr]) both move
    blocks between the lists.  In the other direction one block takes what the
    host writes; it is handed back when the callback has taken all of it.

    The host acts where interrupts are enabled: [host] says what it does in
    such a window, given the log.  The heap of list nodes and the lists built of
    pointers are modelled as they are. *)

From Stdlib Require Import String.
From stdpp Require Import gmap.
From S2P Require Import Prelude CMem Board UartDriver.
Local Open Scope sm_scope.

(** ** Constants *)

Definition SDIO_TOKEN_SIZE : Z := 0.
Definition RX_BUFFER_SIZE : Z := 2048.
Definition RX_BUFFER_NUM : nat := 5.
Definition TX_BUFFER_SIZE : Z := 2048.
(** include/driver/sdio_slv.h *)
Definition RX_AVAILIBLE : Z := 2.
Definition TX_AVAILIBLE : Z := 1.
Definition INIT_STAGE : Z := 0.
(** include/driver/slc_register.h; [ESP_MAC_5] is not defined. *)
Definition REG_SLC_BASE : Z := 0x60000B00.
Definition SLC_CONF0 : Z := REG_SLC_BASE + 0x0.
Definition SLC_RXLINK_RST : Z := BIT 1.
Definition SLC_TXLINK_RST : Z := BIT 0.
Definition SLC_INT_STATUS : Z := REG_SLC_BASE + 0x8.
Definition SLC_INT_ENA : Z := REG_SLC_BASE + 0xC.
Definition SLC_TX_DSCR_ERR_INT_ENA : Z := BIT 19.
Definition SLC_RX_EOF_INT_ENA : Z := BIT 17.
Definition SLC_TX_EOF_INT_ENA : Z := BIT 15.
Definition SLC_RX_UDF_INT_ENA : Z := BIT 10.
Definition SLC_INT_CLR : Z := REG_SLC_BASE + 0x10.
Definition SLC_RX_LINK : Z := REG_SLC_BASE + 0x24.
Definition SLC_RXLINK_START : Z := BIT 29.
Definition SLC_RXLINK_DESCADDR_MASK : Z := 0x000FFFFF.
Definition SLC_TX_LINK : Z := REG_SLC_BASE + 0x28.
Definition SLC_TXLINK_START : Z := BIT 29.
Definition SLC_TXLINK_DESCADDR_MASK : Z := 0x000FFFFF.
Definition SLC_INTVEC_TOHOST : Z := REG_SLC_BASE + 0x2C.
Definition SLC_RX_DSCR_CONF : Z := REG_SLC_BASE + 0x5C.
Definition SLC_RX_EOF_MODE : Z := BIT 19.
Definition SLC_RX_FILL_MODE : Z := BIT 18.
Definition SLC_TOKEN_NO_REPLACE : Z := BIT 16.
Definition SLC_HOST_CONF_W2 : Z := REG_SLC_BASE + 0x80 + 0x20.
Definition SLC_HOST_INTR_CLR : Z := REG_SLC_BASE + 0x80 + 0x30.
Definition SLC_HOST_INTR_ENA : Z := REG_SLC_BASE + 0x80 + 0x34.
Definition SLC_HOST_TOHOST_BIT0_INT_ENA : Z := BIT 0.
Definition SLC_INTEREST_EVENT : Z :=
  Z.lor (Z.lor (Z.lor SLC_TX_EOF_INT_ENA SLC_RX_EOF_INT_ENA) SLC_RX_UDF_INT_ENA) SLC_TX_DSCR_ERR_INT_ENA.
(** include/ets_sys.h, include/eagle_soc.h *)
Definition ETS_SDIO_INUM : Z := 1.
Definition PERIPHS_IO_MUX_SD_CLK_U : Z := PERIPHS_IO_MUX + 0x1c.
Definition PERIPHS_IO_MUX_SD_DATA0_U : Z := PERIPHS_IO_MUX + 0x20.
Definition PERIPHS_IO_MUX_SD_DATA1_U : Z := PERIPHS_IO_MUX + 0x24.
Definition PERIPHS_IO_MUX_SD_DATA2_U : Z := PERIPHS_IO_MUX + 0x28.
Definition PERIPHS_IO_MUX_SD_DATA3_U : Z := PERIPHS_IO_MUX + 0x2c.
Definition PERIPHS_IO_MUX_SD_CMD_U : Z := PERIPHS_IO_MUX + 0x30.
Definition FUNC_SDCLK : Z := 0.
Definition FUNC_SDDATA0 : Z := 0.
Definition FUNC_SDDATA1 : Z := 0.
Definition FUNC_SDDATA2 : Z := 0.
Definition FUNC_SDDATA3 : Z := 0.
Definition FUNC_SDCMD : Z := 0.

(** ** Data *)

(** What [buf_ptr] of a descriptor points to. *)
Inductive area := tx_area | node_buffer (p : positive).
(** [struct sdio_queue]; the bit fields truncate what is assigned to them. *)
Record sdio_queue := mk_que {
  blocksize : Z; datalen : Z; unused : Z; sub_sof : Z; eof : Z; owner : Z; buf_ptr : option area; next_link_ptr : Z }.
#[export] Instance eta_que : Settable sdio_queue := λ q, mk_que (blocksize q) (datalen q) (unused q) (sub_sof q) (eof q) (owner q) (buf_ptr q) (next_link_ptr q).
Definition u12 (z : Z) : Z := z mod 4096.

(** [struct sdio_slave_status_element], and the word it shares storage with. *)
Record sdio_slave_status := mk_status { wr_busy : Z; rd_empty : Z; comm_cnt : Z; intr_no : Z; rx_length : Z; res : Z }.
#[export] Instance eta_status : Settable sdio_slave_status := λ s, mk_status (wr_busy s) (rd_empty s) (comm_cnt s) (intr_no s) (rx_length s) (res s).
Definition elm_value (w : Z) : sdio_slave_status :=
  mk_status (w mod 2) (w / 2 mod 2) (w / 4 mod 8) (w / 32 mod 8) (w / 256 mod 65536) (w / 16777216 mod 256).
Definition word_value (s : sdio_slave_status) : Z :=
  wr_busy s mod 2 + 2 * (rd_empty s mod 2) + 4 * (comm_cnt s mod 8) + 32 * (intr_no s mod 8) + 256 * (rx_length s mod 65536) +
  16777216 * (res s mod 256).

(** [struct sdio_list]; [tail] is the offset of the pointer in [buffer]. *)
Record sdio_list := mk_list { buffer : list Z; tail : Z; next : option positive }.
#[export] Instance eta_list : Settable sdio_list := λ n, mk_list (buffer n) (tail n) (next n).

(** The static variables; [nodes] are the blocks allocated. *)
Record sdio_vars := mk_sdio {
  tx_buffer : list Z; sdio_recv_data_callback_ptr : option fn;
  pHead_ToSend : option positive; pTail_ToSend : option positive; pHead_Sended : option positive; pTail_Sended : option positive;
  rx_que : sdio_queue; tx_que : sdio_queue; has_read : bool; nodes : gmap positive sdio_list }.
#[export] Instance eta_sdio : Settable sdio_vars := λ v, mk_sdio (tx_buffer v) (sdio_recv_data_callback_ptr v)
  (pHead_ToSend v) (pTail_ToSend v) (pHead_Sended v) (pTail_Sended v) (rx_que v) (tx_que v) (has_read v) (nodes v).
Definition zero_que : sdio_queue := mk_que 0 0 0 0 0 0 None 0.
Definition sdio_initial : sdio_vars := mk_sdio (replicate 2048 0) None None None None None zero_que zero_que false ∅.

(** What the host can do: fetch the block offered, write a block. *)
Inductive host_action := HostReads | HostWrites (data : list Z).

(** What is on the host's side of the registers: whether the two links have been
    started and not used since, what the host has read, the status word it sees. *)
Record wire_state := mk_wires { rx_started : bool; tx_started : bool; received : list Z; host_status : option sdio_slave_status }.
#[export] Instance eta_wires : Settable wire_state := λ w, mk_wires (rx_started w) (tx_started w) (received w) (host_status w).
Definition wire_step (w : wire_state) (e : event) : wire_state :=
  match e with
  | Wr a v =>
      if a =? SLC_RX_LINK then w <| rx_started := Z.testbit v 29 |>
      else if a =? SLC_TX_LINK then w <| tx_started := Z.testbit v 29 |>
      else if a =? SLC_HOST_CONF_W2 then w <| host_status := Some (elm_value v) |>
      else w
  | Do (sdio_host_read d) => w <| rx_started := false |> <| received := received w ++ d |>
  | Do (sdio_host_write _) => w <| tx_started := false |>
  | _ => w
  end.
Definition wires (l : list event) : wire_state := fold_left wire_step l (mk_wires false false [] None).
Arguments wires : simpl never.

Section Driver.
Context `{Env} (malloc : gmap positive sdio_list -> option positive) (junk : sdio_list) (addr_rx_que addr_tx_que : Z).
Context (host : list event -> list host_action).
Abbreviation M := (F sdio_vars).

Definition ETS_SDIO_INTR_ENABLE : M unit := ETS_INTR_ENABLE ETS_SDIO_INUM.
Definition ETS_SDIO_INTR_DISABLE : M unit := ETS_INTR_DISABLE ETS_SDIO_INUM.
Definition TRIG_TOHOST_INT : M unit :=
  SET_PERI_REG_MASK SLC_INTVEC_TOHOST (BIT 0) ;; CLEAR_PERI_REG_MASK SLC_INTVEC_TOHOST (BIT 0).

(** [*p] and the assignments to its members. *)
Definition node (p : option positive) : M sdio_list := p <- slift p ;; N <- var nodes ;; slift (N !! p).
Definition set_node (p : option positive) (f : sdio_list -> sdio_list) : M unit :=
  n <- node p ;; p <- slift p ;; modify (λ v, v <| nodes := <[p := f n]> (nodes v) |>).
Definition os_malloc : M (option positive) :=
  N <- var nodes ;;
  match malloc N with
  | Some p => modify (λ v, v <| nodes := <[p := junk]> N |>) ;; sret (Some p)
  | None => sret None
  end.

(** ** To the host *)

Definition read_status : M sdio_slave_status := w <- READ_PERI_REG SLC_HOST_CONF_W2 ;; sret (elm_value w).
Definition write_status (s : sdio_slave_status) : M unit := WRITE_PERI_REG SLC_HOST_CONF_W2 (word_value s).

Definition rx_buff_load_done (rx_len : Z) : M Z :=
  if rx_len =? 0 then sret 0
  else
    q <- var rx_que ;;
    let rx_len := if blocksize q <? rx_len then u16 (blocksize q) else rx_len in
    modify (λ v, v <| rx_que := (rx_que v) <| blocksize := u12 RX_BUFFER_SIZE |> <| datalen := u12 (rx_len + SDIO_TOKEN_SIZE) |>
                                           <| eof := 1 |> <| owner := 1 |> |>) ;;
    sta <- read_status ;;
    let sta := sta <| rd_empty := 0 |> <| intr_no := Z.lor (intr_no sta) RX_AVAILIBLE |> <| rx_length := rx_len |> in
    SET_PERI_REG_MASK SLC_RX_LINK SLC_RXLINK_START ;;
    write_status sta ;;
    sret rx_len.

(** [rx_que.buf_ptr = pHead_ToSend->buffer] and the call with the length of what is in it. *)
Definition offer_head : M unit :=
  h <- var pHead_ToSend ;; n <- node h ;; p <- slift h ;;
  modify (λ v, v <| rx_que := (rx_que v) <| buf_ptr := Some (node_buffer p) |> |>) ;;
  rx_buff_load_done (u16 (tail n - SDIO_TOKEN_SIZE)) ;;
  modify (λ v, v <| has_read := false |>).

Definition sdio_try_to_load : M unit :=
  read <- var has_read ;; h <- var pHead_ToSend ;;
  swhen (read && bool_decide (h ≠ None)) (offer_head ;; TRIG_TOHOST_INT).

Definition rx_buff_read_done : M unit :=
  sta <- read_status ;;
  write_status (sta <| comm_cnt := comm_cnt sta + 1 |> <| rd_empty := 1 |> <| rx_length := 0 |>
                    <| intr_no := Z.land (intr_no sta) (Z.lnot RX_AVAILIBLE) |>).

(** The block that was read goes to the end of the free ones, empty. *)
Definition free_head : M unit :=
  h <- var pHead_ToSend ;;
  set_node h (λ n, n <| tail := SDIO_TOKEN_SIZE |>) ;;
  free <- var pHead_Sended ;;
  match free with
  | Some _ =>
      t <- var pTail_Sended ;; set_node t (λ n, n <| next := h |>) ;;
      n <- node t ;; modify (λ v, v <| pTail_Sended := next n |>)
  | None => modify (λ v, v <| pTail_Sended := h |> <| pHead_Sended := h |>)
  end ;;
  n <- node h ;; modify (λ v, v <| pHead_ToSend := next n |>) ;;
  t <- var pTail_Sended ;; set_node t (λ n, n <| next := None |>).

(** The first free block is partly filled. *)
Definition first_partly : M bool :=
  free <- var pHead_Sended ;;
  match free with
  | Some _ => n <- node free ;; sret (negb (tail n - SDIO_TOKEN_SIZE =? 0))
  | None => sret false
  end.

(** It becomes the only block to send ([sdio_load_data] assigns the two pointers in the other order). *)
Definition move_first : M unit :=
  modify (λ v, v <| pHead_ToSend := pHead_Sended v |>) ;;
  modify (λ v, v <| pTail_ToSend := pHead_ToSend v |>) ;;
  free <- var pHead_Sended ;; n <- node free ;; modify (λ v, v <| pHead_Sended := next n |>) ;;
  t <- var pTail_ToSend ;; set_node t (λ n, n <| next := None |>).

Definition sdio_read_done_process : M unit :=
  modify (λ v, v <| has_read := true |>) ;;
  free_head ;;
  h <- var pHead_ToSend ;;
  match h with
  | Some _ => offer_head
  | None => partly <- first_partly ;; swhen partly (move_first ;; offer_head)
  end ;;
  read <- var has_read ;;
  swhen (negb read) TRIG_TOHOST_INT.

(** ** From the host *)

Definition tx_buff_write_done : M unit :=
  sta <- read_status ;;
  write_status (sta <| comm_cnt := comm_cnt sta + 1 |> <| wr_busy := 1 |> <| intr_no := Z.land (intr_no sta) (Z.lnot TX_AVAILIBLE) |>).

Definition tx_buff_handle_done : M unit :=
  modify (λ v, v <| tx_que := (tx_que v) <| blocksize := u12 TX_BUFFER_SIZE |> <| datalen := 0 |> <| eof := 0 |> <| owner := 1 |> |>) ;;
  sta <- read_status ;;
  let sta := sta <| wr_busy := 0 |> <| intr_no := Z.lor (intr_no sta) TX_AVAILIBLE |> in
  SET_PERI_REG_MASK SLC_TX_LINK SLC_TXLINK_START ;;
  write_status sta.

(** The bytes a descriptor describes. *)
Definition described (q : sdio_queue) : M (list Z) :=
  a <- slift (buf_ptr q) ;;
  match a with
  | tx_area => b <- var tx_buffer ;; slift (bslice b 0 (datalen q))
  | node_buffer p => n <- node (Some p) ;; slift (bslice (buffer n) 0 (datalen q))
  end.

(** src/examples/at_sdio/user/user_main.c: the callback hands the data to the AT library, which says how much it took. *)
Definition sdio_recv_data_callback (data : list Z) : M Z := ask (at_fake_uart_rx data).

Definition call_recv (f : fn) (data : list Z) : M Z :=
  match f with fp_sdio_recv_data_callback => sdio_recv_data_callback data | _ => slift None end.

(** [sdio_recv_data_callback_ptr( tx_que.buf_ptr, tx_que.datalen ) == tx_que.datalen], and what follows. *)
Definition hand_over (f : fn) : M unit :=
  q <- var tx_que ;; d <- described q ;; n <- call_recv f d ;;
  swhen (n =? datalen q) (tx_buff_handle_done ;; TRIG_TOHOST_INT).

Definition sdio_slave_isr : M unit :=
  slc_intr_status <- READ_PERI_REG SLC_INT_STATUS ;;
  if slc_intr_status =? 0 then sret tt
  else
    WRITE_PERI_REG SLC_INT_CLR slc_intr_status ;;
    swhen (negb (Z.land slc_intr_status SLC_RX_EOF_INT_ENA =? 0)) (rx_buff_read_done ;; sdio_read_done_process) ;;
    swhen (negb (Z.land slc_intr_status SLC_TX_EOF_INT_ENA =? 0)) (
      tx_buff_write_done ;;
      cb <- var sdio_recv_data_callback_ptr ;;
      match cb with
      | Some f => hand_over f
      | None => tx_buff_handle_done ;; TRIG_TOHOST_INT
      end).

Definition sdio_register_recv_cb (cb : option fn) : M bool :=
  modify (λ v, v <| sdio_recv_data_callback_ptr := cb |>) ;; sret true.

Definition at_custom_uart_rx_buffer_fetch_cb : M unit :=
  cb <- var sdio_recv_data_callback_ptr ;; q <- var tx_que ;;
  match cb with
  | Some f => swhen (negb (datalen q =? 0)) (hand_over f)
  | None => sret tt
  end.

(** ** What the host does, each followed by its interrupt

    It fetches a block that was offered, or writes at most the size of the block
    that takes it. *)
Definition host_acts (a : host_action) : M unit :=
  l <- sget log ;;
  match a with
  | HostReads =>
      swhen (rx_started (wires l)) (
        q <- var rx_que ;; d <- described q ;;
        call (sdio_host_read d) ;; sdio_slave_isr)
  | HostWrites d =>
      swhen (tx_started (wires l) && (0 <? zlen d) && (zlen d <=? TX_BUFFER_SIZE)) (
        b <- var tx_buffer ;; b <- slift (bsplice b 0 d) ;;
        modify (λ v, v <| tx_buffer := b |> <| tx_que := (tx_que v) <| datalen := u12 (zlen d) |> <| owner := 0 |> |>) ;;
        call (sdio_host_write d) ;; sdio_slave_isr)
  end.
Definition window : M unit := l <- sget log ;; sfor (host l) host_acts.

(** ** Loading data *)

(** [temp_list] holds [b] now, [len] bytes more than before, and is the first free block. *)
Definition put_back (temp_list : positive) (b : list Z) (len : Z) : M unit :=
  set_node (Some temp_list) (λ n, n <| buffer := b |> <| tail := tail n + len |>) ;;
  ETS_SDIO_INTR_DISABLE ;;
  free <- var pHead_Sended ;;
  set_node (Some temp_list) (λ n, n <| next := free |>) ;;
  modify (λ v, v <| pHead_Sended := Some temp_list |>).

(** [temp_list] is full and is the last block to send. *)
Definition put_last (temp_list : positive) (b : list Z) (left_len : Z) : M unit :=
  set_node (Some temp_list) (λ n, n <| buffer := b |> <| tail := tail n + left_len |>) ;;
  ETS_SDIO_INTR_DISABLE ;;
  h <- var pHead_ToSend ;;
  match h with
  | None =>
      modify (λ v, v <| pTail_ToSend := Some temp_list |>) ;;
      modify (λ v, v <| pHead_ToSend := pTail_ToSend v |>) ;;
      sdio_try_to_load
  | Some _ =>
      t <- var pTail_ToSend ;; set_node t (λ n, n <| next := Some temp_list |>) ;;
      n <- node t ;; modify (λ v, v <| pTail_ToSend := next n |>)
  end ;;
  t <- var pTail_ToSend ;; set_node t (λ n, n <| next := None |>).

(** [while (len)]: [data] and [len] are what is left; the sum of what was taken is returned. *)
Fixpoint load_loop (fuel : nat) (data : list Z) (len data_len : Z) : M Z :=
  match fuel with
  | O => slift None
  | S fuel =>
      if len =? 0 then sret data_len
      else
        ETS_SDIO_INTR_DISABLE ;;
        free <- var pHead_Sended ;;
        match free with
        | None => ETS_SDIO_INTR_ENABLE ;; window ;; sret data_len
        | Some temp_list =>
            n <- node free ;;
            modify (λ v, v <| pHead_Sended := next n |>) ;;
            ETS_SDIO_INTR_ENABLE ;;
            window ;;
            n <- node (Some temp_list) ;;
            let left_len := u32 (RX_BUFFER_SIZE + SDIO_TOKEN_SIZE - tail n) in
            if len <? left_len then
              d <- slift (bslice data 0 len) ;; b <- slift (bsplice (buffer n) (tail n) d) ;;
              put_back temp_list b len ;;
              load_loop fuel data 0 (i32 (data_len + len))
            else
              d <- slift (bslice data 0 left_len) ;; b <- slift (bsplice (buffer n) (tail n) d) ;;
              put_last temp_list b left_len ;;
              load_loop fuel (drop (Z.to_nat left_len) data) (len - left_len) (i32 (data_len + left_len))
        end
  end.

(** The rounds: each takes at least a byte. *)
Definition sdio_load_data (data : list Z) (len : Z) : M Z :=
  free <- var pHead_Sended ;;
  match free with
  | None => sret 0
  | Some _ =>
      data_len <- load_loop (S (Z.to_nat len)) data len 0 ;;
      h <- var pHead_ToSend ;;
      swhen (negb (bool_decide (h ≠ None))) (
        move_first ;;
        sdio_try_to_load) ;;
      ETS_SDIO_INTR_ENABLE ;;
      sret data_len
  end.

(** ** Start-up *)

(** One round of the loop that allocates: the blocks so far end with [p]. *)
Definition init_block (p : option positive) (_ : nat) : M (option positive) :=
  free <- var pHead_Sended ;;
  p <- (match free with
        | None => q <- os_malloc ;; modify (λ v, v <| pHead_Sended := q |>) ;; sret q
        | Some _ => node p ;; q <- os_malloc ;; set_node p (λ n, n <| next := q |>) ;; sret q
        end) ;;
  set_node p (λ n, n <| tail := SDIO_TOKEN_SIZE |>) ;;
  set_node p (λ n, n <| next := None |>) ;;
  sret p.

Definition sdio_slave_init : M unit :=
  ETS_SDIO_INTR_DISABLE ;;
  PIN_FUNC_SELECT PERIPHS_IO_MUX_SD_CLK_U FUNC_SDCLK ;;
  PIN_FUNC_SELECT PERIPHS_IO_MUX_SD_DATA0_U FUNC_SDDATA0 ;;
  PIN_FUNC_SELECT PERIPHS_IO_MUX_SD_DATA1_U FUNC_SDDATA1 ;;
  PIN_FUNC_SELECT PERIPHS_IO_MUX_SD_DATA2_U FUNC_SDDATA2 ;;
  PIN_FUNC_SELECT PERIPHS_IO_MUX_SD_DATA3_U FUNC_SDDATA3 ;;
  PIN_FUNC_SELECT PERIPHS_IO_MUX_SD_CMD_U FUNC_SDCMD ;;
  SET_PERI_REG_MASK SLC_CONF0 (Z.lor SLC_RXLINK_RST SLC_TXLINK_RST) ;;
  CLEAR_PERI_REG_MASK SLC_CONF0 (Z.lor SLC_RXLINK_RST SLC_TXLINK_RST) ;;
  call (os_printf "RX&TX link reset!\n") ;;
  SET_PERI_REG_MASK SLC_RX_DSCR_CONF (Z.lor SLC_RX_EOF_MODE SLC_RX_FILL_MODE) ;;
  WRITE_PERI_REG SLC_HOST_INTR_CLR 0xffffffff ;;
  SET_PERI_REG_MASK SLC_HOST_INTR_ENA SLC_HOST_TOHOST_BIT0_INT_ENA ;;
  modify (λ v, v <| has_read := true |> <| pHead_ToSend := None |>) ;;
  p <- sfold (seq 0 RX_BUFFER_NUM) init_block None ;;
  modify (λ v, v <| pTail_Sended := p |>) ;;
  h <- var pHead_Sended ;; h <- slift h ;;
  modify (λ v, v <| rx_que := mk_que (u12 RX_BUFFER_SIZE) 0 0 0 1 1 (Some (node_buffer h)) 0 |>) ;;
  modify (λ v, v <| tx_que := mk_que (u12 TX_BUFFER_SIZE) 0 0 0 0 1 (Some tx_area) 0 |>) ;;
  CLEAR_PERI_REG_MASK SLC_RX_LINK SLC_RXLINK_DESCADDR_MASK ;;
  SET_PERI_REG_MASK SLC_RX_LINK (Z.land addr_rx_que SLC_RXLINK_DESCADDR_MASK) ;;
  CLEAR_PERI_REG_MASK SLC_TX_LINK SLC_TXLINK_DESCADDR_MASK ;;
  SET_PERI_REG_MASK SLC_TX_LINK (Z.land addr_tx_que SLC_TXLINK_DESCADDR_MASK) ;;
  SET_PERI_REG_MASK SLC_RX_DSCR_CONF SLC_TOKEN_NO_REPLACE ;;
  SET_PERI_REG_MASK SLC_TX_LINK SLC_TXLINK_START ;;
  write_status (mk_status 0 1 7 INIT_STAGE 0 0) ;;
  call (ets_isr_attach ETS_SDIO_INUM fp_sdio_slave_isr) ;;
  WRITE_PERI_REG SLC_INT_ENA SLC_INTEREST_EVENT ;;
  WRITE_PERI_REG SLC_INT_CLR 0xffffffff ;;
  ETS_SDIO_INTR_ENABLE.

(** ** src/examples/at_sdio/user/user_main.c *)

(** What the AT library sends; [data] is the memory from the pointer on. *)
Definition at_sdio_response (data : option (list Z)) (length : Z) : M unit :=
  match data with
  | None => sret tt
  | Some data => if length =? 0 then sret tt else sdio_load_data data length ;; sret tt
  end.

(** [date] and [time] are [__DATE__] and [__TIME__]. *)
Definition user_init (date time : list Z) : M unit :=
  call (at_customLinkMax 5) ;;
  sdio_slave_init ;;
  sdio_register_recv_cb (Some fp_sdio_recv_data_callback) ;;
  call at_init ;;
  call (at_register_uart_rx_buffer_fetch_cb fp_at_custom_uart_rx_buffer_fetch_cb) ;;
  let info := chars "compile time:" ++ date ++ [32] ++ time in
  buf <- slift (bsplice (replicate 64 0) 0 (info ++ [0])) ;;
  call (at_set_custom_info info) ;;
  call (at_fake_uart_enable true fp_at_sdio_response) ;;
  call (at_cmd_array_regist ["+TEST"%string; "+CIUPDATE"%string]) ;;
  call (espconn_tcp_set_wnd 4) ;;
  call (at_port_print ([13; 10] ++ chars "ready" ++ [13; 10])).
End Driver.
