(* ===== verification/SdioLaws.v ===== *)
(** * SdioLaws: the SDIO slave driver is a queue of bytes

    The invariant of the two lists of blocks, that the interrupt handler and the
    loader keep it in every interleaving, and the laws of a whole session: the
    stream to the host, the flow control from it, and the call that makes the
    driver mute. *)

From stdpp Require Import gmap.
From S2P Require Import Prelude CMem Board SdioSlave.
Local Open Scope sm_scope.

(** ** The hardware

    The status word is kept; the start bits read as 0; the interrupt status
    after the host's transfers says what happened. *)
Class Slc `{Env} : Prop := {
  status_kept : forall l x, host_status (wires l) = Some x -> elm_value (u32 (hw_read l SLC_HOST_CONF_W2)) = x;
  start_reads_0 : forall l, Z.testbit (u32 (hw_read l SLC_RX_LINK)) 29 = false;
  read_interrupts : forall l d, let v := u32 (hw_read (l ++ [Do (sdio_host_read d)]) SLC_INT_STATUS) in
    Z.land v SLC_RX_EOF_INT_ENA ≠ 0 /\ Z.land v SLC_TX_EOF_INT_ENA = 0;
  write_interrupts : forall l d, let v := u32 (hw_read (l ++ [Do (sdio_host_write d)]) SLC_INT_STATUS) in
    Z.land v SLC_TX_EOF_INT_ENA ≠ 0 /\ Z.land v SLC_RX_EOF_INT_ENA = 0 }.

(** ** The status word *)

Lemma elm_word s : 0 <= wr_busy s < 2 -> 0 <= rd_empty s < 2 -> 0 <= intr_no s < 8 -> 0 <= rx_length s < 65536 -> 0 <= res s < 256 ->
  elm_value (u32 (word_value s)) = s <| comm_cnt := comm_cnt s mod 8 |>.
Proof.
  intros. destruct s as [a b c d e f]. cbn in *. unfold elm_value, word_value, u32, set_field. cbn.
  rewrite !(Z.mod_small a), !(Z.mod_small b), !(Z.mod_small d), !(Z.mod_small e), !(Z.mod_small f) by lia.
  pose proof (Z.mod_pos_bound c 8 eq_refl). generalize dependent (c mod 8). intros g Hg.
  match goal with |- context [?x mod 4294967296] => rewrite (Z.mod_small x 4294967296) by lia end. f_equal; dlia.
Qed.
Lemma elm_range w : let s := elm_value w in
  0 <= wr_busy s < 2 /\ 0 <= rd_empty s < 2 /\ 0 <= comm_cnt s < 8 /\ 0 <= intr_no s < 8 /\ 0 <= rx_length s < 65536 /\ 0 <= res s < 256.
Proof. cbn. dlia. Qed.
Definition status_ok (x : sdio_slave_status) : Prop :=
  0 <= wr_busy x < 2 /\ 0 <= rd_empty x < 2 /\ 0 <= comm_cnt x < 8 /\ 0 <= intr_no x < 8 /\ 0 <= rx_length x < 65536 /\ 0 <= res x < 256.

Lemma wires_app l k : wires (l ++ k) = fold_left wire_step k (wires l).
Proof. apply fold_left_app. Qed.
Lemma wires_snoc l e : wires (l ++ [e]) = wire_step (wires l) e.
Proof. apply wires_app. Qed.
Lemma start_bit v : Z.testbit (u32 (Z.lor v SLC_RXLINK_START)) 29 = true.
Proof. unfold u32. change 4294967296 with (2 ^ 32). rewrite Z.mod_pow2_bits_low by lia. rewrite Z.lor_spec. apply orb_true_r. Qed.

(** ** Lists of blocks *)

Fixpoint linked (N : gmap positive sdio_list) (l : list positive) : Prop :=
  match l with
  | [] => True
  | p :: l => (exists n, N !! p = Some n /\ next n = head l) /\ linked N l
  end.
(** A block of the right size, filled from [a] to [b]. *)
Definition node_ok (N : gmap positive sdio_list) (a b : Z) (p : positive) : Prop :=
  exists n, N !! p = Some n /\ zlen (buffer n) = RX_BUFFER_SIZE /\ a <= tail n <= b.
Definition content (N : gmap positive sdio_list) (p : positive) : list Z :=
  match N !! p with Some n => take (Z.to_nat (tail n)) (buffer n) | None => [] end.
Definition contents (N : gmap positive sdio_list) (l : list positive) : list Z := concat (content N <$> l).

Lemma linked_insert N l p n : p ∉ l -> linked N l -> linked (<[p := n]> N) l.
Proof.
  induction l as [|q l IH]; [done|]. cbn. rewrite not_elem_of_cons. intros [Hq Hl] [Hn HL].
  rewrite lookup_insert_ne by done. auto.
Qed.
Lemma linked_cons N p l n : N !! p = Some n -> next n = head l -> linked N l -> linked N (p :: l).
Proof. cbn. eauto. Qed.
(** The members other than [next] do not matter. *)
Lemma linked_same_next N l p n m : N !! p = Some n -> next m = next n -> linked N l -> linked (<[p := m]> N) l.
Proof.
  intros Hp Hm. induction l as [|q l IH]; [done|]. cbn. intros [(k & Hk & E) HL]. split; [|auto].
  destruct (decide (q = p)) as [->|Hq]; [rewrite lookup_insert_eq|rewrite lookup_insert_ne by done]; [|eauto].
  exists m. split; [done|]. congruence.
Qed.
Lemma linked_last N l p : linked N (l ++ [p]) -> exists n, N !! p = Some n /\ next n = None.
Proof. induction l as [|q l IH]; cbn; [tauto|]. intros [_ HL]. auto. Qed.
(** A block linked behind the last. *)
Lemma linked_snoc N l t n h m :
  NoDup (l ++ [t]) -> h ∉ l ++ [t] -> linked N (l ++ [t]) -> N !! t = Some n -> next m = None ->
  linked (<[h := m]> (<[t := n <| next := Some h |>]> N)) ((l ++ [t]) ++ [h]).
Proof.
  intros Hd Hh HL Ht Hm. revert Hd Hh HL. induction l as [|q l IH]; cbn [app]; intros Hd Hh HL.
  - apply not_elem_of_cons in Hh as [Hh _].
    eapply linked_cons; [by rewrite lookup_insert_ne, lookup_insert_eq|done|].
    eapply linked_cons; [by rewrite lookup_insert_eq|done|done].
  - apply list.NoDup_cons in Hd as [Hq Hd]. apply not_elem_of_cons in Hh as [Hqh Hh]. destruct HL as [(k & Hk & E) HL].
    split; [|by apply IH]. exists k. split.
    + rewrite !lookup_insert_ne; try done. intros <-. apply Hq, elem_of_app. right. by apply list_elem_of_singleton.
    + rewrite E. by destruct l.
Qed.

Lemma node_ok_insert N a b p q n : q ≠ p -> node_ok N a b p -> node_ok (<[q := n]> N) a b p.
Proof. intros Hq (k & Hk & H). exists k. rewrite lookup_insert_ne; [by split|done]. Qed.
Lemma nodes_ok_insert N a b l q n : q ∉ l -> Forall (node_ok N a b) l -> Forall (node_ok (<[q := n]> N) a b) l.
Proof.
  intros Hq Hl. rewrite list.Forall_forall in *. intros p Hp. apply node_ok_insert; [by intros ->|by apply Hl].
Qed.
Lemma node_ok_same N a b p n m : N !! p = Some n -> buffer m = buffer n -> tail m = tail n -> forall q, node_ok N a b q -> node_ok (<[p := m]> N) a b q.
Proof.
  intros Hp Hb Ht q (k & Hk & H1 & H2). destruct (decide (q = p)) as [->|Hq]; [|by apply node_ok_insert; [|exists k]].
  exists m. rewrite lookup_insert_eq. simplify_eq. by rewrite Hb, Ht.
Qed.
Lemma node_ok_weaken N a b a' b' p : a' <= a -> b <= b' -> node_ok N a b p -> node_ok N a' b' p.
Proof. intros ?? (n & Hn & H1 & H2). exists n. split_and!; try done; lia. Qed.

Lemma content_insert N p q n : q ≠ p -> content (<[q := n]> N) p = content N p.
Proof. intros. unfold content. by rewrite lookup_insert_ne. Qed.
Lemma contents_insert N l q n : q ∉ l -> contents (<[q := n]> N) l = contents N l.
Proof.
  unfold contents. induction l as [|p l IH]; [done|]. rewrite not_elem_of_cons. intros [Hq Hl]. cbn.
  by rewrite content_insert, IH.
Qed.
Lemma content_same N p n m q : N !! p = Some n -> buffer m = buffer n -> tail m = tail n -> content (<[p := m]> N) q = content N q.
Proof.
  intros Hp Hb Ht. destruct (decide (q = p)) as [->|Hq]; [|by rewrite content_insert].
  unfold content. by rewrite lookup_insert_eq, Hp, Hb, Ht.
Qed.
Lemma contents_same N p n m l : N !! p = Some n -> buffer m = buffer n -> tail m = tail n -> contents (<[p := m]> N) l = contents N l.
Proof. intros. unfold contents. f_equal. apply list_fmap_ext. intros. by eapply content_same. Qed.
Lemma contents_app N l k : contents N (l ++ k) = contents N l ++ contents N k.
Proof. unfold contents. by rewrite fmap_app, concat_app. Qed.
Lemma contents_cons N p l : contents N (p :: l) = content N p ++ contents N l.
Proof. done. Qed.
Lemma content_empty N p : node_ok N 0 0 p -> content N p = [].
Proof. intros (n & Hn & _ & Ht). unfold content. rewrite Hn. by replace (tail n) with 0 by lia. Qed.
Lemma contents_empty N l : Forall (node_ok N 0 0) l -> contents N l = [].
Proof. induction 1 as [|p l Hp _ IH]; [done|]. by rewrite contents_cons, IH, content_empty. Qed.
Lemma zlen_content N a b p : 0 <= a -> b <= RX_BUFFER_SIZE -> node_ok N a b p -> a <= zlen (content N p) <= b.
Proof. intros ?? (n & Hn & Hb & Ht). unfold content. rewrite Hn. zlia. Qed.

(** ** The invariant *)

(** The free blocks in their list: all, or all but the first, which the loader holds. *)
Definition rest (held : bool) (g : list positive) : list positive := if held then List.tl g else g.

(** [ts]: the blocks to send; [g]: the free ones. *)
Record shape (v : sdio_vars) (ts g : list positive) (held : bool) : Prop := mk_shape {
  sh_nodup : NoDup (ts ++ g);
  sh_len : length (ts ++ g) = RX_BUFFER_NUM;
  sh_linked_ts : linked (nodes v) ts;
  sh_linked_g : linked (nodes v) (rest held g);
  sh_head : pHead_ToSend v = head ts;
  sh_tail : ts ≠ [] -> pTail_ToSend v = list.last ts;
  sh_free : pHead_Sended v = head (rest held g);
  sh_free_tail : g ≠ [] -> pTail_Sended v = list.last g;
  sh_full : Forall (node_ok (nodes v) 1 2048) ts;
  sh_first : Forall (node_ok (nodes v) 0 2047) (take 1 g);
  sh_others : Forall (node_ok (nodes v) 0 0) (List.tl g);
  sh_held : held = true -> g ≠ [];
  sh_size : blocksize (rx_que v) = RX_BUFFER_SIZE;
  sh_tx : buf_ptr (tx_que v) = Some tx_area /\ 0 <= datalen (tx_que v) <= 2048 /\ zlen (tx_buffer v) = 2048;
  sh_cb : sdio_recv_data_callback_ptr v = None \/ sdio_recv_data_callback_ptr v = Some fp_sdio_recv_data_callback }.

(** What the host is told: nothing to read, or the length of the block at the head. *)
Definition told (x : sdio_slave_status) (len : Z) : Prop :=
  status_ok x /\ rx_length x = len /\ rd_empty x = b2z (len =? 0) /\ Z.testbit (intr_no x) 1 = negb (len =? 0).
Definition offer (v : sdio_vars) (w : wire_state) (ts g : list positive) (held : bool) : Prop :=
  (exists x, host_status w = Some x /\ told x (zlen (match ts with [] => [] | h :: _ => content (nodes v) h end))) /\
  match ts with
  | [] => has_read v = true /\ rx_started w = false /\ (held = false -> Forall (node_ok (nodes v) 0 0) (take 1 g))
  | h :: _ => has_read v = false /\ rx_started w = true /\ buf_ptr (rx_que v) = Some (node_buffer h) /\
              datalen (rx_que v) = zlen (content (nodes v) h)
  end.
Definition inv (s : sys sdio_vars) (ts g : list positive) (held : bool) : Prop :=
  shape (st s) ts g held /\ offer (st s) (wires (log s)) ts g held.

(** The variables of the other direction. *)
Definition same_tx (v v' : sdio_vars) : Prop :=
  tx_que v' = tx_que v /\ tx_buffer v' = tx_buffer v /\ sdio_recv_data_callback_ptr v' = sdio_recv_data_callback_ptr v.

Lemma wires_start_rx w v : wire_step w (Wr SLC_RX_LINK (u32 (Z.lor v SLC_RXLINK_START))) = w <| rx_started := true |>.
Proof. unfold wire_step. by rewrite Z.eqb_refl, start_bit. Qed.
Lemma wires_start_tx w v : wire_step w (Wr SLC_TX_LINK (u32 (Z.lor v SLC_TXLINK_START))) = w <| tx_started := true |>.
Proof. unfold wire_step. ztrue (SLC_TX_LINK =? SLC_TX_LINK). change (SLC_TX_LINK =? SLC_RX_LINK) with false. by rewrite start_bit. Qed.

Section Laws.
Context `{HE : Env} {HS : Slc}.
Abbreviation M := (F sdio_vars).

Lemma wp_node p n s (Q : sdio_list -> sys sdio_vars -> Prop) : nodes (st s) !! p = Some n -> Q n s -> wp (node (Some p)) s Q.
Proof. intros Hn HQ. exists n, s. split; [|done]. unfold node, var. cbn. by rewrite Hn. Qed.
Lemma wp_set_node p n f s (Q : unit -> sys sdio_vars -> Prop) :
  nodes (st s) !! p = Some n -> Q tt (mk_sys (log s) (mem s) ((st s) <| nodes := <[p := f n]> (nodes (st s)) |>)) -> wp (set_node (Some p) f) s Q.
Proof.
  intros Hn HQ. eexists _, _. split; [|exact HQ]. unfold set_node, node, var, modify. cbn. rewrite Hn. done.
Qed.

Lemma wp_read_status l m v x (Q : sdio_slave_status -> sys sdio_vars -> Prop) :
  host_status (wires l) = Some x -> (forall l', wires l' = wires l -> Q x (mk_sys l' m v)) -> wp read_status (mk_sys l m v) Q.
Proof.
  intros Hx HQ. unfold read_status. apply wp_bind, wp_read. apply wp_ret. cbn. rewrite (status_kept _ _ Hx). apply HQ. by rewrite wires_snoc.
Qed.
Lemma wp_write_status l m v x (Q : unit -> sys sdio_vars -> Prop) :
  status_ok (x <| comm_cnt := 0 |>) ->
  (forall l', wires l' = (wires l) <| host_status := Some (x <| comm_cnt := comm_cnt x mod 8 |>) |> -> Q tt (mk_sys l' m v)) ->
  wp (write_status x) (mk_sys l m v) Q.
Proof.
  intros Hx HQ. unfold write_status. apply wp_write. cbn. apply HQ. rewrite wires_snoc. cbn.
  unfold status_ok in Hx. cbn in Hx. rewrite elm_word by tauto. done.
Qed.
Lemma wp_set_reg l m v a k (Q : unit -> sys sdio_vars -> Prop) :
  a ≠ SLC_RX_LINK -> a ≠ SLC_TX_LINK -> a ≠ SLC_HOST_CONF_W2 ->
  (forall l', wires l' = wires l -> Q tt (mk_sys l' m v)) -> wp (SET_PERI_REG_MASK a k) (mk_sys l m v) Q.
Proof.
  intros H1 H2 H3 HQ. unfold SET_PERI_REG_MASK. apply wp_bind, wp_read, wp_write. cbn. apply HQ. rewrite !wires_snoc. cbn.
  by rewrite !(proj2 (Z.eqb_neq _ _)).
Qed.
Lemma wp_clear_reg l m v a k (Q : unit -> sys sdio_vars -> Prop) :
  a ≠ SLC_RX_LINK -> a ≠ SLC_TX_LINK -> a ≠ SLC_HOST_CONF_W2 ->
  (forall l', wires l' = wires l -> Q tt (mk_sys l' m v)) -> wp (CLEAR_PERI_REG_MASK a k) (mk_sys l m v) Q.
Proof.
  intros H1 H2 H3 HQ. unfold CLEAR_PERI_REG_MASK. apply wp_bind, wp_read, wp_write. cbn. apply HQ. rewrite !wires_snoc. cbn.
  by rewrite !(proj2 (Z.eqb_neq _ _)).
Qed.
Lemma wp_trig l m v (Q : unit -> sys sdio_vars -> Prop) :
  (forall l', wires l' = wires l -> Q tt (mk_sys l' m v)) -> wp TRIG_TOHOST_INT (mk_sys l m v) Q.
Proof.
  intros HQ. unfold TRIG_TOHOST_INT. apply wp_bind, wp_set_reg; [done..|]. intros l1 E1.
  apply wp_clear_reg; [done..|]. intros l2 E2. apply HQ. by rewrite E2.
Qed.
Lemma wp_start_rx l m v (Q : unit -> sys sdio_vars -> Prop) :
  (forall l', wires l' = (wires l) <| rx_started := true |> -> Q tt (mk_sys l' m v)) -> wp (SET_PERI_REG_MASK SLC_RX_LINK SLC_RXLINK_START) (mk_sys l m v) Q.
Proof.
  intros HQ. unfold SET_PERI_REG_MASK. apply wp_bind, wp_read, wp_write. apply HQ. cbn [log]. rewrite wires_snoc, wires_start_rx, wires_snoc. done.
Qed.
Lemma wp_start_tx l m v (Q : unit -> sys sdio_vars -> Prop) :
  (forall l', wires l' = (wires l) <| tx_started := true |> -> Q tt (mk_sys l' m v)) -> wp (SET_PERI_REG_MASK SLC_TX_LINK SLC_TXLINK_START) (mk_sys l m v) Q.
Proof.
  intros HQ. unfold SET_PERI_REG_MASK. apply wp_bind, wp_read, wp_write. apply HQ. cbn [log]. rewrite wires_snoc, wires_start_tx, wires_snoc. done.
Qed.

Lemma told_ok x len : 0 <= len <= 2048 -> status_ok x -> 0 < len ->
  let y := x <| rd_empty := 0 |> <| intr_no := Z.lor (intr_no x) RX_AVAILIBLE |> <| rx_length := len |> in
  told (y <| comm_cnt := comm_cnt y mod 8 |>) len.
Proof.
  intros Hl Hx H0 y. subst y. unfold told, status_ok, RX_AVAILIBLE in *. cbn -[Z.testbit Z.lor]. zfalse (len =? 0). cbn -[Z.testbit Z.lor].
  assert (Hi : 0 <= Z.lor (intr_no x) 2 < 8).
  { assert (Hz : forall a, 0 <= a < 8 -> 0 <= Z.lor a 2 < 8); [|apply Hz; tauto].
    intros a Ha. assert (a = 0 \/ a = 1 \/ a = 2 \/ a = 3 \/ a = 4 \/ a = 5 \/ a = 6 \/ a = 7) as Hc by lia.
    destruct Hc as [->|[->|[->|[->|[->|[->|[->| ->]]]]]]]; split; (by apply Z.leb_le) || (by apply Z.ltb_lt). }
  pose proof (Z.mod_pos_bound (comm_cnt x) 8 eq_refl). split_and!; try tauto; try lia.
  rewrite Z.lor_spec. apply orb_true_r.
Qed.

(** [offer_head] with the block [h] at the head. *)
Lemma wp_offer_head l m v h n x (Q : unit -> sys sdio_vars -> Prop) :
  pHead_ToSend v = Some h -> nodes v !! h = Some n -> 1 <= tail n <= 2048 -> blocksize (rx_que v) = RX_BUFFER_SIZE ->
  host_status (wires l) = Some x -> status_ok x ->
  (forall l' y q, buf_ptr q = Some (node_buffer h) -> datalen q = tail n -> blocksize q = RX_BUFFER_SIZE -> told y (tail n) -> wr_busy y = wr_busy x ->
     wires l' = (wires l) <| rx_started := true |> <| host_status := Some y |> ->
     Q tt (mk_sys l' m (v <| rx_que := q |> <| has_read := false |>))) ->
  wp offer_head (mk_sys l m v) Q.
Proof.
  intros Hh Hn Ht Hb Hx Hok HQ. unfold offer_head.
  apply wp_bind, wp_var. cbn [st]. rewrite Hh. apply wp_bind, (wp_node _ n); [done|].
  apply wp_bind, (wp_lift _ h); [done|]. apply wp_bind, wp_modify. cbn [log mem st].
  unfold SDIO_TOKEN_SIZE. rewrite Z.sub_0_r, u16_small by lia.
  apply wp_bind. unfold rx_buff_load_done. zfalse (tail n =? 0).
  apply wp_bind, wp_var. cbn. rewrite Hb. replace (RX_BUFFER_SIZE <? tail n) with false by (symmetry; apply Z.ltb_ge; unfold RX_BUFFER_SIZE; lia).
  apply wp_bind, wp_modify. apply wp_bind. eapply wp_read_status; [exact Hx|]. intros l1 E1.
  apply wp_bind, wp_start_rx. intros l2 E2. apply wp_bind.
  pose proof (told_ok x (tail n) ltac:(lia) Hok ltac:(lia)) as Htold.
  apply wp_write_status.
  { destruct Htold as [Ht1 _]. unfold status_ok in *. cbn in *. intuition lia. }
  intros l3 E3. apply wp_ret. apply wp_modify. cbn. eapply HQ; [..|exact Htold| |].
  - done.
  - cbn. unfold u12, SDIO_TOKEN_SIZE. rewrite Z.mod_small; lia.
  - done.
  - done.
  - rewrite E3, E2, E1. done.
Qed.

Lemma wp_read_done l m v x (Q : unit -> sys sdio_vars -> Prop) :
  host_status (wires l) = Some x -> status_ok x ->
  (forall l' y, told y 0 -> wr_busy y = wr_busy x -> wires l' = (wires l) <| host_status := Some y |> -> Q tt (mk_sys l' m v)) ->
  wp rx_buff_read_done (mk_sys l m v) Q.
Proof.
  intros Hx Hok HQ. unfold rx_buff_read_done. apply wp_bind. eapply wp_read_status; [exact Hx|]. intros l1 E1.
  assert (Hi : 0 <= Z.land (intr_no x) (Z.lnot 2) < 8 /\ Z.testbit (Z.land (intr_no x) (Z.lnot 2)) 1 = false).
  { split; [|by rewrite Z.land_spec, andb_false_r].
    destruct Hok as (_ & _ & _ & Ha & _). revert Ha. generalize (intr_no x). intros a Ha.
    assert (a = 0 \/ a = 1 \/ a = 2 \/ a = 3 \/ a = 4 \/ a = 5 \/ a = 6 \/ a = 7) as Hc by lia.
    destruct Hc as [->|[->|[->|[->|[->|[->|[->| ->]]]]]]]; split; (by apply Z.leb_le) || (by apply Z.ltb_lt). }
  unfold status_ok in Hok. apply wp_write_status.
  { unfold status_ok. cbn. unfold RX_AVAILIBLE. intuition lia. }
  intros l2 E2. eapply HQ; [| |by rewrite E2, E1].
  - unfold told, status_ok. cbn -[Z.testbit Z.land]. pose proof (Z.mod_pos_bound (comm_cnt x + 1) 8 eq_refl). intuition lia.
  - done.
Qed.

Lemma shape_head v h ts g held : shape v (h :: ts) g held -> exists n, nodes v !! h = Some n /\ zlen (buffer n) = RX_BUFFER_SIZE /\ 1 <= tail n <= 2048 /\ next n = head ts.
Proof.
  intros H. pose proof (sh_full _ _ _ _ H) as Hf. apply list.Forall_cons in Hf as [(n & Hn & Hb & Ht) _].
  destruct (sh_linked_ts _ _ _ _ H) as [(k & Hk & E) _]. exists n. split_and!; try done; try lia. congruence.
Qed.
Lemma shape_last v ts g held t : shape v ts g held -> list.last g = Some t -> exists n, nodes v !! t = Some n /\ zlen (buffer n) = RX_BUFFER_SIZE.
Proof.
  intros H Ht. apply last_Some in Ht as [k ->].
  pose proof (sh_first _ _ _ _ H) as H1. pose proof (sh_others _ _ _ _ H) as H2.
  destruct k as [|q k]; cbn in H1, H2.
  - apply list.Forall_singleton in H1 as (n & Hn & Hb & _). eauto.
  - apply Forall_app in H2 as [_ H2]. apply list.Forall_singleton in H2 as (n & Hn & Hb & _). eauto.
Qed.

(** The head of the blocks to send becomes the last free one. *)
Lemma shape_recycle v v' h ts g held :
  shape v (h :: ts) g held -> same_tx v v' -> blocksize (rx_que v') = RX_BUFFER_SIZE ->
  pHead_ToSend v' = head ts -> pTail_ToSend v' = pTail_ToSend v ->
  pHead_Sended v' = head (rest held (g ++ [h])) -> pTail_Sended v' = Some h ->
  linked (nodes v') ts -> linked (nodes v') (rest held (g ++ [h])) ->
  (forall a b p, p ≠ h -> node_ok (nodes v) a b p -> node_ok (nodes v') a b p) -> node_ok (nodes v') 0 0 h ->
  shape v' ts (g ++ [h]) held.
Proof.
  intros H (T1 & T2 & T3) Hbs Hh Ht Hf Hft HL1 HL2 Hok Hok0.
  pose proof (sh_nodup _ _ _ _ H) as Hd. assert (HP : h :: ts ++ g ≡ₚ ts ++ g ++ [h]) by solve_Permutation.
  assert (Hts : forall a b k, h ∉ k -> Forall (node_ok (nodes v) a b) k -> Forall (node_ok (nodes v') a b) k).
  { intros a b k Hk Hall. rewrite list.Forall_forall in *. intros p Hp. apply Hok; [by intros ->|by apply Hall]. }
  assert (Hn : h ∉ ts ++ g) by (cbn in Hd; by apply list.NoDup_cons in Hd as [? _]). rewrite not_elem_of_app in Hn. destruct Hn as [Hn1 Hn2].
  pose proof (sh_full _ _ _ _ H) as F1. apply list.Forall_cons in F1 as [_ F1].
  pose proof (sh_first _ _ _ _ H) as F2. pose proof (sh_others _ _ _ _ H) as F3.
  constructor; try done.
  - by rewrite <- HP.
  - rewrite <- HP. apply (sh_len _ _ _ _ H).
  - intros Hts0. rewrite Ht, (sh_tail _ _ _ _ H) by done. destruct ts; [done|]. by rewrite last_cons_cons.
  - intros _. by rewrite last_snoc.
  - by apply Hts.
  - destruct g as [|q g]; cbn in *.
    + constructor; [|done]. by eapply node_ok_weaken; [| |exact Hok0].
    + apply Hts; [|done]. rewrite not_elem_of_cons in Hn2. apply not_elem_of_cons. split; [tauto|apply not_elem_of_nil].
  - destruct g as [|q g]; cbn in *; [done|]. apply Forall_app. split; [|by constructor].
    apply Hts; [|done]. rewrite not_elem_of_cons in Hn2. tauto.
  - by destruct g.
  - rewrite T1, T2. apply (sh_tx _ _ _ _ H).
  - rewrite T3. apply (sh_cb _ _ _ _ H).
Qed.

Lemma wp_free_head l m v h ts g held (Q : unit -> sys sdio_vars -> Prop) :
  shape v (h :: ts) g held ->
  (forall v', shape v' ts (g ++ [h]) held -> same_tx v v' -> has_read v' = has_read v ->
     (forall k, h ∉ k -> contents (nodes v') k = contents (nodes v) k) -> node_ok (nodes v') 0 0 h -> Q tt (mk_sys l m v')) ->
  wp free_head (mk_sys l m v) Q.
Proof.
  intros H HQ. destruct (shape_head _ _ _ _ _ H) as (n & Hn & Hb & Ht & Hnext).
  pose proof (sh_nodup _ _ _ _ H) as Hd. cbn in Hd. apply list.NoDup_cons in Hd as [Hh Hd].
  assert (Hh1 : h ∉ ts) by (intros X; apply Hh, elem_of_app; tauto).
  assert (Hh2 : h ∉ g) by (intros X; apply Hh, elem_of_app; tauto).
  set (n1 := n <| tail := SDIO_TOKEN_SIZE |>). set (n2 := n1 <| next := None |>).
  unfold free_head. apply wp_bind, wp_var. cbn [st]. rewrite (sh_head _ _ _ _ H). cbn [head].
  apply wp_bind. eapply wp_set_node; [exact Hn|]. cbn [log mem st]. fold n1.
  apply wp_bind, wp_var. cbn [st pHead_Sended set_field]. cbn. rewrite (sh_free _ _ _ _ H).
  destruct (rest held g) as [|q r] eqn:Er; cbn [head].
  - assert (Er2 : rest held (g ++ [h]) = [h]).
    { destruct held, g as [|? [|]]; try done; cbn in *; by pose proof (sh_held _ _ _ _ H eq_refl). }
    apply wp_bind, wp_modify. cbn. apply wp_bind. eapply wp_node; [cbn; by rewrite lookup_insert_eq|].
    apply wp_bind, wp_modify. cbn. apply wp_bind, wp_var. cbn. eapply wp_set_node; [cbn; by rewrite lookup_insert_eq|].
    cbn. rewrite insert_insert_eq. fold n2. eapply HQ.
    + eapply shape_recycle; [exact H|done|apply H|done|done|by rewrite Er2|done|..]; cbn.
      * apply linked_insert; [done|apply (sh_linked_ts _ _ _ _ H)].
      * rewrite Er2. eapply linked_cons; [by rewrite lookup_insert_eq|done|done].
      * intros a b p Hp. by apply node_ok_insert.
      * exists n2. by rewrite lookup_insert_eq.
    + done.
    + done.
    + intros k Hk. cbn. by apply contents_insert.
    + cbn. exists n2. by rewrite lookup_insert_eq.
  - assert (exists k t, g = k ++ [t]) as (k0 & t & Eg).
    { destruct g as [|x g] using rev_ind; [by destruct held|eauto]. }
    assert (exists k, rest held g = k ++ [t]) as [k Ek].
    { subst g. destruct held; [|by exists k0]. destruct k0 as [|x k0]; [done|by exists k0]. }
    assert (Er2 : rest held (g ++ [h]) = (k ++ [t]) ++ [h]) by (rewrite <- Ek; destruct held, g; done).
    assert (Hsub : forall p, p ∈ k ++ [t] -> p ∈ g) by (rewrite <- Ek; destruct held, g; cbn; [done|set_solver..]).
    assert (Htg : t ∈ g) by (apply Hsub; set_solver).
    assert (Hth : t ≠ h) by (by intros ->).
    assert (Ht1 : t ∉ ts) by (apply list.NoDup_app in Hd as (_ & Hd & _); intros X; exact (Hd _ X Htg)).
    assert (Hlast : list.last g = Some t) by (by rewrite Eg, last_snoc).
    destruct (shape_last _ _ _ _ _ H Hlast) as (nt & Hnt & Hbt).
    apply wp_bind, wp_bind, wp_var. cbn. rewrite (sh_free_tail _ _ _ _ H), Hlast by (rewrite Eg; by destruct k0).
    apply wp_bind. eapply wp_set_node; [cbn; by rewrite lookup_insert_ne|]. cbn.
    apply wp_bind. eapply wp_node; [cbn; by rewrite lookup_insert_eq|]. apply wp_modify. cbn.
    apply wp_bind. eapply (wp_node h n1); [cbn; by rewrite lookup_insert_ne, lookup_insert_eq|].
    apply wp_bind, wp_modify. cbn. apply wp_bind, wp_var. cbn.
    eapply (wp_set_node h n1); [cbn; by rewrite lookup_insert_ne, lookup_insert_eq|]. cbn. fold n2.
    set (N1 := <[h := n1]> (nodes v)). set (N2 := <[t := nt <| next := Some h |>]> N1).
    assert (Hnt1 : N1 !! t = Some nt) by (by unfold N1; rewrite lookup_insert_ne).
    assert (Hok0 : node_ok (<[h := n2]> N2) 0 0 h) by (exists n2; by rewrite lookup_insert_eq).
    eapply HQ; cbn.
    + eapply shape_recycle; [exact H|done|apply H|done|done|..]; cbn.
      * rewrite Er2, (sh_free _ _ _ _ H), Ek. by destruct k.
      * done.
      * apply linked_insert; [done|]. apply linked_insert; [done|]. apply linked_insert; [done|apply (sh_linked_ts _ _ _ _ H)].
      * rewrite Er2. apply linked_snoc; try done.
        -- rewrite <- Ek. apply list.NoDup_app in Hd as (_ & _ & Hd). destruct held; [|done]. destruct g; [done|]. by apply list.NoDup_cons in Hd as [_ ?].
        -- intros X. by apply Hh2, Hsub.
        -- apply linked_insert; [intros X; by apply Hh2, Hsub|]. rewrite <- Ek. apply (sh_linked_g _ _ _ _ H).
      * intros a b p Hp Hpo. apply node_ok_insert; [done|]. eapply node_ok_same; [exact Hnt1|done|done|]. by apply node_ok_insert.
      * done.
    + done.
    + done.
    + intros k1 Hk1. rewrite contents_insert by done. unfold N2.
      rewrite (contents_same _ _ _ _ _ Hnt1) by done. by apply contents_insert.
    + done.
Qed.

(** Room for [room N g] more bytes. *)
Definition room (N : gmap positive sdio_list) (g : list positive) : Z := RX_BUFFER_SIZE * zlen g - zlen (contents N g).

Lemma wp_first_partly l m v ts p g held (Q : bool -> sys sdio_vars -> Prop) n :
  shape v ts g held -> head (rest held g) = Some p -> nodes v !! p = Some n ->
  Q (negb (tail n =? 0)) (mk_sys l m v) -> wp first_partly (mk_sys l m v) Q.
Proof.
  intros H Hp Hn HQ. unfold first_partly. apply wp_bind, wp_var. cbn [st]. rewrite (sh_free _ _ _ _ H), Hp.
  apply wp_bind. eapply wp_node; [exact Hn|]. apply wp_ret. unfold SDIO_TOKEN_SIZE. by rewrite Z.sub_0_r.
Qed.
Lemma wp_move_first l m v p g n (Q : unit -> sys sdio_vars -> Prop) :
  shape v [] (p :: g) false -> nodes v !! p = Some n -> tail n ≠ 0 ->
  (forall v', shape v' [p] g false -> same_tx v v' -> has_read v' = has_read v -> (forall k, contents (nodes v') k = contents (nodes v) k) ->
     (forall a b q, node_ok (nodes v) a b q -> node_ok (nodes v') a b q) ->
     Q tt (mk_sys l m v')) ->
  wp move_first (mk_sys l m v) Q.
Proof.
  intros H Hn Ht HQ. unfold move_first.
  apply wp_bind, wp_modify. cbn. rewrite (sh_free _ _ _ _ H). cbn.
  apply wp_bind, wp_modify. cbn. apply wp_bind, wp_var. cbn. rewrite (sh_free _ _ _ _ H). cbn.
  apply wp_bind. eapply wp_node; [exact Hn|]. apply wp_bind, wp_modify. cbn. apply wp_bind, wp_var. cbn.
  eapply wp_set_node; [exact Hn|]. cbn.
  pose proof (sh_linked_g _ _ _ _ H) as [(k & Hk & E) HL]. replace k with n in * by congruence.
  pose proof (sh_nodup _ _ _ _ H) as Hd. cbn in Hd. apply list.NoDup_cons in Hd as [Hp Hd].
  pose proof (sh_first _ _ _ _ H) as F1. apply list.Forall_singleton in F1 as (k' & Hk' & Hb & Ht2). replace k' with n in * by congruence.
  pose proof (sh_others _ _ _ _ H) as F2. cbn in F2.
  assert (Hok : forall a b q, node_ok (nodes v) a b q -> node_ok (<[p := n <| next := None |>]> (nodes v)) a b q).
  { intros a b q. by eapply node_ok_same. }
  assert (Hokl : forall a b l, Forall (node_ok (nodes v) a b) l -> Forall (node_ok (<[p := n <| next := None |>]> (nodes v)) a b) l).
  { intros a b l0. apply Forall_impl. intros q. apply Hok. }
  apply HQ; cbn; try done.
  - constructor; cbn; try done.
    + by apply list.NoDup_cons.
    + apply (sh_len _ _ _ _ H).
    + split; [|done]. exists (n <| next := None |>). by rewrite lookup_insert_eq.
    + by apply linked_insert.
    + intros Hg. rewrite (sh_free_tail _ _ _ _ H) by done. destruct g; [done|]. by rewrite last_cons_cons.
    + constructor; [|done]. exists (n <| next := None |>). rewrite lookup_insert_eq. split_and!; try done; cbn; lia.
    + apply Hokl. destruct g as [|q g]; [done|]. apply list.Forall_cons in F2 as [F2 _]. constructor; [|done]. by eapply node_ok_weaken; [| |exact F2].
    + apply Hokl. destruct g as [|q g]; [done|]. by apply list.Forall_cons in F2 as [_ F2].
    + apply (sh_size _ _ _ _ H).
    + apply (sh_tx _ _ _ _ H).
    + apply (sh_cb _ _ _ _ H).
  - intros l0. by eapply contents_same.
Qed.

(** What the handler keeps: the other direction, what the host has, the bytes on their way. *)
Record kept (l : list event) (v : sdio_vars) (ts g : list positive) (held : bool) (l' : list event) (v' : sdio_vars) (ts' g' : list positive) : Prop := mk_kept {
  kp_tx : same_tx v v';
  kp_started : tx_started (wires l') = tx_started (wires l);
  kp_received : received (wires l') = received (wires l);
  kp_busy : wr_busy <$> host_status (wires l') = wr_busy <$> host_status (wires l);
  kp_length : (length ts <= length ts')%nat;
  kp_contents : contents (nodes v') (ts' ++ g') = contents (nodes v) (ts ++ g);
  kp_room : held = true -> (exists k, g' = g ++ k) /\ room (nodes v) g <= room (nodes v') g' }.

Lemma sh_len_ts v ts h g : shape v ts g h -> ts ≠ [] \/ g ≠ [].
Proof. intros H. pose proof (sh_len _ _ _ _ H) as E. destruct ts, g; cbn in E; try (left; done); try (right; done). Qed.

(** The block [h] was read; [v] still counts it among those to send. *)
Lemma wp_read_process l m v h ts g held x (Q : unit -> sys sdio_vars -> Prop) :
  shape v (h :: ts) g held -> host_status (wires l) = Some x -> told x 0 -> rx_started (wires l) = false ->
  (forall l' v' ts' g', inv (mk_sys l' m v') ts' g' held -> kept l v ts g held l' v' ts' g' -> Q tt (mk_sys l' m v')) ->
  wp sdio_read_done_process (mk_sys l m v) Q.
Proof.
  intros H Hx [Hok Hx2] Hrx HQ.
  pose proof (sh_nodup _ _ _ _ H) as Hd. cbn in Hd. apply list.NoDup_cons in Hd as [Hh Hd]. rewrite not_elem_of_app in Hh.
  unfold sdio_read_done_process. apply wp_bind, wp_modify. cbn [log mem st].
  apply wp_bind. eapply (wp_free_head _ _ _ h ts g held); [by constructor; apply H|]. cbn. intros v1 H1 T1 R1 C1 Hh0.
  assert (Hch : contents (nodes v1) [h] = []) by (by apply contents_empty, list.Forall_singleton).
  assert (HC : contents (nodes v1) (ts ++ g ++ [h]) = contents (nodes v) (ts ++ g)).
  { rewrite app_assoc, contents_app, Hch, app_nil_r. apply C1. rewrite elem_of_app. tauto. }
  assert (HR : held = true -> (exists k, g ++ [h] = g ++ k) /\ room (nodes v) g <= room (nodes v1) (g ++ [h])).
  { intros _. split; [by exists [h]|]. unfold room. rewrite contents_app, Hch, app_nil_r, C1 by tauto. unfold RX_BUFFER_SIZE. zlia. }
  apply wp_bind, wp_var. cbn [st]. rewrite (sh_head _ _ _ _ H1).
  assert (Hmove : forall v2 p ts2 g2, shape v2 (p :: ts2) g2 held -> same_tx v v2 -> (length ts <= S (length ts2))%nat -> contents (nodes v2) (p :: ts2 ++ g2) = contents (nodes v) (ts ++ g) ->
     (held = true -> (exists k, g2 = g ++ k) /\ room (nodes v) g <= room (nodes v2) g2) ->
     wp offer_head (mk_sys l m v2) (λ _ s', wp (read <- var has_read ;; swhen (negb read) TRIG_TOHOST_INT) s' Q)).
  { intros v2 p ts2 g2 H2 T2 L2 C2 R2. destruct (shape_head _ _ _ _ _ H2) as (n & Hn & Hb & Ht & _).
    eapply wp_offer_head; [apply H2|exact Hn|exact Ht|apply H2|exact Hx|exact Hok|].
    intros l' y q Hq1 Hq2 Hq3 Hy Hwb El. apply wp_bind, wp_var. cbn. apply wp_trig. intros l2 E2.
    assert (Hc : zlen (content (nodes v2) p) = tail n) by (unfold content; rewrite Hn, zlen_take, Hb; unfold RX_BUFFER_SIZE; lia).
    eapply (HQ _ _ (p :: ts2) g2).
    - split.
      + destruct H2. constructor; try done.
      + unfold offer. cbn -[content zlen]. rewrite E2, El. cbn -[content zlen]. split; [|by rewrite Hc]. exists y. by rewrite Hc.
    - split; try (rewrite E2, El; done); try done. rewrite E2, El, Hx. cbn. by rewrite Hwb. }
  destruct ts as [|p ts2]; cbn [head].
  - apply wp_bind, wp_bind. destruct (rest held (g ++ [h])) as [|p r] eqn:Er.
    { exfalso. destruct held; [pose proof (sh_held _ _ _ _ H eq_refl); destruct g as [|? [|]]; cbn in Er; done|by destruct g]. }
    assert (exists n, nodes v1 !! p = Some n) as [n Hn].
    { pose proof (sh_linked_g _ _ _ _ H1) as HL. rewrite Er in HL. destruct HL as [(n & Hn & _) _]. eauto. }
    eapply wp_first_partly; [exact H1|by rewrite Er|exact Hn|].
    destruct held.
    + assert (tail n = 0) as ->.
      { pose proof (sh_others _ _ _ _ H1) as F. change (rest true (g ++ [h])) with (List.tl (g ++ [h])) in Er. rewrite Er in F.
        apply list.Forall_cons in F as [(k & Hk & _ & ?) _]. simplify_eq. lia. }
      cbn [negb swhen]. apply wp_ret, wp_bind, wp_var. cbn [st]. rewrite R1. cbn. apply wp_ret.
      eapply (HQ _ _ [] (g ++ [h])).
      * split; [done|]. cbn. split; [|done]. exists x. done.
      * split; try done.
    + cbn in Er. rewrite Er in *. destruct (decide (tail n = 0)) as [Hz|Hz].
      * rewrite Hz. cbn [negb swhen]. apply wp_ret, wp_bind, wp_var. cbn [st]. rewrite R1. cbn. apply wp_ret.
        eapply (HQ _ _ [] (p :: r)).
        -- split; [done|]. cbn. split; [by exists x|]. split_and!; try done. intros _.
           constructor; [|done]. pose proof (sh_first _ _ _ _ H1) as F. apply list.Forall_singleton in F as (k & Hk & Hb & Ht).
           exists k. split_and!; try done; simplify_eq; lia.
        -- split; try done.
      * zfalse (tail n =? 0). cbn [negb swhen]. apply wp_bind. eapply wp_move_first; [exact H1|exact Hn|done|].
        intros v2 H2 T2 _ C2 _. eapply Hmove; [exact H2| |cbn; lia| |done].
        -- destruct T1 as (A1 & A2 & A3), T2 as (B1 & B2 & B3). unfold same_tx. cbn in *. rewrite B1, B2, B3. done.
        -- rewrite C2. exact HC.
  - apply wp_bind. eapply Hmove; [exact H1|exact T1|done|exact HC|done].
Qed.

(** The status after something happened in the other direction. *)
Definition still_told (x y : sdio_slave_status) : Prop := forall len, told x len -> told y len.

Lemma inv_frame l m v l' m' v' ts g held x y :
  inv (mk_sys l m v) ts g held ->
  nodes v' = nodes v -> pHead_ToSend v' = pHead_ToSend v -> pTail_ToSend v' = pTail_ToSend v ->
  pHead_Sended v' = pHead_Sended v -> pTail_Sended v' = pTail_Sended v -> rx_que v' = rx_que v -> has_read v' = has_read v ->
  buf_ptr (tx_que v') = Some tx_area -> 0 <= datalen (tx_que v') <= 2048 -> zlen (tx_buffer v') = 2048 ->
  sdio_recv_data_callback_ptr v' = sdio_recv_data_callback_ptr v ->
  rx_started (wires l') = rx_started (wires l) -> host_status (wires l) = Some x -> host_status (wires l') = Some y -> still_told x y ->
  inv (mk_sys l' m' v') ts g held.
Proof.
  intros [H [(z & Hz & Tz) Ho]] E1 E2 E3 E4 E5 E6 E7 T1 T2 T3 E8 R Sx Sy Hst. cbn [log mem st] in *. split.
  - destruct H. constructor; cbn [st]; rewrite ?E1, ?E2, ?E3, ?E4, ?E5, ?E6, ?E8; done.
  - unfold offer. cbn [log st]. rewrite E1, E6, E7, R. split; [|done]. exists y. split; [done|]. apply Hst. congruence.
Qed.

Lemma land_bit1 a b : 0 <= a < 8 -> Z.testbit b 1 = true -> 0 <= Z.land a b < 8 /\ Z.testbit (Z.land a b) 1 = Z.testbit a 1.
Proof.
  intros Ha Hb. split; [|by rewrite Z.land_spec, Hb, andb_true_r].
  rewrite Z.land_comm, <- (Z.mod_small a 8) by done. change 8 with (2 ^ 3). rewrite <- Z.land_ones by done.
  rewrite Z.land_assoc, Z.land_comm, Z.land_assoc. rewrite Z.land_comm, Z.land_assoc, (Z.land_comm _ (Z.ones 3)), <- Z.land_assoc, Z.land_comm.
  rewrite Z.land_ones by done. apply Z.mod_pos_bound. done.
Qed.
Lemma lor_bit1 a : 0 <= a < 8 -> 0 <= Z.lor a 1 < 8 /\ Z.testbit (Z.lor a 1) 1 = Z.testbit a 1.
Proof.
  intros Ha. split; [|by rewrite Z.lor_spec, orb_false_r].
  assert (a = 0 \/ a = 1 \/ a = 2 \/ a = 3 \/ a = 4 \/ a = 5 \/ a = 6 \/ a = 7) as Hc by lia.
  destruct Hc as [->|[->|[->|[->|[->|[->|[->| ->]]]]]]]; split; (by apply Z.leb_le) || (by apply Z.ltb_lt).
Qed.

Lemma wp_write_done l m v x (Q : unit -> sys sdio_vars -> Prop) :
  host_status (wires l) = Some x -> status_ok x ->
  (forall l' y, still_told x y -> status_ok y -> wr_busy y = 1 -> wires l' = (wires l) <| host_status := Some y |> -> Q tt (mk_sys l' m v)) ->
  wp tx_buff_write_done (mk_sys l m v) Q.
Proof.
  intros Hx Hok HQ. unfold tx_buff_write_done. apply wp_bind. eapply wp_read_status; [exact Hx|]. intros l1 E1.
  unfold status_ok in Hok. destruct (land_bit1 (intr_no x) (Z.lnot TX_AVAILIBLE)) as [Hi Hb]; [tauto|done|].
  apply wp_write_status; [unfold status_ok; cbn -[Z.land]; intuition lia|]. intros l2 E2.
  pose proof (Z.mod_pos_bound (comm_cnt x + 1) 8 eq_refl).
  eapply HQ; [| | |by rewrite E2, E1]; unfold still_told, told, status_ok; cbn -[Z.land Z.testbit]; [|intuition lia|done].
  intros len (_ & T1 & T2 & T3). rewrite Hb. intuition lia.
Qed.
Lemma wp_handle_done l m v x (Q : unit -> sys sdio_vars -> Prop) :
  host_status (wires l) = Some x -> status_ok x ->
  (forall l' y q, still_told x y -> status_ok y -> wr_busy y = 0 -> wires l' = (wires l) <| tx_started := true |> <| host_status := Some y |> ->
     buf_ptr q = buf_ptr (tx_que v) -> datalen q = 0 -> owner q = 1 -> Q tt (mk_sys l' m (v <| tx_que := q |>))) ->
  wp tx_buff_handle_done (mk_sys l m v) Q.
Proof.
  intros Hx Hok HQ. unfold tx_buff_handle_done. apply wp_bind, wp_modify. cbn [log mem st].
  apply wp_bind. eapply wp_read_status; [exact Hx|]. intros l1 E1. apply wp_bind, wp_start_tx. intros l2 E2.
  unfold status_ok in Hok. destruct (lor_bit1 (intr_no x)) as [Hi Hb]; [tauto|].
  apply wp_write_status; [unfold status_ok, TX_AVAILIBLE; cbn -[Z.lor]; intuition lia|]. intros l3 E3.
  pose proof (Z.mod_pos_bound (comm_cnt x) 8 eq_refl).
  eapply HQ; [| | |by rewrite E3, E2, E1|done..]; unfold still_told, told, status_ok, TX_AVAILIBLE; cbn -[Z.lor Z.testbit]; [|intuition lia|done].
  intros len (_ & T1 & T2 & T3). rewrite Hb. intuition lia.
Qed.

(** The log only grows. *)
Lemma grows_record {X} (e : event) : emits (X := X) (λ _, True) (record e).
Proof. intros s a s' [= <- <-]. exists [e]. split; [done|by constructor]. Qed.
Lemma grows_modify f : emits (X := sdio_vars) (λ _, True) (modify f).
Proof. intros s a s' [= <- <-]. exists []. split; [by rewrite app_nil_r|done]. Qed.
Hint Resolve grows_record grows_modify : emits.
Lemma grows_done : emits (X := sdio_vars) (λ _, True) (tx_buff_handle_done ;; TRIG_TOHOST_INT).
Proof.
  unfold tx_buff_handle_done, TRIG_TOHOST_INT, SET_PERI_REG_MASK, CLEAR_PERI_REG_MASK, read_status, write_status, READ_PERI_REG, WRITE_PERI_REG.
  eauto 40 with emits.
Qed.
Lemma wp_grows {A} (m : F sdio_vars A) s (Q : A -> sys sdio_vars -> Prop) :
  emits (λ _, True) m -> wp m s (λ a s', (exists k, log s' = log s ++ k) -> Q a s') -> wp m s Q.
Proof. intros Hm (a & s' & E & HQ). exists a, s'. split; [done|]. apply HQ. destruct (Hm s a s' E) as (k & Ek & _). by exists k. Qed.

Lemma wp_hand_over l m v d x (Q : unit -> sys sdio_vars -> Prop) :
  bslice (tx_buffer v) 0 (datalen (tx_que v)) = Some d -> buf_ptr (tx_que v) = Some tx_area ->
  host_status (wires l) = Some x -> status_ok x ->
  (u32 (sdk_ret l (at_fake_uart_rx d)) = datalen (tx_que v) -> forall l' y q, still_told x y -> status_ok y -> wr_busy y = 0 ->
     wires l' = (wires l) <| tx_started := true |> <| host_status := Some y |> ->
     buf_ptr q = Some tx_area -> datalen q = 0 -> owner q = 1 ->
     (exists k, l' = l ++ [Got (at_fake_uart_rx d) (u32 (sdk_ret l (at_fake_uart_rx d)))] ++ k) -> Q tt (mk_sys l' m (v <| tx_que := q |>))) ->
  (u32 (sdk_ret l (at_fake_uart_rx d)) ≠ datalen (tx_que v) ->
     Q tt (mk_sys (l ++ [Got (at_fake_uart_rx d) (u32 (sdk_ret l (at_fake_uart_rx d)))]) m v)) ->
  wp (hand_over fp_sdio_recv_data_callback) (mk_sys l m v) Q.
Proof.
  intros Hd Hb Hx Hok HT HF. unfold hand_over. apply wp_bind, wp_var. cbn [st]. apply wp_bind. unfold described. rewrite Hb.
  apply wp_bind, (wp_lift _ tx_area); [done|]. apply wp_bind, wp_var. cbn [st]. eapply wp_lift; [exact Hd|].
  apply wp_bind. unfold call_recv, sdio_recv_data_callback. apply wp_ask. cbn [log mem st].
  set (l1 := l ++ [_]). assert (E1 : wires l1 = wires l) by (unfold l1; by rewrite wires_snoc).
  apply wp_when; intros Hc; [|apply HF; by apply Z.eqb_neq].
  apply Z.eqb_eq in Hc. specialize (HT Hc). apply wp_grows; [apply grows_done|]. apply wp_bind. eapply wp_handle_done; [by rewrite E1|done|].
  intros l2 y q Hy Hyok Hw E2 Q1 Q2 Q3. apply wp_trig. intros l3 E3 [k Ek]. cbn [log] in Ek. eapply HT; try done; [|congruence|].
  - by rewrite E3, E2, E1.
  - exists k. by rewrite Ek, app_assoc.
Qed.

Lemma bslice_tx v : 0 <= datalen (tx_que v) <= 2048 -> zlen (tx_buffer v) = 2048 -> exists d, bslice (tx_buffer v) 0 (datalen (tx_que v)) = Some d.
Proof. intros. rewrite bslice_Some by lia. eauto. Qed.

(** The callback, or its absence, keeps the invariant. *)
Lemma wp_take l m v ts g held (Q : unit -> sys sdio_vars -> Prop) :
  inv (mk_sys l m v) ts g held ->
  (forall l' v', inv (mk_sys l' m v') ts g held -> nodes v' = nodes v -> received (wires l') = received (wires l) ->
     rx_started (wires l') = rx_started (wires l) -> Q tt (mk_sys l' m v')) ->
  wp (cb <- var sdio_recv_data_callback_ptr ;;
      match cb with Some f => hand_over f | None => tx_buff_handle_done ;; TRIG_TOHOST_INT end) (mk_sys l m v) Q.
Proof.
  intros HI HQ. pose proof HI as [H [(x & Hx & Tx) _]]. cbn [log st] in *.
  pose proof (sh_tx _ _ _ _ H) as (B1 & B2 & B3).
  apply wp_bind, wp_var. cbn [st]. destruct (sh_cb _ _ _ _ H) as [-> | ->].
  - apply wp_bind. eapply wp_handle_done; [exact Hx|apply Tx|]. intros l1 y q Hy Hyok Hw E1 Q1 Q2 Q3.
    apply wp_trig. intros l2 E2. eapply HQ; [|done|by rewrite E2, E1|by rewrite E2, E1].
    eapply inv_frame; [exact HI|done..| | | | |by rewrite E2, E1|exact Hx|by rewrite E2, E1|done]; cbn; [congruence|lia|done|done].
  - destruct (bslice_tx v B2 B3) as [d Hd]. eapply wp_hand_over; [exact Hd|done|exact Hx|apply Tx| |].
    + intros _ l1 y q Hy Hyok Hw E1 Q1 Q2 Q3 _. eapply HQ; [|done|by rewrite E1|by rewrite E1].
      eapply inv_frame; [exact HI|done..| | | | |by rewrite E1|exact Hx|by rewrite E1|done]; cbn; [done|lia|done|done].
    + intros _. eapply HQ; [|done|by rewrite wires_snoc|by rewrite wires_snoc].
      eapply inv_frame; [exact HI|done..|by rewrite wires_snoc|exact Hx|by rewrite wires_snoc|by intros ?].
Qed.

(** From [s] to [s'], with at most [k] blocks read: the bytes the host got and
    those on their way together do not change; a loader does not find less room. *)
Definition flows (k : nat) (s : sys sdio_vars) (g : list positive) (ts : list positive) (held : bool) (s' : sys sdio_vars) (ts' g' : list positive) : Prop :=
  inv s' ts' g' held /\ (length ts <= k + length ts')%nat /\
  received (wires (log s')) ++ contents (nodes (st s')) (ts' ++ g') = received (wires (log s)) ++ contents (nodes (st s)) (ts ++ g) /\
  (held = true -> (exists k, g' = g ++ k) /\ room (nodes (st s)) g <= room (nodes (st s')) g').

Lemma wp_intr l m v (Q : unit -> sys sdio_vars -> Prop) (P : M unit) bit other :
  let w := u32 (hw_read l SLC_INT_STATUS) in Z.land w bit ≠ 0 -> Z.land w other = 0 ->
  (bit = SLC_RX_EOF_INT_ENA /\ other = SLC_TX_EOF_INT_ENA /\ P = (rx_buff_read_done ;; sdio_read_done_process) \/
   bit = SLC_TX_EOF_INT_ENA /\ other = SLC_RX_EOF_INT_ENA /\ P = (tx_buff_write_done ;; cb <- var sdio_recv_data_callback_ptr ;;
      match cb with Some f => hand_over f | None => tx_buff_handle_done ;; TRIG_TOHOST_INT end)) ->
  (forall l', wires l' = wires l -> wp P (mk_sys l' m v) Q) -> wp sdio_slave_isr (mk_sys l m v) Q.
Proof.
  intros w Hb Ho HP HQ. unfold sdio_slave_isr. apply wp_bind, wp_read. cbn [log mem st]. fold w.
  destruct (Z.eqb_spec w 0) as [E|_]; [by rewrite E in Hb|]. apply wp_bind, wp_write. cbn [log mem st].
  set (l' := (_ ++ _) ++ _). assert (E : wires l' = wires l).
  { unfold l'. rewrite !wires_snoc. done. }
  apply wp_bind. destruct HP as [(-> & -> & ->)|(-> & -> & ->)].
  - zfalse (Z.land w SLC_RX_EOF_INT_ENA =? 0). rewrite Ho. cbn [negb swhen Z.eqb].
    eapply wp_mono; [by apply HQ|]. cbv beta. intros [] s' HQ'. by apply wp_ret.
  - zfalse (Z.land w SLC_TX_EOF_INT_ENA =? 0). rewrite Ho. cbn [negb swhen Z.eqb]. apply wp_ret. by apply HQ.
Qed.

Lemma wp_host_reads l m v h ts g held :
  inv (mk_sys l m v) (h :: ts) g held ->
  wp (host_acts HostReads) (mk_sys l m v) (λ _ s', exists ts' g',
    flows 1 (mk_sys l m v) g (h :: ts) held s' ts' g' /\ received (wires (log s')) = received (wires l) ++ content (nodes v) h).
Proof.
  intros [H [(x & Hx & Tx) (Hr & Hs & Hp & Hl)]]. cbn [log st] in *.
  destruct (shape_head _ _ _ _ _ H) as (n & Hn & Hb & Ht & _).
  assert (Hc : content (nodes v) h = take (Z.to_nat (tail n)) (buffer n)) by (unfold content; by rewrite Hn).
  unfold host_acts. apply wp_bind, wp_get. cbn [log]. rewrite Hs. cbn [swhen].
  apply wp_bind, wp_var. cbn [st]. apply wp_bind. unfold described. rewrite Hp.
  apply wp_bind, (wp_lift _ (node_buffer h)); [done|]. apply wp_bind. eapply wp_node; [exact Hn|].
  apply (wp_lift _ (content (nodes v) h)).
  { unfold bslice. rewrite Hl, Hc, zlen_take, Hb. unfold RX_BUFFER_SIZE.
    replace (Z.max 0 (Z.min (tail n) 2048)) with (tail n) by lia. ztrue (0 <=? 0). ztrue (0 <=? tail n). ztrue (0 + tail n <=? 2048). done. }
  apply wp_bind, wp_call. cbn [log mem st]. set (d := content (nodes v) h). set (l1 := l ++ [Do (sdio_host_read d)]).
  assert (E1 : wires l1 = (wires l) <| rx_started := false |> <| received := received (wires l) ++ d |>) by (unfold l1; by rewrite wires_snoc).
  destruct (read_interrupts l d) as [I1 I2].
  eapply wp_intr; [exact I1|exact I2|by left|]. intros l2 E2. rewrite E1 in E2.
  apply wp_bind. eapply wp_read_done; [rewrite E2; exact Hx|apply Tx|]. intros l3 y Ty Hw E3.
  eapply wp_read_process; [exact H|by rewrite E3|exact Ty|by rewrite E3, E2|].
  intros l4 v4 ts' g' HI K. assert (ER : received (wires l4) = received (wires l) ++ d) by (by rewrite (kp_received _ _ _ _ _ _ _ _ _ K), E3, E2).
  exists ts', g'. split; [|done]. split; [done|]. split; [pose proof (kp_length _ _ _ _ _ _ _ _ _ K); cbn; lia|]. cbn [log st]. split.
  - rewrite ER, (kp_contents _ _ _ _ _ _ _ _ _ K), <- app_assoc. done.
  - apply (kp_room _ _ _ _ _ _ _ _ _ K).
Qed.

Definition reads (a : host_action) : nat := match a with HostReads => 1 | HostWrites _ => 0 end.
Lemma wp_host_acts a l m v ts g held :
  inv (mk_sys l m v) ts g held ->
  wp (host_acts a) (mk_sys l m v) (λ _ s', exists ts' g', flows (reads a) (mk_sys l m v) g ts held s' ts' g').
Proof.
  intros HI. assert (Hid : flows (reads a) (mk_sys l m v) g ts held (mk_sys l m v) ts g) by (split; [done|]; split; [lia|]; split; [done|]; intros _; split; [exists []; by rewrite app_nil_r|done]).
  destruct a as [|d].
  - destruct ts as [|h ts].
    + destruct HI as [H [Hx (Hr & Hs & _)]]. unfold host_acts. apply wp_bind, wp_get. cbn [log] in *. rewrite Hs. apply wp_ret. eauto.
    + eapply wp_mono; [by apply wp_host_reads|]. cbv beta. intros _ s' (ts' & g' & Hf & _). eauto.
  - unfold host_acts. apply wp_bind, wp_get. cbn [log]. apply wp_when; [|eauto]. intros Hc. apply andb_true_iff in Hc as [Hc1 Hc2].
    apply andb_true_iff in Hc1 as [Hc0 Hc1]. unfold TX_BUFFER_SIZE in Hc2. apply Z.ltb_lt in Hc1. apply Z.leb_le in Hc2.
    pose proof HI as [H [(x & Hx & Tx) Hof]]. cbn [log st] in *. pose proof (sh_tx _ _ _ _ H) as (B1 & B2 & B3).
    destruct (bsplice_Some (tx_buffer v) 0 d) as (b & Eb & Hb & _); [lia|lia|].
    apply wp_bind, wp_var. cbn [st]. apply wp_bind, (wp_lift _ b); [done|]. apply wp_bind, wp_modify. cbn [log mem st].
    apply wp_bind, wp_call. cbn [log mem st]. set (v1 := v <| tx_buffer := b |> <| tx_que := _ |>). set (l1 := l ++ [_]).
    assert (E1 : wires l1 = (wires l) <| tx_started := false |>) by (unfold l1; by rewrite wires_snoc).
    destruct (write_interrupts l d) as [I1 I2].
    eapply wp_intr; [exact I1|exact I2|by right|]. intros l2 E2. rewrite E1 in E2.
    apply wp_bind. eapply wp_write_done; [rewrite E2; exact Hx|apply Tx|]. intros l3 y Hy Hyok Hw E3.
    assert (HI3 : inv (mk_sys l3 m v1) ts g held).
    { eapply inv_frame; [exact HI|done..| | | | |by rewrite E3, E2|exact Hx|by rewrite E3, E2|done]; cbn; [done| |lia|done].
      unfold u12. rewrite Z.mod_small; lia. }
    eapply wp_take; [exact HI3|]. intros l4 v4 HI4 N4 R4 _. exists ts, g. split; [done|]. split; [cbn; lia|]. cbn [log st].
    rewrite N4, R4, E3, E2. split; [done|]. intros _. split; [exists []; by rewrite app_nil_r|done].
Qed.

Definition reads_of (l : list host_action) : nat := sum_list (reads <$> l).
End Laws.

Section Loading.
Context `{HE : Env} {HS : Slc} (host : list event -> list host_action).
Abbreviation M := (F sdio_vars).

Lemma wp_window l m v ts g held :
  inv (mk_sys l m v) ts g held ->
  wp (window host) (mk_sys l m v) (λ _ s', exists ts' g', flows (reads_of (host l)) (mk_sys l m v) g ts held s' ts' g').
Proof.
  intros HI. unfold window. apply wp_bind, wp_get. cbn [log].
  eapply (wp_for _ (λ k s', exists ts' g', flows (reads_of (host l) - reads_of k) (mk_sys l m v) g ts held s' ts' g' /\ (reads_of k <= reads_of (host l))%nat)).
  - exists ts, g. split; [|done]. split; [done|]. split; [lia|]. split; [done|]. intros _. split; [exists []; by rewrite app_nil_r|done].
  - intros a k [l1 m1 v1] (ts1 & g1 & (HI1 & L1 & F1 & R1) & Hk). cbn in Hk. fold (reads_of k) in Hk.
    eapply wp_mono; [by apply wp_host_acts|]. cbv beta.
    intros _ s2 (ts2 & g2 & HI2 & L2 & F2 & R2). exists ts2, g2. split; [|lia]. split; [done|].
    split; [cbn in L1; fold (reads_of k) in L1; lia|]. split; [by rewrite F2|].
    intros Hh. destruct (R1 Hh) as [(k1 & ->) R1'], (R2 Hh) as [(k2 & ->) R2']. split; [exists (k1 ++ k2); by rewrite app_assoc|]. by etrans.
  - intros s' (ts' & g' & Hf & _). exists ts', g'. by rewrite Nat.sub_0_r in Hf.
Qed.

(** ** Loading *)

(** The loader takes the first free block. *)
Lemma shape_pop v v' ts t g :
  shape v ts (t :: g) false -> v' = v <| pHead_Sended := head g |> -> shape v' ts (t :: g) true.
Proof.
  intros H ->. destruct (sh_linked_g _ _ _ _ H) as [_ HL]. destruct H. constructor; cbn; try done.
Qed.

(** It puts the block back, filled a bit more. *)
Lemma shape_push v v' ts t g n1 :
  shape v ts (t :: g) true -> v' = v <| nodes := <[t := n1]> (nodes v) |> <| pHead_Sended := Some t |> ->
  zlen (buffer n1) = RX_BUFFER_SIZE -> 0 <= tail n1 <= 2047 -> next n1 = head g -> shape v' ts (t :: g) false.
Proof.
  intros H -> Hb Ht Hn. pose proof (sh_nodup _ _ _ _ H) as Hd. apply list.NoDup_app in Hd as (Hd1 & Hd2 & Hd3).
  apply list.NoDup_cons in Hd3 as [Htg Hd3]. assert (Hts : t ∉ ts) by (intros X; apply (Hd2 _ X); by left).
  pose proof (sh_others _ _ _ _ H) as F. cbn in F. destruct H. constructor; cbn; try done.
  - by apply linked_insert.
  - split; [exists n1; by rewrite lookup_insert_eq|]. by apply linked_insert.
  - by apply nodes_ok_insert.
  - constructor; [|done]. exists n1. by rewrite lookup_insert_eq.
  - by apply nodes_ok_insert.
Qed.

(** Or, when it is full, appends it to the blocks to send; [N] is the store afterwards. *)
Lemma shape_full v v' ts t g n1 :
  shape v ts (t :: g) true -> nodes v' !! t = Some n1 -> zlen (buffer n1) = RX_BUFFER_SIZE -> tail n1 = 2048 ->
  linked (nodes v') (ts ++ [t]) -> linked (nodes v') g -> (forall a b p, p ≠ t -> node_ok (nodes v) a b p -> node_ok (nodes v') a b p) ->
  pHead_ToSend v' = head (ts ++ [t]) -> pTail_ToSend v' = Some t -> pHead_Sended v' = pHead_Sended v -> pTail_Sended v' = pTail_Sended v ->
  blocksize (rx_que v') = RX_BUFFER_SIZE -> same_tx v v' -> shape v' (ts ++ [t]) g false.
Proof.
  intros H Hn Hb Ht HL1 HL2 Hok E1 E2 E3 E4 E5 (T1 & T2 & T3). pose proof (sh_nodup _ _ _ _ H) as Hd.
  pose proof Hd as Hd0. apply list.NoDup_app in Hd0 as (Hd1 & Hd2 & Hd3).
  apply list.NoDup_cons in Hd3 as [Htg Hd3]. assert (Hts : t ∉ ts) by (intros X; apply (Hd2 _ X); by left).
  assert (Hall : forall a b k, t ∉ k -> Forall (node_ok (nodes v) a b) k -> Forall (node_ok (nodes v') a b) k).
  { intros a b k Hk Hf. rewrite list.Forall_forall in *. intros p Hp. apply Hok; [by intros ->|by apply Hf]. }
  pose proof (sh_others _ _ _ _ H) as F. cbn in F.
  constructor; cbn; try done.
  - by rewrite <- app_assoc.
  - rewrite <- app_assoc. apply (sh_len _ _ _ _ H).
  - intros _. by rewrite last_snoc.
  - rewrite E3. apply (sh_free _ _ _ _ H).
  - intros Hg. rewrite E4, (sh_free_tail _ _ _ _ H) by done. destruct g; [done|]. by rewrite last_cons_cons.
  - apply Forall_app. split; [apply Hall; [done|apply (sh_full _ _ _ _ H)]|]. constructor; [|done]. exists n1. split_and!; try done; lia.
  - destruct g as [|q g]; [done|]. cbn. apply list.Forall_cons in F as [F _]. constructor; [|done].
    eapply node_ok_weaken; [| |apply Hok; [|exact F]]; [lia|lia|]. intros ->. apply Htg. by left.
  - destruct g as [|q g]; [done|]. cbn. apply list.Forall_cons in F as [_ F]. apply Hall; [|done]. intros X. apply Htg. by right.
  - rewrite T1, T2. apply (sh_tx _ _ _ _ H).
  - rewrite T3. apply (sh_cb _ _ _ _ H).
Qed.

(** Bytes written behind the first [k]. *)
Lemma take_bsplice b k d b' : bsplice b k d = Some b' -> take (Z.to_nat (k + zlen d)) b' = take (Z.to_nat k) b ++ d /\ zlen b' = zlen b.
Proof.
  intros E. destruct (bsplice_inv _ _ _ _ E) as (H0 & H1 & H2 & H3). pose proof (zlen_nonneg d). split; [|done].
  apply list_ext_nthZ; [zlia|]. intros i Hi. rewrite zlen_take in Hi. rewrite nthZ_take by lia. rewrite H3 by lia.
  rewrite nthZ_app by lia. rewrite zlen_take. replace (Z.max 0 (Z.min k (zlen b))) with k by lia.
  destruct (Z.ltb_spec i k).
  - rewrite nthZ_take by lia. zfalse (k <=? i). done.
  - ztrue (k <=? i). ztrue (i <? k + zlen d). done.
Qed.

(** The block [p], the only one to send, is offered. *)
Lemma wp_try_to_load l m v p g (Q : unit -> sys sdio_vars -> Prop) n x :
  pHead_ToSend v = Some p -> nodes v !! p = Some n -> zlen (buffer n) = RX_BUFFER_SIZE -> 1 <= tail n <= 2048 -> blocksize (rx_que v) = RX_BUFFER_SIZE ->
  has_read v = true -> host_status (wires l) = Some x -> status_ok x ->
  (forall l' v', (exists q, blocksize q = RX_BUFFER_SIZE /\ v' = v <| rx_que := q |> <| has_read := false |>) ->
     offer v' (wires l') [p] g false -> received (wires l') = received (wires l) -> Q tt (mk_sys l' m v')) ->
  wp sdio_try_to_load (mk_sys l m v) Q.
Proof.
  intros Hp Hn Hb Ht Hbs Hr Hx Hok HQ. unfold sdio_try_to_load. apply wp_bind, wp_var. cbn [st]. rewrite Hr.
  apply wp_bind, wp_var. cbn [st]. rewrite Hp. rewrite bool_decide_true by done. cbn [andb swhen].
  apply wp_bind. eapply wp_offer_head; [done|exact Hn|done|done|exact Hx|done|]. intros l1 y q Q1 Q2 Q3 Ty Hw E1.
  apply wp_trig. intros l2 E2. eapply HQ; [by exists q| |by rewrite E2, E1].
  assert (Hc : zlen (content (nodes v) p) = tail n) by (unfold content; rewrite Hn, zlen_take, Hb; unfold RX_BUFFER_SIZE; lia).
  unfold offer. rewrite E2, E1. cbn -[content zlen]. split; [exists y; by rewrite Hc|]. by rewrite Hc.
Qed.

(** Between the rounds nothing may be on offer although a block is partly filled. *)
Definition loose (s : sys sdio_vars) (ts g : list positive) : Prop := shape (st s) ts g false /\ offer (st s) (wires (log s)) ts g true.
(** Nothing is on offer, and the first free block has something in it. *)
Definition partly (s : sys sdio_vars) (ts g : list positive) : Prop :=
  ts = [] -> exists p r k, g = p :: r /\ nodes (st s) !! p = Some k /\ tail k ≠ 0.
(** [s'] has [n] bytes of [data] more than [s]. *)
Definition took (s : sys sdio_vars) (ts g : list positive) (data : list Z) (n : Z) (s' : sys sdio_vars) (ts' g' : list positive) : Prop :=
  received (wires (log s')) ++ contents (nodes (st s')) (ts' ++ g') =
  received (wires (log s)) ++ contents (nodes (st s)) (ts ++ g) ++ take (Z.to_nat n) data.

Lemma loose_pop l m v t ts g :
  loose (mk_sys l m v) ts (t :: g) ->
  forall l', wires l' = wires l -> inv (mk_sys l' m (v <| pHead_Sended := head g |>)) ts (t :: g) true.
Proof.
  intros [H Ho] l' El. cbn [st log] in *. split; [by eapply shape_pop|]. cbn [st log]. rewrite El. exact Ho.
Qed.

(** The two ends of a round. *)
Lemma wp_put_back l m v t ts g n d b (Q : unit -> sys sdio_vars -> Prop) :
  inv (mk_sys l m v) ts (t :: g) true -> nodes v !! t = Some n -> bsplice (buffer n) (tail n) d = Some b ->
  0 < zlen d -> tail n + zlen d <= 2047 ->
  (forall l' v', loose (mk_sys l' m v') ts (t :: g) -> partly (mk_sys l' m v') ts (t :: g) ->
     took (mk_sys l m v) ts (t :: g) d (zlen d) (mk_sys l' m v') ts (t :: g) -> Q tt (mk_sys l' m v')) ->
  wp (put_back t b (zlen d)) (mk_sys l m v) Q.
Proof.
  unfold put_back.
  intros [H Ho] Hn Hb Hd Hl HQ. cbn [st log] in *. destruct (take_bsplice _ _ _ _ Hb) as [Hc Hz].
  assert (Hnb : zlen (buffer n) = RX_BUFFER_SIZE /\ 0 <= tail n).
  { pose proof (sh_first _ _ _ _ H) as F. apply list.Forall_singleton in F as (k & Hk & F1 & F2). simplify_eq. lia. }
  apply wp_bind. eapply wp_set_node; [exact Hn|]. cbn [log mem st].
  apply wp_bind, wp_call. cbn [log mem st]. apply wp_bind, wp_var. cbn. rewrite (sh_free _ _ _ _ H). cbn.
  apply wp_bind. eapply wp_set_node; [cbn; by rewrite lookup_insert_eq|]. cbn. apply wp_modify. cbn. rewrite insert_insert_eq.
  match goal with |- Q tt (mk_sys _ _ ?x) => set (v' := x) end.
  set (n2 := mk_list b (tail n + zlen d) (head g)).
  assert (Hs : shape v' ts (t :: g) false) by (eapply (shape_push v v' ts t g n2); [exact H|done|cbn; lia..|done]).
  pose proof (sh_nodup _ _ _ _ H) as Hnd. apply list.NoDup_app in Hnd as (_ & Hnd & Hnd2). apply list.NoDup_cons in Hnd2 as [Htg _].
  assert (Hts : t ∉ ts) by (intros X; apply (Hnd _ X); by left).
  assert (Hct : content (nodes v') t = content (nodes v) t ++ d) by (unfold content; cbn; by rewrite lookup_insert_eq, Hn).
  eapply HQ.
  - split; [done|]. cbn [st log]. unfold offer in *. rewrite wires_snoc. cbn [wire_step]. destruct ts as [|p ts]; [|cbn in *; rewrite content_insert; [done|]].
    + destruct Ho as [Ho1 (Ho2 & Ho3 & Ho4)]. split; [done|]. split; [done|]. split; [done|]. done.
    + intros ->. apply Hts. by left.
  - intros _. exists t, g, n2. cbn. rewrite lookup_insert_eq. split_and!; try done. cbn. lia.
  - unfold took. cbn [st log]. rewrite wires_snoc. cbn [wire_step]. f_equal. rewrite !contents_app, !contents_cons, Hct.
    replace (contents (nodes v') ts) with (contents (nodes v) ts) by (symmetry; by apply contents_insert).
    replace (contents (nodes v') g) with (contents (nodes v) g) by (symmetry; by apply contents_insert).
    rewrite (contents_empty _ g) by apply (sh_others _ _ _ _ H). rewrite !app_nil_r, <- app_assoc, (take_ge d); [done|unfold zlen; lia].
Qed.

Lemma offer_nodes v v' w ts g g' held :
  (forall p, p ∈ ts -> content (nodes v') p = content (nodes v) p) -> rx_que v' = rx_que v -> has_read v' = has_read v ->
  offer v w ts g held -> ts ≠ [] -> offer v' w ts g' held.
Proof.
  intros Hc E1 E2 Ho Hts. unfold offer in *. destruct ts as [|p ts]; [done|]. rewrite E1, E2, Hc by (by left). done.
Qed.

Lemma wp_put_last l m v t ts g n d b (Q : unit -> sys sdio_vars -> Prop) :
  inv (mk_sys l m v) ts (t :: g) true -> nodes v !! t = Some n -> bsplice (buffer n) (tail n) d = Some b -> tail n + zlen d = 2048 ->
  (forall l' v', loose (mk_sys l' m v') (ts ++ [t]) g -> Forall (node_ok (nodes v') 0 0) g ->
     took (mk_sys l m v) ts (t :: g) d (zlen d) (mk_sys l' m v') (ts ++ [t]) g -> Q tt (mk_sys l' m v')) ->
  wp (put_last t b (zlen d)) (mk_sys l m v) Q.
Proof.
  intros [H Ho] Hn Hb Hl HQ. cbn [st log] in *. destruct (take_bsplice _ _ _ _ Hb) as [Hc Hz].
  assert (Hnb : zlen (buffer n) = RX_BUFFER_SIZE).
  { pose proof (sh_first _ _ _ _ H) as F. apply list.Forall_singleton in F as (k & Hk & F1 & F2). by simplify_eq. }
  pose proof (sh_nodup _ _ _ _ H) as Hnd. pose proof Hnd as Hnd0. apply list.NoDup_app in Hnd0 as (Hnd1 & Hnd0 & Hnd2). apply list.NoDup_cons in Hnd2 as [Htg _].
  assert (Hts : t ∉ ts) by (intros X; apply (Hnd0 _ X); by left).
  set (n1 := n <| buffer := b |> <| tail := tail n + zlen d |>). set (n2 := n1 <| next := None |>).
  assert (Hend : forall l' v' N', nodes v' = <[t := n2]> N' -> (forall k, t ∉ k -> contents N' k = contents (nodes v) k) ->
    (forall a b p, p ≠ t -> node_ok (nodes v) a b p -> node_ok N' a b p) -> linked N' g ->
    linked (nodes v') (ts ++ [t]) ->
    pHead_ToSend v' = head (ts ++ [t]) -> pTail_ToSend v' = Some t -> pHead_Sended v' = pHead_Sended v -> pTail_Sended v' = pTail_Sended v ->
    blocksize (rx_que v') = RX_BUFFER_SIZE -> same_tx v v' -> offer v' (wires l') (ts ++ [t]) g true -> received (wires l') = received (wires l) ->
    Q tt (mk_sys l' m v')).
  { intros l' v' N' EN HC Hok HLg HL E1 E2 E3 E4 E5 E6 Ho' R. eapply HQ.
    - split; [|exact Ho']. cbn [st]. eapply (shape_full v v' ts t g n2); rewrite ?EN; try done.
      + by rewrite lookup_insert_eq.
      + cbn. by rewrite Hz.
      + by rewrite <- EN.
      + by apply linked_insert.
      + intros a b0 p Hp Hpo. apply node_ok_insert; [done|]. by apply Hok.
    - pose proof (sh_others _ _ _ _ H) as F. cbn in F. rewrite EN. apply nodes_ok_insert; [done|].
      rewrite list.Forall_forall in *. intros p Hp. apply Hok; [by intros ->|by apply F].
    - unfold took. cbn [st log]. rewrite R. f_equal. rewrite EN, <- app_assoc. change ([t] ++ g) with (t :: g). rewrite !contents_app, !contents_cons.
      rewrite !contents_insert, !HC by done. rewrite (contents_empty (nodes v) g) by apply (sh_others _ _ _ _ H). rewrite !app_nil_r, <- app_assoc. f_equal.
      unfold content. rewrite lookup_insert_eq, Hn. rewrite (take_ge d); [exact Hc|unfold zlen; lia]. }
  assert (Hbs : 1 <= tail n1 <= 2048) by (cbn; lia).
  unfold put_last. apply wp_bind. eapply wp_set_node; [exact Hn|]. cbn [log mem st]. fold n1.
  apply wp_bind, wp_call. cbn [log mem st]. apply wp_bind, wp_var. cbn. rewrite (sh_head _ _ _ _ H).
  set (l1 := l ++ [_]). assert (E1 : wires l1 = wires l) by (unfold l1; by rewrite wires_snoc).
  pose proof (sh_others _ _ _ _ H) as F2. cbn in F2. pose proof (sh_linked_g _ _ _ _ H) as HLg. cbn in HLg.
  destruct ts as [|h ts1] eqn:Ets; cbn [head].
  - destruct Ho as [(x & Hx & Tx) (Hr & Hs & _)]. apply wp_bind, wp_bind, wp_modify. cbn. apply wp_bind, wp_modify. cbn.
    eapply (wp_try_to_load _ _ _ t g _ n1 x); cbn; [done|by rewrite lookup_insert_eq|by rewrite Hz|exact Hbs|apply H|done|by rewrite E1|apply Tx|].
    intros l2 v2 (q & Hq & ->) Ho2 R2. apply wp_bind, wp_var. cbn. eapply wp_set_node; [cbn; by rewrite lookup_insert_eq|]. cbn. fold n2.
    eapply Hend; cbn; [done| | | | |done|done|done|done|done|done| |by rewrite R2, E1].
    + intros k Hk. by apply contents_insert.
    + intros a b0 p Hp. by apply node_ok_insert.
    + by apply linked_insert.
    + split; [|done]. exists n2. by rewrite lookup_insert_eq.
    + unfold offer in *. cbn -[content zlen] in *. rewrite content_same with (n := n1); [exact Ho2|by rewrite lookup_insert_eq|done|done].
  - rewrite <- Ets in *. assert (ts ≠ []) as Hne by (by rewrite Ets).
    destruct (exists_last Hne) as (k & t0 & Ek). assert (Ht0 : t0 ≠ t) by (intros ->; apply Hts; rewrite Ek; set_solver).
    pose proof (sh_linked_ts _ _ _ _ H) as HL. pose proof HL as HL0. rewrite Ek in HL0. destruct (linked_last _ _ _ HL0) as (n0 & Hn0 & _).
    apply wp_bind, wp_bind, wp_var. cbn. rewrite (sh_tail _ _ _ _ H Hne), Ek, last_snoc.
    apply wp_bind. eapply wp_set_node; [cbn; by rewrite lookup_insert_ne|]. cbn.
    apply wp_bind. eapply wp_node; [cbn; by rewrite lookup_insert_eq|]. apply wp_modify. cbn.
    apply wp_bind, wp_var. cbn. eapply (wp_set_node t n1); [cbn; by rewrite lookup_insert_ne, lookup_insert_eq|]. cbn. fold n2.
    set (N1 := <[t := n1]> (nodes v)). assert (Hn01 : N1 !! t0 = Some n0) by (unfold N1; by rewrite lookup_insert_ne).
    assert (HC : forall k, t ∉ k -> contents (<[t0 := n0 <| next := Some t |>]> N1) k = contents (nodes v) k).
    { intros k1 Hk1. rewrite (contents_same _ _ _ _ _ Hn01) by done. by apply contents_insert. }
    eapply Hend; cbn; [done|exact HC| | | | |done|done|done|apply H|done| |by rewrite E1].
    + intros a b0 p Hp Hpo. eapply node_ok_same; [exact Hn01|done|done|]. by apply node_ok_insert.
    + apply linked_insert; [|by apply linked_insert]. intros X. rewrite list.NoDup_app in Hnd. destruct Hnd as (_ & Hnd & _).
      apply (Hnd t0); [rewrite Ek; set_solver|by right].
    + rewrite Ek. apply linked_snoc; try done; rewrite <- Ek; try done. by apply linked_insert.
    + by rewrite (sh_head _ _ _ _ H), Ets.
    + rewrite E1. rewrite Ets. cbn [app]. unfold offer in *. rewrite Ets in Ho. cbn [nodes rx_que has_read].
      assert (Hcc : forall p, p ∈ ts -> content (<[t := n2]> (<[t0 := n0 <| next := Some t |>]> N1)) p = content (nodes v) p).
      { intros p Hp. rewrite content_insert by (by intros ->). rewrite (content_same _ _ _ _ _ Hn01) by done. apply content_insert. by intros ->. }
      rewrite Hcc by (rewrite Ets; by left). exact Ho.
Qed.

(** How the loop ends: all of [len] bytes taken, or no free block left. *)
Definition loaded (s : sys sdio_vars) (ts g : list positive) (data : list Z) (len n : Z) (s' : sys sdio_vars) (ts' g' : list positive) : Prop :=
  0 <= n <= len /\ Z.min len (room (nodes (st s)) g) <= n /\ took s ts g data n s' ts' g' /\
  (n = len /\ loose s' ts' g' /\ partly s' ts' g' \/ inv s' ts' g' false /\ ts' ≠ []).

Lemma room_cons N a b t g : node_ok N a b t -> Forall (node_ok N 0 0) g -> 0 <= a -> b <= 2048 ->
  exists n, N !! t = Some n /\ room N (t :: g) = 2048 - tail n + 2048 * zlen g /\ room N g = 2048 * zlen g.
Proof.
  intros (n & Hn & Hb & Ht) Hg ? ?. exists n. split; [done|]. pose proof (contents_empty _ _ Hg) as Eg.
  assert (Et : contents N (t :: g) = take (Z.to_nat (tail n)) (buffer n)).
  { rewrite contents_cons, Eg, app_nil_r. unfold content. by rewrite Hn. }
  unfold room. rewrite Et. rewrite Eg. rewrite zlen_take. rewrite Hb. rewrite zlen_cons. unfold RX_BUFFER_SIZE. change (zlen (@nil Z)) with 0. lia.
Qed.
Lemma room_full N g : Forall (node_ok N 0 0) g -> room N g = 2048 * zlen g.
Proof. intros Hg. unfold room. rewrite (contents_empty _ _ Hg), zlen_nil. unfold RX_BUFFER_SIZE. lia. Qed.

Lemma shape_others v ts g held : shape v ts g held -> Forall (node_ok (nodes v) 0 0) (List.tl g).
Proof. apply sh_others. Qed.

Lemma took_trans s ts g s1 ts1 g1 s2 ts2 g2 data n m :
  0 <= n -> 0 <= m -> n <= zlen data ->
  took s ts g data n s1 ts1 g1 -> took s1 ts1 g1 (drop (Z.to_nat n) data) m s2 ts2 g2 -> took s ts g data (n + m) s2 ts2 g2.
Proof.
  unfold took. intros Hn Hm Hd E1 E2. rewrite E2, app_assoc, E1, <- !app_assoc. do 2 f_equal.
  rewrite Z2Nat.inj_add by lia. by rewrite take_take_drop.
Qed.

Lemma wp_load_loop fuel data len acc l m v ts g (Q : Z -> sys sdio_vars -> Prop) :
  (forall l, (reads_of (host l) <= 4)%nat) ->
  0 < len <= zlen data -> (Z.to_nat len < fuel)%nat -> 0 <= acc -> acc + len < 2 ^ 31 -> loose (mk_sys l m v) ts g ->
  (forall n s' ts' g', loaded (mk_sys l m v) ts g data len n s' ts' g' -> Q (acc + n) s') ->
  wp (load_loop host fuel data len acc) (mk_sys l m v) Q.
Proof.
  intros Hfew. revert data len acc l m v ts g Q. induction fuel as [|fuel IH]; [lia|]. intros data len acc l m v ts g Q Hlen Hfu Hacc Hsum HI HQ.
  cbn [load_loop]. zfalse (len =? 0). apply wp_bind, wp_call. cbn [log mem st]. set (l1 := l ++ [_]).
  assert (E1 : wires l1 = wires l) by (unfold l1; by rewrite wires_snoc).
  pose proof HI as [H Ho]. cbn [st log] in *. apply wp_bind, wp_var. cbn [st]. rewrite (sh_free _ _ _ _ H). cbn [rest].
  destruct g as [|t g]; cbn [head].
  - (* no free block *)
    apply wp_bind, wp_call. cbn [log mem st]. set (l2 := l1 ++ [_]). assert (E2 : wires l2 = wires l) by (unfold l2; by rewrite wires_snoc).
    apply wp_bind. assert (HI2 : inv (mk_sys l2 m v) ts [] false).
    { split; [done|]. cbn [st log]. rewrite E2. unfold offer in *. destruct ts; [|done]. destruct Ho as [? (? & ? & _)]. done. }
    eapply wp_mono; [by apply wp_window|]. cbv beta. intros _ s' (ts' & g' & HI3 & HL & HC & _). apply wp_ret. rewrite <- (Z.add_0_r acc).
    pose proof (sh_len _ _ _ _ H) as Hn. rewrite app_nil_r in Hn. specialize (Hfew l2). unfold RX_BUFFER_NUM in Hn.
    eapply (HQ 0 _ ts' g'). split; [lia|]. split; [cbn [log mem st]; rewrite room_full by done; change (zlen (@nil positive)) with 0; lia|]. split; [|right; split; [done|]].
    + unfold took. rewrite HC. cbn [log st]. rewrite E2. change (take (Z.to_nat 0) data) with (@nil Z). by rewrite !app_nil_r.
    + intros ->. cbn in HL. lia.
  - (* the first free block is taken *)
    destruct (sh_linked_g _ _ _ _ H) as [(n & Hn & Hnx) _]. apply wp_bind. eapply wp_node; [exact Hn|].
    apply wp_bind, wp_modify. cbn [log mem st]. rewrite Hnx. apply wp_bind, wp_call. cbn [log mem st]. set (l2 := l1 ++ [_]).
    assert (E2 : wires l2 = wires l) by (unfold l2; by rewrite wires_snoc).
    pose proof (loose_pop _ _ _ _ _ _ HI l2 E2) as HI2. apply wp_bind. eapply wp_mono; [by apply wp_window|]. cbv beta.
    intros _ [l3 m3 v3] (ts3 & g3 & HI3 & _ & HC & HR). cbn [log st nodes set_field] in HC, HR. specialize (HR eq_refl). cbn [log mem st] in *.
    destruct HR as [(r3 & ->) HR]. cbn [app] in *. set (g3 := g ++ r3) in *.
    pose proof HI3 as [H3 _]. cbn [st] in H3.
    pose proof (sh_others _ _ _ _ H3) as F3. cbn in F3. pose proof (sh_first _ _ _ _ H3) as F1. cbn in F1. apply list.Forall_cons in F1 as [F1 _].
    destruct (room_cons _ _ _ _ _ F1 F3) as (n3 & Hn3 & HR3 & HR4); [lia..|].
    destruct F1 as (n3' & Hn3' & Hb3 & Ht3). replace n3' with n3 in * by congruence. clear n3' Hn3'.
    apply wp_bind. eapply wp_node; [exact Hn3|].
    replace (u32 (RX_BUFFER_SIZE + SDIO_TOKEN_SIZE - tail n3)) with (2048 - tail n3) by (unfold RX_BUFFER_SIZE, SDIO_TOKEN_SIZE; rewrite u32_small; lia).
    assert (Hsl : forall k, 0 <= k <= len -> bslice data 0 k = Some (take (Z.to_nat k) data) /\ zlen (take (Z.to_nat k) data) = k).
    { intros k Hk. unfold bslice. ztrue (0 <=? 0). ztrue (0 <=? k). ztrue (0 + k <=? zlen data). split; [done|]. rewrite zlen_take. lia. }
    assert (HT : forall k s' ts' g', 0 <= k <= len -> took (mk_sys l3 m3 v3) ts3 (t :: g3) (take (Z.to_nat k) data) k s' ts' g' ->
        took (mk_sys l m v) ts (t :: g) data k s' ts' g').
    { intros k s' ts' g' Hk. unfold took. cbn [log st]. rewrite take_take, Nat.min_id. intros ->.
      rewrite app_assoc, HC, E2, <- app_assoc. done. }
    destruct (Z.ltb_spec len (2048 - tail n3)) as [Hlt|Hge].
    + destruct (Hsl len ltac:(lia)) as [Hd Hdl]. set (d := take (Z.to_nat len) data) in *.
      destruct (bsplice_Some (buffer n3) (tail n3) d) as (b & Eb & _); [lia|unfold RX_BUFFER_SIZE in Hb3; lia|].
      apply wp_bind, (wp_lift _ d); [done|]. apply wp_bind, (wp_lift _ b); [done|]. apply wp_bind. rewrite <- Hdl.
      eapply wp_put_back; [exact HI3|exact Hn3|exact Eb|lia|lia|]. intros l4 v4 HI4 HP4 HT4. rewrite Hdl in *.
      destruct fuel as [|fuel]; [lia|]. cbn [load_loop Z.eqb]. apply wp_ret. rewrite i32_small by lia.
      eapply (HQ len _ ts3 (t :: g3)). split; [lia|]. split; [lia|]. split; [apply HT; [lia|done]|by left].
    + set (left := 2048 - tail n3) in *. destruct (Hsl left ltac:(lia)) as [Hd Hdl]. set (d := take (Z.to_nat left) data) in *.
      destruct (bsplice_Some (buffer n3) (tail n3) d) as (b & Eb & _); [lia|unfold RX_BUFFER_SIZE in Hb3; lia|].
      apply wp_bind, (wp_lift _ d); [done|]. apply wp_bind, (wp_lift _ b); [done|]. apply wp_bind. rewrite <- Hdl at 1.
      eapply wp_put_last; [exact HI3|exact Hn3|exact Eb|lia|]. intros l4 v4 HI4 F4 HT4. rewrite Hdl in HT4.
      specialize (HT left _ _ _ ltac:(lia) HT4). rewrite i32_small by lia.
      pose proof HI4 as [H4 _]. cbn [st] in H4.
      assert (HR5 : room (nodes v4) g3 = 2048 * zlen g3).
      { by apply room_full. }
      destruct (Z.eqb_spec (len - left) 0) as [Ez|Ez].
      * destruct fuel as [|fuel]; [lia|]. rewrite Ez. cbn [load_loop Z.eqb]. apply wp_ret.
        eapply (HQ left _ (ts3 ++ [t]) g3). split; [lia|]. split; [lia|]. split; [done|]. left. split; [lia|]. split; [done|].
        intros X. by destruct ts3.
      * eapply IH; [rewrite zlen_drop; lia|lia|lia|lia|exact HI4|]. intros n4 s4 ts4 g4 (L1 & L2 & L3 & L4).
        rewrite <- Z.add_assoc. eapply (HQ (left + n4) s4 ts4 g4). unfold loaded. cbn [st nodes] in *. split; [lia|]. split; [rewrite HR5 in L2; rewrite HR3 in HR; clearbody g3 left; clear -HR L2; lia|].
        split; [eapply took_trans; [lia|lia|lia|exact HT|exact L3]|].
        destruct L4 as [(-> & L4 & L5)|L4]; [left|by right]. split; [lia|done].
Qed.

Lemma shape_offered v q ts g b : shape v ts g false -> blocksize q = RX_BUFFER_SIZE -> shape (v <| rx_que := q |> <| has_read := b |>) ts g false.
Proof. intros [] Hq. by constructor. Qed.

(** What [sdio_load_data] does to a state that satisfies the invariant. *)
Lemma wp_load_data l m v ts g data len (Q : Z -> sys sdio_vars -> Prop) :
  (forall l, (reads_of (host l) <= 4)%nat) -> 0 < len <= zlen data -> len < 2 ^ 31 -> inv (mk_sys l m v) ts g false ->
  (forall n s' ts' g', inv s' ts' g' false -> 0 <= n <= len -> Z.min len (room (nodes v) g) <= n -> took (mk_sys l m v) ts g data n s' ts' g' -> Q n s') ->
  wp (sdio_load_data host data len) (mk_sys l m v) Q.
Proof.
  intros Hfew Hlen Hmax HI HQ. pose proof HI as [H Ho]. cbn [log st] in *. unfold sdio_load_data.
  apply wp_bind, wp_var. cbn [st]. rewrite (sh_free _ _ _ _ H). cbn [rest]. destruct g as [|t g0] eqn:Eg; cbn [head].
  { apply wp_ret. eapply HQ; [exact HI|lia| |].
    - rewrite room_full by done. change (zlen (@nil positive)) with 0. lia.
    - unfold took. change (take (Z.to_nat 0) data) with (@nil Z). by rewrite !app_nil_r. }
  rewrite <- Eg in *. assert (HIl : loose (mk_sys l m v) ts g).
  { split; [done|]. unfold offer in *. cbn [log st]. destruct ts; [|done]. destruct Ho as [? (? & ? & _)]. done. }
  apply wp_bind. eapply wp_load_loop; [done|exact Hlen|lia|lia|lia|exact HIl|].
  intros n [l1 m1 v1] ts1 g1 (L1 & L2 & L3 & L4). rewrite Z.add_0_l. cbn [st] in L2.
  apply wp_bind, wp_var. cbn [st]. apply wp_bind.
  assert (Hskip : inv (mk_sys l1 m1 v1) ts1 g1 false -> ts1 ≠ [] ->
    wp (swhen (negb (bool_decide (pHead_ToSend v1 ≠ None))) (move_first ;; sdio_try_to_load)) (mk_sys l1 m1 v1)
      (λ _ s', wp (ETS_SDIO_INTR_ENABLE ;; sret n) s' Q)).
  { intros HI1 Hne. pose proof HI1 as [H1 _]. cbn [st] in H1. rewrite (sh_head _ _ _ _ H1).
    rewrite bool_decide_true by (by destruct ts1). apply wp_ret. apply wp_bind, wp_call, wp_ret. cbn [log mem st].
    eapply HQ; [|lia|done|].
    - split; [done|]. cbn [log st]. rewrite wires_snoc. apply HI1.
    - unfold took in *. cbn [log st] in *. rewrite wires_snoc. exact L3. }
  destruct L4 as [(-> & HI1 & HP)|[HI1 Hne]]; [|by apply Hskip].
  destruct (decide (ts1 = [])) as [->|Hne].
  2:{ apply Hskip; [|done]. destruct HI1 as [? HO]. split; [done|]. unfold offer in *. by destruct ts1. }
  destruct (HP eq_refl) as (p & r & k & -> & Hk & Hkt). cbn [st] in Hk. destruct HI1 as [H1 HO]. cbn [st log] in *.
  destruct HO as [(x & Hx & Tx) (Hr & Hs & _)]. rewrite (sh_head _ _ _ _ H1). cbn [head swhen negb]. rewrite bool_decide_false by (by intros ?).
  cbn [negb swhen]. apply wp_bind. eapply wp_move_first; [exact H1|exact Hk|done|]. intros v2 H2 T2 R2 C2 _.
  destruct (shape_head _ _ _ _ _ H2) as (k2 & Hk2 & Hb2 & Ht2 & _).
  eapply (wp_try_to_load _ _ _ p r); [apply H2|exact Hk2|done|done|apply H2|by rewrite R2|exact Hx|apply Tx|].
  intros l3 v3 (q & Hq & ->) Ho3 R3. apply wp_bind, wp_call, wp_ret. cbn [log mem st].
  eapply (HQ len _ [p] r); [|lia|done|].
  - split; cbn [log st]; [by apply shape_offered|]. by rewrite wires_snoc.
  - unfold took in *. cbn [log st nodes set_field] in *. rewrite wires_snoc. cbn [wire_step]. rewrite R3, C2. exact L3.
Qed.

End Loading.

Section Starting.
Context `{HE : Env} {HS : Slc} (malloc : gmap positive sdio_list -> option positive) (junk : sdio_list) (addr_rx_que addr_tx_que : Z).

(** ** Start-up *)

Lemma wp_pin l m v pin f (Q : unit -> sys sdio_vars -> Prop) :
  pin ≠ SLC_RX_LINK -> pin ≠ SLC_TX_LINK -> pin ≠ SLC_HOST_CONF_W2 ->
  (forall l', wires l' = wires l -> Q tt (mk_sys l' m v)) -> wp (PIN_FUNC_SELECT pin f) (mk_sys l m v) Q.
Proof.
  intros H1 H2 H3 HQ. unfold PIN_FUNC_SELECT. apply wp_bind, wp_read, wp_write. cbn [log mem st]. apply HQ. rewrite !wires_snoc. cbn -[Z.eqb].
  by rewrite !(proj2 (Z.eqb_neq _ _)).
Qed.
Lemma wp_write_reg l m v a w (Q : unit -> sys sdio_vars -> Prop) :
  a ≠ SLC_RX_LINK -> a ≠ SLC_TX_LINK -> a ≠ SLC_HOST_CONF_W2 ->
  (forall l', wires l' = wires l -> Q tt (mk_sys l' m v)) -> wp (WRITE_PERI_REG a w) (mk_sys l m v) Q.
Proof.
  intros H1 H2 H3 HQ. apply wp_write. cbn [log mem st]. apply HQ. rewrite !wires_snoc. cbn -[Z.eqb]. by rewrite !(proj2 (Z.eqb_neq _ _)).
Qed.
Lemma wp_quiet l m v c (Q : unit -> sys sdio_vars -> Prop) :
  (forall w, wire_step w (Do c) = w) -> (forall l', wires l' = wires l -> Q tt (mk_sys l' m v)) -> wp (call c) (mk_sys l m v) Q.
Proof. intros Hc HQ. apply wp_call. cbn [log mem st]. apply HQ. by rewrite wires_snoc, Hc. Qed.
Lemma bit29 v : Z.testbit (u32 v) 29 = Z.testbit v 29.
Proof. unfold u32. change 4294967296 with (2 ^ 32). by rewrite Z.mod_pow2_bits_low by lia. Qed.
(** Setting up the descriptor address does not start the link. *)
Lemma wp_descaddr_rx l m v addr (Q : unit -> sys sdio_vars -> Prop) :
  (forall l', wires l' = (wires l) <| rx_started := false |> -> Q tt (mk_sys l' m v)) ->
  wp (CLEAR_PERI_REG_MASK SLC_RX_LINK SLC_RXLINK_DESCADDR_MASK ;; SET_PERI_REG_MASK SLC_RX_LINK (Z.land addr SLC_RXLINK_DESCADDR_MASK)) (mk_sys l m v) Q.
Proof.
  intros HQ. apply wp_bind. unfold CLEAR_PERI_REG_MASK, SET_PERI_REG_MASK. apply wp_bind, wp_read, wp_write, wp_bind, wp_read, wp_write.
  cbn [log mem st]. apply HQ. rewrite !wires_snoc. unfold wire_step. rewrite Z.eqb_refl, !bit29, Z.lor_spec, !Z.land_spec, !start_reads_0.
  change (Z.testbit SLC_RXLINK_DESCADDR_MASK 29) with false. by rewrite andb_false_r.
Qed.
Lemma wp_descaddr_tx l m v addr (Q : unit -> sys sdio_vars -> Prop) :
  (forall l', (exists b, wires l' = (wires l) <| tx_started := b |>) -> Q tt (mk_sys l' m v)) ->
  wp (CLEAR_PERI_REG_MASK SLC_TX_LINK SLC_TXLINK_DESCADDR_MASK ;; SET_PERI_REG_MASK SLC_TX_LINK (Z.land addr SLC_TXLINK_DESCADDR_MASK)) (mk_sys l m v) Q.
Proof.
  intros HQ. apply wp_bind. unfold CLEAR_PERI_REG_MASK, SET_PERI_REG_MASK. apply wp_bind, wp_read, wp_write, wp_bind, wp_read, wp_write.
  cbn [log mem st]. apply HQ. rewrite !wires_snoc. unfold wire_step. change (SLC_TX_LINK =? SLC_RX_LINK) with false. rewrite Z.eqb_refl. cbv iota. by eexists.
Qed.

(** The heap has fresh room for five blocks. *)
Definition can_malloc : Prop :=
  zlen (buffer junk) = RX_BUFFER_SIZE /\
  (forall N p, malloc N = Some p -> N !! p = None) /\ forall N, (size N < RX_BUFFER_NUM)%nat -> is_Some (malloc N).

(** The blocks [l] are all there is, and free. *)
Record chain (v : sdio_vars) (l : list positive) (p : option positive) : Prop := {
  ch_nodup : NoDup l; ch_linked : linked (nodes v) l; ch_head : pHead_Sended v = head l; ch_last : p = list.last l;
  ch_ok : Forall (node_ok (nodes v) 0 0) l; ch_size : size (nodes v) = length l; ch_dom : forall q, is_Some (nodes v !! q) -> q ∈ l }.
Definition same_but_blocks (v v' : sdio_vars) : Prop :=
  tx_buffer v' = tx_buffer v /\ sdio_recv_data_callback_ptr v' = sdio_recv_data_callback_ptr v /\ pHead_ToSend v' = pHead_ToSend v /\ has_read v' = has_read v.

Lemma chain_snoc v v' l p q n :
  chain v l p -> nodes v !! q = None -> zlen (buffer n) = RX_BUFFER_SIZE -> tail n = 0 -> next n = None ->
  pHead_Sended v' = head (l ++ [q]) ->
  (match p with
   | None => nodes v' = <[q := n]> (nodes v)
   | Some t => exists nt, nodes v !! t = Some nt /\ nodes v' = <[q := n]> (<[t := nt <| next := Some q |>]> (nodes v))
   end) -> chain v' (l ++ [q]) (Some q).
Proof.
  intros [C1 C2 C3 C4 C5 C6 C7] Hq Hb Ht Hx Hh HN.
  assert (Hql : q ∉ l). { intros X. rewrite list.Forall_forall in C5. destruct (C5 _ X) as (k & Hk & _). congruence. }
  assert (Hqn : node_ok (nodes v') 0 0 q).
  { exists n. split_and!; try done; [|lia|lia]. destruct p as [t|]; [destruct HN as (nt & _ & ->)|rewrite HN]; by rewrite lookup_insert_eq. }
  constructor; try done.
  - apply list.NoDup_app. split; [done|]. split; [set_solver|apply NoDup_singleton].
  - destruct p as [t|].
    + destruct HN as (nt & Hnt & ->). symmetry in C4. apply last_Some in C4 as [k ->]. by apply linked_snoc.
    + destruct l as [|x l _] using rev_ind; [|by rewrite last_snoc in C4]. cbn. rewrite HN, lookup_insert_eq. eauto.
  - by rewrite last_snoc.
  - apply Forall_app. split; [|by constructor]. destruct p as [t|].
    + destruct HN as (nt & Hnt & ->). apply nodes_ok_insert; [done|]. revert C5. apply Forall_impl. intros x. by eapply node_ok_same.
    + rewrite HN. by apply nodes_ok_insert.
  - rewrite length_app. cbn. destruct p as [t|].
    + destruct HN as (nt & Hnt & ->). rewrite map_size_insert_None by (rewrite lookup_insert_ne by congruence; done).
      rewrite map_size_insert_Some by eauto. lia.
    + rewrite HN, map_size_insert_None by done. lia.
  - intros x [k Hk]. apply elem_of_app. destruct (decide (x = q)) as [->|Hxq]; [right; set_solver|left]. apply C7. destruct p as [t|].
    + destruct HN as (nt & Hnt & E). rewrite E, lookup_insert_ne in Hk by done. destruct (decide (x = t)) as [->|]; [eauto|].
      rewrite lookup_insert_ne in Hk by done. eauto.
    + rewrite HN, lookup_insert_ne in Hk by done. eauto.
Qed.

Lemma wp_init_block l m v k p i (Q : option positive -> sys sdio_vars -> Prop) :
  can_malloc -> (length k < RX_BUFFER_NUM)%nat -> chain v k p ->
  (forall v' q, chain v' (k ++ [q]) (Some q) -> same_but_blocks v v' -> Q (Some q) (mk_sys l m v')) ->
  wp (init_block malloc junk p i) (mk_sys l m v) Q.
Proof.
  intros (Hj & Hfresh & Hroom) Hk C HQ. destruct (Hroom (nodes v)) as [q Eq]; [by rewrite (ch_size _ _ _ C)|].
  pose proof (Hfresh _ _ Eq) as Hq. set (n := mk_list (buffer junk) 0 None).
  assert (Hm : wp (os_malloc malloc junk) (mk_sys l m v) (λ r s', r = Some q /\ s' = mk_sys l m (v <| nodes := <[q := junk]> (nodes v) |>))).
  { unfold os_malloc. apply wp_bind, wp_var. cbn [st]. rewrite Eq. apply wp_bind, wp_modify, wp_ret. done. }
  unfold init_block. apply wp_bind, wp_var. cbn [st]. rewrite (ch_head _ _ _ C). apply wp_bind.
  destruct k as [|h k] using rev_ind; cbn [head].
  - apply wp_bind. eapply wp_mono; [exact Hm|]. cbv beta. intros r s' [-> ->]. apply wp_bind, wp_modify, wp_ret. cbn.
    apply wp_bind. eapply wp_set_node; [cbn; by rewrite lookup_insert_eq|]. cbn. apply wp_bind. eapply wp_set_node; [cbn; by rewrite lookup_insert_eq|].
    cbn. rewrite !insert_insert_eq. apply wp_ret. apply HQ; [|done].
    eapply (chain_snoc v _ [] p q n); [exact C|done|done|done|done|done|]. pose proof (ch_last _ _ _ C) as ->. done.
  - clear IHk. assert (head (k ++ [h]) = Some (hd h k)) as -> by (by destruct k).
    pose proof (ch_last _ _ _ C) as Hp. rewrite last_snoc in Hp. subst p.
    pose proof (ch_ok _ _ _ C) as F. apply Forall_app in F as [_ F]. apply list.Forall_cons in F as [(nt & Hnt & _) _].
    assert (Hhq : h ≠ q) by congruence.
    apply wp_bind. eapply wp_node; [exact Hnt|]. apply wp_bind. eapply wp_mono; [exact Hm|]. cbv beta. intros r s' [-> ->].
    apply wp_bind. eapply wp_set_node; [cbn; by rewrite lookup_insert_ne|]. apply wp_ret. cbn.
    apply wp_bind. eapply wp_set_node; [cbn; by rewrite lookup_insert_ne, lookup_insert_eq|]. cbn.
    apply wp_bind. eapply wp_set_node; [cbn; by rewrite lookup_insert_eq|]. cbn. rewrite insert_insert_eq. apply wp_ret.
    apply HQ; [|done]. eapply (chain_snoc v _ (k ++ [h]) (Some h) q n); [exact C|done|done|done|done| |].
    + cbn. rewrite (ch_head _ _ _ C). by destruct k.
    + exists nt. split; [done|]. cbn. rewrite (insert_insert_ne _ h q) by done. by rewrite insert_insert_eq.
Qed.

Lemma wp_init_blocks l m v (Q : option positive -> sys sdio_vars -> Prop) :
  can_malloc -> nodes v = ∅ -> pHead_Sended v = None ->
  (forall v' k p, chain v' k p -> length k = RX_BUFFER_NUM -> same_but_blocks v v' -> Q p (mk_sys l m v')) ->
  wp (sfold (seq 0 RX_BUFFER_NUM) (init_block malloc junk) None) (mk_sys l m v) Q.
Proof.
  intros Hm Hn Hf HQ.
  apply (wp_fold _ (λ r p s', exists v' k, s' = mk_sys l m v' /\ chain v' k p /\ (length k + length r = RX_BUFFER_NUM)%nat /\ same_but_blocks v v')).
  - exists v, []. split_and!; try done. constructor; try done; rewrite ?Hn; try done.
    + apply NoDup_nil_2.
    + intros q [x Hx]. by rewrite lookup_empty in Hx.
  - intros i r p s' (v1 & k & -> & C & Hk & HS1). eapply wp_init_block; [done| |exact C|]; [cbn in Hk; lia|].
    intros v2 q C2 HS2. exists v2, (k ++ [q]). split_and!; try done; [rewrite length_app; cbn in *; lia|].
    unfold same_but_blocks in *. intuition congruence.
  - intros p s' (v' & k & -> & C & Hk & HS'). eapply HQ; [exact C| |done]. cbn in Hk. lia.
Qed.

Lemma wp_init l m v (Q : unit -> sys sdio_vars -> Prop) :
  can_malloc -> v = sdio_initial ->
  (forall l' v' g, inv (mk_sys l' m v') [] g false -> Forall (node_ok (nodes v') 0 0) g -> length g = RX_BUFFER_NUM ->
     received (wires l') = received (wires l) -> tx_started (wires l') = true -> sdio_recv_data_callback_ptr v' = None -> Q tt (mk_sys l' m v')) ->
  wp (sdio_slave_init malloc junk addr_rx_que addr_tx_que) (mk_sys l m v) Q.
Proof.
  intros Hm -> HQ. unfold sdio_slave_init.
  apply wp_bind, wp_quiet; [done|]; intros l1 E1.
  do 6 (apply wp_bind, wp_pin; [done..|]; let l' := fresh "l" in let E := fresh "E" in intros l' E; rewrite E1 in E; clear E1; rename E into E1).
  apply wp_bind, wp_set_reg; [done..|]. intros l8 E8. apply wp_bind, wp_clear_reg; [done..|]. intros l9 E9.
  apply wp_bind, wp_quiet; [done|]; intros l10 E10. apply wp_bind, wp_set_reg; [done..|]. intros l11 E11.
  apply wp_bind, wp_write_reg; [done..|]. intros l12 E12. apply wp_bind, wp_set_reg; [done..|]. intros l13 E13.
  apply wp_bind, wp_modify. cbn [log mem st].
  apply wp_bind, wp_init_blocks; [done..|]. intros v1 k p C Hk (S1 & S2 & S3 & S4).
  apply wp_bind, wp_modify. cbn [log mem st]. apply wp_bind, wp_var. cbn. rewrite (ch_head _ _ _ C).
  destruct k as [|h k]; [done|]. apply wp_bind, (wp_lift _ h); [done|]. apply wp_bind, wp_modify. cbn. apply wp_bind, wp_modify. cbn.
  match goal with |- wp _ (mk_sys _ _ ?x) _ => set (v2 := x) end.
  assert (HA : forall (A B : F sdio_vars unit) (K : F sdio_vars unit) s R, wp (A ;; B) s (λ _ s', wp K s' R) -> wp (A ;; (B ;; K)) s R).
  { intros A B K s R (a & s' & E & b & s2 & E2 & HR). exists b, s2. split; [|done]. unfold sbind in *. destruct (A s) as [[? ?]|]; [|done].
    cbn in *. by rewrite E. }
  apply HA, wp_descaddr_rx. intros l14 E14. apply HA, wp_descaddr_tx. intros l15 [b E15].
  apply wp_bind, wp_set_reg; [done..|]. intros l16 E16. apply wp_bind, wp_start_tx. intros l17 E17.
  apply wp_bind, wp_write_status; [repeat split; by vm_compute|]. intros l18 E18.
  apply wp_bind, wp_quiet; [done|]; intros l19 E19. apply wp_bind, wp_write_reg; [done..|]. intros l20 E20.
  apply wp_bind, wp_write_reg; [done..|]. intros l21 E21. apply wp_quiet; [done|]; intros l22 E22.
  assert (EW : wires l22 = mk_wires false true (received (wires l)) (Some (mk_status 0 1 7 0 0 0))).
  { rewrite E22, E21, E20, E19, E18, E17, E16, E15, E14, E13, E12, E11, E10, E9, E8, E1. done. }
  eapply (HQ _ _ (h :: k)); [|apply C|done|by rewrite EW|by rewrite EW|exact S2].
  split; cbn [log st].
  - constructor; cbn; try done.
    + apply C.
    + apply C.
    + apply (ch_head _ _ _ C).
    + intros _. apply C.
    + constructor; [|done]. eapply node_ok_weaken; [| |apply (Forall_inv (ch_ok _ _ _ C))]; lia.
    + apply (Forall_inv_tail (ch_ok _ _ _ C)).
    + split_and!; [done|done|done|]. rewrite S1. reflexivity.
    + left. by rewrite S2.
  - unfold offer. rewrite EW. split; [eexists; split; [done|]; repeat split; by vm_compute|]. cbn.
    rewrite S4. split_and!; try done. intros _. constructor; [|done]. apply (Forall_inv (ch_ok _ _ _ C)).
Qed.

Definition boot : F sdio_vars unit :=
  sdio_slave_init malloc junk addr_rx_que addr_tx_que ;;
  sdio_register_recv_cb (Some fp_sdio_recv_data_callback) ;; sret tt.
Definition at_boot : sys sdio_vars := mk_sys [] ∅ sdio_initial.
Lemma wp_boot (Q : unit -> sys sdio_vars -> Prop) :
  can_malloc ->
  (forall l v g, inv (mk_sys l ∅ v) [] g false -> Forall (node_ok (nodes v) 0 0) g -> length g = RX_BUFFER_NUM -> received (wires l) = [] ->
     tx_started (wires l) = true -> sdio_recv_data_callback_ptr v = Some fp_sdio_recv_data_callback -> Q tt (mk_sys l ∅ v)) ->
  wp boot at_boot Q.
Proof.
  intros Hm HQ. unfold boot. apply wp_bind. eapply wp_init; [done|done|]. intros l v g [H Ho] Hg Hl Hr Htx _.
  unfold sdio_register_recv_cb. apply wp_bind, wp_bind, wp_modify, wp_ret, wp_ret. cbn [log mem st]. eapply HQ; try done.
  split; [|exact Ho]. cbn [st]. destruct H. constructor; try done. by right.
Qed.

End Starting.

(** ** Sessions *)

(** What happens to the driver, one call at a time: a call of
    [sdio_load_data] with a block of data, an act of the host with its
    interrupt, a call of [at_custom_uart_rx_buffer_fetch_cb]. *)
Inductive op := Load (data : list Z) | Host (a : host_action) | Fetch.

Section Sessions.
Context `{HE : Env} {HS : Slc} (malloc : gmap positive sdio_list -> option positive) (junk : sdio_list) (addr_rx_que addr_tx_que : Z).
Context (host : list event -> list host_action).
Abbreviation start := (boot malloc junk addr_rx_que addr_tx_que).
(** The bytes the driver took. *)
Definition step (o : op) : F sdio_vars (list Z) :=
  match o with
  | Load data => n <- sdio_load_data host data (zlen data) ;; sret (take (Z.to_nat n) data)
  | Host a => host_acts a ;; sret []
  | Fetch => at_custom_uart_rx_buffer_fetch_cb ;; sret []
  end.
Fixpoint session (l : list op) : F sdio_vars (list Z) :=
  match l with
  | [] => sret []
  | o :: l => d <- step o ;; r <- session l ;; sret (d ++ r)
  end.
Definition good_op (o : op) : Prop := match o with Load data => 0 < zlen data < 2 ^ 31 | _ => True end.

Lemma wp_fetch l m v ts g held (Q : unit -> sys sdio_vars -> Prop) :
  inv (mk_sys l m v) ts g held ->
  (forall l' v', inv (mk_sys l' m v') ts g held -> nodes v' = nodes v -> received (wires l') = received (wires l) -> Q tt (mk_sys l' m v')) ->
  wp at_custom_uart_rx_buffer_fetch_cb (mk_sys l m v) Q.
Proof.
  intros HI HQ. pose proof HI as [H _]. cbn [st] in H. unfold at_custom_uart_rx_buffer_fetch_cb. apply wp_bind, wp_var. cbn [st].
  apply wp_bind, wp_var. cbn [st]. destruct (sh_cb _ _ _ _ H) as [E|E]; rewrite E; [by apply wp_ret, HQ|].
  apply wp_when; intros Hc; [|by apply HQ]. assert (HT : wp (cb <- var sdio_recv_data_callback_ptr ;;
      match cb with Some f => hand_over f | None => tx_buff_handle_done ;; TRIG_TOHOST_INT end) (mk_sys l m v) Q).
  { eapply wp_take; [exact HI|]. intros. by apply HQ. }
  destruct HT as (a & s' & ER & HR). exists a, s'. split; [|done]. unfold sbind, var, sget in ER. cbn [st] in ER. rewrite E in ER. exact ER.
Qed.

Lemma wp_session ops s ts g :
  (forall l, (reads_of (host l) <= 4)%nat) -> Forall good_op ops -> inv s ts g false ->
  wp (session ops) s (λ sent s', exists ts' g', inv s' ts' g' false /\
    received (wires (log s')) ++ contents (nodes (st s')) (ts' ++ g') = received (wires (log s)) ++ contents (nodes (st s)) (ts ++ g) ++ sent).
Proof.
  intros Hfew Hg. revert s ts g. induction Hg as [|o ops Ho _ IH]; intros [l m v] ts g HI.
  { apply wp_ret. exists ts, g. split; [done|]. by rewrite app_nil_r. }
  assert (Hstep : wp (step o) (mk_sys l m v) (λ d s', exists ts' g', inv s' ts' g' false /\
    received (wires (log s')) ++ contents (nodes (st s')) (ts' ++ g') = received (wires l) ++ contents (nodes v) (ts ++ g) ++ d)).
  { destruct o as [data|a|]; cbn [step].
    - apply wp_bind. eapply wp_load_data; [done|split; [apply Ho|done]|apply Ho|exact HI|]. intros n s' ts' g' HI' _ _ HT.
      apply wp_ret. exists ts', g'. split; [done|exact HT].
    - apply wp_bind. eapply wp_mono; [by apply wp_host_acts|]. cbv beta. intros _ s' (ts' & g' & HI' & _ & HC & _). apply wp_ret.
      exists ts', g'. split; [done|]. by rewrite app_nil_r.
    - apply wp_bind. eapply wp_fetch; [exact HI|]. intros l' v' HI' N R. apply wp_ret. exists ts, g. split; [done|]. cbn [log st].
      by rewrite R, N, app_nil_r. }
  cbn [session]. apply wp_bind. eapply wp_mono; [exact Hstep|]. cbv beta. intros d s1 (ts1 & g1 & HI1 & E1).
  apply wp_bind. eapply wp_mono; [by eapply IH|]. cbv beta. intros r s2 (ts2 & g2 & HI2 & E2). apply wp_ret.
  exists ts2, g2. split; [done|]. rewrite E2, app_assoc, E1, <- !app_assoc. done.
Qed.

(** A host that goes on reading gets everything. *)
Lemma wp_reads k s ts g :
  inv s ts g false -> (length (contents (nodes (st s)) (ts ++ g)) <= k)%nat ->
  wp (sfor (replicate k HostReads) host_acts) s (λ _ s', received (wires (log s')) = received (wires (log s)) ++ contents (nodes (st s)) (ts ++ g)).
Proof.
  revert s ts g. induction k as [|k IH]; intros [l m v] ts g HI Hk; cbn [log st] in *.
  { apply wp_ret. cbn [log]. destruct (contents _ _); [by rewrite app_nil_r|cbn in Hk; lia]. }
  cbn [replicate sfor]. apply wp_bind. destruct ts as [|h ts].
  - pose proof HI as [H [_ (Hr & Hs & He)]]. cbn [log st] in *. specialize (He eq_refl).
    assert (Hnil : contents (nodes v) ([] ++ g) = []).
    { apply contents_empty. cbn [app]. pose proof (sh_others _ _ _ _ H) as F. destruct g as [|q g]; [done|].
      apply list.Forall_cons in He as [He _]. by constructor. }
    unfold host_acts at 1. apply wp_bind, wp_get. cbn [log]. rewrite Hs. cbn [swhen]. apply wp_ret.
    eapply wp_mono; [apply (IH (mk_sys l m v) [] g); [done|]|done]. cbn [st]. rewrite Hnil. cbn. lia.
  - eapply wp_mono; [by apply wp_host_reads|]. cbv beta. intros _ s1 (ts1 & g1 & (HI1 & _ & HC & _) & HR). cbn [log st] in *.
    rewrite HR, <- app_assoc in HC. apply app_inv_head in HC. cbn [app] in HC. rewrite contents_cons in HC. apply app_inv_head in HC.
    pose proof HI as [H _]. destruct (shape_head _ _ _ _ _ H) as (n & Hn & Hb & Ht & _).
    assert (Hc : 1 <= zlen (content (nodes v) h)).
    { cbn [st] in Hn. unfold content. rewrite Hn, zlen_take, Hb. unfold RX_BUFFER_SIZE. lia. }
    eapply wp_mono; [apply (IH s1 ts1 g1); [done|]|].
    + rewrite HC. cbn [app] in Hk. rewrite contents_cons, length_app in Hk. unfold zlen in Hc. lia.
    + cbv beta. intros _ s2 ->. rewrite HR, HC, <- app_assoc. done.
Qed.


(** At most four blocks are read in one window. *)
Definition few_reads : Prop := forall l, (reads_of (host l) <= 4)%nat.

(** C5: The driver is a queue of bytes.  From start-up, through any calls of
    sdio_load_data with at least one byte (and less than 2^31) and whatever the host
    does between and during them, as long as it reads at most four blocks in one
    window in which interrupts are enabled: nothing is undefined; what the host has
    read so far, followed by what is waiting, is exactly what the driver said it took,
    in order; while something waits it is on offer to the host; and a host that goes
    on reading gets all of it.  ([sdio_empty_load_wedges] is about calls with no byte.) *)
Theorem sdio_stream ops :
  can_malloc malloc junk -> few_reads -> Forall good_op ops ->
  wp (start ;; session ops) at_boot (λ sent s', exists waiting,
    received (wires (log s')) ++ waiting = sent /\
    (waiting ≠ [] -> rx_started (wires (log s')) = true) /\
    wp (sfor (replicate (length waiting) HostReads) host_acts) s' (λ _ s'', received (wires (log s'')) = sent)).
Proof.
  intros Hm Hf Hg. apply wp_bind, wp_boot; [done|]. intros l v g HI He _ Hr _ _.
  eapply wp_mono; [by apply (wp_session _ _ _ _ Hf Hg HI)|]. cbv beta. intros sent s' (ts' & g' & HI' & E). cbn [log st] in E.
  rewrite Hr, (contents_empty _ ([] ++ g)) in E by done. cbn [app] in E. exists (contents (nodes (st s')) (ts' ++ g')). split; [done|]. split.
  - intros Hne. destruct HI' as [H' [_ Ho']]. destruct ts' as [|h ts']; [|by destruct Ho' as (_ & -> & _)].
    exfalso. apply Hne. destruct Ho' as (_ & _ & He'). specialize (He' eq_refl). cbn [app]. apply contents_empty.
    pose proof (sh_others _ _ _ _ H') as F. destruct g' as [|q g']; [done|]. apply list.Forall_cons in He' as [He' _]. by constructor.
  - eapply wp_mono; [by eapply wp_reads|]. cbv beta. intros _ s'' ->. exact E.
Qed.

(** C23: The two linked lists stay lists.  Under the conditions of [sdio_stream] (no call
    of sdio_load_data is with length 0, after which the head may be an empty block; at
    most four blocks are read in one window), at every point between calls the blocks to
    send and the free ones are chains of pointers that start at the two heads, end at
    the two tails with a null pointer, and together hold each of the five blocks once;
    what a block holds fits it; a block to send is not empty, and no free one but the
    first holds anything. *)
Theorem sdio_blocks ops :
  can_malloc malloc junk -> few_reads -> Forall good_op ops ->
  wp (start ;; session ops) at_boot (λ _ s, exists ts g, let v := st s in
    NoDup (ts ++ g) /\ length (ts ++ g) = RX_BUFFER_NUM /\
    linked (nodes v) ts /\ linked (nodes v) g /\ pHead_ToSend v = head ts /\ pHead_Sended v = head g /\
    (ts ≠ [] -> pTail_ToSend v = list.last ts) /\ (g ≠ [] -> pTail_Sended v = list.last g) /\
    Forall (node_ok (nodes v) 1 2048) ts /\ Forall (node_ok (nodes v) 0 2047) (take 1 g) /\ Forall (node_ok (nodes v) 0 0) (List.tl g) /\
    (has_read v = true <-> ts = [])).
Proof.
  intros Hm Hf Hg. apply wp_bind, wp_boot; [done|]. intros l v g HI He _ Hr _ _.
  eapply wp_mono; [by apply (wp_session _ _ _ _ Hf Hg HI)|]. cbv beta. intros sent s' (ts' & g' & [H Ho] & _).
  exists ts', g'. cbn zeta. destruct H. split_and!; try done.
  destruct Ho as [_ Ho]. destruct ts'; [by destruct Ho as [-> _]|]. destruct Ho as [-> _]. done.
Qed.

(** C29: A call of sdio_load_data with a block of data takes a prefix of it, at least
    as much as the free blocks have room for: when it all fits, all of it. *)
Theorem sdio_load_takes ops data :
  can_malloc malloc junk -> few_reads -> Forall good_op ops -> 0 < zlen data < 2 ^ 31 ->
  wp (start ;; session ops) at_boot (λ _ s, exists ts g, inv s ts g false /\
    wp (sdio_load_data host data (zlen data)) s (λ n s', 0 <= n <= zlen data /\ Z.min (zlen data) (room (nodes (st s)) g) <= n /\
      exists ts' g', inv s' ts' g' false /\ took s ts g data n s' ts' g')).
Proof.
  intros Hm Hf Hg Hd. apply wp_bind, wp_boot; [done|]. intros l v g HI He _ Hr _ _.
  eapply wp_mono; [by apply (wp_session _ _ _ _ Hf Hg HI)|]. cbv beta. intros sent [l1 m1 v1] (ts1 & g1 & HI1 & _).
  exists ts1, g1. split; [done|]. eapply wp_load_data; [done|split; [apply Hd|done]|apply Hd|exact HI1|]. eauto 10.
Qed.

(** ** Nothing on offer, and nothing that would offer anything *)

Section Mute.
(** What the host has received, and will ever. *)
Context (all : list Z).
Definition silent (s : sys sdio_vars) : Prop :=
  has_read (st s) = false /\ rx_started (wires (log s)) = false /\ received (wires (log s)) = all.
Definition mutes {A} (m : F sdio_vars A) : Prop := forall s, silent s -> lp m s (λ _ s', silent s').

Lemma mutes_ret {A} (a : A) : mutes (sret a).
Proof. intros s H. by apply lp_ret. Qed.
Lemma mutes_lift {A} (o : option A) : mutes (slift o).
Proof. intros s H. by apply lp_lift. Qed.
Lemma mutes_get {A} (f : sys sdio_vars -> A) : mutes (sget f).
Proof. intros s H. by apply lp_get. Qed.
Lemma mutes_bind {A B} (m : F sdio_vars A) (k : A -> F sdio_vars B) : mutes m -> (forall a, mutes (k a)) -> mutes (sbind m k).
Proof. intros Hm Hk s H. apply lp_bind. eapply lp_mono; [by apply Hm|]. cbv beta. intros a s'. apply Hk. Qed.
Lemma mutes_when (b : bool) (m : F sdio_vars unit) : mutes m -> mutes (swhen b m).
Proof. destruct b; [done|]. intros _. apply mutes_ret. Qed.
Lemma mutes_modify f : (forall v, has_read (f v) = has_read v) -> mutes (modify f).
Proof. intros Hf s (H1 & H2) a s' [= <- <-]. split; [by cbn; rewrite Hf|done]. Qed.
Lemma mutes_record e : (forall w, rx_started w = false -> rx_started (wire_step w e) = false /\ received (wire_step w e) = received w) -> mutes (record e).
Proof.
  intros He s (H1 & H2 & H3) a s' [= <- <-]. destruct (He _ H2) as [H4 H5]. unfold silent. cbn [log st]. rewrite wires_snoc.
  split_and!; [done|done|]. by rewrite H5.
Qed.
Lemma mutes_read a : mutes (READ_PERI_REG a).
Proof. apply mutes_bind; [apply mutes_get|]. intros l. apply mutes_bind; [by apply mutes_record|]. intros _. apply mutes_ret. Qed.
Lemma mutes_write a v : a ≠ SLC_RX_LINK -> mutes (WRITE_PERI_REG a v).
Proof. intros Ha. apply mutes_record. intros w Hw. cbn -[Z.eqb]. rewrite (proj2 (Z.eqb_neq _ _) Ha). by do 2 case_match. Qed.
Lemma mutes_ask c : (forall w v, wire_step w (Got c v) = w) -> mutes (ask c).
Proof.
  intros Hc. apply mutes_bind; [apply mutes_get|]. intros l. apply mutes_bind; [apply mutes_record; intros; by rewrite Hc|]. intros _. apply mutes_ret.
Qed.
Lemma mutes_call c : (forall w, rx_started w = false -> rx_started (wire_step w (Do c)) = false /\ received (wire_step w (Do c)) = received w) -> mutes (call c).
Proof. apply mutes_record. Qed.

Create HintDb mutes.
Hint Resolve mutes_ret mutes_lift mutes_get mutes_when mutes_read : mutes.
Hint Extern 1 (mutes (sbind _ _)) => (apply mutes_bind; [|intros ?]) : mutes.
Hint Extern 1 (mutes (modify _)) => (apply mutes_modify; done) : mutes.
Hint Extern 1 (mutes (WRITE_PERI_REG _ _)) => (apply mutes_write; done) : mutes.
Hint Extern 1 (mutes (call _)) => (apply mutes_call; done) : mutes.
Hint Extern 1 (mutes (ask _)) => (apply mutes_ask; done) : mutes.
Hint Extern 1 (mutes (var _)) => (apply mutes_get) : mutes.
Hint Extern 2 (mutes (match _ with _ => _ end)) => case_match : mutes.
Ltac mute := eauto 60 with mutes.

Lemma mutes_node p : mutes (node p).
Proof. unfold node. mute. Qed.
Lemma mutes_set_node p f : mutes (set_node p f).
Proof. unfold set_node. pose proof mutes_node. mute. Qed.
Lemma mutes_trig : mutes TRIG_TOHOST_INT.
Proof. unfold TRIG_TOHOST_INT, SET_PERI_REG_MASK, CLEAR_PERI_REG_MASK. mute. Qed.
Lemma mutes_read_status : mutes read_status.
Proof. unfold read_status. mute. Qed.
Lemma mutes_write_status x : mutes (write_status x).
Proof. unfold write_status. mute. Qed.
Hint Resolve mutes_node mutes_set_node mutes_trig mutes_read_status mutes_write_status : mutes.
Lemma mutes_write_done : mutes tx_buff_write_done.
Proof. unfold tx_buff_write_done. mute. Qed.
Lemma mutes_handle_done : mutes tx_buff_handle_done.
Proof. unfold tx_buff_handle_done, SET_PERI_REG_MASK. mute. Qed.
Hint Resolve mutes_write_done mutes_handle_done : mutes.
Lemma mutes_described q : mutes (described q).
Proof. unfold described. mute. Qed.
Hint Resolve mutes_described : mutes.
Lemma mutes_hand_over f : mutes (hand_over f).
Proof. unfold hand_over, call_recv, sdio_recv_data_callback. mute. Qed.
Hint Resolve mutes_hand_over : mutes.
Lemma mutes_fetch : mutes at_custom_uart_rx_buffer_fetch_cb.
Proof. unfold at_custom_uart_rx_buffer_fetch_cb. mute. Qed.
(** [has_read] is false: nothing is loaded. *)
Lemma mutes_try : mutes sdio_try_to_load.
Proof.
  intros s H. unfold sdio_try_to_load. apply lp_bind, lp_get, lp_bind, lp_get. destruct H as (H1 & H2). rewrite H1. cbn [andb swhen]. by apply lp_ret.
Qed.
Hint Resolve mutes_fetch mutes_try : mutes.
Lemma mutes_host_acts a : mutes (host_acts a).
Proof.
  intros s H. unfold host_acts. apply lp_bind, lp_get. destruct a as [|d].
  - destruct H as (H1 & H2 & H3). rewrite H2. cbn [swhen]. by apply lp_ret.
  - apply lp_when; [|done]. intros _. apply lp_bind, lp_get. apply lp_bind, lp_lift. intros b _. apply lp_bind.
    eapply lp_mono; [by eapply mutes_modify; [|exact H]|]. cbv beta. intros _ [l m v] H2. apply lp_bind, lp_call. cbn [log mem st].
    destruct (write_interrupts l d) as [I1 I2]. intros a s' E. unfold sdio_slave_isr, sbind at 1 in E.
    unfold READ_PERI_REG, record in E. cbn [sbind sget smod sret mbind option_bind log mem st] in E. revert E.
    set (w := u32 _) in *. set (s1 := mk_sys _ _ _). intros E.
    assert (Hs1 : silent s1).
    { destruct H2 as (A1 & A2 & A3). unfold silent, s1. cbn [log st] in *. rewrite !wires_snoc. cbn. done. }
    destruct (Z.eqb_spec w 0) as [Ew|_]; [by injection E as <- <-|]. rewrite I2 in E. change (negb (0 =? 0)) with false in E.
    revert E. match goal with |- ?P s1 = _ -> _ => assert (HM : mutes P) by mute end. intros E. exact (HM s1 Hs1 _ _ E).
Qed.
Lemma mutes_for {A} (k : list A) (f : A -> F sdio_vars unit) : (forall a, mutes (f a)) -> mutes (sfor k f).
Proof. intros Hf. induction k as [|a k IH]; cbn [sfor]; mute. Qed.
Lemma mutes_window : mutes (window host).
Proof. unfold window. pose proof mutes_host_acts. pose proof @mutes_for. mute. Qed.
Hint Resolve mutes_host_acts mutes_window : mutes.
Lemma mutes_load data len : mutes (sdio_load_data host data len).
Proof.
  assert (HL : forall k data len acc, mutes (load_loop host k data len acc)).
  { induction k as [|k IH]; intros d n acc; cbn [load_loop]; [mute|]. unfold put_back, put_last, ETS_SDIO_INTR_ENABLE, ETS_SDIO_INTR_DISABLE, ETS_INTR_ENABLE, ETS_INTR_DISABLE. mute. }
  unfold sdio_load_data, move_first, ETS_SDIO_INTR_ENABLE, ETS_INTR_ENABLE. mute.
Qed.
Hint Resolve mutes_load : mutes.
Lemma mutes_session ops : mutes (session ops).
Proof. induction ops as [|o ops IH]; cbn [session]; [mute|]. unfold step. destruct o; mute. Qed.

End Mute.

(** Nothing waits: there is no block to send and no free one holds anything. *)
Lemma nothing_waits s ts g : inv s ts g false -> contents (nodes (st s)) (ts ++ g) = [] -> ts = [] /\ Forall (node_ok (nodes (st s)) 0 0) g.
Proof.
  intros [H Ho] Hc. rewrite contents_app in Hc. apply app_eq_nil in Hc as [Hts Hg].
  assert (ts = []) as ->.
  { destruct ts as [|h ts]; [done|]. rewrite contents_cons in Hts. apply app_eq_nil in Hts as [Hh _].
    pose proof (sh_full _ _ _ _ H) as [Hf _]%list.Forall_cons. apply zlen_content in Hf; [|lia|unfold RX_BUFFER_SIZE; lia].
    rewrite Hh, zlen_nil in Hf. lia. }
  split; [done|]. pose proof (sh_others _ _ _ _ H) as F. destruct Ho as [_ (_ & _ & He)]. specialize (He eq_refl).
  destruct g as [|q g]; [done|]. apply list.Forall_cons in He as [He _]. by constructor.
Qed.

(** The call with no data, in such a state. *)
Lemma wp_empty_load data s g : inv s [] g false -> Forall (node_ok (nodes (st s)) 0 0) g ->
  wp (sdio_load_data host data 0) s (λ n s', n = 0 /\ silent (received (wires (log s))) s').
Proof.
  destruct s as [l m v]. intros [H [_ (Hr & Hs & _)]] Hg. cbn [log st] in *. assert (Hlen := sh_len _ _ _ _ H).
  destruct g as [|t g]; [done|]. apply list.Forall_cons in Hg as [(n & Hn & Hb & Ht) _].
  unfold sdio_load_data. apply wp_bind, wp_var. cbn [st]. rewrite (sh_free _ _ _ _ H). cbn [rest head].
  apply wp_bind. cbn [load_loop Z.to_nat Z.eqb]. apply wp_ret. apply wp_bind, wp_var. cbn [st]. rewrite (sh_head _ _ _ _ H). cbn [head].
  rewrite bool_decide_false by (by intros ?). cbn [negb swhen]. apply wp_bind.
  pose proof (sh_linked_g _ _ _ _ H) as [(k & Hk & E) _]. replace k with n in * by congruence. pose proof (sh_free _ _ _ _ H) as Hf. cbn in Hf.
  apply wp_bind. unfold move_first. apply wp_bind, wp_modify. cbn. rewrite Hf. apply wp_bind, wp_modify. cbn. apply wp_bind, wp_var. cbn. rewrite Hf.
  apply wp_bind. eapply wp_node; [exact Hn|]. apply wp_bind, wp_modify. cbn. apply wp_bind, wp_var. cbn. eapply wp_set_node; [exact Hn|]. cbn.
  unfold sdio_try_to_load. apply wp_bind, wp_var. cbn. rewrite Hr. apply wp_bind, wp_var. cbn.
  apply wp_bind. unfold offer_head. apply wp_bind, wp_var. cbn. apply wp_bind. eapply wp_node; [cbn; by rewrite lookup_insert_eq|].
  apply wp_bind, (wp_lift _ t); [done|]. apply wp_bind, wp_modify. cbn. replace (tail n) with 0 by lia. cbn. apply wp_bind, wp_ret, wp_modify. cbn.
  apply wp_trig. intros l2 E2. apply wp_bind, wp_call, wp_ret. cbn. split; [done|].
  unfold silent. cbn [st log has_read]. rewrite wires_snoc. cbn [wire_step]. by rewrite E2.
Qed.

(** C30: A call with no data when nothing waits makes the driver mute for good.  After
    any session of calls with data, if the host has read all that was taken, a call
    with length 0 puts an empty block at the head as if it were on offer, but the link
    is not started for it; so the host never receives another byte and the link is
    never started again, whatever is loaded later and whatever the host does. *)
Theorem sdio_empty_load_wedges ops data :
  can_malloc malloc junk -> few_reads -> Forall good_op ops ->
  wp (start ;; session ops) at_boot (λ sent s, received (wires (log s)) = sent ->
    wp (sdio_load_data host data 0) s (λ n s1, n = 0 /\
      forall later, lp (session later) s1 (λ _ s', received (wires (log s')) = sent /\ rx_started (wires (log s')) = false))).
Proof.
  intros Hm Hf Hg. apply wp_bind, wp_boot; [done|]. intros l v g HI He _ Hr _ _.
  eapply wp_mono; [by apply (wp_session _ _ _ _ Hf Hg HI)|]. cbv beta. intros sent s (ts' & g' & HI' & E) Hall. cbn [log st] in E.
  rewrite Hr, (contents_empty _ ([] ++ g)) in E by done. cbn [app] in E.
  assert (Hc : contents (nodes (st s)) (ts' ++ g') = []) by (rewrite Hall in E; by apply (app_inv_head sent); rewrite app_nil_r).
  destruct (nothing_waits s ts' g' HI' Hc) as [-> Hg']. eapply wp_mono; [by apply (wp_empty_load data s g')|]. cbv beta.
  intros n s1 [Hn Hs1]. split; [done|]. intros later. eapply lp_mono; [by apply mutes_session|]. rewrite <- Hall. by intros ? ? (_ & ? & ?).
Qed.

(** What the host writes goes to the callback whole.  When the callback takes all of
    it, the block is open to the host again; otherwise it is not, the status word says
    busy, and at_custom_uart_rx_buffer_fetch_cb offers the same bytes to the callback
    again.  Nothing else changes. *)
Theorem sdio_receives s ts g d :
  inv s ts g false -> sdio_recv_data_callback_ptr (st s) = Some fp_sdio_recv_data_callback -> tx_started (wires (log s)) = true ->
  0 < zlen d <= TX_BUFFER_SIZE ->
  wp (host_acts (HostWrites d)) s (λ _ s', exists l1 x, let r := u32 (sdk_ret l1 (at_fake_uart_rx d)) in
    In (Got (at_fake_uart_rx d) r) (log s') /\ host_status (wires (log s')) = Some x /\
    tx_started (wires (log s')) = (r =? zlen d) /\ wr_busy x = b2z (negb (r =? zlen d)) /\
    received (wires (log s')) = received (wires (log s)) /\ nodes (st s') = nodes (st s) /\
    (r ≠ zlen d -> wp at_custom_uart_rx_buffer_fetch_cb s' (λ _ s'', exists y, let r' := u32 (sdk_ret (log s') (at_fake_uart_rx d)) in
       host_status (wires (log s'')) = Some y /\ tx_started (wires (log s'')) = (r' =? zlen d) /\ wr_busy y = b2z (negb (r' =? zlen d))))).
Proof.
  destruct s as [l m v]. intros [H [(x & Hx & Tx) _]] Hcb Htx [Hd0 Hd]. cbn [log st] in *. unfold TX_BUFFER_SIZE in Hd.
  pose proof (sh_tx _ _ _ _ H) as (B1 & B2 & B3). destruct (bsplice_Some (tx_buffer v) 0 d) as (b & Eb & Hb & _); [lia|lia|].
  pose proof (take_bsplice _ _ _ _ Eb) as [Hc _].
  unfold host_acts. apply wp_bind, wp_get. cbn [log]. rewrite Htx. ztrue (0 <? zlen d). unfold TX_BUFFER_SIZE. ztrue (zlen d <=? 2048). cbn [andb swhen].
  apply wp_bind, wp_var. cbn [st]. apply wp_bind, (wp_lift _ b); [done|]. apply wp_bind, wp_modify. cbn [log mem st].
  apply wp_bind, wp_call. cbn [log mem st]. set (v1 := v <| tx_buffer := b |> <| tx_que := _ |>). set (l1 := l ++ [_]).
  assert (E1 : wires l1 = (wires l) <| tx_started := false |>) by (unfold l1; by rewrite wires_snoc).
  assert (Hlen : datalen (tx_que v1) = zlen d) by (cbn; unfold u12; rewrite Z.mod_small; lia).
  assert (Hsl : bslice (tx_buffer v1) 0 (datalen (tx_que v1)) = Some d).
  { rewrite Hlen. cbn [tx_buffer v1 set_field]. unfold bslice. cbn -[Z.add zlen Z.to_nat]. ztrue (0 <=? zlen d). ztrue (0 + zlen d <=? zlen b). cbn [andb].
    rewrite Z.add_0_l in Hc. change (drop (Z.to_nat 0) b) with b. rewrite Hc. done. }
  destruct (write_interrupts l d) as [I1 I2]. eapply wp_intr; [exact I1|exact I2|by right|]. intros l2 E2. rewrite E1 in E2.
  apply wp_bind. eapply wp_write_done; [rewrite E2; exact Hx|apply Tx|]. intros l3 y Hy Hyok Hw E3.
  apply wp_bind, wp_var. cbn [st]. assert (sdio_recv_data_callback_ptr v1 = Some fp_sdio_recv_data_callback) as -> by done.
  assert (HS3 : host_status (wires l3) = Some y) by (by rewrite E3).
  eapply wp_hand_over; [exact Hsl|done|exact HS3|exact Hyok| |]; rewrite Hlen.
  - intros Er l4 z q Hz Hzok Hwz E4 Q1 Q2 Q3 [k Ek]. exists l3, z. cbn zeta. cbn [log st]. rewrite Er, E4, Z.eqb_refl.
    split_and!; try done; [|cbn; by rewrite E3, E2].
    rewrite Ek, Er. apply in_or_app. right. by left.
  - set (e := Got _ _). intros Er. apply Z.eqb_neq in Er as Er'. exists l3, y. cbn zeta. cbn [log st]. rewrite Er', wires_snoc. cbn [wire_step]. rewrite E3, E2.
    split_and!; try done; [apply in_or_app; right; by left|]. intros _.
    unfold at_custom_uart_rx_buffer_fetch_cb. apply wp_bind, wp_var. cbn [st]. apply wp_bind, wp_var. cbn [st].
    assert (sdio_recv_data_callback_ptr v1 = Some fp_sdio_recv_data_callback) as -> by done. rewrite Hlen. zfalse (zlen d =? 0). cbn [negb swhen].
    assert (E5 : wires (l3 ++ [e]) = wires l3) by (by rewrite wires_snoc).
    eapply wp_hand_over; [exact Hsl|done|by rewrite E5|exact Hyok| |]; rewrite Hlen.
    + intros Er2 l4 z q Hz Hzok Hwz E4 Q1 Q2 Q3 _. exists z. cbn zeta. cbn [log]. rewrite Er2, E4, Z.eqb_refl. done.
    + intros Er2. apply Z.eqb_neq in Er2. exists y. cbn zeta. cbn [log]. rewrite Er2, wires_snoc. cbn [wire_step]. rewrite E5, E3, E2. done.
Qed.
End Sessions.

(** ** A hardware *)

Definition sdio_env : Env := mk_env
  (λ l a, if a =? SLC_HOST_CONF_W2 then match host_status (wires l) with Some x => word_value x | None => 0 end
          else if a =? SLC_INT_STATUS then
            match list.last l with
            | Some (Do (sdio_host_read _)) => SLC_RX_EOF_INT_ENA
            | Some (Do (sdio_host_write _)) => SLC_TX_EOF_INT_ENA
            | _ => 0
            end
          else 0)
  (λ _ c, match c with at_fake_uart_rx d => zlen d | _ => 0 end).
Lemma host_status_elm l x : host_status (wires l) = Some x -> exists w, x = elm_value w.
Proof.
  induction l as [|e l IH] using rev_ind; [done|]. rewrite wires_snoc. destruct e as [a v|a v|c|c r]; cbn [wire_step]; try done.
  - repeat case_match; cbn; try done. intros [= <-]. eauto.
  - destruct c; done.
Qed.
#[export] Instance sdio_slc : @Slc sdio_env.
Proof.
  split.
  - intros l x Hx. cbn [hw_read sdio_env]. rewrite Z.eqb_refl, Hx. destruct (host_status_elm _ _ Hx) as [w ->].
    pose proof (elm_range w) as Hr. cbn zeta in Hr. rewrite <- (u32_small (u32 _)) by apply u32_range. unfold u32 at 1. rewrite Z.mod_small by apply u32_range.
    rewrite elm_word by tauto. destruct (elm_value w) as [a b c d e f]. cbn in *. unfold set_field. cbn. rewrite Z.mod_small by lia. done.
  - intros l. done.
  - intros l d. cbn [hw_read sdio_env]. change (SLC_INT_STATUS =? SLC_HOST_CONF_W2) with false. rewrite Z.eqb_refl, last_snoc. done.
  - intros l d. cbn [hw_read sdio_env]. change (SLC_INT_STATUS =? SLC_HOST_CONF_W2) with false. rewrite Z.eqb_refl, last_snoc. done.
Qed.
Definition fresh_node (N : gmap positive sdio_list) : option positive := Some (fresh (dom N)).
Definition some_node : sdio_list := mk_list (replicate 2048 165) 7 None.
Lemma sdio_can_malloc : can_malloc fresh_node some_node.
Proof.
  split; [done|]. split; [|by eexists]. intros N p [= <-]. apply not_elem_of_dom, is_fresh.
Qed.
#[local] Existing Instance sdio_env.
(** A host that reads a block in every window. *)
Definition eager_host (l : list event) : list host_action := [HostReads].

Lemma sdio_stream_witness : let ops := [Load [104; 105]; Host HostReads; Load [33]; Fetch; Host (HostWrites [65; 84]); Load (replicate 3000 7)] in
  wp (boot fresh_node some_node 0x3ffe8000 0x3ffe800c ;; session eager_host ops) at_boot (λ sent s', exists waiting,
    received (wires (log s')) ++ waiting = sent /\ (waiting ≠ [] -> rx_started (wires (log s')) = true) /\
    wp (sfor (replicate (length waiting) HostReads) host_acts) s' (λ _ s'', received (wires (log s'')) = sent)).
Proof.
  intros ops. apply (sdio_stream (HE := sdio_env) fresh_node some_node 0x3ffe8000 0x3ffe800c eager_host ops); [apply sdio_can_malloc|by intros l; cbn; lia|].
  unfold ops, good_op. repeat constructor; vm_compute; reflexivity.
Defined.
Lemma sdio_blocks_witness :
  wp (boot fresh_node some_node 0x3ffe8000 0x3ffe800c ;; session eager_host [Load [104; 105]; Host HostReads]) at_boot (λ _ s,
    exists ts g : list positive, NoDup (ts ++ g) /\ length (ts ++ g) = RX_BUFFER_NUM).
Proof.
  eapply wp_mono; [apply (sdio_blocks (HE := sdio_env) fresh_node some_node 0x3ffe8000 0x3ffe800c eager_host [Load [104; 105]; Host HostReads]);
    [apply sdio_can_malloc|by intros l; cbn; lia|repeat constructor; vm_compute; reflexivity]|].
  cbv beta. intros _ s (ts & g & H1 & H2 & _). by exists ts, g.
Defined.
Lemma sdio_load_takes_witness :
  wp (boot fresh_node some_node 0x3ffe8000 0x3ffe800c ;; session eager_host [Load [104; 105]]) at_boot (λ _ s, exists ts g, inv s ts g false /\
    wp (sdio_load_data eager_host (replicate 12000 1) 12000) s (λ n s', 0 <= n <= 12000 /\ Z.min 12000 (room (nodes (st s)) g) <= n /\
      exists ts' g', inv s' ts' g' false /\ took s ts g (replicate 12000 1) n s' ts' g')).
Proof.
  apply (sdio_load_takes (HE := sdio_env) fresh_node some_node 0x3ffe8000 0x3ffe800c eager_host [Load [104; 105]] (replicate 12000 1));
    [apply sdio_can_malloc|by intros l; cbn; lia| |by vm_compute]. repeat constructor; vm_compute; reflexivity.
Defined.
(** Two bytes are loaded and read; then the empty call. *)
Lemma sdio_empty_load_wedges_witness :
  wp (boot fresh_node some_node 0x3ffe8000 0x3ffe800c ;; session eager_host [Load [104; 105]; Host HostReads]) at_boot (λ sent s,
    received (wires (log s)) = sent -> wp (sdio_load_data eager_host [1; 2] 0) s (λ n s1, n = 0 /\
    forall later, lp (session eager_host later) s1 (λ _ s', received (wires (log s')) = sent /\ rx_started (wires (log s')) = false))).
Proof.
  apply (sdio_empty_load_wedges (HE := sdio_env)); [apply sdio_can_malloc|by intros l; cbn; lia|]. repeat constructor; vm_compute; reflexivity.
Defined.
(** There the host has read all. *)
Example sample_all_read : match (boot fresh_node some_node 0x3ffe8000 0x3ffe800c ;; session eager_host [Load [104; 105]; Host HostReads]) at_boot with
  | Some (sent, s) => sent = [104; 105] /\ received (wires (log s)) = sent | None => False end.
Proof. by vm_compute. Qed.
Lemma sdio_receives_witness : exists s : sys sdio_vars,
  wp (host_acts (H := sdio_env) (HostWrites [65; 84])) s (λ _ s', received (wires (log s')) = received (wires (log s)) /\ tx_started (wires (log s')) = true).
Proof.
  destruct (wp_boot (HE := sdio_env) fresh_node some_node 0 0 (λ _ s, exists g, inv s [] g false /\ tx_started (wires (log s)) = true /\
    sdio_recv_data_callback_ptr (st s) = Some fp_sdio_recv_data_callback) sdio_can_malloc) as ([] & s & _ & g & HI & Htx & Hcb); [eauto 10|].
  exists s. eapply wp_mono; [apply (sdio_receives (HE := sdio_env) s [] g [65; 84]); [done|done|done|by vm_compute]|].
  cbv beta. intros _ s' (l1 & x & _ & _ & E & _ & R & _). split; [done|]. rewrite E. reflexivity.
Defined.
