(* ===== verification/Dhcps.v ===== *)
(** * Dhcps: the DHCP server of the access point
      (src/examples/lwip_open_src_template_proj/lwip/app/dhcpserver.c)

    Espressif's own server on top of lwIP.  The leases are a linked list sorted by
    address; nodes and entries are objects of two stores, as the C code allocates
    and frees them: an access to a freed object is undefined.  A packet is parsed
    into a [dhcps_msg], its sender gets an entry, and the answer is written over the
    message.

    lwIP's pbufs and the functions of the SDK that are called are events of the log.
    An address is the 32-bit word of its four bytes in network order. *)

From Stdlib Require Import String.
From stdpp Require Import gmap.
From S2P Require Import Prelude CMem Board.
Local Open Scope sm_scope.

(** ** Constants (include/lwip/app/dhcpserver.h, include/user_interface.h, include/lwip/ip_addr.h) *)

Definition DHCPS_LEASE_TIME_DEF : Z := 120.
Definition DHCPS_MAX_LEASE : Z := 0x64.
Definition BOOTP_BROADCAST : Z := 0x8000.
Definition DHCP_REPLY : Z := 2.
Definition DHCP_HTYPE_ETHERNET : Z := 1.
Definition DHCPS_SERVER_PORT : Z := 67.
Definition DHCPS_CLIENT_PORT : Z := 68.
Definition DHCPDISCOVER : Z := 1.
Definition DHCPOFFER : Z := 2.
Definition DHCPREQUEST : Z := 3.
Definition DHCPDECLINE : Z := 4.
Definition DHCPACK : Z := 5.
Definition DHCPNAK : Z := 6.
Definition DHCPRELEASE : Z := 7.
Definition DHCP_OPTION_SUBNET_MASK : Z := 1.
Definition DHCP_OPTION_ROUTER : Z := 3.
Definition DHCP_OPTION_DNS_SERVER : Z := 6.
Definition DHCP_OPTION_REQ_IPADDR : Z := 50.
Definition DHCP_OPTION_LEASE_TIME : Z := 51.
Definition DHCP_OPTION_MSG_TYPE : Z := 53.
Definition DHCP_OPTION_SERVER_ID : Z := 54.
Definition DHCP_OPTION_INTERFACE_MTU : Z := 26.
Definition DHCP_OPTION_PERFORM_ROUTER_DISCOVERY : Z := 31.
Definition DHCP_OPTION_BROADCAST_ADDRESS : Z := 28.
Definition DHCP_OPTION_END : Z := 255.
Definition MAX_STATION_NUM : Z := 8.
Definition DHCPS_STATE_OFFER : Z := 1.
Definition DHCPS_STATE_ACK : Z := 3.
Definition DHCPS_STATE_NAK : Z := 4.
Definition DHCPS_STATE_IDLE : Z := 5.
Definition DHCPS_STATE_RELEASE : Z := 6.
Definition NULL_MODE : Z := 0.
Definition STATION_MODE : Z := 1.
Definition SOFTAP_IF : Z := 1.
Definition DHCP_STOPPED : Z := 0.
Definition DHCP_STARTED : Z := 1.
Definition OFFER_START : Z := 0.
Definition OFFER_ROUTER : Z := 1.
Definition OFFER_END : Z := 2.
Definition IPADDR_ANY : Z := 0.
Definition IPADDR_BROADCAST : Z := 0xffffffff.
Definition magic_cookie : Z := 0x63538263.
Definition dhcps_router_enabled (offer : Z) : bool := negb (Z.land offer OFFER_ROUTER =? 0).

(** lwip/core/def.c *)
Definition htonl (n : Z) : Z :=
  Z.lor (Z.lor (Z.lor (Z.shiftl (Z.land n 0xff) 24) (Z.shiftl (Z.land n 0xff00) 8)) (Z.shiftr (Z.land n 0xff0000) 8))
        (Z.shiftr (Z.land n 0xff000000) 24).
Definition ntohl (n : Z) : Z := htonl n.

(** ** Data *)

Inductive dhcps_type_t := DHCPS_TYPE_DYNAMIC | DHCPS_TYPE_STATIC.
Inductive dhcps_state_t := DHCPS_STATE_ONLINE | DHCPS_STATE_OFFLINE.
#[export] Instance dhcps_type_eq_dec : EqDecision dhcps_type_t. Proof. solve_decision. Defined.
#[export] Instance dhcps_state_eq_dec : EqDecision dhcps_state_t. Proof. solve_decision. Defined.

(** [struct dhcps_pool]: an entry. *)
Record dhcps_pool := mk_pool {
  pool_ip : Z; pool_mac : list Z; lease_timer : Z; pool_type : dhcps_type_t; pool_state : dhcps_state_t }.
#[export] Instance eta_pool : Settable dhcps_pool := λ p, mk_pool (pool_ip p) (pool_mac p) (lease_timer p) (pool_type p) (pool_state p).
Definition zero_pool : dhcps_pool := mk_pool 0 (replicate 6 0) 0 DHCPS_TYPE_DYNAMIC DHCPS_STATE_ONLINE.

(** [list_node] *)
Record list_node := mk_node { pnode : option positive; pnext : option positive }.
#[export] Instance eta_node : Settable list_node := λ n, mk_node (pnode n) (pnext n).

(** [struct dhcps_lease] *)
Record dhcps_lease := mk_lease { enable : bool; start_ip : Z; end_ip : Z }.
#[export] Instance eta_lease : Settable dhcps_lease := λ l, mk_lease (enable l) (start_ip l) (end_ip l).

(** [struct ip_info] *)
Record ip_info := mk_info { info_ip : Z; info_netmask : Z; info_gw : Z }.

(** [struct dhcps_msg]; the arrays of bytes have 4, 4, 4, 4, 4, 16, 64, 128 and 312 elements. *)
Record dhcps_msg := mk_msg {
  op : Z; htype : Z; hlen : Z; hops : Z; xid : list Z; secs : Z; flags : Z;
  ciaddr : list Z; yiaddr : list Z; siaddr : list Z; giaddr : list Z; chaddr : list Z; sname : list Z; file : list Z; options : list Z }.
#[export] Instance eta_msg : Settable dhcps_msg := λ m, mk_msg (op m) (htype m) (hlen m) (hops m) (xid m) (secs m) (flags m)
  (ciaddr m) (yiaddr m) (siaddr m) (giaddr m) (chaddr m) (sname m) (file m) (options m).
Definition sizeof_dhcps_msg : Z := 548.

(** The bytes of the struct in memory, and the struct in 548 bytes. *)
Definition msg_bytes (m : dhcps_msg) : list Z :=
  [op m; htype m; hlen m; hops m] ++ xid m ++ [secs m mod 256; secs m / 256; flags m mod 256; flags m / 256] ++
  ciaddr m ++ yiaddr m ++ siaddr m ++ giaddr m ++ chaddr m ++ sname m ++ file m ++ options m.
Definition field (b : list Z) (off n : nat) : list Z := take n (drop off b).
Definition msg_of_bytes (b : list Z) : dhcps_msg :=
  mk_msg (nthZ b 0) (nthZ b 1) (nthZ b 2) (nthZ b 3) (field b 4 4) (nthZ b 8 + 256 * nthZ b 9) (nthZ b 10 + 256 * nthZ b 11)
    (field b 12 4) (field b 16 4) (field b 20 4) (field b 24 4) (field b 28 16) (field b 44 64) (field b 108 128) (field b 236 312).

(** What the callback looks at of a [struct pbuf]: its payload, [tot_len], the payload of the next one. *)
Record pbuf := mk_pbuf { payload : list Z; tot_len : Z; next_payload : option (list Z) }.

(** The static variables, the objects allocated, and [dhcps_pcb] of the access point's [struct netif]. *)
Record dhcps_vars := mk_dhcps {
  plist : option positive; nodes : gmap positive list_node; pools : gmap positive dhcps_pool;
  lease : dhcps_lease; offer : Z; renew : bool; dhcps_lease_time : Z;
  pcb_dhcps : Z; netif_dhcps_pcb : Z; broadcast_dhcps : Z; server_address : Z; client_address : Z }.
#[export] Instance eta_dhcps : Settable dhcps_vars := λ v, mk_dhcps (plist v) (nodes v) (pools v) (lease v) (offer v) (renew v)
  (dhcps_lease_time v) (pcb_dhcps v) (netif_dhcps_pcb v) (broadcast_dhcps v) (server_address v) (client_address v).
Definition dhcps_initial : dhcps_vars := mk_dhcps None ∅ ∅ (mk_lease false 0 0) 0xFF false DHCPS_LEASE_TIME_DEF 0 0 0 0 0.

(** Where the allocator puts an entry and a node. *)
Class DhcpsAlloc := mk_dalloc {
  new_pool : gmap positive dhcps_pool -> option positive;
  new_node : gmap positive list_node -> option positive;
  new_pool_fresh : forall h p, new_pool h = Some p -> h !! p = None;
  new_node_fresh : forall h p, new_node h = Some p -> h !! p = None }.

(** Whether [pcb] is a control block of lwIP: made by [udp_new] and not removed since. *)
Definition live_step (pcb : Z) (b : bool) (e : event) : bool :=
  match e with
  | Got udp_new v => if v =? pcb then true else b
  | Do (udp_remove v) => if v =? pcb then false else b
  | _ => b
  end.
Definition live (pcb : Z) (l : list event) : bool := negb (pcb =? 0) && fold_left (live_step pcb) l false.

(** What [wifi_get_ip_info( SOFTAP_IF, _ )] fills in. *)
Class SoftapInfo := softap_info : list event -> ip_info.

Section Server.
Context `{Env} `{Alloc} `{DhcpsAlloc} `{SoftapInfo}.
Abbreviation M := (F dhcps_vars).

(** [*p] and the assignments to its members. *)
Definition node (p : option positive) : M list_node := p <- slift p ;; N <- var nodes ;; slift (N !! p).
Definition pool (p : option positive) : M dhcps_pool := p <- slift p ;; P <- var pools ;; slift (P !! p).
Definition set_node (p : option positive) (f : list_node -> list_node) : M unit :=
  n <- node p ;; p <- slift p ;; modify (λ v, v <| nodes := <[p := f n]> (nodes v) |>).
Definition set_pool (p : option positive) (f : dhcps_pool -> dhcps_pool) : M unit :=
  e <- pool p ;; p <- slift p ;; modify (λ v, v <| pools := <[p := f e]> (pools v) |>).
(** [os_free] *)
Definition free_node (p : option positive) : M unit := node p ;; p <- slift p ;; modify (λ v, v <| nodes := delete p (nodes v) |>).
Definition free_pool (p : option positive) : M unit := pool p ;; p <- slift p ;; modify (λ v, v <| pools := delete p (pools v) |>).
(** [os_free(p->pnode); p->pnode = NULL; os_free(p);] *)
Definition free_entry (p : option positive) : M unit :=
  n <- node p ;; free_pool (pnode n) ;; set_node p (λ n, n <| pnode := None |>) ;; free_node p.
(** [os_zalloc( sizeof( struct dhcps_pool ) )], [os_zalloc( sizeof( list_node ) )] *)
Definition zalloc_pool : M (option positive) :=
  P <- var pools ;;
  match new_pool P with
  | Some p => modify (λ v, v <| pools := <[p := zero_pool]> P |>) ;; sret (Some p)
  | None => sret None
  end.
Definition zalloc_node : M (option positive) :=
  N <- var nodes ;;
  match new_node N with
  | Some p => modify (λ v, v <| nodes := <[p := mk_node None None]> N |>) ;; sret (Some p)
  | None => sret None
  end.

(** The rounds of a loop along the list: no more than there are nodes. *)
Definition rounds : M nat := N <- var nodes ;; sret (S (size N)).

(** [pcb_dhcps], for a function of lwIP that looks into it. *)
Definition the_pcb : M Z := pcb <- var pcb_dhcps ;; l <- sget log ;; slift (if live pcb l then Some pcb else None).

(** ** The list *)

(** The [while] loop: [plist] is the local variable. *)
Fixpoint insert_walk (fuel : nat) (plist pinsert : option positive) (addr : Z) : M unit :=
  match fuel with
  | O => slift None
  | S fuel =>
      n <- node plist ;;
      match pnext n with
      | None => set_node plist (λ n, n <| pnext := pinsert |>)
      | Some q =>
          m <- node (Some q) ;; pdhcps_pool <- pool (pnode m) ;;
          if addr <? pool_ip pdhcps_pool
          then set_node pinsert (λ k, k <| pnext := Some q |>) ;; set_node plist (λ n, n <| pnext := pinsert |>)
          else insert_walk fuel (Some q) pinsert addr
      end
  end.

Definition node_insert_to_list (pinsert : option positive) : M unit :=
  phead <- var plist ;;
  match phead with
  | None => modify (λ v, v <| plist := pinsert |>)
  | Some h =>
      k <- node pinsert ;; pdhcps_node <- pool (pnode k) ;;
      n <- node phead ;; pdhcps_pool <- pool (pnode n) ;;
      if pool_ip pdhcps_node <? pool_ip pdhcps_pool
      then set_node pinsert (λ k, k <| pnext := phead |>) ;; modify (λ v, v <| plist := pinsert |>)
      else r <- rounds ;; insert_walk r phead pinsert (pool_ip pdhcps_node)
  end.

Fixpoint remove_walk (fuel : nat) (plist pdelete : option positive) : M unit :=
  match plist with
  | None => sret tt
  | Some _ =>
      match fuel with
      | O => slift None
      | S fuel =>
          n <- node plist ;;
          swhen (bool_decide (pnext n = pdelete)) (
            d <- node pdelete ;; set_node plist (λ n, n <| pnext := pnext d |>) ;;
            set_node pdelete (λ d, d <| pnext := None |>)) ;;
          n <- node plist ;; remove_walk fuel (pnext n) pdelete
      end
  end.

Definition node_remove_from_list (pdelete : option positive) : M unit :=
  phead <- var plist ;;
  match phead with
  | None => modify (λ v, v <| plist := None |>)
  | Some _ =>
      if bool_decide (phead = pdelete)
      then n <- node phead ;; modify (λ v, v <| plist := pnext n |>) ;; set_node pdelete (λ d, d <| pnext := None |>)
      else r <- rounds ;; remove_walk r phead pdelete
  end.

(** ** Entries *)

(** [for (pback_node = plist; ...)] of [wifi_softap_dhcps_client_leave]; [bssid] is the six bytes it points to. *)
Fixpoint leave_loop (fuel : nat) (pback_node : option positive) (bssid : list Z) (ip : Z) (force : bool) : M unit :=
  match pback_node with
  | None => sret tt
  | Some _ =>
      match fuel with
      | O => slift None
      | S fuel =>
          n <- node pback_node ;; pdhcps_pool <- pool (pnode n) ;;
          if bool_decide (pool_mac pdhcps_pool = bssid) && (pool_ip pdhcps_pool =? ip)
          then
            (if bool_decide (pool_type pdhcps_pool = DHCPS_TYPE_STATIC) || force
             then node_remove_from_list pback_node ;; free_node pback_node ;; free_pool (pnode n)
             else set_pool (pnode n) (λ e, e <| pool_state := DHCPS_STATE_OFFLINE |>)) ;;
            call (wifi_softap_set_station_info bssid 0)
          else leave_loop fuel (pnext n) bssid ip force
      end
  end.

Definition wifi_softap_dhcps_client_leave (bssid : option (list Z)) (ip : option Z) (force : bool) : M unit :=
  match bssid, ip with
  | Some bssid, Some ip => h <- var plist ;; r <- rounds ;; leave_loop r h bssid ip force
  | _, _ => sret tt
  end.

(** What the [for] loop of [wifi_softap_dhcps_client_update] leaves: [pmac_node], [pip_node], [flag] and [start_ip]. *)
Record found := mk_found { pmac_node : option positive; pip_node : option positive; f_flag : bool; f_start : Z }.
#[export] Instance eta_found : Settable found := λ r, mk_found (pmac_node r) (pip_node r) (f_flag r) (f_start r).

Fixpoint update_loop (fuel : nat) (pback_node : option positive) (bssid : list Z) (ip : option Z) (r : found) : M found :=
  match pback_node with
  | None => sret r
  | Some _ =>
      match fuel with
      | O => slift None
      | S fuel =>
          n <- node pback_node ;; pdhcps_pool <- pool (pnode n) ;;
          let hit := bool_decide (pool_mac pdhcps_pool = bssid) in
          let r := if hit then r <| pmac_node := pback_node |> else r in
          match ip with
          | None =>
              if hit then sret (r <| f_flag := true |>)
              else
                let r := if f_flag r then r
                         else if negb (pool_ip pdhcps_pool =? f_start r) then r <| f_flag := true |>
                         else r <| f_start := htonl (u32 (ntohl (f_start r) + 1)) |> in
                update_loop fuel (pnext n) bssid ip r
          | Some a =>
              let r := if pool_ip pdhcps_pool =? a then r <| pip_node := pback_node |> else r in
              update_loop fuel (pnext n) bssid ip r
          end
      end
  end.

(** [lease_timer = DHCPS_LEASE_TIMER; type = type; state = DHCPS_STATE_ONLINE;] *)
Definition put_online (p : option positive) (type : dhcps_type_t) : M unit :=
  t <- var dhcps_lease_time ;;
  set_pool p (λ e, e <| lease_timer := t |> <| pool_type := type |> <| pool_state := DHCPS_STATE_ONLINE |>).

(** The end of the function: [wifi_softap_set_station_info(bssid, &pdhcps_pool->ip); return pdhcps_pool->ip.addr;] *)
Definition tell_station (bssid : list Z) (p : option positive) : M Z :=
  e <- pool p ;; call (wifi_softap_set_station_info bssid (pool_ip e)) ;; e <- pool p ;; sret (pool_ip e).

(** The address an entry gets where no entry has the one asked for. *)
Definition assign_ip (p : option positive) (ip : option Z) (r : found) : M bool :=
  match ip with
  | Some a => set_pool p (λ e, e <| pool_ip := a |>) ;; sret true
  | None => if f_flag r then set_pool p (λ e, e <| pool_ip := f_start r |>) ;; sret true else sret false
  end.

(** [pmac_node != NULL]: update new ip. *)
Definition update_known (bssid : list Z) (ip : option Z) (type : dhcps_type_t) (r : found) : M Z :=
  match pip_node r with
  | Some _ =>
      n <- node (pip_node r) ;; let pdhcps_pool := pnode n in
      if negb (bool_decide (pip_node r = pmac_node r))
      then
        e <- pool pdhcps_pool ;;
        if negb (bool_decide (pool_state e = DHCPS_STATE_OFFLINE)) then sret IPADDR_ANY
        else
          node_remove_from_list (pmac_node r) ;; free_entry (pmac_node r) ;;
          set_pool pdhcps_pool (λ e, e <| pool_mac := bssid |>) ;;
          put_online pdhcps_pool type ;; tell_station bssid pdhcps_pool
      else
        modify (λ v, v <| renew := true |>) ;;
        put_online pdhcps_pool DHCPS_TYPE_DYNAMIC ;; tell_station bssid pdhcps_pool
  | None =>
      n <- node (pmac_node r) ;; let pdhcps_pool := pnode n in
      ok <- assign_ip pdhcps_pool ip r ;;
      if negb ok then sret IPADDR_ANY
      else
        node_remove_from_list (pmac_node r) ;;
        put_online pdhcps_pool type ;;
        node_insert_to_list (pmac_node r) ;; tell_station bssid pdhcps_pool
  end.

(** New station. *)
Definition update_new (bssid : list Z) (ip : option Z) (end_ip : Z) (type : dhcps_type_t) (r : found) : M Z :=
  match pip_node r with
  | Some _ =>
      n <- node (pip_node r) ;; let pdhcps_pool := pnode n in
      e <- pool pdhcps_pool ;;
      if negb (bool_decide (pool_state e = DHCPS_STATE_OFFLINE)) then sret IPADDR_ANY
      else
        set_pool pdhcps_pool (λ e, e <| pool_mac := bssid |>) ;;
        put_online pdhcps_pool type ;; tell_station bssid pdhcps_pool
  | None =>
      pdhcps_pool <- zalloc_pool ;;
      ok <- assign_ip pdhcps_pool ip r ;;
      if negb ok then free_pool pdhcps_pool ;; sret IPADDR_ANY
      else
        e <- pool pdhcps_pool ;;
        if end_ip <? pool_ip e then free_pool pdhcps_pool ;; sret IPADDR_ANY
        else
          set_pool pdhcps_pool (λ e, e <| pool_mac := bssid |>) ;;
          put_online pdhcps_pool type ;;
          pback_node <- zalloc_node ;;
          set_node pback_node (λ n, n <| pnode := pdhcps_pool |>) ;;
          set_node pback_node (λ n, n <| pnext := None |>) ;;
          node_insert_to_list pback_node ;; tell_station bssid pdhcps_pool
  end.

Definition wifi_softap_dhcps_client_update (bssid : option (list Z)) (ip : option Z) : M Z :=
  l <- var lease ;;
  match bssid with
  | None => sret IPADDR_ANY
  | Some bssid =>
      if bool_decide (ip = Some IPADDR_BROADCAST) then sret IPADDR_ANY
      else
        let '(ip, type) :=
          match ip with
          | Some a => if a =? IPADDR_ANY then (None, DHCPS_TYPE_DYNAMIC) else (Some a, DHCPS_TYPE_STATIC)
          | None => (None, DHCPS_TYPE_DYNAMIC)
          end in
        modify (λ v, v <| renew := false |>) ;;
        h <- var plist ;; n <- rounds ;;
        r <- update_loop n h bssid ip (mk_found None None false (start_ip l)) ;;
        if bool_decide (ip = None) && negb (f_flag r) && (end_ip l <? f_start r) then sret IPADDR_ANY
        else
          let r := if bool_decide (ip = None) then r <| f_flag := true |> else r in
          match pmac_node r with
          | Some _ => update_known bssid ip type r
          | None => update_new bssid ip (end_ip l) type r
          end
  end.

(** ** Time *)

(** The [while] loop of [kill_oldest_dhcps_pool]: the last entry seen, [minpre] and [minp]. *)
Fixpoint oldest_loop (fuel : nat) (pre p minpre minp pdhcps_pool : option positive) : M (option positive * option positive * option positive) :=
  match p with
  | None => sret (pdhcps_pool, minpre, minp)
  | Some _ =>
      match fuel with
      | O => slift None
      | S fuel =>
          n <- node p ;; k <- node minp ;;
          e <- pool (pnode n) ;; pmin_pool <- pool (pnode k) ;;
          let '(minpre, minp) := if lease_timer e <? lease_timer pmin_pool then (pre, p) else (minpre, minp) in
          oldest_loop fuel p (pnext n) minpre minp (pnode n)
      end
  end.

Definition kill_oldest_dhcps_pool : M unit :=
  pre <- var plist ;; n <- node pre ;; let p := pnext n in
  r <- rounds ;;
  '(pdhcps_pool, minpre, minp) <- oldest_loop r pre p pre p None ;;
  k <- node minp ;; set_node minpre (λ n, n <| pnext := pnext k |>) ;;
  set_pool pdhcps_pool (λ e, e <| pool_state := DHCPS_STATE_OFFLINE |>) ;;
  free_entry minp.

(** The [while] loop of [dhcps_coarse_tmr]: the number of entries that stay. *)
Fixpoint coarse_loop (fuel : nat) (pnode_ : option positive) (num_dhcps_pool : Z) : M Z :=
  match pnode_ with
  | None => sret num_dhcps_pool
  | Some _ =>
      match fuel with
      | O => slift None
      | S fuel =>
          n <- node pnode_ ;; e <- pool (pnode n) ;;
          swhen (bool_decide (pool_type e = DHCPS_TYPE_DYNAMIC)) (set_pool (pnode n) (λ e, e <| lease_timer := u32 (lease_timer e - 1) |>)) ;;
          e <- pool (pnode n) ;;
          if lease_timer e =? 0
          then node_remove_from_list pnode_ ;; free_entry pnode_ ;; coarse_loop fuel (pnext n) num_dhcps_pool
          else coarse_loop fuel (pnext n) (u8 (num_dhcps_pool + 1))
      end
  end.

Definition dhcps_coarse_tmr : M unit :=
  h <- var plist ;; r <- rounds ;;
  num_dhcps_pool <- coarse_loop r h 0 ;;
  swhen (MAX_STATION_NUM <=? num_dhcps_pool) kill_oldest_dhcps_pool.

(** ** Messages *)

Definition add_msg_type (type : Z) : list Z := [DHCP_OPTION_MSG_TYPE; 1; type].

(** The bytes written: each function of the code writes at a pointer and returns the pointer after them. *)
Definition add_offer_options : M (list Z) :=
  server <- var server_address ;; t <- var dhcps_lease_time ;; o <- var offer ;;
  let secs := u32 (t * 60) in
  let addr (w : Z) := le_bytes w in
  router <- (if dhcps_router_enabled o
             then l <- sget log ;; call (wifi_get_ip_info SOFTAP_IF) ;; sret ([DHCP_OPTION_ROUTER; 4] ++ addr (info_gw (softap_info l)))
             else sret []) ;;
  sret ([DHCP_OPTION_SUBNET_MASK; 4; 255; 255; 255; 0] ++
        [DHCP_OPTION_LEASE_TIME; 4; Z.land (Z.shiftr secs 24) 0xFF; Z.land (Z.shiftr secs 16) 0xFF; Z.land (Z.shiftr secs 8) 0xFF;
         Z.land (Z.shiftr secs 0) 0xFF] ++
        [DHCP_OPTION_SERVER_ID; 4] ++ addr server ++
        router ++
        [DHCP_OPTION_DNS_SERVER; 4] ++ addr server ++
        [DHCP_OPTION_BROADCAST_ADDRESS; 4] ++ take 3 (addr server) ++ [255] ++
        [DHCP_OPTION_INTERFACE_MTU; 2; 0x02; 0x40] ++
        [DHCP_OPTION_PERFORM_ROUTER_DISCOVERY; 1; 0x00] ++
        [43; 6; 0x01; 4; 0x00; 0x00; 0x00; 0x02]).

Definition add_end : list Z := [DHCP_OPTION_END].

Definition create_msg (m : dhcps_msg) : M dhcps_msg :=
  client <- var client_address ;;
  opts <- slift (bsplice (replicate 312 0) 0 (le_bytes magic_cookie)) ;;
  sret (m <| op := DHCP_REPLY |> <| htype := DHCP_HTYPE_ETHERNET |> <| hlen := 6 |> <| hops := 0 |> <| secs := 0 |>
          <| flags := Z.lor (Z.shiftl (Z.land BOOTP_BROADCAST 0xff) 8) (Z.shiftr (Z.land BOOTP_BROADCAST 0xff00) 8) |>
          <| yiaddr := le_bytes client |> <| ciaddr := replicate 4 0 |> <| siaddr := replicate 4 0 |> <| giaddr := replicate 4 0 |>
          <| sname := replicate 64 0 |> <| file := replicate 128 0 |> <| options := opts |>).

(** The second half of [send_offer], [send_nak] and [send_ack]: a pbuf with a copy of the message. *)
Definition send_msg (m : dhcps_msg) : M unit :=
  p <- ask (pbuf_alloc sizeof_dhcps_msg) ;;
  swhen (negb (p =? 0)) (
    data <- slift (bslice (msg_bytes m) 0 sizeof_dhcps_msg) ;;
    pcb <- the_pcb ;; dst <- var broadcast_dhcps ;;
    call (udp_sendto pcb data dst DHCPS_CLIENT_PORT) ;;
    ref <- ask pbuf_ref ;;
    swhen (negb (ref =? 0)) (call (pbuf_free false))).

(** [m->options] with [opts] written from its fifth byte on. *)
Definition write_options (m : dhcps_msg) (opts : list Z) : M dhcps_msg :=
  o <- slift (bsplice (options m) 4 opts) ;; sret (m <| options := o |>).

Definition send_offer (m : dhcps_msg) : M unit :=
  m <- create_msg m ;; opts <- add_offer_options ;;
  m <- write_options m (add_msg_type DHCPOFFER ++ opts ++ add_end) ;; send_msg m.
Definition send_nak (m : dhcps_msg) : M unit :=
  m <- create_msg m ;;
  m <- write_options m (add_msg_type DHCPNAK ++ add_end) ;; send_msg m.
Definition send_ack (m : dhcps_msg) : M unit :=
  m <- create_msg m ;; opts <- add_offer_options ;;
  m <- write_options m (add_msg_type DHCPACK ++ opts ++ add_end) ;; send_msg m.

(** The [while] loop of [parse_options]: [type] and [s.state]; [optptr] and [last] are offsets in [o]. *)
Fixpoint options_loop (fuel : nat) (o : list Z) (optptr last : Z) (client : list Z) (type state : Z) : option (Z * Z) :=
  match fuel with
  | O => None
  | S fuel =>
      if optptr <? last
      then
        c ← rd o optptr;
        if c =? DHCP_OPTION_END then Some (type, state)
        else
          type ← (if c =? DHCP_OPTION_MSG_TYPE then rd o (optptr + 2) else Some type);
          state ← (if c =? DHCP_OPTION_REQ_IPADDR
                   then v ← bslice o (optptr + 2) 4; Some (if bool_decide (client = v) then DHCPS_STATE_ACK else DHCPS_STATE_NAK)
                   else Some state);
          n ← rd o (optptr + 1);
          options_loop fuel o (optptr + n + 2) last client type state
      else Some (type, state)
  end.

(** The [switch] on the message's type: [state] is what the options said, [again] is [renew]. *)
Definition reply_state (type state : Z) (again : bool) : Z :=
  if type =? DHCPDISCOVER then DHCPS_STATE_OFFER
  else if type =? DHCPREQUEST then
    if negb ((state =? DHCPS_STATE_ACK) || (state =? DHCPS_STATE_NAK))
    then if again then DHCPS_STATE_ACK else DHCPS_STATE_NAK
    else state
  else if type =? DHCPDECLINE then DHCPS_STATE_IDLE
  else if type =? DHCPRELEASE then DHCPS_STATE_RELEASE
  else state.

(** [optptr] is the offset of the options after the cookie; each round goes at least two bytes on. *)
Definition parse_options (o : list Z) (optptr len : Z) : M Z :=
  client <- var client_address ;;
  '(type, state) <- slift (options_loop (S (Z.to_nat len)) o optptr (optptr + len) (le_bytes client) 0 DHCPS_STATE_IDLE) ;;
  again <- var renew ;;
  sret (reply_state type state again).

Definition parse_msg (m : dhcps_msg) (len : Z) : M Z :=
  cookie <- slift (bslice (options m) 0 4) ;;
  if bool_decide (cookie = le_bytes magic_cookie)
  then
    ip <- slift (word_of_bytes (ciaddr m)) ;;
    bssid <- slift (bslice (chaddr m) 0 6) ;;
    client <- wifi_softap_dhcps_client_update (Some bssid) (Some ip) ;;
    modify (λ v, v <| client_address := client |>) ;;
    ret <- parse_options (options m) 4 (i16 len) ;;
    swhen (ret =? DHCPS_STATE_RELEASE) (
      wifi_softap_dhcps_client_leave (Some bssid) (Some ip) true ;;
      modify (λ v, v <| client_address := ip |>)) ;;
    sret ret
  else sret 0.

(** The two loops that copy the datagram to [pmsg_dhcps]. *)
Definition read_pbufs (p : pbuf) : M (list Z) :=
  b <- slift (bsplice (replicate (Z.to_nat sizeof_dhcps_msg) 0) 0 (payload p)) ;;
  slift (match next_payload p with Some d => bsplice b (zlen (payload p)) d | None => Some b end).

(** The callback for a datagram; [pcb], [addr] and [port] are not used.  The block
    of the message is freed at the end, no pointer to it stays. *)
Definition handle_dhcp (p : option pbuf) : M unit :=
  match p with
  | None => sret tt
  | Some p =>
      h <- get_mem ;;
      match block h sizeof_dhcps_msg with
      | None => call (pbuf_free true)
      | Some _ =>
          let tlen := i16 (tot_len p) in
          b <- read_pbufs p ;;
          let m := msg_of_bytes b in
          s <- parse_msg m (u16 (tlen - 240)) ;;
          (if s =? DHCPS_STATE_OFFER then send_offer m
           else if s =? DHCPS_STATE_ACK then send_ack m
           else if s =? DHCPS_STATE_NAK then send_nak m
           else sret tt) ;;
          call (pbuf_free true)
      end
  end.

(** ** Starting, stopping and settings *)

(** [start_ip] and [end_ip] can be used with the access point's address [ip]. *)
Definition range_ok (softap_ip start_ip end_ip : Z) : bool :=
  negb ((start_ip <=? softap_ip) && (softap_ip <=? end_ip)) &&
  negb (negb (Z.shiftr start_ip 8 =? Z.shiftr softap_ip 8) || negb (Z.shiftr end_ip 8 =? Z.shiftr softap_ip 8)) &&
  negb (DHCPS_MAX_LEASE <? u32 (end_ip - start_ip)).

Definition wifi_softap_init_dhcps_lease (ip : Z) : M unit :=
  l <- var lease ;;
  swhen (enable l && negb (range_ok (htonl ip) (htonl (start_ip l)) (htonl (end_ip l)))) (
    modify (λ v, v <| lease := (lease v) <| enable := false |> |>)) ;;
  l <- var lease ;;
  swhen (negb (enable l)) (
    let softap_ip := Z.land (htonl ip) 0xFFFFFF00 in
    let local_ip := Z.land (htonl ip) 0xFF in
    let local_ip := if 0x80 <=? local_ip then local_ip - DHCPS_MAX_LEASE else local_ip + 1 in
    modify (λ v, v <| lease := mk_lease false (htonl (Z.lor softap_ip local_ip)) (htonl (Z.lor softap_ip (local_ip + DHCPS_MAX_LEASE - 1))) |>)).

Definition dhcps_start (info : option ip_info) : M unit :=
  old <- var netif_dhcps_pcb ;;
  swhen (negb (old =? 0)) (call (udp_remove old)) ;;
  pcb <- ask udp_new ;;
  modify (λ v, v <| pcb_dhcps := pcb |>) ;;
  swhen ((pcb =? 0) || bool_decide (info = None)) (call (os_printf "dhcps_start(): could not obtain pcb\n")) ;;
  modify (λ v, v <| netif_dhcps_pcb := pcb |> <| broadcast_dhcps := IPADDR_BROADCAST |>) ;;
  info <- slift info ;;
  modify (λ v, v <| server_address := info_ip info |>) ;;
  wifi_softap_init_dhcps_lease (info_ip info) ;;
  pcb <- the_pcb ;;
  call (udp_bind pcb DHCPS_SERVER_PORT) ;;
  call (udp_recv pcb fp_handle_dhcp).

Fixpoint stop_loop (fuel : nat) (pnode_ : option positive) : M unit :=
  match pnode_ with
  | None => sret tt
  | Some _ =>
      match fuel with
      | O => slift None
      | S fuel =>
          n <- node pnode_ ;;
          node_remove_from_list pnode_ ;;
          dhcp_node <- pool (pnode n) ;;
          call (wifi_softap_set_station_info (pool_mac dhcp_node) 0) ;;
          free_entry pnode_ ;;
          stop_loop fuel (pnext n)
      end
  end.

Definition dhcps_stop : M unit :=
  pcb <- the_pcb ;;
  call (udp_disconnect pcb) ;;
  old <- var netif_dhcps_pcb ;;
  swhen (negb (old =? 0)) (call (udp_remove old) ;; modify (λ v, v <| netif_dhcps_pcb := 0 |>)) ;;
  h <- var plist ;; r <- rounds ;; stop_loop r h.

(** [opmode == STATION_MODE || opmode == NULL_MODE] *)
Definition no_softap : M bool := m <- ask wifi_get_opmode ;; sret ((u8 m =? STATION_MODE) || (u8 m =? NULL_MODE)).
Definition status_is (x : Z) : M bool := s <- ask wifi_softap_dhcps_status ;; sret (s =? x).

Definition wifi_softap_set_dhcps_lease (please : option dhcps_lease) : M bool :=
  off <- no_softap ;;
  if off then sret false
  else
    match please with
    | None => sret false
    | Some please =>
        started <- status_is DHCP_STARTED ;;
        if started then sret false
        else
          if enable please
          then
            l <- sget log ;; call (wifi_get_ip_info SOFTAP_IF) ;;
            if range_ok (htonl (info_ip (softap_info l))) (htonl (start_ip please)) (htonl (end_ip please))
            then modify (λ v, v <| lease := mk_lease true (start_ip please) (end_ip please) |>) ;; sret true
            else sret false
          else modify (λ v, v <| lease := (lease v) <| enable := false |> |>) ;; sret true
    end.

(** The two addresses, where [please] is filled in. *)
Definition wifi_softap_get_dhcps_lease (please : bool) : M (option (Z * Z)) :=
  off <- no_softap ;;
  if off || negb please then sret None
  else
    l <- var lease ;;
    stopped <- (if enable l then sret false else status_is DHCP_STOPPED) ;;
    sret (if (stopped : bool) then None else Some (start_ip l, end_ip l)).

(** [optarg] is the byte it points to. *)
Definition wifi_softap_set_dhcps_offer_option (level : Z) (optarg : option Z) : M bool :=
  no <- (if bool_decide (optarg = None) then status_is 0 else sret false) ;;
  if no then sret false
  else if (level <=? OFFER_START) || (OFFER_END <=? level) then sret false
  else if level =? OFFER_ROUTER
  then a <- slift optarg ;; modify (λ v, v <| offer := Z.land a 0x01 |>) ;; sret true
  else sret false.

Definition wifi_softap_set_dhcps_lease_time (minute : Z) : M bool :=
  off <- no_softap ;;
  if off then sret false
  else
    started <- status_is DHCP_STARTED ;;
    if started then sret false
    else if minute =? 0 then sret false
    else modify (λ v, v <| dhcps_lease_time := minute |>) ;; sret true.

Definition wifi_softap_reset_dhcps_lease_time : M bool :=
  off <- no_softap ;;
  if off then sret false
  else
    started <- status_is DHCP_STARTED ;;
    if started then sret false
    else modify (λ v, v <| dhcps_lease_time := DHCPS_LEASE_TIME_DEF |>) ;; sret true.

Definition wifi_softap_get_dhcps_lease_time : M Z := var dhcps_lease_time.

(** ** What can happen to the server, in any order *)

Inductive dhcps_op :=
  | Packet (p : option pbuf)
  | Minute                                          (* lwIP's timer, every 60 seconds *)
  | Leave (bssid : option (list Z)) (ip : option Z) (force : bool)
  | Update (bssid : option (list Z)) (ip : option Z) (* both also called by the SDK *)
  | Start (info : option ip_info) | Stop
  | SetLease (please : option dhcps_lease) | SetTime (minute : Z) | ResetTime | SetOffer (level : Z) (optarg : option Z).

Definition dhcps_step (o : dhcps_op) : M unit :=
  match o with
  | Packet p => handle_dhcp p
  | Minute => dhcps_coarse_tmr
  | Leave bssid ip force => wifi_softap_dhcps_client_leave bssid ip force
  | Update bssid ip => wifi_softap_dhcps_client_update bssid ip ;; sret tt
  | Start info => dhcps_start info
  | Stop => dhcps_stop
  | SetLease please => wifi_softap_set_dhcps_lease please ;; sret tt
  | SetTime minute => wifi_softap_set_dhcps_lease_time minute ;; sret tt
  | ResetTime => wifi_softap_reset_dhcps_lease_time ;; sret tt
  | SetOffer level optarg => wifi_softap_set_dhcps_offer_option level optarg ;; sret tt
  end.
End Server.
