(* ===== verification/DhcpsHeap.v ===== *)
(** * DhcpsHeap: the list of leases in the two stores

    What the list operations of Dhcps.v do to a list of cells: a cell is a node, the
    object it points to, and the entry in it.  [holds] also says that nothing else is
    allocated, so that its preservation excludes leaks. *)

From stdpp Require Import gmap.
From S2P Require Import Prelude CMem Board Dhcps.
Local Open Scope sm_scope.

Record cell := mk_cell { c_node : positive; c_pool : positive; c_entry : dhcps_pool }.
#[export] Instance eta_cell : Settable cell := λ c, mk_cell (c_node c) (c_pool c) (c_entry c).
Abbreviation Nodes := (gmap positive list_node).
Abbreviation Pools := (gmap positive dhcps_pool).

(** ** Cells linked to each other *)

Definition first (es : list cell) (q : option positive) : option positive := match es with [] => q | c :: _ => Some (c_node c) end.
Fixpoint chain (N : Nodes) (P : Pools) (es : list cell) (q : option positive) : Prop :=
  match es with
  | [] => True
  | c :: es => N !! c_node c = Some (mk_node (Some (c_pool c)) (first es q)) /\ P !! c_pool c = Some (c_entry c) /\ chain N P es q
  end.

Lemma first_app es fs q : first (es ++ fs) q = first es (first fs q).
Proof. by destruct es. Qed.
Lemma chain_app N P es fs q : chain N P (es ++ fs) q <-> chain N P es (first fs q) /\ chain N P fs q.
Proof. induction es as [|c es IH]; cbn [app chain]; [tauto|]. rewrite first_app, IH. tauto. Qed.
Lemma chain_node N P es q x n : x ∉ c_node <$> es -> chain N P es q -> chain (<[x := n]> N) P es q.
Proof.
  induction es as [|c es IH]; [done|]. rewrite fmap_cons, not_elem_of_cons. intros [Hx Hn] (H1 & H2 & H3). cbn [chain].
  rewrite lookup_insert_ne by done. auto.
Qed.
Lemma chain_pool N P es q x e : x ∉ c_pool <$> es -> chain N P es q -> chain N (<[x := e]> P) es q.
Proof.
  induction es as [|c es IH]; [done|]. rewrite fmap_cons, not_elem_of_cons. intros [Hx Hn] (H1 & H2 & H3). cbn [chain].
  rewrite lookup_insert_ne by done. auto.
Qed.
Lemma chain_del_node N P es q x : x ∉ c_node <$> es -> chain N P es q -> chain (delete x N) P es q.
Proof.
  induction es as [|c es IH]; [done|]. rewrite fmap_cons, not_elem_of_cons. intros [Hx Hn] (H1 & H2 & H3). cbn [chain].
  rewrite lookup_delete_ne by done. auto.
Qed.
Lemma chain_del_pool N P es q x : x ∉ c_pool <$> es -> chain N P es q -> chain N (delete x P) es q.
Proof.
  induction es as [|c es IH]; [done|]. rewrite fmap_cons, not_elem_of_cons. intros [Hx Hn] (H1 & H2 & H3). cbn [chain].
  rewrite lookup_delete_ne by done. auto.
Qed.

(** The list [es], and cells [ds] that are not linked to anything. *)
Record holds (h : option positive) (N : Nodes) (P : Pools) (es ds : list cell) : Prop := {
  h_head : h = first es None;
  h_chain : chain N P es None;
  h_loose : Forall (λ d, chain N P [d] None) ds;
  h_nodes : NoDup (c_node <$> es ++ ds);
  h_pools : NoDup (c_pool <$> es ++ ds);
  h_node_dom : dom N = list_to_set (C := gset positive) (c_node <$> es ++ ds);
  h_pool_dom : dom P = list_to_set (C := gset positive) (c_pool <$> es ++ ds) }.
Definition holds_in (s : sys dhcps_vars) (es ds : list cell) : Prop := holds (plist (st s)) (nodes (st s)) (pools (st s)) es ds.

(** The state with another list. *)
Definition put (s : sys dhcps_vars) (h : option positive) (N : Nodes) (P : Pools) : sys dhcps_vars :=
  mk_sys (log s) (mem s) ((st s) <| plist := h |> <| nodes := N |> <| pools := P |>).
Lemma put_put s h N P h' N' P' : put (put s h N P) h' N' P' = put s h' N' P'.
Proof. done. Qed.
Lemma put_same s : put s (plist (st s)) (nodes (st s)) (pools (st s)) = s.
Proof. by destruct s as [l m []]. Qed.

Lemma nodup_mid {A} (l : list A) x k : NoDup (l ++ x :: k) -> (x ∉ l) /\ (x ∉ k) /\ NoDup (l ++ k).
Proof.
  rewrite <- Permutation_middle, list.NoDup_cons, elem_of_app. intros [Hx Hn]. tauto.
Qed.
Lemma holds_perm h N P es ds es' ds' :
  holds h N P es ds -> (es' ++ ds') ≡ₚ (es ++ ds) -> h = first es' None -> chain N P es' None -> Forall (λ d, chain N P [d] None) ds' -> holds h N P es' ds'.
Proof.
  intros [H1 H2 H3 H4 H5 H6 H7] HP Hh Hc Hl. split; try done.
  - by rewrite HP.
  - by rewrite HP.
  - rewrite H6. apply set_eq. intros x. rewrite !elem_of_list_to_set. by rewrite HP.
  - rewrite H7. apply set_eq. intros x. rewrite !elem_of_list_to_set. by rewrite HP.
Qed.

Section Heap.
Context `{EV : Env} `{AL : Alloc} `{DA : DhcpsAlloc}.
Implicit Types s : sys dhcps_vars.

(** ** Single accesses *)

Lemma wp_list_node x n s (Q : list_node -> sys dhcps_vars -> Prop) : nodes (st s) !! x = Some n -> Q n s -> wp (node (Some x)) s Q.
Proof. intros E HQ. unfold node. apply wp_bind, (wp_lift _ x); [done|]. apply wp_bind, wp_var. by apply (wp_lift _ n). Qed.
Lemma wp_pool x e s (Q : dhcps_pool -> sys dhcps_vars -> Prop) : pools (st s) !! x = Some e -> Q e s -> wp (pool (Some x)) s Q.
Proof. intros E HQ. unfold pool. apply wp_bind, (wp_lift _ x); [done|]. apply wp_bind, wp_var. by apply (wp_lift _ e). Qed.
Lemma wp_set_list_node x n f s (Q : unit -> sys dhcps_vars -> Prop) : nodes (st s) !! x = Some n ->
  Q tt (put s (plist (st s)) (<[x := f n]> (nodes (st s))) (pools (st s))) -> wp (set_node (Some x) f) s Q.
Proof.
  intros E HQ. unfold set_node. apply wp_bind, (wp_list_node _ n); [done|]. apply wp_bind, (wp_lift _ x); [done|]. apply wp_modify.
  by destruct s as [l m []].
Qed.
Lemma wp_set_pool x e f s (Q : unit -> sys dhcps_vars -> Prop) : pools (st s) !! x = Some e ->
  Q tt (put s (plist (st s)) (nodes (st s)) (<[x := f e]> (pools (st s)))) -> wp (set_pool (Some x) f) s Q.
Proof.
  intros E HQ. unfold set_pool. apply wp_bind, (wp_pool _ e); [done|]. apply wp_bind, (wp_lift _ x); [done|]. apply wp_modify.
  by destruct s as [l m []].
Qed.
Lemma wp_free_pool x e s (Q : unit -> sys dhcps_vars -> Prop) : pools (st s) !! x = Some e ->
  Q tt (put s (plist (st s)) (nodes (st s)) (delete x (pools (st s)))) -> wp (free_pool (Some x)) s Q.
Proof.
  intros E HQ. unfold free_pool. apply wp_bind, (wp_pool _ e); [done|]. apply wp_bind, (wp_lift _ x); [done|]. apply wp_modify.
  by destruct s as [l m []].
Qed.
Lemma wp_free_node x n s (Q : unit -> sys dhcps_vars -> Prop) : nodes (st s) !! x = Some n ->
  Q tt (put s (plist (st s)) (delete x (nodes (st s))) (pools (st s))) -> wp (free_node (Some x)) s Q.
Proof.
  intros E HQ. unfold free_node. apply wp_bind, (wp_list_node _ n); [done|]. apply wp_bind, (wp_lift _ x); [done|]. apply wp_modify.
  by destruct s as [l m []].
Qed.
Lemma wp_plist h s (Q : unit -> sys dhcps_vars -> Prop) :
  Q tt (put s h (nodes (st s)) (pools (st s))) -> wp (modify (λ v, v <| plist := h |>)) s Q.
Proof. intros HQ. apply wp_modify. by destruct s as [l m []]. Qed.
Lemma wp_rounds s (Q : nat -> sys dhcps_vars -> Prop) : Q (S (size (nodes (st s)))) s -> wp rounds s Q.
Proof. intros HQ. unfold rounds. apply wp_bind, wp_var. by apply wp_ret. Qed.
Lemma holds_size s es ds : holds_in s es ds -> size (nodes (st s)) = (length es + length ds)%nat.
Proof.
  intros H. rewrite <- (size_dom (D := gset positive)), (h_node_dom _ _ _ _ _ H), size_list_to_set by apply H. by rewrite length_fmap, length_app.
Qed.

(** ** Taking a cell out *)

Lemma wp_remove_none fuel es x s (Q : unit -> sys dhcps_vars -> Prop) :
  chain (nodes (st s)) (pools (st s)) es None -> x ∉ c_node <$> List.tl es -> (length es <= fuel)%nat ->
  Q tt s -> wp (remove_walk fuel (first es None) (Some x)) s Q.
Proof.
  intros Hc Hx Hf HQ. revert es Hc Hx Hf. induction fuel as [|fuel IH]; intros [|c es] Hc Hx Hf; cbn [first remove_walk]; try (by apply wp_ret);
    [cbn in Hf; lia|].
  destruct Hc as (Hn & Hp & Hc). apply wp_bind. eapply wp_list_node; [exact Hn|]. cbn [pnext].
  rewrite bool_decide_false. 2: { cbn in Hx. destruct es; [done|]. cbn in *. set_solver. }
  cbn [swhen]. apply wp_bind, wp_ret. apply wp_bind. eapply wp_list_node; [exact Hn|]. cbn [pnext].
  apply IH; [done| |cbn in Hf; lia]. destruct es; [done|]. cbn in *. set_solver.
Qed.

(** The cell before the end of [k :: es]. *)
Definition tail_cell (k : cell) (es : list cell) : cell := default k (list.last es).
Lemma tail_cell_cons k k' es : tail_cell k (k' :: es) = tail_cell k' es.
Proof. unfold tail_cell. rewrite last_cons. by destruct (list.last es). Qed.

Lemma wp_remove_walk fuel k es1 c es2 s (Q : unit -> sys dhcps_vars -> Prop) :
  chain (nodes (st s)) (pools (st s)) (k :: es1 ++ c :: es2) None -> NoDup (c_node <$> k :: es1 ++ c :: es2) ->
  (length (k :: es1 ++ c :: es2) <= fuel)%nat ->
  (let b := tail_cell k es1 in
   Q tt (put s (plist (st s)) (<[c_node c := mk_node (Some (c_pool c)) None]> (<[c_node b := mk_node (Some (c_pool b)) (first es2 None)]> (nodes (st s))))
     (pools (st s)))) ->
  wp (remove_walk fuel (Some (c_node k)) (Some (c_node c))) s Q.
Proof.
  intros Hc Hd Hf HQ. revert k es1 Hc Hd Hf HQ. induction fuel as [|fuel IH]; intros k es1 Hc Hd Hf HQ; [cbn in Hf; lia|].
  cbn [remove_walk]. destruct Hc as (Hn & Hp & Hc). apply wp_bind. eapply wp_list_node; [exact Hn|]. cbn [pnext].
  rewrite fmap_cons, list.NoDup_cons in Hd. destruct Hd as [Hk Hd].
  destruct es1 as [|k' es1]; cbn [app first] in *.
  - rewrite bool_decide_true by done. cbn [swhen]. destruct Hc as (Hn' & Hp' & Hc).
    rewrite fmap_cons, list.NoDup_cons in Hd. destruct Hd as [Hc' Hd].
    rewrite fmap_cons, not_elem_of_cons in Hk. destruct Hk as [Hkc Hk].
    apply wp_bind, wp_bind. eapply wp_list_node; [exact Hn'|]. cbn [pnext].
    apply wp_bind. eapply wp_set_list_node; [exact Hn|]. cbv beta.
    eapply wp_set_list_node; [unfold put; cbn; rewrite lookup_insert_ne by done; exact Hn'|]. cbn [put st log mem].
    apply wp_bind. eapply wp_list_node; [cbn; rewrite lookup_insert_ne by congruence; by rewrite lookup_insert_eq|]. cbn [pnext set_field].
    apply wp_remove_none.
    + cbn. apply chain_node, chain_node; done.
    + destruct es2; [done|]. cbn in *. set_solver.
    + cbn in Hf. lia.
    + exact HQ.
  - rewrite bool_decide_false. 2: { intros [= E]. rewrite fmap_cons, list.NoDup_cons in Hd. destruct Hd as [Hd _]. apply Hd. rewrite E, fmap_app, elem_of_app. right. left. }
    cbn [swhen]. apply wp_bind, wp_ret. apply wp_bind. eapply wp_list_node; [exact Hn|]. cbn [pnext].
    apply (IH k' es1); [done|done|cbn in *; lia|]. cbv zeta in *. by rewrite tail_cell_cons in HQ.
Qed.

(** Two cells with the same node are the same cell of the list. *)
Lemma fmap_app_cons {B} (f : cell -> B) es1 c es2 ds : f <$> (es1 ++ c :: es2) ++ ds = (f <$> es1) ++ f c :: (f <$> es2 ++ ds).
Proof. by rewrite !fmap_app, fmap_cons, <- app_assoc. Qed.

Lemma holds_mid h N P es1 c es2 ds : holds h N P (es1 ++ c :: es2) ds ->
  c_node c ∉ c_node <$> es1 /\ c_node c ∉ c_node <$> es2 /\ c_node c ∉ c_node <$> ds /\
  c_pool c ∉ c_pool <$> es1 /\ c_pool c ∉ c_pool <$> es2 /\ c_pool c ∉ c_pool <$> ds.
Proof.
  intros H. pose proof (h_nodes _ _ _ _ _ H) as Hn. pose proof (h_pools _ _ _ _ _ H) as Hp.
  rewrite fmap_app_cons in Hn, Hp. apply nodup_mid in Hn as (A1 & A2 & _). apply nodup_mid in Hp as (B1 & B2 & _).
  rewrite fmap_app, not_elem_of_app in A2, B2. tauto.
Qed.
Lemma holds_loose h N P es c ds : holds h N P es (c :: ds) ->
  c_node c ∉ c_node <$> es /\ c_node c ∉ c_node <$> ds /\ c_pool c ∉ c_pool <$> es /\ c_pool c ∉ c_pool <$> ds /\
  N !! c_node c = Some (mk_node (Some (c_pool c)) None) /\ P !! c_pool c = Some (c_entry c).
Proof.
  intros H. pose proof (h_nodes _ _ _ _ _ H) as Hn. pose proof (h_pools _ _ _ _ _ H) as Hp.
  rewrite fmap_app, fmap_cons in Hn, Hp. apply nodup_mid in Hn as (A1 & A2 & _). apply nodup_mid in Hp as (B1 & B2 & _).
  pose proof (h_loose _ _ _ _ _ H) as Hl. apply list.Forall_cons in Hl as [(C1 & C2 & _) _]. tauto.
Qed.
Lemma holds_at h N P es1 c es2 ds : holds h N P (es1 ++ c :: es2) ds ->
  N !! c_node c = Some (mk_node (Some (c_pool c)) (first es2 None)) /\ P !! c_pool c = Some (c_entry c).
Proof. intros H. pose proof (h_chain _ _ _ _ _ H) as Hc. apply chain_app in Hc as [_ (A & B & _)]. done. Qed.

Lemma loose_node N P ds x n : x ∉ c_node <$> ds -> Forall (λ d, chain N P [d] None) ds -> Forall (λ d, chain (<[x := n]> N) P [d] None) ds.
Proof.
  intros Hx Hl. induction Hl as [|d ds Hd _ IH]; [done|]. rewrite fmap_cons, not_elem_of_cons in Hx. destruct Hx as [Hx Hx'].
  constructor; [|by apply IH]. apply chain_node; [|done]. set_solver.
Qed.
Lemma loose_pool N P ds x e : x ∉ c_pool <$> ds -> Forall (λ d, chain N P [d] None) ds -> Forall (λ d, chain N (<[x := e]> P) [d] None) ds.
Proof.
  intros Hx Hl. induction Hl as [|d ds Hd _ IH]; [done|]. rewrite fmap_cons, not_elem_of_cons in Hx. destruct Hx as [Hx Hx'].
  constructor; [|by apply IH]. apply chain_pool; [|done]. set_solver.
Qed.
Lemma loose_del N P ds x y : x ∉ c_node <$> ds -> y ∉ c_pool <$> ds ->
  Forall (λ d, chain N P [d] None) ds -> Forall (λ d, chain (delete x N) (delete y P) [d] None) ds.
Proof.
  intros Hx Hy Hl. induction Hl as [|d ds Hd _ IH]; [done|]. rewrite fmap_cons, not_elem_of_cons in Hx, Hy. destruct Hx as [Hx Hx'], Hy as [Hy Hy'].
  constructor; [|by apply IH]. apply chain_del_node; [|apply chain_del_pool; [|done]]; set_solver.
Qed.

(** [c] taken out from behind [b]. *)
Lemma holds_unlink h N P es1 b c es2 ds : holds h N P (es1 ++ b :: c :: es2) ds ->
  holds h (<[c_node c := mk_node (Some (c_pool c)) None]> (<[c_node b := mk_node (Some (c_pool b)) (first es2 None)]> N)) P (es1 ++ b :: es2) (c :: ds).
Proof.
  intros H. destruct (holds_mid _ _ _ es1 b (c :: es2) ds H) as (B1 & B2 & B3 & _).
  assert (H' := H). replace (es1 ++ b :: c :: es2) with ((es1 ++ [b]) ++ c :: es2) in H' by by rewrite <- app_assoc.
  destruct (holds_mid _ _ _ _ _ _ _ H') as (C1 & C2 & C3 & _). rewrite fmap_app, not_elem_of_app in C1. destruct C1 as [C1 C1'].
  rewrite fmap_cons, not_elem_of_cons in B2. destruct B2 as [Hbc B2].
  destruct H as [Hh Hc Hl Hn Hp Dn Dp]. apply chain_app in Hc as [Hc1 (Nb & Pb & Nc & Pc & Hc2)].
  assert (HP : (es1 ++ b :: es2) ++ c :: ds ≡ₚ (es1 ++ b :: c :: es2) ++ ds).
  { rewrite <- !app_assoc. f_equiv. cbn. f_equiv. by rewrite <- Permutation_middle. }
  split.
  - rewrite Hh, !first_app. done.
  - apply chain_app. split; [by apply chain_node, chain_node|]. cbn [chain]. split; [|split; [done|by apply chain_node, chain_node]].
    rewrite lookup_insert_ne by congruence. by rewrite lookup_insert_eq.
  - constructor; [|by apply loose_node, loose_node]. cbn. by rewrite lookup_insert_eq.
  - by rewrite HP.
  - by rewrite HP.
  - rewrite !dom_insert_L, Dn. apply set_eq. intros x. rewrite !elem_of_union, !elem_of_singleton, !elem_of_list_to_set, HP.
    rewrite fmap_app_cons. cbn [app]. rewrite fmap_cons, !elem_of_app, !elem_of_cons. tauto.
  - rewrite Dp. apply set_eq. intros x. by rewrite !elem_of_list_to_set, HP.
Qed.
Lemma holds_unhead N P c es ds : holds (Some (c_node c)) N P (c :: es) ds ->
  holds (first es None) (<[c_node c := mk_node (Some (c_pool c)) None]> N) P es (c :: ds).
Proof.
  intros H. destruct (holds_mid _ _ _ [] c es ds H) as (_ & B2 & B3 & _). destruct H as [Hh (Nc & Pc & Hc) Hl Hn Hp Dn Dp].
  assert (HP : es ++ c :: ds ≡ₚ (c :: es) ++ ds) by by rewrite <- Permutation_middle.
  split; [done|by apply chain_node| | | | |].
  - constructor; [|by apply loose_node]. cbn. by rewrite lookup_insert_eq.
  - by rewrite HP.
  - by rewrite HP.
  - rewrite dom_insert_L, Dn. apply set_eq. intros x. rewrite !elem_of_union, elem_of_singleton, !elem_of_list_to_set, HP. cbn. rewrite !elem_of_cons. tauto.
  - rewrite Dp. apply set_eq. intros x. by rewrite !elem_of_list_to_set, HP.
Qed.

Lemma wp_remove es1 c es2 ds s (Q : unit -> sys dhcps_vars -> Prop) : holds_in s (es1 ++ c :: es2) ds ->
  (forall h N, holds h N (pools (st s)) (es1 ++ es2) (c :: ds) -> Q tt (put s h N (pools (st s)))) ->
  wp (node_remove_from_list (Some (c_node c))) s Q.
Proof.
  intros H HQ. unfold node_remove_from_list. apply wp_bind, wp_var. assert (H0 := H). destruct H as [Hh Hc Hl Hn Hp Dn Dp].
  destruct es1 as [|k es1]; cbn [app first] in *.
  - rewrite Hh. rewrite bool_decide_true by done. destruct (holds_at _ _ _ [] c es2 ds H0) as [En _].
    apply wp_bind. eapply wp_list_node; [exact En|]. apply wp_bind, wp_plist. eapply wp_set_list_node; [exact En|]. cbn [pnext put st plist nodes pools].
    apply HQ. apply holds_unhead. by rewrite <- Hh.
  - rewrite Hh. rewrite bool_decide_false. 2: { intros [= E]. destruct (holds_mid _ _ _ (k :: es1) c es2 ds H0) as [Hi _]. apply Hi. rewrite fmap_cons, E. left. }
    apply wp_bind, wp_rounds. eapply wp_remove_walk; [exact Hc| | |].
    + pose proof (h_nodes _ _ _ _ _ H0) as Hn'. rewrite fmap_app in Hn'. by apply list.NoDup_app in Hn' as [Hn' _].
    + rewrite (holds_size _ _ _ H0). cbn. lia.
    + cbv zeta. apply HQ. unfold tail_cell. destruct (list.last es1) as [b|] eqn:El; cbn [default].
      * apply last_Some in El as [es0 ->]. assert (E : forall l, k :: (es0 ++ [b]) ++ l = (k :: es0) ++ b :: l) by (intros; by rewrite <- app_assoc).
        rewrite E. apply holds_unlink. rewrite <- E. exact H0.
      * apply last_None in El as ->. apply (holds_unlink _ _ _ [] k c es2 ds). exact H0.
Qed.

(** ** Putting a cell in *)

Definition ip_of (c : cell) : Z := pool_ip (c_entry c).
(** The place of [c]: behind the cells with addresses up to its own. *)
Definition fits (es1 : list cell) (c : cell) (es2 : list cell) : Prop :=
  Forall (λ d, ip_of d <= ip_of c) es1 /\ (forall d, head es2 = Some d -> ip_of c < ip_of d).

(** [c] put in behind [b]. *)
Lemma holds_link h N P es1 b es2 c ds : holds h N P (es1 ++ b :: es2) (c :: ds) ->
  holds h (<[c_node b := mk_node (Some (c_pool b)) (Some (c_node c))]> (<[c_node c := mk_node (Some (c_pool c)) (first es2 None)]> N)) P
    (es1 ++ b :: c :: es2) ds.
Proof.
  intros H. destruct (holds_mid _ _ _ es1 b es2 (c :: ds) H) as (B1 & B2 & B3 & _).
  destruct (holds_loose _ _ _ _ _ _ H) as (C1 & C2 & _ & _ & Nc & Pc).
  rewrite fmap_app, fmap_cons, not_elem_of_app, not_elem_of_cons in C1. destruct C1 as (C1 & Cb & C1').
  rewrite fmap_cons, not_elem_of_cons in B3. destruct B3 as [Hbc B3].
  destruct H as [Hh Hc Hl Hn Hp Dn Dp]. apply chain_app in Hc as [Hc1 (Nb & Pb & Hc2)].
  assert (HP : (es1 ++ b :: c :: es2) ++ ds ≡ₚ (es1 ++ b :: es2) ++ c :: ds).
  { rewrite <- !app_assoc. f_equiv. cbn. f_equiv. by rewrite <- Permutation_middle. }
  split.
  - rewrite Hh, !first_app. done.
  - apply chain_app. split; [by apply chain_node, chain_node|]. cbn [chain first]. rewrite lookup_insert_eq.
    split; [done|]. split; [done|]. rewrite lookup_insert_ne, lookup_insert_eq by done. split; [done|]. split; [done|]. by apply chain_node, chain_node.
  - apply list.Forall_cons in Hl as [_ Hl]. by apply loose_node, loose_node.
  - by rewrite HP.
  - by rewrite HP.
  - rewrite !dom_insert_L, Dn. apply set_eq. intros x. rewrite !elem_of_union, !elem_of_singleton, !elem_of_list_to_set, HP.
    rewrite fmap_app_cons, fmap_app, fmap_cons, !elem_of_app, !elem_of_cons, !elem_of_app, !elem_of_cons. tauto.
  - rewrite Dp. apply set_eq. intros x. by rewrite !elem_of_list_to_set, HP.
Qed.
Lemma holds_head h N P es c ds : holds h N P es (c :: ds) ->
  holds (Some (c_node c)) (<[c_node c := mk_node (Some (c_pool c)) (first es None)]> N) P (c :: es) ds.
Proof.
  intros H. destruct (holds_loose _ _ _ _ _ _ H) as (C1 & C2 & _ & _ & Nc & Pc). destruct H as [Hh Hc Hl Hn Hp Dn Dp].
  assert (HP : (c :: es) ++ ds ≡ₚ es ++ c :: ds) by by rewrite <- Permutation_middle.
  apply list.Forall_cons in Hl as [_ Hl]. split; [done| |by apply loose_node| | | |].
  - cbn [chain]. rewrite lookup_insert_eq. split; [done|]. split; [done|]. by apply chain_node.
  - by rewrite HP.
  - by rewrite HP.
  - rewrite dom_insert_L, Dn. apply set_eq. intros x. rewrite !elem_of_union, elem_of_singleton, !elem_of_list_to_set, HP, fmap_app, fmap_cons, !elem_of_app, !elem_of_cons. tauto.
  - rewrite Dp. apply set_eq. intros x. by rewrite !elem_of_list_to_set, HP.
Qed.

Lemma wp_insert_walk fuel es0 k es1 es2 c ds s (Q : unit -> sys dhcps_vars -> Prop) :
  holds_in s (es0 ++ k :: es1 ++ es2) (c :: ds) -> fits es1 c es2 -> (length (k :: es1 ++ es2) <= fuel)%nat ->
  (forall h N, holds h N (pools (st s)) (es0 ++ k :: es1 ++ c :: es2) ds -> Q tt (put s h N (pools (st s)))) ->
  wp (insert_walk fuel (Some (c_node k)) (Some (c_node c)) (ip_of c)) s Q.
Proof.
  revert es0 k es1. induction fuel as [|fuel IH]; intros es0 k es1 H [Hle Hgt] Hf HQ; [cbn in Hf; lia|].
  destruct (holds_at _ _ _ es0 k (es1 ++ es2) _ H) as [Nk Pk]. destruct (holds_loose _ _ _ _ _ _ H) as (C1 & _ & _ & _ & Nc & Pc).
  assert (Hkc : c_node c ≠ c_node k). { intros E. apply C1. rewrite E, fmap_app, fmap_cons, elem_of_app. right. left. }
  cbn [insert_walk]. apply wp_bind. eapply wp_list_node; [exact Nk|]. cbn [pnext].
  destruct es1 as [|k' es1]; cbn [app first] in *.
  - pose proof (holds_link _ _ _ es0 k es2 c ds H) as HL. destruct es2 as [|d es2]; cbn [first] in *.
    + eapply wp_set_list_node; [exact Nk|]. eapply HQ. rewrite (insert_id _ _ _ Nc) in HL. exact HL.
    + assert (H' := H). unfold holds_in in H'. replace (es0 ++ k :: d :: es2) with ((es0 ++ [k]) ++ d :: es2) in H' by by rewrite <- app_assoc.
      destruct (holds_at _ _ _ _ _ _ _ H') as [Nd Pd].
      apply wp_bind. eapply wp_list_node; [exact Nd|]. cbn [pnode]. apply wp_bind. eapply wp_pool; [exact Pd|].
      specialize (Hgt d eq_refl). unfold ip_of in Hgt at 2. ztrue (ip_of c <? pool_ip (c_entry d)).
      apply wp_bind. eapply wp_set_list_node; [exact Nc|]. eapply wp_set_list_node; [cbn; rewrite lookup_insert_ne by done; exact Nk|]. by eapply HQ.
  - apply list.Forall_cons in Hle as [Hk' Hle].
    assert (E : forall l, es0 ++ k :: k' :: l = (es0 ++ [k]) ++ k' :: l) by (intros; by rewrite <- app_assoc).
    unfold holds_in in H. rewrite E in H. destruct (holds_at _ _ _ _ _ _ _ H) as [Nd Pd].
    apply wp_bind. eapply wp_list_node; [exact Nd|]. cbn [pnode]. apply wp_bind. eapply wp_pool; [exact Pd|].
    unfold ip_of in Hk' at 1. zfalse (ip_of c <? pool_ip (c_entry k')).
    eapply IH; [exact H|done|cbn in *; lia|]. intros h N HN. apply HQ. by rewrite E.
Qed.

Lemma wp_insert es1 es2 c ds s (Q : unit -> sys dhcps_vars -> Prop) :
  holds_in s (es1 ++ es2) (c :: ds) -> fits es1 c es2 ->
  (forall h N, holds h N (pools (st s)) (es1 ++ c :: es2) ds -> Q tt (put s h N (pools (st s)))) ->
  wp (node_insert_to_list (Some (c_node c))) s Q.
Proof.
  intros H [Hle Hgt] HQ. unfold node_insert_to_list. apply wp_bind, wp_var. rewrite (h_head _ _ _ _ _ H).
  destruct (holds_loose _ _ _ _ _ _ H) as (_ & _ & _ & _ & Nc & Pc).
  destruct es1 as [|k es1]; [destruct es2 as [|k es2]|]; cbn [app first] in *.
  - apply wp_plist. apply HQ. pose proof (holds_head _ _ _ _ _ _ H) as HL. cbn [first] in HL. by rewrite (insert_id _ _ _ Nc) in HL.
  - destruct (holds_at _ _ _ [] k es2 _ H) as [Nk Pk].
    apply wp_bind. eapply wp_list_node; [exact Nc|]. apply wp_bind. eapply wp_pool; [exact Pc|].
    apply wp_bind. eapply wp_list_node; [exact Nk|]. apply wp_bind. eapply wp_pool; [exact Pk|].
    specialize (Hgt k eq_refl). unfold ip_of in Hgt. ztrue (pool_ip (c_entry c) <? pool_ip (c_entry k)).
    apply wp_bind. eapply wp_set_list_node; [exact Nc|]. apply wp_plist. apply HQ. exact (holds_head _ _ _ (k :: es2) c ds H).
  - destruct (holds_at _ _ _ [] k (es1 ++ es2) _ H) as [Nk Pk]. apply list.Forall_cons in Hle as [Hk Hle].
    apply wp_bind. eapply wp_list_node; [exact Nc|]. apply wp_bind. eapply wp_pool; [exact Pc|].
    apply wp_bind. eapply wp_list_node; [exact Nk|]. apply wp_bind. eapply wp_pool; [exact Pk|].
    unfold ip_of in Hk. zfalse (pool_ip (c_entry c) <? pool_ip (c_entry k)).
    apply wp_bind, wp_rounds. eapply (wp_insert_walk _ []); [exact H|done| |exact HQ].
    rewrite (holds_size _ _ _ H). cbn. lia.
Qed.

(** ** Changing and freeing *)

Lemma holds_set_pool h N P es1 c es2 ds e : holds h N P (es1 ++ c :: es2) ds ->
  holds h N (<[c_pool c := e]> P) (es1 ++ mk_cell (c_node c) (c_pool c) e :: es2) ds.
Proof.
  intros H. destruct (holds_mid _ _ _ es1 c es2 ds H) as (_ & _ & _ & B1 & B2 & B3).
  destruct H as [Hh Hc Hl Hn Hp Dn Dp]. apply chain_app in Hc as [Hc1 (Nc & Pc & Hc2)].
  rewrite fmap_app_cons in Hn, Hp, Dn, Dp. split.
  - rewrite Hh, !first_app. done.
  - apply chain_app. split; [by apply chain_pool|]. cbn [chain c_pool c_node c_entry]. rewrite lookup_insert_eq.
    split; [done|]. split; [done|]. by apply chain_pool.
  - by apply loose_pool.
  - by rewrite fmap_app_cons.
  - by rewrite fmap_app_cons.
  - by rewrite fmap_app_cons.
  - rewrite dom_insert_L, Dp, fmap_app_cons. cbn [c_pool]. apply set_eq. intros x.
    rewrite elem_of_union, elem_of_singleton, !elem_of_list_to_set, !elem_of_app, !elem_of_cons. tauto.
Qed.
Lemma holds_set_loose h N P es c ds e : holds h N P es (c :: ds) ->
  holds h N (<[c_pool c := e]> P) es (mk_cell (c_node c) (c_pool c) e :: ds).
Proof.
  intros H. destruct (holds_loose _ _ _ _ _ _ H) as (_ & _ & C1 & C2 & Nc & Pc).
  destruct H as [Hh Hc Hl Hn Hp Dn Dp]. apply list.Forall_cons in Hl as [_ Hl].
  rewrite fmap_app, fmap_cons in Hn, Hp, Dn, Dp. split.
  - done.
  - by apply chain_pool.
  - constructor; [|by apply loose_pool]. cbn. by rewrite lookup_insert_eq.
  - by rewrite fmap_app, fmap_cons.
  - by rewrite fmap_app, fmap_cons.
  - by rewrite fmap_app, fmap_cons.
  - rewrite dom_insert_L, Dp, fmap_app, fmap_cons. cbn [c_pool]. apply set_eq. intros x.
    rewrite elem_of_union, elem_of_singleton, !elem_of_list_to_set, !elem_of_app, !elem_of_cons. tauto.
Qed.
Lemma holds_free h N P es c ds : holds h N P es (c :: ds) -> holds h (delete (c_node c) N) (delete (c_pool c) P) es ds.
Proof.
  intros H. destruct (holds_loose _ _ _ _ _ _ H) as (A1 & A2 & C1 & C2 & Nc & Pc).
  destruct H as [Hh Hc Hl Hn Hp Dn Dp]. apply list.Forall_cons in Hl as [_ Hl].
  rewrite fmap_app, fmap_cons in Hn, Hp, Dn, Dp. apply nodup_mid in Hn as (_ & _ & Hn), Hp as (_ & _ & Hp). split.
  - done.
  - by apply chain_del_node, chain_del_pool.
  - by apply loose_del.
  - by rewrite fmap_app.
  - by rewrite fmap_app.
  - rewrite dom_delete_L, Dn, fmap_app. apply set_eq. intros x.
    rewrite elem_of_difference, elem_of_singleton, !elem_of_list_to_set, !elem_of_app, !elem_of_cons. naive_solver.
  - rewrite dom_delete_L, Dp, fmap_app. apply set_eq. intros x.
    rewrite elem_of_difference, elem_of_singleton, !elem_of_list_to_set, !elem_of_app, !elem_of_cons. naive_solver.
Qed.
Lemma wp_free_entry es c ds s (Q : unit -> sys dhcps_vars -> Prop) : holds_in s es (c :: ds) ->
  (forall N P, holds (plist (st s)) N P es ds -> Q tt (put s (plist (st s)) N P)) -> wp (free_entry (Some (c_node c))) s Q.
Proof.
  intros H HQ. destruct (holds_loose _ _ _ _ _ _ H) as (_ & _ & _ & _ & Nc & Pc). unfold free_entry.
  apply wp_bind. eapply wp_list_node; [exact Nc|]. apply wp_bind. eapply wp_free_pool; [exact Pc|].
  apply wp_bind. eapply wp_set_list_node; [exact Nc|]. eapply wp_free_node; [cbn; apply lookup_insert_eq|].
  change (Q tt (put s (plist (st s)) (delete (c_node c) (<[c_node c := mk_node None None]> (nodes (st s)))) (delete (c_pool c) (pools (st s))))).
  rewrite delete_insert_eq. by apply HQ, holds_free.
Qed.
End Heap.
