(* ===== verification/DhcpsTable.v ===== *)
(** * DhcpsTable: what the DHCP server promises, and that it keeps the promise

    The server is a table of leases sorted by address.  [request], [leave], [minute]
    and [killed] say what an event does to the table, without pointers; the
    operations of Dhcps.v on the linked list do exactly that, and nothing of them is
    undefined. *)

From stdpp Require Import gmap sorting.
From S2P Require Import Prelude CMem Board Dhcps DhcpsHeap.
Local Open Scope sm_scope.

(** ** The table *)

Abbreviation table := (list dhcps_pool).

(** A new entry stands before the first with a greater address. *)
Fixpoint place (e : dhcps_pool) (l : table) : table :=
  match l with
  | [] => [e]
  | d :: l => if pool_ip e <? pool_ip d then e :: d :: l else d :: place e l
  end.

Definition has_mac (m : list Z) (e : dhcps_pool) : bool := bool_decide (pool_mac e = m).
Definition has_ip (a : Z) (e : dhcps_pool) : bool := pool_ip e =? a.
Definition without (f : dhcps_pool -> bool) (l : table) : table := List.filter (λ e, negb (f e)) l.

(** The next address, and the address for a station [m] that asks for none: the
    first from [a] on that no entry has, or its own. *)
Definition next_ip (a : Z) : Z := htonl (u32 (ntohl a + 1)).
Fixpoint pick (m : list Z) (a : Z) (l : table) : Z :=
  match l with
  | [] => a
  | e :: l => if has_mac m e then a else if has_ip a e then pick m (next_ip a) l else a
  end.

Inductive grant_result := Refused | Granted (addr : Z) (type : dhcps_type_t) (renewed : bool).

(** Whether station [m], which has the address [ask] or none, gets an address. *)
Definition grant (r : dhcps_lease) (m : list Z) (ask : option Z) (l : table) : grant_result :=
  let known := existsb (has_mac m) l in
  match ask with
  | None =>
      let a := pick m (start_ip r) l in
      if known || (a <=? end_ip r) then Granted a DHCPS_TYPE_DYNAMIC false else Refused
  | Some a =>
      match List.find (has_ip a) l with
      | Some e =>
          if has_mac m e then Granted a DHCPS_TYPE_DYNAMIC true
          else if bool_decide (pool_state e = DHCPS_STATE_OFFLINE) then Granted a DHCPS_TYPE_STATIC false else Refused
      | None => if known || (a <=? end_ip r) then Granted a DHCPS_TYPE_STATIC false else Refused
      end
  end.

(** Its entry takes the place of what it had and of what had the address. *)
Definition enter (time : Z) (m : list Z) (g : grant_result) (l : table) : table :=
  match g with
  | Refused => l
  | Granted a type _ => place (mk_pool a m time type DHCPS_STATE_ONLINE) (without (has_ip a) (without (has_mac m) l))
  end.

(** Station [m] leaves its address [a]: a static entry goes, a dynamic one is
    kept for it unless it is forced out. *)
Fixpoint leave (m : list Z) (a : Z) (force : bool) (l : table) : table :=
  match l with
  | [] => []
  | e :: l =>
      if has_mac m e && has_ip a e
      then if bool_decide (pool_type e = DHCPS_TYPE_STATIC) || force then l else e <| pool_state := DHCPS_STATE_OFFLINE |> :: l
      else e :: leave m a force l
  end.

(** A minute: dynamic leases run down, and go at zero. *)
Definition run_down (e : dhcps_pool) : dhcps_pool :=
  if bool_decide (pool_type e = DHCPS_TYPE_DYNAMIC) then e <| lease_timer := u32 (lease_timer e - 1) |> else e.
Definition minute (l : table) : table := without (λ e, lease_timer e =? 0) (run_down <$> l).

(** The table is full: of the entries behind the first, the first with the least
    time left goes; the last entry, if it stays, is marked. *)
Definition killed (l l' : table) : Prop := exists a es1 e es2,
  l = a :: es1 ++ e :: es2 /\ Forall (λ d, lease_timer e < lease_timer d) es1 /\ Forall (λ d, lease_timer e <= lease_timer d) es2 /\
  ((es2 = [] /\ l' = a :: es1) \/
   (exists es3 z, es2 = es3 ++ [z] /\ l' = a :: es1 ++ es3 ++ [z <| pool_state := DHCPS_STATE_OFFLINE |>])).

(** ** Lists *)

Definition distinct (l : table) : Prop := NoDup (pool_mac <$> l) /\ StronglySorted (λ d e, pool_ip d < pool_ip e) l.

Lemma existsb_find {A} (f : A -> bool) l : existsb f l = match List.find f l with Some _ => true | None => false end.
Proof. induction l as [|x l IH]; [done|]. cbn. destruct (f x); [done|exact IH]. Qed.
Lemma find_split {A} (f : A -> bool) l : match List.find f l with
  | Some x => exists l1 l2, l = l1 ++ x :: l2 /\ f x = true /\ Forall (λ y, f y = false) l1
  | None => Forall (λ y, f y = false) l
  end.
Proof.
  induction l as [|x l IH]; [by constructor|]. cbn. destruct (f x) eqn:E; [by exists [], l|].
  destruct (List.find f l).
  - destruct IH as (l1 & l2 & -> & Ha & Hl). exists (x :: l1), l2. split; [done|]. split; [done|]. by constructor.
  - by constructor.
Qed.
Lemma without_none f l : Forall (λ e, f e = false) l -> without f l = l.
Proof. induction 1 as [|e l He _ IH]; [done|]. unfold without in *. cbn. by rewrite He, IH. Qed.
Lemma without_app f l k : without f (l ++ k) = without f l ++ without f k.
Proof. apply List.filter_app. Qed.
Lemma without_cons f e l : without f (e :: l) = if f e then without f l else e :: without f l.
Proof. unfold without. cbn. by destruct (f e). Qed.
Lemma without_split f l1 e l2 : f e = true -> Forall (λ d, f d = false) (l1 ++ l2) -> without f (l1 ++ e :: l2) = l1 ++ l2.
Proof. intros He [H1 H2]%Forall_app. by rewrite without_app, without_cons, He, !without_none. Qed.
Lemma elem_without f e l : e ∈ without f l <-> e ∈ l /\ f e = false.
Proof. unfold without. rewrite !list_elem_of_In, List.filter_In, negb_true_iff. done. Qed.
Lemma without_sublist f l : sublist (without f l) l.
Proof.
  induction l as [|e l IH]; [done|]. rewrite without_cons. destruct (f e); [by apply sublist_cons|by apply sublist_skip].
Qed.

Lemma has_mac_spec m e : has_mac m e = true <-> pool_mac e = m.
Proof. apply bool_decide_eq_true. Qed.
Lemma has_mac_false m e : has_mac m e = false <-> pool_mac e ≠ m.
Proof. apply bool_decide_eq_false. Qed.
Lemma has_ip_spec a e : has_ip a e = true <-> pool_ip e = a.
Proof. apply Z.eqb_eq. Qed.
Lemma has_ip_false a e : has_ip a e = false <-> pool_ip e ≠ a.
Proof. apply Z.eqb_neq. Qed.

Lemma others_mac m l1 e l2 : NoDup (pool_mac <$> l1 ++ e :: l2) -> pool_mac e = m -> Forall (λ d, has_mac m d = false) (l1 ++ l2).
Proof.
  intros Hd <-. rewrite fmap_app, fmap_cons in Hd. apply nodup_mid in Hd as (H1 & H2 & _). rewrite list.Forall_forall. intros d Hi.
  apply has_mac_false. intros E. apply elem_of_app in Hi as [Hi|Hi]; [apply H1|apply H2]; rewrite <- E; by apply list_elem_of_fmap_2.
Qed.
Lemma sorted_mid l1 e l2 : StronglySorted (λ d e, pool_ip d < pool_ip e) (l1 ++ e :: l2) ->
  Forall (λ d, pool_ip d < pool_ip e) l1 /\ Forall (λ d, pool_ip e < pool_ip d) l2 /\ StronglySorted (λ d e, pool_ip d < pool_ip e) (l1 ++ l2).
Proof.
  induction l1 as [|d l1 IH]; cbn [app]; intros Hs; apply StronglySorted_inv in Hs as [Hs Hd]; [done|].
  destruct (IH Hs) as (H1 & H2 & H3). apply Forall_app in Hd as [Hd1 [Hde Hd2]%list.Forall_cons]. split; [by constructor|]. split; [done|].
  constructor; [done|]. by apply Forall_app.
Qed.
Lemma others_ip a l1 e l2 : StronglySorted (λ d e, pool_ip d < pool_ip e) (l1 ++ e :: l2) -> pool_ip e = a -> Forall (λ d, has_ip a d = false) (l1 ++ l2).
Proof.
  intros Hs <-. apply sorted_mid in Hs as (H1 & H2 & _). apply Forall_app. split; [eapply Forall_weaken; [exact H1|]|eapply Forall_weaken; [exact H2|]];
    cbv beta; intros d Hd; apply has_ip_false; lia.
Qed.
Lemma sorted_nodup l : StronglySorted (λ d e, pool_ip d < pool_ip e) l -> NoDup (pool_ip <$> l).
Proof.
  intros Hs. induction Hs as [|e l _ IH Hl]; [constructor|]. rewrite fmap_cons. constructor; [|done]. intros (d & E & Hi)%list_elem_of_fmap.
  rewrite list.Forall_forall in Hl. specialize (Hl d Hi). cbv beta in Hl. lia.
Qed.
Lemma distinct_mid l1 e l2 : distinct (l1 ++ e :: l2) -> distinct (l1 ++ l2).
Proof.
  intros [Hm Hs]. split; [|by apply sorted_mid in Hs as (_ & _ & ?)]. rewrite fmap_app, fmap_cons in Hm. apply nodup_mid in Hm as (_ & _ & Hm). by rewrite fmap_app.
Qed.
Lemma distinct_sublist l k : sublist l k -> distinct k -> distinct l.
Proof.
  intros Hs [Hm Ho]. split; [eapply sublist_NoDup; [exact Hm|by apply fmap_sublist]|]. clear Hm.
  induction Hs as [|x l k Hs IH|x l k Hs IH]; [done| |]; apply StronglySorted_inv in Ho as [Ho Hx]; [|by apply IH].
  constructor; [by apply IH|]. rewrite list.Forall_forall in *. intros d Hd. apply Hx. by eapply elem_of_sublist.
Qed.

Lemma place_split e l : exists l1 l2, l = l1 ++ l2 /\ place e l = l1 ++ e :: l2 /\
  Forall (λ d, pool_ip d <= pool_ip e) l1 /\ (forall d, head l2 = Some d -> pool_ip e < pool_ip d).
Proof.
  induction l as [|d l IH]; cbn [place]; [by exists [], []|]. destruct (Z.ltb_spec (pool_ip e) (pool_ip d)).
  - exists [], (d :: l). split; [done|]. split; [done|]. split; [done|]. by intros ? [= <-].
  - destruct IH as (l1 & l2 & -> & -> & H1 & H2). exists (d :: l1), l2. split; [done|]. split; [done|]. split; [by constructor|done].
Qed.
Lemma place_fits e l1 l2 : Forall (λ d, pool_ip d <= pool_ip e) l1 -> (forall d, head l2 = Some d -> pool_ip e < pool_ip d) ->
  place e (l1 ++ l2) = l1 ++ e :: l2.
Proof.
  intros H1 H2. induction H1 as [|d l1 Hd _ IH]; cbn [app place].
  - destruct l2 as [|d l2]; [done|]. cbn [place]. specialize (H2 d eq_refl). by ztrue (pool_ip e <? pool_ip d).
  - zfalse (pool_ip e <? pool_ip d). by rewrite IH.
Qed.
Lemma place_again e l1 d l2 : StronglySorted (λ d e, pool_ip d < pool_ip e) (l1 ++ d :: l2) -> pool_ip e = pool_ip d -> place e (l1 ++ l2) = l1 ++ e :: l2.
Proof.
  intros Hs He. apply sorted_mid in Hs as (H1 & H2 & _). apply place_fits.
  - eapply Forall_weaken; [exact H1|]. cbv beta. lia.
  - intros x Hx. destruct l2; [done|]. injection Hx as <-. apply list.Forall_cons in H2 as [H2 _]. lia.
Qed.
Lemma place_distinct e l : distinct l -> pool_mac e ∉ pool_mac <$> l -> pool_ip e ∉ pool_ip <$> l -> distinct (place e l).
Proof.
  intros [Hm Hs] Hem Hei. destruct (place_split e l) as (l1 & l2 & -> & -> & H1 & H2).
  split; [rewrite fmap_app, fmap_cons, <- Permutation_middle, <- fmap_app; by constructor|]. clear Hm Hem.
  induction H1 as [|d l1 Hd _ IH]; cbn [app] in *.
  - constructor; [done|]. destruct l2 as [|x l2]; [done|]. specialize (H2 x eq_refl). constructor; [done|].
    apply StronglySorted_inv in Hs as [_ Hs]. eapply Forall_weaken; [exact Hs|]. cbv beta. lia.
  - apply StronglySorted_inv in Hs as [Hs Hl]. rewrite fmap_cons, not_elem_of_cons in Hei. destruct Hei as [Hne Hei].
    constructor; [by apply IH|]. apply Forall_app in Hl as [Hl1 Hl2]. apply Forall_app. split; [done|]. constructor; [lia|done].
Qed.
Lemma elem_place e l d : d ∈ place e l <-> d = e \/ d ∈ l.
Proof.
  destruct (place_split e l) as (l1 & l2 & -> & -> & _ & _). rewrite !elem_of_app, elem_of_cons. tauto.
Qed.

(** ** The operations on the linked list *)

Section Refines.
Context `{EV : Env} `{AL : Alloc} `{DA : DhcpsAlloc}.
Implicit Types s : sys dhcps_vars.

Definition entries (es : list cell) : table := c_entry <$> es.
(** The allocator finds room. *)
Definition roomy : Prop := (forall P, new_pool P ≠ None) /\ (forall N, new_node N ≠ None).

Definition cell_find (f : dhcps_pool -> bool) (es : list cell) : option cell := List.find (λ c, f (c_entry c)) es.
Lemma cell_find_entries f es : c_entry <$> cell_find f es = List.find f (entries es).
Proof. unfold cell_find, entries. induction es as [|c es IH]; [done|]. cbn. by destruct (f (c_entry c)). Qed.

Lemma cell_find_cons f c es : cell_find f (c :: es) = if f (c_entry c) then Some c else cell_find f es.
Proof. done. Qed.

(** *** Looking for the station and its address *)

Lemma find_none_mac m es : m ∉ pool_mac <$> entries es -> cell_find (has_mac m) es = None.
Proof.
  intros Hn. pose proof (find_split (λ c, has_mac m (c_entry c)) es) as Hs. fold (cell_find (has_mac m) es) in Hs.
  destruct (cell_find _ es); [|done]. destruct Hs as (l1 & l2 & -> & He & _). apply has_mac_spec in He. exfalso. apply Hn.
  unfold entries. rewrite <- He, !fmap_app, elem_of_app. right. left.
Qed.
Lemma find_none_ip a es : a ∉ pool_ip <$> entries es -> cell_find (has_ip a) es = None.
Proof.
  intros Hn. pose proof (find_split (λ c, has_ip a (c_entry c)) es) as Hs. fold (cell_find (has_ip a) es) in Hs.
  destruct (cell_find _ es); [|done]. destruct Hs as (l1 & l2 & -> & He & _). apply has_ip_spec in He. exfalso. apply Hn.
  unfold entries. rewrite <- He, !fmap_app, elem_of_app. right. left.
Qed.

Definition or_else (o : option cell) (d : option positive) : option positive := match o with Some c => Some (c_node c) | None => d end.

Lemma wp_loop_asked fuel es m a r s (Q : found -> sys dhcps_vars -> Prop) :
  chain (nodes (st s)) (pools (st s)) es None -> (length es <= fuel)%nat -> NoDup (pool_mac <$> entries es) -> NoDup (pool_ip <$> entries es) ->
  Q (mk_found (or_else (cell_find (has_mac m) es) (pmac_node r)) (or_else (cell_find (has_ip a) es) (pip_node r)) (f_flag r) (f_start r)) s ->
  wp (update_loop fuel (first es None) m (Some a) r) s Q.
Proof.
  revert es r. induction fuel as [|fuel IH]; intros [|c es] r Hc Hf Hm Hi HQ;
    try (cbn [first update_loop cell_find or_else List.find] in *; apply wp_ret; by destruct r); [cbn in Hf; lia|].
  cbn [first update_loop]. destruct Hc as (Hn & Hp & Hc). apply wp_bind. eapply wp_list_node; [exact Hn|]. cbn [pnode pnext].
  apply wp_bind. eapply wp_pool; [exact Hp|]. cbn in Hm, Hi. apply list.NoDup_cons in Hm as [Hm' Hm], Hi as [Hi' Hi].
  apply IH; [done|cbn in Hf; lia|done|done|].
  rewrite !cell_find_cons in HQ. unfold has_mac at 1 in HQ. unfold has_ip at 1 in HQ. clear IH.
  destruct (bool_decide (pool_mac (c_entry c) = m)) eqn:Em, (pool_ip (c_entry c) =? a) eqn:Ei;
    try (apply bool_decide_eq_true in Em as <-); try (apply Z.eqb_eq in Ei as <-);
    try rewrite (find_none_mac _ es Hm'); try rewrite (find_none_ip _ es Hi'); exact HQ.
Qed.

Lemma wp_loop_any fuel es m r s (Q : found -> sys dhcps_vars -> Prop) :
  chain (nodes (st s)) (pools (st s)) es None -> (length es <= fuel)%nat ->
  (forall r', f_start r' = (if f_flag r then f_start r else pick m (f_start r) (entries es)) -> pip_node r' = pip_node r ->
     pmac_node r' = or_else (cell_find (has_mac m) es) (pmac_node r) -> (cell_find (has_mac m) es ≠ None -> f_flag r' = true) -> Q r' s) ->
  wp (update_loop fuel (first es None) m None r) s Q.
Proof.
  revert es r. induction fuel as [|fuel IH]; intros [|c es] r Hc Hf HQ;
    try (cbn [first update_loop] in *; apply wp_ret, HQ; [by destruct (f_flag r)|done|done|done]); [cbn in Hf; lia|].
  cbn [first update_loop]. destruct Hc as (Hn & Hp & Hc). apply wp_bind. eapply wp_list_node; [exact Hn|]. cbn [pnode pnext].
  apply wp_bind. eapply wp_pool; [exact Hp|]. rewrite !cell_find_cons in HQ. cbn [entries fmap list_fmap pick] in HQ. fold (entries es) in HQ.
  unfold has_mac at 1 2 3 4 in HQ. unfold has_ip in HQ.
  destruct (bool_decide (pool_mac (c_entry c) = m)) eqn:Em.
  - apply wp_ret, HQ; try done. by destruct (f_flag r).
  - apply IH; [done|cbn in Hf; lia|]. intros r' E1 E2 E3 E4. destruct (f_flag r) eqn:Ef; [|destruct (pool_ip (c_entry c) =? f_start r) eqn:Ei]; cbn in *.
    + apply HQ; try done. by rewrite Ef in E1.
    + apply HQ; try done. by rewrite Ef in E1.
    + apply HQ; done.
Qed.

(** *** Giving it the address *)

Definition online (time : Z) (m : list Z) (a : Z) (type : dhcps_type_t) : dhcps_pool := mk_pool a m time type DHCPS_STATE_ONLINE.
Definition told (m : list Z) (a : Z) : list event := [Do (wifi_softap_set_station_info m a)].
Definition say s (k : list event) : sys dhcps_vars := mk_sys (log s ++ k) (mem s) (st s).

Lemma entries_mid es1 c es2 : entries (es1 ++ c :: es2) = entries es1 ++ c_entry c :: entries es2.
Proof. unfold entries. by rewrite fmap_app. Qed.
Lemma entries_app es1 es2 : entries (es1 ++ es2) = entries es1 ++ entries es2.
Proof. apply fmap_app. Qed.
Lemma fits_place es c : exists es1 es2, es = es1 ++ es2 /\ fits es1 c es2 /\ entries (es1 ++ c :: es2) = place (c_entry c) (entries es).
Proof.
  destruct (place_split (c_entry c) (entries es)) as (l1 & l2 & El & Ep & H1 & H2). unfold entries in El.
  apply fmap_app_inv in El as (es1 & es2 & -> & -> & ->). exists es1, es2. split; [done|]. split; [|by rewrite Ep, entries_mid].
  split; [exact (proj1 (list.Forall_fmap c_entry _ es1) H1)|]. intros d Hd. destruct es2; [done|]. injection Hd as <-. exact (H2 _ eq_refl).
Qed.

Lemma enter_replace l1 e l2 t m a ty rn : distinct (l1 ++ e :: l2) -> pool_ip e = a -> Forall (λ d, has_mac m d = false) (l1 ++ l2) ->
  enter t m (Granted a ty rn) (l1 ++ e :: l2) = l1 ++ online t m a ty :: l2.
Proof.
  intros [Hm Hs] He Hn. cbn [enter]. pose proof (others_ip _ _ _ _ Hs He) as Ho. fold (online t m a ty).
  assert (E : without (has_ip a) (without (has_mac m) (l1 ++ e :: l2)) = l1 ++ l2).
  { destruct (has_mac m e) eqn:Em; [rewrite (without_split _ _ e) by done; by rewrite without_none|].
    rewrite (without_none (has_mac m)) by (apply Forall_app in Hn as [? ?]; apply Forall_app; split; [done|by constructor]).
    apply without_split; [|done]. by apply has_ip_spec. }
  rewrite E. by apply (place_again _ _ e).
Qed.
Lemma enter_move k1 c k2 l1 e l2 t m a ty rn : distinct (k1 ++ c :: k2) -> pool_mac c = m -> k1 ++ k2 = l1 ++ e :: l2 -> pool_ip e = a ->
  enter t m (Granted a ty rn) (k1 ++ c :: k2) = l1 ++ online t m a ty :: l2.
Proof.
  intros Hd Hc El He. destruct Hd as [Hm Hs]. pose proof (others_mac _ _ _ _ Hm Hc) as Ho.
  transitivity (enter t m (Granted a ty rn) (l1 ++ e :: l2)).
  - cbn [enter]. rewrite (without_split _ k1 c) by (done || by apply has_mac_spec). rewrite El in *. by rewrite (without_none (has_mac m)).
  - rewrite El in Ho. apply enter_replace; [rewrite <- El; by apply (distinct_mid _ c)|done|].
    apply Forall_app in Ho as [Ho1 [_ Ho2]%list.Forall_cons]. by apply Forall_app.
Qed.

Lemma wp_put_online p e ty s (Q : unit -> sys dhcps_vars -> Prop) : pools (st s) !! p = Some e ->
  Q tt (put s (plist (st s)) (nodes (st s)) (<[p := online (dhcps_lease_time (st s)) (pool_mac e) (pool_ip e) ty]> (pools (st s)))) ->
  wp (put_online (Some p) ty) s Q.
Proof. intros E HQ. unfold put_online. apply wp_bind, wp_var. eapply wp_set_pool; [exact E|exact HQ]. Qed.
Lemma wp_tell m p e s (Q : Z -> sys dhcps_vars -> Prop) : pools (st s) !! p = Some e -> Q (pool_ip e) (say s (told m (pool_ip e))) ->
  wp (tell_station m (Some p)) s Q.
Proof.
  intros E HQ. unfold tell_station. apply wp_bind. eapply wp_pool; [exact E|]. apply wp_bind, wp_call. apply wp_bind. eapply wp_pool; [exact E|]. by apply wp_ret.
Qed.

(** An entry stays where it is and gets another owner and lease. *)
Lemma wp_reuse m es1 c es2 ty s (Q : Z -> sys dhcps_vars -> Prop) : holds_in s (es1 ++ c :: es2) [] ->
  let e := online (dhcps_lease_time (st s)) m (ip_of c) ty in
  (forall h N P es', holds h N P es' [] -> entries es' = entries es1 ++ e :: entries es2 -> Q (ip_of c) (put (say s (told m (ip_of c))) h N P)) ->
  wp (set_pool (Some (c_pool c)) (λ e, e <| pool_mac := m |>) ;; put_online (Some (c_pool c)) ty ;; tell_station m (Some (c_pool c))) s Q.
Proof.
  intros H e HQ. destruct (holds_at _ _ _ _ _ _ _ H) as [_ Pc].
  apply wp_bind. eapply wp_set_pool; [exact Pc|]. apply wp_bind. eapply wp_put_online; [cbn; apply lookup_insert_eq|].
  eapply wp_tell; [cbn; apply lookup_insert_eq|].
  eapply HQ; [eapply (holds_set_pool _ _ _ es1 (mk_cell (c_node c) (c_pool c) _)), holds_set_pool; exact H|apply entries_mid].
Qed.
Lemma wp_renew m es1 c es2 ty s (Q : Z -> sys dhcps_vars -> Prop) : holds_in s (es1 ++ c :: es2) [] -> pool_mac (c_entry c) = m ->
  let e := online (dhcps_lease_time (st s)) m (ip_of c) ty in
  (forall h N P es', holds h N P es' [] -> entries es' = entries es1 ++ e :: entries es2 -> Q (ip_of c) (put (say s (told m (ip_of c))) h N P)) ->
  wp (put_online (Some (c_pool c)) ty ;; tell_station m (Some (c_pool c))) s Q.
Proof.
  intros H Hm e HQ. destruct (holds_at _ _ _ _ _ _ _ H) as [_ Pc].
  apply wp_bind. eapply wp_put_online; [exact Pc|]. eapply wp_tell; [cbn; apply lookup_insert_eq|].
  eapply HQ; [eapply holds_set_pool; exact H|]. rewrite entries_mid. cbn [c_entry]. by rewrite Hm.
Qed.
(** A cell that is not in the list gets its lease and goes in. *)
Lemma wp_enlist m es c ty s (Q : Z -> sys dhcps_vars -> Prop) : holds_in s es [c] -> pool_mac (c_entry c) = m ->
  let e := online (dhcps_lease_time (st s)) m (ip_of c) ty in
  (forall h N P es', holds h N P es' [] -> entries es' = place e (entries es) -> Q (ip_of c) (put (say s (told m (ip_of c))) h N P)) ->
  wp (put_online (Some (c_pool c)) ty ;; node_insert_to_list (Some (c_node c)) ;; tell_station m (Some (c_pool c))) s Q.
Proof.
  intros H Hm e HQ. destruct (holds_loose _ _ _ _ _ _ H) as (_ & _ & _ & _ & Nc & Pc).
  apply wp_bind. eapply wp_put_online; [exact Pc|]. rewrite Hm. fold (ip_of c). fold e.
  destruct (fits_place es (mk_cell (c_node c) (c_pool c) e)) as (es1 & es2 & -> & Hf & Ep).
  apply wp_bind. change (Some (c_node c)) with (Some (c_node (mk_cell (c_node c) (c_pool c) e))).
  eapply (wp_insert es1 es2); [by apply holds_set_loose|exact Hf|]. intros h N HN.
  eapply wp_tell; [cbn; apply lookup_insert_eq|]. eapply HQ; [exact HN|exact Ep].
Qed.

(** *** The whole of [wifi_softap_dhcps_client_update] *)

Lemma cell_find_split f es : match cell_find f es with
  | Some c => exists es1 es2, es = es1 ++ c :: es2 /\ f (c_entry c) = true
  | None => Forall (λ e, f e = false) (entries es)
  end.
Proof.
  pose proof (find_split (λ c, f (c_entry c)) es) as Hs. fold (cell_find f es) in Hs. destruct (cell_find f es) as [c|].
  - destruct Hs as (es1 & es2 & -> & Hf & _). by exists es1, es2.
  - by apply (list.Forall_fmap c_entry).
Qed.
Lemma known_find m es : existsb (has_mac m) (entries es) = match cell_find (has_mac m) es with Some _ => true | None => false end.
Proof. rewrite existsb_find, <- cell_find_entries. by destruct (cell_find _ es). Qed.

Definition ask_of (ip : option Z) : option Z := match ip with Some a => if a =? IPADDR_ANY then None else Some a | None => None end.
Definition addr_of (g : grant_result) : Z := match g with Refused => IPADDR_ANY | Granted a _ _ => a end.
Definition told_of (m : list Z) (g : grant_result) : list event := match g with Refused => [] | Granted a _ _ => told m a end.
Definition renew_of (g : grant_result) : bool := match g with Refused => false | Granted _ _ r => r end.

(** The state after station [m] got the answer [g]. *)
Definition granted s m g : sys dhcps_vars := mk_sys (log s ++ told_of m g) (mem s) ((st s) <| renew := renew_of g |>).
Definition updates s m g (l : table) (Q : Z -> sys dhcps_vars -> Prop) : Prop :=
  forall h N P es, holds h N P es [] -> entries es = enter (dhcps_lease_time (st s)) m g l -> Q (addr_of g) (put (granted s m g) h N P).
Lemma granted_say s m g : renew (st s) = renew_of g -> granted s m g = say s (told_of m g).
Proof. unfold granted, say. intros <-. by destruct s as [l mm []]. Qed.
Lemma updates_refused s es m (Q : Z -> sys dhcps_vars -> Prop) : holds_in s es [] -> renew (st s) = false -> updates s m Refused (entries es) Q -> Q IPADDR_ANY s.
Proof.
  intros H Hr HQ. specialize (HQ _ _ _ _ H eq_refl). rewrite granted_say in HQ by done. unfold say in HQ. cbn [told_of] in HQ. rewrite app_nil_r in HQ.
  by destruct s as [k mm []].
Qed.

(** The station's entry moves to another address. *)
Lemma wp_move m a ty es1 c es2 s (Q : Z -> sys dhcps_vars -> Prop) : holds_in s (es1 ++ c :: es2) [] -> renew (st s) = false ->
  distinct (entries (es1 ++ c :: es2)) -> pool_mac (c_entry c) = m -> Forall (λ e, has_ip a e = false) (entries (es1 ++ es2)) ->
  updates s m (Granted a ty false) (entries (es1 ++ c :: es2)) Q ->
  wp (set_pool (Some (c_pool c)) (λ e, e <| pool_ip := a |>) ;; node_remove_from_list (Some (c_node c)) ;;
      put_online (Some (c_pool c)) ty ;; node_insert_to_list (Some (c_node c)) ;; tell_station m (Some (c_pool c))) s Q.
Proof.
  intros H Hr Hd Hm Ha HQ. destruct (holds_at _ _ _ _ _ _ _ H) as [_ Pc]. rewrite entries_mid in Hd.
  pose proof (others_mac _ _ _ _ (proj1 Hd) Hm) as Ho. unfold updates in HQ. rewrite granted_say in HQ by done.
  apply wp_bind. eapply wp_set_pool; [exact Pc|]. apply wp_bind.
  eapply (wp_remove es1 (mk_cell (c_node c) (c_pool c) ((c_entry c) <| pool_ip := a |>)) es2 []); [by apply holds_set_pool|]. intros h N HN.
  eapply (wp_enlist m (es1 ++ es2) (mk_cell (c_node c) (c_pool c) _)); [exact HN|exact Hm|]. cbv zeta. intros h' N' P' es' H' Ee.
  apply (HQ _ _ _ es' H'). rewrite Ee. cbn [enter]. rewrite entries_mid, (without_split _ _ (c_entry c)) by (done || by apply has_mac_spec).
  rewrite entries_app in *. by rewrite without_none.
Qed.

(** It keeps its address. *)
Lemma wp_keep m es1 c es2 s (Q : Z -> sys dhcps_vars -> Prop) : holds_in s (es1 ++ c :: es2) [] ->
  distinct (entries (es1 ++ c :: es2)) -> pool_mac (c_entry c) = m ->
  updates s m (Granted (ip_of c) DHCPS_TYPE_DYNAMIC true) (entries (es1 ++ c :: es2)) Q ->
  wp (modify (λ v, v <| renew := true |>) ;; put_online (Some (c_pool c)) DHCPS_TYPE_DYNAMIC ;; tell_station m (Some (c_pool c))) s Q.
Proof.
  intros H Hd Hm HQ. apply wp_bind, wp_modify. rewrite entries_mid in Hd.
  eapply (wp_renew m es1 c es2); [exact H|done|]. cbv zeta. intros h N P es' H' Ee. apply (HQ h N P es' H').
  rewrite Ee, entries_mid. symmetry. apply enter_replace; [done|done|]. by apply (others_mac _ _ (c_entry c) _ (proj1 Hd)).
Qed.

(** It takes over the entry [d] of a station that is gone; its own entry [c] goes. *)
Lemma wp_take_over m ty es1 c es2 d g1 g2 s (Q : Z -> sys dhcps_vars -> Prop) : holds_in s (es1 ++ c :: es2) [] -> renew (st s) = false ->
  distinct (entries (es1 ++ c :: es2)) -> pool_mac (c_entry c) = m -> es1 ++ es2 = g1 ++ d :: g2 ->
  updates s m (Granted (ip_of d) ty false) (entries (es1 ++ c :: es2)) Q ->
  wp (node_remove_from_list (Some (c_node c)) ;; free_entry (Some (c_node c)) ;; set_pool (Some (c_pool d)) (λ e, e <| pool_mac := m |>) ;;
      put_online (Some (c_pool d)) ty ;; tell_station m (Some (c_pool d))) s Q.
Proof.
  intros H Hr Hd Hm Eg HQ. rewrite entries_mid in Hd. unfold updates in HQ. rewrite granted_say in HQ by done.
  apply wp_bind. eapply (wp_remove es1 c es2 []); [exact H|]. intros h N HN.
  apply wp_bind. eapply wp_free_entry; [exact HN|]. intros N' P' HN'. rewrite Eg in HN'.
  eapply (wp_reuse m g1 d g2); [exact HN'|]. cbv zeta. intros h' N'' P'' es' H' Ee. apply (HQ h' N'' P'' es' H').
  rewrite Ee, entries_mid. symmetry. apply (enter_move _ _ _ _ (c_entry d)); [done|done| |done].
  by rewrite <- entries_app, Eg, entries_mid.
Qed.

(** A cell found twice. *)
Lemma same_cell h N P es es1 c es2 f1 d f2 : holds h N P es [] -> es = es1 ++ c :: es2 -> es = f1 ++ d :: f2 ->
  c_node c = c_node d -> c = d.
Proof.
  intros H E1 E2 Hn. rewrite E1 in E2, H. destruct (holds_mid _ _ _ _ _ _ _ H) as (N1 & N2 & _).
  assert (Hin : d ∈ es1 ++ c :: es2) by (rewrite E2; set_solver). apply elem_of_app in Hin as [Hin|[->|Hin]%elem_of_cons]; [|done|].
  - destruct N1. rewrite Hn. by apply list_elem_of_fmap_2.
  - destruct N2. rewrite Hn. by apply list_elem_of_fmap_2.
Qed.
Lemma other_cell {A} (es1 : list A) c es2 f1 d f2 : es1 ++ c :: es2 = f1 ++ d :: f2 -> d ≠ c -> exists g1 g2, es1 ++ es2 = g1 ++ d :: g2.
Proof.
  intros E Hne. assert (Hin : d ∈ es1 ++ c :: es2) by (rewrite E, elem_of_app; right; left).
  apply list_elem_of_split. apply elem_of_app in Hin as [Hin|[->|Hin]%elem_of_cons]; [|done|]; apply elem_of_app; tauto.
Qed.
Lemma same_station m es es1 c es2 f1 d f2 : distinct (entries es) -> es = es1 ++ c :: es2 -> es = f1 ++ d :: f2 ->
  has_mac m (c_entry c) = true -> has_mac m (c_entry d) = true -> c = d.
Proof.
  intros [Hd _] E1 E2 Hc Hm. rewrite E1 in E2. rewrite E1, entries_mid in Hd. apply has_mac_spec in Hc. pose proof (others_mac _ _ _ _ Hd Hc) as Ho.
  rewrite <- entries_app in Ho. assert (Hin : d ∈ es1 ++ c :: es2) by (rewrite E2; set_solver).
  rewrite list.Forall_forall in Ho. specialize (Ho (c_entry d)). rewrite Hm in Ho.
  apply elem_of_app in Hin as [Hin|[->|Hin]%elem_of_cons]; [|done|]; discriminate Ho; apply list_elem_of_fmap_2, elem_of_app; tauto.
Qed.

Lemma wp_unbind {S A B} (m : SM S A) (k : A -> SM S B) (x : S) (Q : B -> S -> Prop) : wp (sbind m k) x Q -> wp m x (λ a x', wp (k a) x' Q).
Proof.
  intros (b & s2 & E & HQ). unfold sbind in E. destruct (m x) as [[a x1]|] eqn:Em; [|done]. exists a, x1. split; [done|]. by exists b, s2.
Qed.
(** The station has an entry and asks for the address [a]. *)
Lemma wp_known_asked m a es es1 c es2 s r (Q : Z -> sys dhcps_vars -> Prop) :
  holds_in s es [] -> distinct (entries es) -> renew (st s) = false -> es = es1 ++ c :: es2 -> has_mac m (c_entry c) = true ->
  pmac_node r = Some (c_node c) -> pip_node r = or_else (cell_find (has_ip a) es) None ->
  updates s m (grant (lease (st s)) m (Some a) (entries es)) (entries es) Q ->
  wp (update_known m (Some a) DHCPS_TYPE_STATIC r) s Q.
Proof.
  intros H Hd Hr E Hm E1 E2 HQ. assert (Hmac := Hm). apply has_mac_spec in Hmac.
  pose proof (cell_find_split (has_ip a) es) as Hf. unfold grant in HQ. rewrite <- cell_find_entries in HQ.
  assert (Hk : existsb (has_mac m) (entries es) = true). { rewrite E, entries_mid, existsb_app. cbn. rewrite Hm. apply orb_true_r. }
  unfold update_known. rewrite E1, E2.
  destruct (cell_find (has_ip a) es) as [d|] eqn:Ed; cbn [or_else fmap option_fmap option_map] in *.
  - destruct Hf as (f1 & f2 & Ef & <-%has_ip_spec). assert (H2 := H). unfold holds_in in H2. rewrite Ef in H2.
    destruct (holds_at _ _ _ _ _ _ _ H2) as [Nd Pd]. apply wp_bind. eapply wp_list_node; [exact Nd|]. cbn [pnode].
    destruct (decide (Some (c_node d) = Some (c_node c))) as [Hsame|Hsame]; [rewrite bool_decide_true by done|rewrite bool_decide_false by done]; cbn [negb].
    + injection Hsame as Hsame. pose proof (same_cell _ _ _ _ _ _ _ _ _ _ H E Ef (eq_sym Hsame)) as <-. rewrite Hm in HQ.
      rewrite Ef in Hd, HQ. by apply (wp_keep m f1 c f2).
    + assert (Hcd : d ≠ c) by (intros ->; by apply Hsame).
      destruct (has_mac m (c_entry d)) eqn:Edc; [by destruct Hcd; apply (same_station m es f1 d f2 es1 c es2)|].
      apply wp_bind. eapply wp_pool; [exact Pd|]. destruct (bool_decide _); cbn [negb]; [|apply wp_ret; by apply (updates_refused s es m)].
      destruct (other_cell es1 c es2 f1 d f2) as (g1 & g2 & Eg); [congruence|done|].
      rewrite E in *. by apply (wp_take_over m DHCPS_TYPE_STATIC es1 c es2 d g1 g2).
  - rewrite Hk in HQ. rewrite E in *. destruct (holds_at _ _ _ _ _ _ _ H) as [Nc Pc].
    apply wp_bind. eapply wp_list_node; [exact Nc|]. cbn [pnode assign_ip]. apply wp_bind, wp_bind.
    rewrite entries_mid in Hf. apply Forall_app in Hf as [Hf1 [_ Hf2]%list.Forall_cons].
    assert (Ha : Forall (λ e, has_ip a e = false) (entries (es1 ++ es2))) by (rewrite entries_app; by apply Forall_app).
    pose proof (wp_move m a _ es1 c es2 s Q H Hr Hd Hmac Ha HQ) as Hw.
    apply wp_unbind in Hw. eapply wp_mono; [exact Hw|]. cbv beta. intros [] s1 Hw'. by apply wp_ret.
Qed.
(** It asks for none. *)
Lemma wp_known_any m es es1 c es2 s r (Q : Z -> sys dhcps_vars -> Prop) :
  holds_in s es [] -> distinct (entries es) -> renew (st s) = false -> es = es1 ++ c :: es2 -> has_mac m (c_entry c) = true ->
  pmac_node r = Some (c_node c) -> pip_node r = None -> f_flag r = true -> f_start r = pick m (start_ip (lease (st s))) (entries es) ->
  Forall (λ e, has_ip (f_start r) e = false) (without (has_mac m) (entries es)) ->
  updates s m (grant (lease (st s)) m None (entries es)) (entries es) Q ->
  wp (update_known m None DHCPS_TYPE_DYNAMIC r) s Q.
Proof.
  intros H Hd Hr E Hm E1 E2 E3 E4 Ha HQ. assert (Hmac := Hm). apply has_mac_spec in Hmac.
  assert (Hk : existsb (has_mac m) (entries es) = true). { rewrite E, entries_mid, existsb_app. cbn. rewrite Hm. apply orb_true_r. }
  unfold grant in HQ. rewrite Hk, <- E4 in HQ. cbn [orb] in HQ. unfold update_known. rewrite E1, E2.
  rewrite E in *. destruct (holds_at _ _ _ _ _ _ _ H) as [Nc Pc].
  apply wp_bind. eapply wp_list_node; [exact Nc|]. cbn [pnode assign_ip]. rewrite E3. apply wp_bind, wp_bind.
  rewrite entries_mid in Hd, Ha. rewrite (without_split _ _ (c_entry c)), <- entries_app in Ha by (done || apply (others_mac _ _ _ _ (proj1 Hd) Hmac)).
  rewrite <- entries_mid in Hd.
  pose proof (wp_move m (f_start r) _ es1 c es2 s Q H Hr Hd Hmac Ha HQ) as Hw.
    apply wp_unbind in Hw. eapply wp_mono; [exact Hw|]. cbv beta. intros [] s1 Hw'. by apply wp_ret.
Qed.

(** *** A station without an entry *)

Lemma holds_new h N P es x p e : holds h N P es [] -> N !! x = None -> P !! p = None ->
  holds h (<[x := mk_node (Some p) None]> N) (<[p := e]> P) es [mk_cell x p e].
Proof.
  intros [H1 H2 H3 H4 H5 H6 H7] Hx Hp. rewrite app_nil_r in *. apply not_elem_of_dom in Hx, Hp. rewrite H6, elem_of_list_to_set in Hx.
  rewrite H7, elem_of_list_to_set in Hp. split; try done.
  - by apply chain_node, chain_pool.
  - constructor; [|done]. cbn. by rewrite !lookup_insert_eq.
  - rewrite fmap_app. cbn [fmap list_fmap c_node c_pool]. rewrite <- Permutation_cons_append. by constructor.
  - rewrite fmap_app. cbn [fmap list_fmap c_node c_pool]. rewrite <- Permutation_cons_append. by constructor.
  - rewrite dom_insert_L, H6, fmap_app. cbn. set_solver.
  - rewrite dom_insert_L, H7, fmap_app. cbn. set_solver.
Qed.
Lemma not_known m es : cell_find (has_mac m) es = None -> Forall (λ e, has_mac m e = false) (entries es).
Proof. intros E. pose proof (cell_find_split (has_mac m) es) as Hs. by rewrite E in Hs. Qed.

Lemma wp_create m a ask ty last es s r (Q : Z -> sys dhcps_vars -> Prop) :
  holds_in s es [] -> roomy ->
  pip_node r = None -> (ask = Some a \/ ask = None /\ f_flag r = true /\ f_start r = a) ->
  (if a <=? last
   then forall h N P es', holds h N P es' [] -> entries es' = place (online (dhcps_lease_time (st s)) m a ty) (entries es) -> Q a (put (say s (told m a)) h N P)
   else Q IPADDR_ANY s) ->
  wp (update_new m ask last ty r) s Q.
Proof.
  intros H [HP HN] Er Hask HQ. unfold update_new. rewrite Er.
  unfold zalloc_pool. apply wp_bind, wp_bind, wp_var. specialize (HP (pools (st s))). destruct (new_pool (pools (st s))) as [p|] eqn:Ep; [|done].
  pose proof (new_pool_fresh _ _ Ep) as Hp. apply wp_bind, wp_modify, wp_ret. apply wp_bind.
  assert (Eas : assign_ip (Some p) ask r = (set_pool (Some p) (λ e, e <| pool_ip := a |>) ;; sret true)%sm).
  { unfold assign_ip. by destruct Hask as [->|(-> & -> & ->)]. }
  rewrite Eas. apply wp_bind. eapply wp_set_pool; [cbn; apply lookup_insert_eq|]. apply wp_ret. cbn [negb].
  apply wp_bind. eapply wp_pool; [cbn; apply lookup_insert_eq|]. cbn [pool_ip set_field zero_pool].
  rewrite Z.leb_antisym in HQ. destruct (last <? a); cbn [negb] in HQ.
  - apply wp_bind. eapply wp_free_pool; [cbn; apply lookup_insert_eq|]. apply wp_ret.
    replace (put _ _ _ _) with s; [done|]. destruct s as [l mm []]. unfold put. cbn in *. by rewrite !delete_insert_eq, delete_id.
  - apply wp_bind. eapply wp_set_pool; [cbn; apply lookup_insert_eq|]. apply wp_bind. eapply wp_put_online; [cbn; apply lookup_insert_eq|].
    unfold zalloc_node. apply wp_bind, wp_bind, wp_var. specialize (HN (nodes (st s))). cbn. destruct (new_node (nodes (st s))) as [x|] eqn:Ex; [|done].
    pose proof (new_node_fresh _ _ Ex) as Hx. apply wp_bind, wp_modify, wp_ret.
    apply wp_bind. eapply wp_set_list_node; [cbn; apply lookup_insert_eq|]. apply wp_bind. eapply wp_set_list_node; [cbn; apply lookup_insert_eq|].
    pose proof (holds_new _ _ _ es x p (online (dhcps_lease_time (st s)) m a ty) H Hx Hp) as Hc.
    destruct (fits_place es (mk_cell x p (online (dhcps_lease_time (st s)) m a ty))) as (es1 & es2 & -> & Hf & Eq).
    apply wp_bind. change (Some x) with (Some (c_node (mk_cell x p (online (dhcps_lease_time (st s)) m a ty)))).
    eapply (wp_insert es1 es2); [unfold holds_in; cbn; rewrite !insert_insert_eq; exact Hc|exact Hf|]. intros h N' HN'.
    eapply wp_tell; [cbn; apply lookup_insert_eq|].
    by eapply (HQ h N').
Qed.
(** With an address no entry has, that is what the table says. *)
Lemma create_updates m a ty es s (Q : Z -> sys dhcps_vars -> Prop) : renew (st s) = false -> cell_find (has_mac m) es = None -> Forall (λ e, has_ip a e = false) (entries es) ->
  updates s m (Granted a ty false) (entries es) Q ->
  forall h N P es', holds h N P es' [] -> entries es' = place (online (dhcps_lease_time (st s)) m a ty) (entries es) -> Q a (put (say s (told m a)) h N P).
Proof.
  intros Hr Hm%not_known Ha HQ h N P es' H' E. unfold updates in HQ. rewrite granted_say in HQ by done. apply (HQ h N P es' H').
  rewrite E. cbn [enter]. by rewrite (without_none (has_mac m)), without_none.
Qed.
Lemma wp_new_asked m a es s r (Q : Z -> sys dhcps_vars -> Prop) :
  holds_in s es [] -> distinct (entries es) -> renew (st s) = false -> roomy -> cell_find (has_mac m) es = None ->
  pip_node r = or_else (cell_find (has_ip a) es) None ->
  updates s m (grant (lease (st s)) m (Some a) (entries es)) (entries es) Q ->
  wp (update_new m (Some a) (end_ip (lease (st s))) DHCPS_TYPE_STATIC r) s Q.
Proof.
  intros H Hd Hr Hroom Hm E2 HQ. pose proof (not_known _ _ Hm) as Hn.
  pose proof (cell_find_split (has_ip a) es) as Hf. unfold grant in HQ. rewrite <- cell_find_entries, known_find, Hm in HQ. cbn [orb] in HQ.
  destruct (cell_find (has_ip a) es) as [d|] eqn:Ed; cbn [or_else fmap option_fmap option_map] in *.
  - destruct Hf as (f1 & f2 & Ef & <-%has_ip_spec). unfold update_new. rewrite E2. unfold holds_in in H. rewrite Ef in H.
    destruct (holds_at _ _ _ _ _ _ _ H) as [Nd Pd]. apply wp_bind. eapply wp_list_node; [exact Nd|]. cbn [pnode].
    apply wp_bind. eapply wp_pool; [exact Pd|]. rewrite Ef, entries_mid in Hn, Hd. apply Forall_app in Hn as [Hn1 [Hnd Hn2]%list.Forall_cons].
    rewrite Hnd in HQ. destruct (bool_decide _); cbn [negb]; [|apply wp_ret; eapply (updates_refused s es m); by rewrite ?Ef in *].
    unfold updates in HQ. rewrite granted_say in HQ by done.
    eapply (wp_reuse m f1 d f2); [exact H|]. cbv zeta. intros h N P es' H' Ee. apply (HQ h N P es' H').
    rewrite Ee, Ef, entries_mid. symmetry. apply enter_replace; [done|done|by apply Forall_app].
  - eapply (wp_create m a); try done; [by left|]. destruct (a <=? _); [by apply create_updates|]. by apply (updates_refused s es m).
Qed.
Lemma wp_new_any m es s r (Q : Z -> sys dhcps_vars -> Prop) :
  holds_in s es [] -> renew (st s) = false -> roomy -> cell_find (has_mac m) es = None ->
  pip_node r = None -> f_flag r = true -> f_start r = pick m (start_ip (lease (st s))) (entries es) ->
  Forall (λ e, has_ip (f_start r) e = false) (without (has_mac m) (entries es)) ->
  updates s m (grant (lease (st s)) m None (entries es)) (entries es) Q ->
  wp (update_new m None (end_ip (lease (st s))) DHCPS_TYPE_DYNAMIC r) s Q.
Proof.
  intros H Hr Hroom Hm E2 E3 E4 Ha HQ. pose proof (not_known _ _ Hm) as Hn. rewrite without_none in Ha by done.
  unfold grant in HQ. rewrite known_find, Hm, <- E4 in HQ. cbn [orb] in HQ.
  eapply (wp_create m (f_start r)); try done; [by right|]. destruct (_ <=? _); [by apply create_updates|]. by apply (updates_refused s es m).
Qed.

(** *** The function as a whole *)

(** A station that asks for no address has one to get: no other station has it. *)
Definition pick_free s m (l : table) : Prop := Forall (λ e, has_ip (pick m (start_ip (lease (st s))) l) e = false) (without (has_mac m) l).

Lemma wp_update es m ip s (Q : Z -> sys dhcps_vars -> Prop) :
  holds_in s es [] -> distinct (entries es) -> roomy -> ip ≠ Some IPADDR_BROADCAST -> (ask_of ip = None -> pick_free s m (entries es)) ->
  updates s m (grant (lease (st s)) m (ask_of ip) (entries es)) (entries es) Q ->
  wp (wifi_softap_dhcps_client_update (Some m) ip) s Q.
Proof.
  intros H Hd Hroom Hip Hfree HQ. unfold wifi_softap_dhcps_client_update. apply wp_bind, wp_var. rewrite bool_decide_false by done.
  pose proof (cell_find_split (has_mac m) es) as Hs. pose proof (known_find m es) as Hk. pose proof (holds_size _ _ _ H) as Hz. cbn [length] in Hz.
  pose (s1 := mk_sys (log s) (mem s) ((st s) <| renew := false |>)). assert (H1 : holds_in s1 es []) by exact H.
  assert (HQ1 : updates s1 m (grant (lease (st s1)) m (ask_of ip) (entries es)) (entries es) Q) by exact HQ.
  destruct (ask_of ip) as [a|] eqn:Ea.
  - assert (Eip : (match ip with Some a => if a =? IPADDR_ANY then (None, DHCPS_TYPE_DYNAMIC) else (Some a, DHCPS_TYPE_STATIC) | None => (None, DHCPS_TYPE_DYNAMIC) end)
      = (Some a, DHCPS_TYPE_STATIC)) by (destruct ip as [b|]; cbn in *; [|done]; destruct (b =? IPADDR_ANY); congruence).
    rewrite Eip. apply wp_bind, wp_modify. fold s1. apply wp_bind, wp_var. apply wp_bind, wp_rounds. apply wp_bind. rewrite (h_head _ _ _ _ _ H1).
    pose proof (sorted_nodup _ (proj2 Hd)) as Hips.
    eapply wp_loop_asked; [exact (h_chain _ _ _ _ _ H1)|change (nodes (st s1)) with (nodes (st s)); lia|apply Hd|done|]. cbn [pmac_node pip_node f_flag f_start].
    rewrite (bool_decide_false (Some a = None)) by done. cbn [andb].
    destruct (cell_find (has_mac m) es) as [c|] eqn:Ec; cbn [or_else].
    + destruct Hs as (es1 & es2 & E & Hm). by eapply (wp_known_asked m a es es1 c es2 s1).
    + by eapply (wp_new_asked m a es s1).
  - assert (Eip : (match ip with Some a => if a =? IPADDR_ANY then (None, DHCPS_TYPE_DYNAMIC) else (Some a, DHCPS_TYPE_STATIC) | None => (None, DHCPS_TYPE_DYNAMIC) end)
      = (None, DHCPS_TYPE_DYNAMIC)) by (destruct ip as [b|]; cbn in *; [|done]; destruct (b =? IPADDR_ANY); congruence).
    rewrite Eip. apply wp_bind, wp_modify. fold s1. apply wp_bind, wp_var. apply wp_bind, wp_rounds. apply wp_bind. rewrite (h_head _ _ _ _ _ H1).
    specialize (Hfree eq_refl). unfold pick_free in Hfree.
    eapply wp_loop_any; [exact (h_chain _ _ _ _ _ H1)|change (nodes (st s1)) with (nodes (st s)); lia|]. intros r E1 E2 E3 E4.
    cbn [f_flag f_start pip_node pmac_node] in E1, E2, E3. rewrite (bool_decide_true (None = None)) by done. cbn [andb].
    destruct (cell_find (has_mac m) es) as [c|] eqn:Ec; cbn [or_else] in E3.
    + rewrite E4 by done. cbn [negb andb]. destruct Hs as (es1 & es2 & E & Hm). cbn [pmac_node set_field]. rewrite E3.
      eapply (wp_known_any m es es1 c es2 s1); try done. cbn [f_start set_field]. by rewrite E1.
    + cbn [pmac_node set_field]. rewrite E3. destruct (negb (f_flag r) && _) eqn:Et.
      * apply wp_ret. eapply (updates_refused s1 es m); [done|done|]. unfold grant in HQ1. rewrite Hk in HQ1. cbn [orb] in HQ1.
        apply andb_true_iff in Et as [_ Et%Z.ltb_lt]. rewrite E1 in Et. change (lease (st s1)) with (lease (st s)) in *.
        by rewrite (proj2 (Z.leb_gt _ _) Et) in HQ1.
      * eapply (wp_new_any m es s1); try done. cbn [f_start set_field]. by rewrite E1.
Qed.
Lemma wp_update_broadcast m s (Q : Z -> sys dhcps_vars -> Prop) : Q IPADDR_ANY s -> wp (wifi_softap_dhcps_client_update (Some m) (Some IPADDR_BROADCAST)) s Q.
Proof. intros HQ. unfold wifi_softap_dhcps_client_update. apply wp_bind, wp_var. rewrite bool_decide_true by done. by apply wp_ret. Qed.

(** ** Leaving, time, stopping *)

Definition told_leave m a (l : table) : list event := if existsb (λ e, has_mac m e && has_ip a e) l then told m 0 else [].

Lemma wp_leave_loop fuel m a force es0 es s (Q : unit -> sys dhcps_vars -> Prop) :
  holds_in s (es0 ++ es) [] -> (length es <= fuel)%nat ->
  (forall h N P es', holds h N P es' [] -> entries es' = entries es0 ++ leave m a force (entries es) -> Q tt (put (say s (told_leave m a (entries es))) h N P)) ->
  wp (leave_loop fuel (first es None) m a force) s Q.
Proof.
  revert es0 es. induction fuel as [|fuel IH]; intros es0 [|c es] H Hf HQ;
    try (cbn [first leave_loop] in *; apply wp_ret; specialize (HQ _ _ _ _ H (entries_app _ _)); unfold say in HQ; cbn [told_leave existsb entries fmap list_fmap] in HQ;
      rewrite app_nil_r in HQ; by destruct s as [l mm []]); [cbn in Hf; lia|].
  destruct (holds_at _ _ _ _ _ _ _ H) as [Nc Pc]. cbn [first leave_loop]. apply wp_bind. eapply wp_list_node; [exact Nc|]. cbn [pnode pnext].
  apply wp_bind. eapply wp_pool; [exact Pc|]. unfold told_leave in *. cbn [entries fmap list_fmap leave existsb] in HQ. fold (entries es) in HQ.
  change (bool_decide (pool_mac (c_entry c) = m) && (pool_ip (c_entry c) =? a)) with (has_mac m (c_entry c) && has_ip a (c_entry c)).
  destruct (has_mac m (c_entry c) && has_ip a (c_entry c)).
  - cbn [orb] in HQ. apply wp_bind. destruct (bool_decide _ || force).
    + apply wp_bind. eapply (wp_remove es0 c es []); [exact H|]. intros h N HN.
      destruct (holds_loose _ _ _ _ _ _ HN) as (_ & _ & _ & _ & Nc' & Pc').
      apply wp_bind. eapply wp_free_node; [exact Nc'|]. eapply wp_free_pool; [exact Pc'|]. apply wp_call.
      eapply HQ; [exact (holds_free _ _ _ _ _ _ HN)|]. apply entries_app.
    + eapply wp_set_pool; [exact Pc|]. apply wp_call. eapply HQ; [apply holds_set_pool; exact H|]. apply entries_mid.
  - cbn [orb] in HQ. apply (IH (es0 ++ [c])); [by rewrite <- app_assoc|cbn in Hf; lia|]. intros h N P es' H' Ee. apply (HQ h N P es' H').
    rewrite Ee, entries_app, <- app_assoc. done.
Qed.
Lemma wp_leave m a force es s (Q : unit -> sys dhcps_vars -> Prop) : holds_in s es [] ->
  (forall h N P es', holds h N P es' [] -> entries es' = leave m a force (entries es) -> Q tt (put (say s (told_leave m a (entries es))) h N P)) ->
  wp (wifi_softap_dhcps_client_leave (Some m) (Some a) force) s Q.
Proof.
  intros H HQ. unfold wifi_softap_dhcps_client_leave. apply wp_bind, wp_var. apply wp_bind, wp_rounds. rewrite (h_head _ _ _ _ _ H).
  apply (wp_leave_loop _ _ _ _ []); [exact H|rewrite (holds_size _ _ _ H); lia|exact HQ].
Qed.

(** The entries in [es0] have had their turn. *)
Lemma wp_coarse_loop fuel es0 es n s (Q : Z -> sys dhcps_vars -> Prop) :
  holds_in s (es0 ++ es) [] -> (length es <= fuel)%nat ->
  (forall h N P es', holds h N P es' [] -> entries es' = entries es0 ++ minute (entries es) ->
     Q ((n + zlen (minute (entries es))) mod 256) (put s h N P)) -> 0 <= n < 256 ->
  wp (coarse_loop fuel (first es None) n) s Q.
Proof.
  revert es0 es n s. induction fuel as [|fuel IH]; intros es0 [|c es] n s H Hf HQ Hn;
    try (cbn [first coarse_loop] in *; apply wp_ret; specialize (HQ _ _ _ _ H (entries_app _ _)); cbn [entries fmap list_fmap minute without List.filter] in HQ;
      rewrite zlen_nil, Z.add_0_r, Z.mod_small in HQ by done; by rewrite put_same in HQ); [cbn in Hf; lia|].
  destruct (holds_at _ _ _ _ _ _ _ H) as [Nc Pc]. cbn [first coarse_loop]. apply wp_bind. eapply wp_list_node; [exact Nc|]. cbn [pnode pnext].
  apply wp_bind. eapply wp_pool; [exact Pc|]. apply wp_bind.
  pose (c' := mk_cell (c_node c) (c_pool c) (run_down (c_entry c))).
  assert (Hstep : forall R, (holds_in (put s (plist (st s)) (nodes (st s)) (<[c_pool c := run_down (c_entry c)]> (pools (st s)))) (es0 ++ c' :: es) [] ->
      R tt (put s (plist (st s)) (nodes (st s)) (<[c_pool c := run_down (c_entry c)]> (pools (st s))))) ->
    wp (swhen (bool_decide (pool_type (c_entry c) = DHCPS_TYPE_DYNAMIC)) (set_pool (Some (c_pool c)) (λ e, e <| lease_timer := u32 (lease_timer e - 1) |>))) s R).
  { intros R HR. specialize (HR (holds_set_pool _ _ _ _ _ _ _ (run_down (c_entry c)) H)). unfold run_down in *. apply wp_when; intros E; rewrite E in HR.
    - by eapply wp_set_pool.
    - rewrite insert_id in HR by done. by rewrite put_same in HR. }
  apply Hstep. intros H'. clear Hstep. apply wp_bind. eapply wp_pool; [cbn; apply lookup_insert_eq|].
  assert (Em : minute (entries (c :: es)) = if lease_timer (run_down (c_entry c)) =? 0 then minute (entries es) else run_down (c_entry c) :: minute (entries es)).
  { unfold minute. cbn [entries fmap list_fmap]. by rewrite without_cons. }
  rewrite Em in HQ. destruct (lease_timer (run_down (c_entry c)) =? 0).
  - apply wp_bind. change (Some (c_node c)) with (Some (c_node c')). eapply (wp_remove es0 c' es []); [exact H'|]. intros h N HN.
    apply wp_bind. eapply wp_free_entry; [exact HN|]. intros N' P' HN'.
    apply (IH es0); [exact HN'|cbn in Hf; lia| |done]. intros h2 N2 P2 es2 H2 E2. by apply (HQ h2 N2 P2 es2).
  - apply (IH (es0 ++ [c'])); [by rewrite <- app_assoc|cbn in Hf; lia| |apply u8_range]. intros h2 N2 P2 es2 H2 E2.
    rewrite entries_app, <- app_assoc in E2. cbn [app entries fmap list_fmap c_entry c'] in E2. specialize (HQ h2 N2 P2 es2 H2 E2).
    replace ((u8 (n + 1) + zlen (minute (entries es))) mod 256) with ((n + zlen (run_down (c_entry c) :: minute (entries es))) mod 256); [done|].
    rewrite zlen_cons. unfold u8. rewrite Zplus_mod_idemp_l. f_equal. lia.
Qed.

(** *** The table is full *)

Definition left_of (c : cell) : Z := lease_timer (c_entry c).
(** [c] is the first with the least time left between [m1] and [k2]. *)
Definition first_least (m1 : list cell) (c : cell) (k2 : list cell) : Prop :=
  Forall (λ d, left_of c < left_of d) m1 /\ Forall (λ d, left_of c <= left_of d) k2.

Lemma tail_cell_snoc c k x : tail_cell c (k ++ [x]) = x.
Proof. unfold tail_cell. by rewrite last_snoc. Qed.
Lemma tail_cell_split c k : exists k0, c :: k = k0 ++ [tail_cell c k].
Proof.
  destruct k as [|x k _] using rev_ind; [by exists []|]. exists (c :: k). by rewrite tail_cell_snoc.
Qed.

Lemma wp_oldest_loop fuel a m1 c k2 rest s (Q : option positive * option positive * option positive -> sys dhcps_vars -> Prop) :
  holds_in s (a :: m1 ++ c :: k2 ++ rest) [] -> (length rest <= fuel)%nat -> first_least m1 c k2 ->
  (forall m1' c' k2', a :: m1 ++ c :: k2 ++ rest = a :: m1' ++ c' :: k2' -> first_least m1' c' k2' ->
     Q (Some (c_pool (tail_cell c' k2')), Some (c_node (tail_cell a m1')), Some (c_node c')) s) ->
  wp (oldest_loop fuel (Some (c_node (tail_cell c k2))) (first rest None) (Some (c_node (tail_cell a m1))) (Some (c_node c)) (Some (c_pool (tail_cell c k2)))) s Q.
Proof.
  revert m1 c k2 rest. induction fuel as [|fuel IH]; intros m1 c k2 [|x rest] H Hf [Hl1 Hl2] HQ;
    try (cbn [first oldest_loop] in *; apply wp_ret; by apply HQ; [rewrite app_nil_r|]); [cbn in Hf; lia|].
  destruct (holds_at _ _ _ (a :: m1) c _ _ H) as [Nc Pc].
  assert (Hx : holds_in s ((a :: m1 ++ c :: k2) ++ x :: rest) []) by (cbn; by rewrite <- app_assoc).
  destruct (holds_at _ _ _ _ _ _ _ Hx) as [Nx Px]. cbn [first oldest_loop].
  apply wp_bind. eapply wp_list_node; [exact Nx|]. apply wp_bind. eapply wp_list_node; [exact Nc|]. cbn [pnode pnext].
  apply wp_bind. eapply wp_pool; [exact Px|]. apply wp_bind. eapply wp_pool; [exact Pc|]. destruct (Z.ltb_spec (lease_timer (c_entry x)) (lease_timer (c_entry c))).
  - assert (E : a :: m1 ++ c :: k2 ++ x :: rest = a :: (m1 ++ c :: k2) ++ x :: [] ++ rest) by by rewrite <- app_assoc.
    pose proof (IH (m1 ++ c :: k2) x [] rest) as IH'. replace (tail_cell a (m1 ++ c :: k2)) with (tail_cell c k2) in IH'.
    2: { destruct k2 as [|y k2 _] using rev_ind; [by rewrite tail_cell_snoc|]. by rewrite app_comm_cons, app_assoc, !tail_cell_snoc. }
    rewrite E in H, HQ. apply IH'; [exact H|cbn in Hf; lia| |exact HQ]. split; [|constructor]. unfold left_of in *. apply Forall_app. split; [|constructor; [lia|]].
    + eapply Forall_weaken; [exact Hl1|]. cbv beta. lia.
    + eapply Forall_weaken; [exact Hl2|]. cbv beta. lia.
  - assert (E : a :: m1 ++ c :: k2 ++ x :: rest = a :: m1 ++ c :: (k2 ++ [x]) ++ rest) by by rewrite <- app_assoc.
    rewrite E in H, HQ. pose proof (IH m1 c (k2 ++ [x]) rest) as IH'. rewrite tail_cell_snoc in IH'.
    apply IH'; [exact H|cbn in Hf; lia| |exact HQ]. split; [done|]. apply Forall_app. split; [done|]. by constructor.
Qed.

Lemma holds_cut h N P es1 b c es2 : holds h N P (es1 ++ b :: c :: es2) [] ->
  holds h (delete (c_node c) (<[c_node b := mk_node (Some (c_pool b)) (first es2 None)]> N)) (delete (c_pool c) P) (es1 ++ b :: es2) [].
Proof. intros H. apply holds_unlink in H. apply holds_free in H. by rewrite delete_insert_eq in H. Qed.

Lemma wp_cut a m1 c k2 s (Q : unit -> sys dhcps_vars -> Prop) : holds_in s (a :: m1 ++ c :: k2) [] -> first_least m1 c k2 ->
  (forall h N P es', holds h N P es' [] -> killed (entries (a :: m1 ++ c :: k2)) (entries es') -> Q tt (put s h N P)) ->
  wp (k <- node (Some (c_node c)) ;; set_node (Some (c_node (tail_cell a m1))) (λ n, n <| pnext := pnext k |>) ;;
      set_pool (Some (c_pool (tail_cell c k2))) (λ e, e <| pool_state := DHCPS_STATE_OFFLINE |>) ;; free_entry (Some (c_node c))) s Q.
Proof.
  intros H [Hl1 Hl2] HQ. destruct (holds_at _ _ _ (a :: m1) c k2 _ H) as [Nc Pc].
  destruct (tail_cell_split a m1) as [k0 E0]. assert (E : a :: m1 ++ c :: k2 = k0 ++ tail_cell a m1 :: c :: k2).
  { rewrite app_comm_cons, E0, <- app_assoc. done. }
  assert (Hb := H). unfold holds_in in Hb. rewrite E in Hb. destruct (holds_at _ _ _ _ _ _ _ Hb) as [Nb Pb].
  assert (Hbc : c_node (tail_cell a m1) ≠ c_node c).
  { destruct (holds_mid _ _ _ _ _ _ _ Hb) as (_ & Hn & _). intros Eq. apply Hn. rewrite fmap_cons, Eq. left. }
  pose proof (holds_cut _ _ _ _ _ _ _ Hb) as Hcut. assert (Ek : k0 ++ tail_cell a m1 :: k2 = a :: m1 ++ k2) by (rewrite app_comm_cons, E0, <- app_assoc; done).
  rewrite Ek in Hcut. apply wp_bind. eapply wp_list_node; [exact Nc|]. apply wp_bind. eapply wp_set_list_node; [exact Nb|]. cbn [pnext set_field].
  assert (Hkill : forall l', (k2 = [] /\ l' = a :: m1) \/ (exists k3 z, k2 = k3 ++ [z] /\ l' = a :: m1 ++ k3 ++ [mk_cell (c_node z) (c_pool z) ((c_entry z) <| pool_state := DHCPS_STATE_OFFLINE |>)]) ->
    killed (entries (a :: m1 ++ c :: k2)) (entries l')).
  { intros l' Hl'. exists (c_entry a), (entries m1), (c_entry c), (entries k2). split; [by rewrite app_comm_cons, entries_mid|].
    split; [by apply (list.Forall_fmap c_entry)|]. split; [by apply (list.Forall_fmap c_entry)|].
    destruct Hl' as [[-> ->]|(k3 & z & -> & ->)]; [by left|right]. exists (entries k3), (c_entry z). split; [apply entries_app|].
    rewrite app_comm_cons, !entries_app. done. }
  destruct k2 as [|z k2 _] using rev_ind.
  - unfold tail_cell. cbn [list.last default]. apply wp_bind. eapply wp_set_pool; [exact Pc|]. unfold free_entry.
    apply wp_bind. eapply wp_list_node; [cbn; rewrite lookup_insert_ne by done; exact Nc|]. apply wp_bind. eapply wp_free_pool; [cbn; apply lookup_insert_eq|].
    apply wp_bind. eapply wp_set_list_node; [cbn; rewrite lookup_insert_ne by done; exact Nc|]. eapply wp_free_node; [cbn; apply lookup_insert_eq|].
    rewrite app_nil_r in Hcut. cbn. rewrite !delete_insert_eq. eapply (HQ _ _ _ _ Hcut). apply Hkill. by left.
  - rewrite tail_cell_snoc. rewrite (app_comm_cons (m1 ++ k2)), app_assoc in Hcut || rewrite app_assoc, app_comm_cons in Hcut.
    destruct (holds_at _ _ _ _ _ _ _ Hcut) as [Nz Pz]. rewrite lookup_delete in Pz. case_decide as Hcz; [done|].
    apply wp_bind. eapply wp_set_pool; [exact Pz|]. unfold free_entry.
    apply wp_bind. eapply wp_list_node; [cbn; rewrite lookup_insert_ne by done; exact Nc|]. cbn [pnode].
    apply wp_bind. eapply wp_free_pool; [cbn; rewrite lookup_insert_ne by congruence; exact Pc|].
    apply wp_bind. eapply wp_set_list_node; [cbn; rewrite lookup_insert_ne by done; exact Nc|]. eapply wp_free_node; [cbn; apply lookup_insert_eq|].
    cbn. rewrite !delete_insert_eq, delete_insert_ne by congruence. eapply HQ; [apply holds_set_pool; exact Hcut|].
    apply Hkill. right. exists k2, z. split; [done|]. cbn [app]. by rewrite <- app_assoc.
Qed.
Lemma wp_kill es s (Q : unit -> sys dhcps_vars -> Prop) : holds_in s es [] -> (2 <= length es)%nat ->
  (forall h N P es', holds h N P es' [] -> killed (entries es) (entries es') -> Q tt (put s h N P)) ->
  wp kill_oldest_dhcps_pool s Q.
Proof.
  intros H Hz HQ. destruct es as [|a [|c rest]]; [cbn in Hz; lia..|]. unfold kill_oldest_dhcps_pool.
  apply wp_bind, wp_var. rewrite (h_head _ _ _ _ _ H). cbn [first].
  destruct (holds_at _ _ _ [] a _ _ H) as [Na Pa]. destruct (holds_at _ _ _ [a] c _ _ H) as [Nc Pc].
  apply wp_bind. eapply wp_list_node; [exact Na|]. cbn [pnext first]. apply wp_bind, wp_rounds. apply wp_bind.
  rewrite (holds_size _ _ _ H). assert (Hf : exists f, S (length (a :: c :: rest) + length (@nil cell)) = S f /\ (length rest <= f)%nat) by (eexists; split; [done|cbn; lia]).
  destruct Hf as (f & -> & Hf). cbn [oldest_loop].
  apply wp_bind. eapply wp_list_node; [exact Nc|]. apply wp_bind. eapply wp_list_node; [exact Nc|]. cbn [pnode pnext].
  apply wp_bind. eapply wp_pool; [exact Pc|]. apply wp_bind. eapply wp_pool; [exact Pc|]. rewrite Z.ltb_irrefl.
  apply (wp_oldest_loop f a [] c [] rest); [exact H|done|by split|]. intros m1 c' k2 E Hl. cbv beta iota.
  cbn [app] in E. rewrite E in H, HQ. by apply wp_cut.
Qed.

(** *** A minute, and the end *)

Definition after_minute (l l' : table) : Prop :=
  if MAX_STATION_NUM <=? zlen (minute l) mod 256 then killed (minute l) l' else l' = minute l.
Lemma wp_minute es s (Q : unit -> sys dhcps_vars -> Prop) : holds_in s es [] ->
  (forall h N P es', holds h N P es' [] -> after_minute (entries es) (entries es') -> Q tt (put s h N P)) ->
  wp dhcps_coarse_tmr s Q.
Proof.
  intros H HQ. unfold dhcps_coarse_tmr. apply wp_bind, wp_var. apply wp_bind, wp_rounds. apply wp_bind. rewrite (h_head _ _ _ _ _ H).
  apply (wp_coarse_loop _ [] es 0); [exact H|rewrite (holds_size _ _ _ H); lia| |lia]. intros h N P es' H' E. cbn [entries fmap list_fmap app] in E.
  unfold after_minute in HQ. rewrite Z.add_0_l. destruct (MAX_STATION_NUM <=? zlen (minute (entries es)) mod 256) eqn:Ez; cbn [swhen].
  - eapply (wp_kill es'); [exact H'| |intros h2 N2 P2 es2 H2 Hk; eapply HQ; [exact H2|by rewrite <- E]].
    apply Z.leb_le in Ez. unfold MAX_STATION_NUM in Ez. assert (Hz : zlen (minute (entries es)) = Z.of_nat (length es')) by (unfold zlen, entries in *; by rewrite <- E, length_fmap).
    rewrite Hz in Ez. pose proof (Z.mod_le (Z.of_nat (length es')) 256). lia.
  - apply wp_ret. by eapply HQ.
Qed.

Definition told_stop (l : table) : list event := (λ e, Do (wifi_softap_set_station_info (pool_mac e) 0)) <$> l.
Lemma wp_stop_loop fuel es s (Q : unit -> sys dhcps_vars -> Prop) : holds_in s es [] -> (length es <= fuel)%nat ->
  (forall h N P, holds h N P [] [] -> Q tt (put (say s (told_stop (entries es))) h N P)) ->
  wp (stop_loop fuel (first es None)) s Q.
Proof.
  revert es s. induction fuel as [|fuel IH]; intros [|c es] s H Hf HQ;
    try (cbn [first stop_loop] in *; apply wp_ret; specialize (HQ _ _ _ H); unfold say in HQ; cbn [told_stop entries fmap list_fmap] in HQ;
      rewrite app_nil_r in HQ; by destruct s as [l mm []]); [cbn in Hf; lia|].
  destruct (holds_at _ _ _ [] c es _ H) as [Nc Pc]. cbn [first stop_loop]. apply wp_bind. eapply wp_list_node; [exact Nc|]. cbn [pnode pnext].
  apply wp_bind. eapply (wp_remove [] c es []); [exact H|]. intros h N HN. destruct (holds_loose _ _ _ _ _ _ HN) as (_ & _ & _ & _ & Nc' & Pc').
  apply wp_bind. eapply wp_pool; [exact Pc'|]. apply wp_bind, wp_call. apply wp_bind. eapply wp_free_entry; [exact HN|]. intros N' P' HN'.
  apply IH; [exact HN'|cbn in Hf; lia|]. intros h2 N2 P2 H2. specialize (HQ h2 N2 P2 H2). unfold say in *. cbn [told_stop entries fmap list_fmap] in HQ.
  cbn. rewrite <- app_assoc. exact HQ.
Qed.
End Refines.
