(* ===== verification/DhcpsRange.v ===== *)
(** * DhcpsRange: leases of different addresses

    The arithmetic of addresses in one /24 network, what the search for a free
    address finds, and that the changes of DhcpsTable.v keep all addresses in the
    range and different. *)

From stdpp Require Import gmap sorting.
From S2P Require Import Prelude CMem Board Dhcps DhcpsHeap DhcpsTable.
Local Open Scope sm_scope.

(** ** Addresses *)

Lemma land_byte n k : 0 <= k -> Z.land n (Z.shiftl 255 k) = Z.shiftl (Z.shiftr n k mod 256) k.
Proof.
  intros Hk. rewrite <- land_255. apply Z.bits_inj'. intros i Hi. rewrite Z.land_spec, !Z.shiftl_spec by lia.
  destruct (Z.ltb_spec i k).
  - rewrite (Z.testbit_neg_r 255), (Z.testbit_neg_r (Z.land _ _)) by lia. apply andb_false_r.
  - rewrite Z.land_spec, Z.shiftr_spec by lia. do 2 f_equal. lia.
Qed.
Definition word4 (a b c d : Z) : Z := a + 256 * b + 65536 * c + 16777216 * d.
Lemma htonl_word a b c d : is_byte a -> is_byte b -> is_byte c -> is_byte d -> htonl (word4 a b c d) = word4 d c b a.
Proof.
  unfold is_byte, word4. intros. unfold htonl. change 0xff00 with (Z.shiftl 255 8). change 0xff0000 with (Z.shiftl 255 16).
  change 0xff000000 with (Z.shiftl 255 24). change 0xff with (Z.shiftl 255 0). rewrite !land_byte by lia. rewrite !Z.shiftr_div_pow2, !Z.shiftl_mul_pow2 by lia.
  change (2 ^ 0) with 1. change (2 ^ 8) with 256. change (2 ^ 16) with 65536. change (2 ^ 24) with 16777216.
  set (n := a + 256 * b + 65536 * c + 16777216 * d). replace (n / 1 mod 256 * 1) with a by (unfold n; dlia). replace (n / 256 mod 256) with b by (unfold n; dlia).
  replace (n / 65536 mod 256) with c by (unfold n; dlia). replace (n / 16777216 mod 256) with d by (unfold n; dlia).
  replace (b * 256 * 256) with (Z.shiftl b 16) by (rewrite Z.shiftl_mul_pow2; lia). replace (c * 65536 / 256) with (Z.shiftl c 8) by (rewrite Z.shiftl_mul_pow2 by lia; dlia).
  replace (d * 16777216 / 16777216) with d by dlia.
  replace (a * 16777216) with (Z.shiftl a 24) by (rewrite Z.shiftl_mul_pow2; lia).
  rewrite <- !Z.lor_assoc. rewrite (lor_shiftl_add c d 8), (Z.lor_comm (Z.shiftl b 16)) by lia.
  rewrite Z.lor_comm. rewrite <- Z.lor_assoc. 
  replace (Z.lor (Z.shiftl b 16) (Z.shiftl a 24)) with (Z.shiftl (Z.lor (Z.shiftl a 8) b) 16).
  2: { rewrite Z.shiftl_lor, Z.shiftl_shiftl, Z.lor_comm by lia. done. }
  rewrite Z.lor_comm, !lor_shiftl_add by lia. lia.
Qed.
Lemma word4_bytes w : 0 <= w < 4294967296 -> w = word4 (w mod 256) (w / 256 mod 256) (w / 65536 mod 256) (w / 16777216 mod 256).
Proof. intros. unfold word4. dlia. Qed.
Lemma htonl_small w : 0 <= w < 4294967296 -> htonl w = word4 (w / 16777216 mod 256) (w / 65536 mod 256) (w / 256 mod 256) (w mod 256).
Proof. intros Hw. rewrite (word4_bytes w Hw) at 1. apply htonl_word; unfold is_byte; dlia. Qed.
Lemma htonl_range w : 0 <= w < 4294967296 -> 0 <= htonl w < 4294967296.
Proof. intros. rewrite htonl_small by done. unfold word4. dlia. Qed.
Lemma htonl_htonl w : 0 <= w < 4294967296 -> htonl (htonl w) = w.
Proof.
  intros. rewrite (htonl_small w) by done. rewrite htonl_word by (unfold is_byte; dlia). symmetry. by apply word4_bytes.
Qed.

(** In the words the last byte of the address is the highest, and the network the rest. *)
Definition net (w : Z) : Z := w mod 16777216.
Definition host (w : Z) : Z := w / 16777216.
Lemma next_ip_same_net w : 0 <= w < 4294967296 -> host w < 255 -> next_ip w = w + 16777216.
Proof.
  unfold host. intros Hw Hh. unfold next_ip, ntohl. rewrite (htonl_small w) by done.
  assert (E : u32 (word4 (w / 16777216 mod 256) (w / 65536 mod 256) (w / 256 mod 256) (w mod 256) + 1)
    = word4 (w / 16777216 mod 256 + 1) (w / 65536 mod 256) (w / 256 mod 256) (w mod 256)).
  { rewrite u32_small; unfold word4; dlia. }
  rewrite E, htonl_word by (unfold is_byte; dlia). unfold word4. dlia.
Qed.

(** The addresses to lease: from [start_ip] to [end_ip], in one network, none with the last byte 255. *)
Definition good_range (r : dhcps_lease) : Prop :=
  0 <= start_ip r <= end_ip r /\ end_ip r < 4294967296 /\ net (start_ip r) = net (end_ip r) /\ host (end_ip r) <= 254.
Definition in_range (r : dhcps_lease) (w : Z) : Prop := net w = net (start_ip r) /\ start_ip r <= w <= end_ip r.

Lemma same_net_next v w : net v = net w -> v < w -> v + 16777216 <= w.
Proof. unfold net. intros. dlia. Qed.
Lemma net_next w : net (w + 16777216) = net w.
Proof. unfold net. dlia. Qed.

(** ** The address for a station that asks for none *)

Section Pick.
Context (r : dhcps_lease) (Hr : good_range r).

(** [a] is the address the search is at, [l] the rest of the table. *)
Lemma pick_spec m a l : 0 <= a -> net a = net (start_ip r) -> StronglySorted (λ d e, pool_ip d < pool_ip e) l ->
  Forall (λ e, in_range r (pool_ip e) /\ a <= pool_ip e) l ->
  let w := pick m a l in
  a <= w /\ net w = net (start_ip r) /\
  (forall x, net x = net (start_ip r) -> a <= x < w -> exists e, e ∈ l /\ pool_ip e = x /\ pool_mac e ≠ m) /\
  (forall e, e ∈ l -> pool_mac e ≠ m -> pool_ip e ≠ w) /\ (forall e, e ∈ l -> pool_mac e = m -> w <= pool_ip e).
Proof.
  intros Ha Hn Hs Hl. cbv zeta. revert a Ha Hn Hl. induction Hs as [|e l Hs IH He]; intros a Ha Hn Hl; cbn [pick].
  - split; [lia|]. split; [done|]. split; [intros; lia|]. split; intros ? Hi; by apply elem_of_nil in Hi.
  - apply list.Forall_cons in Hl as [[He1 He2] Hl].
    assert (Hstop : a < pool_ip e \/ pool_mac e = m -> a <= a /\ net a = net (start_ip r) /\
      (forall x, net x = net (start_ip r) -> a <= x < a -> exists d, d ∈ e :: l /\ pool_ip d = x /\ pool_mac d ≠ m) /\
      (forall d, d ∈ e :: l -> pool_mac d ≠ m -> pool_ip d ≠ a) /\ (forall d, d ∈ e :: l -> pool_mac d = m -> a <= pool_ip d)).
    { intros Hor. split; [lia|]. split; [done|]. split; [intros; lia|]. rewrite list.Forall_forall in He. split.
      - intros d [->|Hd]%elem_of_cons Hm; [destruct Hor; [lia|done]|]. specialize (He d Hd). cbv beta in He. lia.
      - intros d [->|Hd]%elem_of_cons Hm; [done|]. specialize (He d Hd). cbv beta in He. lia. }
    destruct (has_mac m e) eqn:Em; [apply Hstop; right; by apply has_mac_spec|]. apply has_mac_false in Em.
    destruct (has_ip a e) eqn:Ei; [|apply has_ip_false in Ei; apply Hstop; left; lia]. apply has_ip_spec in Ei. clear Hstop.
    destruct He1 as [Hen Her]. destruct Hr as (Hr1 & Hr2 & Hr3 & Hr4).
    rewrite next_ip_same_net by (unfold host in *; dlia).
    destruct (IH (a + 16777216)) as (H1 & H2 & H3 & H4 & H5); [lia|by rewrite net_next| |].
    { rewrite list.Forall_forall in *. intros d Hd. specialize (He d Hd). specialize (Hl d Hd). cbv beta in *. destruct Hl as [[Hdn Hdr] Hl].
      split; [by split|]. apply same_net_next; [congruence|lia]. }
    split; [lia|]. split; [done|]. split.
    + intros x Hxn Hx. destruct (decide (x = a)) as [->|Hne]; [exists e; split; [left|done]|].
      destruct (H3 x Hxn) as (d & Hd & Hdx); [|exists d; split; [by right|done]]. split; [|lia]. apply same_net_next; [congruence|lia].
    + split; [intros d [->|Hd]%elem_of_cons Hdm; [lia|by apply H4]|]. intros d [->|Hd]%elem_of_cons Hdm; [done|by apply H5].
Qed.
End Pick.

(** ** Tables in which every station has its own address *)

Definition good_entry (r : dhcps_lease) (e : dhcps_pool) : Prop := in_range r (pool_ip e) /\ 0 < lease_timer e < 4294967296.
Definition good_table (r : dhcps_lease) (l : table) : Prop := distinct l /\ Forall (good_entry r) l.

Section Tables.
Context (rg : dhcps_lease) (Hr : good_range rg).

Lemma pick_good m l : good_table rg l -> let w := pick m (start_ip rg) l in
  start_ip rg <= w /\ net w = net (start_ip rg) /\
  (forall x, net x = net (start_ip rg) -> start_ip rg <= x < w -> exists e, e ∈ l /\ pool_ip e = x /\ pool_mac e ≠ m) /\
  (forall e, e ∈ l -> pool_mac e ≠ m -> pool_ip e ≠ w) /\ (forall e, e ∈ l -> pool_mac e = m -> w <= pool_ip e).
Proof.
  intros [[_ Hs] Hl]. apply (pick_spec rg Hr); [apply Hr|done|done|]. eapply Forall_weaken; [exact Hl|]. intros e [He _]. split; [done|]. apply He.
Qed.
Lemma pick_is_free s m l : lease (st s) = rg -> good_table rg l -> pick_free s m l.
Proof.
  intros E Hl. unfold pick_free. rewrite E. destruct (pick_good m l Hl) as (_ & _ & _ & Hf & _). apply list.Forall_forall. intros e He.
  apply elem_without in He as [He Hm%has_mac_false]. by apply has_ip_false, Hf.
Qed.

Lemma existsb_elem (f : dhcps_pool -> bool) l : existsb f l = true -> exists e, e ∈ l /\ f e = true.
Proof. intros (e & He & Hf)%existsb_exists. exists e. by rewrite list_elem_of_In. Qed.
Lemma grant_in_range m ask l a ty rn : good_table rg l -> (forall b, ask = Some b -> in_range rg b) -> grant rg m ask l = Granted a ty rn -> in_range rg a.
Proof.
  intros Hl Hask Hg. unfold grant in Hg. destruct ask as [b|].
  - assert (a = b) as ->; [|by apply Hask]. destruct (List.find _ l) as [e|]; [destruct (has_mac m e); [|destruct (bool_decide _)]|destruct (_ || _)]; congruence.
  - destruct (pick_good m l Hl) as (H1 & H2 & _ & _ & H5). destruct (_ || _) eqn:Ek; [|done]. injection Hg as <- _ _. split; [done|]. split; [done|].
    apply orb_true_iff in Ek as [(e & He & Hm)%existsb_elem|?%Z.leb_le]; [|done]. apply has_mac_spec in Hm. specialize (H5 e He Hm).
    destruct Hl as [_ Hl]. rewrite list.Forall_forall in Hl. destruct (Hl e He) as [[_ ?] _]. lia.
Qed.

Lemma good_sublist l k : sublist l k -> good_table rg k -> good_table rg l.
Proof.
  intros Hs [Hd Hl]. split; [by eapply distinct_sublist|]. rewrite list.Forall_forall in *. intros e He. apply Hl. by eapply elem_of_sublist.
Qed.
Lemma good_place e l : good_table rg l -> good_entry rg e -> Forall (λ d, pool_mac d ≠ pool_mac e /\ pool_ip d ≠ pool_ip e) l -> good_table rg (place e l).
Proof.
  intros [Hd Hl] He Hn. rewrite list.Forall_forall in Hn. split.
  - apply place_distinct; [done| |]; intros (d & E & Hi)%list_elem_of_fmap; destruct (Hn d Hi); congruence.
  - apply list.Forall_forall. intros d [->|Hi]%elem_place; [done|]. rewrite list.Forall_forall in Hl. by apply Hl.
Qed.
Lemma enter_good t m ask l : good_table rg l -> 0 < t < 4294967296 -> (forall b, ask = Some b -> in_range rg b) -> good_table rg (enter t m (grant rg m ask l) l).
Proof.
  intros Hl Ht Hask. destruct (grant rg m ask l) as [|a ty rn] eqn:Eg; [done|]. cbn [enter].
  apply good_place.
  - eapply good_sublist; [|exact Hl]. etrans; apply without_sublist.
  - split; [by eapply grant_in_range|done].
  - apply list.Forall_forall. intros d [[_ Hm%has_mac_false]%elem_without Hi%has_ip_false]%elem_without. done.
Qed.

Lemma leave_good m a force l : good_table rg l -> good_table rg (leave m a force l).
Proof.
  intros Hl. assert (Hor : exists l1 (e : dhcps_pool) l2, l = l1 ++ e :: l2 /\ (leave m a force l = l1 ++ l2 \/ leave m a force l = l1 ++ e <| pool_state := DHCPS_STATE_OFFLINE |> :: l2) \/ leave m a force l = l).
  { clear Hl. induction l as [|e l IH]; cbn [leave]; [exists [], zero_pool, []; by right|]. destruct (_ && _).
    - exists [], e, l. left. split; [done|]. destruct (_ || force); [by left|by right].
    - destruct IH as (l1 & d & l2 & [[-> [-> | ->]]| ->]); [exists (e :: l1), d, l2; auto..|exists [], e, l; by right]. }
  destruct Hor as (l1 & e & l2 & [[-> [-> | ->]]| ->]); [| |done].
  - eapply good_sublist; [|exact Hl]. apply sublist_app; [done|]. by apply sublist_cons.
  - destruct Hl as [Hd Hl]. apply Forall_app in Hl as [Hl1 [He Hl2]%list.Forall_cons]. split; [|by apply Forall_app; split; [|constructor]].
    destruct Hd as [Hm Hs]. split; [by rewrite fmap_app, fmap_cons in *|]. clear -Hs. induction l1 as [|d l1 IH]; cbn [app] in *; apply StronglySorted_inv in Hs as [Hs Hf].
    + by constructor.
    + constructor; [by apply IH|]. apply Forall_app in Hf as [Hf1 [Hf2 Hf3]%list.Forall_cons]. apply Forall_app. split; [done|]. by constructor.
Qed.
Lemma killed_good l l' : killed l l' -> good_table rg l -> good_table rg l'.
Proof.
  intros (a & l1 & e & l2 & -> & _ & _ & [[-> ->]|(l3 & z & -> & ->)]) Hl.
  - eapply good_sublist; [|exact Hl]. apply sublist_skip, sublist_inserts_r. done.
  - assert (H1 : good_table rg ((a :: l1 ++ l3) ++ [z])).
    { eapply good_sublist; [|exact Hl]. cbn. rewrite <- app_assoc. apply sublist_skip, sublist_app; [done|]. by apply sublist_cons. }
    assert (E : forall x, a :: l1 ++ l3 ++ [x] = (a :: l1 ++ l3) ++ [x]) by (intros; cbn; by rewrite <- app_assoc). rewrite E.
    destruct H1 as [[Hm Hs] Hg]. split; [split|].
    + rewrite fmap_app in *. exact Hm.
    + clear -Hs. induction (a :: l1 ++ l3) as [|d k IH]; cbn [app] in *; apply StronglySorted_inv in Hs as [Hs Hf]; [by repeat constructor|].
      constructor; [by apply IH|]. apply Forall_app in Hf as [Hf1 Hf2]. apply Forall_app. split; [done|]. constructor; [|done]. apply list.Forall_cons in Hf2 as [Hf2 _]. exact Hf2.
    + apply Forall_app in Hg as [Hg1 Hg2]. apply Forall_app. split; [done|]. constructor; [|done]. apply list.Forall_cons in Hg2 as [Hg2 _]. exact Hg2.
Qed.
Lemma minute_good l : good_table rg l -> good_table rg (minute l).
Proof.
  intros Hl. unfold minute.
  assert (Hz : forall l, Forall (good_entry rg) l -> Forall (good_entry rg) (without (λ e, lease_timer e =? 0) (run_down <$> l))).
  { clear. intros l Hl. apply list.Forall_forall. intros e [(d & -> & Hd)%list_elem_of_fmap He%Z.eqb_neq]%elem_without. rewrite list.Forall_forall in Hl.
    destruct (Hl d Hd) as [Hin Ht]. unfold run_down in *. destruct (bool_decide _); [|done]. split; [exact Hin|]. cbn in *. unfold u32 in *. dlia. }
  destruct Hl as [Hd Hl]. split; [|by apply Hz]. eapply distinct_sublist; [apply without_sublist|]. destruct Hd as [Hm Hs]. split.
  - rewrite <- list_fmap_compose. erewrite list_fmap_ext; [exact Hm|]. intros i x _. unfold run_down. cbn. by destruct (bool_decide _).
  - clear -Hs. induction Hs as [|e l Hs IH He]; [constructor|]. rewrite fmap_cons. constructor; [done|]. apply list.Forall_fmap.
    eapply Forall_weaken; [exact He|]. intros d Hd. unfold run_down. cbn. by destruct (bool_decide (pool_type e = _)), (bool_decide (pool_type d = _)).
Qed.
Lemma after_minute_good l l' : after_minute l l' -> good_table rg l -> good_table rg l'.
Proof.
  unfold after_minute. intros H Hl. pose proof (minute_good l Hl). destruct (_ <=? _); [by eapply killed_good|by subst].
Qed.
End Tables.

(** A station that got an address gets it again. *)
Lemma pick_again rg t m ty l : good_range rg -> good_table rg l -> 0 < t < 4294967296 -> pick m (start_ip rg) l <= end_ip rg ->
  let w := pick m (start_ip rg) l in
  let l' := place (mk_pool w m t ty DHCPS_STATE_ONLINE) (without (has_ip w) (without (has_mac m) l)) in pick m (start_ip rg) l' = w.
Proof.
  intros Hr Hl Ht He w l'. destruct (pick_good rg Hr m l Hl) as (H1 & H2 & H3 & H4 & _). fold w in H1, H2, H3, H4.
  assert (Hl' : good_table rg l').
  { apply good_place; [eapply good_sublist; [|exact Hl]; etrans; apply without_sublist|split; [split; [done|split; done]|done]|].
    apply list.Forall_forall. intros d [[_ Hm%has_mac_false]%elem_without Hi%has_ip_false]%elem_without. done. }
  destruct (pick_good rg Hr m l' Hl') as (J1 & J2 & J3 & J4 & J5). apply Z.le_antisymm.
  - apply (J5 (mk_pool w m t ty DHCPS_STATE_ONLINE)); [apply elem_place; by left|done].
  - apply Z.le_ngt. intros Hlt. destruct (H3 (pick m (start_ip rg) l')) as (e & Hi & Ei & Em); [done|lia|].
    apply (J4 e); [|done|done]. apply elem_place. right. apply elem_without. split; [apply elem_without; split; [done|by apply has_mac_false]|].
    apply has_ip_false. lia.
Qed.

(** ** The range that is leased *)

Lemma host_htonl w : 0 <= w < 4294967296 -> host w = htonl w mod 256.
Proof. intros Hw. rewrite htonl_small by done. unfold host, word4. dlia. Qed.
Lemma div_word4 a b c d : 0 <= a < 256 -> word4 a b c d / 256 = b + 256 * c + 65536 * d.
Proof. intros. unfold word4. symmetry. apply Z.div_unique with a; lia. Qed.
Lemma net_bytes w : w mod 16777216 = w mod 256 + 256 * (w / 256 mod 256) + 65536 * (w / 65536 mod 256).
Proof. dlia. Qed.
Lemma net_htonl v w : 0 <= v < 4294967296 -> 0 <= w < 4294967296 -> htonl v / 256 = htonl w / 256 -> net v = net w.
Proof.
  intros Hv Hw. rewrite !htonl_small by done. rewrite !div_word4 by dlia. unfold net. rewrite !net_bytes. intros E.
  assert (v / 65536 mod 256 = w / 65536 mod 256 /\ v / 256 mod 256 = w / 256 mod 256 /\ v mod 256 = w mod 256) as (-> & -> & ->); [|done].
  pose proof (Z.mod_pos_bound (v / 65536) 256 eq_refl). pose proof (Z.mod_pos_bound (v / 256) 256 eq_refl). pose proof (Z.mod_pos_bound v 256 eq_refl).
  pose proof (Z.mod_pos_bound (w / 65536) 256 eq_refl). pose proof (Z.mod_pos_bound (w / 256) 256 eq_refl). pose proof (Z.mod_pos_bound w 256 eq_refl).
  lia.
Qed.
Lemma word_order v w : 0 <= v -> 0 <= w -> net v = net w -> (v <= w <-> host v <= host w).
Proof. unfold net, host. intros. dlia. Qed.
Lemma htonl_order v w : 0 <= v < 4294967296 -> 0 <= w < 4294967296 -> htonl v / 256 = htonl w / 256 -> (v <= w <-> htonl v <= htonl w).
Proof.
  intros Hv Hw E. rewrite word_order by (lia || by apply net_htonl). rewrite !host_htonl by done.
  rewrite (Z.div_mod (htonl v) 256), (Z.div_mod (htonl w) 256) at 2 by lia. lia.
Qed.

Lemma range_ok_good ip a b : 0 <= ip < 4294967296 -> 0 <= a < 4294967296 -> 0 <= b < 4294967296 -> host b <= 254 ->
  range_ok (htonl ip) (htonl a) (htonl b) = true -> forall en, good_range (mk_lease en a b) /\ ~ in_range (mk_lease en a b) ip.
Proof.
  intros Hi Ha Hb Hh H en. unfold range_ok in H. rewrite !shiftr_8 in H.
  apply andb_true_iff in H as [[H1 H2]%andb_true_iff H3]. apply negb_true_iff in H1, H2, H3. apply orb_false_iff in H2 as [H2 H4].
  apply negb_false_iff, Z.eqb_eq in H2, H4. apply Z.ltb_ge in H3. unfold DHCPS_MAX_LEASE in H3.
  pose proof (htonl_range a Ha). pose proof (htonl_range b Hb). pose proof (htonl_range ip Hi).
  assert (Hab : htonl a <= htonl b). { unfold u32 in H3. destruct (Z.le_gt_cases (htonl a) (htonl b)); [done|]. exfalso. dlia. }
  assert (Hn : net a = net b) by (apply net_htonl; [done|done|congruence]).
  split; [split; [|split; [|split]]; cbn; try done; [|lia]|].
  - split; [lia|]. apply htonl_order; [done|done|congruence|done].
  - unfold in_range. cbn. intros [Hin [Hr1 Hr2]]. apply andb_false_iff in H1 as [H1|H1]; apply Z.leb_gt in H1.
    + apply htonl_order in Hr1; [lia|done|done|congruence].
    + apply htonl_order in Hr2; [lia|done|done|congruence].
Qed.

Lemma land_net n : 0 <= n < 4294967296 -> Z.land n 0xFFFFFF00 = Z.shiftl (n / 256) 8.
Proof.
  intros Hn. rewrite <- shiftr_8. apply Z.bits_inj'. intros i Hi. rewrite Z.land_spec. change 0xFFFFFF00 with (Z.shiftl (Z.ones 24) 8). rewrite !Z.shiftl_spec by lia.
  destruct (Z.ltb_spec i 8).
  - rewrite (Z.testbit_neg_r (Z.ones 24)), (Z.testbit_neg_r (Z.shiftr n 8)) by lia. apply andb_false_r.
  - rewrite Z.shiftr_spec by lia. replace (i - 8 + 8) with i by lia. destruct (Z.ltb_spec i 32).
    + rewrite Z.ones_spec_low by lia. apply andb_true_r.
    + rewrite Z.ones_spec_high by lia. rewrite andb_false_r. symmetry. rewrite <- (Z.mod_small n (2 ^ 32)) by lia. apply Z.mod_pow2_bits_high. lia.
Qed.
(** The address in the network of [ip] with the last byte [x]. *)
Lemma in_net ip x : 0 <= ip < 4294967296 -> is_byte x -> let w := htonl (Z.lor (Z.land (htonl ip) 0xFFFFFF00) x) in
  0 <= w < 4294967296 /\ host w = x /\ net w = net ip.
Proof.
  intros Hi Hx w. subst w. unfold is_byte in Hx. pose proof (htonl_range ip Hi) as Hh. rewrite land_net, lor_shiftl_add by lia. change (2 ^ 8) with 256.
  assert (Hr : 0 <= htonl ip / 256 * 256 + x < 4294967296) by dlia. pose proof (htonl_range _ Hr) as Hw. split; [done|]. split.
  - rewrite host_htonl by done. rewrite htonl_htonl by done. dlia.
  - apply net_htonl; [done|done|]. rewrite htonl_htonl by done. dlia.
Qed.
(** The range the server chooses by itself. *)
Definition own_range (ip : Z) : dhcps_lease :=
  let softap_ip := Z.land (htonl ip) 0xFFFFFF00 in
  let local_ip := Z.land (htonl ip) 0xFF in
  let local_ip := if 0x80 <=? local_ip then local_ip - DHCPS_MAX_LEASE else local_ip + 1 in
  mk_lease false (htonl (Z.lor softap_ip local_ip)) (htonl (Z.lor softap_ip (local_ip + DHCPS_MAX_LEASE - 1))).
Lemma own_range_good ip : 0 <= ip < 4294967296 -> good_range (own_range ip) /\ ~ in_range (own_range ip) ip.
Proof.
  intros Hi. unfold own_range, DHCPS_MAX_LEASE. rewrite land_255. set (l := htonl ip mod 256). assert (Hl : 0 <= l < 256) by (unfold l; dlia).
  set (x := if 128 <=? l then l - 100 else l + 1). assert (Hx : (128 <= l /\ x = l - 100) \/ (l < 128 /\ x = l + 1)) by (unfold x; zbool; lia).
  destruct (in_net ip x Hi ltac:(unfold is_byte; lia)) as (A1 & A2 & A3). destruct (in_net ip (x + 100 - 1) Hi ltac:(unfold is_byte; lia)) as (B1 & B2 & B3).
  cbv zeta. change 0x64 with 100. fold x. cbv zeta in A1, A2, A3, B1, B2, B3. split.
  - split; cbn; [|split; [lia|split; [congruence|lia]]]. split; [lia|]. apply word_order; [lia|lia|congruence|lia].
  - unfold in_range. cbn. intros [_ [H1 H2]]. apply word_order in H1; [|lia|lia|congruence]. apply word_order in H2; [|lia|lia|congruence].
    rewrite (host_htonl ip Hi) in H1, H2. fold l in H1, H2. lia.
Qed.
