(* ===== verification/DhcpsLaws.v ===== *)
(** * DhcpsLaws: what the DHCP server does, whoever talks to it

    Messages and their answers; the table as an invariant of every session; the
    exchange DISCOVER, OFFER, REQUEST, ACK; and where the server fails. *)

From Stdlib Require Import String.
From stdpp Require Import gmap sorting.
From S2P Require Import Prelude CMem Board Dhcps DhcpsHeap DhcpsTable DhcpsRange.
Local Open Scope sm_scope.

(** ** What was sent *)

(** Events that make, use and remove no control block. *)
Definition quiet_event (e : event) : Prop :=
  match e with Got udp_new _ | Do (udp_remove _) | Do (udp_recv _ _) | Do (udp_disconnect _) => False | _ => True end.
Abbreviation quiet k := (Forall quiet_event k).
(** The datagrams sent: their bytes, where to and to which port. *)
Definition datagrams (k : list event) : list (list Z * Z * Z) :=
  flat_map (λ e, match e with Do (udp_sendto _ d ip port) => [(d, ip, port)] | _ => [] end) k.

Lemma live_quiet pcb l k : quiet k -> live pcb (l ++ k) = live pcb l.
Proof.
  intros Hk. unfold live. f_equal. rewrite fold_left_app. generalize (fold_left (live_step pcb) l false).
  induction Hk as [|e k He _ IH]; intros b; [done|]. cbn [fold_left]. rewrite IH. by destruct e as [| |[]|[]].
Qed.
(** The server runs: its callback is installed. *)
Definition serving_step (b : bool) (e : event) : bool :=
  match e with Do (udp_recv _ _) => true | Do (udp_disconnect _) => false | _ => b end.
Definition serving (l : list event) : bool := fold_left serving_step l false.
Lemma serving_quiet l k : quiet k -> serving (l ++ k) = serving l.
Proof.
  intros Hk. unfold serving. rewrite fold_left_app. generalize (fold_left serving_step l false).
  induction Hk as [|e k He _ IH]; intros b; [done|]. cbn [fold_left]. rewrite IH. by destruct e as [| |[]|[]].
Qed.
Lemma datagrams_app k j : datagrams (k ++ j) = datagrams k ++ datagrams j.
Proof. apply flat_map_app. Qed.
Lemma told_quiet m a : quiet (told m a) /\ datagrams (told m a) = [].
Proof. split; [by repeat constructor|done]. Qed.

Section Messages.
Context `{EV : Env} `{AL : Alloc} `{DA : DhcpsAlloc} `{SI : SoftapInfo}.
Implicit Types s : sys dhcps_vars.

(** lwIP has a pbuf for every answer. *)
Definition pbufs : Prop := forall l, u32 (sdk_ret l (pbuf_alloc sizeof_dhcps_msg)) ≠ 0.

(** ** Sending *)

Lemma wp_the_pcb s (Q : Z -> sys dhcps_vars -> Prop) : live (pcb_dhcps (st s)) (log s) = true -> Q (pcb_dhcps (st s)) s -> wp the_pcb s Q.
Proof. intros Hl HQ. unfold the_pcb. apply wp_bind, wp_var. apply wp_bind, wp_get. rewrite Hl. by apply (wp_lift _ (pcb_dhcps (st s))). Qed.

Lemma wp_send_msg m s (Q : unit -> sys dhcps_vars -> Prop) : zlen (msg_bytes m) = sizeof_dhcps_msg -> live (pcb_dhcps (st s)) (log s) = true ->
  (forall k d, quiet k -> datagrams k = d -> (d = [] \/ d = [(msg_bytes m, broadcast_dhcps (st s), DHCPS_CLIENT_PORT)]) -> (pbufs -> d ≠ []) -> Q tt (say s k)) ->
  wp (send_msg m) s Q.
Proof.
  intros Hz Hl HQ. unfold send_msg. apply wp_bind, wp_ask. apply wp_when; intros Ep; cbn [log mem st].
  - apply wp_bind, (wp_lift _ (msg_bytes m)); [rewrite <- Hz; apply (bslice_drop _ 0 _ []); [pose proof (zlen_nonneg (msg_bytes m)); lia|by rewrite app_nil_r]|].
    apply wp_bind, wp_the_pcb; [cbn; by rewrite live_quiet by repeat constructor|]. apply wp_bind, wp_var. apply wp_bind, wp_call. apply wp_bind, wp_ask.
    apply wp_when; intros Er; [apply wp_call|]; cbn [log mem st]; rewrite <- !app_assoc; (eapply HQ; [|cbn; reflexivity|by right|done]); by repeat constructor.
  - eapply HQ; [|cbn; reflexivity|by left|]; [by repeat constructor|]. intros Hp _. apply (Hp (log s)). apply negb_false_iff, Z.eqb_eq in Ep. exact Ep.
Qed.

Definition offer_bytes (v : dhcps_vars) (i : ip_info) : list Z :=
  [DHCP_OPTION_SUBNET_MASK; 4; 255; 255; 255; 0] ++
  [DHCP_OPTION_LEASE_TIME; 4] ++ rev (le_bytes (u32 (dhcps_lease_time v * 60))) ++
  [DHCP_OPTION_SERVER_ID; 4] ++ le_bytes (server_address v) ++
  (if dhcps_router_enabled (offer v) then [DHCP_OPTION_ROUTER; 4] ++ le_bytes (info_gw i) else []) ++
  [DHCP_OPTION_DNS_SERVER; 4] ++ le_bytes (server_address v) ++
  [DHCP_OPTION_BROADCAST_ADDRESS; 4] ++ take 3 (le_bytes (server_address v)) ++ [255] ++
  [DHCP_OPTION_INTERFACE_MTU; 2; 2; 64] ++ [DHCP_OPTION_PERFORM_ROUTER_DISCOVERY; 1; 0] ++ [43; 6; 1; 4; 0; 0; 0; 2].

Lemma be_seconds x : 0 <= x -> [Z.land (Z.shiftr x 24) 0xFF; Z.land (Z.shiftr x 16) 0xFF; Z.land (Z.shiftr x 8) 0xFF; Z.land (Z.shiftr x 0) 0xFF] = rev (le_bytes x).
Proof. intros. rewrite !land_255, !Z.shiftr_div_pow2 by lia. cbn [rev le_bytes app]. by rewrite Z.div_1_r. Qed.
Lemma wp_offer_options s (Q : list Z -> sys dhcps_vars -> Prop) :
  (forall k i, quiet k -> datagrams k = [] -> Q (offer_bytes (st s) i) (say s k)) -> wp add_offer_options s Q.
Proof.
  intros HQ. unfold add_offer_options. do 3 apply wp_bind, wp_var. cbv zeta. unfold offer_bytes in HQ. apply wp_bind.
  pose proof (be_seconds (u32 (dhcps_lease_time (st s) * 60)) ltac:(apply u32_range)) as Hsec.
  destruct (dhcps_router_enabled (offer (st s))).
  - apply wp_bind, wp_get. apply wp_bind, wp_call. apply wp_ret, wp_ret.
    specialize (HQ [Do (wifi_get_ip_info SOFTAP_IF)] (softap_info (log s)) ltac:(by repeat constructor) eq_refl). rewrite <- Hsec in HQ. exact HQ.
  - apply wp_ret, wp_ret. specialize (HQ [] (softap_info (log s)) ltac:(constructor) eq_refl). rewrite <- Hsec in HQ. unfold say in HQ. rewrite app_nil_r in HQ.
    by destruct s.
Qed.

(** A message of the right size, and the answer to it with the options [opts]. *)
Record good_msg (m : dhcps_msg) : Prop := {
  m_xid : length (xid m) = 4%nat; m_ciaddr : length (ciaddr m) = 4%nat; m_chaddr : length (chaddr m) = 16%nat; m_options : length (options m) = 312%nat;
  m_bytes : Forall is_byte (ciaddr m) /\ Forall is_byte (options m) }.
Definition reply (m : dhcps_msg) (client : Z) (opts : list Z) : dhcps_msg :=
  mk_msg DHCP_REPLY DHCP_HTYPE_ETHERNET 6 0 (xid m) 0 0x80 (replicate 4 0) (le_bytes client) (replicate 4 0) (replicate 4 0) (chaddr m)
    (replicate 64 0) (replicate 128 0) (le_bytes magic_cookie ++ opts ++ replicate (308 - length opts) 0).

Definition created (m : dhcps_msg) (client : Z) : dhcps_msg := (reply m client []) <| options := le_bytes magic_cookie ++ replicate 308 0 |>.

Lemma wp_create_msg m s (Q : dhcps_msg -> sys dhcps_vars -> Prop) : Q (created m (client_address (st s))) s -> wp (create_msg m) s Q.
Proof.
  intros HQ. unfold create_msg. apply wp_bind, wp_var. apply wp_bind, (wp_lift _ (le_bytes magic_cookie ++ replicate 308 0)); [reflexivity|].
  apply wp_ret. exact HQ.
Qed.
Lemma wp_write_options m client opts s (Q : dhcps_msg -> sys dhcps_vars -> Prop) : zlen opts <= 308 -> Q (reply m client opts) s ->
  wp (write_options (created m client) opts) s Q.
Proof.
  intros Hz HQ. unfold write_options. apply wp_bind, (wp_lift _ (le_bytes magic_cookie ++ opts ++ replicate (308 - length opts) 0)); [|by apply wp_ret].
  unfold bsplice. pose proof (zlen_nonneg opts). cbn [options set_field created]. change (zlen (le_bytes magic_cookie ++ replicate 308 0)) with 312.
  ztrue (0 <=? 4). ztrue (4 + zlen opts <=? 312). cbn [andb].
  replace (drop (Z.to_nat (4 + zlen opts)) (le_bytes magic_cookie ++ replicate 308 0)) with (replicate (308 - length opts) 0 : list Z); [reflexivity|].
  replace (Z.to_nat (4 + zlen opts)) with (length (le_bytes magic_cookie) + length opts)%nat by (unfold zlen; cbn; lia).
  by rewrite drop_app_add, drop_replicate.
Qed.
Lemma reply_size m client opts : good_msg m -> zlen opts <= 308 -> zlen (msg_bytes (reply m client opts)) = sizeof_dhcps_msg.
Proof.
  intros [Hx _ Hc _ _] Hz. unfold zlen in *. unfold msg_bytes, reply, sizeof_dhcps_msg. cbn [op htype hlen hops xid secs flags ciaddr yiaddr siaddr giaddr chaddr sname file options].
  rewrite !length_app, !length_replicate, Hx, Hc. cbn [length le_bytes]. lia.
Qed.

(** The options of the three answers. *)
Definition ack_options (type : Z) (v : dhcps_vars) (i : ip_info) : list Z := add_msg_type type ++ offer_bytes v i ++ add_end.
Lemma ack_options_size type v i : zlen (ack_options type v i) <= 308.
Proof. unfold ack_options, offer_bytes. unfold zlen. rewrite !length_app, length_rev. unfold le_bytes, add_msg_type, add_end. destruct (dhcps_router_enabled _); cbn [length app take]; lia. Qed.

(** What a handler's answer adds to the log: at most the datagram [d] to every station. *)
Definition answers s (d : list Z) (k : list event) : Prop :=
  quiet k /\ (datagrams k = [] \/ datagrams k = [(d, broadcast_dhcps (st s), DHCPS_CLIENT_PORT)]) /\ (pbufs -> datagrams k ≠ []).

Lemma wp_send_full type m s (Q : unit -> sys dhcps_vars -> Prop) : good_msg m -> live (pcb_dhcps (st s)) (log s) = true ->
  (forall k i, answers s (msg_bytes (reply m (client_address (st s)) (ack_options type (st s) i))) k -> Q tt (say s k)) ->
  wp (m <- create_msg m ;; opts <- add_offer_options ;; m <- write_options m (add_msg_type type ++ opts ++ add_end) ;; send_msg m) s Q.
Proof.
  intros Hm Hl HQ. apply wp_bind, wp_create_msg. apply wp_bind, wp_offer_options. intros k1 i Hq1 Hd1.
  apply wp_bind, wp_write_options; [apply ack_options_size|]. apply wp_send_msg; [apply reply_size; [done|apply ack_options_size]|cbn; by rewrite live_quiet|].
  intros k2 d Hq2 <- Hd2 Hp. specialize (HQ (k1 ++ k2) i). unfold say in *. cbn in *. rewrite <- app_assoc. apply HQ.
  unfold answers. rewrite datagrams_app, Hd1. split; [by apply Forall_app|done].
Qed.
Lemma wp_send_nak m s (Q : unit -> sys dhcps_vars -> Prop) : good_msg m -> live (pcb_dhcps (st s)) (log s) = true ->
  (forall k, answers s (msg_bytes (reply m (client_address (st s)) (add_msg_type DHCPNAK ++ add_end))) k -> Q tt (say s k)) ->
  wp (send_nak m) s Q.
Proof.
  intros Hm Hl HQ. apply wp_bind, wp_create_msg. apply wp_bind, wp_write_options; [done|]. apply wp_send_msg; [by apply reply_size|done|].
  intros k d Hq <- Hd Hp. by apply HQ.
Qed.

(** ** Reading *)

Lemma options_defined fuel o p last client type state : Forall is_byte o -> 0 <= p -> last + 5 <= zlen o -> Z.max 0 (last - p) < Z.of_nat fuel ->
  exists r, options_loop fuel o p last client type state = Some r.
Proof.
  intros Ho. revert p type state. induction fuel as [|fuel IH]; intros p type state Hp Hl Hf; [lia|]. cbn [options_loop].
  destruct (Z.ltb_spec p last); [|eauto]. pose proof (nthZ_byte o (p + 1) Ho) as Hb. unfold is_byte in Hb.
  rewrite (rd_Some o p) by lia. unfold mbind, option_bind. destruct (nthZ o p =? DHCP_OPTION_END); [eauto|].
  assert (E2 : rd o (p + 2) = Some (nthZ o (p + 2))) by (apply rd_Some; lia). assert (E1 : rd o (p + 1) = Some (nthZ o (p + 1))) by (apply rd_Some; lia).
  rewrite E2, E1, bslice_Some by lia. destruct (nthZ o p =? DHCP_OPTION_MSG_TYPE), (nthZ o p =? DHCP_OPTION_REQ_IPADDR); apply IH; lia.
Qed.

(** What the options [o] say to a station that is to have [client]. *)
Definition parsed (o : list Z) (len client : Z) (again : bool) : option Z :=
  '(type, state) ← options_loop (S (Z.to_nat len)) o 4 (4 + len) (le_bytes client) 0 DHCPS_STATE_IDLE; Some (reply_state type state again).
Lemma wp_parse_options o len v s (Q : Z -> sys dhcps_vars -> Prop) : parsed o len (client_address (st s)) (renew (st s)) = Some v -> Q v s ->
  wp (parse_options o 4 len) s Q.
Proof.
  intros E HQ. unfold parsed in E. unfold parse_options. apply wp_bind, wp_var. destruct (options_loop _ _ _ _ _ _ _) as [[type state]|] eqn:El; [|done].
  injection E as <-. apply wp_bind, (wp_lift _ (type, state)); [done|]. apply wp_bind, wp_var. by apply wp_ret.
Qed.

(** ** Handling a message *)

(** The settings, which no message changes. *)
Definition settings (v : dhcps_vars) := (lease v, dhcps_lease_time v, offer v, pcb_dhcps v, netif_dhcps_pcb v, broadcast_dhcps v, server_address v).
(** From [s] to [s']: the table is [l], the log has [k] more. *)
Record after s s' (l : table) (k : list event) : Prop := {
  a_holds : exists es, holds_in s' es [] /\ entries es = l;
  a_log : log s' = log s ++ k; a_mem : mem s' = mem s; a_quiet : quiet k; a_settings : settings (st s') = settings (st s) }.

(** The station that sent [m], the address it says it has, and what it is granted. *)
Definition sender (m : dhcps_msg) : list Z := take 6 (chaddr m).
Definition asked (m : dhcps_msg) : Z := default 0 (word_of_bytes (ciaddr m)).
Definition good_ask (rg : dhcps_lease) (a : Z) : Prop := a = IPADDR_BROADCAST \/ a = IPADDR_ANY \/ in_range rg a.
Definition granted_to (v : dhcps_vars) (m : dhcps_msg) (l : table) : grant_result :=
  if asked m =? IPADDR_BROADCAST then Refused else grant (lease v) (sender m) (ask_of (Some (asked m))) l.
Definition again_of (v : dhcps_vars) (m : dhcps_msg) (g : grant_result) : bool := if asked m =? IPADDR_BROADCAST then renew v else renew_of g.
(** The table after a message to which the reaction was [v]. *)
Definition table_after (t : Z) (m : dhcps_msg) (g : grant_result) (v : Z) (l : table) : table :=
  let l := enter t (sender m) g l in if v =? DHCPS_STATE_RELEASE then leave (sender m) (asked m) true l else l.

Lemma good_ask_of rg a b : good_ask rg a -> a ≠ IPADDR_BROADCAST -> ask_of (Some a) = Some b -> in_range rg b.
Proof.
  intros [? | [-> | Ha]] Hb E; [done|done|]. unfold ask_of in E. destruct (_ =? _); [done|]. by injection E as <-.
Qed.

(** What a message grants. *)
Lemma wp_client_update es m s (Q : Z -> sys dhcps_vars -> Prop) :
  holds_in s es [] -> good_range (lease (st s)) -> good_table (lease (st s)) (entries es) -> roomy -> good_ask (lease (st s)) (asked m) ->
  let g := granted_to (st s) m (entries es) in
  (forall s' k, after s s' (enter (dhcps_lease_time (st s)) (sender m) g (entries es)) k -> datagrams k = [] -> renew (st s') = again_of (st s) m g -> Q (addr_of g) s') ->
  wp (wifi_softap_dhcps_client_update (Some (sender m)) (Some (asked m))) s Q.
Proof.
  intros H Hr Hl Hroom Ha. cbv zeta. unfold granted_to, again_of. destruct (Z.eqb_spec (asked m) IPADDR_BROADCAST) as [Eb|Eb]; intros HQ.
  - rewrite Eb. apply wp_update_broadcast. apply (HQ s []); [|done|done]. split; [by exists es|by rewrite app_nil_r|done|constructor|done].
  - apply (wp_update es); [done|apply Hl|done|congruence|intros _; by apply (pick_is_free (lease (st s)))|].
    intros h N P es' H' E. apply (HQ _ (told_of (sender m) (grant (lease (st s)) (sender m) (ask_of (Some (asked m))) (entries es)))); [|by destruct (grant _ _ _ _)|done].
    split; [by exists es'|done|done|by destruct (grant _ _ _ _); [|apply told_quiet]|done].
Qed.

Lemma word_range l w : Forall is_byte l -> length l = 4%nat -> word_of_bytes l = Some w -> 0 <= w < 4294967296.
Proof. intros Hb Hl Hw. by destruct (le_bytes_word l w Hb ltac:(unfold zlen; lia) Hw). Qed.
Lemma word_defined l : length l = 4%nat -> exists w, word_of_bytes l = Some w.
Proof. intros Hl. do 5 (destruct l as [|? l]; try discriminate Hl). by eexists. Qed.

Lemma wp_parse_msg es m len v s (Q : Z -> sys dhcps_vars -> Prop) :
  holds_in s es [] -> good_range (lease (st s)) -> good_table (lease (st s)) (entries es) -> roomy -> good_ask (lease (st s)) (asked m) ->
  good_msg m -> take 4 (options m) = le_bytes magic_cookie ->
  let g := granted_to (st s) m (entries es) in
  parsed (options m) (i16 len) (addr_of g) (again_of (st s) m g) = Some v ->
  (forall s' k, after s s' (table_after (dhcps_lease_time (st s)) m g v (entries es)) k -> datagrams k = [] ->
     client_address (st s') = (if v =? DHCPS_STATE_RELEASE then asked m else addr_of g) -> Q v s') ->
  wp (parse_msg m len) s Q.
Proof.
  intros H Hr Hl Hroom Ha Hm Hc g Hv HQ. unfold parse_msg. destruct Hm as [_ Hmc Hmh Hmo _].
  apply wp_bind, (wp_lift _ (le_bytes magic_cookie)); [rewrite <- Hc; unfold bslice, zlen; rewrite Hmo; done|]. rewrite bool_decide_true by done.
  destruct (word_defined _ Hmc) as [w Hw]. assert (Ew : w = asked m) by (unfold asked; by rewrite Hw). rewrite Ew in Hw.
  apply wp_bind, (wp_lift _ (asked m)); [done|]. apply wp_bind, (wp_lift _ (sender m)); [unfold bslice, zlen; rewrite Hmh; done|].
  apply wp_bind. apply (wp_client_update es); [done..|]. fold g. intros s1 k1 [(es1 & H1 & E1) L1 M1 K1 S1] D1 R1.
  apply wp_bind, wp_modify. apply wp_bind. eapply wp_parse_options; [cbn; rewrite R1; exact Hv|].
  unfold table_after in HQ. destruct (v =? DHCPS_STATE_RELEASE) eqn:Ev; cbn [swhen].
  - apply wp_bind, wp_bind. apply (wp_leave _ _ _ es1); [exact H1|]. intros h N P es2 H2 E2. apply wp_modify, wp_ret.
    apply (HQ _ (k1 ++ told_leave (sender m) (asked m) (entries es1))); [|rewrite datagrams_app, D1; unfold told_leave; by destruct (existsb _ _)|done].
    split; [exists es2; split; [exact H2|by rewrite E2, E1]|cbn; by rewrite L1, app_assoc|done| |done].
    apply Forall_app. split; [done|]. unfold told_leave. by destruct (existsb _ _); [apply told_quiet|].
  - apply wp_bind, wp_ret, wp_ret. apply (HQ _ k1); [|done|done]. split; [exists es1; by split|done..].
Qed.

(** ** Handling a datagram *)

Definition datagram (p : pbuf) : list Z := payload p ++ default [] (next_payload p).
Definition message (p : pbuf) : dhcps_msg := msg_of_bytes (datagram p ++ replicate (548 - length (datagram p)) 0).
(** At most 543 bytes: the options are then read inside the block. *)
Definition good_packet (rg : dhcps_lease) (p : pbuf) : Prop :=
  Forall is_byte (datagram p) /\ zlen (datagram p) <= 543 /\ tot_len p = zlen (datagram p) /\ good_ask rg (asked (message p)).
Definition is_dhcp (p : pbuf) : Prop := take 4 (options (message p)) = le_bytes magic_cookie.

(** The reaction to a message, and the datagram it leads to. *)
Definition reaction (v : dhcps_vars) (p : pbuf) (l : table) : option Z :=
  let g := granted_to v (message p) l in parsed (options (message p)) (tot_len p - 240) (addr_of g) (again_of v (message p) g).
Definition reply_for (r : Z) (m : dhcps_msg) (client : Z) (v : dhcps_vars) (i : ip_info) : option (list Z) :=
  if r =? DHCPS_STATE_OFFER then Some (msg_bytes (reply m client (ack_options DHCPOFFER v i)))
  else if r =? DHCPS_STATE_ACK then Some (msg_bytes (reply m client (ack_options DHCPACK v i)))
  else if r =? DHCPS_STATE_NAK then Some (msg_bytes (reply m client (add_msg_type DHCPNAK ++ add_end)))
  else None.
Definition sends s (o : option (list Z)) (k : list event) : Prop :=
  match o with
  | Some d => (datagrams k = [] \/ datagrams k = [(d, broadcast_dhcps (st s), DHCPS_CLIENT_PORT)]) /\ (pbufs -> datagrams k ≠ [])
  | None => datagrams k = []
  end.

Lemma splice_zeros b : zlen b <= 548 -> bsplice (replicate (Z.to_nat sizeof_dhcps_msg) 0) 0 b = Some (b ++ replicate (548 - length b) 0).
Proof.
  intros Hz. unfold bsplice. pose proof (zlen_nonneg b). rewrite zlen_replicate. unfold sizeof_dhcps_msg. ztrue (0 <=? 0). ztrue (0 + zlen b <=? Z.max 0 548). cbn [andb].
  rewrite drop_replicate. unfold zlen. change (Z.to_nat 0) with 0%nat. cbn [take app]. by replace (Z.to_nat (0 + Z.of_nat (length b))) with (length b) by lia.
Qed.
Lemma splice_next a b : zlen a + zlen b <= 548 -> bsplice (a ++ replicate (548 - length a) 0) (zlen a) b = Some ((a ++ b) ++ replicate (548 - length (a ++ b)) 0).
Proof.
  intros Hz. unfold bsplice. pose proof (zlen_nonneg a). pose proof (zlen_nonneg b). ztrue (0 <=? zlen a).
  assert (E : zlen (a ++ replicate (548 - length a) 0) = 548) by (unfold zlen in *; rewrite length_app, length_replicate; lia). rewrite E. ztrue (zlen a + zlen b <=? 548). cbn [andb].
  f_equal. rewrite <- app_assoc. unfold zlen. rewrite Nat2Z.id, take_app_length. do 2 f_equal.
  replace (Z.to_nat (Z.of_nat (length a) + Z.of_nat (length b))) with (length a + length b)%nat by lia. rewrite drop_app_add, drop_replicate, length_app. f_equal. lia.
Qed.
Lemma read_datagram p s (Q : list Z -> sys dhcps_vars -> Prop) : zlen (datagram p) <= 548 -> Q (datagram p ++ replicate (548 - length (datagram p)) 0) s ->
  wp (read_pbufs p) s Q.
Proof.
  unfold datagram. rewrite zlen_app. intros Hz HQ. pose proof (zlen_nonneg (default [] (next_payload p))).
  apply wp_bind. eapply wp_lift; [apply splice_zeros; lia|]. destruct (next_payload p) as [d|]; cbn [default id] in *.
  - eapply wp_lift; [apply splice_next; lia|]. done.
  - rewrite app_nil_r in HQ. by eapply wp_lift.
Qed.
Lemma good_message p : Forall is_byte (datagram p) -> zlen (datagram p) <= 548 -> good_msg (message p).
Proof.
  intros Hb Hz. assert (Hb' : Forall is_byte (datagram p ++ replicate (548 - length (datagram p)) 0)).
  { apply Forall_app. split; [done|]. apply Forall_replicate. unfold is_byte. lia. }
  assert (Hl : length (datagram p ++ replicate (548 - length (datagram p)) 0) = 548%nat) by (rewrite length_app, length_replicate; unfold zlen in Hz; lia).
  unfold message. generalize dependent (datagram p ++ replicate (548 - length (datagram p)) 0). intros b Hb' Hl.
  assert (Hf : forall o n, (o + n <= 548)%nat -> length (field b o n) = n) by (intros; unfold field; rewrite length_take, length_drop; lia).
  assert (Hfb : forall o n, Forall is_byte (field b o n)) by (intros; by apply Forall_take, Forall_drop).
  split; cbn [msg_of_bytes xid ciaddr chaddr options]; [apply Hf; lia..|by split].
Qed.
Lemma reaction_defined v p l rg : good_packet rg p -> exists r, reaction v p l = Some r.
Proof.
  intros (Hb & Hz & Ht & _). unfold reaction, parsed. pose proof (good_message p Hb ltac:(lia)) as [_ _ _ Ho [_ Hob]].
  destruct (options_defined (S (Z.to_nat (tot_len p - 240))) (options (message p)) 4 (4 + (tot_len p - 240)) (le_bytes (addr_of (granted_to v (message p) l))) 0 DHCPS_STATE_IDLE) as [[ty stt] E];
    [done|lia|unfold zlen at 1; rewrite Ho; lia|lia|]. cbv zeta. rewrite E. by eexists.
Qed.

Lemma after_say s s' l k k2 : after s s' l k -> quiet k2 -> after s (say s' k2) l (k ++ k2).
Proof.
  intros [H1 H2 H3 H4 H5] Hk. split; [done|cbn; by rewrite H2, app_assoc|done|by apply Forall_app|done].
Qed.
Lemma after_pcb s s' l k : after s s' l k -> live (pcb_dhcps (st s)) (log s) = true -> live (pcb_dhcps (st s')) (log s') = true.
Proof. intros [_ H2 _ H4 H5] Hl. unfold settings in H5. injection H5 as _ _ _ -> _ _ _. by rewrite H2, live_quiet. Qed.
Lemma after_reply s s' l k r m c i : after s s' l k -> reply_for r m c (st s') i = reply_for r m c (st s) i.
Proof. intros [_ _ _ _ H5]. unfold reply_for, ack_options, offer_bytes. unfold settings in H5. by injection H5 as _ -> -> _ _ _ ->. Qed.

(** The answer that [handle_dhcp] sends after [parse_msg] said [r]. *)
Lemma wp_answer r m s (Q : unit -> sys dhcps_vars -> Prop) : good_msg m -> live (pcb_dhcps (st s)) (log s) = true ->
  (forall k i, quiet k -> sends s (reply_for r m (client_address (st s)) (st s) i) k -> Q tt (say s k)) ->
  wp (if r =? DHCPS_STATE_OFFER then send_offer m else if r =? DHCPS_STATE_ACK then send_ack m else if r =? DHCPS_STATE_NAK then send_nak m else sret tt) s Q.
Proof.
  intros Hm Hl HQ. unfold reply_for, sends in HQ. destruct (r =? DHCPS_STATE_OFFER); [|destruct (r =? DHCPS_STATE_ACK); [|destruct (r =? DHCPS_STATE_NAK)]].
  - apply wp_send_full; [done|done|]. intros k i (H1 & H2 & H3). by apply (HQ k i).
  - apply wp_send_full; [done|done|]. intros k i (H1 & H2 & H3). by apply (HQ k i).
  - apply wp_send_nak; [done|done|]. intros k (H1 & H2 & H3). by apply (HQ k (mk_info 0 0 0)).
  - apply wp_ret. specialize (HQ [] (mk_info 0 0 0) ltac:(constructor) eq_refl). unfold say in HQ. rewrite app_nil_r in HQ. by destruct s.
Qed.

(** A datagram handled from [s]: [r] is the reaction, [l'] the table then. *)
Definition handled s (p : pbuf) (l : table) s' : Prop := exists r k i,
  let g := granted_to (st s) (message p) l in
  reaction (st s) p l = Some r /\ after s s' (table_after (dhcps_lease_time (st s)) (message p) g r l) k /\
  sends s (reply_for r (message p) (addr_of g) (st s) i) k.
Definition ignored s (l : table) s' : Prop := exists k, after s s' l k /\ datagrams k = [].

Lemma reply_release m c v i : reply_for DHCPS_STATE_RELEASE m c v i = None.
Proof. done. Qed.
Lemma wp_handle es p s (Q : unit -> sys dhcps_vars -> Prop) :
  holds_in s es [] -> good_range (lease (st s)) -> good_table (lease (st s)) (entries es) -> roomy -> live (pcb_dhcps (st s)) (log s) = true ->
  good_packet (lease (st s)) p ->
  (forall s', (if bool_decide (is_dhcp p /\ block (mem s) sizeof_dhcps_msg ≠ None) then handled s p (entries es) s' else ignored s (entries es) s') -> Q tt s') ->
  wp (handle_dhcp (Some p)) s Q.
Proof.
  intros H Hr Hl Hroom Hlive Hp HQ. destruct (reaction_defined (st s) p (entries es) _ Hp) as [r Er].
  destruct Hp as (Hb & Hz & Ht & Ha). assert (Hm := good_message p Hb ltac:(lia)). unfold handle_dhcp. apply wp_bind, wp_get.
  assert (Hign : forall k, quiet k -> datagrams k = [] -> ignored s (entries es) (say s k)).
  { intros k Hk Hd. exists k. split; [split; [by exists es|done..]|done]. }
  destruct (block (mem s) sizeof_dhcps_msg) eqn:Eb.
  2: { apply wp_call. apply HQ. rewrite bool_decide_false by (intros [_ ?]; done). apply (Hign [_]); [by repeat constructor|done]. }
  apply wp_bind, read_datagram; [lia|]. fold (message p). cbv zeta.
  assert (Elen : i16 (u16 (i16 (tot_len p) - 240)) = tot_len p - 240).
  { pose proof (zlen_nonneg (datagram p)). rewrite (i16_small (tot_len p)) by lia. unfold i16, u16. dlia. }
  apply wp_bind. case_bool_decide as Hd.
  - destruct Hd as [Hd _]. eapply (wp_parse_msg es _ _ r); [done..|rewrite Elen; exact Er|]. intros s1 k1 H1 D1 C1.
    apply wp_bind, wp_answer; [done|by eapply after_pcb|]. intros k2 i Hq2 Hs2. apply wp_call. apply HQ.
    exists r, ((k1 ++ k2) ++ [Do (pbuf_free true)]), i. split; [done|]. split.
    + apply (after_say s (say s1 k2)); [by apply after_say|by repeat constructor].
    + unfold sends in *. rewrite !datagrams_app, D1, app_nil_r. cbn [app]. rewrite (after_reply _ _ _ _ r _ _ i H1), C1 in Hs2.
      destruct H1 as [_ _ _ _ H5]. unfold settings in H5. injection H5 as _ _ _ _ _ Eb' _. rewrite Eb' in Hs2.
      destruct (Z.eqb_spec r DHCPS_STATE_RELEASE) as [->|]; [by rewrite reply_release in *|exact Hs2].
  - unfold parse_msg. apply wp_bind, (wp_lift _ (take 4 (options (message p)))); [destruct Hm as [_ _ _ Ho _]; unfold bslice, zlen; by rewrite Ho|].
    rewrite bool_decide_false by (intros E; by apply Hd). apply wp_ret. cbn [Z.eqb DHCPS_STATE_OFFER DHCPS_STATE_ACK DHCPS_STATE_NAK].
    apply wp_bind, wp_ret, wp_call, HQ. apply (Hign [_]); [by repeat constructor|done].
Qed.
End Messages.

(** ** Sessions *)

Section Sessions.
Context `{EV : Env} `{AL : Alloc} `{DA : DhcpsAlloc} `{SI : SoftapInfo}.
Implicit Types s : sys dhcps_vars.

(** lwIP has a control block for the server; the SDK knows whether it runs. *)
Definition pcbs : Prop := forall l, u32 (sdk_ret l udp_new) ≠ 0.
Definition status_right : Prop := forall l, u32 (sdk_ret l wifi_softap_dhcps_status) = b2z (serving l).
(** What may happen next.  A packet or a station comes only to a running server, and
    the address a station says it has is one of the range; the server is started
    when it is stopped, and stopped when it runs. *)
Definition allowed s (o : dhcps_op) : Prop :=
  match o with
  | Packet (Some p) => serving (log s) = true /\ good_packet (lease (st s)) p
  | Update bssid ip => serving (log s) = true /\ (forall a, ip = Some a -> good_ask (lease (st s)) a)
  | Start info => serving (log s) = false /\ exists i, info = Some i /\ 0 <= info_ip i < 4294967296
  | Stop => serving (log s) = true
  | SetLease (Some r) => 0 <= start_ip r < 4294967296 /\ 0 <= end_ip r < 4294967296 /\ host (end_ip r) <= 254
  | SetTime minute => 0 <= minute < 4294967296
  | SetOffer level optarg => optarg = None -> level ≠ OFFER_ROUTER
  | Packet None | Minute | Leave _ _ _ | SetLease None | ResetTime => True
  end.

(** The table [es] of a state the server can be in. *)
Record server s (es : list cell) : Prop := {
  i_holds : holds_in s es [];
  i_time : 0 < dhcps_lease_time (st s) < 4294967296;
  i_lease : enable (lease (st s)) = true -> 0 <= start_ip (lease (st s)) < 4294967296 /\ 0 <= end_ip (lease (st s)) < 4294967296 /\ host (end_ip (lease (st s))) <= 254;
  i_down : serving (log s) = false -> es = [] /\ netif_dhcps_pcb (st s) = 0;
  i_up : serving (log s) = true -> good_range (lease (st s)) /\ good_table (lease (st s)) (entries es) /\ ~ in_range (lease (st s)) (server_address (st s)) /\
         live (pcb_dhcps (st s)) (log s) = true /\ netif_dhcps_pcb (st s) = pcb_dhcps (st s) /\ broadcast_dhcps (st s) = IPADDR_BROADCAST }.
Definition inv s : Prop := exists es, server s es.

Lemma boot_inv : inv (mk_sys [] ∅ dhcps_initial).
Proof.
  exists []. split; try done. split; try done; try constructor.
Qed.

(** What a running server does keeps the table good. *)
Lemma server_after s es s' es' k : server s es -> after s s' (entries es') k -> holds_in s' es' [] -> good_table (lease (st s)) (entries es') ->
  (serving (log s) = false -> es' = []) -> server s' es'.
Proof.
  intros [H1 H2 H3 H4 H5] [_ Elog _ Hq Es] Hh Hl Hdown. unfold settings in Es. injection Es as E1 E2 E3 E4 E5 E6 E7.
  assert (Hs : serving (log s') = serving (log s)) by (rewrite Elog; by apply serving_quiet). split; [done|by rewrite E2|by rewrite E1| |]; rewrite Hs.
  - intros Hf. rewrite E5. destruct (H4 Hf) as [_ ?]. split; [by apply Hdown|done].
  - intros Ht. destruct (H5 Ht) as (A & B & C & D & E). rewrite E1, E4, E5, E6, E7. split; [done|]. split; [done|]. split; [done|]. split; [|done].
    by rewrite Elog, live_quiet.
Qed.
Lemma inv_after s es s' l k : server s es -> after s s' l k -> good_table (lease (st s)) l -> (serving (log s) = false -> l = []) -> inv s'.
Proof.
  intros H Ha Hl Hdown. destruct (a_holds _ _ _ _ Ha) as (es' & Hh & <-). exists es'. eapply (server_after s es); [done..|].
  intros Hf. specialize (Hdown Hf). by destruct es'.
Qed.
(** Events that change no variable. *)
Lemma server_say s es k : server s es -> quiet k -> server (say s k) es.
Proof.
  intros [H1 H2 H3 H4 H5] Hk. split; try done; cbn [say log st]; rewrite serving_quiet by done; [done|]. intros Ht. rewrite live_quiet by done. by apply H5.
Qed.
Lemma wp_ask_server c es s (Q : Z -> sys dhcps_vars -> Prop) : server s es -> quiet_event (Got c 0) -> (forall k, server (say s k) es -> k = [Got c (u32 (sdk_ret (log s) c))] -> Q (u32 (sdk_ret (log s) c)) (say s k)) -> wp (ask c) s Q.
Proof. intros H Hc HQ. apply wp_ask. apply HQ; [|done]. apply server_say; [done|]. constructor; [by destruct c|done]. Qed.
Lemma wp_no_softap es s (Q : bool -> sys dhcps_vars -> Prop) : server s es -> (forall b k, server (say s k) es -> Q b (say s k)) -> wp no_softap s Q.
Proof. intros H HQ. unfold no_softap. apply wp_bind. apply (wp_ask_server _ es); [done|done|]. intros k Hk _. apply wp_ret. by apply HQ. Qed.
Lemma wp_dhcps_status x es s (Q : bool -> sys dhcps_vars -> Prop) : status_right -> server s es -> (x = 0 \/ x = 1) ->
  (forall k, server (say s k) es -> Q (Bool.eqb (serving (log (say s k))) (x =? 1)) (say s k)) -> wp (status_is x) s Q.
Proof.
  intros Hst H Hx HQ. unfold status_is. apply wp_bind. apply (wp_ask_server _ es); [done|done|]. intros k Hk Ek. apply wp_ret. specialize (HQ k Hk).
  rewrite Hst. cbn [say log] in HQ. rewrite serving_quiet in HQ by (rewrite Ek; by repeat constructor). destruct Hx as [-> | ->]; by destruct (serving (log s)).
Qed.

(** *** Each event keeps the invariant *)

Lemma after_refl s es : holds_in s es [] -> after s s (entries es) [].
Proof. intros H. split; [by exists es|by rewrite app_nil_r|done|constructor|done]. Qed.
Lemma granted_good s es m ip : good_range (lease (st s)) -> good_table (lease (st s)) (entries es) -> 0 < dhcps_lease_time (st s) < 4294967296 ->
  good_ask (lease (st s)) ip -> ip ≠ IPADDR_BROADCAST ->
  good_table (lease (st s)) (enter (dhcps_lease_time (st s)) m (grant (lease (st s)) m (ask_of (Some ip)) (entries es)) (entries es)).
Proof. intros Hr Hl Ht Ha Hb. apply enter_good; [done|done|done|]. intros b Eb. by eapply good_ask_of. Qed.

Lemma packet_keeps p s : roomy -> inv s -> allowed s (Packet (Some p)) -> wp (handle_dhcp (Some p)) s (λ _ s', inv s').
Proof.
  intros Hroom [es H] [Hup Hp]. destruct (i_up _ _ H Hup) as (Hr & Hl & _ & Hlive & _). pose proof (i_time _ _ H) as Ht.
  apply (wp_handle es); [apply H|done..|]. intros s' Hs'. destruct (bool_decide _).
  - destruct Hs' as (r & k & i & _ & Ha & _). eapply (inv_after s es); [exact H|exact Ha| |by rewrite Hup]. destruct Hp as (_ & _ & _ & Hask).
    assert (Hg : good_table (lease (st s)) (enter (dhcps_lease_time (st s)) (sender (message p)) (granted_to (st s) (message p) (entries es)) (entries es))).
    { unfold granted_to. destruct (Z.eqb_spec (asked (message p)) IPADDR_BROADCAST); [done|by apply granted_good]. }
    unfold table_after. destruct (_ =? _); [by apply leave_good|done].
  - destruct Hs' as (k & Ha & _). by eapply (inv_after s es); [exact H|exact Ha|done|rewrite Hup].
Qed.
Lemma update_keeps bssid ip s : roomy -> inv s -> allowed s (Update bssid ip) -> wp (wifi_softap_dhcps_client_update bssid ip) s (λ _ s', inv s').
Proof.
  intros Hroom [es H] [Hup Hask]. destruct (i_up _ _ H Hup) as (Hr & Hl & _ & Hlive & _). pose proof (i_time _ _ H) as Ht.
  destruct bssid as [m|]; [|apply wp_bind, wp_var, wp_ret; by exists es].
  destruct (decide (ip = Some IPADDR_BROADCAST)) as [->|Hne]; [apply wp_update_broadcast; by exists es|].
  apply (wp_update es); [apply H|apply Hl|done|done|intros _; by apply (pick_is_free (lease (st s)))|]. intros h N P es' H' E.
  eapply (inv_after s es _ (entries es') (told_of m _)); [exact H| | |by rewrite Hup].
  - split; [exists es'; split; [exact H'|done]|reflexivity|done| |done]. by destruct (grant _ _ _ _); [|apply told_quiet].
  - rewrite E. apply enter_good; [done|done|done|]. intros b Eb. destruct ip as [a|]; [|done]. eapply good_ask_of; [by apply Hask| |exact Eb]. intros ->. by apply Hne.
Qed.
Lemma leave_keeps bssid ip force s : inv s -> wp (wifi_softap_dhcps_client_leave bssid ip force) s (λ _ s', inv s').
Proof.
  intros [es H]. destruct bssid as [m|]; [|apply wp_ret; by exists es]. destruct ip as [a|]; [|apply wp_ret; by exists es].
  apply (wp_leave _ _ _ es); [apply H|]. intros h N P es' H' E. destruct (serving (log s)) eqn:Hup.
  - destruct (i_up _ _ H Hup) as (Hr & Hl & _). eapply (inv_after s es _ (entries es') (told_leave m a (entries es))); [exact H| |rewrite E; by apply leave_good|by rewrite Hup].
    split; [by exists es'|done|done| |done]. unfold told_leave. by destruct (existsb _ _); [apply told_quiet|].
  - destruct (i_down _ _ H Hup) as [-> Hn]. destruct es'; [|done]. exists []. destruct H as [_ H2 H3 _ _].
    split; [done|done|done| |]; cbn [put say log st told_leave entries fmap list_fmap existsb]; rewrite app_nil_r, Hup; done.
Qed.
Lemma minute_keeps s : inv s -> wp dhcps_coarse_tmr s (λ _ s', inv s').
Proof.
  intros [es H]. apply (wp_minute es); [apply H|]. intros h N P es' H' Hm.
  assert (Ha : after s (put s h N P) (entries es') []) by (split; [by exists es'|cbn; by rewrite app_nil_r|done|constructor|done]).
  destruct (serving (log s)) eqn:Hup.
  - destruct (i_up _ _ H Hup) as (Hr & Hl & _). eapply (inv_after s es); [exact H|exact Ha|by eapply after_minute_good|by rewrite Hup].
  - destruct (i_down _ _ H Hup) as [-> Hn]. unfold after_minute in Hm. cbn in Hm. destruct es'; [|done]. exists []. destruct H as [_ H2 H3 _ _].
    split; [done|done|done| |]; cbn [put log st]; rewrite Hup; done.
Qed.

(** *** Starting, stopping, settings *)

Lemma serving_snoc l e : serving (l ++ [e]) = serving_step (serving l) e.
Proof. unfold serving. by rewrite fold_left_app. Qed.
Lemma told_stop_quiet l : quiet (told_stop l).
Proof. apply list.Forall_forall. intros e (d & -> & _)%list_elem_of_fmap. done. Qed.

Lemma stop_keeps s : inv s -> serving (log s) = true -> wp dhcps_stop s (λ _ s', inv s').
Proof.
  intros [es H] Hup. destruct (i_up _ _ H Hup) as (_ & _ & _ & Hlive & Epcb & _). destruct H as [H1 H2 H3 _ _].
  unfold dhcps_stop. apply wp_bind, wp_the_pcb; [done|]. apply wp_bind, wp_call. apply wp_bind, wp_var. cbn [st].
  assert (Hend : forall k, quiet k \/ k = [Do (udp_remove (pcb_dhcps (st s)))] -> netif_dhcps_pcb (st s) ≠ 0 \/ k = [] -> 
    wp (h <- var plist ;; r <- rounds ;; stop_loop r h)
       (mk_sys ((log s ++ [Do (udp_disconnect (pcb_dhcps (st s)))]) ++ k) (mem s) ((st s) <| netif_dhcps_pcb := 0 |>)) (λ _ s', inv s')).
  { intros k Hk _. apply wp_bind, wp_var. apply wp_bind, wp_rounds.
    match goal with |- wp (stop_loop (S (size (nodes (st ?x)))) _) _ _ => set (s1 := x) end. assert (Hh : holds_in s1 es []) by exact H1. rewrite (h_head _ _ _ _ _ Hh).
    apply (wp_stop_loop _ es); [exact Hh|rewrite (holds_size _ _ _ Hh); lia|]. intros h N P H'. exists [].
    assert (Eoff : serving (log (put (say s1 (told_stop (entries es))) h N P)) = false).
    { cbn [put say log s1]. rewrite serving_quiet by apply told_stop_quiet. destruct Hk as [Hk| ->]; [rewrite serving_quiet by done; by rewrite serving_snoc|by rewrite !serving_snoc]. }
    split; [exact H'|exact H2|exact H3|done|by rewrite Eoff]. }
  destruct (Z.eqb_spec (netif_dhcps_pcb (st s)) 0) as [En|En]; cbn [negb swhen].
  - apply wp_bind, wp_ret. specialize (Hend [] ltac:(left; constructor) ltac:(by right)). rewrite app_nil_r in Hend. destruct s as [l m []]. cbn in En. subst. exact Hend.
  - apply wp_bind, wp_bind, wp_call, wp_modify. rewrite Epcb. apply (Hend [Do (udp_remove (pcb_dhcps (st s)))]); [by right|by left].
Qed.

(** The range after the start: the one that was set, if it can be used, or the server's own. *)
Lemma init_lease_range ip s (Q : unit -> sys dhcps_vars -> Prop) : 0 <= ip < 4294967296 ->
  (enable (lease (st s)) = true -> 0 <= start_ip (lease (st s)) < 4294967296 /\ 0 <= end_ip (lease (st s)) < 4294967296 /\ host (end_ip (lease (st s))) <= 254) ->
  (forall r, good_range r -> ~ in_range r ip -> (enable r = true -> r = lease (st s)) -> Q tt (mk_sys (log s) (mem s) ((st s) <| lease := r |>))) ->
  wp (wifi_softap_init_dhcps_lease ip) s Q.
Proof.
  intros Hi Hen HQ. unfold wifi_softap_init_dhcps_lease. apply wp_bind, wp_var. destruct (own_range_good ip Hi) as [Hg Hn].
  destruct (enable (lease (st s)) && negb (range_ok (htonl ip) (htonl (start_ip (lease (st s)))) (htonl (end_ip (lease (st s)))))) eqn:Ek; cbn [swhen].
  - apply wp_bind, wp_modify. apply wp_bind, wp_var. cbn [st lease set_field enable negb swhen]. apply wp_modify. by apply (HQ (own_range ip)).
  - apply wp_bind, wp_ret. apply wp_bind, wp_var. destruct (enable (lease (st s))) eqn:Ee; cbn [negb swhen andb] in *.
    + apply negb_false_iff in Ek. destruct (Hen eq_refl) as (A & B & C). destruct (range_ok_good _ _ _ Hi A B C Ek true) as [Hg' Hn'].
      apply wp_ret. specialize (HQ (lease (st s))). destruct s as [l m []]. destruct lease as [en a b]. cbn in *. subst en. by apply HQ.
    + apply wp_modify. by apply (HQ (own_range ip)).
Qed.

Lemma start_keeps info s : pcbs -> inv s -> serving (log s) = false -> (exists i, info = Some i /\ 0 <= info_ip i < 4294967296) ->
  wp (dhcps_start info) s (λ _ s', inv s').
Proof.
  intros Hp [es H] Hdown (i & -> & Hi). destruct (i_down _ _ H Hdown) as [-> En]. destruct H as [H1 H2 H3 _ _].
  unfold dhcps_start. apply wp_bind, wp_var. rewrite En. cbn [Z.eqb negb swhen]. apply wp_bind, wp_ret. apply wp_bind, wp_ask.
  set (pcb := u32 (sdk_ret (log s) udp_new)). assert (Hpcb : pcb ≠ 0) by apply Hp. apply Z.eqb_neq in Hpcb.
  apply wp_bind, wp_modify. rewrite Hpcb, bool_decide_false by done. cbn [orb swhen]. apply wp_bind, wp_ret. apply wp_bind, wp_modify.
  apply wp_bind, (wp_lift _ i); [done|]. apply wp_bind, wp_modify. apply wp_bind, init_lease_range; [done|exact H3|]. intros r Hr Hn Her.
  assert (Hl : live pcb (log s ++ [Got udp_new pcb]) = true) by (unfold live; rewrite fold_left_app; cbn; by rewrite Z.eqb_refl, Hpcb).
  apply wp_bind, wp_the_pcb; [exact Hl|]. apply wp_bind, wp_call, wp_call. exists [].
  assert (Eup : forall l, serving (l ++ [Do (udp_recv pcb fp_handle_dhcp)]) = true) by (intros; by rewrite serving_snoc).
  split; [exact H1|exact H2| | |]; cbn [log st].
  - intros Ee. assert (E : r = lease (st s)) by exact (Her Ee). change (enable r = true) in Ee.
    change (0 <= start_ip r < 4294967296 /\ 0 <= end_ip r < 4294967296 /\ host (end_ip r) <= 254). rewrite E in *. by apply H3.
  - unfold pcb. cbn. by rewrite Eup.
  - intros _. cbn. split; [exact Hr|]. split; [split; [split; constructor|constructor]|]. split; [exact Hn|]. split; [|done].
    unfold live in *. rewrite !fold_left_app in *. exact Hl.
Qed.

(** A stopped server takes any good setting. *)
Lemma server_setting s es r o t : server s es -> serving (log s) = false -> 0 < t < 4294967296 ->
  (enable r = true -> 0 <= start_ip r < 4294967296 /\ 0 <= end_ip r < 4294967296 /\ host (end_ip r) <= 254) ->
  inv (mk_sys (log s) (mem s) ((st s) <| lease := r |> <| offer := o |> <| dhcps_lease_time := t |>)).
Proof.
  intros [H1 H2 H3 H4 H5] Hdown Ht Hr. exists es. split; [exact H1|exact Ht|exact Hr|exact H4|]. cbn [log]. by rewrite Hdown.
Qed.
Lemma set_lease_keeps please s : status_right -> inv s -> allowed s (SetLease please) -> wp (wifi_softap_set_dhcps_lease please) s (λ _ s', inv s').
Proof.
  intros Hst [es H] Ha. unfold wifi_softap_set_dhcps_lease. apply wp_bind, (wp_no_softap es); [done|]. intros off k1 H1.
  destruct off; [apply wp_ret; by exists es|]. destruct please as [p|]; [|apply wp_ret; by exists es].
  apply wp_bind, (wp_dhcps_status _ es); [done|done|by right|]. intros k2 H2.
  destruct (serving (log (say (say s k1) k2))) eqn:Eup; cbn; [apply wp_ret; by exists es|].
  destruct (enable p) eqn:Ep.
  - apply wp_bind, wp_get. apply wp_bind, wp_call. destruct (range_ok _ _ _); [|apply wp_ret; exists es; apply (server_say _ _ [_] H2); by repeat constructor].
    apply wp_bind, wp_modify, wp_ret. pose proof (server_say _ _ [Do (wifi_get_ip_info SOFTAP_IF)] H2 ltac:(by repeat constructor)) as H3.
    destruct (server_setting _ _ (mk_lease true (start_ip p) (end_ip p)) (offer (st s)) (dhcps_lease_time (st s)) H3) as [es' H4].
    + cbn [say log]. by rewrite serving_quiet by (by repeat constructor).
    + apply H.
    + intros _. apply Ha.
    + exists es'. by destruct s as [l m []].
  - apply wp_bind, wp_modify, wp_ret.
    destruct (server_setting _ _ ((lease (st s)) <| enable := false |>) (offer (st s)) (dhcps_lease_time (st s)) H2 Eup) as [es' H4]; [apply H|done|].
    exists es'. by destruct s as [l m []].
Qed.
Lemma set_time_keeps minute s : status_right -> inv s -> allowed s (SetTime minute) -> wp (wifi_softap_set_dhcps_lease_time minute) s (λ _ s', inv s').
Proof.
  intros Hst [es H] Ha. unfold wifi_softap_set_dhcps_lease_time. apply wp_bind, (wp_no_softap es); [done|]. intros off k1 H1.
  destruct off; [apply wp_ret; by exists es|]. apply wp_bind, (wp_dhcps_status _ es); [done|done|by right|]. intros k2 H2.
  destruct (serving (log (say (say s k1) k2))) eqn:Eup; cbn; [apply wp_ret; by exists es|].
  destruct (Z.eqb_spec minute 0); [apply wp_ret; by exists es|]. apply wp_bind, wp_modify, wp_ret.
  destruct (server_setting _ _ (lease (st s)) (offer (st s)) minute H2 Eup) as [es' H4]; [cbn in Ha; lia|apply H|]. exists es'. by destruct s as [l m []].
Qed.
Lemma reset_time_keeps s : status_right -> inv s -> wp wifi_softap_reset_dhcps_lease_time s (λ _ s', inv s').
Proof.
  intros Hst [es H]. unfold wifi_softap_reset_dhcps_lease_time. apply wp_bind, (wp_no_softap es); [done|]. intros off k1 H1.
  destruct off; [apply wp_ret; by exists es|]. apply wp_bind, (wp_dhcps_status _ es); [done|done|by right|]. intros k2 H2.
  destruct (serving (log (say (say s k1) k2))) eqn:Eup; cbn; [apply wp_ret; by exists es|]. apply wp_bind, wp_modify, wp_ret.
  destruct (server_setting _ _ (lease (st s)) (offer (st s)) DHCPS_LEASE_TIME_DEF H2 Eup) as [es' H4]; [done|apply H|]. exists es'. by destruct s as [l m []].
Qed.
Lemma server_offer s es o : server s es -> server (mk_sys (log s) (mem s) ((st s) <| offer := o |>)) es.
Proof. by intros [H1 H2 H3 H4 H5]. Qed.
Lemma set_offer_keeps level optarg s : status_right -> inv s -> allowed s (SetOffer level optarg) -> wp (wifi_softap_set_dhcps_offer_option level optarg) s (λ _ s', inv s').
Proof.
  intros Hst [es H] Ha. unfold wifi_softap_set_dhcps_offer_option. apply wp_bind.
  assert (Hrest : forall no k, server (say s k) es -> wp (if (no : bool) then sret false else if (level <=? OFFER_START) || (OFFER_END <=? level) then sret false
    else if level =? OFFER_ROUTER then a <- slift optarg ;; modify (λ v, v <| offer := Z.land a 1 |>) ;; sret true else sret false) (say s k) (λ _ s', inv s')).
  { intros no k Hk. destruct no; [apply wp_ret; by exists es|]. destruct (_ || _); [apply wp_ret; by exists es|].
    destruct (Z.eqb_spec level OFFER_ROUTER) as [->|]; [|apply wp_ret; by exists es]. destruct optarg as [a|]; [|by destruct (Ha eq_refl)].
    apply wp_bind, (wp_lift _ a); [done|]. apply wp_bind, wp_modify, wp_ret. exists es. by apply (server_offer (say s k)). }
  destruct (bool_decide _).
  - apply (wp_dhcps_status _ es); [done|done|by left|]. intros k Hk. by apply Hrest.
  - apply wp_ret. specialize (Hrest false [] ltac:(apply server_say; [done|constructor])). unfold say in Hrest. rewrite app_nil_r in Hrest. by destruct s.
Qed.

Lemma op_keeps o s : roomy -> pcbs -> status_right -> inv s -> allowed s o -> wp (dhcps_step o) s (λ _ s', inv s').
Proof.
  intros Hroom Hpcbs Hst H Ha.
  assert (Hunit : forall {A} (m : F dhcps_vars A), wp m s (λ _ s', inv s') -> wp (m ;; sret tt) s (λ _ s', inv s')).
  { intros A m Hm. apply wp_bind. eapply wp_mono; [exact Hm|]. intros a s' Hi. by apply wp_ret. }
  destruct o as [[p|]| |bssid ip force|bssid ip|info| |please|minute| |level optarg]; cbn [dhcps_step].
  - by apply packet_keeps.
  - by apply wp_ret.
  - by apply minute_keeps.
  - by apply leave_keeps.
  - by apply Hunit, update_keeps.
  - by apply start_keeps; [| |apply Ha|apply Ha].
  - by apply stop_keeps.
  - by apply Hunit, set_lease_keeps.
  - by apply Hunit, set_time_keeps.
  - by apply Hunit, reset_time_keeps.
  - by apply Hunit, set_offer_keeps.
Qed.

(** The states the server can be in. *)
Inductive reachable : sys dhcps_vars -> Prop :=
  | at_boot : reachable (mk_sys [] ∅ dhcps_initial)
  | by_event s o s' : reachable s -> allowed s o -> dhcps_step o s = Some (tt, s') -> reachable s'.
Lemma reachable_inv s : roomy -> pcbs -> status_right -> reachable s -> inv s.
Proof.
  intros Hroom Hpcbs Hst. induction 1 as [|s o s' _ IH Ha E]; [exact boot_inv|].
  destruct (op_keeps o s Hroom Hpcbs Hst IH Ha) as (u & s2 & E2 & H2). rewrite E in E2. by injection E2 as _ <-.
Qed.

(** ** The theorems *)


(** C7: The function that grants addresses does what the table says: a station's answer,
    the new table, what the SDK is told.  The server is running, the allocator has
    memory, and an address that is asked for is none or in the range. *)
Theorem requests_refine_grant es m ip s : roomy -> server s es -> serving (log s) = true -> (forall a, ip = Some a -> good_ask (lease (st s)) a /\ a ≠ IPADDR_BROADCAST) ->
  let g := grant (lease (st s)) m (ask_of ip) (entries es) in
  wp (wifi_softap_dhcps_client_update (Some m) ip) s (λ a s', a = addr_of g /\ log s' = log s ++ told_of m g /\
    exists es', server s' es' /\ entries es' = enter (dhcps_lease_time (st s)) m g (entries es)).
Proof.
  intros Hroom H Hup Hask g. destruct (i_up _ _ H Hup) as (Hr & Hl & _).
  apply (wp_update es); [apply H|apply Hl|done|intros E; by destruct (Hask _ E)|intros _; by apply (pick_is_free (lease (st s)))|]. intros h N P es' H' E. split; [done|]. split; [done|].
  exists es'. split; [|exact E]. eapply (server_after s es _ _ (told_of m g)); [done| |exact H'| |by rewrite Hup].
  - split; [by exists es'|done|done| |done]. by destruct (grant _ _ _ _); [|apply told_quiet].
  - rewrite E. apply enter_good; [done|done|apply H|]. intros b Eb. destruct ip as [a|]; [|done]. destruct (Hask a eq_refl). by eapply good_ask_of.
Qed.

End Sessions.

(** ** A station's messages *)

Definition client_bytes (xid mac opts : list Z) : list Z :=
  [1; 1; 6; 0] ++ xid ++ replicate 20 0 ++ mac ++ replicate 202 0 ++ le_bytes magic_cookie ++ opts.
Definition client_packet (xid mac opts : list Z) : pbuf := mk_pbuf (client_bytes xid mac opts) (zlen (client_bytes xid mac opts)) None.
Definition discover (xid mac : list Z) : pbuf := client_packet xid mac [DHCP_OPTION_MSG_TYPE; 1; DHCPDISCOVER; DHCP_OPTION_END].
Definition request (xid mac : list Z) (w : Z) : pbuf :=
  client_packet xid mac ([DHCP_OPTION_MSG_TYPE; 1; DHCPREQUEST; DHCP_OPTION_REQ_IPADDR; 4] ++ le_bytes w ++ [DHCP_OPTION_END]).
Definition good_ids (xid mac : list Z) : Prop := length xid = 4%nat /\ length mac = 6%nat /\ Forall is_byte xid /\ Forall is_byte mac.

Definition client_msg (xid mac opts : list Z) : dhcps_msg :=
  mk_msg 1 1 6 0 xid 0 0 (replicate 4 0) (replicate 4 0) (replicate 4 0) (replicate 4 0) (mac ++ replicate 10 0) (replicate 64 0) (replicate 128 0)
    (le_bytes magic_cookie ++ opts ++ replicate (308 - length opts) 0).
Lemma message_client xid mac opts : length xid = 4%nat -> length mac = 6%nat -> (length opts <= 308)%nat -> message (client_packet xid mac opts) = client_msg xid mac opts.
Proof.
  intros Hx Hm Ho. unfold message, client_packet, datagram. cbn [payload next_payload default]. rewrite app_nil_r. unfold client_bytes.
  do 5 (destruct xid as [|? xid]; try discriminate Hx). do 7 (destruct mac as [|? mac]; try discriminate Hm). clear Hx Hm.
  rewrite <- !app_assoc, !length_app. cbn [length replicate]. replace (548 - _)%nat with (308 - length opts)%nat by (cbn; lia).
  assert (Hl : length (opts ++ replicate (308 - length opts) 0) = 308%nat) by (rewrite length_app, length_replicate; lia).
  unfold client_msg. set (o := opts ++ replicate (308 - length opts) 0) in *. clearbody o.
  unfold msg_of_bytes. f_equal; try reflexivity. unfold field. change (drop 236 _) with (le_bytes magic_cookie ++ o). apply take_ge. rewrite length_app. cbn. lia.
Qed.
Lemma client_good rg xid mac opts : good_ids xid mac -> Forall is_byte opts -> (length opts <= 303)%nat -> good_packet rg (client_packet xid mac opts).
Proof.
  intros (Hx & Hm & Hxb & Hmb) Ho Hz. unfold good_packet. rewrite message_client by (done || lia). unfold datagram. cbn [client_packet payload next_payload default tot_len]. rewrite app_nil_r.
  split; [|split; [|split]].
  - unfold client_bytes. rewrite !Forall_app. split; [bytes_tac|]. split; [done|]. split; [apply Forall_replicate; unfold is_byte; lia|]. split; [done|].
    split; [apply Forall_replicate; unfold is_byte; lia|]. split; [|done]. unfold magic_cookie. bytes_tac.
  - unfold client_bytes, zlen. rewrite !length_app, Hx, Hm, !length_replicate. cbn. lia.
  - done.
  - right. left. reflexivity.
Qed.
Lemma le_bytes_bytes w : Forall is_byte (le_bytes w).
Proof. unfold le_bytes. repeat constructor; unfold is_byte; dlia. Qed.
Lemma discover_parsed xid mac client again : length xid = 4%nat -> length mac = 6%nat ->
  parsed (options (message (discover xid mac))) (tot_len (discover xid mac) - 240) client again = Some DHCPS_STATE_OFFER.
Proof.
  intros Hx Hm. unfold discover. rewrite message_client by (done || cbn; lia). cbn [tot_len client_packet options client_msg].
  replace (zlen _ - 240) with 4 by (unfold client_bytes, zlen; rewrite !length_app, Hx, Hm, !length_replicate; reflexivity). reflexivity.
Qed.
Lemma request_parsed xid mac w again : length xid = 4%nat -> length mac = 6%nat ->
  parsed (options (message (request xid mac w))) (tot_len (request xid mac w) - 240) w again = Some DHCPS_STATE_ACK.
Proof.
  intros Hx Hm. unfold request. rewrite message_client by (done || cbn; lia). cbn [tot_len client_packet options client_msg].
  replace (zlen _ - 240) with 10 by (unfold client_bytes, zlen; rewrite !length_app, Hx, Hm, !length_replicate; reflexivity).
  assert (E : forall a b c d, options_loop 11 (le_bytes magic_cookie ++ ([53; 1; 3; 50; 4] ++ [a; b; c; d] ++ [255]) ++ replicate 298 0) 4 14 [a; b; c; d] 0 DHCPS_STATE_IDLE
    = Some (DHCPREQUEST, if bool_decide ([a; b; c; d] = [a; b; c; d]) then DHCPS_STATE_ACK else DHCPS_STATE_NAK)) by reflexivity.
  unfold parsed. specialize (E (w mod 256) (w / 256 mod 256) (w / 65536 mod 256) (w / 16777216 mod 256)). rewrite bool_decide_true in E by done.
  change (options_loop (S (Z.to_nat 10)) (le_bytes magic_cookie ++ ([53; 1; 3; 50; 4] ++ le_bytes w ++ [255]) ++ replicate 298 0) 4 14 (le_bytes w) 0 DHCPS_STATE_IDLE
    = Some (DHCPREQUEST, DHCPS_STATE_ACK)) in E. 
  change (308 - length _)%nat with 298%nat. change (4 + 10) with 14. 
  match goal with |- context [options_loop ?f ?o] => change (options_loop f o) with (options_loop (S (Z.to_nat 10)) (le_bytes magic_cookie ++ ([53; 1; 3; 50; 4] ++ le_bytes w ++ [255]) ++ replicate 298 0)) end.
  rewrite E. reflexivity.
Qed.
Lemma client_sender xid mac opts : length xid = 4%nat -> length mac = 6%nat -> (length opts <= 308)%nat ->
  sender (message (client_packet xid mac opts)) = mac /\ asked (message (client_packet xid mac opts)) = IPADDR_ANY /\ is_dhcp (client_packet xid mac opts).
Proof.
  intros Hx Hm Ho. unfold is_dhcp. rewrite message_client by done. split; [|by split]. unfold sender. cbn [chaddr client_msg]. by rewrite <- Hm, take_app_length.
Qed.

Section Exchange.
Context `{EV : Env} `{AL : Alloc} `{DA : DhcpsAlloc} `{SI : SoftapInfo}.
Implicit Types s : sys dhcps_vars.

(** From [s] to [s'] the datagrams [d] were sent. *)
Definition sent s s' (d : list (list Z * Z * Z)) : Prop := exists k, log s' = log s ++ k /\ datagrams k = d.
(** The address for a new station: free, and all lower ones of the range are taken. *)
Definition lowest_free (rg : dhcps_lease) (l : table) (w : Z) : Prop :=
  in_range rg w /\ (forall e, e ∈ l -> pool_ip e ≠ w) /\ (forall x, in_range rg x -> x < w -> exists e, e ∈ l /\ pool_ip e = x).

Lemma pick_lowest rg m l : good_range rg -> good_table rg l -> (forall e, e ∈ l -> pool_mac e ≠ m) -> (exists x, in_range rg x /\ forall e, e ∈ l -> pool_ip e ≠ x) ->
  lowest_free rg l (pick m (start_ip rg) l).
Proof.
  intros Hr Hl Hm (x & [Hxn Hx] & Hf). destruct (pick_good rg Hr m l Hl) as (H1 & H2 & H3 & H4 & _).
  assert (Hw : pick m (start_ip rg) l <= x). { apply Z.le_ngt. intros Hlt. destruct (H3 x Hxn ltac:(lia)) as (e & Hi & Ei & _). by apply (Hf e). }
  split; [split; [done|lia]|]. split; [intros e He; apply H4; [done|by apply Hm]|].
  intros y [Hyn Hy] Hlt. destruct (H3 y Hyn ltac:(lia)) as (e & Hi & Ei & _). by exists e.
Qed.

(** A message of a station that asks for no address, which is granted [w], in state [s]. *)
Lemma wp_granted xid mac opts r d w es s (Q : unit -> sys dhcps_vars -> Prop) :
  roomy -> pbufs -> (forall h, block h sizeof_dhcps_msg ≠ None) -> server s es -> serving (log s) = true ->
  good_ids xid mac -> Forall is_byte opts -> (length opts <= 303)%nat -> r ≠ DHCPS_STATE_RELEASE ->
  grant (lease (st s)) mac None (entries es) = Granted w DHCPS_TYPE_DYNAMIC false ->
  (forall again, parsed (options (message (client_packet xid mac opts))) (tot_len (client_packet xid mac opts) - 240) w again = Some r) ->
  (forall i, reply_for r (message (client_packet xid mac opts)) w (st s) i = Some (d i)) ->
  (forall s' es' i, server s' es' -> settings (st s') = settings (st s) -> serving (log s') = true ->
     entries es' = enter (dhcps_lease_time (st s)) mac (Granted w DHCPS_TYPE_DYNAMIC false) (entries es) -> sent s s' [(d i, IPADDR_BROADCAST, DHCPS_CLIENT_PORT)] -> Q tt s') ->
  wp (handle_dhcp (Some (client_packet xid mac opts))) s Q.
Proof.
  intros Hroom Hpb Hbl H Hup Hid Ho Hz Hrel Hg Hp Hd HQ. destruct (i_up _ _ H Hup) as (Hr & Hl & _ & Hlive & _ & Hbc). destruct Hid as (Hx & Hm & Hxb & Hmb).
  destruct (client_sender xid mac opts Hx Hm ltac:(lia)) as (Es & Ea & Hdhcp). assert (Hgood := client_good (lease (st s)) xid mac opts ltac:(done) Ho Hz).
  assert (Hg' : granted_to (st s) (message (client_packet xid mac opts)) (entries es) = Granted w DHCPS_TYPE_DYNAMIC false) by (unfold granted_to; by rewrite Ea, Es).
  apply (wp_handle es); [apply H|done..|]. intros s' Hs'. rewrite bool_decide_true in Hs' by (split; [done|apply Hbl]).
  destruct Hs' as (r' & k & i & Er & Ha & Hsend). rewrite Hg' in *. unfold reaction in Er. rewrite Hg' in Er. cbn [addr_of] in Er, Hsend. rewrite Hp in Er. injection Er as <-.
  unfold table_after in Ha. rewrite Es in Ha. apply Z.eqb_neq in Hrel. rewrite Hrel in Ha. rewrite Hd in Hsend. destruct Hsend as [[Hs|Hs] Hne]; [by destruct (Hne Hpb)|].
  assert (Ha' := Ha). destruct Ha as [(es' & Hh & Ee) El Em Eq Est]. apply (HQ s' es' i); [|done|by rewrite El, serving_quiet|done|exists k; by rewrite Hs, Hbc].
  eapply (server_after s es); [done|by rewrite Ee|done| |by rewrite Hup]. rewrite Ee, <- Hg. apply enter_good; [done|done|apply H|done].
Qed.

(** C26: A new station gets the lowest free address: its DISCOVER is answered with an
    offer of it, its REQUEST of that address with an acknowledgement, both sent to
    all stations with the station's transaction number; and then the table has its
    lease, with the full time. *)
Theorem discover_request_ack xid xid' mac es s :
  roomy -> pbufs -> (forall h, block h sizeof_dhcps_msg ≠ None) -> server s es -> serving (log s) = true -> good_ids xid mac -> good_ids xid' mac ->
  (forall e, e ∈ entries es -> pool_mac e ≠ mac) -> (exists x, in_range (lease (st s)) x /\ forall e, e ∈ entries es -> pool_ip e ≠ x) ->
  exists w, lowest_free (lease (st s)) (entries es) w /\
    wp (handle_dhcp (Some (discover xid mac))) s (λ _ s1,
      (exists i, sent s s1 [(msg_bytes (reply (message (discover xid mac)) w (ack_options DHCPOFFER (st s) i)), IPADDR_BROADCAST, DHCPS_CLIENT_PORT)]) /\
      wp (handle_dhcp (Some (request xid' mac w))) s1 (λ _ s2,
        (exists i, sent s1 s2 [(msg_bytes (reply (message (request xid' mac w)) w (ack_options DHCPACK (st s1) i)), IPADDR_BROADCAST, DHCPS_CLIENT_PORT)]) /\
        exists es2, server s2 es2 /\ mk_pool w mac (dhcps_lease_time (st s)) DHCPS_TYPE_DYNAMIC DHCPS_STATE_ONLINE ∈ entries es2)).
Proof.
  intros Hroom Hpb Hbl H Hup Hid Hid' Hnew Hfree. destruct (i_up _ _ H Hup) as (Hr & Hl & _).
  pose proof (pick_lowest _ mac _ Hr Hl Hnew Hfree) as Hw. exists (pick mac (start_ip (lease (st s))) (entries es)). split; [done|].
  set (w := pick mac (start_ip (lease (st s))) (entries es)) in *. assert (Hwe : w <= end_ip (lease (st s))) by apply Hw.
  assert (Hg : grant (lease (st s)) mac None (entries es) = Granted w DHCPS_TYPE_DYNAMIC false).
  { unfold grant. fold w. ztrue (w <=? end_ip (lease (st s))). by rewrite orb_true_r. }
  eapply (wp_granted xid mac _ DHCPS_STATE_OFFER _ w es); [done..|bytes_tac|cbn; lia|done|exact Hg| |intros i; reflexivity|].
  { intros again. apply discover_parsed; apply Hid. }
  intros s1 es1 i H1 E1 Hup1 Et1 Hs1. split; [by exists i|]. unfold settings in E1. injection E1 as El Etm _ _ _ _ _.
  assert (Hin : mk_pool w mac (dhcps_lease_time (st s)) DHCPS_TYPE_DYNAMIC DHCPS_STATE_ONLINE ∈ entries es1) by (rewrite Et1; apply elem_place; by left).
  assert (Hg1 : grant (lease (st s1)) mac None (entries es1) = Granted w DHCPS_TYPE_DYNAMIC false).
  { unfold grant. rewrite El, Et1. cbn [enter]. unfold w at 1. rewrite (pick_again (lease (st s)) _ mac _ _ Hr Hl (i_time _ _ H) Hwe). fold w. ztrue (w <=? end_ip (lease (st s))). by rewrite orb_true_r. }
  eapply (wp_granted xid' mac _ DHCPS_STATE_ACK _ w es1); [done..| |cbn; lia|done|exact Hg1| |intros i'; reflexivity|].
  { rewrite !Forall_app. split; [bytes_tac|]. split; [apply le_bytes_bytes|bytes_tac]. }
  { intros again. apply request_parsed; apply Hid'. }
  intros s2 es2 i' H2 _ _ Et2 Hs2. split; [by exists i'|]. exists es2. split; [done|]. rewrite Et2, Etm. apply elem_place. by left.
Qed.
End Exchange.

(** ** Time *)

(** The table [n] minutes later, if nobody asks. *)
Definition age (n : Z) (l : table) : table :=
  (λ e, if bool_decide (pool_type e = DHCPS_TYPE_DYNAMIC) then e <| lease_timer := lease_timer e - n |> else e) <$>
  without (λ e, bool_decide (pool_type e = DHCPS_TYPE_DYNAMIC) && (lease_timer e <=? n)) l.

Lemma age_dynamic n a m t stt l : age n (mk_pool a m t DHCPS_TYPE_DYNAMIC stt :: l) =
  if t <=? n then age n l else mk_pool a m (t - n) DHCPS_TYPE_DYNAMIC stt :: age n l.
Proof. unfold age. rewrite without_cons. cbn [pool_type lease_timer]. rewrite bool_decide_true by done. cbn [andb]. by destruct (t <=? n). Qed.
Lemma age_static n a m t stt l : age n (mk_pool a m t DHCPS_TYPE_STATIC stt :: l) = mk_pool a m t DHCPS_TYPE_STATIC stt :: age n l.
Proof. done. Qed.
Lemma minute_dynamic a m t stt l : 0 < t < 4294967296 -> minute (mk_pool a m t DHCPS_TYPE_DYNAMIC stt :: l) =
  if t - 1 =? 0 then minute l else mk_pool a m (t - 1) DHCPS_TYPE_DYNAMIC stt :: minute l.
Proof.
  intros Ht. unfold minute. rewrite fmap_cons, without_cons. change (run_down (mk_pool a m t DHCPS_TYPE_DYNAMIC stt)) with (mk_pool a m (u32 (t - 1)) DHCPS_TYPE_DYNAMIC stt).
  by rewrite u32_small by lia.
Qed.
Lemma minute_static a m t stt l : 0 < t -> minute (mk_pool a m t DHCPS_TYPE_STATIC stt :: l) = mk_pool a m t DHCPS_TYPE_STATIC stt :: minute l.
Proof.
  intros Ht. unfold minute. rewrite fmap_cons, without_cons. change (run_down (mk_pool a m t DHCPS_TYPE_STATIC stt)) with (mk_pool a m t DHCPS_TYPE_STATIC stt).
  cbn [lease_timer]. by zfalse (t =? 0).
Qed.

Lemma age_minute rg n l : 0 <= n -> Forall (good_entry rg) l -> age n (minute l) = age (n + 1) l.
Proof.
  intros Hn. induction 1 as [|[a m t [] stt] l [_ He] _ IH]; [done| |]; cbn [lease_timer] in He.
  - rewrite minute_dynamic, age_dynamic by done. destruct (Z.eqb_spec (t - 1) 0).
    + by ztrue (t <=? n + 1).
    + rewrite age_dynamic, IH. destruct (Z.leb_spec t (n + 1)); [by ztrue (t - 1 <=? n)|]. zfalse (t - 1 <=? n). do 2 f_equal. lia.
  - rewrite minute_static, !age_static by lia. by rewrite IH.
Qed.
Lemma age_0 rg l : Forall (good_entry rg) l -> age 0 l = l.
Proof.
  induction 1 as [|[a m t [] stt] l [_ He] _ IH]; [done| |]; cbn [lease_timer] in He.
  - rewrite age_dynamic, IH. zfalse (t <=? 0). by rewrite Z.sub_0_r.
  - by rewrite age_static, IH.
Qed.

Section Time.
Context `{EV : Env} `{AL : Alloc} `{DA : DhcpsAlloc} `{SI : SoftapInfo}.
Implicit Types s : sys dhcps_vars.

(** C27: Leases run out.  With fewer than eight stations, a dynamic lease that is not
    renewed is gone after as many minutes as it had, and not before; a static one
    stays. *)
Theorem leases_run_out n es s : server s es -> serving (log s) = true -> (length es < 8)%nat ->
  wp (sfor (replicate n tt) (λ _, dhcps_coarse_tmr)) s (λ _ s', exists es', server s' es' /\ entries es' = age (Z.of_nat n) (entries es)).
Proof.
  revert es s. induction n as [|n IH]; intros es s H Hup Hlen; destruct (i_up _ _ H Hup) as (Hr & Hl & _); cbn [replicate sfor].
  - apply wp_ret. exists es. split; [done|]. symmetry. by apply (age_0 (lease (st s))), Hl.
  - apply wp_bind. apply (wp_minute es); [apply H|]. intros h N P es' H' Hm.
    assert (Hlm : (length (minute (entries es)) <= length es)%nat).
    { unfold minute. etrans; [apply sublist_length, without_sublist|]. unfold entries. by rewrite !length_fmap. }
    assert (Hz : 0 <= zlen (minute (entries es)) < 8) by (unfold zlen; lia). unfold after_minute, MAX_STATION_NUM in Hm. rewrite Z.mod_small in Hm by lia.
    rewrite (proj2 (Z.leb_gt _ _)) in Hm by lia.
    assert (H1 : server (put s h N P) es').
    { eapply (server_after s es _ es' []); [done|split; [by exists es'|cbn; by rewrite app_nil_r|done|constructor|done]|done| |by rewrite Hup]. rewrite Hm. by apply minute_good. }
    eapply wp_mono; [apply (IH es'); [exact H1|done|]|].
    + replace (length es') with (length (entries es')) by apply length_fmap. rewrite Hm. lia.
    + intros _ s2 (es2 & H2 & E2). exists es2. split; [done|]. rewrite E2, Hm. rewrite (age_minute (lease (st s))) by (lia || apply Hl). f_equal. lia.
Qed.
End Time.

(** ** Where it fails *)

Section Failures.
Context `{EV : Env} `{AL : Alloc} `{DA : DhcpsAlloc} `{SI : SoftapInfo}.
Implicit Types s : sys dhcps_vars.

(** A new station that asks for no address. *)
Lemma wp_update_new m es s (Q : Z -> sys dhcps_vars -> Prop) : holds_in s es [] -> roomy -> cell_find (has_mac m) es = None ->
  let a := pick m (start_ip (lease (st s))) (entries es) in a <= end_ip (lease (st s)) ->
  (forall h N P es', holds h N P es' [] -> entries es' = place (online (dhcps_lease_time (st s)) m a DHCPS_TYPE_DYNAMIC) (entries es) ->
     Q a (put (granted s m (Granted a DHCPS_TYPE_DYNAMIC false)) h N P)) ->
  wp (wifi_softap_dhcps_client_update (Some m) None) s Q.
Proof.
  intros H Hroom Hm a Ha HQ. unfold wifi_softap_dhcps_client_update. apply wp_bind, wp_var. rewrite bool_decide_false by done.
  apply wp_bind, wp_modify. pose (s1 := mk_sys (log s) (mem s) ((st s) <| renew := false |>)). fold s1. assert (H1 : holds_in s1 es []) by exact H.
  apply wp_bind, wp_var. apply wp_bind, wp_rounds. apply wp_bind. rewrite (h_head _ _ _ _ _ H1).
  eapply wp_loop_any; [exact (h_chain _ _ _ _ _ H1)|rewrite (holds_size _ _ _ H1); lia|]. intros r E1 E2 E3 _.
  cbn [f_flag f_start pip_node pmac_node] in E1, E2, E3. rewrite Hm in E3. cbn [or_else] in E3. rewrite (bool_decide_true (None = None)) by done. cbn [andb].
  change (lease (st s1)) with (lease (st s)) in E1. fold a in E1. rewrite E1, (proj2 (Z.ltb_ge _ _) Ha), andb_false_r. cbn [pmac_node set_field]. rewrite E3.
  eapply (wp_create m a); [exact H1|done|done|right; split; [done|split; [done|exact E1]]|]. rewrite (proj2 (Z.leb_le _ _) Ha).
  intros h N P es' H' E. by apply (HQ h N P es').
Qed.
Lemma unknown_entries m es : Forall (λ e, pool_mac e ≠ m) (entries es) -> cell_find (has_mac m) es = None.
Proof.
  intros Hn. apply find_none_mac. intros (e & E & Hi)%list_elem_of_fmap. rewrite list.Forall_forall in Hn. by apply (Hn e).
Qed.

(** C32: One station with a static address below the range is enough: the next two
    stations get the same address, the first of the range. *)
Theorem static_below_range_doubles a m m1 m2 s : roomy -> server s [] -> serving (log s) = true ->
  0 < a < start_ip (lease (st s)) -> m ≠ m1 -> m ≠ m2 -> m1 ≠ m2 ->
  wp (x <- wifi_softap_dhcps_client_update (Some m) (Some a) ;; x1 <- wifi_softap_dhcps_client_update (Some m1) None ;;
      x2 <- wifi_softap_dhcps_client_update (Some m2) None ;; sret [x; x1; x2]) s
    (λ r s', r = [a; start_ip (lease (st s)); start_ip (lease (st s))] /\
       exists es, holds_in s' es [] /\ (forall k, k = m1 \/ k = m2 -> exists e, e ∈ entries es /\ pool_mac e = k /\ pool_ip e = start_ip (lease (st s)) /\ pool_state e = DHCPS_STATE_ONLINE)).
Proof.
  intros Hroom H Hup Ha H01 H02 H12. destruct (i_up _ _ H Hup) as ((Hr1 & Hr2 & _) & _). set (b := start_ip (lease (st s))) in *.
  assert (Hb : b <= end_ip (lease (st s))) by lia. assert (Eask : ask_of (Some a) = Some a) by (unfold ask_of, IPADDR_ANY; by zfalse (a =? 0)).
  apply wp_bind. apply (wp_update []); [apply H|split; constructor|done|unfold IPADDR_BROADCAST; intros [= ->]; lia|by rewrite Eask|].
  rewrite Eask. unfold grant. cbn [entries fmap list_fmap List.find existsb orb]. rewrite (proj2 (Z.leb_le a _)) by lia. intros h N P es1 Hh E1. cbn in E1.
  assert (Hpick : forall k l, k ≠ m -> pick k b (mk_pool a m (dhcps_lease_time (st s)) DHCPS_TYPE_STATIC DHCPS_STATE_ONLINE :: l) = b).
  { intros k l Hk. cbn [pick]. unfold has_mac, has_ip. cbn. rewrite bool_decide_false by congruence. by zfalse (a =? b). }
  apply wp_bind. apply (wp_update_new m1 es1); [exact Hh|done|apply unknown_entries; rewrite E1; by constructor|rewrite E1; change (start_ip (lease _)) with b; rewrite Hpick by done; exact Hb|].
  rewrite E1. change (start_ip (lease _)) with b. rewrite Hpick by done. intros h2 N2 P2 es2 Hh2 E2.
  cbn [place online pool_ip] in E2. rewrite (proj2 (Z.ltb_ge b a)) in E2 by lia.
  apply wp_bind. apply (wp_update_new m2 es2); [exact Hh2|done|apply unknown_entries; rewrite E2; by repeat constructor|rewrite E2; change (start_ip (lease _)) with b; rewrite Hpick by done; exact Hb|].
  rewrite E2. change (start_ip (lease _)) with b. rewrite Hpick by done. intros h3 N3 P3 es3 Hh3 E3. apply wp_ret. split; [done|]. exists es3. split; [exact Hh3|].
  intros k [-> | ->]; rewrite E3; [exists (online (dhcps_lease_time (st s)) m1 b DHCPS_TYPE_DYNAMIC)|exists (online (dhcps_lease_time (st s)) m2 b DHCPS_TYPE_DYNAMIC)];
    (split; [apply elem_place|done]); [right; right; left|by left].
Qed.

(** A datagram of more than 548 bytes is written past the end of the message. *)
Theorem long_datagram_overflows p s : block (mem s) sizeof_dhcps_msg ≠ None -> 548 < zlen (datagram p) -> handle_dhcp (Some p) s = None.
Proof.
  intros Hb Hz. unfold handle_dhcp. erewrite run_bind by reflexivity. cbv beta. destruct (block (mem s) sizeof_dhcps_msg) as [x|]; [|done]. cbv zeta.
  assert (E : read_pbufs p s = None); [|unfold sbind at 1; by rewrite E].
  unfold datagram in Hz. rewrite zlen_app in Hz. unfold read_pbufs, sbind, slift. destruct (bsplice _ 0 (payload p)) as [b|] eqn:Eb; [|done]. cbn [mbind option_bind].
  apply bsplice_inv in Eb as (_ & Hp & Hlb & _). rewrite zlen_replicate in *. unfold sizeof_dhcps_msg in *.
  destruct (next_payload p) as [d|]; cbn [default id] in Hz; [|rewrite zlen_nil in Hz; lia].
  destruct (bsplice b (zlen (payload p)) d) eqn:Ed; [|done]. apply bsplice_inv in Ed as (_ & Hd & _). lia.
Qed.
End Failures.

(** ** The theorems at concrete inputs *)

Definition sample_env : Env := mk_env (λ _ _, 0) (λ l c,
  match c with udp_new => 1 | pbuf_alloc _ => 1 | wifi_softap_dhcps_status => b2z (serving l) | wifi_get_opmode => 2 | _ => 0 end).
Definition sample_alloc : Alloc.
Proof. refine (mk_alloc (λ h _, Some (fresh (dom h))) _). intros h n p [= <-]. apply not_elem_of_dom, is_fresh. Defined.
Definition sample_dalloc : DhcpsAlloc.
Proof.
  refine (mk_dalloc (λ P, Some (fresh (dom P))) (λ N, Some (fresh (dom N))) _ _); intros h p [= <-]; apply not_elem_of_dom, is_fresh.
Defined.
(** 192.168.4.1 *)
Definition sample_ip : Z := word4 192 168 4 1.
Definition sample_info : SoftapInfo := λ _, mk_info sample_ip (word4 255 255 255 0) sample_ip.
Definition sample_boot : sys dhcps_vars := mk_sys [] ∅ dhcps_initial.
(** The server just started, with the addresses 192.168.4.2 to 192.168.4.101. *)
Definition sample_up : sys dhcps_vars :=
  match @dhcps_start sample_env (Some (mk_info sample_ip (word4 255 255 255 0) sample_ip)) sample_boot with Some (_, s) => s | None => sample_boot end.
Definition sample_mac (k : Z) : list Z := [24; 254; 52; 1; 2; k].
Definition sample_xid : list Z := [1; 2; 3; 4].

Lemma sample_range : good_range (lease (st sample_up)).
Proof. repeat split; vm_compute; discriminate || reflexivity. Qed.
Lemma sample_server : server sample_up [].
Proof.
  split.
  - split; try (by vm_compute); repeat constructor.
  - split; vm_compute; reflexivity.
  - intros E. vm_compute in E. discriminate E.
  - intros E. vm_compute in E. discriminate E.
  - intros _. split; [exact sample_range|]. split; [split; [split|]; constructor|]. split; [|by vm_compute]. intros [_ [E _]]. vm_compute in E. by apply E.
Qed.
Lemma sample_roomy : @roomy sample_dalloc.
Proof. by split. Qed.
Lemma sample_pcbs : @pcbs sample_env.
Proof. intros l. vm_compute. discriminate. Qed.
Lemma sample_pbufs : @pbufs sample_env.
Proof. intros l. vm_compute. discriminate. Qed.
Lemma sample_status : @status_right sample_env.
Proof. intros l. cbn. by destruct (serving l). Qed.
Lemma sample_ids k : is_byte k -> good_ids sample_xid (sample_mac k).
Proof. intros Hk. split; [done|]. split; [done|]. split; bytes_tac. Qed.

(** The state after an event, where it is defined. *)
Definition sample_step (o : dhcps_op) (s : sys dhcps_vars) := @dhcps_step sample_env sample_alloc sample_dalloc sample_info o s.
Definition sample_next (o : dhcps_op) (s : sys dhcps_vars) : sys dhcps_vars := match sample_step o s with Some (_, s') => s' | None => s end.
Definition runs (o : dhcps_op) (s : sys dhcps_vars) : bool := serving (log s) && match sample_step o s with Some _ => true | None => false end.
Lemma sample_run o s : runs o s = true -> serving (log s) = true /\ sample_step o s = Some (tt, sample_next o s).
Proof. unfold runs, sample_next. intros [Hs Hr]%andb_true_iff. split; [done|]. by destruct (sample_step o s) as [[[] s']|]. Qed.
Definition sample_ask (k : Z) : dhcps_op := Packet (Some (discover sample_xid (sample_mac k))).
Definition sample_one : sys dhcps_vars := sample_next (sample_ask 3) sample_up.
Definition sample_two : sys dhcps_vars := sample_next (sample_ask 4) sample_one.

Lemma sample_asks k s : is_byte k -> runs (sample_ask k) s = true -> @reachable sample_env sample_alloc sample_dalloc sample_info s ->
  @reachable sample_env sample_alloc sample_dalloc sample_info (sample_next (sample_ask k) s).
Proof.
  intros Hk [Hs Hr]%sample_run H. eapply (by_event s (sample_ask k)); [exact H| |exact Hr]. split; [exact Hs|].
  apply client_good; [by apply sample_ids|bytes_tac|cbn; lia].
Qed.
Lemma sample_starts : sample_step (Start (Some (mk_info sample_ip (word4 255 255 255 0) sample_ip))) sample_boot = Some (tt, sample_up).
Proof. vm_compute. reflexivity. Qed.
Lemma sample_runs : runs (sample_ask 3) sample_up = true /\ runs (sample_ask 4) sample_one = true.
Proof. split; vm_compute; reflexivity. Qed.
Lemma sample_reachable : @reachable sample_env sample_alloc sample_dalloc sample_info sample_two.
Proof.
  destruct sample_runs as [R1 R2]. apply sample_asks; [unfold is_byte; lia|exact R2|]. apply sample_asks; [unfold is_byte; lia|exact R1|].
  eapply (by_event sample_boot); [constructor| |exact sample_starts]. split; [done|]. eexists. split; [done|]. vm_compute. by split.
Qed.

(** The two leases of [sample_two]. *)
Definition sample_cells : list cell :=
  [mk_cell 1 1 (mk_pool (word4 192 168 4 2) (sample_mac 3) 120 DHCPS_TYPE_DYNAMIC DHCPS_STATE_ONLINE);
   mk_cell 2 2 (mk_pool (word4 192 168 4 3) (sample_mac 4) 120 DHCPS_TYPE_DYNAMIC DHCPS_STATE_ONLINE)].
Lemma sample_two_range : lease (st sample_two) = lease (st sample_up).
Proof. vm_compute. reflexivity. Qed.
Lemma sample_table : good_table (lease (st sample_up)) (entries sample_cells).
Proof.
  split; [split|].
  - apply (bool_decide_unpack _). vm_compute. reflexivity.
  - repeat constructor; vm_compute; reflexivity.
  - repeat constructor; vm_compute; reflexivity || discriminate.
Qed.
Lemma sample_two_server : server sample_two sample_cells.
Proof.
  split.
  - split; [vm_compute; reflexivity| |constructor|apply (bool_decide_unpack _); vm_compute; reflexivity..|vm_compute; reflexivity|vm_compute; reflexivity].
    repeat split; vm_compute; reflexivity.
  - split; vm_compute; reflexivity.
  - intros E. vm_compute in E. discriminate E.
  - intros E. vm_compute in E. discriminate E.
  - intros _. rewrite sample_two_range. split; [exact sample_range|]. split; [exact sample_table|].
    split; [|repeat split; vm_compute; reflexivity]. intros [_ [E _]]. vm_compute in E. by apply E.
Qed.
Lemma sample_two_up : serving (log sample_two) = true.
Proof. vm_compute. reflexivity. Qed.


(** A third station reports an address of its own, then it has the last entry. *)
Lemma requests_refine_grant_witness : exists a s' es', @wifi_softap_dhcps_client_update sample_dalloc (Some (sample_mac 5)) (Some (word4 192 168 4 9)) sample_two = Some (a, s') /\
  a = word4 192 168 4 9 /\ server s' es' /\ entries es' = entries sample_cells ++ [mk_pool a (sample_mac 5) 120 DHCPS_TYPE_STATIC DHCPS_STATE_ONLINE].
Proof.
  destruct (@requests_refine_grant sample_dalloc sample_cells (sample_mac 5) (Some (word4 192 168 4 9)) sample_two) as (a & s' & E & Ha & _ & es' & H' & E').
  - exact sample_roomy.
  - exact sample_two_server.
  - exact sample_two_up.
  - intros b [= <-]. split; [|by vm_compute]. right. right. split; [by vm_compute|]. split; by vm_compute.
  - exists a, s', es'. split; [exact E|]. rewrite E', Ha. split; [by vm_compute|]. split; [done|]. by vm_compute.
Defined.

Lemma sample_free e : e ∈ entries sample_cells -> (pool_mac e ≠ sample_mac 5 /\ pool_ip e ≠ word4 192 168 4 4).
Proof. intros He. repeat (apply elem_of_cons in He as [->|He]; [split; vm_compute; discriminate|]). by apply elem_of_nil in He. Qed.

Lemma discover_request_ack_witness : exists w, lowest_free (lease (st sample_two)) (entries sample_cells) w /\
  exists s', sample_step (sample_ask 5) sample_two = Some (tt, s') /\ exists d, sent sample_two s' [(d, IPADDR_BROADCAST, DHCPS_CLIENT_PORT)].
Proof.
  destruct (@discover_request_ack sample_env sample_alloc sample_dalloc sample_info sample_xid sample_xid (sample_mac 5) sample_cells sample_two) as (w & Hw & [] & s' & E & (i & Hs) & _).
  - exact sample_roomy.
  - exact sample_pbufs.
  - intros h. discriminate.
  - exact sample_two_server.
  - exact sample_two_up.
  - apply sample_ids. unfold is_byte. lia.
  - apply sample_ids. unfold is_byte. lia.
  - intros e He. by apply sample_free.
  - exists (word4 192 168 4 4). split; [split; [by vm_compute|split; by vm_compute]|]. intros e He. by apply sample_free.
  - exists w. split; [exact Hw|]. exists s'. split; [exact E|]. by eexists.
Defined.

(** Two leases of 120 minutes: after 119 minutes one is left of each, after 120 none. *)
Lemma leases_run_out_witness : exists s1 s2 es1 es2,
  sfor (replicate 119 tt) (λ _, dhcps_coarse_tmr) sample_two = Some (tt, s1) /\ server s1 es1 /\ (lease_timer <$> entries es1) = [1; 1] /\
  sfor (replicate 120 tt) (λ _, dhcps_coarse_tmr) sample_two = Some (tt, s2) /\ server s2 es2 /\ entries es2 = [].
Proof.
  destruct (leases_run_out 119 sample_cells sample_two) as ([] & s1 & E1 & es1 & H1 & R1).
  { exact sample_two_server. } { exact sample_two_up. } { cbn. lia. }
  destruct (leases_run_out 120 sample_cells sample_two) as ([] & s2 & E2 & es2 & H2 & R2).
  { exact sample_two_server. } { exact sample_two_up. } { cbn. lia. }
  exists s1, s2, es1, es2. rewrite R1, R2. split; [exact E1|]. split; [exact H1|]. split; [by vm_compute|]. split; [exact E2|]. split; [exact H2|]. by vm_compute.
Defined.

Lemma start_ip_sample : start_ip (lease (st sample_up)) = word4 192 168 4 2.
Proof. vm_compute. reflexivity. Qed.

Lemma static_below_range_doubles_witness : exists s', (x <- @wifi_softap_dhcps_client_update sample_dalloc (Some (sample_mac 1)) (Some (word4 192 168 4 1)) ;;
    x1 <- @wifi_softap_dhcps_client_update sample_dalloc (Some (sample_mac 2)) None ;; x2 <- @wifi_softap_dhcps_client_update sample_dalloc (Some (sample_mac 3)) None ;; sret [x; x1; x2]) sample_up
  = Some ([word4 192 168 4 1; word4 192 168 4 2; word4 192 168 4 2], s').
Proof.
  destruct (@static_below_range_doubles sample_dalloc (word4 192 168 4 1) (sample_mac 1) (sample_mac 2) (sample_mac 3) sample_up) as (r & s' & E & Hr & _).
  - exact sample_roomy.
  - exact sample_server.
  - vm_compute. reflexivity.
  - split; vm_compute; reflexivity.
  - discriminate.
  - discriminate.
  - discriminate.
  - exists s'. rewrite Hr in E. rewrite start_ip_sample in E. exact E.
Defined.

Lemma long_datagram_overflows_witness : @handle_dhcp sample_env sample_alloc sample_dalloc sample_info (Some (mk_pbuf (replicate 500 0) 600 (Some (replicate 100 0)))) sample_up = None.
Proof. apply long_datagram_overflows; [discriminate|by vm_compute]. Defined.
